(* ===== verification/_CoqProject ===== *)
-Q . S2P
Prelude.v
OnesComp.v
Abi.v
Checksum.v
InCksum.v
Cstring.v
Utils.v
Addr.v
Ipx.v
JsonWriter.v
LlMap.v
RtNames.v
Ring.v
RingConc.v
State.v
Chardev.v
Xmit.v
Device.v
Netlink.v
Rtnl.v
IplinkPval.v
JsonPrint.v
LinkType.v
Netdissect.v
UtilPrint.v
AddrToStr.v
PrintAscii.v
IpProto.v
PrintIp.v
PrintIcmp.v
AddrToName.v
PrintArp.v
PrintDomain.v
Ip6Cksum.v
TcpSeq.v
PrintTcp.v
PrintUdp.v
PrintIp6.v
PrintEther.v
EndToEnd.v
Tools.v
Tap.v
TapTrial.v
TunTrial.v
