(* ===== verification/Prelude.v ===== *)
(** * Verification of pval

    pval is a Linux kernel module that stacks a virtual network device on a
    physical one, marks the IPv4 packets sent through it with an option that
    carries the CPU and a sequence number, and copies sent and received packets
    with their hardware time stamps to user space through one character device
    per direction and CPU. The repository holds the module ([src/kmod]), its
    interface ([src/include/pval.h]), the readers of the character devices
    ([src/tools]), user-space bridges used for comparison ([src/tap]), an
    iproute2 with a command for the device ([src/iproute2-4.18.0], own file
    [ip/iplink_pval.c]) and a tcpdump that shows the option ([src/tcpdump],
    changed file [print-ip.c]).

    ** How the parts interact

    A packet sent through the device passes [pval_xmit], which inserts the option
    and hands the packet to the lower device; a clone goes to the TX ring of the
    CPU, at once or by a work item that waits for the time stamp. A received packet
    passes [pdev_handle_frame], which copies it to the RX ring. A reader opens a
    node by name, polls it and fetches up to sixteen slots with one [readv]. The
    device is created, configured, reported and deleted through netlink attributes,
    which [ip link] builds from a command line and prints. The modified tcpdump
    shows the option of a captured packet.

    ** Files

    - [Prelude]: machine integers, byte order, memory as byte lists, tactics and
      the hint database [pval].
    - [OnesComp]: sums of 16-bit words up to the end-around carry, as an
      equivalence with [Proper] instances.
    - [Abi]: [include/pval.h], the option, the slot and the attribute numbers.
    - [Checksum]: [checksum] and [wrapsum] of the module.
    - [InCksum]: [tcpdump/in_cksum.c], with its alignment fix-up, unrolled loops and
      [int] accumulator.
    - [Cstring]: C strings, number formats, [strtol].
    - [Utils], [Addr], [Ipx]: the text utilities of iproute2's [lib/utils.c] (numbers,
      hexadecimal strings, interface names, batch lines), its addresses and prefixes
      (with [dnet_pton.c], [dnet_ntop.c], [mpls_pton.c], [mpls_ntop.c], [ll_addr.c]) and
      its IPX addresses.
    - [JsonWriter]: [lib/json_writer.c], and a parser of JSON as its reference;
      [JsonPrint]: [lib/json_print.c] and [lib/color.c] on it.
    - [LlMap]: [lib/ll_map.c], the cache of interfaces, as a store of shared entries in
      two hash tables.
    - [RtNames]: [lib/rt_names.c], the tables of names read from [/etc/iproute2].
    - [Ring]: the per-CPU ring, [write_to_ring] and [pval_file_read_iter]. The
      interface [SkbView] is what it reads of a socket buffer.
    - [RingConc]: a writer and a reader of the same ring, cut into the steps between
      which the other may run ([writer_step], [reader_step]), under any schedule.
    - [State]: the structures of the module.
    - [Chardev]: opening, closing and polling a node, and the names of nodes.
    - [Xmit]: [pval_xmit], [pdev_handle_frame] and the time stamp work items. The
      socket buffer and the kernel functions on it are the class [SkbOps] with the
      laws [SkbLaws]; [flat_skb] is an instance.
    - [Device]: network device, rtnetlink, name space and module operations, as
      traces of kernel calls in a small state and output monad.
    - [Netlink]: the attribute functions of [lib/libnetlink.c] on a buffer.
    - [Rtnl]: the socket functions of [lib/libnetlink.c]: opening, requests, dumps, answers,
      listening and replaying a file; what the kernel answers is a list.
    - [IplinkPval]: [pval_parse_opt] and [pval_print_opt].
    - [LinkType]: [print_linktype] of [ip/ipaddress.c] and [get_link_kind] of [ip/iplink.c],
      through which the Pval printer is reached.
    - [Netdissect]: the context of a tcpdump printer, the bounds tests and loads, the
      monad of printers and the program logic [safe].
    - [UtilPrint], [PrintAscii], [IpProto], [PrintIp], [PrintIcmp]: [util-print.c],
      [print-ascii.c], [ipproto.c], [print-ip.c] (with [print-ah.c], [print-ipcomp.c])
      and [print-icmp.c]. Printers of other protocols are the class [Printers]
      with the rule they follow, [PrinterLaws].
    - [AddrToStr], [AddrToName]: [addrtostr.c] and [addrtoname.c] with [oui.c], the tables of
      names; the resolver is the class [Resolver].
    - [PrintArp]: [print-arp.c]; [PrintDomain]: [print-domain.c]; [PrintUdp]: [print-udp.c]
      with vat, RTP and RTCP, the protocols above UDP being the class [UdpPrinters].
    - [TcpSeq], [PrintTcp]: [print-tcp.c], first its tables of conversations, then the
      printer; the protocols above TCP are the class [TcpPrinters].
    - [Ip6Cksum], [PrintIp6]: [print-ip6.c] with [print-ip6opts.c], [print-frag6.c] and
      [print-rt6.c]. [PrintIp6] closes the recursion between the IPv4, IPv6 and ICMP
      printers, [ip_printers], and gives the closed stack of printers, [stack].
    - [PrintEther]: [print-ether.c], [print-llc.c] and [pretty_print_packet] of [print.c];
      the other printers an Ethernet type names are the class [EtherPrinters].
    - [EndToEnd]: from [pval_xmit] to the text tcpdump prints.
    - [Tools]: [dump-one.c], [dump-multi.c] and [look-tcp.c] as clients of the ring.
    - [Tap], [TapTrial], [TunTrial]: [tap1.c], the bridge, and the programs
      [tap_trial.c] and [tun_trial.c] it grew out of.

    ** Conventions

    An unsigned integer is a [Z] with its truncation written out ([u8] to [u64]);
    signed arithmetic that could overflow returns [None]. Memory is a list of bytes
    and an access outside it is [None] (or [Fault]), so that a theorem that gives a
    value also shows that no access is out of bounds. The host is little-endian.
    The answers of the kernel, the clock, allocators and system calls are arguments.

    ** What the theorems show

    - The ring implements a bounded first-in first-out queue under any interleaving
      of writes, vectored reads and flushes ([ring_refines_queue]), stays well formed
      and inside its memory ([ring_reachable_safe]); received frames are recorded in it
      ([handle_frame_records]), and the readers print every
      accepted packet once and in order ([readers_print_all]). The same holds when the
      writer and the reader are interleaved at every access, without a lock
      ([ring_concurrent_fifo]; [conc_steps_agree] ties the steps to the two functions),
      if the write point is loaded once in the first branch of [ring_read_avail]; loading
      it twice, and flushing during a write, break it ([ring_races]).
    - [pval_xmit] inserts the option and changes nothing else ([xmit_inserts_option]);
      the header checksum it computes is accepted by tcpdump's routine
      ([xmit_header_checksum]), which is shown equal to the one's complement sum for any
      split and alignment ([in_cksum_equiv]); other frames pass unchanged; the exact
      conditions under which a clone is released, a retry inserts the option twice and
      IP options break the checksum are theorems too.
    - Creating, using and deleting a device releases all it acquired, the receive handler
      and the promiscuity of the lower device included, for the calls the core can make
      ([lifecycle_balanced]); what success and each failure of [pval_newlink] leave
      behind; the lower link gets its time stamp configuration back.
    - A command line configures exactly what it says ([command_line_configures]), what
      is printed parses back ([print_parse_roundtrip]), attributes built are found
      again ([addattr_parse_roundtrip], [nest_roundtrip]), and from the attributes the driver
      reports [ip link] shows each switch as it is, as text and as JSON ([pval_link_shown]).
    - A dump hands every message meant for it to the callback, once and in order
      ([rtnl_dump_visits]), and can be replayed from a file ([saved_dump_replayed]); a request
      goes out with its own length and number and ends with the first answer to it
      ([rtnl_talk_exact]); which wrong answers are accepted and when the loop reads behind the
      buffer is [rtnl_talk_faults].
    - The printers end on any captured bytes, stay inside the buffer of the packet and print
      only harmless characters, each for itself when the printers it calls follow their rule
      and accept the packet, and the IPv4, IPv6 and ICMP printers closed over each other
      ([ip6_print_safe]), up to a whole captured packet through [pretty_print_packet]
      ([packet_print_safe]). Both need two readable bytes behind the captured data, and show
      that without them a verbose short ICMP message is read past its end. The DNS printer has
      its safety without conditions ([domain_print_safe]).
    - What is printed: a frame the module sent is shown with its CPU and sequence number
      ([pval_frame_printed]), and [readme_output] computes the line the README documents;
      tagged frames, ARP requests, DNS names and DNS datagrams ([tagged_frame_printed],
      [arp_printed], [dns_name_printed], [udp_dns_printed]); the hex dumps equal a reference
      ([hex_dumps_lines]). The checksum behind a routing header is [routed_cksum].
    - The tables of names answer as a map from addresses to names ([names_cached]).
    - The TCP printer has the same safety, whatever lengths header and options announce
      ([tcp_print_safe]); a segment without options is shown exactly as
      [tcp_segment_printed] says, with numbers relative to the first segment of its
      conversation in both directions ([tcp_relative_numbers]).
    - The number parsers of iproute2 read a decimal number of any length exactly, and refuse it
      exactly when it is out of range or followed by text ([number_parsers_exact]); a written prefix is parsed back
      ([get_prefix_text]) and two addresses match exactly if their first bits do
      ([inet_addr_match_prefix]).
    - What the JSON writer puts out for a tree is parsed as that tree, in both styles
      ([json_written_parses]), except for the escapes [json_escape_faults] lists.
    - The cache of interfaces implements a map from indices under any messages
      ([links_cached]), but loses a renamed one ([link_rename_lost]). The tables of names
      hold the last line of each number, and exactly a line with the number 256 stores behind
      them ([tab_initialize_exact]); a name is read as a number parsed after it
      ([rt_names_stale_cache]).
    - The bridge forwards every frame ([bridge_forwards]) and loses time stamps after a
      frame without one ([bridge_loses_stamps]). [tap_trial.c] moves the same frames
      ([tap_trial_like_tap1]); [tun_trial.c] sends exactly the IPv4 packets
      ([tun_forwards]), without time stamps of sent packets ([trial_setups]).

    ** Bounds and fuel

    Loops over a length recurse on it. Where the step is read from the packet the fuel
    is the length of the area plus one, since every round consumes a byte; the IPv4
    printer has a unit of fuel for each byte before the end of the data and two more,
    the nesting of IPv4, IPv6 and ICMP printers one for each byte of the packet, since a
    returned or inner datagram starts at least eight bytes on. IPv6 headers and options, RTCP
    packets, VLAN tags and frames in frames have the captured bytes, RTP options the words left,
    a DNS name the captured bytes for each of the 0x4000 offsets a pointer can have. The netlink
    loops have the length of the buffer, and the rounds of a dump or request the number of
    answers. The loop over TCP options has the bytes of the header, the splitting of a
    batch line the length of the line, the readers of name files the number of lines, the
    JSON parser the length of the text. Every safety theorem includes that the fuel suffices. [in_cksum]
    is covered up to 64511 bytes in any number of blocks and 65535 bytes in one: beyond
    that its [int] could overflow.

    ** Not modelled

    The kernel, libc and libpcap (arguments with stated laws, among them [inet_pton] for IPv6,
    [malloc], [if_indextoname] and the contents of files); the order in which another
    CPU sees stores (program order is assumed, although the code has no barrier) and two
    writers in one ring; the extended acknowledgements of [lib/libnetlink.c] (libmnl) and
    the other commands of iproute2 with the libraries only they use ([bpf.c], [names.c]),
    which the repository does not change; of [lib/utils.c] the functions on [double]
    ([get_time_rtt], [parse_percent]), the resolver and the reading of kernel settings; the
    other printers of tcpdump, the check of TCP signatures with libcrypto, its resolver and its
    capture loop; help texts and log messages. *)
From stdpp Require Import base list numbers strings.
From Stdlib Require Import ZArith Lia.

Open Scope Z_scope.

(** ** Machine integers

    A C integer of width [w] is a [Z]; the truncation of every unsigned
    operation that can leave the range is written out with these functions. *)

Definition u8 (z : Z) : Z := z mod 2 ^ 8.
Definition u16 (z : Z) : Z := z mod 2 ^ 16.
Definition u32 (z : Z) : Z := z mod 2 ^ 32.
Definition u64 (z : Z) : Z := z mod 2 ^ 64.

(** Two's complement reading of the low 32 bits: the value of an [int]. *)
Definition s32 (z : Z) : Z := (z + 2 ^ 31) mod 2 ^ 32 - 2 ^ 31.

(** Ranges, as booleans so that witnesses evaluate them. *)
Definition is_u (w z : Z) : bool := (0 <=? z) && (z <? 2 ^ w).
Abbreviation is_u8 := (is_u 8).
Abbreviation is_u16 := (is_u 16).
Abbreviation is_u32 := (is_u 32).
Abbreviation is_u64 := (is_u 64).

(** A byte string: a list of integers in [0, 256). *)
Definition bytes_ok (l : list Z) : bool := forallb is_u8 l.

(** ** Byte order *)

(** [le_bytes n z] is the little-endian image of [z] on [n] bytes. *)
Fixpoint le_bytes (n : nat) (z : Z) : list Z :=
  match n with
  | O => []
  | S n' => z mod 256 :: le_bytes n' (z / 256)
  end.

Fixpoint le_val (l : list Z) : Z :=
  match l with
  | [] => 0
  | b :: l' => b + 256 * le_val l'
  end.

Definition be_bytes (n : nat) (z : Z) : list Z := reverse (le_bytes n z).
Definition be_val (l : list Z) : Z := le_val (reverse l).

(** Byte swap of a 16-bit value: [htons] and [ntohs] of a little-endian host. *)
Definition bswap16 (z : Z) : Z := (z mod 256) * 256 + (z / 256) mod 256.



(** ** Automation *)

(** Boolean comparisons of hypotheses and goals as propositions over [Z]. *)
Ltac bool_to_prop :=
  repeat match goal with
  | H : _ && _ = true |- _ => apply andb_prop in H; destruct H
  | H : _ && _ = false |- _ => apply andb_false_iff in H
  | H : _ || _ = false |- _ => apply orb_false_elim in H; destruct H
  | H : _ || _ = true |- _ => apply orb_prop in H
  | H : negb _ = true |- _ => apply negb_true_iff in H
  | H : negb _ = false |- _ => apply negb_false_iff in H
  | H : (_ =? _)%Z = true |- _ => apply Z.eqb_eq in H
  | H : (_ =? _)%Z = false |- _ => apply Z.eqb_neq in H
  | H : (_ <? _)%Z = true |- _ => apply Z.ltb_lt in H
  | H : (_ <? _)%Z = false |- _ => apply Z.ltb_ge in H
  | H : (_ <=? _)%Z = true |- _ => apply Z.leb_le in H
  | H : (_ <=? _)%Z = false |- _ => apply Z.leb_gt in H
  | H : (_ >? _)%Z = true |- _ => rewrite Z.gtb_ltb in H; apply Z.ltb_lt in H
  | H : (_ >? _)%Z = false |- _ => rewrite Z.gtb_ltb in H; apply Z.ltb_ge in H
  | H : (_ >=? _)%Z = true |- _ => rewrite Z.geb_leb in H; apply Z.leb_le in H
  | H : (_ >=? _)%Z = false |- _ => rewrite Z.geb_leb in H; apply Z.leb_gt in H
  end.

(** Case analysis on the first boolean test of the goal. *)
Ltac case_test :=
  match goal with
  | |- context [if ?b then _ else _] =>
      lazymatch type of b with
      | bool => let E := fresh "E" in destruct b eqn:E; bool_to_prop
      end
  end.

Create HintDb pval.
Create Rewrite HintDb pval_len.

(** ** Lemmas on machine integers *)

Lemma u_range w z : 0 <= w -> 0 <= z mod 2 ^ w < 2 ^ w.
Proof. intros. apply Z.mod_pos_bound. lia. Qed.

Lemma u8_range z : 0 <= u8 z < 256.
Proof. apply (u_range 8). lia. Qed.
Lemma u16_range z : 0 <= u16 z < 65536.
Proof. apply (u_range 16). lia. Qed.
Lemma u32_range z : 0 <= u32 z < 4294967296.
Proof. apply (u_range 32). lia. Qed.
Lemma u64_range z : 0 <= u64 z < 18446744073709551616.
Proof. apply (u_range 64). lia. Qed.

Lemma u8_small z : 0 <= z < 256 -> u8 z = z.
Proof. apply Z.mod_small. Qed.
Lemma u16_small z : 0 <= z < 65536 -> u16 z = z.
Proof. apply Z.mod_small. Qed.
Lemma u32_small z : 0 <= z < 4294967296 -> u32 z = z.
Proof. apply Z.mod_small. Qed.
Lemma u64_small z : 0 <= z < 18446744073709551616 -> u64 z = z.
Proof. apply Z.mod_small. Qed.
Lemma s32_small z : -2147483648 <= z < 2147483648 -> s32 z = z.
Proof.
  intros. unfold s32. change (2 ^ 31) with 2147483648.
  change (2 ^ 32) with 4294967296. rewrite Z.mod_small; lia.
Qed.

Lemma is_u_spec w z : is_u w z = true <-> 0 <= z < 2 ^ w.
Proof. unfold is_u. rewrite andb_true_iff, Z.leb_le, Z.ltb_lt. reflexivity. Qed.

Lemma is_u8_spec z : is_u8 z = true <-> 0 <= z < 256.
Proof. apply (is_u_spec 8). Qed.

Lemma land_mask z k : 0 <= k -> Z.land z (2 ^ k - 1) = z mod 2 ^ k.
Proof. intros. rewrite <- Z.land_ones by done. f_equal. rewrite Z.ones_equiv. lia. Qed.

(** A shifted number has no bits below the shift; bits put there are added to it. *)
Lemma land_high a k b : 0 <= k -> 0 <= b < 2 ^ k -> Z.land (a * 2 ^ k) b = 0.
Proof.
  intros Hk Hb. apply Z.bits_inj'. intros n Hn. rewrite Z.land_spec, Z.bits_0, <- Z.shiftl_mul_pow2, Z.shiftl_spec by lia.
  destruct (Z.lt_ge_cases n k); [by rewrite Z.testbit_neg_r by lia|].
  rewrite <- (Z.mod_small b (2 ^ k)) by lia. rewrite Z.mod_pow2_bits_high by lia. apply andb_false_r.
Qed.

Lemma lor_high a k b : 0 <= k -> 0 <= b < 2 ^ k -> Z.lor (a * 2 ^ k) b = a * 2 ^ k + b.
Proof. intros Hk Hb. rewrite <- Z.add_lor_land, land_high by done. lia. Qed.

(** The 32-bit mask with [n] leading one bits. *)
Definition prefix_mask (n : Z) : Z := 2 ^ 32 - 2 ^ (32 - n).

(** ** Lemmas on byte strings *)

Lemma bytes_ok_Forall l : bytes_ok l = true <-> Forall (fun b => 0 <= b < 256) l.
Proof.
  unfold bytes_ok. rewrite forallb_forall, List.Forall_forall.
  split; intros H b Hb; specialize (H b Hb); by apply is_u8_spec.
Qed.

(** A fact about bytes that evaluation settles. *)
Lemma byte_cases (f : Z -> bool) :
  forallb f (seqZ 0 256) = true -> forall b, 0 <= b < 256 -> f b = true.
Proof. rewrite forallb_forall. intros Hf b Hb. apply Hf, list_elem_of_In, elem_of_seqZ. lia. Qed.

Lemma bytes_ok_nil : bytes_ok [] = true.
Proof. reflexivity. Qed.

Lemma bytes_ok_cons b l : bytes_ok (b :: l) = true <-> 0 <= b < 256 /\ bytes_ok l = true.
Proof. cbn. rewrite andb_true_iff, is_u8_spec. reflexivity. Qed.

Lemma bytes_ok_app l1 l2 :
  bytes_ok (l1 ++ l2) = true <-> bytes_ok l1 = true /\ bytes_ok l2 = true.
Proof. unfold bytes_ok. by rewrite forallb_app, andb_true_iff. Qed.

Lemma bytes_ok_app_true l1 l2 : bytes_ok l1 = true -> bytes_ok l2 = true -> bytes_ok (l1 ++ l2) = true.
Proof. intros. by apply bytes_ok_app. Qed.
Lemma bytes_ok_take n l : bytes_ok l = true -> bytes_ok (take n l) = true.
Proof. rewrite !bytes_ok_Forall. apply Forall_take. Qed.
Lemma bytes_ok_drop n l : bytes_ok l = true -> bytes_ok (drop n l) = true.
Proof. rewrite !bytes_ok_Forall. apply Forall_drop. Qed.
Lemma bytes_ok_reverse l : bytes_ok l = true -> bytes_ok (reverse l) = true.
Proof. rewrite !bytes_ok_Forall. by rewrite Forall_reverse. Qed.

Lemma bytes_ok_lookup (l : list Z) i b :
  bytes_ok l = true -> l !! i = Some b -> 0 <= b < 256.
Proof. rewrite bytes_ok_Forall. intros H ?. by eapply Forall_lookup_1 in H. Qed.

Lemma length_le_bytes n z : length (le_bytes n z) = n.
Proof. revert z. induction n; intros; cbn; [done|]. by rewrite IHn. Qed.

Lemma bytes_ok_le_bytes n z : bytes_ok (le_bytes n z) = true.
Proof.
  revert z. induction n; intros; [done|]. cbn [le_bytes].
  apply bytes_ok_cons. split; [apply Z.mod_pos_bound; lia|apply IHn].
Qed.

Lemma le_val_bytes n z : le_val (le_bytes n z) = z mod 256 ^ Z.of_nat n.
Proof.
  revert z. induction n as [|n IH]; intros z.
  - cbn. by rewrite Z.mod_1_r.
  - cbn [le_bytes le_val]. rewrite IH, Nat2Z.inj_succ, Z.pow_succ_r by lia.
    rewrite Z.rem_mul_r by lia. lia.
Qed.

Lemma le_val_bound l :
  bytes_ok l = true -> 0 <= le_val l < 256 ^ Z.of_nat (length l).
Proof.
  induction l as [|b l IH]; intros H; [cbn; lia|].
  apply bytes_ok_cons in H as [Hb Hl]. specialize (IH Hl).
  cbn [le_val length]. rewrite Nat2Z.inj_succ, Z.pow_succ_r by lia. lia.
Qed.

Lemma le_bytes_val l : bytes_ok l = true -> le_bytes (length l) (le_val l) = l.
Proof.
  induction l as [|b l IH]; intros H; [done|].
  apply bytes_ok_cons in H as [Hb Hl]. cbn [length le_bytes le_val]. f_equal.
  - rewrite (Z.mul_comm 256), Z_mod_plus_full. by apply Z.mod_small.
  - rewrite (Z.mul_comm 256), Z_div_plus_full by lia.
    rewrite Z.div_small by done. by apply IH.
Qed.

Lemma le_val_app l1 l2 :
  le_val (l1 ++ l2) = le_val l1 + 256 ^ Z.of_nat (length l1) * le_val l2.
Proof.
  induction l1 as [|b l1 IH]; [cbn [app le_val length]; lia|].
  cbn [app le_val length]. rewrite IH, Nat2Z.inj_succ, Z.pow_succ_r by lia. lia.
Qed.

Lemma length_be_bytes n z : length (be_bytes n z) = n.
Proof. unfold be_bytes. by rewrite length_reverse, length_le_bytes. Qed.

Lemma bytes_ok_be_bytes n z : bytes_ok (be_bytes n z) = true.
Proof. apply bytes_ok_reverse, bytes_ok_le_bytes. Qed.

Lemma be_val_bytes n z : be_val (be_bytes n z) = z mod 256 ^ Z.of_nat n.
Proof. unfold be_val, be_bytes. rewrite reverse_involutive. apply le_val_bytes. Qed.

Lemma be_bytes_val l : bytes_ok l = true -> be_bytes (length l) (be_val l) = l.
Proof.
  intros H. unfold be_bytes, be_val. rewrite <- (length_reverse l).
  rewrite le_bytes_val by by apply bytes_ok_reverse. apply reverse_involutive.
Qed.

Lemma be_val_bound l :
  bytes_ok l = true -> 0 <= be_val l < 256 ^ Z.of_nat (length l).
Proof.
  intros H. unfold be_val. rewrite <- (length_reverse l).
  by apply le_val_bound, bytes_ok_reverse.
Qed.

#[export] Hint Resolve bytes_ok_nil bytes_ok_take bytes_ok_drop bytes_ok_le_bytes
  bytes_ok_be_bytes u8_range u16_range u32_range u64_range : pval.
#[export] Hint Rewrite length_le_bytes length_be_bytes : pval_len.

(** ** Sub-strings of a buffer *)

(** [slice l i n] is the [n] bytes of [l] from offset [i], [None] when the
    buffer does not hold them: the load of a C object of [n] bytes. *)
Definition slice (l : list Z) (i n : nat) : option (list Z) :=
  if (i + n <=? length l)%nat then Some (take n (drop i l)) else None.

(** [patch l i s] overwrites the bytes of [l] from offset [i] with [s], [None]
    when they do not fit: [memcpy] into a buffer. *)
Definition patch (l : list Z) (i : nat) (s : list Z) : option (list Z) :=
  if (i + length s <=? length l)%nat
  then Some (take i l ++ s ++ drop (i + length s) l) else None.

Lemma slice_Some l i n s :
  slice l i n = Some s <-> (i + n <= length l)%nat /\ s = take n (drop i l).
Proof. unfold slice. destruct (Nat.leb_spec (i + n) (length l)); naive_solver lia. Qed.

Lemma length_slice l i n s : slice l i n = Some s -> length s = n.
Proof. intros [? ->]%slice_Some. rewrite length_take, length_drop. lia. Qed.

Lemma patch_Some l i s l' :
  patch l i s = Some l' <->
  (i + length s <= length l)%nat /\ l' = take i l ++ s ++ drop (i + length s) l.
Proof. unfold patch. destruct (Nat.leb_spec (i + length s) (length l)); naive_solver lia. Qed.

(** Reading a field of a concatenation. *)
Lemma slice_app_l (a b : list Z) n : length a = n -> slice (a ++ b) 0 n = Some a.
Proof.
  intros <-. apply slice_Some. rewrite drop_0, length_app, take_app_length. auto with lia.
Qed.

Lemma slice_app_r (a b : list Z) i n k :
  i = (length a + k)%nat -> slice (a ++ b) i n = slice b k n.
Proof.
  intros ->. unfold slice. rewrite length_app.
  destruct (Nat.leb_spec (length a + k + n) (length a + length b)), (Nat.leb_spec (k + n) (length b));
    try lia; [|done].
  do 2 f_equal. rewrite drop_app_ge by lia. f_equal. lia.
Qed.

Lemma slice_all (a : list Z) n : length a = n -> slice a 0 n = Some a.
Proof. intros. rewrite <- (app_nil_r a) at 1. by apply slice_app_l. Qed.

Lemma bytes_ok_slice l i n s :
  bytes_ok l = true -> slice l i n = Some s -> bytes_ok s = true.
Proof. intros H [? ->]%slice_Some. auto with pval. Qed.

(** ** Byte swaps *)

Lemma bswap16_parts a b :
  0 <= a < 256 -> 0 <= b < 256 -> bswap16 (a + b * 256) = a * 256 + b.
Proof.
  intros. unfold bswap16. rewrite Z_mod_plus_full, Z_div_plus_full by lia.
  rewrite (Z.div_small a), (Z.mod_small a), Z.mod_small by lia. done.
Qed.

(** The two bytes of a 16-bit value. *)
Lemma u16_parts z :
  0 <= z < 65536 ->
  exists a b, 0 <= a < 256 /\ 0 <= b < 256 /\ z = a + b * 256 /\ z mod 256 = a /\ z / 256 = b.
Proof.
  intros Hz. exists (z mod 256), (z / 256).
  pose proof (Z.mod_pos_bound z 256 ltac:(lia)). pose proof (Z.div_mod z 256 ltac:(lia)).
  split_and!; try done; try lia.
Qed.

Lemma bswap16_range z : 0 <= bswap16 z < 65536.
Proof.
  unfold bswap16. pose proof (Z.mod_pos_bound z 256). pose proof (Z.mod_pos_bound (z / 256) 256). lia.
Qed.

Lemma bswap16_invol z : 0 <= z < 65536 -> bswap16 (bswap16 z) = z.
Proof.
  intros (a & b & Ha & Hb & -> & _)%u16_parts. rewrite bswap16_parts by done.
  rewrite Z.add_comm, bswap16_parts by done. lia.
Qed.

Lemma bswap16_complement z : 0 <= z < 65536 -> bswap16 (65535 - z) = 65535 - bswap16 z.
Proof.
  intros (a & b & Ha & Hb & -> & _)%u16_parts.
  replace (65535 - (a + b * 256)) with ((255 - a) + (255 - b) * 256) by lia.
  rewrite !bswap16_parts by lia. lia.
Qed.

(** Storing a swapped value little-endian leaves it big-endian in memory. *)
Lemma le_bytes_bswap16 z : 0 <= z < 65536 -> le_bytes 2 (bswap16 z) = [z / 256; z mod 256].
Proof.
  intros (a & b & Ha & Hb & -> & -> & ->)%u16_parts. rewrite bswap16_parts by done. cbn [le_bytes].
  rewrite Z.add_comm, Z_mod_plus_full, Z_div_plus_full, (Z.div_small b), Z.add_0_l by lia.
  by rewrite !Z.mod_small by lia.
Qed.

Lemma be_bytes_2 z : 0 <= z < 65536 -> be_bytes 2 z = [z / 256; z mod 256].
Proof.
  intros Hz. unfold be_bytes. cbn [le_bytes]. cbn [reverse rev_append].
  rewrite (Z.mod_small (z / 256)); [done|].
  split; [apply Z.div_pos|apply Z.div_lt_upper_bound]; lia.
Qed.

(** ** Memory accesses at a signed offset *)

(** [None] is an access outside the buffer. *)

Definition mem_read (l : list Z) (off : Z) (n : Z) : option (list Z) :=
  if 0 <=? off then slice l (Z.to_nat off) (Z.to_nat n) else None.

Definition mem_write (l : list Z) (off : Z) (s : list Z) : option (list Z) :=
  if 0 <=? off then patch l (Z.to_nat off) s else None.

(** An access past a prefix is an access to what follows it. *)
Lemma mem_read_app p l i n :
  0 <= i -> mem_read (p ++ l) (Z.of_nat (length p) + i) n = slice l (Z.to_nat i) (Z.to_nat n).
Proof.
  intros. unfold mem_read. rewrite (proj2 (Z.leb_le 0 _)) by lia.
  apply slice_app_r. lia.
Qed.

Lemma mem_write_app p l i s :
  0 <= i -> mem_write (p ++ l) (Z.of_nat (length p) + i) s = (app p) <$> patch l (Z.to_nat i) s.
Proof.
  intros. unfold mem_write, patch. rewrite (proj2 (Z.leb_le 0 _)) by lia. rewrite length_app.
  rewrite Z2Nat.inj_add, Nat2Z.id by lia.
  destruct (Nat.leb_spec (length p + Z.to_nat i + length s) (length p + length l)),
    (Nat.leb_spec (Z.to_nat i + length s) (length l)); try lia; [|done].
  cbn [fmap option_fmap option_map]. rewrite take_app_add.
  rewrite <- Nat.add_assoc, drop_app_add, <- app_assoc. done.
Qed.

Lemma mem_read_at p l i n x :
  0 <= i -> slice l (Z.to_nat i) (Z.to_nat n) = Some x ->
  mem_read (p ++ l) (Z.of_nat (length p) + i) n = Some x.
Proof. intros. by rewrite mem_read_app. Qed.

Lemma mem_write_at p l i s x :
  0 <= i -> patch l (Z.to_nat i) s = Some x ->
  mem_write (p ++ l) (Z.of_nat (length p) + i) s = Some (p ++ x).
Proof. intros ? Hx. by rewrite mem_write_app, Hx. Qed.


(** Accesses to the middle of a buffer written as a concatenation. *)
Lemma mem_read_mid p m q off n :
  off = Z.of_nat (length p) -> n = Z.of_nat (length m) -> mem_read (p ++ m ++ q) off n = Some m.
Proof.
  intros -> ->. rewrite <- (Z.add_0_r (Z.of_nat (length p))). apply mem_read_at; [lia|].
  apply slice_app_l. lia.
Qed.

Lemma mem_write_mid p m q s off :
  off = Z.of_nat (length p) -> length s = length m -> mem_write (p ++ m ++ q) off s = Some (p ++ s ++ q).
Proof.
  intros -> Hs. rewrite <- (Z.add_0_r (Z.of_nat (length p))). apply mem_write_at; [lia|].
  apply patch_Some. rewrite length_app, Hs. split; [cbn; lia|]. cbn [Z.to_nat take app].
  by rewrite Nat.add_0_l, drop_app_length.
Qed.

Lemma split_at (l : list Z) n : (n <= length l)%nat -> exists p q, l = p ++ q /\ length p = n.
Proof.
  intros Hn. exists (take n l), (drop n l). by rewrite take_drop, length_take, Nat.min_l.
Qed.

