(* ===== verification/OnesComp.v ===== *)
(** * One's complement sums

    The arithmetic behind the Internet checksum: sums of 16-bit words up to the
    end-around carry. Two non-negative sums are identified when they agree
    modulo 65535 and are zero together; this equivalence is preserved by
    addition and by the byte swap, which is multiplication by 256. *)
From stdpp Require Import base list numbers.
From Stdlib Require Import ZArith Lia Setoid Morphisms.
From S2P Require Import Prelude.

Open Scope Z_scope.

(** ** The equivalence *)

Record oceq (a b : Z) : Prop := mk_oceq {
  oceq_l : 0 <= a; oceq_r : 0 <= b;
  oceq_mod : a mod 65535 = b mod 65535;
  oceq_zero : a = 0 <-> b = 0
}.

Declare Scope oc_scope.
Infix "≈1" := oceq (at level 70) : oc_scope.
Open Scope oc_scope.

#[export] Instance oceq_sym : Symmetric oceq.
Proof. intros a b []. split; done. Qed.
#[export] Instance oceq_trans : Transitive oceq.
Proof. intros a b c [] []. split; [done..|congruence|tauto]. Qed.

Lemma oceq_refl a : 0 <= a -> a ≈1 a.
Proof. done. Qed.

Lemma oceq_eq a b : 0 <= a -> a = b -> a ≈1 b.
Proof. intros ? <-. done. Qed.

(** The equivalence is reflexive on non-negative sums only; rewriting finds the
    side conditions by linear arithmetic. *)
#[export] Hint Extern 0 (ProperProxy oceq _) => (apply oceq_refl; lia) : typeclass_instances.

#[export] Instance oceq_add : Proper (oceq ==> oceq ==> oceq) Z.add.
Proof.
  intros a a' [Ha Ha' Hm Hz] b b' [Hb Hb' Hm' Hz']. split; [lia..| |lia].
  rewrite (Zplus_mod a b), (Zplus_mod a' b'). congruence.
Qed.

#[export] Instance oceq_swap : Proper (oceq ==> oceq) (Z.mul 256).
Proof.
  intros a a' [Ha Ha' Hm Hz]. split; [lia..| |lia].
  rewrite (Zmult_mod 256 a), (Zmult_mod 256 a'). congruence.
Qed.

(** Moving a carry of weight 65536 to weight one. *)
Lemma oceq_carry a b : 0 <= a -> 0 <= b -> 65536 * a + b ≈1 a + b.
Proof.
  intros. split; [lia..| |lia].
  replace (65536 * a + b) with (a + b + a * 65535) by lia. apply Z_mod_plus_full.
Qed.

Lemma oceq_swap2 a : 0 <= a -> 256 * (256 * a) ≈1 a.
Proof.
  intros. replace (256 * (256 * a)) with (65536 * a + 0) by lia.
  rewrite oceq_carry by lia. rewrite Z.add_0_r. by apply oceq_refl.
Qed.

Lemma oceq_sub a : 65535 < a -> a - 65535 ≈1 a.
Proof.
  intros. split; [lia..| |lia].
  replace (a - 65535) with (a + (-1) * 65535) by lia. apply Z_mod_plus_full.
Qed.

(** ** Canonical representatives *)

(** The representative in [0, 65535] of a non-negative sum. *)
Definition oc_fold (a : Z) : Z := if a =? 0 then 0 else (a - 1) mod 65535 + 1.

Lemma oc_fold_range a : 0 <= oc_fold a <= 65535.
Proof. unfold oc_fold. case_test; [lia|]. pose proof (Z.mod_pos_bound (a - 1) 65535). lia. Qed.

Lemma oc_fold_eq a : 0 <= a -> oc_fold a ≈1 a.
Proof.
  intros Ha. pose proof (oc_fold_range a). unfold oc_fold in *. case_test; [by subst|].
  pose proof (Z.mod_pos_bound (a - 1) 65535 ltac:(lia)).
  split; [lia..| |lia]. rewrite Zplus_mod_idemp_l. f_equal. lia.
Qed.

(** Equivalent sums in [0, 65535] are equal. *)
Lemma oceq_inj a b : a ≈1 b -> a <= 65535 -> b <= 65535 -> a = b.
Proof.
  intros [Ha Hb Hm Hz] Ha' Hb'. destruct (decide (a = 65535)), (decide (b = 65535)); subst; try done.
  - rewrite Z_mod_same_full, Z.mod_small in Hm by lia. lia.
  - rewrite Z_mod_same_full, Z.mod_small in Hm by lia. lia.
  - rewrite !Z.mod_small in Hm by lia. done.
Qed.

Lemma oc_fold_proper a b : a ≈1 b -> oc_fold a = oc_fold b.
Proof.
  intros H. pose proof (oc_fold_range a). pose proof (oc_fold_range b).
  apply oceq_inj; [|lia..]. destruct H. rewrite !oc_fold_eq by done. by split.
Qed.

Lemma oc_fold_small a : 0 <= a <= 65535 -> oc_fold a = a.
Proof.
  intros. pose proof (oc_fold_range a). apply oceq_inj; [|lia..]. apply oc_fold_eq. lia.
Qed.

(** Adding a word to a folded sum, with the end-around carry of the code. *)
Lemma oc_add_carry s w :
  0 <= s <= 65535 -> 0 <= w <= 65535 ->
  (if s + w >? 65535 then s + w - 65535 else s + w) = oc_fold (s + w).
Proof.
  intros. pose proof (oc_fold_range (s + w)). apply oceq_inj; [|case_test; lia|lia].
  rewrite oc_fold_eq by lia. case_test; [apply oceq_sub; lia|apply oceq_refl; lia].
Qed.

Lemma oc_fold_add a w : 0 <= a -> 0 <= w -> oc_fold (oc_fold a + w) = oc_fold (a + w).
Proof.
  intros. apply oc_fold_proper. rewrite (oc_fold_eq a) by done. apply oceq_refl. lia.
Qed.

(** Inserting the complement of a sum completes it to 65535. *)
Lemma oc_complement a : 0 <= a -> oc_fold (a + (65535 - oc_fold a)) = 65535.
Proof.
  intros. pose proof (oc_fold_range a). rewrite <- oc_fold_add by lia.
  by replace (oc_fold a + (65535 - oc_fold a)) with 65535 by lia.
Qed.

(** ** Sums of the words of a byte string *)

(** What can be added to a sum of all ones without changing it. *)
Lemma oc_fold_more a b : 0 <= a -> 0 <= b -> oc_fold a = 65535 -> (oc_fold (a + b) = 65535 <-> b mod 65535 = 0).
Proof.
  intros Ha Hb H. rewrite <- oc_fold_add, H by done. unfold oc_fold. case_test; [lia|]. Z.to_euclidean_division_equations. lia.
Qed.

(** Little-endian words; a last odd byte is the low byte of a word. *)
Fixpoint le_sum (l : list Z) : Z :=
  match l with
  | [] => 0
  | [b] => b
  | b0 :: b1 :: r => b0 + 256 * b1 + le_sum r
  end.

(** Big-endian words; a last odd byte is the high byte of a word. *)
Fixpoint be_sum (l : list Z) : Z :=
  match l with
  | [] => 0
  | [b] => 256 * b
  | b0 :: b1 :: r => 256 * b0 + b1 + be_sum r
  end.

(** Induction by pairs. *)
Lemma pair_ind (P : list Z -> Prop) :
  P [] -> (forall b, P [b]) -> (forall a b l, P l -> P (a :: b :: l)) -> forall l, P l.
Proof.
  intros H0 H1 H2. fix IH 1. intros [|a [|b l]]; [exact H0|apply H1|apply H2, IH].
Qed.

Lemma le_sum_nonneg l : bytes_ok l = true -> 0 <= le_sum l.
Proof.
  induction l as [|b|a b l IH] using pair_ind; cbn [le_sum]; [lia| |];
    rewrite ?bytes_ok_cons; intros H; [lia|]. specialize (IH ltac:(tauto)). lia.
Qed.

Lemma be_sum_nonneg l : bytes_ok l = true -> 0 <= be_sum l.
Proof.
  induction l as [|b|a b l IH] using pair_ind; cbn [be_sum]; [lia| |];
    rewrite ?bytes_ok_cons; intros H; [lia|]. specialize (IH ltac:(tauto)). lia.
Qed.

(** Byte order only swaps the bytes of the sum. *)
Lemma be_sum_swap l : bytes_ok l = true -> be_sum l ≈1 256 * le_sum l.
Proof.
  induction l as [|b|a b l IH] using pair_ind; cbn [be_sum le_sum]; rewrite ?bytes_ok_cons.
  - done.
  - intros. apply oceq_refl. lia.
  - intros (Ha & Hb & Hl). pose proof (le_sum_nonneg l Hl). rewrite IH by done.
    replace (256 * (a + 256 * b + le_sum l)) with (256 * a + (65536 * b + 256 * le_sum l)) by lia.
    rewrite oceq_carry by lia. apply oceq_eq; lia.
Qed.

(** Putting one byte in front moves every byte to the other half. *)
Lemma le_sum_cons b l : 0 <= b -> bytes_ok l = true -> le_sum (b :: l) ≈1 b + 256 * le_sum l.
Proof.
  intros Hb. revert b Hb. induction l as [|c|c d l IH] using pair_ind; intros b Hb;
    rewrite ?bytes_ok_cons.
  - intros _. cbn [le_sum]. apply oceq_eq; lia.
  - intros [Hc _]. cbn [le_sum]. apply oceq_eq; lia.
  - intros (Hc & Hd & Hl). pose proof (le_sum_nonneg l Hl).
    change (le_sum (b :: c :: d :: l)) with (b + 256 * c + le_sum (d :: l)).
    change (le_sum (c :: d :: l)) with (c + 256 * d + le_sum l).
    rewrite (IH d) by (done || lia).
    replace (b + 256 * (c + 256 * d + le_sum l))
      with (65536 * d + (b + 256 * c + 256 * le_sum l)) by lia.
    rewrite oceq_carry by lia. apply oceq_eq; lia.
Qed.

Lemma le_sum_app_even a b :
  Nat.even (length a) = true -> le_sum (a ++ b) = le_sum a + le_sum b.
Proof.
  induction a as [|x|x y a IH] using pair_ind; intros H; [done|done|].
  cbn in *. rewrite IH by done. lia.
Qed.

Lemma be_sum_app_even a b :
  Nat.even (length a) = true -> be_sum (a ++ b) = be_sum a + be_sum b.
Proof.
  induction a as [|x|x y a IH] using pair_ind; intros H; [done|done|].
  cbn in *. rewrite IH by done. lia.
Qed.

Lemma le_sum_app_odd a b :
  Nat.even (length a) = false -> bytes_ok a = true -> bytes_ok b = true ->
  le_sum (a ++ b) ≈1 le_sum a + 256 * le_sum b.
Proof.
  induction a as [|x|x y a IH] using pair_ind; intros H Ha Hb; [done| |].
  - apply bytes_ok_cons in Ha as [Hx _]. apply (le_sum_cons x b); [lia|done].
  - rewrite !bytes_ok_cons in Ha. destruct Ha as (Hx & Hy & Ha).
    cbn [app le_sum]. pose proof (le_sum_nonneg a Ha). pose proof (le_sum_nonneg b Hb).
    rewrite IH by done. apply oceq_eq; lia.
Qed.
