(* ===== verification/Abi.v ===== *)
(** * The layouts shared by the kernel module and user space

    Models [include/pval.h]: the Pval IP option, the netlink attribute numbers
    and the ring slot. Both structures are packed; the host is little-endian,
    so that the image of a multi-byte field in memory is its little-endian
    byte string. *)
From stdpp Require Import base list numbers strings.
From Stdlib Require Import ZArith Lia.
From S2P Require Import Prelude.

Open Scope Z_scope.

(** ** Pval IP option *)

Definition IPOPT_PVAL : Z := 222.

Record ipopt_pval := mk_ipopt_pval {
  ipp_type : Z;      (* __u8 *)
  ipp_length : Z;    (* __u8 *)
  ipp_reserved : Z;  (* __u8 *)
  ipp_cpu : Z;       (* __u8 *)
  ipp_seq : Z        (* __u64, host byte order *)
}.

Definition sizeof_ipopt_pval : Z := 12.

(** The object representation: what storing the five fields leaves in memory. *)
Definition ipopt_pval_bytes (o : ipopt_pval) : list Z :=
  [u8 (ipp_type o); u8 (ipp_length o); u8 (ipp_reserved o); u8 (ipp_cpu o)]
  ++ le_bytes 8 (ipp_seq o).

(** Loading the structure from twelve bytes. *)
Definition ipopt_pval_of_bytes (l : list Z) : option ipopt_pval :=
  match l with
  | [t; n; r; c; s0; s1; s2; s3; s4; s5; s6; s7] =>
      Some (mk_ipopt_pval t n r c (le_val [s0; s1; s2; s3; s4; s5; s6; s7]))
  | _ => None
  end.

(** ** Netlink attributes *)

Definition IFLA_PVAL_UNSPEC : Z := 0.
Definition IFLA_PVAL_LINK : Z := 1.
Definition IFLA_PVAL_IPOPT : Z := 2.
Definition IFLA_PVAL_TXTSTAMP : Z := 3.
Definition IFLA_PVAL_RXTSTAMP : Z := 4.
Definition IFLA_PVAL_TXCOPY : Z := 5.
Definition IFLA_PVAL_RXCOPY : Z := 6.
Definition IFLA_PVAL_TXBUSYDROP : Z := 7.
Definition IFLA_PVAL_MAX : Z := 7.

(** ** Ring slots *)

Definition PVAL_PKT_LEN : Z := 256.

Record pval_slot := mk_pval_slot {
  s_len : Z;        (* __u32 *)
  s_pktlen : Z;     (* __u32 *)
  s_tstamp : Z;     (* __u64 *)
  s_pkt : list Z    (* char[PVAL_PKT_LEN] *)
}.

Definition sizeof_pval_slot : Z := 4 + 4 + 8 + PVAL_PKT_LEN.

Definition pval_slot_bytes (s : pval_slot) : list Z :=
  le_bytes 4 (s_len s) ++ le_bytes 4 (s_pktlen s) ++ le_bytes 8 (s_tstamp s) ++ s_pkt s.

(** What user space reads back through its [struct pval_slot]. *)
Definition pval_slot_of_bytes (l : list Z) : option pval_slot :=
  a ← slice l 0 4; b ← slice l 4 4; c ← slice l 8 8; p ← slice l 16 (Z.to_nat PVAL_PKT_LEN);
  Some (mk_pval_slot (le_val a) (le_val b) (le_val c) p).

(** A slot holds a value of its C type, with [len] at most the size of [pkt]. *)
Definition slot_ok (s : pval_slot) : bool :=
  is_u32 (s_pktlen s) && is_u64 (s_tstamp s) &&
  (0 <=? s_len s) && (s_len s <=? PVAL_PKT_LEN) &&
  (Z.of_nat (length (s_pkt s)) =? PVAL_PKT_LEN) && bytes_ok (s_pkt s).

#[export] Instance ipopt_pval_eq_dec : EqDecision ipopt_pval.
Proof. solve_decision. Defined.
#[export] Instance pval_slot_eq_dec : EqDecision pval_slot.
Proof. solve_decision. Defined.

Lemma length_ipopt_pval_bytes o :
  length (ipopt_pval_bytes o) = Z.to_nat sizeof_ipopt_pval.
Proof. unfold ipopt_pval_bytes. by rewrite length_app, length_le_bytes. Qed.

Lemma bytes_ok_ipopt_pval_bytes o : bytes_ok (ipopt_pval_bytes o) = true.
Proof.
  unfold ipopt_pval_bytes. cbn [app]. rewrite !bytes_ok_cons.
  repeat split; try apply u8_range. apply bytes_ok_le_bytes.
Qed.

(** Storing an option and loading it gives its fields at their widths. *)
Lemma ipopt_pval_load o :
  ipopt_pval_of_bytes (ipopt_pval_bytes o) =
  Some (mk_ipopt_pval (u8 (ipp_type o)) (u8 (ipp_length o)) (u8 (ipp_reserved o))
          (u8 (ipp_cpu o)) (u64 (ipp_seq o))).
Proof.
  unfold ipopt_pval_bytes, ipopt_pval_of_bytes. cbn [app le_bytes].
  do 2 f_equal. change (le_val (le_bytes 8 (ipp_seq o)) = u64 (ipp_seq o)).
  by rewrite le_val_bytes.
Qed.

Lemma length_pval_slot_bytes s :
  slot_ok s = true -> length (pval_slot_bytes s) = Z.to_nat sizeof_pval_slot.
Proof.
  unfold slot_ok. intros. bool_to_prop. unfold pval_slot_bytes, sizeof_pval_slot, PVAL_PKT_LEN in *.
  rewrite !length_app, !length_le_bytes. lia.
Qed.

(** A slot copied to user space byte for byte is read back as the same slot. *)
Lemma pval_slot_load s :
  slot_ok s = true -> pval_slot_of_bytes (pval_slot_bytes s) = Some s.
Proof.
  intros Hok. pose proof (length_pval_slot_bytes _ Hok) as Hlen.
  unfold slot_ok in Hok. bool_to_prop. unfold pval_slot_of_bytes, PVAL_PKT_LEN in *.
  destruct s as [n p t pkt]; cbn [s_len s_pktlen s_tstamp s_pkt] in *.
  unfold pval_slot_bytes in *; cbn [s_len s_pktlen s_tstamp s_pkt] in *.
  rewrite slice_app_l by done. cbn [mbind option_bind].
  rewrite (slice_app_r _ _ 4 4 0), slice_app_l by done. cbn [mbind option_bind].
  rewrite (slice_app_r _ _ 8 8 4), (slice_app_r _ _ 4 8 0), slice_app_l by done.
  cbn [mbind option_bind].
  rewrite (slice_app_r _ _ 16 _ 12), (slice_app_r _ _ 12 _ 8), (slice_app_r _ _ 8 _ 0) by done.
  rewrite slice_all by lia. cbn [mbind option_bind].
  repeat match goal with H : is_u _ _ = true |- _ => apply is_u_spec in H end.
  rewrite !le_val_bytes, !Z.mod_small by (cbn; lia). done.
Qed.
