(* ===== verification/Checksum.v ===== *)
(** * The module's header checksum

    Models [checksum] and [wrapsum] of [kmod/pval_main.c], on a little-endian
    host. [None] is a load outside the data. *)
From stdpp Require Import base list numbers.
From Stdlib Require Import ZArith Lia.
From S2P Require Import Prelude OnesComp.

Open Scope Z_scope.

(** ** Definitions *)

(** The loop over the pairs of bytes: [k] iterations from offset [i]. *)
Fixpoint checksum_loop (addr : list Z) (k i : nat) (sum : Z) : option Z :=
  match k with
  | O => Some sum
  | S k' =>
      w ← slice addr i 2;
      let sum1 := u32 (sum + u16 (bswap16 (le_val w))) in
      let sum2 := if sum1 >? 0xFFFF then u32 (sum1 - 0xFFFF) else sum1 in
      checksum_loop addr k' (i + 2) sum2
  end.

Definition checksum (addr : list Z) (len sum : Z) : option Z :=
  let even := Z.land len (u32 (Z.lnot 1)) in
  sum1 ← checksum_loop addr (Z.to_nat (even / 2)) 0 sum;
  if even <? len then
    b ← addr !! Z.to_nat even;
    let sum2 := u32 (sum1 + Z.shiftl b 8) in
    Some (u16 (if sum2 >? 0xFFFF then u32 (sum2 - 0xFFFF) else sum2))
  else Some (u16 sum1).

Definition wrapsum (sum : Z) : Z := bswap16 (Z.land (u32 (Z.lnot sum)) 0xFFFF).

(** ** Lemmas *)

Lemma bswap16_word a b : 0 <= a < 256 -> 0 <= b < 256 -> bswap16 (le_val [a; b]) = 256 * a + b.
Proof.
  intros. cbn [le_val]. replace (a + 256 * (b + 256 * 0)) with (a + b * 256) by lia.
  rewrite bswap16_parts by done. lia.
Qed.

Lemma slice_pair l i : (i + 2 <= length l)%nat ->
  exists a b, slice l i 2 = Some [a; b] /\ drop i l = a :: b :: drop (i + 2) l.
Proof.
  intros Hi. destruct (drop i l) as [|a [|b r]] eqn:E;
    [apply (f_equal length) in E; rewrite length_drop in E; cbn in E; lia..|].
  exists a, b. split.
  - apply slice_Some. rewrite E. done.
  - by rewrite <- drop_drop, E.
Qed.

(** One iteration is addition with end-around carry. *)
Lemma carry_step s w :
  0 <= s <= 65535 -> 0 <= w <= 65535 ->
  (if u32 (s + w) >? 0xFFFF then u32 (u32 (s + w) - 0xFFFF) else u32 (s + w)) = oc_fold (s + w).
Proof.
  intros Hs Hw. rewrite (u32_small (s + w)) by lia.
  rewrite <- oc_add_carry by done. case_test; [apply u32_small; lia|done].
Qed.

Lemma checksum_loop_spec l k i a :
  bytes_ok l = true -> 0 <= a -> (i + 2 * k <= length l)%nat ->
  checksum_loop l k i (oc_fold a) = Some (oc_fold (a + be_sum (take (2 * k) (drop i l)))).
Proof.
  intros Hl. revert i a. induction k as [|k IH]; intros i a Ha Hi.
  - cbn. by rewrite Z.add_0_r.
  - destruct (slice_pair l i) as (x & y & Hs & Hd); [lia|].
    pose proof (bytes_ok_slice _ _ _ _ Hl Hs) as Hxy. rewrite !bytes_ok_cons in Hxy.
    destruct Hxy as (Hx & Hy & _). cbn [checksum_loop]. rewrite Hs. cbn [mbind option_bind].
    cbv zeta. rewrite bswap16_word, u16_small by lia. pose proof (oc_fold_range a).
    rewrite (carry_step (oc_fold a) (256 * x + y)), oc_fold_add, IH by lia.
    rewrite Hd. replace (2 * S k)%nat with (S (S (2 * k))) by lia. cbn [take be_sum].
    do 2 f_equal. lia.
Qed.

Lemma land_even len : 0 <= len < 65536 -> Z.land len (u32 (Z.lnot 1)) = 2 * (len / 2).
Proof.
  intros Hlen. unfold u32. rewrite <- (Z.land_ones _ 32), Z.land_assoc, Z.land_ones by lia.
  rewrite <- Z.ldiff_land. change 1 with (Z.ones 1) at 1.
  rewrite Z.ldiff_ones_r, Z.shiftr_div_pow2, Z.shiftl_mul_pow2 by lia. change (2 ^ 1) with 2.
  pose proof (Z.mul_div_le len 2). pose proof (Z.div_pos len 2).
  rewrite Z.mod_small; lia.
Qed.

(** The routine computes the folded one's complement sum of the big-endian
    words of the first [len] bytes, a last odd byte counting as a high byte. *)
Lemma checksum_spec l len :
  bytes_ok l = true -> 0 <= len < 65536 -> len <= Z.of_nat (length l) ->
  checksum l len 0 = Some (oc_fold (be_sum (take (Z.to_nat len) l))).
Proof.
  intros Hl Hlen Hle. unfold checksum. rewrite land_even by done.
  rewrite (Z.mul_comm 2), Z_div_mult_full by lia.
  assert (Hq : 0 <= len / 2) by (apply Z.div_pos; lia).
  pose proof (Z.div_mod len 2 ltac:(lia)) as Hdm. pose proof (Z.mod_pos_bound len 2 ltac:(lia)).
  change 0 with (oc_fold 0) at 1. rewrite checksum_loop_spec by (done || lia).
  rewrite Z.add_0_l, drop_0. cbn [mbind option_bind].
  set (p := take (2 * Z.to_nat (len / 2)) l).
  assert (Hp : bytes_ok p = true) by (subst p; auto with pval).
  pose proof (be_sum_nonneg p Hp) as Hpos. pose proof (oc_fold_range (be_sum p)).
  destruct (Z.ltb_spec (len / 2 * 2) len) as [Hodd|Heven].
  - destruct (lookup_lt_is_Some_2 l (Z.to_nat (len / 2 * 2))) as [b Hb]; [lia|].
    pose proof (bytes_ok_lookup _ _ _ Hl Hb). rewrite Hb. cbn [mbind option_bind]. cbv zeta.
    rewrite Z.shiftl_mul_pow2 by lia. change (2 ^ 8) with 256.
    rewrite (carry_step (oc_fold (be_sum p)) (b * 256)), oc_fold_add by lia.
    pose proof (oc_fold_range (be_sum p + b * 256)). rewrite u16_small by lia. do 2 f_equal.
    replace (Z.to_nat len) with (S (2 * Z.to_nat (len / 2))) by lia.
    rewrite (take_S_r _ _ b) by (rewrite <- Hb; f_equal; lia). fold p.
    rewrite be_sum_app_even; [cbn; lia|]. subst p. rewrite length_take, Nat.min_l by lia.
    apply Nat.even_spec. by exists (Z.to_nat (len / 2)).
  - rewrite u16_small by lia. do 3 f_equal. subst p. f_equal. lia.
Qed.

Lemma wrapsum_spec s : 0 <= s <= 65535 -> wrapsum s = bswap16 (65535 - s).
Proof.
  intros. unfold wrapsum, u32. change 0xFFFF with (Z.ones 16).
  rewrite <- (Z.land_ones _ 32), <- Z.land_assoc by lia.
  change (Z.land (Z.ones 32) (Z.ones 16)) with (Z.ones 16).
  rewrite Z.land_ones by lia. f_equal. unfold Z.lnot.
  change (2 ^ 16) with 65536. replace (Z.pred (- s)) with (65535 - s + (-1) * 65536) by lia.
  change (Z.ones 16) with 65535. rewrite Z_mod_plus_full, Z.mod_small; lia.
Qed.

(** The two bytes [wrapsum] leaves in memory are a big-endian word of value
    [65535 - s]. *)
Lemma wrapsum_bytes s :
  0 <= s <= 65535 ->
  be_sum (le_bytes 2 (wrapsum s)) = 65535 - s.
Proof.
  intros. rewrite wrapsum_spec, le_bytes_bswap16 by lia. cbn [be_sum].
  pose proof (Z.div_mod (65535 - s) 256). lia.
Qed.

(** A string whose checksum field was filled in sums to all ones. *)
Lemma checksum_fill a b s :
  bytes_ok a = true -> bytes_ok b = true -> Nat.even (length a) = true ->
  s = oc_fold (be_sum (a ++ [0; 0] ++ b)) ->
  oc_fold (be_sum (a ++ le_bytes 2 (wrapsum s) ++ b)) = 65535.
Proof.
  intros Ha Hb He ->. pose proof (be_sum_nonneg a Ha). pose proof (be_sum_nonneg b Hb).
  rewrite !be_sum_app_even by (done || by rewrite length_le_bytes).
  change (be_sum [0; 0]) with 0. rewrite Z.add_0_l.
  rewrite wrapsum_bytes by apply oc_fold_range.
  replace (be_sum a + (65535 - oc_fold (be_sum a + be_sum b) + be_sum b))
    with (be_sum a + be_sum b + (65535 - oc_fold (be_sum a + be_sum b))) by lia.
  apply oc_complement. lia.
Qed.

(** ** Theorems *)

(** [checksum] is the one's complement sum of RFC 1071: on any data of at
    most 65535 bytes it reads only the first [len] bytes, returns a 16-bit value
    congruent modulo 65535 to the sum of their big-endian words, and returns
    zero only if all of them are zero words. *)
Theorem checksum_is_ones_complement_sum l len :
  bytes_ok l = true -> 0 <= len < 65536 -> len <= Z.of_nat (length l) ->
  exists s, checksum l len 0 = Some s /\ 0 <= s <= 65535 /\
    s mod 65535 = be_sum (take (Z.to_nat len) l) mod 65535 /\
    (s = 0 <-> be_sum (take (Z.to_nat len) l) = 0).
Proof.
  intros Hl Hlen Hle. rewrite checksum_spec by done. eexists. split; [done|].
  split; [apply oc_fold_range|].
  destruct (oc_fold_eq (be_sum (take (Z.to_nat len) l))) as [_ _ Hm Hz]; [|done].
  apply be_sum_nonneg. auto with pval.
Qed.

Lemma checksum_is_ones_complement_sum_witness :
  exists s, checksum [69; 0; 0; 84; 255; 255; 128] 7 0 = Some s /\ 0 <= s <= 65535.
Proof.
  destruct (checksum_is_ones_complement_sum [69; 0; 0; 84; 255; 255; 128] 7) as (s & H & Hr & _);
    [reflexivity|lia|cbn; lia|]. by exists s.
Defined.
