(* ===== verification/InCksum.v ===== *)
(** * tcpdump's checksum routine

    Models [in_cksum] and [in_cksum_shouldbe] of [tcpdump/in_cksum.c] on a
    little-endian host: the scatter list, the alignment fix-up that sums
    byte-swapped words, the unrolled loops and the folding. [None] is a load
    outside a vector's memory, a signed overflow of [sum], or exhausted fuel;
    the theorems show that none of them happens. *)
From stdpp Require Import base list numbers.
From Stdlib Require Import ZArith Lia.
From S2P Require Import Prelude OnesComp.

Open Scope Z_scope.

(** ** Definitions *)

(** [struct cksum_vec]: the memory at [ptr], whether its address is odd, and
    the length. *)
Record cksum_vec := mk_cksum_vec { v_mem : list Z; v_odd : bool; v_len : Z }.

(** [sum += x] on an [int]. *)
Definition sadd (a x : Z) : option Z := if a + x <=? 2147483647 then Some (a + x) else None.

(** The [REDUCE] macro. *)
Definition reduce (sum : Z) : Z :=
  let l := u32 sum in
  let s := l mod 65536 + l / 65536 in
  if s >? 65535 then s - 65535 else s.

(** [n] consecutive additions of a word, as in the unrolled bodies. *)
Fixpoint add_words (n : nat) (mem : list Z) (w : nat) (sum : Z) : option Z :=
  match n with
  | O => Some sum
  | S n' => x ← slice mem w 2; sum' ← sadd sum (le_val x); add_words n' mem (w + 2) sum'
  end.

(** [while ((mlen -= 2 * nw) >= 0) { nw additions; w += nw; }]. *)
Fixpoint while_words (fuel nw : nat) (mem : list Z) (w : nat) (mlen sum : Z)
  : option (Z * nat * Z) :=
  match fuel with
  | O => None
  | S f =>
      let mlen' := mlen - 2 * Z.of_nat nw in
      if 0 <=? mlen' then
        sum' ← add_words nw mem w sum;
        while_words f nw mem (w + 2 * nw) mlen' sum'
      else Some (sum, w, mlen')
  end.

(** The variables that live across vectors; [s_util.c[1]] is always assigned
    just before it is used. *)
Record ck_state := mk_ck_state { k_sum : Z; k_mlen : Z; k_swapped : bool; k_c0 : Z }.

(** From the end of the unrolled loops to the end of the loop body. *)
Definition in_cksum_finish (mem : list Z) (w : nat) (mlen sum : Z) (swapped : bool) (c0 : Z)
  : option ck_state :=
  if (mlen =? 0) && negb swapped then Some (mk_ck_state sum mlen swapped c0)
  else
    '(sum3, w3, m4) ← while_words (S (length mem)) 1 mem w mlen (reduce sum);
    if swapped then
      let sum4 := Z.shiftl (reduce sum3) 8 in
      if m4 =? -1 then
        b ← mem !! w3; sum5 ← sadd sum4 (c0 + 256 * b); Some (mk_ck_state sum5 0 false c0)
      else Some (mk_ck_state sum4 (-1) false c0)
    else if m4 =? -1 then
      b ← mem !! w3; Some (mk_ck_state sum3 m4 false b)
    else Some (mk_ck_state sum3 m4 false c0).

(** From the end of the alignment fix-up on: the two unrolled loops. *)
Definition in_cksum_tail (mem : list Z) (w : nat) (mlen sum : Z) (swapped : bool) (c0 : Z)
  : option ck_state :=
  '(sum1, w1, m1) ← while_words (S (length mem)) 16 mem w mlen sum;
  '(sum2, w2, m2) ← while_words (S (length mem)) 4 mem w1 (m1 + 32) sum1;
  in_cksum_finish mem w2 (m2 + 8) sum2 swapped c0.

(** The byte completing a word that spans two vectors. *)
Definition in_cksum_head (st : ck_state) (mem : list Z) (len : Z) : option (Z * nat * Z) :=
  if k_mlen st =? -1 then
    b ← mem !! 0%nat; sum ← sadd (k_sum st) (k_c0 st + 256 * b); Some (sum, 1%nat, len - 1)
  else Some (k_sum st, 0%nat, len).

(** One iteration of the loop over the vectors. *)
Definition in_cksum_chunk (st : ck_state) (v : cksum_vec) : option ck_state :=
  if v_len v =? 0 then Some st
  else
    '(sum, w, mlen) ← in_cksum_head st (v_mem v) (v_len v);
    if xorb (v_odd v) (Nat.odd w) && (mlen >? 0) then
      b ← v_mem v !! w;
      in_cksum_tail (v_mem v) (S w) (mlen - 1) (Z.shiftl (reduce sum) 8) true b
    else in_cksum_tail (v_mem v) w mlen sum (k_swapped st) (k_c0 st).

Fixpoint in_cksum_chunks (st : ck_state) (vec : list cksum_vec) : option ck_state :=
  match vec with
  | [] => Some st
  | v :: vec' => st' ← in_cksum_chunk st v; in_cksum_chunks st' vec'
  end.

Definition in_cksum (vec : list cksum_vec) : option Z :=
  st ← in_cksum_chunks (mk_ck_state 0 0 false 0) vec;
  sum ← (if k_mlen st =? -1 then sadd (k_sum st) (k_c0 st + 256 * 0) else Some (k_sum st));
  Some (Z.land (Z.lnot (reduce sum)) 0xffff).

Definition in_cksum_shouldbe (sum computed_sum : Z) : Z :=
  let s1 := u32 (sum + bswap16 computed_sum) in
  let s2 := u32 (Z.land s1 0xFFFF + Z.shiftr s1 16) in
  let s3 := u32 (Z.land s2 0xFFFF + Z.shiftr s2 16) in
  u16 s3.

(** The bytes a scatter list covers. *)
Definition vec_bytes (v : cksum_vec) : list Z := take (Z.to_nat (v_len v)) (v_mem v).
Definition vecs_bytes (vec : list cksum_vec) : list Z := concat (vec_bytes <$> vec).

Definition vec_ok (v : cksum_vec) : bool :=
  bytes_ok (v_mem v) && (0 <=? v_len v) && (v_len v <=? Z.of_nat (length (v_mem v))).

(** The most bytes that can be summed before [sum] could overflow. *)
Definition IN_CKSUM_MAX : Z := 64511.

(** ** Folding *)

Lemma reduce_spec s : 0 <= s < 2 ^ 32 -> reduce s ≈1 s /\ 0 <= reduce s <= 65535.
Proof.
  intros Hs. unfold reduce. rewrite u32_small by done.
  pose proof (Z.div_mod s 65536 ltac:(lia)) as Hd.
  pose proof (Z.mod_pos_bound s 65536 ltac:(lia)).
  assert (0 <= s / 65536 < 65536).
  { split; [apply Z.div_pos; lia|apply Z.div_lt_upper_bound; lia]. }
  assert (Hc : s mod 65536 + s / 65536 ≈1 s).
  { rewrite Hd at 3. rewrite oceq_carry by lia. apply oceq_eq; lia. }
  split; [|case_test; lia]. case_test; [|done]. rewrite oceq_sub by lia. done.
Qed.

Lemma complement16 s : 0 <= s <= 65535 -> Z.land (Z.lnot s) 65535 = 65535 - s.
Proof.
  intros. change (Z.land (Z.lnot s) (Z.ones 16) = 65535 - s). rewrite Z.land_ones by lia.
  unfold Z.lnot. change (2 ^ 16) with 65536.
  replace (Z.pred (- s)) with (65535 - s + (-1) * 65536) by lia.
  rewrite Z_mod_plus_full, Z.mod_small; lia.
Qed.

(** ** Segments of a vector *)

Definition seg (mem : list Z) (w n : nat) : list Z := take n (drop w mem).

Lemma seg_add mem w a b : seg mem w (a + b) = seg mem w a ++ seg mem (w + a) b.
Proof.
  unfold seg. rewrite <- drop_drop. rewrite <- (take_drop a (take (a + b) (drop w mem))) at 1.
  rewrite take_take, Nat.min_l by lia. f_equal. rewrite skipn_firstn_comm. f_equal. lia.
Qed.

Lemma length_seg mem w n : (w + n <= length mem)%nat -> length (seg mem w n) = n.
Proof. intros. unfold seg. rewrite length_take, length_drop. lia. Qed.

Lemma seg_one mem w b : mem !! w = Some b -> seg mem w 1 = [b].
Proof. intros H. unfold seg. by rewrite (drop_S _ b) by done. Qed.

Lemma bytes_ok_seg mem w n : bytes_ok mem = true -> bytes_ok (seg mem w n) = true.
Proof. unfold seg. auto with pval. Qed.

Lemma le_sum_bound l : bytes_ok l = true -> 0 <= le_sum l <= 32768 * Z.of_nat (length l).
Proof.
  induction l as [|b|a b l IH] using pair_ind; rewrite ?bytes_ok_cons; cbn [le_sum length];
    intros H; [lia..|]. specialize (IH ltac:(tauto)). lia.
Qed.

(** ** The word loops *)

Section Loops.
Variable mem : list Z.
Hypothesis Hmem : bytes_ok mem = true.

Lemma seg_bound w n :
  0 <= le_sum (seg mem w n) <= 32768 * Z.of_nat n.
Proof.
  pose proof (le_sum_bound _ (bytes_ok_seg mem w n Hmem)) as H.
  assert (length (seg mem w n) <= n)%nat by (unfold seg; rewrite length_take; lia). lia.
Qed.

Lemma seg_even_sum w k n :
  (w + 2 * k + n <= length mem)%nat ->
  le_sum (seg mem w (2 * k + n)) = le_sum (seg mem w (2 * k)) + le_sum (seg mem (w + 2 * k) n).
Proof.
  intros. rewrite seg_add. apply le_sum_app_even. rewrite length_seg by lia.
  apply Nat.even_spec. by exists k.
Qed.

Lemma add_words_spec n w sum :
  (w + 2 * n <= length mem)%nat -> 0 <= sum -> sum + 65536 * Z.of_nat n <= 2147483647 ->
  add_words n mem w sum = Some (sum + le_sum (seg mem w (2 * n))).
Proof.
  revert w sum. induction n as [|n IH]; intros w sum Hw Hs Hb.
  - cbn. by rewrite Z.add_0_r.
  - cbn [add_words]. assert (Hsl : slice mem w 2 = Some (seg mem w 2)).
    { apply slice_Some. split; [lia|done]. }
    rewrite Hsl. cbn [mbind option_bind].
    pose proof (length_seg mem w 2 ltac:(lia)) as Hl2. pose proof (seg_bound w 2).
    assert (Hv : le_val (seg mem w 2) = le_sum (seg mem w 2)).
    { destruct (seg mem w 2) as [|x [|y [|]]]; try done. cbn. lia. }
    rewrite Hv. unfold sadd. rewrite (proj2 (Z.leb_le _ _)) by lia. cbn [mbind option_bind].
    rewrite IH by lia. f_equal. replace (2 * S n)%nat with (2 * 1 + 2 * n)%nat by lia.
    rewrite seg_even_sum by lia. cbn [Nat.mul Nat.add]. lia.
Qed.

(** A loop by [nw] words consumes a multiple of [2 * nw] bytes and leaves fewer
    than that. *)
Lemma while_words_spec nw fuel w (m : nat) sum :
  (0 < nw)%nat -> (m < fuel)%nat -> (w + m <= length mem)%nat -> 0 <= sum ->
  sum + 32768 * Z.of_nat m <= 2147483647 ->
  exists k r : nat, m = (2 * (k * nw) + r)%nat /\ (r < 2 * nw)%nat /\
    while_words fuel nw mem w (Z.of_nat m) sum =
    Some (sum + le_sum (seg mem w (2 * (k * nw))), (w + 2 * (k * nw))%nat,
          Z.of_nat r - 2 * Z.of_nat nw).
Proof.
  intros Hnw. revert w m sum. induction fuel as [|f IH]; intros w m sum Hf Hw Hs Hb; [lia|].
  cbn [while_words]. destruct (Z.leb_spec 0 (Z.of_nat m - 2 * Z.of_nat nw)) as [Hge|Hlt].
  - rewrite add_words_spec by lia. cbn [mbind option_bind].
    pose proof (seg_bound w (2 * nw)).
    replace (Z.of_nat m - 2 * Z.of_nat nw) with (Z.of_nat (m - 2 * nw)) by lia.
    destruct (IH (w + 2 * nw)%nat (m - 2 * nw)%nat (sum + le_sum (seg mem w (2 * nw))))
      as (k & r & Hm & Hr & Heq); [lia..|].
    exists (S k), r. split_and!; [lia|done|]. rewrite Heq.
    replace (2 * (S k * nw))%nat with (2 * nw + 2 * (k * nw))%nat by lia.
    rewrite seg_even_sum by lia. do 3 f_equal; lia.
  - exists 0%nat, m. split_and!; [lia..|]. cbn. rewrite Z.add_0_r, Nat.add_0_r. done.
Qed.

End Loops.

(** ** One vector *)

(** The sum so far, with the byte waiting for its partner counted as low. *)
Definition ck_value (st : ck_state) : Z :=
  k_sum st + (if k_mlen st =? -1 then k_c0 st else 0).

(** What summing [S] more, over a number of bytes that is odd or not, does to a
    sum and a pending byte. *)
Definition tail_post (st : ck_state) (B sum c0 S : Z) (odd swapped : bool) : Prop :=
  k_swapped st = false /\ 0 <= k_sum st <= (if xorb swapped odd then 2 ^ 24 else B) /\
  0 <= k_c0 st < 256 /\ (k_mlen st =? -1) = xorb swapped odd /\
  ck_value st ≈1 if swapped then 256 * (sum + S) + c0 else sum + S.

Lemma shift8 x : Z.shiftl x 8 = 256 * x.
Proof. rewrite Z.shiftl_mul_pow2 by lia. change (2 ^ 8) with 256. lia. Qed.

Lemma odd_add_even k r : Nat.odd (2 * k + r) = Nat.odd r.
Proof. rewrite Nat.add_comm. apply Nat.odd_add_mul_2. Qed.

Section Chunk.
Variable mem : list Z.
Hypothesis Hmem : bytes_ok mem = true.

(** The unrolled loops consume an even number of bytes and leave fewer than
    eight to the last loop. *)
Lemma in_cksum_tail_unroll w (m : nat) sum swapped c0 :
  (w + m <= length mem)%nat -> 0 <= sum -> sum + 32768 * Z.of_nat m <= 2147483647 ->
  exists k r : nat, m = (2 * k + r)%nat /\ (r < 8)%nat /\
    in_cksum_tail mem w (Z.of_nat m) sum swapped c0 =
    in_cksum_finish mem (w + 2 * k) (Z.of_nat r) (sum + le_sum (seg mem w (2 * k))) swapped c0.
Proof.
  intros Hw Hs Hov. unfold in_cksum_tail.
  destruct (while_words_spec mem Hmem 16 (S (length mem)) w m sum) as (k1 & r1 & Hm & Hr1 & ->); [lia..|].
  cbn [mbind option_bind]. replace (Z.of_nat r1 - 2 * Z.of_nat 16 + 32) with (Z.of_nat r1) by lia.
  pose proof (seg_bound mem Hmem w (2 * (k1 * 16))).
  destruct (while_words_spec mem Hmem 4 (S (length mem)) (w + 2 * (k1 * 16)) r1
    (sum + le_sum (seg mem w (2 * (k1 * 16))))) as (k2 & r2 & Hm2 & Hr2 & ->); [lia..|].
  cbn [mbind option_bind]. exists (k1 * 16 + k2 * 4)%nat, r2. split_and!; [lia..|].
  replace (Z.of_nat r2 - 2 * Z.of_nat 4 + 8) with (Z.of_nat r2) by lia.
  replace (2 * (k1 * 16 + k2 * 4))%nat with (2 * (k1 * 16) + 2 * (k2 * 4))%nat by lia.
  rewrite seg_even_sum by lia. f_equal; lia.
Qed.

(** The last loop: at most one byte is left over. *)
Lemma in_cksum_last w (r : nat) sum :
  (w + r <= length mem)%nat -> (r < 8)%nat -> 0 <= sum < 2 ^ 32 ->
  exists (k o : nat) (s : Z), r = (2 * k + o)%nat /\ (o < 2)%nat /\
    while_words (S (length mem)) 1 mem w (Z.of_nat r) (reduce sum) =
      Some (s, (w + 2 * k)%nat, Z.of_nat o - 2) /\
    0 <= s <= 2 ^ 20 /\ s ≈1 sum + le_sum (seg mem w (2 * k)).
Proof.
  intros Hw Hr Hs. destruct (reduce_spec sum Hs) as [Hred Hrr].
  destruct (while_words_spec mem Hmem 1 (S (length mem)) w r (reduce sum))
    as (k & o & Hm & Ho & ->); [lia..|].
  rewrite Nat.mul_1_r in *. pose proof (seg_bound mem Hmem w (2 * k)).
  exists k, o, (reduce sum + le_sum (seg mem w (2 * k))). split_and!; try done; try lia.
  rewrite Hred. apply oceq_refl. lia.
Qed.

Lemma in_cksum_finish_even w k sum swapped c0 B s :
  while_words (S (length mem)) 1 mem w (Z.of_nat (2 * k)) (reduce sum) = Some (s, (w + 2 * k)%nat, -2) ->
  0 <= s <= 2 ^ 20 -> s ≈1 sum + le_sum (seg mem w (2 * k)) ->
  0 <= sum <= B -> 2 ^ 25 <= B -> 0 <= c0 < 256 ->
  exists st, in_cksum_finish mem w (Z.of_nat (2 * k)) sum swapped c0 = Some st /\
    tail_post st B sum c0 (le_sum (seg mem w (2 * k))) false swapped.
Proof.
  intros Hloop Hs Heq Hsum HB Hc. pose proof (seg_bound mem Hmem w (2 * k)).
  destruct (reduce_spec s) as [Hred Hrr]; [lia|]. unfold in_cksum_finish, tail_post, ck_value.
  destruct ((_ =? 0) && _) eqn:E0.
  - bool_to_prop. assert (k = 0%nat) by lia. subst k swapped. eexists. split; [done|].
    cbn [xorb k_sum k_mlen k_swapped k_c0]. change (Z.of_nat (2 * 0) =? -1) with false.
    change (le_sum (seg mem w (2 * 0))) with 0. rewrite Z.add_0_r.
    split_and!; try done; try lia. apply oceq_eq; lia.
  - rewrite Hloop. cbn [mbind option_bind]. destruct swapped; (eexists; split; [done|]); cbn [xorb k_sum k_mlen k_swapped k_c0].
    + rewrite shift8. split_and!; try done; try lia. change (-1 =? -1) with true.
      rewrite Hred, Heq. apply oceq_refl. lia.
    + split_and!; try done; try lia. change (-2 =? -1) with false. cbv iota.
      rewrite Z.add_0_r. done.
Qed.

Lemma in_cksum_finish_odd w k sum swapped c0 B s :
  (w + 2 * k + 1 <= length mem)%nat ->
  while_words (S (length mem)) 1 mem w (Z.of_nat (2 * k + 1)) (reduce sum) = Some (s, (w + 2 * k)%nat, -1) ->
  0 <= s <= 2 ^ 20 -> s ≈1 sum + le_sum (seg mem w (2 * k)) ->
  0 <= sum <= B -> 2 ^ 25 <= B -> 0 <= c0 < 256 ->
  exists st, in_cksum_finish mem w (Z.of_nat (2 * k + 1)) sum swapped c0 = Some st /\
    tail_post st B sum c0 (le_sum (seg mem w (2 * k + 1))) true swapped.
Proof.
  intros Hw Hloop Hs Heq Hsum HB Hc. pose proof (seg_bound mem Hmem w (2 * k)).
  destruct (reduce_spec s) as [Hred Hrr]; [lia|]. unfold in_cksum_finish, tail_post, ck_value.
  rewrite (proj2 (Z.eqb_neq _ _)) by lia. cbn [andb].
  destruct (lookup_lt_is_Some_2 mem (w + 2 * k)) as [b Hb]; [lia|].
  pose proof (bytes_ok_lookup _ _ _ Hmem Hb). rewrite seg_even_sum, (seg_one _ _ _ Hb) by lia.
  rewrite Hloop. cbn [mbind option_bind le_sum]. change (-1 =? -1) with true. cbv iota.
  rewrite Hb. cbn [mbind option_bind]. destruct swapped.
  - unfold sadd. rewrite shift8, (proj2 (Z.leb_le _ _)) by lia. cbn [mbind option_bind].
    eexists. split; [done|]. cbn [xorb k_sum k_mlen k_swapped k_c0 Z.eqb]. split_and!; try done; try lia.
    rewrite Hred, Heq. apply oceq_eq; lia.
  - eexists. split; [done|]. cbn [xorb k_sum k_mlen k_swapped k_c0]. change (-1 =? -1) with true.
    split_and!; try done; try lia. rewrite Heq. apply oceq_eq; lia.
Qed.

Lemma in_cksum_tail_spec w (m : nat) sum swapped c0 B :
  (w + m <= length mem)%nat -> 0 <= sum <= B -> 2 ^ 25 <= B ->
  sum + 32768 * Z.of_nat m <= 2147483647 -> 0 <= c0 < 256 ->
  exists st, in_cksum_tail mem w (Z.of_nat m) sum swapped c0 = Some st /\
    tail_post st (B + 32768 * Z.of_nat m) sum c0 (le_sum (seg mem w m)) (Nat.odd m) swapped.
Proof.
  intros Hw Hs HB Hov Hc.
  destruct (in_cksum_tail_unroll w m sum swapped c0) as (k & r & Hm & Hr & ->); [lia..|].
  pose proof (seg_bound mem Hmem w (2 * k)).
  set (sum' := sum + le_sum (seg mem w (2 * k))).
  destruct (in_cksum_last (w + 2 * k) r sum') as (j & o & s & Hr' & Ho & Hloop & Hsr & Hseq);
    [unfold sum'; lia..|].
  assert (Hpost : exists st, in_cksum_finish mem (w + 2 * k) (Z.of_nat r) sum' swapped c0 = Some st /\
    tail_post st (B + 32768 * Z.of_nat m) sum' c0 (le_sum (seg mem (w + 2 * k) r)) (Nat.odd r) swapped).
  { assert (o = 0 \/ o = 1)%nat as [-> | ->] by lia; rewrite Hr', odd_add_even in *.
    - rewrite Nat.add_0_r in *. eapply in_cksum_finish_even; try done; unfold sum'; lia.
    - eapply in_cksum_finish_odd; try done; unfold sum'; lia. }
  destruct Hpost as (st & -> & H1 & [H2 H2'] & H3 & H4 & H5). exists st. split; [done|].
  assert (Ho' : Nat.odd m = Nat.odd r) by (by rewrite Hm, odd_add_even).
  assert (Hse : le_sum (seg mem w m) =
    le_sum (seg mem w (2 * k)) + le_sum (seg mem (w + 2 * k) r)) by (rewrite Hm; apply seg_even_sum; lia).
  unfold tail_post. rewrite Ho', Hse. split_and!; try done; try lia. unfold sum' in H5. by rewrite Z.add_assoc.
Qed.

End Chunk.

(** ** The whole scatter list *)

Definition ck_inv (st : ck_state) (P : list Z) : Prop :=
  k_swapped st = false /\
  0 <= k_sum st <= (if k_mlen st =? -1 then 2 ^ 24 else 2 ^ 25 + 32768 * Z.of_nat (length P)) /\
  0 <= k_c0 st < 256 /\ (k_mlen st =? -1) = Nat.odd (length P) /\ ck_value st ≈1 le_sum P.

(** The tail of a chunk over the rest [R] of its bytes, when the sum stands for
    the bytes [P] before them. *)
Lemma ck_inv_tail mem w m sum c0 st P swapped :
  bytes_ok mem = true -> (w + m <= length mem)%nat -> bytes_ok P = true ->
  tail_post st (2 ^ 25 + 32768 * Z.of_nat (length P) + 32768 * Z.of_nat m) sum c0
    (le_sum (seg mem w m)) (Nat.odd m) swapped ->
  0 <= sum -> 0 <= c0 < 256 ->
  (if swapped then 256 * sum + c0 else sum) ≈1 le_sum P -> Nat.odd (length P) = swapped ->
  ck_inv st (P ++ seg mem w m).
Proof.
  intros Hmem Hw HP (H1 & H2 & H3 & H4 & H5) Hsum Hc Heq Hodd. unfold ck_inv.
  pose proof (seg_bound mem Hmem w m). pose proof (le_sum_nonneg P HP).
  rewrite length_app, length_seg, Nat.odd_add, Hodd, H4 by done.
  split_and!; try done; try (destruct (xorb swapped (Nat.odd m)); lia).
  rewrite H5. destruct swapped.
  - rewrite le_sum_app_odd.
    + rewrite <- Heq. apply oceq_eq; lia.
    + rewrite <- Nat.negb_odd. by rewrite Hodd.
    + done.
    + by apply bytes_ok_seg.
  - rewrite le_sum_app_even by (by rewrite <- Nat.negb_odd, Hodd).
    rewrite <- Heq. apply oceq_refl. lia.
Qed.

(** After the head, the sum stands for an even number of bytes. *)
Definition ck_even (sum : Z) (P : list Z) : Prop :=
  Nat.odd (length P) = false /\ bytes_ok P = true /\
  0 <= sum <= 2 ^ 25 + 32768 * Z.of_nat (length P) /\ sum ≈1 le_sum P.

Lemma bytes_ok_one b : 0 <= b < 256 -> bytes_ok [b] = true.
Proof. intros. apply bytes_ok_cons. done. Qed.

Lemma even_of_odd n : Nat.even n = negb (Nat.odd n).
Proof. by rewrite Nat.negb_odd. Qed.

Lemma in_cksum_head_spec st P mem (n : nat) :
  ck_inv st P -> bytes_ok P = true -> bytes_ok mem = true -> (0 < n <= length mem)%nat ->
  exists sum w, (w <= n)%nat /\ in_cksum_head st mem (Z.of_nat n) = Some (sum, w, Z.of_nat (n - w)) /\
    ck_even sum (P ++ seg mem 0 w) /\ (P = [] -> w = 0%nat).
Proof.
  intros (H1 & [H2 H2'] & H3 & H4 & H5) HP Hmem Hn. unfold in_cksum_head, ck_value in *.
  destruct (k_mlen st =? -1).
  - assert (P <> []) by (by intros ->). destruct (lookup_lt_is_Some_2 mem 0) as [b Hb]; [lia|].
    pose proof (bytes_ok_lookup _ _ _ Hmem Hb). rewrite Hb. cbn [mbind option_bind].
    unfold sadd. rewrite (proj2 (Z.leb_le _ _)) by lia. cbn [mbind option_bind].
    exists (k_sum st + (k_c0 st + 256 * b)), 1%nat. split; [lia|]. split; [do 2 f_equal; lia|]. split; [|done].
    rewrite (seg_one _ _ _ Hb). unfold ck_even. rewrite length_app, bytes_ok_app. cbn [length].
    split_and!; try done; try lia.
    + by rewrite Nat.odd_add, <- H4.
    + by apply bytes_ok_one.
    + rewrite le_sum_app_odd; [|by rewrite even_of_odd, <- H4|done|by apply bytes_ok_one].
      cbn [le_sum]. rewrite <- H5. apply oceq_eq; lia.
  - exists (k_sum st), 0%nat. split; [lia|]. rewrite Nat.sub_0_r. split; [done|]. split; [|done].
    unfold ck_even. cbn [seg take]. rewrite app_nil_r. rewrite Z.add_0_r in H5. done.
Qed.

(** The bytes [P] summed so far leave room for [n] more: their sum is bounded by
    their number, and without any it is zero. *)
Definition ck_room (P : list Z) (n : Z) : Prop :=
  Z.of_nat (length P) + n <= IN_CKSUM_MAX \/ P = [] /\ n <= 65535.

Lemma ck_room_sum sum P n :
  0 <= sum <= 2 ^ 25 + 32768 * Z.of_nat (length P) -> sum ≈1 le_sum P -> ck_room P n ->
  sum + 32768 * n <= 2147483647.
Proof.
  unfold ck_room, IN_CKSUM_MAX. intros Hs Heq [Hm|[-> Hn]]; [lia|]. assert (sum = 0); [|lia].
  by apply (oceq_zero _ _ Heq).
Qed.

Lemma ck_room_reduce sum P n :
  0 <= sum <= 2 ^ 25 + 32768 * Z.of_nat (length P) -> sum ≈1 le_sum P -> ck_room P n -> 0 <= n ->
  256 * reduce sum + 32768 * (n - 1) <= 2147483647.
Proof.
  unfold ck_room, IN_CKSUM_MAX. intros Hs Heq [Hm|[-> Hn]] Hn0.
  - destruct (reduce_spec sum) as [_ Hr]; lia.
  - assert (sum = 0) as -> by (by apply (oceq_zero _ _ Heq)). change (256 * reduce 0) with 0. lia.
Qed.

(** The rest of the chunk, with or without the alignment fix-up. *)
Lemma ck_even_tail mem w m sum P c0 :
  ck_even sum P -> bytes_ok mem = true -> (w + m <= length mem)%nat -> 0 <= c0 < 256 ->
  sum + 32768 * Z.of_nat m <= 2147483647 ->
  exists st', in_cksum_tail mem w (Z.of_nat m) sum false c0 = Some st' /\
    ck_inv st' (P ++ seg mem w m).
Proof.
  intros (Hodd & HP & Hs & Heq) Hmem Hw Hc Hmax.
  destruct (in_cksum_tail_spec mem Hmem w m sum false c0 (2 ^ 25 + 32768 * Z.of_nat (length P)))
    as (st' & -> & Hpost); [lia..|].
  exists st'. split; [done|]. eapply ck_inv_tail; try done; lia.
Qed.

Lemma ck_even_swapped mem w m sum P b :
  ck_even sum P -> bytes_ok mem = true -> mem !! w = Some b -> (S w + m <= length mem)%nat ->
  0 <= sum < 2 ^ 32 -> 256 * reduce sum + 32768 * Z.of_nat m <= 2147483647 ->
  exists st', in_cksum_tail mem (S w) (Z.of_nat m) (Z.shiftl (reduce sum) 8) true b = Some st' /\
    ck_inv st' (P ++ seg mem w (S m)).
Proof.
  intros (Hodd & HP & Hs & Heq) Hmem Hb Hw Hsum Hmax.
  pose proof (bytes_ok_lookup _ _ _ Hmem Hb). pose proof (le_sum_nonneg _ HP).
  destruct (reduce_spec sum) as [Hred Hrr]; [lia|]. rewrite shift8.
  destruct (in_cksum_tail_spec mem Hmem (S w) m (256 * reduce sum) true b
    (2 ^ 25 + 32768 * Z.of_nat (length (P ++ [b])))) as (st' & -> & Hpost);
    [rewrite ?length_app; cbn [length]; lia..|].
  exists st'. split; [done|].
  replace (P ++ seg mem w (S m)) with ((P ++ [b]) ++ seg mem (S w) m).
  2:{ rewrite <- app_assoc. f_equal. change (S m) with (1 + m)%nat.
      rewrite seg_add, (seg_one _ _ _ Hb). by replace (w + 1)%nat with (S w) by lia. }
  eapply ck_inv_tail; try done; try lia.
  - rewrite bytes_ok_app. auto using bytes_ok_one.
  - rewrite le_sum_app_even by (by rewrite even_of_odd, Hodd). cbn [le_sum].
    rewrite oceq_swap2, Hred, Heq by lia. apply oceq_refl. lia.
  - by rewrite length_app, Nat.odd_add, Hodd.
Qed.

Lemma in_cksum_chunk_spec st P v :
  ck_inv st P -> bytes_ok P = true -> vec_ok v = true ->
  ck_room P (v_len v) ->
  exists st', in_cksum_chunk st v = Some st' /\ ck_inv st' (P ++ vec_bytes v).
Proof.
  intros Hst HP Hv Hmax. unfold vec_ok in *. bool_to_prop.
  unfold in_cksum_chunk, vec_bytes. destruct v as [mem odd len]; cbn [v_mem v_odd v_len] in *.
  destruct (Z.eqb_spec len 0) as [->|Hne].
  { exists st. cbn. rewrite app_nil_r. done. }
  remember (Z.to_nat len) as n eqn:En. assert (Hn : len = Z.of_nat n) by lia. subst len.
  destruct (in_cksum_head_spec st P mem n) as (sum & w & Hw & -> & Hev & Hw0); [done..|lia|].
  cbn [mbind option_bind].
  assert (Hl : length (P ++ seg mem 0 w) = (length P + w)%nat)
    by (rewrite length_app, length_seg; lia).
  assert (Hroom : ck_room (P ++ seg mem 0 w) (Z.of_nat (n - w))).
  { destruct Hmax as [Hmax|[-> Hmax]]; [left; lia|right]. rewrite (Hw0 eq_refl). split; [done|lia]. }
  pose proof Hev as (_ & HPb & Hsr & Heq). pose proof (ck_room_sum _ _ _ Hsr Heq Hroom) as Hov.
  assert (Hsplit : P ++ take n mem = (P ++ seg mem 0 w) ++ seg mem w (n - w)).
  { rewrite <- app_assoc. f_equal. change (take n mem) with (seg mem 0 n).
    replace n with (w + (n - w))%nat at 1 by lia. by rewrite seg_add. }
  rewrite Hsplit. destruct (xorb odd (Nat.odd w) && _) eqn:Ealign.
  - bool_to_prop. destruct (lookup_lt_is_Some_2 mem w) as [b Hb]; [lia|].
    rewrite Hb. cbn [mbind option_bind].
    replace (Z.of_nat (n - w) - 1) with (Z.of_nat (n - w - 1)) by lia.
    replace (seg mem w (n - w)) with (seg mem w (S (n - w - 1))) by (f_equal; lia).
    apply ck_even_swapped; try done; try lia.
    replace (Z.of_nat (n - w - 1)) with (Z.of_nat (n - w) - 1) by lia.
    apply (ck_room_reduce _ (P ++ seg mem 0 w)); try done; lia.
  - pose proof Hst as (-> & _ & Hc & _). by apply ck_even_tail; try done; lia.
Qed.

Lemma in_cksum_chunks_spec vec st P :
  ck_inv st P -> bytes_ok P = true -> forallb vec_ok vec = true ->
  Z.of_nat (length P + length (vecs_bytes vec)) <= IN_CKSUM_MAX ->
  exists st', in_cksum_chunks st vec = Some st' /\ ck_inv st' (P ++ vecs_bytes vec).
Proof.
  revert st P. induction vec as [|v vec IH]; intros st P Hst HP Hv Hmax.
  { exists st. unfold vecs_bytes. cbn. by rewrite app_nil_r. }
  cbn in Hv. apply andb_prop in Hv as [Hv Hvec].
  change (vecs_bytes (v :: vec)) with (vec_bytes v ++ vecs_bytes vec) in *.
  rewrite length_app in Hmax. assert (Hlen : Z.of_nat (length (vec_bytes v)) = v_len v).
  { unfold vec_ok in Hv. bool_to_prop. unfold vec_bytes. rewrite length_take. lia. }
  assert (Hok : bytes_ok (vec_bytes v) = true).
  { unfold vec_ok in Hv. bool_to_prop. unfold vec_bytes. auto with pval. }
  destruct (in_cksum_chunk_spec st P v) as (st1 & Hst1 & Hinv); [done..|left; lia|].
  destruct (IH st1 (P ++ vec_bytes v)) as (st2 & Hst2 & Hinv2);
    [done|by rewrite bytes_ok_app|done|rewrite length_app; lia|].
  exists st2. cbn [in_cksum_chunks]. rewrite Hst1. cbn [mbind option_bind].
  by rewrite app_assoc.
Qed.

(** The end: the byte that is left over, and the complement. *)
Lemma in_cksum_end st P :
  ck_inv st P -> Z.of_nat (length P) <= 65535 ->
  (sum ← (if k_mlen st =? -1 then sadd (k_sum st) (k_c0 st + 256 * 0) else Some (k_sum st));
   Some (Z.land (Z.lnot (reduce sum)) 0xffff)) = Some (65535 - oc_fold (le_sum P)).
Proof.
  intros (H1 & [H2 H2'] & H3 & H4 & H5) Hmax. unfold ck_value in *.
  assert (Hsum : exists s, (if k_mlen st =? -1 then sadd (k_sum st) (k_c0 st + 256 * 0)
    else Some (k_sum st)) = Some s /\ 0 <= s < 2 ^ 32 /\ s ≈1 le_sum P).
  { destruct (k_mlen st =? -1).
    - unfold sadd. rewrite Z.mul_0_r, Z.add_0_r, (proj2 (Z.leb_le _ _)) by lia.
      eexists. split_and!; [done|lia..|done].
    - rewrite Z.add_0_r in H5. eexists. split_and!; [done|lia..|done]. }
  destruct Hsum as (s & -> & Hs & Heq). cbn [mbind option_bind].
  destruct (reduce_spec s Hs) as [Hred Hrr]. rewrite complement16 by lia. do 2 f_equal.
  rewrite <- (oc_fold_small (reduce s)) by lia. apply oc_fold_proper. by rewrite Hred.
Qed.

Lemma ck_inv_start : ck_inv (mk_ck_state 0 0 false 0) [].
Proof. unfold ck_inv. cbn. split_and!; done || lia. Qed.

Lemma in_cksum_spec vec :
  forallb vec_ok vec = true -> Z.of_nat (length (vecs_bytes vec)) <= IN_CKSUM_MAX ->
  in_cksum vec = Some (65535 - oc_fold (le_sum (vecs_bytes vec))).
Proof.
  intros Hv Hmax. unfold in_cksum.
  destruct (in_cksum_chunks_spec vec _ [] ck_inv_start) as (st & -> & Hinv); [done..|].
  cbn [mbind option_bind]. apply in_cksum_end; [done|]. unfold IN_CKSUM_MAX in *. cbn [app]. lia.
Qed.

(** A single block can be as long as a datagram. *)
Lemma in_cksum_one_spec v :
  vec_ok v = true -> v_len v <= 65535 ->
  in_cksum [v] = Some (65535 - oc_fold (le_sum (vec_bytes v))).
Proof.
  intros Hv Hmax. unfold in_cksum. cbn [in_cksum_chunks].
  destruct (in_cksum_chunk_spec _ [] v ck_inv_start) as (st & -> & Hinv); [done..|by right|].
  cbn [mbind option_bind app] in *. apply in_cksum_end; [done|]. unfold vec_bytes. rewrite length_take. lia.
Qed.

(** ** Relation to big-endian sums *)

Lemma bswap16_oc x : 0 <= x <= 65535 -> bswap16 x ≈1 256 * x.
Proof.
  intros Hx. destruct (u16_parts x ltac:(lia)) as (a & b & Ha & Hb & -> & _).
  rewrite bswap16_parts by done.
  replace (256 * (a + b * 256)) with (65536 * b + 256 * a) by lia.
  rewrite oceq_carry by lia. apply oceq_eq; lia.
Qed.

(** The folded sum in one byte order is the byte swap of the other. *)
Lemma oc_fold_be_le l : bytes_ok l = true -> oc_fold (be_sum l) = bswap16 (oc_fold (le_sum l)).
Proof.
  intros Hl. pose proof (oc_fold_range (le_sum l)). pose proof (le_sum_nonneg l Hl).
  pose proof (bswap16_range (oc_fold (le_sum l))).
  rewrite <- (oc_fold_small (bswap16 _)) by lia.
  apply oc_fold_proper. rewrite be_sum_swap, bswap16_oc, oc_fold_eq by (done || lia).
  apply oceq_refl. lia.
Qed.

(** A scatter list of one whole block. *)
Lemma vec_ok_whole l odd :
  bytes_ok l = true -> forallb vec_ok [mk_cksum_vec l odd (Z.of_nat (length l))] = true.
Proof.
  intros Hl. cbn [forallb]. unfold vec_ok. cbn [v_mem v_len].
  rewrite Hl, (proj2 (Z.leb_le 0 _)), Z.leb_refl by lia. done.
Qed.

Lemma vecs_bytes_whole l odd : vecs_bytes [mk_cksum_vec l odd (Z.of_nat (length l))] = l.
Proof.
  unfold vecs_bytes, vec_bytes. cbn [concat fmap list_fmap v_len v_mem].
  rewrite app_nil_r, Nat2Z.id. by apply take_ge.
Qed.

Lemma in_cksum_whole l odd :
  bytes_ok l = true -> Z.of_nat (length l) <= 65535 ->
  in_cksum [mk_cksum_vec l odd (Z.of_nat (length l))] = Some (65535 - oc_fold (le_sum l)).
Proof.
  intros Hl Hlen. pose proof (vec_ok_whole l odd Hl) as Hv. apply andb_prop in Hv as [Hv _].
  rewrite in_cksum_one_spec by done. unfold vec_bytes. cbn [v_len v_mem]. by rewrite Nat2Z.id, take_ge.
Qed.

(** [in_cksum] of a single block is zero exactly when the one's complement sum
    of its big-endian words is all ones. *)
Lemma in_cksum_zero_iff l odd :
  bytes_ok l = true -> Z.of_nat (length l) <= 65535 ->
  (in_cksum [mk_cksum_vec l odd (Z.of_nat (length l))] = Some 0 <-> oc_fold (be_sum l) = 65535).
Proof.
  intros Hl Hlen. rewrite in_cksum_whole by done.
  rewrite oc_fold_be_le by done. pose proof (oc_fold_range (le_sum l)) as Hr.
  pose proof (bswap16_complement (oc_fold (le_sum l)) ltac:(lia)) as Hc. split.
  - intros [= H]. by replace (oc_fold (le_sum l)) with 65535 by lia.
  - intros H. rewrite H in Hc. f_equal.
    assert (Hb : bswap16 (65535 - oc_fold (le_sum l)) ≈1 256 * (65535 - oc_fold (le_sum l)))
      by (apply bswap16_oc; lia).
    rewrite Hc in Hb. destruct Hb as [_ _ _ Hz]. lia.
Qed.

(** Folding twice the sum of two 16-bit values is the end-around carry. *)
Lemma shouldbe_fold a b :
  0 <= a <= 65535 -> 0 <= b <= 65535 ->
  in_cksum_shouldbe a (bswap16 b) = oc_fold (a + b).
Proof.
  intros Ha Hb. unfold in_cksum_shouldbe.
  assert (Hfold : forall x, 0 <= x < 2 ^ 32 ->
    Z.land x 0xFFFF + Z.shiftr x 16 ≈1 x /\ Z.land x 0xFFFF + Z.shiftr x 16 <= 65535 + x / 65536).
  { intros x Hx. rewrite Z.shiftr_div_pow2 by lia.
    change (Z.land x 0xFFFF) with (Z.land x (Z.ones 16)).
    rewrite Z.land_ones by lia. change (2 ^ 16) with 65536.
    pose proof (Z.div_mod x 65536 ltac:(lia)) as Hd. pose proof (Z.mod_pos_bound x 65536 ltac:(lia)).
    assert (0 <= x / 65536) by (apply Z.div_pos; lia). split; [|lia].
    rewrite Hd at 3. rewrite oceq_carry by lia. apply oceq_eq; lia. }
  rewrite bswap16_invol, (u32_small (a + b)) by lia. destruct (Hfold (a + b)) as [H1 H1']; [lia|].
  assert ((a + b) / 65536 < 2) by (apply Z.div_lt_upper_bound; lia).
  set (s2 := Z.land (a + b) 0xFFFF + Z.shiftr (a + b) 16) in *. pose proof H1 as [Hs2 _ _ _].
  rewrite (u32_small s2) by lia. destruct (Hfold s2) as [H2 H2']; [lia|].
  assert (Hs3 : Z.land s2 0xFFFF + Z.shiftr s2 16 <= 65535).
  { destruct (decide (s2 = 65536)) as [->|]; [done|]. rewrite Z.div_small in H2' by lia. lia. }
  set (s3 := Z.land s2 0xFFFF + Z.shiftr s2 16) in *. pose proof H2 as [Hs3' _ _ _].
  rewrite u32_small, u16_small by lia. rewrite <- (oc_fold_small s3) by lia.
  apply oc_fold_proper. by rewrite H2.
Qed.

(** ** Theorems *)

(** Storing the value [in_cksum_shouldbe] computes makes the sum zero. *)
Lemma in_cksum_repaired a b f odd c :
  bytes_ok a = true -> bytes_ok b = true -> Nat.even (length a) = true -> 0 <= f <= 65535 ->
  let hdr v := a ++ be_bytes 2 v ++ b in
  let run h := in_cksum [mk_cksum_vec h odd (Z.of_nat (length h))] in
  Z.of_nat (length (hdr f)) <= 65535 -> run (hdr f) = Some c ->
  run (hdr (in_cksum_shouldbe f c)) = Some 0.
Proof.
  intros Ha Hb He Hf hdr run Hlen Hc.
  assert (Hok : forall v, bytes_ok (hdr v) = true).
  { intros v. unfold hdr. rewrite !bytes_ok_app. auto with pval. }
  assert (Hl : forall v, length (hdr v) = length (hdr f)).
  { intros v. unfold hdr. by rewrite !length_app, !length_be_bytes. }
  assert (Hsum : forall v, 0 <= v <= 65535 -> be_sum (hdr v) = be_sum a + be_sum b + v).
  { intros v Hv. unfold hdr. rewrite !be_sum_app_even by (done || by rewrite length_be_bytes).
    rewrite be_bytes_2 by lia. cbn [be_sum]. pose proof (Z.div_mod v 256). lia. }
  assert (Hcv : c = bswap16 (65535 - oc_fold (be_sum (hdr f)))).
  { unfold run in Hc. rewrite in_cksum_whole in Hc by done. injection Hc as <-. rewrite oc_fold_be_le by done. pose proof (oc_fold_range (le_sum (hdr f))) as Hr.
    rewrite <- bswap16_complement, bswap16_invol by lia. done. }
  pose proof (oc_fold_range (be_sum (hdr f))) as Hr. pose proof (be_sum_nonneg _ Ha). pose proof (be_sum_nonneg _ Hb).
  rewrite Hcv, shouldbe_fold by lia. set (v := oc_fold _).
  pose proof (oc_fold_range (f + (65535 - oc_fold (be_sum (hdr f))))) as Hv. fold v in Hv.
  unfold run. apply in_cksum_zero_iff; [done|by rewrite Hl|].
  rewrite Hsum by lia. unfold v. rewrite Hsum in * by lia. rewrite Z.add_comm, oc_fold_add by lia.
  replace (f + (65535 - oc_fold (be_sum a + be_sum b + f)) + (be_sum a + be_sum b))
    with (be_sum a + be_sum b + f + (65535 - oc_fold (be_sum a + be_sum b + f))) by lia.
  apply oc_complement. lia.
Qed.

(** C10. [in_cksum] returns the complement of the one's complement sum of all the
    bytes of the scatter list taken as little-endian words, whatever the
    alignment of each block and wherever words are split between blocks; up to
    [IN_CKSUM_MAX] bytes it terminates, reads only the blocks, and the [int]
    accumulator does not overflow. *)
Theorem in_cksum_equiv vec :
  forallb vec_ok vec = true -> Z.of_nat (length (vecs_bytes vec)) <= IN_CKSUM_MAX ->
  in_cksum vec = Some (65535 - oc_fold (le_sum (vecs_bytes vec))).
Proof. apply in_cksum_spec. Qed.

Lemma in_cksum_equiv_witness :
  in_cksum [mk_cksum_vec [1; 2; 3] true 3; mk_cksum_vec [4; 5; 6; 7; 8] false 5] =
  Some (65535 - oc_fold (le_sum [1; 2; 3; 4; 5; 6; 7; 8])).
Proof.
  apply (in_cksum_equiv [mk_cksum_vec [1; 2; 3] true 3; mk_cksum_vec [4; 5; 6; 7; 8] false 5]).
  - reflexivity.
  - vm_compute. discriminate.
Defined.

(** [in_cksum_shouldbe] gives the value the checksum field should have had:
    for a header with field value [f] at an even offset and [in_cksum] result
    [c], writing the returned value into the field in network byte order makes
    [in_cksum] of the header zero. *)
Theorem in_cksum_shouldbe_repairs a b f odd c :
  bytes_ok a = true -> bytes_ok b = true -> Nat.even (length a) = true -> 0 <= f <= 65535 ->
  let hdr v := a ++ be_bytes 2 v ++ b in
  let run h := in_cksum [mk_cksum_vec h odd (Z.of_nat (length h))] in
  Z.of_nat (length (hdr f)) <= 65535 -> run (hdr f) = Some c ->
  run (hdr (in_cksum_shouldbe f c)) = Some 0.
Proof. apply in_cksum_repaired. Qed.

Lemma in_cksum_shouldbe_repairs_witness :
  exists c, in_cksum [mk_cksum_vec ([69; 0; 0; 84] ++ be_bytes 2 4660 ++ [7; 8]) false 8] = Some c /\
    in_cksum [mk_cksum_vec ([69; 0; 0; 84] ++ be_bytes 2 (in_cksum_shouldbe 4660 c) ++ [7; 8]) false 8] = Some 0.
Proof.
  eexists. split; [vm_compute; reflexivity|].
  apply (in_cksum_shouldbe_repairs [69; 0; 0; 84] [7; 8] 4660 false _); try reflexivity;
    vm_compute; [split; discriminate|discriminate].
Defined.
