(* ===== verification/Cstring.v ===== *)
(** * C strings, formatted output and number parsing

    The parts of the C library the modelled code relies on: character classes,
    [strlen]-style functions on NUL-terminated strings (a [string] without its
    terminator), the [%u], [%d], [%x] and [%02x] conversions, and [strtol] and
    [strtoul] with their end pointer and range error. *)
From stdpp Require Import base list numbers strings.
From Stdlib Require Import ZArith Lia Ascii.
From S2P Require Import Prelude.

Open Scope Z_scope.

(** ** Characters *)

Definition code (c : ascii) : Z := Z.of_N (N_of_ascii c).
Definition chr (z : Z) : ascii := ascii_of_N (Z.to_N (u8 z)).

Definition isspace (c : ascii) : bool :=
  (code c =? 32) || ((9 <=? code c) && (code c <=? 13)).
Definition isdigit (c : ascii) : bool := (48 <=? code c) && (code c <=? 57).
Definition isprint (c : ascii) : bool := (32 <=? code c) && (code c <=? 126).

(** The value of a digit in bases up to 36. *)
Definition digit_val (c : ascii) : option Z :=
  if isdigit c then Some (code c - 48)
  else if (97 <=? code c) && (code c <=? 122) then Some (code c - 87)
  else if (65 <=? code c) && (code c <=? 90) then Some (code c - 55)
  else None.

(** The digit [%x] and [%u] print for a value below 16. *)
Definition digit_char (d : Z) : ascii := if d <? 10 then chr (48 + d) else chr (87 + d).

(** ** Strings *)

Definition slen (s : string) : Z := Z.of_nat (String.length s).

Fixpoint smap (f : ascii -> ascii) (s : string) : string :=
  match s with
  | EmptyString => EmptyString
  | String c s' => String (f c) (smap f s')
  end.

Fixpoint sforall (p : ascii -> bool) (s : string) : bool :=
  match s with
  | EmptyString => true
  | String c s' => p c && sforall p s'
  end.

(** The longest prefix whose characters satisfy [p], and the rest. *)
Fixpoint span (p : ascii -> bool) (s : string) : string * string :=
  match s with
  | EmptyString => (EmptyString, EmptyString)
  | String c s' =>
      if p c then let '(a, b) := span p s' in (String c a, b) else (EmptyString, s)
  end.

Definition skip_space (s : string) : string := (span isspace s).2.

(** [strncmp(s, p, strlen(p)) == 0] and the remainder of [s]. *)
Fixpoint strip_prefix (p s : string) : option string :=
  match p, s with
  | EmptyString, _ => Some s
  | String a p', String b s' => if decide (a = b) then strip_prefix p' s' else None
  | String _ _, EmptyString => None
  end.

Definition has_prefix (p s : string) : bool :=
  match strip_prefix p s with Some _ => true | None => false end.

(** ** Printing numbers *)

(** The digits of [n] in base [b], in front of [acc]; sixty-four digits are
    enough for any value of sixty-four bits in any base. *)
Fixpoint print_base (fuel : nat) (b n : Z) (acc : string) : string :=
  match fuel with
  | O => acc
  | S f =>
      if n <? b then String (digit_char n) acc
      else print_base f b (n / b) (String (digit_char (n mod b)) acc)
  end.

(** [%u] and [%llu] of a non-negative value, [%d] of any value. *)
Definition dec (n : Z) : string :=
  if n <? 0 then String "-" (print_base 64 10 (- n) "") else print_base 64 10 n "".
(** [%x]. *)
Definition hex (n : Z) : string := print_base 64 16 n "".
(** [%0nx]: zero padding to [n] digits. *)
Definition pad0 (n : nat) (s : string) : string :=
  String.string_of_list_ascii (replicate (n - String.length s) "0"%char) +:+ s.
Definition hex_pad (w : nat) (n : Z) : string := pad0 w (hex n).

(** ** Parsing numbers *)

(** The digits of base [b] at the head of [s], accumulated onto [v]: the
    value, how many digits there were, and what follows. *)
Fixpoint scan_digits (b : Z) (s : string) (v : Z) (k : nat) : Z * nat * string :=
  match s with
  | EmptyString => (v, k, s)
  | String c s' =>
      match digit_val c with
      | Some d => if d <? b then scan_digits b s' (v * b + d) (S k) else (v, k, s)
      | None => (v, k, s)
      end
  end.

(** White space and an optional sign. *)
Definition scan_sign (s : string) : bool * string :=
  match s with
  | String c s' =>
      if decide (c = "-"%char) then (true, s')
      else if decide (c = "+"%char) then (false, s') else (false, s)
  | EmptyString => (false, s)
  end.

(** A [0x] prefix is consumed only when a hexadecimal digit follows it. *)
Definition strip_0x (s : string) : option string :=
  match s with
  | String c0 (String cx (String d s')) =>
      if decide (c0 = "0"%char) then
        if decide (cx = "x"%char) then
          match digit_val d with
          | Some v => if v <? 16 then Some (String d s') else None
          | None => None
          end
        else if decide (cx = "X"%char) then
          match digit_val d with
          | Some v => if v <? 16 then Some (String d s') else None
          | None => None
          end
        else None
      else None
  | _ => None
  end.

(** The base in effect and the digits to read in it. *)
Definition strto_base (base : Z) (s : string) : Z * string :=
  if (base =? 0) || (base =? 16) then
    match strip_0x s with
    | Some s' => (16, s')
    | None =>
        if base =? 16 then (16, s)
        else if has_prefix "0" s then (8, s) else (10, s)
    end
  else (base, s).

(** Sign, magnitude and the text after the number; [None] when there is no
    digit at all, where the end pointer is the argument itself. *)
Definition strto (base : Z) (s : string) : option (bool * Z * string) :=
  let '(neg, s1) := scan_sign (skip_space s) in
  let '(b, s2) := strto_base base s1 in
  let '(v, k, rest) := scan_digits b s2 0 0 in
  if (k =? 0)%nat then None else Some (neg, v, rest).

Definition ULONG_MAX : Z := 2 ^ 64 - 1.
Definition LONG_MAX : Z := 2 ^ 63 - 1.
Definition LONG_MIN : Z := - 2 ^ 63.

(** [strtoul]: the value, whether the range error occurred, and the text at the
    end pointer; [None] when no digits were found (value 0, end pointer at the
    argument). *)
Definition strtoul (base : Z) (s : string) : option (Z * bool * string) :=
  '(neg, v, rest) ← strto base s;
  if v >? ULONG_MAX then Some (ULONG_MAX, true, rest)
  else Some (if (neg : bool) then u64 (- v) else v, false, rest).

Definition strtol (base : Z) (s : string) : option (Z * bool * string) :=
  '(neg, v, rest) ← strto base s;
  let x := if (neg : bool) then - v else v in
  if x >? LONG_MAX then Some (LONG_MAX, true, rest)
  else if x <? LONG_MIN then Some (LONG_MIN, true, rest)
  else Some (x, false, rest).

(** ** Lemmas *)

Lemma sforall_impl (p q : ascii -> bool) s : (forall c, p c = true -> q c = true) -> sforall p s = true -> sforall q s = true.
Proof. intros Hpq. induction s as [|c s IH]; [done|]. cbn. intros [Hc Hs]%andb_prop. by rewrite (Hpq c Hc), IH. Qed.

Lemma sapp_nil s : EmptyString +:+ s = s.
Proof. reflexivity. Qed.
Lemma sapp_cons c s t : String c s +:+ t = String c (s +:+ t).
Proof. reflexivity. Qed.
Lemma sapp_nil_r s : s +:+ EmptyString = s.
Proof. induction s as [|c s IH]; [done|]. by rewrite sapp_cons, IH. Qed.
Lemma sapp_assoc s t u : s +:+ (t +:+ u) = (s +:+ t) +:+ u.
Proof. induction s as [|c s IH]; [done|]. by rewrite !sapp_cons, IH. Qed.
Lemma sforall_app p s t : sforall p (s +:+ t) = sforall p s && sforall p t.
Proof. induction s as [|c s IH]; [done|]. rewrite sapp_cons. cbn. by rewrite IH, andb_assoc. Qed.

Lemma slen_app s t : slen (s +:+ t) = slen s + slen t.
Proof.
  unfold slen. induction s as [|c s IH]; [done|]. rewrite sapp_cons. cbn [String.length]. lia.
Qed.

Create Rewrite HintDb cstring.
#[export] Hint Rewrite sapp_nil sapp_cons sapp_nil_r : cstring.

Lemma code_chr z : 0 <= z < 256 -> code (chr z) = z.
Proof.
  intros. unfold code, chr. rewrite u8_small by done.
  rewrite N_ascii_embedding by lia. lia.
Qed.

Lemma code_inj c d : code c = code d -> c = d.
Proof.
  unfold code. intros E%N2Z.inj. rewrite <- (ascii_N_embedding c), <- (ascii_N_embedding d). by rewrite E.
Qed.

Lemma digit_val_char d : 0 <= d < 16 -> digit_val (digit_char d) = Some d.
Proof.
  intros. unfold digit_val, digit_char, isdigit.
  destruct (Z.ltb_spec d 10); rewrite !code_chr by lia.
  - rewrite !(proj2 (Z.leb_le _ _)) by lia. cbn. f_equal. lia.
  - rewrite (proj2 (Z.leb_gt (87 + d) 57)) by lia. rewrite andb_false_r.
    rewrite !(proj2 (Z.leb_le _ _)) by lia. cbn. f_equal. lia.
Qed.

Lemma span_all p s t c :
  sforall p s = true -> p c = false -> span p (s +:+ String c t) = (s, String c t).
Proof.
  intros Hs Hc. induction s as [|a s IH]; rewrite ?sapp_nil, ?sapp_cons; cbn in *; [by rewrite Hc|].
  apply andb_prop in Hs as [-> Hs]. by rewrite IH.
Qed.

Lemma span_end p s : sforall p s = true -> span p s = (s, EmptyString).
Proof.
  intros Hs. induction s as [|a s IH]; cbn in *; [done|].
  apply andb_prop in Hs as [-> Hs]. by rewrite IH.
Qed.

(** ** Printing and reading back *)

Lemma print_base_acc f b n acc :
  print_base f b n acc = print_base f b n "" +:+ acc.
Proof.
  revert n acc. induction f as [|f IH]; intros n acc; [done|]. cbn [print_base].
  destruct (n <? b); [done|]. rewrite (IH _ (String _ acc)), (IH _ (String _ "")).
  by rewrite <- sapp_assoc.
Qed.

Lemma scan_digits_app b s t v k v' k' :
  scan_digits b s v k = (v', k', "") -> scan_digits b (s +:+ t) v k = scan_digits b t v' k'.
Proof.
  revert v k. induction s as [|c s IH]; intros v k; rewrite ?sapp_cons; cbn [scan_digits].
  - intros [= -> ->]. done.
  - destruct (digit_val c) as [d|]; [|done]. destruct (d <? b); [apply IH|done].
Qed.

(** Reading the digits of [n] back gives [n], whatever was read before. *)
Lemma scan_print f b n v k :
  2 <= b <= 16 -> (0 < f)%nat -> 0 <= n < 2 ^ Z.of_nat f ->
  exists j : nat, (0 < j)%nat /\
    scan_digits b (print_base f b n "") v k = (v * b ^ Z.of_nat j + n, (k + j)%nat, "").
Proof.
  intros Hb. revert n v k. induction f as [|f IH]; intros n v k Hf Hn; [lia|].
  cbn [print_base]. destruct (Z.ltb_spec n b).
  - exists 1%nat. split; [lia|]. cbn [scan_digits]. rewrite digit_val_char by lia.
    rewrite (proj2 (Z.ltb_lt n b)) by done. rewrite Z.pow_1_r. do 2 f_equal. lia.
  - rewrite print_base_acc. rewrite Nat2Z.inj_succ, Z.pow_succ_r in Hn by lia.
    assert (Hq : 0 <= n / b < 2 ^ Z.of_nat f).
    { split; [apply Z.div_pos; lia|]. apply Z.div_lt_upper_bound; nia. }
    assert (Hf' : (0 < f)%nat).
    { destruct f; [|lia]. assert (1 <= n / b) by (apply Z.div_le_lower_bound; lia).
      rewrite Z.pow_0_r in Hq. lia. }
    destruct (IH (n / b) v k Hf' Hq) as (j & Hj & Hs). exists (S j). split; [lia|].
    rewrite (scan_digits_app _ _ _ _ _ _ _ Hs). cbn [scan_digits].
    pose proof (Z.mod_pos_bound n b ltac:(lia)).
    rewrite digit_val_char, (proj2 (Z.ltb_lt _ _)) by lia.
    rewrite Nat2Z.inj_succ, Z.pow_succ_r by lia.
    replace (k + S j)%nat with (S (k + j)) by lia. do 2 f_equal.
    pose proof (Z.div_mod n b ltac:(lia)). nia.
Qed.

Lemma print_base_digits f b n :
  2 <= b <= 10 -> 0 <= n -> sforall isdigit (print_base f b n "") = true.
Proof.
  assert (Hd : forall d, 0 <= d < 10 -> isdigit (digit_char d) = true).
  { intros d Hd. unfold isdigit, digit_char. rewrite (proj2 (Z.ltb_lt d 10)) by lia.
    rewrite !code_chr by lia. rewrite !(proj2 (Z.leb_le _ _)) by lia. done. }
  intros Hb. assert (Hacc : forall acc, 0 <= n -> sforall isdigit acc = true ->
    sforall isdigit (print_base f b n acc) = true).
  { revert n. induction f as [|f IH]; intros n acc Hn Ha; [done|]. cbn [print_base].
    pose proof (Z.mod_pos_bound n b ltac:(lia)).
    destruct (Z.ltb_spec n b); [|apply IH; [apply Z.div_pos; lia|]]; cbn;
      rewrite Hd, Ha by lia; done. }
  auto.
Qed.

Lemma substring_full s n : slen s <= Z.of_nat n -> String.substring 0 n s = s.
Proof.
  revert n. induction s as [|c s IH]; intros n Hn; [by destruct n|].
  unfold slen in *. cbn [String.length] in Hn. destruct n as [|n]; [lia|].
  cbn [String.substring]. f_equal. apply IH. lia.
Qed.

(** ** Lengths of numbers *)

Lemma slen_cons c s : slen (String c s) = slen s + 1.
Proof. unfold slen. cbn. lia. Qed.

Lemma slen_nonneg s : 0 <= slen s.
Proof. unfold slen. lia. Qed.

(** A number below [b ^ k] has at most [k] digits. *)
Lemma slen_print_base b (k : nat) : forall f n acc,
  2 <= b -> 0 <= n < b ^ Z.of_nat (S k) -> slen (print_base f b n acc) <= Z.of_nat (S k) + slen acc.
Proof.
  induction k as [|k IH]; intros [|f] n acc Hb Hn; cbn [print_base]; try (pose proof (slen_nonneg acc); lia).
  - rewrite Z.pow_1_r in Hn. rewrite (proj2 (Z.ltb_lt _ _)), slen_cons by lia. lia.
  - destruct (Z.ltb_spec n b); [rewrite slen_cons; lia|].
    etransitivity; [apply IH; [done|]|rewrite slen_cons; lia].
    rewrite (Nat2Z.inj_succ (S k)), Z.pow_succ_r in Hn by lia.
    split; [apply Z.div_pos; lia|apply Z.div_lt_upper_bound; lia].
Qed.

Lemma slen_dec_le n (k : nat) : 0 <= n < 10 ^ Z.of_nat (S k) -> slen (dec n) <= Z.of_nat (S k).
Proof.
  intros Hn. unfold dec. rewrite (proj2 (Z.ltb_ge _ _)) by lia.
  etransitivity; [by apply (slen_print_base 10 k)|]. change (slen "") with 0. lia.
Qed.

Lemma slen_string_of_list l : slen (String.string_of_list_ascii l) = Z.of_nat (length l).
Proof. induction l as [|c l IH]; [done|]. cbn [String.string_of_list_ascii length]. rewrite slen_cons, IH. lia. Qed.

Lemma slen_hex_pad4 n : 0 <= n < 65536 -> slen (hex_pad 4 n) <= 4.
Proof.
  intros Hn. unfold hex_pad, pad0. rewrite slen_app, slen_string_of_list, length_replicate.
  assert (slen (hex n) <= 4).
  { unfold hex. etransitivity; [by apply (slen_print_base 16 3)|]. change (slen "") with 0. lia. }
  unfold slen in *. lia.
Qed.

Lemma slen_substring_le i n s : slen (String.substring i n s) <= slen s.
Proof.
  revert i n. induction s as [|c s IH]; intros i n; [by destruct i, n|]. rewrite slen_cons.
  destruct i as [|i]; [destruct n as [|n]|]; cbn [String.substring].
  - change (slen "") with 0. pose proof (slen_nonneg s). lia.
  - rewrite slen_cons. specialize (IH 0%nat n). lia.
  - specialize (IH i n). lia.
Qed.

(** ** Numbers followed by something else *)

(** What follows does not continue a number. *)
Definition stops (t : string) : bool :=
  match t with EmptyString => true | String c _ => match digit_val c with Some _ => false | None => true end end.

Lemma scan_stops b t v k : stops t = true -> scan_digits b t v k = (v, k, t).
Proof. destruct t as [|c t]; [done|]. cbn. by destruct (digit_val c). Qed.

(** The first digit printed, which is not a zero in front of others. *)
Lemma print_base_head f b n :
  2 <= b <= 16 -> (0 < f)%nat -> 0 <= n < 2 ^ Z.of_nat f ->
  exists d t, print_base f b n "" = String (digit_char d) t /\ 0 <= d < b /\ (d = 0 -> n = 0 /\ t = EmptyString).
Proof.
  intros Hb. revert n. induction f as [|f IH]; intros n Hf Hn; [lia|]. cbn [print_base].
  destruct (Z.ltb_spec n b); [exists n, EmptyString; split_and!; done || lia|].
  rewrite Nat2Z.inj_succ, Z.pow_succ_r in Hn by lia.
  assert (Hq : 1 <= n / b < 2 ^ Z.of_nat f).
  { split; [apply Z.div_le_lower_bound; lia|]. apply Z.div_lt_upper_bound; nia. }
  assert (Hf' : (0 < f)%nat) by (destruct f; [rewrite Z.pow_0_r in Hq; lia|lia]).
  destruct (IH (n / b) Hf' ltac:(lia)) as (d & t & Hp & Hd & Hz). rewrite print_base_acc, Hp.
  exists d, (t +:+ String (digit_char (n mod b)) ""). split_and!; [done|lia..|]. intros Hd0. destruct (Hz Hd0). lia.
Qed.

Lemma digit_char_plain d : 0 <= d < 16 ->
  isspace (digit_char d) = false /\ digit_char d <> "-"%char /\ digit_char d <> "+"%char /\
  digit_char d <> "x"%char /\ digit_char d <> "X"%char /\ (digit_char d = "0"%char <-> d = 0).
Proof.
  intros Hd. assert (Hc : code (digit_char d) = if d <? 10 then 48 + d else 87 + d).
  { unfold digit_char. destruct (Z.ltb_spec d 10); apply code_chr; lia. }
  assert (Hne : forall c, code c <> code (digit_char d) -> digit_char d <> c) by (intros c Hn <-; done).
  split_and!.
  - unfold isspace. rewrite Hc. destruct (Z.ltb_spec d 10); lia.
  - apply Hne. rewrite Hc. change (code "-") with 45. destruct (Z.ltb_spec d 10); lia.
  - apply Hne. rewrite Hc. change (code "+") with 43. destruct (Z.ltb_spec d 10); lia.
  - apply Hne. rewrite Hc. change (code "x") with 120. destruct (Z.ltb_spec d 10); lia.
  - apply Hne. rewrite Hc. change (code "X") with 88. destruct (Z.ltb_spec d 10); lia.
  - split; [|by intros ->]. intros He. rewrite He in Hc. change (code "0") with 48 in Hc. destruct (Z.ltb_spec d 10); lia.
Qed.

Lemma has_prefix_char c d s : has_prefix (String c "") (String d s) = bool_decide (c = d).
Proof. unfold has_prefix. cbn. by destruct (decide (c = d)), (bool_decide_reflect (c = d)). Qed.

Lemma strip_0x_not c s : (forall t, s <> String "x" t) -> (forall t, s <> String "X" t) -> strip_0x (String c s) = None.
Proof.
  intros Hx HX. destruct s as [|cx [|d s]]; try done. cbn. destruct (decide (c = "0"%char)); [|done].
  destruct (decide (cx = "x"%char)) as [->|]; [by edestruct Hx|]. by destruct (decide (cx = "X"%char)) as [->|]; [edestruct HX|].
Qed.

(** Reading back a number [dec] or [hex] printed, up to the end of its digits. *)
Lemma strto_print base b n t :
  base = b /\ 2 <= b <= 16 \/ base = 0 /\ b = 10 -> 0 <= n < 2 ^ 64 -> stops t = true ->
  strto base (print_base 64 b n "" +:+ t) = Some (false, n, t).
Proof.
  intros Hb Hn Ht. assert (Hb2 : 2 <= b <= 16) by lia.
  destruct (scan_print 64 b n 0 0 Hb2 ltac:(lia) Hn) as (j & Hj & Hscan).
  destruct (print_base_head 64 b n Hb2 ltac:(lia) Hn) as (d & t0 & Hp & Hd & Hz).
  destruct (digit_char_plain d ltac:(lia)) as (Hsp & Hm & Hpl & Hx & HX & H0).
  assert (Hnox : forall c, digit_val c <> None -> c <> "0"%char -> d = 0 -> forall u, t0 +:+ t <> String c u).
  { intros c Hc _ Hd0 u He. destruct (Hz Hd0) as [_ ->]. rewrite sapp_nil in He. subst t. cbn in Ht. by destruct (digit_val c). }
  assert (Hnum : scan_digits b (print_base 64 b n "" +:+ t) 0 0 = (n, j, t)).
  { rewrite (scan_digits_app _ _ _ _ _ _ _ Hscan), scan_stops by done. f_equal. }
  unfold strto. rewrite Hp, sapp_cons. unfold skip_space. cbn [span]. rewrite Hsp. cbn [snd scan_sign].
  rewrite decide_False, decide_False by done. unfold strto_base.
  assert (Hst : strip_0x (String (digit_char d) (t0 +:+ t)) = None).
  { destruct (decide (d = 0)) as [->|Hd0].
    - apply strip_0x_not; intros u; by apply (Hnox _).
    - destruct (t0 +:+ t) as [|c1 [|c2 u]]; try done. cbn. rewrite decide_False; [done|]. by intros ?%H0. }
  rewrite Hst, has_prefix_char. rewrite <- sapp_cons, <- Hp.
  destruct Hb as [[-> _]|[-> ->]].
  - destruct (b =? 0) eqn:E0; [lia|]. cbn [orb]. destruct (b =? 16) eqn:E16.
    + apply Z.eqb_eq in E16 as ->. rewrite Hnum. destruct j; [lia|done].
    + rewrite Hnum. destruct j; [lia|done].
  - cbn [Z.eqb orb]. destruct (bool_decide_reflect ("0"%char = digit_char d)) as [He|].
    + symmetry in He. apply H0 in He as Hd0. destruct (Hz Hd0) as [-> ->]. rewrite Hp, He, sapp_cons, sapp_nil.
      change (scan_digits 8 (String "0" t) 0 0) with (scan_digits 8 t 0 1). by rewrite scan_stops.
    + rewrite Hnum. destruct j; [lia|done].
Qed.

Lemma strtoul_print base b n t :
  base = b /\ 2 <= b <= 16 \/ base = 0 /\ b = 10 -> 0 <= n < 2 ^ 64 -> stops t = true ->
  strtoul base (print_base 64 b n "" +:+ t) = Some (n, false, t).
Proof.
  intros Hb Hn Ht. unfold strtoul. rewrite (strto_print _ _ _ _ Hb Hn Ht). cbn [mbind option_bind].
  unfold ULONG_MAX. case_test; [lia|done].
Qed.

Lemma dec_pos n : 0 <= n -> dec n = print_base 64 10 n "".
Proof. intros. unfold dec. by rewrite (proj2 (Z.ltb_ge _ _)). Qed.

Lemma digit_val_nonneg c d : digit_val c = Some d -> 0 <= d.
Proof. unfold digit_val, isdigit. repeat case_test; intros [= <-]; bool_to_prop; lia. Qed.

Lemma scan_digits_pos b s v k x j r : 0 <= v -> scan_digits b s v k = (x, j, r) -> 0 <= x.
Proof.
  revert v k. induction s as [|c s IH]; intros v k Hv; cbn [scan_digits]; [by intros [= <- _ _]|].
  destruct (digit_val c) as [d|] eqn:E; [|by intros [= <- _ _]]. apply digit_val_nonneg in E.
  destruct (Z.ltb_spec d b); [|by intros [= <- _ _]]. apply IH. nia.
Qed.
