(* ===== verification/Utils.v ===== *)
(** * Text utilities of iproute2

    Models the parsers and printers of [iproute2-4.18.0/lib/utils.c] that work on
    text: the number parsers, hexadecimal strings, interface names, GUIDs, the
    splitting of a batch file into commands and words, and escaped output. A C
    string is a [string]; a function that returns [-1] or a null pointer gives
    [None]. A null argument is not represented. [Addr] models the addresses. *)
From stdpp Require Import base list numbers strings.
From Stdlib Require Import ZArith Lia Ascii.
From S2P Require Import Prelude Cstring.

Open Scope Z_scope.

(** ** Numbers *)

(** The number at the start of [arg] when nothing follows it: the value and whether
    [errno] is [ERANGE] afterwards, [errno] telling whether it was before the call. *)
Definition whole (errno : bool) (arg : string) (r : option (Z * bool * string)) : option (Z * bool) :=
  if decide (arg = EmptyString) then None
  else
    '(res, range, rest) ← r;
    if decide (rest = EmptyString) then Some (res, errno || range) else None.

(** The body the unsigned parsers share, up to the largest value each accepts. *)
Definition get_ulong (max : Z) (errno : bool) (arg : string) (base : Z) : option Z :=
  '(res, err) ← whole errno arg (strtoul base arg);
  if (res =? ULONG_MAX) && err then None
  else if res >? max then None else Some res.

Definition get_unsigned : bool -> string -> Z -> option Z := get_ulong 0xFFFFFFFF.
Definition get_u64 : bool -> string -> Z -> option Z := get_ulong 0xFFFFFFFFFFFFFFFF.
Definition get_u32 : bool -> string -> Z -> option Z := get_ulong 0xFFFFFFFF.
Definition get_u16 : bool -> string -> Z -> option Z := get_ulong 0xFFFF.
Definition get_u8 : bool -> string -> Z -> option Z := get_ulong 0xFF.

Definition get_long (min max : Z) (errno : bool) (arg : string) (base : Z) : option Z :=
  '(res, err) ← whole errno arg (strtol base arg);
  if ((res =? LONG_MAX) || (res =? LONG_MIN)) && err then None
  else if (res <? min) || (res >? max) then None else Some res.

Definition get_integer : bool -> string -> Z -> option Z := get_long (-2147483648) 2147483647.
(** [get_s32] clears [errno] first. *)
Definition get_s32 (arg : string) (base : Z) : option Z := get_long (-2147483648) 2147483647 false arg base.
Definition get_s16 : bool -> string -> Z -> option Z := get_long (-0x8000) 0x7FFF.
Definition get_s8 : bool -> string -> Z -> option Z := get_long (-0x80) 0x7F.

(** The same number in network byte order, as the bytes in memory. *)
Definition get_be64 (errno : bool) (arg : string) (base : Z) : option (list Z) := be_bytes 8 <$> get_u64 errno arg base.
Definition get_be32 (errno : bool) (arg : string) (base : Z) : option (list Z) := be_bytes 4 <$> get_u32 errno arg base.
Definition get_be16 (errno : bool) (arg : string) (base : Z) : option (list Z) := be_bytes 2 <$> get_u16 errno arg base.

(** ** Hexadecimal strings *)

Definition get_hex (c : ascii) : Z :=
  if (code "A" <=? code c) && (code c <=? code "F") then code c - code "A" + 10
  else if (code "a" <=? code c) && (code c <=? code "f") then code c - code "a" + 10
  else if (code "0" <=? code c) && (code c <=? code "9") then code c - code "0"
  else - 1.

(** [buf] is the string written so far. *)
Fixpoint hexstring_n2a (str : list Z) (buf : string) (blen : Z) : string :=
  match str with
  | [] => buf
  | b :: str' => if blen <? 3 then buf else hexstring_n2a str' (buf +:+ hex_pad 2 b) (blen - 2)
  end.

(** The loop of [hexstring_a2n]; the outer [None] is a store outside [buf]. *)
Fixpoint a2n_loop (str : string) (buf : list Z) (blen cnt : Z) : option (option (list Z * Z)) :=
  if cnt <? blen then
    match str with
    | String c0 (String c1 str') =>
        match strtoul 16 (String c0 (String c1 "")) with
        | Some (v, false, EmptyString) =>
            if u32 v >? 0xFF then Some None
            else if cnt <? Z.of_nat (length buf) then a2n_loop str' (<[Z.to_nat cnt := u32 v]> buf) blen (cnt + 1)
            else None
        | _ => Some None
        end
    | _ => Some (Some (buf, cnt))
    end
  else Some (Some (buf, cnt)).

(** [cnt < blen] compares unsigned numbers. *)
Definition hexstring_a2n (str : string) (buf : list Z) (blen : Z) : option (option (list Z * Z)) :=
  if Z.odd (slen str) then Some None else a2n_loop str buf (u32 blen) 0.

(** [buf] is read up to and including its terminator, for which [get_hex] fails. *)
Fixpoint hex2mem (buf : string) (count : nat) : option (list Z) :=
  match count with
  | O => Some []
  | S n =>
      match buf with
      | String c0 (String c1 buf') =>
          if get_hex c0 <? 0 then None
          else if get_hex c1 <? 0 then None
          else mem ← hex2mem buf' n; Some (Z.lor (u8 (Z.shiftl (get_hex c0) 4)) (get_hex c1) :: mem)
      | _ => None
      end
  end.

(** ** GUIDs *)

Definition sdrop (n : nat) (s : string) : string := String.substring n (String.length s - n) s.

Definition GUID_STR_LEN : Z := 23.

Fixpoint guid_loop (arg : string) (i n : nat) (guid : Z) : option Z :=
  match n with
  | O => Some guid
  | S n' =>
      let cp := sdrop (i * 3) arg in
      '(tmp, _, endptr) ← strtoul 16 cp;
      if negb (slen cp - slen endptr =? 2) then None
      else if tmp >? 255 then None
      else guid_loop arg (S i) n' (u64 (Z.lor guid (Z.shiftl tmp (56 - 8 * Z.of_nat i))))
  end.

Definition get_guid (arg : string) : option Z :=
  if negb (slen arg =? GUID_STR_LEN) then None
  else if forallb (fun i => bool_decide (String.get (2 + i * 3) arg = Some ":"%char)) (seq 0 7) then guid_loop arg 0 8 0
  else None.

(** ** Interface names *)

Definition IFNAMSIZ : Z := 16.

Definition check_ifname (name : string) : Z :=
  if decide (name = EmptyString) then - 1
  else if slen name >=? IFNAMSIZ then - 1
  else if sforall (fun c => negb (bool_decide (c = "/"%char) || isspace c)) name then 0 else - 1.

Definition string_bytes (s : string) : list Z := code <$> String.list_ascii_of_string s.

(** The sixteen bytes [strncpy] stores, or nothing. *)
Definition get_ifname (name : string) : Z * option (list Z) :=
  let ret := check_ifname name in
  (ret, if ret =? 0 then Some (take 16 (string_bytes name ++ replicate 16 0)) else None).

(** ** Commands and words *)

Definition word_char (c : ascii) : bool :=
  bool_decide (c = " "%char) || (code c =? 9) || (code c =? 13) || (code c =? 10).

(** Whether a word starts with a quote, and with which. *)
Definition quote_of (s : string) : option (ascii * string) :=
  match s with
  | String c s' => if bool_decide (c = "'"%char) || (code c =? 34) then Some (c, s') else None
  | EmptyString => None
  end.

(** How [makeargs] ends: the words, one of its two exits, or out of fuel. *)
Inductive args_result := Args (argv : list string) | TooMany | Unterminated | NoFuel.

(** Each round takes at least one character, so that the length of the line is
    enough fuel. The words are stored in [argv] from index [argc] on, and end at the
    byte set to zero. *)
Fixpoint makeargs_loop (fuel : nat) (cp : string) (argv : list string) (maxargs : Z) : args_result :=
  match fuel with
  | O => NoFuel
  | S f =>
      match (span word_char cp).2 with
      | EmptyString => Args argv
      | cp' =>
          if Z.of_nat (length argv) >=? maxargs - 1 then TooMany
          else
            match quote_of cp' with
            | Some (quote, s) =>
                match span (fun c => negb (bool_decide (c = quote))) s with
                | (w, String _ rest) => makeargs_loop f rest (argv ++ [w]) maxargs
                | (_, EmptyString) => Unterminated
                end
            | None =>
                match span (fun c => negb (word_char c)) cp' with
                | (w, String _ rest) => makeargs_loop f rest (argv ++ [w]) maxargs
                | (w, EmptyString) => Args (argv ++ [w])
                end
            end
      end
  end.

Definition makeargs (line : string) (maxargs : Z) : args_result :=
  makeargs_loop (S (String.length line)) line [] maxargs.

Definition cut_comment (line : string) : string := (span (fun c => negb (bool_decide (c = "#"%char))) line).1.

(** [strstr(line, "\\\n")]: the text before the first backslash at a line end. *)
Fixpoint before_continuation (line : string) : option string :=
  match line with
  | String c ((String d _) as l') =>
      if (code c =? 92) && (code d =? 10) then Some EmptyString
      else String c <$> before_continuation l'
  | _ => None
  end.

(** The file is the list of lines [getline] returns, with their line ends. The
    result is the count, the line, the new [cmdlineno] and the rest of the file;
    [None] is the end of the file, reached too early after a backslash. The while
    loop replaces the text from the first backslash and line end on by the next
    line, and a line appended may bring in another one. *)
Fixpoint continue_line (line : string) (cc lineno : Z) (file : list string) : option (Z * string * Z * list string) :=
  match before_continuation line with
  | None => Some (cc, line, lineno, file)
  | Some head =>
      match file with
      | [] => None
      | line1 :: file' => continue_line (head +:+ cut_comment line1) (cc + (slen line1 - 2)) (lineno + 1) file'
      end
  end.

Definition getcmdline (lineno : Z) (file : list string) : option (Z * string * Z * list string) :=
  match file with
  | [] => None
  | line :: file' => continue_line (cut_comment line) (slen line) (lineno + 1) file'
  end.

(** ** Output *)

Definition escape_byte (b : Z) (escape : string) : string :=
  let c := chr b in
  if isprint c && negb (code c =? 92) && sforall (fun e => negb (bool_decide (e = c))) escape
  then String c "" else String (chr 92) (pad0 3 (print_base 64 8 b "")).

Fixpoint print_escape_buf (buf : list Z) (escape : string) : string :=
  match buf with
  | [] => EmptyString
  | b :: buf' => escape_byte b escape +:+ print_escape_buf buf' escape
  end.

(** ** Bounded strings *)

(** [dst] is the memory from the destination on; [None] is a store outside it. *)
Definition strlcpy (dst : list Z) (src : string) (size : Z) : option (list Z * Z) :=
  let srclen := slen src in
  if size =? 0 then Some (dst, srclen)
  else
    let minlen := Z.min srclen (size - 1) in
    dst' ← mem_write dst 0 (take (Z.to_nat minlen) (string_bytes src));
    dst'' ← mem_write dst' minlen [0];
    Some (dst'', srclen).

(** [strlen], of the bytes up to the first zero; [None] when there is none. *)
Fixpoint strlen (l : list Z) : option Z :=
  match l with
  | [] => None
  | b :: l' => if b =? 0 then Some 0 else Z.succ <$> strlen l'
  end.

Definition strlcat (dst : list Z) (src : string) (size : Z) : option (list Z * Z) :=
  dlen ← strlen dst;
  if dlen >=? size then Some (dst, dlen + slen src)
  else
    '(d, n) ← strlcpy (drop (Z.to_nat dlen) dst) src (size - dlen);
    Some (take (Z.to_nat dlen) dst ++ d, dlen + n).

(** ** Link statistics *)

Definition sizeof_rtnl_link_stats : Z := 4 * 24.
Definition sizeof_rtnl_link_stats64 : Z := 8 * 24.

(** Each 32-bit counter becomes a 64-bit one. *)
Fixpoint copy_rtnl_link_stats64 (n : nat) (stats : list Z) : list Z :=
  match n with
  | O => []
  | S n' => le_bytes 8 (le_val (take 4 stats)) ++ copy_rtnl_link_stats64 n' (drop 4 stats)
  end.

(** The payload, cut or filled up with zeros to the size. *)
Definition fit_payload (payload : list Z) (size : Z) : list Z :=
  let len := Z.of_nat (length payload) in
  if len <? size then payload ++ replicate (Z.to_nat (size - len)) 0 else take (Z.to_nat size) payload.

(** The two attributes are their payloads; the result is the size and the new
    contents of [stats64]. *)
Definition get_rtnl_link_stats_rta (tb_stats64 tb_stats : option (list Z)) : option (Z * list Z) :=
  match tb_stats64, tb_stats with
  | Some p, _ => Some (sizeof_rtnl_link_stats64, fit_payload p sizeof_rtnl_link_stats64)
  | None, Some p => Some (sizeof_rtnl_link_stats, copy_rtnl_link_stats64 24 (fit_payload p sizeof_rtnl_link_stats))
  | None, None => None
  end.

(** ** Lemmas on numbers *)

Lemma whole_Some errno arg r v e : whole errno arg r = Some (v, e) -> exists range, r = Some (v, range, EmptyString) /\ e = errno || range.
Proof.
  unfold whole. case_decide; [done|]. destruct r as [[[res range] rest]|]; [|done]. cbn [mbind option_bind].
  case_decide; [|done]. subst. intros [= <- <-]. by exists range.
Qed.

Lemma whole_print errno arg v : arg <> EmptyString -> whole errno arg (Some (v, false, EmptyString)) = Some (v, errno).
Proof. intros. unfold whole. rewrite decide_False by done. cbn. by rewrite orb_false_r. Qed.

Lemma print_base_ne f b n : (0 < f)%nat -> print_base f b n "" <> EmptyString.
Proof. destruct f; [lia|]. intros _. cbn [print_base]. destruct (n <? b); [done|]. rewrite print_base_acc. by destruct (print_base f b (n / b) ""). Qed.

Lemma dec_ne n : dec n <> EmptyString.
Proof. unfold dec. destruct (n <? 0); [done|]. apply print_base_ne. lia. Qed.

Lemma strtoul_range base s v e t : strtoul base s = Some (v, e, t) -> 0 <= v <= ULONG_MAX.
Proof.
  unfold strtoul. destruct (strto base s) as [[[neg m] rest]|] eqn:E; [|done]. cbn [mbind option_bind].
  assert (0 <= m).
  { unfold strto in E. destruct (scan_sign _) as [ng s1]. destruct (strto_base base s1) as [b s2].
    destruct (scan_digits b s2 0 0) as [[x k] r] eqn:Es. destruct (k =? 0)%nat; [done|]. simplify_eq. by eapply scan_digits_pos in Es. }
  unfold ULONG_MAX. case_test; [intros [= <- <- <-]; lia|]. destruct neg; intros [= <- <- <-]; [|lia].
  pose proof (u64_range (- m)). lia.
Qed.

Lemma get_ulong_range max errno s base v : get_ulong max errno s base = Some v -> 0 <= v <= max.
Proof.
  unfold get_ulong. destruct (whole errno s _) as [[res err]|] eqn:E; [|done]. cbn [mbind option_bind].
  apply whole_Some in E as (range & E & _). apply strtoul_range in E.
  case_test; [done|]. case_test; [done|]. intros [= <-]. lia.
Qed.

Lemma get_long_range min max errno s base v : get_long min max errno s base = Some v -> min <= v <= max.
Proof.
  unfold get_long. destruct (whole errno s _) as [[res err]|]; [|done]. cbn [mbind option_bind].
  case_test; [done|]. case_test; [done|]. intros [= <-]. bool_to_prop. lia.
Qed.

Lemma get_ulong_dec max errno n base :
  base = 10 \/ base = 0 -> 0 <= n < ULONG_MAX -> get_ulong max errno (dec n) base = if n <=? max then Some n else None.
Proof.
  intros Hb Hn. unfold ULONG_MAX in Hn. unfold get_ulong.
  assert (strtoul base (dec n) = Some (n, false, EmptyString)) as ->.
  { rewrite dec_pos, <- (sapp_nil_r (print_base _ _ _ _)) by lia. apply strtoul_print; done || lia. }
  rewrite whole_print by apply dec_ne.
  cbn [mbind option_bind]. unfold ULONG_MAX. rewrite (proj2 (Z.eqb_neq _ _)) by lia. cbn [andb].
  destruct (Z.leb_spec n max); case_test; done || lia.
Qed.

Lemma span_skip p s t : sforall p s = true -> (span p (s +:+ t)).2 = (span p t).2.
Proof.
  induction s as [|c s IH]; intros Hs; [done|]. rewrite sapp_cons. cbn in *. apply andb_prop in Hs as [-> Hs].
  specialize (IH Hs). by destruct (span p (s +:+ t)).
Qed.

Lemma span_none p c s : p c = false -> (span p (String c s)).2 = String c s.
Proof. intros Hc. cbn. by rewrite Hc. Qed.

(** A decimal number as it is written: white space, a sign, digits; and its value. *)
Definition sign_text (sign : option bool) : string :=
  match sign with None => "" | Some true => "-" | Some false => "+" end.

Definition number_text (lead : string) (sign : option bool) (digits : string) : string :=
  lead +:+ (sign_text sign +:+ digits).

Fixpoint dec_val (v : Z) (digits : string) : Z :=
  match digits with EmptyString => v | String c s => dec_val (v * 10 + (code c - 48)) s end.

(** The digits are read in base ten: the base is, or is found from the first digit. *)
Definition decimal (base : Z) (digits : string) : bool :=
  negb (bool_decide (digits = EmptyString)) && sforall isdigit digits &&
  ((base =? 10) || (base =? 0) && negb (has_prefix "0" digits)).

Definition no_digit (t : string) : bool := match t with EmptyString => true | String c _ => negb (isdigit c) end.

Lemma scan_digits_text ds t : forall v k, sforall isdigit ds = true -> no_digit t = true ->
  scan_digits 10 (ds +:+ t) v k = (dec_val v ds, (k + String.length ds)%nat, t).
Proof.
  induction ds as [|c ds IH]; intros v k Hd Ht.
  - cbn [String.length dec_val]. rewrite sapp_nil, Nat.add_0_r. destruct t as [|c t]; [done|]. cbn [no_digit] in Ht. apply negb_true_iff in Ht.
    cbn [scan_digits]. destruct (digit_val c) as [d|] eqn:E; [|done]. revert E. unfold digit_val. rewrite Ht.
    repeat case_test; intros [= <-]; bool_to_prop; done || lia.
  - cbn [sforall] in Hd. apply andb_prop in Hd as [Hc Hd]. rewrite sapp_cons. cbn [scan_digits dec_val String.length]. unfold digit_val. rewrite Hc.
    unfold isdigit in Hc. case_test; [|bool_to_prop; lia]. rewrite IH by done. do 2 f_equal. lia.
Qed.

Lemma strto_base_decimal base ds t : decimal base ds = true -> strto_base base (ds +:+ t) = (10, ds +:+ t).
Proof.
  unfold decimal. intros Hd. apply andb_prop in Hd as [Hd Hb]. apply andb_prop in Hd as [Hne Hd].
  unfold strto_base. destruct (Z.eqb_spec base 10) as [->|]; [done|]. cbn [orb] in Hb. apply andb_prop in Hb as [->%Z.eqb_eq Hp]. cbn [Z.eqb orb].
  destruct ds as [|c ds]; [done|]. rewrite sapp_cons. apply negb_true_iff in Hp. unfold has_prefix in *. cbn [strip_prefix] in *.
  destruct (decide ("0"%char = c)) as [|Hc]; [done|]. unfold strip_0x.
  destruct (ds +:+ t) as [|c1 [|c2 u]]; try done. by rewrite decide_False by done.
Qed.

Lemma strto_text base lead sign ds t :
  sforall isspace lead = true -> decimal base ds = true -> no_digit t = true ->
  strto base (number_text lead sign (ds +:+ t)) = Some (bool_decide (sign = Some true), dec_val 0 ds, t).
Proof.
  intros Hl Hd Ht. pose proof Hd as Hb. unfold decimal in Hd. apply andb_prop in Hd as [Hd _]. apply andb_prop in Hd as [Hne Hds].
  assert (Hscan : scan_sign (skip_space (number_text lead sign (ds +:+ t))) = (bool_decide (sign = Some true), ds +:+ t)).
  { unfold skip_space, number_text. rewrite span_skip by done. destruct sign as [[]|]; [done..|]. cbn [sign_text]. rewrite sapp_nil.
    destruct ds as [|c ds]; [done|]. cbn in Hds. apply andb_prop in Hds as [Hc _]. unfold isdigit in Hc.
    rewrite sapp_cons, span_none by (unfold isspace; bool_to_prop; lia). cbn [scan_sign].
    rewrite !decide_False; [done|intros ->; done..]. }
  unfold strto. rewrite Hscan, strto_base_decimal, scan_digits_text by done. destruct ds; [done|]. done.
Qed.

Lemma number_text_ne lead sign ds t : ds <> EmptyString -> number_text lead sign (ds +:+ t) <> EmptyString.
Proof. unfold number_text. by destruct lead, sign as [[]|], ds. Qed.

Lemma decimal_ne base ds : decimal base ds = true -> ds <> EmptyString.
Proof. unfold decimal. by destruct ds. Qed.

Lemma decimal_digits base ds : decimal base ds = true -> sforall isdigit ds = true.
Proof. unfold decimal. intros Hd. apply andb_prop in Hd as [Hd _]. by apply andb_prop in Hd as [_ Hd]. Qed.

Lemma dec_val_nonneg ds : forall v, 0 <= v -> sforall isdigit ds = true -> 0 <= dec_val v ds.
Proof.
  induction ds as [|c ds IH]; intros v Hv Hd; [done|]. cbn in Hd |- *. apply andb_prop in Hd as [Hc Hd]. unfold isdigit in Hc.
  apply IH; [bool_to_prop; lia|done].
Qed.

(** What the unsigned and the signed parsers make of a number [v] with a sign. *)
Definition ulong_read (max : Z) (errno : bool) (sign : option bool) (v : Z) : option Z :=
  let n := if bool_decide (sign = Some true) then (- v) mod 2 ^ 64 else v in
  if (v <? 2 ^ 64) && (n <=? max) && negb ((n =? 2 ^ 64 - 1) && errno) then Some n else None.

Definition long_read (min max : Z) (sign : option bool) (v : Z) : option Z :=
  let n := if bool_decide (sign = Some true) then - v else v in
  if (min <=? n) && (n <=? max) then Some n else None.

Section texts.
Context (base : Z) (lead : string) (sign : option bool) (ds t : string) (errno : bool).
Hypothesis Hlead : sforall isspace lead = true.
Hypothesis Hds : decimal base ds = true.
Hypothesis Ht : no_digit t = true.

Let text : string := number_text lead sign (ds +:+ t).

Lemma whole_text v range : whole errno text (Some (v, range, t)) = if bool_decide (t = EmptyString) then Some (v, errno || range) else None.
Proof.
  unfold whole, text. rewrite decide_False by (eapply number_text_ne, decimal_ne, Hds). cbn [mbind option_bind].
  destruct (decide (t = "")); [by rewrite bool_decide_true|by rewrite bool_decide_false].
Qed.

Lemma get_ulong_text max : max <= 2 ^ 64 - 1 ->
  get_ulong max errno text base = if bool_decide (t = EmptyString) then ulong_read max errno sign (dec_val 0 ds) else None.
Proof.
  intros Hm. unfold get_ulong, strtoul, text. rewrite strto_text by done. cbn [mbind option_bind]. fold text.
  pose proof (dec_val_nonneg ds 0 ltac:(done) (decimal_digits _ _ Hds)) as Hv. set (v := dec_val 0 ds) in *. clearbody v.
  unfold ULONG_MAX, ulong_read, u64. set (n := if bool_decide (sign = Some true) then _ else _).
  assert (Hn : v < 2 ^ 64 -> 0 <= n < 2 ^ 64) by (intros; subst n; case_match; [apply Z.mod_pos_bound|]; lia). clearbody n.
  destruct (Z.ltb_spec v (2 ^ 64)); case_test; try lia; rewrite whole_text; destruct (bool_decide (t = "")); try done; cbn [mbind option_bind andb].
  - rewrite orb_false_r. destruct (Z.leb_spec n max); cbn [andb].
    + destruct ((n =? _) && errno); [done|]. cbn [negb]. case_test; [lia|done].
    + case_test; [done|]. case_test; [done|lia].
  - rewrite orb_true_r. by rewrite Z.eqb_refl.
Qed.

Lemma get_long_text min max : LONG_MIN < min -> max < LONG_MAX ->
  get_long min max errno text base = if bool_decide (t = EmptyString) then long_read min max sign (dec_val 0 ds) else None.
Proof.
  unfold LONG_MIN, LONG_MAX. intros Hmin Hmax. unfold get_long, strtol, text. rewrite strto_text by done. cbn [mbind option_bind]. fold text.
  unfold LONG_MAX, LONG_MIN, long_read. set (n := if bool_decide (sign = Some true) then _ else _). clearbody n.
  destruct (Z.leb_spec min n), (Z.leb_spec n max); cbn [andb]; repeat case_test; try lia; rewrite whole_text;
    destruct (bool_decide (t = "")); try done; cbn [mbind option_bind]; repeat case_test; bool_to_prop; done || lia.
Qed.
End texts.

(** ** Lemmas on hexadecimal strings *)

Lemma hex_pad2_chars b : 0 <= b < 256 -> hex_pad 2 b = String (digit_char (b / 16)) (String (digit_char (b mod 16)) "").
Proof.
  intros Hb. assert (Hall : forallb (fun b => bool_decide (hex_pad 2 b =
    String (digit_char (b / 16)) (String (digit_char (b mod 16)) ""))) (seqZ 0 256) = true) by (vm_compute; reflexivity).
  pose proof (byte_cases _ Hall b Hb) as E. by apply bool_decide_eq_true_1 in E.
Qed.

Lemma strtoul_hex2 b : 0 <= b < 256 -> strtoul 16 (hex_pad 2 b) = Some (b, false, EmptyString).
Proof.
  intros Hb. assert (Hall : forallb (fun b => bool_decide (strtoul 16 (hex_pad 2 b) = Some (b, false, EmptyString)))
    (seqZ 0 256) = true) by (vm_compute; reflexivity).
  pose proof (byte_cases _ Hall b Hb) as E. by apply bool_decide_eq_true_1 in E.
Qed.

Lemma get_hex_digit d : 0 <= d < 16 -> get_hex (digit_char d) = d.
Proof.
  intros Hd. unfold get_hex, digit_char. destruct (Z.ltb_spec d 10); rewrite code_chr by lia;
    change (code "A") with 65; change (code "F") with 70; change (code "a") with 97; change (code "f") with 102;
    change (code "0") with 48; change (code "9") with 57; repeat case_test; bool_to_prop; lia.
Qed.

Fixpoint hexstring (l : list Z) : string :=
  match l with [] => EmptyString | b :: l' => hex_pad 2 b +:+ hexstring l' end.

Lemma hexstring_n2a_all str : forall buf blen,
  2 * Z.of_nat (length str) < blen -> hexstring_n2a str buf blen = buf +:+ hexstring str.
Proof.
  induction str as [|b str IH]; intros buf blen Hl; cbn [hexstring_n2a hexstring]; [by rewrite sapp_nil_r|].
  cbn [length] in Hl. rewrite (proj2 (Z.ltb_ge _ _)) by lia. rewrite IH by lia. by rewrite sapp_assoc.
Qed.

Lemma slen_hexstring l : bytes_ok l = true -> slen (hexstring l) = 2 * Z.of_nat (length l).
Proof.
  induction l as [|b l IH]; intros Hb; [done|]. apply bytes_ok_cons in Hb as [Hb Hl]. cbn [hexstring length].
  rewrite hex_pad2_chars, slen_app, IH, !slen_cons by done. change (slen "") with 0. lia.
Qed.

Lemma a2n_loop_hexstring l : forall done rest blen,
  bytes_ok l = true -> (length l <= length rest)%nat -> Z.of_nat (length done) + Z.of_nat (length l) <= blen ->
  a2n_loop (hexstring l) (done ++ rest) blen (Z.of_nat (length done)) =
  Some (Some (done ++ l ++ drop (length l) rest, Z.of_nat (length done) + Z.of_nat (length l))).
Proof.
  induction l as [|b l IH]; intros dn rest blen Hb Hl Hblen; cbn [hexstring].
  - cbn [a2n_loop]. rewrite drop_0, Z.add_0_r. by destruct (_ <? _).
  - apply bytes_ok_cons in Hb as [Hb Hbl]. cbn [length] in *. destruct rest as [|x rest]; [cbn in Hl; lia|].
    rewrite hex_pad2_chars, !sapp_cons, sapp_nil by done. cbn [a2n_loop]. rewrite (proj2 (Z.ltb_lt _ _)) by lia.
    rewrite <- hex_pad2_chars, strtoul_hex2, u32_small by lia. case_test; [lia|]. rewrite length_app. cbn [length].
    rewrite (proj2 (Z.ltb_lt _ _)) by lia. rewrite Nat2Z.id, insert_app_r_alt, Nat.sub_diag by lia. cbn [insert list_insert].
    replace (Z.of_nat (length dn) + 1) with (Z.of_nat (length (dn ++ [b]))) by (rewrite length_app; cbn; lia).
    replace (dn ++ b :: rest) with ((dn ++ [b]) ++ rest) by (by rewrite <- app_assoc).
    cbn [length] in Hl. rewrite IH by (rewrite ?length_app; cbn; lia || done). rewrite length_app. cbn [length drop].
    rewrite <- app_assoc. do 3 f_equal. lia.
Qed.

Lemma hex2mem_hexstring l : bytes_ok l = true -> hex2mem (hexstring l) (length l) = Some l.
Proof.
  induction l as [|b l IH]; intros Hb; [done|]. apply bytes_ok_cons in Hb as [Hb Hbl]. cbn [hexstring length].
  rewrite hex_pad2_chars, !sapp_cons, sapp_nil by done. cbn [hex2mem].
  pose proof (Z.mod_pos_bound b 16 eq_refl). pose proof (Z.div_mod b 16 ltac:(lia)).
  rewrite !get_hex_digit by lia. rewrite !(proj2 (Z.ltb_ge _ _)) by lia. rewrite IH by done. cbn [mbind option_bind].
  do 2 f_equal. rewrite Z.shiftl_mul_pow2, u8_small by lia. rewrite (lor_high _ 4) by lia. lia.
Qed.

(** ** Lemmas on words *)

Lemma slength_app s t : String.length (s +:+ t) = (String.length s + String.length t)%nat.
Proof. induction s as [|c s IH]; [done|]. rewrite sapp_cons. cbn. by rewrite IH. Qed.

Lemma span_split p s : s = (span p s).1 +:+ (span p s).2.
Proof.
  induction s as [|c s IH]; [done|]. cbn [span]. destruct (p c); [|done].
  destruct (span p s) as [a b]. cbn [fst snd] in *. by rewrite sapp_cons, <- IH.
Qed.

Lemma span_length p s a b : span p s = (a, b) -> String.length s = (String.length a + String.length b)%nat.
Proof. intros E. rewrite (span_split p s), slength_app, E. done. Qed.

(** The loop ends, with fewer words than [argv] has room for. *)
Lemma makeargs_loop_total fuel : forall cp argv maxargs,
  (String.length cp < fuel)%nat -> Z.of_nat (length argv) < maxargs ->
  match makeargs_loop fuel cp argv maxargs with
  | Args l => Z.of_nat (length l) < maxargs
  | NoFuel => False
  | _ => True
  end.
Proof.
  induction fuel as [|fuel IH]; intros cp argv maxargs Hf Hl; [lia|]. cbn [makeargs_loop].
  destruct (span word_char cp) as [a [|c cp']] eqn:E; cbn [snd]; [done|]. apply span_length in E. cbn [String.length] in E.
  case_test; [done|]. destruct (quote_of (String c cp')) as [[q s]|] eqn:Eq.
  - assert (s = cp') as -> by (unfold quote_of in Eq; destruct (_ || _); by simplify_eq).
    destruct (span _ cp') as [w [|d rest]] eqn:Es; [done|]. apply span_length in Es. cbn [String.length] in Es.
    apply IH; [lia|]. rewrite length_app. cbn. lia.
  - destruct (span _ (String c cp')) as [w [|d rest]] eqn:Es; [rewrite length_app; cbn; lia|].
    apply span_length in Es. cbn [String.length] in Es. apply IH; [lia|]. rewrite length_app. cbn. lia.
Qed.

Definition is_quote (q : ascii) : bool := bool_decide (q = "'"%char) || (code q =? 34).

(** How a word can be written: bare, or between quotes it does not contain. *)
Inductive arg_text : string -> string -> Prop :=
  | bare_text c w : word_char c = false -> is_quote c = false -> sforall (fun c => negb (word_char c)) w = true ->
      arg_text (String c w) (String c w)
  | quoted_text q w : is_quote q = true -> sforall (fun c => negb (bool_decide (c = q))) w = true ->
      arg_text (String q (w +:+ String q "")) w.

(** The texts, each followed by white space. *)
Fixpoint joined (l : list (string * string)) : string :=
  match l with [] => EmptyString | (t, sep) :: l' => t +:+ (sep +:+ joined l') end.

Definition sep_ok (sep : string) : bool := negb (bool_decide (sep = EmptyString)) && sforall word_char sep.

Lemma quote_not_space q : is_quote q = true -> word_char q = false.
Proof.
  unfold is_quote, word_char. intros Hq. apply orb_prop in Hq as [->%bool_decide_eq_true|Hq%Z.eqb_eq]; [done|].
  rewrite Hq. cbn [Z.eqb orb]. rewrite !orb_false_r. apply bool_decide_eq_false. by intros ->.
Qed.

Lemma makeargs_loop_words fuel : forall lead l ws argv maxargs,
  sforall word_char lead = true -> Forall2 (fun x w => arg_text x.1 w /\ sep_ok x.2 = true) l ws ->
  (String.length (lead +:+ joined l) < fuel)%nat -> Z.of_nat (length argv + length ws) < maxargs ->
  makeargs_loop fuel (lead +:+ joined l) argv maxargs = Args (argv ++ ws).
Proof.
  induction fuel as [|fuel IH]; intros lead l ws argv maxargs Hlead Hl Hf Hm; [lia|]. cbn [makeargs_loop].
  rewrite span_skip by done. destruct Hl as [|[t sep] w l ws [Ht Hsep] Hl]; [by rewrite app_nil_r|].
  cbn [fst snd joined length] in *. rewrite !slength_app in Hf. unfold sep_ok in Hsep. apply andb_prop in Hsep as [Hne Hsep].
  destruct sep as [|s0 sep]; [done|]. cbn [sforall] in Hsep. apply andb_prop in Hsep as [Hs0 Hsep].
  assert (Hgo : forall lead', sforall word_char lead' = true -> (String.length lead' <= S (String.length sep))%nat -> (0 < String.length t)%nat ->
    makeargs_loop fuel (lead' +:+ joined l) (argv ++ [w]) maxargs = Args (argv ++ w :: ws)).
  { intros lead' Hl' Hlen Hpos. rewrite (IH lead' l ws); [by rewrite <- app_assoc|done..| |].
    - rewrite slength_app. cbn [String.length] in Hf. lia.
    - rewrite length_app. cbn [length]. lia. }
  destruct Ht as [c w Hc Hq Hw|q w Hq Hw].
  - rewrite sapp_cons, span_none by done. case_test; [lia|]. cbn [quote_of]. fold (is_quote c). rewrite Hq.
    rewrite <- (sapp_cons c w), (sapp_cons s0 sep), span_all; [|cbn [sforall]; by rewrite Hc|by rewrite Hs0]. apply Hgo; cbn; done || lia.
  - rewrite sapp_cons, span_none by (by apply quote_not_space). case_test; [lia|]. cbn [quote_of]. fold (is_quote q). rewrite Hq.
    rewrite <- sapp_assoc, sapp_cons, sapp_nil, span_all; [|done|by rewrite bool_decide_true].
    apply Hgo; [cbn [sforall]; by rewrite Hs0|cbn; lia..].
Qed.

(** ** Lemmas on escaped output *)

Definition oct_val (c : ascii) : Z := code c - 48.

(** The bytes a text of [print_escape_buf] stands for. *)
Fixpoint unescape (s : string) : list Z :=
  match s with
  | EmptyString => []
  | String c s' =>
      if code c =? 92 then
        match s' with
        | String o2 (String o1 (String o0 r)) => oct_val o2 * 64 + oct_val o1 * 8 + oct_val o0 :: unescape r
        | _ => []
        end
      else code c :: unescape s'
  end.

Lemma escape_octal b : 0 <= b < 256 -> exists o2 o1 o0,
  pad0 3 (print_base 64 8 b "") = String o2 (String o1 (String o0 "")) /\
  oct_val o2 * 64 + oct_val o1 * 8 + oct_val o0 = b /\ isprint o2 && isprint o1 && isprint o0 = true.
Proof.
  intros Hb. assert (Hall : forallb (fun b => match pad0 3 (print_base 64 8 b "") with
    | String o2 (String o1 (String o0 "")) => (oct_val o2 * 64 + oct_val o1 * 8 + oct_val o0 =? b) && (isprint o2 && isprint o1 && isprint o0)
    | _ => false end) (seqZ 0 256) = true) by (vm_compute; reflexivity).
  pose proof (byte_cases _ Hall b Hb) as E. cbv beta in E. clear Hall.
  destruct (pad0 _ _) as [|o2 [|o1 [|o0 [|]]]]; try done. apply andb_prop in E as [E1%Z.eqb_eq E2]. by exists o2, o1, o0.
Qed.

Lemma unescape_print buf escape : bytes_ok buf = true ->
  unescape (print_escape_buf buf escape) = buf /\ sforall isprint (print_escape_buf buf escape) = true.
Proof.
  induction buf as [|b buf IH]; intros Hb; [done|]. apply bytes_ok_cons in Hb as [Hb Hl]. destruct (IH Hl) as [IH1 IH2].
  cbn [print_escape_buf]. unfold escape_byte. cbv zeta. rewrite sforall_app, IH2, andb_true_r.
  destruct (isprint (chr b) && _ && _) eqn:E.
  - rewrite sapp_cons, sapp_nil. cbn [unescape sforall]. apply andb_prop in E as [E _]. apply andb_prop in E as [E1 E2].
    apply negb_true_iff in E2. rewrite E2, code_chr, IH1, E1 by done. done.
  - destruct (escape_octal b Hb) as (o2 & o1 & o0 & -> & Hv & Hp). rewrite !sapp_cons, sapp_nil. cbn [unescape sforall].
    rewrite code_chr by lia. cbn [Z.eqb Pos.eqb]. rewrite Hv, IH1. split; [done|]. change (isprint (chr 92)) with true. cbn [andb].
    by rewrite andb_true_r, andb_assoc.
Qed.

(** ** Lemmas on bounded strings *)

Definition c_bytes (s : string) : bool := sforall (fun c => negb (code c =? 0)) s.

Lemma length_string_bytes s : length (string_bytes s) = String.length s.
Proof. unfold string_bytes. rewrite length_fmap. by induction s as [|c s IH]; cbn; rewrite ?IH. Qed.

Lemma strlen_string s rest : c_bytes s = true -> strlen (string_bytes s ++ 0 :: rest) = Some (slen s).
Proof.
  induction s as [|c s IH]; intros Hs; [done|]. cbn in Hs. apply andb_prop in Hs as [Hc Hs]. apply negb_true_iff in Hc.
  change (string_bytes (String c s)) with (code c :: string_bytes s). cbn [app strlen]. rewrite Hc, IH by done. cbn.
  rewrite slen_cons. by rewrite Z.add_1_r.
Qed.

(** The copy holds as much of the source as fits, and its terminator. *)
Lemma strlcpy_spec dst src size :
  0 < size <= Z.of_nat (length dst) ->
  let n := Z.to_nat (Z.min (slen src) (size - 1)) in
  strlcpy dst src size = Some (take n (string_bytes src) ++ 0 :: drop (S n) dst, slen src).
Proof.
  intros Hs n. unfold strlcpy. rewrite (proj2 (Z.eqb_neq _ _)) by lia. fold n. unfold slen in *.
  assert (Hn : (n < length dst)%nat /\ (n <= String.length src)%nat) by lia. destruct Hn as [Hn1 Hn2].
  assert (Hlen : length (take n (string_bytes src)) = n) by (rewrite length_take_le; [done|by rewrite length_string_bytes]).
  destruct (split_at dst n ltac:(lia)) as (p & q & -> & Hp). destruct q as [|x q]; [rewrite app_nil_r in Hn1; lia|].
  assert (Hw : mem_write (p ++ x :: q) 0 (take n (string_bytes src)) = Some (take n (string_bytes src) ++ x :: q))
    by (apply (mem_write_mid [] p (x :: q)); [done|by rewrite Hlen]).
  rewrite Hw. cbn [mbind option_bind].
  rewrite (mem_write_mid (take n (string_bytes src)) [x] q [0]); [|lia|done]. cbn [mbind option_bind].
  do 3 f_equal. replace (S n) with (length p + 1)%nat by lia. by rewrite drop_app_add.
Qed.

(** ** Theorems *)

(** The parsers that take a base, with the smallest and the largest value of their type. *)
Definition number_parsers : list ((bool -> string -> Z -> option Z) * Z * Z) :=
  [(get_u8, 0, 2 ^ 8 - 1); (get_u16, 0, 2 ^ 16 - 1); (get_u32, 0, 2 ^ 32 - 1); (get_u64, 0, 2 ^ 64 - 1);
   (get_unsigned, 0, 2 ^ 32 - 1); (get_integer, - 2 ^ 31, 2 ^ 31 - 1); ((fun _ => get_s32), - 2 ^ 31, 2 ^ 31 - 1);
   (get_s16, - 2 ^ 15, 2 ^ 15 - 1); (get_s8, - 2 ^ 7, 2 ^ 7 - 1)].

(** C37. Every number parser stores only values of its type, whatever the text, the base
    and the error number left by earlier calls. A decimal number of any length, after
    white space and with any sign, is read exactly: a signed parser gives it when it is in
    the range of the type and fails otherwise; an unsigned parser fails on a number of more
    than 64 bits, takes a negative one modulo [2 ^ 64], gives the result when it is in
    range and fails otherwise, and also refuses the largest 64-bit number when an earlier
    call left a range error. Text after the number makes every parser fail. (Only for
    [get_u64] does the test for a range error change the result: the values [strtol] and
    [strtoul] give then are out of the range of the other types anyway.) *)
Theorem number_parsers_exact f min max errno base lead sign ds t :
  (f, min, max) ∈ number_parsers ->
  (forall s b v, f errno s b = Some v -> min <= v <= max) /\
  (sforall isspace lead = true -> decimal base ds = true -> no_digit t = true ->
     f errno (number_text lead sign (ds +:+ t)) base =
     if bool_decide (t = EmptyString) then
       if min <? 0 then long_read min max sign (dec_val 0 ds) else ulong_read max errno sign (dec_val 0 ds)
     else None).
Proof.
  unfold number_parsers. intros Hin. repeat (apply elem_of_cons in Hin as [[= -> -> ->]|Hin]); [..|by apply elem_of_nil in Hin];
    (split; [intros s b v Hv; first [by apply get_ulong_range in Hv|by apply get_long_range in Hv]|
             intros Hl Hd Ht; first [apply get_ulong_text; done || lia|apply get_long_text; done || unfold LONG_MIN, LONG_MAX; lia]]).
Qed.

Lemma number_parsers_exact_witness :
  (forall s b v, get_u64 false s b = Some v -> 0 <= v <= 2 ^ 64 - 1) /\
  get_u64 false " 18446744073709551615" 0 = Some (2 ^ 64 - 1) /\ get_u64 false "99999999999999999999999" 0 = None /\
  get_u8 false "-18446744073709551615" 10 = Some 1 /\ get_s8 true "-128" 0 = Some (- 128) /\ get_s8 true "-128k" 0 = None.
Proof.
  assert (H64 : forall lead ds, _) by (intros lead ds; exact (number_parsers_exact get_u64 0 (2 ^ 64 - 1) false 0 lead None ds "" (list_elem_of_lookup_2 number_parsers 3 _ eq_refl))).
  split; [exact (proj1 (H64 "" ""))|].
  split; [exact (proj2 (H64 " " "18446744073709551615") eq_refl eq_refl eq_refl)|].
  split; [exact (proj2 (H64 "" "99999999999999999999999") eq_refl eq_refl eq_refl)|].
  split; [exact (proj2 (number_parsers_exact get_u8 0 255 false 10 "" (Some true) "18446744073709551615" "" (list_elem_of_lookup_2 number_parsers 0 _ eq_refl)) eq_refl eq_refl eq_refl)|].
  assert (H8 : forall t, _) by (intros t; exact (number_parsers_exact get_s8 (-128) 127 true 0 "" (Some true) "128" t (list_elem_of_lookup_2 number_parsers 8 _ eq_refl))).
  split; [exact (proj2 (H8 "") eq_refl eq_refl eq_refl)|exact (proj2 (H8 "k") eq_refl eq_refl eq_refl)].
Defined.

(** The unsigned parsers accept negative numbers, which [strtoul] wraps around: [-1]
    is the largest 64-bit value, and [-18446744073709551615] is one even for
    [get_u8]; and [get_u64] refuses the largest value when an earlier call left
    [ERANGE] in [errno]. *)
Theorem unsigned_parsers_quirks :
  get_u64 false "-1" 0 = Some (2 ^ 64 - 1) /\ get_u8 false "-18446744073709551615" 0 = Some 1 /\
  get_u64 false "18446744073709551615" 0 = Some (2 ^ 64 - 1) /\ get_u64 true "18446744073709551615" 0 = None.
Proof. vm_compute. split_and!; reflexivity. Qed.

(** A byte string printed by [hexstring_n2a] into a buffer that is large enough is read
    back by [hexstring_a2n], which stores only those bytes of its buffer and reports their
    number, and by [hex2mem]. *)
Theorem hexstring_roundtrip l buf blen n :
  bytes_ok l = true -> 2 * Z.of_nat (length l) < blen ->
  Z.of_nat (length l) <= n <= Z.of_nat (length buf) -> n < 2 ^ 32 ->
  hexstring_a2n (hexstring_n2a l "" blen) buf n =
    Some (Some (l ++ drop (length l) buf, Z.of_nat (length l))) /\
  hex2mem (hexstring_n2a l "" blen) (length l) = Some l.
Proof.
  intros Hl Hb Hn Hn2. rewrite hexstring_n2a_all, sapp_nil by done. split; [|by apply hex2mem_hexstring].
  unfold hexstring_a2n. rewrite slen_hexstring, Z.odd_mul, u32_small by (done || lia). cbn [Z.odd andb].
  apply (a2n_loop_hexstring l [] buf); [done|cbn [length]; lia..].
Qed.

Lemma hexstring_roundtrip_witness :
  hexstring_a2n (hexstring_n2a [0; 171; 255] "" 7) [9; 9; 9; 9] 4 = Some (Some ([0; 171; 255; 9], 3)) /\
  hex2mem (hexstring_n2a [0; 171; 255] "" 7) 3 = Some [0; 171; 255].
Proof. apply (hexstring_roundtrip [0; 171; 255] [9; 9; 9; 9] 7 4); [reflexivity|cbn; lia..]. Defined.

(** [makeargs] ends on every line and never stores more than [maxargs - 1] words; a line
    made of words, each bare or in quotes and followed by white space, is split into
    exactly those words, with white space, comment signs and the other quote kept inside
    quotes. *)
Theorem makeargs_words line maxargs lead l ws :
  0 < maxargs ->
  match makeargs line maxargs with
  | Args argv => Z.of_nat (length argv) <= maxargs - 1
  | NoFuel => False
  | _ => True
  end /\
  (sforall word_char lead = true -> Forall2 (fun x w => arg_text x.1 w /\ sep_ok x.2 = true) l ws ->
   Z.of_nat (length ws) < maxargs -> makeargs (lead +:+ joined l) maxargs = Args ws).
Proof.
  intros Hm. split.
  - pose proof (makeargs_loop_total (S (String.length line)) line [] maxargs ltac:(lia) ltac:(cbn; lia)) as Ht.
    unfold makeargs. destruct (makeargs_loop _ _ _ _); try done. lia.
  - intros Hlead Hl Hn. unfold makeargs. by rewrite (makeargs_loop_words _ lead l ws []) by (done || cbn; lia).
Qed.

Lemma makeargs_words_witness :
  makeargs ("  " +:+ joined [("link", " "); ("'a #b'", String (chr 9) ""); ("c", String (chr 10) "")]) 5 = Args ["link"; "a #b"; "c"].
Proof.
  apply (makeargs_words "" 5 "  " [("link", " "); ("'a #b'", String (chr 9) ""); ("c", String (chr 10) "")] ["link"; "a #b"; "c"]);
    [lia|reflexivity| |cbn; lia].
  repeat constructor; try reflexivity; cbn [fst].
  - apply (quoted_text "'" "a #b"); reflexivity.
Defined.

(** A command on two lines of a batch file, with comments. *)
Example getcmdline_words :
  match getcmdline 0 ["link add \" +:+ String (chr 10) ""; "type pval # " +:+ String (chr 10) ""; "next"] with
  | Some (_, line, lineno, file) => (makeargs line 10, lineno, file)
  | None => (NoFuel, 0, [])
  end = (Args ["link"; "add"; "type"; "pval"], 2, ["next"]).
Proof. vm_compute. reflexivity. Qed.

(** Escaped output consists of printable characters and determines the bytes. *)
Theorem print_escape_roundtrip buf escape :
  bytes_ok buf = true ->
  unescape (print_escape_buf buf escape) = buf /\ sforall isprint (print_escape_buf buf escape) = true.
Proof. apply unescape_print. Qed.

(** [strlcat] keeps the result terminated inside the size given: the destination holds
    the first [size - 1] characters of both strings, and the return value is the length
    they need. *)
Theorem strlcat_spec d src rest size :
  c_bytes d = true -> slen d < size <= slen d + 1 + Z.of_nat (length rest) ->
  exists rest', strlcat (string_bytes d ++ 0 :: rest) src size =
    Some (string_bytes d ++ take (Z.to_nat (size - 1 - slen d)) (string_bytes src) ++ 0 :: rest', slen d + slen src).
Proof.
  intros Hd Hs. unfold strlcat. rewrite strlen_string by done. cbn [mbind option_bind]. case_test; [lia|].
  assert (Hl : Z.to_nat (slen d) = length (string_bytes d)) by (rewrite length_string_bytes; unfold slen; lia).
  assert (Ht : take (Z.to_nat (Z.min (slen src) (size - slen d - 1))) (string_bytes src) =
    take (Z.to_nat (size - 1 - slen d)) (string_bytes src)).
  { destruct (Z.min_spec (slen src) (size - slen d - 1)) as [[? ->]|[? ->]]; [|f_equal; lia].
    rewrite !take_ge; [done|rewrite length_string_bytes; unfold slen in *; lia..]. }
  rewrite Hl, drop_app_length, take_app_length, strlcpy_spec, Ht by (cbn [length]; lia). cbn [mbind option_bind]. by eexists.
Qed.

(** [get_guid] reads what its comment describes, and more: its check leaves the digits to
    [strtoul], which also takes a sign or a blank. *)
Example get_guid_lenient :
  get_guid "00:11:22:33:44:55:66:ff" = Some 0x112233445566ff /\ get_guid "00:11:22:33:44:55: 6:+f" = Some 0x1122334455060f.
Proof. vm_compute. split; reflexivity. Qed.
