(* ===== verification/Addr.v ===== *)
(** * Addresses and prefixes of iproute2

    Models the address parsers and printers of [iproute2-4.18.0/lib]: the IPv4,
    prefix and comparison functions of [utils.c], and the DECnet, MPLS and link-layer
    addresses of [dnet_pton.c], [dnet_ntop.c], [mpls_pton.c], [mpls_ntop.c] and
    [ll_addr.c]. [inet_pton] for IPv6 is an argument. *)
From stdpp Require Import base list numbers strings.
From Stdlib Require Import ZArith Lia Ascii.
From S2P Require Import Prelude Cstring Utils.

Open Scope Z_scope.

(** ** Data *)

Definition AF_UNSPEC : Z := 0.
Definition AF_INET : Z := 2.
Definition AF_IPX : Z := 4.
Definition AF_BRIDGE : Z := 7.
Definition AF_INET6 : Z := 10.
Definition AF_DECnet : Z := 12.
Definition AF_PACKET : Z := 17.
Definition AF_MPLS : Z := 28.

Definition PREFIXLEN_SPECIFIED : Z := 1.
Definition ADDRTYPE_INET : Z := 2.
Definition ADDRTYPE_UNSPEC : Z := 4.
Definition ADDRTYPE_MULTI : Z := 8.
Definition ADDRTYPE_INET_UNSPEC : Z := Z.lor ADDRTYPE_INET ADDRTYPE_UNSPEC.
Definition ADDRTYPE_INET_MULTI : Z := Z.lor ADDRTYPE_INET ADDRTYPE_MULTI.

(** [data], an array of 64 words, is its 256 bytes. *)
Record inet_prefix := mk_inet_prefix {
  ip_flags : Z; ip_bytelen : Z; ip_bitlen : Z; ip_family : Z; ip_data : list Z }.

Definition set_flags (a : inet_prefix) (f : Z) : inet_prefix :=
  mk_inet_prefix f (ip_bytelen a) (ip_bitlen a) (ip_family a) (ip_data a).

(** Byte order of a 32-bit word. *)
Definition htonl (x : Z) : Z := le_val (be_bytes 4 x).
Definition ntohl (x : Z) : Z := be_val (le_bytes 4 x).

(** Word [i] of the array, as the host sees it. *)
Definition data_word (a : inet_prefix) (i : Z) : option Z := le_val <$> mem_read (ip_data a) (4 * i) 4.

Definition af_bit_len (af : Z) : Z :=
  if af =? AF_INET6 then 128 else if af =? AF_INET then 32 else if af =? AF_DECnet then 16
  else if af =? AF_IPX then 80 else if af =? AF_MPLS then 20 else 0.
Definition af_byte_len (af : Z) : Z := af_bit_len af / 8.

Definition read_family (name : string) : Z :=
  if decide (name = "inet"%string) then AF_INET
  else if decide (name = "inet6"%string) then AF_INET6
  else if decide (name = "dnet"%string) then AF_DECnet
  else if decide (name = "link"%string) then AF_PACKET
  else if decide (name = "ipx"%string) then AF_IPX
  else if decide (name = "mpls"%string) then AF_MPLS
  else if decide (name = "bridge"%string) then AF_BRIDGE
  else AF_UNSPEC.

Definition family_name (family : Z) : string :=
  if family =? AF_INET then "inet" else if family =? AF_INET6 then "inet6" else if family =? AF_DECnet then "dnet"
  else if family =? AF_PACKET then "link" else if family =? AF_IPX then "ipx" else if family =? AF_MPLS then "mpls"
  else if family =? AF_BRIDGE then "bridge" else "???".

(** ** IPv4 *)

(** The loop over the four bytes; [n] rounds are left. *)
Fixpoint ipv4_loop (n : nat) (i : Z) (ap : list Z) (cp : string) : option (list Z) :=
  match n with
  | O => Some ap
  | S n' =>
      '(v, _, endp) ← strtoul 0 cp;
      if v >? 255 then None
      else
        ap' ← mem_write ap i [u8 v];
        match endp with
        | EmptyString => Some ap'
        | String c rest =>
            if (i =? 3) || negb (bool_decide (c = "."%char)) then None else ipv4_loop n' (i + 1) ap' rest
        end
  end.
Definition get_addr_ipv4 (ap : list Z) (cp : string) : option (list Z) := ipv4_loop 4 0 ap cp.

(** [for (; mask; mask <<= 1) ++bits]: a word is zero after 32 shifts. *)
Fixpoint count_shifts (fuel : nat) (mask bits : Z) : Z :=
  match fuel with
  | O => bits
  | S f => if mask =? 0 then bits else count_shifts f (u32 (Z.shiftl mask 1)) (bits + 1)
  end.
Definition mask2bits (netmask : Z) : Z :=
  let mask := ntohl netmask in
  let host := u32 (Z.lnot mask) in
  if negb (Z.land host (u32 (host + 1)) =? 0) then - 1 else count_shifts 33 mask 0.

(** ** 64-bit addresses *)

(** [val] starts with whatever the stack holds. *)
Fixpoint addr64_loop (n : nat) (i : Z) (val : list Z) (cp : string) : option (list Z) :=
  match n with
  | O => Some val
  | S n' =>
      '(v, _, endp) ← strtoul 16 cp;
      if v >? 0xffff then None
      else
        val' ← mem_write val (2 * i) (be_bytes 2 v);
        match endp with
        | EmptyString => Some val'
        | String c rest =>
            if (i =? 3) || negb (bool_decide (c = ":"%char)) then None else addr64_loop n' (i + 1) val' rest
        end
  end.
Definition get_addr64 (junk : list Z) (cp : string) : option (list Z) := addr64_loop 4 0 junk cp.

(** [snprintf(&buff[off], size, ...)] of a text without a zero byte. *)
Definition snprintf_at (buff : list Z) (off size : Z) (text : string) : option (list Z) :=
  '(d, _) ← strlcpy (drop (Z.to_nat off) buff) text size;
  Some (take (Z.to_nat off) buff ++ d).

Fixpoint addr64_print (words : list Z) (buff : list Z) (written len : Z) : option (list Z * Z) :=
  match words with
  | [] => Some (buff, written)
  | v :: words' =>
      let text := hex v +:+ match words' with [] => "" | _ => ":" end in
      buff' ← snprintf_at buff written (u64 (len - written)) text;
      addr64_print words' buff' (written + slen text) len
  end.
(** [addr] is the eight bytes in memory. *)
Definition addr64_n2a (addr : list Z) (buff : list Z) (len : Z) : option (list Z * Z) :=
  addr64_print ((fun i => be_val (take 2 (drop (2 * i) addr))) <$> seq 0 4) buff 0 len.

(** ** DECnet *)

(** The digits at the start of [src], in 16 bits, and how many there are. *)
Fixpoint dnet_num (src : string) (rv : Z) (dst : Z) : Z * Z * string :=
  match src with
  | EmptyString => (rv, dst, src)
  | String c src' => if isdigit c then dnet_num src' (rv + 1) (u16 (u16 (dst * 10) + (code c - 48))) else (rv, dst, src)
  end.

Definition dnet_pton (src : string) : option (list Z) :=
  let '(pos, area, rest) := dnet_num src 0 0 in
  if (pos =? 0) || (area >? 63) then None
  else
    match rest with
    | String "." rest' =>
        let '(pos', node, _) := dnet_num rest' 0 0 in
        if (pos' =? 0) || (node >? 1023) then None
        else Some (le_bytes 2 (u16 (Z.lor (Z.shiftl area 10) node)))
    | _ => None
    end.

(** [do_digit]: the digit printed, if any, and the new value of [addr] and [started].
    The text is collected; [room] characters are left before the end of the buffer. *)
Definition do_digit (out : string) (addr scale : Z) (started : bool) (room : Z) : option (string * Z * bool * Z) :=
  let tmp := addr / scale in
  if room =? 0 then None
  else if (tmp >? 0) || started || (scale =? 1) then
    Some (out +:+ String (chr (tmp + 48)) "", u16 (addr - tmp * scale), true, room - 1)
  else Some (out, addr, started, room).

Fixpoint dnet_digits (scales : list Z) (out : string) (addr : Z) (started : bool) (room : Z) : option (string * Z) :=
  match scales with
  | [] => Some (out, room)
  | sc :: scales' =>
      '(out', addr', started', room') ← do_digit out addr sc started room;
      dnet_digits scales' out' addr' started' room'
  end.

(** The text when it fits with its terminator; [None] when the buffer is full before,
    which leaves it without a terminator. *)
Definition dnet_ntop (a_addr : list Z) (len : Z) : option string :=
  let addr := le_val a_addr in
  '(out, room) ← dnet_digits [10; 1] "" (Z.shiftr addr 10) false len;
  if room =? 0 then None
  else
    '(out', room') ← dnet_digits [1000; 100; 10; 1] (out +:+ ".") (Z.land addr 0x03ff) false (room - 1);
    if room' =? 0 then None else Some out'.

(** ** MPLS *)

Definition MPLS_LS_LABEL_MASK : Z := 0xFFFFF000.
Definition MPLS_LS_LABEL_SHIFT : Z := 12.
Definition MPLS_LS_S_MASK : Z := 0x00000100.
Definition MPLS_LS_S_SHIFT : Z := 8.

(** The stack of labels as bytes; [None] is a refused text. *)
Fixpoint mpls_pton1 (n : nat) (name : string) : option (list Z) :=
  match n with
  | O => None
  | S n' =>
      '(label, _, endp) ← strtoul 0 name;
      if label >=? Z.shiftl 1 20 then None
      else
        let entry := u32 (Z.shiftl label MPLS_LS_LABEL_SHIFT) in
        match endp with
        | EmptyString => Some (be_bytes 4 (Z.lor entry (Z.shiftl 1 MPLS_LS_S_SHIFT)))
        | String c rest =>
            if bool_decide (c = "/"%char) then app (be_bytes 4 entry) <$> mpls_pton1 n' rest else None
        end
  end.
(** The result is put at the start of [alen] zero bytes. *)
Definition mpls_pton (name : string) (alen : nat) : option (list Z) :=
  l ← mpls_pton1 (alen / 4) name; Some (l ++ replicate (alen - length l) 0).

(** The loop ends at the bottom of the stack or with the buffer; each round takes
    an entry, and a load past the address is [None]. *)
Fixpoint mpls_ntop1 (fuel : nat) (addr : list Z) (dest : string) (destlen : Z) : option (option string) :=
  match fuel with
  | O => None
  | S f =>
      e ← mem_read addr 0 4;
      let entry := be_val e in
      let text := dec (Z.shiftr (Z.land entry MPLS_LS_LABEL_MASK) MPLS_LS_LABEL_SHIFT) in
      if slen text >=? destlen then Some None
      else if negb (Z.land entry MPLS_LS_S_MASK =? 0) then Some (Some (dest +:+ text))
      else
        let destlen' := destlen - slen text in
        if destlen' =? 0 then mpls_ntop1 f (drop 4 addr) (dest +:+ text) destlen'
        else mpls_ntop1 f (drop 4 addr) (dest +:+ text +:+ "/") (destlen' - 1)
  end.
Definition mpls_ntop (addr : list Z) (buflen : Z) : option (option string) :=
  mpls_ntop1 (S (length addr)) addr "" buflen.

(** ** Any address *)

Definition set_address_type (addr : inet_prefix) : inet_prefix :=
  let d := ip_data addr in
  if ip_family addr =? AF_INET then
    let w := be_val (take 4 d) in
    set_flags addr (Z.lor (ip_flags addr)
      (if w =? 0 then ADDRTYPE_INET_UNSPEC
       else if Z.land w 0xf0000000 =? 0xe0000000 then ADDRTYPE_INET_MULTI else ADDRTYPE_INET))
  else if ip_family addr =? AF_INET6 then
    set_flags addr (Z.lor (ip_flags addr)
      (if be_val (take 16 d) =? 0 then ADDRTYPE_INET_UNSPEC
       else if be_val (take 1 d) =? 0xff then ADDRTYPE_INET_MULTI else ADDRTYPE_INET))
  else addr.

(** The text before and after the first [c]. *)
Definition strchr (c : ascii) (s : string) : option (string * string) :=
  match span (fun d => negb (bool_decide (d = c))) s with
  | (a, String _ b) => Some (a, b)
  | (_, EmptyString) => None
  end.

Definition has_char (c : ascii) (s : string) : bool := match strchr c s with Some _ => true | None => false end.

(** Put [l] at the start of the data. *)
Definition with_data (flags bytelen bitlen family : Z) (l : list Z) : inet_prefix :=
  mk_inet_prefix flags bytelen bitlen family (l ++ drop (length l) (replicate 256 0)).

(** The length of a label stack, up to the entry with the bottom bit. *)
Fixpoint mpls_bytelen (n : nat) (i : Z) (d : list Z) : Z :=
  match n with
  | O => 4
  | S n' => if negb (Z.land (be_val (take 4 d)) MPLS_LS_S_MASK =? 0) then (i + 1) * 4 else mpls_bytelen n' (i + 1) (drop 4 d)
  end.

Section Parse.
(** [inet_pton] of an IPv6 address: its sixteen bytes. *)
Variable inet_pton6 : string -> option (list Z).

(** [__get_addr_1], given the parser of link-layer addresses, which calls it again
    for an IPv4 address. *)
Definition get_addr_1_with (ll_addr_a2n : string -> option (Z * list Z)) (name : string) (family : Z) : option inet_prefix :=
  if decide (name = "default"%string) then
    if (family =? AF_DECnet) || (family =? AF_MPLS) then None
    else Some (with_data PREFIXLEN_SPECIFIED (af_byte_len family) (-2) family [])
  else if bool_decide (name = "all"%string) || bool_decide (name = "any"%string) then
    if (family =? AF_DECnet) || (family =? AF_MPLS) then None
    else Some (with_data 0 0 (-2) family [])
  else if family =? AF_PACKET then
    '(len, l) ← ll_addr_a2n name; Some (with_data 0 len (len * 8) AF_PACKET l)
  else if has_char ":" name then
    if negb (family =? AF_UNSPEC) && negb (family =? AF_INET6) then None
    else l ← inet_pton6 name; Some (with_data 0 16 (-1) AF_INET6 l)
  else if family =? AF_DECnet then
    l ← dnet_pton name; Some (with_data 0 2 (-1) AF_DECnet l)
  else if family =? AF_MPLS then
    l ← mpls_pton name 256; Some (with_data 0 (mpls_bytelen 64 0 l) 20 AF_MPLS l)
  else if negb (family =? AF_UNSPEC) && negb (family =? AF_INET) then None
  else l ← get_addr_ipv4 (replicate 4 0) name; Some (with_data 0 4 (-1) AF_INET l).

(** The hexadecimal bytes between colons, after the value of [i + 1] at the end, where
    [n] rounds are left. A piece is read with [sscanf("%x")], which ignores what
    follows the digits. The value is one more than the bytes stored when there are
    more pieces than rounds. *)
Fixpoint lladdr_loop (n : nat) (arg : string) : option (Z * list Z) :=
  match n with
  | O => Some (1, [])
  | S n' =>
      let '(piece, cp) := match strchr ":" arg with Some (a, b) => (a, Some b) | None => (arg, None) end in
      '(v, _, _) ← strtoul 16 piece;
      let temp := s32 v in
      if (temp <? 0) || (temp >? 255) then None
      else
        match cp with
        | None => Some (1, [temp])
        | Some b => '(k, l) ← lladdr_loop n' b; Some (k + 1, temp :: l)
        end
  end.

Definition ll_addr_a2n (len : nat) (arg : string) : option (Z * list Z) :=
  if has_char "." arg then
    pfx ← set_address_type <$> get_addr_1_with (fun _ => None) arg AF_INET;
    if (len <? 4)%nat then None else Some (4, take 4 (ip_data pfx))
  else lladdr_loop len arg.

Definition get_addr_1 (name : string) (family : Z) : option inet_prefix :=
  set_address_type <$> get_addr_1_with (ll_addr_a2n 256) name family.

Definition get_netmask (errno : bool) (arg : string) (base : Z) : option Z :=
  match get_unsigned errno arg base with
  | Some v => Some v
  | None =>
      addr ← get_addr_1 arg AF_INET;
      if ip_family addr =? AF_INET then
        w ← data_word addr 0;
        let b := mask2bits w in
        if b >=? 0 then Some b else None
      else None
  end.

(** [None] is any of the error returns. *)
Definition get_prefix_1 (errno : bool) (arg : string) (family : Z) : option inet_prefix :=
  let '(head, slash) := match strchr "/" arg with Some (a, b) => (a, Some b) | None => (arg, None) end in
  dst ← get_addr_1 head family;
  let bitlen := af_bit_len (ip_family dst) in
  match slash with
  | Some mask =>
      if ip_bitlen dst =? -2 then None
      else
        plen ← get_netmask errno mask 0;
        if plen >? bitlen then None
        else Some (mk_inet_prefix (Z.lor (ip_flags dst) PREFIXLEN_SPECIFIED) (ip_bytelen dst) plen (ip_family dst) (ip_data dst))
  | None =>
      Some (mk_inet_prefix (ip_flags dst) (ip_bytelen dst) (if ip_bitlen dst =? -2 then 0 else bitlen) (ip_family dst) (ip_data dst))
  end.

(** [get_addr], [get_prefix] and [get_addr32] exit on an error; [Exit] is that. *)
Inductive or_exit (A : Type) := Got (a : A) | Exit.
Definition exit_unless {A} (o : option A) : or_exit A := match o with Some a => Got A a | None => Exit A end.

Definition get_addr (arg : string) (family : Z) : or_exit inet_prefix := exit_unless (get_addr_1 arg family).
Definition get_prefix (errno : bool) (arg : string) (family : Z) : or_exit inet_prefix :=
  if family =? AF_PACKET then Exit _ else exit_unless (get_prefix_1 errno arg family).
Definition get_addr32 (name : string) : or_exit (option Z) :=
  exit_unless ((fun a => data_word a 0) <$> get_addr_1 name AF_INET).
End Parse.

(** ** Printing link-layer addresses *)

Definition ARPHRD_TUNNEL : Z := 768.
Definition ARPHRD_TUNNEL6 : Z := 769.
Definition ARPHRD_SIT : Z := 776.
Definition ARPHRD_IPGRE : Z := 778.
Definition ARPHRD_IP6GRE : Z := 823.

(** The loop over the bytes after the first; [l] is where the next text goes. *)
Fixpoint lladdr_print (addr : list Z) (buf : list Z) (l blen : Z) : option (list Z) :=
  match addr with
  | [] => Some buf
  | a :: addr' =>
      if l <? blen then
        buf' ← snprintf_at buf l (blen - l) (String ":" (hex_pad 2 a));
        lladdr_print addr' buf' (l + 3) blen
      else Some buf
  end.

(** [inet_ntop] is given the family, the address, the buffer and its size. [None] is an
    access outside the address or the buffer. *)
Definition ll_addr_n2a (inet_ntop : Z -> list Z -> list Z -> Z -> option (list Z)) (addr : list Z) (type : Z)
    (buf : list Z) (blen : Z) : option (list Z) :=
  let alen := Z.of_nat (length addr) in
  if (alen =? 4) && ((type =? ARPHRD_TUNNEL) || (type =? ARPHRD_SIT) || (type =? ARPHRD_IPGRE)) then inet_ntop AF_INET addr buf blen
  else if (alen =? 16) && ((type =? ARPHRD_TUNNEL6) || (type =? ARPHRD_IP6GRE)) then inet_ntop AF_INET6 addr buf blen
  else
    match addr with
    | [] => None
    | a :: addr' =>
        buf' ← snprintf_at buf 0 blen (hex_pad 2 a);
        lladdr_print addr' buf' 2 blen
    end.

(** ** Attributes and comparison *)

(** The return value and the address; [dst] is stored into without being cleared. *)
Definition get_addr_rta (dst : inet_prefix) (payload : list Z) (family : Z) : Z * inet_prefix :=
  let len := Z.of_nat (length payload) in
  let fam := if len =? 4 then Some AF_INET else if len =? 16 then Some AF_INET6
             else if len =? 2 then Some AF_DECnet else if len =? 10 then Some AF_IPX else None in
  match fam with
  | None => (-1, dst)
  | Some f =>
      let d := payload ++ drop (length payload) (ip_data dst) in
      if negb (family =? AF_UNSPEC) && negb (family =? f) then
        (-2, mk_inet_prefix (ip_flags dst) len (ip_bitlen dst) f d)
      else (0, set_address_type (mk_inet_prefix 0 len (-1) f d))
  end.

(** [None] is a load outside [data]. *)
Definition inet_addr_match (a b : inet_prefix) (bits : Z) : option Z :=
  let words := Z.shiftr bits 5 in
  let bits := Z.land bits 0x1f in
  p1 ← mem_read (ip_data a) 0 (4 * words);
  p2 ← mem_read (ip_data b) 0 (4 * words);
  if negb (words =? 0) && negb (bool_decide (p1 = p2)) then Some (-1)
  else if bits =? 0 then Some 0
  else
    w1 ← data_word a words;
    w2 ← data_word b words;
    let mask := htonl (u32 (Z.shiftl 0xffffffff (32 - bits))) in
    Some (if negb (Z.land (Z.lxor w1 w2) mask =? 0) then 1 else 0).

(** A missing attribute is [None]. *)
Definition inet_addr_match_rta (junk m : inet_prefix) (rta : option (list Z)) : option Z :=
  match rta with
  | None => Some 0
  | Some payload =>
      if (ip_family m =? AF_UNSPEC) || (ip_bitlen m <=? 0) then Some 0
      else
        let '(ret, dst) := get_addr_rta junk payload (ip_family m) in
        if negb (ret =? 0) then Some (-1) else inet_addr_match dst m (ip_bitlen m)
  end.

(** ** Netmasks *)

Lemma htonl_ntohl x : 0 <= x < 2 ^ 32 -> ntohl (htonl x) = x.
Proof.
  intros Hx. unfold ntohl, htonl. rewrite <- (length_be_bytes 4 x) at 1. rewrite le_bytes_val by apply bytes_ok_be_bytes.
  rewrite be_val_bytes. by apply Z.mod_small.
Qed.

Lemma prefix_mask_range n : 0 <= n <= 32 -> 0 <= prefix_mask n < 2 ^ 32.
Proof. intros Hn. unfold prefix_mask. assert (0 < 2 ^ (32 - n)) by (apply Z.pow_pos_nonneg; lia). assert (2 ^ (32 - n) <= 2 ^ 32) by (apply Z.pow_le_mono_r; lia). lia. Qed.

Lemma count_shifts_mask fuel : forall n b, 0 <= n <= 32 -> n < Z.of_nat fuel -> count_shifts fuel (prefix_mask n) b = b + n.
Proof.
  induction fuel as [|fuel IH]; intros n b Hn Hf; [lia|]. cbn [count_shifts].
  destruct (decide (n = 0)) as [->|Hn0]; [change (prefix_mask 0) with 0; rewrite Z.eqb_refl; lia|].
  assert (Hlt : 2 ^ (32 - n) < 2 ^ 32) by (apply Z.pow_lt_mono_r; lia). assert (0 < 2 ^ (32 - n)) by (apply Z.pow_pos_nonneg; lia).
  rewrite (proj2 (Z.eqb_neq _ _)) by (unfold prefix_mask; lia).
  replace (u32 (Z.shiftl (prefix_mask n) 1)) with (prefix_mask (n - 1)); [rewrite IH; lia|].
  pose proof (prefix_mask_range (n - 1) ltac:(lia)). rewrite Z.shiftl_mul_pow2 by lia. unfold u32.
  replace (prefix_mask n * 2 ^ 1) with (prefix_mask (n - 1) + 1 * 2 ^ 32); [by rewrite Z.mod_add, Z.mod_small|].
  unfold prefix_mask. replace (32 - (n - 1)) with (Z.succ (32 - n)) by lia. rewrite Z.pow_succ_r by lia. lia.
Qed.

(** [h & (h + 1)] is zero exactly for the numbers one below a power of two. *)
Lemma land_succ_zero h : 0 <= h -> Z.land h (h + 1) = 0 <-> exists k, 0 <= k /\ h + 1 = 2 ^ k.
Proof.
  intros Hh. split.
  - intros Hl. exists (Z.log2 (h + 1)). split; [apply Z.log2_nonneg|].
    pose proof (Z.log2_spec (h + 1) ltac:(lia)) as [Hlo Hhi]. destruct (Z.eq_dec (h + 1) (2 ^ Z.log2 (h + 1))) as [He|Hne]; [done|].
    exfalso. assert (Hb1 : Z.testbit (h + 1) (Z.log2 (h + 1)) = true) by (apply Z.bit_log2; lia).
    assert (Hb0 : Z.testbit h (Z.log2 (h + 1)) = true).
    { replace (Z.log2 (h + 1)) with (Z.log2 h); [apply Z.bit_log2|apply Z.log2_unique; [apply Z.log2_nonneg|]]; [|lia].
      pose proof (Z.log2_nonneg (h + 1)). lia. }
    assert (Hc : Z.testbit (Z.land h (h + 1)) (Z.log2 (h + 1)) = true) by (by rewrite Z.land_spec, Hb0, Hb1).
    by rewrite Hl, Z.bits_0 in Hc.
  - intros (k & Hk & He). rewrite He. replace h with (2 ^ k - 1) by lia. rewrite Z.land_comm, land_mask by done. apply Z_mod_same_full.
Qed.

Lemma mask2bits_mask n : 0 <= n <= 32 -> mask2bits (htonl (prefix_mask n)) = n.
Proof.
  intros Hn. pose proof (prefix_mask_range n Hn) as Hr. unfold mask2bits. rewrite htonl_ntohl by lia.
  assert (Hhost : u32 (Z.lnot (prefix_mask n)) = 2 ^ (32 - n) - 1).
  { unfold u32, Z.lnot. unfold prefix_mask in *. assert (0 < 2 ^ (32 - n)) by (apply Z.pow_pos_nonneg; lia).
    rewrite <- (Z.mod_add _ 1) by lia. rewrite Z.mod_small; lia. }
  cbv zeta. rewrite Hhost. assert (Hz : Z.land (2 ^ (32 - n) - 1) (u32 (2 ^ (32 - n) - 1 + 1)) = 0).
  { rewrite Z.sub_add. destruct (decide (n = 0)) as [->|]; [done|].
    assert (0 < 2 ^ (32 - n)) by (apply Z.pow_pos_nonneg; lia). assert (2 ^ (32 - n) < 2 ^ 32) by (apply Z.pow_lt_mono_r; lia).
    rewrite u32_small by lia. rewrite Z.land_comm, land_mask by lia. apply Z_mod_same_full. }
  rewrite Hz. cbn [Z.eqb negb]. rewrite count_shifts_mask by lia. lia.
Qed.

Lemma mask2bits_other m : 0 <= m < 2 ^ 32 -> 0 <= mask2bits (htonl m) -> exists n, 0 <= n <= 32 /\ m = prefix_mask n.
Proof.
  intros Hm. unfold mask2bits. rewrite htonl_ntohl by done. cbv zeta.
  assert (Hhost : u32 (Z.lnot m) = 2 ^ 32 - 1 - m).
  { unfold u32, Z.lnot. rewrite <- (Z.mod_add _ 1) by lia. rewrite Z.mod_small; lia. }
  rewrite Hhost. destruct (decide (m = 0)) as [->|Hm0]; [by exists 0|]. rewrite u32_small by lia.
  destruct (Z.eqb_spec (Z.land (2 ^ 32 - 1 - m) (2 ^ 32 - 1 - m + 1)) 0) as [Hz|]; cbn [negb]; [|lia]. intros _.
  apply land_succ_zero in Hz as (k & Hk & He); [|lia]. exists (32 - k).
  assert (Hk32 : k < 32) by (apply (Z.pow_lt_mono_r_iff 2); lia).
  unfold prefix_mask. replace (32 - (32 - k)) with k by lia. lia.
Qed.

(** ** Dotted text *)

Fixpoint dotted (l : list Z) : string :=
  match l with
  | [] => EmptyString
  | b :: l' => dec b +:+ match l' with [] => EmptyString | _ => String "." (dotted l') end
  end.

(** The part of a dotted text after a byte. *)
Definition after_byte (l : list Z) : string := match l with [] => EmptyString | _ => String "." (dotted l) end.

Lemma dotted_cons b l : dotted (b :: l) = dec b +:+ after_byte l.
Proof. by destruct l. Qed.

Lemma strtoul_dec base n t : base = 10 \/ base = 0 -> 0 <= n < 2 ^ 64 -> stops t = true -> strtoul base (dec n +:+ t) = Some (n, false, t).
Proof. intros Hb Hn Ht. rewrite dec_pos by lia. apply strtoul_print; done || lia. Qed.

Lemma ipv4_loop_dotted l : forall n pre post,
  l <> [] -> bytes_ok l = true -> (length pre + n = 4)%nat -> (length l <= n)%nat -> length post = n ->
  ipv4_loop n (Z.of_nat (length pre)) (pre ++ post) (dotted l) = Some (pre ++ l ++ drop (length l) post).
Proof.
  induction l as [|b l IH]; intros n pre post Hne Hb Hn Hl Hp; [done|]. apply bytes_ok_cons in Hb as [Hb Hbl].
  destruct n as [|n]; [cbn in Hl; lia|]. destruct post as [|x post]; [done|]. cbn [ipv4_loop].
  rewrite dotted_cons, strtoul_dec by (lia || by destruct l). cbn [mbind option_bind]. case_test; [lia|].
  rewrite u8_small by done. rewrite (mem_write_mid pre [x] post [b]) by done. cbn [mbind option_bind].
  destruct l as [|b2 l]; [done|]. cbn [after_byte]. cbn [length] in *.
  rewrite (proj2 (Z.eqb_neq _ _)) by lia. rewrite bool_decide_true by done. cbn [orb negb].
  replace (Z.of_nat (length pre) + 1) with (Z.of_nat (length (pre ++ [b]))) by (rewrite length_app; cbn; lia).
  rewrite app_assoc, (IH n (pre ++ [b]) post) by (rewrite ?length_app; cbn; done || lia). cbn [drop]. by rewrite <- app_assoc.
Qed.

(** A character that is in no dotted text. *)
Definition not_dotted (c : ascii) : bool := negb (isdigit c) && negb (bool_decide (c = "."%char)).

Lemma dotted_chars l : bytes_ok l = true -> sforall (fun c => isdigit c || bool_decide (c = "."%char)) (dotted l) = true.
Proof.
  assert (Hd : forall b, 0 <= b < 256 -> sforall (fun c => isdigit c || bool_decide (c = "."%char)) (dec b) = true).
  { intros b Hb. rewrite dec_pos by lia. eapply sforall_impl; [|apply (print_base_digits 64 10 b); lia].
    intros c Hc. cbv beta. by rewrite Hc. }
  induction l as [|b l IH]; intros Hb; [done|]. apply bytes_ok_cons in Hb as [Hb Hl]. rewrite dotted_cons, sforall_app, Hd by done.
  destruct l as [|b2 l]; [done|]. cbn [after_byte sforall]. rewrite IH by done. by rewrite bool_decide_true, orb_true_r.
Qed.

Lemma strchr_none c l : not_dotted c = true -> bytes_ok l = true -> strchr c (dotted l) = None.
Proof.
  intros Hc Hl. unfold strchr. rewrite span_end; [done|]. eapply sforall_impl; [|by apply dotted_chars]. intros d Hd. cbv beta in *.
  unfold not_dotted in Hc. apply andb_prop in Hc as [H1 H2]. apply negb_true_iff, bool_decide_eq_false. intros ->.
  destruct (isdigit c), (bool_decide _); done.
Qed.

Lemma strchr_after c l t : not_dotted c = true -> bytes_ok l = true -> strchr c (dotted l +:+ String c t) = Some (dotted l, t).
Proof.
  intros Hc Hl. unfold strchr. rewrite span_all; [done| |by rewrite bool_decide_true].
  eapply sforall_impl; [|by apply dotted_chars]. intros d Hd. cbv beta in *.
  unfold not_dotted in Hc. apply andb_prop in Hc as [H1 H2]. apply negb_true_iff, bool_decide_eq_false. intros ->.
  destruct (isdigit c), (bool_decide _); done.
Qed.

Lemma dotted_head b l : 0 <= b < 256 -> exists d t, dotted (b :: l) = String (digit_char d) t /\ 0 <= d < 10.
Proof.
  intros Hb. rewrite dotted_cons, dec_pos by lia. destruct (print_base_head 64 10 b) as (d & t & -> & Hd & _); [lia..|].
  exists d, (t +:+ after_byte l). by rewrite sapp_cons.
Qed.

Lemma digit_ne_letter d c t s : 0 <= d < 10 -> isdigit c = false -> String (digit_char d) t <> String c s.
Proof.
  intros Hd Hc [= He _]. assert (isdigit (digit_char d) = true); [|congruence].
  unfold isdigit, digit_char. rewrite (proj2 (Z.ltb_lt d 10)) by lia. rewrite code_chr by lia.
  by rewrite !(proj2 (Z.leb_le _ _)) by lia.
Qed.

Section Prefixes.
Variable inet_pton6 : string -> option (list Z).

(** One to four bytes, the missing ones zero. *)
Lemma get_addr_1_dotted l family :
  l <> [] -> (length l <= 4)%nat -> bytes_ok l = true -> family = AF_INET \/ family = AF_UNSPEC ->
  get_addr_1 inet_pton6 (dotted l) family = Some (set_address_type (with_data 0 4 (-1) AF_INET (l ++ replicate (4 - length l) 0))).
Proof.
  intros Hne Hlen Hb Hf. unfold get_addr_1, get_addr_1_with. destruct l as [|b l]; [done|].
  pose proof Hb as [Hb0 _]%bytes_ok_cons. destruct (dotted_head b l Hb0) as (d & t & Hd & Hd10).
  assert (Hletter : forall c s, isdigit c = false -> dotted (b :: l) <> String c s) by (intros c s Hc; rewrite Hd; by apply digit_ne_letter).
  rewrite decide_False by (by apply Hletter). rewrite !bool_decide_false by (by apply Hletter). cbn [orb].
  assert (Hpk : (family =? AF_PACKET) = false) by (by destruct Hf as [->| ->]). rewrite Hpk.
  unfold has_char. rewrite strchr_none by done.
  replace (family =? AF_DECnet) with false by (by destruct Hf as [->| ->]).
  replace (family =? AF_MPLS) with false by (by destruct Hf as [->| ->]).
  replace (negb (family =? AF_UNSPEC) && negb (family =? AF_INET)) with false by (by destruct Hf as [->| ->]).
  assert (Hip : get_addr_ipv4 (replicate 4 0) (dotted (b :: l)) = Some ((b :: l) ++ replicate (4 - length (b :: l)) 0)).
  { pose proof (ipv4_loop_dotted (b :: l) 4 [] (replicate 4 0) Hne Hb eq_refl Hlen eq_refl) as Hip. by rewrite drop_replicate in Hip. }
  by rewrite Hip.
Qed.

Lemma data_word_0 a l : bytes_ok l = true -> length l = 4%nat -> ip_data a = l ++ drop 4 (replicate 256 0) ->
  data_word a 0 = Some (htonl (be_val l)).
Proof.
  intros Hb Hl Ha. unfold data_word.
  assert (Hm : mem_read (ip_data a) (4 * 0) 4 = Some l) by (rewrite Ha; apply (mem_read_mid [] l); [done|by rewrite Hl]).
  rewrite Hm.
  cbn [fmap option_fmap option_map]. f_equal. unfold htonl. rewrite <- Hl. by rewrite be_bytes_val.
Qed.

(** The length after the slash, as a number or as a mask. *)
Lemma get_netmask_dec errno n : 0 <= n <= 32 -> get_netmask inet_pton6 errno (dec n) 0 = Some n.
Proof.
  intros Hn. unfold get_netmask, get_unsigned. rewrite get_ulong_dec by (unfold ULONG_MAX; lia).
  by rewrite (proj2 (Z.leb_le _ _)) by lia.
Qed.

Lemma set_address_type_data a : ip_data (set_address_type a) = ip_data a /\ ip_family (set_address_type a) = ip_family a /\
  ip_bitlen (set_address_type a) = ip_bitlen a /\ ip_bytelen (set_address_type a) = ip_bytelen a.
Proof. unfold set_address_type. by repeat case_match. Qed.

Lemma get_netmask_mask errno n : 0 <= n <= 32 -> get_netmask inet_pton6 errno (dotted (be_bytes 4 (prefix_mask n))) 0 = Some n.
Proof.
  intros Hn. pose proof (prefix_mask_range n Hn) as Hr. set (l := be_bytes 4 (prefix_mask n)).
  assert (Hb : bytes_ok l = true) by apply bytes_ok_be_bytes. assert (Hl : length l = 4%nat) by apply length_be_bytes.
  unfold get_netmask. assert (Hu : get_unsigned errno (dotted l) 0 = None).
  { destruct l as [|b [|b2 l]]; try done. apply bytes_ok_cons in Hb as [Hb _]. unfold get_unsigned, get_ulong.
    rewrite dotted_cons, strtoul_dec by (lia || done). unfold whole. case_decide; done. }
  rewrite Hu, get_addr_1_dotted; [|by intros ->|lia|done|by left]. cbn [mbind option_bind]. rewrite Hl. cbn [Nat.sub replicate]. rewrite app_nil_r.
  destruct (set_address_type_data (with_data 0 4 (-1) AF_INET l)) as (Hd & Hf & _). rewrite Hf. cbn [with_data ip_family Z.eqb AF_INET Pos.eqb].
  rewrite (data_word_0 _ l Hb Hl) by (rewrite Hd; cbn [with_data ip_data]; by rewrite Hl). cbn [mbind option_bind].
  replace (be_val l) with (prefix_mask n); [|by unfold l; rewrite be_val_bytes, Z.mod_small].
  rewrite mask2bits_mask by done. case_test; [done|lia].
Qed.
End Prefixes.

(** ** Comparison of prefixes *)

(** The bytes of two words, combined bit by bit, whatever the byte order. *)
Lemma land_byte_range x y : 0 <= x < 256 -> 0 <= Z.land x y < 256.
Proof.
  intros Hx. assert (Hm : forall z, Z.land z 255 = z mod 256) by (intros z; by apply (land_mask z 8)).
  replace x with (Z.land x 255) by (by rewrite Hm, Z.mod_small).
  rewrite <- Z.land_assoc, (Z.land_comm 255), Z.land_assoc, Hm. by apply Z.mod_pos_bound.
Qed.

Lemma land_byte a b x y : 0 <= x < 256 -> 0 <= y < 256 -> Z.land (x + 256 * a) (y + 256 * b) = Z.land x y + 256 * Z.land a b.
Proof.
  intros Hx Hy. assert (Hlo : forall z c, 0 <= z < 256 -> z + 256 * c = Z.lor (c * 2 ^ 8) z) by (intros; rewrite (lor_high _ 8) by lia; lia).
  rewrite (Hlo x a), (Hlo y b), Hlo by (done || by apply land_byte_range). apply Z.bits_inj'. intros n Hn.
  rewrite <- !Z.shiftl_mul_pow2, !Z.land_spec, !Z.lor_spec, !Z.shiftl_spec, !Z.land_spec by lia.
  destruct (Z.lt_ge_cases n 8); [rewrite !(Z.testbit_neg_r _ (n - 8)) by lia; done|].
  assert (Hh : forall z, 0 <= z < 256 -> Z.testbit z n = false).
  { intros z Hz. rewrite <- (Z.mod_small z (2 ^ 8)) by lia. by apply Z.mod_pow2_bits_high. }
  rewrite (Hh x), (Hh y) by done. by rewrite !orb_false_r.
Qed.

Lemma le_val_land a : forall b, length a = length b -> bytes_ok a = true -> bytes_ok b = true ->
  Z.land (le_val a) (le_val b) = le_val (zip_with Z.land a b) /\ bytes_ok (zip_with Z.land a b) = true.
Proof.
  induction a as [|x a IH]; intros [|y b] Hl Ha Hb; try done. apply bytes_ok_cons in Ha as [Hx Ha]. apply bytes_ok_cons in Hb as [Hy Hb].
  injection Hl as Hl. destruct (IH b Hl Ha Hb) as [IH1 IH2]. cbn [le_val zip_with]. rewrite land_byte, IH1 by done.
  split; [done|]. apply bytes_ok_cons. split; [by apply land_byte_range|done].
Qed.

Lemma le_val_inj a b : length a = length b -> bytes_ok a = true -> bytes_ok b = true -> le_val a = le_val b -> a = b.
Proof. intros Hl Ha Hb He. rewrite <- (le_bytes_val a), <- (le_bytes_val b) by done. by rewrite Hl, He. Qed.

Lemma zip_land_reverse (a b : list Z) : length a = length b -> zip_with Z.land (reverse a) (reverse b) = reverse (zip_with Z.land a b).
Proof.
  revert b. induction a as [|x a IH]; intros [|y b] Hl; try done. injection Hl as Hl. cbn [zip_with].
  rewrite !reverse_cons, zip_with_app by (by rewrite !length_reverse). by rewrite IH.
Qed.

(** Masked words are equal in one byte order exactly when they are in the other. *)
Lemma land_byte_order a b m :
  length a = length m -> length b = length m -> bytes_ok a = true -> bytes_ok b = true -> bytes_ok m = true ->
  Z.land (le_val a) (le_val m) = Z.land (le_val b) (le_val m) <-> Z.land (be_val a) (be_val m) = Z.land (be_val b) (be_val m).
Proof.
  intros Hla Hlb Ha Hb Hm. unfold be_val.
  destruct (le_val_land a m Hla Ha Hm) as [-> Hza], (le_val_land b m Hlb Hb Hm) as [-> Hzb].
  destruct (le_val_land (reverse a) (reverse m)) as [-> _]; [by rewrite !length_reverse|auto using bytes_ok_reverse..|].
  destruct (le_val_land (reverse b) (reverse m)) as [-> _]; [by rewrite !length_reverse|auto using bytes_ok_reverse..|].
  rewrite !zip_land_reverse by done. assert (Hlen : length (zip_with Z.land a m) = length (zip_with Z.land b m)) by (rewrite !length_zip_with; lia).
  split; intros He; apply le_val_inj in He; rewrite ?length_reverse; auto using bytes_ok_reverse; [by rewrite He|].
  f_equal. apply (inj reverse). done.
Qed.

(** A mask keeps the upper bits. *)
Lemma land_prefix_mask w k : 0 <= w < 2 ^ 32 -> 0 <= k <= 32 -> Z.land w (prefix_mask k) = w / 2 ^ (32 - k) * 2 ^ (32 - k).
Proof.
  intros Hw Hk. replace (prefix_mask k) with (Z.ldiff (Z.ones 32) (Z.ones (32 - k))).
  - rewrite <- Z.shiftr_div_pow2, <- Z.shiftl_mul_pow2, <- Z.ldiff_ones_r by lia.
    apply Z.bits_inj'. intros n Hn. rewrite Z.land_spec, !Z.ldiff_spec.
    destruct (Z.lt_ge_cases n 32); [by rewrite (Z.ones_spec_low 32) by lia|].
    rewrite <- (Z.mod_small w (2 ^ 32)) by lia. by rewrite Z.mod_pow2_bits_high by lia.
  - rewrite Z.ldiff_ones_r, Z.shiftl_mul_pow2, Z.shiftr_div_pow2 by lia. rewrite Z.ones_equiv. unfold prefix_mask.
    replace (2 ^ 32) with (2 ^ k * 2 ^ (32 - k)) by (rewrite <- Z.pow_add_r by lia; f_equal; lia).
    assert (0 < 2 ^ (32 - k)) by (apply Z.pow_pos_nonneg; lia).
    replace (Z.pred (2 ^ k * 2 ^ (32 - k))) with (2 ^ (32 - k) - 1 + (2 ^ k - 1) * 2 ^ (32 - k)) by lia.
    rewrite Z.div_add, Z.div_small by lia. lia.
Qed.

Lemma be_val_app_pow p q : be_val (p ++ q) = be_val p * 2 ^ (8 * Z.of_nat (length q)) + be_val q.
Proof.
  unfold be_val. rewrite reverse_app, le_val_app, length_reverse. replace (256 ^ Z.of_nat (length q)) with (2 ^ (8 * Z.of_nat (length q))); [lia|].
  rewrite Z.pow_mul_r by lia. done.
Qed.

(** The leading bits of an address: those of its whole words, and those of the next one. *)
Lemma leading_bits p w r k :
  length w = 4%nat -> bytes_ok w = true -> bytes_ok r = true -> 0 <= k < 32 ->
  be_val (p ++ w ++ r) / 2 ^ (8 * Z.of_nat (length r) + (32 - k)) = be_val p * 2 ^ k + be_val w / 2 ^ (32 - k).
Proof.
  intros Hw Hbw Hbr Hk. rewrite app_assoc, !be_val_app_pow, Hw. apply be_val_bound in Hbr as Hr. apply be_val_bound in Hbw as Hbw'.
  assert (Hpow : 256 ^ Z.of_nat (length r) = 2 ^ (8 * Z.of_nat (length r))) by (by rewrite Z.pow_mul_r by lia). rewrite Hpow in Hr.
  rewrite Z.pow_add_r, <- Z.div_div by (lia || (apply Z.pow_nonzero; lia) || (apply Z.pow_pos_nonneg; lia)).
  rewrite Z.div_add_l, (Z.div_small (be_val r)), Z.add_0_r by (lia || (apply Z.pow_nonzero; lia)).
  change (8 * Z.of_nat 4) with 32. replace (be_val p * 2 ^ 32) with (be_val p * 2 ^ k * 2 ^ (32 - k)).
  - rewrite Z.div_add_l by (apply Z.pow_nonzero; lia). done.
  - rewrite <- Z.mul_assoc, <- Z.pow_add_r by lia. do 2 f_equal. lia.
Qed.

Lemma be_val_inj a b : length a = length b -> bytes_ok a = true -> bytes_ok b = true -> be_val a = be_val b -> a = b.
Proof.
  intros Hl Ha Hb He. apply (inj reverse). apply le_val_inj; [by rewrite !length_reverse|auto using bytes_ok_reverse..|done].
Qed.

Lemma split_word l w : length l = 256%nat -> (w < 64)%nat -> bytes_ok l = true -> exists p x r,
  l = p ++ x ++ r /\ length p = (4 * w)%nat /\ length x = 4%nat /\ length r = (252 - 4 * w)%nat /\
  bytes_ok p = true /\ bytes_ok x = true /\ bytes_ok r = true.
Proof.
  intros Hl Hw Hb. exists (take (4 * w) l), (take 4 (drop (4 * w) l)), (drop 4 (drop (4 * w) l)).
  rewrite !take_drop, !length_take, !length_drop. split_and!; auto with pval; lia.
Qed.

Lemma be_word_bits w1 w2 k : length w1 = 4%nat -> length w2 = 4%nat -> bytes_ok w1 = true -> bytes_ok w2 = true -> 0 < k < 32 ->
  Z.land (Z.lxor (le_val w1) (le_val w2)) (htonl (u32 (Z.shiftl 0xffffffff (32 - k)))) = 0 <->
  be_val w1 / 2 ^ (32 - k) = be_val w2 / 2 ^ (32 - k).
Proof.
  intros Hl1 Hl2 Hb1 Hb2 Hk. assert (0 < 2 ^ (32 - k)) by (apply Z.pow_pos_nonneg; lia).
  assert (Hmask : u32 (Z.shiftl 0xffffffff (32 - k)) = prefix_mask k).
  { rewrite Z.shiftl_mul_pow2 by lia. pose proof (prefix_mask_range k ltac:(lia)). unfold u32.
    replace (0xffffffff * 2 ^ (32 - k)) with (prefix_mask k + (2 ^ (32 - k) - 1) * 2 ^ 32) by (unfold prefix_mask; lia).
    by rewrite Z.mod_add, Z.mod_small. }
  rewrite Hmask. set (m := be_bytes 4 (prefix_mask k)). assert (Hm : length m = 4%nat) by apply length_be_bytes.
  assert (Hbm : bytes_ok m = true) by apply bytes_ok_be_bytes. change (htonl (prefix_mask k)) with (le_val m).
  assert (Hx : Z.land (Z.lxor (le_val w1) (le_val w2)) (le_val m) = Z.lxor (Z.land (le_val w1) (le_val m)) (Z.land (le_val w2) (le_val m))).
  { apply Z.bits_inj'. intros n Hn. rewrite Z.land_spec, !Z.lxor_spec, !Z.land_spec. by destruct (Z.testbit (le_val w1) n), (Z.testbit (le_val w2) n), (Z.testbit (le_val m) n). }
  rewrite Hx, Z.lxor_eq_0_iff, land_byte_order by congruence.
  replace (be_val m) with (prefix_mask k) by (unfold m; rewrite be_val_bytes, Z.mod_small; [done|by apply prefix_mask_range; lia]).
  pose proof (be_val_bound w1 Hb1) as R1. pose proof (be_val_bound w2 Hb2) as R2. rewrite Hl1 in R1. rewrite Hl2 in R2.
  rewrite !land_prefix_mask by (lia || done). split; [|by intros ->]. nia.
Qed.

Lemma digits_eq m p1 q1 p2 q2 : 0 <= q1 < m -> 0 <= q2 < m -> p1 * m + q1 = p2 * m + q2 -> p1 = p2 /\ q1 = q2.
Proof. intros H1 H2 He. apply (Z.div_mod_unique m); [by left|by left|lia]. Qed.

Lemma inet_addr_match_spec a b bits :
  length (ip_data a) = 256%nat -> length (ip_data b) = 256%nat -> bytes_ok (ip_data a) = true -> bytes_ok (ip_data b) = true ->
  0 <= bits < 2048 ->
  exists r, inet_addr_match a b bits = Some r /\
    (r = 0 <-> be_val (ip_data a) / 2 ^ (2048 - bits) = be_val (ip_data b) / 2 ^ (2048 - bits)).
Proof.
  intros Hla Hlb Hba Hbb Hbits. unfold inet_addr_match. rewrite Z.shiftr_div_pow2 by lia. change (2 ^ 5) with 32.
  replace (Z.land bits 31) with (bits mod 32) by (symmetry; by apply (land_mask bits 5)).
  pose proof (Z.div_mod bits 32 ltac:(lia)) as Hdm. pose proof (Z.mod_pos_bound bits 32 eq_refl) as Hk.
  set (k := bits mod 32) in *. assert (Hw : 0 <= bits / 32 < 64) by (split; [apply Z.div_pos; lia|apply Z.div_lt_upper_bound; lia]).
  set (w := bits / 32) in *. clearbody w k.
  destruct (split_word _ (Z.to_nat w) Hla ltac:(lia) Hba) as (pa & xa & ra & Ea & Lpa & Lxa & Lra & Bpa & Bxa & Bra).
  destruct (split_word _ (Z.to_nat w) Hlb ltac:(lia) Hbb) as (pb & xb & rb & Eb & Lpb & Lxb & Lrb & Bpb & Bxb & Brb).
  assert (Hspec : be_val (ip_data a) / 2 ^ (2048 - bits) = be_val (ip_data b) / 2 ^ (2048 - bits) <->
    pa = pb /\ be_val xa / 2 ^ (32 - k) = be_val xb / 2 ^ (32 - k)).
  { rewrite Ea, Eb. replace (2048 - bits) with (8 * Z.of_nat (length ra) + (32 - k)) at 1 by lia.
    replace (2048 - bits) with (8 * Z.of_nat (length rb) + (32 - k)) by lia. rewrite !leading_bits by (done || lia).
    assert (Hq : forall x, length x = 4%nat -> bytes_ok x = true -> 0 <= be_val x / 2 ^ (32 - k) < 2 ^ k).
    { intros x Hx Hb. apply be_val_bound in Hb. rewrite Hx in Hb. assert (0 < 2 ^ (32 - k)) by (apply Z.pow_pos_nonneg; lia).
      split; [apply Z.div_pos; lia|]. apply Z.div_lt_upper_bound; [done|]. rewrite <- Z.pow_add_r by lia.
      replace (32 - k + k) with 32 by lia. apply Hb. }
    pose proof (Hq xa Lxa Bxa). pose proof (Hq xb Lxb Bxb). split; [|by intros [-> ->]]. intros He.
    assert (be_val pa = be_val pb /\ be_val xa / 2 ^ (32 - k) = be_val xb / 2 ^ (32 - k)) as [Hp ->] by (by apply (digits_eq (2 ^ k))).
    split; [|done]. apply be_val_inj; congruence. }
  setoid_rewrite Hspec. unfold data_word. rewrite Ea, Eb.
  assert (Hra : mem_read (pa ++ xa ++ ra) 0 (4 * w) = Some pa) by (apply (mem_read_mid [] pa); [done|lia]).
  assert (Hrb : mem_read (pb ++ xb ++ rb) 0 (4 * w) = Some pb) by (apply (mem_read_mid [] pb); [done|lia]).
  rewrite Hra, Hrb. cbn [mbind option_bind]. destruct (bool_decide_reflect (pa = pb)) as [Hp|Hp]; cbn [negb]; rewrite ?andb_true_r, ?andb_false_r.
  - destruct (Z.eqb_spec k 0) as [->|Hk0].
    + exists 0. split; [done|]. change (32 - 0) with 32. apply be_val_bound in Bxa, Bxb. rewrite Lxa in Bxa. rewrite Lxb in Bxb.
      rewrite !Z.div_small by lia. done.
    + rewrite (mem_read_mid pa xa ra), (mem_read_mid pb xb rb) by lia. cbn [fmap option_fmap option_map mbind option_bind].
      eexists. split; [done|]. rewrite <- (be_word_bits xa xb k) by (done || lia).
      destruct (Z.eqb_spec (Z.land (Z.lxor (le_val xa) (le_val xb)) (htonl (u32 (Z.shiftl 0xffffffff (32 - k))))) 0); cbn [negb]; naive_solver.
  - destruct (Z.eqb_spec w 0) as [->|]; cbn [negb]; [|exists (-1); split; [done|split; [done|naive_solver]]].
    exfalso. apply Hp. destruct pa, pb; done.
Qed.

(** ** MPLS label stacks *)

Fixpoint slashed (l : list Z) : string :=
  match l with
  | [] => EmptyString
  | b :: l' => dec b +:+ match l' with [] => EmptyString | _ => String "/" (slashed l') end
  end.

(** The entries of a stack, the last one marked. *)
Fixpoint label_stack (l : list Z) : list Z :=
  match l with
  | [] => []
  | [x] => be_bytes 4 (x * 2 ^ 12 + 2 ^ 8)
  | x :: l' => be_bytes 4 (x * 2 ^ 12) ++ label_stack l'
  end.

Definition labels_ok (l : list Z) : bool := forallb (is_u 20) l.

Lemma length_label_stack l : length (label_stack l) = (4 * length l)%nat.
Proof.
  induction l as [|x [|y l] IH]; [done|apply length_be_bytes|]. change (label_stack (x :: y :: l)) with (be_bytes 4 (x * 2 ^ 12) ++ label_stack (y :: l)).
  rewrite length_app, length_be_bytes, IH. cbn [length]. lia.
Qed.

Lemma mpls_pton1_labels l : forall n, l <> [] -> labels_ok l = true -> (length l <= n)%nat -> mpls_pton1 n (slashed l) = Some (label_stack l).
Proof.
  induction l as [|x l IH]; intros n Hne Hl Hn; [done|]. destruct n as [|n]; [cbn in Hn; lia|]. cbn in Hl. apply andb_prop in Hl as [Hx Hl].
  apply is_u_spec in Hx. cbn [slashed mpls_pton1]. rewrite strtoul_dec by (lia || by destruct l). cbn [mbind option_bind].
  change (Z.shiftl 1 20) with (2 ^ 20). change (Z.shiftl 1 MPLS_LS_S_SHIFT) with (2 ^ 8).
  case_test; [lia|]. rewrite Z.shiftl_mul_pow2, u32_small by (unfold MPLS_LS_LABEL_SHIFT; lia). unfold MPLS_LS_LABEL_SHIFT.
  destruct l as [|y l]; [by rewrite lor_high by lia|]. rewrite bool_decide_true by done. rewrite IH by (done || cbn in *; lia). done.
Qed.

Lemma entry_label x s : 0 <= x < 2 ^ 20 -> s = 0 \/ s = 2 ^ 8 ->
  Z.shiftr (Z.land (x * 2 ^ 12 + s) MPLS_LS_LABEL_MASK) MPLS_LS_LABEL_SHIFT = x /\ Z.land (x * 2 ^ 12 + s) MPLS_LS_S_MASK = s.
Proof.
  intros Hx Hs. change MPLS_LS_LABEL_MASK with (prefix_mask 20). rewrite land_prefix_mask by lia.
  unfold MPLS_LS_LABEL_SHIFT, MPLS_LS_S_MASK. rewrite Z.shiftr_div_pow2 by lia. change (32 - 20) with 12.
  rewrite Z.div_mul, Z.div_add_l, Z.div_small by lia. split; [lia|]. change 256 with (2 ^ 8).
  rewrite <- lor_high by lia. rewrite Z.land_lor_distr_l, land_high by lia. by destruct Hs as [->| ->].
Qed.

Lemma mpls_ntop1_labels l : forall fuel dest destlen rest,
  l <> [] -> labels_ok l = true -> (length l <= fuel)%nat -> slen (slashed l) < destlen ->
  mpls_ntop1 fuel (label_stack l ++ rest) dest destlen = Some (Some (dest +:+ slashed l)).
Proof.
  induction l as [|x l IH]; intros fuel dest destlen rest Hne Hl Hf Hd; [done|]. destruct fuel as [|fuel]; [cbn in Hf; lia|].
  cbn in Hl. apply andb_prop in Hl as [Hx Hl]. apply is_u_spec in Hx. cbn [mpls_ntop1]. cbn [slashed] in Hd. rewrite slen_app in Hd.
  pose proof (slen_nonneg (match l with [] => EmptyString | _ => String "/" (slashed l) end)) as Hnn.
  assert (Hread : forall s more, s = 0 \/ s = 2 ^ 8 ->
    mem_read (be_bytes 4 (x * 2 ^ 12 + s) ++ more) 0 4 = Some (be_bytes 4 (x * 2 ^ 12 + s)) /\
    be_val (be_bytes 4 (x * 2 ^ 12 + s)) = x * 2 ^ 12 + s /\ drop 4 (be_bytes 4 (x * 2 ^ 12 + s) ++ more) = more).
  { intros s more Hs. split; [apply (mem_read_mid [] _); [done|by rewrite length_be_bytes]|].
    split; [rewrite be_val_bytes; apply Z.mod_small; lia|]. rewrite <- (length_be_bytes 4 (x * 2 ^ 12 + s)) at 1. apply drop_app_length. }
  destruct l as [|y l].
  - destruct (Hread (2 ^ 8) rest ltac:(by right)) as (Hr & Hv & _), (entry_label x (2 ^ 8) Hx ltac:(by right)) as [Hlab Hbit].
    cbn [label_stack slashed]. rewrite Hr. cbn [mbind option_bind]. rewrite Hv, Hlab, Hbit. case_test; [lia|].
    cbn [Z.eqb negb]. by rewrite sapp_nil_r.
  - destruct (Hread 0 (label_stack (y :: l) ++ rest) ltac:(by left)) as (Hr & Hv & Hdr), (entry_label x 0 Hx ltac:(by left)) as [Hlab Hbit].
    rewrite Z.add_0_r in *. change (label_stack (x :: y :: l)) with (be_bytes 4 (x * 2 ^ 12) ++ label_stack (y :: l)).
    rewrite <- app_assoc, Hr. cbn [mbind option_bind]. rewrite Hv, Hlab, Hbit, Hdr. rewrite slen_cons in Hd.
    case_test; [pose proof (slen_nonneg (slashed (y :: l))); lia|]. cbn [Z.eqb negb].
    rewrite (proj2 (Z.eqb_neq _ _)) by lia. rewrite IH; [|done|done|cbn in *; lia|lia].
    change (slashed (x :: y :: l)) with (dec x +:+ String "/" (slashed (y :: l))). by rewrite <- !sapp_assoc.
Qed.

(** ** Link-layer addresses *)

Fixpoint colons (l : list Z) : string :=
  match l with [] => EmptyString | b :: l' => String ":" (hex_pad 2 b +:+ colons l') end.

Lemma string_bytes_app s t : string_bytes (s +:+ t) = string_bytes s ++ string_bytes t.
Proof. induction s as [|c s IH]; [done|]. rewrite sapp_cons. unfold string_bytes in *. cbn. by rewrite IH. Qed.

(** Printing behind a text that is in the buffer already. *)
Lemma snprintf_at_spec s x rest text size :
  0 < size <= Z.of_nat (S (length rest)) -> slen text < size ->
  exists rest', snprintf_at (string_bytes s ++ x :: rest) (slen s) size text = Some (string_bytes (s +:+ text) ++ 0 :: rest') /\
    (length rest' + String.length text = length rest)%nat.
Proof.
  intros Hs Ht. unfold snprintf_at. assert (Hl : Z.to_nat (slen s) = length (string_bytes s)) by (rewrite length_string_bytes; unfold slen; lia).
  rewrite Hl, drop_app_length, take_app_length, strlcpy_spec by (cbn [length]; lia). cbn [mbind option_bind].
  rewrite Z.min_l by lia. rewrite take_ge by (rewrite length_string_bytes; unfold slen; lia). eexists. split.
  - rewrite string_bytes_app, <- app_assoc. done.
  - cbn [drop]. rewrite length_drop. unfold slen in *. lia.
Qed.

Lemma lladdr_print_spec l : forall s rest blen,
  bytes_ok l = true -> slen s + slen (colons l) < blen -> blen = slen s + 1 + Z.of_nat (length rest) ->
  exists rest', lladdr_print l (string_bytes s ++ 0 :: rest) (slen s) blen = Some (string_bytes (s +:+ colons l) ++ 0 :: rest').
Proof.
  induction l as [|b l IH]; intros s rest blen Hb Hs Hl; cbn [lladdr_print colons]; [rewrite sapp_nil_r; by eexists|].
  apply bytes_ok_cons in Hb as [Hb Hbl]. cbn [colons] in Hs. rewrite slen_cons, slen_app in Hs. pose proof (slen_nonneg (colons l)).
  assert (Htwo : slen (String ":" (hex_pad 2 b)) = 3) by (rewrite hex_pad2_chars, !slen_cons by done; done).
  pose proof Htwo as Htwo'. rewrite slen_cons in Htwo'.
  rewrite (proj2 (Z.ltb_lt _ _)) by lia.
  destruct (snprintf_at_spec s 0 rest (String ":" (hex_pad 2 b)) (blen - slen s)) as (rest' & -> & Hr); [lia..|]. cbn [mbind option_bind].
  assert (Hlen : slen (s +:+ String ":" (hex_pad 2 b)) = slen s + 3) by (rewrite slen_app; lia).
  rewrite <- Hlen. unfold slen in Htwo. destruct (IH (s +:+ String ":" (hex_pad 2 b)) rest' blen Hbl) as (r2 & Hp); [lia..|].
  exists r2. rewrite Hp, <- sapp_assoc. by rewrite sapp_cons.
Qed.

Lemma strchr_hex_pad b t : 0 <= b < 256 ->
  strchr ":" (hex_pad 2 b +:+ String ":" t) = Some (hex_pad 2 b, t) /\ strchr ":" (hex_pad 2 b) = None /\ strchr "." (hex_pad 2 b) = None.
Proof.
  intros Hb. assert (Hd : forall d, 0 <= d < 16 -> digit_char d <> ":"%char /\ digit_char d <> "."%char).
  { intros d Hd. split; intros He; pose proof (digit_val_char d Hd) as Hv; by rewrite He in Hv. }
  assert (Hn : 0 <= b / 16 < 16) by (split; [apply Z.div_pos; lia|apply Z.div_lt_upper_bound; lia]).
  pose proof (Z.mod_pos_bound b 16 eq_refl). destruct (Hd (b / 16) Hn), (Hd (b mod 16)); [done|].
  unfold strchr. rewrite hex_pad2_chars by done. split.
  - rewrite span_all; [done| |done]. cbn [sforall]. by rewrite !bool_decide_false.
  - cbn [span]. by rewrite !bool_decide_false.
Qed.

Lemma lladdr_loop_colons b l : forall n, 0 <= b < 256 -> bytes_ok l = true -> (length l < n)%nat ->
  lladdr_loop n (hex_pad 2 b +:+ colons l) = Some (Z.of_nat (S (length l)), b :: l).
Proof.
  revert b. induction l as [|c l IH]; intros b n Hb Hl Hn; (destruct n as [|n]; [lia|]); cbn [lladdr_loop colons].
  - rewrite sapp_nil_r. destruct (strchr_hex_pad b "" Hb) as (_ & -> & _). rewrite strtoul_hex2 by done. cbn [mbind option_bind].
    rewrite s32_small by lia. case_test; [bool_to_prop; lia|done].
  - destruct (strchr_hex_pad b (hex_pad 2 c +:+ colons l) Hb) as (-> & _). rewrite strtoul_hex2 by done. cbn [mbind option_bind].
    apply bytes_ok_cons in Hl as [Hc Hl]. rewrite s32_small by lia. case_test; [bool_to_prop; lia|].
    rewrite IH by (done || cbn in *; lia). cbn [mbind option_bind length]. do 2 f_equal. lia.
Qed.

Lemma no_dot b l : 0 <= b < 256 -> bytes_ok l = true -> has_char "." (hex_pad 2 b +:+ colons l) = false.
Proof.
  intros Hb Hl. unfold has_char, strchr. rewrite span_end; [done|].
  assert (Hp : forall b, 0 <= b < 256 -> sforall (fun d => negb (bool_decide (d = "."%char))) (hex_pad 2 b) = true).
  { clear. intros b Hb. destruct (strchr_hex_pad b "" Hb) as (_ & _ & Hn). unfold strchr in Hn. rewrite hex_pad2_chars in * by done.
    cbn [span sforall] in *. by repeat case_bool_decide. }
  rewrite sforall_app, Hp by done. cbn [andb]. induction l as [|c l IH]; [done|]. apply bytes_ok_cons in Hl as [Hc Hl].
  cbn [colons sforall]. by rewrite sforall_app, Hp, IH.
Qed.

(** ** Theorems *)

(** An IPv4 prefix given as one to four bytes with dots, the missing bytes being zero, a
    slash and the length, as a number or as a mask of that many one bits, is parsed to
    those bytes and that length, marked as specified; a length above 32 is refused,
    and without a slash the length is 32. *)
Theorem get_prefix_text inet_pton6 errno l n family :
  l <> [] -> (length l <= 4)%nat -> bytes_ok l = true -> family = AF_INET \/ family = AF_UNSPEC -> 0 <= n < 2 ^ 32 ->
  let addr := set_address_type (with_data 0 4 (-1) AF_INET (l ++ replicate (4 - length l) 0)) in
  let prefix bits flag := Some (mk_inet_prefix (Z.lor (ip_flags addr) flag) 4 bits AF_INET (ip_data addr)) in
  get_prefix_1 inet_pton6 errno (dotted l +:+ String "/" (dec n)) family =
    (if n <=? 32 then prefix n PREFIXLEN_SPECIFIED else None) /\
  (n <= 32 -> get_prefix_1 inet_pton6 errno (dotted l +:+ String "/" (dotted (be_bytes 4 (prefix_mask n)))) family =
    prefix n PREFIXLEN_SPECIFIED) /\
  get_prefix_1 inet_pton6 errno (dotted l) family = prefix 32 0.
Proof.
  intros Hne Hlen Hb Hf Hn addr prefix.
  destruct (set_address_type_data (with_data 0 4 (-1) AF_INET (l ++ replicate (4 - length l) 0))) as (_ & Hfam & Hbit & Hbyte).
  fold addr in Hfam, Hbit, Hbyte. cbn [with_data ip_family ip_bitlen ip_bytelen] in *.
  unfold get_prefix_1. rewrite !strchr_after, strchr_none by done.
  rewrite !get_addr_1_dotted by done. fold addr. cbn [mbind option_bind]. rewrite Hfam, Hbit, Hbyte.
  change (af_bit_len AF_INET) with 32. cbn [Z.eqb Pos.eqb]. split_and!; [| |unfold prefix; by rewrite Z.lor_0_r].
  - destruct (Z.leb_spec n 32) as [H32|H32].
    + rewrite get_netmask_dec by lia. cbn [mbind option_bind]. case_test; [lia|done].
    + unfold get_netmask, get_unsigned. rewrite get_ulong_dec by (unfold ULONG_MAX; lia).
      rewrite (proj2 (Z.leb_le _ _)) by lia. cbn [mbind option_bind]. case_test; [done|lia].
  - intros H32. rewrite get_netmask_mask by lia. cbn [mbind option_bind]. case_test; [lia|done].
Qed.

Lemma get_prefix_text_witness :
  get_prefix_1 (fun _ => None) false "10.8/16" AF_INET =
    Some (mk_inet_prefix 3 4 16 AF_INET ([10; 8] ++ replicate 254 0)) /\
  get_prefix_1 (fun _ => None) false "10.8/255.255.0.0" AF_INET =
    Some (mk_inet_prefix 3 4 16 AF_INET ([10; 8] ++ replicate 254 0)).
Proof.
  destruct (get_prefix_text (fun _ => None) false [10; 8] 16 AF_INET) as (H1 & H2 & _);
    [discriminate|cbn; lia|reflexivity|left; reflexivity|lia|].
  split; [exact H1|]. apply H2. lia.
Defined.

(** [mask2bits] gives the length of a netmask with leading one bits, for every one of the 33
    lengths, and [-1] for every other word. *)
Theorem mask2bits_exact m :
  0 <= m < 2 ^ 32 ->
  (forall n, 0 <= n <= 32 -> m = prefix_mask n -> mask2bits (htonl m) = n) /\
  ((forall n, 0 <= n <= 32 -> m <> prefix_mask n) -> mask2bits (htonl m) = -1).
Proof.
  intros Hm. split; [intros n Hn ->; by apply mask2bits_mask|]. intros Hno.
  destruct (Z.lt_ge_cases (mask2bits (htonl m)) 0) as [Hneg|Hpos].
  - unfold mask2bits in *. case_test; [done|]. exfalso. clear E. revert Hneg.
    assert (Hc : forall f x b, 0 <= b -> 0 <= count_shifts f x b); [|specialize (Hc 33%nat (ntohl (htonl m)) 0); lia].
    induction f as [|f IH]; intros x b Hb; [done|]. cbn [count_shifts]. case_test; [done|]. apply IH. lia.
  - apply mask2bits_other in Hpos as (n & Hn & ->); [|done]. by destruct (Hno n Hn).
Qed.

Lemma mask2bits_exact_witness : mask2bits (htonl 0xfffff000) = 20.
Proof. apply (mask2bits_exact 0xfffff000); [lia|lia|reflexivity]. Defined.

(** [inet_addr_match] reads only the two addresses and returns zero exactly when their first
    [bits] bits agree, although it compares words in host byte order. *)
Theorem inet_addr_match_prefix a b bits :
  length (ip_data a) = 256%nat -> length (ip_data b) = 256%nat -> bytes_ok (ip_data a) = true -> bytes_ok (ip_data b) = true ->
  0 <= bits < 2048 ->
  exists r, inet_addr_match a b bits = Some r /\
    (r = 0 <-> be_val (ip_data a) / 2 ^ (2048 - bits) = be_val (ip_data b) / 2 ^ (2048 - bits)).
Proof. apply inet_addr_match_spec. Qed.

Lemma inet_addr_match_prefix_witness :
  exists r, inet_addr_match (with_data 0 4 (-1) AF_INET [10; 8; 255; 1]) (with_data 0 4 (-1) AF_INET [10; 8; 128; 2]) 17 = Some r.
Proof.
  destruct (inet_addr_match_prefix (with_data 0 4 (-1) AF_INET [10; 8; 255; 1]) (with_data 0 4 (-1) AF_INET [10; 8; 128; 2]) 17)
    as (r & H & _); [reflexivity..|lia|].
  exists r. exact H.
Defined.

(** A stack of one to 64 MPLS labels, written with slashes, is parsed to the entries of the
    stack with the bottom bit in the last one, and printed back as the same text. *)
Theorem mpls_roundtrip l buflen :
  l <> [] -> (length l <= 64)%nat -> labels_ok l = true -> slen (slashed l) < buflen ->
  exists bytes, mpls_pton (slashed l) 256 = Some bytes /\ length bytes = 256%nat /\
    mpls_ntop bytes buflen = Some (Some (slashed l)).
Proof.
  intros Hne Hlen Hl Hb. unfold mpls_pton, mpls_ntop. change (256 / 4)%nat with 64%nat. rewrite mpls_pton1_labels by done.
  cbn [mbind option_bind]. eexists. split; [done|]. assert (Hs : length (label_stack l ++ replicate (256 - length (label_stack l)) 0) = 256%nat).
  { rewrite length_app, length_replicate, length_label_stack. lia. }
  split; [done|]. rewrite Hs. by rewrite mpls_ntop1_labels by (done || lia).
Qed.

Lemma mpls_roundtrip_witness :
  exists bytes, mpls_pton "100/16/3" 256 = Some bytes /\ length bytes = 256%nat /\ mpls_ntop bytes 256 = Some (Some "100/16/3").
Proof. apply (mpls_roundtrip [100; 16; 3] 256); [discriminate|cbn; lia|reflexivity|vm_compute; reflexivity]. Defined.

(** The other parsers on texts they should refuse: a DECnet area above 63 that wraps around
    and a node with trailing characters are accepted, [get_addr64] leaves groups that
    are missing as they were on the stack, and [ll_addr_a2n] returns one more than the
    bytes it stored when there are too many. *)
Example lenient_parsers :
  dnet_pton "65537.1" = dnet_pton "1.1" /\ dnet_pton "1.2xyz" = dnet_pton "1.2" /\
  get_addr64 [9; 9; 9; 9; 9; 9; 9; 9] "1:2" = Some [0; 1; 0; 2; 9; 9; 9; 9] /\
  ll_addr_a2n (fun _ => None) 6 "1:2:3:4:5:6:7" = Some (7, [1; 2; 3; 4; 5; 6]).
Proof. vm_compute. split_and!; reflexivity. Qed.

(** A link-layer address of at most [len] bytes is printed, into a buffer that has room for
    it, as its hexadecimal bytes with colons, terminated inside the buffer, and
    [ll_addr_a2n] reads that text back. *)
Theorem ll_addr_roundtrip inet_pton6 inet_ntop addr type buf len :
  addr <> [] -> bytes_ok addr = true -> 3 * Z.of_nat (length addr) <= Z.of_nat (length buf) -> (length addr <= len)%nat ->
  length addr <> 4%nat -> length addr <> 16%nat ->
  exists text rest, ll_addr_n2a inet_ntop addr type buf (Z.of_nat (length buf)) = Some (string_bytes text ++ 0 :: rest) /\
    slen text = 3 * Z.of_nat (length addr) - 1 /\
    ll_addr_a2n inet_pton6 len text = Some (Z.of_nat (length addr), addr).
Proof.
  intros Hne Hb Hbuf Hlen H4 H16. destruct addr as [|b l]; [done|]. apply bytes_ok_cons in Hb as [Hb Hl]. cbn [length] in *.
  assert (Hc : slen (colons l) = 3 * Z.of_nat (length l)).
  { clear - Hl. induction l as [|c l IH]; [done|]. apply bytes_ok_cons in Hl as [Hc Hl]. cbn [colons length].
    rewrite slen_cons, slen_app, IH, hex_pad2_chars, !slen_cons by done. change (slen "") with 0. lia. }
  assert (Htwo : slen (hex_pad 2 b) = 2) by (rewrite hex_pad2_chars, !slen_cons by done; done).
  unfold ll_addr_n2a. cbn [length]. rewrite (proj2 (Z.eqb_neq _ 4)), (proj2 (Z.eqb_neq _ 16)) by lia. cbn [andb].
  destruct buf as [|x buf]; [cbn in *; lia|]. cbn [length] in *.
  destruct (snprintf_at_spec "" x buf (hex_pad 2 b) (Z.of_nat (S (length buf)))) as (rest & Hsn & Hr); [lia..|].
  change (string_bytes "" ++ x :: buf) with (x :: buf) in Hsn. change (slen "") with 0 in Hsn. rewrite Hsn, sapp_nil. cbn [mbind option_bind].
  unfold slen in Htwo. destruct (lladdr_print_spec l (hex_pad 2 b) rest (Z.of_nat (S (length buf))) Hl) as (rest' & Hp);
    [unfold slen in *; lia..|].
  replace (slen (hex_pad 2 b)) with 2 in Hp by (unfold slen; lia). exists (hex_pad 2 b +:+ colons l), rest'. split; [exact Hp|].
  split; [rewrite slen_app; unfold slen in *; lia|]. unfold ll_addr_a2n. rewrite no_dot by done. by rewrite lladdr_loop_colons by (done || lia).
Qed.

Lemma ll_addr_roundtrip_witness :
  exists text rest, ll_addr_n2a (fun _ _ _ _ => None) [0; 17; 34; 171; 205; 255] 1 (replicate 18 7) 18 = Some (string_bytes text ++ 0 :: rest) /\
    slen text = 17 /\ ll_addr_a2n (fun _ => None) 6 text = Some (6, [0; 17; 34; 171; 205; 255]).
Proof.
  apply (ll_addr_roundtrip (fun _ => None) (fun _ _ _ _ => None) [0; 17; 34; 171; 205; 255] 1 (replicate 18 7) 6);
    [discriminate|reflexivity|cbn; lia..].
Defined.
