(* ===== verification/Ipx.v ===== *)
(** * IPX addresses of iproute2

    Models [iproute2-4.18.0/lib/ipx_pton.c] and [ipx_ntop.c]. An address is the ten bytes
    of [struct ipx_addr]: four of the network in network order, six of the node. *)
From stdpp Require Import base list numbers strings.
From Stdlib Require Import ZArith Lia Ascii.
From S2P Require Import Prelude Cstring Utils.

Open Scope Z_scope.

(** ** Parsing *)

(** [n] digits may follow; [net] is the number read so far. *)
Fixpoint ipx_getnet (n : nat) (net : Z) (str : string) : option Z :=
  match str, n with
  | EmptyString, _ => Some net
  | String _ _, O => None
  | String c str', S n' =>
      let tmp := u32 (get_hex c) in
      if tmp =? u32 (-1) then (if bool_decide (c = "."%char) then Some net else None)
      else ipx_getnet n' (Z.lor (u32 (Z.shiftl net 4)) tmp) str'
  end.

Definition skip_colon (str : string) : string :=
  match str with String c s => if bool_decide (c = ":"%char) then s else str | EmptyString => str end.

Fixpoint ipx_getnode (n : nat) (str : string) : option (list Z) :=
  match n with
  | O => Some []
  | S n' =>
      match str with
      | String h (String l str') =>
          if get_hex h =? -1 then None
          else if get_hex l =? -1 then None
          else
            let b := Z.lor (u8 (Z.shiftl (u8 (get_hex h)) 4)) (u8 (get_hex l)) in
            rest ← ipx_getnode n' (skip_colon str');
            Some (b :: rest)
      | _ => None
      end
  end.

(** The text behind the first dot. *)
Fixpoint after_dot (src : string) : option string :=
  match src with
  | EmptyString => None
  | String c s => if bool_decide (c = "."%char) then Some s else after_dot s
  end.

Definition ipx_pton (src : string) : option (list Z) :=
  net ← ipx_getnet 8 0 src;
  match after_dot src with
  | None => Some (be_bytes 4 net ++ replicate 6 0)
  | Some node_text => node ← ipx_getnode 6 node_text; Some (be_bytes 4 net ++ node)
  end.

(** ** Printing *)

(** [do_digit]: the digit of [addr] at [scale]. *)
Definition ipx_digit (addr scale : Z) : ascii :=
  let tmp := Z.land (Z.shiftr addr (scale * 4)) 0x0f in
  if tmp >? 9 then chr (tmp + code "A" - 10) else chr (tmp + code "0").

(** The text collected so far and the room left; [None] is a full buffer, which is returned
    without a terminator. *)
Fixpoint ipx_digits (digits : list (Z * Z)) (out : string) (room : Z) : option (string * Z) :=
  match digits with
  | [] => Some (out, room)
  | (addr, scale) :: digits' =>
      if room =? 0 then None else ipx_digits digits' (out +:+ String (ipx_digit addr scale) "") (room - 1)
  end.

Definition ipx_ntop (addr : list Z) (len : Z) : option string :=
  '(out, room) ← ipx_digits (map (pair (be_val (take 4 addr))) [7; 6; 5; 4; 3; 2; 1; 0]) "" len;
  if room =? 0 then None
  else
    '(out', room') ← ipx_digits (flat_map (fun b => [(b, 1); (b, 0)]) (take 6 (drop 4 addr))) (out +:+ ".") (room - 1);
    if room' =? 0 then None else Some out'.

(** ** Lemmas *)

(** The text of hexadecimal digits. *)
Fixpoint digits_text (ds : list (Z * Z)) : string :=
  match ds with
  | [] => EmptyString
  | (a, k) :: ds' => String (ipx_digit a k) (digits_text ds')
  end.

Lemma ipx_digits_text ds : forall out room, Z.of_nat (length ds) <= room ->
  ipx_digits ds out room = Some (out +:+ digits_text ds, room - Z.of_nat (length ds)).
Proof.
  induction ds as [|[a k] ds IH]; intros out room Hr; cbn [ipx_digits digits_text].
  - rewrite sapp_nil_r, Z.sub_0_r. done.
  - cbn [length] in Hr. destruct (Z.eqb_spec room 0); [lia|]. rewrite IH by lia.
    rewrite <- sapp_assoc, sapp_cons, sapp_nil. do 2 f_equal. cbn [length]. lia.
Qed.

Lemma nibble_range a k : 0 <= Z.land (Z.shiftr a (k * 4)) 15 < 16.
Proof. change 15 with (Z.ones 4). rewrite Z.land_ones by lia. apply Z.mod_pos_bound. lia. Qed.

Lemma get_hex_ipx_digit a k : get_hex (ipx_digit a k) = Z.land (Z.shiftr a (k * 4)) 15 /\ ipx_digit a k <> "."%char /\ ipx_digit a k <> ":"%char.
Proof.
  unfold ipx_digit. pose proof (nibble_range a k) as Hr. set (t := Z.land (Z.shiftr a (k * 4)) 15) in *. clearbody t.
  assert (H : forall n : nat, (n < 16)%nat -> let u := Z.of_nat n in let c := if u >? 9 then chr (u + code "A" - 10) else chr (u + code "0") in
    get_hex c = u /\ c <> "."%char /\ c <> ":"%char).
  { intros n Hn. do 16 (destruct n; [by repeat split; try discriminate|]). lia. }
  specialize (H (Z.to_nat t)). rewrite Z2Nat.id in H by lia. apply H. lia.
Qed.

Lemma getnet_digit n net a k s : 0 <= net < 2 ^ 28 ->
  ipx_getnet (S n) net (String (ipx_digit a k) s) = ipx_getnet n (net * 16 + Z.land (Z.shiftr a (k * 4)) 15) s.
Proof.
  intros Hn. cbn [ipx_getnet]. destruct (get_hex_ipx_digit a k) as (-> & Hd & _). pose proof (nibble_range a k) as Hr.
  set (t := Z.land (Z.shiftr a (k * 4)) 15) in *. clearbody t. rewrite (u32_small t) by lia.
  change (u32 (-1)) with 4294967295. destruct (Z.eqb_spec t 4294967295); [lia|]. f_equal.
  rewrite Z.shiftl_mul_pow2 by lia. unfold u32. rewrite (Z.mod_small (net * 2 ^ 4)) by lia.
  rewrite lor_high by lia. lia.
Qed.

(** The value of a text of digits read behind the number [net]. *)
Definition digits_val (net : Z) (ds : list (Z * Z)) : Z :=
  fold_left (fun acc d => acc * 16 + Z.land (Z.shiftr d.1 (d.2 * 4)) 15) ds net.

Lemma getnet_digits ds : forall n net s, (length ds <= n <= 8)%nat -> 0 <= net < 16 ^ Z.of_nat (8 - n) ->
  ipx_getnet n net (digits_text ds +:+ s) = ipx_getnet (n - length ds) (digits_val net ds) s.
Proof.
  induction ds as [|[a k] ds IH]; intros n net s Hl Hn; cbn [digits_text length] in *; [rewrite sapp_nil; by rewrite Nat.sub_0_r|].
  destruct n as [|n]; [lia|]. rewrite sapp_cons. pose proof (nibble_range a k) as Hr.
  assert (Hp : 16 ^ Z.of_nat (8 - S n) * 16 = 16 ^ Z.of_nat (8 - n)).
  { replace (8 - n)%nat with (S (8 - S n)) by lia. rewrite Nat2Z.inj_succ, Z.pow_succ_r by lia. lia. }
  assert (Hq : 16 ^ Z.of_nat (8 - S n) <= 16 ^ 7) by (apply Z.pow_le_mono_r; lia).
  rewrite getnet_digit by (change (16 ^ 7) with (2 ^ 28) in Hq; lia). rewrite IH by lia. done.
Qed.

(** The digits of a number, the highest first. *)
Fixpoint nibbles (n : nat) (net : Z) : list (Z * Z) :=
  match n with O => [] | S n' => (net, Z.of_nat n') :: nibbles n' net end.

Lemma digits_val_nibbles n net : forall acc, digits_val acc (nibbles n net) = acc * 16 ^ Z.of_nat n + net mod 16 ^ Z.of_nat n.
Proof.
  induction n as [|n IH]; intros acc; [cbn; rewrite Z.mod_1_r; lia|]. cbn [nibbles digits_val fold_left fst snd].
  fold (digits_val (acc * 16 + Z.land (Z.shiftr net (Z.of_nat n * 4)) 15) (nibbles n net)). rewrite IH.
  change 15 with (Z.ones 4). rewrite Z.land_ones, Z.shiftr_div_pow2 by lia. change (2 ^ 4) with 16.
  replace (2 ^ (Z.of_nat n * 4)) with (16 ^ Z.of_nat n) by (rewrite (Z.mul_comm _ 4), Z.pow_mul_r by lia; done).
  rewrite Nat2Z.inj_succ, Z.pow_succ_r, (Z.mul_comm 16), Z.rem_mul_r by lia. lia.
Qed.

Lemma byte_nibbles b : 0 <= b < 256 ->
  Z.lor (u8 (Z.shiftl (u8 (Z.land (Z.shiftr b (1 * 4)) 15)) 4)) (u8 (Z.land (Z.shiftr b (0 * 4)) 15)) = b.
Proof.
  intros Hb.
  assert (H : Forall (fun x => Z.lor (u8 (Z.shiftl (u8 (Z.land (Z.shiftr x (1 * 4)) 15)) 4)) (u8 (Z.land (Z.shiftr x (0 * 4)) 15)) = x) (seqZ 0 256))
    by (repeat constructor).
  rewrite Forall_forall in H. apply H. apply elem_of_seqZ. lia.
Qed.

Lemma getnode_digits node : forall s, bytes_ok node = true ->
  ipx_getnode (length node) (digits_text (flat_map (fun b => [(b, 1); (b, 0)]) node) +:+ s) = Some node.
Proof.
  induction node as [|b node IH]; intros s Hb; [done|]. apply bytes_ok_cons in Hb as [Hb Hn].
  cbn [length ipx_getnode flat_map app digits_text]. rewrite !sapp_cons.
  destruct (get_hex_ipx_digit b 1) as (-> & _), (get_hex_ipx_digit b 0) as (-> & _).
  pose proof (nibble_range b 1) as H1. pose proof (nibble_range b 0) as H0.
  destruct (Z.eqb_spec (Z.land (Z.shiftr b (1 * 4)) 15) (-1)); [lia|]. destruct (Z.eqb_spec (Z.land (Z.shiftr b (0 * 4)) 15) (-1)); [lia|].
  assert (Hs : skip_colon (digits_text (flat_map (fun b => [(b, 1); (b, 0)]) node) +:+ s) =
    match node with [] => skip_colon s | _ => digits_text (flat_map (fun b => [(b, 1); (b, 0)]) node) +:+ s end).
  { destruct node as [|b' node']; [by rewrite sapp_nil|]. cbn [flat_map app digits_text skip_colon]. rewrite !sapp_cons. cbn [skip_colon].
    by rewrite bool_decide_eq_false_2 by (apply get_hex_ipx_digit). }
  rewrite Hs. replace (ipx_getnode (length node) _) with (Some node).
  2:{ destruct node; [done|]. symmetry. by apply IH. }
  cbn [mbind option_bind]. by rewrite byte_nibbles.
Qed.

Lemma after_dot_digits ds s : after_dot (digits_text ds +:+ String "." s) = Some s.
Proof.
  induction ds as [|[a k] ds IH]; cbn [digits_text]; [done|]. rewrite sapp_cons. cbn [after_dot].
  by rewrite bool_decide_eq_false_2 by (apply get_hex_ipx_digit).
Qed.

Lemma ipx_ntop_text addr len : length addr = 10%nat -> 22 <= len ->
  ipx_ntop addr len = Some (digits_text (nibbles 8 (be_val (take 4 addr))) +:+
    String "." (digits_text (flat_map (fun b => [(b, 1); (b, 0)]) (drop 4 addr)))).
Proof.
  intros Hl Hlen. unfold ipx_ntop. change (map _ _) with (nibbles 8 (be_val (take 4 addr))). set (net := be_val _).
  rewrite (firstn_all2 (drop 4 addr)) by (rewrite length_drop; lia).
  assert (Hf : length (flat_map (fun b => [(b, 1); (b, 0)]) (drop 4 addr)) = 12%nat).
  { do 10 (destruct addr as [|? addr]; [discriminate|]). destruct addr; [done|discriminate]. }
  rewrite ipx_digits_text by (cbn [length nibbles]; lia). cbn [mbind option_bind length nibbles].
  destruct (Z.eqb_spec (len - Z.of_nat 8) 0); [lia|]. rewrite ipx_digits_text, Hf by lia. cbn [mbind option_bind].
  destruct (Z.eqb_spec (len - Z.of_nat 8 - 1 - Z.of_nat 12) 0); [lia|]. by rewrite sapp_nil, <- sapp_assoc, sapp_cons, sapp_nil.
Qed.

Lemma first_digit_zero net : 0 <= net < 256 ^ 4 -> 0 = Z.land (Z.shiftr net (7 * 4)) 15 -> 0 <= net < 16 ^ 7.
Proof.
  intros Hn H. change 15 with (Z.ones 4) in H. rewrite Z.land_ones, Z.shiftr_div_pow2 in H by lia.
  rewrite Z.mod_small in H by (split; [apply Z.div_pos|apply Z.div_lt_upper_bound]; lia).
  pose proof (Z.div_mod net (2 ^ (7 * 4)) ltac:(lia)). pose proof (Z.mod_pos_bound net (2 ^ (7 * 4)) ltac:(lia)). lia.
Qed.

(** ** Claim *)

(** What [ipx_ntop] prints, eight digits, a dot and twelve digits, is never accepted by
    [ipx_pton], which wants the dot or the end before a ninth digit position. Without its first
    digit, when that is a zero, it is read as the address it came from. *)
Theorem ipx_text_refused addr len : length addr = 10%nat -> bytes_ok addr = true -> 22 <= len ->
  exists c t, ipx_ntop addr len = Some (String c t) /\ ipx_pton (String c t) = None /\
    (c = "0"%char -> ipx_pton t = Some addr).
Proof.
  intros Hl Hb Hlen. rewrite ipx_ntop_text by done. set (net := be_val (take 4 addr)).
  change (digits_text (nibbles 8 net)) with (String (ipx_digit net 7) (digits_text (nibbles 7 net))). rewrite sapp_cons.
  eexists _, _. split; [done|]. rewrite <- sapp_cons. unfold ipx_pton. split.
  - change (String (ipx_digit net 7) (digits_text (nibbles 7 net))) with (digits_text (nibbles 8 net)).
    rewrite (getnet_digits (nibbles 8 net) 8 0) by (cbn; lia). done.
  - intros Hc. rewrite (getnet_digits (nibbles 7 net) 8 0) by (cbn; lia). cbn [length nibbles Nat.sub ipx_getnet].
    change (u32 (get_hex ".") =? u32 (-1)) with true. rewrite bool_decide_eq_true_2 by done. cbn [mbind option_bind].
    rewrite after_dot_digits, <- (sapp_nil_r (digits_text (flat_map _ _))).
    pose proof (getnode_digits (drop 4 addr) "" (bytes_ok_drop 4 addr Hb)) as Hnode. rewrite length_drop, Hl in Hnode.
    change (10 - 4)%nat with 6%nat in Hnode. rewrite Hnode.
    cbn [mbind option_bind]. f_equal. refine (eq_trans _ (take_drop 4 addr)). f_equal.
    replace (digits_val 0 _) with (net mod 16 ^ 7) by (symmetry; exact (digits_val_nibbles 7 net 0)). rewrite Z.mod_small.
    + unfold net. replace 4%nat with (length (take 4 addr)) at 1 by (rewrite length_take; lia). by apply be_bytes_val, bytes_ok_take.
    + pose proof (be_val_bound (take 4 addr) (bytes_ok_take 4 addr Hb)) as Hn. fold net in Hn. rewrite length_take, Hl in Hn.
      destruct (get_hex_ipx_digit net 7) as (Hx & _). rewrite Hc in Hx. by apply first_digit_zero.
Qed.

Lemma ipx_text_refused_witness :
  exists c t, ipx_ntop [0; 0x12; 0xab; 4; 1; 2; 3; 4; 5; 0xff] 256 = Some (String c t) /\ ipx_pton (String c t) = None /\
    (c = "0"%char -> ipx_pton t = Some [0; 0x12; 0xab; 4; 1; 2; 3; 4; 5; 0xff]).
Proof. apply (ipx_text_refused [0; 0x12; 0xab; 4; 1; 2; 3; 4; 5; 0xff] 256); [reflexivity|reflexivity|lia]. Defined.
