(* ===== verification/JsonWriter.v ===== *)
(** * The JSON writer of iproute2

    Models [iproute2-4.18.0/lib/json_writer.c]. The writer is a record with the text it
    has put out; a function that ends the process on a failed assertion gives [None].
    The numbers of [%g] are given as text. The reference is a parser of JSON (RFC 8259,
    with integers only and without [\u] escapes): what is written for a tree is parsed as
    that tree. *)
From stdpp Require Import base list numbers strings.
From Stdlib Require Import ZArith Lia Ascii.
From S2P Require Import Prelude Cstring.

Open Scope Z_scope.

(** ** The writer *)

(** [w_sep] is [None] for a zero character. *)
Record json_writer := mk_writer { w_out : string; w_depth : Z; w_pretty : bool; w_sep : option ascii }.

Definition fputs (s : string) (w : json_writer) : json_writer := mk_writer (w_out w +:+ s) (w_depth w) (w_pretty w) (w_sep w).
Definition putc (c : ascii) (w : json_writer) : json_writer := fputs (String c "") w.
Definition set_sep (c : option ascii) (w : json_writer) : json_writer := mk_writer (w_out w) (w_depth w) (w_pretty w) c.
Definition set_depth (d : Z) (w : json_writer) : json_writer := mk_writer (w_out w) d (w_pretty w) (w_sep w).

Fixpoint indent_loop (n : nat) (w : json_writer) : json_writer :=
  match n with O => w | S n' => indent_loop n' (fputs "    " w) end.
Definition jsonw_indent (w : json_writer) : json_writer := indent_loop (Z.to_nat (w_depth w)) w.

Definition jsonw_eol (w : json_writer) : json_writer :=
  if negb (w_pretty w) then w else jsonw_indent (putc "010" w).

Definition jsonw_eor (w : json_writer) : json_writer :=
  set_sep (Some ","%char) (match w_sep w with Some c => putc c w | None => w end).

(** A backslash is put out as [\n]. *)
Definition json_escape_char (c : ascii) : string :=
  if bool_decide (c = "009"%char) then "\t"
  else if bool_decide (c = "010"%char) then "\n"
  else if bool_decide (c = "013"%char) then "\r"
  else if bool_decide (c = "012"%char) then "\f"
  else if bool_decide (c = "008"%char) then "\b"
  else if bool_decide (c = "\"%char) then "\n"
  else if bool_decide (c = "034"%char) then String "\" (String "034" "")
  else if bool_decide (c = "'"%char) then "\'"
  else String c "".
Fixpoint json_escape (str : string) : string :=
  match str with EmptyString => EmptyString | String c str' => json_escape_char c +:+ json_escape str' end.
Definition jsonw_puts (w : json_writer) (str : string) : json_writer :=
  putc "034" (fputs (json_escape str) (putc "034" w)).

(** [malloc] succeeded; [out] is what the file already holds. *)
Definition jsonw_new (out : string) : json_writer := mk_writer out 0 false None.
(** What the file holds in the end. *)
Definition jsonw_destroy (w : json_writer) : option string :=
  if w_depth w =? 0 then Some (w_out (fputs (String "010" "") w)) else None.
Definition jsonw_pretty (w : json_writer) (on : bool) : json_writer := mk_writer (w_out w) (w_depth w) on (w_sep w).

Definition jsonw_begin (w : json_writer) (c : ascii) : json_writer :=
  let w1 := putc c (jsonw_eor w) in set_sep None (set_depth (u32 (w_depth w1 + 1)) w1).
Definition jsonw_end (w : json_writer) (c : ascii) : option json_writer :=
  if w_depth w >? 0 then
    let w1 := set_depth (w_depth w - 1) w in
    let w2 := match w_sep w1 with Some _ => jsonw_eol w1 | None => w1 end in
    Some (set_sep (Some ","%char) (putc c w2))
  else None.

Definition jsonw_name (w : json_writer) (name : string) : json_writer :=
  let w1 := set_sep None (jsonw_eol (jsonw_eor w)) in
  let w2 := putc ":" (jsonw_puts w1 name) in
  if w_pretty w2 then putc " " w2 else w2.

(** [text] is the formatted text. *)
Definition jsonw_printf (w : json_writer) (text : string) : json_writer := fputs text (jsonw_eor w).

Definition jsonw_start_object (w : json_writer) : json_writer := jsonw_begin w "{".
Definition jsonw_end_object (w : json_writer) : option json_writer := jsonw_end w "}".
Definition jsonw_start_array (w : json_writer) : json_writer :=
  let w1 := jsonw_begin w "[" in if w_pretty w1 then putc " " w1 else w1.
Definition jsonw_end_array (w : json_writer) : option json_writer :=
  let w1 := if w_pretty w && match w_sep w with Some _ => true | None => false end then putc " " w else w in
  jsonw_end (set_sep None w1) "]".

(** ** Values *)

Definition s64 (z : Z) : Z := (z + 2 ^ 63) mod 2 ^ 64 - 2 ^ 63.

Definition jsonw_string (w : json_writer) (value : string) : json_writer := jsonw_puts (jsonw_eor w) value.
Definition jsonw_bool (w : json_writer) (val : bool) : json_writer := jsonw_printf w (if val then "true" else "false").
Definition jsonw_null (w : json_writer) : json_writer := jsonw_printf w "null".
(** The number as the format shows it. *)
Definition jsonw_float_fmt (w : json_writer) (num : string) : json_writer := jsonw_printf w num.
Definition jsonw_float (w : json_writer) (num : string) : json_writer := jsonw_printf w num.
Definition jsonw_hu (w : json_writer) (num : Z) : json_writer := jsonw_printf w (dec (u16 num)).
Definition jsonw_uint (w : json_writer) (num : Z) : json_writer := jsonw_printf w (dec (u32 num)).
Definition jsonw_u64 (w : json_writer) (num : Z) : json_writer := jsonw_printf w (dec (u64 num)).
Definition jsonw_xint (w : json_writer) (num : Z) : json_writer := jsonw_printf w (hex (u64 num)).
Definition jsonw_luint (w : json_writer) (num : Z) : json_writer := jsonw_printf w (dec (u64 num)).
Definition jsonw_lluint (w : json_writer) (num : Z) : json_writer := jsonw_printf w (dec (u64 num)).
Definition jsonw_int (w : json_writer) (num : Z) : json_writer := jsonw_printf w (dec (s32 num)).
Definition jsonw_s64 (w : json_writer) (num : Z) : json_writer := jsonw_printf w (dec (s64 num)).

Definition jsonw_string_field w prop val := jsonw_string (jsonw_name w prop) val.
Definition jsonw_bool_field w prop val := jsonw_bool (jsonw_name w prop) val.
Definition jsonw_float_field w prop val := jsonw_float (jsonw_name w prop) val.
Definition jsonw_float_field_fmt w prop val := jsonw_float_fmt (jsonw_name w prop) val.
Definition jsonw_uint_field w prop num := jsonw_uint (jsonw_name w prop) num.
Definition jsonw_u64_field w prop num := jsonw_u64 (jsonw_name w prop) num.
Definition jsonw_xint_field w prop num := jsonw_xint (jsonw_name w prop) num.
Definition jsonw_hu_field w prop num := jsonw_hu (jsonw_name w prop) num.
Definition jsonw_luint_field w prop num := jsonw_luint (jsonw_name w prop) num.
Definition jsonw_lluint_field w prop num := jsonw_lluint (jsonw_name w prop) num.
Definition jsonw_int_field w prop num := jsonw_int (jsonw_name w prop) num.
Definition jsonw_s64_field w prop num := jsonw_s64 (jsonw_name w prop) num.
Definition jsonw_null_field w prop := jsonw_null (jsonw_name w prop).

(** ** Trees *)

Unset Elimination Schemes.
Inductive json :=
| JNull
| JBool (b : bool)
| JInt (z : Z)
| JStr (s : string)
| JArr (l : list json)
| JObj (l : list (string * json)).
Set Elimination Schemes.

Section JsonInd.
Context (P : json -> Prop) (Hnull : P JNull) (Hbool : forall b, P (JBool b)) (Hint : forall z, P (JInt z)) (Hstr : forall s, P (JStr s)).
Context (Harr : forall l, Forall P l -> P (JArr l)) (Hobj : forall l, Forall (fun m => P m.2) l -> P (JObj l)).

Fixpoint json_tree_ind (v : json) : P v :=
  match v with
  | JNull => Hnull | JBool b => Hbool b | JInt z => Hint z | JStr s => Hstr s
  | JArr l => Harr l ((fix go l := match l return Forall P l with
                        | [] => Forall_nil_2 _ | x :: l' => Forall_cons_2 _ _ _ (json_tree_ind x) (go l') end) l)
  | JObj l => Hobj l ((fix go l := match l return Forall (fun m => P m.2) l with
                        | [] => Forall_nil_2 _ | x :: l' => Forall_cons_2 _ _ _ (json_tree_ind x.2) (go l') end) l)
  end.
End JsonInd.

Section WriteAll.
Context {A : Type} (f : A -> json_writer -> option json_writer).
Fixpoint write_all (l : list A) (w : json_writer) : option json_writer :=
  match l with [] => Some w | x :: l' => w' ← f x w; write_all l' w' end.
End WriteAll.

(** The calls a program makes for a tree. *)
Fixpoint write_json (v : json) (w : json_writer) : option json_writer :=
  match v with
  | JNull => Some (jsonw_null w)
  | JBool b => Some (jsonw_bool w b)
  | JInt z => Some (if z <? 0 then jsonw_s64 w z else jsonw_u64 w z)
  | JStr s => Some (jsonw_string w s)
  | JArr l => w' ← write_all write_json l (jsonw_start_array w); jsonw_end_array w'
  | JObj l => w' ← write_all (fun m w => write_json m.2 (jsonw_name w m.1)) l (jsonw_start_object w); jsonw_end_object w'
  end.

Definition maximum (l : list Z) : Z := foldr Z.max 0 l.

(** How deep collections are nested. *)
Fixpoint height (v : json) : Z :=
  match v with
  | JArr l => 1 + maximum (map height l)
  | JObj l => 1 + maximum (map (fun m => height m.2) l)
  | _ => 0
  end.

(** ** Reference parser *)

Definition json_space (c : ascii) : bool := bool_decide (c ∈ [" "%char; "009"%char; "010"%char; "013"%char]).
Definition skip_ws (s : string) : string := (span json_space s).2.

Definition unescape_char (c : ascii) : option ascii :=
  if bool_decide (c = "034"%char) then Some "034"%char
  else if bool_decide (c = "\"%char) then Some "\"%char
  else if bool_decide (c = "/"%char) then Some "/"%char
  else if bool_decide (c = "b"%char) then Some "008"%char
  else if bool_decide (c = "f"%char) then Some "012"%char
  else if bool_decide (c = "n"%char) then Some "010"%char
  else if bool_decide (c = "r"%char) then Some "013"%char
  else if bool_decide (c = "t"%char) then Some "009"%char
  else None.

(** Behind the opening quote: the string and the text behind the closing one. *)
Fixpoint parse_chars (s : string) : option (string * string) :=
  match s with
  | EmptyString => None
  | String c s' =>
      if bool_decide (c = "034"%char) then Some (EmptyString, s')
      else if bool_decide (c = "\"%char) then
        match s' with
        | EmptyString => None
        | String e s'' => c' ← unescape_char e; '(t, r) ← parse_chars s''; Some (String c' t, r)
        end
      else if code c <? 32 then None
      else '(t, r) ← parse_chars s'; Some (String c t, r)
  end.

Definition parse_string (s : string) : option (string * string) :=
  match s with String c s' => if bool_decide (c = "034"%char) then parse_chars s' else None | EmptyString => None end.

(** Digits without a leading zero. *)
Definition parse_nat (s : string) : option (Z * string) :=
  let '(v, k, r) := scan_digits 10 s 0 0 in
  if (k =? 0)%nat || (has_prefix "0" s && (1 <? k)%nat) then None else Some (v, r).
Definition parse_int (s : string) : option (Z * string) :=
  match strip_prefix "-" s with
  | Some s' => '(v, r) ← parse_nat s'; Some (- v, r)
  | None => parse_nat s
  end.

Definition parse_atom (t : string) : option (json * string) :=
  match parse_string t with
  | Some (s', r) => Some (JStr s', r)
  | None =>
      match strip_prefix "true" t, strip_prefix "false" t, strip_prefix "null" t with
      | Some r, _, _ => Some (JBool true, r)
      | _, Some r, _ => Some (JBool false, r)
      | _, _, Some r => Some (JNull, r)
      | _, _, _ => '(z, r) ← parse_int t; Some (JInt z, r)
      end
  end.

(** The fuel bounds the nesting and the number of elements; a text as long as the
    fuel cannot need more. *)
Fixpoint parse_value (fuel : nat) (s : string) : option (json * string) :=
  match fuel with
  | O => None
  | S f =>
      match strip_prefix "{" (skip_ws s), strip_prefix "[" (skip_ws s) with
      | Some r, _ =>
          match strip_prefix "}" (skip_ws r) with
          | Some r' => Some (JObj [], r')
          | None => '(l, r') ← parse_members f r; Some (JObj l, r')
          end
      | None, Some r =>
          match strip_prefix "]" (skip_ws r) with
          | Some r' => Some (JArr [], r')
          | None => '(l, r') ← parse_elements f r; Some (JArr l, r')
          end
      | None, None => parse_atom (skip_ws s)
      end
  end
with parse_elements (fuel : nat) (s : string) : option (list json * string) :=
  match fuel with
  | O => None
  | S f =>
      '(v, r) ← parse_value f s;
      match strip_prefix "," (skip_ws r), strip_prefix "]" (skip_ws r) with
      | Some r', _ => '(l, r'') ← parse_elements f r'; Some (v :: l, r'')
      | None, Some r' => Some ([v], r')
      | None, None => None
      end
  end
with parse_members (fuel : nat) (s : string) : option (list (string * json) * string) :=
  match fuel with
  | O => None
  | S f =>
      '(name, r) ← parse_string (skip_ws s);
      r1 ← strip_prefix ":" (skip_ws r);
      '(v, r2) ← parse_value f r1;
      match strip_prefix "," (skip_ws r2), strip_prefix "}" (skip_ws r2) with
      | Some r', _ => '(l, r'') ← parse_members f r'; Some ((name, v) :: l, r'')
      | None, Some r' => Some ([(name, v)], r')
      | None, None => None
      end
  end.

(** A whole text. *)
Definition parse_json (s : string) : option json :=
  '(v, r) ← parse_value (String.length s) s;
  match skip_ws r with EmptyString => Some v | _ => None end.

(** ** What is written *)

(** Texts written in different pieces are equal. *)
Ltac sapp_norm := rewrite ?sapp_nil_r; repeat (rewrite sapp_cons || rewrite sapp_nil || rewrite <- sapp_assoc); rewrite ?sapp_nil_r; try done.

Definition quoted (s : string) : string := String "034" (json_escape s +:+ String "034" "").

Fixpoint spaces (n : nat) : string := match n with O => EmptyString | S n' => "    " +:+ spaces n' end.
Definition eol_text (pretty : bool) (d : Z) : string := if pretty then String "010" (spaces (Z.to_nat d)) else "".

Section Joined.
Context {A : Type} (f : A -> string).
(** The texts of the elements with commas between them. *)
Fixpoint comma_joined (l : list A) : string :=
  match l with
  | [] => EmptyString
  | [x] => f x
  | x :: l' => f x +:+ String "," (comma_joined l')
  end.
End Joined.

Definition blank (pretty : bool) : string := if pretty then " " else "".

Fixpoint json_text (pretty : bool) (d : Z) (v : json) : string :=
  match v with
  | JNull => "null"
  | JBool b => if b then "true" else "false"
  | JInt z => dec z
  | JStr s => quoted s
  | JArr l => String "[" (blank pretty +:+ comma_joined (json_text pretty (d + 1)) l +:+
                (match l with [] => "" | _ => blank pretty end) +:+ "]")
  | JObj l => String "{" (comma_joined (fun m => eol_text pretty (d + 1) +:+ quoted m.1 +:+ ":" +:+ blank pretty +:+ json_text pretty (d + 1) m.2) l +:+
                (match l with [] => "" | _ => eol_text pretty d end) +:+ "}")
  end.

Definition sep_text (w : json_writer) : string := match w_sep w with Some c => String c "" | None => "" end.
(** The writer after a text that completes a value. *)
Definition after (w : json_writer) (t : string) : json_writer := mk_writer (w_out w +:+ sep_text w +:+ t) (w_depth w) (w_pretty w) (Some ","%char).

Lemma indent_spaces n : forall w, indent_loop n w = fputs (spaces n) w.
Proof.
  induction n as [|n IH]; intros w; cbn [indent_loop spaces]; [|rewrite IH; unfold fputs; cbn; by rewrite sapp_assoc].
  destruct w. unfold fputs. cbn. by rewrite sapp_nil_r.
Qed.

Lemma eol_fputs w : jsonw_eol w = fputs (eol_text (w_pretty w) (w_depth w)) w.
Proof.
  unfold jsonw_eol, eol_text, jsonw_indent. destruct w as [o d [] sp]; cbn [w_pretty negb w_depth].
  - rewrite indent_spaces. unfold putc, fputs. cbn. by rewrite <- sapp_assoc.
  - unfold fputs. cbn. by rewrite sapp_nil_r.
Qed.

Lemma eor_after w : jsonw_eor w = after w "".
Proof. unfold jsonw_eor, after, sep_text. destruct w as [o d p [c|]]; unfold putc, fputs, set_sep; cbn; by rewrite ?sapp_nil_r. Qed.

Lemma printf_after w t : jsonw_printf w t = after w t.
Proof. unfold jsonw_printf. rewrite eor_after. unfold fputs, after. cbn. by rewrite sapp_nil_r, sapp_assoc. Qed.

Lemma string_after w t : jsonw_string w t = after w (quoted t).
Proof.
  unfold jsonw_string, jsonw_puts, putc, quoted. rewrite eor_after. unfold fputs, after. cbn.
  by rewrite sapp_nil_r, <- !sapp_assoc.
Qed.

Lemma name_fputs w name : jsonw_name w name =
  mk_writer (w_out w +:+ sep_text w +:+ eol_text (w_pretty w) (w_depth w) +:+ quoted name +:+ ":" +:+ blank (w_pretty w)) (w_depth w) (w_pretty w) None.
Proof.
  unfold jsonw_name. rewrite eol_fputs, eor_after. unfold jsonw_puts, putc, fputs, set_sep, after, quoted, blank. cbn.
  destruct (w_pretty w); cbn; sapp_norm.
Qed.

Lemma s64_small z : - 2 ^ 63 <= z < 2 ^ 63 -> s64 z = z.
Proof. intros H. unfold s64. rewrite Z.mod_small; lia. Qed.

(** The numbers of a tree fit. *)
Fixpoint ints_ok (v : json) : bool :=
  match v with
  | JInt z => (- 2 ^ 63 <=? z) && (z <? 2 ^ 64)
  | JArr l => forallb ints_ok l
  | JObj l => forallb (fun m => ints_ok m.2) l
  | _ => true
  end.

Section WriteList.
Context {A : Type} (f : A -> json_writer -> option json_writer) (text : A -> string) (d : Z) (pretty : bool).

Lemma write_all_joined l : forall x w, (forall y w, y ∈ x :: l -> w_depth w = d -> w_pretty w = pretty -> f y w = Some (after w (text y))) ->
  w_depth w = d -> w_pretty w = pretty -> write_all f (x :: l) w = Some (after w (comma_joined text (x :: l))).
Proof.
  induction l as [|y l IH]; intros x w Hf Hd Hp; change (write_all f (x :: ?r) w) with (w' ← f x w; write_all f r w');
    rewrite Hf by (done || apply list_elem_of_here); cbn [mbind option_bind]; [done|].
  rewrite IH; [|intros; apply Hf; [by apply list_elem_of_further|done|done]|done|done].
  f_equal. unfold after, sep_text. cbn. by rewrite <- !sapp_assoc.
Qed.
End WriteList.

Lemma maximum_le (l : list Z) x : x ∈ l -> x <= maximum l.
Proof. induction l as [|y l IH]; [by intros ?%elem_of_nil|]. intros [->|H]%elem_of_cons; cbn; [lia|]. specialize (IH H). unfold maximum in *. lia. Qed.

Lemma maximum_nonneg l : 0 <= maximum l.
Proof. induction l; cbn; unfold maximum in *; lia. Qed.

Ltac wcbn := cbn [w_out w_depth w_pretty w_sep set_sep set_depth andb negb sep_text].

(** The end of a collection one level below [d]. *)
Lemma end_below o (d : Z) p s c : 0 <= d ->
  jsonw_end (mk_writer o (d + 1) p s) c = Some (mk_writer (o +:+ (match s with Some _ => eol_text p d | None => "" end) +:+ String c "") d p (Some ","%char)).
Proof.
  intros Hd. unfold jsonw_end. cbn [w_depth]. destruct (Z.gtb_spec (d + 1) 0); [|lia]. f_equal. unfold set_depth. cbn [w_sep w_depth w_out w_pretty].
  replace (d + 1 - 1) with d by lia. rewrite eol_fputs. unfold putc, fputs, set_sep. destruct s; wcbn; f_equal; sapp_norm.
Qed.

Lemma begin_above w c : 0 <= w_depth w -> w_depth w + 1 < 2 ^ 32 ->
  jsonw_begin w c = mk_writer (w_out w +:+ sep_text w +:+ String c "") (w_depth w + 1) (w_pretty w) None.
Proof.
  intros H0 Hd. unfold jsonw_begin. rewrite eor_after. unfold putc, fputs, set_sep, set_depth, after. wcbn. rewrite u32_small by lia. f_equal. sapp_norm.
Qed.

Lemma write_array (l : list json) w f : 0 <= w_depth w -> w_depth w + 1 < 2 ^ 32 ->
  (forall v w', v ∈ l -> w_depth w' = w_depth w + 1 -> w_pretty w' = w_pretty w -> f v w' = Some (after w' (json_text (w_pretty w) (w_depth w + 1) v))) ->
  (w' ← write_all f l (jsonw_start_array w); jsonw_end_array w') = Some (after w (json_text (w_pretty w) (w_depth w) (JArr l))).
Proof.
  intros H0 Hd Hf. unfold jsonw_start_array. rewrite begin_above by done. cbn [w_pretty json_text].
  replace (if w_pretty w then _ else _) with (mk_writer (w_out w +:+ sep_text w +:+ String "[" (blank (w_pretty w))) (w_depth w + 1) (w_pretty w) None)
    by (unfold blank, putc, fputs; destruct (w_pretty w) eqn:Ep; wcbn; f_equal; sapp_norm).
  destruct l as [|x l].
  - cbn [write_all mbind option_bind]. unfold jsonw_end_array, set_sep. cbn [w_sep w_pretty w_out w_depth]. rewrite andb_false_r.
    wcbn. rewrite end_below by done. unfold after. do 2 f_equal. sapp_norm.
  - rewrite (write_all_joined f _ (w_depth w + 1) (w_pretty w) l x _ Hf) by done. cbn [mbind option_bind].
    set (t := comma_joined _ _). unfold jsonw_end_array, set_sep, after, blank, putc, fputs. wcbn.
    destruct (w_pretty w); wcbn; rewrite end_below by done; do 2 f_equal; sapp_norm.
Qed.

Lemma write_object (l : list (string * json)) w f : 0 <= w_depth w -> w_depth w + 1 < 2 ^ 32 ->
  (forall m w', m ∈ l -> w_depth w' = w_depth w + 1 -> w_pretty w' = w_pretty w ->
    f m w' = Some (after w' (eol_text (w_pretty w) (w_depth w + 1) +:+ quoted m.1 +:+ ":" +:+ blank (w_pretty w) +:+ json_text (w_pretty w) (w_depth w + 1) m.2))) ->
  (w' ← write_all f l (jsonw_start_object w); jsonw_end_object w') = Some (after w (json_text (w_pretty w) (w_depth w) (JObj l))).
Proof.
  intros H0 Hd Hf. unfold jsonw_start_object. rewrite begin_above by done. cbn [json_text]. destruct l as [|x l].
  - cbn [write_all mbind option_bind]. unfold jsonw_end_object. rewrite end_below by done. unfold after. do 2 f_equal. sapp_norm.
  - rewrite (write_all_joined f _ (w_depth w + 1) (w_pretty w) l x _ Hf) by done. cbn [mbind option_bind].
    set (t := comma_joined _ _). unfold jsonw_end_object, after. wcbn. rewrite end_below by done. do 2 f_equal. sapp_norm.
Qed.

Lemma write_json_text v : forall w, ints_ok v = true -> 0 <= w_depth w -> w_depth w + height v < 2 ^ 32 ->
  write_json v w = Some (after w (json_text (w_pretty w) (w_depth w) v)).
Proof.
  induction v as [|b|z|s|l IH|l IH] using json_tree_ind; intros w Hok H0 Hd.
  - cbn [write_json json_text]. unfold jsonw_null. by rewrite printf_after.
  - cbn [write_json json_text]. unfold jsonw_bool. by rewrite printf_after.
  - cbn [write_json json_text]. unfold jsonw_s64, jsonw_u64. cbn [ints_ok] in Hok. apply andb_prop in Hok as [?%Z.leb_le ?%Z.ltb_lt].
    destruct (Z.ltb_spec z 0); [rewrite s64_small by lia|rewrite u64_small by lia]; by rewrite printf_after.
  - cbn [write_json json_text]. by rewrite string_after.
  - cbn [ints_ok] in Hok. rewrite forallb_forall in Hok. cbn [height] in Hd. rewrite Forall_forall in IH. cbn [write_json].
    apply write_array; [done|pose proof (maximum_nonneg (map height l)); lia|]. intros v w' Hv Hwd Hwp.
    rewrite IH; [by rewrite Hwd, Hwp|done|by apply Hok, list_elem_of_In|lia|].
    pose proof (maximum_le (map height l) (height v) ltac:(by apply list_elem_of_fmap_2)). lia.
  - cbn [ints_ok] in Hok. rewrite forallb_forall in Hok. cbn [height] in Hd. rewrite Forall_forall in IH. cbn [write_json].
    apply write_object; [done|pose proof (maximum_nonneg (map (fun m => height m.2) l)); lia|]. intros m w' Hm Hwd Hwp.
    pose proof (maximum_le (map (fun m => height m.2) l) (height m.2) ltac:(by apply (list_elem_of_fmap_2 (fun m => height m.2)))).
    rewrite name_fputs, IH; [|done|by apply (Hok m), list_elem_of_In|cbn; lia|cbn; lia].
    unfold after. wcbn. rewrite Hwd, Hwp. f_equal. f_equal. sapp_norm.
Qed.

(** ** What is written is parsed *)

(** Characters whose escape is right: neither a backslash nor a quotation mark of C,
    and a control character only if it has a letter of its own. *)
Definition str_char (c : ascii) : bool :=
  negb (bool_decide (c = "\"%char)) && negb (bool_decide (c = "'"%char)) &&
  ((32 <=? code c) || bool_decide (c ∈ ["008"%char; "009"%char; "010"%char; "012"%char; "013"%char])).

Fixpoint strings_ok (v : json) : bool :=
  match v with
  | JStr s => sforall str_char s
  | JArr l => forallb strings_ok l
  | JObj l => forallb (fun m => sforall str_char m.1 && strings_ok m.2) l
  | _ => true
  end.

Lemma parse_chars_escape e c t : unescape_char e = Some c ->
  parse_chars (String "\" (String e t)) = '(s, r) ← parse_chars t; Some (String c s, r).
Proof. intros He. cbn [parse_chars]. rewrite bool_decide_eq_false_2, bool_decide_eq_true_2 by done. by rewrite He. Qed.

Lemma parse_chars_char c t : str_char c = true ->
  parse_chars (json_escape_char c +:+ t) = '(s, r) ← parse_chars t; Some (String c s, r).
Proof.
  unfold json_escape_char. intros Hc.
  repeat (case_bool_decide; [subst; try discriminate Hc; rewrite !sapp_cons, sapp_nil; by apply parse_chars_escape|]).
  rewrite sapp_cons, sapp_nil. cbn [parse_chars]. rewrite !bool_decide_eq_false_2 by done.
  destruct (Z.ltb_spec (code c) 32); [|done]. exfalso. unfold str_char in Hc. apply andb_prop in Hc as [_ [?%Z.leb_le|Hc]%orb_prop]; [lia|].
  apply bool_decide_eq_true in Hc. rewrite !elem_of_cons, elem_of_nil in Hc. tauto.
Qed.

Lemma parse_chars_app s t : sforall str_char s = true ->
  parse_chars (json_escape s +:+ t) = '(u, r) ← parse_chars t; Some (s +:+ u, r).
Proof.
  intros Hs. induction s as [|c s IH]; cbn [json_escape]; [rewrite sapp_nil; by destruct (parse_chars t) as [[]|]|].
  cbn [sforall] in Hs. apply andb_prop in Hs as [Hc Hs]. rewrite <- sapp_assoc, parse_chars_char, IH by done. by destruct (parse_chars t) as [[]|].
Qed.

Lemma parse_quoted s r : sforall str_char s = true -> parse_string (quoted s +:+ r) = Some (s, r).
Proof.
  intros Hs. unfold quoted. rewrite sapp_cons. cbn [parse_string]. rewrite bool_decide_eq_true_2 by done.
  rewrite <- sapp_assoc, parse_chars_app by done. rewrite sapp_cons. cbn [parse_chars]. rewrite bool_decide_eq_true_2 by done.
  cbn [mbind option_bind]. by rewrite sapp_nil_r.
Qed.

Definition visible_head (t : string) : bool := match t with String c _ => negb (json_space c) | EmptyString => true end.

Lemma skip_ws_visible t : visible_head t = true -> skip_ws t = t.
Proof. unfold skip_ws. destruct t as [|c t]; [done|]. cbn. by destruct (json_space c). Qed.

Lemma skip_ws_app s t : sforall json_space s = true -> skip_ws (s +:+ t) = skip_ws t.
Proof.
  unfold skip_ws. induction s as [|c s IH]; [done|]. cbn [sforall]. intros [Hc Hs]%andb_prop. rewrite sapp_cons. cbn [span]. rewrite Hc.
  specialize (IH Hs). by destruct (span json_space (s +:+ t)).
Qed.

Lemma eol_space p d : sforall json_space (eol_text p d) = true.
Proof.
  destruct p; [|done]. cbn [eol_text sforall]. induction (Z.to_nat d) as [|n IH]; [done|]. cbn [spaces]. exact IH.
Qed.

Lemma blank_space p : sforall json_space (blank p) = true.
Proof. by destruct p. Qed.

Lemma strip_char c d t : strip_prefix (String c "") (String d t) = if decide (c = d) then Some t else None.
Proof. done. Qed.

Lemma parse_nat_print n r : 0 <= n < 2 ^ 64 -> stops r = true -> parse_nat (print_base 64 10 n "" +:+ r) = Some (n, r).
Proof.
  intros Hn Hr. unfold parse_nat. destruct (scan_print 64 10 n 0 0 ltac:(lia) ltac:(lia) Hn) as (j & Hj & Hs).
  rewrite (scan_digits_app _ _ r _ _ _ _ Hs), scan_stops by done. destruct (print_base_head 64 10 n ltac:(lia) ltac:(lia) Hn) as (d & t & Hp & Hd & Hz).
  rewrite Hp in Hs |- *. rewrite sapp_cons, has_prefix_char. cbn [Nat.add] in *. destruct (Nat.eqb_spec j 0); [lia|]. cbn [orb].
  destruct (digit_char_plain d ltac:(lia)) as (_ & _ & _ & _ & _ & H0). case_bool_decide as E.
  - destruct (Hz (proj1 H0 (eq_sym E))) as [Hn0 Ht]. subst n t. cbn [scan_digits] in Hs. rewrite digit_val_char in Hs by lia.
    destruct (Z.ltb_spec d 10); [|lia]. injection Hs as _ Hj1. by rewrite <- Hj1.
  - done.
Qed.

(** How the text of a number begins. *)
Definition number_heads : list ascii := ["-"; "0"; "1"; "2"; "3"; "4"; "5"; "6"; "7"; "8"; "9"]%char.

Lemma dec_head z : - 2 ^ 63 <= z < 2 ^ 64 -> exists c t, dec z = String c t /\ c ∈ number_heads.
Proof.
  intros Hz. unfold dec. destruct (Z.ltb_spec z 0); [eexists _, _; split; [done|apply list_elem_of_here]|].
  destruct (print_base_head 64 10 z ltac:(lia) ltac:(lia) ltac:(lia)) as (d & t & -> & Hd & _). eexists _, _. split; [done|].
  apply list_elem_of_further. assert (Hk : exists k : nat, d = Z.of_nat k /\ (k < 10)%nat) by (exists (Z.to_nat d); lia).
  destruct Hk as (k & -> & Hk). do 10 (destruct k; [apply (bool_decide_unpack _); done|]). lia.
Qed.

Lemma parse_int_dec z r : - 2 ^ 63 <= z < 2 ^ 64 -> stops r = true -> parse_int (dec z +:+ r) = Some (z, r).
Proof.
  intros Hz Hr. unfold parse_int, dec. destruct (Z.ltb_spec z 0).
  - rewrite sapp_cons, strip_char. rewrite decide_True by done. rewrite parse_nat_print by (done || lia). cbn [mbind option_bind]. do 2 f_equal. lia.
  - destruct (print_base_head 64 10 z ltac:(lia) ltac:(lia) ltac:(lia)) as (d & t & Hp & Hd & _).
    replace (strip_prefix "-" _) with (@None string); [by apply parse_nat_print; [lia|]|].
    rewrite Hp, sapp_cons, strip_char. rewrite decide_False; [done|]. intros E. by destruct (digit_char_plain d ltac:(lia)) as (_ & ? & _).
Qed.

(** The shortest fuel. *)
Definition need_list (l : list nat) : nat := foldr (fun n a => S (Nat.max n a)) O l.
Fixpoint need (v : json) : nat :=
  match v with
  | JArr l => S (need_list (map need l))
  | JObj l => S (need_list (map (fun m => need m.2) l))
  | _ => 1%nat
  end.

Lemma parse_atom_value f s c t : skip_ws s = String c t -> c <> "{"%char -> c <> "["%char -> parse_value (S f) s = parse_atom (String c t).
Proof. intros Hs H1 H2. cbn [parse_value]. rewrite Hs, !strip_char, !decide_False by done. done. Qed.

Lemma parse_number z r : - 2 ^ 63 <= z < 2 ^ 64 -> stops r = true -> parse_atom (dec z +:+ r) = Some (JInt z, r).
Proof.
  intros Hz Hr. unfold parse_atom. rewrite parse_int_dec by done. destruct (dec_head z Hz) as (c & t & -> & Hc). rewrite sapp_cons.
  unfold number_heads in Hc. rewrite !elem_of_cons, elem_of_nil in Hc. by repeat destruct Hc as [->|Hc].
Qed.

Definition value_heads : list ascii := ["n"; "t"; "f"; "034"; "["; "{"]%char ++ number_heads.

Lemma text_head p d v : ints_ok v = true -> exists c t, json_text p d v = String c t /\ c ∈ value_heads.
Proof.
  unfold value_heads. destruct v as [|[]|z|s|l|l]; cbn [ints_ok json_text]; intros Hok; try (eexists _, _; split; [done|apply (bool_decide_unpack _); done]).
  apply andb_prop in Hok as [?%Z.leb_le ?%Z.ltb_lt]. destruct (dec_head z ltac:(lia)) as (c & t & -> & Hc).
  exists c, t. split; [done|]. apply elem_of_app. by right.
Qed.

Lemma value_head_visible c t : c ∈ value_heads -> visible_head (String c t) = true /\
  strip_prefix "]" (String c t) = None /\ strip_prefix "}" (String c t) = None /\ strip_prefix "," (String c t) = None.
Proof. unfold value_heads, number_heads. cbn [app]. rewrite !elem_of_cons, elem_of_nil. intros Hc. by repeat destruct Hc as [->|Hc]. Qed.

Section ParseText.
Context (p : bool).

Definition parses (v : json) : Prop := forall f d r s, (need v <= f)%nat -> stops r = true ->
  skip_ws s = json_text p d v +:+ r -> parse_value f s = Some (v, r).

Lemma joined_visible d x l r : ints_ok x = true ->
  exists c t, comma_joined (json_text p d) (x :: l) +:+ r = String c t /\ c ∈ value_heads.
Proof.
  intros Hx. destruct (text_head p d x Hx) as (c & t & Ht & Hc). destruct l as [|y l]; cbn [comma_joined]; rewrite Ht, ?sapp_cons; by eexists _, _.
Qed.

Lemma stops_blank r : stops (blank p +:+ String "]" r) = true /\ skip_ws (blank p +:+ String "]" r) = String "]" r.
Proof. by destruct p. Qed.

Lemma parse_elements_text d r l : forall x f s, (forall y, y ∈ x :: l -> ints_ok y = true /\ parses y) ->
  (need_list (map need (x :: l)) <= f)%nat ->
  skip_ws s = comma_joined (json_text p d) (x :: l) +:+ blank p +:+ String "]" r -> parse_elements f s = Some (x :: l, r).
Proof.
  induction l as [|y l IH]; intros x f s Hl Hf Hs; destruct f as [|f]; cbn [map need_list foldr] in Hf; try lia; cbn [parse_elements];
    destruct (Hl x (list_elem_of_here _ _)) as [Hx Hpx].
  - destruct (stops_blank r) as [Hst Hsk]. rewrite (Hpx f d _ s ltac:(lia) Hst Hs). cbn [mbind option_bind]. by rewrite Hsk.
  - change (comma_joined (json_text p d) (x :: y :: l)) with (json_text p d x +:+ String "," (comma_joined (json_text p d) (y :: l))) in Hs.
    rewrite <- sapp_assoc, sapp_cons in Hs. rewrite (Hpx f d (String "," _) s ltac:(lia) ltac:(done) Hs). cbn [mbind option_bind].
    rewrite skip_ws_visible by done. rewrite !strip_char, decide_True by done.
    rewrite (IH y f); [done|intros z Hz; apply Hl; by apply list_elem_of_further|cbn [map need_list foldr]; unfold need_list in *; lia|].
    destruct (Hl y) as [Hy _]; [apply list_elem_of_further, list_elem_of_here|].
    destruct (joined_visible d y l (blank p +:+ String "]" r) Hy) as (c & t & Ht & Hc). rewrite Ht. apply skip_ws_visible. by apply value_head_visible.
Qed.

Definition member_text (d : Z) (m : string * json) : string :=
  eol_text p d +:+ quoted m.1 +:+ ":" +:+ blank p +:+ json_text p d m.2.

Lemma stops_eol d r : stops (eol_text p d +:+ String "}" r) = true /\ skip_ws (eol_text p d +:+ String "}" r) = String "}" r.
Proof. split; [by destruct p|]. rewrite skip_ws_app by apply eol_space. done. Qed.

(** Name, colon and value of a member. *)
Lemma parse_member d m f s r k : ints_ok m.2 = true -> sforall str_char m.1 = true -> parses m.2 -> (need m.2 <= f)%nat -> stops r = true ->
  s = member_text d m +:+ r ->
  ('(name, r) ← parse_string (skip_ws s); r1 ← strip_prefix ":" (skip_ws r); '(v, r2) ← parse_value f r1; k name v r2) =
    (k m.1 m.2 r : option (list (string * json) * string)).
Proof.
  intros Hi Hn Hp Hf Hr ->. unfold member_text. rewrite <- !sapp_assoc, skip_ws_app by apply eol_space.
  rewrite skip_ws_visible by done. rewrite parse_quoted by done. cbn [mbind option_bind]. rewrite sapp_cons, sapp_nil, skip_ws_visible by done.
  rewrite strip_char, decide_True by done. cbn [mbind option_bind]. rewrite (Hp f d r); [done|done|done|].
  rewrite skip_ws_app by apply blank_space. destruct (text_head p d m.2 Hi) as (c & t & -> & Hc). rewrite sapp_cons.
  apply skip_ws_visible. by apply value_head_visible.
Qed.

Lemma parse_members_text d e r l : forall m f, (forall x, x ∈ m :: l -> ints_ok x.2 = true /\ sforall str_char x.1 = true /\ parses x.2) ->
  (need_list (map (fun m => need m.2) (m :: l)) <= f)%nat ->
  parse_members f (comma_joined (member_text d) (m :: l) +:+ eol_text p e +:+ String "}" r) = Some (m :: l, r).
Proof.
  induction l as [|x l IH]; intros m f Hl Hf; destruct f as [|f]; cbn [map need_list foldr] in Hf; try lia; cbn [parse_members];
    destruct (Hl m (list_elem_of_here _ _)) as (Hi & Hn & Hp).
  - destruct (stops_eol e r) as [Hst Hsk]. cbn [comma_joined].
    rewrite (parse_member d m f _ (eol_text p e +:+ String "}" r)) by (done || lia). rewrite Hsk. by destruct m.
  - change (comma_joined (member_text d) (m :: x :: l)) with (member_text d m +:+ String "," (comma_joined (member_text d) (x :: l))).
    rewrite (parse_member d m f _ (String "," (comma_joined (member_text d) (x :: l) +:+ eol_text p e +:+ String "}" r)))
      by (done || lia || by rewrite <- !sapp_assoc, !sapp_cons).
    rewrite skip_ws_visible by done. rewrite !strip_char, decide_True by done.
    rewrite (IH x f); [by destruct m|intros z Hz; apply Hl; by apply list_elem_of_further|cbn [map need_list foldr]; unfold need_list in *; lia].
Qed.

Lemma members_head d m l r : exists t, skip_ws (comma_joined (member_text d) (m :: l) +:+ r) = String "034" t.
Proof.
  assert (H : forall r, exists t, skip_ws (member_text d m +:+ r) = String "034" t).
  { intros r'. unfold member_text. rewrite <- !sapp_assoc, skip_ws_app by apply eol_space. rewrite skip_ws_visible by done. by eexists. }
  destruct l; cbn [comma_joined]; rewrite <- ?sapp_assoc; apply H.
Qed.

Lemma parse_text v : ints_ok v = true -> strings_ok v = true -> parses v.
Proof.
  induction v as [|b|z|s|l IH|l IH] using json_tree_ind; intros Hi Hs f d r t Hf Hr Ht; destruct f as [|f]; cbn [need] in Hf; try lia.
  - by rewrite (parse_atom_value f _ _ _ Ht).
  - destruct b; by rewrite (parse_atom_value f _ _ _ Ht).
  - cbn [ints_ok json_text] in *. apply andb_prop in Hi as [?%Z.leb_le ?%Z.ltb_lt].
    pose proof (parse_number z r ltac:(lia) Hr) as Hz. destruct (dec_head z ltac:(lia)) as (c & u & Hc & Hin). rewrite Hc, sapp_cons in *.
    rewrite (parse_atom_value f _ _ _ Ht); [done|..]; intros ->; unfold number_heads in Hin; rewrite !elem_of_cons, elem_of_nil in Hin; naive_solver.
  - cbn [json_text strings_ok] in *. rewrite (parse_atom_value f _ _ _ Ht) by done. unfold parse_atom.
    change (String "034" ?x) with (quoted s +:+ r). by rewrite parse_quoted.
  - cbn [ints_ok strings_ok] in *. rewrite forallb_forall in Hi, Hs. rewrite Forall_forall in IH. cbn [json_text parse_value] in *.
    rewrite Ht, sapp_cons, !strip_char, decide_False, decide_True by done. destruct l as [|x l].
    + cbn [comma_joined]. rewrite !sapp_nil, <- sapp_assoc, skip_ws_app by apply blank_space. done.
    + rewrite <- !sapp_assoc, sapp_cons, sapp_nil, skip_ws_app by apply blank_space.
      assert (Hall : forall y, y ∈ x :: l -> ints_ok y = true /\ parses y).
      { intros y Hy. pose proof (Hi y (proj1 (list_elem_of_In _ _) Hy)). split; [done|]. apply IH; [done|done|]. by apply Hs, list_elem_of_In. }
      destruct (joined_visible (d + 1) x l (blank p +:+ String "]" r)) as (c & u & Hc & Hin); [apply Hall, list_elem_of_here|].
      destruct (value_head_visible c u Hin) as (Hv & Hn & _). rewrite Hc, skip_ws_visible, Hn by done.
      rewrite (parse_elements_text (d + 1) r l x f); [done|done|lia|]. by rewrite skip_ws_app, Hc, skip_ws_visible by (done || apply blank_space).
  - cbn [ints_ok strings_ok] in *. rewrite forallb_forall in Hi, Hs. rewrite Forall_forall in IH. cbn [json_text parse_value] in *.
    rewrite Ht, sapp_cons, !strip_char, decide_True by done. destruct l as [|x l]; [done|]. fold (member_text (d + 1)).
    rewrite <- !sapp_assoc, sapp_cons, sapp_nil. destruct (members_head (d + 1) x l (eol_text p d +:+ String "}" r)) as (u & ->). cbn [strip_prefix].
    rewrite decide_False by done. rewrite (parse_members_text (d + 1) d r l x f); [done| |lia]. intros y Hy.
    pose proof (Hi y (proj1 (list_elem_of_In _ _) Hy)). pose proof (Hs y (proj1 (list_elem_of_In _ _) Hy)) as [? ?]%andb_prop.
    split_and!; [done|done|]. by apply IH.
Qed.
End ParseText.

(** ** Enough fuel *)

Lemma length_sapp s t : String.length (s +:+ t) = (String.length s + String.length t)%nat.
Proof. pose proof (slen_app s t). unfold slen in *. lia. Qed.

Lemma need_joined {A} (n : A -> nat) (f : A -> string) (l : list A) : (forall x, x ∈ l -> (n x <= String.length (f x))%nat) ->
  (need_list (map n l) <= S (String.length (comma_joined f l)))%nat.
Proof.
  induction l as [|x l IH]; intros Hl; [cbn; lia|]. pose proof (Hl x (list_elem_of_here _ _)) as Hx.
  specialize (IH ltac:(intros; apply Hl; by apply list_elem_of_further)). destruct l as [|y l]; cbn [map need_list foldr comma_joined] in *; [lia|].
  unfold need_list in IH. rewrite length_sapp. cbn [String.length]. lia.
Qed.

Lemma need_text p v : forall d, ints_ok v = true -> (need v <= String.length (json_text p d v))%nat.
Proof.
  induction v as [|b|z|s|l IH|l IH] using json_tree_ind; intros d Hi;
    try (destruct (text_head p d _ Hi) as (c & t & -> & _); cbn [need String.length]; lia).
  - cbn [need json_text ints_ok] in *. rewrite forallb_forall in Hi. rewrite Forall_forall in IH.
    pose proof (need_joined need (json_text p (d + 1)) l) as Hn.
    cbn [String.length]. rewrite !length_sapp. cbn [String.length].
    enough (need_list (map need l) <= S (String.length (comma_joined (json_text p (d + 1)) l)))%nat by lia.
    apply Hn. intros x Hx. apply IH; [done|]. by apply Hi, list_elem_of_In.
  - cbn [need json_text ints_ok] in *. rewrite forallb_forall in Hi. rewrite Forall_forall in IH. fold (member_text p (d + 1)).
    cbn [String.length]. rewrite !length_sapp. cbn [String.length].
    enough (need_list (map (fun m => need m.2) l) <= S (String.length (comma_joined (member_text p (d + 1)) l)))%nat by lia.
    apply need_joined. intros m Hm. unfold member_text. rewrite !length_sapp.
    pose proof (IH m Hm (d + 1) (Hi m (proj1 (list_elem_of_In _ _) Hm))). lia.
Qed.

(** ** Claims *)

(** The text of a tree and the end of the line. *)
Lemma parse_json_line p v : ints_ok v = true -> strings_ok v = true -> parse_json (json_text p 0 v +:+ String "010" "") = Some v.
Proof.
  intros Hi Hs. unfold parse_json. pose proof (need_text p v 0 Hi) as Hn.
  rewrite (parse_text p v Hi Hs _ 0 (String "010" "")); [done|rewrite length_sapp; lia|done|].
  destruct (text_head p 0 v Hi) as (c & t & -> & Hc). rewrite sapp_cons. apply skip_ws_visible. by apply value_head_visible.
Qed.

(** C21. What a program writes for a tree, in either style, is a JSON text of that tree:
    the calls never fail an assertion, [jsonw_destroy] finds every collection closed, and a
    JSON parser reads the tree back, whatever is nested in it, as long as its strings hold
    no backslash, no single quotation mark and no control character without an escape of its own. *)
Theorem json_written_parses v pretty :
  ints_ok v = true -> strings_ok v = true -> height v < 2 ^ 32 ->
  exists w out, write_json v (jsonw_pretty (jsonw_new "") pretty) = Some w /\ jsonw_destroy w = Some out /\ parse_json out = Some v.
Proof.
  intros Hi Hs Hh. eexists _, _. split; [apply write_json_text; [done|done|]; cbn; lia|]. split; [reflexivity|].
  unfold after, sep_text, fputs. cbn [w_out w_sep w_depth w_pretty jsonw_pretty jsonw_new]. rewrite !sapp_nil. by apply parse_json_line.
Qed.

Definition sample_json : json :=
  JObj [("ifname"%string, JStr "pval0"); ("mtu"%string, JInt 1500); ("flags"%string, JArr [JStr "UP"; JStr (String "010" (String "034" "x"))]);
        ("empty"%string, JArr []); ("nested"%string, JArr [JObj [("a"%string, JNull)]; JObj []; JBool false; JInt (-7)])].

Lemma json_written_parses_witness :
  exists w out, write_json sample_json (jsonw_pretty (jsonw_new "") true) = Some w /\ jsonw_destroy w = Some out /\ parse_json out = Some sample_json.
Proof. apply (json_written_parses sample_json true); [reflexivity|reflexivity|]. vm_compute. reflexivity. Defined.

(** The line put out for a value by itself. *)
Definition written (v : json) : option string := w ← write_json v (jsonw_new ""); jsonw_destroy w.

Lemma written_string s : written (JStr s) = Some (quoted s +:+ String "010" "").
Proof. unfold written. cbn [write_json mbind option_bind]. rewrite string_after. unfold after, jsonw_destroy, fputs. cbn [jsonw_new w_out w_depth w_sep w_pretty sep_text Z.eqb]. by rewrite !sapp_nil. Qed.

Lemma json_escape_app s t : json_escape (s +:+ t) = json_escape s +:+ json_escape t.
Proof. induction s as [|c s IH]; [done|]. rewrite sapp_cons. cbn [json_escape]. rewrite IH. by rewrite sapp_assoc. Qed.

Lemma control_refused c u : code c < 32 -> str_char c = false -> parse_chars (json_escape_char c +:+ u) = None.
Proof.
  intros H32 Hc. unfold json_escape_char. repeat (case_bool_decide; [subst; exfalso; first [discriminate Hc|vm_compute in H32; discriminate H32]|]).
  rewrite sapp_cons, sapp_nil. cbn [parse_chars]. rewrite !bool_decide_eq_false_2 by done. by rewrite (proj2 (Z.ltb_lt _ _)).
Qed.

(** Where the writer leaves JSON: a backslash comes back as a line feed, a string with a
    single quotation mark or with a control character that has no escape of its own is no JSON
    at all, and a number written in hexadecimal is another number or none. *)
Theorem json_escape_faults s t c :
  sforall str_char s = true -> sforall str_char t = true ->
  c = "'"%char \/ (code c < 32 /\ str_char c = false) ->
  (exists out, written (JStr (s +:+ String "\" t)) = Some out /\ parse_json out = Some (JStr (s +:+ String "010" t))) /\
  (exists out, written (JStr (s +:+ String c t)) = Some out /\ parse_json out = None) /\
  (exists out, jsonw_destroy (jsonw_xint (jsonw_new "") 16) = Some out /\ parse_json out = Some (JInt 10)) /\
  (exists out, jsonw_destroy (jsonw_xint (jsonw_new "") 255) = Some out /\ parse_json out = None).
Proof.
  intros Hs Ht Hc. split_and!; [| |eexists; split; [reflexivity|vm_compute; reflexivity]..].
  - exists (quoted (s +:+ String "\" t) +:+ String "010" ""). split; [apply written_string|].
    assert (Hq : quoted (s +:+ String "\" t) = quoted (s +:+ String "010" t)) by (unfold quoted; by rewrite !json_escape_app).
    rewrite Hq. apply (parse_json_line false (JStr (s +:+ String "010" t))); [done|]. cbn [strings_ok].
    rewrite sforall_app. cbn [sforall]. by rewrite Hs, Ht.
  - eexists. split; [apply written_string|]. unfold parse_json, quoted. rewrite json_escape_app. cbn [json_escape]. rewrite !sapp_cons, <- !sapp_assoc.
    assert (Hn : forall u, parse_chars (json_escape_char c +:+ u) = None).
    { destruct Hc as [->|[Hc32 Hcs]]; intros u; [done|]. by apply control_refused. }
    cbn [String.length]. rewrite (parse_atom_value _ _ "034" (json_escape s +:+ json_escape_char c +:+ json_escape t +:+ String "034" "" +:+ String "010" "")) by done.
    unfold parse_atom. cbn [parse_string]. rewrite bool_decide_eq_true_2 by done. by rewrite parse_chars_app, Hn by done.
Qed.

Lemma json_escape_faults_witness :
  (exists out, written (JStr (String "c" (String "\" "d"))) = Some out /\ parse_json out = Some (JStr (String "c" (String "010" "d")))) /\
  (exists out, written (JStr (String "c" (String "'" "d"))) = Some out /\ parse_json out = None).
Proof.
  destruct (json_escape_faults "c" "d" "'"%char) as (H1 & H2 & _); [reflexivity|reflexivity|left; reflexivity|]. split; [exact H1|exact H2].
Defined.
