(* ===== verification/LlMap.v ===== *)
(** * The cache of network interfaces of iproute2

    Models [iproute2-4.18.0/lib/ll_map.c]. An entry hangs in two hash tables, by index and
    by name; a store from pointers to entries and two arrays of lists of pointers represent
    it, so that a change through one table is seen through the other. [malloc],
    [if_indextoname] and [if_nametoindex] are arguments. A message is the part of it that
    [ll_remember_index] reads; the attribute parser is modelled in [Netlink]. The access
    to freed memory or to the name of a message without one is [None]. *)
From stdpp Require Import base list numbers strings gmap.
From Stdlib Require Import ZArith Lia Ascii.
From S2P Require Import Prelude Cstring.

Open Scope Z_scope.

(** ** State *)

Record ll_cache := mk_ll { im_flags : Z; im_index : Z; im_type : Z; im_name : string }.

Definition IDXMAP_SIZE : Z := 1024.

Record ll_state := mk_state { heap : gmap positive ll_cache; idx_head : list (list positive); name_head : list (list positive) }.

Definition empty_heads : list (list positive) := replicate (Z.to_nat IDXMAP_SIZE) [].
Definition empty_state : ll_state := mk_state ∅ empty_heads empty_heads.

(** The slot of a hash value. *)
Definition slot (h : Z) : nat := Z.to_nat (Z.land h (IDXMAP_SIZE - 1)).

(** A [char] is signed. *)
Definition schar (c : ascii) : Z := if code c <? 128 then code c else code c - 256.

Fixpoint namehash_loop (hash : Z) (str : string) : Z :=
  match str with
  | EmptyString => hash
  | String c str' => namehash_loop (u32 (u32 (Z.shiftl hash 5) + hash + schar c)) str'
  end.
Definition namehash (str : string) : Z := namehash_loop 5381 str.

(** ** Look-up *)

(** [hlist_for_each]: the first entry of the list that satisfies [test]. *)
Fixpoint hlist_find (hp : gmap positive ll_cache) (test : ll_cache -> bool) (l : list positive) : option (option (positive * ll_cache)) :=
  match l with
  | [] => Some None
  | p :: l' => im ← hp !! p; if test im then Some (Some (p, im)) else hlist_find hp test l'
  end.

Definition ll_get_by_index (st : ll_state) (index : Z) : option (option (positive * ll_cache)) :=
  l ← idx_head st !! slot index; hlist_find (heap st) (fun im => im_index im =? index) l.

(** [strncmp(a, b, n) == 0]. *)
Fixpoint strneq (n : nat) (a b : string) : bool :=
  match n with
  | O => true
  | S n' =>
      match a, b with
      | EmptyString, EmptyString => true
      | String x a', String y b' => bool_decide (x = y) && strneq n' a' b'
      | _, _ => false
      end
  end.

Definition ll_get_by_name (st : ll_state) (name : string) : option (option (positive * ll_cache)) :=
  l ← name_head st !! slot (namehash name); hlist_find (heap st) (fun im => strneq 16 (im_name im) name) l.

(** ** Messages *)

Definition RTM_NEWLINK : Z := 16.
Definition RTM_DELLINK : Z := 17.

(** [m_ifname] is the attribute with the name, if there is one. *)
Record link_msg := mk_msg { m_type : Z; m_len : Z; ifi_index : Z; ifi_type : Z; ifi_flags : Z; m_ifname : option string }.

(** [NLMSG_LENGTH(sizeof(struct ifinfomsg))]. *)
Definition LINK_MSG_MIN : Z := 32.

(** [hlist_del]: the node leaves the list it is in. *)
Definition hlist_del (p : positive) (heads : list (list positive)) : list (list positive) :=
  map (fun l => base.filter (fun q => q <> p) l) heads.
Definition hlist_add_head (p : positive) (i : nat) (heads : list (list positive)) : list (list positive) :=
  alter (cons p) i heads.

Section LlMap.
Context (malloc : gmap positive ll_cache -> option positive).

(** The return value and the cache. *)
Definition ll_remember_index (n : link_msg) (st : ll_state) : option (Z * ll_state) :=
  if negb (m_type n =? RTM_NEWLINK) && negb (m_type n =? RTM_DELLINK) then Some (0, st)
  else if m_len n <? LINK_MSG_MIN then Some (-1, st)
  else
    im ← ll_get_by_index st (u32 (ifi_index n));
    if m_type n =? RTM_DELLINK then
      match im with
      | Some (p, _) => Some (0, mk_state (delete p (heap st)) (hlist_del p (idx_head st)) (hlist_del p (name_head st)))
      | None => Some (0, st)
      end
    else
      ifname ← m_ifname n;
      match im with
      | Some (p, e) =>
          let names := if bool_decide (im_name e = ifname) then name_head st
                       else hlist_add_head p (slot (namehash ifname)) (hlist_del p (name_head st)) in
          Some (0, mk_state (<[p := mk_ll (ifi_flags n) (im_index e) (im_type e) (im_name e)]> (heap st)) (idx_head st) names)
      | None =>
          match malloc (heap st) with
          | None => Some (0, st)
          | Some p =>
              let e := mk_ll (ifi_flags n) (u32 (ifi_index n)) (ifi_type n) ifname in
              Some (0, mk_state (<[p := e]> (heap st)) (hlist_add_head p (slot (u32 (ifi_index n))) (idx_head st))
                         (hlist_add_head p (slot (namehash ifname)) (name_head st)))
          end
      end.

(** The messages of a dump, up to one that is refused. *)
Fixpoint ll_remember_all (ms : list link_msg) (st : ll_state) : option (Z * ll_state) :=
  match ms with
  | [] => Some (0, st)
  | n :: ms' => '(ret, st') ← ll_remember_index n st; if ret <? 0 then Some (ret, st') else ll_remember_all ms' st'
  end.

(** The outer [None] is a fault, the inner one the exit of the process. *)
Definition ll_init_map (initialized request_ok : bool) (dump : list link_msg) (st : ll_state) : option (option (bool * ll_state)) :=
  if initialized then Some (Some (true, st))
  else if negb request_ok then Some None
  else '(ret, st') ← ll_remember_all dump st; Some (if ret <? 0 then None else Some (true, st')).
End LlMap.

(** ** Names, types and flags *)

(** At most twelve characters. *)
Definition ll_idx_n2a (idx : Z) : string := "if" +:+ dec idx.
(** [sscanf] with a conversion of an unsigned number. *)
Definition ll_idx_a2n (name : string) : Z :=
  match strip_prefix "if" name ≫= strtoul 10 with Some (v, _, _) => u32 v | None => 0 end.

Section Queries.
Context (if_indextoname : Z -> option string) (if_nametoindex : string -> Z) (st : ll_state).

Definition ll_index_to_name (idx : Z) : option string :=
  if idx =? 0 then Some "*"%string
  else
    im ← ll_get_by_index st idx;
    Some (match im with
          | Some (_, e) => im_name e
          | None => match if_indextoname idx with Some n => n | None => ll_idx_n2a idx end
          end).
Definition ll_index_to_type (idx : Z) : option Z :=
  if idx =? 0 then Some (-1)
  else im ← ll_get_by_index st idx; Some (match im with Some (_, e) => im_type e | None => -1 end).
Definition ll_index_to_flags (idx : Z) : option Z :=
  if idx =? 0 then Some 0
  else im ← ll_get_by_index st idx; Some (match im with Some (_, e) => s32 (im_flags e) | None => -1 end).
Definition ll_name_to_index (name : option string) : option Z :=
  match name with
  | None => Some 0
  | Some name =>
      im ← ll_get_by_name st name;
      Some (match im with
            | Some (_, e) => im_index e
            | None => let idx := if_nametoindex name in if idx =? 0 then ll_idx_a2n name else idx
            end)
  end.
End Queries.

(** ** Invariant *)

Definition heads_ok (heads : list (list positive)) : Prop := length heads = Z.to_nat IDXMAP_SIZE.

Record ll_ok (st : ll_state) : Prop := {
  ok_idx_len : heads_ok (idx_head st);
  ok_name_len : heads_ok (name_head st);
  ok_idx_sound : forall i l p, idx_head st !! i = Some l -> p ∈ l -> exists e, heap st !! p = Some e;
  ok_idx_in : forall p e, heap st !! p = Some e -> exists l, idx_head st !! slot (im_index e) = Some l /\ p ∈ l;
  ok_unique : forall p q e f, heap st !! p = Some e -> heap st !! q = Some f -> im_index e = im_index f -> p = q;
  ok_name_sound : forall i l p, name_head st !! i = Some l -> p ∈ l -> exists e, heap st !! p = Some e }.

(** Every entry is in the list of its name. *)
Definition names_ok (st : ll_state) : Prop :=
  forall p e, heap st !! p = Some e -> exists l, name_head st !! slot (namehash (im_name e)) = Some l /\ p ∈ l.

Lemma slot_lt h : (slot h < Z.to_nat IDXMAP_SIZE)%nat.
Proof.
  unfold slot. change (IDXMAP_SIZE - 1) with (Z.ones 10). rewrite Z.land_ones by lia. pose proof (Z.mod_pos_bound h (2 ^ 10) ltac:(lia)).
  unfold IDXMAP_SIZE. lia.
Qed.

Lemma heads_lookup heads h : heads_ok heads -> exists l, heads !! slot h = Some l.
Proof. intros Hl. apply lookup_lt_is_Some_2. rewrite Hl. apply slot_lt. Qed.

Lemma lookup_hlist_del p heads i l : hlist_del p heads !! i = Some l <-> exists l0, heads !! i = Some l0 /\ l = base.filter (fun q => q <> p) l0.
Proof.
  unfold hlist_del. rewrite list_lookup_fmap, fmap_Some. naive_solver.
Qed.

Lemma elem_of_hlist_del p q heads i l : hlist_del p heads !! i = Some l -> q ∈ l -> q <> p /\ exists l0, heads !! i = Some l0 /\ q ∈ l0.
Proof. intros (l0 & Hl0 & ->)%lookup_hlist_del [Hne Hin]%list_elem_of_filter. eauto. Qed.

Lemma hlist_del_other p q heads i l : heads !! i = Some l -> q ∈ l -> q <> p -> exists l', hlist_del p heads !! i = Some l' /\ q ∈ l'.
Proof. intros Hl Hq Hne. eexists. split; [apply lookup_hlist_del; by eexists|]. by apply list_elem_of_filter. Qed.

Lemma heads_ok_del p heads : heads_ok heads -> heads_ok (hlist_del p heads).
Proof. unfold heads_ok, hlist_del. by rewrite length_map. Qed.

Lemma heads_ok_add p i heads : heads_ok heads -> heads_ok (hlist_add_head p i heads).
Proof. unfold heads_ok, hlist_add_head. by rewrite length_alter. Qed.

Lemma elem_of_add_head p i heads j l q : hlist_add_head p i heads !! j = Some l -> q ∈ l ->
  (q = p /\ i = j) \/ exists l0, heads !! j = Some l0 /\ q ∈ l0.
Proof.
  unfold hlist_add_head. destruct (decide (i = j)) as [->|Hij].
  - rewrite list_lookup_alter_eq. intros (l0 & Hl0 & ->)%fmap_Some [->|Hq]%elem_of_cons; eauto.
  - rewrite list_lookup_alter_ne by done. eauto.
Qed.

Lemma add_head_new p i heads : heads_ok heads -> (i < Z.to_nat IDXMAP_SIZE)%nat -> exists l, hlist_add_head p i heads !! i = Some l /\ p ∈ l.
Proof.
  intros Hl Hi. destruct (lookup_lt_is_Some_2 heads i) as [l Hli]; [by rewrite Hl|]. exists (p :: l). unfold hlist_add_head.
  rewrite list_lookup_alter_eq, Hli. split; [done|apply list_elem_of_here].
Qed.

Lemma add_head_old p i heads j l q : heads !! j = Some l -> q ∈ l -> exists l', hlist_add_head p i heads !! j = Some l' /\ q ∈ l'.
Proof.
  intros Hl Hq. unfold hlist_add_head. destruct (decide (i = j)) as [->|Hij].
  - rewrite list_lookup_alter_eq, Hl. eexists. split; [done|]. by apply list_elem_of_further.
  - rewrite list_lookup_alter_ne by done. eauto.
Qed.

(** A search succeeds exactly when the list has such an entry. *)
Lemma hlist_find_spec hp test l : (forall p, p ∈ l -> exists e, hp !! p = Some e) ->
  (exists p e, hlist_find hp test l = Some (Some (p, e)) /\ p ∈ l /\ hp !! p = Some e /\ test e = true) \/
  (hlist_find hp test l = Some None /\ forall p e, p ∈ l -> hp !! p = Some e -> test e = false).
Proof.
  induction l as [|p l IH]; intros Hl; [right; split; [done|]; by intros ?? ?%elem_of_nil|].
  cbn [hlist_find]. destruct (Hl p (list_elem_of_here _ _)) as [e He]. rewrite He. cbn [mbind option_bind].
  destruct (test e) eqn:Ht; [left; exists p, e; split_and!; done || apply list_elem_of_here|].
  destruct IH as [(q & f & Hf & Hq & Hfh & Htf)|[Hn Hall]]; [intros; apply Hl; by apply list_elem_of_further|left|right].
  - exists q, f. split_and!; try done. by apply list_elem_of_further.
  - split; [done|]. intros q f [->|Hq]%elem_of_cons Hf; [congruence|by apply (Hall q)].
Qed.

Lemma get_by_index_spec st i : ll_ok st ->
  (exists p e, ll_get_by_index st i = Some (Some (p, e)) /\ heap st !! p = Some e /\ im_index e = i) \/
  (ll_get_by_index st i = Some None /\ forall p e, heap st !! p = Some e -> im_index e <> i).
Proof.
  intros Hok. unfold ll_get_by_index. destruct (heads_lookup (idx_head st) i (ok_idx_len st Hok)) as [l Hl]. rewrite Hl. cbn [mbind option_bind].
  destruct (hlist_find_spec (heap st) (fun im => im_index im =? i) l (fun p => ok_idx_sound st Hok _ l p Hl))
    as [(p & e & -> & _ & He & Ht%Z.eqb_eq)|[-> Hall]]; [left; eauto|right].
  split; [done|]. intros p e He Hi. destruct (ok_idx_in st Hok p e He) as (l' & Hl' & Hp). rewrite Hi, Hl in Hl'. injection Hl' as <-.
  specialize (Hall p e Hp He). by apply Z.eqb_neq in Hall.
Qed.

(** ** The map of interfaces *)

(** What the cache keeps of the messages: the first name and type of an interface, and
    its latest flags. *)
Definition spec_remember (n : link_msg) (m : gmap Z ll_cache) : gmap Z ll_cache :=
  let i := u32 (ifi_index n) in
  if m_type n =? RTM_DELLINK then delete i m
  else if m_type n =? RTM_NEWLINK then
    match m !! i, m_ifname n with
    | Some e, _ => <[i := mk_ll (ifi_flags n) (im_index e) (im_type e) (im_name e)]> m
    | None, Some name => <[i := mk_ll (ifi_flags n) i (ifi_type n) name]> m
    | None, None => m
    end
  else m.

(** The entries of the store are those of the map. *)
Definition same_entries (st : ll_state) (m : gmap Z ll_cache) : Prop :=
  forall i e, m !! i = Some e <-> exists p, heap st !! p = Some e /\ im_index e = i.
Definition represents_links (st : ll_state) (m : gmap Z ll_cache) : Prop := ll_ok st /\ same_entries st m.

(** A message that is long enough and, when it announces an interface, names it. *)
Definition msg_ok (n : link_msg) : Prop := LINK_MSG_MIN <= m_len n /\ (m_type n = RTM_NEWLINK -> is_Some (m_ifname n)).

Lemma links_lookup st m i : represents_links st m ->
  (exists p e, ll_get_by_index st i = Some (Some (p, e)) /\ heap st !! p = Some e /\ im_index e = i /\ m !! i = Some e) \/
  (ll_get_by_index st i = Some None /\ m !! i = None).
Proof.
  intros [Hok Hm]. destruct (get_by_index_spec st i Hok) as [(p & e & Hg & He & Hi)|[Hg Hn]]; [left|right].
  - exists p, e. split_and!; try done. apply Hm. eauto.
  - split; [done|]. apply eq_None_not_Some. intros [e (p & He & Hi)%Hm]. by apply (Hn p e).
Qed.

Lemma links_delete st m p e : represents_links st m -> heap st !! p = Some e ->
  represents_links (mk_state (delete p (heap st)) (hlist_del p (idx_head st)) (hlist_del p (name_head st))) (delete (im_index e) m).
Proof.
  intros [Hok Hm] He. split; [split; cbn [heap idx_head name_head]|].
  - apply heads_ok_del, Hok.
  - apply heads_ok_del, Hok.
  - intros i l q Hl Hq. destruct (elem_of_hlist_del _ _ _ _ _ Hl Hq) as (Hne & l0 & Hl0 & Hq0).
    rewrite lookup_delete_ne by done. by apply (ok_idx_sound st Hok i l0).
  - intros q f [Hne Hf]%lookup_delete_Some. destruct (ok_idx_in st Hok q f Hf) as (l & Hl & Hq). by apply (hlist_del_other _ _ _ _ l).
  - intros q r f g [_ Hf]%lookup_delete_Some [_ Hg]%lookup_delete_Some. by apply (ok_unique st Hok).
  - intros i l q Hl Hq. destruct (elem_of_hlist_del _ _ _ _ _ Hl Hq) as (Hne & l0 & Hl0 & Hq0).
    rewrite lookup_delete_ne by done. by apply (ok_name_sound st Hok i l0).
  - intros i f. cbn [heap]. rewrite lookup_delete_Some. split.
    + intros [Hne (q & Hq & Hi)%Hm]. exists q. split; [|done]. apply lookup_delete_Some. split; [|done]. intros ->. congruence.
    + intros (q & [Hne Hq]%lookup_delete_Some & Hi). split; [|apply Hm; eauto]. intros Hei. apply Hne. apply (ok_unique st Hok p q e f); congruence.
Qed.

Lemma links_update st m p e e' names : represents_links st m -> heap st !! p = Some e -> im_index e' = im_index e -> heads_ok names ->
  (forall i l q, names !! i = Some l -> q ∈ l -> exists f, heap st !! q = Some f) ->
  represents_links (mk_state (<[p := e']> (heap st)) (idx_head st) names) (<[im_index e := e']> m).
Proof.
  intros [Hok Hm] He Hi Hlen Hnames.
  assert (Hsome : forall q, (exists f, heap st !! q = Some f) -> exists f, <[p := e']> (heap st) !! q = Some f).
  { intros q [f Hf]. destruct (decide (p = q)) as [->|Hne]; [rewrite lookup_insert_eq|rewrite lookup_insert_ne by done]; eauto. }
  assert (Hback : forall q f, <[p := e']> (heap st) !! q = Some f -> exists g, heap st !! q = Some g /\ im_index g = im_index f).
  { intros q f [[<- <-]|[Hne Hf]]%lookup_insert_Some; eauto. }
  split; [split; cbn [heap idx_head name_head]|].
  - apply Hok.
  - done.
  - intros i l q Hl Hq. apply Hsome. by apply (ok_idx_sound st Hok i l).
  - intros q f (g & Hg & <-)%Hback. by apply (ok_idx_in st Hok).
  - intros q r f g (f' & Hf & <-)%Hback (g' & Hg & <-)%Hback. by apply (ok_unique st Hok).
  - intros i l q Hl Hq. apply Hsome. by apply (Hnames i l).
  - intros i f. cbn [heap]. rewrite lookup_insert_Some. split.
    + intros [[<- <-]|[Hne (q & Hq & Hiq)%Hm]]; [exists p; by rewrite lookup_insert_eq|].
      exists q. split; [|done]. rewrite lookup_insert_ne; [done|]. intros ->. congruence.
    + intros (q & [[<- <-]|[Hne Hq]]%lookup_insert_Some & <-); [by left|right].
      split; [|apply Hm; eauto]. intros Hei. apply Hne. apply (ok_unique st Hok p q e f); congruence.
Qed.

Lemma links_add st m p e : represents_links st m -> heap st !! p = None -> m !! im_index e = None ->
  represents_links (mk_state (<[p := e]> (heap st)) (hlist_add_head p (slot (im_index e)) (idx_head st))
    (hlist_add_head p (slot (namehash (im_name e))) (name_head st))) (<[im_index e := e]> m).
Proof.
  intros [Hok Hm] Hp Hnew.
  assert (Hold : forall q, (exists f, heap st !! q = Some f) -> exists f, <[p := e]> (heap st) !! q = Some f).
  { intros q [f Hf]. destruct (decide (p = q)) as [->|Hne]; [congruence|]. rewrite lookup_insert_ne by done. eauto. }
  assert (Hfresh : forall q f, heap st !! q = Some f -> im_index f <> im_index e).
  { intros q f Hf Hi. assert (m !! im_index e = Some f) by (apply Hm; eauto). congruence. }
  split; [split; cbn [heap idx_head name_head]|].
  - apply heads_ok_add, Hok.
  - apply heads_ok_add, Hok.
  - intros i l q Hl Hq. destruct (elem_of_add_head _ _ _ _ _ _ Hl Hq) as [[-> _]|(l0 & Hl0 & Hq0)]; [rewrite lookup_insert_eq; eauto|].
    apply Hold. by apply (ok_idx_sound st Hok i l0).
  - intros q f [[<- <-]|[Hne Hf]]%lookup_insert_Some; [apply add_head_new; [apply Hok|apply slot_lt]|].
    destruct (ok_idx_in st Hok q f Hf) as (l & Hl & Hq). by apply (add_head_old _ _ _ _ l).
  - intros q r f g [[<- <-]|[Hq Hf]]%lookup_insert_Some [[<- <-]|[Hr Hg]]%lookup_insert_Some Hi; [done|..].
    + by destruct (Hfresh r g Hg).
    + by destruct (Hfresh q f Hf).
    + by apply (ok_unique st Hok q r f g).
  - intros i l q Hl Hq. destruct (elem_of_add_head _ _ _ _ _ _ Hl Hq) as [[-> _]|(l0 & Hl0 & Hq0)]; [rewrite lookup_insert_eq; eauto|].
    apply Hold. by apply (ok_name_sound st Hok i l0).
  - intros i f. cbn [heap]. rewrite lookup_insert_Some. split.
    + intros [[<- <-]|[Hne (q & Hq & Hiq)%Hm]]; [exists p; by rewrite lookup_insert_eq|].
      exists q. split; [|done]. rewrite lookup_insert_ne; [done|]. intros ->. congruence.
    + intros (q & [[<- <-]|[Hne Hq]]%lookup_insert_Some & Hiq); [by left|right].
      split; [|apply Hm; eauto]. intros Hei. apply (Hfresh q f Hq). congruence.
Qed.

(** The tables of names after an entry has moved. *)
Lemma moved_names st p e i : ll_ok st -> heap st !! p = Some e ->
  let names := hlist_add_head p i (hlist_del p (name_head st)) in
  heads_ok names /\ (forall j l q, names !! j = Some l -> q ∈ l -> exists f, heap st !! q = Some f) /\
  (forall j l, names !! j = Some l -> p ∈ l -> j = i).
Proof.
  intros Hok He names. split_and!; [by apply heads_ok_add, heads_ok_del, Hok|..].
  - intros j l q Hl Hq. destruct (elem_of_add_head _ _ _ _ _ _ Hl Hq) as [[-> _]|(l0 & Hl0 & Hq0)]; [eauto|].
    destruct (elem_of_hlist_del _ _ _ _ _ Hl0 Hq0) as (_ & l1 & Hl1 & Hq1). by apply (ok_name_sound st Hok j l1).
  - intros j l Hl Hq. destruct (elem_of_add_head _ _ _ _ _ _ Hl Hq) as [[_ ->]|(l0 & Hl0 & Hq0)]; [done|].
    by destruct (elem_of_hlist_del _ _ _ _ _ Hl0 Hq0).
Qed.

Section Run.
Context (malloc : gmap positive ll_cache -> option positive).
Context (malloc_fresh : forall hp, exists p, malloc hp = Some p /\ hp !! p = None).

(** The message that gives a cached interface another name. *)
Definition renames (n : link_msg) (m : gmap Z ll_cache) : Prop :=
  m_type n = RTM_NEWLINK /\ exists e name, m !! u32 (ifi_index n) = Some e /\ m_ifname n = Some name /\ im_name e <> name.

Lemma names_delete st p : names_ok st ->
  names_ok (mk_state (delete p (heap st)) (hlist_del p (idx_head st)) (hlist_del p (name_head st))).
Proof.
  intros Hn q f Hq'. cbn [heap name_head] in *. apply lookup_delete_Some in Hq' as [Hne Hf]. destruct (Hn q f Hf) as (l & Hl & Hq). by apply (hlist_del_other _ _ _ _ l).
Qed.

Lemma names_update st p e e' : names_ok st -> heap st !! p = Some e -> im_name e' = im_name e ->
  names_ok (mk_state (<[p := e']> (heap st)) (idx_head st) (name_head st)).
Proof.
  intros Hn He Hname q f Hq. cbn [heap name_head] in *. apply lookup_insert_Some in Hq as [[<- <-]|[Hne Hf]]; [rewrite Hname|]; by apply (Hn _ _).
Qed.

Lemma names_add st p e i : names_ok st -> heads_ok (name_head st) ->
  names_ok (mk_state (<[p := e]> (heap st)) i (hlist_add_head p (slot (namehash (im_name e))) (name_head st))).
Proof.
  intros Hn Hl q f Hq'. cbn [heap name_head] in *. apply lookup_insert_Some in Hq' as [[<- <-]|[Hne Hf]]; [apply add_head_new; [done|apply slot_lt]|].
  destruct (Hn q f Hf) as (l & Hl' & Hq). by apply (add_head_old _ _ _ _ l).
Qed.

Lemma remember_step st m n : represents_links st m -> msg_ok n ->
  exists st', ll_remember_index malloc n st = Some (0, st') /\ represents_links st' (spec_remember n m) /\
    (names_ok st -> ~ renames n m -> names_ok st').
Proof.
  intros Hr [Hlen Hname]. unfold ll_remember_index, spec_remember. set (i := u32 (ifi_index n)).
  destruct (Z.eqb_spec (m_type n) RTM_DELLINK) as [Hdel|Hdel]; [|destruct (Z.eqb_spec (m_type n) RTM_NEWLINK) as [Hnew|Hnew]; [|by exists st]];
    rewrite ?andb_false_r; cbn [negb andb]; rewrite (proj2 (Z.ltb_ge _ _)) by done;
    destruct (links_lookup st m i Hr) as [(p & e & -> & He & Hi & Hm)|[-> Hm]]; cbn [mbind option_bind]; rewrite ?Hm.
  - eexists. split; [done|]. split; [rewrite <- Hi; by apply links_delete|]. intros Hn _. by apply names_delete.
  - exists st. split; [done|]. by rewrite delete_id.
  - destruct (Hname Hnew) as [name Hnm]. rewrite Hnm. cbn [mbind option_bind]. eexists. split; [done|]. rewrite <- Hi. split.
    + destruct (moved_names st p e (slot (namehash name)) (proj1 Hr) He) as (Hlm & Hsm & _). apply links_update; [done|done|done|..].
      * case_bool_decide; [apply Hr|done].
      * intros j l q. case_bool_decide; [apply (ok_name_sound st (proj1 Hr))|apply Hsm].
    + intros Hn Hren. case_bool_decide as Hsame; [by apply (names_update st p e)|]. destruct Hren. split; [done|]. by exists e, name.
  - destruct (Hname Hnew) as [name Hnm]. rewrite Hnm. cbn [mbind option_bind]. destruct (malloc_fresh (heap st)) as (p & -> & Hp).
    eexists. split; [done|]. set (e := mk_ll (ifi_flags n) i (ifi_type n) name).
    split; [exact (links_add st m p e Hr Hp Hm)|]. intros Hn _. apply (names_add st p e); [done|apply Hr].
Qed.

Lemma empty_links : represents_links empty_state ∅ /\ names_ok empty_state.
Proof.
  assert (He : forall i l p, empty_heads !! i = Some l -> p ∈ l -> exists e : ll_cache, (∅ : gmap positive ll_cache) !! p = Some e).
  { intros i l p [-> _]%lookup_replicate Hp. by apply elem_of_nil in Hp. }
  split; [split; [split; cbn; try done; try (intros; done); exact He|]|]; [|by intros p e ?].
  intros i e. split; [by rewrite lookup_empty|]. by intros (p & Hp & _).
Qed.

Fixpoint spec_remember_all (ms : list link_msg) (m : gmap Z ll_cache) : gmap Z ll_cache :=
  match ms with [] => m | n :: ms' => spec_remember_all ms' (spec_remember n m) end.
(** No message of the list gives a cached interface another name. *)
Fixpoint no_renames (ms : list link_msg) (m : gmap Z ll_cache) : Prop :=
  match ms with [] => True | n :: ms' => ~ renames n m /\ no_renames ms' (spec_remember n m) end.

Lemma remember_all ms : forall st m, represents_links st m -> Forall msg_ok ms ->
  exists st', ll_remember_all malloc ms st = Some (0, st') /\ represents_links st' (spec_remember_all ms m) /\
    (names_ok st -> no_renames ms m -> names_ok st').
Proof.
  induction ms as [|n ms IH]; intros st m Hr Hms; [by exists st|]. apply Forall_cons in Hms as [Hn Hms].
  destruct (remember_step st m n Hr Hn) as (st1 & Hs & Hr1 & Hn1). cbn [ll_remember_all spec_remember_all no_renames]. rewrite Hs. cbn [mbind option_bind Z.ltb Z.compare].
  destruct (IH st1 _ Hr1 Hms) as (st2 & Hs2 & Hr2 & Hn2). exists st2. split; [done|]. split; [done|]. intros H0 [H1 H2]. by apply Hn2; [apply Hn1|].
Qed.
End Run.

Lemma strneq_refl n s : strneq n s s = true.
Proof. revert s. induction n as [|n IH]; intros [|c s]; cbn; [done..|]. by rewrite bool_decide_eq_true_2, IH. Qed.

Lemma strneq_eq n a b : strneq n a b = true -> (String.length a < n)%nat -> (String.length b < n)%nat -> a = b.
Proof.
  revert a b. induction n as [|n IH]; intros [|x a] [|y b]; cbn; try lia; try done.
  intros [->%bool_decide_eq_true Hs]%andb_prop Ha Hb. f_equal. apply IH; [done|lia|lia].
Qed.

(** A look-up by name finds an entry of that name if the list of the name has one. *)
Lemma get_by_name_spec st name : ll_ok st ->
  (exists p e, ll_get_by_name st name = Some (Some (p, e)) /\ heap st !! p = Some e /\ strneq 16 (im_name e) name = true /\
     exists l, name_head st !! slot (namehash name) = Some l /\ p ∈ l) \/
  (ll_get_by_name st name = Some None /\
     forall l p e, name_head st !! slot (namehash name) = Some l -> p ∈ l -> heap st !! p = Some e -> strneq 16 (im_name e) name = false).
Proof.
  intros Hok. unfold ll_get_by_name. destruct (heads_lookup (name_head st) (namehash name) (ok_name_len st Hok)) as [l Hl]. rewrite Hl. cbn [mbind option_bind].
  destruct (hlist_find_spec (heap st) (fun im => strneq 16 (im_name im) name) l (fun p => ok_name_sound st Hok _ l p Hl))
    as [(p & e & -> & Hp & He & Ht)|[-> Hall]]; [left; exists p, e; eauto 6|right].
  split; [done|]. intros l' p e [= <-] Hp He. by apply (Hall p e).
Qed.

(** ** Claims *)

Lemma index_queries toname st m i : represents_links st m -> i <> 0 ->
  ll_index_to_name toname st i = Some (match m !! i with Some e => im_name e | None => default (ll_idx_n2a i) (toname i) end) /\
  ll_index_to_type st i = Some (match m !! i with Some e => im_type e | None => -1 end) /\
  ll_index_to_flags st i = Some (match m !! i with Some e => s32 (im_flags e) | None => -1 end).
Proof.
  intros Hr Hi. unfold ll_index_to_name, ll_index_to_type, ll_index_to_flags. rewrite (proj2 (Z.eqb_neq i 0) Hi).
  destruct (links_lookup st m i Hr) as [(p & e & -> & _ & _ & ->)|[-> ->]]; cbn [mbind option_bind]; [done|]. by destruct (toname i).
Qed.

Lemma idx_roundtrip i : 0 <= i < 2 ^ 32 -> ll_idx_a2n (ll_idx_n2a i) = i.
Proof.
  intros Hi. unfold ll_idx_a2n, ll_idx_n2a. change (strip_prefix "if" ("if" +:+ dec i)) with (Some (dec i)). cbn [mbind option_bind].
  rewrite dec_pos by lia. pose proof (strtoul_print 10 10 i "" ltac:(left; lia) ltac:(lia) eq_refl) as Hs. rewrite sapp_nil_r in Hs.
  rewrite Hs. by apply u32_small.
Qed.

(** C35. The cache is a map from interface indices: after any messages that create, change and
    delete interfaces, in any order, no access leaves the live entries, and name, type and flags
    of an index are those of the first announcement since its last deletion, the flags those of the
    latest; an index that is not cached gets the name the system knows or one that gives the index back. *)
Theorem links_cached malloc toname ms :
  (forall hp, exists p, malloc hp = Some p /\ hp !! p = None) -> Forall msg_ok ms ->
  exists st, ll_remember_all malloc ms empty_state = Some (0, st) /\
    let m := spec_remember_all ms ∅ in
    forall i, 0 < i < 2 ^ 32 ->
      ll_index_to_name toname st i = Some (match m !! i with Some e => im_name e | None => default (ll_idx_n2a i) (toname i) end) /\
      ll_index_to_type st i = Some (match m !! i with Some e => im_type e | None => -1 end) /\
      ll_index_to_flags st i = Some (match m !! i with Some e => s32 (im_flags e) | None => -1 end) /\
      ll_idx_a2n (ll_idx_n2a i) = i.
Proof.
  intros Hfresh Hms. destruct (remember_all malloc Hfresh ms empty_state ∅ (proj1 empty_links) Hms) as (st & Hrun & Hr & _).
  exists st. split; [done|]. intros m i Hi. destruct (index_queries toname st m i Hr ltac:(lia)) as (H1 & H2 & H3).
  split_and!; [done..|]. apply idx_roundtrip. lia.
Qed.

Definition first_free (hp : gmap positive ll_cache) : option positive := Some (fresh (dom hp)).

Lemma first_free_law hp : exists p, first_free hp = Some p /\ hp !! p = None.
Proof. eexists. split; [done|]. apply not_elem_of_dom. apply is_fresh. Qed.

(** [eth0] appears, changes its flags and disappears, and [eth1] takes a slot next to it. *)
Definition sample_msgs : list link_msg :=
  [mk_msg RTM_NEWLINK 60 2 1 0x1003 (Some "eth0"%string); mk_msg RTM_NEWLINK 60 1026 1 0x1002 (Some "eth1"%string);
   mk_msg RTM_NEWLINK 60 2 1 0x11043 (Some "eth0"%string); mk_msg RTM_DELLINK 60 1026 1 0x1002 (Some "eth1"%string)].

Lemma sample_msgs_ok : Forall msg_ok sample_msgs.
Proof. repeat (apply Forall_cons; split; [split; [by vm_compute|intros _; by eexists]|]). done. Qed.

Lemma links_cached_witness :
  exists st, ll_remember_all first_free sample_msgs empty_state = Some (0, st) /\
    ll_index_to_name (fun _ => None) st 2 = Some "eth0"%string /\ ll_index_to_name (fun _ => None) st 1026 = Some "if1026"%string /\
    ll_index_to_flags st 2 = Some 0x11043.
Proof.
  destruct (links_cached first_free (fun _ => None) sample_msgs first_free_law sample_msgs_ok) as (st & Hrun & Hq).
  exists st. split; [exact Hrun|]. destruct (Hq 2 ltac:(lia)) as (H1 & _ & H3 & _). destruct (Hq 1026 ltac:(lia)) as (H4 & _).
  rewrite H1, H3, H4. vm_compute. split; [reflexivity|]. split; reflexivity.
Defined.

(** As long as no message gives a cached interface another name, the two tables agree: a name of
    less than sixteen characters is found exactly if an interface of that name is cached, with
    the index of such an interface; otherwise the system is asked. *)
Theorem link_names_found malloc toindex ms name :
  (forall hp, exists p, malloc hp = Some p /\ hp !! p = None) -> Forall msg_ok ms -> no_renames ms ∅ ->
  (forall i e, spec_remember_all ms ∅ !! i = Some e -> (String.length (im_name e) < 16)%nat) -> (String.length name < 16)%nat ->
  exists st, ll_remember_all malloc ms empty_state = Some (0, st) /\
    ((exists i e, spec_remember_all ms ∅ !! i = Some e /\ im_name e = name /\ ll_name_to_index toindex st (Some name) = Some i) \/
     ((forall i e, spec_remember_all ms ∅ !! i = Some e -> im_name e <> name) /\
      ll_name_to_index toindex st (Some name) = Some (if toindex name =? 0 then ll_idx_a2n name else toindex name))).
Proof.
  intros Hfresh Hms Hren Hshort Hname.
  destruct (remember_all malloc Hfresh ms empty_state ∅ (proj1 empty_links) Hms) as (st & Hrun & [Hok Hm] & Hn).
  specialize (Hn (proj2 empty_links) Hren). exists st. split; [done|]. unfold ll_name_to_index.
  destruct (get_by_name_spec st name Hok) as [(p & e & -> & He & Hs & _)|[-> Hall]]; cbn [mbind option_bind]; [left|right].
  - assert (Hmi : spec_remember_all ms ∅ !! im_index e = Some e) by (apply Hm; eauto).
    exists (im_index e), e. split_and!; [done|by apply (strneq_eq 16); [|apply (Hshort _ _ Hmi)|]|done].
  - split; [|done]. intros i e (p & He & Hi)%Hm Hne. destruct (Hn p e He) as (l & Hl & Hp). rewrite Hne in Hl.
    specialize (Hall l p e Hl Hp He). by rewrite Hne, strneq_refl in Hall.
Qed.

Lemma link_names_found_witness :
  exists st, ll_remember_all first_free sample_msgs empty_state = Some (0, st) /\
    ((exists i e, spec_remember_all sample_msgs ∅ !! i = Some e /\ im_name e = "eth0"%string /\ ll_name_to_index (fun _ => 7) st (Some "eth0"%string) = Some i) \/
     ((forall i e, spec_remember_all sample_msgs ∅ !! i = Some e -> im_name e <> "eth0"%string) /\
      ll_name_to_index (fun _ => 7) st (Some "eth0"%string) = Some 7)).
Proof.
  apply (link_names_found first_free (fun _ => 7) sample_msgs "eth0").
  - exact first_free_law.
  - exact sample_msgs_ok.
  - repeat split; intros (Hty & e & name & He & Hn & Hne); vm_compute in He, Hn; try discriminate He; try (vm_compute in Hty; discriminate Hty).
    injection He as <-. injection Hn as <-. exact (Hne eq_refl).
  - intros i e He. change (spec_remember_all sample_msgs ∅) with (delete 1026 (<[2 := mk_ll 0x11043 2 1 "eth0"]>
      (<[1026 := mk_ll 0x1002 1026 1 "eth1"]> (<[2 := mk_ll 0x1003 2 1 "eth0"]> (∅ : gmap Z ll_cache))))) in He.
    rewrite lookup_delete_Some, !lookup_insert_Some, lookup_empty in He. destruct He as (_ & [[_ <-]|[_ [[_ <-]|[_ [[_ <-]|[_ He]]]]]]); [cbn; lia..|discriminate He].
  - cbn. lia.
Defined.

(** A changed name does not reach the cache. When a cached interface is announced under another
    name, the old name stays with its index, and the new name is not found; nor is the old
    one, unless both names have the same slot. *)
Theorem link_rename_lost malloc toname st m n e name :
  represents_links st m -> m_type n = RTM_NEWLINK -> LINK_MSG_MIN <= m_len n -> u32 (ifi_index n) <> 0 ->
  m !! u32 (ifi_index n) = Some e -> m_ifname n = Some name -> im_name e <> name ->
  (String.length (im_name e) < 16)%nat -> (String.length name < 16)%nat ->
  (forall i f, m !! i = Some f -> i <> u32 (ifi_index n) -> strneq 16 (im_name f) name = false /\ strneq 16 (im_name f) (im_name e) = false) ->
  exists st', ll_remember_index malloc n st = Some (0, st') /\
    ll_index_to_name toname st' (u32 (ifi_index n)) = Some (im_name e) /\
    ll_get_by_name st' name = Some None /\
    (slot (namehash (im_name e)) <> slot (namehash name) -> ll_get_by_name st' (im_name e) = Some None).
Proof.
  intros Hr Hty Hlen H0 Hm Hname Hne Hs1 Hs2 Hothers. unfold ll_remember_index. rewrite Hty, Hname, (proj2 (Z.ltb_ge _ _)) by done. set (i := u32 (ifi_index n)) in *.
  destruct (links_lookup st m i Hr) as [(p & e0 & -> & He & Hi & Hm')|[_ Hm']]; [|congruence]. rewrite Hm in Hm'. injection Hm' as <-.
  cbn [negb andb Z.eqb mbind option_bind RTM_NEWLINK RTM_DELLINK Pos.eqb]. rewrite bool_decide_eq_false_2 by done.
  destruct (moved_names st p e (slot (namehash name)) (proj1 Hr) He) as (Hlm & Hsm & Hpm).
  set (e' := mk_ll (ifi_flags n) (im_index e) (im_type e) (im_name e)). eexists. split; [done|].
  pose proof (links_update st m p e e' _ Hr He eq_refl Hlm Hsm) as [Hok' Hm']. set (st' := mk_state _ _ _) in *. rewrite Hi in Hm'.
  (* an entry found under one of the names is the renamed one *)
  assert (Hfound : forall s q f, s = name \/ s = im_name e -> heap st' !! q = Some f -> strneq 16 (im_name f) s = true -> q = p /\ f = e').
  { intros s q f Hs Hf Hsn. assert (Hmf : <[i := e']> m !! im_index f = Some f) by (apply Hm'; eauto).
    apply lookup_insert_Some in Hmf as [[Hif <-]|[Hif Hmf]].
    - split; [|done]. apply (ok_unique st' Hok' q p e' e'); [done|apply lookup_insert_eq|done].
    - destruct (Hothers _ _ Hmf (not_eq_sym Hif)) as [Ha Hb]. destruct Hs as [-> | ->]; congruence. }
  split_and!.
  - pose proof (index_queries toname st' _ i (conj Hok' Hm') H0) as (-> & _). by rewrite lookup_insert_eq.
  - destruct (get_by_name_spec st' name Hok') as [(q & f & _ & Hf & Hsn & _)|[-> _]]; [exfalso|done].
    destruct (Hfound name q f (or_introl eq_refl) Hf Hsn) as [-> ->]. apply Hne. by apply (strneq_eq 16).
  - intros Hslot. destruct (get_by_name_spec st' (im_name e) Hok') as [(q & f & _ & Hf & Hsn & l & Hl & Hq)|[-> _]]; [exfalso|done].
    destruct (Hfound _ q f (or_intror eq_refl) Hf Hsn) as [-> ->]. apply Hslot. by apply (Hpm _ l).
Qed.

Lemma link_rename_lost_witness :
  exists st st', ll_remember_all first_free [mk_msg RTM_NEWLINK 60 2 1 0x1003 (Some "eth0"%string)] empty_state = Some (0, st) /\
    ll_remember_index first_free (mk_msg RTM_NEWLINK 60 2 1 0x1003 (Some "lan0"%string)) st = Some (0, st') /\
    ll_index_to_name (fun _ => Some "lan0"%string) st' 2 = Some "eth0"%string /\
    ll_get_by_name st' "lan0" = Some None /\ ll_get_by_name st' "eth0" = Some None.
Proof.
  destruct (remember_all first_free first_free_law [mk_msg RTM_NEWLINK 60 2 1 0x1003 (Some "eth0"%string)] empty_state ∅ (proj1 empty_links))
    as (st & Hrun & Hr & _).
  { apply Forall_cons. split; [split; [by vm_compute|intros _; by eexists]|done]. }
  change (spec_remember_all _ ∅) with (<[2 := mk_ll 0x1003 2 1 "eth0"]> (∅ : gmap Z ll_cache)) in Hr.
  destruct (link_rename_lost first_free (fun _ => Some "lan0"%string) st _ (mk_msg RTM_NEWLINK 60 2 1 0x1003 (Some "lan0"%string))
    (mk_ll 0x1003 2 1 "eth0") "lan0" Hr) as (st' & Hs & H1 & H2 & H3).
  - reflexivity.
  - vm_compute. discriminate.
  - vm_compute. discriminate.
  - apply lookup_insert_eq.
  - reflexivity.
  - discriminate.
  - cbn. lia.
  - cbn. lia.
  - intros i f [[<- _]|[_ Hf]]%lookup_insert_Some Hi; [by destruct Hi|]. by rewrite lookup_empty in Hf.
  - exists st, st'. split; [exact Hrun|]. split; [exact Hs|]. split; [exact H1|]. split; [exact H2|]. apply H3. vm_compute. discriminate.
Defined.
