(* ===== verification/RtNames.v ===== *)
(** * Names of routing numbers in iproute2

    Models [iproute2-4.18.0/lib/rt_names.c]: the reader of the files in [/etc/iproute2], the
    tables of protocols, scopes, realms, traffic classes and netlink families, and the hash
    tables of routing tables and device groups, each with the function-local cache of
    its parser. A file is the list of what [fgets] returns, a directory the list of its entries
    with their files; both are arguments. A store outside a table is [None]. *)
From stdpp Require Import base list numbers strings.
From Stdlib Require Import ZArith Lia Ascii.
From S2P Require Import Prelude Cstring.

Open Scope Z_scope.

(** ** Reading a file *)

(** [%s]. *)
Definition scan_word (s : string) : option string :=
  match (span (fun c => negb (isspace c)) (skip_space s)).1 with EmptyString => None | w => Some w end.

(** The two conversions of [0x%x %s] and of [%d %s]; what follows in the formats converts nothing. *)
Definition scan_hex_name (p : string) : option (Z * string) :=
  r ← strip_prefix "0x" p; '(v, _, r') ← strtoul 16 r; w ← scan_word r'; Some (s32 v, w).
Definition scan_dec_name (p : string) : option (Z * string) :=
  '(v, _, r) ← strtol 10 p; w ← scan_word r; Some (s32 v, w).

Inductive id_line := Entry (id : Z) (name : string) | Corrupt (text : string) | Eof.

Definition is_blank (c : ascii) : bool := bool_decide (c = " "%char) || bool_decide (c = "009"%char).

(** The next line that holds something, and the lines behind it. *)
Fixpoint fread_id_name (fp : list string) : id_line * list string :=
  match fp with
  | [] => (Eof, [])
  | buf :: fp' =>
      let p := (span is_blank buf).2 in
      match p with
      | EmptyString => fread_id_name fp'
      | String c _ =>
          if bool_decide (c = "#"%char) || bool_decide (c = "010"%char) then fread_id_name fp'
          else
            match scan_hex_name p, scan_dec_name p with
            | Some (id, name), _ | None, Some (id, name) => (Entry id name, fp')
            | None, None => (Corrupt p, fp')
            end
      end
  end.

(** ** Tables by number *)

Abbreviation id_tab := (list (option string)).

Fixpoint tab_loop (fuel : nat) (fp : list string) (tab : id_tab) (size : Z) : option id_tab :=
  match fuel with
  | O => Some tab
  | S f =>
      match fread_id_name fp with
      | (Eof, _) | (Corrupt _, _) => Some tab
      | (Entry id name, fp') =>
          if (id <? 0) || (id >? size) then tab_loop f fp' tab size
          else if id <? Z.of_nat (length tab) then tab_loop f fp' (<[Z.to_nat id := Some name]> tab) size
          else None
      end
  end.
(** [file] is [None] when it cannot be opened. *)
Definition rtnl_tab_initialize (file : option (list string)) (tab : id_tab) (size : Z) : option id_tab :=
  match file with None => Some tab | Some fp => tab_loop (S (length fp)) fp tab size end.

(** The entries of a directory that are read. *)
Definition conf_name (d_name : string) : bool :=
  negb (has_prefix "." d_name) && (slen d_name >? 5) &&
  bool_decide (String.substring (String.length d_name - 5) 5 d_name = ".conf"%string).

Section Directory.
Context {A : Type} (read : option (list string) -> A -> option A).
Fixpoint read_dir (d : list (string * option (list string))) (tab : A) : option A :=
  match d with
  | [] => Some tab
  | (name, file) :: d' => tab' ← (if conf_name name then read file tab else Some tab); read_dir d' tab'
  end.
End Directory.

(** A table with its flag, and the static variables of its parser. *)
Record tab_state := mk_tab { t_tab : id_tab; t_init : bool; t_cache : option string; t_res : Z }.

Section Table.
Context (initialize : id_tab -> option id_tab).

Definition tab_init (st : tab_state) : option tab_state :=
  if t_init st then Some st else t ← initialize (t_tab st); Some (mk_tab t true (t_cache st) (t_res st)).

(** [out_of_range] and [unnamed] are the formats of a number without a name. *)
Definition tab_n2a (always : bool) (out_of_range unnamed : Z -> string) (id : Z) (st : tab_state) : option (string * tab_state) :=
  if (id <? 0) || (id >=? 256) then Some (out_of_range id, st)
  else
    e ← t_tab st !! Z.to_nat id;
    st' ← match e with Some _ => if always then tab_init st else Some st | None => tab_init st end;
    e' ← t_tab st' !! Z.to_nat id;
    Some (match e' with Some name => name | None => unnamed id end, st').

(** The first number with the name. *)
Fixpoint tab_find (arg : string) (i : Z) (tab : id_tab) : option Z :=
  match tab with
  | [] => None
  | e :: tab' => if bool_decide (e = Some arg) then Some i else tab_find arg (i + 1) tab'
  end.

(** The number, or [None] for [-1]; the parser leaves its variables behind. *)
Definition tab_a2n (base : Z) (arg : string) (st : tab_state) : option (option Z * tab_state) :=
  if bool_decide (t_cache st = Some arg) then Some (Some (u32 (t_res st)), st)
  else
    st' ← tab_init st;
    match tab_find arg 0 (take 256 (t_tab st')) with
    | Some i => Some (Some i, mk_tab (t_tab st') true (Some arg) i)
    | None =>
        match strtoul base arg with
        | None => Some (None, mk_tab (t_tab st') true (t_cache st') 0)
        | Some (res, _, rest) =>
            let st'' := mk_tab (t_tab st') true (t_cache st') res in
            Some (if negb (bool_decide (rest = EmptyString)) || (res >? 255) then None else Some (u32 res), st'')
        end
    end.
End Table.

Definition tab_of (names : list (Z * string)) : id_tab :=
  foldr (fun x t => <[Z.to_nat x.1 := Some x.2]> t) (replicate 256 None) names.
Definition new_tab (names : list (Z * string)) : tab_state := mk_tab (tab_of names) false None 0.

(** [%u] of an [int]. *)
Definition udec (id : Z) : string := dec (u32 id).

(** *** Protocols *)
Definition rtnl_rtprot_tab : tab_state := new_tab
  [(0, "unspec"); (1, "redirect"); (2, "kernel"); (3, "boot"); (4, "static"); (8, "gated"); (9, "ra"); (10, "mrt"); (11, "zebra"); (12, "bird");
   (42, "babel"); (13, "dnrouted"); (14, "xorp"); (15, "ntk"); (16, "dhcp"); (186, "bgp"); (187, "isis"); (188, "ospf"); (189, "rip"); (192, "eigrp")]%string.
Definition rtnl_rtprot_initialize (file : option (list string)) (dir : option (list (string * option (list string)))) (tab : id_tab) : option id_tab :=
  tab' ← rtnl_tab_initialize file tab 256;
  match dir with None => Some tab' | Some d => read_dir (fun f t => rtnl_tab_initialize f t 256) d tab' end.
Definition rtnl_rtprot_n2a file dir := tab_n2a (rtnl_rtprot_initialize file dir) false udec udec.
Definition rtnl_rtprot_a2n file dir := tab_a2n (rtnl_rtprot_initialize file dir) 0.

(** *** Scopes *)
Definition rtnl_rtscope_tab : tab_state := new_tab [(0, "global"); (255, "nowhere"); (254, "host"); (253, "link"); (200, "site")]%string.
Definition rtnl_rtscope_initialize (file : option (list string)) (tab : id_tab) : option id_tab := rtnl_tab_initialize file tab 256.
Definition rtnl_rtscope_n2a file := tab_n2a (rtnl_rtscope_initialize file) false dec dec.
Definition rtnl_rtscope_a2n file := tab_a2n (rtnl_rtscope_initialize file) 0.

(** *** Realms *)
Definition rtnl_rtrealm_tab : tab_state := new_tab [(0, "unknown"%string)].
Definition rtnl_rtrealm_initialize (file : option (list string)) (tab : id_tab) : option id_tab := rtnl_tab_initialize file tab 256.
Definition rtnl_rtrealm_n2a file := tab_n2a (rtnl_rtrealm_initialize file) false dec dec.
Definition rtnl_rtrealm_a2n file := tab_a2n (rtnl_rtrealm_initialize file) 0.

(** *** Traffic classes *)
Definition rtnl_rtdsfield_tab : tab_state := new_tab [(0, "0"%string)].
Definition rtnl_rtdsfield_initialize (file : option (list string)) (tab : id_tab) : option id_tab := rtnl_tab_initialize file tab 256.
Definition rtnl_dsfield_n2a file := tab_n2a (rtnl_rtdsfield_initialize file) false dec (fun id => "0x" +:+ hex_pad 2 id).
Definition rtnl_dsfield_a2n file := tab_a2n (rtnl_rtdsfield_initialize file) 16.

(** *** Netlink families *)
Definition nl_proto_tab : tab_state := new_tab
  [(0, "rtnl"); (1, "unused"); (2, "usersock"); (3, "fw"); (4, "tcpdiag"); (5, "nflog"); (6, "xfrm"); (7, "selinux"); (8, "iscsi"); (9, "audit");
   (10, "fiblookup"); (11, "connector"); (12, "nft"); (13, "ip6fw"); (14, "dec-rt"); (15, "uevent"); (16, "genl"); (18, "scsi-trans");
   (19, "ecryptfs"); (20, "rdma"); (21, "crypto")]%string.
Definition nl_proto_initialize (file : option (list string)) (tab : id_tab) : option id_tab := rtnl_tab_initialize file tab 256.
Definition nl_proto_n2a file := tab_n2a (nl_proto_initialize file) true udec udec.
Definition nl_proto_a2n file := tab_a2n (nl_proto_initialize file) 0.

(** ** Hash tables *)

Record rtnl_hash_entry := mk_entry { e_name : string; e_id : Z }.
Abbreviation id_hash := (list (list rtnl_hash_entry)).

Fixpoint hash_loop (fuel : nat) (fp : list string) (hash : id_hash) (size : Z) : id_hash :=
  match fuel with
  | O => hash
  | S f =>
      match fread_id_name fp with
      | (Eof, _) | (Corrupt _, _) => hash
      | (Entry id name, fp') =>
          hash_loop f fp' (if id <? 0 then hash else alter (cons (mk_entry name id)) (Z.to_nat (Z.land id (size - 1))) hash) size
      end
  end.
Definition rtnl_hash_initialize (file : option (list string)) (hash : id_hash) (size : Z) : id_hash :=
  match file with None => hash | Some fp => hash_loop (S (length fp)) fp hash size end.

Record hash_state := mk_hash { h_hash : id_hash; h_init : bool; h_cache : option string; h_res : Z }.

Fixpoint chain_by_id (id : Z) (l : list rtnl_hash_entry) : option rtnl_hash_entry :=
  match l with [] => None | e :: l' => if e_id e =? id then Some e else chain_by_id id l' end.
Fixpoint chain_by_name (arg : string) (l : list rtnl_hash_entry) : option rtnl_hash_entry :=
  match l with [] => None | e :: l' => if bool_decide (e_name e = arg) then Some e else chain_by_name arg l' end.

(** The walk over the slots. *)
Fixpoint slots_find (find : list rtnl_hash_entry -> option rtnl_hash_entry) (hash : id_hash) : option rtnl_hash_entry :=
  match hash with
  | [] => None
  | l :: hash' => match find l with Some e => Some e | None => slots_find find hash' end
  end.

(** *** Routing tables *)
Definition RT_TABLE_MAX : Z := 0xFFFFFFFF.
(** The static entries get their numbers from their slots. *)
Definition set_ids (hash : id_hash) : id_hash :=
  imap (fun i l => match l with e :: l' => mk_entry (e_name e) (Z.of_nat i) :: l' | [] => [] end) hash.
Definition rtnl_rttable_hash : hash_state :=
  mk_hash (<[253%nat := [mk_entry "default" 0]]> (<[254%nat := [mk_entry "main" 0]]> (<[255%nat := [mk_entry "local" 0]]> (replicate 256 [])))) false None 0.

Section RtTable.
Context (file : option (list string)) (dir : option (list (string * option (list string)))).

Definition rtnl_rttable_initialize (hash : id_hash) : id_hash :=
  let hash' := rtnl_hash_initialize file (set_ids hash) 256 in
  match dir with
  | None => hash'
  | Some d => fold_left (fun h x => if conf_name x.1 then rtnl_hash_initialize x.2 h 256 else h) d hash'
  end.
Definition rttable_init (st : hash_state) : hash_state :=
  if h_init st then st else mk_hash (rtnl_rttable_initialize (h_hash st)) true (h_cache st) (h_res st).

Definition rtnl_rttable_n2a (id : Z) (st : hash_state) : option (string * hash_state) :=
  let st' := rttable_init st in
  l ← h_hash st' !! Z.to_nat (Z.land id 255);
  Some (match chain_by_id id l with Some e => e_name e | None => udec id end, st').

Definition rtnl_rttable_a2n (arg : string) (st : hash_state) : option Z * hash_state :=
  if bool_decide (h_cache st = Some arg) then (Some (u32 (h_res st)), st)
  else
    let st' := rttable_init st in
    match slots_find (chain_by_name arg) (take 256 (h_hash st')) with
    | Some e => (Some (e_id e), mk_hash (h_hash st') true (Some (e_name e)) (e_id e))
    | None =>
        match strtoul 0 arg with
        | Some (i, _, EmptyString) => if i >? RT_TABLE_MAX then (None, st') else (Some (u32 i), st')
        | _ => (None, st')
        end
    end.
End RtTable.

(** *** Device groups *)
Definition rtnl_group_hash : hash_state := mk_hash (<[0%nat := [mk_entry "default" 0]]> (replicate 256 [])) false None 0.

Section Group.
Context (file : option (list string)).

Definition rtnl_group_initialize (hash : id_hash) : id_hash := rtnl_hash_initialize file hash 256.
Definition group_init (st : hash_state) : hash_state :=
  if h_init st then st else mk_hash (rtnl_group_initialize (h_hash st)) true (h_cache st) (h_res st).

Definition rtnl_group_a2n (arg : string) (st : hash_state) : option Z * hash_state :=
  if bool_decide (h_cache st = Some arg) then (Some (s32 (h_res st)), st)
  else
    let st' := group_init st in
    match slots_find (chain_by_name arg) (take 256 (h_hash st')) with
    | Some e => (Some (s32 (e_id e)), mk_hash (h_hash st') true (Some (e_name e)) (e_id e))
    | None =>
        match strtol 0 arg with
        | Some (i, _, EmptyString) => if s32 i <? 0 then (None, st') else (Some (s32 i), st')
        | _ => (None, st')
        end
    end.

Definition rtnl_group_n2a (id : Z) (st : hash_state) : string * hash_state :=
  let st' := group_init st in
  (match slots_find (chain_by_id (u32 id)) (take 256 (h_hash st')) with Some e => e_name e | None => dec id end, st').
End Group.

(** ** What a file says *)

(** The entries of the lines up to one that cannot be read. *)
Fixpoint file_entries (fp : list string) : list (Z * string) :=
  match fp with
  | [] => []
  | buf :: fp' =>
      match (fread_id_name [buf]).1 with
      | Entry id name => (id, name) :: file_entries fp'
      | Corrupt _ => []
      | Eof => file_entries fp'
      end
  end.

Lemma fread_step buf fp : fread_id_name (buf :: fp) =
  match (fread_id_name [buf]).1 with Eof => fread_id_name fp | r => (r, fp) end.
Proof.
  cbn [fread_id_name]. destruct (span is_blank buf).2 as [|c s]; [done|]. destruct (_ || _); [done|].
  destruct (scan_hex_name (String c s)) as [[]|]; [done|]. by destruct (scan_dec_name (String c s)) as [[]|].
Qed.

(** The next entry, and what is left of the file. *)
Lemma fread_entries fp :
  (exists r, fread_id_name fp = (Eof, r) /\ file_entries fp = []) \/
  (exists t r, fread_id_name fp = (Corrupt t, r) /\ file_entries fp = []) \/
  (exists id name r, fread_id_name fp = (Entry id name, r) /\ file_entries fp = (id, name) :: file_entries r /\ (length r < length fp)%nat).
Proof.
  induction fp as [|buf fp IH]; [left; by exists []|]. rewrite fread_step. cbn [file_entries length].
  destruct (fread_id_name [buf]).1 as [id name|t|].
  - right; right. exists id, name, fp. split_and!; [done|done|lia].
  - right; left. by exists t, fp.
  - destruct IH as [(r & H1 & H2)|[(t & r & H1 & H2)|(id & name & r & H1 & H2 & H3)]]; [left; eauto|right; left; eauto|right; right].
    exists id, name, r. split_and!; [done|done|lia].
Qed.

(** The entries stored one after the other. *)
Fixpoint store_entries (es : list (Z * string)) (tab : id_tab) : option id_tab :=
  match es with
  | [] => Some tab
  | (id, name) :: es' =>
      if (id <? 0) || (id >? 256) then store_entries es' tab
      else if id =? 256 then None
      else store_entries es' (<[Z.to_nat id := Some name]> tab)
  end.

Lemma tab_loop_entries f : forall fp tab, (length fp < f)%nat -> length tab = 256%nat ->
  tab_loop f fp tab 256 = store_entries (file_entries fp) tab.
Proof.
  induction f as [|f IH]; intros fp tab Hf Hl; [lia|]. cbn [tab_loop].
  destruct (fread_entries fp) as [(r & -> & ->)|[(t & r & -> & ->)|(id & name & r & -> & -> & Hr)]]; [done..|]. cbn [store_entries].
  destruct (Z.ltb_spec id 0), (Z.gtb_spec id 256); cbn [orb]; try (apply IH; lia). rewrite Hl.
  destruct (Z.eqb_spec id 256), (Z.ltb_spec id (Z.of_nat 256)); try lia; [done|]. apply IH; [lia|by rewrite length_insert].
Qed.

(** The name the last entry of a number gives it. *)
Fixpoint last_name (i : Z) (es : list (Z * string)) : option string :=
  match es with
  | [] => None
  | (id, name) :: es' => match last_name i es' with Some n => Some n | None => if id =? i then Some name else None end
  end.

Lemma store_entries_spec es : forall tab, length tab = 256%nat ->
  match store_entries es tab with
  | Some tab' => (256 ∉ es.*1) /\ length tab' = 256%nat /\
      forall i, 0 <= i < 256 -> tab' !! Z.to_nat i = match last_name i es with Some n => Some (Some n) | None => tab !! Z.to_nat i end
  | None => 256 ∈ es.*1
  end.
Proof.
  induction es as [|[id name] es IH]; intros tab Hl; cbn [store_entries last_name].
  - split_and!; [apply not_elem_of_nil|done|done].
  - rewrite fmap_cons. cbn [fst]. destruct ((id <? 0) || (id >? 256)) eqn:E; [|destruct (Z.eqb_spec id 256) as [->|Hne]; [apply list_elem_of_here|]].
    + specialize (IH tab Hl). destruct (store_entries es tab) as [tab'|]; [|by apply list_elem_of_further].
      destruct IH as (Hn & Hl' & Hi). split_and!; [|done|].
      * apply not_elem_of_cons. split; [lia|done].
      * intros i Hir. rewrite Hi by done. destruct (last_name i es); [done|]. destruct (Z.eqb_spec id i); [lia|done].
    + assert (Hli : length (<[Z.to_nat id := Some name]> tab) = 256%nat) by (by rewrite length_insert). specialize (IH _ Hli). destruct (store_entries es _) as [tab'|]; [|by apply list_elem_of_further].
      destruct IH as (Hn & Hl' & Hi). split_and!; [|done|].
      * apply not_elem_of_cons. split; [lia|done].
      * intros i Hir. rewrite Hi by done. destruct (last_name i es); [done|]. apply orb_false_elim in E as [E1%Z.ltb_ge E2].
        destruct (Z.eqb_spec id i) as [->|Hii]; [apply list_lookup_insert_eq; lia|]. apply list_lookup_insert_ne. lia.
Qed.

(** ** Names and numbers *)

(** The cache holds a name of the table and its number. *)
Definition cache_ok (st : tab_state) : Prop :=
  forall c, t_cache st = Some c -> tab_find c 0 (t_tab st) = Some (t_res st).

(** An initialised table. *)
Definition tab_ready (st : tab_state) : Prop := t_init st = true /\ length (t_tab st) = 256%nat.

(** What a text means: the first number of that name, or a number up to 255. *)
Definition tab_spec (base : Z) (tab : id_tab) (arg : string) : option Z :=
  match tab_find arg 0 tab with
  | Some i => Some i
  | None => match strtoul base arg with Some (v, _, EmptyString) => if v >? 255 then None else Some (u32 v) | _ => None end
  end.

Lemma tab_find_some arg tab : forall i j, tab_find arg i tab = Some j ->
  i <= j < i + Z.of_nat (length tab) /\ tab !! Z.to_nat (j - i) = Some (Some arg).
Proof.
  induction tab as [|e tab IH]; intros i j; cbn [tab_find]; [done|]. case_bool_decide as He.
  - intros [= <-]. rewrite Z.sub_diag, He. cbn [length]. split; [lia|done].
  - intros [Hr Hl]%IH. cbn [length]. split; [lia|]. replace (Z.to_nat (j - i)) with (S (Z.to_nat (j - (i + 1)))) by lia. done.
Qed.

Lemma tab_find_none arg tab : forall i, tab_find arg i tab = None -> forall k, tab !! k <> Some (Some arg).
Proof.
  induction tab as [|e tab IH]; intros i; cbn [tab_find]; [by intros _ k|]. case_bool_decide as He; [done|].
  intros Hn [|k]; cbn; [congruence|]. by apply (IH (i + 1)).
Qed.

Section A2n.
Context (initialize : id_tab -> option id_tab) (base : Z).

Lemma tab_a2n_ready arg st : tab_ready st -> t_cache st <> Some arg ->
  tab_a2n initialize base arg st = Some (tab_spec base (t_tab st) arg,
    mk_tab (t_tab st) true (if bool_decide (is_Some (tab_find arg 0 (t_tab st))) then Some arg else t_cache st)
      (match tab_find arg 0 (t_tab st) with Some i => i | None => match strtoul base arg with Some (v, _, _) => v | None => 0 end end)).
Proof.
  intros [Hi Hl] Hc. unfold tab_a2n, tab_init, tab_spec. rewrite bool_decide_eq_false_2, Hi by done. cbn [mbind option_bind].
  rewrite firstn_all2 by lia. destruct (tab_find arg 0 (t_tab st)) as [i|]; [by rewrite bool_decide_eq_true_2 by by eexists|].
  rewrite bool_decide_eq_false_2 by (by intros [? ?]). destruct (strtoul base arg) as [[[v o] [|c rest]]|]; [|done..].
  rewrite bool_decide_eq_true_2 by done. cbn [negb orb]. by destruct (v >? 255).
Qed.

Lemma tab_a2n_correct arg st : tab_ready st -> cache_ok st ->
  exists st', tab_a2n initialize base arg st = Some (tab_spec base (t_tab st) arg, st') /\ t_tab st' = t_tab st.
Proof.
  intros Hr Hc. destruct (decide (t_cache st = Some arg)) as [Hca|Hca].
  - exists st. split; [|done]. unfold tab_a2n. rewrite bool_decide_eq_true_2 by done. unfold tab_spec. rewrite (Hc arg Hca).
    destruct (tab_find_some _ _ _ _ (Hc arg Hca)) as [Hrange _]. rewrite (proj2 Hr) in Hrange. by rewrite u32_small by lia.
  - eexists. split; [by apply tab_a2n_ready|done].
Qed.
End A2n.

Definition id_tables (file : option (list string)) (dir : option (list (string * option (list string)))) :
    list ((Z -> tab_state -> option (string * tab_state)) * (string -> tab_state -> option (option Z * tab_state))) :=
  [(rtnl_rtprot_n2a file dir, rtnl_rtprot_a2n file dir); (rtnl_rtscope_n2a file, rtnl_rtscope_a2n file);
   (rtnl_rtrealm_n2a file, rtnl_rtrealm_a2n file); (rtnl_dsfield_n2a file, rtnl_dsfield_a2n file); (nl_proto_n2a file, nl_proto_a2n file)].

(** The formats of a number without a name can be read. *)
Lemma formats_read id : 0 <= id < 256 ->
  strtoul 0 (dec id) = Some (id, false, EmptyString) /\ strtoul 0 (udec id) = Some (id, false, EmptyString) /\
  strtoul 16 ("0x" +:+ hex_pad 2 id) = Some (id, false, EmptyString).
Proof.
  intros Hid. assert (H : forallb (fun id => bool_decide (strtoul 0 (dec id) = Some (id, false, EmptyString)) &&
    bool_decide (strtoul 0 (udec id) = Some (id, false, EmptyString)) &&
    bool_decide (strtoul 16 ("0x" +:+ hex_pad 2 id) = Some (id, false, EmptyString))) (seqZ 0 256) = true) by (vm_compute; reflexivity).
  rewrite forallb_forall in H. specialize (H id). rewrite <- list_elem_of_In, elem_of_seqZ in H. specialize (H ltac:(lia)).
  apply andb_prop in H as [[H1 H2]%andb_prop H3]. rewrite !bool_decide_eq_true in H1, H2, H3. done.
Qed.

Lemma tab_roundtrip initialize always out unnamed base st id : tab_ready st -> cache_ok st -> 0 <= id < 256 ->
  strtoul base (unnamed id) = Some (id, false, EmptyString) ->
  exists text, tab_n2a initialize always out unnamed id st = Some (text, st) /\
    ((forall j, t_tab st !! j = Some (Some text) -> j = Z.to_nat id) ->
     exists st', tab_a2n initialize base text st = Some (Some id, st') /\ t_tab st' = t_tab st).
Proof.
  intros Hr Hc Hid Hnum. unfold tab_n2a, tab_init. destruct (Z.ltb_spec id 0), (Z.geb_spec id 256); try lia. cbn [orb].
  destruct Hr as [Hi Hl]. destruct (lookup_lt_is_Some_2 (t_tab st) (Z.to_nat id)) as [e He]; [lia|]. rewrite Hi, He. cbn [mbind option_bind].
  exists (match e with Some n => n | None => unnamed id end). split; [destruct e; [destruct always|]; cbn [mbind option_bind]; by rewrite He|].
  intros Huniq. destruct (tab_a2n_correct initialize base (match e with Some n => n | None => unnamed id end) st (conj Hi Hl) Hc) as (st' & -> & Ht).
  exists st'. split; [|done]. do 2 f_equal. unfold tab_spec. destruct (tab_find _ 0 (t_tab st)) as [i|] eqn:Ef.
  - destruct (tab_find_some _ _ _ _ Ef) as [Hir Hlk]. rewrite Z.sub_0_r in Hlk. apply Huniq in Hlk. f_equal. lia.
  - destruct e as [n|]; [by destruct (tab_find_none _ _ _ Ef (Z.to_nat id))|]. rewrite Hnum.
    destruct (Z.gtb_spec id 255); [lia|]. by rewrite u32_small by lia.
Qed.

(** ** Claims *)

(** For every table of names: a number up to 255 is always given a text, its name or its digits, and
    the table reads the text back as that number, unless another number has the text for its name. *)
Theorem rt_names_roundtrip file dir st id :
  tab_ready st -> cache_ok st -> 0 <= id < 256 ->
  Forall (fun t => exists text, t.1 id st = Some (text, st) /\
    ((forall j, t_tab st !! j = Some (Some text) -> j = Z.to_nat id) ->
     exists st', t.2 text st = Some (Some id, st') /\ t_tab st' = t_tab st)) (id_tables file dir).
Proof.
  intros Hr Hc Hid. destruct (formats_read id Hid) as (H1 & H2 & H3).
  repeat (apply Forall_cons; split; [by apply tab_roundtrip|]). done.
Qed.

(** The table of protocols as it is without files. *)
Definition sample_prot : tab_state := mk_tab (t_tab rtnl_rtprot_tab) true None 0.

Lemma rt_names_roundtrip_witness :
  exists st', rtnl_rtprot_n2a None None 186 sample_prot = Some ("bgp"%string, sample_prot) /\
    rtnl_rtprot_a2n None None "bgp" sample_prot = Some (Some 186, st').
Proof.
  pose proof (rt_names_roundtrip None None sample_prot 186) as H.
  assert (Hr : tab_ready sample_prot) by (split; reflexivity). assert (Hc : cache_ok sample_prot) by (intros c Hc; discriminate Hc).
  specialize (H Hr Hc ltac:(lia)). apply Forall_cons in H as [(text & Hn & Ha) _]. cbn [fst snd] in Hn, Ha.
  assert (Ht : text = "bgp"%string) by (vm_compute in Hn; congruence). subst text.
  destruct Ha as (st' & Ha & _); [|exists st'; split; [exact Hn|exact Ha]].
  intros j Hj. assert (Hl : (j < 256)%nat) by (apply lookup_lt_Some in Hj; exact Hj).
  assert (Hall : forallb (fun k => bool_decide (k = 186%nat) || negb (bool_decide (t_tab sample_prot !! k = Some (Some "bgp"%string)))) (seq 0 256) = true)
    by (vm_compute; reflexivity).
  rewrite forallb_forall in Hall. specialize (Hall j ltac:(apply in_seq; lia)). apply orb_prop in Hall as [Hj'|Hj'].
  - by apply bool_decide_eq_true in Hj'.
  - apply negb_true_iff, bool_decide_eq_false in Hj'. by destruct Hj'.
Defined.

(** The parsers of four tables forget which number their cached name has: after a name was looked up
    and then a number was given as digits, the name is read as that number. *)
Theorem rt_names_stale_cache file dir st name i k :
  tab_ready st -> t_cache st <> Some name -> tab_find name 0 (t_tab st) = Some i -> 0 <= k < 256 -> tab_find (dec k) 0 (t_tab st) = None ->
  Forall (fun a2n : string -> tab_state -> option (option Z * tab_state) =>
    exists st1 st2, a2n name st = Some (Some i, st1) /\ a2n (dec k) st1 = Some (Some k, st2) /\ a2n name st2 = Some (Some k, st2))
    [rtnl_rtprot_a2n file dir; rtnl_rtscope_a2n file; rtnl_rtrealm_a2n file; nl_proto_a2n file].
Proof.
  intros [Hi Hl] Hc Hf Hk Hn. destruct (formats_read k Hk) as (Hd & _).
  assert (Hgen : forall init, exists st1 st2, tab_a2n init 0 name st = Some (Some i, st1) /\ tab_a2n init 0 (dec k) st1 = Some (Some k, st2) /\
    tab_a2n init 0 name st2 = Some (Some k, st2)).
  { intros init. exists (mk_tab (t_tab st) true (Some name) i), (mk_tab (t_tab st) true (Some name) k). split_and!.
    - rewrite tab_a2n_ready by done. unfold tab_spec. rewrite Hf. by rewrite bool_decide_eq_true_2 by by eexists.
    - rewrite tab_a2n_ready; [|done|]. 2:{ cbn. intros [= ->]. congruence. }
      unfold tab_spec. cbn [t_tab t_cache]. rewrite Hn, Hd, bool_decide_eq_false_2 by (by intros [? ?]).
      destruct (Z.gtb_spec k 255); [lia|]. by rewrite u32_small by lia.
    - unfold tab_a2n. cbn [t_cache t_res]. rewrite bool_decide_eq_true_2 by done. by rewrite u32_small by lia. }
  repeat (apply Forall_cons; split; [apply Hgen|]). done.
Qed.

Lemma rt_names_stale_cache_witness :
  exists st1 st2, rtnl_rtprot_a2n None None "kernel" sample_prot = Some (Some 2, st1) /\
    rtnl_rtprot_a2n None None "99" st1 = Some (Some 99, st2) /\ rtnl_rtprot_a2n None None "kernel" st2 = Some (Some 99, st2).
Proof.
  pose proof (rt_names_stale_cache None None sample_prot "kernel" 2 99) as H.
  apply Forall_cons in H as [H _]; [exact H|split; reflexivity|discriminate|vm_compute; reflexivity|lia|vm_compute; reflexivity].
Defined.

(** What a file does to a table: the last line of a number gives it its name, lines of other
    numbers change nothing, and exactly a line with the number 256 stores behind the table. *)
Theorem tab_initialize_exact fp tab :
  length tab = 256%nat ->
  (rtnl_tab_initialize (Some fp) tab 256 = None <-> 256 ∈ (file_entries fp).*1) /\
  forall tab', rtnl_tab_initialize (Some fp) tab 256 = Some tab' -> length tab' = 256%nat /\
    forall i, 0 <= i < 256 -> tab' !! Z.to_nat i =
      match last_name i (file_entries fp) with Some n => Some (Some n) | None => tab !! Z.to_nat i end.
Proof.
  intros Hl. unfold rtnl_tab_initialize. rewrite tab_loop_entries by lia. pose proof (store_entries_spec (file_entries fp) tab Hl) as Hs.
  destruct (store_entries (file_entries fp) tab) as [tab'|]; [|by split; [|intros tab' [=]]].
  destruct Hs as (Hn & Hlen & Hi). split; [by split|]. by intros ? [= <-].
Qed.

Definition sample_file : list string :=
  [String.append "# comment" (String "010" ""); String.append "  7 first" (String "010" ""); String.append "0x07 second # x" (String "010" ""); "300 skipped"%string].

Lemma tab_initialize_exact_witness :
  exists tab', rtnl_tab_initialize (Some sample_file) (replicate 256 None) 256 = Some tab' /\ tab' !! 7%nat = Some (Some "second"%string) /\
    (rtnl_tab_initialize (Some ["256 over"%string]) (replicate 256 None) 256 = None <-> 256 ∈ [256]).
Proof.
  destruct (tab_initialize_exact sample_file (replicate 256 None) eq_refl) as [Hn Hs].
  destruct (tab_initialize_exact ["256 over"%string] (replicate 256 None) eq_refl) as [Hover _].
  destruct (rtnl_tab_initialize (Some sample_file) (replicate 256 None) 256) as [tab'|] eqn:E; [|vm_compute in E; discriminate E].
  destruct (Hs tab' eq_refl) as [_ Hi]. exists tab'. split; [reflexivity|]. split; [|exact Hover].
  change 7%nat with (Z.to_nat 7). rewrite (Hi 7 ltac:(lia)). vm_compute. reflexivity.
Defined.

(** *** Routing tables *)

Definition hash_len (hash : id_hash) : Prop := length hash = 256%nat.

(** The name a chain gives a number. *)
Definition hash_name (hash : id_hash) (id : Z) : option string :=
  e_name <$> (hash !! Z.to_nat (Z.land id 255) ≫= chain_by_id id).

Lemma land_255 id : 0 <= Z.land id 255 < 256.
Proof. change 255 with (Z.ones 8). rewrite Z.land_ones by lia. apply Z.mod_pos_bound. lia. Qed.

Lemma hash_add hash e id : hash_len hash ->
  hash_name (alter (cons e) (Z.to_nat (Z.land (e_id e) (256 - 1))) hash) id = if e_id e =? id then Some (e_name e) else hash_name hash id.
Proof.
  intros Hl. unfold hash_name. change (256 - 1) with 255. destruct (Z.eqb_spec (e_id e) id) as [<-|Hne].
  - rewrite list_lookup_alter_eq. destruct (lookup_lt_is_Some_2 hash (Z.to_nat (Z.land (e_id e) 255))) as [l Hll]; [pose proof (land_255 (e_id e)); rewrite Hl; lia|].
    rewrite Hll. cbn. by rewrite Z.eqb_refl.
  - destruct (decide (Z.to_nat (Z.land (e_id e) 255) = Z.to_nat (Z.land id 255))) as [->|Hs]; [|by rewrite list_lookup_alter_ne].
    rewrite list_lookup_alter_eq. destruct (hash !! _) as [l|]; [|done]. cbn. by destruct (Z.eqb_spec (e_id e) id).
Qed.

Definition or_else (a b : option string) : option string := match a with Some _ => a | None => b end.

Lemma hash_loop_entries f : forall fp hash id, (length fp < f)%nat -> hash_len hash -> 0 <= id ->
  hash_len (hash_loop f fp hash 256) /\ hash_name (hash_loop f fp hash 256) id = or_else (last_name id (file_entries fp)) (hash_name hash id).
Proof.
  induction f as [|f IH]; intros fp hash id Hf Hl Hid; [lia|]. cbn [hash_loop].
  destruct (fread_entries fp) as [(r & -> & ->)|[(t & r & -> & ->)|(k & name & r & -> & -> & Hr)]]; [done..|]. cbn [last_name].
  set (hash' := if k <? 0 then hash else _).
  assert (Hl' : hash_len hash') by (unfold hash'; destruct (k <? 0); [done|]; unfold hash_len; by rewrite length_alter).
  assert (Hn' : hash_name hash' id = if k =? id then Some name else hash_name hash id).
  { unfold hash'. destruct (Z.ltb_spec k 0); [destruct (Z.eqb_spec k id); [lia|done]|]. exact (hash_add hash (mk_entry name k) id Hl). }
  destruct (IH r hash' id ltac:(lia) Hl' Hid) as [H1 H2]. split; [done|]. rewrite H2, Hn'.
  destruct (last_name id (file_entries r)); [done|]. by destruct (k =? id).
Qed.

Lemma hash_initialize_entries file hash id : hash_len hash -> 0 <= id ->
  hash_len (rtnl_hash_initialize file hash 256) /\
  hash_name (rtnl_hash_initialize file hash 256) id = or_else (last_name id (match file with Some fp => file_entries fp | None => [] end)) (hash_name hash id).
Proof. intros Hl Hid. destruct file as [fp|]; [|done]. apply hash_loop_entries; [lia|done|done]. Qed.

Lemma last_name_app id es es' : last_name id (es ++ es') = or_else (last_name id es') (last_name id es).
Proof.
  induction es as [|[k n] es IH]; cbn [app last_name]; [by destruct (last_name id es')|]. rewrite IH. unfold or_else. by destruct (last_name id es').
Qed.

(** All the entries, in the order they are read. *)
Definition table_entries (file : option (list string)) (dir : option (list (string * option (list string)))) : list (Z * string) :=
  [(253, "default"); (254, "main"); (255, "local")]%string ++ default [] (file_entries <$> file) ++
  concat (map (fun x : string * option (list string) => if conf_name x.1 then default [] (file_entries <$> x.2) else []) (default [] dir)).

Lemma read_conf_entries d : forall hash id, hash_len hash -> 0 <= id ->
  let hash' := fold_left (fun h x => if conf_name x.1 then rtnl_hash_initialize x.2 h 256 else h) d hash in
  hash_len hash' /\ hash_name hash' id =
    or_else (last_name id (concat (map (fun x : string * option (list string) => if conf_name x.1 then default [] (file_entries <$> x.2) else []) d))) (hash_name hash id).
Proof.
  induction d as [|[n file] d IH]; intros hash id Hl Hid; [done|]. cbn [fold_left map concat fst snd]. rewrite last_name_app. destruct (conf_name n).
  - destruct (hash_initialize_entries file hash id Hl Hid) as [H1 H2]. destruct (IH _ id H1 Hid) as [H3 H4]. split; [done|]. rewrite H4, H2.
    destruct (last_name id (concat _)); [done|]. by destruct file.
  - destruct (IH hash id Hl Hid) as [H3 H4]. split; [done|]. rewrite H4. by destruct (last_name id (concat _)).
Qed.

Lemma static_tables id : 0 <= id -> hash_name (set_ids (h_hash rtnl_rttable_hash)) id = last_name id [(253, "default"); (254, "main"); (255, "local")]%string.
Proof.
  intros Hid. unfold hash_name. set (h := set_ids (h_hash rtnl_rttable_hash)).
  assert (Hs : forall n : nat, (n < 256)%nat -> h !! n = Some (if decide (n = 253%nat) then [mk_entry "default" 253] else
    if decide (n = 254%nat) then [mk_entry "main" 254] else if decide (n = 255%nat) then [mk_entry "local" 255] else [])).
  { intros n Hn. repeat case_decide; subst; [done..|]. unfold h, set_ids. cbn [rtnl_rttable_hash h_hash].
    by rewrite list_lookup_imap, !list_lookup_insert_ne, lookup_replicate_2 by lia. }
  pose proof (land_255 id). rewrite Hs by lia. cbn [mbind option_bind last_name].
  assert (Hsmall : id < 256 -> Z.land id 255 = id) by (intros; change 255 with (Z.ones 8); rewrite Z.land_ones by lia; apply Z.mod_small; lia).
  assert (Heq : forall k : Z, 0 <= k < 256 -> Z.to_nat (Z.land id 255) <> Z.to_nat k -> (k =? id) = false).
  { intros k Hk Hne. apply Z.eqb_neq. intros ->. rewrite Hsmall in Hne by lia. done. }
  repeat case_decide; cbn [chain_by_id fmap option_fmap option_map e_id e_name]; rewrite ?(Heq 253), ?(Heq 254), ?(Heq 255) by lia;
    done || by destruct (_ =? id).
Qed.

(** The name of a routing table is the one the last line read gives its number, over the main file,
    the files of the directory that end in .conf, and the three built-in tables before them;
    whatever chains of the hash table the lines end up in. *)
Theorem rttable_last_wins file dir id :
  0 <= id < 2 ^ 32 ->
  exists st, rtnl_rttable_n2a file dir id rtnl_rttable_hash =
    Some (match last_name id (table_entries file dir) with Some n => n | None => dec id end, st) /\
    rtnl_rttable_n2a file dir id st = Some (match last_name id (table_entries file dir) with Some n => n | None => dec id end, st).
Proof.
  intros Hid. assert (Hl0 : hash_len (set_ids (h_hash rtnl_rttable_hash))) by reflexivity.
  pose proof (hash_initialize_entries file _ id Hl0 ltac:(lia)) as [Hl1 Hn1].
  assert (Hname : hash_len (rtnl_rttable_initialize file dir (h_hash rtnl_rttable_hash)) /\
    hash_name (rtnl_rttable_initialize file dir (h_hash rtnl_rttable_hash)) id = last_name id (table_entries file dir)).
  { unfold rtnl_rttable_initialize, table_entries. rewrite !last_name_app, <- (static_tables id) by lia.
    destruct dir as [d|]; cbn [default].
    - destruct (read_conf_entries d _ id Hl1 ltac:(lia)) as [Hl2 Hn2]. split; [done|]. rewrite Hn2, Hn1. unfold or_else.
      destruct (last_name id (concat _)); [done|]. by destruct file.
    - split; [done|]. rewrite Hn1. cbn. by destruct file. }
  destruct Hname as [Hl Hn]. set (hash := rtnl_rttable_initialize file dir (h_hash rtnl_rttable_hash)) in *.
  exists (mk_hash hash true None 0). unfold rtnl_rttable_n2a. change (rttable_init file dir rtnl_rttable_hash) with (mk_hash hash true None 0).
  change (rttable_init file dir (mk_hash hash true None 0)) with (mk_hash hash true None 0). cbn [h_hash].
  destruct (lookup_lt_is_Some_2 hash (Z.to_nat (Z.land id 255))) as [l Hll]; [pose proof (land_255 id); rewrite Hl; lia|].
  unfold hash_name in Hn. rewrite Hll in Hn |- *. cbn [mbind option_bind] in *. rewrite <- Hn.
  assert (Hu : udec id = dec id) by (unfold udec; by rewrite u32_small by lia). rewrite Hu. by destruct (chain_by_id id l).
Qed.

Lemma rttable_last_wins_witness :
  exists st, rtnl_rttable_n2a (Some ["10 lan"%string; "266 wan"%string]) (Some [("x.conf"%string, Some ["254 primary"%string]); ("y"%string, Some ["10 no"%string])]) 254
      rtnl_rttable_hash = Some ("primary"%string, st) /\
    rtnl_rttable_n2a (Some ["10 lan"%string; "266 wan"%string]) (Some [("x.conf"%string, Some ["254 primary"%string]); ("y"%string, Some ["10 no"%string])]) 254 st =
      Some ("primary"%string, st).
Proof.
  apply (rttable_last_wins (Some ["10 lan"%string; "266 wan"%string]) (Some [("x.conf"%string, Some ["254 primary"%string]); ("y"%string, Some ["10 no"%string])]) 254).
  lia.
Defined.
