(* ===== verification/Ring.v ===== *)
(** * The per-CPU packet ring

    Models the ring of [kmod/pval_main.c]: [struct pval_ring], the index
    operations, [write_to_ring], [pval_init_ring], [pval_destroy_ring] and the
    copy loop of [pval_file_read_iter]. The ring is shown to implement a
    bounded first-in first-out queue of [PVAL_SLOT_NUM - 1] slots. *)
From stdpp Require Import base list numbers strings.
From Stdlib Require Import ZArith Lia.
From S2P Require Import Prelude Abi.

Open Scope Z_scope.

(** What the ring needs of a socket buffer: the two lengths, the hardware time
    stamp, and the bytes that can be read from the MAC header on. *)
Class SkbView (skb : Type) := {
  skb_mac_len : skb -> Z;
  skb_len : skb -> Z;
  skb_hwtstamp : skb -> Z;
  skb_mac_header : skb -> list Z
}.

(** ** Definitions *)

Definition PVAL_SLOT_NUM : Z := 1024.

Definition EOPNOTSUPP : Z := 95.
Definition ENOMEM : Z := 12.

Record pval_ring := mk_pval_ring {
  r_cpu : Z;               (* u8 *)
  r_head : Z;              (* u32, write point *)
  r_tail : Z;              (* u32, read point *)
  r_mask : Z;              (* u32 *)
  r_slots : list pval_slot (* the allocation; [] for a null pointer *)
}.

Definition set_head (r : pval_ring) (h : Z) : pval_ring :=
  mk_pval_ring (r_cpu r) h (r_tail r) (r_mask r) (r_slots r).
Definition set_tail (r : pval_ring) (t : Z) : pval_ring :=
  mk_pval_ring (r_cpu r) (r_head r) t (r_mask r) (r_slots r).
Definition set_slots (r : pval_ring) (sl : list pval_slot) : pval_ring :=
  mk_pval_ring (r_cpu r) (r_head r) (r_tail r) (r_mask r) sl.

Definition ring_emtpy (r : pval_ring) : bool := r_head r =? r_tail r.

Definition ring_full (r : pval_ring) : bool :=
  Z.land (u32 (r_head r + 1)) (r_mask r) =? r_tail r.

Definition ring_write_next (r : pval_ring) : pval_ring :=
  set_head r (Z.land (u32 (r_head r + 1)) (r_mask r)).

Definition ring_read_next (r : pval_ring) : pval_ring :=
  set_tail r (Z.land (u32 (r_tail r + 1)) (r_mask r)).

Definition ring_read_avail (r : pval_ring) : Z :=
  if r_head r >? r_tail r then u32 (r_head r - r_tail r)
  else if r_tail r >? r_head r then u32 (r_mask r - r_tail r + r_head r + 1)
  else 0.

Definition ring_write_avail (r : pval_ring) : Z :=
  if r_tail r >? r_head r then u32 (r_tail r - r_head r)
  else if r_head r >? r_tail r then u32 (r_mask r - r_head r + r_tail r + 1)
  else 0.

Definition ring_zero (r : pval_ring) : pval_ring := set_tail (set_head r 0) 0.

Section WithSkb.
Context {skb : Type} `{SkbView skb}.

(** The slot [write_to_ring] leaves in place of [s]: [memcpy] overwrites the
    first [copylen] bytes of [pkt] and keeps the rest of the old contents. *)
Definition fill_slot (s : pval_slot) (b : skb) (copylen pktlen : Z) : pval_slot :=
  mk_pval_slot copylen pktlen (skb_hwtstamp b)
    (take (Z.to_nat copylen) (skb_mac_header b) ++ drop (Z.to_nat copylen) (s_pkt s)).

(** [None] is an access outside an object: a slot index past the allocation, or
    a [memcpy] reading past the end of the buffer's data. *)
Definition write_to_ring (r : pval_ring) (b : skb) : option (Z * pval_ring) :=
  let pktlen := u32 (skb_mac_len b + skb_len b) in
  let copylen := if pktlen >? PVAL_PKT_LEN then PVAL_PKT_LEN else pktlen in
  if ring_full r then Some (0, r)
  else
    s ← r_slots r !! Z.to_nat (r_head r);
    if copylen <=? Z.of_nat (length (skb_mac_header b)) then
      Some (copylen,
            ring_write_next
              (set_slots r (<[Z.to_nat (r_head r) := fill_slot s b copylen pktlen]> (r_slots r))))
    else None.

End WithSkb.

(** [kmalloc] is the allocator's answer: the uninitialised slots, or [None]. *)
Definition pval_init_ring (kmalloc : option (list pval_slot)) (cpu : Z) : Z * pval_ring :=
  match kmalloc with
  | None => (- ENOMEM, mk_pval_ring (u8 cpu) 0 0 (PVAL_SLOT_NUM - 1) [])
  | Some sl => (0, mk_pval_ring (u8 cpu) 0 0 (PVAL_SLOT_NUM - 1) sl)
  end.

(** After [kfree] no slot may be read or written. *)
Definition pval_destroy_ring (r : pval_ring) : pval_ring := set_slots r [].

(** The [for] loop of [pval_file_read_iter]: one slot per vector entry, each
    copied to user space up to the entry's length; the result lists, in order,
    the bytes handed to [copy_to_user], whose return value the code ignores. *)
Fixpoint read_loop (r : pval_ring) (iov : list Z) (copynum : nat) {struct copynum}
  : option (pval_ring * list (list Z)) :=
  match copynum with
  | O => Some (r, [])
  | S k =>
      match iov with
      | [] => None
      | len :: iov' =>
          s ← r_slots r !! Z.to_nat (r_tail r);
          let copylen := if sizeof_pval_slot >? len then len else sizeof_pval_slot in
          '(r', out) ← read_loop (ring_read_next r) iov' k;
          Some (r', take (Z.to_nat copylen) (pval_slot_bytes s) :: out)
      end
  end.

(** [iovec_ok] says that [iter->type] is [ITER_IOVEC]; [iov] lists the lengths
    of the [nr_segs] entries. The result is the return value, the ring and the
    user-space writes. *)
Definition pval_file_read_iter (r : pval_ring) (iovec_ok : bool) (iov : list Z)
  : option (Z * pval_ring * list (list Z)) :=
  if negb iovec_ok then Some (- EOPNOTSUPP, r, [])
  else if ring_emtpy r then Some (0, r, [])
  else
    let count := Z.of_nat (length iov) in
    let avail := ring_read_avail r in
    let copynum := u32 (if avail >? count then count else avail) in
    '(r', out) ← read_loop r iov (Z.to_nat copynum);
    Some (Z.of_nat (length out), r', out).

(** ** The abstract queue *)

(** The [n] slots from index [t] on, in reading order. *)
Fixpoint ring_window (sl : list pval_slot) (t : Z) (n : nat) : list pval_slot :=
  match n with
  | O => []
  | S n' =>
      match sl !! Z.to_nat t with
      | Some s => s :: ring_window sl ((t + 1) mod PVAL_SLOT_NUM) n'
      | None => []
      end
  end.

(** How many slots lie between the read and the write point. *)
Definition ring_used (r : pval_ring) : Z := (r_head r - r_tail r) mod PVAL_SLOT_NUM.

Definition ring_contents (r : pval_ring) : list pval_slot :=
  ring_window (r_slots r) (r_tail r) (Z.to_nat (ring_used r)).

(** The representation invariant. *)
Definition pkt_shape (s : pval_slot) : bool :=
  (Z.of_nat (length (s_pkt s)) =? PVAL_PKT_LEN) && bytes_ok (s_pkt s).

Definition ring_ok (r : pval_ring) : bool :=
  (0 <=? r_head r) && (r_head r <? PVAL_SLOT_NUM) &&
  (0 <=? r_tail r) && (r_tail r <? PVAL_SLOT_NUM) &&
  (r_mask r =? PVAL_SLOT_NUM - 1) &&
  (Z.of_nat (length (r_slots r)) =? PVAL_SLOT_NUM) &&
  forallb pkt_shape (r_slots r) && forallb slot_ok (ring_contents r).

(** The queue's capacity: one slot of the array is never used. *)
Definition ring_capacity : Z := PVAL_SLOT_NUM - 1.

(** ** Index arithmetic *)

Lemma ring_ok_spec r :
  ring_ok r = true <->
  0 <= r_head r < 1024 /\ 0 <= r_tail r < 1024 /\ r_mask r = 1023 /\
  length (r_slots r) = 1024%nat /\
  Forall (fun s => pkt_shape s = true) (r_slots r) /\
  Forall (fun s => slot_ok s = true) (ring_contents r).
Proof.
  unfold ring_ok, PVAL_SLOT_NUM. rewrite !andb_true_iff, !forallb_forall, !List.Forall_forall.
  rewrite !Z.leb_le, !Z.ltb_lt, !Z.eqb_eq. naive_solver lia.
Qed.

(** The masked increment is addition modulo the number of slots. *)
Lemma next_index i : 0 <= i < 1024 -> Z.land (u32 (i + 1)) 1023 = (i + 1) mod 1024.
Proof. intros. rewrite u32_small by lia. apply (land_mask _ 10). lia. Qed.

Lemma ring_used_range r : 0 <= ring_used r < 1024.
Proof. apply Z.mod_pos_bound. done. Qed.

(** For [0 <= a, b < 1024], [(a - b) mod 1024] is the piecewise difference. *)
Lemma mod_diff a b :
  0 <= a < 1024 -> 0 <= b < 1024 ->
  (a - b) mod 1024 = if a <? b then a - b + 1024 else a - b.
Proof.
  intros. destruct (Z.ltb_spec a b).
  - rewrite <- (Z_mod_plus_full (a - b) 1 1024), Z.mod_small; lia.
  - rewrite Z.mod_small; lia.
Qed.

Lemma mod_succ a :
  0 <= a < 1024 -> (a + 1) mod 1024 = if a =? 1023 then 0 else a + 1.
Proof.
  intros. destruct (Z.eqb_spec a 1023); [by subst|]. rewrite Z.mod_small; lia.
Qed.

Ltac case_compare :=
  repeat match goal with
  | |- context [Z.ltb ?a ?b] => destruct (Z.ltb_spec a b)
  | |- context [Z.eqb ?a ?b] => destruct (Z.eqb_spec a b)
  | H : context [Z.ltb ?a ?b] |- _ => destruct (Z.ltb_spec a b)
  | H : context [Z.eqb ?a ?b] |- _ => destruct (Z.eqb_spec a b)
  end.

(** Closes goals on indices modulo the number of slots. *)
Ltac ring_arith :=
  unfold PVAL_SLOT_NUM in *; rewrite ?mod_succ in * by lia; case_compare;
  rewrite ?mod_diff in * by lia; case_compare; lia.

Lemma mod_step t j :
  0 <= t < 1024 -> ((t + 1) mod 1024 + j) mod 1024 = (t + (1 + j)) mod 1024.
Proof. intros. rewrite Zplus_mod_idemp_l. f_equal. lia. Qed.

(** ** Windows *)

Section Windows.
Variable sl : list pval_slot.
Hypothesis Hsl : length sl = 1024%nat.

Lemma slot_at i : 0 <= i < 1024 -> exists s, sl !! Z.to_nat i = Some s.
Proof. intros. apply lookup_lt_is_Some_2. lia. Qed.

Lemma length_window n t :
  0 <= t < 1024 -> length (ring_window sl t n) = n.
Proof.
  revert t. induction n as [|n IH]; intros t Ht; [done|]. cbn [ring_window].
  destruct (slot_at t Ht) as [s ->]. cbn [length]. f_equal. apply IH.
  apply Z.mod_pos_bound. done.
Qed.

Lemma window_snoc n t s :
  0 <= t < 1024 -> sl !! Z.to_nat ((t + Z.of_nat n) mod 1024) = Some s ->
  ring_window sl t (S n) = ring_window sl t n ++ [s].
Proof.
  revert t. induction n as [|n IH]; intros t Ht Hs.
  - cbn [ring_window]. rewrite Z.add_0_r, Z.mod_small in Hs by lia. by rewrite Hs.
  - change (ring_window sl t (S (S n))) with
      (match sl !! Z.to_nat t with
       | Some s => s :: ring_window sl ((t + 1) mod PVAL_SLOT_NUM) (S n)
       | None => [] end).
    cbn [ring_window]. destruct (slot_at t Ht) as [s0 ->]. cbn [app]. f_equal.
    apply IH; [by apply Z.mod_pos_bound|]. unfold PVAL_SLOT_NUM. rewrite mod_step by done.
    rewrite <- Hs. do 3 f_equal. lia.
Qed.

(** Overwriting a slot outside the window leaves the window as it is. *)
Lemma window_insert n t i s :
  0 <= t < 1024 -> 0 <= i < 1024 ->
  (forall j, 0 <= j < Z.of_nat n -> (t + j) mod 1024 <> i) ->
  ring_window (<[Z.to_nat i := s]> sl) t n = ring_window sl t n.
Proof.
  intros Ht Hi. revert t Ht. induction n as [|n IH]; intros t Ht Hne; [done|].
  cbn [ring_window]. rewrite list_lookup_insert_ne.
  2:{ specialize (Hne 0 ltac:(lia)). rewrite Z.add_0_r, Z.mod_small in Hne by lia. lia. }
  destruct (slot_at t Ht) as [s0 ->]. f_equal. apply IH; [by apply Z.mod_pos_bound|].
  intros j Hj. unfold PVAL_SLOT_NUM. rewrite mod_step by done. apply Hne. lia.
Qed.

End Windows.

(** ** Each operation on the abstract queue *)

Section Ops.
Variable r : pval_ring.
Hypothesis Hr : ring_ok r = true.

Lemma length_contents : Z.of_nat (length (ring_contents r)) = ring_used r.
Proof.
  pose proof (ring_used_range r). apply ring_ok_spec in Hr as (?&?&?&?&_).
  unfold ring_contents. rewrite length_window by done. lia.
Qed.

Lemma read_avail_spec : ring_read_avail r = Z.of_nat (length (ring_contents r)).
Proof.
  rewrite length_contents. apply ring_ok_spec in Hr as (Hh&Ht&Hm&_).
  unfold ring_read_avail, ring_used. rewrite Hm.
  repeat case_test; rewrite ?u32_small by lia; ring_arith.
Qed.

Lemma empty_spec : ring_emtpy r = true <-> ring_contents r = [].
Proof.
  rewrite <- length_zero_iff_nil. pose proof length_contents as Hl.
  unfold ring_emtpy. rewrite Z.eqb_eq. apply ring_ok_spec in Hr as (Hh&Ht&Hm&_).
  unfold ring_used, PVAL_SLOT_NUM in Hl. rewrite mod_diff in Hl by lia.
  destruct (Z.ltb_spec (r_head r) (r_tail r)); lia.
Qed.

Lemma full_spec :
  ring_full r = true <-> Z.of_nat (length (ring_contents r)) = ring_capacity.
Proof.
  rewrite length_contents. unfold ring_full, ring_capacity. rewrite Z.eqb_eq.
  apply ring_ok_spec in Hr as (Hh&Ht&Hm&_). rewrite Hm, next_index by done.
  unfold ring_used. ring_arith.
Qed.

Lemma contents_le_capacity : Z.of_nat (length (ring_contents r)) <= ring_capacity.
Proof.
  rewrite length_contents. pose proof (ring_used_range r).
  unfold ring_capacity, PVAL_SLOT_NUM. lia.
Qed.

(** Consuming one slot. *)
Lemma read_next_contents s q :
  ring_contents r = s :: q ->
  r_slots r !! Z.to_nat (r_tail r) = Some s /\
  ring_contents (ring_read_next r) = q /\ ring_ok (ring_read_next r) = true.
Proof.
  intros Hc. pose proof length_contents as Hl. rewrite Hc in Hl. cbn in Hl.
  apply ring_ok_spec in Hr as (Hh&Ht&Hm&Hn&Hsh&Hok).
  assert (Hu : ring_used (ring_read_next r) = ring_used r - 1).
  { unfold ring_used, ring_read_next in *. cbn [r_head r_tail set_tail].
    rewrite Hm, next_index by done. revert Hl. ring_arith. }
  assert (Hq : r_slots r !! Z.to_nat (r_tail r) = Some s /\ ring_contents (ring_read_next r) = q).
  { unfold ring_contents in *. rewrite Hu.
    replace (Z.to_nat (ring_used r)) with (S (Z.to_nat (ring_used r - 1))) in Hc by lia.
    cbn [ring_window] in Hc. destruct (slot_at _ Hn _ Ht) as [s0 Hs0]. rewrite Hs0 in Hc.
    simplify_eq. split; [done|]. cbn [ring_read_next set_tail r_slots r_tail].
    by rewrite Hm, next_index. }
  destruct Hq as [Hs Hq]. split_and!; [done..|]. apply ring_ok_spec.
  cbn [ring_read_next set_tail r_slots r_tail r_head r_mask]. rewrite Hm, next_index by done.
  pose proof (Z.mod_pos_bound (r_tail r + 1) 1024 eq_refl).
  rewrite Hc in Hok. apply Forall_cons in Hok as [_ Hok]. rewrite Hq. split_and!; done || lia.
Qed.

Lemma ring_zero_ok : ring_ok (ring_zero r) = true /\ ring_contents (ring_zero r) = [].
Proof.
  apply ring_ok_spec in Hr as (Hh&Ht&Hm&Hn&Hsh&Hok).
  assert (ring_contents (ring_zero r) = []) as Hc by done.
  split; [|done]. apply ring_ok_spec. rewrite Hc. cbn. split_and!; done || lia.
Qed.

(** Writing the slot at the write point and advancing it. *)
Lemma write_next_contents s :
  ring_full r = false -> pkt_shape s = true -> slot_ok s = true ->
  let r' := ring_write_next (set_slots r (<[Z.to_nat (r_head r) := s]> (r_slots r))) in
  ring_contents r' = ring_contents r ++ [s] /\ ring_ok r' = true.
Proof.
  intros Hf Hps Hso r'. pose proof full_spec as Hfull. pose proof contents_le_capacity as Hcap.
  pose proof length_contents as Hl. unfold ring_capacity, PVAL_SLOT_NUM in *.
  assert (Hlt : ring_used r < 1023) by (destruct (decide (ring_used r = 1023));
    [rewrite (proj2 Hfull) in Hf by lia; done|lia]).
  pose proof (ring_used_range r) as Hur.
  apply ring_ok_spec in Hr as (Hh&Ht&Hm&Hn&Hsh&Hok).
  assert (Hhd : (r_tail r + ring_used r) mod 1024 = r_head r).
  { unfold ring_used, PVAL_SLOT_NUM. rewrite Zplus_mod_idemp_r, Z.mod_small; lia. }
  assert (Hu : ring_used r' = ring_used r + 1).
  { unfold ring_used, r' in *. cbn [ring_write_next set_head set_slots r_head r_tail r_mask].
    rewrite Hm, next_index by done. revert Hlt. ring_arith. }
  assert (Hc : ring_contents r' = ring_contents r ++ [s]).
  { unfold ring_contents at 1. rewrite Hu.
    replace (Z.to_nat (ring_used r + 1)) with (S (Z.to_nat (ring_used r))) by lia.
    cbn [r' ring_write_next set_head set_slots r_slots r_tail].
    rewrite (window_snoc _ ltac:(by rewrite length_insert) _ _ s); [|done|].
    - f_equal. apply window_insert; [done..|]. intros j Hj He. rewrite <- Hhd in He.
      assert (Hz : (ring_used r - j) mod 1024 = 0).
      { replace (ring_used r - j) with (r_tail r + ring_used r - (r_tail r + j)) by lia.
        rewrite Zminus_mod, He, Z.sub_diag. done. }
      rewrite Z.mod_small in Hz by lia. lia.
    - rewrite Z2Nat.id, Hhd by lia. apply list_lookup_insert_eq. lia. }
  split; [done|]. apply ring_ok_spec. rewrite Hc.
  cbn [r' ring_write_next set_head set_slots r_slots r_tail r_head r_mask].
  rewrite Hm, next_index, length_insert by done.
  pose proof (Z.mod_pos_bound (r_head r + 1) 1024 eq_refl).
  split_and!; try done; try lia.
  - by apply Forall_insert.
  - apply Forall_app. auto.
Qed.

End Ops.

(** ** Refinement of the queue of packet records *)

(** What a packet's trace is worth to a reader: the two lengths, the time stamp
    and the [len] copied bytes. The bytes of [pkt] past [len] are left over from
    the slot's previous use and are not part of the record. *)
Record pkt_rec := mk_pkt_rec {
  p_len : Z; p_pktlen : Z; p_tstamp : Z; p_data : list Z
}.

Definition pkt_of_slot (s : pval_slot) : pkt_rec :=
  mk_pkt_rec (s_len s) (s_pktlen s) (s_tstamp s) (take (Z.to_nat (s_len s)) (s_pkt s)).

Section Refinement.
Context {skb : Type} `{SkbView skb}.

Definition skb_pktlen (b : skb) : Z := u32 (skb_mac_len b + skb_len b).
Definition skb_copylen (b : skb) : Z := Z.min PVAL_PKT_LEN (skb_pktlen b).

Definition pkt_of_skb (b : skb) : pkt_rec :=
  mk_pkt_rec (skb_copylen b) (skb_pktlen b) (skb_hwtstamp b)
    (take (Z.to_nat (skb_copylen b)) (skb_mac_header b)).

(** A buffer whose first [PVAL_PKT_LEN] bytes, or all of it if shorter, are in
    the linear part. *)
Definition skb_ok (b : skb) : bool :=
  is_u64 (skb_hwtstamp b) && bytes_ok (skb_mac_header b) &&
  (skb_copylen b <=? Z.of_nat (length (skb_mac_header b))).

(** The three things that happen to a ring while its device exists. *)
Inductive ring_op :=
  | Write (b : skb)            (* [write_to_ring] from the TX or RX path *)
  | Read (iov : list Z)        (* [readv] with these entry lengths *)
  | Flush.                     (* [ring_zero] at open and release *)

Definition ring_step (r : pval_ring) (o : ring_op) : option (pval_ring * list (list Z)) :=
  match o with
  | Write b => '(_, r') ← write_to_ring r b; Some (r', [])
  | Read iov => '(_, r', out) ← pval_file_read_iter r true iov; Some (r', out)
  | Flush => Some (ring_zero r, [])
  end.

Fixpoint ring_run (r : pval_ring) (os : list ring_op) : option (pval_ring * list (list Z)) :=
  match os with
  | [] => Some (r, [])
  | o :: os' =>
      '(r', out) ← ring_step r o; '(r'', out') ← ring_run r' os';
      Some (r'', out ++ out')
  end.

Definition op_ok (o : ring_op) : bool :=
  match o with
  | Write b => skb_ok b
  | Read iov => forallb (fun n => sizeof_pval_slot <=? n) iov &&
                (Z.of_nat (length iov) <? 2 ^ 32)
  | Flush => true
  end.

(** The specification: a queue that drops what exceeds its capacity. *)
Definition queue_step (q : list pkt_rec) (o : ring_op) : list pkt_rec * list pkt_rec :=
  match o with
  | Write b => (if Z.of_nat (length q) <? ring_capacity then q ++ [pkt_of_skb b] else q, [])
  | Read iov => (drop (length iov) q, take (length iov) q)
  | Flush => ([], [])
  end.

Fixpoint queue_run (q : list pkt_rec) (os : list ring_op) : list pkt_rec * list pkt_rec :=
  match os with
  | [] => (q, [])
  | o :: os' =>
      let '(q', out) := queue_step q o in
      let '(q'', out') := queue_run q' os' in (q'', out ++ out')
  end.

(** The records user space decodes from the delivered buffers. *)
Definition delivered (out : list (list Z)) : list pkt_rec :=
  omap (fun l => pkt_of_slot <$> pval_slot_of_bytes l) out.

Lemma fill_slot_ok s b :
  pkt_shape s = true -> skb_ok b = true ->
  let s' := fill_slot s b (skb_copylen b) (skb_pktlen b) in
  pkt_shape s' = true /\ slot_ok s' = true /\ pkt_of_slot s' = pkt_of_skb b.
Proof.
  intros Hs Hb s'. unfold pkt_shape, skb_ok in *. bool_to_prop.
  assert (Hp : 0 <= skb_pktlen b < 2 ^ 32) by (unfold skb_pktlen; apply u32_range).
  assert (Hc : 0 <= skb_copylen b <= 256) by (unfold skb_copylen, PVAL_PKT_LEN; lia).
  assert (Hn : length (take (Z.to_nat (skb_copylen b)) (skb_mac_header b)) =
               Z.to_nat (skb_copylen b)) by (rewrite length_take; lia).
  assert (Hok : bytes_ok (s_pkt s') = true).
  { cbn. apply bytes_ok_app. auto with pval. }
  assert (Hlen : Z.of_nat (length (s_pkt s')) = PVAL_PKT_LEN).
  { cbn. rewrite length_app, Hn, length_drop. unfold PVAL_PKT_LEN in *. lia. }
  split_and!.
  - rewrite Hok, Hlen. done.
  - unfold slot_ok. rewrite Hok, Hlen. cbn [s' fill_slot s_len s_pktlen s_tstamp].
    apply (is_u_spec 32) in Hp. unfold PVAL_PKT_LEN.
    rewrite Hp, H0, (proj2 (Z.leb_le 0 _)), (proj2 (Z.leb_le _ 256)) by lia. done.
  - unfold pkt_of_slot, pkt_of_skb. cbn [s' fill_slot s_len s_pktlen s_tstamp s_pkt]. f_equal.
    rewrite take_app_le by lia. by rewrite take_take, Nat.min_id.
Qed.

Lemma copylen_test b :
  (if skb_pktlen b >? PVAL_PKT_LEN then PVAL_PKT_LEN else skb_pktlen b) = skb_copylen b.
Proof. unfold skb_copylen. case_test; lia. Qed.

Lemma write_full r b : ring_full r = true -> write_to_ring r b = Some (0, r).
Proof. intros Hf. unfold write_to_ring. by rewrite Hf. Qed.

(** A write to a ring that is not full appends the packet's record. *)
Lemma write_not_full r b :
  ring_ok r = true -> skb_ok b = true -> ring_full r = false ->
  exists r' s, write_to_ring r b = Some (skb_copylen b, r') /\ ring_ok r' = true /\
    ring_contents r' = ring_contents r ++ [s] /\ pkt_of_slot s = pkt_of_skb b.
Proof.
  intros Hr Hb Hf. pose proof Hr as (Hh&Ht&Hm&Hn&Hsh&_)%ring_ok_spec.
  destruct (slot_at _ Hn _ Hh) as [s Hs].
  assert (Hps : pkt_shape s = true) by (by eapply Forall_lookup_1 in Hsh).
  destruct (fill_slot_ok _ _ Hps Hb) as (Hps' & Hok' & Hpkt).
  destruct (write_next_contents r Hr _ Hf Hps' Hok') as [Hc Hr'].
  eexists _, _. split_and!; [|exact Hr'|exact Hc|exact Hpkt].
  unfold write_to_ring. rewrite Hf, Hs. cbn [mbind option_bind].
  fold (skb_pktlen b). rewrite copylen_test. unfold skb_ok in Hb. bool_to_prop.
  by rewrite (proj2 (Z.leb_le _ _)) by done.
Qed.

End Refinement.

(** The copy loop delivers the first [n] slots of the queue, in order. *)
Lemma read_loop_spec n r iov :
  ring_ok r = true -> (n <= length (ring_contents r))%nat -> (n <= length iov)%nat ->
  exists r', read_loop r iov n =
      Some (r', zip_with (fun s len => take (Z.to_nat (Z.min len sizeof_pval_slot)) (pval_slot_bytes s))
                  (take n (ring_contents r)) (take n iov)) /\
    ring_ok r' = true /\ ring_contents r' = drop n (ring_contents r).
Proof.
  revert r iov. induction n as [|n IH]; intros r iov Hr Hc Hi; [exists r; split_and!; done|].
  destruct iov as [|len iov]; [cbn in Hi; lia|].
  destruct (ring_contents r) as [|s q] eqn:Eq; [cbn in Hc; lia|].
  destruct (read_next_contents r Hr _ _ Eq) as (Hs & Hq & Hr').
  destruct (IH (ring_read_next r) iov Hr') as (r' & Hl & Hok & Hd).
  1,2: rewrite ?Hq; cbn in *; lia.
  rewrite Hq in Hl, Hd. exists r'. split_and!; [|done..].
  cbn [read_loop]. rewrite Hs. cbn [mbind option_bind]. rewrite Hl. cbn [mbind option_bind].
  cbn [take zip_with]. do 4 f_equal. case_test; lia.
Qed.

Lemma read_iter_spec r iov :
  ring_ok r = true -> Z.of_nat (length iov) < 2 ^ 32 ->
  let n := Nat.min (length (ring_contents r)) (length iov) in
  exists r', pval_file_read_iter r true iov =
      Some (Z.of_nat n, r',
            zip_with (fun s len => take (Z.to_nat (Z.min len sizeof_pval_slot)) (pval_slot_bytes s))
              (take n (ring_contents r)) (take n iov)) /\
    ring_ok r' = true /\ ring_contents r' = drop n (ring_contents r).
Proof.
  intros Hr Hi n. unfold pval_file_read_iter. cbn [negb].
  destruct (ring_emtpy r) eqn:He.
  - apply empty_spec in He; [|done]. exists r. subst n. rewrite He. done.
  - rewrite (read_avail_spec r Hr).
    assert (Hn : Z.to_nat (u32 (if Z.of_nat (length (ring_contents r)) >? Z.of_nat (length iov)
        then Z.of_nat (length iov) else Z.of_nat (length (ring_contents r)))) = n).
    { pose proof (contents_le_capacity r Hr). unfold ring_capacity, PVAL_SLOT_NUM in *.
      case_test; rewrite u32_small; lia. }
    rewrite Hn. destruct (read_loop_spec n r iov Hr) as (r' & -> & Hok & Hd); [lia..|].
    cbn [mbind option_bind]. exists r'. split_and!; [|done..]. do 3 f_equal.
    rewrite length_zip_with, !length_take. lia.
Qed.

Section RefinementTheorems.
Context {skb : Type} `{SkbView skb}.

Lemma delivered_spec ss iov :
  Forall (fun s => slot_ok s = true) ss -> Forall (fun n => sizeof_pval_slot <= n) iov ->
  length ss = length iov ->
  delivered (zip_with (fun s len => take (Z.to_nat (Z.min len sizeof_pval_slot)) (pval_slot_bytes s))
               ss iov) = pkt_of_slot <$> ss.
Proof.
  intros Hs. revert iov. induction Hs as [|s ss Hok Hs IH]; intros [|n iov] Hi Hl; try done.
  apply Forall_cons in Hi as [Hn Hi]. cbn [zip_with]. unfold delivered. cbn [omap list_omap fmap list_fmap].
  rewrite Z.min_r by done. rewrite <- (length_pval_slot_bytes s) by done.
  rewrite take_ge, pval_slot_load by done. cbn [fmap option_fmap option_map].
  f_equal. apply IH; [done|]. by injection Hl.
Qed.

Lemma ring_step_simulates r (o : ring_op) :
  ring_ok r = true -> op_ok o = true ->
  exists r' out, ring_step r o = Some (r', out) /\ ring_ok r' = true /\
    queue_step (pkt_of_slot <$> ring_contents r) o =
      (pkt_of_slot <$> ring_contents r', delivered out).
Proof.
  intros Hr Ho. destruct o as [b|iov|]; cbn [ring_step queue_step op_ok] in *.
  - rewrite length_fmap. pose proof (full_spec r Hr) as Hfull.
    pose proof (contents_le_capacity r Hr) as Hcap.
    destruct (ring_full r) eqn:Hf.
    + rewrite write_full by done. cbn. exists r, []. split_and!; [done..|].
      rewrite (proj2 (Z.ltb_ge _ _)); [done|]. by rewrite (proj1 Hfull).
    + destruct (write_not_full r b Hr Ho Hf) as (r' & s & -> & Hr' & Hc & Hp).
      exists r', []. split_and!; [done..|]. rewrite (proj2 (Z.ltb_lt _ _)).
      * by rewrite Hc, fmap_app, <- Hp.
      * destruct (decide (Z.of_nat (length (ring_contents r)) = ring_capacity)); [|lia].
        by apply Hfull in e.
  - bool_to_prop. destruct (read_iter_spec r iov Hr) as (r' & -> & Hr' & Hd); [done|].
    eexists r', _. cbn [mbind option_bind]. split_and!; [done..|].
    rewrite Hd, fmap_drop. pose proof Hr as (_&_&_&_&_&Hall)%ring_ok_spec.
    rewrite delivered_spec.
    + rewrite fmap_take. f_equal.
      * destruct (Nat.min_spec (length (ring_contents r)) (length iov)) as [[? ->]|[? ->]]; [|done].
        rewrite !drop_ge by (rewrite length_fmap; lia). done.
      * destruct (Nat.min_spec (length (ring_contents r)) (length iov)) as [[? ->]|[? ->]]; [|done].
        rewrite !take_ge by (rewrite length_fmap; lia). done.
    + by apply Forall_take.
    + apply Forall_take. apply List.Forall_forall. intros n Hn.
      rewrite forallb_forall in *. apply Z.leb_le. auto.
    + rewrite !length_take. lia.
  - exists (ring_zero r), []. destruct (ring_zero_ok r Hr) as [? ->]. done.
Qed.

Lemma ring_run_simulates os r :
  ring_ok r = true -> forallb op_ok os = true ->
  exists r' out, ring_run r os = Some (r', out) /\ ring_ok r' = true /\
    queue_run (pkt_of_slot <$> ring_contents r) os =
      (pkt_of_slot <$> ring_contents r', delivered out).
Proof.
  revert r. induction os as [|o os IH]; intros r Hr Hos; [by exists r, []|].
  cbn in Hos. apply andb_prop in Hos as [Ho Hos].
  destruct (ring_step_simulates r o Hr Ho) as (r1 & out1 & H1 & Hr1 & Hq1).
  destruct (IH r1 Hr1 Hos) as (r2 & out2 & H2 & Hr2 & Hq2).
  exists r2, (out1 ++ out2). cbn [ring_run queue_run].
  rewrite H1. cbn [mbind option_bind]. rewrite H2, Hq1, Hq2. split_and!; [done..|].
  unfold delivered. by rewrite omap_app.
Qed.

End RefinementTheorems.

(** ** Reachable rings *)

Section Reachable.
Context {skb : Type} `{SkbView skb}.

(** The rings that can exist between a successful [pval_init_ring] and
    [pval_destroy_ring]: the allocation has the shape of the array, its contents
    are arbitrary. *)
Inductive ring_reachable : pval_ring -> Prop :=
  | reach_init sl cpu r :
      Z.of_nat (length sl) = PVAL_SLOT_NUM -> forallb pkt_shape sl = true ->
      pval_init_ring (Some sl) cpu = (0, r) -> ring_reachable r
  | reach_step r o r' out :
      ring_reachable r -> op_ok o = true -> ring_step r o = Some (r', out) ->
      ring_reachable r'.

Lemma init_ring_ok sl cpu r :
  Z.of_nat (length sl) = PVAL_SLOT_NUM -> forallb pkt_shape sl = true ->
  pval_init_ring (Some sl) cpu = (0, r) -> ring_ok r = true /\ ring_contents r = [].
Proof.
  intros Hn Hs [= <-]. split; [|done]. unfold PVAL_SLOT_NUM in *.
  apply ring_ok_spec. cbn [r_head r_tail r_mask r_slots]. rewrite forallb_forall in Hs.
  split_and!; try done; try lia. by apply List.Forall_forall.
Qed.

(** The records that enter the queue: those written while it is not full. *)
Fixpoint accepted (q : list pkt_rec) (os : list ring_op) : list pkt_rec :=
  match os with
  | [] => []
  | o :: os' =>
      let q' := (queue_step q o).1 in
      match o with
      | Write b => if Z.of_nat (length q) <? ring_capacity
                   then pkt_of_skb b :: accepted q' os' else accepted q' os'
      | _ => accepted q' os'
      end
  end.

Definition no_flush (os : list (@ring_op skb)) : bool :=
  forallb (fun o => match o with Flush => false | _ => true end) os.

Lemma queue_fifo os q :
  no_flush os = true ->
  (queue_run q os).2 ++ (queue_run q os).1 = q ++ accepted q os.
Proof.
  revert q. induction os as [|o os IH]; intros q Hf.
  - cbn. by rewrite app_nil_r.
  - cbn in Hf. apply andb_prop in Hf as [Ho Hf]. cbn [queue_run accepted].
    destruct (queue_step q o) as [q1 out1] eqn:E1. specialize (IH q1 Hf).
    destruct (queue_run q1 os) as [q2 out2]. cbn [fst snd] in *. rewrite <- app_assoc, IH.
    destruct o as [b|iov|]; cbn in E1; [|simplify_eq; by rewrite app_assoc, take_drop|done].
    destruct (Z.of_nat (length q) <? ring_capacity); simplify_eq; [by rewrite <- app_assoc|done].
Qed.

End Reachable.

(** A buffer given by its fields, to evaluate the definitions on. *)
Record linear_skb := mk_linear_skb {
  l_mac_len : Z; l_len : Z; l_hwtstamp : Z; l_data : list Z
}.

#[export] Instance linear_skb_view : SkbView linear_skb := {
  skb_mac_len := l_mac_len; skb_len := l_len;
  skb_hwtstamp := l_hwtstamp; skb_mac_header := l_data
}.

Definition sample_ring : pval_ring :=
  (pval_init_ring (Some (replicate 1024 (mk_pval_slot 0 0 0 (replicate 256 170)))) 3).2.

Definition sample_skb (n ts : Z) : linear_skb :=
  mk_linear_skb 14 (n - 14) ts (replicate (Z.to_nat n) (ts mod 256)).

Definition sample_ring2 : pval_ring :=
  match ring_run sample_ring [Write (sample_skb 60 7); Write (sample_skb 300 8)] with
  | Some (r, _) => r
  | None => sample_ring
  end.

(** ** Theorems *)

(** C1. The ring implements a bounded FIFO queue of packet records: from a
    well-formed ring, any interleaving of packet writes, vectored reads and
    flushes runs without an out-of-range access, keeps the ring well-formed, and
    delivers exactly the records, in the order, that the queue of capacity
    [PVAL_SLOT_NUM - 1] delivers. *)
Theorem ring_refines_queue {skb : Type} `{SkbView skb} (os : list ring_op) r :
  ring_ok r = true -> forallb op_ok os = true ->
  exists r' out, ring_run r os = Some (r', out) /\ ring_ok r' = true /\
    queue_run (pkt_of_slot <$> ring_contents r) os =
      (pkt_of_slot <$> ring_contents r', delivered out).
Proof. apply ring_run_simulates. Qed.

Definition sample_ops : list (@ring_op linear_skb) :=
  [Write (sample_skb 60 7); Write (sample_skb 300 8); Read [272; 272; 272]; Write (sample_skb 64 9)].

Lemma ring_refines_queue_witness :
  exists r' out, ring_run sample_ring sample_ops = Some (r', out) /\ ring_ok r' = true /\
    queue_run [] sample_ops = (pkt_of_slot <$> ring_contents r', delivered out).
Proof.
  apply (ring_refines_queue sample_ops sample_ring); vm_compute; reflexivity.
Defined.

(** No accepted packet is lost, duplicated or reordered: over any sequence
    of writes and reads, what was delivered followed by what is still queued is
    what was queued before followed by the accepted packets in arrival order. *)
Theorem ring_fifo {skb : Type} `{SkbView skb} (os : list ring_op) r r' out :
  ring_ok r = true -> forallb op_ok os = true -> no_flush os = true ->
  ring_run r os = Some (r', out) ->
  delivered out ++ (pkt_of_slot <$> ring_contents r') =
  (pkt_of_slot <$> ring_contents r) ++ accepted (pkt_of_slot <$> ring_contents r) os.
Proof.
  intros Hr Hos Hf Hrun. destruct (ring_run_simulates os r Hr Hos) as (r1 & out1 & H1 & _ & Hq).
  simplify_eq. rewrite <- (queue_fifo os _ Hf), Hq. done.
Qed.

Lemma ring_fifo_witness :
  exists r' out, ring_run sample_ring sample_ops = Some (r', out) /\
    delivered out ++ (pkt_of_slot <$> ring_contents r') = [] ++ accepted [] sample_ops.
Proof.
  destruct (ring_run sample_ring sample_ops) as [[r' out]|] eqn:E; [|vm_compute in E; discriminate].
  exists r', out. split; [reflexivity|].
  apply (ring_fifo sample_ops sample_ring r' out); [vm_compute; reflexivity..|exact E].
Defined.

(** C11. Every ring reachable from [pval_init_ring] keeps its read and write
    points inside the slot array, holds at most [PVAL_SLOT_NUM - 1] slots, and
    no operation on it reads or writes outside the array or a packet. *)
Theorem ring_reachable_safe {skb : Type} `{SkbView skb} r :
  ring_reachable r ->
  0 <= r_head r < PVAL_SLOT_NUM /\ 0 <= r_tail r < PVAL_SLOT_NUM /\
  ring_read_avail r <= PVAL_SLOT_NUM - 1 /\
  forall o, op_ok o = true -> ring_step r o <> None.
Proof.
  intros Hreach.
  assert (Hr : ring_ok r = true).
  { induction Hreach as [sl cpu r Hn Hs Hi|r o r' out _ IH Ho Hst].
    - by apply (init_ring_ok sl cpu).
    - destruct (ring_step_simulates r o IH Ho) as (r1 & out1 & H1 & Hr1 & _). by simplify_eq. }
  pose proof Hr as (Hh & Ht & _)%ring_ok_spec. do 2 (split; [done|]). split.
  - rewrite read_avail_spec by done. by apply contents_le_capacity.
  - intros o Ho. destruct (ring_step_simulates r o Hr Ho) as (r1 & out1 & -> & _). done.
Qed.

Lemma ring_reachable_safe_witness :
  ring_reachable (skb := linear_skb) sample_ring /\ ring_read_avail sample_ring <= PVAL_SLOT_NUM - 1.
Proof.
  assert (H : ring_reachable (skb := linear_skb) sample_ring).
  { apply (reach_init (replicate 1024 (mk_pval_slot 0 0 0 (replicate 256 170))) 3);
      vm_compute; reflexivity. }
  split; [exact H|]. apply (ring_reachable_safe (skb := linear_skb) sample_ring H).
Defined.

(** [pval_file_read_iter] hands out as many slots as both the ring and the
    vector allow, oldest first, each cut to the length of its vector entry, and
    removes exactly those from the ring. *)
Theorem read_iter_takes_prefix r iov :
  ring_ok r = true -> Z.of_nat (length iov) < 2 ^ 32 ->
  let n := Nat.min (length (ring_contents r)) (length iov) in
  exists r', pval_file_read_iter r true iov =
      Some (Z.of_nat n, r',
            zip_with (fun s len => take (Z.to_nat (Z.min len sizeof_pval_slot)) (pval_slot_bytes s))
              (take n (ring_contents r)) (take n iov)) /\
    ring_ok r' = true /\ ring_contents r' = drop n (ring_contents r).
Proof. apply read_iter_spec. Qed.

Lemma read_iter_takes_prefix_witness :
  exists r' out, pval_file_read_iter sample_ring2 true [16; 272; 272] = Some (2, r', out) /\
    ring_ok r' = true.
Proof.
  destruct (read_iter_takes_prefix sample_ring2 [16; 272; 272]) as (r' & H & Hr & _);
    [vm_compute; reflexivity|reflexivity|].
  replace (length (ring_contents sample_ring2)) with 2%nat in H by (vm_compute; reflexivity).
  exists r'. eexists. split; [exact H|exact Hr].
Defined.

(** [ring_write_avail] is not the number of slots that can still be
    written: it is zero exactly on an empty ring, where its comment says the ring
    is full, and elsewhere it counts the unused slot too. *)
Theorem ring_write_avail_spec r :
  ring_ok r = true ->
  ring_write_avail r =
    if ring_emtpy r then 0 else ring_capacity + 1 - Z.of_nat (length (ring_contents r)).
Proof.
  intros Hr. rewrite length_contents by done. apply ring_ok_spec in Hr as (Hh&Ht&Hm&_).
  unfold ring_write_avail, ring_emtpy, ring_used, ring_capacity. rewrite Hm.
  repeat case_test; rewrite ?u32_small by lia; try ring_arith.
Qed.

Lemma ring_write_avail_spec_witness : ring_write_avail sample_ring = 0.
Proof. apply (ring_write_avail_spec sample_ring). vm_compute. reflexivity. Defined.
