(* ===== verification/RingConc.v ===== *)
(** * A ring used by a writer and a reader at the same time

    [write_to_ring] runs on the transmit or receive path while
    [pval_file_read_iter] runs in a reading process, without a lock. This file
    cuts the two functions of [kmod/pval_main.c] into the steps between which the
    other side may run: the tests, the stores to the slot, the copies and the
    stores to the write and read point, each taken as atomic and seen by the other
    side in program order. There is one writer (the CPU the ring belongs to) and one
    reader (a node is opened once). A schedule chooses who moves. *)
From stdpp Require Import base list numbers.
From Stdlib Require Import ZArith Lia.
From S2P Require Import Prelude Abi Ring.

Open Scope Z_scope.

(** ** Steps *)

Section Steps.
Context {skb : Type} `{SkbView skb}.

(** Where the writer is; [i] is the slot [s] points to, fixed after the test. *)
Inductive writer :=
  | WIdle
  | WLen (b : skb) (i : Z)
  | WPktlen (b : skb) (i : Z)
  | WTstamp (b : skb) (i : Z)
  | WCopy (b : skb) (i : Z)
  | WNext (b : skb).

(** Where the reader is: before [ring_read_avail], between the two loads of the
    write point in its first branch, before a copy and before the store to the
    read point, with the entries and the number of rounds left. *)
Inductive reader :=
  | RIdle
  | RAvail (iov : list Z)
  | RSub (iov : list Z)
  | RCopy (iov : list Z) (k : nat)
  | RNext (iov : list Z) (k : nat).

(** The ring, the two sides, and what happened: the packets accepted and the slots
    copied to user space with the number of bytes copied. *)
Record conc := mk_conc {
  c_ring : pval_ring; c_writer : writer; c_reader : reader;
  c_accepted : list pkt_rec; c_copied : list (Z * pval_slot) }.

Definition with_writer (c : conc) (r : pval_ring) (w : writer) : conc :=
  mk_conc r w (c_reader c) (c_accepted c) (c_copied c).
Definition with_reader (c : conc) (r : pval_ring) (p : reader) : conc :=
  mk_conc r (c_writer c) p (c_accepted c) (c_copied c).

(** A store to a field of slot [i]. *)
Definition store (c : conc) (i : Z) (f : pval_slot -> pval_slot) (w : writer) : option conc :=
  let r := c_ring c in
  s ← r_slots r !! Z.to_nat i;
  Some (with_writer c (set_slots r (<[Z.to_nat i := f s]> (r_slots r))) w).

Definition set_len (v : Z) (s : pval_slot) : pval_slot := mk_pval_slot v (s_pktlen s) (s_tstamp s) (s_pkt s).
Definition set_pktlen (v : Z) (s : pval_slot) : pval_slot := mk_pval_slot (s_len s) v (s_tstamp s) (s_pkt s).
Definition set_tstamp (v : Z) (s : pval_slot) : pval_slot := mk_pval_slot (s_len s) (s_pktlen s) v (s_pkt s).
Definition set_pkt (l : list Z) (s : pval_slot) : pval_slot :=
  mk_pval_slot (s_len s) (s_pktlen s) (s_tstamp s) (l ++ drop (length l) (s_pkt s)).

(** The next step of the writer; an idle one is called with [b]. *)
Definition writer_step (b : skb) (c : conc) : option conc :=
  let r := c_ring c in
  match c_writer c with
  | WIdle => if ring_full r then Some c else Some (with_writer c r (WLen b (r_head r)))
  | WLen b i => store c i (set_len (skb_copylen b)) (WPktlen b i)
  | WPktlen b i => store c i (set_pktlen (skb_pktlen b)) (WTstamp b i)
  | WTstamp b i => store c i (set_tstamp (skb_hwtstamp b)) (WCopy b i)
  | WCopy b i =>
      if skb_copylen b <=? Z.of_nat (length (skb_mac_header b)) then
        store c i (set_pkt (take (Z.to_nat (skb_copylen b)) (skb_mac_header b))) (WNext b)
      else None
  | WNext b =>
      Some (mk_conc (ring_write_next r) WIdle (c_reader c) (c_accepted c ++ [pkt_of_skb b]) (c_copied c))
  end.

(** The number of rounds for [avail] slots, and the first of them. *)
Definition start_copy (iov : list Z) (avail : Z) : reader :=
  let count := Z.of_nat (length iov) in
  match Z.to_nat (u32 (if avail >? count then count else avail)) with
  | O => RIdle
  | S k => RCopy iov (S k)
  end.

(** The next step of the reader; an idle one is called with [iov]. With [reload]
    the first branch of [ring_read_avail] loads the write point again for the
    difference, as it is written; otherwise it is kept in a register. *)
Definition reader_step (reload : bool) (iov : list Z) (c : conc) : option conc :=
  let r := c_ring c in
  match c_reader c with
  | RIdle => if ring_emtpy r then Some c else Some (with_reader c r (RAvail iov))
  | RAvail iov =>
      if reload && (r_head r >? r_tail r) then Some (with_reader c r (RSub iov))
      else Some (with_reader c r (start_copy iov (ring_read_avail r)))
  | RSub iov => Some (with_reader c r (start_copy iov (u32 (r_head r - r_tail r))))
  | RCopy iov k =>
      match iov, k with
      | len :: iov', S k' =>
          s ← r_slots r !! Z.to_nat (r_tail r);
          let copylen := if sizeof_pval_slot >? len then len else sizeof_pval_slot in
          Some (mk_conc r (c_writer c) (RNext iov' k') (c_accepted c) (c_copied c ++ [(copylen, s)]))
      | _, _ => None
      end
  | RNext iov k =>
      Some (with_reader c (ring_read_next r) match k with O => RIdle | S _ => RCopy iov k end)
  end.

(** A schedule: who moves, with the argument of a call that starts; [CFlush] is
    the [ring_zero] of [pval_file_open] and [pval_file_release]. *)
Inductive choice := CW (b : skb) | CR (iov : list Z) | CFlush.

Definition conc_step (reload : bool) (x : choice) (c : conc) : option conc :=
  match x with
  | CW b => writer_step b c
  | CR iov => reader_step reload iov c
  | CFlush => Some (mk_conc (ring_zero (c_ring c)) (c_writer c) (c_reader c) (c_accepted c) (c_copied c))
  end.

Fixpoint conc_run (reload : bool) (l : list choice) (c : conc) : option conc :=
  match l with
  | [] => Some c
  | x :: l' => c' ← conc_step reload x c; conc_run reload l' c'
  end.

Definition idle_conc (r : pval_ring) : conc := mk_conc r WIdle RIdle [] [].

(** ** The invariant *)

(** A store to the slot at the write point does not touch the queue. *)
Lemma contents_head_slot r s :
  ring_ok r = true -> pkt_shape s = true ->
  let r' := set_slots r (<[Z.to_nat (r_head r) := s]> (r_slots r)) in
  ring_contents r' = ring_contents r /\ ring_ok r' = true.
Proof.
  intros Hr Hs r'. pose proof (ring_used_range r) as Hur. pose proof Hr as (Hh & Ht & Hm & Hn & Hsh & Hok)%ring_ok_spec.
  assert (Hhd : (r_tail r + ring_used r) mod 1024 = r_head r).
  { unfold ring_used, PVAL_SLOT_NUM. rewrite Zplus_mod_idemp_r, Z.mod_small; lia. }
  assert (Hc : ring_contents r' = ring_contents r).
  { change (ring_window (<[Z.to_nat (r_head r) := s]> (r_slots r)) (r_tail r) (Z.to_nat (ring_used r)) = ring_contents r).
    apply window_insert; [done..|]. intros j Hj He. rewrite <- Hhd in He.
    assert (Hz : (ring_used r - j) mod 1024 = 0).
    { replace (ring_used r - j) with (r_tail r + ring_used r - (r_tail r + j)) by lia.
      rewrite Zminus_mod, He, Z.sub_diag. done. }
    rewrite Z.mod_small in Hz by lia. lia. }
  split; [done|]. apply ring_ok_spec. rewrite Hc. cbn [r' set_slots r_slots r_tail r_head r_mask]. rewrite length_insert.
  split_and!; try done; try lia. by apply Forall_insert.
Qed.

(** After [n] stores of the writer the slot at the write point holds that much of
    the packet. *)
Definition filled (r : pval_ring) (b : skb) (i : Z) (n : nat) : Prop :=
  i = r_head r /\ skb_ok b = true /\ ring_full r = false /\
  exists s, r_slots r !! Z.to_nat i = Some s /\
    ((1 <= n)%nat -> s_len s = skb_copylen b) /\ ((2 <= n)%nat -> s_pktlen s = skb_pktlen b) /\
    ((3 <= n)%nat -> s_tstamp s = skb_hwtstamp b) /\
    ((4 <= n)%nat -> take (Z.to_nat (skb_copylen b)) (s_pkt s) = take (Z.to_nat (skb_copylen b)) (skb_mac_header b)).

Definition writer_ok (r : pval_ring) (w : writer) : Prop :=
  match w with
  | WIdle => True
  | WLen b i => filled r b i 0
  | WPktlen b i => filled r b i 1
  | WTstamp b i => filled r b i 2
  | WCopy b i => filled r b i 3
  | WNext b => filled r b (r_head r) 4
  end.

(** The rounds the reader has left are there to be read. *)
Definition reader_ok (n : nat) (p : reader) : Prop :=
  match p with
  | RIdle => True
  | RAvail iov => Z.of_nat (length iov) < 2 ^ 32
  | RSub _ => False
  | RCopy iov k => (0 < k <= length iov)%nat /\ (k <= n)%nat
  | RNext iov k => (k <= length iov)%nat /\ (S k <= n)%nat
  end.

(** The slots not copied yet: the one a reader is about to step over was. *)
Definition pending (c : conc) : list pval_slot :=
  match c_reader c with RNext _ _ => tail (ring_contents (c_ring c)) | _ => ring_contents (c_ring c) end.

Definition conc_ok (q : list pkt_rec) (c : conc) : Prop :=
  ring_ok (c_ring c) = true /\ writer_ok (c_ring c) (c_writer c) /\
  reader_ok (length (ring_contents (c_ring c))) (c_reader c) /\
  (pkt_of_slot ∘ snd <$> c_copied c) ++ (pkt_of_slot <$> pending c) = q ++ c_accepted c.

(** A store keeps the invariant and gets one step further. *)
Lemma store_ok q c b i n f w :
  conc_ok q c -> filled (c_ring c) b i n ->
  (forall s, pkt_shape s = true -> pkt_shape (f s) = true) ->
  (forall r s, pkt_shape s = true -> filled r b i n -> r_slots r !! Z.to_nat i = Some s ->
     filled (set_slots r (<[Z.to_nat i := f s]> (r_slots r))) b i (S n)) ->
  (forall r, filled r b i (S n) -> writer_ok r w) ->
  exists c', store c i f w = Some c' /\ conc_ok q c'.
Proof.
  intros (Hr & _ & Hp & Hlog) Hf Hshape Hnext Hw. pose proof Hf as (-> & _ & _ & s & Hs & _).
  pose proof Hr as (_ & _ & _ & _ & Hsh & _)%ring_ok_spec.
  assert (Hps : pkt_shape s = true) by (by eapply Forall_lookup_1 in Hsh).
  destruct (contents_head_slot (c_ring c) (f s) Hr (Hshape s Hps)) as [Hc Hr'].
  unfold store. rewrite Hs. cbn [mbind option_bind]. eexists. split; [done|].
  split; [exact Hr'|]. split; [apply Hw; cbn [with_writer c_ring]; by apply Hnext|].
  unfold pending in *. cbn [with_writer c_ring c_reader c_copied c_accepted]. by rewrite Hc.
Qed.

(** What the fields of the slot have to be after [n] stores. *)
Definition fields (b : skb) (n : nat) (s : pval_slot) : Prop :=
  ((1 <= n)%nat -> s_len s = skb_copylen b) /\ ((2 <= n)%nat -> s_pktlen s = skb_pktlen b) /\
  ((3 <= n)%nat -> s_tstamp s = skb_hwtstamp b) /\
  ((4 <= n)%nat -> take (Z.to_nat (skb_copylen b)) (s_pkt s) = take (Z.to_nat (skb_copylen b)) (skb_mac_header b)).

Lemma filled_next b i n f :
  (forall s, fields b n s -> fields b (S n) (f s)) ->
  forall r s, pkt_shape s = true -> filled r b i n -> r_slots r !! Z.to_nat i = Some s ->
    filled (set_slots r (<[Z.to_nat i := f s]> (r_slots r))) b i (S n).
Proof.
  intros Hf r s _ (Hi & Hb & Hfull & s0 & Hs0 & Hfields) Hs. rewrite Hs in Hs0. injection Hs0 as <-.
  split_and!; try done. exists (f s). split; [|by apply Hf]. cbn [set_slots r_slots].
  apply list_lookup_insert_eq. by eapply lookup_lt_Some.
Qed.

Lemma copylen_bounds b : 0 <= skb_copylen b <= 256.
Proof. unfold skb_copylen, skb_pktlen, PVAL_PKT_LEN. pose proof (u32_range (skb_mac_len b + skb_len b)). lia. Qed.

Lemma set_pkt_shape b s :
  skb_ok b = true -> pkt_shape s = true -> pkt_shape (set_pkt (take (Z.to_nat (skb_copylen b)) (skb_mac_header b)) s) = true.
Proof.
  intros Hb Hs. pose proof (copylen_bounds b). unfold skb_ok, pkt_shape, PVAL_PKT_LEN in *. bool_to_prop. cbn [set_pkt s_pkt].
  rewrite bytes_ok_app_true, length_app, length_drop by auto with pval.
  rewrite length_take_le by lia. apply andb_true_intro. split; [|done]. apply Z.eqb_eq. lia.
Qed.

(** The slot a writer is done with is the packet's. *)
Lemma filled_slot r b :
  ring_ok r = true -> filled r b (r_head r) 4 ->
  exists s, r_slots r !! Z.to_nat (r_head r) = Some s /\ pkt_shape s = true /\ slot_ok s = true /\ pkt_of_slot s = pkt_of_skb b.
Proof.
  intros Hr (_ & Hb & _ & s & Hs & H1 & H2 & H3 & H4). exists s. split; [done|].
  specialize (H1 ltac:(lia)). specialize (H2 ltac:(lia)). specialize (H3 ltac:(lia)). specialize (H4 ltac:(lia)).
  pose proof Hr as (_ & _ & _ & _ & Hsh & _)%ring_ok_spec.
  assert (Hps : pkt_shape s = true) by (by eapply Forall_lookup_1 in Hsh). split; [done|].
  pose proof (copylen_bounds b) as Hc. pose proof (u32_range (skb_mac_len b + skb_len b)) as Hp. fold (skb_pktlen b) in Hp.
  unfold pkt_of_slot, pkt_of_skb. rewrite H1, H2, H3, H4. split; [|done].
  unfold pkt_shape, skb_ok in *. apply andb_prop in Hps as [Hl Hby]. apply andb_prop in Hb as [Hb _]. apply andb_prop in Hb as [Hts _].
  apply (is_u_spec 32) in Hp. unfold slot_ok. rewrite H1, H2, H3, Hl, Hby, Hp, Hts. unfold PVAL_PKT_LEN.
  by rewrite !(proj2 (Z.leb_le _ _)) by lia.
Qed.

Lemma writer_step_ok q b c :
  skb_ok b = true -> conc_ok q c -> exists c', writer_step b c = Some c' /\ conc_ok q c'.
Proof.
  intros Hb Hc. pose proof Hc as (Hr & Hw & Hp & Hlog). unfold writer_step. destruct (c_writer c) as [|b' i|b' i|b' i|b' i|b'] eqn:Ew.
  - destruct (ring_full (c_ring c)) eqn:Hf; [by eexists|]. eexists. split; [done|]. split; [done|]. split; [|by split].
    pose proof Hr as (Hh & _ & _ & Hn & _)%ring_ok_spec. destruct (slot_at _ Hn _ Hh) as [s Hs].
    split_and!; try done. exists s. split; [done|]. split_and!; lia.
  - apply (store_ok _ _ b' i 0); try done. apply filled_next. intros s _. unfold fields. cbn. split_and!; lia || done.
  - apply (store_ok _ _ b' i 1); try done. apply filled_next. intros s (F1 & _). unfold fields. cbn.
    split_and!; intros; solve [lia | done | apply F1; lia].
  - apply (store_ok _ _ b' i 2); try done. apply filled_next. intros s (F1 & F2 & _). unfold fields. cbn.
    split_and!; intros; solve [lia | done | apply F1; lia | apply F2; lia].
  - pose proof Hw as (_ & Hb' & _). pose proof Hb' as Hcp. unfold skb_ok in Hcp. apply andb_prop in Hcp as [_ Hcp]. rewrite Hcp.
    apply Z.leb_le in Hcp. pose proof (copylen_bounds b').
    apply (store_ok _ _ b' i 3); try done.
    + intros s. by apply set_pkt_shape.
    + apply filled_next. intros s (F1 & F2 & F3 & _). unfold fields. cbn [set_pkt s_len s_pktlen s_tstamp s_pkt].
      split_and!; intros _; [apply F1|apply F2|apply F3|]; try lia.
      rewrite take_app_le by (rewrite length_take_le; lia). by rewrite take_take, Nat.min_id.
    + intros r Hfill. pose proof Hfill as (-> & _). exact Hfill.
  - eexists. split; [done|]. destruct (filled_slot _ _ Hr Hw) as (s & Hs & Hps & Hso & Hpkt).
    pose proof Hw as (_ & _ & Hfull & _). destruct (write_next_contents _ Hr s Hfull Hps Hso) as [Hcn Hr'].
    rewrite list_insert_id in Hcn, Hr' by done.
    replace (set_slots (c_ring c) (r_slots (c_ring c))) with (c_ring c) in Hcn, Hr' by (by destruct (c_ring c)).
    split; [exact Hr'|]. split; [exact I|]. unfold pending in *. cbn [c_ring c_reader c_copied c_accepted].
    rewrite Hcn, length_app. split; [unfold reader_ok in *; destruct (c_reader c); lia || done|].
    rewrite app_assoc, <- Hlog, <- Hpkt, <- app_assoc. f_equal.
    destruct (c_reader c); try (by rewrite fmap_app). destruct Hp as [_ Hp].
    destruct (ring_contents (c_ring c)) as [|s0 q0]; [cbn in Hp; lia|]. cbn [tail app]. by rewrite fmap_app.
Qed.

Lemma start_copy_ok iov n :
  Z.of_nat (length iov) < 2 ^ 32 -> Z.of_nat n <= ring_capacity -> reader_ok n (start_copy iov (Z.of_nat n)).
Proof.
  intros Hi Hn. unfold ring_capacity, PVAL_SLOT_NUM in Hn. unfold start_copy.
  destruct (Z.to_nat _) as [|k] eqn:Ek; [exact I|]. unfold reader_ok. revert Ek. case_test; rewrite u32_small by lia; lia.
Qed.

Lemma pending_start c iov n : c_reader c = RAvail iov ->
  pending (with_reader c (c_ring c) (start_copy iov n)) = pending c.
Proof. intros Hp. unfold pending. rewrite Hp. cbn. unfold start_copy. by destruct (Z.to_nat _). Qed.

(** Stepping over a slot makes room and leaves the slots as they are. *)
Lemma writer_ok_read r s rest w :
  ring_ok r = true -> ring_contents r = s :: rest -> writer_ok r w -> writer_ok (ring_read_next r) w.
Proof.
  intros Hr Hc. destruct (read_next_contents r Hr s rest Hc) as (_ & Hc' & Hr').
  assert (Hfull : ring_full (ring_read_next r) = false).
  { apply not_true_is_false. rewrite (full_spec _ Hr'), Hc'. pose proof (contents_le_capacity r Hr) as Hcap. rewrite Hc in Hcap.
    cbn [length] in Hcap. lia. }
  assert (Hkeep : forall b i n, filled r b i n -> filled (ring_read_next r) b i n)
    by (intros b i n (? & ? & _ & ?); by split_and!).
  destruct w; try done; apply Hkeep.
Qed.

Lemma reader_step_ok q iov c :
  Z.of_nat (length iov) < 2 ^ 32 -> conc_ok q c -> exists c', reader_step false iov c = Some c' /\ conc_ok q c'.
Proof.
  intros Hiov Hc. pose proof Hc as (Hr & Hw & Hp & Hlog). unfold reader_step. destruct (c_reader c) as [|iov'|iov'|iov' k|iov' k] eqn:Ep; cbn [andb].
  - destruct (ring_emtpy _); [by eexists|]. eexists. split; [done|]. unfold conc_ok, pending in *. rewrite Ep in Hlog.
    by split_and!.
  - eexists. split; [done|]. split; [done|]. split; [done|]. rewrite pending_start by done. split; [|done].
    cbn [with_reader c_ring c_reader]. rewrite (read_avail_spec _ Hr). apply start_copy_ok; [exact Hp|by apply contents_le_capacity].
  - done.
  - destruct Hp as [[Hk Hk'] Hn]. destruct iov' as [|len iov']; [cbn in Hk'; lia|]. destruct k as [|k]; [lia|].
    destruct (ring_contents (c_ring c)) as [|s rest] eqn:Ec; [cbn in Hn; lia|].
    destruct (read_next_contents _ Hr s rest Ec) as (-> & _). cbn [mbind option_bind]. eexists. split; [done|].
    split; [done|]. split; [done|]. unfold pending in *. rewrite Ep, Ec in Hlog. cbn [c_ring c_reader c_copied c_accepted]. rewrite Ec.
    split; [cbn in *; lia|]. rewrite fmap_app, <- app_assoc. exact Hlog.
  - destruct Hp as [Hk Hn]. destruct (ring_contents (c_ring c)) as [|s rest] eqn:Ec; [cbn in Hn; lia|].
    destruct (read_next_contents _ Hr s rest Ec) as (_ & Hc' & Hr'). eexists. split; [done|]. split; [exact Hr'|].
    split.
    { by apply (writer_ok_read _ s rest). }
    unfold pending in *. rewrite Ep, Ec in Hlog. cbn [tail] in Hlog. cbn [with_reader c_ring c_reader c_copied c_accepted]. rewrite Hc'.
    cbn [length] in Hn. destruct k as [|k]; (split; [cbn; lia || done|done]).
Qed.

(** ** One side alone *)

Lemma insert_twice (l : list pval_slot) i x y : <[i := x]> (<[i := y]> l) = <[i := x]> l.
Proof. apply list_insert_insert_eq. Qed.

Lemma conc_run_app reload l1 l2 c :
  conc_run reload (l1 ++ l2) c = c' ← conc_run reload l1 c; conc_run reload l2 c'.
Proof.
  revert c. induction l1 as [|x l1 IH]; intros c; [done|]. cbn [app conc_run].
  destruct (conc_step reload x c); [apply IH|done].
Qed.

(** The writer's steps but the last, whatever the reader does next: the slot is filled. *)
Lemma writer_fills reload r b p acc D :
  ring_ok r = true -> skb_ok b = true -> ring_full r = false ->
  exists s, r_slots r !! Z.to_nat (r_head r) = Some s /\
    conc_run reload (replicate 5 (CW b)) (mk_conc r WIdle p acc D) =
    Some (mk_conc (set_slots r (<[Z.to_nat (r_head r) := fill_slot s b (skb_copylen b) (skb_pktlen b)]> (r_slots r))) (WNext b) p acc D).
Proof.
  intros Hr Hb Hf. pose proof Hr as (Hh & _ & _ & Hn & _)%ring_ok_spec. destruct (slot_at _ Hn _ Hh) as [s Hs].
  unfold skb_ok in Hb. apply andb_prop in Hb as [_ Hcp]. pose proof Hcp as Hcp'. apply Z.leb_le in Hcp'.
  pose proof (copylen_bounds b) as Hcb. exists s. split; [done|].
  assert (Hl : (Z.to_nat (r_head r) < length (r_slots r))%nat) by lia.
  cbn [replicate conc_run conc_step writer_step c_writer c_ring]. rewrite Hf. cbn [mbind option_bind].
  do 4 (cbn [conc_step writer_step with_writer c_writer c_ring c_reader c_accepted c_copied set_slots r_slots]; rewrite ?Hcp;
    unfold store; cbn [with_writer c_writer c_ring c_reader c_accepted c_copied set_slots r_slots r_head];
    rewrite ?insert_twice, ?list_lookup_insert_eq, ?Hs by done; cbn [mbind option_bind]).
  cbn. rewrite ?insert_twice. unfold fill_slot, set_pkt. cbn. rewrite length_take_le by lia. reflexivity.
Qed.

(** The writer's steps in a row are [write_to_ring]. *)
Lemma writer_alone reload r b p acc D :
  ring_ok r = true -> skb_ok b = true -> ring_full r = false ->
  exists r', write_to_ring r b = Some (skb_copylen b, r') /\
    conc_run reload (replicate 6 (CW b)) (mk_conc r WIdle p acc D) = Some (mk_conc r' WIdle p (acc ++ [pkt_of_skb b]) D).
Proof.
  intros Hr Hb Hf. destruct (writer_fills reload r b p acc D Hr Hb Hf) as (s & Hs & Hrun).
  unfold skb_ok in Hb. apply andb_prop in Hb as [_ Hcp]. eexists. split.
  - unfold write_to_ring. rewrite Hf, Hs. cbn [mbind option_bind]. fold (skb_pktlen b). rewrite copylen_test, Hcp. reflexivity.
  - change 6%nat with (5 + 1)%nat. rewrite replicate_add, conc_run_app, Hrun. reflexivity.
Qed.

(** The reader's rounds in a row are [read_loop]. *)
Lemma reader_rounds reload x k : forall r iov r' out w acc D,
  read_loop r iov k = Some (r', out) -> (0 < k)%nat ->
  exists D', conc_run reload (replicate (2 * k) (CR x)) (mk_conc r w (RCopy iov k) acc D) = Some (mk_conc r' w RIdle acc (D ++ D')) /\
    out = (fun d => take (Z.to_nat (fst d)) (pval_slot_bytes (snd d))) <$> D'.
Proof.
  induction k as [|k IH]; intros r iov r' out w acc D Hl Hk; [lia|]. cbn [read_loop] in Hl. destruct iov as [|len iov]; [done|].
  replace (2 * S k)%nat with (S (S (2 * k))) by lia. remember (2 * k)%nat as n eqn:En.
  destruct (r_slots r !! Z.to_nat (r_tail r)) as [s|] eqn:Es; cbn [mbind option_bind] in Hl; [|done].
  destruct (read_loop (ring_read_next r) iov k) as [[r1 out1]|] eqn:El; cbn [mbind option_bind] in Hl; [|done].
  injection Hl as <- <-. cbn [replicate conc_run conc_step reader_step c_reader c_ring]. rewrite Es. cbn [mbind option_bind].
  cbn [conc_step reader_step c_reader c_ring with_reader c_writer c_accepted c_copied mbind option_bind].
  destruct k as [|k].
  - subst n. injection El as <- <-. eexists [_]. by split.
  - destruct (IH _ _ _ _ w acc (D ++ [(if sizeof_pval_slot >? len then len else sizeof_pval_slot, s)]) El ltac:(lia)) as (D' & Hrun & ->).
    exists ((if sizeof_pval_slot >? len then len else sizeof_pval_slot, s) :: D'). rewrite <- app_assoc in Hrun. by split.
Qed.

(** The rounds work from any read point, whatever lies between it and the write point. *)
Lemma read_loop_total k : forall r iov,
  0 <= r_tail r < 1024 -> r_mask r = 1023 -> length (r_slots r) = 1024%nat -> (k <= length iov)%nat ->
  exists out, read_loop r iov k = Some (set_tail r ((r_tail r + Z.of_nat k) mod 1024), out) /\ length out = k.
Proof.
  induction k as [|k IH]; intros r iov Ht Hm Hn Hk.
  { exists []. cbn. rewrite Z.add_0_r, Z.mod_small by done. by destruct r. }
  destruct iov as [|len iov]; [cbn in Hk; lia|]. cbn [read_loop length] in *. destruct (slot_at _ Hn _ Ht) as [s ->]. cbn [mbind option_bind].
  assert (Hnext : r_tail (ring_read_next r) = (r_tail r + 1) mod 1024) by (cbn; by rewrite Hm, next_index).
  destruct (IH (ring_read_next r) iov) as (out & -> & Hl); [rewrite Hnext; by apply Z.mod_pos_bound|done|done|lia|].
  cbn [mbind option_bind]. rewrite Hnext, mod_step by done. replace (r_tail r + Z.of_nat (S k)) with (r_tail r + (1 + Z.of_nat k)) by lia.
  eexists. split; [reflexivity|]. cbn. by rewrite Hl.
Qed.

(** The loop as the reader starts it, from the number of slots it computed. *)
Lemma reader_loop reload x r iov avail r' out :
  read_loop r iov (Z.to_nat (u32 (if avail >? Z.of_nat (length iov) then Z.of_nat (length iov) else avail))) = Some (r', out) ->
  exists k D, conc_run reload (replicate k (CR x)) (mk_conc r WIdle (start_copy iov avail) [] []) = Some (mk_conc r' WIdle RIdle [] D) /\
    out = (fun d => take (Z.to_nat (fst d)) (pval_slot_bytes (snd d))) <$> D.
Proof.
  intros Hl. unfold start_copy. destruct (Z.to_nat _) as [|k].
  - injection Hl as <- <-. by exists 0%nat, [].
  - destruct (reader_rounds reload x _ _ _ _ _ WIdle [] [] Hl ltac:(lia)) as (D & Hrun & ->). by exists (2 * S k)%nat, D.
Qed.

(** The reader's steps in a row are [pval_file_read_iter]. *)
Lemma reader_alone reload r iov n r' out :
  pval_file_read_iter r true iov = Some (n, r', out) ->
  exists k D, conc_run reload (replicate k (CR iov)) (idle_conc r) = Some (mk_conc r' WIdle RIdle [] D) /\
    out = (fun d => take (Z.to_nat (fst d)) (pval_slot_bytes (snd d))) <$> D.
Proof.
  unfold pval_file_read_iter. cbn [negb]. destruct (ring_emtpy r) eqn:He.
  { intros [= <- <- <-]. by exists 0%nat, []. }
  destruct (read_loop _ _ _) as [[r1 out1]|] eqn:El; cbn [mbind option_bind]; [|done]. intros [= <- <- <-].
  destruct (reader_loop reload iov _ _ _ _ _ El) as (k & D & Hrun & ->).
  destruct (reload && (r_head r >? r_tail r)) eqn:Hb; [exists (3 + k)%nat, D|exists (2 + k)%nat, D]; (split; [|done]);
    rewrite <- Hrun, replicate_add, conc_run_app; cbn [replicate conc_run conc_step reader_step idle_conc c_reader c_ring];
    rewrite He; cbn [mbind option_bind conc_step reader_step with_reader c_reader c_ring]; rewrite Hb; [|done].
  apply andb_prop in Hb as [_ Hb]. unfold ring_read_avail. by rewrite Hb.
Qed.

(** ** Any schedule *)

Definition choice_ok (x : choice) : bool :=
  match x with
  | CW b => skb_ok b
  | CR iov => Z.of_nat (length iov) <? 2 ^ 32
  | CFlush => false
  end.

Lemma conc_run_ok q l : forall c,
  forallb choice_ok l = true -> conc_ok q c -> exists c', conc_run false l c = Some c' /\ conc_ok q c'.
Proof.
  induction l as [|x l IH]; intros c Hl Hc; [by exists c|]. cbn [forallb] in Hl. apply andb_prop in Hl as [Hx Hl].
  assert (exists c', conc_step false x c = Some c' /\ conc_ok q c') as (c' & Hs & Hc').
  { destruct x as [b|iov|]; cbn [conc_step choice_ok] in *; [by apply writer_step_ok| |done].
    apply reader_step_ok; [by apply Z.ltb_lt|done]. }
  cbn [conc_run]. rewrite Hs. by apply IH.
Qed.
End Steps.

(** ** Theorems *)

(** C2. A writer and a reader that use the ring at the same time, without a lock and
    interleaved at every test, store and copy, never access memory out of range, never hand
    out a slot that is only partly written, and neither lose, duplicate nor reorder
    a packet: at every moment the slots copied so far, followed by those still queued,
    are what was queued at the start followed by the packets accepted, provided
    [ring_read_avail] loads the write point once in its first branch. *)
Theorem ring_concurrent_fifo {skb : Type} `{SkbView skb} (l : list choice) r :
  ring_ok r = true -> forallb choice_ok l = true ->
  exists c, conc_run false l (idle_conc r) = Some c /\ ring_ok (c_ring c) = true /\
    (pkt_of_slot ∘ snd <$> c_copied c) ++ (pkt_of_slot <$> pending c) =
    (pkt_of_slot <$> ring_contents r) ++ c_accepted c.
Proof.
  intros Hr Hl. destruct (conc_run_ok (pkt_of_slot <$> ring_contents r) l (idle_conc r) Hl) as (c & Hrun & Hok & _ & _ & Hlog).
  - split_and!; try done. by rewrite app_nil_r.
  - by exists c.
Qed.

(** A reader that finds one packet while the writer is in the middle of the next. *)
Definition sample_schedule : list choice :=
  replicate 6 (CW (sample_skb 60 7)) ++ replicate 3 (CW (sample_skb 300 8)) ++
  replicate 3 (CR [272; 272]) ++ replicate 3 (CW (sample_skb 300 8)) ++ [CR []].

Lemma ring_concurrent_fifo_witness :
  exists c, conc_run false sample_schedule (idle_conc sample_ring) = Some c /\ ring_ok (c_ring c) = true /\
    (pkt_of_slot ∘ snd <$> c_copied c) ++ (pkt_of_slot <$> pending c) = [] ++ c_accepted c.
Proof. apply (ring_concurrent_fifo sample_schedule sample_ring); vm_compute; reflexivity. Defined.

Example sample_schedule_result :
  match conc_run false sample_schedule (idle_conc sample_ring) with
  | Some c => (pkt_of_slot ∘ snd <$> c_copied c, c_accepted c)
  | None => ([], [])
  end = ([pkt_of_skb (sample_skb 60 7)], [pkt_of_skb (sample_skb 60 7); pkt_of_skb (sample_skb 300 8)]).
Proof. vm_compute. reflexivity. Qed.

(** The steps are those of the two functions: with nobody else moving, the writer's
    steps in a row have the effect of [write_to_ring], and the reader's steps in a row
    those of [pval_file_read_iter], whether or not the write point is loaded again. *)
Theorem conc_steps_agree {skb : Type} `{SkbView skb} reload r (b : skb) iov :
  ring_ok r = true -> skb_ok b = true -> Z.of_nat (length iov) < 2 ^ 32 ->
  (exists k n r' acc, write_to_ring r b = Some (n, r') /\
     conc_run reload (replicate k (CW b)) (idle_conc r) = Some (mk_conc r' WIdle RIdle acc [])) /\
  (exists k n r' copied, pval_file_read_iter r true iov =
       Some (n, r', (fun d => take (Z.to_nat (fst d)) (pval_slot_bytes (snd d))) <$> copied) /\
     conc_run (skb := skb) reload (replicate k (CR iov)) (idle_conc r) = Some (mk_conc r' WIdle RIdle [] copied)).
Proof.
  intros Hr Hb Hi. split.
  - destruct (ring_full r) eqn:Hf.
    + exists 1%nat, 0, r, []. cbn. rewrite Hf. split; [by apply write_full|done].
    + destruct (writer_alone reload r b RIdle [] [] Hr Hb Hf) as (r' & Hw & Hrun). by exists 6%nat, (skb_copylen b), r', [pkt_of_skb b].
  - destruct (read_iter_spec r iov Hr Hi) as (r' & Hrd & _). destruct (reader_alone (skb := skb) reload _ _ _ _ _ Hrd) as (k & D & Hrun & Hout).
    rewrite Hout in Hrd. by eexists k, _, r', D.
Qed.

Lemma conc_steps_agree_witness :
  exists k n r' acc, write_to_ring sample_ring2 (sample_skb 64 9) = Some (n, r') /\
     conc_run true (replicate k (CW (sample_skb 64 9))) (idle_conc sample_ring2) = Some (mk_conc r' WIdle RIdle acc []).
Proof. apply (conc_steps_agree true sample_ring2 (sample_skb 64 9) [272; 16]); vm_compute; reflexivity. Defined.


(** A ring with one packet in its last slot, and a reader with three entries. *)
Definition wrapping_ring : pval_ring := set_tail (set_head sample_ring 1023) 1022.

