(* ===== verification/State.v ===== *)
(** * The kernel module's data

    Models the structures of [kmod/pval_main.c]: [struct pval_mdev],
    [struct pval_worker], [struct pval_dev] and the constants they use. A
    pointer to the lower device is its interface index; the fields of that
    device the code reads are arguments of the operations that read them. *)
From stdpp Require Import base list numbers strings.
From Stdlib Require Import ZArith Lia.
From S2P Require Import Prelude Abi Ring.

Open Scope Z_scope.

Definition IFNAMSIZ : Z := 16.
Definition PVAL_NAME_MAX : Z := IFNAMSIZ + 16.
Definition PVAL_MAX_CPUS : Z := 16.

Definition EINVAL : Z := 22.
Definition ENODEV : Z := 19.
Definition EBUSY : Z := 16.
Definition EMSGSIZE : Z := 90.
Definition ENOTSUPP : Z := 524.

(** [struct hwtstamp_config] of the kernel's user API. *)
Record hwtstamp_config := mk_hwtstamp_config {
  hc_flags : Z; hc_tx_type : Z; hc_rx_filter : Z
}.

#[export] Instance hwtstamp_config_eq_dec : EqDecision hwtstamp_config.
Proof. solve_decision. Defined.

Section WithSkb.
Context {skb : Type}.

(** A character device: one per direction and CPU. *)
Record pval_mdev := mk_pval_mdev {
  m_name : string;
  m_cpu : Z;
  m_opened : bool;
  m_ring : pval_ring;
  m_txtstamp_start : Z;
  m_cloned_skb : option skb   (* [None] for NULL *)
}.

(** A deferred retrieval of a TX time stamp. [w_ring] is the CPU whose TX ring
    the worker's pointer designates. *)
Record pval_worker := mk_pval_worker {
  w_skb : skb; w_ring : Z; w_start : Z
}.

Record pval_dev := mk_pval_dev {
  pd_name : string;           (* dev->name *)
  pd_link : option Z;         (* link, by interface index; [None] for NULL *)
  pd_seq : Z;                 (* u64 *)
  pd_ipopt : bool;
  pd_txtstamp : bool;
  pd_rxtstamp : bool;
  pd_txcopy : bool;
  pd_rxcopy : bool;
  pd_txbusydrop : bool;
  pd_original_config : hwtstamp_config;
  pd_num_cpus : Z;
  pd_txmdevs : list pval_mdev;  (* PVAL_MAX_CPUS elements *)
  pd_rxmdevs : list pval_mdev
}.

Definition set_opened (m : pval_mdev) (b : bool) : pval_mdev :=
  mk_pval_mdev (m_name m) (m_cpu m) b (m_ring m) (m_txtstamp_start m) (m_cloned_skb m).
Definition set_ring (m : pval_mdev) (r : pval_ring) : pval_mdev :=
  mk_pval_mdev (m_name m) (m_cpu m) (m_opened m) r (m_txtstamp_start m) (m_cloned_skb m).
Definition set_cloned (m : pval_mdev) (c : option skb) : pval_mdev :=
  mk_pval_mdev (m_name m) (m_cpu m) (m_opened m) (m_ring m) (m_txtstamp_start m) c.

Definition set_seq (d : pval_dev) (n : Z) : pval_dev :=
  mk_pval_dev (pd_name d) (pd_link d) n (pd_ipopt d) (pd_txtstamp d) (pd_rxtstamp d)
    (pd_txcopy d) (pd_rxcopy d) (pd_txbusydrop d) (pd_original_config d) (pd_num_cpus d)
    (pd_txmdevs d) (pd_rxmdevs d).
Definition set_txmdevs (d : pval_dev) (l : list pval_mdev) : pval_dev :=
  mk_pval_dev (pd_name d) (pd_link d) (pd_seq d) (pd_ipopt d) (pd_txtstamp d) (pd_rxtstamp d)
    (pd_txcopy d) (pd_rxcopy d) (pd_txbusydrop d) (pd_original_config d) (pd_num_cpus d)
    l (pd_rxmdevs d).
Definition set_rxmdevs (d : pval_dev) (l : list pval_mdev) : pval_dev :=
  mk_pval_dev (pd_name d) (pd_link d) (pd_seq d) (pd_ipopt d) (pd_txtstamp d) (pd_rxtstamp d)
    (pd_txcopy d) (pd_rxcopy d) (pd_txbusydrop d) (pd_original_config d) (pd_num_cpus d)
    (pd_txmdevs d) l.
Definition set_original_config (d : pval_dev) (c : hwtstamp_config) : pval_dev :=
  mk_pval_dev (pd_name d) (pd_link d) (pd_seq d) (pd_ipopt d) (pd_txtstamp d) (pd_rxtstamp d)
    (pd_txcopy d) (pd_rxcopy d) (pd_txbusydrop d) c (pd_num_cpus d)
    (pd_txmdevs d) (pd_rxmdevs d).
Definition set_num_cpus (d : pval_dev) (n : Z) : pval_dev :=
  mk_pval_dev (pd_name d) (pd_link d) (pd_seq d) (pd_ipopt d) (pd_txtstamp d) (pd_rxtstamp d)
    (pd_txcopy d) (pd_rxcopy d) (pd_txbusydrop d) (pd_original_config d) n
    (pd_txmdevs d) (pd_rxmdevs d).
Definition set_link (d : pval_dev) (l : option Z) : pval_dev :=
  mk_pval_dev (pd_name d) l (pd_seq d) (pd_ipopt d) (pd_txtstamp d) (pd_rxtstamp d)
    (pd_txcopy d) (pd_rxcopy d) (pd_txbusydrop d) (pd_original_config d) (pd_num_cpus d)
    (pd_txmdevs d) (pd_rxmdevs d).

(** The six switches at once. *)
Definition set_switches (d : pval_dev) (ipopt txt rxt txc rxc tbd : bool) : pval_dev :=
  mk_pval_dev (pd_name d) (pd_link d) (pd_seq d) ipopt txt rxt txc rxc tbd
    (pd_original_config d) (pd_num_cpus d) (pd_txmdevs d) (pd_rxmdevs d).

(** Direction of a character device. *)
Inductive direction := TX | RX.

Definition mdevs (d : pval_dev) (dir : direction) : list pval_mdev :=
  match dir with TX => pd_txmdevs d | RX => pd_rxmdevs d end.
Definition set_mdevs (d : pval_dev) (dir : direction) (l : list pval_mdev) : pval_dev :=
  match dir with TX => set_txmdevs d l | RX => set_rxmdevs d l end.

(** [&pdev->txmdevs[i]]: [None] when the index is outside the array. *)
Definition mdev_at (d : pval_dev) (dir : direction) (i : Z) : option pval_mdev :=
  if (0 <=? i) && (i <? PVAL_MAX_CPUS) then mdevs d dir !! Z.to_nat i else None.

Definition upd_mdev (d : pval_dev) (dir : direction) (i : Z) (m : pval_mdev) : pval_dev :=
  set_mdevs d dir (<[Z.to_nat i := m]> (mdevs d dir)).

End WithSkb.

Arguments pval_mdev : clear implicits.
Arguments pval_worker : clear implicits.
Arguments pval_dev : clear implicits.

#[export] Instance direction_eq_dec : EqDecision direction.
Proof. solve_decision. Defined.

(** ** Array lemmas *)

Section Arrays.
Context {skb : Type}.
Implicit Types d : pval_dev skb.

Lemma mdevs_set d dir l : mdevs (set_mdevs d dir l) dir = l.
Proof. by destruct dir. Qed.

Lemma mdevs_set_ne d dir dir' l : dir <> dir' -> mdevs (set_mdevs d dir l) dir' = mdevs d dir'.
Proof. by destruct dir, dir'. Qed.

Lemma mdev_at_Some d dir i m :
  mdev_at d dir i = Some m <-> 0 <= i < PVAL_MAX_CPUS /\ mdevs d dir !! Z.to_nat i = Some m.
Proof.
  unfold mdev_at. destruct (Z.leb_spec 0 i), (Z.ltb_spec i PVAL_MAX_CPUS); cbn; naive_solver lia.
Qed.

(** Updating one device leaves every other device as it was. *)
Lemma mdev_at_upd d dir i m0 m :
  mdev_at d dir i = Some m0 -> mdev_at (upd_mdev d dir i m) dir i = Some m.
Proof.
  intros [Hi Hl]%mdev_at_Some. apply mdev_at_Some. split; [done|]. unfold upd_mdev.
  rewrite mdevs_set. apply list_lookup_insert_eq. by eapply lookup_lt_Some.
Qed.

Lemma mdev_at_upd_ne d dir dir' i j m :
  0 <= i -> (dir, i) <> (dir', j) -> mdev_at (upd_mdev d dir i m) dir' j = mdev_at d dir' j.
Proof.
  intros Hi Hne. unfold mdev_at, upd_mdev.
  destruct (Z.leb_spec 0 j), (Z.ltb_spec j PVAL_MAX_CPUS); try done. cbn [andb].
  destruct (decide (dir = dir')) as [<-|Hd].
  - rewrite mdevs_set. apply list_lookup_insert_ne. intros E. apply Hne. f_equal. lia.
  - by rewrite mdevs_set_ne.
Qed.

End Arrays.
