(* ===== verification/Chardev.v ===== *)
(** * The character devices

    Models [pval_file_open], [pval_file_release], [pval_file_poll] and the
    device naming of [kmod/pval_main.c]. The kernel's device table is an
    argument; an access outside an array, a copy past the end of a buffer and
    the use of an unassigned variable are the value [Fault]. *)
From stdpp Require Import base list numbers strings.
From Stdlib Require Import ZArith Lia Ascii.
From S2P Require Import Prelude Abi Ring State Cstring.

Open Scope Z_scope.

(** ** Definitions *)

(** [sscanf(buf, "%s %s cpu %d", devname, direct, &cpu)]: the variables that
    were assigned, in order. *)
Definition scan_word (s : string) : option (string * string) :=
  let '(w, rest) := span (fun c => negb (isspace c)) (skip_space s) in
  match w with EmptyString => None | _ => Some (w, rest) end.

Definition scan_int (s : string) : option Z :=
  let '(neg, s1) := scan_sign (skip_space s) in
  let '(v, k, _) := scan_digits 10 s1 0 0 in
  if (k =? 0)%nat then None else Some (s32 (if (neg : bool) then - v else v)).

Record scanned := mk_scanned {
  sc_devname : option string; sc_direct : option string; sc_cpu : option Z
}.

Definition sscanf_name (buf : string) : scanned :=
  match scan_word buf with
  | None => mk_scanned None None None
  | Some (dn, r1) =>
      match scan_word r1 with
      | None => mk_scanned (Some dn) None None
      | Some (di, r2) =>
          match strip_prefix "cpu" (skip_space r2) with
          | None => mk_scanned (Some dn) (Some di) None
          | Some r3 => mk_scanned (Some dn) (Some di) (scan_int r3)
          end
      end
  end.

(** The assigned string fits its array of sixteen characters. *)
Definition fits16 (o : option string) : bool :=
  match o with None => true | Some s => slen s <? 16 end.

Inductive open_outcome {skb : Type} :=
  | OpenErr (rc : Z)
  | OpenOk (dir : direction) (cpu : Z) (d : pval_dev skb)
  | OpenFault.
Arguments open_outcome : clear implicits.

(** [name] is the last component of the path; [dev_get_by_name] is the kernel's
    table, answering whether the device has [pdev_netdev_ops] and its private
    area. *)
Definition pval_file_open {skb : Type} (dev_get_by_name : string -> option (bool * pval_dev skb))
    (name : string) : open_outcome skb :=
  if PVAL_NAME_MAX <=? slen name then OpenFault
  else
    let buf := smap (fun c => if decide (c = "-"%char) then " "%char else c) name in
    let v := sscanf_name buf in
    if negb (fits16 (sc_devname v) && fits16 (sc_direct v)) then OpenFault
    else
      match sc_devname v with
      | None => OpenErr (- EINVAL)
      | Some devname =>
          match dev_get_by_name devname with
          | None => OpenErr (- ENODEV)
          | Some (false, _) => OpenErr (- EINVAL)
          | Some (true, pdev) =>
              match sc_cpu v with
              | None => OpenFault
              | Some cpu =>
                  if cpu >? pd_num_cpus pdev then OpenErr (- EINVAL)
                  else
                    match sc_direct v with
                    | None => OpenFault
                    | Some direct =>
                        let go dir :=
                          match mdev_at pdev dir cpu with
                          | None => OpenFault
                          | Some pmdev =>
                              if m_opened pmdev then OpenErr (- EBUSY)
                              else OpenOk dir cpu
                                (upd_mdev pdev dir cpu
                                   (set_ring (set_opened pmdev true) (ring_zero (m_ring pmdev))))
                          end in
                        if has_prefix "tx" direct then go TX
                        else if has_prefix "rx" direct then go RX
                        else OpenErr (- EINVAL)
                    end
              end
          end
      end.

(** [filp->private_data] is the device opened, by direction and index. *)
Definition pval_file_release {skb : Type} (pdev : pval_dev skb) (dir : direction) (cpu : Z)
  : option (pval_dev skb) :=
  pmdev ← mdev_at pdev dir cpu;
  Some (upd_mdev pdev dir cpu (set_opened (set_ring pmdev (ring_zero (m_ring pmdev))) false)).

Definition POLLIN : Z := 1.
Definition POLLRDNORM : Z := 64.

Definition pval_file_poll {skb : Type} (pdev : pval_dev skb) (dir : direction) (cpu : Z) : option Z :=
  pmdev ← mdev_at pdev dir cpu;
  Some (if ring_emtpy (m_ring pmdev) then 0 else Z.lor POLLIN POLLRDNORM).

(** The name [pval_newlink] gives a device: [snprintf] into an array of
    [PVAL_NAME_MAX] characters keeps what fits before the terminator. *)
Definition dir_name (dir : direction) : string := match dir with TX => "tx" | RX => "rx" end.

Definition node_name (ifname : string) (dir : direction) (n : Z) : string :=
  ifname +:+ "-" +:+ dir_name dir +:+ "-cpu-" +:+ dec n.

Definition mdev_name (ifname : string) (dir : direction) (n : Z) : string :=
  String.substring 0 (Z.to_nat (PVAL_NAME_MAX - 1)) ("pval/" +:+ node_name ifname dir n).

(** ** Parsing the names the module creates *)

Definition dash_to_space (c : ascii) : ascii := if decide (c = "-"%char) then " "%char else c.

(** An interface name [sscanf] reads as one word and whose dashes are not
    turned into separators. *)
Definition name_char (c : ascii) : bool := negb (isspace c) && negb (code c =? 45).
Definition ifname_ok (s : string) : bool := (0 <? slen s) && (slen s <? 16) && sforall name_char s.

Lemma smap_app f s t : smap f (s +:+ t) = smap f s +:+ smap f t.
Proof. induction s as [|c s IH]; [done|]. rewrite sapp_cons. cbn [smap]. by rewrite IH, sapp_cons. Qed.

Lemma smap_id p f s : (forall c, p c = true -> f c = c) -> sforall p s = true -> smap f s = s.
Proof.
  intros Hf. induction s as [|c s IH]; cbn; [done|]. intros [Hc Hs]%andb_prop.
  by rewrite (Hf c Hc), (IH Hs).
Qed.

Lemma dash_to_space_id c : code c <> 45 -> dash_to_space c = c.
Proof. intros Hc. unfold dash_to_space. case_decide; [by subst|done]. Qed.

Lemma digit_not_dash c : isdigit c = true -> code c <> 45.
Proof. unfold isdigit. intros. bool_to_prop. lia. Qed.

Lemma smap_dash_name s : sforall name_char s = true -> smap dash_to_space s = s.
Proof.
  apply smap_id. unfold name_char. intros c Hc. bool_to_prop. by apply dash_to_space_id.
Qed.

Lemma smap_dash_dec n : 0 <= n -> smap dash_to_space (dec n) = dec n.
Proof.
  intros Hn. unfold dec. rewrite (proj2 (Z.ltb_ge _ _)) by done.
  apply (smap_id isdigit); [|by apply print_base_digits].
  intros c Hc. by apply dash_to_space_id, digit_not_dash.
Qed.

(** The text [sscanf] sees for a device of the module. *)
Lemma scan_buffer ifname dir n :
  sforall name_char ifname = true -> 0 <= n ->
  smap dash_to_space (node_name ifname dir n) =
  ifname +:+ String " " (dir_name dir +:+ String " " ("cpu" +:+ String " " (dec n))).
Proof.
  intros Hn Hp. unfold node_name. rewrite !smap_app, smap_dash_name, smap_dash_dec by done.
  by destruct dir.
Qed.

Lemma skip_space_word s t :
  0 < slen s -> sforall (fun c => negb (isspace c)) s = true -> skip_space (s +:+ t) = s +:+ t.
Proof.
  destruct s as [|c s]; [done|]. intros _ Hs. cbn in Hs. bool_to_prop.
  rewrite sapp_cons. unfold skip_space. cbn [span]. by rewrite H.
Qed.

Lemma scan_word_spec s t :
  0 < slen s -> sforall (fun c => negb (isspace c)) s = true ->
  scan_word (s +:+ String " " t) = Some (s, String " " t).
Proof.
  intros Hl Hs. unfold scan_word. rewrite skip_space_word by done.
  rewrite (span_all _ _ _ _ Hs) by done. by destruct s.
Qed.

Lemma scan_word_space s : scan_word (String " " s) = scan_word s.
Proof. unfold scan_word, skip_space. cbn [span isspace]. by destruct (span isspace s). Qed.

Lemma scan_int_dec n : 0 <= n < 2 ^ 31 -> scan_int (String " " (dec n)) = Some n.
Proof.
  intros Hn. unfold scan_int, dec. rewrite (proj2 (Z.ltb_ge _ _)) by lia.
  destruct (scan_print 64 10 n 0 0) as (j & Hj & Hs); [lia..|].
  pose proof (print_base_digits 64 10 n ltac:(lia) ltac:(lia)) as Hd.
  assert (Hsp : scan_sign (skip_space (String " " (print_base 64 10 n ""))) =
                (false, print_base 64 10 n "")).
  { unfold skip_space. cbn [span isspace]. destruct (print_base 64 10 n "") as [|c s] eqn:E.
    - cbn in Hs. simplify_eq. lia.
    - cbn in Hd. apply andb_prop in Hd as [Hc _]. unfold isdigit in Hc. bool_to_prop.
      change ((span isspace (String " " (String c s))).2) with ((span isspace (String c s)).2).
      assert (Hsc : isspace c = false).
      { unfold isspace. destruct (Z.eqb_spec (code c) 32), (Z.leb_spec 9 (code c)),
          (Z.leb_spec (code c) 13); done || lia. }
      cbn [span]. rewrite Hsc. cbn [snd]. unfold scan_sign.
      assert (Hm : c <> "-"%char) by (intros ->; by vm_compute in H).
      assert (Hp : c <> "+"%char) by (intros ->; by vm_compute in H).
      change (isspace " ") with true. cbn [snd]. by rewrite !decide_False. }
  rewrite Hsp, Hs. cbn [Nat.add Nat.eqb]. destruct j; [lia|].
  rewrite Z.mul_0_l, Z.add_0_l, s32_small by lia. done.
Qed.

Lemma sscanf_node ifname dir n :
  0 < slen ifname -> sforall name_char ifname = true -> 0 <= n < 2 ^ 31 ->
  sscanf_name (smap dash_to_space (node_name ifname dir n)) =
  mk_scanned (Some ifname) (Some (dir_name dir)) (Some n).
Proof.
  intros Hl Hn Hp. rewrite scan_buffer by (done || lia). unfold sscanf_name.
  rewrite scan_word_spec; [|done|].
  2:{ eapply sforall_impl; [|exact Hn]. by intros c [Hc _]%andb_prop. }
  rewrite scan_word_space, scan_word_spec by (by destruct dir).
  change (strip_prefix "cpu" (skip_space (String " " ("cpu" +:+ String " " (dec n)))))
    with (Some (String " " (dec n))).
  cbv beta iota. by rewrite scan_int_dec.
Qed.

Lemma slen_dec_small n : 0 <= n < 100 -> slen (dec n) <= 2.
Proof.
  intros Hn. unfold dec. rewrite (proj2 (Z.ltb_ge _ _)) by lia.
  destruct (Z.ltb_spec n 10) as [Hs|Hs].
  - cbn [print_base]. rewrite (proj2 (Z.ltb_lt _ _)) by lia. done.
  - assert (Hq : n / 10 < 10) by (apply Z.div_lt_upper_bound; lia).
    change (slen (if n <? 10 then String (digit_char n) "" else
      if n / 10 <? 10 then String (digit_char (n / 10)) (String (digit_char (n mod 10)) "")
      else print_base 62 10 (n / 10 / 10)
             (String (digit_char (n / 10 mod 10)) (String (digit_char (n mod 10)) ""))) <= 2).
    rewrite (proj2 (Z.ltb_ge n 10)), (proj2 (Z.ltb_lt (n / 10) 10)) by lia. done.
Qed.

Lemma slen_node_name ifname dir n :
  0 <= n < 100 -> slen (node_name ifname dir n) <= slen ifname + 10.
Proof.
  intros Hn. pose proof (slen_dec_small n Hn). unfold node_name. rewrite !slen_app.
  assert (slen (dir_name dir) = 2) as -> by (by destruct dir).
  change (slen "-") with 1. change (slen "-cpu-") with 5. lia.
Qed.

(** Opening one of the module's own nodes, up to the state of the device. *)
Lemma open_node {skb : Type} (table : string -> option (bool * pval_dev skb)) ifname dir n pdev :
  ifname_ok ifname = true -> 0 <= n < 100 -> table ifname = Some (true, pdev) ->
  pval_file_open table (node_name ifname dir n) =
    if n >? pd_num_cpus pdev then OpenErr (- EINVAL)
    else match mdev_at pdev dir n with
         | None => OpenFault
         | Some m => if m_opened m then OpenErr (- EBUSY)
                     else OpenOk dir n (upd_mdev pdev dir n
                            (set_ring (set_opened m true) (ring_zero (m_ring m))))
         end.
Proof.
  unfold ifname_ok. intros Hif Hn Ht. bool_to_prop.
  pose proof (slen_node_name ifname dir n Hn). unfold pval_file_open, PVAL_NAME_MAX, IFNAMSIZ in *.
  rewrite (proj2 (Z.leb_gt _ _)) by lia.
  change (smap _ (node_name ifname dir n)) with (smap dash_to_space (node_name ifname dir n)).
  rewrite sscanf_node by (done || lia). cbn [sc_devname sc_direct sc_cpu fits16].
  rewrite (proj2 (Z.ltb_lt (slen ifname) 16)), Ht by lia.
  destruct dir; cbn; destruct (n >? pd_num_cpus pdev); done.
Qed.

Definition opened_mdev {skb : Type} (m : pval_mdev skb) : pval_mdev skb :=
  set_ring (set_opened m true) (ring_zero (m_ring m)).

(** What a successful open found, and that the same name on a table answering
    with the device [pdev'] then depends only on the entry it designates. *)
Lemma open_ok_inv {skb : Type} (table : string -> option (bool * pval_dev skb)) name dir cpu d' :
  pval_file_open table name = OpenOk dir cpu d' ->
  exists (pdev : pval_dev skb) (m : pval_mdev skb), mdev_at pdev dir cpu = Some m /\ m_opened m = false /\
    cpu <= pd_num_cpus pdev /\ d' = upd_mdev pdev dir cpu (opened_mdev m) /\
    forall (pdev' : pval_dev skb) (m' : pval_mdev skb), pd_num_cpus pdev' = pd_num_cpus pdev -> mdev_at pdev' dir cpu = Some m' ->
      pval_file_open (fun _ => Some (true, pdev')) name =
      if m_opened m' then OpenErr (- EBUSY)
      else OpenOk dir cpu (upd_mdev pdev' dir cpu (opened_mdev m')).
Proof.
  unfold pval_file_open. destruct (PVAL_NAME_MAX <=? slen name); [done|].
  set (v := sscanf_name _). destruct (negb _); [done|].
  destruct (sc_devname v) as [dn|]; [|done].
  destruct (table dn) as [[[] pdev]|]; [|done..].
  destruct (sc_cpu v) as [c|]; [|done]. destruct (c >? pd_num_cpus pdev) eqn:Hc; [done|].
  destruct (sc_direct v) as [di|]; [|done].
  destruct (has_prefix "tx" di).
  2: destruct (has_prefix "rx" di); [|done].
  all: destruct (mdev_at pdev _ c) as [m|] eqn:Hm; [|done].
  all: destruct (m_opened m) eqn:Ho; [done|].
  all: intros [= <- <- <-]; exists pdev, m; bool_to_prop; split_and!; try done.
  all: intros pdev' m' -> ->; rewrite Z.gtb_ltb, (proj2 (Z.ltb_ge _ _)) by done; done.
Qed.

Lemma num_cpus_upd {skb : Type} (d : pval_dev skb) dir i m :
  pd_num_cpus (upd_mdev d dir i m) = pd_num_cpus d.
Proof. by destruct dir. Qed.

(** ** Theorems *)

(** A device with every node closed, to evaluate the definitions on. *)
Definition sample_mdev (ifname : string) (dir : direction) (n : Z) : pval_mdev unit :=
  mk_pval_mdev (mdev_name ifname dir n) n false
    (mk_pval_ring n 0 0 (PVAL_SLOT_NUM - 1) []) 0 None.

Definition sample_dev (cpus : Z) : pval_dev unit :=
  mk_pval_dev "pval0" (Some 2) 0 false false false false false true
    (mk_hwtstamp_config 0 0 0) cpus
    ((fun n => sample_mdev "pval0" TX (Z.of_nat n)) <$> seq 0 16)
    ((fun n => sample_mdev "pval0" RX (Z.of_nat n)) <$> seq 0 16).

Definition sample_table (cpus : Z) (s : string) : option (bool * pval_dev unit) :=
  if decide (s = "pval0") then Some (true, sample_dev cpus) else None.

(** The name [pval_newlink] gives the node of CPU [n] is never truncated and
    is one [pval_file_open] understands: for an interface name without dashes or
    white space, opening the node reaches the device's entry for that direction
    and CPU, marks it opened and flushes its ring. *)
Theorem open_reaches_node {skb : Type} (table : string -> option (bool * pval_dev skb))
    ifname dir n pdev m :
  ifname_ok ifname = true -> 0 <= n < pd_num_cpus pdev -> pd_num_cpus pdev <= PVAL_MAX_CPUS ->
  table ifname = Some (true, pdev) -> mdev_at pdev dir n = Some m -> m_opened m = false ->
  mdev_name ifname dir n = "pval/" +:+ node_name ifname dir n /\
  pval_file_open table (node_name ifname dir n) = OpenOk dir n (upd_mdev pdev dir n (opened_mdev m)) /\
  ring_emtpy (m_ring (opened_mdev m)) = true.
Proof.
  intros Hif Hn Hc Ht Hm Ho. unfold PVAL_MAX_CPUS in Hc. split_and!; [| |done].
  - unfold ifname_ok in Hif. bool_to_prop. pose proof (slen_node_name ifname dir n ltac:(lia)).
    unfold mdev_name, PVAL_NAME_MAX, IFNAMSIZ. apply substring_full.
    rewrite slen_app. change (slen "pval/") with 5. lia.
  - rewrite (open_node _ _ _ _ pdev), Hm, Ho by (done || lia).
    by rewrite Z.gtb_ltb, (proj2 (Z.ltb_ge _ _)) by lia.
Qed.

Lemma open_reaches_node_witness :
  pval_file_open (sample_table 4) "pval0-rx-cpu-3" =
  OpenOk RX 3 (upd_mdev (sample_dev 4) RX 3 (opened_mdev (sample_mdev "pval0" RX 3))).
Proof.
  apply (open_reaches_node (sample_table 4) "pval0" RX 3 (sample_dev 4) (sample_mdev "pval0" RX 3));
    vm_compute; first [reflexivity | split; [discriminate|reflexivity] | discriminate].
Defined.

(** A node has at most one reader: once an open has succeeded, opening the
    same node again fails with [-EBUSY] until it is released, after which it can
    be opened again; neither the open nor the release touches another node. *)
Theorem open_is_exclusive {skb : Type} (table : string -> option (bool * pval_dev skb)) name dir cpu d1 :
  pval_file_open table name = OpenOk dir cpu d1 ->
  pval_file_open (fun _ => Some (true, d1)) name = OpenErr (- EBUSY) /\
  exists d2, pval_file_release d1 dir cpu = Some d2 /\
    (exists d3, pval_file_open (fun _ => Some (true, d2)) name = OpenOk dir cpu d3) /\
    forall dir' cpu', (dir, cpu) <> (dir', cpu') -> mdev_at d2 dir' cpu' = mdev_at d1 dir' cpu'.
Proof.
  intros (pdev & m & Hm & Ho & Hc & -> & Hgen)%open_ok_inv.
  pose proof Hm as [Hr _]%mdev_at_Some.
  pose proof (mdev_at_upd _ _ _ _ (opened_mdev m) Hm) as Hm1. split.
  - rewrite (Hgen _ _ (num_cpus_upd _ _ _ _) Hm1). done.
  - unfold pval_file_release. rewrite Hm1. cbn [mbind option_bind]. eexists. split; [done|].
    pose proof (mdev_at_upd _ _ _ _
      (set_opened (set_ring (opened_mdev m) (ring_zero (m_ring (opened_mdev m)))) false) Hm1) as Hm2.
    split.
    + eexists. rewrite (Hgen _ _ (eq_trans (num_cpus_upd _ _ _ _) (num_cpus_upd _ _ _ _)) Hm2). done.
    + intros dir' cpu' Hne. apply mdev_at_upd_ne; [lia|done].
Qed.

Definition sample_opened : pval_dev unit :=
  upd_mdev (sample_dev 4) TX 0 (opened_mdev (sample_mdev "pval0" TX 0)).

Lemma open_is_exclusive_witness :
  pval_file_open (fun _ => Some (true, sample_opened)) "pval0-tx-cpu-0" = OpenErr (- EBUSY).
Proof.
  apply (open_is_exclusive (sample_table 4) "pval0-tx-cpu-0" TX 0). vm_compute. reflexivity.
Defined.

(** The CPU check of [pval_file_open] lets the index [num_cpus] through: on
    a device with all [PVAL_MAX_CPUS] entries in use, opening the node name of
    CPU [PVAL_MAX_CPUS] addresses memory past the end of the array. *)
Theorem open_admits_num_cpus {skb : Type} (table : string -> option (bool * pval_dev skb))
    ifname dir pdev :
  ifname_ok ifname = true -> table ifname = Some (true, pdev) ->
  pd_num_cpus pdev = PVAL_MAX_CPUS ->
  pval_file_open table (node_name ifname dir PVAL_MAX_CPUS) = OpenFault.
Proof.
  intros Hif Ht Hc. rewrite (open_node _ _ _ _ pdev) by (done || (unfold PVAL_MAX_CPUS; lia)).
  rewrite Hc. unfold mdev_at. by rewrite Z.gtb_ltb, !Z.ltb_irrefl, andb_false_r.
Qed.

Lemma open_admits_num_cpus_witness :
  pval_file_open (sample_table 16) "pval0-tx-cpu-16" = OpenFault.
Proof. apply (open_admits_num_cpus (sample_table 16) "pval0" TX (sample_dev 16));
  vm_compute; reflexivity. Defined.
