(* ===== verification/Xmit.v ===== *)
(** * The data path: transmission, reception and time stamp retrieval

    Models [pval_xmit], [pdev_handle_frame], [pval_txtstamp_work] and
    [pval_txtstamp_work2] of [kmod/pval_main.c]. The socket buffer and the kernel
    functions on it are an interface, [SkbOps] with the laws [SkbLaws] that state
    their documented behaviour; the answers of the allocators, of the lower
    device and of the clock are arguments. [None] is an access outside the
    buffer, outside an array or through a null pointer. *)
From stdpp Require Import base list numbers strings.
From Stdlib Require Import ZArith Lia.
From S2P Require Import Prelude OnesComp Abi Checksum InCksum Ring State.

Open Scope Z_scope.

(** ** The socket buffer interface *)

(** A network device as [skb->dev] names it. *)
Inductive dev_ref := LinkDev (ifindex : Z) | PvalDev (name : string).

Class SkbOps (skb : Type) `{SkbView skb} := {
  skb_head : skb -> list Z;                 (* the linear buffer from [head] on *)
  skb_store : skb -> list Z -> skb;         (* stores into it *)
  skb_data_off : skb -> Z;                  (* [data - head] *)
  skb_mac_off : skb -> Z;                   (* [skb_mac_header - head] *)
  skb_net_off : skb -> Z;                   (* [skb_network_header - head] *)
  __skb_push : skb -> Z -> skb;
  skb_reset_mac_header : skb -> skb;
  skb_set_network_header : skb -> Z -> skb;
  skb_scrub_packet : skb -> bool -> skb;
  skb_orphan : skb -> skb;
  skb_tx_flags : skb -> Z;                  (* [skb_shinfo(skb)->tx_flags] *)
  skb_set_tx_flags : skb -> Z -> skb;
  skb_set_dev : skb -> dev_ref -> skb;
  skb_set_pkt_type : skb -> Z -> skb
}.

(** The two buffers hold the same frame. *)
Record same_frame {skb : Type} `{SkbOps skb} (a b : skb) : Prop := mk_same_frame {
  sf_head : skb_head a = skb_head b;
  sf_data : skb_data_off a = skb_data_off b;
  sf_mac : skb_mac_off a = skb_mac_off b;
  sf_len : skb_len a = skb_len b
}.

(** The fields the data path never changes. *)
Definition same_meta {skb : Type} `{SkbView skb} (a b : skb) : Prop :=
  skb_mac_len a = skb_mac_len b /\ skb_hwtstamp a = skb_hwtstamp b.

Class SkbLaws (skb : Type) `{SkbOps skb} := {
  law_meta : forall s,
    (forall n, same_meta (__skb_push s n) s) /\ same_meta (skb_reset_mac_header s) s /\
    (forall n, same_meta (skb_set_network_header s n) s) /\ (forall l, same_meta (skb_store s l) s) /\
    (forall x, same_meta (skb_scrub_packet s x) s) /\ same_meta (skb_orphan s) s /\
    (forall f, same_meta (skb_set_tx_flags s f) s) /\ (forall d, same_meta (skb_set_dev s d) s) /\
    (forall t, same_meta (skb_set_pkt_type s t) s);
  law_view : forall s, 0 <= skb_mac_off s ->
    skb_mac_header s = drop (Z.to_nat (skb_mac_off s)) (skb_head s);
  law_push : forall s n, skb_head (__skb_push s n) = skb_head s /\
    skb_data_off (__skb_push s n) = skb_data_off s - n /\ skb_len (__skb_push s n) = skb_len s + n;
  law_reset_mac : forall s, skb_head (skb_reset_mac_header s) = skb_head s /\
    skb_data_off (skb_reset_mac_header s) = skb_data_off s /\
    skb_mac_off (skb_reset_mac_header s) = skb_data_off s /\
    skb_len (skb_reset_mac_header s) = skb_len s;
  law_set_net : forall s n, same_frame (skb_set_network_header s n) s /\
    skb_net_off (skb_set_network_header s n) = skb_data_off s + n;
  law_store : forall s l, skb_head (skb_store s l) = l /\
    skb_data_off (skb_store s l) = skb_data_off s /\ skb_mac_off (skb_store s l) = skb_mac_off s /\
    skb_net_off (skb_store s l) = skb_net_off s /\ skb_len (skb_store s l) = skb_len s;
  law_scrub : forall s x, same_frame (skb_scrub_packet s x) s /\
    skb_net_off (skb_scrub_packet s x) = skb_net_off s;
  law_orphan : forall s, same_frame (skb_orphan s) s /\ skb_net_off (skb_orphan s) = skb_net_off s;
  law_tx_flags : forall s f, same_frame (skb_set_tx_flags s f) s /\
    skb_net_off (skb_set_tx_flags s f) = skb_net_off s;
  law_set_dev : forall s d, same_frame (skb_set_dev s d) s;
  law_pkt_type : forall s t, same_frame (skb_set_pkt_type s t) s
}.

(** ** Constants *)

Definition IFF_UP : Z := 1.
Definition NETDEV_TX_OK : Z := 0.
Definition NETDEV_TX_BUSY : Z := 16.
Definition ETH_P_IP : Z := 0x0800.
Definition SKBTX_HW_TSTAMP : Z := 1.
Definition PACKET_HOST : Z := 0.
Definition sizeof_ethhdr : Z := 14.
Definition sizeof_iphdr : Z := 20.

Section DataPath.
Context {skb : Type} `{SkbLaws skb}.

(** ** Transmission *)

(** [ihl] is the low half of the first byte of the header on a little-endian
    host: the addition wraps at four bits and leaves [version] alone. *)
Definition ihl_add (b n : Z) : Z := Z.lor (Z.land b 0xF0) (Z.land (Z.land b 0x0F + n) 0x0F).

(** The block of [pval_xmit] that inserts the option, from [__skb_push] to
    [skb_orphan]. *)
Definition insert_ipopt (cpu seq : Z) (s : skb) : option skb :=
  let eth_old := skb_mac_off s in
  let iph_old := skb_net_off s in
  let s1 := __skb_push s sizeof_ipopt_pval in
  let s2 := skb_reset_mac_header s1 in
  let s3 := skb_set_network_header s2 sizeof_ethhdr in
  let eth_new := skb_mac_off s3 in
  let iph_new := skb_net_off s3 in
  eth ← mem_read (skb_head s3) eth_old sizeof_ethhdr;
  m1 ← mem_write (skb_head s3) eth_new eth;
  iph ← mem_read m1 iph_old sizeof_iphdr;
  m2 ← mem_write m1 iph_new iph;
  m3 ← mem_write m2 (iph_new + sizeof_iphdr)
         (ipopt_pval_bytes (mk_ipopt_pval IPOPT_PVAL sizeof_ipopt_pval 0 cpu seq));
  vihl ← mem_read m3 iph_new 1;
  m4 ← mem_write m3 iph_new [ihl_add (le_val vihl) (Z.shiftr sizeof_ipopt_pval 2)];
  tot ← mem_read m4 (iph_new + 2) 2;
  m5 ← mem_write m4 (iph_new + 2)
         (le_bytes 2 (bswap16 (u16 (bswap16 (le_val tot) + sizeof_ipopt_pval))));
  m6 ← mem_write m5 (iph_new + 10) (le_bytes 2 0);
  sum ← checksum (drop (Z.to_nat iph_new) m6) (sizeof_iphdr + sizeof_ipopt_pval) 0;
  m7 ← mem_write m6 (iph_new + 10) (le_bytes 2 (wrapsum sum));
  Some (skb_orphan (skb_scrub_packet (skb_store s3 m7) false)).

(** What the call does to the world outside the device. *)
Inductive tx_event :=
  | EvClone (c : skb)              (* a reference to a clone was obtained *)
  | EvQueue (s : skb)              (* handed to the lower device *)
  | EvSchedule (w : pval_worker skb)
  | EvFree (s : skb).              (* the reference was dropped *)

(** The environment of one call. *)
Record tx_env := mk_tx_env {
  e_cpu : Z;                       (* smp_processor_id() *)
  e_link_flags : Z;                (* pdev->link->flags *)
  e_skb_clone : skb -> option skb; (* skb_clone(skb, GFP_ATOMIC) *)
  e_queue_xmit : skb -> Z;         (* dev_queue_xmit(skb) *)
  e_kmalloc : bool;                (* whether the worker was allocated *)
  e_jiffies : Z
}.

Record tx_result := mk_tx_result {
  x_rc : Z;
  x_dev : pval_dev skb;
  x_skb : skb;                     (* the buffer at the return *)
  x_events : list tx_event
}.

(** The part before the label [xmit]: the device and the buffer that reach it. *)
Definition xmit_head (env : tx_env) (pdev : pval_dev skb) (s : skb)
  : option (pval_dev skb * skb) :=
  if negb (pd_ipopt pdev) then Some (pdev, s)
  else
    proto ← mem_read (skb_head s) (skb_mac_off s + 12) 2;
    if negb (bswap16 (le_val proto) =? ETH_P_IP) then Some (pdev, s)
    else
      s' ← insert_ipopt (e_cpu env) (pd_seq pdev) s;
      Some (set_seq pdev (u64 (pd_seq pdev + 1)), s').

(** The part after [dev_queue_xmit]. *)
Definition xmit_done (env : tx_env) (pdev : pval_dev skb) (pmdev : pval_mdev skb)
  (clone : option skb) (rc : Z) : option (pval_dev skb * list tx_event) :=
  if negb (rc =? NETDEV_TX_OK) then Some (pdev, [])
  else if pd_txtstamp pdev then
    if negb (e_kmalloc env) then Some (pdev, [])
    else
      c ← clone;
      Some (pdev, [EvSchedule (mk_pval_worker c (e_cpu env) (e_jiffies env))])
  else if pd_txcopy pdev then
    c ← clone;
    if m_opened pmdev then
      '(_, r') ← write_to_ring (m_ring pmdev) c;
      Some (upd_mdev pdev TX (e_cpu env) (set_ring pmdev r'), [EvFree c])
    else Some (pdev, [EvFree c])
  else Some (pdev, []).

Definition pval_xmit (env : tx_env) (pdev : pval_dev skb) (s : skb) : option tx_result :=
  pmdev ← mdev_at pdev TX (e_cpu env);
  link ← pd_link pdev;
  if Z.land (e_link_flags env) IFF_UP =? 0 then Some (mk_tx_result NETDEV_TX_BUSY pdev s [])
  else
    '(pdev1, s1) ← xmit_head env pdev s;
    let s2 := if pd_txtstamp pdev1
              then skb_set_tx_flags s1 (Z.lor (skb_tx_flags s1) SKBTX_HW_TSTAMP) else s1 in
    let want := pd_txtstamp pdev1 || pd_txcopy pdev1 in
    let clone := if want then e_skb_clone env s2 else None in
    match want, clone with
    | true, None => Some (mk_tx_result NETDEV_TX_BUSY pdev1 s2 [])
    | _, _ =>
        let s3 := skb_set_dev s2 (LinkDev link) in
        let rc := e_queue_xmit env s3 in
        '(pdev2, ev) ← xmit_done env pdev1 pmdev clone rc;
        Some (mk_tx_result rc pdev2 s3
                (match clone with Some c => [EvClone c] | None => [] end ++ EvQueue s3 :: ev))
    end.

(** ** Reception *)

Inductive rx_result :=
  | RX_HANDLER_CONSUMED
  | RX_HANDLER_ANOTHER (s : skb).

(** [share_check] is [skb_share_check(skb, GFP_ATOMIC)]; [pdev] the handler's
    data. *)
Definition pdev_handle_frame (share_check : skb -> option skb) (cpu : Z) (pdev : pval_dev skb)
  (s : skb) : option (rx_result * pval_dev skb) :=
  match share_check s with
  | None => Some (RX_HANDLER_CONSUMED, pdev)
  | Some s0 =>
      let s1 := skb_set_pkt_type (skb_set_dev s0 (PvalDev (pd_name pdev))) PACKET_HOST in
      if pd_rxcopy pdev then
        pmdev ← mdev_at pdev RX cpu;
        if m_opened pmdev then
          '(_, r') ← write_to_ring (m_ring pmdev) s1;
          Some (RX_HANDLER_ANOTHER s1, upd_mdev pdev RX cpu (set_ring pmdev r'))
        else Some (RX_HANDLER_ANOTHER s1, pdev)
      else Some (RX_HANDLER_ANOTHER s1, pdev)
  end.

(** ** Time stamp retrieval *)

Inductive work_event := WFreeSkb | WFreeWorker | WResched.

Definition is_resched (e : work_event) : bool := match e with WResched => true | _ => false end.

(** [HZ] is a constant of the kernel's build. *)
Definition PVAL_TXTSTAMP_TIMEOUT (HZ : Z) : Z := HZ * 1.

(** [before] is [time_is_before_jiffies] at the time of the call. *)
Definition pval_txtstamp_work (before : Z -> bool) (HZ : Z) (pdev : pval_dev skb)
  (pmdev : pval_mdev skb) : option (pval_mdev skb * list work_event) :=
  let timeout := before (u64 (m_txtstamp_start pmdev + PVAL_TXTSTAMP_TIMEOUT HZ)) in
  match m_cloned_skb pmdev with
  | None => Some (pmdev, [])
  | Some c =>
      if negb (skb_hwtstamp c =? 0) then
        pmdev' ← (if pd_txcopy pdev && m_opened pmdev then
                    '(_, r') ← write_to_ring (m_ring pmdev) c; Some (set_ring pmdev r')
                  else Some pmdev);
        Some (set_cloned pmdev' None, [WFreeSkb])
      else if timeout then Some (set_cloned pmdev None, [WFreeSkb])
      else Some (pmdev, [WResched])
  end.

(** [b] is the contents of [*worker->skb], which the lower device completes
    with the time stamp, and [r] those of [*worker->ring]. *)
Definition pval_txtstamp_work2 (before : Z -> bool) (HZ : Z) (b : skb) (w : pval_worker skb)
  (r : pval_ring) : option (pval_ring * list work_event) :=
  let timeout := before (u64 (w_start w + PVAL_TXTSTAMP_TIMEOUT HZ)) in
  if negb (skb_hwtstamp b =? 0) then
    '(_, r') ← write_to_ring r b; Some (r', [WFreeSkb; WFreeWorker])
  else if timeout then Some (r, [WFreeSkb])
  else Some (r, [WResched]).

(** The successive executions of one work item: what it finds each time, and
    the state of the ring between them. *)
Record work_obs := mk_work_obs { o_before : Z -> bool; o_skb : skb }.

(** Runs the worker while it asks to be scheduled again; the number of
    observations left says when it stopped. *)
Fixpoint work2_run (HZ : Z) (w : pval_worker skb) (r : pval_ring) (obs : list work_obs)
  : option (pval_ring * list work_event * list work_obs) :=
  match obs with
  | [] => Some (r, [], [])
  | o :: obs' =>
      '(r', ev) ← pval_txtstamp_work2 (o_before o) HZ (o_skb o) w r;
      if existsb is_resched ev then
        '(r'', ev', rest) ← work2_run HZ w r' obs'; Some (r'', ev ++ ev', rest)
      else Some (r', ev, obs')
  end.

End DataPath.

Arguments tx_env : clear implicits.
Arguments work_obs : clear implicits.
Arguments tx_result : clear implicits.
Arguments tx_event : clear implicits.

(** ** Lists by their elements *)

(** A list of known length, by its elements. *)
Lemma list_S {A} (l : list A) n : length l = S n -> exists x l', l = x :: l' /\ length l' = n.
Proof. destruct l as [|x l']; [done|]. intros [= <-]. by exists x, l'. Qed.

Ltac nat_consts :=
  repeat match goal with
  | |- context [Z.to_nat 0] => change (Z.to_nat 0) with 0%nat
  | |- context [Z.to_nat (Zpos ?p)] =>
      let n := eval vm_compute in (Z.to_nat (Zpos p)) in change (Z.to_nat (Zpos p)) with n
  end.

Lemma le_bytes_2 z : le_bytes 2 z = [z mod 256; (z / 256) mod 256].
Proof. reflexivity. Qed.

Lemma bind_Some_l {A B} (x : A) (f : A -> option B) : Some x ≫= f = f x.
Proof. reflexivity. Qed.

(** One access to an explicit list behind a prefix. *)
Ltac mem_eval :=
  nat_consts; unfold slice, patch; cbn [app length Nat.leb Nat.add take drop]; rewrite ?take_0;
  cbn [app length Nat.leb Nat.add take drop]; rewrite ?drop_0; reflexivity.

Ltac mem_step :=
  rewrite ?le_bytes_2;
  first [erewrite mem_read_at; [|lia|mem_eval] | erewrite mem_write_at; [|lia|mem_eval]];
  rewrite bind_Some_l; cbv beta.

Ltac list_elements l H :=
  match type of H with
  | length l = 0%nat => apply nil_length_inv in H; subst l
  | length l = S ?n =>
      let x := fresh "x" in let l' := fresh "l" in
      apply list_S in H as (x & l' & -> & H); list_elements l' H
  end.

Lemma ihl_add_range b n : 0 <= ihl_add b n < 256.
Proof.
  assert (E : Z.land (ihl_add b n) (2 ^ 8 - 1) = ihl_add b n).
  { unfold ihl_add. by rewrite Z.land_lor_distr_l, <- !Z.land_assoc. }
  rewrite <- E, land_mask by lia. apply (u_range 8). lia.
Qed.

(** The version is kept and the header length grows by three words, modulo 16. *)
Lemma ihl_add_spec b : 0 <= b < 256 -> ihl_add b 3 = 16 * (b / 16) + (b mod 16 + 3) mod 16.
Proof.
  intros Hb. apply Z.eqb_eq. revert b Hb.
  refine (byte_cases (fun b => ihl_add b 3 =? 16 * (b / 16) + (b mod 16 + 3) mod 16) _).
  vm_compute. reflexivity.
Qed.

(** Bytes of an explicit list, from those of the lists it is made of. *)
Ltac byte_elements :=
  repeat match goal with H : bytes_ok (_ :: _) = true |- _ => apply bytes_ok_cons in H as [? H] end;
  repeat match goal with |- bytes_ok (_ :: _) = true => apply bytes_ok_cons; split end;
  first [assumption | done | apply ihl_add_range | apply (u_range 8); done | lia].

(** ** The frame the option is inserted into *)

(** The header after the insertion: [ihl], [tot_len] and [check] updated, the
    option appended. *)
Definition option_header (iph opt : list Z) : list Z :=
  match iph with
  | v :: tos :: t0 :: t1 :: i0 :: i1 :: f0 :: f1 :: ttl :: pr :: _ :: _ :: addrs =>
      let a := [ihl_add v 3; tos]
                 ++ le_bytes 2 (bswap16 (u16 (bswap16 (le_val [t0; t1]) + sizeof_ipopt_pval)))
                 ++ [i0; i1; f0; f1; ttl; pr] in
      let b := addrs ++ opt in
      a ++ le_bytes 2 (wrapsum (oc_fold (be_sum (a ++ [0; 0] ++ b)))) ++ b
  | _ => []
  end.

(** A buffer that holds an Ethernet frame [eth ++ iph ++ rest] with a 20-byte
    fixed IP header [iph] and [sizeof_ipopt_pval] bytes of headroom, after the
    bytes [pre]. *)
Record frame_in {skb : Type} `{SkbOps skb} (s : skb) (pre gap eth iph rest : list Z) : Prop :=
  mk_frame_in {
    fi_head : skb_head s = pre ++ gap ++ eth ++ iph ++ rest;
    fi_ok : bytes_ok (skb_head s) = true;
    fi_gap : length gap = Z.to_nat sizeof_ipopt_pval;
    fi_eth : length eth = Z.to_nat sizeof_ethhdr;
    fi_iph : length iph = Z.to_nat sizeof_iphdr;
    fi_data : skb_data_off s = Z.of_nat (length pre) + sizeof_ipopt_pval;
    fi_mac : skb_mac_off s = skb_data_off s;
    fi_net : skb_net_off s = skb_mac_off s + sizeof_ethhdr
  }.

Lemma frame_in_bytes {skb : Type} `{SkbOps skb} (s : skb) pre gap eth iph rest :
  frame_in s pre gap eth iph rest ->
  bytes_ok eth = true /\ bytes_ok iph = true /\ length eth = 14%nat /\ length iph = 20%nat.
Proof.
  intros [Hh Hok _ He Hi _ _ _]. rewrite Hh, !bytes_ok_app in Hok. split_and!; tauto || done.
Qed.

Definition pval_option (cpu seq : Z) : list Z :=
  ipopt_pval_bytes (mk_ipopt_pval IPOPT_PVAL sizeof_ipopt_pval 0 cpu seq).

Section Insert.
Context {skb : Type} `{SkbLaws skb}.

(* Kept folded by the kernel's conversion test in the proofs of this section. *)
#[local] Opaque checksum wrapsum oc_fold be_sum bswap16 ihl_add.

(** The pointers after [__skb_push], [skb_reset_mac_header] and
    [skb_set_network_header]. *)
Lemma pushed_offsets s :
  let s3 := skb_set_network_header (skb_reset_mac_header (__skb_push s sizeof_ipopt_pval)) sizeof_ethhdr in
  skb_head s3 = skb_head s /\ skb_data_off s3 = skb_data_off s - 12 /\
  skb_mac_off s3 = skb_data_off s - 12 /\ skb_net_off s3 = skb_data_off s - 12 + 14 /\
  skb_len s3 = skb_len s + 12.
Proof.
  intros s3. subst s3. set (s1 := __skb_push s _). set (s2 := skb_reset_mac_header s1).
  destruct (law_push s sizeof_ipopt_pval) as (Ph & Pd & Pl).
  destruct (law_reset_mac s1) as (Rh & Rd & Rm & Rl).
  destruct (law_set_net s2 sizeof_ethhdr) as [[Nh Nd Nm Nl] Nn]. subst s1 s2.
  rewrite Nh, Nd, Nm, Nl, Nn, Rh, Rd, Rm, Rl, Ph, Pd, Pl. unfold sizeof_ipopt_pval, sizeof_ethhdr.
  split_and!; lia || done.
Qed.

Lemma finished_offsets s l :
  let s' := skb_orphan (skb_scrub_packet (skb_store s l) false) in
  skb_head s' = l /\ skb_data_off s' = skb_data_off s /\ skb_mac_off s' = skb_mac_off s /\
  skb_net_off s' = skb_net_off s /\ skb_len s' = skb_len s.
Proof.
  intros s'. subst s'. set (s1 := skb_store s l). set (s2 := skb_scrub_packet s1 false).
  destruct (law_orphan s2) as [[Oh Od Om Ol] On]. destruct (law_scrub s1 false) as [[Sh Sd Sm Sl] Sn].
  destruct (law_store s l) as (Th & Td & Tm & Tn & Tl). subst s1 s2.
  by rewrite Oh, Od, Om, Ol, On, Sh, Sd, Sm, Sl, Sn.
Qed.

Lemma insert_ipopt_spec cpu seq s pre gap eth iph rest :
  frame_in s pre gap eth iph rest ->
  exists s', insert_ipopt cpu seq s = Some s' /\
    skb_head s' = pre ++ eth ++ option_header iph (pval_option cpu seq) ++ rest /\
    skb_data_off s' = Z.of_nat (length pre) /\ skb_mac_off s' = skb_data_off s' /\
    skb_net_off s' = skb_mac_off s' + sizeof_ethhdr /\ skb_len s' = skb_len s + sizeof_ipopt_pval.
Proof.
  intros [Hh Hok Hgap Heth Hiph Hd Hm Hn]. unfold insert_ipopt. cbv zeta.
  destruct (pushed_offsets s) as (Eh & Ed & Em & En & El).
  set (s3 := skb_set_network_header _ _) in *.
  unfold sizeof_ipopt_pval, sizeof_ethhdr, sizeof_iphdr in *.
  assert (Hol : length (pval_option cpu seq) = 12%nat) by apply length_ipopt_pval_bytes.
  assert (Hob : bytes_ok (pval_option cpu seq) = true) by apply bytes_ok_ipopt_pval_bytes.
  rewrite Em, En, Eh, Hn, Hm, Hd. rewrite Hh in *. clear Hh.
  replace (Z.of_nat (length pre) + 12 - 12) with (Z.of_nat (length pre) + 0) by lia.
  rewrite <- !Z.add_assoc. change (12 + 14) with 26. change (0 + 14) with 14.
  change (0 + (14 + 20)) with 34. change (0 + (14 + 2)) with 16. change (0 + (14 + 10)) with 24.
  change (ipopt_pval_bytes _) with (pval_option cpu seq). set (opt := pval_option cpu seq) in *.
  clearbody opt. change (Z.to_nat 12) with 12%nat in *. change (Z.to_nat 14) with 14%nat in *.
  change (Z.to_nat 20) with 20%nat in *. list_elements gap Hgap. list_elements eth Heth. list_elements iph Hiph.
  list_elements opt Hol.
  do 8 mem_step. remember (bswap16 (u16 (bswap16 (le_val [x27; x28]) + 12))) as t eqn:Et.
  do 2 mem_step. rewrite Z2Nat.inj_add, Nat2Z.id by lia. nat_consts. rewrite drop_app_add.
  cbn [drop]. change (20 + 12) with 32. change (0 mod 256) with 0. change ((0 / 256) mod 256) with 0.
  replace (le_val [x25]) with x25 by (cbn; lia). change (Z.shiftr 12 2) with 3.
  rewrite !bytes_ok_app in Hok. destruct Hok as (_ & _ & _ & Hio & Hro).
  rewrite checksum_spec; [|clear - Hio Hro Hob; byte_elements|done|cbn [length]; lia].
  nat_consts. cbn [take]. rewrite take_0.
  rewrite bind_Some_l. cbv beta. remember (wrapsum _) as c eqn:Ec. mem_step. eexists. split; [reflexivity|].
  match goal with |- context [skb_store s3 ?l] =>
    destruct (finished_offsets s3 l) as (Fh & Fd & Fm & Fn & Fl) end.
  rewrite Fh, Fd, Fm, Fn, Fl, Ed, Em, En, El, Hd. split_and!; [|lia..].
  unfold option_header, sizeof_ipopt_pval. cbv zeta. rewrite <- Et, !le_bytes_2. cbn [app].
  rewrite <- Ec. reflexivity.
Qed.

Lemma be_val_swapped w : 0 <= w < 65536 -> be_val (le_bytes 2 (bswap16 w)) = w.
Proof.
  intros. rewrite le_bytes_bswap16 by done. cbn. pose proof (Z.div_mod w 256). lia.
Qed.

(** The inserted header: what changes and what does not. *)
Lemma option_header_parts iph opt :
  length iph = 20%nat -> bytes_ok iph = true -> bytes_ok opt = true ->
  exists hdr, option_header iph opt = hdr ++ opt /\ length hdr = 20%nat /\ bytes_ok hdr = true /\
    hdr !!! 0%nat = 16 * (iph !!! 0%nat / 16) + ((iph !!! 0%nat) mod 16 + 3) mod 16 /\
    be_val (take 2 (drop 2 hdr)) = (be_val (take 2 (drop 2 iph)) + 12) mod 65536 /\
    hdr !! 1%nat = iph !! 1%nat /\ take 6 (drop 4 hdr) = take 6 (drop 4 iph) /\
    drop 12 hdr = drop 12 iph /\ oc_fold (be_sum (hdr ++ opt)) = 65535.
Proof.
  intros Hl Hi Ho. list_elements iph Hl. unfold option_header. cbv zeta.
  set (t := bswap16 (u16 (bswap16 (le_val [x1; x2]) + _))).
  set (a := [ihl_add x 3; x0] ++ le_bytes 2 t ++ [x3; x4; x5; x6; x7; x8]).
  set (c := wrapsum _). set (b := [x11; x12; x13; x14; x15; x16; x17; x18]).
  exists (a ++ le_bytes 2 c ++ b).
  assert (Hab : bytes_ok a = true /\ bytes_ok b = true).
  { split; subst a b; cbn [le_bytes app]; byte_elements. }
  destruct Hab as [Ha Hb]. split_and!; try done.
  - rewrite !bytes_ok_app. auto with pval.
  - apply ihl_add_spec. byte_elements.
  - change (be_val (le_bytes 2 t) = (be_val [x1; x2] + 12) mod 65536). subst t.
    rewrite be_val_swapped by apply u16_range. unfold u16, sizeof_ipopt_pval.
    rewrite bswap16_word by byte_elements. do 2 f_equal. cbn. lia.
  - rewrite <- !app_assoc. apply checksum_fill; try done. apply bytes_ok_app. done.
Qed.

End Insert.

(** ** Transmission, path by path *)

Section Paths.
Context {skb : Type} `{SkbLaws skb}.
Implicit Types (s : skb) (env : tx_env skb) (pdev : pval_dev skb).

Lemma same_frame_trans a b c : same_frame a b -> same_frame b c -> same_frame a c.
Proof. intros [] []. split; congruence. Qed.

Lemma same_meta_trans (a b c : skb) : same_meta a b -> same_meta b c -> same_meta a c.
Proof. intros [] []. split; congruence. Qed.

Lemma same_frame_mac_header a b :
  0 <= skb_mac_off b -> same_frame a b -> skb_mac_header a = skb_mac_header b.
Proof. intros ? [Eh _ Em _]. rewrite !law_view by lia. by rewrite Eh, Em. Qed.

Lemma insert_ipopt_meta cpu seq s s' : insert_ipopt cpu seq s = Some s' -> same_meta s' s.
Proof.
  unfold insert_ipopt. intros E. repeat (apply bind_Some in E as (? & _ & E)). injection E as <-.
  repeat (eapply same_meta_trans; [apply law_meta|]). split; reflexivity.
Qed.

(** The label [xmit] is reached with the buffer unchanged. *)
Lemma xmit_head_skip env pdev s proto :
  mem_read (skb_head s) (skb_mac_off s + 12) 2 = Some proto ->
  pd_ipopt pdev = false \/ bswap16 (le_val proto) <> ETH_P_IP ->
  xmit_head env pdev s = Some (pdev, s).
Proof.
  intros Hp [Hi|Hi]; unfold xmit_head; [by rewrite Hi|]. destruct (pd_ipopt pdev); [|done].
  rewrite Hp. cbn [negb mbind option_bind]. by rewrite (proj2 (Z.eqb_neq _ _)).
Qed.

(** What [pval_xmit] makes of the frame before it is cloned and queued. *)
Definition marked pdev s : skb :=
  if pd_txtstamp pdev then skb_set_tx_flags s (Z.lor (skb_tx_flags s) SKBTX_HW_TSTAMP) else s.

Lemma marked_same pdev s : same_frame (marked pdev s) s /\ same_meta (marked pdev s) s.
Proof.
  unfold marked. destruct (pd_txtstamp pdev); [split; [apply law_tx_flags|apply law_meta]|].
  split; split; reflexivity.
Qed.

Definition wants_clone pdev : bool := pd_txtstamp pdev || pd_txcopy pdev.

(** The lower link is up and the CPU has its character device. *)
Definition link_up env pdev (link : Z) (m : pval_mdev skb) : Prop :=
  mdev_at pdev TX (e_cpu env) = Some m /\ pd_link pdev = Some link /\
  Z.land (e_link_flags env) IFF_UP <> 0.

(** Cloning succeeds and gives the same frame. *)
Definition clones env : Prop :=
  forall b, exists c, e_skb_clone env b = Some c /\ same_frame c b /\ same_meta c b.

Lemma pval_xmit_no_clone env pdev s link m pdev1 s1 :
  link_up env pdev link m -> xmit_head env pdev s = Some (pdev1, s1) ->
  wants_clone pdev1 = false ->
  let s3 := skb_set_dev s1 (LinkDev link) in
  pval_xmit env pdev s = Some (mk_tx_result (e_queue_xmit env s3) pdev1 s3 [EvQueue s3]).
Proof.
  intros (Hm & Hl & Hu) Hh Hw s3. unfold pval_xmit. rewrite Hm, Hl. cbn [mbind option_bind].
  rewrite (proj2 (Z.eqb_neq _ _)), Hh by done. cbn [mbind option_bind].
  fold (wants_clone pdev1). unfold wants_clone in *. apply orb_false_iff in Hw as [Ht Hc].
  rewrite Ht, Hc. cbn [orb]. cbv zeta iota. unfold xmit_done. rewrite Ht, Hc.
  destruct (negb _); reflexivity.
Qed.

Lemma pval_xmit_clone_fails env pdev s link m pdev1 s1 :
  link_up env pdev link m -> xmit_head env pdev s = Some (pdev1, s1) ->
  wants_clone pdev1 = true -> e_skb_clone env (marked pdev1 s1) = None ->
  pval_xmit env pdev s = Some (mk_tx_result NETDEV_TX_BUSY pdev1 (marked pdev1 s1) []).
Proof.
  intros (Hm & Hl & Hu) Hh Hw Hc. unfold pval_xmit. rewrite Hm, Hl. cbn [mbind option_bind].
  rewrite (proj2 (Z.eqb_neq _ _)), Hh by done. cbn [mbind option_bind].
  fold (wants_clone pdev1) (marked pdev1 s1). by rewrite Hw, Hc.
Qed.

Lemma pval_xmit_clone env pdev s link m pdev1 s1 c :
  link_up env pdev link m -> xmit_head env pdev s = Some (pdev1, s1) ->
  wants_clone pdev1 = true -> e_skb_clone env (marked pdev1 s1) = Some c ->
  let s3 := skb_set_dev (marked pdev1 s1) (LinkDev link) in
  pval_xmit env pdev s =
    ('(pdev2, ev) ← xmit_done env pdev1 m (Some c) (e_queue_xmit env s3);
     Some (mk_tx_result (e_queue_xmit env s3) pdev2 s3 (EvClone c :: EvQueue s3 :: ev))).
Proof.
  intros (Hm & Hl & Hu) Hh Hw Hc s3. unfold pval_xmit. rewrite Hm, Hl. cbn [mbind option_bind].
  rewrite (proj2 (Z.eqb_neq _ _)), Hh by done. cbn [mbind option_bind].
  fold (wants_clone pdev1) (marked pdev1 s1). by rewrite Hw, Hc.
Qed.

(** ** Composing the parts *)

Lemma write_total r b :
  ring_ok r = true -> skb_ok b = true ->
  exists n r', write_to_ring r b = Some (n, r') /\ ring_ok r' = true.
Proof.
  intros Hr Hb. destruct (ring_full r) eqn:Ef; [by exists 0, r; rewrite write_full|].
  destruct (write_not_full r b Hr Hb Ef) as (r' & ? & ? & ? & _). by eexists _, _.
Qed.

Lemma pd_seq_upd pdev dir i m : pd_seq (upd_mdev pdev dir i m) = pd_seq pdev.
Proof. by destruct dir. Qed.

Lemma xmit_done_total env pdev m c rc :
  ring_ok (m_ring m) = true -> skb_ok c = true ->
  exists pdev2 ev, xmit_done env pdev m (Some c) rc = Some (pdev2, ev) /\ pd_seq pdev2 = pd_seq pdev.
Proof.
  intros Hr Hc. unfold xmit_done. destruct (negb _); [by eexists _, _|].
  destruct (pd_txtstamp pdev); [destruct (negb _); by eexists _, _|].
  destruct (pd_txcopy pdev), (m_opened m); try by eexists _, _.
  cbn [mbind option_bind]. destruct (write_total _ _ Hr Hc) as (n & r' & -> & _).
  cbn [mbind option_bind]. eexists _, _. split; [done|]. apply pd_seq_upd.
Qed.

(** Once the label [xmit] is reached with [s1], the frame of [s1] is queued. *)
Lemma pval_xmit_queues env pdev s link m pdev1 s1 :
  link_up env pdev link m -> xmit_head env pdev s = Some (pdev1, s1) -> clones env ->
  ring_ok (m_ring m) = true -> 0 <= skb_mac_off s1 -> skb_ok s1 = true ->
  exists res s', pval_xmit env pdev s = Some res /\ x_rc res = e_queue_xmit env s' /\
    EvQueue s' ∈ x_events res /\ same_frame s' s1 /\ pd_seq (x_dev res) = pd_seq pdev1.
Proof.
  intros Hup Hh Hcl Hr Hmac Hok. destruct (wants_clone pdev1) eqn:Ew.
  2:{ eexists _, _. split_and!; [by eapply pval_xmit_no_clone|done|by left|apply law_set_dev|done]. }
  destruct (marked_same pdev1 s1) as [Hs Hsm]. destruct (Hcl (marked pdev1 s1)) as (c & Hc & Hcs & Hcm).
  assert (Hck : skb_ok c = true).
  { pose proof (same_frame_trans _ _ _ Hcs Hs) as Hf. pose proof (same_meta_trans _ _ _ Hcm Hsm) as [Hml Hst].
    unfold skb_ok, skb_copylen, skb_pktlen in *. rewrite (same_frame_mac_header c s1 Hmac Hf), Hml, Hst.
    by rewrite (sf_len _ _ Hf). }
  rewrite (pval_xmit_clone env pdev s link m pdev1 s1 c) by done. cbv zeta.
  set (s3 := skb_set_dev _ _). destruct (xmit_done_total env pdev1 m c (e_queue_xmit env s3) Hr Hck) as (p2 & ev & -> & Hseq).
  eexists _, s3. split_and!; [reflexivity|done|by right; left| |done].
  eapply same_frame_trans; [apply law_set_dev|done].
Qed.

Lemma same_frame_skb_ok c s :
  0 <= skb_mac_off s -> same_frame c s -> same_meta c s ->
  skb_ok c = skb_ok s /\ pkt_of_skb c = pkt_of_skb s.
Proof.
  intros Hmac Hf [Hml Hst]. unfold skb_ok, pkt_of_skb, skb_copylen, skb_pktlen.
  by rewrite (same_frame_mac_header c s Hmac Hf), Hml, Hst, (sf_len _ _ Hf).
Qed.

Lemma xmit_done_no_clone env pdev m co rc pdev2 ev c :
  xmit_done env pdev m co rc = Some (pdev2, ev) -> EvClone c ∈ ev -> False.
Proof.
  unfold xmit_done. intros E Hc.
  repeat (case_match || apply bind_Some in E as (? & _ & E)); simplify_eq;
    rewrite ?elem_of_cons in Hc; destruct_or?; try done; by apply not_elem_of_nil in Hc.
Qed.

Lemma xmit_head_switches env pdev s pdev1 s1 :
  xmit_head env pdev s = Some (pdev1, s1) ->
  pd_txtstamp pdev1 = pd_txtstamp pdev /\ pd_txcopy pdev1 = pd_txcopy pdev /\
  (forall dir i, mdev_at pdev1 dir i = mdev_at pdev dir i).
Proof.
  unfold xmit_head. intros E. destruct (negb (pd_ipopt pdev)); [by simplify_eq|].
  apply bind_Some in E as (p & _ & E). destruct (negb _); [by simplify_eq|].
  apply bind_Some in E as (s' & _ & E). by simplify_eq.
Qed.

(** A call that obtained a clone went through [xmit_done] with it. *)
Lemma pval_xmit_cloned env pdev s res c :
  pval_xmit env pdev s = Some res -> EvClone c ∈ x_events res ->
  exists pdev1 m s3 pdev2 ev, pd_txtstamp pdev1 = pd_txtstamp pdev /\
    wants_clone pdev1 = true /\
    res = mk_tx_result (e_queue_xmit env s3) pdev2 s3 (EvClone c :: EvQueue s3 :: ev) /\
    xmit_done env pdev1 m (Some c) (e_queue_xmit env s3) = Some (pdev2, ev).
Proof.
  unfold pval_xmit. intros E Hc. apply bind_Some in E as (m & Hm & E).
  apply bind_Some in E as (link & Hl & E). case_match; [simplify_eq; by apply not_elem_of_nil in Hc|].
  apply bind_Some in E as ([pdev1 s1] & Hh & E). fold (wants_clone pdev1) (marked pdev1 s1) in E.
  cbv zeta in E. set (s3 := skb_set_dev _ _) in E.
  destruct (wants_clone pdev1) eqn:Ew; [destruct (e_skb_clone env (marked pdev1 s1)) as [c'|]|].
  - apply bind_Some in E as ([pdev2 ev] & Hd & E). injection E as <-. cbn [x_events] in Hc.
    assert (c = c' \/ EvClone c ∈ ev) as [<-|He] by (cbn in Hc; rewrite !elem_of_cons in Hc; naive_solver).
    + exists pdev1, m, s3, pdev2, ev. split_and!; try done. by eapply xmit_head_switches.
    + destruct (xmit_done_no_clone _ _ _ _ _ _ _ _ Hd He).
  - simplify_eq. by apply not_elem_of_nil in Hc.
  - apply bind_Some in E as ([pdev2 ev] & Hd & E). injection E as <-. cbn [x_events app] in Hc.
    apply elem_of_cons in Hc as [Hc|Hc]; [done|]. destruct (xmit_done_no_clone _ _ _ _ _ _ _ _ Hd Hc).
Qed.

(** The conditions under which a frame with room for the option is sent: the
    frame's bytes that [write_to_ring] copies are in the linear part. *)
Record sendable env pdev link m s (rest : list Z) : Prop := mk_sendable {
  sd_up : link_up env pdev link m;
  sd_clones : clones env;
  sd_ring : ring_ok (m_ring m) = true;
  sd_stamp : is_u64 (skb_hwtstamp s) = true;
  sd_mac_len : 0 <= skb_mac_len s;
  sd_len : 0 <= skb_len s;
  sd_linear : skb_mac_len s + skb_len s <= 34 + Z.of_nat (length rest)
}.

Lemma inserted_frame_ok s s1 (rest new : list Z) :
  skb_mac_header s1 = new ++ rest -> bytes_ok (skb_mac_header s1) = true ->
  is_u64 (skb_hwtstamp s) = true -> 0 <= skb_mac_len s -> 0 <= skb_len s ->
  skb_mac_len s + skb_len s1 <= Z.of_nat (length new) + Z.of_nat (length rest) ->
  skb_len s <= skb_len s1 -> same_meta s1 s -> skb_ok s1 = true.
Proof.
  intros Hh Hb Hst Hm Hl Hlin Hle [Em Es]. unfold skb_ok. rewrite Es, Hst, Hb. cbn [andb].
  apply Z.leb_le. unfold skb_copylen, skb_pktlen. rewrite Em, Hh, length_app, Nat2Z.inj_add.
  unfold u32. pose proof (Z.mod_le (skb_mac_len s + skb_len s1) (2 ^ 32)). lia.
Qed.

(** The option branch of [xmit_head], and the frame it leaves. *)
Lemma xmit_head_inserts env pdev s pre gap eth iph rest :
  frame_in s pre gap eth iph rest -> pd_ipopt pdev = true -> take 2 (drop 12 eth) = [8; 0] ->
  exists s1 hdr, let opt := pval_option (e_cpu env) (pd_seq pdev) in
    xmit_head env pdev s = Some (set_seq pdev (u64 (pd_seq pdev + 1)), s1) /\
    same_meta s1 s /\ skb_len s1 = skb_len s + 12 /\
    option_header iph opt = hdr ++ opt /\ length hdr = 20%nat /\
    skb_head s1 = pre ++ eth ++ hdr ++ opt ++ rest /\ bytes_ok (skb_head s1) = true /\
    skb_data_off s1 = Z.of_nat (length pre) /\ skb_mac_off s1 = skb_data_off s1 /\
    skb_net_off s1 = skb_mac_off s1 + sizeof_ethhdr.
Proof.
  intros Hf Hip Hproto.
  destruct (insert_ipopt_spec (e_cpu env) (pd_seq pdev) s _ _ _ _ _ Hf) as (s1 & Hi & Eh & Ed & Em & En & El).
  pose proof (insert_ipopt_meta _ _ _ _ Hi) as Hmeta.
  destruct (frame_in_bytes _ _ _ _ _ _ Hf) as (Heo & Hio & _ & Hiph).
  destruct Hf as [Hh Hok Hg He _ Hd Hmac Hnet].
  destruct (option_header_parts iph _ Hiph Hio (bytes_ok_ipopt_pval_bytes
    (mk_ipopt_pval IPOPT_PVAL sizeof_ipopt_pval 0 (e_cpu env) (pd_seq pdev)))) as (hdr & Eo & Lo & Bo & _).
  fold (pval_option (e_cpu env) (pd_seq pdev)) in Eo. exists s1, hdr. cbv zeta. rewrite Eo, <- app_assoc in Eh.
  assert (Bop : bytes_ok (pval_option (e_cpu env) (pd_seq pdev)) = true) by apply bytes_ok_ipopt_pval_bytes.
  split_and!; try done.
  - unfold xmit_head. rewrite Hip, Hh, Hmac, Hd, <- Z.add_assoc. cbn [negb].
    rewrite (mem_read_at _ _ _ _ [8; 0]); [|done|].
    { cbn [mbind option_bind]. change (bswap16 (le_val [8; 0]) =? ETH_P_IP) with true. cbn [negb].
      by rewrite Hi. }
    rewrite slice_app_r with (k := 12%nat) by (rewrite Hg; done).
    change (Z.to_nat sizeof_ethhdr) with 14%nat in He. apply slice_Some. nat_consts.
    rewrite length_app, drop_app_le, take_app_le by (rewrite ?length_drop; lia).
    split; [lia|done].
  - rewrite Hh, !bytes_ok_app in Hok. rewrite Eh, !bytes_ok_app. tauto.
Qed.

Lemma xmit_insert_spec env pdev s link m pre gap eth iph rest :
  sendable env pdev link m s rest -> frame_in s pre gap eth iph rest ->
  pd_ipopt pdev = true -> take 2 (drop 12 eth) = [8; 0] ->
  exists res s', pval_xmit env pdev s = Some res /\ x_rc res = e_queue_xmit env s' /\
    EvQueue s' ∈ x_events res /\
    skb_mac_header s' = eth ++ option_header iph (pval_option (e_cpu env) (pd_seq pdev)) ++ rest /\
    pd_seq (x_dev res) = u64 (pd_seq pdev + 1).
Proof.
  intros [Hup Hcl Hr Hst Hml Hlen Hlin] Hf Hip Hproto.
  destruct (xmit_head_inserts env pdev s _ _ _ _ _ Hf Hip Hproto)
    as (s1 & hdr & Hhead & Hmeta & El & Eo & Lo & Eh & Bh & Ed & Em & En).
  destruct (frame_in_bytes _ _ _ _ _ _ Hf) as (_ & _ & Hel & _).
  assert (Hopt : length (pval_option (e_cpu env) (pd_seq pdev)) = 12%nat) by apply length_ipopt_pval_bytes.
  set (opt := pval_option _ _) in *. set (pdev1 := set_seq pdev _) in *.
  assert (Hmh : skb_mac_header s1 = (eth ++ hdr ++ opt) ++ rest).
  { rewrite law_view by lia. rewrite Eh, Em, Ed, Nat2Z.id, drop_app_length. by rewrite <- !app_assoc. }
  destruct (pval_xmit_queues env pdev s link m pdev1 s1) as (res & s' & Hx & Hrc & Hev & Hsf & Hsq); try done; [lia| |].
  - apply (inserted_frame_ok s s1 rest (eth ++ hdr ++ opt)); try done.
    + rewrite law_view by lia. auto with pval.
    + rewrite !length_app, Lo, Hopt, Hel, El. lia.
    + lia.
  - exists res, s'. split_and!; try done.
    rewrite (same_frame_mac_header s' s1) by (done || lia). by rewrite Hmh, Eo, <- !app_assoc.
Qed.

(** A buffer that went through [marked] holds the same frame. *)
Lemma marked_frame_in pdev s pre gap eth iph rest :
  frame_in s pre gap eth iph rest -> frame_in (marked pdev s) pre gap eth iph rest.
Proof.
  intros [Hh Hok Hg He Hi Hd Hm Hn]. destruct (marked_same pdev s) as [[Eh Ed Em _] _].
  assert (En : skb_net_off (marked pdev s) = skb_net_off s).
  { unfold marked. destruct (pd_txtstamp pdev); [apply law_tx_flags|done]. }
  split; rewrite ?Eh, ?Ed, ?Em, ?En; done.
Qed.

End Paths.

(** ** A concrete socket buffer *)

Record flat_skb := mk_flat_skb {
  k_head : list Z; k_data : Z; k_mac : Z; k_net : Z; k_len : Z; k_mac_len : Z;
  k_stamp : Z; k_tx_flags : Z; k_dev : option dev_ref; k_pkt_type : Z
}.

#[export] Instance flat_view : SkbView flat_skb := {
  skb_mac_len := k_mac_len; skb_len := k_len; skb_hwtstamp := k_stamp;
  skb_mac_header s := drop (Z.to_nat (k_mac s)) (k_head s)
}.

#[export] Instance flat_ops : SkbOps flat_skb := {
  skb_head := k_head; skb_data_off := k_data; skb_mac_off := k_mac; skb_net_off := k_net;
  skb_tx_flags := k_tx_flags;
  skb_store s l := mk_flat_skb l (k_data s) (k_mac s) (k_net s) (k_len s) (k_mac_len s)
                     (k_stamp s) (k_tx_flags s) (k_dev s) (k_pkt_type s);
  __skb_push s n := mk_flat_skb (k_head s) (k_data s - n) (k_mac s) (k_net s) (k_len s + n) (k_mac_len s)
                      (k_stamp s) (k_tx_flags s) (k_dev s) (k_pkt_type s);
  skb_reset_mac_header s := mk_flat_skb (k_head s) (k_data s) (k_data s) (k_net s) (k_len s) (k_mac_len s)
                              (k_stamp s) (k_tx_flags s) (k_dev s) (k_pkt_type s);
  skb_set_network_header s n := mk_flat_skb (k_head s) (k_data s) (k_mac s) (k_data s + n) (k_len s)
                                  (k_mac_len s) (k_stamp s) (k_tx_flags s) (k_dev s) (k_pkt_type s);
  skb_scrub_packet s _ := mk_flat_skb (k_head s) (k_data s) (k_mac s) (k_net s) (k_len s) (k_mac_len s)
                            (k_stamp s) (k_tx_flags s) (k_dev s) PACKET_HOST;
  skb_orphan s := s;
  skb_set_tx_flags s f := mk_flat_skb (k_head s) (k_data s) (k_mac s) (k_net s) (k_len s) (k_mac_len s)
                            (k_stamp s) f (k_dev s) (k_pkt_type s);
  skb_set_dev s d := mk_flat_skb (k_head s) (k_data s) (k_mac s) (k_net s) (k_len s) (k_mac_len s)
                       (k_stamp s) (k_tx_flags s) (Some d) (k_pkt_type s);
  skb_set_pkt_type s t := mk_flat_skb (k_head s) (k_data s) (k_mac s) (k_net s) (k_len s) (k_mac_len s)
                            (k_stamp s) (k_tx_flags s) (k_dev s) t
}.

#[export] Instance flat_laws : SkbLaws flat_skb.
Proof. split; intros; repeat split; reflexivity. Qed.

(** An Ethernet header of type IPv4, a 20-byte header and four bytes of payload. *)
Definition sample_eth : list Z := [1; 2; 3; 4; 5; 6; 7; 8; 9; 10; 11; 12; 8; 0].
Definition sample_iph : list Z :=
  [69; 0; 0; 24; 18; 52; 0; 0; 64; 17; 84; 118; 10; 0; 0; 1; 10; 0; 0; 2].
Definition sample_tx (iph rest : list Z) : flat_skb :=
  mk_flat_skb (replicate 40 170 ++ sample_eth ++ iph ++ rest) 40 40 54
    (Z.of_nat (length (sample_eth ++ iph ++ rest))) 0 0 0 None 0.

Definition sample_tx_mdev (opened : bool) : pval_mdev flat_skb :=
  mk_pval_mdev "pval0-tx-cpu-0"%string 0 opened sample_ring 0 None.
Definition sample_tx_dev (ipopt txtstamp txcopy : bool) : pval_dev flat_skb :=
  mk_pval_dev "pval0"%string (Some 2) 7 ipopt txtstamp false txcopy true true (mk_hwtstamp_config 0 0 0) 1
    (replicate 16 (sample_tx_mdev true)) (replicate 16 (sample_tx_mdev true)).
Definition sample_env (clone_ok : bool) (rc : Z) : tx_env flat_skb :=
  mk_tx_env 0 1 (fun s => if clone_ok then Some s else None) (fun _ => rc) true 100.

(** The same device before its rings are allocated. *)
Definition bare_mdev : pval_mdev flat_skb :=
  mk_pval_mdev "pval0-tx-cpu-0"%string 0 false (mk_pval_ring 0 0 0 1023 []) 0 None.
Definition bare_tx_dev (ipopt txtstamp txcopy : bool) : pval_dev flat_skb :=
  mk_pval_dev "pval0"%string (Some 2) 7 ipopt txtstamp false txcopy true true (mk_hwtstamp_config 0 0 0) 1
    (replicate 16 bare_mdev) (replicate 16 bare_mdev).

Lemma sample_clones rc : clones (sample_env true rc).
Proof. intros b. exists b. repeat split; reflexivity. Qed.

Lemma sample_frame iph rest :
  length iph = 20%nat -> bytes_ok iph = true -> bytes_ok rest = true ->
  frame_in (sample_tx iph rest) (replicate 28 170) (replicate 12 170) sample_eth iph rest.
Proof.
  intros Hl Hi Hr. split; try done.
  unfold skb_head. cbn [flat_ops sample_tx k_head]. rewrite !bytes_ok_app. done.
Qed.

Lemma sample_ring_ok : ring_ok sample_ring = true.
Proof. vm_compute. reflexivity. Qed.

Lemma sample_sendable ipopt txt txc rc :
  sendable (sample_env true rc) (sample_tx_dev ipopt txt txc) 2 (sample_tx_mdev true)
    (sample_tx sample_iph [1; 2; 3; 4]) [1; 2; 3; 4].
Proof.
  split; [split_and!; done|apply sample_clones|apply sample_ring_ok|done|done|done|done].
Qed.

(** ** Theorems *)

Section Claims.
Context {skb : Type} `{SkbLaws skb}.
Implicit Types (s : skb) (env : tx_env skb) (pdev : pval_dev skb).

(** C3. With the option switch on, an IPv4 frame with twelve bytes of headroom is
    handed to the lower device as the same Ethernet header, the 20-byte fixed
    header with only [ihl] (plus three words), [tot_len] (plus twelve) and
    [check] changed, the Pval option carrying the CPU and the sequence number,
    and the unchanged rest of the frame; the device's sequence number grows by
    one. No access leaves the buffer or the ring. *)
Theorem xmit_inserts_option env pdev s link m pre gap eth iph rest :
  sendable env pdev link m s rest -> frame_in s pre gap eth iph rest ->
  pd_ipopt pdev = true -> take 2 (drop 12 eth) = [8; 0] ->
  exists res s' hdr, pval_xmit env pdev s = Some res /\ x_rc res = e_queue_xmit env s' /\
    EvQueue s' ∈ x_events res /\
    skb_mac_header s' = eth ++ hdr ++ pval_option (e_cpu env) (pd_seq pdev) ++ rest /\
    length hdr = 20%nat /\
    hdr !!! 0%nat = 16 * (iph !!! 0%nat / 16) + ((iph !!! 0%nat) mod 16 + 3) mod 16 /\
    be_val (take 2 (drop 2 hdr)) = (be_val (take 2 (drop 2 iph)) + 12) mod 65536 /\
    hdr !! 1%nat = iph !! 1%nat /\ take 6 (drop 4 hdr) = take 6 (drop 4 iph) /\
    drop 12 hdr = drop 12 iph /\ pd_seq (x_dev res) = u64 (pd_seq pdev + 1).
Proof.
  intros Hs Hf Hi Hp. destruct (xmit_insert_spec env pdev s link m _ _ _ _ _ Hs Hf Hi Hp)
    as (res & s' & Hx & Hrc & Hev & Hmh & Hsq).
  destruct (frame_in_bytes _ _ _ _ _ _ Hf) as (_ & Hio & _ & Hil).
  destruct (option_header_parts iph _ Hil Hio (bytes_ok_ipopt_pval_bytes
    (mk_ipopt_pval IPOPT_PVAL sizeof_ipopt_pval 0 (e_cpu env) (pd_seq pdev))))
    as (hdr & E & ? & _ & ? & ? & ? & ? & ? & _).
  exists res, s', hdr. split_and!; try done. rewrite Hmh. unfold pval_option. rewrite E. by rewrite <- !app_assoc.
Qed.

(** C4. The header of a frame that had no IP options leaves with a valid header
    checksum: over the header length it announces, the receiver's [in_cksum] is
    zero. *)
Theorem xmit_header_checksum env pdev s link m pre gap eth iph rest odd :
  sendable env pdev link m s rest -> frame_in s pre gap eth iph rest ->
  pd_ipopt pdev = true -> take 2 (drop 12 eth) = [8; 0] -> (iph !!! 0%nat) mod 16 = 5 ->
  exists res s', pval_xmit env pdev s = Some res /\ EvQueue s' ∈ x_events res /\
    let ip := drop 14 (skb_mac_header s') in
    let hlen := 4 * ((ip !!! 0%nat) mod 16) in
    in_cksum [mk_cksum_vec (take (Z.to_nat hlen) ip) odd hlen] = Some 0.
Proof.
  intros Hs Hf Hi Hp H5. destruct (xmit_insert_spec env pdev s link m _ _ _ _ _ Hs Hf Hi Hp)
    as (res & s' & Hx & _ & Hev & Hmh & _).
  destruct (frame_in_bytes _ _ _ _ _ _ Hf) as (_ & Hio & Hel & Hil).
  set (opt := pval_option _ _) in *.
  assert (Hob : bytes_ok opt = true) by apply bytes_ok_ipopt_pval_bytes.
  assert (Hol : length opt = 12%nat) by apply length_ipopt_pval_bytes.
  destruct (option_header_parts iph opt Hil Hio Hob) as (hdr & E & Hl & Hb & Hv & _ & _ & _ & _ & Hck).
  exists res, s'. split_and!; try done. cbv zeta. rewrite Hmh, E, <- app_assoc.
  rewrite <- Hel, drop_app_length.
  assert (Hh : (hdr ++ opt ++ rest) !!! 0%nat = hdr !!! 0%nat) by (destruct hdr; done).
  rewrite Hh, Hv, H5. change ((5 + 3) mod 16) with 8. set (q := _ / 16).
  replace (4 * ((16 * q + 8) mod 16)) with 32.
  2:{ rewrite (Z.mul_comm 16), Z.add_comm, Z_mod_plus_full. done. }
  rewrite app_assoc, take_app_le, take_ge by (rewrite length_app; lia).
  assert (Hlen : Z.of_nat (length (hdr ++ opt)) = 32) by (rewrite length_app; lia).
  rewrite <- Hlen. apply in_cksum_zero_iff; [by rewrite bytes_ok_app|lia|done].
Qed.

(** C16. A frame that carries IP options of its own: the sum covers the fixed header and the new
    option, whatever [ihl] says, so the header announced to the receiver has a valid checksum
    exactly when the words of the options behind it add up to a multiple of 65535; and from
    thirteen words on the header length wraps around to at most two words. *)
Theorem xmit_options_break_checksum env pdev s link m pre gap eth iph rest odd :
  let k := (iph !!! 0%nat) mod 16 in
  sendable env pdev link m s rest -> frame_in s pre gap eth iph rest ->
  pd_ipopt pdev = true -> take 2 (drop 12 eth) = [8; 0] -> 5 <= k -> 4 * (k - 5) <= Z.of_nat (length rest) ->
  exists res s', pval_xmit env pdev s = Some res /\ EvQueue s' ∈ x_events res /\
    let ip := drop 14 (skb_mac_header s') in
    let hlen := 4 * ((ip !!! 0%nat) mod 16) in
    if k <=? 12 then
      hlen = 4 * (k + 3) /\
      (in_cksum [mk_cksum_vec (take (Z.to_nat hlen) ip) odd hlen] = Some 0 <-> be_sum (take (Z.to_nat (4 * (k - 5))) rest) mod 65535 = 0)
    else hlen = 4 * (k - 13).
Proof.
  intros k Hs Hf Hi Hp H5 Hrest. destruct (xmit_insert_spec env pdev s link m _ _ _ _ _ Hs Hf Hi Hp)
    as (res & s' & Hx & _ & Hev & Hmh & _).
  destruct (frame_in_bytes _ _ _ _ _ _ Hf) as (_ & Hio & Hel & Hil).
  set (opt := pval_option _ _) in *.
  assert (Hob : bytes_ok opt = true) by apply bytes_ok_ipopt_pval_bytes.
  assert (Hol : length opt = 12%nat) by apply length_ipopt_pval_bytes.
  destruct (option_header_parts iph opt Hil Hio Hob) as (hdr & E & Hl & Hb & Hv & _ & _ & _ & _ & Hck).
  assert (Hrb : bytes_ok rest = true) by (destruct Hf as [Hh Hbk _ _ _ _ _ _]; rewrite Hh, !bytes_ok_app in Hbk; tauto).
  exists res, s'. split_and!; try done. cbv zeta. rewrite Hmh, E, <- app_assoc, <- Hel, drop_app_length.
  assert (Hh : (hdr ++ opt ++ rest) !!! 0%nat = hdr !!! 0%nat) by (destruct hdr; done).
  rewrite Hh, Hv. fold k. pose proof (Z.mod_pos_bound (iph !!! 0%nat) 16 ltac:(lia)) as Hk. fold k in Hk.
  rewrite (Z.mul_comm 16), Z.add_comm, Z_mod_plus_full, Z.mod_mod by lia.
  destruct (Z.leb_spec k 12) as [H12|H12]; [|rewrite <- (Z_mod_plus_full (k + 3) (-1)), Z.mod_small by lia; lia].
  rewrite Z.mod_small by lia. split; [done|]. set (n := Z.to_nat (4 * (k - 5))).
  assert (Ht : take (Z.to_nat (4 * (k + 3))) (hdr ++ opt ++ rest) = (hdr ++ opt) ++ take n rest).
  { replace (Z.to_nat (4 * (k + 3))) with (length (hdr ++ opt) + n)%nat by (rewrite length_app; lia). by rewrite app_assoc, take_app_add. }
  assert (Hlen : Z.of_nat (length ((hdr ++ opt) ++ take n rest)) = 4 * (k + 3)) by (rewrite !length_app, length_take; lia).
  assert (Hab : bytes_ok (hdr ++ opt) = true) by (by rewrite bytes_ok_app). pose proof (bytes_ok_take n rest Hrb) as Hnb.
  rewrite Ht, <- Hlen, in_cksum_zero_iff by (rewrite ?bytes_ok_app; done || lia).
  rewrite be_sum_app_even by (by rewrite length_app, Hl, Hol). apply oc_fold_more; [by apply be_sum_nonneg..|exact Hck].
Qed.

(** C12. With the switch off, or for a frame that is not IPv4, the lower device
    gets the frame as it came and the sequence number is not consumed. *)
Theorem xmit_passthrough env pdev s link m proto :
  link_up env pdev link m -> clones env -> ring_ok (m_ring m) = true ->
  0 <= skb_mac_off s -> skb_ok s = true ->
  mem_read (skb_head s) (skb_mac_off s + 12) 2 = Some proto ->
  pd_ipopt pdev = false \/ bswap16 (le_val proto) <> ETH_P_IP ->
  exists res s', pval_xmit env pdev s = Some res /\ x_rc res = e_queue_xmit env s' /\
    EvQueue s' ∈ x_events res /\ skb_mac_header s' = skb_mac_header s /\ skb_len s' = skb_len s /\
    pd_seq (x_dev res) = pd_seq pdev.
Proof.
  intros Hup Hcl Hr Hmac Hok Hp Hskip.
  destruct (pval_xmit_queues env pdev s link m pdev s) as (res & s' & ? & ? & ? & Hsf & ?); try done.
  - by eapply xmit_head_skip.
  - exists res, s'. split_and!; try done; [by apply same_frame_mac_header|apply Hsf].
Qed.

(** C13. The reference to the clone is given up, to the work queue or to
    [kfree_skb], exactly when the lower device took the frame and, with time
    stamping on, the worker could be allocated; in every other case nothing
    refers to the clone any more and it is never freed. *)
Theorem xmit_clone_released env pdev s res c :
  pval_xmit env pdev s = Some res -> EvClone c ∈ x_events res ->
  (EvFree c ∈ x_events res \/ exists w, EvSchedule w ∈ x_events res /\ w_skb w = c) <->
  x_rc res = NETDEV_TX_OK /\ (pd_txtstamp pdev = true -> e_kmalloc env = true).
Proof.
  intros Hx Hc. destruct (pval_xmit_cloned env pdev s res c Hx Hc)
    as (pdev1 & m & s3 & pdev2 & ev & Ht & Hd & -> & Hdone). cbn [x_rc x_events] in *.
  assert (Hno : ev = [] -> ~ (EvFree c ∈ EvClone c :: EvQueue s3 :: ev \/
    exists w, EvSchedule w ∈ EvClone c :: EvQueue s3 :: ev /\ w_skb w = c)).
  { intros -> [Hin|(w & Hin & _)]; rewrite !elem_of_cons in Hin;
      destruct Hin as [|[|Hin]]; try done; by apply not_elem_of_nil in Hin. }
  unfold xmit_done in Hdone. rewrite <- Ht.
  destruct (Z.eqb_spec (e_queue_xmit env s3) NETDEV_TX_OK) as [E|E]; cbn [negb] in Hdone.
  2:{ simplify_eq. split; [by intros []%Hno|by intros []]. }
  destruct (pd_txtstamp pdev1) eqn:Et.
  - destruct (e_kmalloc env); cbn [negb mbind option_bind] in Hdone; simplify_eq.
    + split; [done|]. intros _. right. eexists. split; [by do 2 right; left|done].
    + split; [by intros []%Hno|]. intros [_ Hk]. by specialize (Hk eq_refl).
  - split; [by intros; split|]. intros _. left. do 2 right.
    unfold wants_clone in Hd. rewrite Et in Hd. cbn [orb] in Hd. rewrite Hd in Hdone. cbn [mbind option_bind] in Hdone.
    destruct (m_opened m); [|simplify_eq; by left].
    destruct (write_to_ring (m_ring m) c) as [[n r']|]; [|done]. cbn [mbind option_bind] in Hdone.
    simplify_eq. by left.
Qed.

(** With copying on and time stamping off, and a reader on the CPU's device,
    a frame the lower device took is appended to that CPU's TX ring: the slot
    holds the first bytes of the transmitted frame from its MAC header on, and
    [pktlen] is [mac_len + len]. *)
Theorem txcopy_records_frame env pdev s link m pdev1 s1 :
  link_up env pdev link m -> clones env -> ring_ok (m_ring m) = true ->
  pd_txcopy pdev = true -> pd_txtstamp pdev = false -> m_opened m = true ->
  ring_full (m_ring m) = false ->
  xmit_head env pdev s = Some (pdev1, s1) -> 0 <= skb_mac_off s1 -> skb_ok s1 = true ->
  e_queue_xmit env (skb_set_dev s1 (LinkDev link)) = NETDEV_TX_OK ->
  exists res m' slot, pval_xmit env pdev s = Some res /\
    mdev_at (x_dev res) TX (e_cpu env) = Some m' /\
    ring_contents (m_ring m') = ring_contents (m_ring m) ++ [slot] /\
    pkt_of_slot slot = pkt_of_skb s1 /\ s_pktlen slot = u32 (skb_mac_len s1 + skb_len s1).
Proof.
  intros Hup Hcl Hr Hc Ht Ho Hf Hh Hmac Hok Hrc.
  destruct (xmit_head_switches _ _ _ _ _ Hh) as (Ht1 & Hc1 & Hat). rewrite Ht in Ht1. rewrite Hc in Hc1.
  assert (Hmk : marked pdev1 s1 = s1) by (unfold marked; by rewrite Ht1).
  destruct (Hcl s1) as (c & Hce & Hcs & Hcm). destruct (same_frame_skb_ok c s1) as [Hco Hcp]; try done.
  destruct (write_not_full (m_ring m) c) as (r' & slot & Hw & _ & Hcont & Hslot); try done; [congruence|].
  rewrite (pval_xmit_clone env pdev s link m pdev1 s1 c)
    by (rewrite ?Hmk; done || unfold wants_clone; by rewrite Ht1, Hc1).
  cbv zeta. rewrite Hmk, Hrc. unfold xmit_done. rewrite Ht1, Hc1, Ho.
  cbn [negb Z.eqb NETDEV_TX_OK mbind option_bind].
  rewrite Hw. cbn [mbind option_bind]. eexists _, (set_ring m r'), slot. cbn [x_dev].
  split_and!; [reflexivity| |exact Hcont|congruence|].
  - eapply mdev_at_upd. rewrite Hat. apply Hup.
  - replace (s_pktlen slot) with (p_pktlen (pkt_of_slot slot)) by done. rewrite Hslot, Hcp. done.
Qed.

(** When the clone cannot be allocated, [pval_xmit] answers [NETDEV_TX_BUSY]
    with the option already inserted and the sequence number consumed; the
    caller's retry of the same buffer inserts a second option in front of the
    first. *)
Theorem xmit_retry_inserts_twice env env2 pdev s link m pre gap2 gap eth iph rest :
  sendable env2 pdev link m s rest -> e_cpu env = e_cpu env2 -> e_link_flags env = e_link_flags env2 ->
  frame_in s (pre ++ gap2) gap eth iph rest -> length gap2 = 12%nat ->
  pd_ipopt pdev = true -> take 2 (drop 12 eth) = [8; 0] -> wants_clone pdev = true ->
  (forall b, e_skb_clone env b = None) ->
  exists res res2 s' hdr, pval_xmit env pdev s = Some res /\ x_rc res = NETDEV_TX_BUSY /\
    x_events res = [] /\
    pval_xmit env2 (x_dev res) (x_skb res) = Some res2 /\ EvQueue s' ∈ x_events res2 /\
    length hdr = 20%nat /\
    skb_mac_header s' = eth ++ hdr ++ pval_option (e_cpu env2) (u64 (pd_seq pdev + 1)) ++
                          pval_option (e_cpu env) (pd_seq pdev) ++ rest.
Proof.
  intros Hs Hcpu Hfl Hf Hg Hip Hp Hw Hcl.
  destruct (xmit_head_inserts env pdev s _ _ _ _ _ Hf Hip Hp)
    as (s1 & hdr1 & Hh & Hmeta & Hl & _ & Lh & Eh & Bh & Ed & Em & En).
  set (pdev1 := set_seq pdev _) in *. set (opt := pval_option (e_cpu env) (pd_seq pdev)) in *.
  assert (Hup : link_up env pdev link m) by (destruct Hs as [(?&?&?) _ _ _ _ _ _]; unfold link_up; by rewrite Hcpu, Hfl).
  assert (Hf2 : frame_in s1 pre gap2 eth hdr1 (opt ++ rest)).
  { split; try done; [by rewrite Eh, <- !app_assoc|apply Hf|]. rewrite Ed, length_app, Hg. unfold sizeof_ipopt_pval. lia. }
  pose proof (marked_frame_in pdev1 _ _ _ _ _ _ Hf2) as Hf3.
  destruct (marked_same pdev1 s1) as [[_ _ _ Hl3] Hm3].
  assert (Hs2 : sendable env2 pdev1 link m (marked pdev1 s1) (opt ++ rest)).
  { destruct Hs as [(?&?&?) ? ? Hst ? ? ?]. destruct Hmeta as [Eml Es], Hm3 as [Em3 Es3].
    split; try done; rewrite ?Es3, ?Em3, ?Hl3, ?Es, ?Eml, ?Hl; try done; [lia|].
    rewrite length_app. assert (length opt = 12%nat) by apply length_ipopt_pval_bytes. lia. }
  destruct (xmit_insert_spec env2 pdev1 (marked pdev1 s1) link m _ _ _ _ _ Hs2 Hf3 Hip Hp)
    as (res2 & s' & Hx2 & _ & Hev2 & Hmh & _).
  destruct (frame_in_bytes _ _ _ _ _ _ Hf3) as (_ & Hio & _ & Hil).
  destruct (option_header_parts hdr1 _ Hil Hio (bytes_ok_ipopt_pval_bytes
    (mk_ipopt_pval IPOPT_PVAL sizeof_ipopt_pval 0 (e_cpu env2) (pd_seq pdev1)))) as (hdr & E & ? & _).
  eexists _, res2, s', hdr. split_and!; [by eapply pval_xmit_clone_fails|done|done|exact Hx2|done|done|].
  rewrite Hmh. unfold pval_option at 1. rewrite E. by rewrite <- !app_assoc.
Qed.

(** C9. A received frame goes up the stack unchanged, and is appended to the
    CPU's RX ring exactly when copying is on, the device is open and there is
    room; [pktlen] is then [mac_len + len]. No other ring changes. *)
Theorem handle_frame_records share_check cpu pdev s s0 m :
  share_check s = Some s0 -> mdev_at pdev RX cpu = Some m -> ring_ok (m_ring m) = true ->
  0 <= skb_mac_off s0 -> skb_ok s0 = true ->
  exists s' pdev' m', pdev_handle_frame share_check cpu pdev s = Some (RX_HANDLER_ANOTHER s', pdev') /\
    skb_mac_header s' = skb_mac_header s0 /\ mdev_at pdev' RX cpu = Some m' /\
    pkt_of_slot <$> ring_contents (m_ring m') =
      (pkt_of_slot <$> ring_contents (m_ring m)) ++
      (if pd_rxcopy pdev && m_opened m && negb (ring_full (m_ring m)) then [pkt_of_skb s0] else []) /\
    (forall dir i, (RX, cpu) <> (dir, i) -> mdev_at pdev' dir i = mdev_at pdev dir i).
Proof.
  intros Hsh Hm Hr Hmac Hok. unfold pdev_handle_frame. rewrite Hsh.
  set (s1 := skb_set_pkt_type _ _).
  assert (Hs1 : same_frame s1 s0 /\ same_meta s1 s0).
  { split; [eapply same_frame_trans; [apply law_pkt_type|apply law_set_dev]|
            eapply same_meta_trans; [apply law_meta|apply law_meta]]. }
  destruct Hs1 as [Hsf Hsm]. pose proof (same_frame_mac_header s1 s0 Hmac Hsf) as Hmh.
  destruct (same_frame_skb_ok s1 s0 Hmac Hsf Hsm) as [Ho1 Hp1]. clearbody s1.
  assert (Hsame : exists s' pdev' m', Some (RX_HANDLER_ANOTHER s1, pdev) = Some (RX_HANDLER_ANOTHER s', pdev') /\
    skb_mac_header s' = skb_mac_header s0 /\ mdev_at pdev' RX cpu = Some m' /\
    pkt_of_slot <$> ring_contents (m_ring m') = (pkt_of_slot <$> ring_contents (m_ring m)) ++ [] /\
    (forall dir i, (RX, cpu) <> (dir, i) -> mdev_at pdev' dir i = mdev_at pdev dir i)).
  { exists s1, pdev, m. rewrite app_nil_r. done. }
  destruct (pd_rxcopy pdev); [|exact Hsame]. rewrite Hm. cbn [mbind option_bind].
  destruct (m_opened m); [|exact Hsame]. cbn [andb].
  destruct (ring_full (m_ring m)) eqn:Ef; cbn [negb].
  - rewrite write_full by done. cbn [mbind option_bind]. exists s1, (upd_mdev pdev RX cpu (set_ring m (m_ring m))), (set_ring m (m_ring m)).
    rewrite app_nil_r. split_and!; try done; [by eapply mdev_at_upd|].
    intros dir i Hne. apply mdev_at_upd_ne; [|done]. apply mdev_at_Some in Hm. lia.
  - destruct (write_not_full (m_ring m) s1) as (r' & slot & Hw & _ & Hc & Hs); try done; [congruence|].
    rewrite Hw. cbn [mbind option_bind]. exists s1, (upd_mdev pdev RX cpu (set_ring m r')), (set_ring m r').
    split_and!; try done; [by eapply mdev_at_upd| |].
    + cbn [set_ring m_ring]. rewrite Hc, fmap_app. cbn. by rewrite Hs, Hp1.
    + intros dir i Hne. apply mdev_at_upd_ne; [|done]. apply mdev_at_Some in Hm. lia.
Qed.

(** C15. A worker is scheduled again as long as the frame has no time stamp and
    the timeout has not passed. If it then finds a time stamp it appends the
    stamped frame to its ring (unless the ring is full) and frees the clone and
    itself; if the timeout passed first it drops the frame, freeing the clone
    once and not the worker. In both cases it is not scheduled again. *)
Theorem work2_resolves HZ w r waits o later :
  ring_ok r = true -> skb_ok (o_skb o) = true ->
  let timed_out x := o_before x (u64 (w_start w + PVAL_TXTSTAMP_TIMEOUT HZ)) in
  Forall (fun x => skb_hwtstamp (o_skb x) = 0 /\ timed_out x = false) waits ->
  skb_hwtstamp (o_skb o) <> 0 \/ timed_out o = true ->
  exists r' ev, work2_run HZ w r (waits ++ o :: later) = Some (r', ev, later) /\ ring_ok r' = true /\
    if skb_hwtstamp (o_skb o) =? 0
    then r' = r /\ ev = replicate (length waits) WResched ++ [WFreeSkb]
    else ev = replicate (length waits) WResched ++ [WFreeSkb; WFreeWorker] /\
         pkt_of_slot <$> ring_contents r' = (pkt_of_slot <$> ring_contents r) ++
           (if ring_full r then [] else [pkt_of_skb (o_skb o)]).
Proof.
  intros Hr Hok timed_out Hw Ho. induction Hw as [|x waits [Hx Hto] _ IH].
  - cbn [app work2_run length replicate]. unfold pval_txtstamp_work2. fold (timed_out o).
    destruct (Z.eqb_spec (skb_hwtstamp (o_skb o)) 0) as [E|E]; cbn [negb].
    + destruct Ho as [|Ht]; [done|]. rewrite Ht. cbn. by eexists _, _.
    + destruct (ring_full r) eqn:Ef.
      * rewrite write_full by done. cbn. eexists _, _. rewrite app_nil_r. done.
      * destruct (write_not_full r (o_skb o) Hr Hok Ef) as (r' & slot & -> & Hr' & Hc & Hs). cbn.
        eexists _, _. split_and!; try done. rewrite Hc, fmap_app. cbn. by rewrite Hs.
  - destruct IH as (r' & ev & Hrun & Hr' & Hres). cbn [app work2_run].
    unfold pval_txtstamp_work2 at 1. fold (timed_out x). rewrite Hx, Hto. cbn [Z.eqb negb mbind option_bind existsb is_resched orb].
    rewrite Hrun. cbn [mbind option_bind]. exists r', (WResched :: ev). split_and!; try done.
    destruct (skb_hwtstamp (o_skb o) =? 0); destruct Hres as [E1 E2]; split; try done; cbn [length replicate app]; by f_equal.
Qed.

End Claims.

(** ** The theorems on concrete inputs *)

Lemma xmit_inserts_option_witness :
  exists res s', pval_xmit (sample_env true 0) (sample_tx_dev true false true) (sample_tx sample_iph [1; 2; 3; 4]) = Some res /\
    EvQueue s' ∈ x_events res /\ pd_seq (x_dev res) = 8.
Proof.
  destruct (xmit_inserts_option _ _ _ _ _ _ _ _ _ _ (sample_sendable true false true 0)
    (sample_frame sample_iph [1; 2; 3; 4] eq_refl eq_refl eq_refl) eq_refl eq_refl)
    as (res & s' & hdr & Hx & _ & Hev & _ & _ & _ & _ & _ & _ & _ & Hq).
  exists res, s'. split; [exact Hx|]. split; [exact Hev|]. rewrite Hq. reflexivity.
Defined.

Lemma xmit_header_checksum_witness :
  exists res s', pval_xmit (sample_env true 0) (sample_tx_dev true true true) (sample_tx sample_iph [1; 2; 3; 4]) = Some res /\
    EvQueue s' ∈ x_events res.
Proof.
  destruct (xmit_header_checksum _ _ _ _ _ _ _ _ _ _ false (sample_sendable true true true 0)
    (sample_frame sample_iph [1; 2; 3; 4] eq_refl eq_refl eq_refl) eq_refl eq_refl eq_refl)
    as (res & s' & Hx & Hev & _).
  exact (ex_intro _ res (ex_intro _ s' (conj Hx Hev))).
Defined.

(** A header of six words with a right checksum; its fourth option byte ends the options. *)
Definition sample_options_iph : list Z := [70; 0; 0; 28; 18; 52; 0; 0; 64; 17; 81; 154; 10; 0; 0; 1; 10; 0; 0; 2].
Definition sample_options_rest : list Z := [1; 1; 1; 0; 9; 9; 9; 9].

Lemma xmit_options_break_checksum_witness :
  in_cksum [mk_cksum_vec (sample_options_iph ++ take 4 sample_options_rest) false 24] = Some 0 /\
  exists res s', pval_xmit (sample_env true 0) (sample_tx_dev true true true) (sample_tx sample_options_iph sample_options_rest) = Some res /\
    EvQueue s' ∈ x_events res /\
    let ip := drop 14 (skb_mac_header s') in
    (ip !!! 0%nat) mod 16 = 9 /\ in_cksum [mk_cksum_vec (take 36 ip) false 36] <> Some 0.
Proof.
  split; [vm_compute; reflexivity|].
  destruct (xmit_options_break_checksum (sample_env true 0) (sample_tx_dev true true true) (sample_tx sample_options_iph sample_options_rest)
    2 (sample_tx_mdev true) (replicate 28 170) (replicate 12 170) sample_eth sample_options_iph sample_options_rest false)
    as (res & s' & Hx & Hev & Hres).
  - split; [split_and!; done|apply sample_clones|apply sample_ring_ok|done|done|done|done].
  - by apply sample_frame.
  - reflexivity.
  - reflexivity.
  - vm_compute. congruence.
  - vm_compute. congruence.
  - exists res, s'. split; [exact Hx|]. split; [exact Hev|]. cbv zeta. change (_ <=? 12) with true in Hres. destruct Hres as [Hl Hck].
    assert (H9 : (drop 14 (skb_mac_header s') !!! 0%nat) mod 16 = 9) by (change ((sample_options_iph !!! 0%nat) mod 16) with 6 in Hl; lia).
    split; [exact H9|]. rewrite H9 in Hck. intros Hz. apply Hck in Hz. vm_compute in Hz. discriminate.
Defined.

Lemma xmit_passthrough_witness :
  exists res s', pval_xmit (sample_env true 0) (sample_tx_dev false true true) (sample_tx sample_iph [1; 2; 3; 4]) = Some res /\
    EvQueue s' ∈ x_events res /\ skb_len s' = 38.
Proof.
  destruct (xmit_passthrough (sample_env true 0) (sample_tx_dev false true true) (sample_tx sample_iph [1; 2; 3; 4])
    2 (sample_tx_mdev true) [8; 0] ltac:(by split_and!) (sample_clones 0) sample_ring_ok ltac:(done)
    ltac:(vm_compute; reflexivity) ltac:(vm_compute; reflexivity) (or_introl eq_refl))
    as (res & s' & Hx & _ & Hev & _ & Hl & _).
  exact (ex_intro _ res (ex_intro _ s' (conj Hx (conj Hev Hl)))).
Defined.

Definition sample_result : tx_result flat_skb :=
  match pval_xmit (sample_env true 0) (bare_tx_dev true true true) (sample_tx sample_iph [1; 2; 3; 4]) with
  | Some res => res
  | None => mk_tx_result 0 (bare_tx_dev true true true) (sample_tx sample_iph []) []
  end.

Definition sample_clone : flat_skb :=
  match x_events sample_result with EvClone c :: _ => c | _ => sample_tx sample_iph [] end.

Lemma xmit_clone_released_witness :
  EvFree sample_clone ∈ x_events sample_result \/
  exists w, EvSchedule w ∈ x_events sample_result /\ w_skb w = sample_clone.
Proof.
  apply (xmit_clone_released (sample_env true 0) (bare_tx_dev true true true) (sample_tx sample_iph [1; 2; 3; 4])
    sample_result sample_clone).
  - vm_compute. reflexivity.
  - vm_compute. constructor.
  - split; vm_compute; reflexivity.
Defined.

Lemma txcopy_records_frame_witness :
  exists res m' slot, pval_xmit (sample_env true 0) (sample_tx_dev false false true) (sample_tx sample_iph [1; 2; 3; 4]) = Some res /\
    mdev_at (x_dev res) TX 0 = Some m' /\ ring_contents (m_ring m') = [slot] /\ s_pktlen slot = 38.
Proof.
  destruct (txcopy_records_frame (sample_env true 0) (sample_tx_dev false false true) (sample_tx sample_iph [1; 2; 3; 4])
    2 (sample_tx_mdev true) (sample_tx_dev false false true) (sample_tx sample_iph [1; 2; 3; 4])
    ltac:(by split_and!) (sample_clones 0) sample_ring_ok eq_refl eq_refl eq_refl ltac:(vm_compute; reflexivity)
    eq_refl ltac:(done) ltac:(vm_compute; reflexivity) eq_refl) as (res & m' & slot & Hx & Hm & Hc & _ & Hl).
  exact (ex_intro _ res (ex_intro _ m' (ex_intro _ slot (conj Hx (conj Hm (conj Hc Hl)))))).
Defined.

Lemma xmit_retry_inserts_twice_witness :
  exists res res2, pval_xmit (sample_env false 0) (sample_tx_dev true false true) (sample_tx sample_iph [1; 2; 3; 4]) = Some res /\
    x_rc res = NETDEV_TX_BUSY /\ pval_xmit (sample_env true 0) (x_dev res) (x_skb res) = Some res2.
Proof.
  destruct (xmit_retry_inserts_twice (sample_env false 0) (sample_env true 0) (sample_tx_dev true false true)
    (sample_tx sample_iph [1; 2; 3; 4]) 2 (sample_tx_mdev true) (replicate 16 170) (replicate 12 170) (replicate 12 170)
    sample_eth sample_iph [1; 2; 3; 4] (sample_sendable true false true 0) eq_refl eq_refl
    (sample_frame sample_iph [1; 2; 3; 4] eq_refl eq_refl eq_refl) eq_refl eq_refl eq_refl eq_refl ltac:(done))
    as (res & res2 & s' & hdr & Hx & Hb & _ & Hx2 & _).
  exact (ex_intro _ res (ex_intro _ res2 (conj Hx (conj Hb Hx2)))).
Defined.

Lemma handle_frame_records_witness :
  exists s' pdev' m', pdev_handle_frame Some 0 (sample_tx_dev true true true) (sample_tx sample_iph [1; 2; 3; 4]) =
      Some (RX_HANDLER_ANOTHER s', pdev') /\ mdev_at pdev' RX 0 = Some m'.
Proof.
  destruct (handle_frame_records (skb := flat_skb) Some 0 (sample_tx_dev true true true) (sample_tx sample_iph [1; 2; 3; 4])
    (sample_tx sample_iph [1; 2; 3; 4]) (sample_tx_mdev true)) as (s' & pdev' & m' & Hh & _ & Hm & _);
    [reflexivity|reflexivity|apply sample_ring_ok|vm_compute; discriminate|vm_compute; reflexivity|].
  exact (ex_intro _ s' (ex_intro _ pdev' (ex_intro _ m' (conj Hh Hm)))).
Defined.

Definition sample_stamped : flat_skb :=
  mk_flat_skb (replicate 60 1) 0 0 14 60 0 123456 0 None 0.

Lemma work2_resolves_witness :
  exists r' ev, work2_run 250 (mk_pval_worker (sample_tx sample_iph []) 0 1000) sample_ring
    [mk_work_obs (fun _ => false) (sample_tx sample_iph []); mk_work_obs (fun _ => false) sample_stamped] =
    Some (r', ev, []) /\ ring_ok r' = true.
Proof.
  destruct (work2_resolves 250 (mk_pval_worker (sample_tx sample_iph []) 0 1000) sample_ring
    [mk_work_obs (fun _ => false) (sample_tx sample_iph [])] (mk_work_obs (fun _ => false) sample_stamped) []
    sample_ring_ok) as (r' & ev & Hr & Hok & _);
    [vm_compute; reflexivity|constructor; [split; reflexivity|constructor]|left; vm_compute; discriminate|].
  exact (ex_intro _ r' (ex_intro _ ev (conj Hr Hok))).
Defined.
