(* ===== verification/Device.v ===== *)
(** * Life cycle and configuration of a pval device

    Models the rest of [kmod/pval_main.c]: the character devices' life
    ([pval_init_miscdevice], [pval_destroy_miscdevice]), time stamp configuration
    of the lower link ([netdev_ioctl], [pval_*_tstamp_config]), the network device
    operations ([pval_init], [pval_uninit], [pval_open], [pval_stop]), the rtnetlink
    operations ([pval_setup] to [pval_get_link_net]), the network name space and
    module entry points. Kernel functions are the calls of a trace; their results
    come from an environment, and the driver of the lower link is a state the
    ioctl calls act on. *)
From stdpp Require Import base list numbers strings.
From Stdlib Require Import ZArith Lia.
From S2P Require Import Prelude Abi Ring State Cstring Chardev.

Open Scope Z_scope.

(** ** Calls into the kernel *)

Inductive kcall :=
  | DevGetByIndex (ifindex : Z) (found : bool) | DevPut (ifindex : Z)
  | AllocStats | FreeStats
  | RegisterNetdevice (rc : Z) | UnregisterNetdevice | UnregisterNetdeviceQueue (name : string)
  | UpperDevLink (rc : Z) | UpperDevUnlink
  | KmallocRing (name : string) (ok : bool) | KfreeRing (name : string)
  | MiscRegister (name : string) (rc : Z) | MiscDeregister (name : string)
  | ListAdd | ListDel
  | RxHandlerRegister | RxHandlerUnregister | SetPromiscuity (inc rc : Z)
  | Ioctl (cmd : Z) (data : hwtstamp_config)
  | RegisterPernet (rc : Z) | UnregisterPernet
  | RtnlLinkRegister (rc : Z) | RtnlLinkUnregister.

#[export] Instance kcall_eq_dec : EqDecision kcall.
Proof. solve_decision. Defined.

(** The driver of the lower link: what [ndo_do_ioctl] returns, what it leaves in
    [ifr_data], and its next state. *)
Class LinkDriver (drv : Type) := {
  ndo_do_ioctl : drv -> Z -> hwtstamp_config -> Z * hwtstamp_config * drv
}.

(** A computation with the driver's state and the calls it made. *)
Definition io (drv A : Type) : Type := drv -> list kcall * A * drv.

Definition ret {drv A} (a : A) : io drv A := fun st => ([], a, st).
Definition bind {drv A B} (m : io drv A) (f : A -> io drv B) : io drv B := fun st =>
  let '(t1, a, st1) := m st in
  let '(t2, b, st2) := f a st1 in (t1 ++ t2, b, st2).
Definition call {drv} (c : kcall) : io drv unit := fun st => ([c], tt, st).

Declare Scope io_scope.
Delimit Scope io_scope with io.
Notation "x <- m ;; k" := (bind m (fun x => k))
  (at level 100, m at next level, right associativity) : io_scope.
Notation "m ;;; k" := (bind m (fun _ => k)) (at level 100, right associativity) : io_scope.
Notation "'let*' p := m 'in' k" := (bind m (fun x => match x with p => k end))
  (at level 10, p pattern, k at level 200) : io_scope.

(** ** Constants *)

Definition SIOCSHWTSTAMP : Z := 0x89b0.
Definition SIOCGHWTSTAMP : Z := 0x89b1.
Definition HWTSTAMP_TX_ON : Z := 1.
Definition HWTSTAMP_FILTER_ALL : Z := 1.

(** What the environment of one operation answers. *)
Record kenv := mk_kenv {
  k_link_name : string;                        (* pdev->link->name *)
  k_has_ioctl : bool;                          (* ndo_do_ioctl is not NULL *)
  k_dev_get_by_index : Z -> bool;              (* whether the index exists *)
  k_link_headroom : Z;                         (* link->needed_headroom *)
  k_register_netdevice : Z;
  k_upper_dev_link : Z;
  k_num_possible_cpus : Z;
  k_kmalloc_ring : string -> option (list pval_slot);
  k_misc_register : string -> Z;
  k_alloc_stats : bool;
  k_rx_handler_busy : bool;
  k_set_promiscuity : Z;
  k_register_pernet : Z;
  k_rtnl_link_register : Z
}.

Section Device.
Context {skb drv : Type} `{LinkDriver drv}.
#[local] Open Scope io_scope.
Implicit Types (env : kenv) (pdev : pval_dev skb).

(** ** Character devices *)

(** The result is the return code and the entry of the array. *)
Definition pval_init_miscdevice env (pmdev : pval_mdev skb) (name : string) (cpu : Z)
  : io drv (Z * pval_mdev skb) :=
  let '(rc, ring) := pval_init_ring (k_kmalloc_ring env name) cpu in
  let pmdev1 := mk_pval_mdev name cpu false ring (m_txtstamp_start pmdev) None in
  call (KmallocRing name (0 <=? rc));;;
  if rc <? 0 then ret (rc, pmdev1)
  else
    let rc2 := k_misc_register env name in
    call (MiscRegister name rc2);;;
    if rc2 <? 0 then
      call (KfreeRing name);;; ret (rc2, set_ring pmdev1 (pval_destroy_ring ring))
    else ret (0, pmdev1).

Definition pval_destroy_miscdevice (pmdev : pval_mdev skb) : io drv (pval_mdev skb) :=
  call (MiscDeregister (m_name pmdev));;;
  call (KfreeRing (m_name pmdev));;;
  ret (set_ring pmdev (pval_destroy_ring (m_ring pmdev))).

(** ** Time stamp configuration of the lower link *)

Definition netdev_ioctl env (cmd : Z) (data : hwtstamp_config) : io drv (Z * hwtstamp_config) :=
  if negb (k_has_ioctl env) then ret (- ENOTSUPP, data)
  else
    call (Ioctl cmd data);;;
    fun st => let '(rc, data', st') := ndo_do_ioctl st cmd data in ([], (rc, data'), st').

(** [config] is the indeterminate contents of the local variable. *)
Definition pval_save_tstamp_config env (config : hwtstamp_config) pdev : io drv (Z * pval_dev skb) :=
  let* (rc, config') := netdev_ioctl env SIOCGHWTSTAMP config in
  if negb (rc =? 0) then ret (rc, pdev) else ret (0, set_original_config pdev config').

(** The driver may write to [ifr_data], here the saved configuration itself. *)
Definition pval_restore_tstamp_config env pdev : io drv (Z * pval_dev skb) :=
  let* (rc, config') := netdev_ioctl env SIOCSHWTSTAMP (pd_original_config pdev) in
  ret (rc, set_original_config pdev config').

Definition pval_set_tstamp_config env pdev : io drv Z :=
  let config := mk_hwtstamp_config 0
    (if pd_txtstamp pdev then HWTSTAMP_TX_ON else 0)
    (if pd_rxtstamp pdev then HWTSTAMP_FILTER_ALL else 0) in
  let* (rc, _) := netdev_ioctl env SIOCSHWTSTAMP config in
  ret rc.

(** ** Network device operations *)

Definition pval_init env : io drv Z :=
  call AllocStats;;; if negb (k_alloc_stats env) then ret (- ENOMEM) else ret 0.

Definition pval_uninit : io drv unit := call FreeStats.

Definition pval_open env pdev : io drv (Z * pval_dev skb) :=
  if k_rx_handler_busy env then ret (- EBUSY, pdev)
  else
    call RxHandlerRegister;;;
    pval_set_tstamp_config env pdev;;;
    let rc := k_set_promiscuity env in
    call (SetPromiscuity 1 rc);;;
    if rc <? 0 then
      let* (_, pdev') := pval_restore_tstamp_config env pdev in
      call RxHandlerUnregister;;; ret (rc, pdev')
    else ret (rc, pdev).

(** The answer to the decrement is not looked at; it cannot overflow. *)
Definition pval_stop : io drv Z :=
  call RxHandlerUnregister;;; call (SetPromiscuity (-1) 0);;; ret 0.

(** ** Rtnetlink operations *)

(** The fields of the network device that [pval_setup] sets. *)
Record net_device := mk_net_device {
  nd_needs_free_netdev : bool;
  nd_is_pval : bool;             (* netdev_ops == &pdev_netdev_ops *)
  nd_features : Z;
  nd_priv_flags : Z;
  nd_min_mtu : Z;
  nd_max_mtu : Z
}.

Definition NETIF_F_LLTX : Z := 2 ^ 12.
Definition IFF_NO_QUEUE : Z := 2 ^ 21.
Definition IFF_TX_SKB_SHARING : Z := 2 ^ 16.
Definition ETH_MIN_MTU : Z := 68.
Definition ETH_MAX_MTU : Z := 0xFFFF.

Definition pval_setup (ether_setup : net_device -> net_device) (dev : net_device) : net_device :=
  let dev1 := ether_setup dev in
  mk_net_device true true (Z.lor (nd_features dev1) NETIF_F_LLTX)
    (Z.land (Z.lor (nd_priv_flags dev1) IFF_NO_QUEUE) (Z.lnot IFF_TX_SKB_SHARING))
    ETH_MIN_MTU ETH_MAX_MTU.

(** The parsed attributes: the payload of each type present. [None] for the
    array means that the request had no data. *)
Definition attrs : Type := option (Z -> option (list Z)).

Definition attr (data : attrs) (ty : Z) : option (list Z) :=
  match data with Some d => d ty | None => None end.

Definition nla_get_u8 (payload : list Z) : Z := payload !!! 0%nat.
Definition nla_get_u32 (payload : list Z) : Z := le_val (take 4 payload).

Inductive nla_type := NLA_U8 | NLA_U32.

Definition pval_policy (ty : Z) : option nla_type :=
  if ty =? IFLA_PVAL_LINK then Some NLA_U32
  else if (IFLA_PVAL_IPOPT <=? ty) && (ty <=? IFLA_PVAL_TXBUSYDROP) then Some NLA_U8
  else None.

Definition pval_nl_config pdev (data : attrs) : Z * pval_dev skb :=
  let switch (ty : Z) (old : bool) : bool :=
    match attr data ty with
    | Some p => if nla_get_u8 p =? 0 then false else true
    | None => old
    end in
  (0, set_switches pdev
        (switch IFLA_PVAL_IPOPT (pd_ipopt pdev)) (switch IFLA_PVAL_TXTSTAMP (pd_txtstamp pdev))
        (switch IFLA_PVAL_RXTSTAMP (pd_rxtstamp pdev)) (switch IFLA_PVAL_TXCOPY (pd_txcopy pdev))
        (switch IFLA_PVAL_RXCOPY (pd_rxcopy pdev))
        (switch IFLA_PVAL_TXBUSYDROP (pd_txbusydrop pdev))).

(** The loop of [pval_newlink] over the CPUs from [n] on. *)
Fixpoint newlink_mdevs env pdev (n : Z) (k : nat) : io drv (Z * pval_dev skb) :=
  match k with
  | O => ret (0, pdev)
  | S k' =>
      let init dir pd :=
        match mdev_at pd dir n with
        | None => ret (- EINVAL, pd)
        | Some m =>
            let* (err, m') := pval_init_miscdevice env m (mdev_name (pd_name pd) dir n) n in
            ret (err, upd_mdev pd dir n m')
        end in
      let* (err, pd1) := init TX pdev in
      if err <? 0 then ret (err, pd1)
      else
        let* (err2, pd2) := init RX pd1 in
        if err2 <? 0 then ret (err2, pd2) else newlink_mdevs env pd2 (n + 1) k'
  end.

(** The result is the return code, the device and [dev->needed_headroom]. *)
Definition pval_newlink env (config : hwtstamp_config) pdev (data : attrs)
  : io drv (Z * pval_dev skb * Z) :=
  let pdev0 := set_original_config (set_switches pdev false false false false false true)
                 (mk_hwtstamp_config 0 0 0) in
  link <- match attr data IFLA_PVAL_LINK with
          | Some p =>
              let ifindex := nla_get_u32 p in
              call (DevGetByIndex ifindex (k_dev_get_by_index env ifindex));;;
              ret (if k_dev_get_by_index env ifindex then Some ifindex else None)
          | None => ret None
          end;;
  match link with
  | None => ret (- ENODEV, pdev0, 0)
  | Some ifindex =>
      let pdev1 := (pval_nl_config (set_link pdev0 (Some ifindex)) data).2 in
      let headroom := u16 (u16 sizeof_ipopt_pval + k_link_headroom env) in
      let err := k_register_netdevice env in
      call (RegisterNetdevice err);;;
      if negb (err =? 0) then ret (err, pdev1, headroom)
      else
        let err2 := k_upper_dev_link env in
        call (UpperDevLink err2);;;
        if negb (err2 =? 0) then call UnregisterNetdevice;;; ret (err2, pdev1, headroom)
        else
          let cpus := k_num_possible_cpus env in
          let pdev2 := set_num_cpus pdev1 (if PVAL_MAX_CPUS >? cpus then cpus else PVAL_MAX_CPUS) in
          let* (err3, pdev3) := newlink_mdevs env pdev2 0 (Z.to_nat (pd_num_cpus pdev2)) in
          if err3 <? 0 then call UnregisterNetdevice;;; ret (err3, pdev3, headroom)
          else
            let* (_, pdev4) := pval_save_tstamp_config env config pdev3 in
            call ListAdd;;; ret (0, pdev4, headroom)
  end.

Definition pval_changelink env pdev (data : attrs) : io drv (Z * pval_dev skb) :=
  match attr data IFLA_PVAL_LINK with
  | Some _ => ret (- ENOTSUPP, pdev)
  | None =>
      let pdev1 := (pval_nl_config pdev data).2 in
      pval_set_tstamp_config env pdev1;;; ret (0, pdev1)
  end.

(** The loop of [pval_dellink]; [None] in the array's place ends it, since an
    entry outside the array is not an object. *)
Fixpoint dellink_mdevs pdev (n : Z) (k : nat) : io drv (pval_dev skb) :=
  match k with
  | O => ret pdev
  | S k' =>
      let destroy dir pd :=
        match mdev_at pd dir n with
        | None => ret pd
        | Some m => m' <- pval_destroy_miscdevice m;; ret (upd_mdev pd dir n m')
        end in
      pd1 <- destroy TX pdev;; pd2 <- destroy RX pd1;; dellink_mdevs pd2 (n + 1) k'
  end.

Definition pval_dellink env pdev : io drv (pval_dev skb) :=
  let* (_, pdev1) := pval_restore_tstamp_config env pdev in
  match pd_link pdev1 with
  | None => ret pdev1
  | Some link =>
      call (DevPut link);;;
      call ListDel;;;
      call (UnregisterNetdeviceQueue (pd_name pdev1));;;
      call UpperDevUnlink;;;
      dellink_mdevs pdev1 0 (Z.to_nat (pd_num_cpus pdev1))
  end.

(** [nla_total_size] and [nla_put] are the kernel's. *)
Definition pval_get_size (nla_total_size : Z -> Z) : Z := nla_total_size 4.

Definition pval_fill_info {msg : Type} (nla_put : msg -> Z -> list Z -> option msg) (m : msg) pdev
  : option (Z * msg) :=
  link ← pd_link pdev;
  let put_u8 ty (b : bool) (k : msg -> option (Z * msg)) m :=
    match nla_put m ty [if b then 1 else 0] with
    | None => Some (- EMSGSIZE, m)
    | Some m' => k m'
    end in
  match nla_put m IFLA_PVAL_LINK (le_bytes 4 link) with
  | None => Some (- EMSGSIZE, m)
  | Some m1 =>
      put_u8 IFLA_PVAL_IPOPT (pd_ipopt pdev)
        (put_u8 IFLA_PVAL_TXTSTAMP (pd_txtstamp pdev)
          (put_u8 IFLA_PVAL_RXTSTAMP (pd_rxtstamp pdev)
            (put_u8 IFLA_PVAL_TXCOPY (pd_txcopy pdev)
              (put_u8 IFLA_PVAL_RXCOPY (pd_rxcopy pdev)
                (put_u8 IFLA_PVAL_TXBUSYDROP (pd_txbusydrop pdev) (fun m => Some (0, m))))))) m1
  end.

Definition pval_get_link_net {net : Type} (dev_net : Z -> net) pdev : option net :=
  dev_net <$> pd_link pdev.

(** ** Name spaces and the module *)

(** The list of devices of the name space, after [INIT_LIST_HEAD]. *)
Definition pval_init_net : Z * list string := (0, []).

Fixpoint pval_exit_net (dev_list : list string) : io drv unit :=
  match dev_list with
  | [] => ret tt
  | d :: rest => call (UnregisterNetdeviceQueue d);;; pval_exit_net rest
  end.

Definition pval_init_module env : io drv Z :=
  let rc := k_register_pernet env in
  call (RegisterPernet rc);;;
  if negb (rc =? 0) then ret 0
  else
    let rc2 := k_rtnl_link_register env in
    call (RtnlLinkRegister rc2);;;
    if negb (rc2 =? 0) then call UnregisterPernet;;; ret 0 else ret 0.

Definition pval_exit_module : io drv unit :=
  call RtnlLinkUnregister;;; call UnregisterPernet.

End Device.

(** ** Running computations *)

Section Running.
Context {drv : Type}.

Lemma bind_run {A B} (m : io drv A) (f : A -> io drv B) st t a st' :
  m st = (t, a, st') ->
  bind m f st = let '(t2, b, st2) := f a st' in (t ++ t2, b, st2).
Proof. intros E. unfold bind. by rewrite E. Qed.

Lemma bind_call {B} c (f : unit -> io drv B) st :
  bind (call c) f st = let '(t2, b, st2) := f tt st in (c :: t2, b, st2).
Proof. reflexivity. Qed.

Lemma bind_ret {A B} (a : A) (f : A -> io drv B) st :
  bind (ret a) f st = f a st.
Proof. unfold bind, ret. by destruct (f a st) as [[]]. Qed.

Lemma bind_inv {A B} (m : io drv A) (f : A -> io drv B) st t b st' :
  bind m f st = (t, b, st') ->
  exists t1 a st1 t2, m st = (t1, a, st1) /\ f a st1 = (t2, b, st') /\ t = t1 ++ t2.
Proof.
  unfold bind. destruct (m st) as [[t1 a] st1], (f a st1) as [[t2 b2] st2] eqn:E.
  intros [= <- <- <-]. by exists t1, a, st1, t2.
Qed.

Lemma call_inv {B} c (f : unit -> io drv B) st t b st' :
  bind (call c) f st = (t, b, st') -> exists t2, f tt st = (t2, b, st') /\ t = c :: t2.
Proof. intros (t1 & [] & st1 & t2 & [= <- <-] & ? & ->)%bind_inv. by exists t2. Qed.

End Running.

(** Takes a run apart, one call at a time. *)
Ltac io_step :=
  match goal with
  | E : bind (call ?c) _ _ = _ |- _ => apply call_inv in E as (? & E & ->)
  | E : bind (ret _) _ _ = _ |- _ => rewrite bind_ret in E
  | E : bind _ _ _ = _ |- _ => apply bind_inv in E as (? & ? & ? & ? & ? & E & ->)
  | E : ret _ _ = _ |- _ => unfold ret in E; simplify_eq
  | E : (if ?b then _ else _) _ = _ |- _ => destruct b eqn:?
  | E : (let '(_, _) := ?x in _) _ = _ |- _ => destruct x
  end.

(** ** Resources *)

(** The sum over a trace of what each call acquires (+1) or releases (-1). *)
Definition tally (f : kcall -> Z) (t : list kcall) : Z := foldr (fun c n => f c + n) 0 t.

Definition ref_of (c : kcall) : Z :=
  match c with DevGetByIndex _ true => 1 | DevPut _ => -1 | _ => 0 end.
Definition netdev_of (c : kcall) : Z :=
  match c with
  | RegisterNetdevice 0 => 1
  | UnregisterNetdevice | UnregisterNetdeviceQueue _ => -1
  | _ => 0
  end.
Definition upper_of (c : kcall) : Z :=
  match c with UpperDevLink 0 => 1 | UpperDevUnlink => -1 | _ => 0 end.
Definition list_of (c : kcall) : Z := match c with ListAdd => 1 | ListDel => -1 | _ => 0 end.
Definition misc_of (name : string) (c : kcall) : Z :=
  match c with
  | MiscRegister s rc => if decide (s = name) then (if rc <? 0 then 0 else 1) else 0
  | MiscDeregister s => if decide (s = name) then -1 else 0
  | _ => 0
  end.
Definition ring_of (name : string) (c : kcall) : Z :=
  match c with
  | KmallocRing s true => if decide (s = name) then 1 else 0
  | KfreeRing s => if decide (s = name) then -1 else 0
  | _ => 0
  end.
Definition handler_of (c : kcall) : Z :=
  match c with RxHandlerRegister => 1 | RxHandlerUnregister => -1 | _ => 0 end.
Definition promisc_of (c : kcall) : Z :=
  match c with SetPromiscuity n rc => if rc <? 0 then 0 else n | _ => 0 end.

Lemma tally_app f a b : tally f (a ++ b) = tally f a + tally f b.
Proof. unfold tally. induction a as [|c a IH]; cbn in *; lia. Qed.

Lemma tally_cons f c t : tally f (c :: t) = f c + tally f t.
Proof. reflexivity. Qed.

(** ** The character devices of a new link *)

Section Mdevs.
Context {skb drv : Type} `{LinkDriver drv}.
Implicit Types (env : kenv) (pdev : pval_dev skb) (st : drv).

Definition arrays_ok pdev : Prop :=
  length (pd_txmdevs pdev) = Z.to_nat PVAL_MAX_CPUS /\ length (pd_rxmdevs pdev) = Z.to_nat PVAL_MAX_CPUS.

(** The fields the character devices' set-up does not touch. *)
Definition same_config pdev pdev' : Prop :=
  pd_name pdev' = pd_name pdev /\ pd_link pdev' = pd_link pdev /\
  (pd_ipopt pdev', pd_txtstamp pdev', pd_rxtstamp pdev', pd_txcopy pdev', pd_rxcopy pdev',
   pd_txbusydrop pdev') =
  (pd_ipopt pdev, pd_txtstamp pdev, pd_rxtstamp pdev, pd_txcopy pdev, pd_rxcopy pdev,
   pd_txbusydrop pdev) /\
  pd_original_config pdev' = pd_original_config pdev /\ pd_num_cpus pdev' = pd_num_cpus pdev.

Lemma same_config_trans a b c : same_config a b -> same_config b c -> same_config a c.
Proof. unfold same_config. naive_solver congruence. Qed.

Lemma same_config_upd pdev dir i m : same_config pdev (upd_mdev pdev dir i m).
Proof. destruct dir; repeat split. Qed.

Lemma arrays_ok_upd pdev dir i m : arrays_ok pdev -> arrays_ok (upd_mdev pdev dir i m).
Proof. intros []. destruct dir; split; cbn; by rewrite ?length_insert. Qed.

Lemma mdev_at_arrays pdev dir i :
  arrays_ok pdev -> 0 <= i < PVAL_MAX_CPUS -> exists m, mdev_at pdev dir i = Some m.
Proof.
  intros [Ht Hr] Hi. destruct (lookup_lt_is_Some_2 (mdevs pdev dir) (Z.to_nat i)) as [m Hm].
  - destruct dir; cbn; unfold PVAL_MAX_CPUS in *; lia.
  - exists m. by apply mdev_at_Some.
Qed.

(** An entry as a successful [pval_init_miscdevice] leaves it. *)
Definition fresh_mdev env (ifname : string) (dir : direction) (n : Z) (m : pval_mdev skb) : Prop :=
  m_name m = mdev_name ifname dir n /\ m_cpu m = n /\ m_opened m = false /\ m_cloned_skb m = None /\
  exists sl, k_kmalloc_ring env (mdev_name ifname dir n) = Some sl /\
    m_ring m = mk_pval_ring (u8 n) 0 0 (PVAL_SLOT_NUM - 1) sl.

Definition mdev_up env (name : string) : list kcall :=
  [KmallocRing name true; MiscRegister name (k_misc_register env name)].

Definition mdev_down (name : string) : list kcall := [MiscDeregister name; KfreeRing name].

(** The calls of the set-up of a character device: none deregisters one. *)
Definition mdev_call (c : kcall) : bool :=
  match c with KmallocRing _ _ | MiscRegister _ _ | KfreeRing _ => true | _ => false end.

Lemma init_miscdevice_run env m ifname dir n st t rc m' st' :
  pval_init_miscdevice env m (mdev_name ifname dir n) n st = (t, (rc, m'), st') ->
  st' = st /\ forallb mdev_call t = true /\
  (rc < 0 \/ rc = 0 /\ t = mdev_up env (mdev_name ifname dir n) /\
             0 <= k_misc_register env (mdev_name ifname dir n) /\ fresh_mdev env ifname dir n m').
Proof.
  unfold pval_init_miscdevice, pval_init_ring. intros E. unfold mdev_up, fresh_mdev.
  destruct (k_kmalloc_ring env (mdev_name ifname dir n)) as [sl|] eqn:Ek; cbn [Z.leb Z.ltb Z.compare] in E.
  - repeat io_step; bool_to_prop; (split; [done|split; [done|]]); [left; lia|].
    right. split_and!; try done. by exists sl.
  - repeat io_step. split_and!; try done. by left.
Qed.

(** All the calls of a set-up, or a tear-down, of [k] CPUs from [n] on. *)
Fixpoint up_trace env (ifname : string) (n : Z) (k : nat) : list kcall :=
  match k with
  | O => []
  | S k' => mdev_up env (mdev_name ifname TX n) ++ mdev_up env (mdev_name ifname RX n) ++
            up_trace env ifname (n + 1) k'
  end.

Fixpoint down_trace (ifname : string) (n : Z) (k : nat) : list kcall :=
  match k with
  | O => []
  | S k' => mdev_down (mdev_name ifname TX n) ++ mdev_down (mdev_name ifname RX n) ++
            down_trace ifname (n + 1) k'
  end.

(** The [CPU]s from [n] on that the loop has set up. *)
Definition mdevs_up env (ifname : string) (n : Z) (k : nat) pdev : Prop :=
  forall dir j, n <= j < n + Z.of_nat k ->
    0 <= k_misc_register env (mdev_name ifname dir j) /\
    exists m, mdev_at pdev dir j = Some m /\ fresh_mdev env ifname dir j m.

(** One step of the loop body, for one direction. *)
Definition init_dir env (n : Z) (dir : direction) pd : io drv (Z * pval_dev skb) :=
  match mdev_at pd dir n with
  | None => ret (- EINVAL, pd)
  | Some m => bind (pval_init_miscdevice env m (mdev_name (pd_name pd) dir n) n)
                (fun x => match x with (err, m') => ret (err, upd_mdev pd dir n m') end)
  end.

Lemma newlink_mdevs_S env pdev n k :
  newlink_mdevs env pdev n (S k) =
  bind (init_dir env n TX pdev) (fun x => match x with (err, pd1) =>
    if err <? 0 then ret (err, pd1)
    else bind (init_dir env n RX pd1) (fun x => match x with (err2, pd2) =>
      if err2 <? 0 then ret (err2, pd2) else newlink_mdevs env pd2 (n + 1) k end) end).
Proof. reflexivity. Qed.

Lemma init_dir_run env n dir pdev st t rc pdev' st' :
  arrays_ok pdev -> 0 <= n < PVAL_MAX_CPUS ->
  init_dir env n dir pdev st = (t, (rc, pdev'), st') ->
  st' = st /\ forallb mdev_call t = true /\ same_config pdev pdev' /\ arrays_ok pdev' /\
  (forall dir' j, (dir, n) <> (dir', j) -> mdev_at pdev' dir' j = mdev_at pdev dir' j) /\
  (rc < 0 \/ rc = 0 /\ t = mdev_up env (mdev_name (pd_name pdev) dir n) /\
     0 <= k_misc_register env (mdev_name (pd_name pdev) dir n) /\
     exists m, mdev_at pdev' dir n = Some m /\ fresh_mdev env (pd_name pdev) dir n m).
Proof.
  intros Ha Hn E. unfold init_dir in E. destruct (mdev_at_arrays pdev dir n Ha Hn) as [m Hm].
  rewrite Hm in E. apply bind_inv in E as (t1 & [err m'] & st1 & t2 & Ei & E & ->).
  apply init_miscdevice_run in Ei as (-> & Hc & Hres). unfold ret in E. simplify_eq.
  rewrite app_nil_r in *. split_and!; try done.
  - apply same_config_upd.
  - by apply arrays_ok_upd.
  - intros dir' j Hne. apply mdev_at_upd_ne; [lia|done].
  - destruct Hres as [?|(-> & -> & ? & ?)]; [by left|right]. split_and!; try done.
    exists m'. split; [by eapply mdev_at_upd|done].
Qed.

Lemma newlink_mdevs_run env pdev n k st t rc pdev' st' :
  arrays_ok pdev -> 0 <= n -> n + Z.of_nat k <= PVAL_MAX_CPUS ->
  newlink_mdevs env pdev n k st = (t, (rc, pdev'), st') ->
  st' = st /\ forallb mdev_call t = true /\ same_config pdev pdev' /\ arrays_ok pdev' /\
  (forall dir j, j < n -> mdev_at pdev' dir j = mdev_at pdev dir j) /\
  (rc < 0 \/ rc = 0 /\ t = up_trace env (pd_name pdev) n k /\ mdevs_up env (pd_name pdev) n k pdev').
Proof.
  revert pdev n t st. induction k as [|k IH]; intros pdev n t st Ha Hn Hk E.
  - cbn [newlink_mdevs] in E. unfold ret in E. simplify_eq.
    split_and!; try done; [apply Ha..|]. right. split_and!; try done. intros dir j. lia.
  - rewrite newlink_mdevs_S in E. apply bind_inv in E as (t1 & [e1 pd1] & st1 & t2 & E1 & E & ->).
    apply init_dir_run in E1 as (-> & Hc1 & Hs1 & Ha1 & Hne1 & Hr1); [|done|lia].
    destruct (Z.ltb_spec e1 0) as [Hlt|Hge].
    { unfold ret in E. simplify_eq. rewrite app_nil_r. split_and!; try done; try (by left); try apply Hs1; try apply Ha1.
      intros dir j Hj. apply Hne1. intros [=]. lia. }
    destruct Hr1 as [?|(-> & -> & Hm1 & m1 & Hat1 & Hf1)]; [lia|].
    apply bind_inv in E as (t3 & [e2 pd2] & st2 & t4 & E2 & E & ->).
    apply init_dir_run in E2 as (-> & Hc2 & Hs2 & Ha2 & Hne2 & Hr2); [|done|lia].
    pose proof (same_config_trans _ _ _ Hs1 Hs2) as Hs12. destruct Hs1 as (Hn1 & _).
    destruct (Z.ltb_spec e2 0) as [Hlt2|Hge2].
    { unfold ret in E. simplify_eq. rewrite app_nil_r, forallb_app, Hc1, Hc2. split_and!; try done; try (by left); try apply Hs12; try apply Ha2.
      intros dir j Hj. rewrite Hne2, Hne1; [done|intros [=]; lia..]. }
    destruct Hr2 as [?|(-> & -> & Hm2 & m2 & Hat2 & Hf2)]; [lia|].
    apply IH in E as (-> & Hc3 & Hs3 & Ha3 & Hlt3 & Hr3); [|done|lia|lia].
    pose proof (same_config_trans _ _ _ Hs12 Hs3) as Hs. destruct Hs12 as (Hn2 & _). rewrite Hn1 in *. rewrite Hn2 in *.
    rewrite !forallb_app, Hc1, Hc2, Hc3. split_and!; try done; try apply Hs; try apply Ha3.
    + intros dir j Hj. rewrite Hlt3, Hne2, Hne1; [done|intros [=]; lia..|lia].
    + destruct Hr3 as [?|(-> & -> & Hup)]; [by left|right]. split_and!; [done|done|].
      intros dir j Hj. destruct (decide (j = n)) as [->|]; [|apply Hup; lia].
      destruct dir; (split; [done|eexists; split; [|done]]); rewrite Hlt3 by lia; [|done].
      rewrite Hne2; [done|intros [=]].
Qed.

(** The tear-down of one CPU's two devices. *)
Definition destroy_dir (n : Z) (dir : direction) pd : io drv (pval_dev skb) :=
  match mdev_at pd dir n with
  | None => ret pd
  | Some m => bind (pval_destroy_miscdevice m) (fun m' => ret (upd_mdev pd dir n m'))
  end.

Lemma dellink_mdevs_S pdev n k :
  dellink_mdevs pdev n (S k) =
  bind (destroy_dir n TX pdev) (fun pd1 => bind (destroy_dir n RX pd1)
    (fun pd2 => dellink_mdevs pd2 (n + 1) k)) :> io drv _.
Proof. reflexivity. Qed.

(** The entries carry the names they were registered under. *)
Definition named (ifname : string) (n : Z) (k : nat) pdev : Prop :=
  forall dir j, n <= j < n + Z.of_nat k ->
    exists m, mdev_at pdev dir j = Some m /\ m_name m = mdev_name ifname dir j.

Lemma destroy_dir_run ifname n k dir pdev st :
  0 <= n -> named ifname n (S k) pdev ->
  exists pdev', destroy_dir n dir pdev st = (mdev_down (mdev_name ifname dir n), pdev', st) /\
    named ifname n (S k) pdev'.
Proof.
  intros Hn Hnm. destruct (Hnm dir n ltac:(lia)) as (m & Hm & Hname). unfold destroy_dir. rewrite Hm.
  unfold pval_destroy_miscdevice. rewrite Hname. eexists. split; [reflexivity|].
  intros dir' j Hj. destruct (decide ((dir, n) = (dir', j))) as [[= <- <-]|Hne].
  - eexists. split; [by eapply mdev_at_upd|done].
  - rewrite mdev_at_upd_ne by done. by apply Hnm.
Qed.

Lemma dellink_mdevs_run ifname n k pdev st :
  0 <= n -> named ifname n k pdev ->
  exists pdev', dellink_mdevs pdev n k st = (down_trace ifname n k, pdev', st).
Proof.
  revert n pdev. induction k as [|k IH]; intros n pdev Hn Hnm; [by exists pdev|].
  rewrite dellink_mdevs_S. destruct (destroy_dir_run ifname n k TX pdev st Hn Hnm) as (pd1 & E1 & H1).
  destruct (destroy_dir_run ifname n k RX pd1 st Hn H1) as (pd2 & E2 & H2).
  destruct (IH (n + 1) pd2) as (pd3 & E3); [lia|intros dir j Hj; apply H2; lia|].
  exists pd3. erewrite bind_run by exact E1. erewrite bind_run by exact E2. by rewrite E3.
Qed.

(** What the set-up acquires the tear-down releases. *)
Lemma up_down_balanced env ifname n k s :
  (forall dir j, n <= j < n + Z.of_nat k -> 0 <= k_misc_register env (mdev_name ifname dir j)) ->
  tally (misc_of s) (up_trace env ifname n k) + tally (misc_of s) (down_trace ifname n k) = 0 /\
  tally (ring_of s) (up_trace env ifname n k) + tally (ring_of s) (down_trace ifname n k) = 0.
Proof.
  revert n. induction k as [|k IH]; intros n Hm; [done|]. cbn [up_trace down_trace].
  destruct (IH (n + 1)) as [I1 I2]; [intros dir j Hj; apply Hm; lia|].
  pose proof (Hm TX n ltac:(lia)). pose proof (Hm RX n ltac:(lia)).
  rewrite !tally_app. unfold mdev_up, mdev_down, tally at 1 2 4 5 7 8 10 11. cbn [foldr misc_of ring_of].
  rewrite !(proj2 (Z.ltb_ge _ 0)) by done. repeat case_decide; lia.
Qed.

Lemma mdev_call_tally t :
  forallb mdev_call t = true ->
  tally ref_of t = 0 /\ tally netdev_of t = 0 /\ tally upper_of t = 0 /\ tally list_of t = 0.
Proof.
  induction t as [|c t IH]; [done|]. cbn [forallb]. intros [Hc Ht]%andb_prop. rewrite !tally_cons.
  destruct (IH Ht) as (-> & -> & -> & ->). by destruct c.
Qed.

(** Without a deregistration, a registered node stays registered. *)
Lemma mdev_call_registered t s e :
  forallb mdev_call t = true -> MiscRegister s e ∈ t -> 0 <= e -> 0 < tally (misc_of s) t.
Proof.
  assert (Hnn : forall t, forallb mdev_call t = true -> 0 <= tally (misc_of s) t).
  { clear. induction t as [|c t IH]; [done|]. cbn [forallb]. intros [Hc Ht]%andb_prop. rewrite tally_cons.
    specialize (IH Ht). destruct c; try done; cbn [misc_of]; repeat case_match; lia. }
  intros Ht Hin He. apply list_elem_of_split in Hin as (l1 & l2 & ->).
  rewrite forallb_app in Ht. cbn [forallb] in Ht. bool_to_prop.
  rewrite tally_app, tally_cons. cbn [misc_of]. rewrite decide_True, (proj2 (Z.ltb_ge e 0)) by done.
  pose proof (Hnn l1 H0). pose proof (Hnn l2 H2). lia.
Qed.

Lemma up_trace_calls env ifname n k : forallb mdev_call (up_trace env ifname n k) = true.
Proof. revert n. induction k; intros; [done|]. apply IHk. Qed.

Lemma down_trace_tally ifname n k :
  tally ref_of (down_trace ifname n k) = 0 /\ tally netdev_of (down_trace ifname n k) = 0 /\
  tally upper_of (down_trace ifname n k) = 0 /\ tally list_of (down_trace ifname n k) = 0.
Proof. revert n. induction k; intros; [done|]. apply IHk. Qed.

(** ** Every way [pval_newlink] can end *)

Definition new_cpus env : Z :=
  if PVAL_MAX_CPUS >? k_num_possible_cpus env then k_num_possible_cpus env else PVAL_MAX_CPUS.

(** The device before its character devices are set up. *)
Definition configured env pdev (data : attrs) (ifindex : Z) : pval_dev skb :=
  (pval_nl_config (set_link (set_original_config (set_switches pdev false false false false false true)
     (mk_hwtstamp_config 0 0 0)) (Some ifindex)) data).2.

Inductive newlink_end env config pdev data st : list kcall -> Z -> pval_dev skb -> drv -> Prop :=
  | end_no_link t pdev' :
      (t = [] \/ exists i, t = [DevGetByIndex i false]) ->
      newlink_end env config pdev data st t (- ENODEV) pdev' st
  | end_not_registered i e pdev' :
      k_dev_get_by_index env i = true -> e <> 0 ->
      newlink_end env config pdev data st [DevGetByIndex i true; RegisterNetdevice e] e pdev' st
  | end_not_linked i e pdev' :
      k_dev_get_by_index env i = true -> e <> 0 ->
      newlink_end env config pdev data st
        [DevGetByIndex i true; RegisterNetdevice 0; UpperDevLink e; UnregisterNetdevice] e pdev' st
  | end_mdevs i e t pdev' :
      k_dev_get_by_index env i = true -> e < 0 -> forallb mdev_call t = true ->
      newlink_end env config pdev data st
        ([DevGetByIndex i true; RegisterNetdevice 0; UpperDevLink 0] ++ t ++ [UnregisterNetdevice]) e pdev' st
  | end_success p pdev3 t e pdev' st' :
      let i := nla_get_u32 p in let n := Z.to_nat (new_cpus env) in
      attr data IFLA_PVAL_LINK = Some p -> k_dev_get_by_index env i = true ->
      same_config (set_num_cpus (configured env pdev data i) (new_cpus env)) pdev3 ->
      arrays_ok pdev3 -> mdevs_up env (pd_name pdev) 0 n pdev3 ->
      pval_save_tstamp_config env config pdev3 st = (t, (e, pdev'), st') ->
      newlink_end env config pdev data st
        ([DevGetByIndex i true; RegisterNetdevice 0; UpperDevLink 0] ++
         up_trace env (pd_name pdev) 0 n ++ t ++ [ListAdd]) 0 pdev' st'.

Lemma newlink_run env config pdev data st t rc pdev' hr st' :
  arrays_ok pdev -> 0 <= k_num_possible_cpus env ->
  pval_newlink env config pdev data st = (t, (rc, pdev', hr), st') ->
  newlink_end env config pdev data st t rc pdev' st'.
Proof.
  intros Ha Hcpu E. unfold pval_newlink in E. cbv zeta in E.
  destruct (attr data IFLA_PVAL_LINK) as [p|] eqn:Ep.
  2:{ repeat io_step. constructor. by left. }
  apply bind_inv in E as (t1 & lk & st1 & t2 & El & E & ->). io_step. unfold ret in El. simplify_eq.
  destruct (k_dev_get_by_index env (nla_get_u32 p)) eqn:Ef.
  2:{ io_step. constructor. right. by eexists. }
  io_step. io_step. { bool_to_prop. io_step. apply end_not_registered; [done|lia]. } io_step. io_step.
  { repeat io_step. bool_to_prop. rewrite Heqb. by constructor. }
  apply bind_inv in E as (t3 & [e3 pdev3] & st3 & t4 & El & E & ->).
  assert (Hn : 0 <= new_cpus env <= PVAL_MAX_CPUS) by (unfold new_cpus, PVAL_MAX_CPUS in *; case_test; lia).
  apply newlink_mdevs_run in El as (-> & Hc & Hs & Ha3 & _ & Hr); [|done|lia|unfold new_cpus in Hn; cbn [pd_num_cpus set_num_cpus]; lia].
  bool_to_prop. rewrite Heqb, Heqb0. io_step.
  { repeat io_step. bool_to_prop. by apply end_mdevs. }
  apply bind_inv in E as (t5 & [e5 pdev4] & st5 & t6 & Es & E & ->). repeat io_step.
  destruct Hr as [?|(_ & -> & Hup)]; [bool_to_prop; lia|].
  apply (end_success env config pdev data _ p pdev3 _ _ _ _ Ep Ef Hs Ha3 Hup Es).
Qed.

End Mdevs.

(** ** Operation between creation and deletion *)

Section Life.
Context {skb drv : Type} `{LinkDriver drv}.
Implicit Types (env : kenv) (pdev : pval_dev skb) (st : drv).

(** What user space can ask of an existing link. *)
Inductive life_op := OpChange (data : attrs) | OpOpen | OpStop.

Definition life_step (eo : kenv * life_op) pdev : io drv (pval_dev skb) :=
  match eo.2 with
  | OpChange data => bind (pval_changelink eo.1 pdev data) (fun x => ret x.2)
  | OpOpen => bind (pval_open eo.1 pdev) (fun x => ret x.2)
  | OpStop => bind pval_stop (fun _ => ret pdev)
  end.

Fixpoint life (ops : list (kenv * life_op)) pdev : io drv (pval_dev skb) :=
  match ops with
  | [] => ret pdev
  | o :: ops' => bind (life_step o pdev) (life ops')
  end.

(** Calls that configure the lower link. *)
Definition cfg_call (c : kcall) : bool :=
  match c with
  | Ioctl _ _ | RxHandlerRegister | RxHandlerUnregister | SetPromiscuity _ _ => true
  | _ => false
  end.

Lemma cfg_call_tally t s :
  forallb cfg_call t = true ->
  tally ref_of t = 0 /\ tally netdev_of t = 0 /\ tally upper_of t = 0 /\ tally list_of t = 0 /\
  tally (misc_of s) t = 0 /\ tally (ring_of s) t = 0.
Proof.
  induction t as [|c t IH]; [done|]. cbn [forallb]. intros [Hc Ht]%andb_prop. rewrite !tally_cons.
  destruct (IH Ht) as (-> & -> & -> & -> & -> & ->). by destruct c.
Qed.

(** The parts of a device that outlive every such operation. *)
Definition same_nodes pdev pdev' : Prop :=
  pd_name pdev' = pd_name pdev /\ pd_link pdev' = pd_link pdev /\
  pd_num_cpus pdev' = pd_num_cpus pdev /\ pd_txmdevs pdev' = pd_txmdevs pdev /\
  pd_rxmdevs pdev' = pd_rxmdevs pdev.

Lemma same_nodes_named ifname n k pdev pdev' :
  same_nodes pdev pdev' -> named ifname n k pdev -> named ifname n k pdev'.
Proof.
  intros (_ & _ & _ & Ht & Hr) Hn dir j Hj. destruct (Hn dir j Hj) as (m & Hm & Hs).
  exists m. split; [|done]. unfold mdev_at in *. destruct dir; cbn in *; by rewrite ?Ht, ?Hr.
Qed.

Lemma ioctl_run env cmd data st t r st' :
  netdev_ioctl env cmd data st = (t, r, st') -> forallb cfg_call t = true.
Proof.
  unfold netdev_ioctl. intros E. io_step; [by io_step|]. io_step.
  destruct (ndo_do_ioctl st cmd data) as [[]]. by simplify_eq.
Qed.

Lemma set_tstamp_run env pdev st t rc st' :
  pval_set_tstamp_config env pdev st = (t, rc, st') -> forallb cfg_call t = true.
Proof.
  unfold pval_set_tstamp_config. intros E. cbv zeta in E.
  apply bind_inv in E as (t1 & [] & st1 & t2 & E1 & E & ->). io_step. rewrite app_nil_r.
  by eapply ioctl_run.
Qed.

Lemma restore_tstamp_run env pdev st t rc pdev' st' :
  pval_restore_tstamp_config env pdev st = (t, (rc, pdev'), st') ->
  forallb cfg_call t = true /\ same_nodes pdev pdev'.
Proof.
  unfold pval_restore_tstamp_config. intros E.
  apply bind_inv in E as (t1 & [] & st1 & t2 & E1 & E & ->). io_step. rewrite app_nil_r.
  split; [by eapply ioctl_run|]. repeat split.
Qed.

Lemma save_tstamp_run env config pdev st t rc pdev' st' :
  pval_save_tstamp_config env config pdev st = (t, (rc, pdev'), st') ->
  forallb cfg_call t = true /\ same_nodes pdev pdev'.
Proof.
  unfold pval_save_tstamp_config. intros E.
  apply bind_inv in E as (t1 & [] & st1 & t2 & E1 & E & ->). apply ioctl_run in E1.
  io_step; io_step; rewrite app_nil_r; repeat split; done.
Qed.

(** Calls that neither register a receive handler nor change the promiscuity. *)
Definition quiet (c : kcall) : bool :=
  match c with RxHandlerRegister | RxHandlerUnregister | SetPromiscuity _ _ => false | _ => true end.

Lemma quiet_tally t :
  forallb quiet t = true -> tally handler_of t = 0 /\ tally promisc_of t = 0.
Proof.
  induction t as [|c t IH]; [done|]. cbn [forallb]. intros [Hc Ht]%andb_prop. rewrite !tally_cons.
  destruct (IH Ht) as [-> ->]. by destruct c.
Qed.

Lemma forallb_weaken (f g : kcall -> bool) t :
  (forall c, f c = true -> g c = true) -> forallb f t = true -> forallb g t = true.
Proof. intros Hfg. rewrite !forallb_forall. auto. Qed.

Lemma up_trace_quiet env ifname n k : forallb quiet (up_trace env ifname n k) = true.
Proof. apply (forallb_weaken mdev_call); [by intros []|apply up_trace_calls]. Qed.

Lemma down_trace_quiet ifname n k : forallb quiet (down_trace ifname n k) = true.
Proof. revert n. induction k as [|k IH]; intros; [done|]. apply IH. Qed.

(** Nothing but ioctl calls. *)
Definition is_ioctl (c : kcall) : bool := match c with Ioctl _ _ => true | _ => false end.

Lemma ioctls_tally t :
  forallb is_ioctl t = true -> tally handler_of t = 0 /\ tally promisc_of t = 0.
Proof. intros Ht. apply quiet_tally. by apply (forallb_weaken is_ioctl); [intros []|]. Qed.

Lemma ioctl_ioctls env cmd data st t r st' :
  netdev_ioctl env cmd data st = (t, r, st') -> forallb is_ioctl t = true.
Proof.
  unfold netdev_ioctl. intros E. io_step; [by io_step|]. io_step.
  destruct (ndo_do_ioctl st cmd data) as [[]]. by simplify_eq.
Qed.

Lemma set_tstamp_ioctls env pdev st t rc st' :
  pval_set_tstamp_config env pdev st = (t, rc, st') -> forallb is_ioctl t = true.
Proof.
  unfold pval_set_tstamp_config. intros E. cbv zeta in E.
  apply bind_inv in E as (t1 & [] & st1 & t2 & E1 & E & ->). io_step. rewrite app_nil_r.
  by eapply ioctl_ioctls.
Qed.

Lemma restore_tstamp_ioctls env pdev st t r st' :
  pval_restore_tstamp_config env pdev st = (t, r, st') -> forallb is_ioctl t = true.
Proof.
  unfold pval_restore_tstamp_config. intros E.
  apply bind_inv in E as (t1 & [] & st1 & t2 & E1 & E & ->). io_step. rewrite app_nil_r.
  by eapply ioctl_ioctls.
Qed.

Lemma save_tstamp_ioctls env config pdev st t r st' :
  pval_save_tstamp_config env config pdev st = (t, r, st') -> forallb is_ioctl t = true.
Proof.
  unfold pval_save_tstamp_config. intros E.
  apply bind_inv in E as (t1 & [] & st1 & t2 & E1 & E & ->). apply ioctl_ioctls in E1.
  io_step; io_step; by rewrite app_nil_r.
Qed.

(** What [pval_open] and [pval_stop] do to the lower link. *)
Lemma open_tally env pdev st t rc pdev' st' :
  pval_open env pdev st = (t, (rc, pdev'), st') ->
  let up := negb (k_rx_handler_busy env) && (0 <=? k_set_promiscuity env) in
  tally handler_of t = Z.b2z up /\ tally promisc_of t = Z.b2z up.
Proof.
  intros E. unfold pval_open in E. destruct (k_rx_handler_busy env); [by io_step|]. io_step.
  apply bind_inv in E as (t1 & r & st1 & t3 & Es & E & ->). cbv zeta in E. io_step.
  apply set_tstamp_ioctls in Es. destruct (ioctls_tally _ Es) as [Hh Hp]. rewrite !tally_cons, !tally_app, Hh, Hp, !tally_cons.
  cbn [handler_of promisc_of negb andb]. destruct (Z.ltb_spec (k_set_promiscuity env) 0) as [Hlt|Hge].
  - rewrite (proj2 (Z.leb_gt _ _)) by done. apply bind_inv in E as (t4 & [r4 pd4] & st4 & t5 & Er & E & ->). repeat io_step.
    apply restore_tstamp_ioctls in Er. destruct (ioctls_tally _ Er) as [Hh' Hp']. by rewrite !tally_app, Hh', Hp'.
  - rewrite (proj2 (Z.leb_le _ _)) by done. by io_step.
Qed.

(** The operations in an order the networking core can call them in: it opens a device that
    is not up and stops one that is; [dev_set_promiscuity] answers zero or an error. The result
    says whether the device is up at the end. *)
Fixpoint core_calls (up : bool) (ops : list (kenv * life_op)) : option bool :=
  match ops with
  | [] => Some up
  | (_, OpChange _) :: ops' => core_calls up ops'
  | (env, OpOpen) :: ops' =>
      if up || (0 <? k_set_promiscuity env) then None
      else core_calls (negb (k_rx_handler_busy env) && (0 <=? k_set_promiscuity env)) ops'
  | (_, OpStop) :: ops' => if up then core_calls false ops' else None
  end.

Lemma life_tally ops up up' pdev st t pdev' st' :
  life ops pdev st = (t, pdev', st') -> core_calls up ops = Some up' ->
  tally handler_of t = Z.b2z up' - Z.b2z up /\ tally promisc_of t = Z.b2z up' - Z.b2z up.
Proof.
  revert up pdev st t. induction ops as [|[env o] ops IH]; intros up pdev st t E Hc; cbn [life core_calls] in E, Hc.
  - io_step. cbn. lia.
  - apply bind_inv in E as (t1 & pd1 & st1 & t2 & E1 & E & ->). rewrite !tally_app. unfold life_step in E1. cbn [fst snd] in E1.
    destruct o as [data| |].
    + destruct (IH _ _ _ _ E Hc) as [-> ->]. apply bind_inv in E1 as (t3 & [rc pd3] & st3 & t4 & E1 & E4 & ->). unfold ret in E4. simplify_eq.
      rewrite app_nil_r. unfold pval_changelink in E1. destruct (attr data IFLA_PVAL_LINK); [io_step; cbn; lia|]. cbv zeta in E1.
      apply bind_inv in E1 as (t1' & r & st1' & t2' & Es & E1 & ->). apply set_tstamp_ioctls, ioctls_tally in Es as [H1 H2].
      io_step. rewrite app_nil_r. lia.
    + destruct up; [done|]. cbn [orb] in Hc. destruct (0 <? k_set_promiscuity env); [done|]. destruct (IH _ _ _ _ E Hc) as [-> ->].
      apply bind_inv in E1 as (t3 & [rc pd3] & st3 & t4 & E1 & E4 & ->). unfold ret in E4. simplify_eq. rewrite app_nil_r.
      destruct (open_tally _ _ _ _ _ _ _ E1) as [-> ->]. cbn [Z.b2z]. lia.
    + destruct up; [|done]. destruct (IH _ _ _ _ E Hc) as [-> ->]. cbv [pval_stop bind call ret] in E1. simplify_eq. cbn. lia.
Qed.

Lemma life_step_run o pdev st t pdev' st' :
  life_step o pdev st = (t, pdev', st') -> forallb cfg_call t = true /\ same_nodes pdev pdev'.
Proof.
  destruct o as [env [data| |]]; unfold life_step; cbn [fst snd]; intros E.
  - apply bind_inv in E as (t1 & [rc pd1] & st1 & t2 & E1 & E & ->). io_step. rewrite app_nil_r. cbn [snd].
    unfold pval_changelink in E1. destruct (attr data IFLA_PVAL_LINK); [by io_step|]. cbv zeta in E1.
    apply bind_inv in E1 as (t1' & r & st1' & t2' & Es & E1 & ->). io_step. rewrite app_nil_r.
    apply set_tstamp_run in Es. split; [done|]. repeat split.
  - apply bind_inv in E as (t1 & [rc pd1] & st1 & t2 & E1 & E & ->). io_step. rewrite app_nil_r. cbn [snd].
    unfold pval_open in E1. io_step; [by io_step|]. io_step.
    apply bind_inv in E1 as (t1' & r & st1' & t2' & Es & E1 & ->). apply set_tstamp_run in Es. io_step.
    cbn [forallb cfg_call andb]. rewrite forallb_app, Es. cbn [forallb cfg_call andb]. cbv zeta in E1.
    io_step; [|by io_step].
    apply bind_inv in E1 as (t3 & [] & st3 & t4 & Er & E1 & ->). apply restore_tstamp_run in Er as [Ht Hn].
    repeat io_step. rewrite forallb_app, Ht. done.
  - unfold pval_stop in E. cbv in E. simplify_eq. split; [done|]. repeat split.
Qed.

Lemma life_run ops pdev st t pdev' st' :
  life ops pdev st = (t, pdev', st') -> forallb cfg_call t = true /\ same_nodes pdev pdev'.
Proof.
  revert pdev st t. induction ops as [|o ops IH]; intros pdev st t E; cbn [life] in E.
  - io_step. split; [done|]. repeat split.
  - apply bind_inv in E as (t1 & pd1 & st1 & t2 & E1 & E & ->).
    apply life_step_run in E1 as [H1 S1]. apply IH in E as [H2 S2]. rewrite forallb_app, H1, H2.
    split; [done|]. unfold same_nodes in *. naive_solver congruence.
Qed.

Lemma dellink_run env pdev ifname link st t pdev' st' :
  pd_link pdev = Some link -> named ifname 0 (Z.to_nat (pd_num_cpus pdev)) pdev ->
  pval_dellink env pdev st = (t, pdev', st') ->
  exists tr, forallb is_ioctl tr = true /\
    t = tr ++ [DevPut link; ListDel; UnregisterNetdeviceQueue (pd_name pdev); UpperDevUnlink] ++
          down_trace ifname 0 (Z.to_nat (pd_num_cpus pdev)).
Proof.
  intros Hl Hn E. unfold pval_dellink in E.
  apply bind_inv in E as (t1 & [rc pd1] & st1 & t2 & E1 & E & ->).
  pose proof (restore_tstamp_ioctls _ _ _ _ _ _ E1) as Hi. apply restore_tstamp_run in E1 as [Ht Hs]. exists t1. split; [done|]. f_equal.
  pose proof Hs as (Hname & Hlink & Hcpus & _). rewrite Hlink, Hl in E. repeat io_step.
  destruct (dellink_mdevs_run ifname 0 (Z.to_nat (pd_num_cpus pd1)) pd1 st1) as (pd2 & E2);
    [lia|rewrite Hcpus; by eapply same_nodes_named|].
  rewrite E2 in E. simplify_eq. by rewrite Hname, Hcpus.
Qed.

End Life.

(** ** The lower link's time stamp configuration *)

(** A driver with hardware time stamping: the get request reports the current
    configuration, the set request replaces it. *)
Class LinkLaws (drv : Type) `{LinkDriver drv} := {
  hwtstamp_of : drv -> hwtstamp_config;
  law_get_config : forall st c, ndo_do_ioctl st SIOCGHWTSTAMP c = (0, hwtstamp_of st, st);
  law_set_config : forall st c, exists st', ndo_do_ioctl st SIOCSHWTSTAMP c = (0, c, st') /\
                     hwtstamp_of st' = c
}.

Section Tstamp.
Context {skb drv : Type} `{LinkLaws drv}.
Implicit Types (env : kenv) (pdev : pval_dev skb) (st : drv).

Lemma ioctl_set env c st :
  k_has_ioctl env = true ->
  exists st', netdev_ioctl env SIOCSHWTSTAMP c st = ([Ioctl SIOCSHWTSTAMP c], (0, c), st') /\
    hwtstamp_of st' = c.
Proof.
  intros Hi. unfold netdev_ioctl. rewrite Hi. cbn [negb]. rewrite bind_call.
  destruct (law_set_config st c) as (st' & -> & Hc). by exists st'.
Qed.

(** No operation on an existing link touches the configuration saved when it
    was created. *)
Lemma life_keeps_saved ops pdev st t pdev' st' :
  Forall (fun o => k_has_ioctl o.1 = true) ops ->
  life ops pdev st = (t, pdev', st') -> pd_original_config pdev' = pd_original_config pdev.
Proof.
  intros Hf. revert pdev st t. induction Hf as [|[env o] ops Hi Hf IH]; intros pdev st t E; cbn [life] in E; [by io_step|].
  apply bind_inv in E as (t1 & pd1 & st1 & t2 & E1 & E & ->). apply IH in E as ->. cbn [fst] in Hi.
  destruct o as [data| |]; unfold life_step in E1; cbn [fst snd] in E1.
  - apply bind_inv in E1 as (t3 & [rc pd2] & st3 & t4 & E1 & E & ->). io_step. cbn [snd].
    unfold pval_changelink in E1. destruct (attr data IFLA_PVAL_LINK); [by io_step|]. cbv zeta in E1.
    by repeat io_step.
  - apply bind_inv in E1 as (t3 & [rc pd2] & st3 & t4 & E1 & E & ->). io_step. cbn [snd].
    unfold pval_open in E1. io_step; [by io_step|]. do 3 io_step. cbv zeta in E1. io_step; [|by io_step].
    apply bind_inv in E1 as (t5 & [rc5 pd5] & st5 & t6 & Er & E1 & ->). repeat io_step.
    unfold pval_restore_tstamp_config in Er.
    match type of Er with bind _ _ ?st6 = _ =>
      destruct (ioctl_set env (pd_original_config pdev) st6 Hi) as (st7 & Eio & _) end.
    erewrite bind_run in Er by exact Eio. by unfold ret in Er; simplify_eq.
  - unfold pval_stop in E1. cbv in E1. by simplify_eq.
Qed.

End Tstamp.

(** ** Theorems *)

Section Claims.
Context {skb drv : Type} `{LinkDriver drv}.
Implicit Types (env : kenv) (pdev : pval_dev skb) (st : drv).

Lemma mdevs_up_named env ifname n k pdev : mdevs_up env ifname n k pdev -> named ifname n k pdev.
Proof. intros Hu dir j Hj. destruct (Hu dir j Hj) as (_ & m & Hm & Hn & _). by exists m. Qed.

Lemma same_config_num env pdev data i pdev3 :
  same_config (set_num_cpus (configured env pdev data i) (new_cpus env)) pdev3 ->
  pd_name pdev3 = pd_name pdev /\ pd_link pdev3 = Some i /\ pd_num_cpus pdev3 = new_cpus env.
Proof. intros (Hn & Hl & _ & _ & Hc). by rewrite Hn, Hl, Hc. Qed.

(** What a request says about one switch. *)
Definition requested (data : attrs) (ty : Z) (old : bool) : bool :=
  match attr data ty with Some p => negb (nla_get_u8 p =? 0) | None => old end.

Definition switches pdev : list bool :=
  [pd_ipopt pdev; pd_txtstamp pdev; pd_rxtstamp pdev; pd_txcopy pdev; pd_rxcopy pdev; pd_txbusydrop pdev].

(** The attribute of each switch, in the order of [switches]. *)
Definition switch_attrs : list Z :=
  [IFLA_PVAL_IPOPT; IFLA_PVAL_TXTSTAMP; IFLA_PVAL_RXTSTAMP; IFLA_PVAL_TXCOPY; IFLA_PVAL_RXCOPY;
   IFLA_PVAL_TXBUSYDROP].

Lemma same_config_switches a b : same_config a b -> switches b = switches a.
Proof. intros (_ & _ & E & _). unfold switches. congruence. Qed.

Lemma nl_config_switches pdev data :
  switches (pval_nl_config pdev data).2 = zip_with (requested data) switch_attrs (switches pdev).
Proof.
  assert (Hb : forall o (b : bool), match o with Some p => if nla_get_u8 p =? 0 then false else true | None => b end =
    match o with Some p => negb (nla_get_u8 p =? 0) | None => b end).
  { intros [p|] b; [|done]. by destruct (nla_get_u8 p =? 0). }
  unfold switches, pval_nl_config, switch_attrs, requested. cbn [snd zip_with set_switches pd_ipopt pd_txtstamp pd_rxtstamp
    pd_txcopy pd_rxcopy pd_txbusydrop]. by rewrite !Hb.
Qed.

Lemma newlink_headroom env config pdev data st t rc pdev' hr st' :
  pval_newlink env config pdev data st = (t, (rc, pdev', hr), st') ->
  rc = - ENODEV \/ hr = u16 (u16 sizeof_ipopt_pval + k_link_headroom env).
Proof.
  intros E. unfold pval_newlink in E. cbv zeta in E.
  apply bind_inv in E as (t1 & lk & st1 & t2 & El & E & ->). destruct lk as [i|]; [right|io_step; by left].
  by repeat io_step.
Qed.

Lemma fresh_ring_ok n sl :
  length sl = 1024%nat -> forallb pkt_shape sl = true ->
  let r := mk_pval_ring (u8 n) 0 0 (PVAL_SLOT_NUM - 1) sl in
  ring_ok r = true /\ ring_contents r = [].
Proof.
  intros Hl Hs r. assert (Hc : ring_contents r = []) by done. split; [|done].
  apply ring_ok_spec. rewrite Hc. subst r. cbn. split_and!; try done; try lia.
  apply List.Forall_forall. by apply forallb_forall.
Qed.

(** Every node of the range is registered in the trace of the set-up. *)
Lemma up_trace_registers env ifname n k dir j :
  n <= j < n + Z.of_nat k -> 0 <= k_misc_register env (mdev_name ifname dir j) ->
  1 <= tally (misc_of (mdev_name ifname dir j)) (up_trace env ifname n k).
Proof.
  intros Hj Hm. assert (Hin : MiscRegister (mdev_name ifname dir j) (k_misc_register env (mdev_name ifname dir j))
    ∈ up_trace env ifname n k).
  { clear Hm. revert n Hj. induction k as [|k IH]; intros n Hj; [lia|]. cbn [up_trace mdev_up app].
    destruct (decide (j = n)) as [->|].
    - destruct dir; [right; left|do 3 right; left].
    - do 4 right. apply IH. lia. }
  pose proof (mdev_call_registered _ _ _ (up_trace_calls env ifname n k) Hin Hm). lia.
Qed.

Lemma save_tstamp_switches env config pdev st t rc pdev' st' :
  pval_save_tstamp_config env config pdev st = (t, (rc, pdev'), st') -> switches pdev' = switches pdev.
Proof.
  unfold pval_save_tstamp_config. intros E.
  apply bind_inv in E as (t1 & [] & st1 & t2 & E1 & E & ->). io_step; by io_step.
Qed.

(** C5. A link that was created, then configured, opened and closed any number
    of times in an order the networking core can choose, and deleted leaves nothing
    behind: the reference to the lower device, the registration, the upper link, the
    entry of the name space's list, every character device, every ring, the receive
    handler and the promiscuity of the lower device are each released exactly once.
    A device that is still up when it is deleted is closed by the core, which calls
    [pval_stop]. *)
Theorem lifecycle_balanced env env' config pdev data ops up st t1 pdev1 hr st1 t2 pdev2 st2 t3 pdev3 st3 :
  arrays_ok pdev -> 0 <= k_num_possible_cpus env -> core_calls false ops = Some up ->
  pval_newlink env config pdev data st = (t1, (0, pdev1, hr), st1) ->
  life ops pdev1 st1 = (t2, pdev2, st2) ->
  pval_dellink env' pdev2 st2 = (t3, pdev3, st3) ->
  let t := t1 ++ t2 ++ t3 ++ (if up then (pval_stop st3).1.1 else []) in
  tally ref_of t = 0 /\ tally netdev_of t = 0 /\ tally upper_of t = 0 /\ tally list_of t = 0 /\
  tally handler_of t = 0 /\ tally promisc_of t = 0 /\
  forall s, tally (misc_of s) t = 0 /\ tally (ring_of s) t = 0.
Proof.
  intros Ha Hc Hcore E1 E2 E3 t. apply newlink_run in E1; [|done..].
  inversion E1 as [| | | |p pd t4 e ? ? i n Hp Hf Hs Ha3 Hup Es]; subst; try (done || lia).
  destruct (life_tally _ _ _ _ _ _ _ _ E2 Hcore) as [Hh2 Hp2]. apply life_run in E2 as [Hq2 Hn2].
  destruct (ioctls_tally _ (save_tstamp_ioctls _ _ _ _ _ _ _ Es)) as [Hh4 Hp4]. apply save_tstamp_run in Es as [Hq4 Hn4].
  destruct (same_config_num _ _ _ _ _ Hs) as (Hname & Hlink & Hcpus).
  assert (Hn : named (pd_name pdev) 0 n pdev2).
  { eapply same_nodes_named; [exact Hn2|]. eapply same_nodes_named; [exact Hn4|]. by eapply mdevs_up_named. }
  destruct Hn2 as (Hname2 & Hlink2 & Hcpus2 & _), Hn4 as (Hname4 & Hlink4 & Hcpus4 & _).
  assert (Hcp : pd_num_cpus pdev2 = new_cpus env) by congruence.
  apply (dellink_run env' pdev2 (pd_name pdev) i) in E3 as (tr & Hir & ->); [|congruence|by rewrite Hcp].
  destruct (ioctls_tally _ Hir) as [Hhr Hpr]. assert (Hqr : forallb cfg_call tr = true) by (by apply (forallb_weaken is_ioctl); [intros []|]).
  set (t5 := if up then _ else _) in t. assert (Hq5 : forallb cfg_call t5 = true) by (by subst t5; destruct up).
  assert (Ht5 : tally handler_of t5 = - Z.b2z up /\ tally promisc_of t5 = - Z.b2z up) by (by subst t5; destruct up).
  subst t. rewrite Hcp. change (Z.to_nat (new_cpus env)) with n. rewrite !tally_app.
  assert (Hb : forall s, tally (misc_of s) (up_trace env (pd_name pdev) 0 n) + tally (misc_of s) (down_trace (pd_name pdev) 0 n) = 0 /\
    tally (ring_of s) (up_trace env (pd_name pdev) 0 n) + tally (ring_of s) (down_trace (pd_name pdev) 0 n) = 0).
  { intros s. apply up_down_balanced. intros dir j Hj. by apply Hup. }
  destruct (mdev_call_tally _ (up_trace_calls env (pd_name pdev) 0 n)) as (-> & -> & -> & ->).
  destruct (down_trace_tally (pd_name pdev) 0 n) as (-> & -> & -> & ->).
  destruct (quiet_tally _ (up_trace_quiet env (pd_name pdev) 0 n)) as [-> ->].
  destruct (quiet_tally _ (down_trace_quiet (pd_name pdev) 0 n)) as [-> ->].
  destruct (cfg_call_tally t2 "" Hq2) as (-> & -> & -> & -> & _).
  destruct (cfg_call_tally t4 "" Hq4) as (-> & -> & -> & -> & _).
  destruct (cfg_call_tally tr "" Hqr) as (-> & -> & -> & -> & _).
  destruct (cfg_call_tally t5 "" Hq5) as (-> & -> & -> & -> & _).
  rewrite Hh2, Hp2, Hh4, Hp4, Hhr, Hpr, (proj1 Ht5), (proj2 Ht5).
  split_and!; try done; try (cbn; lia). intros s. rewrite !tally_app. destruct (Hb s).
  destruct (cfg_call_tally t2 s Hq2) as (_ & _ & _ & _ & -> & ->).
  destruct (cfg_call_tally t4 s Hq4) as (_ & _ & _ & _ & -> & ->).
  destruct (cfg_call_tally tr s Hqr) as (_ & _ & _ & _ & -> & ->).
  destruct (cfg_call_tally t5 s Hq5) as (_ & _ & _ & _ & -> & ->). cbn. lia.
Qed.

(** C17. When [pval_newlink] fails after it found the lower device, the network
    device is unregistered but nothing else is undone: the reference to the lower
    device is kept, the upper link is kept, and every character device
    registered so far stays registered. *)
Theorem newlink_error_leaks env config pdev data st t rc pdev' hr st' i :
  arrays_ok pdev -> 0 <= k_num_possible_cpus env ->
  pval_newlink env config pdev data st = (t, (rc, pdev', hr), st') -> rc <> 0 ->
  DevGetByIndex i true ∈ t ->
  tally ref_of t = 1 /\ tally netdev_of t = 0 /\
  tally upper_of t = (if bool_decide (UpperDevLink 0 ∈ t) then 1 else 0) /\
  forall s e, MiscRegister s e ∈ t -> 0 <= e -> 0 < tally (misc_of s) t.
Proof.
  intros Ha Hc E Hrc Hi. apply newlink_run in E; [|done..].
  inversion E as [? ? Hend|? e ? ? He|? e ? ? He|? ? tm ? ? ? Hm|]; subst; try done.
  - exfalso. destruct Hend as [->|[? ->]]; rewrite ?elem_of_cons, elem_of_nil in Hi; naive_solver.
  - split_and!; try done; [by destruct rc|]. intros s e Hin. rewrite !elem_of_cons, elem_of_nil in Hin. naive_solver.
  - split_and!; try done; [destruct rc; done|]. intros s e Hin. rewrite !elem_of_cons, elem_of_nil in Hin. naive_solver.
  - rewrite !tally_app. destruct (mdev_call_tally _ Hm) as (-> & -> & -> & _).
    rewrite bool_decide_eq_true_2 by (do 2 right; left). split_and!; try done.
    intros s e Hin He. rewrite !tally_app. cbn [tally foldr misc_of].
    assert (Hin' : MiscRegister s e ∈ tm).
    { rewrite !elem_of_app, !elem_of_cons, !elem_of_nil in Hin. naive_solver. }
    pose proof (mdev_call_registered tm s e Hm Hin' He). cbn. lia.
Qed.

(** A successful [pval_newlink] leaves a device on the requested lower
    link, with each switch as requested or at its default (all off, but
    [txbusydrop] on), and for every CPU up to sixteen one closed character device
    per direction, registered under its name, with an empty ring of
    [PVAL_SLOT_NUM] slots; it announces room for the option. *)
Theorem newlink_success env config pdev data st t pdev' hr st' p :
  arrays_ok pdev -> 0 <= k_num_possible_cpus env -> 0 <= k_link_headroom env < 65536 - 12 ->
  pval_newlink env config pdev data st = (t, (0, pdev', hr), st') ->
  attr data IFLA_PVAL_LINK = Some p ->
  pd_link pdev' = Some (nla_get_u32 p) /\ hr = sizeof_ipopt_pval + k_link_headroom env /\
  switches pdev' = zip_with (requested data) switch_attrs [false; false; false; false; false; true] /\
  pd_num_cpus pdev' = Z.min PVAL_MAX_CPUS (k_num_possible_cpus env) /\
  forall dir n, 0 <= n < pd_num_cpus pdev' -> exists m, mdev_at pdev' dir n = Some m /\
    m_opened m = false /\ tally (misc_of (mdev_name (pd_name pdev) dir n)) t >= 1 /\
    (forall sl, k_kmalloc_ring env (mdev_name (pd_name pdev) dir n) = Some sl ->
       length sl = 1024%nat -> forallb pkt_shape sl = true ->
       ring_ok (m_ring m) = true /\ ring_contents (m_ring m) = []).
Proof.
  intros Ha Hc Hh E Hp. assert (Hhr : hr = sizeof_ipopt_pval + k_link_headroom env).
  { apply newlink_headroom in E as [? | ->]; [done|]. unfold sizeof_ipopt_pval.
    rewrite (u16_small 12) by lia. by rewrite u16_small by lia. }
  apply newlink_run in E; [|done..].
  inversion E as [| | | |p' pd t4 e ? ? i n Hp' Hf Hs Ha3 Hup Es]; subst; try (done || lia).
  rewrite Hp in Hp'. injection Hp' as <-.
  assert (Hmn : new_cpus env = Z.min PVAL_MAX_CPUS (k_num_possible_cpus env)) by (unfold new_cpus; case_test; lia).
  destruct (same_config_num _ _ _ _ _ Hs) as (Hname & Hlink & Hcpus).
  destruct (save_tstamp_run _ _ _ _ _ _ _ _ Es) as [Hq Hn]. pose proof (save_tstamp_switches _ _ _ _ _ _ _ _ Es) as Hsw.
  pose proof Hn as (_ & Hl4 & Hc4 & Ht4 & Hr4). split_and!; [by rewrite Hl4, Hlink|done| |by rewrite Hc4, Hcpus, Hmn|].
  - rewrite Hsw, (same_config_switches _ _ Hs).
    apply (nl_config_switches (set_link (set_original_config (set_switches pdev false false false false false true)
      (mk_hwtstamp_config 0 0 0)) (Some i)) data).
  - intros dir j Hj. destruct (Hup dir j) as (Hm & m & Hat & Hnm & _ & Ho & _ & sl & Hsl & Hring); [lia|].
    exists m. split; [|split; [done|split]].
    + unfold mdev_at in *. destruct dir; cbn [mdevs] in *; by rewrite ?Ht4, ?Hr4.
    + rewrite !tally_app. destruct (cfg_call_tally t4 (mdev_name (pd_name pdev) dir j) Hq) as (_ & _ & _ & _ & -> & _).
      pose proof (up_trace_registers env (pd_name pdev) 0 n dir j ltac:(lia) Hm). cbn. lia.
    + intros sl' Hsl' Hlen Hsh. rewrite Hsl in Hsl'. injection Hsl' as <-. rewrite Hring. by apply fresh_ring_ok.
Qed.

(** [pval_changelink] refuses to change the lower link and then changes
    nothing; otherwise it succeeds, sets exactly the switches the request
    mentions, and asks the lower link for the time stamping the new switches
    call for. *)
Theorem changelink_config env pdev data st t rc pdev' st' :
  pval_changelink env pdev data st = (t, (rc, pdev'), st') ->
  if bool_decide (is_Some (attr data IFLA_PVAL_LINK))
  then rc = - ENOTSUPP /\ pdev' = pdev /\ t = []
  else rc = 0 /\ switches pdev' = zip_with (requested data) switch_attrs (switches pdev) /\
       same_nodes pdev pdev' /\
       (k_has_ioctl env = true ->
        t = [Ioctl SIOCSHWTSTAMP (mk_hwtstamp_config 0 (if pd_txtstamp pdev' then HWTSTAMP_TX_ON else 0)
               (if pd_rxtstamp pdev' then HWTSTAMP_FILTER_ALL else 0))]).
Proof.
  intros E. unfold pval_changelink in E. destruct (attr data IFLA_PVAL_LINK) as [p|] eqn:Ep.
  - rewrite bool_decide_eq_true_2 by eauto. by io_step.
  - rewrite bool_decide_eq_false_2 by (intros [? ?]; done). cbv zeta in E.
    apply bind_inv in E as (t1 & r & st1 & t2 & Es & E & ->). io_step. split_and!; [done|apply nl_config_switches|done..|].
    intros Hi. unfold pval_set_tstamp_config, netdev_ioctl in Es. rewrite Hi in Es. cbn [negb] in Es. cbv zeta in Es.
    apply bind_inv in Es as (t3 & [r3 c3] & st3 & t4 & Es & E4 & ->). io_step. io_step.
    destruct (ndo_do_ioctl st _ _) as [[]]. by simplify_eq.
Qed.

(** [pval_open] either leaves the lower link with the receive handler
    registered and one more promiscuity reference, both released by
    [pval_stop], or fails and leaves no handler behind; a busy lower link is
    not touched at all. *)
Theorem open_stop_balanced env pdev st t rc pdev' st' :
  pval_open env pdev st = (t, (rc, pdev'), st') ->
  let t2 := (pval_stop st').1.1 in
  if k_rx_handler_busy env then rc = - EBUSY /\ t = [] /\ st' = st
  else if k_set_promiscuity env <? 0 then rc = k_set_promiscuity env /\ tally handler_of t = 0 /\ tally promisc_of t = 0
  else rc = k_set_promiscuity env /\ tally handler_of t = 1 /\ tally promisc_of t = 1 /\
       tally handler_of (t ++ t2) = 0 /\ tally promisc_of (t ++ t2) = 0.
Proof.
  intros E t2. destruct (open_tally _ _ _ _ _ _ _ E) as [Hh Hp]. rewrite !tally_app.
  assert (Hrc : if k_rx_handler_busy env then rc = - EBUSY /\ t = [] /\ st' = st else rc = k_set_promiscuity env).
  { unfold pval_open in E. destruct (k_rx_handler_busy env); [by io_step|]. io_step.
    apply bind_inv in E as (t1 & r & st1 & t3 & Es & E & ->). cbv zeta in E. io_step. destruct (k_set_promiscuity env <? 0); [|by io_step].
    apply bind_inv in E as (t4 & [r4 pd4] & st4 & t5 & Er & E & ->). by repeat io_step. }
  destruct (k_rx_handler_busy env); [done|]. cbn [negb andb] in *.
  destruct (Z.ltb_spec (k_set_promiscuity env) 0); [rewrite (proj2 (Z.leb_gt _ _)) in * by done|rewrite (proj2 (Z.leb_le _ _)) in * by done];
    rewrite Hh, Hp; done.
Qed.

End Claims.

Section TstampClaims.
Context {skb drv : Type} `{LinkLaws drv}.
Implicit Types (env : kenv) (pdev : pval_dev skb) (st : drv).

(** The lower link gets its time stamp configuration back: whatever was
    configured, opened and closed in between, after [pval_dellink] the driver is
    in the configuration it had before [pval_newlink]. *)
Theorem tstamp_config_restored env env' config pdev data ops st t1 pdev1 hr st1 t2 pdev2 st2 t3 pdev3 st3 :
  arrays_ok pdev -> 0 <= k_num_possible_cpus env ->
  k_has_ioctl env = true -> k_has_ioctl env' = true -> Forall (fun o => k_has_ioctl o.1 = true) ops ->
  pval_newlink env config pdev data st = (t1, (0, pdev1, hr), st1) ->
  life ops pdev1 st1 = (t2, pdev2, st2) ->
  pval_dellink env' pdev2 st2 = (t3, pdev3, st3) ->
  hwtstamp_of st3 = hwtstamp_of st.
Proof.
  intros Ha Hc Hi Hi' Hio E1 E2 E3. apply newlink_run in E1; [|done..].
  inversion E1 as [| | | |p pd t4 e ? ? i n Hp Hf Hs Ha3 Hup Es]; subst; try (done || lia).
  assert (Hsv : pd_original_config pdev1 = hwtstamp_of st).
  { unfold pval_save_tstamp_config, netdev_ioctl in Es. rewrite Hi in Es. cbn [negb] in Es.
    unfold bind, call, ret in Es. rewrite law_get_config in Es. cbn in Es. by simplify_eq. }
  pose proof (life_keeps_saved _ _ _ _ _ _ Hio E2) as Hkeep.
  destruct (life_run _ _ _ _ _ _ E2) as [_ Hn2]. destruct (save_tstamp_run _ _ _ _ _ _ _ _ Es) as [_ Hn4].
  destruct (same_config_num _ _ _ _ _ Hs) as (_ & Hlink & Hcpus).
  assert (Hn : named (pd_name pdev) 0 n pdev2).
  { eapply same_nodes_named; [exact Hn2|]. eapply same_nodes_named; [exact Hn4|]. by eapply mdevs_up_named. }
  destruct Hn2 as (_ & Hl2 & Hc2 & _), Hn4 as (_ & Hl4 & Hc4 & _).
  unfold pval_dellink, pval_restore_tstamp_config in E3.
  destruct (ioctl_set env' (pd_original_config pdev2) st2 Hi') as (st5 & Eio & Hst).
  apply bind_inv in E3 as (t5 & [r5 pd5] & st6 & t6 & E5 & E3 & ->).
  erewrite bind_run in E5 by exact Eio. unfold ret in E5. simplify_eq.
  cbn [pd_link set_original_config pd_name pd_num_cpus] in E3. rewrite Hl2, Hl4, Hlink in E3. repeat io_step.
  destruct (dellink_mdevs_run (pd_name pdev) 0 (Z.to_nat (pd_num_cpus pdev2))
    (set_original_config pdev2 (pd_original_config pdev2)) st6) as (pd7 & E7); [lia| |].
  - eapply same_nodes_named; [|rewrite Hc2, Hc4, Hcpus; exact Hn]. repeat split.
  - rewrite E7 in E3. simplify_eq. congruence.
Qed.

End TstampClaims.

(** ** Reporting the configuration *)

(** A netlink message under construction, as the kernel's [nla_put] documents
    it: an attribute is appended if its header, payload and padding fit. *)
Class NlaOps (msg : Type) := {
  nla_put : msg -> Z -> list Z -> option msg;
  nla_room : msg -> Z;
  nla_attrs : msg -> list (Z * list Z);
  nla_total_size : Z -> Z;
  law_room : forall m, 0 <= nla_room m;
  law_total_size : forall n, 0 <= n -> nla_total_size n = 4 * ((n + 7) / 4);
  law_put_fits : forall m ty p, nla_total_size (Z.of_nat (length p)) <= nla_room m ->
    exists m', nla_put m ty p = Some m' /\ nla_attrs m' = nla_attrs m ++ [(ty, p)] /\
      nla_room m' = nla_room m - nla_total_size (Z.of_nat (length p));
  law_put_full : forall m ty p, nla_room m < nla_total_size (Z.of_nat (length p)) -> nla_put m ty p = None
}.

(** The attributes of a device, in the order they are put. *)
Definition info_attrs {skb : Type} (pdev : pval_dev skb) (link : Z) : list (Z * list Z) :=
  (IFLA_PVAL_LINK, le_bytes 4 link) ::
  zip_with (fun ty (b : bool) => (ty, [if b then 1 else 0])) switch_attrs (switches pdev).

(** The parsed form of a list of attributes: the last of each type. *)
Definition parse_attrs (l : list (Z * list Z)) : attrs :=
  Some (fun ty => (fun x => x.2) <$> last (filter (fun x => x.1 = ty) l)).

Section Report.
Context {skb msg : Type} `{NlaOps msg}.
Implicit Types (pdev : pval_dev skb) (m : msg).

(** Putting attributes one after the other while they fit. *)
Fixpoint put_all m (l : list (Z * list Z)) : Z * msg :=
  match l with
  | [] => (0, m)
  | (ty, p) :: l' =>
      match nla_put m ty p with Some m' => put_all m' l' | None => (- EMSGSIZE, m) end
  end.

Lemma fill_info_puts m pdev link :
  pd_link pdev = Some link -> pval_fill_info nla_put m pdev = Some (put_all m (info_attrs pdev link)).
Proof.
  intros Hl. unfold pval_fill_info. rewrite Hl. cbn [mbind option_bind].
  unfold info_attrs, switch_attrs, switches. cbn [zip_with put_all].
  do 7 (match goal with |- context [match nla_put ?a ?b ?c with _ => _ end] =>
    destruct (nla_put a b c); [|reflexivity] end). reflexivity.
Qed.

Definition attrs_size (l : list (Z * list Z)) : Z :=
  foldr (fun x n => nla_total_size (Z.of_nat (length x.2)) + n) 0 l.

Lemma attrs_size_nonneg l : 0 <= attrs_size l.
Proof.
  induction l as [|[ty p] l IH]; [done|]. cbn [attrs_size foldr snd].
  rewrite law_total_size by lia. pose proof (Z.div_pos (Z.of_nat (length p) + 7) 4). fold (attrs_size l). lia.
Qed.

Lemma put_all_spec m l :
  (attrs_size l <= nla_room m -> exists m', put_all m l = (0, m') /\ nla_attrs m' = nla_attrs m ++ l) /\
  (nla_room m < attrs_size l -> exists m', put_all m l = (- EMSGSIZE, m')).
Proof.
  revert m. induction l as [|[ty p] l IH]; intros m; cbn [put_all attrs_size foldr snd].
  - pose proof (law_room m). split; [|lia]. intros _. exists m. by rewrite app_nil_r.
  - fold (attrs_size l). pose proof (attrs_size_nonneg l) as Hnn.
    destruct (decide (nla_total_size (Z.of_nat (length p)) <= nla_room m)) as [Hf|Hf].
    + destruct (law_put_fits m ty p Hf) as (m1 & -> & Ha & Hr). destruct (IH m1) as [I1 I2]. split; intros Hsz.
      * destruct I1 as (m' & -> & E); [lia|]. exists m'. split; [done|]. by rewrite E, Ha, <- app_assoc.
      * apply I2. lia.
    + rewrite law_put_full by lia. split; [lia|]. by exists m.
Qed.

Lemma info_attrs_size pdev link : attrs_size (info_attrs pdev link) = 56.
Proof.
  unfold info_attrs, switch_attrs, switches. cbn [zip_with attrs_size foldr snd].
  rewrite length_le_bytes. cbn [length]. by rewrite !law_total_size by lia.
Qed.

(** Reporting a device needs 56 bytes of room and [pval_get_size] announces
    8: with the announced room [pval_fill_info] always fails with [-EMSGSIZE],
    and it succeeds, with all seven attributes, exactly when 56 bytes are left. *)
Theorem fill_info_exceeds_get_size m pdev link :
  pd_link pdev = Some link ->
  pval_get_size nla_total_size = 8 /\
  exists rc m', pval_fill_info nla_put m pdev = Some (rc, m') /\
    (nla_room m <= pval_get_size nla_total_size -> rc = - EMSGSIZE) /\
    (rc = 0 <-> 56 <= nla_room m) /\ (rc = 0 -> nla_attrs m' = nla_attrs m ++ info_attrs pdev link).
Proof.
  intros Hl. unfold pval_get_size. rewrite law_total_size by lia. split; [done|].
  rewrite (fill_info_puts m pdev link Hl). destruct (put_all_spec m (info_attrs pdev link)) as [Hok Hno].
  rewrite info_attrs_size in *. change (4 * ((4 + 7) / 4)) with 8.
  destruct (decide (56 <= nla_room m)) as [Hr|Hr].
  - destruct (Hok Hr) as (m' & E & Ha). exists 0, m'. rewrite E. split_and!; try done. lia.
  - destruct Hno as (m' & E); [lia|]. exists (- EMSGSIZE), m'. rewrite E. split_and!; try done.
Qed.

(** C18. Configuration round trip: the attributes a device reports, given back to
    [pval_nl_config], set every switch of any device to the reported value. *)
Theorem config_report_roundtrip m m' pdev pdev2 :
  nla_attrs m = [] -> pval_fill_info nla_put m pdev = Some (0, m') ->
  switches (pval_nl_config pdev2 (parse_attrs (nla_attrs m'))).2 = switches pdev.
Proof.
  intros Hm E. destruct (pd_link pdev) as [link|] eqn:Hl.
  2:{ unfold pval_fill_info in E. by rewrite Hl in E. }
  rewrite (fill_info_puts m pdev link Hl) in E.
  assert (Hput : put_all m (info_attrs pdev link) = (0, m')) by congruence. clear E.
  destruct (put_all_spec m (info_attrs pdev link)) as [Hok Hno].
  destruct (decide (attrs_size (info_attrs pdev link) <= nla_room m)) as [Hr|Hr].
  2:{ destruct Hno as (? & E'); [lia|]. rewrite E' in Hput. done. }
  destruct (Hok Hr) as (m2 & E' & Ha). rewrite E' in Hput. injection Hput as <-. rewrite Ha, Hm, nl_config_switches.
  unfold switches, switch_attrs. cbn [zip_with].
  assert (Hb : forall b : bool, negb (nla_get_u8 [if b then 1 else 0] =? 0) = b) by by intros [].
  do 5 (f_equal; [match goal with |- _ = ?b => exact (Hb b) end|]).
  f_equal. match goal with |- _ = ?b => exact (Hb b) end.
Qed.

End Report.

(** Loading the module reports success whatever happened: when a registration
    fails, what had been registered is undone and [pval_init_module] still returns
    zero. *)
Theorem init_module_hides_errors {drv : Type} env (st : drv) :
  exists t, pval_init_module env st = (t, 0, st) /\
    (k_register_pernet env <> 0 \/ k_rtnl_link_register env <> 0 ->
     ~ (RtnlLinkRegister 0 ∈ t) /\ (RegisterPernet 0 ∈ t -> UnregisterPernet ∈ t)).
Proof.
  unfold pval_init_module. cbv zeta. rewrite bind_call.
  destruct (Z.eqb_spec (k_register_pernet env) 0) as [E|E]; cbn [negb].
  - rewrite bind_call. destruct (Z.eqb_spec (k_rtnl_link_register env) 0) as [E2|E2]; cbn [negb].
    + eexists. split; [reflexivity|]. intros []; lia.
    + eexists. split; [reflexivity|]. intros _. cbn [ret fst app]. rewrite !elem_of_cons, !elem_of_nil.
      split; [naive_solver congruence|auto].
  - eexists. split; [reflexivity|]. intros _. cbn [ret fst app]. rewrite !elem_of_cons, !elem_of_nil.
    split; naive_solver congruence.
Qed.

(** ** The theorems on concrete inputs *)

(** A driver whose state is its configuration. *)
#[export] Instance plain_driver : LinkDriver hwtstamp_config := {
  ndo_do_ioctl st cmd c := if cmd =? SIOCGHWTSTAMP then (0, st, st) else (0, c, c)
}.

#[export] Instance plain_driver_laws : LinkLaws hwtstamp_config.
Proof. refine {| hwtstamp_of := fun st => st |}. - done. - intros st c. by exists c. Defined.

Definition sample_kenv (misc_rc promisc : Z) : kenv :=
  mk_kenv "eth0" true (fun i => i =? 2) 16 0 0 2 (fun _ => Some [])
    (fun name => if decide (name = "pval/pval0-rx-cpu-1"%string) then misc_rc else 0)
    true false promisc 0 0.

Definition blank_mdev : pval_mdev unit := mk_pval_mdev "" 0 false (mk_pval_ring 0 0 0 0 []) 0 None.
Definition blank_dev : pval_dev unit :=
  mk_pval_dev "pval0" None 0 false false false false false false (mk_hwtstamp_config 0 0 0) 0
    (replicate 16 blank_mdev) (replicate 16 blank_mdev).

Definition sample_data : attrs :=
  parse_attrs [(IFLA_PVAL_LINK, [2; 0; 0; 0]); (IFLA_PVAL_TXTSTAMP, [1])].
Definition sample_cfg : hwtstamp_config := mk_hwtstamp_config 0 0 1.

Definition sample_new : list kcall * (Z * pval_dev unit * Z) * hwtstamp_config :=
  pval_newlink (sample_kenv 0 0) sample_cfg blank_dev sample_data sample_cfg.
Definition sample_pdev : pval_dev unit := sample_new.1.2.1.2.
Definition sample_life : list (kenv * life_op) :=
  [(sample_kenv 0 (-75), OpOpen); (sample_kenv 0 0, OpOpen); (sample_kenv 0 0, OpChange (parse_attrs [(IFLA_PVAL_IPOPT, [1])]));
   (sample_kenv 0 0, OpStop); (sample_kenv 0 0, OpOpen)].
Definition sample_lived : list kcall * pval_dev unit * hwtstamp_config :=
  life sample_life sample_pdev sample_new.2.

Lemma blank_arrays : arrays_ok blank_dev.
Proof. split; reflexivity. Qed.

Lemma lifecycle_balanced_witness :
  let deleted := pval_dellink (sample_kenv 0 0) sample_lived.1.2 sample_lived.2 in
  let t := sample_new.1.1 ++ sample_lived.1.1 ++ deleted.1.1 ++ (pval_stop deleted.2).1.1 in
  tally ref_of t = 0 /\ tally netdev_of t = 0 /\ tally handler_of t = 0 /\ tally promisc_of t = 0 /\
  tally handler_of sample_lived.1.1 = 1 /\ length t = 42%nat.
Proof.
  destruct (lifecycle_balanced (sample_kenv 0 0) (sample_kenv 0 0) sample_cfg blank_dev sample_data sample_life true
    sample_cfg sample_new.1.1 sample_pdev sample_new.1.2.2 sample_new.2 sample_lived.1.1 sample_lived.1.2 sample_lived.2
    (pval_dellink (sample_kenv 0 0) sample_lived.1.2 sample_lived.2).1.1
    (pval_dellink (sample_kenv 0 0) sample_lived.1.2 sample_lived.2).1.2
    (pval_dellink (sample_kenv 0 0) sample_lived.1.2 sample_lived.2).2) as (H1 & H2 & _ & _ & H3 & H4 & _);
    [apply blank_arrays|vm_compute; discriminate|vm_compute; reflexivity..|].
  cbv zeta. split; [exact H1|]. split; [exact H2|]. split; [exact H3|]. split; [exact H4|]. vm_compute. split; reflexivity.
Defined.

Lemma newlink_error_leaks_witness :
  exists t rc pdev' hr st', pval_newlink (sample_kenv (-12) 0) sample_cfg blank_dev sample_data sample_cfg =
    (t, (rc, pdev', hr), st') /\ rc = -12 /\ tally ref_of t = 1.
Proof.
  eexists _, _, _, _, _. split; [vm_compute; reflexivity|]. split; [reflexivity|].
  apply (newlink_error_leaks (sample_kenv (-12) 0) sample_cfg blank_dev sample_data sample_cfg _ (-12)
    (pval_newlink (sample_kenv (-12) 0) sample_cfg blank_dev sample_data sample_cfg).1.2.1.2 28 sample_cfg 2).
  - apply blank_arrays.
  - vm_compute. discriminate.
  - vm_compute. reflexivity.
  - discriminate.
  - left.
Defined.

Lemma newlink_success_witness :
  pd_link sample_pdev = Some 2 /\ switches sample_pdev = [false; true; false; false; false; true].
Proof.
  destruct (newlink_success (sample_kenv 0 0) sample_cfg blank_dev sample_data sample_cfg sample_new.1.1 sample_pdev
    sample_new.1.2.2 sample_new.2 [2; 0; 0; 0]) as (H1 & _ & H2 & _);
    [apply blank_arrays|vm_compute; discriminate|vm_compute; split; [discriminate|reflexivity]|vm_compute; reflexivity..|].
  split; [exact H1|exact H2].
Defined.

Lemma changelink_config_witness :
  exists pdev', switches pdev' = [true; true; false; false; false; true] /\
    (pval_changelink (sample_kenv 0 0) sample_pdev (parse_attrs [(IFLA_PVAL_IPOPT, [1])]) sample_cfg).1.2 = (0, pdev').
Proof.
  eexists. split; [|vm_compute; reflexivity].
  apply (changelink_config (sample_kenv 0 0) sample_pdev (parse_attrs [(IFLA_PVAL_IPOPT, [1])]) sample_cfg
    (pval_changelink (sample_kenv 0 0) sample_pdev (parse_attrs [(IFLA_PVAL_IPOPT, [1])]) sample_cfg).1.1 0 _
    (pval_changelink (sample_kenv 0 0) sample_pdev (parse_attrs [(IFLA_PVAL_IPOPT, [1])]) sample_cfg).2).
  vm_compute. reflexivity.
Defined.

Lemma open_stop_balanced_witness :
  tally handler_of (pval_open (sample_kenv 0 0) sample_pdev sample_cfg).1.1 = 1.
Proof.
  apply (open_stop_balanced (sample_kenv 0 0) sample_pdev sample_cfg
    (pval_open (sample_kenv 0 0) sample_pdev sample_cfg).1.1 0 sample_pdev
    (pval_open (sample_kenv 0 0) sample_pdev sample_cfg).2).
  vm_compute. reflexivity.
Defined.

Lemma tstamp_config_restored_witness :
  (pval_dellink (sample_kenv 0 0) sample_lived.1.2 sample_lived.2).2 = sample_cfg /\ sample_lived.2 <> sample_cfg.
Proof.
  split; [|vm_compute; discriminate].
  change (hwtstamp_of (pval_dellink (sample_kenv 0 0) sample_lived.1.2 sample_lived.2).2 = hwtstamp_of sample_cfg).
  apply (tstamp_config_restored (sample_kenv 0 0) (sample_kenv 0 0) sample_cfg blank_dev sample_data sample_life
    sample_cfg sample_new.1.1 sample_pdev sample_new.1.2.2 sample_new.2 sample_lived.1.1 sample_lived.1.2 sample_lived.2
    (pval_dellink (sample_kenv 0 0) sample_lived.1.2 sample_lived.2).1.1
    (pval_dellink (sample_kenv 0 0) sample_lived.1.2 sample_lived.2).1.2).
  - apply blank_arrays.
  - vm_compute. discriminate.
  - reflexivity.
  - reflexivity.
  - repeat constructor.
  - vm_compute. reflexivity.
  - vm_compute. reflexivity.
  - vm_compute. reflexivity.
Defined.

(** A message as the room left and the attributes put so far. *)
Definition sample_total (n : Z) : Z := 4 * ((n + 7) / 4).

#[export] Instance sample_nla : NlaOps (nat * list (Z * list Z)).
Proof.
  refine {|
  nla_put m ty p := if sample_total (Z.of_nat (length p)) <=? Z.of_nat m.1
                    then Some ((m.1 - Z.to_nat (sample_total (Z.of_nat (length p))))%nat, m.2 ++ [(ty, p)])
                    else None;
  nla_room m := Z.of_nat m.1; nla_attrs m := m.2; nla_total_size := sample_total
  |}.
  - intros m. lia.
  - done.
  - intros m ty p Hm. rewrite (proj2 (Z.leb_le _ _)) by done. eexists. split; [done|]. split; [done|]. cbn [fst].
    assert (0 <= sample_total (Z.of_nat (length p))); [|lia]. unfold sample_total.
    pose proof (Z.div_pos (Z.of_nat (length p) + 7) 4). lia.
  - intros m ty p Hm. by rewrite (proj2 (Z.leb_gt _ _)).
Defined.

Lemma fill_info_exceeds_get_size_witness :
  exists rc m', pval_fill_info nla_put (8%nat, []) sample_pdev = Some (rc, m') /\ rc = - EMSGSIZE.
Proof.
  destruct (fill_info_exceeds_get_size (8%nat, []) sample_pdev 2) as (_ & rc & m' & E & Hsz & _);
    [vm_compute; reflexivity|].
  exists rc, m'. split; [exact E|]. apply Hsz. vm_compute. discriminate.
Defined.

Lemma config_report_roundtrip_witness :
  exists m', pval_fill_info nla_put (56%nat, []) sample_pdev = Some (0, m') /\
    switches (pval_nl_config blank_dev (parse_attrs (nla_attrs m'))).2 = switches sample_pdev.
Proof.
  eexists. split; [vm_compute; reflexivity|].
  apply (config_report_roundtrip (56%nat, []) _ sample_pdev blank_dev); [reflexivity|vm_compute; reflexivity].
Defined.
