(* ===== verification/Netlink.v ===== *)
(** * Netlink attributes in user space

    Models the attribute functions of [iproute2-4.18.0/lib/libnetlink.c]
    ([addattr_l] to [__parse_rtattr_nested_compat]) and the [RTA_*] and
    [NLMSG_*] macros they use. A message is its length field and the buffer it is
    built in; an attribute is the offset of its [struct rtattr]. [None] is an
    access outside the buffer. *)
From stdpp Require Import base list numbers strings.
From Stdlib Require Import ZArith Lia.
From S2P Require Import Prelude.

Open Scope Z_scope.

(** ** Macros *)

(** Rounds up to a multiple of four, in 32-bit unsigned arithmetic. *)
Definition RTA_ALIGN (len : Z) : Z := Z.land (u32 (len + 3)) (u32 (Z.lnot 3)).
Definition NLMSG_ALIGN (len : Z) : Z := RTA_ALIGN len.
Definition RTA_LENGTH (len : Z) : Z := RTA_ALIGN 4 + len.
Definition RTA_PAYLOAD (rta_len : Z) : Z := u64 (rta_len - RTA_LENGTH 0).

(** ** Building messages *)

(** [struct nlmsghdr]: [nlmsg_len], and the bytes from the header on, in which
    the length field itself is not looked at. *)
Record nlmsghdr := mk_nlmsghdr { nlmsg_len : Z; n_buf : list Z }.

Definition NLMSG_TAIL (n : nlmsghdr) : Z := NLMSG_ALIGN (nlmsg_len n).

(** [struct rtattr]: two 16-bit fields, [rta_len] first. *)
Definition rta_set_type (buf : list Z) (rta ty : Z) : option (list Z) :=
  mem_write buf (rta + 2) (le_bytes 2 ty).
Definition rta_set_len (buf : list Z) (rta len : Z) : option (list Z) :=
  mem_write buf rta (le_bytes 2 len).
Definition rta_len (buf : list Z) (rta : Z) : option Z := le_val <$> mem_read buf rta 2.
Definition rta_type (buf : list Z) (rta : Z) : option Z := le_val <$> mem_read buf (rta + 2) 2.

(** Stores an attribute's header and, if there is any, its payload. *)
Definition put_rta (buf : list Z) (rta ty len : Z) (data : list Z) : option (list Z) :=
  b1 ← rta_set_type buf rta ty;
  b2 ← rta_set_len b1 rta len;
  if Z.of_nat (length data) =? 0 then Some b2 else mem_write b2 (rta + RTA_LENGTH 0) data.

Definition addattr_l (n : nlmsghdr) (maxlen ty : Z) (data : list Z) : option (Z * nlmsghdr) :=
  let len := RTA_LENGTH (Z.of_nat (length data)) in
  let total := u32 (NLMSG_ALIGN (nlmsg_len n) + RTA_ALIGN len) in
  if total >? u32 maxlen then Some (-1, n)
  else
    buf ← put_rta (n_buf n) (NLMSG_TAIL n) ty len data;
    Some (0, mk_nlmsghdr total buf).

Definition addattr (n : nlmsghdr) (maxlen ty : Z) : option (Z * nlmsghdr) := addattr_l n maxlen ty [].
Definition addattr8 (n : nlmsghdr) (maxlen ty data : Z) : option (Z * nlmsghdr) :=
  addattr_l n maxlen ty (le_bytes 1 data).
Definition addattr16 (n : nlmsghdr) (maxlen ty data : Z) : option (Z * nlmsghdr) :=
  addattr_l n maxlen ty (le_bytes 2 data).
Definition addattr32 (n : nlmsghdr) (maxlen ty data : Z) : option (Z * nlmsghdr) :=
  addattr_l n maxlen ty (le_bytes 4 data).
Definition addattr64 (n : nlmsghdr) (maxlen ty data : Z) : option (Z * nlmsghdr) :=
  addattr_l n maxlen ty (le_bytes 8 data).
(** [str] without its terminator. *)
Definition addattrstrz (n : nlmsghdr) (maxlen ty : Z) (str : list Z) : option (Z * nlmsghdr) :=
  addattr_l n maxlen ty (str ++ [0]).

Definition addraw_l (n : nlmsghdr) (maxlen : Z) (data : list Z) : option (Z * nlmsghdr) :=
  let len := Z.of_nat (length data) in
  let total := u32 (NLMSG_ALIGN (nlmsg_len n) + NLMSG_ALIGN len) in
  if total >? u32 maxlen then Some (-1, n)
  else
    b1 ← mem_write (n_buf n) (NLMSG_TAIL n) data;
    b2 ← mem_write b1 (NLMSG_TAIL n + len) (replicate (Z.to_nat (NLMSG_ALIGN len - len)) 0);
    Some (0, mk_nlmsghdr total b2).

(** The result is the nest's offset; whether there was room is not reported. *)
Definition addattr_nest (n : nlmsghdr) (maxlen ty : Z) : option (Z * nlmsghdr) :=
  let nest := NLMSG_TAIL n in
  '(_, n') ← addattr_l n maxlen ty [];
  Some (nest, n').

Definition addattr_nest_end (n : nlmsghdr) (nest : Z) : option (Z * nlmsghdr) :=
  buf ← rta_set_len (n_buf n) nest (NLMSG_TAIL n - nest);
  Some (nlmsg_len n, mk_nlmsghdr (nlmsg_len n) buf).

Definition addattr_nest_compat (n : nlmsghdr) (maxlen ty : Z) (data : list Z) : option (Z * nlmsghdr) :=
  let start := NLMSG_TAIL n in
  '(_, n1) ← addattr_l n maxlen ty data;
  '(_, n2) ← addattr_nest n1 maxlen ty;
  Some (start, n2).

Definition addattr_nest_compat_end (n : nlmsghdr) (start : Z) : option (Z * nlmsghdr) :=
  l ← rta_len (n_buf n) start;
  let nest := start + NLMSG_ALIGN l in
  buf ← rta_set_len (n_buf n) start (NLMSG_TAIL n - start);
  '(_, n') ← addattr_nest_end (mk_nlmsghdr (nlmsg_len n) buf) nest;
  Some (nlmsg_len n', n').

(** ** Building attributes inside an attribute *)

Definition rta_addattr32 (buf : list Z) (rta maxlen ty data : Z) : option (Z * list Z) :=
  let len := RTA_LENGTH 4 in
  l ← rta_len buf rta;
  if u32 (RTA_ALIGN l + len) >? u32 maxlen then Some (-1, buf)
  else
    let subrta := rta + RTA_ALIGN l in
    b1 ← put_rta buf subrta ty len (le_bytes 4 data);
    b2 ← rta_set_len b1 rta (NLMSG_ALIGN l + len);
    Some (0, b2).

Definition rta_addattr_l (buf : list Z) (rta maxlen ty : Z) (data : list Z) : option (Z * list Z) :=
  let len := RTA_LENGTH (Z.of_nat (length data)) in
  l ← rta_len buf rta;
  if u32 (RTA_ALIGN l + RTA_ALIGN len) >? u32 maxlen then Some (-1, buf)
  else
    let subrta := rta + RTA_ALIGN l in
    b1 ← put_rta buf subrta ty len data;
    b2 ← rta_set_len b1 rta (NLMSG_ALIGN l + RTA_ALIGN len);
    Some (0, b2).

Definition rta_addattr8 (buf : list Z) (rta maxlen ty data : Z) : option (Z * list Z) :=
  rta_addattr_l buf rta maxlen ty (le_bytes 1 data).
Definition rta_addattr16 (buf : list Z) (rta maxlen ty data : Z) : option (Z * list Z) :=
  rta_addattr_l buf rta maxlen ty (le_bytes 2 data).
Definition rta_addattr64 (buf : list Z) (rta maxlen ty data : Z) : option (Z * list Z) :=
  rta_addattr_l buf rta maxlen ty (le_bytes 8 data).

Definition rta_nest (buf : list Z) (rta maxlen ty : Z) : option (Z * list Z) :=
  l ← rta_len buf rta;
  let nest := rta + RTA_ALIGN l in
  '(_, buf') ← rta_addattr_l buf rta maxlen ty [];
  Some (nest, buf').

Definition rta_nest_end (buf : list Z) (rta nest : Z) : option (Z * list Z) :=
  l ← rta_len buf rta;
  buf' ← rta_set_len buf nest (rta + RTA_ALIGN l - nest);
  l' ← rta_len buf' rta;
  Some (l', buf').

(** ** Parsing *)

(** [RTA_OK]: the tests in order, so that the header is read only if it is there. *)
Definition RTA_OK (buf : list Z) (rta len : Z) : option bool :=
  if len <? 4 then Some false
  else l ← rta_len buf rta; Some ((4 <=? l) && (l <=? len)).

(** The loops over attributes all have this shape: [step] sees the attribute and
    either goes on or stops with a result. The second component is what is left
    when the loop ends by itself, where the length may have become negative. *)
Fixpoint rta_loop {A R : Type} (fuel : nat) (buf : list Z) (step : A -> Z -> option (A + R))
  (acc : A) (rta len : Z) : option (A * Z * Z + R) :=
  match fuel with
  | O => None
  | S fuel' =>
      ok ← RTA_OK buf rta len;
      if ok : bool then
        r ← step acc rta;
        match r with
        | inr x => Some (inr x)
        | inl acc' =>
            l ← rta_len buf rta;
            rta_loop fuel' buf step acc' (rta + RTA_ALIGN l) (s32 (len - RTA_ALIGN l))
        end
      else Some (inl (acc, rta, len))
  end.

(** Every iteration consumes four bytes of the length. *)
Definition rta_fuel (len : Z) : nat := S (Z.to_nat len).

(** The warning after a loop that left some bytes reads [rta->rta_len]. *)
Definition deficit (buf : list Z) (rta len : Z) : option unit :=
  if len =? 0 then Some tt else _ ← rta_len buf rta; Some tt.

(** [tb] is an array of [max + 1] attribute pointers; the body of the loop. *)
Definition parse_step (buf : list Z) (max flags : Z) (tb : list (option Z)) (rta : Z)
  : option (list (option Z) + list (option Z)) :=
  t ← rta_type buf rta;
  let ty := Z.land t (u16 (Z.lnot flags)) in
  if (ty <=? max) && bool_decide (tb !! Z.to_nat ty = Some None)
  then Some (inl (<[Z.to_nat ty := Some rta]> tb)) else Some (inl tb).

Definition parse_rtattr_flags (buf : list Z) (max rta len flags : Z) : option (Z * list (option Z)) :=
  r ← rta_loop (rta_fuel len) buf (parse_step buf max flags) (replicate (Z.to_nat (max + 1)) None) rta len;
  match r with
  | inl (tb, rta', len') => _ ← deficit buf rta' len'; Some (0, tb)
  | inr tb => Some (0, tb)
  end.

Definition parse_rtattr (buf : list Z) (max rta len : Z) : option (Z * list (option Z)) :=
  parse_rtattr_flags buf max rta len 0.

Definition parse_rtattr_byindex (buf : list Z) (max rta len : Z) : option (Z * list (option Z)) :=
  let step (acc : nat * list (option Z)) (rta : Z)
      : option (nat * list (option Z) + nat * list (option Z)) :=
    let '(i, tb) := acc in
    t ← rta_type buf rta;
    if (t <=? max) && (Z.of_nat i <? max)
    then Some (inl (S i, <[i := Some rta]> tb)) else Some (inl (i, tb)) in
  r ← rta_loop (rta_fuel len) buf step (O, replicate (Z.to_nat max) None) rta len;
  match r with
  | inl ((i, tb), rta', len') => _ ← deficit buf rta' len'; Some (Z.of_nat i, tb)
  | inr (i, tb) => Some (Z.of_nat i, tb)
  end.

(** [None] inside is a null pointer. *)
Definition parse_rtattr_one (buf : list Z) (ty rta len : Z) : option (option Z) :=
  let step (_ : unit) (rta : Z) : option (unit + Z) :=
    t ← rta_type buf rta; Some (if t =? ty then inr rta else inl tt) in
  r ← rta_loop (rta_fuel len) buf step tt rta len;
  match r with
  | inl (_, rta', len') => _ ← deficit buf rta' len'; Some None
  | inr x => Some (Some x)
  end.

(** The macro of [libnetlink.h]. *)
Definition parse_rtattr_nested (buf : list Z) (max rta : Z) : option (Z * list (option Z)) :=
  l ← rta_len buf rta;
  parse_rtattr buf max (rta + RTA_LENGTH 0) (s32 (RTA_PAYLOAD l)).

Definition __parse_rtattr_nested_compat (buf : list Z) (max rta len : Z)
  : option (Z * option (list (option Z))) :=
  l ← rta_len buf rta;
  if RTA_PAYLOAD l <? u64 len then Some (-1, None)
  else if RTA_ALIGN len + 4 <=? RTA_PAYLOAD l then
    '(rc, tb) ← parse_rtattr_nested buf max (rta + RTA_LENGTH 0 + RTA_ALIGN len); Some (rc, Some tb)
  else Some (0, Some (replicate (Z.to_nat (max + 1)) None)).

Definition rta_getattr_u8 (buf : list Z) (rta : Z) : option Z :=
  le_val <$> mem_read buf (rta + RTA_LENGTH 0) 1.
Definition rta_getattr_u32 (buf : list Z) (rta : Z) : option Z :=
  le_val <$> mem_read buf (rta + RTA_LENGTH 0) 4.

(** ** Alignment *)

Lemma RTA_ALIGN_spec x : 0 <= x < 2 ^ 32 - 3 -> RTA_ALIGN x = 4 * ((x + 3) / 4).
Proof.
  intros Hx. unfold RTA_ALIGN. rewrite u32_small by lia. unfold u32.
  rewrite <- (Z.land_ones (Z.lnot 3) 32), (Z.land_comm (Z.lnot 3)), Z.land_assoc, Z.land_ones by lia.
  rewrite (Z.mod_small (x + 3)) by lia. rewrite <- Z.ldiff_land. change 3 with (Z.ones 2) at 2.
  rewrite Z.ldiff_ones_r, Z.shiftr_div_pow2, Z.shiftl_mul_pow2 by lia. change (2 ^ 2) with 4. lia.
Qed.

(** Closes goals that mix alignment and linear arithmetic. *)
Ltac align_lia :=
  unfold NLMSG_TAIL, NLMSG_ALIGN, RTA_LENGTH in *; change (RTA_ALIGN 4) with 4 in *;
  rewrite ?RTA_ALIGN_spec in * by lia;
  Z.to_euclidean_division_equations; try lia.

(** ** Encoded attributes *)

(** An attribute in a buffer: type, payload and what is in the padding. *)
Record rtattr := mk_rtattr { a_type : Z; a_data : list Z; a_pad : list Z }.

Definition enc (a : rtattr) : list Z :=
  le_bytes 2 (4 + Z.of_nat (length (a_data a))) ++ le_bytes 2 (a_type a) ++ a_data a ++ a_pad a.

Definition dlen (data : list Z) : Z := Z.of_nat (length data).

(** The sizes and types fit their 16-bit fields. *)
Definition attr_fits (x : Z * list Z) : bool := is_u16 x.1 && (dlen x.2 <? 65536 - 4).

Definition rtattr_ok (a : rtattr) : Prop :=
  attr_fits (a_type a, a_data a) = true /\
  4 + dlen (a_data a) + Z.of_nat (length (a_pad a)) = RTA_ALIGN (4 + dlen (a_data a)).

Definition attr_pair (a : rtattr) : Z * list Z := (a_type a, a_data a).

Definition encs (l : list rtattr) : list Z := concat (enc <$> l).

(** The space a list of attributes takes. *)
Definition attr_space (x : Z * list Z) : Z := RTA_ALIGN (4 + dlen x.2).
Definition attrs_space (l : list (Z * list Z)) : Z := foldr (fun x n => attr_space x + n) 0 l.

Lemma attr_fits_spec x : attr_fits x = true <-> 0 <= x.1 < 65536 /\ dlen x.2 < 65532.
Proof. unfold attr_fits. rewrite andb_true_iff, is_u_spec, Z.ltb_lt. cbn. lia. Qed.

Lemma attr_space_spec x : attr_fits x = true -> 4 + dlen x.2 <= attr_space x <= 7 + dlen x.2 /\ attr_space x mod 4 = 0.
Proof.
  intros [_ Hd]%attr_fits_spec. unfold attr_space, dlen in *. rewrite RTA_ALIGN_spec by lia.
  split; [align_lia|]. rewrite Z.mul_comm. apply Z_mod_mult.
Qed.

Lemma length_enc a : rtattr_ok a -> Z.of_nat (length (enc a)) = attr_space (attr_pair a).
Proof.
  intros [Hf Hp]. unfold enc, attr_space, attr_pair, dlen in *. cbn [fst snd].
  rewrite !length_app, !length_le_bytes. lia.
Qed.

Lemma length_encs l : Forall rtattr_ok l -> Z.of_nat (length (encs l)) = attrs_space (attr_pair <$> l).
Proof.
  induction 1 as [|a l Ha _ IH]; [done|]. unfold encs in *. cbn [fmap list_fmap concat attrs_space foldr].
  rewrite length_app, Nat2Z.inj_add, length_enc, IH by done. done.
Qed.

(** Storing an attribute into a buffer, once, over as many bytes. *)
Lemma put_rta_enc p m q ty data :
  4 + dlen data = Z.of_nat (length m) ->
  put_rta (p ++ m ++ q) (Z.of_nat (length p)) ty (4 + dlen data) data =
  Some (p ++ (le_bytes 2 (4 + dlen data) ++ le_bytes 2 ty ++ data) ++ q).
Proof.
  intros Hm. destruct (split_at m 2) as (m1 & m' & -> & H1); [unfold dlen in *; lia|].
  rewrite length_app in Hm. destruct (split_at m' 2) as (m2 & m3 & -> & H2); [unfold dlen in *; lia|].
  rewrite length_app in Hm. unfold put_rta, rta_set_type, rta_set_len. rewrite <- !app_assoc.
  rewrite (app_assoc p m1), mem_write_mid by (rewrite ?length_app, ?length_le_bytes; lia).
  cbn [mbind option_bind]. rewrite <- app_assoc.
  rewrite mem_write_mid by (rewrite ?length_le_bytes; lia). cbn [mbind option_bind].
  change (RTA_LENGTH 0) with 4. fold (dlen data). destruct (Z.eqb_spec (dlen data) 0) as [E|E].
  - unfold dlen in *. destruct data; [|cbn in E; lia]. destruct m3; [done|cbn in Hm; lia].
  - rewrite (app_assoc (le_bytes 2 _)), (app_assoc p).
    rewrite mem_write_mid by (rewrite ?length_app, ?length_le_bytes; unfold dlen in *; lia).
    by rewrite <- !app_assoc.
Qed.

(** The header of an encoded attribute, read back. *)
Lemma enc_header p a q :
  rtattr_ok a -> let buf := p ++ enc a ++ q in let off := Z.of_nat (length p) in
  rta_len buf off = Some (4 + dlen (a_data a)) /\ rta_type buf off = Some (a_type a) /\
  mem_read buf (off + 4) (dlen (a_data a)) = Some (a_data a).
Proof.
  intros [[Ht Hd]%attr_fits_spec _] buf off. unfold buf, off, enc, rta_len, rta_type, dlen in *. cbn [fst snd] in *.
  rewrite <- !app_assoc. split_and!.
  - rewrite mem_read_mid by (rewrite ?length_le_bytes; lia). cbn [fmap option_fmap option_map].
    rewrite le_val_bytes. f_equal. apply Z.mod_small. cbn. lia.
  - rewrite (app_assoc p), mem_read_mid by (rewrite ?length_app, ?length_le_bytes; lia).
    cbn [fmap option_fmap option_map]. rewrite le_val_bytes. f_equal. apply Z.mod_small. cbn. lia.
  - rewrite (app_assoc p), (app_assoc (p ++ _)). apply mem_read_mid; [|done].
    rewrite !length_app, !length_le_bytes. lia.
Qed.

(** ** Adding attributes *)

(** A message whose attributes end, aligned, at the end of [p]. *)
Definition msg_at (n : nlmsghdr) (p q : list Z) : Prop :=
  n_buf n = p ++ q /\ nlmsg_len n = Z.of_nat (length p) /\ nlmsg_len n mod 4 = 0.

Lemma msg_tail n p q : msg_at n p q -> Z.of_nat (length p) < 2 ^ 32 - 3 -> NLMSG_TAIL n = Z.of_nat (length p).
Proof. intros (_ & Hl & Hm) Hp. unfold NLMSG_TAIL, NLMSG_ALIGN. rewrite Hl in *. rewrite RTA_ALIGN_spec by lia. align_lia. Qed.

(** What [addattr_l] does to a message with room: the attribute is appended over
    the bytes that follow, of which only the padding keeps its old contents. *)
Lemma addattr_l_adds n p q maxlen ty data :
  msg_at n p q -> attr_fits (ty, data) = true -> 0 <= maxlen < 2 ^ 31 ->
  nlmsg_len n + attr_space (ty, data) <= maxlen -> maxlen <= Z.of_nat (length (n_buf n)) ->
  exists n' a q', addattr_l n maxlen ty data = Some (0, n') /\ rtattr_ok a /\ attr_pair a = (ty, data) /\
    msg_at n' (p ++ enc a) q' /\ length (n_buf n') = length (n_buf n).
Proof.
  intros Hat Hf Hmax Hroom Hbuf. pose proof (attr_space_spec _ Hf) as [Hsp Hsm]. cbn [snd] in Hsp.
  pose proof (proj1 (attr_fits_spec _) Hf) as [_ Hd]. cbn [snd] in Hd.
  pose proof (msg_tail n p q Hat) as Htail. destruct Hat as (Hb & Hl & Hm).
  rewrite Hb, length_app in Hbuf. unfold attr_space, dlen in *. cbn [snd] in *.
  specialize (Htail ltac:(lia)). set (sp := RTA_ALIGN (4 + Z.of_nat (length data))) in *.
  destruct (split_at q (Z.to_nat sp)) as (m' & q' & -> & Hm'); [lia|].
  destruct (split_at m' (4 + length data)) as (m & pad & -> & Hmm); [lia|].
  rewrite length_app in Hm'. rewrite !length_app in Hbuf.
  assert (Htot : u32 (NLMSG_ALIGN (nlmsg_len n) + sp) = nlmsg_len n + sp).
  { change (NLMSG_ALIGN (nlmsg_len n)) with (NLMSG_TAIL n). rewrite Htail, Hl. apply u32_small. lia. }
  exists (mk_nlmsghdr (nlmsg_len n + sp) (p ++ enc (mk_rtattr ty data pad) ++ q')), (mk_rtattr ty data pad), q'.
  split_and!.
  - unfold addattr_l. change (RTA_LENGTH (Z.of_nat (length data))) with (4 + Z.of_nat (length data)). fold sp.
    rewrite Htot, u32_small by lia. rewrite Z.gtb_ltb, (proj2 (Z.ltb_ge _ _)) by lia.
    rewrite Hb, Htail, <- app_assoc. fold (dlen data).
    rewrite put_rta_enc by (unfold dlen; lia). cbn [mbind option_bind].
    unfold enc. cbn [a_data a_type a_pad]. fold (dlen data). by rewrite <- !app_assoc.
  - split; [exact Hf|]. unfold dlen. cbn [a_data a_pad]. fold sp. lia.
  - done.
  - split_and!; cbn [n_buf nlmsg_len]; [by rewrite <- app_assoc| |by rewrite Zplus_mod, Hm, Hsm].
    rewrite length_app. unfold enc. cbn [a_data a_type a_pad]. rewrite !length_app, !length_le_bytes. lia.
  - cbn [n_buf]. unfold enc. cbn [a_data a_type a_pad]. rewrite Hb, !length_app, !length_le_bytes. lia.
Qed.

(** Adding attributes one after the other, as long as they fit. *)
Fixpoint add_all (n : nlmsghdr) (maxlen : Z) (l : list (Z * list Z)) : option nlmsghdr :=
  match l with
  | [] => Some n
  | (ty, data) :: l' =>
      '(rc, n') ← addattr_l n maxlen ty data;
      if rc =? 0 then add_all n' maxlen l' else None
  end.

Lemma attrs_space_nonneg l : forallb attr_fits l = true -> 0 <= attrs_space l.
Proof.
  induction l as [|x l IH]; [done|]. cbn [forallb attrs_space foldr]. intros [Hx Hl]%andb_prop.
  pose proof (attr_space_spec _ Hx). fold (attrs_space l). specialize (IH Hl). unfold dlen in *. lia.
Qed.

Lemma add_all_adds n p q maxlen l :
  msg_at n p q -> forallb attr_fits l = true -> 0 <= maxlen < 2 ^ 31 ->
  nlmsg_len n + attrs_space l <= maxlen -> maxlen <= Z.of_nat (length (n_buf n)) ->
  exists n' as' q', add_all n maxlen l = Some n' /\ Forall rtattr_ok as' /\ attr_pair <$> as' = l /\
    msg_at n' (p ++ encs as') q' /\ length (n_buf n') = length (n_buf n).
Proof.
  revert n p q. induction l as [|[ty data] l IH]; intros n p q Hat Hf Hmax Hroom Hbuf.
  - exists n, [], q. unfold encs. cbn. rewrite app_nil_r. done.
  - cbn [forallb] in Hf. apply andb_prop in Hf as [Hx Hf]. cbn [attrs_space foldr] in Hroom. fold (attrs_space l) in Hroom.
    pose proof (attrs_space_nonneg l Hf). pose proof (attr_space_spec _ Hx).
    destruct (addattr_l_adds n p q maxlen ty data) as (n1 & a & q1 & E & Ha & Hp & Hat1 & Hlen1); try done; [lia|].
    assert (Hn1 : nlmsg_len n1 = nlmsg_len n + attr_space (ty, data)).
    { destruct Hat as (_ & Hl & _), Hat1 as (_ & Hl1 & _). rewrite Hl1, length_app, Nat2Z.inj_add, length_enc, Hp by done. lia. }
    destruct (IH n1 (p ++ enc a) q1) as (n2 & as2 & q2 & E2 & Ha2 & Hp2 & Hat2 & Hlen2); try done; [lia|lia|].
    exists n2, (a :: as2), q2. cbn [add_all]. rewrite E. cbn [mbind option_bind Z.eqb]. split_and!; [done|by constructor| | |congruence].
    + cbn. by rewrite Hp, Hp2.
    + unfold encs. cbn [fmap list_fmap concat]. by rewrite app_assoc.
Qed.

(** ** Parsing what was added *)

(** The offset of the first attribute of a type. *)
Fixpoint first_at (off : Z) (l : list rtattr) (ty : Z) : option Z :=
  match l with
  | [] => None
  | a :: l' => if a_type a =? ty then Some off else first_at (off + attr_space (attr_pair a)) l' ty
  end.

(** The array entry after the loop, from the entry before it. *)
Definition entry (o : option (option Z)) (f : option Z) : option (option Z) :=
  match o with Some None => Some f | _ => o end.

Lemma rta_ok_enc p a q len :
  rtattr_ok a -> attr_space (attr_pair a) <= len ->
  RTA_OK (p ++ enc a ++ q) (Z.of_nat (length p)) len = Some true.
Proof.
  intros Ha Hlen. destruct (enc_header p a q Ha) as (Hl & _). destruct Ha as [Hf _].
  pose proof (attr_space_spec _ Hf) as [Hsp _]. unfold RTA_OK. unfold attr_pair, dlen in *. cbn [snd] in *.
  rewrite (proj2 (Z.ltb_ge len 4)), Hl by lia. cbn [mbind option_bind].
  by rewrite !(proj2 (Z.leb_le _ _)) by (unfold dlen; lia).
Qed.

Lemma parse_step_enc p a q max tb :
  rtattr_ok a -> length tb = Z.to_nat (max + 1) -> 0 <= max ->
  exists tb', parse_step (p ++ enc a ++ q) max 0 tb (Z.of_nat (length p)) = Some (inl tb') /\
    length tb' = length tb /\
    forall ty, 0 <= ty <= max -> tb' !! Z.to_nat ty =
      if a_type a =? ty then entry (tb !! Z.to_nat ty) (Some (Z.of_nat (length p))) else tb !! Z.to_nat ty.
Proof.
  intros Ha Htb Hmax. destruct (enc_header p a q Ha) as (_ & Ht & _). destruct Ha as [[Hty _]%attr_fits_spec _].
  cbn [fst] in Hty. unfold parse_step. rewrite Ht. cbn [mbind option_bind].
  change (u16 (Z.lnot 0)) with (2 ^ 16 - 1). rewrite land_mask, Z.mod_small by lia.
  destruct (Z.leb_spec (a_type a) max) as [Hle|Hgt]; cbn [andb].
  - case_bool_decide as Hb; eexists; (split; [reflexivity|]); (split; [by rewrite ?length_insert|]); intros ty Hr.
    + destruct (Z.eqb_spec (a_type a) ty) as [<-|Hne].
      * rewrite Hb. cbn [entry]. apply list_lookup_insert_eq. by eapply lookup_lt_Some.
      * apply list_lookup_insert_ne. lia.
    + destruct (Z.eqb_spec (a_type a) ty) as [<-|Hne]; [|done].
      destruct (tb !! Z.to_nat (a_type a)) as [[|]|]; done.
  - exists tb. split; [done|]. split; [done|]. intros ty Hr. by rewrite (proj2 (Z.eqb_neq _ _)) by lia.
Qed.

Lemma entry_entry o a b : entry (entry o (Some a)) b = entry o (Some a).
Proof. by destruct o as [[|]|]. Qed.

Lemma parse_loop l p q max fuel tb :
  Forall rtattr_ok l -> length tb = Z.to_nat (max + 1) -> 0 <= max -> (length l < fuel)%nat ->
  Z.of_nat (length (encs l)) < 2 ^ 31 ->
  exists tb', rta_loop fuel (p ++ encs l ++ q) (parse_step (p ++ encs l ++ q) max 0) tb
      (Z.of_nat (length p)) (Z.of_nat (length (encs l))) =
      Some (inl (tb', Z.of_nat (length p) + Z.of_nat (length (encs l)), 0)) /\
    forall ty, 0 <= ty <= max -> tb' !! Z.to_nat ty =
      entry (tb !! Z.to_nat ty) (first_at (Z.of_nat (length p)) l ty).
Proof.
  intros Hl. revert p fuel tb. induction Hl as [|a l Ha Hl IH]; intros p fuel tb Htb Hmax Hfuel Hlen.
  - destruct fuel as [|fuel]; [lia|]. exists tb. split; [cbn; by rewrite Z.add_0_r|].
    intros ty _. cbn [first_at]. by destruct (tb !! Z.to_nat ty) as [[|]|].
  - destruct fuel as [|fuel]; [cbn in Hfuel; lia|]. cbn [length] in Hfuel.
    assert (Henc : encs (a :: l) = enc a ++ encs l) by done. rewrite Henc in *. rewrite length_app in Hlen.
    pose proof (length_enc a Ha) as Hla. pose proof (attr_space_spec (attr_pair a) (proj1 Ha)) as [Hsp _].
    destruct (parse_step_enc p a (encs l ++ q) max tb Ha Htb Hmax) as (tb1 & Hst & Htb1 & Hent).
    destruct (enc_header p a (encs l ++ q) Ha) as (Hrl & _ & _).
    destruct (IH (p ++ enc a) fuel tb1) as (tb2 & Hloop & Hent2); [lia|done|lia|lia|].
    rewrite <- !app_assoc in Hloop. exists tb2. split.
    + cbn [rta_loop]. rewrite <- !app_assoc.
      rewrite rta_ok_enc by (done || rewrite length_app; lia). cbn [mbind option_bind].
      rewrite Hst. cbn [mbind option_bind]. rewrite Hrl. cbn [mbind option_bind].
      replace (RTA_ALIGN (4 + dlen (a_data a))) with (Z.of_nat (length (enc a))) by done.
      rewrite !length_app, !Nat2Z.inj_add in *. rewrite s32_small by lia.
      replace (Z.of_nat (length (enc a)) + Z.of_nat (length (encs l)) - Z.of_nat (length (enc a)))
        with (Z.of_nat (length (encs l))) by lia.
      rewrite Hloop. by rewrite Z.add_assoc.
    + intros ty Hr. rewrite Hent2, Hent by done. cbn [first_at]. rewrite length_app, Nat2Z.inj_add, Hla.
      destruct (a_type a =? ty); [by rewrite entry_entry|done].
Qed.

Lemma parse_encs l p q max :
  Forall rtattr_ok l -> 0 <= max -> Z.of_nat (length (encs l)) < 2 ^ 31 ->
  exists tb, parse_rtattr (p ++ encs l ++ q) max (Z.of_nat (length p)) (Z.of_nat (length (encs l))) = Some (0, tb) /\
    forall ty, 0 <= ty <= max -> tb !! Z.to_nat ty = Some (first_at (Z.of_nat (length p)) l ty).
Proof.
  intros Hl Hmax Hlen. unfold parse_rtattr, parse_rtattr_flags.
  assert (Hfuel : (length l < rta_fuel (Z.of_nat (length (encs l))))%nat).
  { unfold rta_fuel. rewrite Nat2Z.id. clear Hlen. induction Hl as [|a l Ha Hl IH]; [cbn; lia|].
    change (encs (a :: l)) with (enc a ++ encs l). rewrite length_app. cbn [length].
    pose proof (length_enc a Ha). pose proof (attr_space_spec (attr_pair a) (proj1 Ha)). unfold dlen in *. lia. }
  destruct (parse_loop l p q max (rta_fuel (Z.of_nat (length (encs l)))) (replicate (Z.to_nat (max + 1)) None) Hl) as (tb & -> & Hent);
    [by rewrite length_replicate|done|done|done|].
  cbn [mbind option_bind deficit Z.eqb]. exists tb. split; [done|]. intros ty Hr.
  rewrite Hent by done. rewrite lookup_replicate_2 by lia. done.
Qed.

(** The attribute a pointer of the array designates. *)
Lemma first_at_spec l p q ty :
  Forall rtattr_ok l ->
  match list_find (fun x => x.1 = ty) (attr_pair <$> l) with
  | Some (_, (_, data)) => exists o, first_at (Z.of_nat (length p)) l ty = Some o /\
      rta_len (p ++ encs l ++ q) o = Some (4 + dlen data) /\
      mem_read (p ++ encs l ++ q) (o + 4) (dlen data) = Some data
  | None => first_at (Z.of_nat (length p)) l ty = None
  end.
Proof.
  intros Hl. revert p. induction Hl as [|a l Ha Hl IH]; intros p; [done|].
  cbn [fmap list_fmap list_find first_at]. change (encs (a :: l)) with (enc a ++ encs l). rewrite <- app_assoc.
  unfold attr_pair at 1. cbn [fst]. destruct (Z.eqb_spec (a_type a) ty) as [E|E].
  - rewrite decide_True by done. destruct (enc_header p a (encs l ++ q) Ha) as (Hrl & _ & Hrd).
    exists (Z.of_nat (length p)). done.
  - rewrite decide_False by done. specialize (IH (p ++ enc a)). rewrite length_app, Nat2Z.inj_add, length_enc, <- !app_assoc in IH by done.
    destruct (list_find _ (attr_pair <$> l)) as [[i [t d]]|]; exact IH.
Qed.

(** The pointer of type [ty] in [tb] designates the first attribute of that type
    in [l], with its payload, or is null if there is none. *)
Definition points_to (buf : list Z) (tb : list (option Z)) (l : list (Z * list Z)) (ty : Z) : Prop :=
  match list_find (fun x => x.1 = ty) l with
  | Some (_, (_, data)) => exists o, tb !! Z.to_nat ty = Some (Some o) /\
      rta_len buf o = Some (4 + dlen data) /\ mem_read buf (o + 4) (dlen data) = Some data
  | None => tb !! Z.to_nat ty = Some None
  end.

Lemma points_to_first l p q tb ty :
  Forall rtattr_ok l -> tb !! Z.to_nat ty = Some (first_at (Z.of_nat (length p)) l ty) ->
  points_to (p ++ encs l ++ q) tb (attr_pair <$> l) ty.
Proof.
  intros Hl Htb. pose proof (first_at_spec l p q ty Hl) as Hf. unfold points_to.
  destruct (list_find _ _) as [[i [t d]]|]; [|by rewrite Htb, Hf].
  destruct Hf as (o & Ho & ? & ?). exists o. by rewrite Htb, Ho.
Qed.

(** Replacing the length in the header of an attribute. *)
Lemma set_len_enc p a q len :
  rta_set_len (p ++ enc a ++ q) (Z.of_nat (length p)) len =
  Some (p ++ le_bytes 2 len ++ le_bytes 2 (a_type a) ++ a_data a ++ a_pad a ++ q).
Proof.
  unfold rta_set_len, enc. rewrite <- !app_assoc. by apply mem_write_mid.
Qed.

(** ** Theorems *)

(** C20. Attributes added to a message are found again: after any sequence of
    [addattr_l] calls that fit, what precedes them is unchanged, the message's
    length covers exactly them, and [parse_rtattr] over that range fills its array
    with, for every type, the first attribute of that type and its payload. *)
Theorem addattr_parse_roundtrip n p q maxlen l max :
  msg_at n p q -> forallb attr_fits l = true -> 0 <= maxlen < 2 ^ 31 -> 0 <= max ->
  nlmsg_len n + attrs_space l <= maxlen -> maxlen <= Z.of_nat (length (n_buf n)) ->
  exists n' tb, add_all n maxlen l = Some n' /\ nlmsg_len n' = nlmsg_len n + attrs_space l /\
    take (length p) (n_buf n') = p /\
    parse_rtattr (n_buf n') max (nlmsg_len n) (nlmsg_len n' - nlmsg_len n) = Some (0, tb) /\
    forall ty, 0 <= ty <= max -> points_to (n_buf n') tb l ty.
Proof.
  intros Hat Hf Hmax Hm Hroom Hbuf.
  destruct (add_all_adds n p q maxlen l) as (n' & as' & q' & E & Has & Hp & Hat' & Hlen); try done.
  destruct Hat as (Hb & Hl & _), Hat' as (Hb' & Hl' & _). rewrite length_app, Nat2Z.inj_add in Hl'.
  pose proof (length_encs as' Has) as Hle. rewrite Hp in Hle.
  destruct (parse_encs as' p q' max Has Hm) as (tb & Hparse & Htb); [lia|]. rewrite <- app_assoc in Hb'.
  exists n', tb. split_and!; [done|lia|by rewrite Hb', take_app_length| |].
  - rewrite Hb', Hl'. replace (Z.of_nat (length p) + Z.of_nat (length (encs as')) - nlmsg_len n)
      with (Z.of_nat (length (encs as'))) by lia. by rewrite Hl.
  - intros ty Hty. rewrite Hb', <- Hp. apply points_to_first; [done|]. by apply Htb.
Qed.

(** [addattr_l] never writes outside its bound: if the aligned attribute does
    not fit below [maxlen] it returns -1 and changes nothing; otherwise it returns 0,
    the new length is at most [maxlen], and only the attribute's header and
    payload change. *)
Theorem addattr_l_bounds n maxlen ty data :
  attr_fits (ty, data) = true -> 0 <= nlmsg_len n < 2 ^ 31 -> 0 <= maxlen < 2 ^ 31 ->
  maxlen <= Z.of_nat (length (n_buf n)) ->
  let total := NLMSG_TAIL n + attr_space (ty, data) in
  let last := Z.to_nat (NLMSG_TAIL n + 4 + dlen data) in
  exists rc n', addattr_l n maxlen ty data = Some (rc, n') /\
    if total >? maxlen then rc = -1 /\ n' = n
    else rc = 0 /\ nlmsg_len n' = total /\ total <= maxlen /\
         take (Z.to_nat (NLMSG_TAIL n)) (n_buf n') = take (Z.to_nat (NLMSG_TAIL n)) (n_buf n) /\
         drop last (n_buf n') = drop last (n_buf n) /\ length (n_buf n') = length (n_buf n).
Proof.
  intros Hf Hl Hmax Hbuf total last. pose proof (attr_space_spec _ Hf) as [Hsp _]. cbn [snd] in Hsp.
  pose proof (proj1 (attr_fits_spec _) Hf) as [_ Hd]. cbn [snd] in Hd.
  assert (Ht : 0 <= NLMSG_TAIL n <= nlmsg_len n + 3) by (unfold NLMSG_TAIL, NLMSG_ALIGN; align_lia).
  unfold addattr_l. change (NLMSG_ALIGN (nlmsg_len n)) with (NLMSG_TAIL n).
  change (RTA_ALIGN (RTA_LENGTH (Z.of_nat (length data)))) with (attr_space (ty, data)). fold total.
  assert (0 <= total < 2 ^ 32) by (unfold dlen in *; lia). rewrite !u32_small by lia.
  destruct (Z.gtb_spec total maxlen) as [Hgt|Hle]; [by exists (-1), n|].
  assert (Htot : total = NLMSG_TAIL n + attr_space (ty, data)) by done.
  assert (Hnn : 0 <= dlen data) by (unfold dlen; lia). clearbody total.
  destruct (split_at (n_buf n) (Z.to_nat (NLMSG_TAIL n))) as (p & q & E & Hp); [lia|].
  assert (Hpq : (length p + length q = length (n_buf n))%nat) by (by rewrite E, length_app).
  destruct (split_at q (Z.to_nat (4 + dlen data))) as (m & q' & -> & Hm); [unfold dlen in *; lia|].
  assert (Hlast : last = (length p + length m)%nat) by (subst last; unfold dlen in *; lia). clearbody last.
  replace (NLMSG_TAIL n) with (Z.of_nat (length p)) by lia. rewrite E.
  change (RTA_LENGTH (Z.of_nat (length data))) with (4 + dlen data).
  rewrite put_rta_enc by (unfold dlen in *; lia). cbn [mbind option_bind]. eexists _, _. split; [reflexivity|].
  cbn [nlmsg_len n_buf]. rewrite Nat2Z.id, !take_app_length. split_and!; try done.
  - rewrite Hlast, !drop_app_add.
    rewrite drop_app_length. rewrite drop_app_length'; [done|]. rewrite !length_app, !length_le_bytes. unfold dlen in *. lia.
  - rewrite !length_app, !length_le_bytes. unfold dlen in *. lia.
Qed.

(** Nesting round trip: attributes added between [addattr_nest] and
    [addattr_nest_end] are the ones [parse_rtattr_nested] finds in the nest, whose
    header covers exactly them, as long as they fit its 16-bit length. *)
Theorem nest_roundtrip n p q maxlen ty l max :
  msg_at n p q -> 0 <= ty < 65536 -> forallb attr_fits l = true -> 0 <= maxlen < 2 ^ 31 -> 0 <= max ->
  nlmsg_len n + 4 + attrs_space l <= maxlen -> maxlen <= Z.of_nat (length (n_buf n)) ->
  4 + attrs_space l < 65536 ->
  exists nest n1 n2 rc n3 tb, addattr_nest n maxlen ty = Some (nest, n1) /\ add_all n1 maxlen l = Some n2 /\
    addattr_nest_end n2 nest = Some (rc, n3) /\ nlmsg_len n3 = nlmsg_len n + 4 + attrs_space l /\
    rta_type (n_buf n3) nest = Some ty /\ rta_len (n_buf n3) nest = Some (4 + attrs_space l) /\
    parse_rtattr_nested (n_buf n3) max nest = Some (0, tb) /\
    forall ty', 0 <= ty' <= max -> points_to (n_buf n3) tb l ty'.
Proof.
  intros Hat Hty Hf Hmax Hm Hroom Hbuf H16. pose proof (attrs_space_nonneg l Hf).
  assert (Hx : attr_fits (ty, []) = true) by (apply attr_fits_spec; unfold dlen; cbn; lia).
  destruct (addattr_l_adds n p q maxlen ty []) as (n1 & a & q1 & E1 & Ha & Hpa & Hat1 & Hl1); try done;
    [change (attr_space (ty, [])) with 4; lia|].
  destruct a as [ty' d pad]. unfold attr_pair in Hpa. cbn [a_type a_data] in Hpa. simplify_eq.
  assert (pad = []) as ->.
  { destruct Ha as [_ Hpad]. unfold dlen in Hpad. cbn [a_data a_pad length] in Hpad.
    destruct pad; [done|]. cbn [length] in Hpad. change (RTA_ALIGN (4 + Z.of_nat 0)) with 4 in Hpad. lia. }
  pose proof (length_enc _ Ha) as Hle. change (attr_space (attr_pair _)) with 4 in Hle.
  assert (Hn1 : nlmsg_len n1 = nlmsg_len n + 4).
  { destruct Hat as (_ & Hl & _), Hat1 as (_ & Hl' & _). rewrite Hl', length_app. lia. }
  destruct (add_all_adds n1 _ q1 maxlen l Hat1 Hf) as (n2 & as' & q2 & E2 & Has & Hp2 & Hat2 & Hl2); [lia..|].
  pose proof (length_encs as' Has) as Hles. rewrite Hp2 in Hles.
  pose proof (msg_tail n p q Hat) as Ht. pose proof Hat as (_ & Hnl & _). specialize (Ht ltac:(lia)).
  pose proof (msg_tail n2 _ _ Hat2) as Ht2. rewrite !length_app in Ht2. specialize (Ht2 ltac:(lia)).
  destruct Hat2 as (Hb2 & Hl2' & _). rewrite !length_app in Hl2'. rewrite <- !app_assoc in Hb2.
  set (h := le_bytes 2 (4 + attrs_space l) ++ le_bytes 2 ty).
  assert (Hend : addattr_nest_end n2 (Z.of_nat (length p)) =
    Some (nlmsg_len n2, mk_nlmsghdr (nlmsg_len n2) ((p ++ h) ++ encs as' ++ q2))).
  { unfold addattr_nest_end. rewrite Hb2, set_len_enc. cbn [mbind option_bind a_type a_data a_pad app].
    rewrite Ht2. do 3 f_equal. unfold h. rewrite <- !app_assoc. do 3 f_equal. lia. }
  destruct (parse_encs as' (p ++ h) q2 max Has Hm) as (tb & Hparse & Htb); [lia|].
  assert (Hh : length h = 4%nat) by done.
  exists (Z.of_nat (length p)), n1, n2, (nlmsg_len n2), (mk_nlmsghdr (nlmsg_len n2) ((p ++ h) ++ encs as' ++ q2)), tb.
  assert (Hrl : rta_len ((p ++ h) ++ encs as' ++ q2) (Z.of_nat (length p)) = Some (4 + attrs_space l)).
  { unfold rta_len, h. rewrite <- !app_assoc, mem_read_mid by done. cbn [fmap option_fmap option_map].
    rewrite le_val_bytes. f_equal. apply Z.mod_small. cbn. lia. }
  cbn [n_buf nlmsg_len]. split_and!; try done.
  - unfold addattr_nest. rewrite E1. cbn [mbind option_bind]. by rewrite Ht.
  - lia.
  - unfold rta_type, h. rewrite <- !app_assoc, (app_assoc p), mem_read_mid by (rewrite ?length_app, ?length_le_bytes; done || lia).
    cbn [fmap option_fmap option_map]. rewrite le_val_bytes. f_equal. apply Z.mod_small. cbn. lia.
  - unfold parse_rtattr_nested. rewrite Hrl. cbn [mbind option_bind]. unfold RTA_PAYLOAD.
    change (RTA_LENGTH 0) with 4. replace (4 + attrs_space l - 4) with (Z.of_nat (length (encs as'))) by lia.
    rewrite u64_small, s32_small by lia. rewrite <- Hparse. f_equal. rewrite length_app, Hh. lia.
  - intros ty' Hr. rewrite <- Hp2. apply points_to_first; [done|]. by apply Htb.
Qed.

(** ** The theorems on concrete inputs *)

Definition sample_msg : nlmsghdr := mk_nlmsghdr 32 (replicate 128 170).
Definition sample_attrs : list (Z * list Z) := [(1, [2; 0; 0; 0]); (3, [1]); (3, [0]); (5, [1])].

Lemma sample_msg_at : msg_at sample_msg (replicate 32 170) (replicate 96 170).
Proof. repeat split. Qed.

Lemma addattr_parse_roundtrip_witness :
  exists n' tb, add_all sample_msg 128 sample_attrs = Some n' /\
    parse_rtattr (n_buf n') 7 32 32 = Some (0, tb) /\ points_to (n_buf n') tb sample_attrs 3.
Proof.
  destruct (addattr_parse_roundtrip sample_msg _ _ 128 sample_attrs 7 sample_msg_at) as (n' & tb & E & Hl & _ & Hp & Hall);
    [reflexivity|lia|lia|vm_compute; discriminate|vm_compute; discriminate|].
  exists n', tb. rewrite Hl in Hp. split; [exact E|]. split; [exact Hp|]. apply Hall. lia.
Defined.

Lemma addattr_l_bounds_witness :
  exists rc n', addattr_l sample_msg 36 3 [1] = Some (rc, n') /\ rc = -1 /\ n' = sample_msg.
Proof.
  apply (addattr_l_bounds sample_msg 36 3 [1]); [reflexivity|vm_compute; split; discriminate || reflexivity|lia|].
  vm_compute. discriminate.
Defined.

Lemma nest_roundtrip_witness :
  exists nest n1 n2 rc n3 tb, addattr_nest sample_msg 128 2 = Some (nest, n1) /\ add_all n1 128 sample_attrs = Some n2 /\
    addattr_nest_end n2 nest = Some (rc, n3) /\ parse_rtattr_nested (n_buf n3) 7 nest = Some (0, tb).
Proof.
  destruct (nest_roundtrip sample_msg _ _ 128 2 sample_attrs 7 sample_msg_at)
    as (nest & n1 & n2 & rc & n3 & tb & E1 & E2 & E3 & _ & _ & _ & E4 & _);
    [lia|reflexivity|lia|lia|vm_compute; discriminate|vm_compute; discriminate|vm_compute; reflexivity|].
  exists nest, n1, n2, rc, n3, tb. exact (conj E1 (conj E2 (conj E3 E4))).
Defined.
