(* ===== verification/Rtnl.v ===== *)
(** * Talking to the kernel over netlink

    Models the socket functions of [iproute2-4.18.0/lib/libnetlink.c], from [rtnl_close] to
    [rtnl_from_file]: opening a socket, the requests of a dump, [rtnl_dump_filter_l],
    [__rtnl_talk_iov], [rtnl_listen] and reading back a file of messages. The answers of
    [recvmsg] are a list; when it is used up the program waits ([Blocked]). A buffer holds
    exactly the bytes that were stored in it, so that [None] is an access to memory that is not
    the program's or that nothing was stored in. Messages to the user, among them
    those of [nl_dump_ext_ack], are left out; [errno] is kept where these functions set it. *)
From stdpp Require Import base list numbers strings.
From Stdlib Require Import ZArith Lia.
From S2P Require Import Prelude Netlink.

Open Scope Z_scope.

(** ** Headers *)

Definition NLMSG_ERROR : Z := 2.
Definition NLMSG_DONE : Z := 3.
Definition NLM_F_REQUEST : Z := 1.
Definition NLM_F_ACK : Z := 4.
Definition NLM_F_DUMP_INTR : Z := 0x10.
Definition NLM_F_DUMP : Z := 0x300.
Definition NETLINK_ROUTE : Z := 0.
Definition NETLINK_SOCK_DIAG : Z := 4.
Definition AF_NETLINK : Z := 16.
Definition MSG_TRUNC : Z := 0x20.
Definition ENOENT : Z := 2.
Definition EINTR : Z := 4.
Definition EAGAIN : Z := 11.
Definition ENOMEM : Z := 12.
Definition EINVAL : Z := 22.
Definition ENODATA : Z := 61.
Definition EOPNOTSUPP : Z := 95.
Definition ENOBUFS : Z := 105.

Definition NLMSG_HDRLEN : Z := NLMSG_ALIGN 16.
Definition NLMSG_LENGTH (len : Z) : Z := len + NLMSG_HDRLEN.
Definition sizeof_nlmsgerr : Z := 20.
Definition sizeof_sockaddr_nl : Z := 12.

(** The fields of the [struct nlmsghdr] at [h]. *)
Definition h_len (buf : list Z) (h : Z) : option Z := le_val <$> mem_read buf h 4.
Definition h_type (buf : list Z) (h : Z) : option Z := le_val <$> mem_read buf (h + 4) 2.
Definition h_flags (buf : list Z) (h : Z) : option Z := le_val <$> mem_read buf (h + 6) 2.
Definition h_seq (buf : list Z) (h : Z) : option Z := le_val <$> mem_read buf (h + 8) 4.
Definition h_pid (buf : list Z) (h : Z) : option Z := le_val <$> mem_read buf (h + 12) 4.

(** An [int] at [p], such as [err->error] at the start of a [struct nlmsgerr]. *)
Definition get_int (buf : list Z) (p : Z) : option Z := (fun l => s32 (le_val l)) <$> mem_read buf p 4.
Definition NLMSG_DATA (h : Z) : Z := h + NLMSG_LENGTH 0.

(** The tests in order, so that the length is read only if it is there. *)
Definition NLMSG_OK (buf : list Z) (h len : Z) : option bool :=
  if len <? 16 then Some false
  else l ← h_len buf h; Some ((16 <=? l) && (l <=? u32 len)).

(** ** The handle *)

(** [struct rtnl_handle]; [rth_dump_fp] is what was written to the file, if there is
    one, and [rth_errno] the [errno] these functions set. *)
Record rtnl_handle := mk_rth {
  rth_fd : Z; rth_pid : Z; rth_seq : Z; rth_dump : Z; rth_proto : Z;
  rth_dump_fp : option (list Z); rth_flags : Z; rth_errno : Z }.

Definition with_seq (s : Z) (r : rtnl_handle) : rtnl_handle :=
  mk_rth (rth_fd r) (rth_pid r) s (rth_dump r) (rth_proto r) (rth_dump_fp r) (rth_flags r) (rth_errno r).
Definition with_dump (s : Z) (r : rtnl_handle) : rtnl_handle :=
  mk_rth (rth_fd r) (rth_pid r) s s (rth_proto r) (rth_dump_fp r) (rth_flags r) (rth_errno r).
Definition with_errno (e : Z) (r : rtnl_handle) : rtnl_handle :=
  mk_rth (rth_fd r) (rth_pid r) (rth_seq r) (rth_dump r) (rth_proto r) (rth_dump_fp r) (rth_flags r) e.
Definition with_file (f : option (list Z)) (r : rtnl_handle) : rtnl_handle :=
  mk_rth (rth_fd r) (rth_pid r) (rth_seq r) (rth_dump r) (rth_proto r) f (rth_flags r) (rth_errno r).
Definition with_flags (f : Z) (r : rtnl_handle) : rtnl_handle :=
  mk_rth (rth_fd r) (rth_pid r) (rth_seq r) (rth_dump r) (rth_proto r) (rth_dump_fp r) f (rth_errno r).
Definition with_fd (fd : Z) (r : rtnl_handle) : rtnl_handle :=
  mk_rth fd (rth_pid r) (rth_seq r) (rth_dump r) (rth_proto r) (rth_dump_fp r) (rth_flags r) (rth_errno r).

(** The descriptor closed, if any. *)
Definition rtnl_close (r : rtnl_handle) : rtnl_handle * option Z :=
  if 0 <=? rth_fd r then (with_fd (-1) r, Some (rth_fd r)) else (r, None).

(** The results of the calls of [rtnl_open_byproto], with the address [getsockname]
    stores and the time. *)
Record open_answers := mk_open {
  o_socket : Z; o_sndbuf : Z; o_rcvbuf : Z; o_bind : Z;
  o_getsockname : Z; o_addr_len : Z; o_family : Z; o_pid : Z; o_time : Z }.

Definition rtnl_open_byproto (protocol : Z) (o : open_answers) : Z * rtnl_handle :=
  let r := mk_rth (o_socket o) 0 0 0 protocol None 0 0 in
  if o_socket o <? 0 then (-1, r)
  else if o_sndbuf o <? 0 then (-1, r)
  else if o_rcvbuf o <? 0 then (-1, r)
  else if o_bind o <? 0 then (-1, r)
  else
    let r1 := mk_rth (o_socket o) (o_pid o) 0 0 protocol None 0 0 in
    if o_getsockname o <? 0 then (-1, r1)
    else if negb (o_addr_len o =? sizeof_sockaddr_nl) then (-1, r1)
    else if negb (o_family o =? AF_NETLINK) then (-1, r1)
    else (0, with_seq (u32 (o_time o)) r1).

Definition rtnl_open (o : open_answers) : Z * rtnl_handle := rtnl_open_byproto NETLINK_ROUTE o.

(** ** Requests *)

Definition nl_header (len ty flags seq pid : Z) : list Z :=
  le_bytes 4 len ++ le_bytes 2 ty ++ le_bytes 2 flags ++ le_bytes 4 seq ++ le_bytes 4 pid.

(** [rth->dump = ++rth->seq]. *)
Definition next_dump (r : rtnl_handle) : rtnl_handle := with_dump (u32 (rth_seq r + 1)) r.

Definition IFLA_EXT_MASK : Z := 29.
Definition RTEXT_FILTER_VF : Z := 1.

(** The bytes of a [struct ifinfomsg] of a family. *)
Definition ifinfomsg (family : Z) : list Z := le_bytes 1 family ++ replicate 15 0.

(** Each request gives what [send] returned, the handle and the bytes sent; [ret] is
    what [send] returns for them. *)
Definition rtnl_wilddump_req_filter (r : rtnl_handle) (family ty filt_mask : Z) (ret : Z)
  : Z * rtnl_handle * list Z :=
  let r' := next_dump r in
  (ret, r', nl_header 40 ty (Z.lor NLM_F_DUMP NLM_F_REQUEST) (rth_dump r') 0 ++ ifinfomsg family ++
            le_bytes 2 (RTA_LENGTH 4) ++ le_bytes 2 IFLA_EXT_MASK ++ le_bytes 4 filt_mask).

Definition rtnl_wilddump_request (r : rtnl_handle) (family ty : Z) (ret : Z) : Z * rtnl_handle * list Z :=
  rtnl_wilddump_req_filter r family ty RTEXT_FILTER_VF ret.

(** The caller's function may add attributes to the request in its buffer of 1024 bytes. *)
Definition rtnl_wilddump_req_filter_fn (r : rtnl_handle) (family ty : Z)
  (filter_fn : option (nlmsghdr -> Z -> option (Z * nlmsghdr))) (ret : Z) : option (Z * rtnl_handle * list Z) :=
  let r' := next_dump r in
  let hdr := nl_header (NLMSG_LENGTH 16) ty (Z.lor NLM_F_DUMP NLM_F_REQUEST) (rth_dump r') 0 in
  let req := mk_nlmsghdr (NLMSG_LENGTH 16) (hdr ++ ifinfomsg family ++ replicate 1024 0) in
  match filter_fn with
  | None => Some (- EINVAL, r', [])
  | Some f =>
      '(err, n) ← f req 1056;
      if negb (err =? 0) then Some (err, r', [])
      else
        (* the length field of the header is the one of the message *)
        rest ← mem_read (n_buf n) 4 (nlmsg_len n - 4);
        Some (ret, r', le_bytes 4 (nlmsg_len n) ++ rest)
  end.

Definition rtnl_wilddump_stats_req_filter (r : rtnl_handle) (fam ty filt_mask : Z) (ret : Z)
  : Z * rtnl_handle * list Z :=
  let r' := next_dump r in
  (ret, r', nl_header (NLMSG_LENGTH 12) ty (Z.lor NLM_F_DUMP NLM_F_REQUEST) (rth_dump r') 0 ++
            le_bytes 1 fam ++ replicate 7 0 ++ le_bytes 4 filt_mask).

(** [req] of [len] bytes follows the header. *)
Definition rtnl_dump_request (r : rtnl_handle) (ty : Z) (req : list Z) (ret : Z) : Z * rtnl_handle * list Z :=
  let r' := next_dump r in
  (ret, r', nl_header (NLMSG_LENGTH (Z.of_nat (length req))) ty (Z.lor NLM_F_DUMP NLM_F_REQUEST) (rth_dump r') 0 ++ req).

(** Stores into the header of the caller's message, which starts at its length field. *)
Definition rtnl_dump_request_n (r : rtnl_handle) (n : list Z) (ret : Z) : option (Z * rtnl_handle * list Z) :=
  len ← h_len n 0;
  let r' := next_dump r in
  n1 ← mem_write n 6 (le_bytes 2 (Z.lor NLM_F_DUMP NLM_F_REQUEST));
  n2 ← mem_write n1 12 (le_bytes 4 0);
  n3 ← mem_write n2 8 (le_bytes 4 (rth_dump r'));
  sent ← mem_read n3 0 len;
  Some (ret, r', sent).

(** ** Receiving *)

(** What [recvmsg] stores, the sender's port, the length of its address and
    [msg_flags]. *)
Record dgram := mk_dgram { d_data : list Z; d_pid : Z; d_namelen : Z; d_flags : Z }.

Inductive recv := RFail (errno : Z) | ROk (len : Z) (d : dgram).

Inductive outcome := Return (n : Z) | Exit (n : Z) | Blocked.

(** The result, what was stored, [errno] and the answers left; [None] waits. *)
Fixpoint __rtnl_recvmsg (l : list recv) : option (Z * option dgram * list recv) :=
  match l with
  | [] => None
  | RFail errno :: l' =>
      if (errno =? EINTR) || (errno =? EAGAIN) then __rtnl_recvmsg l' else Some (- errno, None, l')
  | ROk len d :: l' => if len =? 0 then Some (- ENODATA, None, l') else Some (len, Some d, l')
  end.

(** First the length of the message, with no buffer, then the message. *)
Definition rtnl_recvmsg (malloc : Z -> bool) (l : list recv) : option (Z * option dgram * list recv) :=
  '(len, d, l1) ← __rtnl_recvmsg l;
  if len <? 0 then Some (len, None, l1)
  else if negb (malloc len) then Some (- ENOMEM, None, l1)
  else
    '(len2, d2, l2) ← __rtnl_recvmsg l1;
    if len2 <? 0 then Some (len2, None, l2) else Some (len2, d2, l2).

(** ** Dumps *)

(** The code is loaded before the length of the message is tested. *)
Definition rtnl_dump_done (r : rtnl_handle) (buf : list Z) (h : Z) : option (Z * rtnl_handle) :=
  len ← get_int buf (NLMSG_DATA h);
  l ← h_len buf h;
  if l <? NLMSG_LENGTH 4 then Some (-1, r)
  else if len <? 0 then
    let r' := with_errno (- len) r in
    if (- len =? ENOENT) || (- len =? EOPNOTSUPP) then Some (-1, r') else Some (len, r')
  else Some (0, r).

Definition rtnl_dump_error (r : rtnl_handle) (buf : list Z) (h : Z) : option rtnl_handle :=
  l ← h_len buf h;
  if l <? NLMSG_LENGTH sizeof_nlmsgerr then Some r
  else e ← get_int buf (NLMSG_DATA h); Some (with_errno (- e) r).

Section dump.
Context {A : Type}.

(** A callback sees the sender, the message at an offset of the buffer, and its argument. *)
Definition rtnl_filter : Type := Z -> list Z -> Z -> A -> Z * A.

(** Where a pass of a filter over a buffer ends: with [msglen] bytes left, at the end of
    the dump, or with a result. *)
Inductive pass := Left (msglen : Z) | FoundDone | PassReturn (n : Z).

(** The loop over the messages of a buffer; [arg] is what the callback keeps. *)
Fixpoint dump_pass (fuel : nat) (r : rtnl_handle) (flt : rtnl_filter) (nc_flags pid : Z) (buf : list Z)
  (h msglen : Z) (intr : bool) (arg : A) : option (pass * rtnl_handle * list Z * bool * A) :=
  match fuel with
  | O => None
  | S fuel' =>
      ok ← NLMSG_OK buf h msglen;
      if ok : bool then
        fl ← h_flags buf h;
        buf1 ← mem_write buf (h + 6) (le_bytes 2 (Z.land fl (u16 (Z.lnot nc_flags))));
        hp ← h_pid buf1 h;
        hs ← h_seq buf1 h;
        l ← h_len buf1 h;
        let next := dump_pass fuel' in
        if negb (pid =? 0) || negb (hp =? rth_pid r) || negb (hs =? rth_dump r) then
          next r flt nc_flags pid buf1 (h + NLMSG_ALIGN l) (s32 (msglen - NLMSG_ALIGN l)) intr arg
        else
          fl1 ← h_flags buf1 h;
          let intr1 := intr || negb (Z.land fl1 NLM_F_DUMP_INTR =? 0) in
          ty ← h_type buf1 h;
          if ty =? NLMSG_DONE then
            '(err, r1) ← rtnl_dump_done r buf1 h;
            Some (if err <? 0 then PassReturn (-1) else FoundDone, r1, buf1, intr1, arg)
          else if ty =? NLMSG_ERROR then
            r1 ← rtnl_dump_error r buf1 h;
            Some (PassReturn (-1), r1, buf1, intr1, arg)
          else
            let '(err, arg1) := match rth_dump_fp r with Some _ => (0, arg) | None => flt pid buf1 h arg end in
            if err <? 0 then Some (PassReturn err, r, buf1, intr1, arg1)
            else next r flt nc_flags pid buf1 (h + NLMSG_ALIGN l) (s32 (msglen - NLMSG_ALIGN l)) intr1 arg1
      else Some (Left msglen, r, buf, intr, arg)
  end.

(** All filters over one buffer, with what the last one left and whether one of them
    found the end. *)
Fixpoint dump_passes (r : rtnl_handle) (flts : list (rtnl_filter * Z)) (pid : Z) (buf : list Z) (status : Z)
  (msglen : Z) (found : bool) (intr : bool) (arg : A) : option (Z * Z * bool * rtnl_handle * bool * A + Z * rtnl_handle * A) :=
  match flts with
  | [] => Some (inl (status, msglen, found, r, intr, arg))
  | (flt, nc_flags) :: flts' =>
      '(p, r1, buf1, intr1, arg1) ← dump_pass (S (length buf)) r flt nc_flags pid buf 0 status intr arg;
      match p with
      | PassReturn n => Some (inr (n, r1, arg1))
      | FoundDone => (* what is left is that of the last message looked at, not used *)
          dump_passes r1 flts' pid buf1 status 0 true intr1 arg1
      | Left m => dump_passes r1 flts' pid buf1 status m found intr1 arg1
      end
  end.

(** The outer loop; a round uses at least two answers. *)
Fixpoint dump_rounds (fuel : nat) (malloc : Z -> bool) (r : rtnl_handle) (flts : list (rtnl_filter * Z)) (intr : bool)
  (arg : A) (l : list recv) : option (outcome * rtnl_handle * A * list recv) :=
  match fuel with
  | O => None
  | S fuel' =>
      match rtnl_recvmsg malloc l with
      | None => Some (Blocked, r, arg, [])
      | Some (status, None, l') => Some (Return status, r, arg, l')
      | Some (status, Some d, l') =>
          let buf := d_data d in
          r0 ← match rth_dump_fp r with
               | Some out => w ← mem_read buf 0 (NLMSG_ALIGN status); Some (with_file (Some (out ++ w)) r)
               | None => Some r
               end;
          res ← dump_passes r0 flts (d_pid d) buf status 0 false intr arg;
          match res with
          | inr (n, r1, arg1) => Some (Return n, r1, arg1, l')
          | inl (_, msglen, found, r1, intr1, arg1) =>
              if found : bool then Some (Return 0, r1, arg1, l')
              else if negb (Z.land (d_flags d) MSG_TRUNC =? 0) then dump_rounds fuel' malloc r1 flts intr1 arg1 l'
              else if negb (msglen =? 0) then Some (Exit 1, r1, arg1, l')
              else dump_rounds fuel' malloc r1 flts intr1 arg1 l'
          end
      end
  end.

Definition rtnl_dump_filter_l (malloc : Z -> bool) (r : rtnl_handle) (flts : list (rtnl_filter * Z)) (arg : A) (l : list recv)
  : option (outcome * rtnl_handle * A * list recv) :=
  dump_rounds (S (length l)) malloc r flts false arg l.

Definition rtnl_dump_filter_nc (malloc : Z -> bool) (r : rtnl_handle) (flt : rtnl_filter) (nc_flags : Z) (arg : A) (l : list recv)
  : option (outcome * rtnl_handle * A * list recv) :=
  rtnl_dump_filter_l malloc r [(flt, nc_flags)] arg l.
End dump.

(** ** Requests with an answer *)

(** [struct iovec]: the memory from [iov_base] on, and how much of it is meant. *)
Record iovec := mk_iovec { iov_base : list Z; iov_len : Z }.

(** Numbers the messages and, if no answer is wanted, asks for an acknowledgement; the
    last number. *)
Fixpoint stamp_iov (r : rtnl_handle) (want : bool) (iov : list iovec) (seq : Z)
  : option (rtnl_handle * list iovec * Z) :=
  match iov with
  | [] => Some (r, [], seq)
  | v :: iov' =>
      let m := iov_base v in
      let s := u32 (rth_seq r + 1) in
      m1 ← mem_write m 8 (le_bytes 4 s);
      fl ← h_flags m1 0;
      m2 ← if want then Some m1 else mem_write m1 6 (le_bytes 2 (Z.lor fl NLM_F_ACK));
      '(r', ms, seq') ← stamp_iov (with_seq s r) want iov' s;
      Some (r', mk_iovec m2 (iov_len v) :: ms, seq')
  end.

(** Where the loop over an answer ends. *)
Inductive talk :=
  | TalkLeft (status : Z)
  | TalkNext (answer : option (list Z))
  | TalkReturn (n : Z) (answer : option (list Z)) (errno : option Z)
  | TalkExit.

(** [status >= sizeof( *h)] compares as [size_t]. *)
Fixpoint talk_msgs (fuel : nat) (r : rtnl_handle) (want : bool) (seq iovlen i : Z) (d : dgram) (h status : Z) : option talk :=
  match fuel with
  | O => None
  | S fuel' =>
      let buf := d_data d in
      if negb (16 <=? u64 status) then Some (TalkLeft status)
      else
        l0 ← h_len buf h;
        let len := s32 l0 in
        let l := s32 (len - 16) in
        if (l <? 0) || (len >? status) then
          Some (if negb (Z.land (d_flags d) MSG_TRUNC =? 0) then TalkReturn (-1) None None else TalkExit)
        else
          hp ← h_pid buf h;
          hs ← h_seq buf h;
          let skip := talk_msgs fuel' r want seq iovlen i d (h + NLMSG_ALIGN len) (s32 (status - NLMSG_ALIGN len)) in
          if negb (d_pid d =? 0) || negb (hp =? rth_pid r) || (hs >? seq) || (hs <? u64 (seq - iovlen)) then skip
          else
            ty ← h_type buf h;
            if ty =? NLMSG_ERROR then
              e ← get_int buf (NLMSG_DATA h);
              if negb (l <? sizeof_nlmsgerr) && (e =? 0) then
                if hs =? seq then Some (TalkReturn 0 (if want then Some buf else None) None)
                else if i <? iovlen then Some (TalkNext (if want then Some buf else None))
                else Some (TalkReturn 0 (if want then Some buf else None) None)
              else Some (TalkReturn (- i) None (Some (- e)))
            else if want then Some (TalkReturn 0 (Some buf) None)
            else skip
  end.

(** [ans] is what the caller's pointer was set to so far. *)
Fixpoint talk_rounds (fuel : nat) (malloc : Z -> bool) (r : rtnl_handle) (want : bool) (seq iovlen i : Z) (ans : option (list Z)) (l : list recv)
  : option (outcome * rtnl_handle * option (list Z) * list recv) :=
  match fuel with
  | O => None
  | S fuel' =>
      match rtnl_recvmsg malloc l with
      | None => Some (Blocked, r, ans, [])
      | Some (status, None, l') => Some (Return status, r, ans, l')
      | Some (status, Some d, l') =>
          let i' := i + 1 in
          if negb (d_namelen d =? sizeof_sockaddr_nl) then Some (Exit 1, r, ans, l')
          else
            t ← talk_msgs (S (length (d_data d))) r want seq iovlen i' d 0 status;
            match t with
            | TalkReturn n answer errno => Some (Return n, match errno with Some e => with_errno e r | None => r end, from_option Some ans answer, l')
            | TalkExit => Some (Exit 1, r, ans, l')
            | TalkNext answer => talk_rounds fuel' malloc r want seq iovlen i' (from_option Some ans answer) l'
            | TalkLeft status' =>
                if negb (Z.land (d_flags d) MSG_TRUNC =? 0) then talk_rounds fuel' malloc r want seq iovlen i' ans l'
                else if negb (status' =? 0) then Some (Exit 1, r, ans, l')
                else talk_rounds fuel' malloc r want seq iovlen i' ans l'
            end
      end
  end.

(** The bytes [sendmsg] takes from the vectors; [None] is a read behind one. *)
Definition iov_bytes (iov : list iovec) : option (list (list Z)) := mapM (fun v => mem_read (iov_base v) 0 (iov_len v)) iov.

(** The outcome, the handle, the answer and the bytes sent; [sendmsg] gives its result. *)
Definition __rtnl_talk_iov (malloc : Z -> bool) (r : rtnl_handle) (iov : list iovec) (want : bool) (sendmsg : Z) (l : list recv)
  : option (outcome * rtnl_handle * option (list Z) * list (list Z)) :=
  '(r1, iov', seq) ← stamp_iov r want iov 0;
  ms ← iov_bytes iov';
  if sendmsg <? 0 then Some (Return (-1), r1, None, ms)
  else
    '(o, r2, answer, _) ← talk_rounds (S (length l)) malloc r1 want seq (Z.of_nat (length iov)) 0 None l;
    Some (o, r2, answer, ms).

Definition rtnl_talk (malloc : Z -> bool) (r : rtnl_handle) (n : list Z) (want : bool) (sendmsg : Z) (l : list recv)
  : option (outcome * rtnl_handle * option (list Z) * list (list Z)) :=
  len ← h_len n 0;
  __rtnl_talk_iov malloc r [mk_iovec n len] want sendmsg l.

(** ** Immediate errors *)

Fixpoint send_check_loop (fuel : nat) (r : rtnl_handle) (buf : list Z) (h status : Z) : option (Z * rtnl_handle) :=
  match fuel with
  | O => None
  | S fuel' =>
      ok ← NLMSG_OK buf h status;
      if ok : bool then
        ty ← h_type buf h;
        l ← h_len buf h;
        if ty =? NLMSG_ERROR then
          if l <? NLMSG_LENGTH sizeof_nlmsgerr then Some (-1, r)
          else e ← get_int buf (NLMSG_DATA h); Some (-1, with_errno (- e) r)
        else send_check_loop fuel' r buf (h + NLMSG_ALIGN l) (s32 (status - NLMSG_ALIGN l))
      else Some (0, r)
  end.

(** [peek] is what [recv] without waiting gives in a buffer of 1024 bytes. *)
Definition rtnl_send_check (r : rtnl_handle) (send : Z) (peek : recv) : option (Z * rtnl_handle) :=
  if send <? 0 then Some (send, r)
  else match peek with
       | RFail errno => Some (if errno =? EAGAIN then 0 else -1, with_errno errno r)
       | ROk status d => send_check_loop (S (length (d_data d))) r (d_data d) 0 status
       end.

(** ** Listening *)

Definition RTNL_HANDLE_F_LISTEN_ALL_NSID : Z := 1.
Definition SOL_NETLINK : Z := 270.
Definition NETLINK_LISTEN_ALL_NSID : Z := 8.
Definition BUFSIZ : Z := 8192.

Definition rtnl_listen_all_nsid (r : rtnl_handle) (setsockopt : Z) : Z * rtnl_handle :=
  if setsockopt <? 0 then (-1, r) else (0, with_flags (Z.lor (rth_flags r) RTNL_HANDLE_F_LISTEN_ALL_NSID) r).

(** A control message: level, type, length and the [int] in its data. *)
Record cmsg := mk_cmsg { c_level : Z; c_type : Z; c_len : Z; c_int : Z }.
(** [CMSG_LEN(sizeof(int))]. *)
Definition CMSG_LEN_int : Z := 20.

(** The control data of a received message, with room for so many bytes: the messages the
    [CMSG_*] macros find, and the new [msg_controllen]. *)
Inductive lrecv := LFail (errno : Z) | LOk (len : Z) (d : dgram) (control : Z -> list cmsg * Z).

(** The last control message with a name space counts. *)
Fixpoint nsid_of (nsid : Z) (l : list cmsg) : Z :=
  match l with
  | [] => nsid
  | c :: l' =>
      nsid_of (if (c_level c =? SOL_NETLINK) && (c_type c =? NETLINK_LISTEN_ALL_NSID) && (c_len c =? CMSG_LEN_int)
               then c_int c else nsid) l'
  end.

Section listen.
Context {A : Type}.

(** A handler sees the sender, the name space if one is asked for, the message at an
    offset of the buffer, and its argument. *)
Definition listen_handler : Type := Z -> option Z -> list Z -> Z -> A -> Z * A.

Inductive heard := HeardLeft (status : Z) | HeardReturn (n : Z) | HeardExit.

Fixpoint listen_msgs (fuel : nat) (hd : listen_handler) (nsid : option Z) (d : dgram) (h status : Z) (arg : A) : option (heard * A) :=
  match fuel with
  | O => None
  | S fuel' =>
      let buf := d_data d in
      if negb (16 <=? u64 status) then Some (HeardLeft status, arg)
      else
        l0 ← h_len buf h;
        let len := s32 l0 in
        let l := s32 (len - 16) in
        if (l <? 0) || (len >? status) then
          Some (if negb (Z.land (d_flags d) MSG_TRUNC =? 0) then HeardReturn (-1) else HeardExit, arg)
        else
          let '(err, arg1) := hd (d_pid d) nsid buf h arg in
          if err <? 0 then Some (HeardReturn err, arg1)
          else listen_msgs fuel' hd nsid d (h + NLMSG_ALIGN len) (s32 (status - NLMSG_ALIGN len)) arg1
  end.

(** [room] is [msg_controllen], which is set once. *)
Fixpoint listen_rounds (r : rtnl_handle) (hd : listen_handler) (room : Z) (arg : A) (l : list lrecv) : option (outcome * A) :=
  match l with
  | [] => Some (Blocked, arg)
  | LFail errno :: l' =>
      if (errno =? EINTR) || (errno =? EAGAIN) || (errno =? ENOBUFS) then listen_rounds r hd room arg l' else Some (Return (-1), arg)
  | LOk status d control :: l' =>
      let '(cms, room1) := control room in
      if status =? 0 then Some (Return (-1), arg)
      else if negb (d_namelen d =? sizeof_sockaddr_nl) then Some (Exit 1, arg)
      else
        let nsid := if negb (Z.land (rth_flags r) RTNL_HANDLE_F_LISTEN_ALL_NSID =? 0) then Some (nsid_of (-1) cms) else None in
        '(x, arg1) ← listen_msgs (S (length (d_data d))) hd nsid d 0 status arg;
        match x with
        | HeardReturn n => Some (Return n, arg1)
        | HeardExit => Some (Exit 1, arg1)
        | HeardLeft status' =>
            if negb (Z.land (d_flags d) MSG_TRUNC =? 0) then listen_rounds r hd room1 arg1 l'
            else if negb (status' =? 0) then Some (Exit 1, arg1)
            else listen_rounds r hd room1 arg1 l'
        end
  end.

Definition rtnl_listen (r : rtnl_handle) (hd : listen_handler) (arg : A) (l : list lrecv) : option (outcome * A) :=
  listen_rounds r hd (if negb (Z.land (rth_flags r) RTNL_HANDLE_F_LISTEN_ALL_NSID =? 0) then BUFSIZ else 0) arg l.

(** ** Messages in a file *)

Definition FILE_BUF : Z := 16384.

(** [fread] of [n] bytes at [p] of the buffer: how many there were, and the rest. *)
Definition fread (buf : list Z) (p n : Z) (file : list Z) : option (Z * list Z * list Z) :=
  let got := take (Z.to_nat n) file in
  _ ← mem_read buf p n;
  buf' ← mem_write buf p got;
  Some (Z.of_nat (length got), buf', drop (Z.to_nat n) file).

Fixpoint file_msgs (fuel : nat) (hd : listen_handler) (buf file : list Z) (arg : A) : option (Z * A) :=
  match fuel with
  | O => None
  | S fuel' =>
      '(status, buf1, file1) ← fread buf 0 16 file;
      if status =? 0 then Some (0, arg)
      else
        l0 ← h_len buf1 0;
        let len := s32 l0 in
        let l := s32 (len - 16) in
        if (l <? 0) || (u64 len >? FILE_BUF) then Some (-1, arg)
        else
          '(status2, buf2, file2) ← fread buf1 (NLMSG_DATA 0) (NLMSG_ALIGN l) file1;
          if status2 <? l then Some (-1, arg)
          else
            let '(err, arg1) := hd 0 None buf2 0 arg in
            if err <? 0 then Some (err, arg1) else file_msgs fuel' hd buf2 file2 arg1
  end.

(** [buf] is what the stack held. *)
Definition rtnl_from_file (hd : listen_handler) (buf file : list Z) (arg : A) : option (Z * A) :=
  file_msgs (S (length file)) hd buf file arg.
End listen.

(** ** Messages as data *)

(** A message with its padding. *)
Record nlmsg := mk_nlmsg { g_type : Z; g_flags : Z; g_seq : Z; g_pid : Z; g_data : list Z; g_pad : list Z }.

Definition g_len (m : nlmsg) : Z := 16 + dlen (g_data m).
Definition enc_msg (m : nlmsg) : list Z :=
  nl_header (g_len m) (g_type m) (g_flags m) (g_seq m) (g_pid m) ++ g_data m ++ g_pad m.
Definition enc_msgs (ms : list nlmsg) : list Z := concat (enc_msg <$> ms).

(** The [int] at the start of the payload: the error code. *)
Definition g_code (m : nlmsg) : Z := s32 (le_val (take 4 (g_data m))).

(** A message the kernel may send: its fields have their widths, it is padded, and an
    error or the end of a dump has a code. *)
Definition nlmsg_ok (m : nlmsg) : bool :=
  is_u16 (g_type m) && is_u16 (g_flags m) && is_u32 (g_seq m) && is_u32 (g_pid m) && (g_len m <? 2 ^ 30)
  && (g_len m + dlen (g_pad m) =? NLMSG_ALIGN (g_len m))
  && (negb ((g_type m =? NLMSG_DONE) || (g_type m =? NLMSG_ERROR)) || (4 <=? dlen (g_data m))).

Definition clear_flags (nc : Z) (m : nlmsg) : nlmsg :=
  mk_nlmsg (g_type m) (Z.land (g_flags m) (u16 (Z.lnot nc))) (g_seq m) (g_pid m) (g_data m) (g_pad m).

Section msg_lemmas.
Context (m : nlmsg) (Hm : nlmsg_ok m = true).

Lemma nlmsg_ok_spec :
  0 <= g_type m < 65536 /\ 0 <= g_flags m < 65536 /\ 0 <= g_seq m < 2 ^ 32 /\ 0 <= g_pid m < 2 ^ 32 /\
  16 <= g_len m < 2 ^ 30 /\ g_len m + dlen (g_pad m) = NLMSG_ALIGN (g_len m) /\
  (g_type m = NLMSG_DONE \/ g_type m = NLMSG_ERROR -> 4 <= dlen (g_data m)).
Proof.
  unfold nlmsg_ok in Hm. apply andb_prop in Hm as [H1 Hc]. bool_to_prop.
  repeat match goal with H : is_u _ _ = true |- _ => apply is_u_spec in H end.
  assert (16 <= g_len m) by (unfold g_len, dlen; lia). split_and!; lia.
Qed.

Lemma length_enc_msg : Z.of_nat (length (enc_msg m)) = NLMSG_ALIGN (g_len m).
Proof.
  destruct nlmsg_ok_spec as (_ & _ & _ & _ & _ & <- & _). unfold enc_msg, nl_header, g_len, dlen.
  rewrite !length_app, !length_le_bytes. lia.
Qed.

Lemma enc_msg_fields p q :
  let buf := p ++ enc_msg m ++ q in let h := Z.of_nat (length p) in
  h_len buf h = Some (g_len m) /\ h_type buf h = Some (g_type m) /\ h_flags buf h = Some (g_flags m) /\
  h_seq buf h = Some (g_seq m) /\ h_pid buf h = Some (g_pid m).
Proof.
  destruct nlmsg_ok_spec as (Ht & Hf & Hs & Hp & Hl & _). intros buf h.
  assert (Hfield : forall a b c k off n v, enc_msg m = a ++ le_bytes k v ++ b -> c = 256 ^ Z.of_nat k -> 0 <= v < c ->
    off = h + Z.of_nat (length a) -> n = Z.of_nat k -> le_val <$> mem_read buf off n = Some v).
  { intros a b c k off n v He -> Hv -> ->. unfold buf. rewrite He, <- !app_assoc, app_assoc.
    rewrite mem_read_mid by (rewrite ?length_app, ?length_le_bytes; unfold h; lia). cbn. by rewrite le_val_bytes, Z.mod_small. }
  unfold enc_msg, nl_header in Hfield. rewrite <- !app_assoc in Hfield. unfold h_len, h_type, h_flags, h_seq, h_pid. split_and!.
  - by eapply (Hfield []); [done|done|cbn; lia|cbn; lia|done].
  - by eapply (Hfield (le_bytes 4 _)); [done|done|cbn; lia|cbn; lia|done].
  - eapply (Hfield (le_bytes 4 _ ++ le_bytes 2 _)); [by rewrite <- !app_assoc|done|cbn; lia|cbn; lia|done].
  - eapply (Hfield (le_bytes 4 _ ++ le_bytes 2 _ ++ le_bytes 2 _)); [by rewrite <- !app_assoc|done|cbn; lia|cbn; lia|done].
  - eapply (Hfield (le_bytes 4 _ ++ le_bytes 2 _ ++ le_bytes 2 _ ++ le_bytes 4 _)); [by rewrite <- !app_assoc|done|cbn; lia|cbn; lia|done].
Qed.

Lemma enc_msg_code p q :
  4 <= dlen (g_data m) -> get_int (p ++ enc_msg m ++ q) (NLMSG_DATA (Z.of_nat (length p))) = Some (g_code m).
Proof.
  intros Hd. unfold get_int, enc_msg, g_code. rewrite <- (take_drop 4 (g_data m)) at 1.
  rewrite <- !app_assoc, app_assoc, mem_read_mid; [done| |].
  - rewrite length_app. unfold NLMSG_DATA, nl_header. rewrite !length_app, !length_le_bytes. change (NLMSG_LENGTH 0) with 16. lia.
  - unfold dlen in Hd. rewrite length_take. lia.
Qed.

Lemma enc_msg_clear nc p q :
  mem_write (p ++ enc_msg m ++ q) (Z.of_nat (length p) + 6) (le_bytes 2 (Z.land (g_flags m) (u16 (Z.lnot nc)))) =
  Some (p ++ enc_msg (clear_flags nc m) ++ q).
Proof.
  unfold enc_msg, clear_flags, nl_header, g_len. cbn [g_type g_flags g_seq g_pid g_data g_pad]. rewrite <- !app_assoc.
  rewrite (app_assoc p), (app_assoc (p ++ _)). rewrite mem_write_mid by (rewrite ?length_app, ?length_le_bytes; lia).
  by rewrite <- !app_assoc.
Qed.
End msg_lemmas.

Lemma clear_flags_ok nc m : nlmsg_ok m = true -> nlmsg_ok (clear_flags nc m) = true.
Proof.
  intros Hm. pose proof (nlmsg_ok_spec m Hm) as (_ & Hf & _). revert Hm. unfold nlmsg_ok, clear_flags.
  cbn [g_type g_flags g_seq g_pid g_data g_pad]. change (g_len (mk_nlmsg _ _ _ _ _ _)) with (g_len m).
  intros Hm. apply andb_prop in Hm as [Hm ?]. do 4 (apply andb_prop in Hm as [Hm ?]). apply andb_prop in Hm as [Ht _].
  repeat (apply andb_true_intro; split; [|done]). rewrite Ht. cbn [andb]. apply is_u_spec.
  rewrite <- (Z.mod_small (g_flags m) (2 ^ 16)), <- land_mask, <- Z.land_assoc, (Z.land_comm (2 ^ 16 - 1)), Z.land_assoc, land_mask by lia.
  apply Z.mod_pos_bound. lia.
Qed.

Lemma enc_msgs_cons m ms : enc_msgs (m :: ms) = enc_msg m ++ enc_msgs ms.
Proof. done. Qed.

(** Bytes of a datagram: the messages are in range and so is their sum. *)
Definition msgs_ok (ms : list nlmsg) : bool := forallb nlmsg_ok ms && (dlen (enc_msgs ms) <? 2 ^ 31).

Lemma align_bounds m : nlmsg_ok m = true -> g_len m <= NLMSG_ALIGN (g_len m) <= g_len m + 3.
Proof.
  intros Hm. destruct (nlmsg_ok_spec m Hm) as (_ & _ & _ & _ & Hl & _). unfold NLMSG_ALIGN. rewrite RTA_ALIGN_spec by lia.
  pose proof (Z.div_mod (g_len m + 3) 4). pose proof (Z.mod_pos_bound (g_len m + 3) 4). lia.
Qed.

Lemma dlen_app (a b : list Z) : dlen (a ++ b) = dlen a + dlen b.
Proof. unfold dlen. rewrite length_app. lia. Qed.

(** What the loops see of the first message of a list. *)
Lemma first_msg m ms :
  msgs_ok (m :: ms) = true ->
  nlmsg_ok m = true /\ msgs_ok ms = true /\ dlen (enc_msg m) = NLMSG_ALIGN (g_len m) /\
  dlen (enc_msgs (m :: ms)) = NLMSG_ALIGN (g_len m) + dlen (enc_msgs ms) /\
  0 <= dlen (enc_msgs ms) /\ dlen (enc_msgs (m :: ms)) < 2 ^ 31 /\ 16 <= g_len m <= NLMSG_ALIGN (g_len m) /\ g_len m < 2 ^ 30.
Proof.
  unfold msgs_ok. cbn [forallb]. intros H. apply andb_prop in H as [H Hlt]. apply andb_prop in H as [Hm Hms]. bool_to_prop.
  rewrite enc_msgs_cons, dlen_app in *. pose proof (length_enc_msg m Hm) as He. pose proof (align_bounds m Hm).
  destruct (nlmsg_ok_spec m Hm) as (_ & _ & _ & _ & Hl & _). change (dlen (enc_msg m)) with (Z.of_nat (length (enc_msg m))) in *.
  assert (0 <= dlen (enc_msgs ms)) by (unfold dlen; lia).
  rewrite Hms. split_and!; done || lia.
Qed.

Section dump_spec.
Context {A : Type} (flt : rtnl_filter (A := A)) (f : Z -> nlmsg -> A -> Z * A).

(** The callback looks only at the message it is given. *)
Definition filter_local : Prop :=
  forall pid p m q arg, nlmsg_ok m = true -> flt pid (p ++ enc_msg m ++ q) (Z.of_nat (length p)) arg = f pid m arg.

(** Where a datagram leaves the dump. *)
Inductive dumped := DumpOn (r : rtnl_handle) (arg : A) | DumpEnd (n : Z) (r : rtnl_handle) (arg : A).

(** A message of the dump that runs. *)
Definition is_mine (r : rtnl_handle) (pid : Z) (m : nlmsg) : bool :=
  (pid =? 0) && (g_pid m =? rth_pid r) && (g_seq m =? rth_dump r).

(** The result of the message that ends a dump. *)
Definition done_result (r : rtnl_handle) (arg : A) (m : nlmsg) : dumped :=
  if g_code m <? 0 then DumpEnd (-1) (with_errno (- g_code m) r) arg else DumpEnd 0 r arg.
Definition error_result (r : rtnl_handle) (arg : A) (m : nlmsg) : dumped :=
  DumpEnd (-1) (if g_len m <? 36 then r else with_errno (- g_code m) r) arg.

(** The reference: the messages of the dump in order, up to its end. *)
Fixpoint dump_ref (r : rtnl_handle) (nc pid : Z) (ms : list nlmsg) (arg : A) : dumped :=
  match ms with
  | [] => DumpOn r arg
  | m :: ms' =>
      if negb (is_mine r pid m) then dump_ref r nc pid ms' arg
      else if g_type m =? NLMSG_DONE then done_result r arg m
      else if g_type m =? NLMSG_ERROR then error_result r arg m
      else
        let '(err, arg1) := match rth_dump_fp r with Some _ => (0, arg) | None => f pid (clear_flags nc m) arg end in
        if err <? 0 then DumpEnd err r arg1 else dump_ref r nc pid ms' arg1
  end.

Definition pass_result (x : dumped) : pass * rtnl_handle * A :=
  match x with
  | DumpOn r arg => (Left 0, r, arg)
  | DumpEnd n r arg => (if n =? 0 then FoundDone else PassReturn n, r, arg)
  end.

Lemma dump_done_enc r m p q :
  nlmsg_ok m = true -> 4 <= dlen (g_data m) ->
  exists err, rtnl_dump_done r (p ++ enc_msg m ++ q) (Z.of_nat (length p)) =
    Some (err, if g_code m <? 0 then with_errno (- g_code m) r else r) /\ (err <? 0) = (g_code m <? 0).
Proof.
  intros Hm Hd. destruct (enc_msg_fields m Hm p q) as (El & _). unfold rtnl_dump_done. rewrite enc_msg_code, El by done.
  cbn [mbind option_bind]. change (NLMSG_LENGTH 4) with 20. rewrite (proj2 (Z.ltb_ge _ _)) by (unfold g_len; lia).
  destruct (g_code m <? 0) eqn:E; [|by exists 0]. case_test; eexists; (split; [done|]); done || by apply Z.ltb_lt.
Qed.

Lemma dump_error_enc r m p q :
  nlmsg_ok m = true ->
  rtnl_dump_error r (p ++ enc_msg m ++ q) (Z.of_nat (length p)) = Some (if g_len m <? 36 then r else with_errno (- g_code m) r).
Proof.
  intros Hm. destruct (enc_msg_fields m Hm p q) as (El & _). unfold rtnl_dump_error. rewrite El. cbn [mbind option_bind].
  change (NLMSG_LENGTH sizeof_nlmsgerr) with 36. destruct (Z.ltb_spec (g_len m) 36); [done|].
  rewrite enc_msg_code by (unfold g_len in *; lia). done.
Qed.

Lemma dump_pass_ref (Hf : filter_local) nc pid ms : forall fuel r p intr arg,
  msgs_ok ms = true -> dlen (enc_msgs ms) < Z.of_nat fuel ->
  exists buf' intr', let '(ps, r', arg') := pass_result (dump_ref r nc pid ms arg) in
    dump_pass fuel r flt nc pid (p ++ enc_msgs ms) (Z.of_nat (length p)) (dlen (enc_msgs ms)) intr arg = Some (ps, r', buf', intr', arg').
Proof.
  induction ms as [|m ms IH]; intros [|fuel] r p intr arg Hms Hfuel; try (unfold dlen in Hfuel; cbn in Hfuel; lia).
  { exists p, intr. cbn. unfold enc_msgs. cbn. by rewrite app_nil_r. }
  destruct (first_msg m ms Hms) as (Hm & Hms' & He & Htot & Hpos & Hlt & Hl & Hl2).
  pose proof (enc_msg_fields m Hm p (enc_msgs ms)) as (El & _ & Ef & _).
  pose proof (clear_flags_ok nc m Hm) as Hm'.
  pose proof (enc_msg_fields _ Hm' p (enc_msgs ms)) as (El' & Et & Ef' & Es & Ep).
  assert (Hnext : forall intr1 arg1, exists buf' intr', let '(ps, r', arg') := pass_result (dump_ref r nc pid ms arg1) in
    dump_pass fuel r flt nc pid (p ++ enc_msg (clear_flags nc m) ++ enc_msgs ms) (Z.of_nat (length p) + NLMSG_ALIGN (g_len m))
      (s32 (dlen (enc_msgs (m :: ms)) - NLMSG_ALIGN (g_len m))) intr1 arg1 = Some (ps, r', buf', intr', arg')).
  { intros intr1 arg1. destruct (IH fuel r (p ++ enc_msg (clear_flags nc m)) intr1 arg1 Hms' ltac:(lia)) as (buf' & intr' & E).
    exists buf', intr'. destruct (pass_result _) as [[ps r'] arg']. rewrite <- E, <- app_assoc. f_equal.
    - rewrite length_app, Nat2Z.inj_add, (length_enc_msg _ Hm'). done.
    - rewrite s32_small by lia. lia. }
  cbn [dump_pass dump_ref]. unfold NLMSG_OK. rewrite enc_msgs_cons in *. rewrite El. rewrite (proj2 (Z.ltb_ge _ _)) by lia.
  cbn [mbind option_bind]. rewrite u32_small by lia. rewrite !(proj2 (Z.leb_le _ _)) by lia. cbn [andb].
  rewrite Ef. cbn [mbind option_bind]. rewrite (enc_msg_clear m nc p). cbn [mbind option_bind].
  rewrite Ep, Es, El'. cbn [mbind option_bind]. change (g_pid (clear_flags nc m)) with (g_pid m).
  change (g_seq (clear_flags nc m)) with (g_seq m). change (g_len (clear_flags nc m)) with (g_len m).
  unfold is_mine. rewrite !negb_andb. destruct (negb (pid =? 0) || negb (g_pid m =? rth_pid r) || negb (g_seq m =? rth_dump r)) eqn:Emine;
    [apply Hnext|].
  rewrite Ef', Et. cbn [mbind option_bind]. change (g_type (clear_flags nc m)) with (g_type m).
  destruct (nlmsg_ok_spec m Hm) as (_ & _ & _ & _ & _ & _ & Hcode). destruct (Z.eqb_spec (g_type m) NLMSG_DONE) as [Hd|Hd].
  { destruct (dump_done_enc r _ p (enc_msgs ms) Hm') as (err & E & Hneg); [apply Hcode; by left|]. rewrite E. cbn [mbind option_bind].
    rewrite Hneg. change (g_code (clear_flags nc m)) with (g_code m). unfold done_result.
    destruct (g_code m <? 0); cbn [pass_result Z.eqb]; by eexists _, _. }
  destruct (Z.eqb_spec (g_type m) NLMSG_ERROR) as [He'|He'].
  { rewrite dump_error_enc by done. cbn [mbind option_bind]. by eexists _, _. }
  rewrite (Hf pid p _ (enc_msgs ms) arg Hm').
  destruct (match rth_dump_fp r with Some _ => (0, arg) | None => f pid (clear_flags nc m) arg end) as [err arg1].
  destruct (Z.ltb_spec err 0); [|apply Hnext]. cbn [pass_result]. rewrite (proj2 (Z.eqb_neq err 0)) by lia. by eexists _, _.
Qed.
End dump_spec.

(** ** Datagrams *)

(** Interrupted calls. *)
Definition is_retry (x : recv) : bool :=
  match x with RFail e => (e =? EINTR) || (e =? EAGAIN) | ROk _ _ => false end.

(** A kernel that delivers these datagrams: each is first asked for its length, then read;
    either call may be interrupted any number of times. *)
Inductive delivers : list recv -> list dgram -> Prop :=
  | delivers_nil n : forallb is_retry n = true -> delivers n []
  | delivers_cons n1 n2 d0 d l ds :
      forallb is_retry n1 = true -> forallb is_retry n2 = true -> d_data d <> [] -> delivers l ds ->
      delivers (n1 ++ ROk (dlen (d_data d)) d0 :: n2 ++ ROk (dlen (d_data d)) d :: l) (d :: ds).

Lemma recvmsg_retry n l : forallb is_retry n = true -> __rtnl_recvmsg (n ++ l) = __rtnl_recvmsg l.
Proof.
  induction n as [|[e|] n IH]; intros Hn; [done| |done]. cbn [forallb is_retry] in Hn. apply andb_prop in Hn as [He Hn].
  cbn [app __rtnl_recvmsg]. rewrite He. by apply IH.
Qed.

Lemma recvmsg_ok len d l : 0 < len -> __rtnl_recvmsg (ROk len d :: l) = Some (len, Some d, l).
Proof. intros. cbn. by rewrite (proj2 (Z.eqb_neq _ _)) by lia. Qed.

Lemma dlen_pos (l : list Z) : l <> [] -> 0 < dlen l.
Proof. destruct l; [done|]. unfold dlen. cbn. lia. Qed.

Lemma delivers_recv malloc l d ds :
  (forall n, malloc n = true) -> delivers l (d :: ds) ->
  exists l', rtnl_recvmsg malloc l = Some (dlen (d_data d), Some d, l') /\ delivers l' ds /\ (length l' < length l)%nat.
Proof.
  intros Hmalloc H. inversion H as [|n1 n2 d0 d' l1 ds' Hn1 Hn2 Hd Hl]; subst. pose proof (dlen_pos _ Hd).
  exists l1. unfold rtnl_recvmsg. rewrite recvmsg_retry, recvmsg_ok by done. cbn [mbind option_bind].
  rewrite (proj2 (Z.ltb_ge _ _)), Hmalloc by lia. cbn [negb]. rewrite recvmsg_retry, recvmsg_ok by done. cbn [mbind option_bind].
  rewrite (proj2 (Z.ltb_ge _ _)) by lia. split_and!; [done..|]. rewrite !length_app. cbn. rewrite length_app. cbn. lia.
Qed.

Lemma delivers_none malloc l : delivers l [] -> rtnl_recvmsg malloc l = None.
Proof.
  intros H. inversion H as [n Hn|]; subst. unfold rtnl_recvmsg. by rewrite <- (app_nil_r l), recvmsg_retry.
Qed.

(** A datagram of the kernel: the sender and the messages. *)
Definition datagram : Type := Z * list nlmsg.
Definition dgram_of (x : datagram) : dgram := mk_dgram (enc_msgs x.2) x.1 sizeof_sockaddr_nl 0.
Definition datagram_ok (x : datagram) : bool := msgs_ok x.2 && negb (bool_decide (x.2 = [])).

Lemma datagram_nonempty x : datagram_ok x = true -> enc_msgs x.2 <> [].
Proof.
  unfold datagram_ok. intros H. bool_to_prop. destruct x as [pid [|m ms]]; [done|]. cbn [snd] in *. intros He.
  destruct (first_msg m ms H) as (_ & _ & _ & Ht & _ & _ & Hl & _). rewrite He in Ht. unfold dlen in Ht. cbn in Ht. lia.
Qed.

Section dump_rounds_spec.
Context {A : Type} (flt : rtnl_filter (A := A)) (f : Z -> nlmsg -> A -> Z * A) (Hf : filter_local flt f).
Context (malloc : Z -> bool) (Hmalloc : forall n, malloc n = true).

(** The reference on the datagrams of a dump; a file gets every datagram read. *)
Fixpoint dump_all (r : rtnl_handle) (nc : Z) (ds : list datagram) (arg : A) : outcome * rtnl_handle * A :=
  match ds with
  | [] => (Blocked, r, arg)
  | (pid, ms) :: ds' =>
      match dump_ref f (with_file ((fun out => out ++ enc_msgs ms) <$> rth_dump_fp r) r) nc pid ms arg with
      | DumpOn r' arg' => dump_all r' nc ds' arg'
      | DumpEnd n r' arg' => (Return n, r', arg')
      end
  end.

Lemma dump_ref_on r nc pid ms : forall arg, match dump_ref f r nc pid ms arg with DumpOn r' _ => r' = r | DumpEnd _ _ _ => True end.
Proof.
  induction ms as [|m ms IH]; intros arg; [done|]. cbn [dump_ref]. case_test; [apply IH|]. case_test; [unfold done_result; by case_test|].
  case_test; [done|]. destruct (match rth_dump_fp r with Some _ => _ | None => _ end) as [err arg1]. case_test; [done|]. apply IH.
Qed.

Lemma align_status x : datagram_ok x = true -> NLMSG_ALIGN (dlen (enc_msgs x.2)) = dlen (enc_msgs x.2).
Proof.
  unfold datagram_ok. intros H. apply andb_prop in H as [H _]. destruct x as [pid ms]. cbn [snd] in *.
  assert (Hmod : forall ms, msgs_ok ms = true -> dlen (enc_msgs ms) mod 4 = 0 /\ dlen (enc_msgs ms) < 2 ^ 31).
  { clear ms H. induction ms as [|m ms IH]; intros H; [done|]. destruct (first_msg m ms H) as (_ & Hms & _ & -> & _ & Hlt & Hl & Hl2).
    split; [|lia]. destruct (IH Hms) as [IH' _]. rewrite Z.add_mod, IH' by lia. unfold NLMSG_ALIGN. rewrite RTA_ALIGN_spec by lia.
    by rewrite Z.mul_comm, Z_mod_mult. }
  destruct (Hmod ms H) as [Hz Hlt]. assert (0 <= dlen (enc_msgs ms)) by (unfold dlen; lia). unfold NLMSG_ALIGN.
  rewrite RTA_ALIGN_spec by lia. apply Z.mod_divide in Hz as [k ->]; [|lia].
  replace (k * 4 + 3) with (3 + k * 4) by lia. rewrite Z.div_add by lia. change (3 / 4) with 0. lia.
Qed.

Lemma dump_rounds_ref nc ds : forall fuel r intr arg l,
  forallb datagram_ok ds = true -> delivers l (dgram_of <$> ds) -> (length l < fuel)%nat ->
  exists l', let '(o, r', arg') := dump_all r nc ds arg in
    dump_rounds fuel malloc r [(flt, nc)] intr arg l = Some (o, r', arg', l').
Proof.
  induction ds as [|[pid ms] ds IH]; intros [|fuel] r intr arg l Hds Hl Hfuel; try (exfalso; lia).
  { cbn [dump_all dump_rounds]. rewrite delivers_none by done. by eexists. }
  cbn [forallb] in Hds. apply andb_prop in Hds as [Hd Hds]. cbn [fmap list_fmap] in Hl.
  destruct (delivers_recv malloc l _ _ Hmalloc Hl) as (l' & E & Hl' & Hlen). pose proof (align_status _ Hd) as Hal. cbn [snd] in Hal.
  cbn [dump_all dump_rounds]. rewrite E. cbn [dgram_of d_data d_pid d_flags fst snd].
  set (r0 := with_file ((fun out => out ++ enc_msgs ms) <$> rth_dump_fp r) r).
  assert ((match rth_dump_fp r with
           | Some out => w ← mem_read (enc_msgs ms) 0 (NLMSG_ALIGN (dlen (enc_msgs ms))); Some (with_file (Some (out ++ w)) r)
           | None => Some r end) = Some r0) as ->.
  { unfold r0. destruct r as [? ? ? ? ? [out|] ? ?]; cbn [rth_dump_fp]; [|done]. rewrite Hal.
    rewrite <- (app_nil_r (enc_msgs ms)) at 1. by rewrite (mem_read_mid [] (enc_msgs ms) []). }
  unfold datagram_ok in Hd. apply andb_prop in Hd as [Hms _]. cbn [snd] in Hms. cbn [mbind option_bind dump_passes].
  destruct (dump_pass_ref flt f Hf nc pid ms (S (length (enc_msgs ms))) r0 [] intr arg Hms ltac:(unfold dlen; lia)) as (buf' & intr' & E1).
  pose proof (dump_ref_on r0 nc pid ms arg) as Hon.
  destruct (dump_ref f r0 nc pid ms arg) as [r' arg'|n r' arg']; cbn [pass_result] in E1; cbn [app length] in E1; change (Z.of_nat 0) with 0 in E1; rewrite E1;
    cbn [mbind option_bind].
  - change (negb (Z.land 0 MSG_TRUNC =? 0)) with false. cbn iota. change (negb (0 =? 0)) with false. cbn iota.
    apply (IH fuel r' intr' arg' l'); [done..|lia].
  - destruct (Z.eqb_spec n 0) as [->|]; by eexists.
Qed.
End dump_rounds_spec.

(** ** Answers *)

(** A message taken as the answer to the requests [seq - iovlen] to [seq]. *)
Definition is_reply (r : rtnl_handle) (want : bool) (seq iovlen pid : Z) (m : nlmsg) : bool :=
  (pid =? 0) && (g_pid m =? rth_pid r) && (seq - iovlen <=? g_seq m) && (g_seq m <=? seq) && (want || (g_type m =? NLMSG_ERROR)).

(** An acknowledgement. *)
Definition is_ack (m : nlmsg) : bool := (g_type m =? NLMSG_ERROR) && (sizeof_nlmsgerr <=? dlen (g_data m)) && (g_code m =? 0).

Definition talk_reply (want : bool) (seq iovlen i : Z) (buf : list Z) (m : nlmsg) : talk :=
  let a := if want then Some buf else None in
  if is_ack m then if negb (g_seq m =? seq) && (i <? iovlen) then TalkNext a else TalkReturn 0 a None
  else if g_type m =? NLMSG_ERROR then TalkReturn (- i) None (Some (- g_code m))
  else TalkReturn 0 a None.

Lemma talk_msgs_ref r want seq iovlen i pid buf ms : forall fuel p,
  0 <= seq < 2 ^ 32 -> 0 <= iovlen <= seq -> buf = p ++ enc_msgs ms -> msgs_ok ms = true -> dlen (enc_msgs ms) < Z.of_nat fuel ->
  talk_msgs fuel r want seq iovlen i (mk_dgram buf pid sizeof_sockaddr_nl 0) (Z.of_nat (length p)) (dlen (enc_msgs ms)) =
  Some (match find (is_reply r want seq iovlen pid) ms with None => TalkLeft 0 | Some m => talk_reply want seq iovlen i buf m end).
Proof.
  induction ms as [|m ms IH]; intros [|fuel] p Hseq Hiov -> Hms Hfuel; try (unfold dlen in Hfuel; cbn in Hfuel; exfalso; lia); [done|].
  destruct (first_msg m ms Hms) as (Hm & Hms' & He & Htot & Hpos & Hlt & Hl & Hl2).
  destruct (enc_msg_fields m Hm p (enc_msgs ms)) as (El & Et & _ & Es & Ep).
  destruct (nlmsg_ok_spec m Hm) as (_ & _ & Hs & _ & _ & _ & Hcode).
  cbn [talk_msgs]. rewrite enc_msgs_cons in *. cbn [d_data d_flags d_pid].
  rewrite (u64_small (dlen _)) by lia. rewrite (proj2 (Z.leb_le _ _)) by lia. cbn [negb].
  rewrite El, Ep, Es, Et. cbn [mbind option_bind]. rewrite !(s32_small (g_len m)) by lia. rewrite (s32_small (g_len m - 16)) by lia.
  rewrite (proj2 (Z.ltb_ge (g_len m - 16) 0)) by lia. rewrite Z.gtb_ltb, (proj2 (Z.ltb_ge (dlen _) (g_len m))) by lia. cbn [orb].
  rewrite u64_small by lia. cbn [find]. unfold is_reply at 1.
  assert (Hskip : talk_msgs fuel r want seq iovlen i (mk_dgram (p ++ enc_msg m ++ enc_msgs ms) pid sizeof_sockaddr_nl 0)
    (Z.of_nat (length p) + NLMSG_ALIGN (g_len m)) (s32 (dlen (enc_msg m ++ enc_msgs ms) - NLMSG_ALIGN (g_len m))) =
    Some (match find (is_reply r want seq iovlen pid) ms with None => TalkLeft 0 | Some m' => talk_reply want seq iovlen i (p ++ enc_msg m ++ enc_msgs ms) m' end)).
  { rewrite <- (IH fuel (p ++ enc_msg m)); [|done..|by rewrite <- app_assoc|done|lia]. f_equal.
    - rewrite length_app, Nat2Z.inj_add, (length_enc_msg m Hm). done.
    - rewrite s32_small by lia. lia. }
  rewrite Z.gtb_ltb, !(Z.leb_antisym). rewrite Hskip.
  destruct (pid =? 0); cbn [negb orb andb]; [|done]. destruct (g_pid m =? rth_pid r); cbn [negb orb andb]; [|done].
  destruct (seq <? g_seq m); cbn [negb orb andb]; [by destruct (g_seq m <? seq - iovlen)|]. rewrite andb_true_r.
  destruct (g_seq m <? seq - iovlen); cbn [negb andb]; [done|]. unfold talk_reply, is_ack.
  destruct (Z.eqb_spec (g_type m) NLMSG_ERROR) as [Hte|Hte].
  2:{ destruct want; cbn [orb]; [|done]. by rewrite (proj2 (Z.eqb_neq _ _) Hte). }
  rewrite orb_true_r, Hte, Z.eqb_refl, enc_msg_code by (try done; apply Hcode; by right). cbn [mbind option_bind andb].
  replace (g_len m - 16 <? sizeof_nlmsgerr) with (dlen (g_data m) <? sizeof_nlmsgerr) by (unfold g_len; f_equal; lia).
  rewrite Z.leb_antisym. destruct (negb (dlen (g_data m) <? sizeof_nlmsgerr) && (g_code m =? 0)); [|done].
  destruct (g_seq m =? seq); cbn [negb andb]; [done|]. by destruct (i <? iovlen).
Qed.

Section talk_rounds_spec.
Context (malloc : Z -> bool) (Hmalloc : forall n, malloc n = true).
Context (r : rtnl_handle) (want : bool) (seq iovlen : Z) (Hseq : 0 <= seq < 2 ^ 32) (Hiov : 0 <= iovlen <= seq).

(** The reference on datagrams; [i] were read before. *)
Fixpoint talk_all (i : Z) (ans : option (list Z)) (ds : list datagram) : outcome * rtnl_handle * option (list Z) :=
  match ds with
  | [] => (Blocked, r, ans)
  | (pid, ms) :: ds' =>
      match find (is_reply r want seq iovlen pid) ms with
      | None => talk_all (i + 1) ans ds'
      | Some m =>
          match talk_reply want seq iovlen (i + 1) (enc_msgs ms) m with
          | TalkReturn n a e => (Return n, match e with Some e => with_errno e r | None => r end, from_option Some ans a)
          | TalkNext a => talk_all (i + 1) (from_option Some ans a) ds'
          | _ => talk_all (i + 1) ans ds'
          end
      end
  end.

Lemma talk_rounds_ref ds : forall fuel i ans l,
  forallb datagram_ok ds = true -> delivers l (dgram_of <$> ds) -> (length l < fuel)%nat ->
  exists l', let '(o, r', a) := talk_all i ans ds in talk_rounds fuel malloc r want seq iovlen i ans l = Some (o, r', a, l').
Proof.
  induction ds as [|[pid ms] ds IH]; intros [|fuel] i ans l Hds Hl Hfuel; try (exfalso; lia).
  { cbn [talk_all talk_rounds]. rewrite delivers_none by done. by eexists. }
  cbn [forallb] in Hds. apply andb_prop in Hds as [Hd Hds]. cbn [fmap list_fmap] in Hl.
  destruct (delivers_recv malloc l _ _ Hmalloc Hl) as (l' & E & Hl' & Hlen).
  unfold datagram_ok in Hd. apply andb_prop in Hd as [Hms _]. cbn [snd] in Hms.
  cbn [talk_all talk_rounds]. rewrite E. cbn [dgram_of d_data d_pid d_flags d_namelen fst snd]. rewrite Z.eqb_refl. cbn [negb].
  pose proof (talk_msgs_ref r want seq iovlen (i + 1) pid (enc_msgs ms) ms (S (length (enc_msgs ms))) [] Hseq Hiov eq_refl Hms
    ltac:(unfold dlen; lia)) as Em. cbn [length] in Em. change (Z.of_nat 0) with 0 in Em. unfold dgram_of. cbn [fst snd]. rewrite Em.
  cbn [mbind option_bind]. change (negb (Z.land 0 MSG_TRUNC =? 0)) with false. cbn iota.
  destruct (find _ ms) as [m|]; [|apply IH; [done..|lia]].
  assert (Hnl : forall st, talk_reply want seq iovlen (i + 1) (enc_msgs ms) m <> TalkLeft st) by (intros st; unfold talk_reply; repeat case_test; done).
  destruct (talk_reply want seq iovlen (i + 1) (enc_msgs ms) m) as [st|a|n a e|] eqn:Er; [by destruct (Hnl st)|apply IH; [done..|lia]|by eexists|].
  exfalso. revert Er. unfold talk_reply. repeat case_test; done.
Qed.
End talk_rounds_spec.

(** The first answer to a single request, the datagram it is in and which one that is. *)
Fixpoint first_reply (r : rtnl_handle) (want : bool) (seq i : Z) (ds : list datagram) : option (Z * list nlmsg * nlmsg) :=
  match ds with
  | [] => None
  | (pid, ms) :: ds' =>
      match find (is_reply r want seq 1 pid) ms with
      | Some m => Some (i, ms, m)
      | None => first_reply r want seq (i + 1) ds'
      end
  end.

(** What [rtnl_talk] makes of it. *)
Definition reply_result (r : rtnl_handle) (want : bool) (x : option (Z * list nlmsg * nlmsg)) : outcome * rtnl_handle * option (list Z) :=
  match x with
  | None => (Blocked, r, None)
  | Some (i, ms, m) =>
      if (g_type m =? NLMSG_ERROR) && negb (is_ack m) then (Return (- i), with_errno (- g_code m) r, None)
      else (Return 0, r, if want then Some (enc_msgs ms) else None)
  end.

Lemma talk_all_first r want seq ds : forall i, 0 <= i ->
  talk_all r want seq 1 i None ds = reply_result r want (first_reply r want seq (i + 1) ds).
Proof.
  induction ds as [|[pid ms] ds IH]; intros i Hi; [done|]. cbn [talk_all first_reply].
  destruct (find _ ms) as [m|] eqn:Ef; [|apply IH; lia]. unfold talk_reply, reply_result.
  rewrite (proj2 (Z.ltb_ge (i + 1) 1)), andb_false_r by lia. destruct (is_ack m) eqn:Ea; cbn [negb]; [rewrite andb_false_r; by destruct want|].
  rewrite andb_true_r. destruct (g_type m =? NLMSG_ERROR); [done|]. by destruct want.
Qed.

(** The message as it is sent. *)
Definition stamped_msg (seq : Z) (want : bool) (m : nlmsg) : nlmsg :=
  mk_nlmsg (g_type m) (if want then g_flags m else Z.lor (g_flags m) NLM_F_ACK) seq (g_pid m) (g_data m) (g_pad m).

(** The bytes of a message without its padding. *)
Definition wire_msg (m : nlmsg) : list Z := nl_header (g_len m) (g_type m) (g_flags m) (g_seq m) (g_pid m) ++ g_data m.

Lemma enc_msg_wire m : enc_msg m = wire_msg m ++ g_pad m.
Proof. unfold enc_msg, wire_msg. by rewrite <- app_assoc. Qed.

(** A header in a buffer, one field written or read at a time. *)
Lemma wire_seq m tail s :
  mem_write (wire_msg m ++ tail) 8 (le_bytes 4 s) = Some (wire_msg (mk_nlmsg (g_type m) (g_flags m) s (g_pid m) (g_data m) (g_pad m)) ++ tail).
Proof.
  unfold wire_msg, nl_header, g_len. cbn [g_type g_flags g_seq g_pid g_data g_pad]. rewrite <- !app_assoc.
  rewrite (app_assoc _ (le_bytes 2 (g_type m))), (app_assoc _ (le_bytes 2 (g_flags m))).
  by rewrite mem_write_mid by (rewrite ?length_app, ?length_le_bytes; done).
Qed.

Lemma wire_flags m tail v : 0 <= g_flags m < 65536 ->
  h_flags (wire_msg m ++ tail) 0 = Some (g_flags m) /\
  mem_write (wire_msg m ++ tail) 6 (le_bytes 2 v) = Some (wire_msg (mk_nlmsg (g_type m) v (g_seq m) (g_pid m) (g_data m) (g_pad m)) ++ tail).
Proof.
  intros Hf. unfold h_flags, wire_msg, nl_header, g_len. cbn [g_type g_flags g_seq g_pid g_data g_pad]. rewrite <- !app_assoc.
  rewrite (app_assoc _ (le_bytes 2 (g_type m))). split.
  - rewrite mem_read_mid by (rewrite ?length_app, ?length_le_bytes; done). cbn [fmap option_fmap option_map].
    rewrite le_val_bytes, Z.mod_small by (cbn; lia). done.
  - rewrite mem_write_mid by (rewrite ?length_app, ?length_le_bytes; done). by rewrite <- !app_assoc.
Qed.

Lemma wire_len m tail : 0 <= g_len m < 2 ^ 32 ->
  h_len (wire_msg m ++ tail) 0 = Some (g_len m) /\ mem_read (wire_msg m ++ tail) 0 (g_len m) = Some (wire_msg m).
Proof.
  intros Hl. split.
  - unfold h_len, wire_msg, nl_header. rewrite <- !app_assoc.
    replace (mem_read _ 0 4) with (Some (le_bytes 4 (g_len m))) by (symmetry; by apply (mem_read_mid [])). cbn [fmap option_fmap option_map]. rewrite le_val_bytes, Z.mod_small by (cbn; lia). done.
  - apply (mem_read_mid []); [done|]. unfold wire_msg, nl_header, g_len, dlen. rewrite !length_app, !length_le_bytes. lia.
Qed.

Lemma stamp_one r want m tail n : nlmsg_ok m = true -> 0 <= rth_seq r < 2 ^ 32 - 1 ->
  stamp_iov r want [mk_iovec (wire_msg m ++ tail) n] 0 =
    Some (with_seq (rth_seq r + 1) r, [mk_iovec (wire_msg (stamped_msg (rth_seq r + 1) want m) ++ tail) n], rth_seq r + 1).
Proof.
  intros Hm Hs. cbn [stamp_iov iov_base iov_len]. rewrite u32_small by lia. set (s := rth_seq r + 1).
  destruct (nlmsg_ok_spec m Hm) as (_ & Hf & _). rewrite wire_seq. cbn [mbind option_bind]. set (m1 := mk_nlmsg _ _ s _ _ _).
  destruct (wire_flags m1 tail (Z.lor (g_flags m1) NLM_F_ACK) Hf) as [E1 E2]. rewrite E1. cbn [mbind option_bind].
  destruct want; [done|]. by rewrite E2.
Qed.

(** A request of one message, as it is sent. *)
Lemma talk_one malloc r m tail want sendmsg l : nlmsg_ok m = true -> 0 <= rth_seq r < 2 ^ 32 - 1 -> 0 <= sendmsg ->
  rtnl_talk malloc r (wire_msg m ++ tail) want sendmsg l =
    '(o, r2, answer, _) ← talk_rounds (S (length l)) malloc (with_seq (rth_seq r + 1) r) want (rth_seq r + 1) 1 0 None l;
    Some (o, r2, answer, [wire_msg (stamped_msg (rth_seq r + 1) want m)]).
Proof.
  intros Hm Hs Hsend. assert (Hl : 0 <= g_len m < 2 ^ 32) by (unfold nlmsg_ok in Hm; unfold g_len, dlen in *; bool_to_prop; lia).
  unfold rtnl_talk, __rtnl_talk_iov. rewrite (proj1 (wire_len m tail Hl)). cbn [mbind option_bind]. rewrite stamp_one by done. cbn [mbind option_bind].
  unfold iov_bytes. cbn [mapM iov_base iov_len]. change (g_len m) with (g_len (stamped_msg (rth_seq r + 1) want m)).
  rewrite (proj2 (wire_len (stamped_msg (rth_seq r + 1) want m) tail Hl)). cbn [mbind option_bind]. by rewrite (proj2 (Z.ltb_ge _ _)) by done.
Qed.

(** ** A dump that ends well *)

Section dump_visits.
Context {A : Type} (f : Z -> nlmsg -> A -> Z * A) (Hpos : forall pid m a, 0 <= fst (f pid m a)).

Definition is_data (m : nlmsg) : bool := negb (g_type m =? NLMSG_DONE) && negb (g_type m =? NLMSG_ERROR).

(** The messages of the dump among those received. *)
Definition own (r : rtnl_handle) (ds : list datagram) : list nlmsg :=
  concat ((fun x => List.filter (is_mine r x.1) x.2) <$> ds).

Definition visit (nc : Z) (ms : list nlmsg) (arg : A) : A :=
  fold_left (fun a m => snd (f 0 (clear_flags nc m) a)) ms arg.

(** A callback is called only if the dump is not saved. *)
Definition visit_unsaved (r : rtnl_handle) (nc : Z) (ms : list nlmsg) (arg : A) : A :=
  match rth_dump_fp r with Some _ => arg | None => visit nc ms arg end.

Lemma dump_ref_data r nc pid ms rest : forall arg,
  forallb is_data (List.filter (is_mine r pid) ms) = true ->
  dump_ref f r nc pid (ms ++ rest) arg = dump_ref f r nc pid rest (visit_unsaved r nc (List.filter (is_mine r pid) ms) arg).
Proof.
  induction ms as [|m ms IH]; intros arg Hd; cbn [app List.filter dump_ref] in *; [by unfold visit_unsaved; destruct (rth_dump_fp r)|].
  destruct (is_mine r pid m) eqn:Em; cbn [negb]; [|by apply IH]. cbn [forallb] in Hd. apply andb_prop in Hd as [Hm Hd].
  unfold is_data in Hm. apply andb_prop in Hm as [H1 H2]. apply negb_true_iff in H1, H2. rewrite H1, H2.
  assert (pid = 0) as -> by (unfold is_mine in Em; bool_to_prop; done). unfold visit_unsaved in *.
  destruct (rth_dump_fp r) as [out|]; [by apply IH|]. pose proof (Hpos 0 (clear_flags nc m) arg) as Hp.
  destruct (f 0 (clear_flags nc m) arg) as [err arg1] eqn:Ef. cbn [fst] in Hp. rewrite (proj2 (Z.ltb_ge _ _)) by done.
  rewrite IH by done. unfold visit. cbn [fold_left]. by rewrite Ef.
Qed.

Lemma dump_all_data nc ds rest : forall r arg,
  forallb is_data (own r ds) = true ->
  dump_all f r nc (ds ++ rest) arg =
  dump_all f (with_file ((fun out => out ++ concat (enc_msgs ∘ snd <$> ds)) <$> rth_dump_fp r) r) nc rest (visit_unsaved r nc (own r ds) arg).
Proof.
  induction ds as [|[pid ms] ds IH]; intros r arg Hd.
  { cbn. unfold visit_unsaved. destruct r as [? ? ? ? ? [out|] ? ?]; cbn; [by rewrite app_nil_r|done]. }
  unfold own in Hd. cbn [fmap list_fmap concat fst snd] in Hd. rewrite forallb_app in Hd. apply andb_prop in Hd as [Hd1 Hd2].
  cbn [app dump_all]. set (r1 := with_file _ r).
  rewrite <- (app_nil_r ms) at 1. rewrite (dump_ref_data r1) by done. cbn [dump_ref]. rewrite IH by done.
  unfold own at 2. cbn [fmap list_fmap concat fst snd]. f_equal.
  - unfold r1. destruct r as [? ? ? ? ? [out|] ? ?]; cbn; [|done]. by rewrite <- app_assoc.
  - unfold visit_unsaved, r1. destruct r as [? ? ? ? ? [out|] ? ?]; cbn; [done|]. unfold visit. by rewrite fold_left_app.
Qed.

(** A complete dump: data, the end with a code that is no error, and whatever follows. *)
Definition dump_complete (r : rtnl_handle) (ds : list datagram) (ms : list nlmsg) (m : nlmsg) : bool :=
  forallb is_data (own r ds) && forallb is_data (List.filter (is_mine r 0) ms) && is_mine r 0 m
  && (g_type m =? NLMSG_DONE) && (0 <=? g_code m).

Lemma dump_all_complete r nc ds ms m post rest arg :
  dump_complete r ds ms m = true ->
  dump_all f r nc (ds ++ (0, ms ++ m :: post) :: rest) arg =
  (Return 0, with_file ((fun out => out ++ concat (enc_msgs ∘ snd <$> ds) ++ enc_msgs (ms ++ m :: post)) <$> rth_dump_fp r) r,
   visit_unsaved r nc (own r (ds ++ [(0, ms)])) arg).
Proof.
  unfold dump_complete. intros H. apply andb_prop in H as [H Hcode]. apply andb_prop in H as [H Hdone]. apply andb_prop in H as [H Hmine].
  apply andb_prop in H as [Hds Hms]. rewrite dump_all_data by done. cbn [dump_all].
  set (r1 := with_file _ r). set (r2 := with_file _ r1). rewrite (dump_ref_data r2) by done. cbn [dump_ref].
  assert (Hm2 : is_mine r2 0 m = true) by exact Hmine. rewrite Hm2. cbn [negb]. rewrite Hdone. unfold done_result.
  apply Z.leb_le in Hcode. rewrite (proj2 (Z.ltb_ge _ _)) by done.
  unfold own. rewrite fmap_app, concat_app. cbn [fmap list_fmap concat fst snd]. rewrite app_nil_r.
  f_equal; [f_equal|].
  - unfold r2, r1. destruct r as [? ? ? ? ? [out|] ? ?]; cbn; [|done]. by rewrite <- app_assoc.
  - unfold r2, r1, visit_unsaved. destruct r as [? ? ? ? ? [out|] ? ?]; cbn; [done|]. unfold visit. by rewrite fold_left_app.
Qed.
End dump_visits.

(** ** Reading back a file *)

Lemma mem_read_front (x y : list Z) n : n = Z.of_nat (length x) -> mem_read (x ++ y) 0 n = Some x.
Proof. intros. by apply (mem_read_mid [] x y). Qed.

Lemma fread_app p mid buf rest got :
  Z.of_nat (length mid) = dlen got ->
  fread (p ++ mid ++ buf) (Z.of_nat (length p)) (dlen got) (got ++ rest) = Some (dlen got, p ++ got ++ buf, rest).
Proof.
  intros Hl. unfold fread. rewrite mem_read_mid by (unfold dlen in *; lia). cbn [mbind option_bind].
  unfold dlen in *. rewrite Nat2Z.id, take_app_length, drop_app_length. by rewrite mem_write_mid by lia.
Qed.

Section file_spec.
Context {A : Type} (hd : listen_handler (A := A)) (g : nlmsg -> A -> Z * A).

(** The handler looks only at the message it is given. *)
Definition handler_local : Prop :=
  forall q m arg, nlmsg_ok m = true -> hd 0 None (enc_msg m ++ q) 0 arg = g m arg.

Lemma file_msgs_visits (Hhd : handler_local) (Hpos : forall m a, 0 <= fst (g m a)) ms : forall fuel buf arg,
  forallb nlmsg_ok ms = true -> forallb (fun m => g_len m <=? FILE_BUF) ms = true -> dlen buf = FILE_BUF -> dlen (enc_msgs ms) < Z.of_nat fuel ->
  file_msgs fuel hd buf (enc_msgs ms) arg = Some (0, fold_left (fun a m => snd (g m a)) ms arg).
Proof.
  induction ms as [|m ms IH]; intros [|fuel] buf arg Hok Hsz Hbuf Hfuel; try (unfold dlen in Hfuel; cbn in Hfuel; exfalso; lia).
  { cbn [file_msgs enc_msgs fmap list_fmap concat]. unfold fread. destruct (split_at buf 16) as (p & q & -> & Hp); [unfold dlen, FILE_BUF in Hbuf; lia|].
    rewrite (mem_read_mid [] p q) by (cbn; lia). done. }
  cbn [forallb] in Hok, Hsz. apply andb_prop in Hok as [Hm Hok]. apply andb_prop in Hsz as [Hs Hsz]. apply Z.leb_le in Hs.
  destruct (nlmsg_ok_spec m Hm) as (_ & _ & _ & _ & Hl & Hpad & _). pose proof (length_enc_msg m Hm) as He.
  assert (Hal : NLMSG_ALIGN (g_len m) <= FILE_BUF).
  { unfold NLMSG_ALIGN, FILE_BUF in *. rewrite RTA_ALIGN_spec by lia. pose proof (Z.div_mod (g_len m + 3) 4). pose proof (Z.mod_pos_bound (g_len m + 3) 4). lia. }
  assert (Hal2 : NLMSG_ALIGN (g_len m - 16) = dlen (g_data m ++ g_pad m)).
  { rewrite dlen_app. unfold NLMSG_ALIGN in *. rewrite RTA_ALIGN_spec in Hpad |- * by lia. unfold g_len in *.
    replace (16 + dlen (g_data m) + 3) with (16 + dlen (g_data m) - 16 + 3 + 4 * 4) in Hpad by lia.
    rewrite Z.div_add in Hpad by lia. lia. }
  assert (Hb : exists b1 b2 b3, buf = b1 ++ b2 ++ b3 /\ length b1 = 16%nat /\ dlen b2 = dlen (g_data m ++ g_pad m)).
  { exists (take 16 buf), (take (length (g_data m ++ g_pad m)) (drop 16 buf)), (drop (length (g_data m ++ g_pad m)) (drop 16 buf)).
    rewrite !take_drop. split; [done|]. rewrite dlen_app in Hal2. unfold dlen, FILE_BUF in *.
    rewrite !length_take, length_drop, length_app. unfold enc_msg in He. rewrite !length_app in He. unfold nl_header in He.
    rewrite !length_app, !length_le_bytes in He. lia. }
  destruct Hb as (b1 & b2 & b3 & -> & Hb1 & Hb2).
  cbn [file_msgs]. rewrite enc_msgs_cons. unfold enc_msg at 1. set (hdr := nl_header _ _ _ _ _).
  assert (Hhdr : dlen hdr = 16) by (unfold hdr, nl_header, dlen; rewrite !length_app, !length_le_bytes; done).
  rewrite <- app_assoc. rewrite <- Hhdr at 1.
  rewrite (fread_app [] b1 (b2 ++ b3) _ hdr) by (rewrite Hhdr; lia). cbn [mbind option_bind app]. rewrite Hhdr. cbn [Z.eqb].
  assert (El : h_len (hdr ++ b2 ++ b3) 0 = Some (g_len m)).
  { unfold h_len, hdr, nl_header. rewrite <- !app_assoc. rewrite mem_read_front by (rewrite ?length_le_bytes; done).
    cbn [fmap option_fmap option_map]. rewrite le_val_bytes, Z.mod_small by (cbn; lia). done. }
  rewrite El. cbn [mbind option_bind]. rewrite !(s32_small (g_len m)) by lia. rewrite (s32_small (g_len m - 16)) by lia.
  rewrite (proj2 (Z.ltb_ge (g_len m - 16) 0)), u64_small, Z.gtb_ltb, (proj2 (Z.ltb_ge _ _)) by lia. cbn [orb].
  change (NLMSG_DATA 0) with 16. rewrite Hal2. replace 16 with (Z.of_nat (length hdr)) at 1 by (unfold dlen in Hhdr; lia).
  rewrite (fread_app hdr b2 b3 _ (g_data m ++ g_pad m)) by (unfold dlen in *; lia). cbn [mbind option_bind].
  rewrite (proj2 (Z.ltb_ge _ _)) by (rewrite dlen_app; unfold g_len, dlen; lia).
  replace (hdr ++ (g_data m ++ g_pad m) ++ b3) with (enc_msg m ++ b3) by (unfold enc_msg; by rewrite <- !app_assoc).
  rewrite Hhd by done. pose proof (Hpos m arg) as Hp. destruct (g m arg) as [err arg1] eqn:Eg. cbn [fst] in Hp.
  rewrite (proj2 (Z.ltb_ge _ _)) by done. rewrite IH; [cbn [fold_left]; by rewrite Eg|done..| |].
  - rewrite dlen_app. change (dlen (enc_msg m)) with (Z.of_nat (length (enc_msg m))). rewrite He. rewrite !dlen_app in *. unfold g_len, dlen in *. lia.
  - rewrite enc_msgs_cons, dlen_app in Hfuel. change (dlen (enc_msg m)) with (Z.of_nat (length (enc_msg m))) in Hfuel. pose proof (align_bounds m Hm). lia.
Qed.
End file_spec.

(** ** Listening without control data *)

(** Later messages look as if they came from no known name space. *)
Lemma listen_msgs_nsid {A} (hd : listen_handler (A := A)) nsid d fuel : forall h status arg,
  listen_msgs fuel hd (Some nsid) d h status arg = listen_msgs fuel (fun pid _ => hd pid (Some nsid)) (Some nsid) d h status arg.
Proof.
  induction fuel as [|fuel IH]; intros h status arg; [done|]. cbn [listen_msgs]. case_test; [done|].
  destruct (h_len (d_data d) h) as [l0|]; cbn [mbind option_bind]; [|done]. case_test; [done|].
  destruct (hd (d_pid d) (Some nsid) (d_data d) h arg) as [err arg1]. case_test; [done|]. apply IH.
Qed.

(** Control data never exceeds its room, and there is none in less than a header. *)
Definition control_law (x : lrecv) : Prop :=
  match x with
  | LFail _ => True
  | LOk _ _ control => forall room, 0 <= room -> 0 <= snd (control room) <= room /\ (room < 16 -> fst (control room) = [])
  end.

Lemma listen_rounds_nsid {A} (r : rtnl_handle) (hd : listen_handler (A := A)) l : forall room arg,
  Forall control_law l -> Z.land (rth_flags r) RTNL_HANDLE_F_LISTEN_ALL_NSID <> 0 -> 0 <= room < 16 ->
  listen_rounds r hd room arg l = listen_rounds r (fun pid _ => hd pid (Some (-1))) room arg l.
Proof.
  induction l as [|x l IH]; intros room arg Hl Hfl Hroom; [done|]. apply Forall_cons in Hl as [Hx Hl]. cbn [listen_rounds].
  destruct x as [e|status d control]; [case_test; [by apply IH|done]|]. destruct (Hx room) as [Hle Hnil]; [lia|].
  destruct (control room) as [cms room1] eqn:Ec. cbn [fst snd] in *. rewrite Hnil by lia. case_test; [done|]. case_test; [done|].
  rewrite (proj2 (Z.eqb_neq _ _) Hfl). cbn [negb nsid_of]. rewrite listen_msgs_nsid.
  destruct (listen_msgs _ _ _ _ _ _ _) as [[[]]|]; cbn [mbind option_bind]; [|done..].
  case_test; [apply IH; (done || lia)|]. case_test; [done|]. apply IH; done || lia.
Qed.

(** ** Faults *)

Lemma talk_takes_stale malloc r seq ack l :
  (forall n, malloc n = true) -> 2 <= seq < 2 ^ 32 -> nlmsg_ok ack = true -> is_ack ack = true ->
  g_pid ack = rth_pid r -> g_seq ack = seq - 1 -> dlen (enc_msg ack) < 2 ^ 31 -> delivers l [dgram_of (0, [ack])] ->
  exists l', talk_rounds (S (length l)) malloc r false seq 1 0 None l = Some (Return 0, r, None, l').
Proof.
  intros Hmalloc Hseq Hok Hack Hp Hs Hlen Hl. assert (Hds : forallb datagram_ok [(0, [ack])] = true).
  { unfold datagram_ok, msgs_ok. cbn [forallb snd]. rewrite Hok. unfold enc_msgs. cbn [fmap list_fmap concat]. rewrite app_nil_r.
    by rewrite (proj2 (Z.ltb_lt _ _)). }
  destruct (talk_rounds_ref malloc Hmalloc r false seq 1 ltac:(lia) ltac:(lia) [(0, [ack])] (S (length l)) 0 None l Hds Hl ltac:(lia)) as (l' & E).
  exists l'. rewrite talk_all_first in E by lia. cbn [first_reply find] in E.
  assert (Hr : is_reply r false seq 1 0 ack = true).
  { unfold is_reply. rewrite Hp, Hs, !Z.eqb_refl. unfold is_ack in Hack. apply andb_prop in Hack as [Hack _].
    apply andb_prop in Hack as [-> _]. rewrite !(proj2 (Z.leb_le _ _)) by lia. done. }
  rewrite Hr in E. unfold reply_result in E. rewrite Hack, andb_false_r in E. exact E.
Qed.

Lemma talk_reads_behind r want seq iovlen i ty fl sq pid data fl2 :
  let d := mk_dgram (nl_header (16 + dlen data) ty fl sq pid ++ data) 0 sizeof_sockaddr_nl fl2 in
  0 <= pid < 2 ^ 32 -> pid <> rth_pid r -> dlen data mod 4 <> 0 -> dlen data < 2 ^ 30 ->
  talk_msgs (S (length (d_data d))) r want seq iovlen i d 0 (dlen (d_data d)) = None.
Proof.
  intros d Hp Hpid Hmod Hlen.
  assert (Hd : dlen (d_data d) = 16 + dlen data).
  { cbn [d d_data]. rewrite dlen_app. unfold nl_header, dlen. rewrite !length_app, !length_le_bytes. lia. }
  assert (Hdl : 0 <= dlen data) by (unfold dlen; lia). rewrite Hd. cbn [talk_msgs].
  rewrite u64_small, (proj2 (Z.leb_le _ _)) by lia. cbn [negb].
  assert (Hfield : forall a b k off n v, nl_header (16 + dlen data) ty fl sq pid = a ++ le_bytes k v ++ b -> off = Z.of_nat (length a) ->
    n = Z.of_nat k -> le_val <$> mem_read (d_data d) off n = Some (v mod 256 ^ Z.of_nat k)).
  { intros a b k off n v He -> ->. cbn [d d_data]. rewrite He, <- !app_assoc, mem_read_mid by (rewrite ?length_le_bytes; done).
    cbn [fmap option_fmap option_map]. by rewrite le_val_bytes. }
  unfold h_len. rewrite (Hfield [] _ 4%nat 0 4 (16 + dlen data) eq_refl) by done. cbn [mbind option_bind].
  rewrite Z.mod_small by (cbn; lia). rewrite !(s32_small (16 + dlen data)) by lia. rewrite (s32_small (16 + dlen data - 16)) by lia.
  rewrite (proj2 (Z.ltb_ge (16 + dlen data - 16) 0)), Z.gtb_ltb, Z.ltb_irrefl by lia. cbn [orb].
  unfold h_pid. rewrite (Hfield (le_bytes 4 (16 + dlen data) ++ le_bytes 2 ty ++ le_bytes 2 fl ++ le_bytes 4 sq) [] 4%nat (0 + 12) 4 pid)
    by (unfold nl_header; by rewrite ?app_nil_r, <- ?app_assoc).
  unfold h_seq. rewrite (Hfield (le_bytes 4 (16 + dlen data) ++ le_bytes 2 ty ++ le_bytes 2 fl) (le_bytes 4 pid) 4%nat (0 + 8) 4 sq)
    by (unfold nl_header; by rewrite <- ?app_assoc).
  cbn [mbind option_bind rth_pid with_seq]. rewrite (Z.mod_small pid) by (cbn; lia). rewrite (proj2 (Z.eqb_neq _ _) Hpid). cbn [negb orb].
  rewrite orb_true_r. cbn [orb]. unfold NLMSG_ALIGN. rewrite RTA_ALIGN_spec by lia.
  assert (Hal : 1 <= 4 * ((16 + dlen data + 3) / 4) - (16 + dlen data) <= 3).
  { pose proof (Z.div_mod (16 + dlen data + 3) 4). pose proof (Z.mod_pos_bound (16 + dlen data + 3) 4).
    destruct (Z.eq_dec (4 * ((16 + dlen data + 3) / 4)) (16 + dlen data)) as [E0|]; [|lia]. exfalso. apply Hmod.
    replace (dlen data) with (((16 + dlen data + 3) / 4 - 4) * 4) by lia. by rewrite Z_mod_mult. }
  rewrite s32_small by lia. destruct (length (d_data d)) as [|k] eqn:Ek; [unfold dlen in Hd; lia|]. cbn [talk_msgs].
  assert ((16 <=? u64 (16 + dlen data - 4 * ((16 + dlen data + 3) / 4))) = true) as ->.
  { apply Z.leb_le. unfold u64. rewrite <- (Z.mod_add _ 1) by lia. rewrite Z.mod_small; lia. }
  cbn [negb]. unfold h_len, mem_read, slice. rewrite (proj2 (Z.leb_le _ _)) by lia.
  destruct (Nat.leb_spec (Z.to_nat (0 + 4 * ((16 + dlen data + 3) / 4)) + Z.to_nat 4) (length (d_data d))) as [Hx|]; [|done].
  exfalso. unfold dlen in *. lia.
Qed.

(** ** Theorems *)

(** A dump is what the reference makes of the datagrams, errors included: the callback is
    called for the messages with the port and number of the dump, and the first end, error
    or refusal decides. *)
Theorem rtnl_dump_exact {A} (flt : rtnl_filter (A := A)) f malloc r nc ds arg l :
  filter_local flt f -> (forall n, malloc n = true) -> forallb datagram_ok ds = true -> delivers l (dgram_of <$> ds) ->
  exists l', let '(o, r', arg') := dump_all f r nc ds arg in
    rtnl_dump_filter_nc malloc r flt nc arg l = Some (o, r', arg', l').
Proof. intros Hf Hmalloc Hds Hl. apply dump_rounds_ref; auto with lia. Qed.

(** C23. A dump visits every message of the kernel's answer once and in order: whatever
    other messages arrive among them, however they are split into datagrams and however
    often the calls are interrupted, [rtnl_dump_filter_nc] stays inside the buffers it
    received, calls the callback exactly for the messages with its port and the number of its
    request up to the end of the dump, and returns 0. *)
Theorem rtnl_dump_visits {A} (flt : rtnl_filter (A := A)) f malloc r nc ds ms m post rest arg l :
  filter_local flt f -> (forall pid m a, 0 <= fst (f pid m a)) -> (forall n, malloc n = true) -> rth_dump_fp r = None ->
  forallb datagram_ok (ds ++ (0, ms ++ m :: post) :: rest) = true ->
  delivers l (dgram_of <$> ds ++ (0, ms ++ m :: post) :: rest) -> dump_complete r ds ms m = true ->
  exists l', rtnl_dump_filter_nc malloc r flt nc arg l = Some (Return 0, r, visit f nc (own r (ds ++ [(0, ms)])) arg, l').
Proof.
  intros Hf Hpos Hmalloc Hfp Hds Hl Hc.
  destruct (dump_rounds_ref flt f Hf malloc Hmalloc nc _ (S (length l)) r false arg l Hds Hl ltac:(lia)) as (l' & E).
  exists l'. rewrite (dump_all_complete f Hpos) in E by done. unfold visit_unsaved in E. rewrite Hfp in E. cbn [fmap option_fmap option_map] in E.
  unfold rtnl_dump_filter_nc, rtnl_dump_filter_l. rewrite E. do 3 f_equal. destruct r. cbn in Hfp. by subst.
Qed.

(** C24. A request and its answer: of the buffer the message is in, as many bytes as its header
    says go out, with the next number and, if no answer is wanted, the flag that asks for an
    acknowledgement; the result is that of the first message taken for an answer: 0 for an
    acknowledgement, minus the number of datagrams read for an error, whose code is left in
    [errno], and, if an answer is wanted, 0 and the datagram for any other message. Without
    such a message the call waits. *)
Theorem rtnl_talk_exact malloc r m tail want sendmsg ds l :
  (forall n, malloc n = true) -> nlmsg_ok m = true -> 0 <= rth_seq r < 2 ^ 32 - 1 -> 0 <= sendmsg ->
  forallb datagram_ok ds = true -> delivers l (dgram_of <$> ds) ->
  let seq := rth_seq r + 1 in
  let '(o, r', a) := reply_result (with_seq seq r) want (first_reply (with_seq seq r) want seq 1 ds) in
  rtnl_talk malloc r (wire_msg m ++ tail) want sendmsg l = Some (o, r', a, [wire_msg (stamped_msg seq want m)]).
Proof.
  intros Hmalloc Hm Hseq Hsend Hds Hl seq. rewrite talk_one by done.
  destruct (talk_rounds_ref malloc Hmalloc (with_seq seq r) want seq 1 ltac:(lia) ltac:(lia) ds (S (length l)) 0 None l Hds Hl ltac:(lia))
    as (l' & E). rewrite talk_all_first in E by lia. change (0 + 1) with 1 in E.
  destruct (reply_result _ _ _) as [[o r'] a]. fold seq. by rewrite E.
Qed.

(** C31. Two answers that are not handled. An acknowledgement of the request before is taken
    for that of this one, since [seq - iovlen] is still accepted. A message for somebody else
    whose length is not a multiple of four, at the end of a datagram, makes the rest
    negative; compared with a [size_t] it is large, and the next header is read behind
    the buffer. *)
Theorem rtnl_talk_faults malloc r m sendmsg l :
  (forall n, malloc n = true) -> nlmsg_ok m = true -> 1 <= rth_seq r < 2 ^ 32 - 1 -> 0 <= sendmsg ->
  (forall ack, nlmsg_ok ack = true -> is_ack ack = true -> g_pid ack = rth_pid r -> g_seq ack = rth_seq r ->
     dlen (enc_msg ack) < 2 ^ 31 -> delivers l [dgram_of (0, [ack])] ->
     exists ms, rtnl_talk malloc r (enc_msg m) false sendmsg l = Some (Return 0, with_seq (rth_seq r + 1) r, None, ms)) /\
  (forall ty fl seq pid data, let d := mk_dgram (nl_header (16 + dlen data) ty fl seq pid ++ data) 0 sizeof_sockaddr_nl 0 in
     0 <= pid < 2 ^ 32 -> pid <> rth_pid r -> dlen data mod 4 <> 0 -> dlen data < 2 ^ 30 -> delivers l [d] ->
     rtnl_talk malloc r (enc_msg m) false sendmsg l = None).
Proof.
  intros Hmalloc Hm Hseq Hsend. rewrite enc_msg_wire, talk_one by (done || lia). split.
  - intros ack Hok Hack Hp Hs Hlen Hl. eexists.
    destruct (talk_takes_stale malloc (with_seq (rth_seq r + 1) r) (rth_seq r + 1) ack l) as (l' & E); try done; [lia|lia|]. by rewrite E.
  - intros ty fl sq pid data d Hp Hpid Hmod Hlen Hl. destruct (delivers_recv malloc l d [] Hmalloc Hl) as (l' & E & _).
    cbn [talk_rounds]. rewrite E. cbn [d_namelen d]. rewrite Z.eqb_refl. cbn [negb].
    pose proof (talk_reads_behind (with_seq (rth_seq r + 1) r) false (rth_seq r + 1) 1 (0 + 1) ty fl sq pid data 0 Hp Hpid Hmod Hlen) as En.
    fold d in En. rewrite En. done.
Qed.

(** A dump that was saved is replayed: the file [rtnl_dump_filter_nc] writes, read by
    [rtnl_from_file], gives the handler every message received, once and in order. *)
Theorem saved_dump_replayed {A B} (flt : rtnl_filter (A := A)) f (hd : listen_handler (A := B)) g malloc r nc ds ms m post arg l buf arg2 :
  filter_local flt f -> (forall pid m a, 0 <= fst (f pid m a)) -> (forall n, malloc n = true) -> rth_dump_fp r = Some [] ->
  forallb datagram_ok (ds ++ [(0, ms ++ m :: post)]) = true ->
  delivers l (dgram_of <$> ds ++ [(0, ms ++ m :: post)]) -> dump_complete r ds ms m = true ->
  handler_local hd g -> (forall m a, 0 <= fst (g m a)) -> dlen buf = FILE_BUF ->
  forallb (fun m => g_len m <=? FILE_BUF) (concat (snd <$> ds) ++ ms ++ m :: post) = true ->
  exists r' l' file, rtnl_dump_filter_nc malloc r flt nc arg l = Some (Return 0, r', arg, l') /\ rth_dump_fp r' = Some file /\
    rtnl_from_file hd buf file arg2 = Some (0, fold_left (fun a m => snd (g m a)) (concat (snd <$> ds) ++ ms ++ m :: post) arg2).
Proof.
  intros Hf Hpos Hmalloc Hfp Hds Hl Hc Hhd Hg Hbuf Hsz.
  destruct (dump_rounds_ref flt f Hf malloc Hmalloc nc _ (S (length l)) r false arg l Hds Hl ltac:(lia)) as (l' & E).
  rewrite (dump_all_complete f Hpos) in E by done. unfold visit_unsaved in E. rewrite Hfp in E. cbn [fmap option_fmap option_map app] in E.
  eexists _, _, _. split; [unfold rtnl_dump_filter_nc, rtnl_dump_filter_l; exact E|]. split; [done|].
  assert (Henc : forall a b, enc_msgs (a ++ b) = enc_msgs a ++ enc_msgs b) by (intros; unfold enc_msgs; by rewrite fmap_app, concat_app).
  assert (Hcat : concat (enc_msgs ∘ snd <$> ds) = enc_msgs (concat (snd <$> ds))).
  { clear. induction ds as [|[p x] ds IH]; [done|]. cbn. unfold enc_msgs in *. rewrite fmap_app, concat_app. by rewrite <- IH. }
  rewrite Hcat, <- Henc. unfold rtnl_from_file. apply file_msgs_visits; try done; [|unfold dlen; lia].
  assert (Hall : forall ds : list datagram, forallb datagram_ok ds = true -> forallb nlmsg_ok (concat (snd <$> ds)) = true).
  { clear. induction ds as [|[p x] ds IH]; intros H; [done|]. cbn [forallb] in H. apply andb_prop in H as [H1 H2].
    unfold datagram_ok, msgs_ok in H1. do 2 apply andb_prop in H1 as [H1 _]. cbn [fmap list_fmap concat snd] in *. rewrite forallb_app, H1. by apply IH. }
  specialize (Hall _ Hds). rewrite fmap_app, concat_app in Hall. cbn [fmap list_fmap concat snd] in Hall. by rewrite app_nil_r in Hall.
Qed.

(** [msg_controllen] is set once and the kernel lowers it: after a message without control
    data, every later one is handled as if it came from no known name space. *)
Theorem listen_loses_nsid {A} r (hd : listen_handler (A := A)) x l arg arg1 :
  Z.land (rth_flags r) RTNL_HANDLE_F_LISTEN_ALL_NSID <> 0 -> Forall control_law l ->
  (exists status d control, x = LOk status d control /\ snd (control BUFSIZ) = 0) ->
  rtnl_listen r hd arg [x] = Some (Blocked, arg1) ->
  rtnl_listen r hd arg (x :: l) = listen_rounds r (fun pid _ => hd pid (Some (-1))) 0 arg1 l.
Proof.
  intros Hfl Hl (status & d & control & -> & Hc) H. rewrite <- listen_rounds_nsid by (done || lia). revert H. unfold rtnl_listen.
  rewrite (proj2 (Z.eqb_neq _ _) Hfl). cbn [negb listen_rounds]. destruct (control BUFSIZ) as [cms room1]. cbn [snd] in Hc. subst room1.
  rewrite (proj2 (Z.eqb_neq _ _) Hfl). cbn [negb]. case_test; [done|]. case_test; [done|].
  destruct (listen_msgs _ _ _ _ _ _ _) as [[[]]|]; cbn [mbind option_bind]; try done.
  case_test; [by intros [= <-]|]. case_test; [done|]. by intros [= <-].
Qed.

(** ** Witnesses *)

(** A callback and a handler that note the types of the messages. *)
Definition note_type (pid : Z) (buf : list Z) (h : Z) (seen : list Z) : Z * list Z :=
  (0, match h_type buf h with Some t => seen ++ [t] | None => seen end).
Definition note_msg (m : nlmsg) (seen : list Z) : Z * list Z := (0, seen ++ [g_type m]).

Lemma note_type_local : filter_local note_type (fun _ => note_msg).
Proof. intros pid p m q seen Hm. unfold note_type. by destruct (enc_msg_fields m Hm p q) as (_ & -> & _). Qed.

Lemma note_handler_local : handler_local (fun pid _ => note_type pid) note_msg.
Proof. intros q m seen Hm. apply (note_type_local 0 [] m q seen Hm). Qed.

Definition sample_rth (file : option (list Z)) : rtnl_handle := mk_rth 3 1000 5 5 0 file 0 0.
Definition sample_data (ty seq : Z) : nlmsg := mk_nlmsg ty 2 seq 1000 [1; 2; 3] [0].
Definition sample_done : nlmsg := mk_nlmsg NLMSG_DONE 2 5 1000 [0; 0; 0; 0] [].
Definition sample_ack (seq code : Z) : nlmsg := mk_nlmsg NLMSG_ERROR 0 seq 1000 (le_bytes 4 code ++ replicate 16 0) [].

(** One dump in two datagrams, with a message of an earlier one; the second call is
    interrupted. *)
Definition sample_dump : list datagram := [(0, [sample_data 16 5; sample_data 17 4])].
Definition answer (d : datagram) : list recv :=
  [ROk (dlen (enc_msgs d.2)) (mk_dgram [] 0 12 0); RFail EINTR; ROk (dlen (enc_msgs d.2)) (dgram_of d)].
Definition sample_answers : list recv := answer (0, [sample_data 16 5; sample_data 17 4]) ++ answer (0, [sample_data 18 5; sample_done]).

Lemma answer_delivers d l ds : datagram_ok d = true -> delivers l ds -> delivers (answer d ++ l) (dgram_of d :: ds).
Proof.
  intros Hd Hl. apply (delivers_cons [] [RFail EINTR] (mk_dgram [] 0 12 0) (dgram_of d) l ds); [done..| |done].
  by apply datagram_nonempty.
Qed.

Lemma sample_delivers : delivers sample_answers (dgram_of <$> sample_dump ++ [(0, [sample_data 18 5; sample_done])]).
Proof.
  unfold sample_answers. apply answer_delivers; [by vm_compute|]. rewrite <- (app_nil_r (answer _)).
  apply answer_delivers; [by vm_compute|]. by apply delivers_nil.
Qed.

Lemma rtnl_dump_visits_witness :
  exists l', rtnl_dump_filter_nc (fun _ => true) (sample_rth None) note_type 0 [] sample_answers =
    Some (Return 0, sample_rth None, [16; 18], l').
Proof.
  apply (rtnl_dump_visits note_type (fun _ => note_msg) (fun _ => true) (sample_rth None) 0 sample_dump [sample_data 18 5] sample_done [] [] [] sample_answers).
  - exact note_type_local.
  - intros. cbn. lia.
  - reflexivity.
  - reflexivity.
  - vm_compute. reflexivity.
  - exact sample_delivers.
  - vm_compute. reflexivity.
Defined.

Lemma rtnl_talk_exact_witness :
  rtnl_talk (fun _ => true) (sample_rth None) (wire_msg (sample_data 16 0) ++ replicate 100 0) false 19
    (answer (0, [sample_data 16 4; sample_ack 6 (-22)])) =
  Some (Return (-1), with_errno 22 (with_seq 6 (sample_rth None)), None, [[19; 0; 0; 0; 16; 0; 6; 0; 6; 0; 0; 0; 232; 3; 0; 0; 1; 2; 3]]).
Proof.
  assert (H : delivers (answer (0, [sample_data 16 4; sample_ack 6 (-22)])) (dgram_of <$> [(0, [sample_data 16 4; sample_ack 6 (-22)])])).
  { rewrite <- (app_nil_r (answer _)). apply answer_delivers; [by vm_compute|]. by apply delivers_nil. }
  exact (rtnl_talk_exact (fun _ => true) (sample_rth None) (sample_data 16 0) (replicate 100 0) false 19 [(0, [sample_data 16 4; sample_ack 6 (-22)])]
    (answer (0, [sample_data 16 4; sample_ack 6 (-22)])) (fun _ => eq_refl) eq_refl ltac:(cbn; lia) ltac:(lia) eq_refl H).
Defined.

Lemma rtnl_talk_faults_witness :
  (exists ms, rtnl_talk (fun _ => true) (sample_rth None) (enc_msg (sample_data 16 0)) false 20 (answer (0, [sample_ack 5 0])) =
    Some (Return 0, with_seq 6 (sample_rth None), None, ms)) /\
  rtnl_talk (fun _ => true) (sample_rth None) (enc_msg (sample_data 16 0)) false 20
    [ROk 19 (mk_dgram [] 0 12 0); ROk 19 (mk_dgram (nl_header 19 16 0 0 77 ++ [1; 2; 3]) 0 12 0)] = None.
Proof.
  split.
  - eapply (proj1 (rtnl_talk_faults (fun _ => true) (sample_rth None) (sample_data 16 0) 20 (answer (0, [sample_ack 5 0]))
      (fun _ => eq_refl) eq_refl ltac:(cbn; lia) ltac:(lia)) (sample_ack 5 0)); try reflexivity.
    rewrite <- (app_nil_r (answer _)). apply answer_delivers; [by vm_compute|]. by apply delivers_nil.
  - eapply (proj2 (rtnl_talk_faults (fun _ => true) (sample_rth None) (sample_data 16 0) 20 _
      (fun _ => eq_refl) eq_refl ltac:(cbn; lia) ltac:(lia)) 16 0 0 77 [1; 2; 3]); [lia|cbn; lia|vm_compute; discriminate|vm_compute; reflexivity|].
    apply (delivers_cons [] [] (mk_dgram [] 0 12 0) (mk_dgram (nl_header 19 16 0 0 77 ++ [1; 2; 3]) 0 12 0) [] []); [done..|].
    by apply delivers_nil.
Defined.

Lemma saved_dump_replayed_witness :
  exists r' l' file,
    rtnl_dump_filter_nc (fun _ => true) (sample_rth (Some [])) note_type 0 [] sample_answers = Some (Return 0, r', [], l') /\
    rth_dump_fp r' = Some file /\
    rtnl_from_file (fun pid _ => note_type pid) (replicate 16384 0) file [] = Some (0, [16; 17; 18; NLMSG_DONE]).
Proof.
  apply (saved_dump_replayed note_type (fun _ => note_msg) (fun pid _ => note_type pid) note_msg (fun _ => true) (sample_rth (Some [])) 0
    sample_dump [sample_data 18 5] sample_done [] [] sample_answers (replicate 16384 0) []).
  - exact note_type_local.
  - intros. cbn. lia.
  - reflexivity.
  - reflexivity.
  - vm_compute. reflexivity.
  - exact sample_delivers.
  - vm_compute. reflexivity.
  - exact note_handler_local.
  - intros. cbn. lia.
  - vm_compute. reflexivity.
  - vm_compute. reflexivity.
Defined.
