(* ===== verification/IplinkPval.v ===== *)
(** * Configuration from the command line

    Models [iproute2-4.18.0/ip/iplink_pval.c]: [check_duparg],
    [pval_parse_opt] and [pval_print_opt], with [matches] of
    [iproute2-4.18.0/lib/utils.c]. [if_nametoindex], [if_indextoname] and
    [ll_index_to_name] are arguments; the functions that end the process give an
    outcome of their own. *)
From stdpp Require Import base list numbers strings.
From Stdlib Require Import ZArith Lia.
From S2P Require Import Prelude Abi Ring State Cstring Chardev Device Netlink.

Open Scope Z_scope.

(** ** [matches] *)

(** [memcmp] of the first bytes of two strings, as many as [b] has: the sign of
    the first difference. [a] is at least as long. *)
Fixpoint memcmp (a b : string) : Z :=
  match b, a with
  | EmptyString, _ => 0
  | String y b', String x a' => if code x =? code y then memcmp a' b' else if code x <? code y then -1 else 1
  | String _ _, EmptyString => -1
  end.

(** Zero when [cmd] abbreviates [pattern]. *)
Definition matches (cmd pattern : string) : Z :=
  if slen cmd >? slen pattern then -1 else memcmp pattern cmd.

(** ** Parsing *)

(** Why the process ended. *)
Inductive exit_reason := IncompleteCommand | DupArg (key arg : string) | InvArg (msg arg : string).

Inductive outcome := Ret (rc : Z) (n : nlmsghdr) | Exit (why : exit_reason).

Definition PVAL_ATTRSET (attrs ty : Z) : bool := negb (Z.land attrs (Z.shiftl 1 ty) =? 0).

(** [None] when it ends the process. *)
Definition check_duparg (attrs ty : Z) : option Z :=
  if negb (PVAL_ATTRSET attrs ty) then Some (u64 (Z.lor attrs (Z.shiftl 1 ty))) else None.

(** The options that take [on] or [off]: [None] is [invarg]. *)
Definition on_off (arg : string) : option Z :=
  if matches arg "on" =? 0 then Some 1 else if matches arg "off" =? 0 then Some 0 else None.

(** The options in the order the command line is compared with them. *)
Definition switch_opts : list (string * Z) :=
  [("ipopt", IFLA_PVAL_IPOPT); ("txtstamp", IFLA_PVAL_TXTSTAMP); ("rxtstamp", IFLA_PVAL_RXTSTAMP);
   ("txcopy", IFLA_PVAL_TXCOPY); ("rxcopy", IFLA_PVAL_RXCOPY); ("txbusydrop", IFLA_PVAL_TXBUSYDROP)]%string.

Definition find_opt (arg : string) : option (string * Z) :=
  snd <$> list_find (fun x => matches arg x.1 = 0) switch_opts.

(** The loop; [attrs] has a bit for every option seen. [None] is a store outside
    the message. *)
Fixpoint parse_opt_loop (if_nametoindex : string -> Z) (argv : list string) (attrs : Z) (n : nlmsghdr)
  : option outcome :=
  match argv with
  | [] => Some (Ret 0 n)
  | arg :: rest =>
      if matches arg "link" =? 0 then
        match rest with
        | [] => Some (Exit IncompleteCommand)
        | v :: rest' =>
            match check_duparg attrs IFLA_PVAL_LINK with
            | None => Some (Exit (DupArg "link" v))
            | Some attrs' =>
                let link := u32 (if_nametoindex v) in
                if link =? 0 then Some (Exit (InvArg "invalid device" v))
                else
                  '(_, n') ← addattr32 n 1024 IFLA_PVAL_LINK link;
                  parse_opt_loop if_nametoindex rest' attrs' n'
            end
        end
      else
        match find_opt arg with
        | Some (key, ty) =>
            match rest with
            | [] => Some (Exit IncompleteCommand)
            | v :: rest' =>
                match check_duparg attrs ty with
                | None => Some (Exit (DupArg key v))
                | Some attrs' =>
                    match on_off v with
                    | Some b =>
                        '(_, n') ← addattr8 n 1024 ty b;
                        parse_opt_loop if_nametoindex rest' attrs' n'
                    | None => Some (Exit (InvArg "invalid parameter" v))
                    end
                end
            end
        | None => Some (Ret (-1) n)    (* [help], or an unknown word *)
        end
  end.

Definition pval_parse_opt (if_nametoindex : string -> Z) (argv : list string) (n : nlmsghdr) : option outcome :=
  parse_opt_loop if_nametoindex argv 0 n.

(** ** Printing *)

(** One [print_string] call: the key and the value of "key value ". *)
Definition print_switch (buf : list Z) (tb : list (option Z)) (x : string * Z) : option (list (string * string)) :=
  p ← tb !! Z.to_nat x.2;
  match p with
  | None => Some []
  | Some rta =>
      v ← rta_getattr_u8 buf rta;
      Some [(x.1, if v =? 0 then "off"%string else "on"%string)]
  end.

Fixpoint print_switches (buf : list Z) (tb : list (option Z)) (l : list (string * Z)) : option (list (string * string)) :=
  match l with
  | [] => Some []
  | x :: l' => a ← print_switch buf tb x; b ← print_switches buf tb l'; Some (a ++ b)
  end.

(** [tb] is [None] for a null array. *)
Definition pval_print_opt (if_indextoname : Z -> option string) (ll_index_to_name : Z -> string)
  (buf : list Z) (tb : option (list (option Z))) : option (list (string * string)) :=
  match tb with
  | None => Some []
  | Some tb =>
      p ← tb !! Z.to_nat IFLA_PVAL_LINK;
      first ← match p with
              | None => Some []
              | Some rta =>
                  link ← rta_getattr_u32 buf rta;
                  Some (match if_indextoname link with
                        | Some _ => [("link"%string, ll_index_to_name link)]
                        | None => []
                        end)
              end;
      rest ← print_switches buf tb switch_opts;
      Some (first ++ rest)
  end.

(** The text the calls print. *)
Definition render (out : list (string * string)) : string :=
  foldr (fun x s => x.1 +:+ " " +:+ x.2 +:+ " " +:+ s)%string ""%string out.

(** The words of that text. *)
Definition out_words (out : list (string * string)) : list string :=
  concat ((fun x => [x.1; x.2]) <$> out).

(** ** Lemmas *)

(** [matches] accepts exactly the abbreviations. *)
Lemma matches_prefix cmd pattern :
  matches cmd pattern = 0 <-> exists t, pattern = (cmd +:+ t)%string.
Proof.
  unfold matches. assert (Hm : forall cmd pattern, (String.length cmd <= String.length pattern)%nat ->
    (memcmp pattern cmd = 0 <-> exists t, pattern = (cmd +:+ t)%string)).
  { clear. induction cmd as [|y cmd IH]; intros pattern Hl; cbn [memcmp].
    - split; [|by destruct pattern]. intros _. exists pattern. by rewrite sapp_nil.
    - destruct pattern as [|x pattern]; [cbn in Hl; lia|]. cbn [String.length] in Hl. cbn [memcmp].
      destruct (Z.eqb_spec (code x) (code y)) as [E|E].
      + apply code_inj in E as ->. rewrite IH by lia. split; intros [t Ht]; exists t.
        * by rewrite sapp_cons, Ht.
        * rewrite sapp_cons in Ht. by injection Ht.
      + split; [by destruct (code x <? code y)|]. intros [t Ht]. rewrite sapp_cons in Ht. congruence. }
  unfold slen. destruct (Z.gtb_spec (Z.of_nat (String.length cmd)) (Z.of_nat (String.length pattern))).
  - split; [done|]. intros [t ->]. pose proof (slen_app cmd t). unfold slen in *. lia.
  - apply Hm. lia.
Qed.

(** What each bit of [attrs] records. *)
Definition seen (attrs : Z) (l : list Z) : Prop :=
  forall ty, 0 <= ty < 64 -> PVAL_ATTRSET attrs ty = true <-> ty ∈ l.

Lemma attrset_testbit attrs ty : 0 <= ty -> PVAL_ATTRSET attrs ty = Z.testbit attrs ty.
Proof.
  intros Hty. unfold PVAL_ATTRSET. rewrite Z.shiftl_1_l. destruct (Z.testbit attrs ty) eqn:E.
  - apply negb_true_iff, Z.eqb_neq. intros H0. apply (f_equal (fun z => Z.testbit z ty)) in H0.
    rewrite Z.land_spec, E, Z.pow2_bits_true, Z.bits_0 in H0 by done. done.
  - apply negb_false_iff, Z.eqb_eq. apply Z.bits_inj'. intros i Hi. rewrite Z.land_spec, Z.bits_0.
    destruct (decide (i = ty)) as [->|]; [by rewrite E|]. rewrite Z.pow2_bits_false by done. apply andb_false_r.
Qed.

Lemma seen_nil : seen 0 [].
Proof. intros ty Hty. rewrite attrset_testbit, Z.bits_0 by lia. by rewrite elem_of_nil. Qed.

Lemma check_duparg_fresh attrs l ty :
  seen attrs l -> 0 <= ty < 64 -> ~ ty ∈ l ->
  exists attrs', check_duparg attrs ty = Some attrs' /\ seen attrs' (ty :: l).
Proof.
  intros Hs Hty Hn. unfold check_duparg. destruct (PVAL_ATTRSET attrs ty) eqn:E.
  - by apply Hs in E.
  - cbn [negb]. eexists. split; [reflexivity|]. intros t Ht. rewrite attrset_testbit by lia.
    unfold u64. rewrite <- Z.land_ones, Z.land_spec, Z.lor_spec, Z.shiftl_1_l by lia.
    rewrite (Z.ones_spec_low 64 t), andb_true_r, orb_true_iff by lia.
    rewrite <- attrset_testbit, elem_of_cons, (Hs t) by lia. split; intros [H1|H1]; auto.
    + left. destruct (decide (t = ty)) as [->|Hne]; [done|]. by rewrite Z.pow2_bits_false in H1.
    + right. subst. apply Z.pow2_bits_true. lia.
Qed.

Lemma check_duparg_dup attrs l ty :
  seen attrs l -> 0 <= ty < 64 -> check_duparg attrs ty = None <-> ty ∈ l.
Proof.
  intros Hs Hty. unfold check_duparg. rewrite <- (Hs ty Hty). destruct (PVAL_ATTRSET attrs ty); cbn [negb]; naive_solver.
Qed.

(** ** Command lines *)

(** One option with its argument, spelled out. *)
Inductive item := ItLink (name : string) | ItSwitch (opt : string * Z) (b : bool).

Definition item_type (it : item) : Z := match it with ItLink _ => IFLA_PVAL_LINK | ItSwitch o _ => o.2 end.

Definition item_words (it : item) : list string :=
  match it with
  | ItLink name => ["link"%string; name]
  | ItSwitch o b => [o.1; if b then "on"%string else "off"%string]
  end.

Definition command_line (items : list item) : list string := concat (item_words <$> items).

(** The attribute an option asks for. *)
Definition item_attr (if_nametoindex : string -> Z) (it : item) : Z * list Z :=
  match it with
  | ItLink name => (IFLA_PVAL_LINK, le_bytes 4 (u32 (if_nametoindex name)))
  | ItSwitch o b => (o.2, le_bytes 1 (if b then 1 else 0))
  end.

Definition item_ok (if_nametoindex : string -> Z) (it : item) : Prop :=
  match it with
  | ItLink name => u32 (if_nametoindex name) <> 0
  | ItSwitch o _ => o ∈ switch_opts
  end.

Lemma switch_opts_cases (P : string * Z -> Prop) :
  P ("ipopt"%string, 2) -> P ("txtstamp"%string, 3) -> P ("rxtstamp"%string, 4) -> P ("txcopy"%string, 5) ->
  P ("rxcopy"%string, 6) -> P ("txbusydrop"%string, 7) -> forall o, o ∈ switch_opts -> P o.
Proof. intros H1 H2 H3 H4 H5 H6 o Ho. unfold switch_opts in Ho. rewrite !elem_of_cons, elem_of_nil in Ho. by destruct_or!; subst. Qed.

Lemma find_opt_full o :
  o ∈ switch_opts -> find_opt o.1 = Some o /\ (matches o.1 "link" =? 0) = false /\ 2 <= o.2 <= 7.
Proof. revert o. apply switch_opts_cases; split_and!; done. Qed.

Lemma on_off_full (b : bool) :
  on_off (if b then "on" else "off")%string = Some (if b then 1 else 0).
Proof. by destruct b. Qed.

Lemma item_type_range idx it : item_ok idx it -> 1 <= item_type it <= 7.
Proof. destruct it as [name|o b]; cbn; [done|]. intros Ho. destruct (find_opt_full o Ho) as (_ & _ & ?). lia. Qed.

Lemma item_attr_fits idx it : item_ok idx it -> attr_fits (item_attr idx it) = true.
Proof.
  intros Hok. pose proof (item_type_range idx it Hok). apply attr_fits_spec.
  destruct it as [name|o b]; cbn [item_attr fst snd item_type] in *; unfold dlen; rewrite length_le_bytes; lia.
Qed.

Lemma item_attr_type idx it : (item_attr idx it).1 = item_type it.
Proof. by destruct it. Qed.

(** A well-formed command line adds the attributes it names, in order. *)
Lemma parse_items idx items n p q attrs l :
  Forall (item_ok idx) items -> NoDup (item_type <$> items) ->
  seen attrs l -> (forall ty, ty ∈ item_type <$> items -> ~ ty ∈ l) ->
  msg_at n p q -> nlmsg_len n + attrs_space (item_attr idx <$> items) <= 1024 ->
  1024 <= Z.of_nat (length (n_buf n)) ->
  exists n', parse_opt_loop idx (command_line items) attrs n = Some (Ret 0 n') /\
    add_all n 1024 (item_attr idx <$> items) = Some n'.
Proof.
  intros Hok. revert n p q attrs l. induction Hok as [|it items Hit Hok IH]; intros n p q attrs l Hnd Hs Hdis Hat Hroom Hbuf.
  { by exists n. }
  cbn [fmap list_fmap] in *. apply NoDup_cons in Hnd as [Hnew Hnd].
  pose proof (item_attr_fits idx it Hit) as Hfit. pose proof (item_type_range idx it Hit) as Hrange.
  assert (Hf : forallb attr_fits (item_attr idx <$> items) = true).
  { clear -Hok. induction Hok as [|x xs Hx _ IH]; [done|]. cbn. by rewrite item_attr_fits, IH. }
  pose proof (attrs_space_nonneg _ Hf). pose proof (attr_space_spec _ Hfit) as [Hsp _].
  cbn [attrs_space foldr] in Hroom. fold (attrs_space (item_attr idx <$> items)) in Hroom. unfold dlen in Hsp.
  destruct (item_attr idx it) as [ty data] eqn:Ea. assert (Hty : ty = item_type it) by (by rewrite <- (item_attr_type idx), Ea).
  destruct (addattr_l_adds n p q 1024 ty data) as (n1 & a & q1 & E1 & Ha & Hpa & Hat1 & Hl1); try done; [lia|].
  assert (Hn1 : nlmsg_len n1 = nlmsg_len n + attr_space (ty, data)).
  { destruct Hat as (_ & Hl & _), Hat1 as (_ & Hl' & _). rewrite Hl', length_app, Nat2Z.inj_add, length_enc, Hpa by done. lia. }
  destruct (check_duparg_fresh attrs l (item_type it) Hs) as (attrs' & Hck & Hs'); [lia|apply Hdis; left|].
  destruct (IH n1 (p ++ enc a) q1 attrs' (item_type it :: l)) as (n' & Hparse & Hadd); try done; [|lia|lia|].
  { intros t Ht. rewrite elem_of_cons. intros [->|Hin]; [done|]. revert Hin. apply Hdis. by right. }
  exists n'. split; [|cbn [add_all]; rewrite E1; done].
  destruct it as [name|o b]; cbn [item_type item_ok item_attr] in *; simplify_eq.
  - change (command_line (ItLink name :: items)) with ("link"%string :: name :: command_line items).
    cbn [parse_opt_loop]. change (matches "link" "link" =? 0) with true. rewrite Hck. cbv zeta.
    rewrite (proj2 (Z.eqb_neq _ 0)) by done. unfold addattr32. rewrite E1. done.
  - destruct (find_opt_full o Hit) as (Hfind & Hnl & _).
    change (command_line (ItSwitch o b :: items)) with (o.1 :: (if b then "on" else "off")%string :: command_line items).
    cbn [parse_opt_loop]. rewrite Hnl, Hfind. destruct o as [key ty]. cbn [snd] in *. rewrite Hck, on_off_full.
    unfold addattr8. rewrite E1. done.
Qed.

(** ** Everything [pval_parse_opt] can add *)

(** Attributes added one after the other, whether or not there was room. *)
Inductive added : nlmsghdr -> list (Z * list Z) -> nlmsghdr -> Prop :=
  | added_nil n : added n [] n
  | added_cons n ty data rc n1 l n' :
      addattr_l n 1024 ty data = Some (rc, n1) -> added n1 l n' -> added n ((ty, data) :: l) n'.

Lemma find_opt_known arg o : find_opt arg = Some o -> o ∈ switch_opts.
Proof.
  unfold find_opt. destruct (list_find _ switch_opts) as [[i x]|] eqn:E; [|done]. cbn. intros [= <-].
  apply list_find_Some in E as (Hl & _). by eapply list_elem_of_lookup_2.
Qed.

(** Consing one attribute of a new type. *)
Lemma added_new n ty data rc n1 n' (seen_types : list Z) :
  addattr_l n 1024 ty data = Some (rc, n1) -> is_Some (pval_policy ty) -> ~ ty ∈ seen_types ->
  (exists l, NoDup (fst <$> l) /\ (forall t, t ∈ fst <$> l -> ~ t ∈ ty :: seen_types) /\
     Forall (fun x => is_Some (pval_policy x.1)) l /\ added n1 l n') ->
  exists l, NoDup (fst <$> l) /\ (forall t, t ∈ fst <$> l -> ~ t ∈ seen_types) /\
    Forall (fun x => is_Some (pval_policy x.1)) l /\ added n l n'.
Proof.
  intros E Hpol Hn (l & Hnd & Hdis & Hf & Had). exists ((ty, data) :: l). cbn [fmap list_fmap fst]. split_and!.
  - apply NoDup_cons. split; [|done]. intros Hin%Hdis. apply Hin. left.
  - intros t. rewrite elem_of_cons. intros [->|Hin%Hdis]; [done|]. intros Ht. apply Hin. by right.
  - by constructor.
  - by econstructor.
Qed.

Lemma parse_opt_adds idx argv attrs l0 n n' :
  seen attrs l0 -> parse_opt_loop idx argv attrs n = Some (Ret 0 n') ->
  exists l, NoDup (fst <$> l) /\ (forall ty, ty ∈ fst <$> l -> ~ ty ∈ l0) /\
    Forall (fun x => is_Some (pval_policy x.1)) l /\ added n l n'.
Proof.
  remember (length argv) as k eqn:Hk. revert argv Hk attrs l0 n.
  induction (lt_wf k) as [k _ IH]; intros argv Hk attrs l0 n Hs E. destruct argv as [|arg rest]; cbn [parse_opt_loop] in E.
  { simplify_eq. exists []. split_and!; [constructor|intros ? []%elem_of_nil|constructor|constructor]. }
  destruct (matches arg "link" =? 0).
  - destruct rest as [|v rest]; [done|]. destruct (check_duparg attrs IFLA_PVAL_LINK) as [attrs'|] eqn:Ec; [|done].
    cbv zeta in E. destruct (u32 (idx v) =? 0); [done|]. apply bind_Some in E as ([rc n1] & Ea & E).
    assert (Hn : ~ IFLA_PVAL_LINK ∈ l0) by (rewrite <- (check_duparg_dup attrs) by done; congruence).
    destruct (check_duparg_fresh attrs l0 IFLA_PVAL_LINK Hs) as (a' & Ec' & Hs'); [done|done|]. simplify_eq.
    eapply added_new; [exact Ea|done|done|]. eapply IH; [|reflexivity|exact Hs'|exact E]. cbn. lia.
  - destruct (find_opt arg) as [[key ty]|] eqn:Ef; [|done]. destruct rest as [|v rest]; [done|].
    destruct (find_opt_full _ (find_opt_known _ _ Ef)) as (_ & _ & Hr). cbn [snd] in Hr.
    destruct (check_duparg attrs ty) as [attrs'|] eqn:Ec; [|done]. destruct (on_off v) as [b|]; [|done].
    apply bind_Some in E as ([rc n1] & Ea & E).
    assert (Hn : ~ ty ∈ l0) by (rewrite <- (check_duparg_dup attrs) by (done || lia); congruence).
    destruct (check_duparg_fresh attrs l0 ty Hs) as (a' & Ec' & Hs'); [lia|done|]. simplify_eq.
    eapply added_new; [exact Ea| |done|eapply IH; [|reflexivity|exact Hs'|exact E]; cbn; lia].
    unfold pval_policy, IFLA_PVAL_LINK, IFLA_PVAL_IPOPT, IFLA_PVAL_TXBUSYDROP.
    rewrite (proj2 (Z.eqb_neq ty 1)), !(proj2 (Z.leb_le _ _)) by lia. by eexists.
Qed.

(** ** What the kernel makes of the attributes *)

Lemma filter_absent (l : list (Z * list Z)) ty :
  ~ ty ∈ (fst <$> l) -> filter (fun x => x.1 = ty) l = [].
Proof.
  induction l as [|x l IH]; [done|]. cbn [fmap list_fmap]. rewrite elem_of_cons. intros Hn.
  rewrite filter_cons, decide_False by (intros E; apply Hn; by left). apply IH. tauto.
Qed.

Lemma parse_attrs_find l ty :
  NoDup (fst <$> l) -> attr (parse_attrs l) ty = (fun x => x.2.2) <$> list_find (fun x => x.1 = ty) l.
Proof.
  cbn [attr parse_attrs]. induction l as [|[t d] l IH]; [done|]. cbn [fmap list_fmap fst]. intros [Hn Hnd]%NoDup_cons.
  specialize (IH Hnd). rewrite filter_cons. cbn [list_find fst]. destruct (decide (t = ty)) as [->|Hne].
  - by rewrite filter_absent.
  - rewrite IH. by destruct (list_find _ l) as [[]|].
Qed.

(** What a command line says about one switch. *)
Definition wanted (items : list item) (ty : Z) (old : bool) : bool :=
  match list_find (fun it => item_type it = ty) items with
  | Some (_, ItSwitch _ b) => b
  | _ => old
  end.

Lemma find_item idx items ty :
  list_find (fun x => x.1 = ty) (item_attr idx <$> items) =
  (fun x => (x.1, item_attr idx x.2)) <$> list_find (fun it => item_type it = ty) items.
Proof.
  induction items as [|it items IH]; [done|]. cbn [fmap list_fmap list_find]. rewrite item_attr_type.
  destruct (decide (item_type it = ty)); [done|]. rewrite IH. by destruct (list_find _ items) as [[]|].
Qed.

Lemma requested_items idx items ty old :
  Forall (item_ok idx) items -> NoDup (item_type <$> items) -> ty <> IFLA_PVAL_LINK ->
  requested (parse_attrs (item_attr idx <$> items)) ty old = wanted items ty old.
Proof.
  intros Hok Hnd Hty. unfold requested, wanted. rewrite parse_attrs_find.
  2:{ rewrite <- list_fmap_compose. erewrite list_fmap_ext; [exact Hnd|]. intros _ it _. apply item_attr_type. }
  rewrite find_item. destruct (list_find _ items) as [[i it]|] eqn:E; [|done]. cbn.
  apply list_find_Some in E as (_ & Hit & _). destruct it as [name|o b]; [done|]. by destruct b.
Qed.

(** ** Printing what the kernel reports *)

Definition on_word (b : bool) : string := if b then "on"%string else "off"%string.

Lemma info_attr_find {skb : Type} (pdev : pval_dev skb) link i (b : bool) (o : string * Z) :
  switch_opts !! i = Some o -> switches pdev !! i = Some b ->
  list_find (fun x => x.1 = o.2) (info_attrs pdev link) = Some (S i, (o.2, [if b then 1 else 0])).
Proof.
  intros Ho Hb. do 6 (destruct i as [|i]; [cbn in Ho, Hb; simplify_eq; reflexivity|]). done.
Qed.

Lemma print_switch_on buf tb o (b : bool) :
  (exists x, tb !! Z.to_nat o.2 = Some (Some x) /\ mem_read buf (x + 4) 1 = Some [if b then 1 else 0]) ->
  print_switch buf tb o = Some [(o.1, on_word b)].
Proof.
  intros (x & Hx & Hr). unfold print_switch, rta_getattr_u8. rewrite Hx. cbn [mbind option_bind].
  change (RTA_LENGTH 0) with 4. rewrite Hr. cbn. by destruct b.
Qed.

Lemma print_switches_info {skb : Type} (pdev : pval_dev skb) link buf tb :
  (forall ty, 0 <= ty <= IFLA_PVAL_MAX -> points_to buf tb (info_attrs pdev link) ty) ->
  print_switches buf tb switch_opts =
  Some (zip_with (fun (o : string * Z) b => (o.1, on_word b)) switch_opts (switches pdev)).
Proof.
  intros Hp. assert (Hsw : forall i o b, switch_opts !! i = Some o -> switches pdev !! i = Some b ->
    print_switch buf tb o = Some [(o.1, on_word b)]).
  { intros i o b Ho Hb. apply print_switch_on.
    assert (Hr : 2 <= o.2 <= 7) by (apply find_opt_full; by eapply list_elem_of_lookup_2).
    specialize (Hp o.2 ltac:(unfold IFLA_PVAL_MAX; lia)). unfold points_to in Hp.
    rewrite (info_attr_find pdev link i b o Ho Hb) in Hp. destruct Hp as (x & ? & _ & ?). by exists x. }
  unfold switch_opts in *. cbn [print_switches].
  rewrite (Hsw 0%nat ("ipopt"%string, IFLA_PVAL_IPOPT) (pd_ipopt pdev) eq_refl eq_refl),
    (Hsw 1%nat ("txtstamp"%string, IFLA_PVAL_TXTSTAMP) (pd_txtstamp pdev) eq_refl eq_refl),
    (Hsw 2%nat ("rxtstamp"%string, IFLA_PVAL_RXTSTAMP) (pd_rxtstamp pdev) eq_refl eq_refl),
    (Hsw 3%nat ("txcopy"%string, IFLA_PVAL_TXCOPY) (pd_txcopy pdev) eq_refl eq_refl),
    (Hsw 4%nat ("rxcopy"%string, IFLA_PVAL_RXCOPY) (pd_rxcopy pdev) eq_refl eq_refl),
    (Hsw 5%nat ("txbusydrop"%string, IFLA_PVAL_TXBUSYDROP) (pd_txbusydrop pdev) eq_refl eq_refl).
  reflexivity.
Qed.

(** The options that describe a device. *)
Definition device_items {skb : Type} (pdev : pval_dev skb) (linkname : string) : list item :=
  ItLink linkname :: zip_with ItSwitch switch_opts (switches pdev).

(** ** Theorems *)

(** C8. From the command line to the kernel: a line that spells out each option at
    most once is accepted, adds to the request exactly the attributes it names,
    in order, and those attributes make the kernel set every switch mentioned as
    asked and leave every other switch of the device as it was. *)
Theorem command_line_configures {skb : Type} idx items n p q (pdev : pval_dev skb) :
  Forall (item_ok idx) items -> NoDup (item_type <$> items) ->
  msg_at n p q -> nlmsg_len n + attrs_space (item_attr idx <$> items) <= 1024 ->
  1024 <= Z.of_nat (length (n_buf n)) ->
  exists n', pval_parse_opt idx (command_line items) n = Some (Ret 0 n') /\
    add_all n 1024 (item_attr idx <$> items) = Some n' /\
    switches (pval_nl_config pdev (parse_attrs (item_attr idx <$> items))).2 =
      zip_with (wanted items) switch_attrs (switches pdev).
Proof.
  intros Hok Hnd Hat Hroom Hbuf.
  destruct (parse_items idx items n p q 0 [] Hok Hnd seen_nil) as (n' & Hp & Ha); try done.
  { intros ty _. apply not_elem_of_nil. }
  exists n'. split_and!; [done|done|]. rewrite nl_config_switches. unfold switch_attrs, switches. cbn [zip_with].
  by rewrite !(requested_items idx items) by done.
Qed.

(** A command line that is accepted never carries an attribute twice: the
    attributes it added are of pairwise different types, all of them known to
    the kernel's policy. *)
Theorem parse_opt_no_duplicates idx argv n n' :
  pval_parse_opt idx argv n = Some (Ret 0 n') ->
  exists l, NoDup (fst <$> l) /\ Forall (fun x => is_Some (pval_policy x.1)) l /\ added n l n'.
Proof.
  intros E. destruct (parse_opt_adds idx argv 0 [] n n') as (l & Hnd & Hdis & Hpol & Had); [apply seen_nil|done|].
  by exists l.
Qed.

(** C19. What [ip] prints, [ip] reads: for a message that carries the attributes a
    device reports, [pval_print_opt] prints the lower link and every switch, and the
    words it prints, given back to [pval_parse_opt], are accepted and add exactly
    the reported attributes. *)
Theorem print_parse_roundtrip {skb : Type} (pdev : pval_dev skb) link name toname index idx buf tb n p q :
  (forall ty, 0 <= ty <= IFLA_PVAL_MAX -> points_to buf tb (info_attrs pdev link) ty) ->
  0 < link < 2 ^ 32 -> is_Some (toname link) -> index link = name -> idx name = link ->
  msg_at n p q -> nlmsg_len n + 56 <= 1024 -> 1024 <= Z.of_nat (length (n_buf n)) ->
  exists out n', pval_print_opt toname index buf (Some tb) = Some out /\
    out_words out = command_line (device_items pdev name) /\
    pval_parse_opt idx (out_words out) n = Some (Ret 0 n') /\
    add_all n 1024 (info_attrs pdev link) = Some n'.
Proof.
  intros Hp Hlink [nm Hnm] Hidx Hname Hat Hroom Hbuf.
  assert (Hattrs : item_attr idx <$> device_items pdev name = info_attrs pdev link).
  { unfold device_items, info_attrs, switch_opts, switches, switch_attrs. cbn [fmap list_fmap zip_with item_attr snd].
    rewrite Hname, u32_small by lia.
    by destruct (pd_ipopt pdev), (pd_txtstamp pdev), (pd_rxtstamp pdev), (pd_txcopy pdev), (pd_rxcopy pdev), (pd_txbusydrop pdev). }
  assert (Hok : Forall (item_ok idx) (device_items pdev name)).
  { constructor; [cbn; rewrite Hname, u32_small by lia; lia|].
    unfold switch_opts, switches. cbn [zip_with]. repeat (constructor; [cbn; unfold switch_opts; rewrite !elem_of_cons; tauto|]). constructor. }
  assert (Hnd : NoDup (item_type <$> device_items pdev name)).
  { unfold device_items, switch_opts, switches. cbn. by apply (bool_decide_unpack _). }
  assert (Hspace : nlmsg_len n + attrs_space (item_attr idx <$> device_items pdev name) <= 1024) by (rewrite Hattrs; exact Hroom).
  destruct (parse_items idx (device_items pdev name) n p q 0 [] Hok Hnd seen_nil
    ltac:(intros ty _; apply not_elem_of_nil) Hat Hspace Hbuf) as (n' & Hparse & Hadd).
  exists (("link"%string, name) :: zip_with (fun (o : string * Z) b => (o.1, on_word b)) switch_opts (switches pdev)), n'.
  split_and!; [|reflexivity|exact Hparse|by rewrite Hattrs in Hadd].
  unfold pval_print_opt. specialize (Hp IFLA_PVAL_LINK) as Hpl. unfold points_to in Hpl.
  destruct Hpl as (o & Ho & _ & Hr); [done|]. rewrite Ho. cbn [mbind option_bind].
  unfold rta_getattr_u32. change (RTA_LENGTH 0) with 4. change (dlen (le_bytes 4 link)) with 4 in Hr. rewrite Hr.
  cbn [fmap option_fmap option_map mbind option_bind]. rewrite le_val_bytes, Z.mod_small by (cbn; lia).
  rewrite Hnm, (print_switches_info pdev link) by done. cbn [mbind option_bind]. by rewrite Hidx.
Qed.

(** ** The theorems on concrete inputs *)

Definition sample_index (s : string) : Z := if decide (s = "eth0"%string) then 2 else 0.
Definition sample_request : nlmsghdr := mk_nlmsghdr 32 (replicate 1056 0).
Definition sample_items : list item :=
  [ItSwitch ("txcopy"%string, IFLA_PVAL_TXCOPY) true; ItLink "eth0"; ItSwitch ("ipopt"%string, IFLA_PVAL_IPOPT) false].

Lemma sample_request_at : msg_at sample_request (replicate 32 0) (replicate 1024 0).
Proof. split_and!; reflexivity. Qed.

Lemma command_line_configures_witness :
  exists n', pval_parse_opt sample_index ["txcopy"; "on"; "link"; "eth0"; "ipopt"; "off"]%string sample_request =
    Some (Ret 0 n') /\ nlmsg_len n' = 56.
Proof.
  destruct (command_line_configures sample_index sample_items sample_request (replicate 32 0) (replicate 1024 0) blank_dev) as (n' & Hp & Ha & _).
  - repeat constructor; unfold item_ok, switch_opts; rewrite ?elem_of_cons; try tauto. done.
  - by apply (bool_decide_unpack _).
  - apply sample_request_at.
  - vm_compute. discriminate.
  - vm_compute. discriminate.
  - exists n'. split; [exact Hp|]. revert Ha. vm_compute. by intros [= <-].
Defined.

Definition sample_parsed : nlmsghdr :=
  match pval_parse_opt sample_index ["tx"; "on"; "txc"; "off"]%string sample_request with
  | Some (Ret _ n) => n
  | _ => sample_request
  end.

Lemma parse_opt_no_duplicates_witness :
  exists l, NoDup (fst <$> l) /\ added sample_request l sample_parsed.
Proof.
  destruct (parse_opt_no_duplicates sample_index ["tx"; "on"; "txc"; "off"]%string sample_request sample_parsed)
    as (l & Hnd & _ & Ha); [vm_compute; reflexivity|].
  exists l. exact (conj Hnd Ha).
Defined.

(** A message that reports the sample device, and the array that parses it. *)
Definition report : nlmsghdr :=
  match add_all sample_request 1024 (info_attrs sample_pdev 2) with Some n => n | None => sample_request end.
Definition report_tb : list (option Z) :=
  match parse_rtattr (n_buf report) IFLA_PVAL_MAX 32 56 with Some (_, tb) => tb | None => [] end.

Lemma report_points ty :
  0 <= ty <= IFLA_PVAL_MAX -> points_to (n_buf report) report_tb (info_attrs sample_pdev 2) ty.
Proof.
  intros Hty. assert (Hc : ty = 0 \/ ty = 1 \/ ty = 2 \/ ty = 3 \/ ty = 4 \/ ty = 5 \/ ty = 6 \/ ty = 7)
    by (unfold IFLA_PVAL_MAX in Hty; lia). unfold points_to.
  destruct_or!; subst; try done; vm_compute; eauto.
Qed.

Lemma print_parse_roundtrip_witness :
  exists out n', pval_print_opt (fun i => if i =? 2 then Some "eth0"%string else None) (fun _ => "eth0"%string)
      (n_buf report) (Some report_tb) = Some out /\
    pval_parse_opt sample_index (out_words out) sample_request = Some (Ret 0 n') /\
    render out = "link eth0 ipopt off txtstamp on rxtstamp off txcopy off rxcopy off txbusydrop on "%string.
Proof.
  destruct (print_parse_roundtrip sample_pdev 2 "eth0" (fun i => if i =? 2 then Some "eth0"%string else None)
    (fun _ => "eth0"%string) sample_index (n_buf report) report_tb sample_request (replicate 32 0)
    (replicate 1024 0) report_points)
    as (out & n' & Ho & _ & Hn & _).
  - lia.
  - by eexists.
  - reflexivity.
  - reflexivity.
  - apply sample_request_at.
  - vm_compute. discriminate.
  - vm_compute. discriminate.
  - exists out, n'. split; [exact Ho|]. split; [exact Hn|]. revert Ho. vm_compute. by intros [= <-].
Defined.
