(* ===== verification/JsonPrint.v ===== *)
(** * Output of iproute2, as text or as JSON

    Models [iproute2-4.18.0/lib/json_print.c] on the writer of [JsonWriter], and
    [lib/color.c]. The state is the writer, absent while text is printed, and what was
    written to standard output; a null string is [None]. A format with its value is the
    function [fmt] that gives the formatted text. A function that fails an assertion or
    reads a null pointer gives [None]. *)
From stdpp Require Import base list numbers strings.
From Stdlib Require Import ZArith Lia Ascii.
From S2P Require Import Prelude Cstring JsonWriter.

Open Scope Z_scope.

(** ** Colours *)

Inductive color_attr := COLOR_IFNAME | COLOR_MAC | COLOR_INET | COLOR_INET6 | COLOR_OPERSTATE_UP | COLOR_OPERSTATE_DOWN | COLOR_NONE.

Inductive color :=
| C_RED | C_GREEN | C_YELLOW | C_BLUE | C_MAGENTA | C_CYAN | C_WHITE
| C_BOLD_RED | C_BOLD_GREEN | C_BOLD_YELLOW | C_BOLD_BLUE | C_BOLD_MAGENTA | C_BOLD_CYAN | C_BOLD_WHITE | C_CLEAR.

Definition color_codes (c : color) : string :=
  String "027" (match c with
    | C_RED => "[31m" | C_GREEN => "[32m" | C_YELLOW => "[33m" | C_BLUE => "[34m" | C_MAGENTA => "[35m" | C_CYAN => "[36m" | C_WHITE => "[37m"
    | C_BOLD_RED => "[1;31m" | C_BOLD_GREEN => "[1;32m" | C_BOLD_YELLOW => "[1;33m" | C_BOLD_BLUE => "[1;34m"
    | C_BOLD_MAGENTA => "[1;35m" | C_BOLD_CYAN => "[1;36m" | C_BOLD_WHITE => "[1;37m" | C_CLEAR => "[0m"
    end).

Definition attr_colors_light (a : color_attr) : color :=
  match a with
  | COLOR_IFNAME => C_CYAN | COLOR_MAC => C_YELLOW | COLOR_INET => C_MAGENTA | COLOR_INET6 => C_BLUE
  | COLOR_OPERSTATE_UP => C_GREEN | COLOR_OPERSTATE_DOWN => C_RED | COLOR_NONE => C_CLEAR
  end.
Definition attr_colors_dark (a : color_attr) : color :=
  match a with
  | COLOR_IFNAME => C_BOLD_CYAN | COLOR_MAC => C_BOLD_YELLOW | COLOR_INET => C_BOLD_MAGENTA | COLOR_INET6 => C_BOLD_BLUE
  | COLOR_OPERSTATE_UP => C_BOLD_GREEN | COLOR_OPERSTATE_DOWN => C_BOLD_RED | COLOR_NONE => C_CLEAR
  end.

Record palette := mk_palette { is_dark_bg : bool; color_is_enabled : bool }.

(** [strrchr]: the text behind the last semicolon. *)
Fixpoint after_last_semicolon (s : string) : option string :=
  match s with
  | EmptyString => None
  | String c s' =>
      match after_last_semicolon s' with
      | Some r => Some r
      | None => if bool_decide (c = ";"%char) then Some s' else None
      end
  end.

(** [colorfgbg] is the environment variable. *)
Definition set_color_palette (colorfgbg : option string) (pal : palette) : palette :=
  match colorfgbg ≫= after_last_semicolon with
  | Some (String c EmptyString) =>
      if ((48 <=? code c) && (code c <=? 54)) || bool_decide (c = "8"%char) then mk_palette true (color_is_enabled pal) else pal
  | _ => pal
  end.
Definition enable_color (colorfgbg : option string) (pal : palette) : palette :=
  set_color_palette colorfgbg (mk_palette (is_dark_bg pal) true).

Definition color_fprintf (pal : palette) (attr : color_attr) (text : string) : string :=
  match color_is_enabled pal, attr with
  | false, _ | _, COLOR_NONE => text
  | true, _ => color_codes (if is_dark_bg pal then attr_colors_dark attr else attr_colors_light attr) +:+ text +:+ color_codes C_CLEAR
  end.

Definition ifa_family_color (ifa_family : Z) : color_attr :=
  if ifa_family =? 2 then COLOR_INET else if ifa_family =? 10 then COLOR_INET6 else COLOR_NONE.
Definition oper_state_color (state : Z) : color_attr :=
  if state =? 6 then COLOR_OPERSTATE_UP else if state =? 2 then COLOR_OPERSTATE_DOWN else COLOR_NONE.

(** ** Text or JSON *)

Definition PRINT_FP : Z := 1.
Definition PRINT_JSON : Z := 2.
Definition PRINT_ANY : Z := 4.

Record print_state := mk_print { jw : option json_writer; stdout : string }.

Section JsonPrint.
Context (pretty : bool) (pal : palette).

Definition new_json_obj (json : Z) (s : print_state) : print_state :=
  if json =? 0 then s
  else
    let w := jsonw_new (stdout s) in
    let w' := if pretty then jsonw_pretty w true else w in
    mk_print (Some (jsonw_start_array w')) (stdout s).

Definition delete_json_obj (s : print_state) : option print_state :=
  match jw s with
  | None => Some s
  | Some w => w' ← jsonw_end_array w; out ← jsonw_destroy w'; Some (mk_print None out)
  end.

Definition is_json_context (s : print_state) : bool := match jw s with Some _ => true | None => false end.

(** The three contexts of a call: JSON with the writer, text, or neither. *)
Definition json_or_fp (type : Z) (s : print_state) (on_json : json_writer -> option json_writer) (on_fp : option string) : option print_state :=
  let any := negb (Z.land type PRINT_ANY =? 0) in
  match jw s with
  | Some w => if negb (Z.land type PRINT_JSON =? 0) || any then w' ← on_json w; Some (mk_print (Some w') (stdout s)) else Some s
  | None => if negb (Z.land type PRINT_FP =? 0) || any then t ← on_fp; Some (mk_print None (stdout s +:+ t)) else Some s
  end.

Definition named_if (str : option string) (w : json_writer) : json_writer :=
  match str with Some n => jsonw_name w n | None => w end.

Definition open_json_object (str : option string) (s : print_state) : option print_state :=
  json_or_fp PRINT_JSON s (fun w => Some (jsonw_start_object (named_if str w))) (Some ""%string).
Definition close_json_object (s : print_state) : option print_state :=
  json_or_fp PRINT_JSON s jsonw_end_object (Some ""%string).
Definition open_json_array (type : Z) (str : option string) (s : print_state) : option print_state :=
  json_or_fp type s (fun w => Some (jsonw_start_array (named_if str w))) str.
Definition close_json_array (type : Z) (str : option string) (s : print_state) : option print_state :=
  json_or_fp type s jsonw_end_array str.

(** [_PRINT_FUNC]: [put] is the writer's function of the type. *)
Definition print_color_num {V} (put : json_writer -> V -> json_writer) (t : Z) (c : color_attr) (key : option string)
    (fmt : V -> string) (value : V) (s : print_state) : option print_state :=
  json_or_fp t s (fun w => Some (put (named_if key w) value)) (Some (color_fprintf pal c (fmt value))).
Definition print_color_int := print_color_num jsonw_int.
Definition print_color_s64 := print_color_num jsonw_s64.
Definition print_color_hu := print_color_num jsonw_hu.
Definition print_color_uint := print_color_num jsonw_uint.
Definition print_color_u64 := print_color_num jsonw_u64.
Definition print_color_luint := print_color_num jsonw_luint.
Definition print_color_lluint := print_color_num jsonw_lluint.
Definition print_color_float := print_color_num jsonw_float.

Definition print_color_string (type : Z) (c : color_attr) (key : option string) (fmt : option string -> string) (value : option string)
    (s : print_state) : option print_state :=
  json_or_fp type s
    (fun w => match key, value with
              | Some k, None => Some (jsonw_name w k)
              | None, Some v => Some (jsonw_string w v)
              | Some k, Some v => Some (jsonw_string_field w k v)
              | None, None => None
              end)
    (Some (color_fprintf pal c (fmt value))).

Definition print_color_bool (type : Z) (c : color_attr) (key : option string) (fmt : string -> string) (value : bool) (s : print_state) : option print_state :=
  json_or_fp type s
    (fun w => Some (match key with Some k => jsonw_bool_field w k value | None => jsonw_bool w value end))
    (Some (color_fprintf pal c (fmt (if value then "true" else "false")%string))).

(** [%#x]: no prefix in front of a zero. *)
Definition hex_alt (n : Z) : string := if n =? 0 then "0" else "0x" +:+ hex n.

Definition print_color_0xhex (type : Z) (c : color_attr) (key : option string) (fmt : Z -> string) (h : Z) (s : print_state) : option print_state :=
  match jw s with
  | Some _ => if negb (Z.land type PRINT_JSON =? 0) || negb (Z.land type PRINT_ANY =? 0)
              then print_color_string PRINT_JSON COLOR_NONE key (fun _ => ""%string) (Some (hex_alt (u32 h))) s else Some s
  | None => json_or_fp type s Some (Some (color_fprintf pal c (fmt h)))
  end.

Definition print_color_hex (type : Z) (c : color_attr) (key : option string) (fmt : Z -> string) (h : Z) (s : print_state) : option print_state :=
  json_or_fp type s
    (fun w => Some (match key with Some k => jsonw_string_field w k (hex (u32 h)) | None => jsonw_string w (hex (u32 h)) end))
    (Some (color_fprintf pal c (fmt h))).

Definition print_color_null (type : Z) (c : color_attr) (key : option string) (fmt : option string -> string) (value : option string)
    (s : print_state) : option print_state :=
  json_or_fp type s
    (fun w => Some (match key with Some k => jsonw_null_field w k | None => jsonw_null w end))
    (Some (color_fprintf pal c (fmt value))).

(** ** A report *)

(** A field of a report: its value by the function that prints it, and its text. *)
Inductive fval :=
| VStr (v : string) | VInt (z : Z) | VUint (z : Z) | VHu (z : Z) | VU64 (z : Z) | VS64 (z : Z) | VBool (b : bool) | VNull | VHex (h : Z) | V0xhex (h : Z).
Record field := mk_field { f_key : string; f_val : fval; f_color : color_attr; f_text : string }.

Definition print_field (f : field) : print_state -> option print_state :=
  let k := Some (f_key f) in let c := f_color f in
  match f_val f with
  | VStr v => print_color_string PRINT_ANY c k (fun _ => f_text f) (Some v)
  | VInt z => print_color_int PRINT_ANY c k (fun _ => f_text f) z
  | VUint z => print_color_uint PRINT_ANY c k (fun _ => f_text f) z
  | VHu z => print_color_hu PRINT_ANY c k (fun _ => f_text f) z
  | VU64 z => print_color_u64 PRINT_ANY c k (fun _ => f_text f) z
  | VS64 z => print_color_s64 PRINT_ANY c k (fun _ => f_text f) z
  | VBool b => print_color_bool PRINT_ANY c k (fun _ => f_text f) b
  | VNull => print_color_null PRINT_ANY c k (fun _ => f_text f) None
  | VHex h => print_color_hex PRINT_ANY c k (fun _ => f_text f) h
  | V0xhex h => print_color_0xhex PRINT_ANY c k (fun _ => f_text f) h
  end.

Fixpoint print_fields (fs : list field) (s : print_state) : option print_state :=
  match fs with [] => Some s | f :: fs' => s' ← print_field f s; print_fields fs' s' end.
Fixpoint print_objects (objs : list (list field)) (s : print_state) : option print_state :=
  match objs with
  | [] => Some s
  | fs :: objs' =>
      s1 ← open_json_object None s; s2 ← print_fields fs s1; s3 ← close_json_object s2; print_objects objs' s3
  end.

(** A run of a command: every object it shows, between the two ends of the output. *)
Definition report (json : Z) (objs : list (list field)) (s : print_state) : option print_state :=
  s' ← print_objects objs (new_json_obj json s); delete_json_obj s'.

Definition fval_json (v : fval) : json :=
  match v with
  | VStr v => JStr v | VInt z => JInt (s32 z) | VUint z => JInt (u32 z) | VHu z => JInt (u16 z) | VU64 z => JInt (u64 z) | VS64 z => JInt (s64 z)
  | VBool b => JBool b | VNull => JNull | VHex h => JStr (hex (u32 h)) | V0xhex h => JStr (hex_alt (u32 h))
  end.
Definition object_json (fs : list field) : json := JObj (map (fun f => (f_key f, fval_json (f_val f))) fs).

Lemma json_int_writer w z : - 2 ^ 63 <= z < 2 ^ 64 -> write_json (JInt z) w = Some (jsonw_printf w (dec z)).
Proof. intros Hz. cbn [write_json]. unfold jsonw_s64, jsonw_u64. destruct (Z.ltb_spec z 0); [by rewrite s64_small by lia|by rewrite u64_small by lia]. Qed.

Lemma fval_ints v : ints_ok (fval_json v) = true.
Proof.
  assert (H : forall z, - 2 ^ 63 <= z < 2 ^ 64 -> ints_ok (JInt z) = true) by (intros z Hz; cbn [ints_ok]; lia).
  destruct v; try done; apply H; unfold s32, u32, u16, u64, s64.
  - pose proof (Z.mod_pos_bound (z + 2 ^ 31) (2 ^ 32) ltac:(lia)). lia.
  - pose proof (Z.mod_pos_bound z (2 ^ 32) ltac:(lia)). lia.
  - pose proof (Z.mod_pos_bound z (2 ^ 16) ltac:(lia)). lia.
  - pose proof (Z.mod_pos_bound z (2 ^ 64) ltac:(lia)). lia.
  - pose proof (Z.mod_pos_bound (z + 2 ^ 63) (2 ^ 64) ltac:(lia)). lia.
Qed.

(** In JSON a field is its name and its value. *)
Lemma print_field_json f w o :
  print_field f (mk_print (Some w) o) = w' ← write_json (fval_json (f_val f)) (jsonw_name w (f_key f)); Some (mk_print (Some w') o).
Proof.
  unfold print_field. destruct f as [k v c t]. pose proof (fval_ints v) as Hi. destruct v; cbn [f_val f_key f_color f_text fval_json]; try done;
    cbn [fval_json ints_ok] in Hi; apply andb_prop in Hi as [?%Z.leb_le ?%Z.ltb_lt]; rewrite json_int_writer by lia; done.
Qed.

Lemma print_field_text f o : print_field f (mk_print None o) = Some (mk_print None (o +:+ color_fprintf pal (f_color f) (f_text f))).
Proof. by destruct f as [k [] c t]. Qed.

Lemma print_fields_json fs : forall w o, print_fields fs (mk_print (Some w) o) =
  w' ← write_all (fun m w => write_json m.2 (jsonw_name w m.1)) (map (fun f => (f_key f, fval_json (f_val f))) fs) w; Some (mk_print (Some w') o).
Proof.
  induction fs as [|f fs IH]; intros w o; [done|]. cbn [print_fields map write_all fst snd]. rewrite print_field_json.
  destruct (write_json _ _) as [w'|]; [|done]. cbn [mbind option_bind]. apply IH.
Qed.

Lemma print_objects_json objs : forall w o, print_objects objs (mk_print (Some w) o) =
  w' ← write_all write_json (map object_json objs) w; Some (mk_print (Some w') o).
Proof.
  induction objs as [|fs objs IH]; intros w o; [done|]. cbn [print_objects map write_all].
  change (open_json_object None (mk_print (Some w) o)) with (Some (mk_print (Some (jsonw_start_object w)) o)). cbn [mbind option_bind].
  rewrite print_fields_json.
  change (write_json (object_json fs) w) with (w' ← write_all (fun m w => write_json m.2 (jsonw_name w m.1))
    (map (fun f => (f_key f, fval_json (f_val f))) fs) (jsonw_start_object w); jsonw_end_object w').
  destruct (write_all _ _ (jsonw_start_object w)) as [w'|]; [|done]. cbn [mbind option_bind].
  change (close_json_object (mk_print (Some w') o)) with (w2 ← jsonw_end_object w'; Some (mk_print (Some w2) o)).
  destruct (jsonw_end_object w') as [w2|]; [|done]. cbn [mbind option_bind]. apply IH.
Qed.
End JsonPrint.

(** ** Claims *)

Definition field_ok (f : field) : bool :=
  sforall str_char (f_key f) && match f_val f with VStr v => sforall str_char v | _ => true end.

Lemma hex_str_char n : 0 <= n < 2 ^ 64 -> sforall str_char (hex n) = true.
Proof.
  intros Hn. unfold hex. assert (Hacc : forall f acc n, 0 <= n -> sforall str_char acc = true -> sforall str_char (print_base f 16 n acc) = true).
  { assert (Hd : forall d, 0 <= d < 16 -> str_char (digit_char d) = true).
    { intros d Hd. assert (Hk : exists k : nat, d = Z.of_nat k /\ (k < 16)%nat) by (exists (Z.to_nat d); lia).
      destruct Hk as (k & -> & Hk). do 16 (destruct k; [done|]). lia. }
    induction f as [|f IH]; intros acc m Hm Ha; [done|]. cbn [print_base]. destruct (Z.ltb_spec m 16); [cbn [sforall]; by rewrite Hd, Ha by lia|].
    apply IH; [apply Z.div_pos; lia|]. cbn [sforall]. rewrite Hd, Ha by (apply Z.mod_pos_bound; lia). done. }
  by apply Hacc; [lia|].
Qed.

Lemma field_strings f : field_ok f = true -> sforall str_char (f_key f) && strings_ok (fval_json (f_val f)) = true.
Proof.
  unfold field_ok. intros [-> Hv]%andb_prop. assert (Hu : forall h, 0 <= u32 h < 2 ^ 64) by (intros h; unfold u32; pose proof (Z.mod_pos_bound h (2 ^ 32) ltac:(lia)); lia).
  destruct (f_val f); cbn [fval_json strings_ok andb]; try done; [by apply hex_str_char|]. unfold hex_alt. destruct (_ =? 0); [done|].
  rewrite sforall_app. by rewrite hex_str_char.
Qed.

Lemma objects_json_ok objs : forallb (forallb field_ok) objs = true ->
  ints_ok (JArr (map object_json objs)) = true /\ strings_ok (JArr (map object_json objs)) = true /\ height (JArr (map object_json objs)) < 2 ^ 32.
Proof.
  intros Hok. rewrite forallb_forall in Hok. split_and!.
  - cbn [ints_ok]. apply forallb_forall. intros v (fs & <- & Hfs)%in_map_iff. cbn. apply forallb_forall. intros m (f & <- & Hf)%in_map_iff. apply fval_ints.
  - cbn [strings_ok]. apply forallb_forall. intros v (fs & <- & Hfs)%in_map_iff. cbn. apply forallb_forall. intros m (f & <- & Hf)%in_map_iff.
    apply field_strings. specialize (Hok fs Hfs). rewrite forallb_forall in Hok. by apply Hok.
  - cbn [height]. assert (H : forall l, (forall v, v ∈ l -> v <= 1) -> maximum l <= 1).
    { intros l Hl. induction l as [|v l IH]; cbn; [lia|]. pose proof (Hl v (list_elem_of_here _ _)).
      specialize (IH ltac:(intros; apply Hl; by apply list_elem_of_further)). unfold maximum in IH. lia. }
    assert (H0 : forall fs : list field, maximum (map (fun m : string * json => height m.2) (map (fun f => (f_key f, fval_json (f_val f))) fs)) = 0).
    { intros fs. unfold maximum. induction fs as [|f fs IH]; [done|]. cbn [map foldr snd]. rewrite IH. by destruct f as [k [] c t]. }
    pose proof (H (map height (map object_json objs))) as Hm. enough (maximum (map height (map object_json objs)) <= 1) by lia.
    apply Hm. intros v Hv. rewrite map_map in Hv. apply list_elem_of_fmap in Hv as (fs & -> & _). cbn. rewrite H0. lia.
Qed.

Lemma run_report pretty pal objs out :
  forallb (forallb field_ok) objs = true ->
  (exists text, report pretty pal 1 objs (mk_print None out) = Some (mk_print None (out +:+ text)) /\
     parse_json text = Some (JArr (map object_json objs))) /\
  report pretty pal 0 objs (mk_print None out) =
    Some (mk_print None (fold_left (fun o f => o +:+ color_fprintf pal (f_color f) (f_text f)) (concat objs) out)).
Proof.
  intros Hok. destruct (objects_json_ok objs Hok) as (Hi & Hs & Hh). split.
  - exists (json_text pretty 0 (JArr (map object_json objs)) +:+ String "010" ""). split; [|by apply parse_json_line].
    unfold report. change (new_json_obj pretty 1 (mk_print None out)) with
      (mk_print (Some (jsonw_start_array (if pretty then jsonw_pretty (jsonw_new out) true else jsonw_new out))) out).
    set (w0 := if pretty then _ else _). rewrite print_objects_json.
    pose proof (write_json_text (JArr (map object_json objs)) w0 Hi ltac:(by destruct pretty) ltac:(by destruct pretty)) as Hw.
    change (write_json (JArr (map object_json objs)) w0) with (w' ← write_all write_json (map object_json objs) (jsonw_start_array w0); jsonw_end_array w') in Hw.
    destruct (write_all _ _ _) as [w'|]; [|discriminate]. cbn [mbind option_bind] in Hw |- *. unfold delete_json_obj. cbn [jw]. rewrite Hw.
    cbn [mbind option_bind]. unfold jsonw_destroy, after, fputs, sep_text, w0. destruct pretty; cbn -[json_text]; by rewrite ?sapp_nil, sapp_assoc.
  - unfold report. change (new_json_obj pretty 0 (mk_print None out)) with (mk_print None out). clear Hi Hs Hh Hok. revert out.
    assert (Hf : forall fs o, print_fields pal fs (mk_print None o) = Some (mk_print None (fold_left (fun o f => o +:+ color_fprintf pal (f_color f) (f_text f)) fs o))).
    { induction fs as [|f fs IH]; intros o; [done|]. cbn [print_fields fold_left]. rewrite print_field_text. cbn [mbind option_bind]. apply IH. }
    induction objs as [|fs objs IH]; intros out; [done|]. cbn [print_objects concat]. rewrite fold_left_app, <- IH.
    change (open_json_object None (mk_print None out)) with (Some (mk_print None out)). cbn [mbind option_bind]. rewrite Hf. done.
Qed.

(** A command reports the same things in both ways of output. With JSON it adds to standard
    output one JSON text, the array of the objects it showed with the values of their fields;
    without, the texts of the fields in order, coloured as asked, and nothing else. *)
Theorem report_both_ways pretty pal objs out :
  forallb (forallb field_ok) objs = true ->
  (exists text, report pretty pal 1 objs (mk_print None out) = Some (mk_print None (out +:+ text)) /\
     parse_json text = Some (JArr (map object_json objs))) /\
  report pretty pal 0 objs (mk_print None out) =
    Some (mk_print None (fold_left (fun o f => o +:+ color_fprintf pal (f_color f) (f_text f)) (concat objs) out)).
Proof. apply run_report. Qed.

Definition sample_report : list (list field) :=
  [[mk_field "ifname" (VStr "pval0") COLOR_IFNAME "pval0: "; mk_field "mtu" (VUint 1500) COLOR_NONE "mtu 1500 "];
   [mk_field "flags" (V0xhex 4099) COLOR_NONE "flags 1003 "; mk_field "up" (VBool true) COLOR_NONE ""]].

Lemma report_both_ways_witness :
  (exists text, report true (mk_palette false true) 1 sample_report (mk_print None "") = Some (mk_print None ("" +:+ text)) /\
     parse_json text = Some (JArr [JObj [("ifname"%string, JStr "pval0"); ("mtu"%string, JInt 1500)]; JObj [("flags"%string, JStr "0x1003"); ("up"%string, JBool true)]])) /\
  report true (mk_palette false true) 0 sample_report (mk_print None "") =
    Some (mk_print None (String "027" "[36mpval0: " +:+ String "027" "[0mmtu 1500 flags 1003 ")).
Proof.
  destruct (report_both_ways true (mk_palette false true) sample_report "") as [Hjson Htext]; [reflexivity|].
  split; [exact Hjson|exact Htext].
Defined.
