(* ===== verification/LinkType.v ===== *)
(** * The type of a link, as [ip] shows it

    Models [print_linktype] of [iproute2-4.18.0/ip/ipaddress.c] and [get_link_kind] of
    [ip/iplink.c], with the [link_util] of [ip/iplink_pval.c]: the attribute [IFLA_LINKINFO]
    of a link message is shown by the type its kind names, as text or as JSON. The message is
    the buffer [buf], an attribute the offset of its header. [None] is an access outside the
    buffer, or a failed assertion of the writer. *)
From stdpp Require Import base list numbers strings.
From Stdlib Require Import ZArith Lia Ascii.
From S2P Require Import Prelude Cstring Abi Utils State Device Netlink IplinkPval JsonWriter JsonPrint.

Open Scope Z_scope.

Definition IFLA_INFO_KIND : Z := 1.
Definition IFLA_INFO_DATA : Z := 2.
Definition IFLA_INFO_XSTATS : Z := 3.
Definition IFLA_INFO_SLAVE_KIND : Z := 4.
Definition IFLA_INFO_SLAVE_DATA : Z := 5.
Definition IFLA_INFO_MAX : Z := 5.

(** ** Types of links *)

(** The functions of [struct link_util] that print, null ones as [None]; an array of
    attributes that is null is [None] as well. *)
Record link_util := mk_link_util {
  lu_id : string;
  maxattr : Z;
  print_opt : option (list Z -> option (list (option Z)) -> print_state -> option print_state);
  print_xstats : option (list Z -> Z -> print_state -> option print_state) }.

(** The text [snprintf] leaves in [size] bytes. *)
Definition snprintf (size : nat) (s : string) : string := String.substring 0 (size - 1) s.

Section LinkType.
(** [dlsym path symbol]: the symbol in the library of that path, or in the program itself. *)
Context (dlsym : string -> string -> option link_util) (LIBDIR : string).

(** [linkutil_list] holds the types found before, and gets those found now. *)
Definition get_link_kind (linkutil_list : list link_util) (id : string) : option link_util * list link_util :=
  match find (fun l => String.eqb (lu_id l) id) linkutil_list with
  | Some l => (Some l, linkutil_list)
  | None =>
      match dlsym (snprintf 256 (LIBDIR +:+ "/ip/link_" +:+ id +:+ ".so")) (snprintf 256 (id +:+ "_link_util")) with
      | Some l => (Some l, l :: linkutil_list)
      | None => (None, linkutil_list)
      end
  end.

(** The string that starts at the payload; its end is looked for in the whole buffer. *)
Fixpoint c_string (l : list Z) : option string :=
  match l with
  | [] => None
  | b :: l' => if b =? 0 then Some EmptyString else String (chr b) <$> c_string l'
  end.
Definition rta_getattr_str (buf : list Z) (rta : Z) : option string := c_string (drop (Z.to_nat (rta + RTA_LENGTH 0)) buf).

(** ** The printer *)

Context (pal : palette) (_SL_ : string) (show_stats : bool) (buf : list Z).

Definition print_string (type : Z) (key : option string) (before after value : string) : print_state -> option print_state :=
  print_color_string pal type COLOR_NONE key (fun _ => before +:+ value +:+ after) (Some value).

(** The part the kind of a link and the kind of its master share: the options of the type,
    in an object of their own. *)
Definition print_data (lu : link_util) (print : list Z -> option (list (option Z)) -> print_state -> option print_state)
    (data : option Z) (name : string) (s : print_state) : option print_state :=
  attr ← match data with
         | Some rta => '(_, tb) ← parse_rtattr_nested buf (maxattr lu) rta; Some (Some tb)
         | None => Some None
         end;
  s1 ← open_json_object (Some name) s;
  s2 ← print buf attr s1;
  close_json_object s2.

Definition print_kind (linkinfo : list (option Z)) (links : list link_util) (s : print_state) : option (list link_util * print_state) :=
  k ← linkinfo !! Z.to_nat IFLA_INFO_KIND;
  match k with
  | None => Some (links, s)
  | Some rta =>
      kind ← rta_getattr_str buf rta;
      s1 ← print_string PRINT_FP None "" "" _SL_ s;
      s2 ← print_string PRINT_ANY (Some "info_kind"%string) "    " " " kind s1;
      let '(found, links') := get_link_kind links kind in
      match found with
      | Some ({| print_opt := Some print |} as lu) =>
          data ← linkinfo !! Z.to_nat IFLA_INFO_DATA;
          s3 ← print_data lu print data "info_data" s2;
          x ← linkinfo !! Z.to_nat IFLA_INFO_XSTATS;
          match x, show_stats, print_xstats lu with
          | Some xstats, true, Some f =>
              s4 ← open_json_object (Some "info_xstats"%string) s3;
              s5 ← f buf xstats s4;
              s6 ← close_json_object s5;
              Some (links', s6)
          | _, _, _ => Some (links', s3)
          end
      | _ => Some (links', s2)
      end
  end.

Definition print_slave (linkinfo : list (option Z)) (links : list link_util) (s : print_state) : option (list link_util * print_state) :=
  k ← linkinfo !! Z.to_nat IFLA_INFO_SLAVE_KIND;
  match k with
  | None => Some (links, s)
  | Some rta =>
      slave_kind ← rta_getattr_str buf rta;
      s1 ← print_string PRINT_FP None "" "" _SL_ s;
      s2 ← print_string PRINT_ANY (Some "info_slave_kind"%string) "    " "_slave " slave_kind s1;
      let '(found, links') := get_link_kind links (snprintf 32 (slave_kind +:+ "_slave")) in
      match found with
      | Some ({| print_opt := Some print |} as lu) =>
          data ← linkinfo !! Z.to_nat IFLA_INFO_SLAVE_DATA;
          s3 ← print_data lu print data "info_slave_data" s2;
          Some (links', s3)
      | _ => Some (links', s2)
      end
  end.

Definition print_linktype (links : list link_util) (tb : Z) (s : print_state) : option (list link_util * print_state) :=
  '(_, linkinfo) ← parse_rtattr_nested buf IFLA_INFO_MAX tb;
  s1 ← open_json_object (Some "linkinfo"%string) s;
  '(links1, s2) ← print_kind linkinfo links s1;
  '(links2, s3) ← print_slave linkinfo links1 s2;
  s4 ← close_json_object s3;
  Some (links2, s4).
End LinkType.

(** ** The type of Pval devices *)

(** The [print_string] calls of [pval_print_opt]. *)
Definition pval_fields (out : list (string * string)) : list field :=
  map (fun x => mk_field x.1 (VStr x.2) COLOR_NONE (x.1 +:+ " " +:+ x.2 +:+ " ")) out.

Definition pval_link_util (pal : palette) (if_indextoname : Z -> option string) (ll_index_to_name : Z -> string) : link_util :=
  mk_link_util "pval" IFLA_PVAL_MAX
    (Some (fun buf tb s => out ← pval_print_opt if_indextoname ll_index_to_name buf tb; print_fields pal (pval_fields out) s)) None.

(** ** Lemmas *)

(** The attribute at [rta] has this payload. *)
Definition attr_in (buf : list Z) (rta : Z) (data : list Z) : Prop :=
  rta_len buf rta = Some (4 + dlen data) /\ mem_read buf (rta + 4) (dlen data) = Some data /\ dlen data < 65532.

(** The payload of the first attribute of a type. *)
Definition first_of (l : list rtattr) (ty : Z) : option (list Z) :=
  (fun x => x.2.2) <$> list_find (fun x => x.1 = ty) (attr_pair <$> l).

Lemma mem_read_split buf off n l : 0 <= n -> mem_read buf off n = Some l ->
  exists p q, buf = p ++ l ++ q /\ off = Z.of_nat (length p) /\ n = Z.of_nat (length l).
Proof.
  unfold mem_read. intros Hn. destruct (Z.leb_spec 0 off); [|done]. intros Hs. pose proof (length_slice _ _ _ _ Hs) as Hl.
  apply slice_Some in Hs as [Hb Hs]. exists (take (Z.to_nat off) buf), (drop (Z.to_nat n) (drop (Z.to_nat off) buf)).
  split_and!; [by rewrite Hs, !take_drop|rewrite length_take; lia|lia].
Qed.

(** The array a nested attribute is parsed into points at the first attribute of every type. *)
Lemma parse_nested buf rta max l : attr_in buf rta (encs l) -> Forall rtattr_ok l -> 0 <= max ->
  exists tb, parse_rtattr_nested buf max rta = Some (0, tb) /\
    forall ty, 0 <= ty <= max -> points_to buf tb (attr_pair <$> l) ty.
Proof.
  intros (Hlen & Hr & Hs) Hl Hmax. unfold parse_rtattr_nested. rewrite Hlen. cbn [mbind option_bind]. change (RTA_LENGTH 0) with 4.
  unfold dlen in *. apply mem_read_split in Hr as (p & q & -> & Hp & _); [|lia]. rewrite Hp.
  destruct (parse_encs l p q max Hl Hmax ltac:(lia)) as (tb & Hparse & Htb).
  exists tb. split; [|by intros ty Hty; apply points_to_first, Htb].
  unfold RTA_PAYLOAD. change (RTA_LENGTH 0) with 4. rewrite Z.add_simpl_l, u64_small, s32_small by lia. exact Hparse.
Qed.

Lemma points_to_payload buf tb l ty data : Forall rtattr_ok l -> points_to buf tb (attr_pair <$> l) ty -> first_of l ty = Some data ->
  exists o, tb !! Z.to_nat ty = Some (Some o) /\ attr_in buf o data.
Proof.
  unfold points_to, first_of. intros Hl Hp Hf. destruct (list_find _ _) as [[i [t d]]|] eqn:E; [|done]. cbn in Hf. injection Hf as ->.
  destruct Hp as (o & Ho & Hlen & Hr). exists o. split_and!; try done.
  apply list_find_Some in E as (Hi & _). apply list_lookup_fmap_Some in Hi as (a & [= -> ->] & Ha).
  rewrite Forall_lookup in Hl. destruct (Hl _ _ Ha) as [Hfit _]. by apply attr_fits_spec in Hfit as [_ Hfit].
Qed.

Lemma points_to_null buf tb l ty : points_to buf tb (attr_pair <$> l) ty -> first_of l ty = None -> tb !! Z.to_nat ty = Some None.
Proof. unfold points_to, first_of. by destruct (list_find _ _) as [[i [t d]]|]. Qed.

Lemma chr_code c : chr (code c) = c.
Proof. by destruct c as [[] [] [] [] [] [] [] []]. Qed.

Lemma c_string_bytes s rest : c_bytes s = true -> c_string (string_bytes s ++ 0 :: rest) = Some s.
Proof.
  induction s as [|c s IH]; intros Hs; [done|]. cbn in Hs. apply andb_prop in Hs as [Hc Hs]. apply negb_true_iff in Hc.
  change (string_bytes (String c s)) with (code c :: string_bytes s). cbn [app c_string]. rewrite Hc, IH by done. cbn. do 2 f_equal.
  apply chr_code.
Qed.

Lemma getattr_str_in buf o s : c_bytes s = true -> attr_in buf o (string_bytes s ++ [0]) -> rta_getattr_str buf o = Some s.
Proof.
  intros Hs (_ & Hr & _). apply mem_read_split in Hr as (p & q & -> & Hp & _); [|unfold dlen; lia].
  unfold rta_getattr_str. change (RTA_LENGTH 0) with 4. rewrite Hp, Nat2Z.id, drop_app_length, <- app_assoc. by apply c_string_bytes.
Qed.

(** What is shown of a device: the name of its lower link, if there is one, and its switches. *)
Definition shown {skb : Type} (toname : Z -> option string) (index : Z -> string) (pdev : pval_dev skb) (link : Z) : list (string * string) :=
  match toname link with Some _ => [("link"%string, index link)] | None => [] end ++
  zip_with (fun (o : string * Z) b => (o.1, on_word b)) switch_opts (switches pdev).

Lemma pval_print_info {skb : Type} (pdev : pval_dev skb) link toname index buf tb :
  (forall ty, 0 <= ty <= IFLA_PVAL_MAX -> points_to buf tb (info_attrs pdev link) ty) -> 0 <= link < 2 ^ 32 ->
  pval_print_opt toname index buf (Some tb) = Some (shown toname index pdev link).
Proof.
  intros Hp Hl. unfold pval_print_opt, shown. destruct (Hp IFLA_PVAL_LINK ltac:(done)) as (o & -> & _ & Hr). cbn [mbind option_bind].
  unfold rta_getattr_u32. change (RTA_LENGTH 0) with 4. change (dlen (le_bytes 4 link)) with 4 in Hr. rewrite Hr.
  cbn [fmap option_fmap option_map mbind option_bind]. rewrite le_val_bytes, Z.mod_small by (cbn; lia).
  rewrite (print_switches_info pdev link) by done. cbn [mbind option_bind]. by destruct (toname link).
Qed.

(** The calls with a writer, and without one. *)
Lemma open_json n w o : open_json_object (Some n) (mk_print (Some w) o) = Some (mk_print (Some (jsonw_start_object (jsonw_name w n))) o).
Proof. reflexivity. Qed.

Lemma close_json w o : close_json_object (mk_print (Some w) o) = w' ← jsonw_end_object w; Some (mk_print (Some w') o).
Proof. reflexivity. Qed.

Lemma fp_in_json pal k b a v w o : print_string pal PRINT_FP k b a v (mk_print (Some w) o) = Some (mk_print (Some w) o).
Proof. reflexivity. Qed.

Lemma string_json pal k b a v w o :
  print_string pal PRINT_ANY (Some k) b a v (mk_print (Some w) o) = Some (mk_print (Some (jsonw_string (jsonw_name w k) v)) o).
Proof. reflexivity. Qed.

Lemma color_none pal t : color_fprintf pal COLOR_NONE t = t.
Proof. unfold color_fprintf. by destruct (color_is_enabled pal). Qed.

Lemma string_text pal t k b a v o : t = PRINT_FP \/ t = PRINT_ANY ->
  print_string pal t k b a v (mk_print None o) = Some (mk_print None (o +:+ (b +:+ v +:+ a))).
Proof. intros Ht. unfold print_string, print_color_string. rewrite color_none. by destruct Ht as [-> | ->]. Qed.

Lemma open_text n o : open_json_object n (mk_print None o) = Some (mk_print None o).
Proof. reflexivity. Qed.

Lemma print_fields_render pal out : forall o, print_fields pal (pval_fields out) (mk_print None o) = Some (mk_print None (o +:+ render out)).
Proof.
  induction out as [|x out IH]; intros o; [by rewrite sapp_nil_r|]. cbn [pval_fields map print_fields]. rewrite print_field_text, color_none.
  cbn [mbind option_bind f_text]. fold (pval_fields out). rewrite IH. unfold render. cbn [foldr]. by rewrite <- !sapp_assoc.
Qed.

(** A message of a Pval device. *)
Section Message.
Context {skb : Type} (pdev : pval_dev skb) (link : Z) (toname : Z -> option string) (index : Z -> string).
Context (dlsym : string -> string -> option link_util) (LIBDIR : string) (pal : palette) (sl : string) (show_stats : bool).
Context (buf : list Z) (rta : Z) (l dl : list rtattr) (links links' : list link_util).
Hypothesis Hin : attr_in buf rta (encs l).
Hypothesis Hl : Forall rtattr_ok l.
Hypothesis Hk : first_of l IFLA_INFO_KIND = Some (string_bytes "pval" ++ [0]).
Hypothesis Hs : first_of l IFLA_INFO_SLAVE_KIND = None.
Hypothesis Hd : first_of l IFLA_INFO_DATA = Some (encs dl).
Hypothesis Hdl : Forall rtattr_ok dl.
Hypothesis Hinfo : attr_pair <$> dl = info_attrs pdev link.
Hypothesis Hlink : 0 <= link < 2 ^ 32.
Hypothesis Hget : get_link_kind dlsym LIBDIR links "pval" = (Some (pval_link_util pal toname index), links').

Lemma print_data_pval od s : attr_in buf od (encs dl) ->
  print_data buf (pval_link_util pal toname index)
    (fun buf tb s => out ← pval_print_opt toname index buf tb; print_fields pal (pval_fields out) s) (Some od) "info_data" s =
  s1 ← open_json_object (Some "info_data"%string) s; s2 ← print_fields pal (pval_fields (shown toname index pdev link)) s1; close_json_object s2.
Proof.
  intros Hdata. destruct (parse_nested buf od IFLA_PVAL_MAX dl Hdata Hdl ltac:(done)) as (tb & Hparse & Htb). rewrite Hinfo in Htb.
  unfold print_data. cbn [maxattr pval_link_util]. rewrite Hparse. cbn [mbind option_bind]. destruct (open_json_object _ s) as [s1|]; [|done].
  cbn [mbind option_bind]. by rewrite (pval_print_info pdev link toname index buf tb Htb Hlink).
Qed.

(** The calls that write something. *)
Lemma print_linktype_pval s : print_linktype dlsym LIBDIR pal sl show_stats buf links rta s =
  s1 ← open_json_object (Some "linkinfo"%string) s; s2 ← print_string pal PRINT_FP None "" "" sl s1;
  s3 ← print_string pal PRINT_ANY (Some "info_kind"%string) "    " " " "pval" s2; s4 ← open_json_object (Some "info_data"%string) s3;
  s5 ← print_fields pal (pval_fields (shown toname index pdev link)) s4; s6 ← close_json_object s5; s7 ← close_json_object s6; Some (links', s7).
Proof.
  destruct (parse_nested buf rta IFLA_INFO_MAX l Hin Hl ltac:(done)) as (tb & Hparse & Htb).
  destruct (points_to_payload _ _ _ _ _ Hl (Htb IFLA_INFO_KIND ltac:(done)) Hk) as (ok & Hok & Hstr%getattr_str_in); [|done].
  destruct (points_to_payload _ _ _ _ _ Hl (Htb IFLA_INFO_DATA ltac:(done)) Hd) as (od & Hod & Hdata).
  pose proof (points_to_null _ _ _ _ (Htb IFLA_INFO_SLAVE_KIND ltac:(done)) Hs) as Hslave.
  assert (Hx : exists x, tb !! Z.to_nat IFLA_INFO_XSTATS = Some x).
  { pose proof (Htb IFLA_INFO_XSTATS ltac:(done)) as H. unfold points_to in H. destruct (list_find _ _) as [[i [t d]]|]; [destruct H as (x & -> & _)|]; eauto. }
  destruct Hx as (x & Hx). unfold print_linktype. rewrite Hparse. cbn [mbind option_bind]. destruct (open_json_object _ s) as [s1|]; [|done].
  cbn [mbind option_bind]. unfold print_kind. rewrite Hok. cbn [mbind option_bind]. rewrite Hstr. cbn [mbind option_bind].
  destruct (print_string pal PRINT_FP _ _ _ _ s1) as [s2|]; [|done]. cbn [mbind option_bind].
  destruct (print_string pal PRINT_ANY _ _ _ _ s2) as [s3|]; [|done]. cbn [mbind option_bind].
  rewrite Hget. cbn [pval_link_util print_opt print_xstats]. rewrite Hod. cbn [mbind option_bind]. fold (pval_link_util pal toname index).
  rewrite (print_data_pval od s3 Hdata). destruct (open_json_object _ s3) as [s4|]; [|done]. cbn [mbind option_bind].
  destruct (print_fields _ _ s4) as [s5|]; [|done]. cbn [mbind option_bind]. destruct (close_json_object s5) as [s6|]; [|done]. cbn [mbind option_bind].
  rewrite Hx. assert (Hslv : print_slave dlsym LIBDIR pal sl buf tb links' s6 = Some (links', s6)) by (unfold print_slave; by rewrite Hslave).
  destruct x, show_stats; cbn [mbind option_bind]; rewrite Hslv; done.
Qed.
End Message.

(** ** Theorem *)

(** C36. What [ip link] shows of a Pval device is what the driver reports: for a link message whose
    [IFLA_LINKINFO] holds the kind [pval] and, nested in [IFLA_INFO_DATA], the attributes
    [pval_fill_info] puts there, whatever other attributes are beside them, [print_linktype]
    finds the type and writes, with JSON, the member [linkinfo] with the kind and the object of
    the lower link and the six switches, each with the value it has in the device; and without,
    the same as words on a line of their own. The lower link is left out when its index is not
    known. *)
Theorem pval_link_shown {skb : Type} (pdev : pval_dev skb) link toname index dlsym LIBDIR pal sl show_stats buf rta l dl links links' :
  attr_in buf rta (encs l) -> Forall rtattr_ok l ->
  first_of l IFLA_INFO_KIND = Some (string_bytes "pval" ++ [0]) -> first_of l IFLA_INFO_SLAVE_KIND = None ->
  first_of l IFLA_INFO_DATA = Some (encs dl) -> Forall rtattr_ok dl -> attr_pair <$> dl = info_attrs pdev link -> 0 <= link < 2 ^ 32 ->
  get_link_kind dlsym LIBDIR links "pval" = (Some (pval_link_util pal toname index), links') ->
  (forall w o, print_linktype dlsym LIBDIR pal sl show_stats buf links rta (mk_print (Some w) o) =
     w' ← write_json (JObj [("info_kind"%string, JStr "pval"); ("info_data"%string, JObj (map (fun x => (x.1, JStr x.2)) (shown toname index pdev link)))])
            (jsonw_name w "linkinfo");
     Some (links', mk_print (Some w') o)) /\
  (forall o, print_linktype dlsym LIBDIR pal sl show_stats buf links rta (mk_print None o) =
     Some (links', mk_print None (o +:+ sl +:+ "    pval " +:+ render (shown toname index pdev link)))).
Proof.
  intros Hin Hl Hk Hs Hd Hdl Hinfo Hlink Hget.
  pose proof (print_linktype_pval pdev link toname index dlsym LIBDIR pal sl show_stats buf rta l dl links links' Hin Hl Hk Hs Hd Hdl Hinfo Hlink Hget) as Hgo.
  clear - Hgo. split; intros; rewrite Hgo.
  - rewrite open_json. cbn [mbind option_bind]. rewrite fp_in_json. cbn [mbind option_bind]. rewrite string_json. cbn [mbind option_bind]. rewrite open_json. cbn [mbind option_bind].
    rewrite print_fields_json. unfold pval_fields. rewrite map_map. cbn [write_json write_all f_key f_val fval_json fst snd]. cbn [mbind option_bind].
    destruct (write_all _ _ _) as [w1|]; [|done]. cbn [mbind option_bind]. rewrite close_json. destruct (jsonw_end_object w1) as [w2|]; [|done].
    cbn [mbind option_bind]. rewrite close_json. by destruct (jsonw_end_object w2).
  - rewrite open_text. cbn [mbind option_bind].
    rewrite string_text by auto. cbn [mbind option_bind]. rewrite string_text by auto. cbn [mbind option_bind].
    rewrite open_text. cbn [mbind option_bind].
    rewrite print_fields_render. cbn -[render]. do 3 f_equal. by rewrite ?sapp_nil, ?sapp_nil_r, <- !sapp_assoc.
Qed.

Definition padded (x : Z * list Z) : rtattr := mk_rtattr x.1 x.2 (replicate (Z.to_nat ((- dlen x.2) mod 4)) 0).
Definition sample_linkinfo : list rtattr :=
  [padded (IFLA_INFO_KIND, string_bytes "pval" ++ [0]); padded (IFLA_INFO_DATA, encs (padded <$> info_attrs sample_pdev 2))].
Definition sample_link_msg : list Z := replicate 8 7 ++ enc (padded (18, encs sample_linkinfo)) ++ [1; 2; 3].

Lemma sample_padded_ok l : forallb (fun a => attr_fits (attr_pair a) && (4 + dlen (a_data a) + Z.of_nat (length (a_pad a)) =? RTA_ALIGN (4 + dlen (a_data a)))) l = true ->
  Forall rtattr_ok l.
Proof. intros Hl. apply Forall_forall. intros a Ha. rewrite forallb_forall in Hl. apply list_elem_of_In, Hl, andb_prop in Ha as [H1 H2%Z.eqb_eq]. by split. Defined.

Lemma pval_link_shown_witness :
  print_linktype (fun _ _ => None) "/usr/lib" (mk_palette false false) (String "010" "") false sample_link_msg
    [pval_link_util (mk_palette false false) (fun _ => Some "eth0"%string) (fun _ => "eth0"%string)] 8 (mk_print None "1: pval0") =
  Some ([pval_link_util (mk_palette false false) (fun _ => Some "eth0"%string) (fun _ => "eth0"%string)],
    mk_print None ("1: pval0" +:+ String "010" "" +:+ "    pval link eth0 ipopt off txtstamp on rxtstamp off txcopy off rxcopy off txbusydrop on ")).
Proof.
  eapply (pval_link_shown sample_pdev 2 (fun _ => Some "eth0"%string) (fun _ => "eth0"%string) (fun _ _ => None) "/usr/lib" (mk_palette false false)
    (String "010" "") false sample_link_msg 8 sample_linkinfo (padded <$> info_attrs sample_pdev 2)).
  - repeat split; vm_compute; reflexivity.
  - apply sample_padded_ok. vm_compute. reflexivity.
  - vm_compute. reflexivity.
  - vm_compute. reflexivity.
  - vm_compute. reflexivity.
  - apply sample_padded_ok. vm_compute. reflexivity.
  - vm_compute. reflexivity.
  - lia.
  - reflexivity.
Defined.
