(* ===== verification/Netdissect.v ===== *)
(** * The dissection context of tcpdump

    Models the part of [tcpdump/netdissect.h] and [tcpdump/extract.h] every
    printer is written with: the captured packet and the end of the captured
    data, the bounds tests [ND_TTEST_LEN] and [ND_TCHECK_LEN], the
    [EXTRACT_*] loads and [ND_PRINT]. A printer is a function of the context
    that ends normally, at its [trunc:] label, with a load outside the captured
    bytes, or out of fuel. [safe] is the program logic the safety theorems of
    the printers are proved with. *)
From stdpp Require Import base list numbers strings.
From Stdlib Require Import ZArith Lia Ascii.
From S2P Require Import Prelude Cstring.

Open Scope Z_scope.

(** ** The context *)

(** The options of the command line the modelled printers look at. *)
Record nd_flags := mk_flags {
  f_vflag : Z; f_eflag : Z; f_nflag : Z; f_Kflag : Z; f_qflag : Z; f_tflag : Z;
  f_tstamp_precision : Z; f_packettype : Z }.

(** [struct netdissect_options]: the captured bytes, the address of the first
    one, and the fields the printers use. A pointer into the packet is its
    distance from the first byte; [ndo_out] is what was printed so far. *)
Record netdissect_options := mk_ndo {
  ndo_packet : list Z;
  ndo_base : Z;
  ndo_flags : nd_flags;
  ndo_snapend : Z;
  ndo_protocol : string;
  ndo_out : string }.

(** ** Printers *)

Inductive stop := Trunc | Fault | Fuel.
Inductive res (A : Type) := Done (a : A) | Stop (why : stop).
Arguments Done {A} a.
Arguments Stop {A} why.

Definition pr (A : Type) : Type := netdissect_options -> res A * netdissect_options.

Definition pret {A} (a : A) : pr A := fun ndo => (Done a, ndo).
Definition pstop {A} (w : stop) : pr A := fun ndo => (Stop w, ndo).
Definition pbind {A B} (m : pr A) (k : A -> pr B) : pr B := fun ndo =>
  match m ndo with
  | (Done a, ndo') => k a ndo'
  | (Stop w, ndo') => (Stop w, ndo')
  end.

(** [m; return; trunc: k]. *)
Definition on_trunc {A} (m k : pr A) : pr A := fun ndo =>
  match m ndo with
  | (Stop Trunc, ndo') => k ndo'
  | r => r
  end.

Declare Scope pr_scope.
Delimit Scope pr_scope with pr.
Notation "x <~ m ;; k" := (pbind m (fun x => k)) (at level 100, m at next level, right associativity) : pr_scope.
Notation "m ;~ k" := (pbind m (fun _ => k)) (at level 100, right associativity) : pr_scope.
Open Scope pr_scope.

Definition asks {A} (f : netdissect_options -> A) : pr A := fun ndo => (Done (f ndo), ndo).
Definition flag (f : nd_flags -> Z) : pr Z := asks (fun ndo => f (ndo_flags ndo)).

Definition emit (s : string) (ndo : netdissect_options) : netdissect_options :=
  mk_ndo (ndo_packet ndo) (ndo_base ndo) (ndo_flags ndo) (ndo_snapend ndo) (ndo_protocol ndo)
    (ndo_out ndo +:+ s).
Definition with_snapend (e : Z) (ndo : netdissect_options) : netdissect_options :=
  mk_ndo (ndo_packet ndo) (ndo_base ndo) (ndo_flags ndo) e (ndo_protocol ndo) (ndo_out ndo).
Definition with_protocol (p : string) (ndo : netdissect_options) : netdissect_options :=
  mk_ndo (ndo_packet ndo) (ndo_base ndo) (ndo_flags ndo) (ndo_snapend ndo) p (ndo_out ndo).

(** [ND_PRINT], of the formatted text. *)
Definition ND_PRINT (s : string) : pr unit := fun ndo => (Done tt, emit s ndo).
Definition set_protocol (p : string) : pr unit := fun ndo => (Done tt, with_protocol p ndo).

(** [if (ipend < ndo->ndo_snapend) ndo->ndo_snapend = ipend]. *)
Definition cut_snapend (ipend : Z) : pr unit := fun ndo =>
  (Done tt, if ipend <? ndo_snapend ndo then with_snapend ipend ndo else ndo).

(** ** Bounds tests and loads *)

(** Whether [l] bytes at [p] were captured, in the arithmetic of [uintptr_t]. *)
Definition ttest_len (ndo : netdissect_options) (p l : Z) : bool :=
  (0 <=? l)
  && (u64 (ndo_base ndo + ndo_snapend ndo - l) <=? ndo_base ndo + ndo_snapend ndo)
  && (ndo_base ndo + p <=? u64 (ndo_base ndo + ndo_snapend ndo - l)).

Definition ND_TTEST_LEN (p l : Z) : pr bool := asks (fun ndo => ttest_len ndo p l).
Definition ND_TCHECK_LEN (p l : Z) : pr unit :=
  b <~ ND_TTEST_LEN p l ;; if (b : bool) then pret tt else pstop Trunc.

Definition load (p n : Z) : pr (list Z) := fun ndo =>
  match mem_read (ndo_packet ndo) p n with
  | Some l => (Done l, ndo)
  | None => (Stop Fault, ndo)
  end.

Definition EXTRACT_U_1 (p : Z) : pr Z := l <~ load p 1 ;; pret (be_val l).
Definition EXTRACT_BE_U_2 (p : Z) : pr Z := l <~ load p 2 ;; pret (be_val l).
Definition EXTRACT_BE_U_4 (p : Z) : pr Z := l <~ load p 4 ;; pret (be_val l).
(** The four bytes as they are stored. *)
Definition EXTRACT_IPV4_TO_NETWORK_ORDER (p : Z) : pr (list Z) := load p 4.

(** [nd_print_trunc] of [util-print.c]. *)
Definition nd_print_trunc : pr unit := fun ndo => ND_PRINT (" [|" +:+ ndo_protocol ndo +:+ "]") ndo.

(** ** Clean output *)

(** The characters that are harmless on a terminal. *)
Definition out_char (c : Ascii.ascii) : bool := isprint c || (code c =? 10) || (code c =? 9).
Definition clean (s : string) : bool := sforall out_char s.

Lemma clean_app s t : clean (s +:+ t) = clean s && clean t.
Proof.
  unfold clean. induction s as [|c s IH]; [by rewrite sapp_nil|]. rewrite sapp_cons. cbn. rewrite IH.
  apply andb_assoc.
Qed.

Lemma clean_app2 s t : clean s = true -> clean t = true -> clean (s +:+ t) = true.
Proof. intros. by rewrite clean_app, andb_true_iff. Qed.

Lemma clean_cons c s : out_char c = true -> clean s = true -> clean (String c s) = true.
Proof. intros. unfold clean. cbn. by rewrite andb_true_iff. Qed.

Lemma out_char_digit d : 0 <= d < 16 -> out_char (digit_char d) = true.
Proof.
  intros H. unfold digit_char, out_char, isprint.
  destruct (Z.ltb_spec d 10); rewrite code_chr by lia; apply orb_true_intro; left;
    apply orb_true_intro; left; apply andb_true_intro; split; apply Z.leb_le; lia.
Qed.

Lemma clean_print_base f b n acc :
  1 < b <= 16 -> 0 <= n -> clean acc = true -> clean (print_base f b n acc) = true.
Proof.
  intros Hb. revert n acc. induction f as [|f IH]; intros n acc Hn Ha; [done|]. cbn [print_base].
  destruct (Z.ltb_spec n b).
  - apply clean_cons; [apply out_char_digit; lia|done].
  - apply IH; [apply Z.div_pos; lia|]. apply clean_cons; [|done]. apply out_char_digit.
    pose proof (Z.mod_pos_bound n b). lia.
Qed.

Lemma clean_dec n : clean (dec n) = true.
Proof.
  unfold dec. destruct (Z.ltb_spec n 0); [apply clean_cons; [done|]|]; apply clean_print_base; try done; lia.
Qed.

Lemma clean_hex n : 0 <= n -> clean (hex n) = true.
Proof. intros. by apply clean_print_base. Qed.

Lemma clean_pad0 w s : clean s = true -> clean (pad0 w s) = true.
Proof.
  intros. unfold pad0. apply clean_app2; [|done]. generalize (w - String.length s)%nat as k.
  induction k; [done|]. by apply clean_cons.
Qed.

Lemma clean_hex_pad w n : 0 <= n -> clean (hex_pad w n) = true.
Proof. intros. by apply clean_pad0, clean_hex. Qed.

Create HintDb clean.
#[export] Hint Resolve clean_app2 clean_dec clean_hex clean_pad0 clean_hex_pad : clean.

(** ** The logic of safe printers *)

(** The captured data lies in the packet, and the packet in the address space. *)
Definition ndo_ok (ndo : netdissect_options) : Prop :=
  0 <= ndo_base ndo /\ ndo_base ndo + Z.of_nat (length (ndo_packet ndo)) < 2 ^ 64 /\
  0 <= ndo_snapend ndo <= Z.of_nat (length (ndo_packet ndo)) /\ bytes_ok (ndo_packet ndo) = true /\
  clean (ndo_protocol ndo) = true.

(** What a printer may do to the context: print clean text, lower the end of the
    data and name the protocol. *)
Definition ndo_ext (a b : netdissect_options) : Prop :=
  ndo_packet b = ndo_packet a /\ ndo_base b = ndo_base a /\ ndo_flags b = ndo_flags a /\
  0 <= ndo_snapend b <= ndo_snapend a /\ clean (ndo_protocol b) = true /\
  exists t, ndo_out b = ndo_out a +:+ t /\ clean t = true.

#[export] Instance ndo_ext_trans : Transitive ndo_ext.
Proof.
  intros a b c (Hp & Hb & Hf & Hs & Hc & t & Ho & Ht) (Hp' & Hb' & Hf' & Hs' & Hc' & t' & Ho' & Ht').
  unfold ndo_ext. split_and!; try congruence; try lia.
  exists (t +:+ t'). rewrite Ho', Ho, sapp_assoc. auto with clean.
Qed.

Lemma ndo_ext_refl a : ndo_ok a -> ndo_ext a a.
Proof.
  intros (_ & _ & Hs & _ & Hc). split_and!; try done; try lia. exists EmptyString. by rewrite sapp_nil_r.
Qed.

Lemma ndo_ext_emit a b s : clean s = true -> ndo_ext a b -> ndo_ext a (emit s b).
Proof.
  intros Hs (? & ? & ? & ? & ? & t & Ho & Ht). split_and!; cbn; try done; try lia.
  exists (t +:+ s). rewrite Ho, sapp_assoc. auto with clean.
Qed.

(** From any context reached from [s0], [m] neither faults nor runs out of fuel,
    goes to [trunc:] only when [T] says so, reaches a context [s0] may reach, and
    when it ends normally its result satisfies [Q]. *)
Definition safe {A} (T : bool) (s0 : netdissect_options) (m : pr A) (Q : A -> Prop) : Prop :=
  forall s, ndo_ext s0 s ->
  match m s with
  | (Done a, s') => ndo_ext s0 s' /\ Q a
  | (Stop Trunc, s') => T = true /\ ndo_ext s0 s'
  | (Stop _, _) => False
  end.

(** The [n] bytes at [p] are in the packet. *)
Definition readable (s0 : netdissect_options) (p n : Z) : Prop :=
  0 <= p /\ 0 <= n /\ p + n <= Z.of_nat (length (ndo_packet s0)).

Section rules.
Context (T : bool) (s0 : netdissect_options) (Hok : ndo_ok s0).

Lemma safe_ret {A} (a : A) (Q : A -> Prop) : Q a -> safe T s0 (pret a) Q.
Proof. intros HQ s Hs. done. Qed.

Lemma safe_trunc {A} (Q : A -> Prop) : T = true -> safe T s0 (pstop Trunc) Q.
Proof. intros HT s Hs. done. Qed.

Lemma safe_bind {A B} (m : pr A) (k : A -> pr B) (R : A -> Prop) (Q : B -> Prop) :
  safe T s0 m R -> (forall a, R a -> safe T s0 (k a) Q) -> safe T s0 (pbind m k) Q.
Proof.
  intros Hm Hk s Hs. unfold pbind. specialize (Hm s Hs). destruct (m s) as [[a|[]] s'];
    [destruct Hm as [Hs' HR]; by apply (Hk a HR)|done..].
Qed.

Lemma safe_weaken {A} (m : pr A) (R Q : A -> Prop) :
  safe T s0 m R -> (forall a, R a -> Q a) -> safe T s0 m Q.
Proof.
  intros Hm HQ s Hs. specialize (Hm s Hs). destruct (m s) as [[a|[]] s']; naive_solver.
Qed.

Lemma safe_allow_trunc {A} (m : pr A) (Q : A -> Prop) : safe false s0 m Q -> safe T s0 m Q.
Proof. intros Hm s Hs. specialize (Hm s Hs). destruct (m s) as [[a|[]] s']; naive_solver. Qed.

Lemma safe_on_trunc {A} (m k : pr A) (Q : A -> Prop) :
  safe true s0 m Q -> safe T s0 k Q -> safe T s0 (on_trunc m k) Q.
Proof.
  intros Hm Hk s Hs. unfold on_trunc. specialize (Hm s Hs). destruct (m s) as [[a|[]] s']; try done.
  by apply Hk, Hm.
Qed.

Lemma safe_print str : clean str = true -> safe T s0 (ND_PRINT str) (fun _ => True).
Proof. intros Hc s Hs. split; [by apply ndo_ext_emit|done]. Qed.

Lemma safe_print_trunc : safe T s0 nd_print_trunc (fun _ => True).
Proof.
  intros s Hs. split; [|done]. apply ndo_ext_emit; [|done]. destruct Hs as (_&_&_&_&Hc&_).
  auto with clean.
Qed.

Lemma safe_protocol p : clean p = true -> safe T s0 (set_protocol p) (fun _ => True).
Proof. intros Hc s (?&?&?&?&?&?). done. Qed.

Lemma safe_cut e : 0 <= e -> safe T s0 (cut_snapend e) (fun _ => True).
Proof.
  intros He s (?&?&?&?&?&?). cbn. split; [|done].
  destruct (Z.ltb_spec e (ndo_snapend s)); repeat split; cbn; try done; lia.
Qed.

Lemma safe_flag f : safe T s0 (flag f) (fun v => v = f (ndo_flags s0)).
Proof. intros s Hs. cbn. split; [done|]. by destruct Hs as (_&_&->&_). Qed.

Lemma safe_snapend : safe T s0 (asks ndo_snapend) (fun e => 0 <= e <= ndo_snapend s0).
Proof. intros s Hs. cbn. split; [done|]. by destruct Hs as (_&_&_&?&_). Qed.

(** The test admits no access past the captured data. *)
Lemma ttest_len_bound s p l : l < 2 ^ 64 -> ndo_ext s0 s -> ttest_len s p l = true -> 0 <= l /\ p + l <= ndo_snapend s0.
Proof.
  destruct Hok as (Hb & Hlim & Hsn & _). intros Hl (Hp & Hb' & _ & Hs & _) Ht.
  unfold ttest_len in Ht. bool_to_prop. rewrite Hb' in *.
  destruct (Z.le_gt_cases l (ndo_base s0 + ndo_snapend s)).
  - rewrite u64_small in * by lia. lia.
  - exfalso. unfold u64 in *.
    rewrite <- (Z.mod_add _ 1 (2 ^ 64)), Z.mod_small in * by lia. lia.
Qed.

Lemma ttest_len_complete s p l :
  ndo_ok s -> 0 <= p -> 0 <= l -> p + l <= ndo_snapend s -> ttest_len s p l = true.
Proof.
  intros (Hb & Hlim & Hsn & _) Hp Hl Hpl. unfold ttest_len. rewrite u64_small by lia.
  repeat (apply andb_true_intro; split); apply Z.leb_le; lia.
Qed.

Lemma safe_ttest p l : l < 2 ^ 64 -> safe T s0 (ND_TTEST_LEN p l) (fun b => b = true -> 0 <= l /\ p + l <= ndo_snapend s0).
Proof. intros Hl s Hs. cbn. split; [done|]. by apply ttest_len_bound. Qed.

Lemma safe_tcheck p l : T = true -> l < 2 ^ 64 -> safe T s0 (ND_TCHECK_LEN p l) (fun _ => 0 <= l /\ p + l <= ndo_snapend s0).
Proof.
  intros HT Hl. eapply safe_bind; [by apply safe_ttest|]. intros [] Hb; [by apply safe_ret, Hb|by apply safe_trunc].
Qed.

Lemma safe_load p n :
  readable s0 p n ->
  safe T s0 (load p n) (fun l => mem_read (ndo_packet s0) p n = Some l /\ Z.of_nat (length l) = n /\ bytes_ok l = true).
Proof.
  intros (Hp & Hn & Hpn) s Hs. unfold load. destruct Hs as (Hpk & Hs). rewrite Hpk.
  unfold mem_read. rewrite (proj2 (Z.leb_le 0 p) Hp).
  destruct (slice (ndo_packet s0) (Z.to_nat p) (Z.to_nat n)) as [l|] eqn:E.
  - split; [by split|]. split; [done|]. split; [apply length_slice in E; lia|].
    eapply bytes_ok_slice; [|exact E]. apply Hok.
  - unfold slice in E. destruct (Nat.leb_spec (Z.to_nat p + Z.to_nat n) (length (ndo_packet s0))); [done|lia].
Qed.

Lemma safe_extract {k : nat} p n (f : pr Z) :
  f = (l <~ load p n ;; pret (be_val l)) -> readable s0 p n -> n = Z.of_nat k ->
  safe T s0 f (fun v => 0 <= v < 256 ^ Z.of_nat k).
Proof.
  intros -> Hr ->. eapply safe_bind; [by apply safe_load|]. intros l (_ & Hl & Hb). apply safe_ret.
  apply be_val_bound in Hb. replace (length l) with k in Hb by lia. lia.
Qed.

Lemma safe_u1 p : readable s0 p 1 -> safe T s0 (EXTRACT_U_1 p) (fun v => 0 <= v < 256).
Proof. intros. eapply safe_weaken; [by apply (@safe_extract 1 p 1 _)|done]. Qed.

Lemma safe_u2 p : readable s0 p 2 -> safe T s0 (EXTRACT_BE_U_2 p) (fun v => 0 <= v < 65536).
Proof. intros. eapply safe_weaken; [by apply (@safe_extract 2 p 2 _)|done]. Qed.

Lemma safe_u4 p : readable s0 p 4 -> safe T s0 (EXTRACT_BE_U_4 p) (fun v => 0 <= v < 4294967296).
Proof. intros. eapply safe_weaken; [by apply (@safe_extract 4 p 4 _)|done]. Qed.

Lemma readable_captured p n : 0 <= p -> 0 <= n -> p + n <= ndo_snapend s0 -> readable s0 p n.
Proof. destruct Hok as (_ & _ & Hs & _). unfold readable. lia. Qed.

Lemma readable_sub p n q k : readable s0 p n -> p <= q -> 0 <= k -> q + k <= p + n -> readable s0 q k.
Proof. unfold readable. lia. Qed.
End rules.

(** ** Automation *)

(** Clean text: constants by evaluation, the rest by the lemmas above. *)
Ltac clean_tac :=
  repeat match goal with
  | |- clean (_ +:+ _) = true => apply clean_app2
  | |- clean (dec _) = true => apply clean_dec
  | |- clean (hex _) = true => apply clean_hex; lia
  | |- clean (hex_pad _ _) = true => apply clean_hex_pad; lia
  | |- clean (pad0 _ _) = true => apply clean_pad0
  | |- clean (if ?b then _ else _) = true => destruct b
  | H : ?P |- ?P => exact H
  end; try reflexivity; auto with clean.

(** Bounds from the captured data, from a readable area, or from a bound. *)
Ltac readable_tac :=
  first [ assumption
        | apply readable_captured; [assumption|lia..]
        | match goal with H : readable ?s ?p ?n |- readable ?s _ _ => apply (readable_sub _ _ _ _ _ H); lia end ].

(** One step of a printer, by the rule of its first operation. *)
Ltac safe_prim :=
  lazymatch goal with
  | |- safe _ _ (pret _) _ => apply safe_ret
  | |- safe _ _ (pstop Trunc) _ => apply safe_trunc; reflexivity
  | |- safe _ _ (ND_PRINT _) _ => apply safe_print; clean_tac
  | |- safe _ _ nd_print_trunc _ => apply safe_print_trunc
  | |- safe _ _ (set_protocol _) _ => apply safe_protocol; clean_tac
  | |- safe _ _ (flag _) _ => apply safe_flag
  | |- safe _ _ (asks ndo_snapend) _ => apply safe_snapend
  | |- safe _ _ (cut_snapend _) _ => apply safe_cut; lia
  | |- safe _ _ (ND_TTEST_LEN _ _) _ => apply safe_ttest; [assumption|lia]
  | |- safe _ _ (ND_TCHECK_LEN _ _) _ => apply safe_tcheck; [assumption|reflexivity|lia]
  | |- safe _ _ (load _ _) _ => apply safe_load; [assumption|readable_tac]
  | |- safe _ _ (EXTRACT_IPV4_TO_NETWORK_ORDER _) _ => apply safe_load; [assumption|readable_tac]
  | |- safe _ _ (EXTRACT_U_1 _) _ => apply safe_u1; [assumption|readable_tac]
  | |- safe _ _ (EXTRACT_BE_U_2 _) _ => apply safe_u2; [assumption|readable_tac]
  | |- safe _ _ (EXTRACT_BE_U_4 _) _ => apply safe_u4; [assumption|readable_tac]
  end.

(** What a successful bounds test gives. *)
Ltac use_tests :=
  repeat match goal with
  | H : ?b = true -> _, E : ?b = true |- _ => specialize (H E)
  end.

Ltac safe_step :=
  lazymatch goal with
  | |- safe _ _ (pbind _ _) _ => eapply safe_bind; [solve [safe_prim]|intros ? ?; cbv beta in *]
  | |- safe _ _ (if ?b then _ else _) _ => let E := fresh "E" in destruct b eqn:E; bool_to_prop; use_tests
  | |- safe _ _ (pret _) _ => apply safe_ret
  | |- safe _ _ (pstop Trunc) _ => apply safe_trunc; reflexivity
  | |- safe _ _ _ _ => eapply safe_weaken; [solve [safe_prim]|intros ? ?; cbv beta in *]
  end.
Ltac safe_steps := repeat safe_step.

(** A call of a function with a rule of its own, first or last. *)
Tactic Notation "safe_call" uconstr(L) := eapply safe_bind; [apply L; try assumption; try lia|cbv beta].
Tactic Notation "safe_tail" uconstr(L) := eapply safe_weaken; [apply L; try assumption; try lia|cbv beta].

(** ** Stepping through a printer *)

Lemma run_bind {A B} (m : pr A) (k : A -> pr B) s a s' : m s = (Done a, s') -> pbind m k s = k a s'.
Proof. intros Hm. unfold pbind. by rewrite Hm. Qed.

Lemma run_on_trunc {A} (m k : pr A) s s1 (m1 : pr A) : m s = m1 s1 -> on_trunc m k s = on_trunc m1 k s1.
Proof. intros Hm. unfold on_trunc. by rewrite Hm. Qed.

Lemma run_tcheck_captured s p n :
  ndo_ok s -> 0 <= p -> 0 <= n -> p + n <= ndo_snapend s -> ND_TCHECK_LEN p n s = (Done tt, s).
Proof.
  intros Hok Hp Hn Hpn. unfold ND_TCHECK_LEN, pbind, ND_TTEST_LEN, asks. by rewrite ttest_len_complete.
Qed.

Lemma run_load_captured s p n :
  ndo_ok s -> 0 <= p -> 0 <= n -> p + n <= ndo_snapend s -> exists l, load p n s = (Done l, s).
Proof.
  intros Hok Hp Hn Hpn. pose proof (readable_captured s Hok p n Hp Hn Hpn) as Hr.
  pose proof (safe_load false s Hok p n Hr s (ndo_ext_refl s Hok)) as Hs. unfold load in *. destruct (mem_read _ _ _) as [l|]; [by exists l|done].
Qed.

(** A load from a known part of the packet. *)
Lemma run_load_part s pre msg post (k n : nat) l :
  ndo_packet s = pre ++ msg ++ post -> slice msg k n = Some l ->
  load (Z.of_nat (length pre) + Z.of_nat k) (Z.of_nat n) s = (Done l, s).
Proof.
  intros Hp Hl. unfold load. rewrite Hp, (mem_read_at pre _ _ _ l); [done|lia|]. rewrite !Nat2Z.id.
  apply slice_Some in Hl as [Hle ->]. apply slice_Some. rewrite length_app. split; [lia|].
  by rewrite drop_app_le, take_app_le by (rewrite ?length_drop; lia).
Qed.
