(* ===== verification/UtilPrint.v ===== *)
(** * The shared printing routines of tcpdump

    Models [tcpdump/util-print.c]: the filters for characters and strings of
    the packet, time stamps, relative times, token tables, network masks and
    the printer of text protocols. [localtime] and [gmtime] are arguments; the
    static buffers of the token functions are values, which is what the callers
    see as long as they use a result before the fourth next call. *)
From stdpp Require Import base list numbers strings.
From Stdlib Require Import ZArith Lia Ascii.
From S2P Require Import Prelude Cstring Netdissect.

Open Scope Z_scope.
Open Scope pr_scope.

(** ** Characters and strings *)

Definition char1 (c : Z) : string := String (chr c) EmptyString.

Definition fn_print_char (c : Z) : pr unit :=
  let nonascii := negb (Z.land c 128 =? 0) in
  (if nonascii then ND_PRINT "M-" else pret tt) ;~
  let c := if nonascii then Z.land c 127 else c in
  let nonprint := negb ((32 <=? c) && (c <=? 126)) in
  (if nonprint then ND_PRINT "^" else pret tt) ;~
  ND_PRINT (char1 (if nonprint then u8 (Z.lxor c 64) else c)).

(** The string has no NUL. *)
Fixpoint fn_print_str (s : string) : pr unit :=
  match s with
  | EmptyString => pret tt
  | String c s' => fn_print_char (code c) ;~ fn_print_str s'
  end.

(** [ep == NULL || s < ep]. *)
Definition before (s : Z) (ep : option Z) : bool :=
  match ep with None => true | Some e => s <? e end.

Fixpoint nd_print_loop (fuel : nat) (s : Z) (ep : option Z) : pr Z :=
  match fuel with
  | O => pstop Fuel
  | S f =>
      if before s ep then
        c <~ EXTRACT_U_1 s ;;
        if c =? 0 then pret 0
        else fn_print_char c ;~ nd_print_loop f (s + 1) ep
      else pret 1
  end.

(** Every iteration that does not end the loop reads a byte of the packet. *)
Definition nd_print (s : Z) (ep : option Z) : pr Z := fun ndo =>
  nd_print_loop (S (length (ndo_packet ndo))) s ep ndo.

Fixpoint nd_printztn_loop (n : nat) (s : Z) (ep : option Z) (bytes : Z) : pr Z :=
  match n with
  | O => pret 0
  | S n' =>
      if negb (before s ep) then pret 0
      else
        c <~ EXTRACT_U_1 s ;;
        if c =? 0 then pret (u32 (bytes + 1))
        else fn_print_char c ;~ nd_printztn_loop n' (s + 1) ep (u32 (bytes + 1))
  end.
Definition nd_printztn (s n : Z) (ep : option Z) : pr Z := nd_printztn_loop (Z.to_nat n) s ep 0.

Fixpoint nd_printn_loop (n : nat) (s : Z) (ep : option Z) : pr Z :=
  match n with
  | O => pret 0
  | S n' =>
      if before s ep then
        c <~ EXTRACT_U_1 s ;; fn_print_char c ;~ nd_printn_loop n' (s + 1) ep
      else pret 1
  end.
Definition nd_printn (s n : Z) (ep : option Z) : pr Z := nd_printn_loop (Z.to_nat n) s ep.

Fixpoint nd_printzp_loop (n : nat) (s : Z) (ep : option Z) : pr Z :=
  match n with
  | O => pret 0
  | S n' =>
      if before s ep then
        c <~ EXTRACT_U_1 s ;;
        if c =? 0 then pret 0
        else fn_print_char c ;~ nd_printzp_loop n' (s + 1) ep
      else pret 1
  end.
Definition nd_printzp (s n : Z) (ep : option Z) : pr Z := nd_printzp_loop (Z.to_nat n) s ep.

(** ** Time stamps *)

Definition PCAP_TSTAMP_PRECISION_MICRO : Z := 0.
Definition PCAP_TSTAMP_PRECISION_NANO : Z := 1.

(** [struct tm], the fields the two formats use. *)
Record tm := mk_tm { tm_year : Z; tm_mon : Z; tm_mday : Z; tm_hour : Z; tm_min : Z; tm_sec : Z }.
Record timeval := mk_timeval { tv_sec : Z; tv_usec : Z }.

#[export] Instance timeval_eq_dec : EqDecision timeval.
Proof. solve_decision. Defined.

(** [strftime] with ["%H:%M:%S"] and with ["%Y-%m-%d %H:%M:%S"]. *)
Definition strftime_time (t : tm) : string :=
  pad0 2 (dec (tm_hour t)) +:+ ":" +:+ pad0 2 (dec (tm_min t)) +:+ ":" +:+ pad0 2 (dec (tm_sec t)).
Definition strftime_date_time (t : tm) : string :=
  dec (tm_year t + 1900) +:+ "-" +:+ pad0 2 (dec (tm_mon t + 1)) +:+ "-" +:+ pad0 2 (dec (tm_mday t))
  +:+ " " +:+ strftime_time t.

Definition ts_frac_print (usec : Z) : pr unit :=
  p <~ flag f_tstamp_precision ;;
  if p =? PCAP_TSTAMP_PRECISION_MICRO then ND_PRINT ("." +:+ pad0 6 (dec (u32 usec)))
  else if p =? PCAP_TSTAMP_PRECISION_NANO then ND_PRINT ("." +:+ pad0 9 (dec (u32 usec)))
  else ND_PRINT ".{unknown}".

(** [sec] and [usec] are [int]s; the caller's conversion is part of the call. *)
Definition ts_date_hmsfrac_print (conv : Z -> option tm) (sec usec : Z) (with_date : bool) : pr unit :=
  if negb (Z.land (u32 sec) 2147483648 =? 0) then ND_PRINT "[Error converting time]"
  else match conv sec with
  | None => ND_PRINT "[Error converting time]"
  | Some t =>
      ND_PRINT (if with_date then strftime_date_time t else strftime_time t) ;~
      ts_frac_print usec
  end.

Definition ts_unix_print (sec usec : Z) : pr unit :=
  ND_PRINT (dec (u32 sec)) ;~ ts_frac_print usec.

Definition timevalisset (t : timeval) : bool := negb (tv_sec t =? 0) || negb (tv_usec t =? 0).
Definition timevallt (t u : timeval) : bool :=
  if tv_sec t =? tv_sec u then tv_usec t <? tv_usec u else tv_sec t <? tv_sec u.
Definition timevalsub (t u : timeval) (nano_prec : bool) : timeval :=
  let s := tv_sec t - tv_sec u in
  let us := tv_usec t - tv_usec u in
  if us <? 0 then mk_timeval (s - 1) (us + (if nano_prec then 1000000000 else 1000000))
  else mk_timeval s us.

(** The static [tv_ref] is passed and returned. *)
Definition ts_print (localtime gmtime : Z -> option tm) (tv_ref tvp : timeval) : pr timeval :=
  t <~ flag f_tflag ;;
  if t =? 0 then
    ts_date_hmsfrac_print localtime (s32 (tv_sec tvp)) (s32 (tv_usec tvp)) false ;~ ND_PRINT " " ;~ pret tv_ref
  else if t =? 1 then pret tv_ref
  else if t =? 2 then
    ts_unix_print (s32 (tv_sec tvp)) (s32 (tv_usec tvp)) ;~ ND_PRINT " " ;~ pret tv_ref
  else if (t =? 3) || (t =? 5) then
    p <~ flag f_tstamp_precision ;;
    let nano_prec := p =? PCAP_TSTAMP_PRECISION_NANO in
    let tv_ref := if timevalisset tv_ref then tv_ref else tvp in
    let negative_offset := timevallt tvp tv_ref in
    let r := if negative_offset then timevalsub tv_ref tvp nano_prec else timevalsub tvp tv_ref nano_prec in
    ND_PRINT (if negative_offset then "-" else " ") ;~
    ts_date_hmsfrac_print gmtime (s32 (tv_sec r)) (s32 (tv_usec r)) false ;~ ND_PRINT " " ;~
    pret (if t =? 3 then tvp else tv_ref)
  else if t =? 4 then
    ts_date_hmsfrac_print localtime (s32 (tv_sec tvp)) (s32 (tv_usec tvp)) true ;~ ND_PRINT " " ;~ pret tv_ref
  else pret tv_ref.

(** [lengths] and [seconds], which the loop steps through together. *)
Definition relts_units : list (string * Z) :=
  [("y"%string, 31536000); ("w"%string, 604800); ("d"%string, 86400); ("h"%string, 3600); ("m"%string, 60);
   ("s"%string, 1)].

(** Running off the tables is a load outside them. *)
Fixpoint relts_loop (units : list (string * Z)) (secs : Z) : pr unit :=
  if secs =? 0 then pret tt
  else match units with
  | [] => pstop Fault
  | (l, s) :: units' =>
      if s <=? secs then ND_PRINT (dec (secs / s) +:+ l) ;~ relts_loop units' (u32 (secs - secs / s * s))
      else relts_loop units' secs
  end.

Definition unsigned_relts_print (secs : Z) : pr unit :=
  if secs =? 0 then ND_PRINT "0s" else relts_loop relts_units secs.

Definition signed_relts_print (secs : Z) : pr unit :=
  if secs <? 0 then
    ND_PRINT "-" ;~
    unsigned_relts_print (if secs =? - 2 ^ 31 then 2147483648 else u32 (- secs))
  else unsigned_relts_print secs.

(** ** Token tables *)

(** [struct tok] arrays, without the entry with a null string that ends them. *)
Definition tok : Type := Z * string.

(** [nd_snprintf(buf, bufsize, ...)] of a formatted text. *)
Definition snprintf (bufsize : nat) (text : string) : string := String.substring 0 (bufsize - 1) text.

Definition TOKBUFSIZE : nat := 128.

(** A format is the function it denotes; [None] is a null pointer. *)
Definition tok2strbuf (lp : list tok) (fmt : option (Z -> string)) (v : Z) (bufsize : nat) : string :=
  match list_find (fun t => fst t = v) lp with
  | Some (_, t) => snd t
  | None => snprintf bufsize (default (fun v => "#" +:+ dec (s32 v)) fmt v)
  end.

Definition tok2str (lp : list tok) (fmt : option (Z -> string)) (v : Z) : string :=
  tok2strbuf lp fmt v TOKBUFSIZE.

(** Whether one of the single bits [1 << i] gives [tokval == (v & rotbit)]. *)
Definition rotbit_match (tokval v : Z) : bool :=
  existsb (fun i => tokval =? Z.land v (2 ^ i)) (seqZ 0 32).

(** [buf] holds what was copied so far; [strlcpy] leaves a truncated copy and
    the function returns it. *)
Definition append_room (buf s : string) (space_left : Z) : string + (string * Z) :=
  if space_left <=? 1 then inl buf
  else if space_left <=? slen s then inl (buf +:+ String.substring 0 (Z.to_nat (space_left - 1)) s)
  else inr (buf +:+ s, space_left - slen s).

Fixpoint bittok_loop (lp : list tok) (v : Z) (sep sepstr buf : string) (space_left : Z) : string + (string * Z) :=
  match lp with
  | [] => inr (buf, space_left)
  | (tokval, s) :: lp' =>
      if rotbit_match tokval v then
        match append_room buf sepstr space_left with
        | inl r => inl r
        | inr (buf1, space1) =>
            match append_room buf1 s space1 with
            | inl r => inl r
            | inr (buf2, space2) => bittok_loop lp' v sep sep buf2 space2
            end
        end
      else bittok_loop lp' v sep sepstr buf space_left
  end.

Definition bittok2str_internal (lp : list tok) (fmt : option (Z -> string)) (v : Z) (sep : string) : string :=
  match bittok_loop lp v sep EmptyString EmptyString 1025 with
  | inl r => r
  | inr (buf, _) =>
      if slen buf =? 0 then snprintf 1025 (default (fun v => "#" +:+ hex_pad 8 v) fmt v) else buf
  end.

Definition bittok2str_nosep (lp : list tok) (fmt : option (Z -> string)) (v : Z) : string :=
  bittok2str_internal lp fmt v EmptyString.
Definition bittok2str (lp : list tok) (fmt : option (Z -> string)) (v : Z) : string :=
  bittok2str_internal lp fmt v ", ".

(** [lp] has [n] entries. *)
Definition tok2strary_internal (lp : list (option string)) (fmt : option (Z -> string)) (v : Z) : string :=
  match (if 0 <=? v then mjoin (lp !! Z.to_nat v) else None) with
  | Some s => s
  | None => snprintf TOKBUFSIZE (default (fun v => "#" +:+ dec v) fmt v)
  end.

(** ** Network masks *)

Definition bitmasks32 : list Z :=
  [0x00000000;
   0x80000000; 0xc0000000; 0xe0000000; 0xf0000000;
   0xf8000000; 0xfc000000; 0xfe000000; 0xff000000;
   0xff800000; 0xffc00000; 0xffe00000; 0xfff00000;
   0xfff80000; 0xfffc0000; 0xfffe0000; 0xffff0000;
   0xffff8000; 0xffffc000; 0xffffe000; 0xfffff000;
   0xfffff800; 0xfffffc00; 0xfffffe00; 0xffffff00;
   0xffffff80; 0xffffffc0; 0xffffffe0; 0xfffffff0;
   0xfffffff8; 0xfffffffc; 0xfffffffe; 0xffffffff].

(** [while (prefix_len >= 0) { if (...) break; prefix_len--; }], from the end of
    the table. *)
Fixpoint mask2plen_loop (n : nat) (mask : Z) : Z :=
  match n with
  | O => -1
  | S i => if decide (bitmasks32 !! i = Some mask) then Z.of_nat i else mask2plen_loop i mask
  end.
Definition mask2plen (mask : Z) : Z := mask2plen_loop 33 mask.

Definition bitmasks8 : list Z := [0x00; 0x80; 0xc0; 0xe0; 0xf0; 0xf8; 0xfc; 0xfe; 0xff].

(** [mask] is the bytes not looked at yet, [cidr_len] the sum so far. *)
Fixpoint mask62plen_loop (mask : list Z) (cidr_len : Z) : Z :=
  match mask with
  | [] => cidr_len
  | b :: mask' =>
      let cidr_len := cidr_len + match list_find (eq b) bitmasks8 with Some (bits, _) => Z.of_nat bits | None => 0 end in
      if b =? 0xff then mask62plen_loop mask' cidr_len else cidr_len
  end.
Definition mask62plen (mask : list Z) : Z := mask62plen_loop (take 16 mask) 0.

(** ** Text protocols *)

Definition MAX_TOKEN : Z := 128.
Definition isascii (c : Z) : bool := c <? 128.

(** The characters of the token, until white space or the end. [None] is a
    return of zero; [k] iterations are left. *)
Fixpoint token_chars (k : nat) (pptr idx : Z) (tbuf : list Z) (tbuflen : Z) : pr (option (Z * list Z)) :=
  match k with
  | O => pret (Some (idx, tbuf))
  | S k' =>
      b <~ ND_TTEST_LEN (pptr + idx) 1 ;;
      if negb b then pret None
      else
        c <~ EXTRACT_U_1 (pptr + idx) ;;
        if negb (isascii c) then pret None
        else if isspace (chr c) then pret (Some (idx, tbuf))
        else if negb (isprint (chr c)) then pret None
        else if tbuflen <? Z.of_nat (length tbuf) + 2 then pret None
        else token_chars k' pptr (idx + 1) (tbuf ++ [c]) tbuflen
  end.

(** The white space after it. *)
Fixpoint token_skip (k : nat) (pptr idx : Z) : pr Z :=
  match k with
  | O => pret idx
  | S k' =>
      b <~ ND_TTEST_LEN (pptr + idx) 1 ;;
      if negb b then pret idx
      else
        c <~ EXTRACT_U_1 (pptr + idx) ;;
        if (c =? 13) || (c =? 10) then pret idx
        else if negb (isascii c) || negb (isprint (chr c)) then pret idx
        else if negb (isspace (chr c)) then pret idx
        else token_skip k' pptr (idx + 1)
  end.

(** The index after the token and the token; zero on error. *)
Definition fetch_token (pptr idx len tbuflen : Z) : pr (Z * list Z) :=
  t <~ token_chars (Z.to_nat (len - idx)) pptr idx [] tbuflen ;;
  match t with
  | None => pret (0, [])
  | Some (idx', tbuf) =>
      if (length tbuf =? 0)%nat then pret (0, [])
      else i <~ token_skip (Z.to_nat (len - idx')) pptr idx' ;; pret (i, tbuf)
  end.

(** [%.*s]: at most the bytes given, up to a NUL. *)
Fixpoint text_of (l : list Z) : string :=
  match l with
  | [] => EmptyString
  | c :: l' => if c =? 0 then EmptyString else String (chr c) (text_of l')
  end.

(** With a precision of zero nothing is read. *)
Definition load_text (p n : Z) : pr (list Z) := if n =? 0 then pret [] else load p n.

Inductive txt_line := LinePrint (linelen idx : Z) | LineTrunc (linelen : Z) | LineBinary.

(** The scan for a line ending: a test of [ND_TCHECK_1] that fails goes to
    [trunc:]. *)
Fixpoint txt_line_loop (k : nat) (pptr startidx idx len : Z) : pr txt_line :=
  match k with
  | O => pret (LineTrunc (idx - startidx))
  | S k' =>
      b <~ ND_TTEST_LEN (pptr + idx) 1 ;;
      if negb b then pret (LineTrunc (idx - startidx))
      else
        c <~ EXTRACT_U_1 (pptr + idx) ;;
        if c =? 10 then pret (LinePrint (idx - startidx) (idx + 1))
        else if c =? 13 then
          if len <=? idx + 1 then pret LineBinary
          else
            b1 <~ ND_TTEST_LEN (pptr + idx + 1) 1 ;;
            if negb b1 then pret (LineTrunc (idx - startidx))
            else
              d <~ EXTRACT_U_1 (pptr + idx + 1) ;;
              if d =? 10 then pret (LinePrint (idx - startidx) (idx + 2)) else pret LineBinary
        else if negb (isascii c) || (negb (isprint (chr c)) && negb (c =? 9)) then pret LineBinary
        else txt_line_loop k' pptr startidx (idx + 1) len
  end.

Definition print_txt_line (protoname prefix : string) (pptr idx len : Z) : pr Z :=
  r <~ txt_line_loop (Z.to_nat (len - idx)) pptr idx idx len ;;
  match r with
  | LineBinary => pret 0
  | LineTrunc linelen =>
      l <~ load_text (pptr + idx) linelen ;;
      ND_PRINT (prefix +:+ text_of l +:+ "[!" +:+ protoname +:+ "]") ;~ pret 0
  | LinePrint linelen idx' =>
      l <~ load_text (pptr + idx) linelen ;; ND_PRINT (prefix +:+ text_of l) ;~ pret idx'
  end.

(** [charmap] of [ascii_strcasecmp.c]: upper case letters to lower case. *)
Definition charmap (c : Z) : Z := if (65 <=? c) && (c <=? 90) then c + 32 else c.
Definition toupper (c : ascii) : ascii :=
  if (97 <=? code c) && (code c <=? 122) then chr (code c - 32) else c.

(** [ascii_strcasecmp] of two strings: the difference at the first mismatch, the
    end of a string counting as a zero byte. *)
Fixpoint ascii_strcasecmp (s1 s2 : list Z) : Z :=
  match s1, s2 with
  | [], [] => 0
  | a :: s1', b :: s2' => if charmap a =? charmap b then ascii_strcasecmp s1' s2' else charmap a - charmap b
  | a :: _, [] => charmap a
  | [], b :: _ => - charmap b
  end.

Definition codes (s : string) : list Z := code <$> String.list_ascii_of_string s.

(** [isdigit(token[0]) && ... && token[3] == '\0']. *)
Definition three_digits (token : list Z) : bool :=
  match token with
  | [a; b; c] => isdigit (chr a) && isdigit (chr b) && isdigit (chr c)
  | _ => false
  end.

Definition RESP_CODE_SECOND_TOKEN : Z := 1.

(** Whether the first line looks like a request or a response; the early [break]
    of the search for the request name does not skip the response test. *)
Definition txt_print_this (pptr len : Z) (cmds : option (list string)) (flags : Z) : pr bool :=
  match cmds with
  | None => pret true
  | Some names =>
      t <~ fetch_token pptr 0 len (MAX_TOKEN + 1) ;;
      if t.1 =? 0 then pret false
      else
        let request := existsb (fun cmd => ascii_strcasecmp t.2 (codes cmd) =? 0) names in
        t' <~ (if negb (Z.land flags RESP_CODE_SECOND_TOKEN =? 0)
               then fetch_token pptr t.1 len (MAX_TOKEN + 1) else pret t) ;;
        pret (request || (negb (t'.1 =? 0) && three_digits t'.2))
  end.

(** The lines of the verbose mode; a line printed ends after it started. *)
Fixpoint txt_lines (fuel : nat) (protoname : string) (pptr idx len : Z) : pr unit :=
  match fuel with
  | O => pstop Fuel
  | S f =>
      if idx <? len then
        eol <~ print_txt_line protoname (String (chr 10) (String (chr 9) EmptyString)) pptr idx len ;;
        if eol =? 0 then pret tt else txt_lines f protoname pptr eol len
      else pret tt
  end.

Definition txtproto_print (pptr len : Z) (protoname : string) (cmds : option (list string)) (flags : Z) : pr unit :=
  print_this <~ txt_print_this pptr len cmds flags ;;
  ND_PRINT (smap toupper protoname) ;~
  if negb print_this then pret tt
  else
    v <~ flag f_vflag ;;
    if negb (v =? 0) then
      ND_PRINT (", length: " +:+ dec len) ;~ txt_lines (S (Z.to_nat len)) protoname pptr 0 len
    else print_txt_line protoname ": " pptr 0 len ;~ pret tt.

(** ** The visible form of a byte *)

Definition vis (c : Z) : string :=
  let m := if c <? 128 then c else c - 128 in
  (if c <? 128 then EmptyString else "M-"%string) +:+
  (if (32 <=? m) && (m <=? 126) then char1 m else "^"%string +:+ char1 (Z.lxor m 64)).

Fixpoint vis_bytes (l : list Z) : string :=
  match l with
  | [] => EmptyString
  | c :: l' => vis c +:+ vis_bytes l'
  end.

Lemma emit_emit a b s : emit b (emit a s) = emit (a +:+ b) s.
Proof. unfold emit. cbn. by rewrite sapp_assoc. Qed.

Lemma emit_nil s : emit EmptyString s = s.
Proof. destruct s. unfold emit. cbn. by rewrite sapp_nil_r. Qed.

Lemma fn_print_char_text c s : 0 <= c < 256 -> fn_print_char c s = (Done tt, emit (vis c) s).
Proof.
  intros Hc. unfold fn_print_char, vis.
  assert (H : (Z.land c 128 =? 0) = (c <? 128) /\ Z.land c 127 = (if c <? 128 then c else c - 128) /\
    u8 (Z.lxor (Z.land c 127) 64) = Z.lxor (Z.land c 127) 64).
  { apply (byte_cases (fun c => bool_decide ((Z.land c 128 =? 0) = (c <? 128) /\
      Z.land c 127 = (if c <? 128 then c else c - 128) /\
      u8 (Z.lxor (Z.land c 127) 64) = Z.lxor (Z.land c 127) 64))) in Hc; [|by vm_compute].
    by apply bool_decide_eq_true in Hc. }
  destruct H as (H1 & H2 & H3). rewrite H1. destruct (c <? 128); cbn [negb]; rewrite ?H2 in *.
  - destruct ((32 <=? c) && (c <=? 126)); unfold pbind, ND_PRINT, pret; cbn [negb];
      rewrite ?H3, ?emit_emit; done.
  - destruct ((32 <=? c - 128) && (c - 128 <=? 126)); unfold pbind, ND_PRINT, pret; cbn [negb];
      rewrite ?H3, ?emit_emit, <- ?sapp_assoc; done.
Qed.

Lemma clean_vis c : 0 <= c < 256 -> clean (vis c) = true.
Proof. revert c. apply byte_cases. by vm_compute. Qed.

Lemma safe_print_char T s0 c : 0 <= c < 256 -> safe T s0 (fn_print_char c) (fun _ => True).
Proof.
  intros Hc s Hs. rewrite fn_print_char_text by done. split; [|done]. apply ndo_ext_emit; [by apply clean_vis|done].
Qed.

(** ** Fields of the packet *)

(** The number of bytes of a field of [n] bytes at [p] before [ep]. *)
Definition avail (p n : Z) (ep : option Z) : Z :=
  match ep with None => n | Some e => Z.max 0 (Z.min n (e - p)) end.

(** The bytes before the first NUL, and whether there is one. *)
Fixpoint until_nul (l : list Z) : list Z * bool :=
  match l with
  | [] => ([], false)
  | c :: l' => if c =? 0 then ([], true) else (c :: (until_nul l').1, (until_nul l').2)
  end.

Lemma avail_S p n ep :
  0 <= n -> avail p (n + 1) ep = if before p ep then avail (p + 1) n ep + 1 else 0.
Proof. unfold avail, before. destruct ep as [e|]; [destruct (Z.ltb_spec p e)|]; lia. Qed.

Lemma mem_read_cons mem p n c l :
  0 <= n -> mem_read mem p (n + 1) = Some (c :: l) ->
  mem_read mem p 1 = Some [c] /\ mem_read mem (p + 1) n = Some l.
Proof.
  unfold mem_read. intros Hn. destruct (Z.leb_spec 0 p); [|done]. rewrite (proj2 (Z.leb_le 0 (p + 1))) by lia.
  intros [Hlen Hl]%slice_Some. replace (Z.to_nat (n + 1)) with (S (Z.to_nat n)) in * by lia.
  replace (Z.to_nat (p + 1)) with (S (Z.to_nat p)) by lia. rewrite !slice_Some.
  destruct (drop (Z.to_nat p) mem) as [|c' r] eqn:E; [by destruct (Z.to_nat n)|].
  cbn [take] in Hl. simplify_eq. replace (drop (S (Z.to_nat p)) mem) with r.
  - split; split; try lia; done.
  - replace (S (Z.to_nat p)) with (Z.to_nat p + 1)%nat by lia. by rewrite <- drop_drop, E.
Qed.

Lemma mem_read_nil mem p l : mem_read mem p 0 = Some l -> l = [].
Proof.
  unfold mem_read. destruct (Z.leb_spec 0 p); [|done]. intros [_ ->]%slice_Some. done.
Qed.

Lemma mem_read_length mem p n l : mem_read mem p n = Some l -> 0 <= n -> Z.of_nat (length l) = n.
Proof.
  unfold mem_read. destruct (Z.leb_spec 0 p); [|done]. intros ?%length_slice. lia.
Qed.

Lemma be_val_1 c : be_val [c] = c.
Proof. change (c + 256 * 0 = c). lia. Qed.

(** The field holds [l], bytes. *)
Definition field (s : netdissect_options) (p n : Z) (ep : option Z) (l : list Z) : Prop :=
  mem_read (ndo_packet s) p (avail p n ep) = Some l /\ bytes_ok l = true.

(** A field of one byte more is at its end, or has a first byte and a rest. *)
Lemma field_S s p n ep l :
  0 <= n -> field s p (n + 1) ep l ->
  (before p ep = false /\ l = []) \/
  (before p ep = true /\ exists c l', l = c :: l' /\ 0 <= c < 256 /\
    EXTRACT_U_1 p s = (Done c, s) /\ forall t, field (emit t s) (p + 1) n ep l').
Proof.
  intros Hn [Hl Hb]. rewrite avail_S in Hl by done. destruct (before p ep).
  - right. split; [done|]. assert (Ha : 0 <= avail (p + 1) n ep) by (unfold avail; destruct ep; lia).
    pose proof (mem_read_length _ _ _ _ Hl ltac:(lia)). destruct l as [|c l']; [cbn in *; lia|].
    apply mem_read_cons in Hl as [H1 H2]; [|done]. apply bytes_ok_cons in Hb as [Hc Hb].
    exists c, l'. split; [done|]. split; [done|]. split; [|by split].
    unfold EXTRACT_U_1, pbind, load. rewrite H1. unfold pret. by rewrite be_val_1.
  - left. split; [done|]. by apply mem_read_nil in Hl.
Qed.

Lemma field_0 s p ep l : field s p (Z.of_nat 0) ep l -> l = [].
Proof.
  intros [Hl _]. replace (avail p (Z.of_nat 0) ep) with 0 in Hl by (unfold avail; destruct ep; lia).
  by apply mem_read_nil in Hl.
Qed.

(** The step of an induction over a field: its end, or its next byte [c]. *)
Ltac field_case Hl :=
  rewrite Nat2Z.inj_succ, <- Z.add_1_r in Hl;
  apply field_S in Hl as [[Hbf ->]|(Hbf & c & l' & -> & Hc & HE & Hf)]; [| |lia];
  cbn -[EXTRACT_U_1]; rewrite Hbf; [by rewrite ?emit_nil|]; cbn [negb];
  unfold pbind; rewrite HE.

Lemma nd_printn_loop_text n ep : forall s p l,
  field s p (Z.of_nat n) ep l ->
  nd_printn_loop n p ep s = (Done (if (length l =? n)%nat then 0 else 1), emit (vis_bytes l) s).
Proof.
  induction n as [|n IH]; intros s p l Hl.
  - apply field_0 in Hl as ->. cbn. by rewrite emit_nil.
  - field_case Hl. rewrite fn_print_char_text, IH with (l := l') by done. by rewrite emit_emit.
Qed.

Lemma nd_printzp_loop_text n ep : forall s p l,
  field s p (Z.of_nat n) ep l ->
  nd_printzp_loop n p ep s =
    (Done (if (until_nul l).2 || (length l =? n)%nat then 0 else 1), emit (vis_bytes (until_nul l).1) s).
Proof.
  induction n as [|n IH]; intros s p l Hl.
  - apply field_0 in Hl as ->. cbn. by rewrite emit_nil.
  - field_case Hl. cbn [until_nul length]. destruct (c =? 0); [cbn; by rewrite emit_nil|].
    rewrite fn_print_char_text, IH with (l := l') by done. by rewrite emit_emit.
Qed.

Lemma nd_printztn_loop_text n ep : forall s p l bytes,
  field s p (Z.of_nat n) ep l -> 0 <= bytes -> bytes + Z.of_nat n < 2 ^ 32 ->
  nd_printztn_loop n p ep bytes s =
    (Done (if (until_nul l).2 then bytes + Z.of_nat (length (until_nul l).1) + 1 else 0),
     emit (vis_bytes (until_nul l).1) s).
Proof.
  induction n as [|n IH]; intros s p l bytes Hl H0 Hn.
  - apply field_0 in Hl as ->. cbn. by rewrite emit_nil.
  - field_case Hl. cbn [until_nul]. destruct (c =? 0).
    + cbn. rewrite emit_nil, u32_small by lia. unfold pret. f_equal. f_equal. lia.
    + rewrite fn_print_char_text, IH with (l := l') by (try done; rewrite ?u32_small by lia; lia).
      rewrite emit_emit, u32_small by lia. cbn [fst snd length]. destruct ((until_nul l').2); [|done].
      f_equal. f_equal. lia.
Qed.

(** ** Text protocols *)

Section txtproto.
Context (s0 : netdissect_options) (Hok : ndo_ok s0).

Lemma safe_token_chars k pptr idx tbuf n :
  0 <= pptr -> 0 <= idx ->
  safe false s0 (token_chars k pptr idx tbuf n)
    (fun r => match r with Some (i, _) => idx <= i <= idx + Z.of_nat k | None => True end).
Proof.
  intros Hp. revert idx tbuf. induction k as [|k IH]; intros idx tbuf Hi; cbn [token_chars];
    [apply safe_ret; lia|].
  safe_steps; try done; try lia. safe_tail IH. intros [[i ?]|] ?; [lia|done].
Qed.

Lemma safe_token_skip k pptr idx :
  0 <= pptr -> 0 <= idx -> safe false s0 (token_skip k pptr idx) (fun i => idx <= i <= idx + Z.of_nat k).
Proof.
  intros Hp. revert idx. induction k as [|k IH]; intros idx Hi; cbn [token_skip]; [apply safe_ret; lia|].
  safe_steps; try lia. safe_tail IH. intros; lia.
Qed.

Lemma safe_fetch_token pptr idx len n :
  0 <= pptr -> 0 <= idx <= len ->
  safe false s0 (fetch_token pptr idx len n) (fun r => r.1 = 0 \/ idx <= r.1 <= len).
Proof.
  intros Hp Hi. unfold fetch_token. safe_call safe_token_chars.
  intros [[i tbuf]|] Hr; [|by apply safe_ret; left]. destruct (length tbuf =? 0)%nat; [by apply safe_ret; left|].
  safe_call safe_token_skip. intros j Hj. apply safe_ret. cbn. lia.
Qed.

Lemma safe_txt_print_this pptr len cmds flags :
  0 <= pptr -> 0 <= len -> safe false s0 (txt_print_this pptr len cmds flags) (fun _ => True).
Proof.
  intros Hp Hl. unfold txt_print_this. destruct cmds; [|by apply safe_ret].
  safe_call safe_fetch_token. intros [i t] Hi. cbn [fst snd] in *.
  case_test; [by apply safe_ret|].
  eapply (safe_bind _ _ _ _ (fun _ => True)); [|intros; by apply safe_ret].
  case_test; [|by apply safe_ret]. by safe_tail safe_fetch_token.
Qed.

(** The bytes of a line so far: captured, and clean as text. *)
Definition line_ok (pptr a b : Z) : Prop :=
  a <= b /\ (a < b -> pptr + b <= ndo_snapend s0) /\
  forall l, mem_read (ndo_packet s0) (pptr + a) (b - a) = Some l -> Forall (fun c => out_char (chr c) = true) l.

Lemma line_ok_nil pptr a : line_ok pptr a a.
Proof. split; [lia|]. split; [lia|]. rewrite Z.sub_diag. by intros l ->%mem_read_nil. Qed.

Lemma mem_read_snoc mem p n l :
  0 <= p -> 0 <= n -> mem_read mem p (n + 1) = Some l ->
  exists l' c, l = l' ++ [c] /\ mem_read mem p n = Some l' /\ mem_read mem (p + n) 1 = Some [c].
Proof.
  unfold mem_read. intros Hp Hn. rewrite !(proj2 (Z.leb_le _ _)) by lia.
  intros [Hlen ->]%slice_Some. replace (Z.to_nat (n + 1)) with (S (Z.to_nat n)) in * by lia.
  destruct (lookup_lt_is_Some_2 mem (Z.to_nat p + Z.to_nat n)) as [c Hc]; [lia|].
  exists (take (Z.to_nat n) (drop (Z.to_nat p) mem)), c. rewrite !slice_Some.
  replace (Z.to_nat (p + n)) with (Z.to_nat p + Z.to_nat n)%nat by lia.
  split; [apply take_S_r; by rewrite lookup_drop|]. split; [split; [lia|done]|].
  split; [cbn; lia|]. by rewrite (drop_S _ c).
Qed.

Lemma line_ok_snoc pptr a b c :
  0 <= pptr -> 0 <= a -> line_ok pptr a b -> pptr + b + 1 <= ndo_snapend s0 ->
  mem_read (ndo_packet s0) (pptr + b) 1 = Some [c] -> out_char (chr c) = true -> line_ok pptr a (b + 1).
Proof.
  intros Hp Ha (Hab & Hcap & Hl) Hs Hc Ho. split; [lia|]. split; [lia|]. intros l Hm.
  replace (b + 1 - a) with ((b - a) + 1) in Hm by lia.
  apply mem_read_snoc in Hm as (l' & c' & -> & Hl' & Hc'); [|lia..].
  replace (pptr + a + (b - a)) with (pptr + b) in Hc' by lia. simplify_eq.
  apply Forall_app. split; [by apply Hl|by repeat constructor].
Qed.

Lemma clean_text_of l : Forall (fun c => out_char (chr c) = true) l -> clean (text_of l) = true.
Proof.
  induction 1 as [|c l Hc _ IH]; [done|]. cbn. case_test; [done|]. by apply clean_cons.
Qed.

(** What the scan of a line promises. *)
Definition line_post (pptr startidx len : Z) (r : txt_line) : Prop :=
  match r with
  | LineBinary => True
  | LineTrunc n => line_ok pptr startidx (startidx + n)
  | LinePrint n i => line_ok pptr startidx (startidx + n) /\ startidx < i <= len
  end.

Lemma line_char pptr a b c :
  0 <= pptr -> 0 <= a -> line_ok pptr a b -> pptr + b + 1 <= ndo_snapend s0 ->
  mem_read (ndo_packet s0) (pptr + b) 1 = Some [c] ->
  negb (isascii c) || (negb (isprint (chr c)) && negb (c =? 9)) = false -> line_ok pptr a (b + 1).
Proof.
  intros Hp Ha Hab Hs Hm Hc. eapply line_ok_snoc; try done. apply orb_false_elim in Hc as [Hc1 Hc2].
  unfold out_char, isascii in *. destruct (isprint (chr c)); [done|]. cbn [negb andb] in Hc2.
  bool_to_prop. by subst.
Qed.

Lemma safe_u1_at p :
  readable s0 p 1 ->
  safe false s0 (EXTRACT_U_1 p) (fun c => 0 <= c < 256 /\ mem_read (ndo_packet s0) p 1 = Some [c]).
Proof.
  intros Hr. unfold EXTRACT_U_1. safe_call safe_load. intros l (Hm & Hl & Hb).
  destruct l as [|c [|]]; cbn in Hl; try lia. apply safe_ret. rewrite be_val_1.
  apply bytes_ok_cons in Hb as [Hb _]. by split.
Qed.

Lemma safe_txt_line_loop k pptr startidx idx len :
  0 <= pptr -> 0 <= startidx <= idx -> idx + Z.of_nat k = len -> line_ok pptr startidx idx ->
  safe false s0 (txt_line_loop k pptr startidx idx len) (line_post pptr startidx len).
Proof.
  intros Hp. revert idx. induction k as [|k IH]; intros idx Hi Hk Hline; cbn [txt_line_loop].
  - apply safe_ret. cbn. by replace (startidx + (idx - startidx)) with idx by lia.
  - assert (Hl : line_ok pptr startidx (startidx + (idx - startidx)))
      by (by replace (startidx + (idx - startidx)) with idx by lia).
    safe_step. safe_step; [by apply safe_ret|].
    safe_call safe_u1_at; [readable_tac|]. intros c [Hc Hm].
    safe_step; [apply safe_ret; split; [done|lia]|].
    safe_step.
    + safe_step; [by apply safe_ret|]. safe_step. safe_step; [by apply safe_ret|].
      safe_step. safe_step; apply safe_ret; [split; [done|lia]|done].
    + destruct (negb (isascii c) || _) eqn:Ec; [by apply safe_ret|].
      apply IH; try lia. eapply line_char; try done; lia.
Qed.

Lemma safe_load_text pptr a n :
  0 <= pptr -> 0 <= a -> line_ok pptr a (a + n) ->
  safe false s0 (load_text (pptr + a) n) (fun l => clean (text_of l) = true).
Proof.
  intros Hp Ha (Hn & Hcap & Hl). unfold load_text. case_test; [by apply safe_ret|].
  safe_tail safe_load; [readable_tac|]. intros l (Hm & _). apply clean_text_of, Hl.
  by replace (a + n - a) with n by lia.
Qed.

Lemma safe_print_txt_line protoname prefix pptr idx len :
  clean protoname = true -> clean prefix = true -> 0 <= pptr -> 0 <= idx <= len ->
  safe false s0 (print_txt_line protoname prefix pptr idx len) (fun i => i = 0 \/ idx < i <= len).
Proof.
  intros Hn Hx Hp Hi. unfold print_txt_line.
  safe_call safe_txt_line_loop; [apply line_ok_nil|].
  intros [n i|n|]; cbn [line_post].
  - intros [Hl ?]. safe_call safe_load_text. intros l Hc. safe_step. apply safe_ret. lia.
  - intros Hl. safe_call safe_load_text. intros l Hc. safe_step. apply safe_ret. lia.
  - intros _. apply safe_ret. lia.
Qed.

Lemma safe_txt_lines fuel protoname pptr idx len :
  clean protoname = true -> 0 <= pptr -> 0 <= idx <= len -> len - idx < Z.of_nat fuel ->
  safe false s0 (txt_lines fuel protoname pptr idx len) (fun _ => True).
Proof.
  intros Hn Hp. revert idx. induction fuel as [|f IH]; intros idx Hi Hf; [lia|]. cbn [txt_lines].
  safe_step; [|by apply safe_ret]. safe_call safe_print_txt_line; [done|]. intros eol He.
  safe_step; [by apply safe_ret|]. apply IH; lia.
Qed.

Lemma toupper_clean n : clean n = true -> clean (smap toupper n) = true.
Proof.
  unfold clean. induction n as [|c n IH]; [done|]. cbn [smap sforall]. intros [Hc Hn]%andb_prop.
  apply andb_true_intro. split; [|auto]. unfold toupper. case_test; [|done].
  unfold out_char, isprint. rewrite code_chr by lia. apply orb_true_intro; left. apply orb_true_intro; left.
  apply andb_true_intro; split; apply Z.leb_le; lia.
Qed.

Lemma safe_txtproto pptr len protoname cmds flags :
  clean protoname = true -> 0 <= pptr -> 0 <= len ->
  safe false s0 (txtproto_print pptr len protoname cmds flags) (fun _ => True).
Proof.
  intros Hn Hp Hl. unfold txtproto_print. safe_call safe_txt_print_this. intros print_this _.
  eapply safe_bind; [by apply safe_print, toupper_clean|]. intros _ _. safe_step; [by apply safe_ret|].
  safe_step. safe_step.
  - safe_step. apply safe_txt_lines; try done; lia.
  - safe_call safe_print_txt_line; [done..|]. intros. by apply safe_ret.
Qed.
End txtproto.

(** ** Tokens, relative times and masks *)

Lemma clean_substring i n s : clean s = true -> clean (String.substring i n s) = true.
Proof.
  revert i n. induction s as [|c s IH]; intros i n; [by destruct i, n|]. unfold clean. cbn [sforall].
  intros [Hc Hs]%andb_prop. destruct i as [|i]; [destruct n as [|n]; [done|]|by apply IH].
  cbn. apply andb_true_intro. split; [done|]. by apply IH.
Qed.

Lemma clean_tok2str lp fmt v :
  forallb (fun t => clean t.2) lp = true -> clean (default (fun v => "#" +:+ dec (s32 v)) fmt v) = true ->
  clean (tok2str lp fmt v) = true.
Proof.
  intros Hlp Hf. unfold tok2str, tok2strbuf. destruct (list_find _ lp) as [[i t]|] eqn:E.
  - apply list_find_Some in E as (Hl & _). rewrite forallb_forall in Hlp.
    apply Hlp. apply list_elem_of_In. by eapply list_elem_of_lookup_2.
  - by apply clean_substring.
Qed.

Lemma clean_append_room buf s room :
  clean buf = true -> clean s = true ->
  match append_room buf s room with inl r => clean r = true | inr (r, _) => clean r = true end.
Proof. intros. unfold append_room. repeat case_test; auto using clean_app2, clean_substring. Qed.

Lemma clean_bittok_loop lp v sep sepstr buf room :
  forallb (fun t => clean t.2) lp = true -> clean sep = true -> clean sepstr = true -> clean buf = true ->
  match bittok_loop lp v sep sepstr buf room with inl r => clean r = true | inr (r, _) => clean r = true end.
Proof.
  revert sepstr buf room. induction lp as [|[t s] lp IH]; intros sepstr buf room; [done|]. cbn [forallb bittok_loop].
  intros [Hs Hlp]%andb_prop Hsep Hss Hb. destruct (rotbit_match t v); [|by apply IH].
  pose proof (clean_append_room buf sepstr room Hb Hss). destruct (append_room buf sepstr room) as [|[b1 r1]]; [done|].
  pose proof (clean_append_room b1 s r1 ltac:(done) Hs). destruct (append_room b1 s r1) as [|[b2 r2]]; [done|].
  by apply IH.
Qed.

Lemma clean_bittok2str_internal lp fmt v sep :
  forallb (fun t => clean t.2) lp = true -> clean (default (fun v => "#" +:+ hex_pad 8 v) fmt v) = true -> clean sep = true ->
  clean (bittok2str_internal lp fmt v sep) = true.
Proof.
  intros Hlp Hf Hs. unfold bittok2str_internal.
  pose proof (clean_bittok_loop lp v sep EmptyString EmptyString 1025 Hlp Hs eq_refl eq_refl).
  destruct (bittok_loop _ _ _ _ _ _) as [|[b r]]; [done|]. case_test; [by apply clean_substring|done].
Qed.

Lemma clean_bittok2str lp fmt v :
  forallb (fun t => clean t.2) lp = true -> clean (default (fun v => "#" +:+ hex_pad 8 v) fmt v) = true ->
  clean (bittok2str lp fmt v) = true.
Proof. intros. by apply clean_bittok2str_internal. Qed.

(** The text of a relative time: one count per unit, the zero counts left out. *)
Fixpoint relts_text (units : list (string * Z)) (secs : Z) : string :=
  match units with
  | [] => EmptyString
  | (l, s) :: units' =>
      (if secs / s =? 0 then EmptyString else dec (secs / s) +:+ l) +:+ relts_text units' (secs mod s)
  end.

Lemma relts_text_0 units : Forall (fun u => 0 < u.2) units -> relts_text units 0 = EmptyString.
Proof.
  induction 1 as [|[l s] units Hs _ IH]; [done|]. cbn in *. rewrite Z.div_0_l, Z.mod_0_l by lia. cbn. done.
Qed.

(** With a last unit of one second the loop ends inside the tables. *)
Lemma relts_loop_text units secs s :
  Forall (fun u => 0 < u.2) units -> 0 <= secs < 2 ^ 32 ->
  relts_loop (units ++ [("s"%string, 1)]) secs s =
    (Done tt, emit (relts_text (units ++ [("s"%string, 1)]) secs) s).
Proof.
  intros Hu. assert (Hu' : Forall (fun u => 0 < u.2) (units ++ [("s"%string, 1)]))
    by (apply Forall_app; split; [done|by repeat constructor]).
  assert (Hz : forall us s, relts_loop us 0 s = (Done tt, s)) by (by intros []).
  revert secs s Hu'. induction Hu as [|[l u] units Hp Hu IH]; intros secs s Hu' Hs; cbn [app].
  all: destruct (Z.eqb_spec secs 0) as [->|Hnz];
    [rewrite Hz, relts_text_0 by done; by rewrite emit_nil|]; cbn [relts_loop relts_text];
    rewrite (proj2 (Z.eqb_neq secs 0)) by done.
  - rewrite (proj2 (Z.leb_le _ _)) by lia. rewrite Z.div_1_r, (proj2 (Z.eqb_neq secs 0)) by done.
    replace (secs - secs * 1) with 0 by lia. cbn [u32]. unfold pbind, ND_PRINT. rewrite (Hz []).
    by rewrite sapp_nil_r.
  - cbn [snd] in Hp. inversion_clear Hu'. pose proof (Z.div_mod secs u ltac:(lia)).
    pose proof (Z.mod_pos_bound secs u Hp). destruct (Z.leb_spec u secs).
    + assert (0 < secs / u) by (apply Z.div_str_pos; lia).
      rewrite (proj2 (Z.eqb_neq (secs / u) 0)) by lia.
      replace (secs - secs / u * u) with (secs mod u) by lia. rewrite u32_small by lia.
      unfold pbind, ND_PRINT. rewrite IH by (done || lia). by rewrite emit_emit.
    + rewrite Z.div_small, Z.mod_small by lia. cbn [Z.eqb]. rewrite sapp_nil. by apply IH.
Qed.

Lemma bitmasks32_lookup i : (i < 33)%nat -> bitmasks32 !! i = Some (prefix_mask (Z.of_nat i)).
Proof.
  intros Hi. assert (H : bitmasks32 = (fun i => prefix_mask (Z.of_nat i)) <$> seq 0 33) by by vm_compute.
  rewrite H, list_lookup_fmap, lookup_seq_lt by done. done.
Qed.

Lemma prefix_mask_inj n m : 0 <= n <= 32 -> 0 <= m <= 32 -> prefix_mask n = prefix_mask m -> n = m.
Proof.
  unfold prefix_mask. intros Hn Hm H. assert (He : 2 ^ (32 - n) = 2 ^ (32 - m)) by lia.
  apply Z.pow_inj_r in He; lia.
Qed.

Lemma mask2plen_loop_spec k mask :
  (k <= 33)%nat ->
  (exists n, 0 <= n < Z.of_nat k /\ mask = prefix_mask n /\ mask2plen_loop k mask = n) \/
  ((forall n, 0 <= n < Z.of_nat k -> mask <> prefix_mask n) /\ mask2plen_loop k mask = -1).
Proof.
  induction k as [|k IH]; intros Hk; [right; split; [lia|done]|]. cbn [mask2plen_loop].
  rewrite bitmasks32_lookup by lia. destruct (decide _) as [Heq|Hne].
  - left. exists (Z.of_nat k). simplify_eq. split; [lia|done].
  - destruct IH as [(n & ? & ? & ?)|[Hno ?]]; [lia|left; exists n; split; [lia|done]|].
    right. split; [|done]. intros n Hn ->. destruct (decide (n = Z.of_nat k)) as [->|]; [done|].
    by apply (Hno n); [lia|].
Qed.

Lemma mask2plen_prefix n : 0 <= n <= 32 -> mask2plen (prefix_mask n) = n.
Proof.
  intros Hn. unfold mask2plen.
  destruct (mask2plen_loop_spec 33 (prefix_mask n)) as [(m & Hm & Heq & Hr)|[Hno _]]; [done| |].
  - rewrite Hr. symmetry. apply prefix_mask_inj; [lia|lia|done].
  - exfalso. by apply (Hno n); [lia|].
Qed.

(** ** Theorems *)

(** The routines that print a field of a packet show exactly its bytes before
    the end of the captured data (before the first NUL, for null-padded and
    null-terminated fields) in visible form, and report truncation exactly when
    the field was not seen to its end. *)
Theorem nd_print_fields s p n ep l :
  0 <= n < 2 ^ 32 -> field s p n ep l ->
  nd_printn p n ep s = (Done (if Z.of_nat (length l) =? n then 0 else 1), emit (vis_bytes l) s) /\
  nd_printzp p n ep s =
    (Done (if (until_nul l).2 || (Z.of_nat (length l) =? n) then 0 else 1), emit (vis_bytes (until_nul l).1) s) /\
  nd_printztn p n ep s =
    (Done (if (until_nul l).2 then Z.of_nat (length (until_nul l).1) + 1 else 0),
     emit (vis_bytes (until_nul l).1) s).
Proof.
  intros Hn Hf. assert (Hb : (Z.of_nat (length l) =? n) = (length l =? Z.to_nat n)%nat)
    by (apply eq_true_iff_eq; rewrite Z.eqb_eq, Nat.eqb_eq; lia).
  rewrite Hb. unfold nd_printn, nd_printzp, nd_printztn.
  rewrite <- (Z2Nat.id n) in Hf by lia. split; [by apply nd_printn_loop_text|]. split; [by apply nd_printzp_loop_text|].
  rewrite nd_printztn_loop_text with (l := l) by (done || lia). by rewrite Z.add_0_l.
Qed.

(** Whatever a packet holds, [txtproto_print] ends normally without a load
    outside the packet, and the text it adds consists of printable ASCII,
    newlines and tabs only: no control sequence of the packet reaches the
    terminal. *)
Theorem txtproto_clean s pptr len protoname cmds flags :
  ndo_ok s -> 0 <= pptr -> 0 <= len -> clean protoname = true ->
  exists s', txtproto_print pptr len protoname cmds flags s = (Done tt, s') /\ ndo_ext s s'.
Proof.
  intros Hok Hp Hl Hn.
  pose proof (safe_txtproto s Hok pptr len protoname cmds flags Hn Hp Hl s (ndo_ext_refl s Hok)) as H.
  destruct (txtproto_print _ _ _ _ _ s) as [[[]|[]] s']; [|naive_solver..]. exists s'. naive_solver.
Qed.

(** ** Witnesses *)

(** An HTTP request with an escape sequence in its second line. *)
Definition sample_http : netdissect_options :=
  mk_ndo ([0; 0] ++ codes "GET /" ++ [13; 10; 27; 91; 50; 74; 13; 10]) 4096 (mk_flags 1 0 0 0 0 0 0 0) 15 "http" "".

Lemma nd_print_fields_witness :
  nd_printn 7 6 (Some 10) sample_http = (Done 1, emit "^M^J^[" sample_http).
Proof.
  apply (proj1 (nd_print_fields sample_http 7 6 (Some 10) [13; 10; 27] ltac:(lia) (conj eq_refl eq_refl))).
Defined.

Lemma sample_http_ok : ndo_ok sample_http.
Proof. repeat split; cbn; lia || done. Qed.

Lemma txtproto_clean_witness :
  exists s', txtproto_print 2 13 "http" (Some ["GET"%string]) 0 sample_http = (Done tt, s') /\ ndo_ext sample_http s'.
Proof. exact (txtproto_clean sample_http 2 13 "http" (Some ["GET"%string]) 0 sample_http_ok ltac:(lia) ltac:(lia) eq_refl). Defined.
