(* ===== verification/AddrToStr.v ===== *)
(** * Addresses as text in tcpdump

    Models [tcpdump/addrtostr.c]. The destination is the text written so far and the space that
    is left; a function that returns a null pointer gives [None], and so does a store past
    the end of the destination. *)
From stdpp Require Import base list numbers strings.
From Stdlib Require Import ZArith Lia Ascii.
From S2P Require Import Prelude Cstring Netdissect UtilPrint.

Open Scope Z_scope.

Definition INET_ADDRSTRLEN : Z := 16.
Definition INET6_ADDRSTRLEN : Z := 46.
Definition IN6_WORDS : Z := 8.

(** ** IPv4 *)

(** One byte: the hundreds and the tens only if they are not leading zeros. *)
Definition addr_byte (b : Z) : string :=
  let '(s1, n1, nz1) := if 0 <? b / 100 then (char1 (48 + b / 100), b mod 100, true) else (EmptyString, b, false) in
  let '(s2, n2) := if nz1 || (0 <? n1 / 10) then (char1 (48 + n1 / 10), n1 mod 10) else (EmptyString, n1) in
  s1 +:+ s2 +:+ char1 (48 + n2).

Fixpoint addr_bytes (l : list Z) : string :=
  match l with
  | [] => EmptyString
  | [b] => addr_byte b
  | b :: l' => addr_byte b +:+ "." +:+ addr_bytes l'
  end.

(** The text and its terminator must fit in [size] bytes. *)
Definition addrtostr (src : list Z) (size : Z) : option string :=
  if size <? INET_ADDRSTRLEN then None
  else let s := addr_bytes (take 4 src) in if slen s + 1 <=? size then Some s else None.

(** ** IPv6 *)

Fixpoint addr_words (l : list Z) : list Z :=
  match l with
  | a :: b :: l' => Z.lor (Z.shiftl a 8) b :: addr_words l'
  | _ => []
  end.

(** A run of zero words: [base] is -1 without one. *)
Record zrun := mk_run { r_base : Z; r_len : Z }.

Definition longer (cur best : zrun) : zrun :=
  if (r_base best =? -1) || (r_len cur >? r_len best) then cur else best.

Fixpoint find_run (ws : list Z) (i : Z) (best cur : zrun) : zrun :=
  match ws with
  | [] => if negb (r_base cur =? -1) then longer cur best else best
  | w :: ws' =>
      if w =? 0 then
        find_run ws' (i + 1) best (if r_base cur =? -1 then mk_run i 1 else mk_run (r_base cur) (r_len cur + 1))
      else if negb (r_base cur =? -1) then find_run ws' (i + 1) (longer cur best) (mk_run (-1) (r_len cur))
      else find_run ws' (i + 1) best cur
  end.

(** The longest run, if it has two words. *)
Definition best_run (ws : list Z) : zrun :=
  let best := find_run ws 0 (mk_run (-1) 0) (mk_run (-1) 0) in
  if negb (r_base best =? -1) && (r_len best <? 2) then mk_run (-1) (r_len best) else best.

(** The text and the space left. *)
Definition dst : Type := string * Z.

Definition APPEND_CHAR (c : string) (d : dst) : option dst :=
  if snd d =? 0 then None else Some (fst d +:+ c, snd d - 1).

Definition colon_if (b : bool) (d : dst) : option dst := if b then APPEND_CHAR ":" d else Some d.

(** [nd_snprintf(dp, space_left, ...)] and the test of its result. *)
Definition append_text (s : string) (d : dst) : option dst :=
  if slen s >=? snd d then None else Some (fst d +:+ s, snd d - slen s).

Definition in_run (best : zrun) (i : Z) : bool :=
  negb (r_base best =? -1) && (r_base best <=? i) && (i <? r_base best + r_len best).

(** An embedded IPv4 address follows. *)
Definition embedded (best : zrun) (ws : list Z) (i : Z) : bool :=
  (i =? 6) && (r_base best =? 0) && ((r_len best =? 6) || ((r_len best =? 5) && bool_decide (ws !! 5%nat = Some 0xffff))).

Fixpoint words_loop (rest : list Z) (ws : list Z) (src4 : list Z) (best : zrun) (i : Z) (d : dst) : option dst :=
  match rest with
  | [] => Some d
  | w :: rest' =>
      if in_run best i then
        d1 ← colon_if (i =? r_base best) d;
        words_loop rest' ws src4 best (i + 1) d1
      else
        d1 ← colon_if (negb (i =? 0)) d;
        if embedded best ws i then
          s ← addrtostr src4 (snd d1);
          Some (fst d1 +:+ s, snd d1 - slen s)
        else
          d2 ← append_text (hex w) d1;
          words_loop rest' ws src4 best (i + 1) d2
  end.

Definition addrtostr6 (src : list Z) (size : Z) : option string :=
  let ws := addr_words (take 16 src) in
  let best := best_run ws in
  d ← words_loop ws ws (drop 12 src) best 0 (EmptyString, size);
  d1 ← colon_if (negb (r_base best =? -1) && (r_base best + r_len best =? IN6_WORDS)) d;
  if snd d1 =? 0 then None else Some (fst d1).

(** ** The text fits and is clean *)

Lemma addr_byte_dec b : 0 <= b < 256 -> addr_byte b = dec b.
Proof.
  intros Hb. apply (byte_cases (fun b => String.eqb (addr_byte b) (dec b))) in Hb; [|by vm_compute]. by apply String.eqb_eq.
Qed.

Lemma addr_bytes_fits l : bytes_ok l = true -> clean (addr_bytes l) = true /\ slen (addr_bytes l) <= Z.max 0 (4 * Z.of_nat (length l) - 1).
Proof.
  induction l as [|b l IH]; intros Hb; [done|]. apply bytes_ok_cons in Hb as [Hb Hl]. destruct (IH Hl) as [Hc Hs].
  pose proof (slen_dec_le b 2 ltac:(cbn; lia)). rewrite <- addr_byte_dec in * by done.
  assert (clean (addr_byte b) = true) by (rewrite addr_byte_dec by done; apply clean_dec).
  destruct l as [|c l]; [cbn [addr_bytes length]; split; [done|lia]|]. change (addr_bytes (b :: c :: l)) with (addr_byte b +:+ "." +:+ addr_bytes (c :: l)).
  split; [by repeat apply clean_app2|]. rewrite !slen_app. change (slen ".") with 1. cbn [length] in *. lia.
Qed.

Lemma addrtostr_total src size : bytes_ok src = true -> INET_ADDRSTRLEN <= size ->
  exists s, addrtostr src size = Some s /\ clean s = true /\ slen s <= 15.
Proof.
  intros Hb Hs. unfold addrtostr, INET_ADDRSTRLEN in *. rewrite (proj2 (Z.ltb_ge _ _)) by done.
  assert (H15 : clean (addr_bytes (take 4 src)) = true /\ slen (addr_bytes (take 4 src)) <= 15).
  { destruct (addr_bytes_fits (take 4 src)) as [Hc Hl]; [auto with pval|]. split; [done|]. rewrite length_take in Hl. lia. }
  rewrite (proj2 (Z.leb_le _ _)) by lia. by eexists.
Qed.

(** The words of the run below [i]. *)
Definition run_below (best : zrun) (i : Z) : Z :=
  if r_base best =? -1 then 0 else Z.max 0 (Z.min i (r_base best + r_len best) - r_base best).

Lemma run_below_step best i : run_below best (i + 1) <= run_below best i + (if in_run best i then 1 else 0).
Proof.
  unfold run_below, in_run. destruct (Z.eqb_spec (r_base best) (-1)); cbn [negb andb]; [lia|].
  destruct (Z.leb_spec (r_base best) i), (Z.ltb_spec i (r_base best + r_len best)); cbn [andb]; lia.
Qed.

Lemma slen_word w : 0 <= w < 65536 -> clean (hex w) = true /\ slen (hex w) <= 4.
Proof.
  intros Hw. split; [apply clean_hex; lia|]. unfold hex. etransitivity; [by apply (slen_print_base 16 3)|]. change (slen "") with 0. lia.
Qed.

Lemma colon_if_fits b (d : dst) : clean (fst d) = true -> 0 < snd d ->
  exists d', colon_if b d = Some d' /\ clean (fst d') = true /\ snd d - 1 <= snd d'.
Proof.
  intros Hc Hs. unfold colon_if, APPEND_CHAR. destruct b; [|exists d; split_and!; (done || lia)].
  rewrite (proj2 (Z.eqb_neq _ _)) by lia. eexists. split; [done|]. split; [by apply clean_app2|cbn; lia].
Qed.

Lemma words_loop_fits ws src4 best rest : forall i (d : dst),
  bytes_ok src4 = true -> Forall (fun w => 0 <= w < 65536) rest -> 0 <= i -> i + Z.of_nat (length rest) = 8 ->
  clean (fst d) = true -> 46 - 5 * i + 4 * run_below best i <= snd d ->
  exists d', words_loop rest ws src4 best i d = Some d' /\ clean (fst d') = true /\ 6 <= snd d'.
Proof.
  induction rest as [|w rest IH]; intros i d Hs4 Hw Hi Hn Hc Hsp.
  { exists d. cbn in Hn. split; [done|]. split; [done|]. unfold run_below in Hsp. destruct (r_base best =? -1); lia. }
  apply Forall_cons in Hw as [Hw Hws]. cbn [length] in Hn. rewrite Nat2Z.inj_succ in Hn. cbn [words_loop].
  pose proof (run_below_step best i) as Hstep. assert (Hpos : 0 <= run_below best i) by (unfold run_below; destruct (r_base best =? -1); lia).
  destruct (in_run best i).
  { destruct (colon_if_fits (i =? r_base best) d Hc) as (d1 & -> & Hc1 & Hs1); [lia|]. cbn [mbind option_bind]. apply IH; try done; lia. }
  destruct (colon_if_fits (negb (i =? 0)) d Hc) as (d1 & -> & Hc1 & Hs1); [lia|].
  cbn [mbind option_bind]. destruct (embedded best ws i) eqn:Eemb.
  - assert (Hrun : 5 <= run_below best i).
    { unfold embedded in Eemb. bool_to_prop. unfold run_below. subst i. rewrite H1. destruct H0; bool_to_prop; cbn; lia. }
    destruct (addrtostr_total src4 (snd d1) Hs4) as (s & -> & Hcs & Hls); [unfold INET_ADDRSTRLEN; lia|]. cbn [mbind option_bind].
    eexists. split; [done|]. cbn [fst snd]. split; [by apply clean_app2|lia].
  - destruct (slen_word w Hw) as [Hch Hlh]. unfold append_text. rewrite Z.geb_leb, (proj2 (Z.leb_gt _ _)) by lia. cbn [mbind option_bind].
    apply IH; cbn [fst snd]; try done; [lia|lia|by apply clean_app2|lia].
Qed.

Lemma addr_words_ok l : bytes_ok l = true -> Forall (fun w => 0 <= w < 65536) (addr_words l).
Proof.
  revert l. fix IH 1. intros [|a [|b l]] Hb; try apply Forall_nil_2. apply bytes_ok_cons in Hb as [Ha Hb]. apply bytes_ok_cons in Hb as [Hb Hl].
  cbn [addr_words]. apply Forall_cons. split; [|by apply IH]. rewrite Z.lor_comm. rewrite Z.shiftl_mul_pow2 by lia.
  rewrite Z.lor_comm, lor_high by lia. lia.
Qed.

Lemma length_addr_words a b c d e f g h i j k l m n o p : length (addr_words [a; b; c; d; e; f; g; h; i; j; k; l; m; n; o; p]) = 8%nat.
Proof. done. Qed.

Lemma find_run_base ws : forall i best cur,
  0 <= i -> -1 <= r_base best -> -1 <= r_base cur -> -1 <= r_base (find_run ws i best cur).
Proof.
  induction ws as [|w ws IH]; intros i best cur Hi Hb Hc; cbn [find_run]; unfold longer.
  - repeat case_test; lia.
  - repeat case_test; apply IH; cbn [r_base]; lia.
Qed.

Lemma best_run_base ws : -1 <= r_base (best_run ws).
Proof. unfold best_run. case_test; [done|]. apply find_run_base; cbn; lia. Qed.

(** The printers' buffer always suffices. *)
Lemma addrtostr6_total src :
  bytes_ok src = true -> (16 <= length src)%nat ->
  exists s, addrtostr6 src INET6_ADDRSTRLEN = Some s /\ clean s = true.
Proof.
  intros Hb Hl. unfold addrtostr6. set (ws := addr_words (take 16 src)). pose proof (best_run_base ws).
  assert (Hw : Forall (fun w => 0 <= w < 65536) ws) by (apply addr_words_ok; auto with pval).
  assert (Hlen : length ws = 8%nat).
  { unfold ws. do 16 (destruct src as [|? src]; [cbn in Hl; lia|]). cbn [take firstn]. apply length_addr_words. }
  destruct (words_loop_fits ws (drop 12 src) (best_run ws) ws 0 (EmptyString, INET6_ADDRSTRLEN)) as (d & -> & Hc & Hs);
    [auto with pval|done|lia|lia|done|unfold run_below, INET6_ADDRSTRLEN; cbn [snd]; destruct (Z.eqb_spec (r_base (best_run ws)) (-1)); lia|].
  cbn [mbind option_bind]. destruct (colon_if_fits (negb (r_base (best_run ws) =? -1) && (r_base (best_run ws) + r_len (best_run ws) =? IN6_WORDS)) d Hc)
    as (d1 & -> & Hc1 & Hs1); [lia|]. cbn [mbind option_bind]. rewrite (proj2 (Z.eqb_neq _ _)) by lia. by eexists.
Qed.
