(* ===== verification/PrintAscii.v ===== *)
(** * Packet dumps of tcpdump

    Models [tcpdump/print-ascii.c]: the printers of the options -A, -x and -X.
    The theorem compares the loops, which start a new line every eight pairs of
    bytes, with a reference that cuts the captured bytes into lines of
    sixteen. *)
From stdpp Require Import base list numbers strings.
From Stdlib Require Import ZArith Lia Ascii.
From S2P Require Import Prelude Cstring Netdissect UtilPrint.

Open Scope Z_scope.
Open Scope pr_scope.

Definition HEXDUMP_BYTES_PER_LINE : Z := 16.
Definition HEXDUMP_SHORTS_PER_LINE : Z := 8.
Definition HEXDUMP_HEXSTUFF_PER_SHORT : Z := 5.
Definition HEXDUMP_HEXSTUFF_PER_LINE : Z := 40.

Definition newline : string := String (chr 10) EmptyString.
Definition ND_ISGRAPH (c : Z) : bool := (32 <? c) && (c <=? 126).

(** [length] cut down to what was captured. *)
Definition captured (cp length : Z) : pr Z :=
  e <~ asks ndo_snapend ;;
  let caplength := if cp <? e then u32 (e - cp) else 0 in
  pret (if caplength <? length then caplength else length).

(** [length] bytes are left; the look-ahead after a carriage return needs more
    than one. *)
Fixpoint ascii_loop (length : nat) (cp : Z) : pr unit :=
  match length with
  | O => pret tt
  | S n =>
      s <~ EXTRACT_U_1 cp ;;
      (if s =? 13 then
         if (1 <? n)%nat then
           c <~ EXTRACT_U_1 (cp + 1) ;; if negb (c =? 10) then ND_PRINT "." else pret tt
         else pret tt
       else if negb (ND_ISGRAPH s) && (negb (s =? 9) && negb (s =? 32) && negb (s =? 10)) then ND_PRINT "."
       else ND_PRINT (char1 s)) ;~
      ascii_loop n (cp + 1)
  end.

Definition ascii_print (cp length : Z) : pr unit :=
  set_protocol "ascii" ;~
  length <~ captured cp length ;;
  ND_PRINT newline ;~ ascii_loop (Z.to_nat length) cp.

(** ["%s0x%04x: "]. *)
Definition line_head (ident : string) (oset : Z) : string := ident +:+ "0x" +:+ hex_pad 4 oset +:+ ": ".
(** [" %02x%02x"] and [" %02x"]. *)
Definition hex2 (s1 s2 : Z) : string := " " +:+ hex_pad 2 s1 +:+ hex_pad 2 s2.
Definition hex1 (s1 : Z) : string := " " +:+ hex_pad 2 s1.
(** ["%-*s"]. *)
Definition padr (n : nat) (s : string) : string :=
  s +:+ String.string_of_list_ascii (replicate (n - String.length s) " "%char).
Definition graph (s : Z) : string := char1 (if ND_ISGRAPH s then s else 46).

(** The line both branches of [hex_and_ascii_print_with_offset] print. *)
Definition full_line (ident : string) (oset : Z) (hexstuff asciistuff : string) : string :=
  line_head ident oset +:+ padr (Z.to_nat HEXDUMP_HEXSTUFF_PER_LINE) hexstuff +:+ "  " +:+ asciistuff.

(** The room in [hexstuff] past what [hsp] has advanced. *)
Definition hexroom (hexstuff : string) : nat := Z.to_nat (HEXDUMP_HEXSTUFF_PER_LINE + 1 - slen hexstuff).

(** [while (--nshorts >= 0)]; [hexstuff] and [asciistuff] are the texts up to
    [hsp] and [asp]. *)
Fixpoint hex_ascii_loop (nshorts : nat) (ident : string) (cp oset i : Z) (hexstuff asciistuff : string)
  : pr (Z * Z * Z * string * string) :=
  match nshorts with
  | O => pret (cp, oset, i, hexstuff, asciistuff)
  | S n =>
      s1 <~ EXTRACT_U_1 cp ;;
      s2 <~ EXTRACT_U_1 (cp + 1) ;;
      let hexstuff := hexstuff +:+ snprintf (hexroom hexstuff) (hex2 s1 s2) in
      let asciistuff := asciistuff +:+ graph s1 +:+ graph s2 in
      let i := i + 1 in
      if HEXDUMP_SHORTS_PER_LINE <=? i then
        ND_PRINT (full_line ident oset hexstuff asciistuff) ;~
        hex_ascii_loop n ident (cp + 2) (u32 (oset + HEXDUMP_BYTES_PER_LINE)) 0 EmptyString EmptyString
      else hex_ascii_loop n ident (cp + 2) oset i hexstuff asciistuff
  end.

Definition hex_and_ascii_print_with_offset (ident : string) (cp length oset : Z) : pr unit :=
  length <~ captured cp length ;;
  r <~ hex_ascii_loop (Z.to_nat (length / 2)) ident cp oset 0 EmptyString EmptyString ;;
  let '(cp, oset, i, hexstuff, asciistuff) := r in
  (if negb (Z.land length 1 =? 0) then
     s1 <~ EXTRACT_U_1 cp ;;
     ND_PRINT (full_line ident oset (hexstuff +:+ snprintf (hexroom hexstuff) (hex1 s1)) (asciistuff +:+ graph s1))
   else if 0 <? i then ND_PRINT (full_line ident oset hexstuff asciistuff)
   else pret tt).

Definition hex_and_ascii_print (ident : string) (cp length : Z) : pr unit :=
  hex_and_ascii_print_with_offset ident cp length 0.

Fixpoint hex_loop (nshorts : nat) (ident : string) (cp oset i : Z) : pr (Z * Z * Z) :=
  match nshorts with
  | O => pret (cp, oset, i)
  | S n =>
      (if i mod 8 =? 0 then ND_PRINT (line_head ident oset) else pret tt) ;~
      let oset := if i mod 8 =? 0 then u32 (oset + HEXDUMP_BYTES_PER_LINE) else oset in
      s <~ EXTRACT_U_1 cp ;;
      t <~ EXTRACT_U_1 (cp + 1) ;;
      ND_PRINT (hex2 s t) ;~ hex_loop n ident (cp + 2) oset (u32 (i + 1))
  end.

Definition hex_print_with_offset (ident : string) (cp length oset : Z) : pr unit :=
  length <~ captured cp length ;;
  r <~ hex_loop (Z.to_nat (length / 2)) ident cp oset 0 ;;
  let '(cp, oset, i) := r in
  if negb (Z.land length 1 =? 0) then
    (if i mod 8 =? 0 then ND_PRINT (line_head ident oset) else pret tt) ;~
    s <~ EXTRACT_U_1 cp ;; ND_PRINT (hex1 s)
  else pret tt.

Definition hex_print (ident : string) (cp length : Z) : pr unit := hex_print_with_offset ident cp length 0.

(** [print_unknown_data] of [util-print.c]; [len] is an [int]. *)
Definition print_unknown_data (cp : Z) (ident : string) (len : Z) : pr Z :=
  if len <? 0 then
    ND_PRINT (ident +:+ "Dissector error: print_unknown_data called with negative length") ;~ pret 0
  else
    e <~ asks ndo_snapend ;;
    let len := if e - cp <? len then s32 (e - cp) else len in
    if len <? 0 then
      ND_PRINT (ident +:+ "Dissector error: print_unknown_data called with pointer past end of packet") ;~ pret 0
    else hex_print ident cp len ;~ pret 1.

(** ** Safety of the plain dump *)

Section Safety.
Context (s0 : netdissect_options) (Hok : ndo_ok s0).

Lemma safe_captured T cp n : 0 <= cp -> 0 <= n ->
  safe T s0 (captured cp n) (fun l => 0 <= l /\ (0 < l -> cp + l <= ndo_snapend s0)).
Proof.
  intros Hc Hn. unfold captured. safe_step. apply safe_ret. pose proof (u32_range (a - cp)).
  assert (cp < a -> u32 (a - cp) <= a - cp) by (intros; apply Z.mod_le; lia).
  destruct (Z.ltb_spec cp a); case_test; lia.
Qed.

Lemma safe_hex_loop T n ident cp oset i :
  ((0 < n)%nat -> readable s0 cp (2 * Z.of_nat n)) -> clean ident = true -> 0 <= oset ->
  safe T s0 (hex_loop n ident cp oset i) (fun r => r.1.1 = cp + 2 * Z.of_nat n /\ 0 <= r.1.2).
Proof.
  intros Hr Hi. revert cp oset i Hr. induction n as [|n IH]; intros cp oset i Hr Ho; cbn [hex_loop].
  { apply safe_ret. cbn. lia. }
  specialize (Hr ltac:(lia)). eapply (safe_bind _ _ _ _ (fun _ => True)).
  { safe_step; [apply safe_print; unfold line_head; clean_tac|by apply safe_ret]. }
  intros _ _. cbv zeta. safe_step. safe_step. eapply safe_bind; [apply safe_print; unfold hex2; clean_tac|]. intros _ _.
  pose proof (u32_range (oset + HEXDUMP_BYTES_PER_LINE)).
  safe_tail IH; [intros _; readable_tac|destruct (i mod 8 =? 0); lia|]. intros r. lia.
Qed.

Lemma safe_hex_print T ident cp n : clean ident = true -> 0 <= cp -> 0 <= n -> safe T s0 (hex_print ident cp n) (fun _ => True).
Proof.
  intros Hi Hc Hn. unfold hex_print, hex_print_with_offset. safe_call safe_captured. intros l [Hl Hle].
  pose proof (Z.div_mod l 2 ltac:(lia)) as Hd. pose proof (Z.mod_pos_bound l 2 ltac:(lia)).
  safe_call safe_hex_loop; [intros Hp; apply readable_captured; [done|lia..]|].
  intros [[cp' oset] i] [Hcp Ho]. cbn [fst snd] in *. safe_step; [|by apply safe_ret].
  eapply (safe_bind _ _ _ _ (fun _ => True)).
  { safe_step; [apply safe_print; unfold line_head; clean_tac|by apply safe_ret]. }
  intros _ _. assert (Hl1 : 0 < l) by (destruct (Z.eqb_spec l 0) as [->|]; [done|lia]).
  assert (l mod 2 = 1).
  { change 1 with (2 ^ 1 - 1) in E. rewrite land_mask in E by lia. change (2 ^ 1) with 2 in E. lia. }
  safe_step. apply safe_print. unfold hex1. clean_tac.
Qed.

Lemma safe_print_unknown T cp ident n : clean ident = true -> 0 <= cp -> safe T s0 (print_unknown_data cp ident n) (fun _ => True).
Proof.
  intros Hi Hc. unfold print_unknown_data. safe_step; [safe_step; by apply safe_ret|]. safe_step.
  cbv zeta. safe_step; [safe_step; by apply safe_ret|].
  safe_call safe_hex_print. intros _ _. by apply safe_ret.
Qed.

Lemma clean_graph c : 0 <= c < 256 -> clean (graph c) = true.
Proof. revert c. apply byte_cases. by vm_compute. Qed.

Lemma clean_padr n t : clean t = true -> clean (padr n t) = true.
Proof.
  intros Ht. unfold padr. apply clean_app2; [done|]. generalize (n - String.length t)%nat as k. induction k; [done|]. by apply clean_cons.
Qed.

Lemma clean_full_line ident oset h a : clean ident = true -> 0 <= oset -> clean h = true -> clean a = true -> clean (full_line ident oset h a) = true.
Proof. intros. unfold full_line, line_head. clean_tac. by apply clean_padr. Qed.

Lemma safe_hex_ascii_loop T n ident : clean ident = true -> forall cp oset i h a,
  ((0 < n)%nat -> readable s0 cp (2 * Z.of_nat n)) -> 0 <= oset -> clean h = true -> clean a = true ->
  safe T s0 (hex_ascii_loop n ident cp oset i h a)
    (fun r => r.1.1.1.1 = cp + 2 * Z.of_nat n /\ 0 <= r.1.1.1.2 /\ clean r.1.2 = true /\ clean r.2 = true).
Proof.
  intros Hi. induction n as [|n IH]; intros cp oset i h a Hr Ho Hh Ha; cbn [hex_ascii_loop].
  { apply safe_ret. cbn. split_and!; done || lia. }
  specialize (Hr ltac:(lia)). do 2 safe_step. cbv zeta. rename a0 into s1, a1 into s2.
  assert (Hh' : clean (h +:+ snprintf (hexroom h) (hex2 s1 s2)) = true) by (clean_tac; apply clean_substring; unfold hex2; clean_tac).
  assert (Ha' : clean (a +:+ graph s1 +:+ graph s2) = true) by (clean_tac; by apply clean_graph).
  safe_step.
  - eapply safe_bind; [apply safe_print; by apply clean_full_line|]. intros _ _. pose proof (u32_range (oset + HEXDUMP_BYTES_PER_LINE)).
    eapply safe_weaken; [apply IH; [intros; readable_tac|lia|done|done]|]. intros r Hq. cbv beta in *. split_and!; naive_solver lia.
  - eapply safe_weaken; [apply IH; [intros; readable_tac|done..]|]. intros r Hq. cbv beta in *. split_and!; naive_solver lia.
Qed.

Lemma safe_hex_and_ascii T ident cp n : clean ident = true -> 0 <= cp -> 0 <= n -> safe T s0 (hex_and_ascii_print ident cp n) (fun _ => True).
Proof.
  intros Hi Hc Hn. unfold hex_and_ascii_print, hex_and_ascii_print_with_offset. safe_call safe_captured. intros l [Hl Hle].
  pose proof (Z.div_mod l 2 ltac:(lia)) as Hd. pose proof (Z.mod_pos_bound l 2 ltac:(lia)).
  eapply safe_bind; [apply safe_hex_ascii_loop; [done|intros Hp; apply readable_captured; [done|lia..]|lia|done|done]|].
  intros [[[[cp' oset] i] h] a] (Hcp & Ho & Hh & Ha). cbn [fst snd] in *. safe_step.
  - assert (Hl1 : 0 < l) by (destruct (Z.eqb_spec l 0) as [->|]; [done|lia]). assert (l mod 2 = 1).
    { change 1 with (2 ^ 1 - 1) in E. rewrite land_mask in E by lia. change (2 ^ 1) with 2 in E. lia. }
    safe_step. apply safe_print. apply clean_full_line; [done|done|clean_tac; apply clean_substring; unfold hex1; clean_tac|clean_tac; by apply clean_graph].
  - safe_step; [apply safe_print; by apply clean_full_line|by apply safe_ret].
Qed.

(** A character that is printed as it is, is harmless. *)
Lemma clean_ascii c : 0 <= c < 256 ->
  clean (char1 c) || (negb (ND_ISGRAPH c) && (negb (c =? 9) && negb (c =? 32) && negb (c =? 10))) || (c =? 13) = true.
Proof. revert c. apply byte_cases. by vm_compute. Qed.

Lemma safe_ascii_loop T n : forall cp, ((0 < n)%nat -> readable s0 cp (Z.of_nat n)) -> safe T s0 (ascii_loop n cp) (fun _ => True).
Proof.
  induction n as [|n IH]; intros cp Hr; cbn [ascii_loop]; [by apply safe_ret|]. specialize (Hr ltac:(lia)).
  safe_step. rename a into c. eapply (safe_bind _ _ _ _ (fun _ => True)); [|intros _ _; apply IH; intros; readable_tac].
  generalize (clean_ascii c ltac:(lia)). destruct (c =? 13); [intros _|rewrite orb_false_r; destruct (negb _ && _); rewrite ?orb_false_r; intros Hc; by apply safe_print].
  destruct (Nat.ltb_spec 1 n); [|by apply safe_ret]. safe_step. safe_step; [by apply safe_print|by apply safe_ret].
Qed.

Lemma safe_ascii_print T cp n : 0 <= cp -> 0 <= n -> safe T s0 (ascii_print cp n) (fun _ => True).
Proof.
  intros Hc Hn. unfold ascii_print. safe_step. safe_call safe_captured. intros l [Hl Hle]. safe_step. apply safe_ascii_loop.
  intros Hp. apply readable_captured; [done|lia..].
Qed.
End Safety.

(** ** The reference: lines of sixteen bytes *)

Fixpoint hexpairs (l : list Z) : string :=
  match l with
  | a :: b :: l' => hex2 a b +:+ hexpairs l'
  | [a] => hex1 a
  | [] => EmptyString
  end.

Fixpoint graphs (l : list Z) : string :=
  match l with
  | [] => EmptyString
  | a :: l' => graph a +:+ graphs l'
  end.

(** The lines of a dump, each given its offset and its bytes. *)
Fixpoint dump (fuel : nat) (line : Z -> list Z -> string) (oset : Z) (l : list Z) : string :=
  match fuel, l with
  | S f, _ :: _ => line oset (take 16 l) +:+ dump f line (u32 (oset + 16)) (drop 16 l)
  | _, _ => EmptyString
  end.
Definition dump_lines (line : Z -> list Z -> string) (oset : Z) (l : list Z) : string := dump (length l) line oset l.

Definition hex_line (ident : string) (oset : Z) (l : list Z) : string := line_head ident oset +:+ hexpairs l.
Definition hex_ascii_line (ident : string) (oset : Z) (l : list Z) : string :=
  full_line ident oset (hexpairs l) (graphs l).

(** ** Lemmas on the reference *)

Lemma hexpairs_app k pre l : length pre = (2 * k)%nat -> hexpairs (pre ++ l) = hexpairs pre +:+ hexpairs l.
Proof.
  revert pre. induction k as [|k IH]; intros pre Hk; [by destruct pre|].
  destruct pre as [|a [|b pre]]; cbn in Hk; try lia. cbn [app hexpairs]. rewrite IH by lia. apply sapp_assoc.
Qed.

Lemma graphs_app pre l : graphs (pre ++ l) = graphs pre +:+ graphs l.
Proof. induction pre as [|a pre IH]; [done|]. cbn [app graphs]. rewrite IH. apply sapp_assoc. Qed.

Lemma dump_fuel line f g oset l : (length l <= f)%nat -> (length l <= g)%nat -> dump f line oset l = dump g line oset l.
Proof.
  revert g oset l. induction f as [|f IH]; intros [|g] oset [|x l] Hf Hg; cbn in Hf, Hg; try done; try lia.
  cbn [dump]. f_equal. apply IH; rewrite length_drop; cbn; lia.
Qed.

Lemma dump_lines_cons line oset l :
  l <> [] -> dump_lines line oset l = line oset (take 16 l) +:+ dump_lines line (u32 (oset + 16)) (drop 16 l).
Proof.
  destruct l as [|x l]; [done|]. intros _. unfold dump_lines at 1. cbn [length dump]. f_equal.
  apply dump_fuel; [rewrite length_drop; cbn; lia|done].
Qed.

(** A full line, and the last line. *)
Lemma dump_lines_full line oset l rest :
  length l = 16%nat -> dump_lines line oset (l ++ rest) = line oset l +:+ dump_lines line (u32 (oset + 16)) rest.
Proof.
  intros Hl. rewrite dump_lines_cons by (by destruct l). by rewrite take_app_length', drop_app_length'.
Qed.

Lemma dump_lines_last line oset l : l <> [] -> (length l <= 16)%nat -> dump_lines line oset l = line oset l.
Proof.
  intros Hl Hn. rewrite dump_lines_cons by done. rewrite take_ge, drop_ge by done. apply sapp_nil_r.
Qed.

Lemma slen_hex_pad2 c : 0 <= c < 256 -> slen (hex_pad 2 c) = 2.
Proof.
  intros Hc. apply Z.eqb_eq. revert c Hc. apply (byte_cases (fun c => slen (hex_pad 2 c) =? 2)). by vm_compute.
Qed.

Lemma slen_hexpairs k pre : length pre = (2 * k)%nat -> bytes_ok pre = true -> slen (hexpairs pre) = 5 * Z.of_nat k.
Proof.
  revert pre. induction k as [|k IH]; intros pre Hk Hb; [by destruct pre|].
  destruct pre as [|a [|b pre]]; cbn in Hk; try lia. rewrite !bytes_ok_cons in Hb. destruct Hb as (Ha & Hb & Hp).
  cbn [hexpairs]. unfold hex2. rewrite !slen_app, !slen_hex_pad2, IH by (done || lia). change (slen " ") with 1. lia.
Qed.

Lemma snprintf_hex pre k t : 
  length pre = (2 * k)%nat -> (k < 8)%nat -> bytes_ok pre = true -> slen t <= 5 ->
  snprintf (hexroom (hexpairs pre)) t = t.
Proof.
  intros Hk H8 Hb Ht. unfold snprintf, hexroom, HEXDUMP_HEXSTUFF_PER_LINE. rewrite (slen_hexpairs k) by done.
  apply substring_full. lia.
Qed.

(** ** Two bytes at a time *)

Lemma field_1 s p n l :
  0 <= n -> field s p (n + 1) None l ->
  exists a l', l = a :: l' /\ 0 <= a < 256 /\ (forall t, EXTRACT_U_1 p (emit t s) = (Done a, emit t s)) /\
    forall t, field (emit t s) (p + 1) n None l'.
Proof.
  intros Hn Hf. pose proof (field_S s p n None l Hn Hf) as [[? _]|(_ & a & l' & -> & Ha & _ & Hf')]; [done|].
  exists a, l'. split; [done|]. split; [done|]. split; [|done]. intros t.
  pose proof (field_S (emit t s) p n None (a :: l') Hn Hf) as [[? _]|(_ & a' & l'' & [= <- <-] & _ & HE & _)]; done.
Qed.

Lemma field_2 s p n l :
  0 <= n -> field s p (n + 2) None l ->
  exists a b l', l = a :: b :: l' /\ 0 <= a < 256 /\ 0 <= b < 256 /\
    (forall t, EXTRACT_U_1 p (emit t s) = (Done a, emit t s)) /\
    (forall t, EXTRACT_U_1 (p + 1) (emit t s) = (Done b, emit t s)) /\
    forall t, field (emit t s) (p + 2) n None l'.
Proof.
  intros Hn Hf. replace (n + 2) with ((n + 1) + 1) in Hf by lia.
  apply field_1 in Hf as (a & l1 & -> & Ha & HE1 & Hf1); [|lia].
  specialize (Hf1 EmptyString). rewrite emit_nil in Hf1.
  apply field_1 in Hf1 as (b & l2 & -> & Hb & HE2 & Hf2); [|done].
  exists a, b, l2. replace (p + 2) with (p + 1 + 1) by lia. done.
Qed.

(** Two more bytes on the current line. *)
Lemma line_snoc pre k a b :
  length pre = (2 * k)%nat -> (k < 8)%nat -> bytes_ok pre = true -> 0 <= a < 256 -> 0 <= b < 256 ->
  bytes_ok (pre ++ [a; b]) = true /\ length (pre ++ [a; b]) = (2 * S k)%nat /\
  hexpairs pre +:+ snprintf (hexroom (hexpairs pre)) (hex2 a b) = hexpairs (pre ++ [a; b]) /\
  graphs pre +:+ graph a +:+ graph b = graphs (pre ++ [a; b]) /\
  hexpairs pre +:+ hex2 a b = hexpairs (pre ++ [a; b]).
Proof.
  intros Hk H8 Hb Ha Hb'. assert (Hhex : hexpairs pre +:+ hex2 a b = hexpairs (pre ++ [a; b])).
  { rewrite (hexpairs_app k) by done. cbn. by rewrite sapp_nil_r. }
  split; [by rewrite bytes_ok_app, !bytes_ok_cons|]. split; [rewrite length_app; cbn; lia|].
  split; [|split; [|done]].
  - rewrite (snprintf_hex pre k) by (try done; unfold hex2; rewrite !slen_app, !slen_hex_pad2 by done; done). done.
  - rewrite graphs_app. cbn [graphs]. by rewrite sapp_nil_r.
Qed.

(** What a loop over [l] with the bytes [pre] of the current line leaves: the
    text [D] completes lines, [pre'] is the new current line. *)
Definition line_inv (line : Z -> list Z -> string) (oset : Z) (pre l : list Z) (D : string) (oset' : Z) (pre' : list Z)
  : Prop :=
  (exists k, length pre' = (2 * k)%nat /\ (k < 8)%nat) /\ bytes_ok pre' = true /\
  forall rest, dump_lines line oset (pre ++ l ++ rest) = D +:+ dump_lines line oset' (pre' ++ rest).

Lemma hex_ascii_loop_text ident n : forall s cp oset pre k l rest,
  length l = (2 * n)%nat -> field s cp (Z.of_nat (length (l ++ rest))) None (l ++ rest) ->
  length pre = (2 * k)%nat -> (k < 8)%nat -> bytes_ok pre = true ->
  exists D oset' pre' k',
    hex_ascii_loop n ident cp oset (Z.of_nat k) (hexpairs pre) (graphs pre) s =
      (Done (cp + Z.of_nat (2 * n), oset', Z.of_nat k', hexpairs pre', graphs pre'), emit D s) /\
    length pre' = (2 * k')%nat /\ (k' < 8)%nat /\ line_inv (hex_ascii_line ident) oset pre l D oset' pre' /\
    field (emit D s) (cp + Z.of_nat (2 * n)) (Z.of_nat (length rest)) None rest.
Proof.
  induction n as [|n IH]; intros s cp oset pre k l rest Hl Hf Hk H8 Hb.
  - destruct l; [|done]. exists EmptyString, oset, pre, k. rewrite emit_nil. cbn. rewrite Z.add_0_r.
    split; [done|]. split; [done|]. split; [done|]. split; [|done]. split; [by exists k|]. done.
  - destruct l as [|a0 [|b0 l]]; cbn in Hl; try lia.
    replace (Z.of_nat (length ((a0 :: b0 :: l) ++ rest))) with (Z.of_nat (length (l ++ rest)) + 2) in Hf
      by (cbn [app length]; lia).
    apply field_2 in Hf as (a & b & l' & [= -> -> <-] & Ha & Hb' & HE1 & HE2 & Hf); [|lia].
    specialize (HE1 EmptyString). specialize (HE2 EmptyString). rewrite !emit_nil in HE1, HE2.
    destruct (line_snoc pre k a b) as (Hpb & Hpl & Hhex & Hgr & _); try done.
    cbn [hex_ascii_loop]. unfold pbind at 1. rewrite HE1. unfold pbind at 1. rewrite HE2.
    cbv zeta. rewrite Hhex, Hgr. unfold HEXDUMP_SHORTS_PER_LINE.
    replace (cp + Z.of_nat (2 * S n)) with (cp + 2 + Z.of_nat (2 * n)) by lia.
    destruct (Z.leb_spec 8 (Z.of_nat k + 1)).
    + unfold pbind, ND_PRINT.
      destruct (IH (emit (hex_ascii_line ident oset (pre ++ [a; b])) s) (cp + 2) (u32 (oset + 16)) [] 0%nat l rest)
        as (D & oset' & pre' & k' & Heq & Hk' & H8' & (Hex & Hbp & Hinv) & Hfr); try done; try lia.
      exists (hex_ascii_line ident oset (pre ++ [a; b]) +:+ D), oset', pre', k'.
      rewrite emit_emit in Heq, Hfr. split; [exact Heq|]. split; [done|]. split; [done|]. split; [|done].
      split; [done|]. split; [done|]. intros rest'. cbn [app] in Hinv.
      change (pre ++ (a :: b :: l) ++ rest') with (pre ++ [a; b] ++ l ++ rest'). rewrite app_assoc.
      rewrite dump_lines_full by lia. rewrite Hinv. apply sapp_assoc.
    + destruct (IH s (cp + 2) oset (pre ++ [a; b]) (S k) l rest)
        as (D & oset' & pre' & k' & Heq & Hk' & H8' & (Hex & Hbp & Hinv) & Hfr); try done; try lia.
      { by rewrite <- (emit_nil s). }
      exists D, oset', pre', k'. rewrite Nat2Z.inj_succ, <- Z.add_1_r in Heq. split; [exact Heq|].
      split; [done|]. split; [done|]. split; [|done]. split; [done|]. split; [done|].
      intros rest'. rewrite <- Hinv. by rewrite <- !app_assoc.
Qed.

(** The part of the current line [hex_loop] has already printed. *)
Definition shown (ident : string) (oset : Z) (pre : list Z) : string :=
  match pre with [] => EmptyString | _ => hex_line ident oset pre end.

(** The offset [hex_loop] holds while it is inside a line. *)
Definition next_oset (oset : Z) (k : nat) : Z := if (k =? 0)%nat then oset else u32 (oset + 16).

Lemma shown_snoc ident oset pre k a b t :
  length pre = (2 * k)%nat -> (k < 8)%nat -> bytes_ok pre = true -> 0 <= a < 256 -> 0 <= b < 256 ->
  shown ident oset pre +:+ ((if (k =? 0)%nat then line_head ident oset else EmptyString) +:+ hex2 a b) +:+ t =
  shown ident oset (pre ++ [a; b]) +:+ t.
Proof.
  intros Hk H8 Hb Ha Hb'. destruct (line_snoc pre k a b) as (_ & _ & _ & _ & Hh); try done.
  destruct pre as [|x pre]; [|destruct k; [done|]].
  - destruct k; [|cbn in Hk; lia]. cbn [Nat.eqb shown app]. unfold hex_line. cbn [hexpairs].
    by rewrite sapp_nil, sapp_nil_r.
  - cbn [Nat.eqb shown app]. unfold hex_line. cbn [app] in Hh. rewrite <- Hh. by rewrite sapp_nil, !sapp_assoc.
Qed.

Lemma mod8_next i k :
  0 <= i -> i mod 8 = Z.of_nat k -> (k < 8)%nat -> u32 (i + 1) mod 8 = Z.of_nat (if (k =? 7)%nat then 0 else S k).
Proof.
  intros Hi Hk H8. unfold u32. change (2 ^ 32) with (8 * 536870912). rewrite Z.rem_mul_r by lia.
  rewrite Z.mul_comm, Z.mod_add by lia. rewrite Z.mod_mod by lia. rewrite Z.add_mod, Hk by lia.
  change (1 mod 8) with 1. destruct (Nat.eqb_spec k 7) as [->|]; [done|]. rewrite Z.mod_small; lia.
Qed.

Lemma hex_loop_step n ident s cp oset i k a b :
  i mod 8 = Z.of_nat k ->
  (forall t, EXTRACT_U_1 cp (emit t s) = (Done a, emit t s)) ->
  (forall t, EXTRACT_U_1 (cp + 1) (emit t s) = (Done b, emit t s)) ->
  hex_loop (S n) ident cp (next_oset oset k) i s =
  hex_loop n ident (cp + 2)
    (next_oset (if (k =? 7)%nat then u32 (oset + 16) else oset) (if (k =? 7)%nat then 0%nat else S k)) (u32 (i + 1))
    (emit ((if (k =? 0)%nat then line_head ident oset else EmptyString) +:+ hex2 a b) s).
Proof.
  intros Hik HE1 HE2. cbn [hex_loop]. rewrite Hik. replace (Z.of_nat k =? 0) with (k =? 0)%nat by (destruct k; done).
  unfold next_oset. destruct (Nat.eqb_spec k 0) as [->|]; unfold pbind, ND_PRINT, pret.
  - rewrite HE1, HE2, emit_emit. done.
  - rewrite <- (emit_nil s), HE1, HE2, !emit_emit, !sapp_nil. by destruct (k =? 7)%nat.
Qed.

Lemma hex_loop_text ident n : forall s cp i oset pre k l rest,
  length l = (2 * n)%nat -> field s cp (Z.of_nat (length (l ++ rest))) None (l ++ rest) ->
  length pre = (2 * k)%nat -> (k < 8)%nat -> bytes_ok pre = true -> 0 <= i -> i mod 8 = Z.of_nat k ->
  exists T D oset' pre' k' i',
    hex_loop n ident cp (next_oset oset k) i s = (Done (cp + Z.of_nat (2 * n), next_oset oset' k', i'), emit T s) /\
    i' mod 8 = Z.of_nat k' /\ length pre' = (2 * k')%nat /\ (k' < 8)%nat /\
    line_inv (hex_line ident) oset pre l D oset' pre' /\
    shown ident oset pre +:+ T = D +:+ shown ident oset' pre' /\
    field (emit T s) (cp + Z.of_nat (2 * n)) (Z.of_nat (length rest)) None rest.
Proof.
  induction n as [|n IH]; intros s cp i oset pre k l rest Hl Hf Hk H8 Hb Hi Hik.
  - destruct l; [|done]. exists EmptyString, EmptyString, oset, pre, k, i. rewrite emit_nil. cbn. rewrite Z.add_0_r, sapp_nil_r.
    split; [done|]. split; [done|]. split; [done|]. split; [done|]. split; [|done]. split; [by exists k|]. done.
  - destruct l as [|a0 [|b0 l]]; cbn in Hl; try lia.
    replace (Z.of_nat (length ((a0 :: b0 :: l) ++ rest))) with (Z.of_nat (length (l ++ rest)) + 2) in Hf
      by (cbn [app length]; lia).
    apply field_2 in Hf as (a & b & l' & [= -> -> <-] & Ha & Hb' & HE1 & HE2 & Hf); [|lia].
    destruct (line_snoc pre k a b) as (Hpb & Hpl & _); try done.
    set (h := ((if (k =? 0)%nat then line_head ident oset else EmptyString) +:+ hex2 a b)).
    set (pre1 := if (k =? 7)%nat then [] else pre ++ [a; b]).
    set (k1 := if (k =? 7)%nat then 0%nat else S k).
    set (oset1 := if (k =? 7)%nat then u32 (oset + 16) else oset).
    rewrite (hex_loop_step n ident s cp oset i k a b) by done. fold h k1 oset1. replace (cp + Z.of_nat (2 * S n)) with (cp + 2 + Z.of_nat (2 * n)) by lia.
    destruct (IH (emit h s) (cp + 2) (u32 (i + 1)) oset1 pre1 k1 l rest)
      as (T & D & oset' & pre' & k' & i' & Heq & Hi' & Hk' & H8' & (Hex & Hbp & Hinv) & Hsh & Hfr); try done; try lia.
    { unfold pre1, k1. by destruct (k =? 7)%nat. }
    { unfold k1. destruct (Nat.eqb_spec k 7); lia. }
    { unfold pre1. by destruct (k =? 7)%nat. }
    { apply u32_range. }
    { by apply mod8_next. }
    rewrite emit_emit in Heq, Hfr.
    exists (h +:+ T), ((if (k =? 7)%nat then hex_line ident oset (pre ++ [a; b]) else EmptyString) +:+ D), oset', pre', k', i'.
    split; [exact Heq|]. split; [done|]. split; [done|]. split; [done|].
    assert (Hnn : pre ++ [a; b] <> []) by (by destruct pre).
    split; [split; [done|split; [done|]]|split; [|done]].
    + intros rest'. rewrite <- sapp_assoc, <- Hinv. change (pre ++ (a :: b :: l) ++ rest') with (pre ++ [a; b] ++ l ++ rest').
      rewrite app_assoc. unfold pre1, oset1. destruct (Nat.eqb_spec k 7) as [->|]; [by rewrite dump_lines_full by lia|done].
    + unfold h. rewrite shown_snoc by done. rewrite <- sapp_assoc, <- Hsh. unfold pre1, oset1.
      destruct (Nat.eqb_spec k 7); cbn [shown]; rewrite ?sapp_nil; [|done]. by destruct (pre ++ [a; b]).
Qed.

(** ** The ends of the dumps *)

(** An odd length leaves one byte after the pairs. *)
Lemma split_pairs (l : list Z) :
  exists l2 rest, l = l2 ++ rest /\ length l2 = (2 * (length l / 2))%nat /\
    ((rest = [] /\ Z.land (Z.of_nat (length l)) 1 = 0) \/
     (exists x, rest = [x] /\ Z.land (Z.of_nat (length l)) 1 = 1)).
Proof.
  exists (take (2 * (length l / 2)) l), (drop (2 * (length l / 2)) l).
  pose proof (Nat.div_mod (length l) 2 ltac:(lia)). pose proof (Nat.mod_upper_bound (length l) 2 ltac:(lia)).
  split; [by rewrite take_drop|]. split; [rewrite length_take; lia|].
  change 1 with (2 ^ 1 - 1) at 1 2. rewrite !land_mask by lia. change (2 ^ 1) with (Z.of_nat 2). rewrite <- Nat2Z.inj_mod.
  assert (Hr : length (drop (2 * (length l / 2)) l) = (length l mod 2)%nat) by (rewrite length_drop; lia).
  destruct (drop (2 * (length l / 2)) l) as [|x [|y r]]; cbn [length] in Hr; try lia.
  - left. split; [done|lia].
  - right. exists x. split; [done|lia].
Qed.

Lemma hex1_snoc pre k x : length pre = (2 * k)%nat -> hexpairs (pre ++ [x]) = hexpairs pre +:+ hex1 x.
Proof. intros Hk. by rewrite (hexpairs_app k). Qed.

Lemma captured_len s cp n :
  ndo_ok s -> ndo_snapend s < 2 ^ 32 -> 0 <= cp <= ndo_snapend s -> 0 <= n ->
  captured cp n s = (Done (Z.min n (ndo_snapend s - cp)), s).
Proof.
  intros (_ & _ & Hs & _) Hlim Hcp Hn. unfold captured, pbind, asks, pret. f_equal. f_equal.
  destruct (Z.ltb_spec cp (ndo_snapend s)).
  - rewrite u32_small by lia. case_test; lia.
  - case_test; lia.
Qed.

(** The captured part of a buffer, as a field. *)
Lemma captured_field s cp n l :
  ndo_ok s -> mem_read (ndo_packet s) cp n = Some l -> 0 <= n -> field s cp (Z.of_nat (length l)) None l.
Proof.
  intros (_ & _ & _ & Hb & _) Hl Hn. split; [cbn [avail]; by rewrite (mem_read_length _ _ _ _ Hl Hn)|].
  unfold mem_read in Hl. destruct (0 <=? cp); [|done]. by eapply bytes_ok_slice.
Qed.

Lemma hex_and_ascii_text s ident cp oset l :
  field s cp (Z.of_nat (length l)) None l ->
  (r <~ hex_ascii_loop (length l / 2) ident cp oset 0 EmptyString EmptyString ;;
   let '(cp, oset, i, hexstuff, asciistuff) := r in
   if negb (Z.land (Z.of_nat (length l)) 1 =? 0) then
     s1 <~ EXTRACT_U_1 cp ;;
     ND_PRINT (full_line ident oset (hexstuff +:+ snprintf (hexroom hexstuff) (hex1 s1)) (asciistuff +:+ graph s1))
   else if 0 <? i then ND_PRINT (full_line ident oset hexstuff asciistuff)
   else pret tt) s = (Done tt, emit (dump_lines (hex_ascii_line ident) oset l) s).
Proof.
  intros Hf. destruct (split_pairs l) as (l2 & rest & Hl & Hl2 & Hrest).
  set (n := (length l / 2)%nat) in *. set (odd := Z.land (Z.of_nat (length l)) 1) in *. rewrite Hl in Hf |- *.
  destruct (hex_ascii_loop_text ident n s cp oset [] 0%nat l2 rest) as
    (D & oset' & pre & k & Heq & Hk & H8 & (_ & Hb & Hinv) & Hfr); try done; try lia.
  unfold pbind at 1. cbn [hexpairs graphs] in Heq. change (Z.of_nat 0) with 0 in Heq. rewrite Heq.
  cbn [app] in Hinv. rewrite Hinv. destruct Hrest as [[-> ->]|(x & -> & ->)]; cbn [Z.eqb negb].
  - rewrite app_nil_r. destruct (Z.ltb_spec 0 (Z.of_nat k)).
    + unfold ND_PRINT. rewrite emit_emit, dump_lines_last by (destruct pre; cbn in *; lia || done). done.
    + destruct pre; [|cbn in Hk; lia]. cbn. by rewrite sapp_nil_r.
  - change (Z.of_nat (length [x])) with (0 + 1) in Hfr.
    apply field_1 in Hfr as (a & ? & [= <- <-] & Ha & HE & _); [|lia]. specialize (HE EmptyString). rewrite emit_nil in HE.
    unfold pbind. rewrite HE. unfold ND_PRINT. rewrite emit_emit.
    rewrite (snprintf_hex pre k) by (try done; unfold hex1; rewrite !slen_app, !slen_hex_pad2 by done; done).
    rewrite <- (hex1_snoc pre k) by done. replace (graphs pre +:+ graph x) with (graphs (pre ++ [x]))
      by (rewrite graphs_app; cbn [graphs]; by rewrite sapp_nil_r).
    rewrite dump_lines_last; [done|by destruct pre|rewrite length_app; cbn; lia].
Qed.

Lemma hex_print_text s ident cp oset l :
  field s cp (Z.of_nat (length l)) None l ->
  (r <~ hex_loop (length l / 2) ident cp oset 0 ;;
   let '(cp, oset, i) := r in
   if negb (Z.land (Z.of_nat (length l)) 1 =? 0) then
     (if i mod 8 =? 0 then ND_PRINT (line_head ident oset) else pret tt) ;~
     s <~ EXTRACT_U_1 cp ;; ND_PRINT (hex1 s)
   else pret tt) s = (Done tt, emit (dump_lines (hex_line ident) oset l) s).
Proof.
  intros Hf. destruct (split_pairs l) as (l2 & rest & Hl & Hl2 & Hrest).
  set (n := (length l / 2)%nat) in *. set (odd := Z.land (Z.of_nat (length l)) 1) in *. rewrite Hl in Hf |- *.
  destruct (hex_loop_text ident n s cp 0 oset [] 0%nat l2 rest) as
    (T & D & oset' & pre & k & i & Heq & Hi & Hk & H8 & (_ & Hb & Hinv) & Hsh & Hfr); try done; try lia.
  unfold pbind at 1. change (next_oset oset 0) with oset in Heq. rewrite Heq.
  cbn [app] in Hinv. rewrite Hinv. cbn [shown] in Hsh. rewrite sapp_nil in Hsh. subst T.
  destruct Hrest as [[-> ->]|(x & -> & ->)]; cbn [Z.eqb negb].
  - rewrite app_nil_r. destruct pre as [|y pre]; [done|].
    rewrite dump_lines_last by (cbn in *; lia || done). done.
  - change (Z.of_nat (length [x])) with (0 + 1) in Hfr.
    apply field_1 in Hfr as (a & ? & [= <- <-] & Ha & HE & _); [|lia].
    assert (Hlast : dump_lines (hex_line ident) oset' (pre ++ [x]) = hex_line ident oset' (pre ++ [x]))
      by (apply dump_lines_last; [by destruct pre|rewrite length_app; cbn; lia]).
    rewrite Hlast, Hi. unfold hex_line. rewrite (hex1_snoc pre k) by done.
    destruct k as [|k]; unfold next_oset; cbn [Nat.eqb]; unfold pbind, ND_PRINT, pret.
    + destruct pre; [|done]. cbn [shown hexpairs] in *. change (Z.of_nat 0 =? 0) with true. cbv beta iota.
      rewrite HE, !emit_emit, sapp_nil, sapp_nil_r.
      done.
    + change (Z.of_nat (S k) =? 0) with false. cbv beta iota. specialize (HE EmptyString). rewrite emit_nil in HE. rewrite HE, emit_emit.
      destruct pre; [done|]. cbn [shown]. unfold hex_line. by rewrite <- !sapp_assoc.
Qed.

(** ** Theorem *)

(** The dumps of -x and -X show exactly the captured bytes, sixteen a line,
    each line with its offset: the loops that count pairs agree with the
    reference that cuts the bytes into lines, and nothing outside the captured
    data is read. *)
Theorem hex_dumps_lines s ident cp len oset l :
  ndo_ok s -> ndo_snapend s < 2 ^ 32 -> 0 <= cp <= ndo_snapend s -> 0 <= len ->
  mem_read (ndo_packet s) cp (Z.min len (ndo_snapend s - cp)) = Some l ->
  hex_print_with_offset ident cp len oset s = (Done tt, emit (dump_lines (hex_line ident) oset l) s) /\
  hex_and_ascii_print_with_offset ident cp len oset s =
    (Done tt, emit (dump_lines (hex_ascii_line ident) oset l) s).
Proof.
  intros Hok Hlim Hcp Hlen Hl. pose proof (captured_field _ _ _ _ Hok Hl ltac:(lia)) as Hf.
  pose proof (mem_read_length _ _ _ _ Hl ltac:(lia)) as Hn.
  assert (Hhalf : Z.to_nat (Z.of_nat (length l) / 2) = (length l / 2)%nat)
    by (change 2 with (Z.of_nat 2) at 1; by rewrite <- Nat2Z.inj_div, Nat2Z.id).
  unfold hex_print_with_offset, hex_and_ascii_print_with_offset.
  split; unfold pbind at 1; rewrite captured_len, <- Hn, Hhalf by (done || lia);
    [by apply hex_print_text|by apply hex_and_ascii_text].
Qed.

(** ** Witness *)

Definition sample_dump : netdissect_options :=
  mk_ndo (codes "\abcdefghijklmnopqrs" ++ [9; 200]) 4096 (mk_flags 0 0 0 0 0 0 0 0) 21 "" "".

Lemma hex_dumps_lines_witness :
  hex_print_with_offset " " 1 30 0 sample_dump =
    (Done tt, emit " 0x0000:  6162 6364 6566 6768 696a 6b6c 6d6e 6f70 0x0010:  7172 7309" sample_dump) /\
  hex_and_ascii_print_with_offset " " 1 30 0 sample_dump =
    (Done tt, emit " 0x0000:  6162 6364 6566 6768 696a 6b6c 6d6e 6f70  abcdefghijklmnop 0x0010:  7172 7309                                qrs." sample_dump).
Proof.
  apply (hex_dumps_lines sample_dump " " 1 30 0 (codes "abcdefghijklmnopqrs" ++ [9])).
  - repeat split; cbn; lia || done.
  - done.
  - cbn; lia.
  - lia.
  - reflexivity.
Defined.
