(* ===== verification/IpProto.v ===== *)
(** * Protocol numbers of the Internet Protocol

    The constants of [tcpdump/ipproto.h] and the tables of
    [tcpdump/ipproto.c]. *)
From stdpp Require Import base list numbers strings.
From Stdlib Require Import ZArith Lia Ascii.
From S2P Require Import Prelude Cstring Netdissect UtilPrint.

Open Scope Z_scope.

Definition IPPROTO_IP : Z := 0.
Definition IPPROTO_HOPOPTS : Z := 0.
Definition IPPROTO_ICMP : Z := 1.
Definition IPPROTO_IGMP : Z := 2.
Definition IPPROTO_IPV4 : Z := 4.
Definition IPPROTO_TCP : Z := 6.
Definition IPPROTO_EGP : Z := 8.
Definition IPPROTO_PIGP : Z := 9.
Definition IPPROTO_UDP : Z := 17.
Definition IPPROTO_DCCP : Z := 33.
Definition IPPROTO_IPV6 : Z := 41.
Definition IPPROTO_ROUTING : Z := 43.
Definition IPPROTO_FRAGMENT : Z := 44.
Definition IPPROTO_RSVP : Z := 46.
Definition IPPROTO_GRE : Z := 47.
Definition IPPROTO_ESP : Z := 50.
Definition IPPROTO_AH : Z := 51.
Definition IPPROTO_MOBILE : Z := 55.
Definition IPPROTO_ICMPV6 : Z := 58.
Definition IPPROTO_NONE : Z := 59.
Definition IPPROTO_DSTOPTS : Z := 60.
Definition IPPROTO_MOBILITY_OLD : Z := 62.
Definition IPPROTO_ND : Z := 77.
Definition IPPROTO_EIGRP : Z := 88.
Definition IPPROTO_OSPF : Z := 89.
Definition IPPROTO_PIM : Z := 103.
Definition IPPROTO_IPCOMP : Z := 108.
Definition IPPROTO_VRRP : Z := 112.
Definition IPPROTO_PGM : Z := 113.
Definition IPPROTO_SCTP : Z := 132.
Definition IPPROTO_MOBILITY : Z := 135.

(** The names of the verbose output. *)
Definition ipproto_values : list tok :=
  [(IPPROTO_HOPOPTS, "Options"%string);
   (IPPROTO_ICMP, "ICMP"%string);
   (IPPROTO_IGMP, "IGMP"%string);
   (IPPROTO_IPV4, "IPIP"%string);
   (IPPROTO_TCP, "TCP"%string);
   (IPPROTO_EGP, "EGP"%string);
   (IPPROTO_PIGP, "IGRP"%string);
   (IPPROTO_UDP, "UDP"%string);
   (IPPROTO_DCCP, "DCCP"%string);
   (IPPROTO_IPV6, "IPv6"%string);
   (IPPROTO_ROUTING, "Routing"%string);
   (IPPROTO_FRAGMENT, "Fragment"%string);
   (IPPROTO_RSVP, "RSVP"%string);
   (IPPROTO_GRE, "GRE"%string);
   (IPPROTO_ESP, "ESP"%string);
   (IPPROTO_AH, "AH"%string);
   (IPPROTO_MOBILE, "Mobile IP"%string);
   (IPPROTO_ICMPV6, "ICMPv6"%string);
   (IPPROTO_MOBILITY_OLD, "Mobile IP (old)"%string);
   (IPPROTO_EIGRP, "EIGRP"%string);
   (IPPROTO_OSPF, "OSPF"%string);
   (IPPROTO_PIM, "PIM"%string);
   (IPPROTO_IPCOMP, "Compressed IP"%string);
   (IPPROTO_VRRP, "VRRP"%string);
   (IPPROTO_PGM, "PGM"%string);
   (IPPROTO_SCTP, "SCTP"%string);
   (IPPROTO_MOBILITY, "Mobility"%string)].

(** The name of every number, [None] where the table has a null pointer. *)
Definition netdb_protocol_names : list (option string) :=
  [Some "hopopt"%string; Some "icmp"%string; Some "igmp"%string; Some "ggp"%string; Some "ipencap"%string;
   Some "st"%string; Some "tcp"%string; Some "cbt"%string; Some "egp"%string; Some "igp"%string;
   Some "bbn-rcc-mon"%string; Some "nvp-ii"%string; Some "pup"%string; Some "argus"%string;
   Some "emcon"%string; Some "xnet"%string; Some "chaos"%string; Some "udp"%string; Some "mux"%string;
   Some "dcn-meas"%string; Some "hmp"%string; Some "prm"%string; Some "xns-idp"%string;
   Some "trunk-1"%string; Some "trunk-2"%string; Some "leaf-1"%string; Some "leaf-2"%string;
   Some "rdp"%string; Some "irtp"%string; Some "iso-tp4"%string; Some "netblt"%string;
   Some "mfe-nsp"%string; Some "merit-inp"%string; Some "dccp"%string; Some "3pc"%string;
   Some "idpr"%string; Some "xtp"%string; Some "ddp"%string; Some "idpr-cmtp"%string; Some "tp++"%string;
   Some "il"%string; Some "ipv6"%string; Some "sdrp"%string; Some "ipv6-route"%string;
   Some "ipv6-frag"%string; Some "idrp"%string; Some "rsvp"%string; Some "gre"%string; Some "dsr"%string;
   Some "bna"%string; Some "esp"%string; Some "ah"%string; Some "i-nlsp"%string; Some "swipe"%string;
   Some "narp"%string; Some "mobile"%string; Some "tlsp"%string; Some "skip"%string;
   Some "ipv6-icmp"%string; Some "ipv6-nonxt"%string; Some "ipv6-opts"%string; None; Some "cftp"%string;
   None; Some "sat-expak"%string; Some "kryptolan"%string; Some "rvd"%string; Some "ippc"%string; None;
   Some "sat-mon"%string; Some "visa"%string; Some "ipcv"%string; Some "cpnx"%string; Some "rspf"%string;
   Some "wsn"%string; Some "pvp"%string; Some "br-sat-mon"%string; Some "sun-nd"%string;
   Some "wb-mon"%string; Some "wb-expak"%string; Some "iso-ip"%string; Some "vmtp"%string;
   Some "secure-vmtp"%string; Some "vines"%string; Some "ttp"%string; Some "nsfnet-igp"%string;
   Some "dgp"%string; Some "tcf"%string; Some "eigrp"%string; Some "ospf"%string; Some "sprite-rpc"%string;
   Some "larp"%string; Some "mtp"%string; Some "ax.25"%string; Some "ipip"%string; Some "micp"%string;
   Some "scc-sp"%string; Some "etherip"%string; Some "encap"%string; None; Some "gmtp"%string;
   Some "ifmp"%string; Some "pnni"%string; Some "pim"%string; Some "aris"%string; Some "scps"%string;
   Some "qnx"%string; Some "a/n"%string; Some "ipcomp"%string; Some "snp"%string;
   Some "compaq-peer"%string; Some "ipx-in-ip"%string; Some "vrrp"%string; Some "pgm"%string; None;
   Some "l2tp"%string; Some "ddx"%string; Some "iatp"%string; Some "stp"%string; Some "srp"%string;
   Some "uti"%string; Some "smp"%string; Some "sm"%string; Some "ptp"%string; Some "isis"%string;
   Some "fire"%string; Some "crtp"%string; Some "crudp"%string; Some "sscopmce"%string; Some "iplt"%string;
   Some "sps"%string; Some "pipe"%string; Some "sctp"%string; Some "fc"%string;
   Some "rsvp-e2e-ignore"%string; Some "mobility-header"%string; Some "udplite"%string;
   Some "mpls-in-ip"%string; Some "manet"%string; Some "hip"%string; Some "shim6"%string;
   Some "wesp"%string; Some "rohc"%string; None; None; None; None; None; None; None; None; None; None;
   None; None; None; None; None; None; None; None; None; None; None; None; None; None; None; None; None;
   None; None; None; None; None; None; None; None; None; None; None; None; None; None; None; None; None;
   None; None; None; None; None; None; None; None; None; None; None; None; None; None; None; None; None;
   None; None; None; None; None; None; None; None; None; None; None; None; None; None; None; None; None;
   None; None; None; None; None; None; None; None; None; None; None; None; None; None; None; None; None;
   None; None; None; None; None; None; None; None; None; None; None; None; None; None; None;
   Some "exptest-253"%string; Some "exptest-254"%string; Some "reserved"%string].

(** The table is indexed with a [uint8_t]. *)
Definition netdb_protoname (protoid : Z) : option string := mjoin (netdb_protocol_names !! Z.to_nat (u8 protoid)).

(** Every index is inside the table. *)
Lemma netdb_protoname_in protoid : is_Some (netdb_protocol_names !! Z.to_nat (u8 protoid)).
Proof. apply lookup_lt_is_Some. pose proof (u8_range protoid). change (length netdb_protocol_names) with 256%nat. lia. Qed.

(** The names of the tables are clean text. *)
Lemma clean_ipproto_values : forallb (fun t => clean t.2) ipproto_values = true.
Proof. by vm_compute. Qed.

Lemma clean_protoname protoid n : netdb_protoname protoid = Some n -> clean n = true.
Proof.
  unfold netdb_protoname. pose proof (netdb_protoname_in protoid) as [o Ho]. rewrite Ho. cbn. intros ->.
  assert (H : forallb (fun o => clean (default EmptyString o)) netdb_protocol_names = true) by by vm_compute.
  rewrite forallb_forall in H. apply (H (Some n)), list_elem_of_In. by eapply list_elem_of_lookup_2.
Qed.
