(* ===== verification/PrintIp.v ===== *)
(** * The IPv4 printer of tcpdump

    Models [tcpdump/print-ip.c], the printer that shows the Pval option, with
    the authentication header ([print-ah.c]) and IPComp ([print-ipcomp.c])
    printers it steps through and [intoa] of [addrtoname.c]. The printers of the
    other protocols and the resolver are arguments ([Printers]), with the rule
    every printer follows as their law. [ip_print] and [ip_print_demux] call each
    other for IP in IP; the fuel counts headers, each of which takes a byte of the
    captured data. *)
From stdpp Require Import base list numbers strings.
From Stdlib Require Import ZArith Lia.
From S2P Require Import Prelude OnesComp Abi InCksum Cstring Netdissect UtilPrint IpProto.

Open Scope Z_scope.
Open Scope pr_scope.

(** ** Constants of [ip.h] *)

Definition IPOPT_EOL : Z := 0.
Definition IPOPT_NOP : Z := 1.
Definition IPOPT_RR : Z := 7.
Definition IPOPT_TS : Z := 68.
Definition IPOPT_RFC1393 : Z := 82.
Definition IPOPT_SECURITY : Z := 130.
Definition IPOPT_LSRR : Z := 131.
Definition IPOPT_SSRR : Z := 137.
Definition IPOPT_RA : Z := 148.
Definition IPOPT_TS_TSONLY : Z := 0.
Definition IPOPT_TS_TSANDADDR : Z := 1.
Definition IP_DF : Z := 0x4000.
Definition IP_MF : Z := 0x2000.
Definition IP_RES : Z := 0x8000.
Definition IP_OFFMASK : Z := 0x1fff.
Definition PT_CARP : Z := 10.
Definition sizeof_ip : Z := 20.
Definition sizeof_ip6_hdr : Z := 40.

Definition ip_option_values : list tok :=
  [(IPOPT_EOL, "EOL"%string); (IPOPT_NOP, "NOP"%string); (IPOPT_TS, "timestamp"%string);
   (IPOPT_SECURITY, "security"%string); (IPOPT_RR, "RR"%string); (IPOPT_SSRR, "SSRR"%string);
   (IPOPT_LSRR, "LSRR"%string); (IPOPT_RA, "RA"%string); (IPOPT_RFC1393, "traceroute"%string);
   (IPOPT_PVAL, "pval"%string)].

Definition ip_frag_values : list tok := [(IP_MF, "+"%string); (IP_DF, "DF"%string); (IP_RES, "rsvd"%string)].

(** Fields of [struct ip] at [ip]. *)
Definition IP_V (ip : Z) : pr Z := v <~ EXTRACT_U_1 ip ;; pret (Z.shiftr (Z.land v 0xf0) 4).
Definition IP_HL (ip : Z) : pr Z := v <~ EXTRACT_U_1 ip ;; pret (Z.land v 0x0f).
Definition ip_src (ip : Z) : Z := ip + 12.
Definition ip_dst (ip : Z) : Z := ip + 16.

(** ** The other printers *)

(** Offsets of the payload and of the enclosing IP header, lengths and flags as
    the code passes them; [esp_print] returns what it advances over, the next
    header and the padding. *)
Class Printers := {
  getname : list Z -> string;
  esp_print : Z -> Z -> Z -> pr (Z * Z * Z);
  sctp_print : Z -> Z -> Z -> pr unit;
  dccp_print : Z -> Z -> Z -> pr unit;
  tcp_print : Z -> Z -> Z -> Z -> pr unit;
  udp_print : Z -> Z -> Z -> Z -> pr unit;
  icmp_print : Z -> Z -> Z -> Z -> pr unit;
  igrp_print : Z -> Z -> pr unit;
  eigrp_print : Z -> Z -> pr unit;
  egp_print : Z -> Z -> pr unit;
  ospf_print : Z -> Z -> Z -> pr unit;
  igmp_print : Z -> Z -> pr unit;
  ip6_print : Z -> Z -> pr unit;
  rsvp_print : Z -> Z -> pr unit;
  gre_print : Z -> Z -> pr unit;
  mobile_print : Z -> Z -> pr unit;
  pim_print : Z -> Z -> Z -> pr unit;
  carp_print : Z -> Z -> Z -> pr unit;
  vrrp_print : Z -> Z -> Z -> Z -> pr unit;
  pgm_print : Z -> Z -> Z -> pr unit }.

(** [intoa]: the digits of one byte, as the nested tests produce them, and the
    four bytes from the last. *)
Definition intoa_byte (byte : Z) : string :=
  let d0 := char1 (byte mod 10 + 48) in
  let byte1 := byte / 10 in
  if 0 <? byte1 then
    let d1 := char1 (byte1 mod 10 + 48) +:+ d0 in
    let byte2 := byte1 / 10 in
    if 0 <? byte2 then char1 (byte2 + 48) +:+ d1 else d1
  else d0.
Fixpoint intoa_loop (n : nat) (addr : Z) (cp : string) : string :=
  match n with
  | O => cp
  | S n' => intoa_loop n' (Z.shiftr addr 8) ("." +:+ intoa_byte (Z.land addr 0xff) +:+ cp)
  end.
(** The argument in network byte order is [addr] after [NTOHL]; the result skips
    the first dot. *)
Definition intoa (addr : Z) : string := String.substring 1 20 (intoa_loop 4 addr EmptyString).

Section PrintIp.
Context `{Printers} (GUESS_TSO : bool).

Definition ipaddr_string (p : Z) : pr string := l <~ load p 4 ;; pret (getname l).

(** ** Options *)

(** [for (len = 3; len < length; len += 4)]. *)
Fixpoint route_loop (fuel : nat) (cp len length ptr : Z) : pr unit :=
  match fuel with
  | O => pstop Fuel
  | S f =>
      if len <? length then
        ND_TCHECK_LEN (cp + len) 4 ;~
        a <~ ipaddr_string (cp + len) ;;
        ND_PRINT (" " +:+ a) ;~
        (if len <? ptr then ND_PRINT "," else pret tt) ;~
        route_loop f cp (len + 4) length ptr
      else pret tt
  end.

Definition ip_printroute (cp length : Z) : pr Z :=
  on_trunc
    (if length <? 3 then ND_PRINT (" [bad length " +:+ dec length +:+ "]") ;~ pret 0
     else
       (if negb (Z.land (length + 1) 3 =? 0) then ND_PRINT (" [bad length " +:+ dec length +:+ "]") else pret tt) ;~
       ND_TCHECK_LEN (cp + 2) 1 ;~
       p <~ EXTRACT_U_1 (cp + 2) ;;
       let ptr := u32 (p - 1) in
       (if (ptr <? 3) || negb (Z.land (u32 (ptr + 1)) 3 =? 0) || (length + 1 <? ptr)
        then ND_PRINT (" [bad ptr " +:+ dec p +:+ "]") else pret tt) ;~
       route_loop (S (Z.to_nat length)) cp 3 length ptr ;~ pret 0)
    (pret (-1)).

(** The search for a source route; [None] when it ends at [trunc:] or by a
    [break]. *)
Fixpoint finddst_loop (fuel : nat) (cp length : Z) : pr (option (list Z)) :=
  match fuel with
  | O => pstop Fuel
  | S f =>
      if length =? 0 then pret None
      else
        ND_TCHECK_LEN cp 1 ;~
        ty <~ EXTRACT_U_1 cp ;;
        if ty =? IPOPT_EOL then pret None
        else
          len <~ (if ty =? IPOPT_NOP then pret 1 else ND_TCHECK_LEN (cp + 1) 1 ;~ EXTRACT_U_1 (cp + 1)) ;;
          if negb (ty =? IPOPT_NOP) && (len <? 2) then pret None
          else if length <? len then pret None
          else
            ND_TCHECK_LEN cp len ;~
            if ((ty =? IPOPT_SSRR) || (ty =? IPOPT_LSRR)) && negb (len <? 7) then
              a <~ EXTRACT_IPV4_TO_NETWORK_ORDER (cp + len - 4) ;; pret (Some a)
            else finddst_loop f (cp + len) (length - len)
  end.

Definition ip_finddst (ip : Z) : pr (list Z) :=
  r <~ on_trunc
         (hl <~ IP_HL ip ;;
          let length := Z.shiftl hl 2 in
          if length <? sizeof_ip then pret None
          else finddst_loop (S (Z.to_nat (length - sizeof_ip))) (ip + sizeof_ip) (length - sizeof_ip))
         (pret None) ;;
  match r with
  | Some a => pret a
  | None => EXTRACT_IPV4_TO_NETWORK_ORDER (ip_dst ip)
  end.

(** [in_cksum] of a stack variable or of the packet from [p]. *)
Definition pkt_vec (ndo : netdissect_options) (p len : Z) : cksum_vec :=
  mk_cksum_vec (drop (Z.to_nat p) (ndo_packet ndo)) (Z.odd (ndo_base ndo + p)) len.
Definition run_cksum (vec : netdissect_options -> list cksum_vec) : pr Z := fun ndo =>
  match in_cksum (vec ndo) with
  | Some sum => (Done sum, ndo)
  | None => (Stop Fault, ndo)
  end.

Definition nextproto4_cksum (ip data len covlen next_proto : Z) : pr Z :=
  src <~ EXTRACT_IPV4_TO_NETWORK_ORDER (ip_src ip) ;;
  hl <~ IP_HL ip ;;
  dst <~ (if hl =? 5 then EXTRACT_IPV4_TO_NETWORK_ORDER (ip_dst ip) else ip_finddst ip) ;;
  let ph := src ++ dst ++ [0; u8 next_proto] ++ be_bytes 2 (u16 len) in
  run_cksum (fun ndo => [mk_cksum_vec ph false 12; pkt_vec ndo data covlen]).

(** [for (len = 4; len < length; len += hoplen)]; the value of [len] after it. *)
Fixpoint ts_loop (fuel : nat) (cp len length hoplen ptr : Z) : pr Z :=
  match fuel with
  | O => pstop Fuel
  | S f =>
      if len <? length then
        let type := if ptr =? len then " ^ "%string else " "%string in
        ND_TCHECK_LEN (cp + len) hoplen ;~
        v <~ EXTRACT_BE_U_4 (cp + len + hoplen - 4) ;;
        a <~ (if negb (hoplen =? 8) then pret EmptyString else ipaddr_string (cp + len)) ;;
        ND_PRINT (type +:+ dec v +:+ "@" +:+ a) ;~
        ts_loop f cp (len + hoplen) length hoplen ptr
      else pret len
  end.

Definition ts_type_name (ty : Z) : option string :=
  if ty =? IPOPT_TS_TSONLY then Some "TSONLY"%string
  else if ty =? IPOPT_TS_TSANDADDR then Some "TS+ADDR"%string
  else if ty =? 2 then Some "PRESPEC2.0"%string
  else if ty =? 3 then Some "PRESPEC"%string
  else None.

Definition ip_printts (cp length : Z) : pr Z :=
  on_trunc
    (if length <? 4 then ND_PRINT ("[bad length " +:+ dec length +:+ "]") ;~ pret 0
     else
       ND_PRINT " TS{" ;~
       ND_TCHECK_LEN (cp + 3) 1 ;~
       fl <~ EXTRACT_U_1 (cp + 3) ;;
       let hoplen := if negb (Z.land fl 0xF =? IPOPT_TS_TSONLY) then 8 else 4 in
       (if negb (Z.land (length - 4) (hoplen - 1) =? 0) then ND_PRINT ("[bad length " +:+ dec length +:+ "]")
        else pret tt) ;~
       ND_TCHECK_LEN (cp + 2) 1 ;~
       p <~ EXTRACT_U_1 (cp + 2) ;;
       let ptr := u32 (p - 1) in
       (if (ptr <? 4) || negb (Z.land (u32 (ptr - 4)) (hoplen - 1) =? 0) || (length + 1 <? ptr)
        then ND_PRINT ("[bad ptr " +:+ dec p +:+ "]") else pret tt) ;~
       ND_TCHECK_LEN (cp + 3) 1 ;~
       fl' <~ EXTRACT_U_1 (cp + 3) ;;
       len <~ match ts_type_name (Z.land fl' 0xF) with
              | Some name => ND_PRINT name ;~ ts_loop (S (Z.to_nat length)) cp 4 length hoplen ptr
              | None => ND_PRINT ("[bad ts type " +:+ dec (Z.land fl' 0xF) +:+ "]") ;~ pret 0
              end ;;
       ND_PRINT (if ptr =? len then " ^ "%string else EmptyString) ;~
       o <~ EXTRACT_U_1 (cp + 3) ;;
       (if negb (Z.shiftr o 4 =? 0) then ND_PRINT (" [" +:+ dec (Z.shiftr o 4) +:+ " hops not recorded]} ")
        else ND_PRINT "}") ;~
       pret 0)
    (pret (-1)).

(** The cast to [struct ipopt_pval] and the loads of two of its fields: a load of
    the structure. *)
Definition ip_printpval (cp length : Z) : pr Z :=
  if length <? sizeof_ipopt_pval then ND_PRINT ("[bad length " +:+ dec length +:+ "]") ;~ pret 0
  else
    l <~ load cp sizeof_ipopt_pval ;;
    match ipopt_pval_of_bytes l with
    | Some ipp => ND_PRINT (" cpu " +:+ dec (ipp_cpu ipp) +:+ ", seq " +:+ dec (ipp_seq ipp)) ;~ pret 0
    | None => pstop Fault
    end.

(** The value of an option, after its code and length; [true] for the [return]
    of the end-of-list option. *)
Definition opt_value (cp option_code option_len : Z) : pr bool :=
  if option_code =? IPOPT_EOL then pret true
  else if option_code =? IPOPT_TS then
    r <~ ip_printts cp option_len ;; if r =? -1 then pstop Trunc else pret false
  else if (option_code =? IPOPT_RR) || (option_code =? IPOPT_SSRR) || (option_code =? IPOPT_LSRR) then
    r <~ ip_printroute cp option_len ;; if r =? -1 then pstop Trunc else pret false
  else if option_code =? IPOPT_RA then
    (if option_len <? 4 then ND_PRINT (" [bad length " +:+ dec option_len +:+ "]")
     else
       ND_TCHECK_LEN (cp + 3) 1 ;~
       v <~ EXTRACT_BE_U_2 (cp + 2) ;;
       if negb (v =? 0) then ND_PRINT (" value " +:+ dec v) else pret tt) ;~
    pret false
  else if option_code =? IPOPT_PVAL then
    r <~ ip_printpval cp option_len ;; if r =? -1 then pstop Trunc else pret false
  else pret false.

Definition unknown_opt : option (Z -> string) := Some (fun v => "unknown " +:+ dec v).

(** Every option takes at least one of the [length] bytes. *)
Fixpoint optprint_loop (fuel : nat) (cp length : Z) (sep : string) : pr unit :=
  match fuel with
  | O => pstop Fuel
  | S f =>
      if 0 <? length then
        ND_PRINT sep ;~
        ND_TCHECK_LEN cp 1 ;~
        option_code <~ EXTRACT_U_1 cp ;;
        ND_PRINT (tok2str ip_option_values unknown_opt option_code) ;~
        let single := (option_code =? IPOPT_NOP) || (option_code =? IPOPT_EOL) in
        option_len <~ (if single then pret 1 else ND_TCHECK_LEN (cp + 1) 1 ;~ EXTRACT_U_1 (cp + 1)) ;;
        if (negb single && (option_len <? 2)) || (length <? option_len) then
          ND_PRINT (" [bad length " +:+ dec option_len +:+ "]")
        else
          ND_TCHECK_LEN cp option_len ;~
          stop <~ opt_value cp option_code option_len ;;
          if stop : bool then pret tt else optprint_loop f (cp + option_len) (length - option_len) ","
      else pret tt
  end.

Definition ip_optprint (cp length : Z) : pr Z :=
  on_trunc (optprint_loop (S (Z.to_nat length)) cp length EmptyString ;~ pret 0) (pret (-1)).

(** ** The authentication header and IPComp *)

Definition sizeof_ah : Z := 8.
Definition sizeof_ipcomp : Z := 4.

Definition ah_print (bp : Z) : pr Z :=
  set_protocol "ah" ;~
  on_trunc
    (ND_TCHECK_LEN bp sizeof_ah ;~
     al <~ EXTRACT_U_1 (bp + 1) ;;
     let sumlen := Z.shiftl al 2 in
     spi <~ EXTRACT_BE_U_4 (bp + 4) ;;
     ND_PRINT ("AH(spi=0x" +:+ hex_pad 8 spi) ;~
     v <~ flag f_vflag ;;
     (if negb (v =? 0) then ND_PRINT (",sumlen=" +:+ dec sumlen) else pret tt) ;~
     ND_TCHECK_LEN (bp + sizeof_ah) 4 ;~
     seq <~ EXTRACT_BE_U_4 (bp + sizeof_ah) ;;
     ND_PRINT (",seq=0x" +:+ hex seq) ;~
     ND_TCHECK_LEN bp (sizeof_ah + sumlen) ;~
     ND_PRINT "): " ;~
     pret (sizeof_ah + sumlen))
    (nd_print_trunc ;~ pret (-1)).

Definition ipcomp_print (bp : Z) : pr unit :=
  set_protocol "ipcomp" ;~
  on_trunc
    (ND_TCHECK_LEN bp sizeof_ipcomp ;~
     cpi <~ EXTRACT_BE_U_2 (bp + 2) ;;
     ND_PRINT ("IPComp(cpi=0x" +:+ hex_pad 4 cpi +:+ ")"))
    nd_print_trunc.

(** ** Demultiplexing *)

(** [struct ip_print_demux_state]; [advance] is local to the two cases that use
    it. *)
Record ip_print_demux_state := mk_ipds { d_ip : Z; d_cp : Z; d_len : Z; d_off : Z; d_nh : Z }.

(** ["%s > %s"] of the addresses of the header at [ip]. *)
Definition print_addrs (pre : string) (ip : Z) (post : string) : pr unit :=
  a <~ ipaddr_string (ip_src ip) ;;
  b <~ ipaddr_string (ip_dst ip) ;;
  ND_PRINT (pre +:+ a +:+ " > " +:+ b +:+ post).

(** The name or the number of a protocol. *)
Definition print_protoname (nh : Z) : pr unit :=
  n <~ flag f_nflag ;;
  match (if n =? 0 then netdb_protoname nh else None) with
  | Some p_name => ND_PRINT (" " +:+ p_name)
  | None => ND_PRINT (" ip-proto-" +:+ dec nh)
  end.

Definition demux_vrrp (ds : ip_print_demux_state) : pr unit :=
  pt <~ flag f_packettype ;;
  v <~ flag f_vflag ;;
  if pt =? PT_CARP then
    (if negb (v =? 0) then print_addrs "carp " (d_ip ds) ": " else pret tt) ;~
    ttl <~ EXTRACT_U_1 (d_ip ds + 8) ;; carp_print (d_cp ds) (d_len ds) ttl
  else
    (if negb (v =? 0) then print_addrs "vrrp " (d_ip ds) ": " else pret tt) ;~
    ttl <~ EXTRACT_U_1 (d_ip ds + 8) ;; vrrp_print (d_cp ds) (d_len ds) (d_ip ds) ttl.

(** The cases that end the loop, [IPPROTO_IPV4] apart. *)
Definition demux_leaf (ds : ip_print_demux_state) : pr unit :=
  let '(mk_ipds ip cp len off nh) := ds in
  let frag := Z.land off (Z.lor IP_MF IP_OFFMASK) in
  if nh =? IPPROTO_IPCOMP then ipcomp_print cp
  else if nh =? IPPROTO_SCTP then sctp_print cp ip len
  else if nh =? IPPROTO_DCCP then dccp_print cp ip len
  else if nh =? IPPROTO_TCP then tcp_print cp len ip frag
  else if nh =? IPPROTO_UDP then udp_print cp len ip frag
  else if nh =? IPPROTO_ICMP then icmp_print cp len ip frag
  else if nh =? IPPROTO_PIGP then igrp_print cp len
  else if nh =? IPPROTO_EIGRP then eigrp_print cp len
  else if nh =? IPPROTO_ND then ND_PRINT (" nd " +:+ dec len)
  else if nh =? IPPROTO_EGP then egp_print cp len
  else if nh =? IPPROTO_OSPF then ospf_print cp len ip
  else if nh =? IPPROTO_IGMP then igmp_print cp len
  else if nh =? IPPROTO_IPV6 then ip6_print cp len
  else if nh =? IPPROTO_RSVP then rsvp_print cp len
  else if nh =? IPPROTO_GRE then gre_print cp len
  else if nh =? IPPROTO_MOBILE then mobile_print cp len
  else if nh =? IPPROTO_PIM then pim_print cp len ip
  else if nh =? IPPROTO_VRRP then demux_vrrp ds
  else if nh =? IPPROTO_PGM then pgm_print cp len ip
  else print_protoname nh ;~ ND_PRINT (" " +:+ dec len).

(** ** The printer of a datagram *)

Definition ecn_text (ip_tos : Z) : string :=
  let e := Z.land ip_tos 0x03 in
  if e =? 1 then ",ECT(1)"%string else if e =? 2 then ",ECT(0)"%string else if e =? 3 then ",CE"%string
  else EmptyString.

(** The header checksum, [if (!ndo->ndo_Kflag && ip + hlen <= ndo->ndo_snapend)]. *)
Definition print_cksum (bp hlen : Z) : pr unit :=
  k <~ flag f_Kflag ;;
  e <~ asks ndo_snapend ;;
  if (k =? 0) && (bp + hlen <=? e) then
    sum <~ run_cksum (fun ndo => [pkt_vec ndo bp hlen]) ;;
    if negb (u16 sum =? 0) then
      ip_sum <~ EXTRACT_BE_U_2 (bp + 10) ;;
      ND_PRINT (", bad cksum " +:+ hex ip_sum +:+ " (->" +:+ hex (in_cksum_shouldbe ip_sum (u16 sum)) +:+ ")!")
    else pret tt
  else pret tt.

(** The options in parentheses; whether they were truncated. *)
Definition print_options (bp hlen : Z) : pr bool :=
  if 0 <? hlen - sizeof_ip then
    ND_PRINT ", options (" ;~
    r <~ ip_optprint (bp + sizeof_ip) (hlen - sizeof_ip) ;;
    (if r =? -1 then ND_PRINT " [truncated-option]" else pret tt) ;~
    ND_PRINT ")" ;~ pret (r =? -1)
  else pret false.

(** The fields of the header, [if (ndo->ndo_vflag)]. *)
Definition print_header (bp hlen off ip_proto : Z) : pr unit :=
  ip_tos <~ EXTRACT_U_1 (bp + 1) ;;
  ND_PRINT ("(tos 0x" +:+ hex ip_tos) ;~
  ND_PRINT (ecn_text ip_tos) ;~
  ip_ttl <~ EXTRACT_U_1 (bp + 8) ;;
  (if 1 <=? ip_ttl then ND_PRINT (", ttl " +:+ dec ip_ttl) else pret tt) ;~
  id <~ EXTRACT_BE_U_2 (bp + 4) ;;
  ND_PRINT (", id " +:+ dec id +:+ ", offset " +:+ dec (Z.land off 0x1fff * 8) +:+ ", flags ["
    +:+ bittok2str ip_frag_values (Some (fun _ => "none"%string)) (Z.land off 0xe000) +:+ "], proto "
    +:+ tok2str ipproto_values (Some (fun _ => "unknown"%string)) ip_proto +:+ " (" +:+ dec ip_proto +:+ ")") ;~
  len <~ EXTRACT_BE_U_2 (bp + 2) ;;
  ND_PRINT (", length " +:+ dec len) ;~
  truncated <~ print_options bp hlen ;;
  print_cksum bp hlen ;~
  ND_PRINT (")" +:+ String (chr 10) "    ") ;~
  if truncated then print_addrs EmptyString bp ": " ;~ pstop Trunc else pret tt.

(** The last part of [ip_print]: the payload, or the addresses of a later
    fragment. *)
Definition print_payload (demux : ip_print_demux_state -> pr unit) (bp hlen len off : Z) : pr unit :=
  ip_proto <~ EXTRACT_U_1 (bp + 9) ;;
  if Z.land off 0x1fff =? 0 then
    (if negb (ip_proto =? IPPROTO_TCP) && negb (ip_proto =? IPPROTO_UDP) && negb (ip_proto =? IPPROTO_SCTP)
        && negb (ip_proto =? IPPROTO_DCCP)
     then print_addrs EmptyString bp ": " else pret tt) ;~
    demux (mk_ipds bp (bp + hlen) len off ip_proto)
  else
    q <~ flag f_qflag ;;
    if 1 <? q then pret tt
    else print_addrs EmptyString bp ":" ;~ print_protoname ip_proto.

(** The total length to use, [None] after a message when the datagram is
    dropped. *)
Definition total_len (bp length hlen : Z) : pr (option Z) :=
  len <~ EXTRACT_BE_U_2 (bp + 2) ;;
  (if length <? len then ND_PRINT ("truncated-ip - " +:+ dec (len - length) +:+ " bytes missing! ") else pret tt) ;~
  if len <? hlen then
    if GUESS_TSO && (len =? 0) then pret (Some length)
    else ND_PRINT ("bad-len " +:+ dec len) ;~ pret None
  else pret (Some len).

Definition ip_print_body (demux : ip_print_demux_state -> pr unit) (bp length : Z) : pr unit :=
  set_protocol "ip" ;~
  on_trunc
    (ND_TCHECK_LEN bp 1 ;~
     ver <~ IP_V bp ;;
     if negb (ver =? 4) then
       (if ver =? 6 then ND_PRINT "IP6, wrong link-layer encapsulation" else ND_PRINT ("IP" +:+ dec ver)) ;~
       ND_PRINT " (invalid)"
     else
       e <~ flag f_eflag ;;
       (if e =? 0 then ND_PRINT "IP " else pret tt) ;~
       ND_TCHECK_LEN bp sizeof_ip ;~
       if length <? sizeof_ip then ND_PRINT ("truncated-ip " +:+ dec length)
       else
         hl <~ IP_HL bp ;;
         let hlen := hl * 4 in
         if hlen <? sizeof_ip then ND_PRINT ("bad-hlen " +:+ dec hlen)
         else
           ol <~ total_len bp length hlen ;;
           match ol with
           | None => pret tt
           | Some len =>
               cut_snapend (bp + len) ;~
               off <~ EXTRACT_BE_U_2 (bp + 6) ;;
               ip_proto <~ EXTRACT_U_1 (bp + 9) ;;
               v <~ flag f_vflag ;;
               (if negb (v =? 0) then print_header bp hlen off ip_proto else pret tt) ;~
               print_payload demux bp hlen (u32 (len - hlen)) off
           end)
    nd_print_trunc.

(** [goto again] and the recursion for IP in IP take one unit of fuel. *)
Fixpoint ip_print_demux (fuel : nat) (ds : ip_print_demux_state) : pr unit :=
  match fuel with
  | O => pstop Fuel
  | S f =>
      if d_nh ds =? IPPROTO_AH then
        b <~ ND_TTEST_LEN (d_cp ds) 1 ;;
        if negb b then ND_PRINT "[|AH]"
        else
          nh <~ EXTRACT_U_1 (d_cp ds) ;;
          advance <~ ah_print (d_cp ds) ;;
          if advance <=? 0 then pret tt
          else ip_print_demux f (mk_ipds (d_ip ds) (d_cp ds + advance) (u32 (d_len ds - advance)) (d_off ds) nh)
      else if d_nh ds =? IPPROTO_ESP then
        r <~ esp_print (d_cp ds) (d_len ds) (d_ip ds) ;;
        let '(advance, enh, padlen) := r in
        if advance <=? 0 then pret tt
        else ip_print_demux f
          (mk_ipds (d_ip ds) (d_cp ds + advance) (u32 (d_len ds - (advance + padlen))) (d_off ds) (Z.land enh 0xff))
      else if d_nh ds =? IPPROTO_IPV4 then
        ip_print_body (ip_print_demux f) (d_cp ds) (d_len ds) ;~
        v <~ flag f_vflag ;;
        if v =? 0 then ND_PRINT " (ipip-proto-4)" else pret tt
      else demux_leaf ds
  end.

(** A header for each byte before the end of the data, and one more. *)
Definition with_fuel (m : nat -> pr unit) : pr unit := fun ndo => m (S (S (Z.to_nat (ndo_snapend ndo)))) ndo.

Definition ip_print (bp length : Z) : pr unit :=
  with_fuel (fun fuel => ip_print_body (ip_print_demux fuel) bp length).

Definition ip_inner_print (bp length nh bp2 : Z) : pr unit :=
  with_fuel (fun fuel => ip_print_demux fuel (mk_ipds bp2 bp length 0 (u8 nh))).

Definition ipN_print (bp length : Z) : pr unit :=
  set_protocol "ipN" ;~
  if length <? 1 then ND_PRINT ("truncated-ip " +:+ dec length)
  else on_trunc
    (ND_TCHECK_LEN bp 1 ;~
     b <~ EXTRACT_U_1 bp ;;
     if Z.land b 0xF0 =? 0x40 then ip_print bp length
     else if Z.land b 0xF0 =? 0x60 then ip6_print bp length
     else ND_PRINT ("unknown ip " +:+ dec (Z.shiftr (Z.land b 0xF0) 4)))
    nd_print_trunc.
End PrintIp.

(** ** The rule every printer follows *)

(** The version of an IP header that starts with [l]. *)
Definition version_of (l : list Z) : Z := Z.shiftr (Z.land (be_val l) 0xf0) 4.

(** The header at [ip] can be read, whichever version it has. *)
Definition ip_header (s0 : netdissect_options) (ip : Z) : Prop :=
  readable s0 ip sizeof_ip /\
  forall l, mem_read (ndo_packet s0) ip 1 = Some l -> version_of l = 6 -> readable s0 ip sizeof_ip6_hdr.

Lemma ip_header_v4 s0 ip l : readable s0 ip sizeof_ip -> mem_read (ndo_packet s0) ip 1 = Some l -> version_of l = 4 -> ip_header s0 ip.
Proof. intros Hr Hl Hv. split; [done|]. intros l' Hl'. rewrite Hl in Hl'. injection Hl' as <-. lia. Qed.

(** From a well-formed context in which it accepts a payload at [cp], with an
    enclosing header that can be read, a printer reads only captured bytes,
    prints clean text and handles truncation itself. *)
Definition well_behaved (acc : netdissect_options -> Z -> Prop) (cp ip : Z) (m : pr unit) : Prop :=
  forall s0, ndo_ok s0 -> 0 <= cp -> acc s0 cp -> ip_header s0 ip -> safe false s0 m (fun _ => True).
Definition well_behaved0 (acc : netdissect_options -> Z -> Prop) (cp : Z) (m : pr unit) : Prop :=
  forall s0, ndo_ok s0 -> 0 <= cp -> acc s0 cp -> safe false s0 m (fun _ => True).

(** What a printer accepts it accepts further on too. [esp_print] advances only
    past a header that was captured, and by no more than an [int] holds. *)
Class PrinterLaws `{Printers} := {
  accepts : netdissect_options -> Z -> Prop;
  accepts_mono s s' cp cp' : ndo_ext s s' -> cp <= cp' -> accepts s cp -> accepts s' cp';
  getname_clean l : clean (getname l) = true;
  esp_law cp len ip s0 : 0 <= cp -> accepts s0 cp -> ndo_ok s0 -> readable s0 ip sizeof_ip ->
    safe false s0 (esp_print cp len ip)
      (fun r => 0 < r.1.1 -> cp < ndo_snapend s0);
  sctp_law cp ip len : well_behaved accepts cp ip (sctp_print cp ip len);
  dccp_law cp ip len : well_behaved accepts cp ip (dccp_print cp ip len);
  tcp_law cp len ip frag : well_behaved accepts cp ip (tcp_print cp len ip frag);
  udp_law cp len ip frag : well_behaved accepts cp ip (udp_print cp len ip frag);
  icmp_law cp len ip frag : well_behaved accepts cp ip (icmp_print cp len ip frag);
  igrp_law cp len : well_behaved0 accepts cp (igrp_print cp len);
  eigrp_law cp len : well_behaved0 accepts cp (eigrp_print cp len);
  egp_law cp len : well_behaved0 accepts cp (egp_print cp len);
  ospf_law cp len ip : well_behaved accepts cp ip (ospf_print cp len ip);
  igmp_law cp len : well_behaved0 accepts cp (igmp_print cp len);
  ip6_law cp len : well_behaved0 accepts cp (ip6_print cp len);
  rsvp_law cp len : well_behaved0 accepts cp (rsvp_print cp len);
  gre_law cp len : well_behaved0 accepts cp (gre_print cp len);
  mobile_law cp len : well_behaved0 accepts cp (mobile_print cp len);
  pim_law cp len ip : well_behaved accepts cp ip (pim_print cp len ip);
  carp_law cp len ttl : well_behaved0 accepts cp (carp_print cp len ttl);
  vrrp_law cp len ip ttl : well_behaved accepts cp ip (vrrp_print cp len ip ttl);
  pgm_law cp len ip : well_behaved accepts cp ip (pgm_print cp len ip) }.

(** ** Safety of the parts *)

Section Safety.
Context `{PrinterLaws} (GUESS_TSO : bool) (s0 : netdissect_options) (Hok : ndo_ok s0).

Lemma safe_ipaddr T p : readable s0 p 4 -> safe T s0 (ipaddr_string p) (fun a => clean a = true).
Proof.
  intros Hr. unfold ipaddr_string. safe_call safe_load. intros l _. apply safe_ret, getname_clean.
Qed.

Lemma safe_IP_V T ip : readable s0 ip 1 -> safe T s0 (IP_V ip) (fun v => exists l, mem_read (ndo_packet s0) ip 1 = Some l /\ v = version_of l).
Proof.
  intros Hr. unfold IP_V, EXTRACT_U_1. eapply (safe_bind _ _ _ _ (fun x => exists l, mem_read (ndo_packet s0) ip 1 = Some l /\ x = be_val l)).
  - eapply safe_bind; [by apply safe_load|]. intros l (Hl & _). apply safe_ret. by exists l.
  - intros x (l & Hl & ->). apply safe_ret. by exists l.
Qed.

(** Optional text. *)
Lemma safe_opt T (b : bool) str : clean str = true -> safe T s0 (if b then ND_PRINT str else pret tt) (fun _ => True).
Proof. intros Hc. destruct b; [by apply safe_print|by apply safe_ret]. Qed.

(** A test of a field that may print a remark. *)
Ltac opt_step := eapply safe_bind; [apply safe_opt; clean_tac|intros _ _].

Lemma safe_route_loop fuel cp len n ptr :
  0 <= cp -> 0 <= len -> 0 < Z.of_nat fuel -> n - len < Z.of_nat fuel ->
  safe true s0 (route_loop fuel cp len n ptr) (fun _ => True).
Proof.
  intros Hc. revert len. induction fuel as [|f IH]; intros len Hl Hp Hf; [lia|]. cbn [route_loop].
  safe_step; [|by apply safe_ret]. safe_step. safe_call safe_ipaddr; [readable_tac|]. intros nm Hnm. safe_step.
  opt_step. apply IH; lia.
Qed.

Lemma safe_printroute cp n : 0 <= cp -> safe false s0 (ip_printroute cp n) (fun _ => True).
Proof.
  intros Hc. unfold ip_printroute. apply safe_on_trunc; [|by apply safe_ret].
  safe_step; [safe_step; by apply safe_ret|]. opt_step. safe_step. safe_step. opt_step.
  safe_call safe_route_loop. intros _ _. by apply safe_ret.
Qed.

Lemma safe_finddst_loop fuel cp n :
  0 <= cp -> 0 <= n < Z.of_nat fuel ->
  safe true s0 (finddst_loop fuel cp n) (fun r => match r with Some a => bytes_ok a = true /\ length a = 4%nat | None => True end).
Proof.
  revert cp n. induction fuel as [|f IH]; intros cp n Hc Hn; [lia|]. cbn [finddst_loop].
  safe_step; [by apply safe_ret|]. safe_step. safe_step. safe_step; [by apply safe_ret|].
  eapply (safe_bind _ _ _ _ (fun len => (if a0 =? IPOPT_NOP then len = 1 else 0 <= len < 256))).
  { destruct (a0 =? IPOPT_NOP); [by apply safe_ret|]. safe_step. by safe_tail safe_u1; [readable_tac|]. }
  intros len Hlen. destruct (negb (a0 =? IPOPT_NOP) && (len <? 2)) eqn:Eb; [by apply safe_ret|].
  assert (Hl : 1 <= len < 256) by (destruct (a0 =? IPOPT_NOP); cbn in Eb; bool_to_prop; lia).
  safe_step; [by apply safe_ret|].
  safe_step. safe_step.
  - safe_step. apply safe_ret. split; [naive_solver|lia].
  - apply IH; lia.
Qed.

Lemma land_low v k : 0 <= k -> 0 <= v -> 0 <= Z.land v (2 ^ k - 1) < 2 ^ k.
Proof. intros. rewrite land_mask by done. apply Z.mod_pos_bound. lia. Qed.

Lemma safe_IP_HL T ip : readable s0 ip 1 -> safe T s0 (IP_HL ip) (fun v => 0 <= v < 16).
Proof. intros. unfold IP_HL. safe_steps. apply (land_low _ 4); lia. Qed.

Lemma safe_finddst ip :
  readable s0 ip sizeof_ip -> safe false s0 (ip_finddst ip) (fun a => bytes_ok a = true /\ length a = 4%nat).
Proof.
  intros Hr. unfold ip_finddst, sizeof_ip in *. pose proof Hr as (Hip & _ & _).
  eapply (safe_bind _ _ _ _ (fun r => match r with Some a => bytes_ok a = true /\ length a = 4%nat | None => True end)).
  { apply safe_on_trunc; [|by apply safe_ret]. safe_call safe_IP_HL; [readable_tac|]. intros hl Hhl.
    rewrite Z.shiftl_mul_pow2 by lia. safe_step; [by apply safe_ret|]. apply safe_finddst_loop; lia. }
  intros [a|] Ha; [by apply safe_ret|]. unfold ip_dst. safe_step. split; [naive_solver|lia].
Qed.

Lemma safe_ts_loop fuel cp len n hoplen ptr :
  0 <= cp -> 0 <= len -> hoplen = 4 \/ hoplen = 8 -> 0 < Z.of_nat fuel -> n - len < Z.of_nat fuel ->
  safe true s0 (ts_loop fuel cp len n hoplen ptr) (fun _ => True).
Proof.
  intros Hc Hl Hh. revert len Hl. induction fuel as [|f IH]; intros len Hl Hp Hf; [lia|]. cbn [ts_loop].
  safe_step; [|by apply safe_ret]. safe_step. safe_step.
  eapply (safe_bind _ _ _ _ (fun a => clean a = true)).
  { safe_step; [by apply safe_ret|]. apply safe_ipaddr. readable_tac. }
  intros a' Ha. safe_step. apply IH; lia.
Qed.

Lemma safe_printts cp n : 0 <= cp -> safe false s0 (ip_printts cp n) (fun _ => True).
Proof.
  intros Hc. unfold ip_printts. apply safe_on_trunc; [|by apply safe_ret].
  safe_step; [safe_step; by apply safe_ret|]. safe_step. safe_step. safe_step. opt_step. safe_step. safe_step.
  opt_step. safe_step. safe_step.
  eapply (safe_bind _ _ _ _ (fun _ => True)).
  { destruct (ts_type_name _) as [name|] eqn:E'.
    - eapply safe_bind; [apply safe_print; unfold ts_type_name in E'; repeat case_match; by simplify_eq|].
      intros _ _. apply safe_ts_loop; try lia. case_match; lia.
    - safe_step. by apply safe_ret. }
  intros len _. safe_step. safe_step. eapply safe_bind; [|intros _ _; by apply safe_ret].
  safe_step; [apply safe_print; clean_tac|by apply safe_print].
Qed.

Lemma ipopt_pval_of_bytes_total l : length l = 12%nat -> is_Some (ipopt_pval_of_bytes l).
Proof. intros Hl. do 12 (destruct l as [|? l]; [done|]). destruct l; [|done]. by eexists. Qed.

(** The option structure is read only when the option is long enough to hold it. *)
Lemma safe_printpval T cp n : readable s0 cp n -> safe T s0 (ip_printpval cp n) (fun r => r = 0).
Proof.
  intros Hr. unfold ip_printpval, sizeof_ipopt_pval. safe_step; [safe_step; by apply safe_ret|].
  safe_call safe_load; [readable_tac|]. intros l (_ & Hl & _).
  destruct (ipopt_pval_of_bytes_total l) as [ipp ->]; [lia|]. safe_step. by apply safe_ret.
Qed.

(** A result of -1 goes to [trunc:]. *)
Lemma safe_or_trunc (m : pr Z) :
  safe false s0 m (fun _ => True) ->
  safe true s0 (r <~ m ;; if r =? -1 then pstop Trunc else pret false) (fun _ => True).
Proof.
  intros Hm. eapply (safe_bind _ _ _ _ (fun _ => True)).
  - by apply safe_allow_trunc.
  - intros r _. destruct (r =? -1); [by apply safe_trunc|by apply safe_ret].
Qed.

Lemma safe_opt_value cp code n :
  0 <= cp -> readable s0 cp n -> safe true s0 (opt_value cp code n) (fun _ => True).
Proof.
  intros Hc Hr. unfold opt_value. safe_step; [by apply safe_ret|].
  safe_step; [by apply safe_or_trunc, safe_printts|].
  destruct (_ || _); [by apply safe_or_trunc, safe_printroute|].
  safe_step.
  - eapply (safe_bind _ _ _ _ (fun _ => True)); [|intros; by apply safe_ret].
    safe_step; [apply safe_print; clean_tac|]. safe_step. safe_step. apply safe_opt. clean_tac.
  - safe_step; [|by apply safe_ret]. apply safe_or_trunc. by safe_tail safe_printpval.
Qed.

Lemma clean_option_name v : clean (tok2str ip_option_values unknown_opt v) = true.
Proof. apply clean_tok2str; [done|]. change (clean ("unknown " +:+ dec v) = true). clean_tac. Qed.

Lemma safe_optprint_loop fuel cp n sep :
  0 <= cp -> 0 < Z.of_nat fuel -> n < Z.of_nat fuel -> clean sep = true ->
  safe true s0 (optprint_loop fuel cp n sep) (fun _ => True).
Proof.
  revert cp n sep. induction fuel as [|f IH]; intros cp n sep Hc Hp Hn Hs; [lia|]. cbn [optprint_loop].
  safe_step; [|by apply safe_ret]. safe_step. safe_step. safe_step.
  eapply safe_bind; [apply safe_print, clean_option_name|]. intros _ _. set (single := _ || _).
  eapply (safe_bind _ _ _ _ (fun len => if single then len = 1 else 0 <= len < 256)).
  { destruct single; [by apply safe_ret|]. safe_step. by safe_tail safe_u1; [readable_tac|]. }
  intros len Hlen. destruct (_ || (n <? len)) eqn:Eb; [apply safe_print; clean_tac|].
  assert (Hl : 1 <= len < 256 /\ len <= n)
    by (destruct single; cbn [negb andb orb] in Eb; bool_to_prop; lia).
  safe_step. safe_call safe_opt_value; [readable_tac|]. intros [] _; [by apply safe_ret|]. apply IH; try lia. done.
Qed.

Lemma safe_optprint cp n : 0 <= cp -> safe false s0 (ip_optprint cp n) (fun _ => True).
Proof.
  intros Hc. unfold ip_optprint. apply safe_on_trunc; [|by apply safe_ret].
  safe_call safe_optprint_loop; [done|]. intros _ _. by apply safe_ret.
Qed.

(** ** Safety of the headers *)

Lemma safe_ah_print bp : 0 <= bp -> safe false s0 (ah_print bp) (fun r => 0 <= r -> bp + 1 <= ndo_snapend s0).
Proof.
  intros Hb. unfold ah_print, sizeof_ah. safe_step. apply safe_on_trunc; [|safe_step; apply safe_ret; lia].
  safe_step. safe_step. rewrite Z.shiftl_mul_pow2 by lia. safe_step. safe_step. safe_step. opt_step.
  safe_step. safe_step. safe_step. safe_step. safe_step. apply safe_ret. lia.
Qed.

Lemma safe_ipcomp_print bp : 0 <= bp -> safe false s0 (ipcomp_print bp) (fun _ => True).
Proof.
  intros Hb. unfold ipcomp_print, sizeof_ipcomp. safe_step. apply safe_on_trunc; [|apply safe_print_trunc].
  safe_step. safe_step. apply safe_print. clean_tac.
Qed.

Lemma safe_print_addrs T pre ip post :
  readable s0 ip sizeof_ip -> clean pre = true -> clean post = true ->
  safe T s0 (print_addrs pre ip post) (fun _ => True).
Proof.
  intros Hr H1 H2. unfold print_addrs, ip_src, ip_dst, sizeof_ip in *.
  safe_call safe_ipaddr; [readable_tac|]. intros a Ha. safe_call safe_ipaddr; [readable_tac|]. intros b Hb.
  apply safe_print. clean_tac.
Qed.

Lemma safe_print_protoname T nh : safe T s0 (print_protoname nh) (fun _ => True).
Proof.
  unfold print_protoname. safe_step. destruct (if a =? 0 then _ else _) as [n|] eqn:E; apply safe_print.
  - case_match; [|done]. apply clean_protoname in E. clean_tac.
  - clean_tac.
Qed.

Lemma safe_demux_vrrp ds :
  0 <= d_cp ds -> accepts s0 (d_cp ds) -> ip_header s0 (d_ip ds) -> safe false s0 (demux_vrrp ds) (fun _ => True).
Proof.
  intros Hc Ha Hh. pose proof (proj1 Hh) as Hr. unfold demux_vrrp. safe_step. safe_step.
  safe_step; (eapply (safe_bind _ _ _ _ (fun _ => True)); [safe_step; [by apply safe_print_addrs|by apply safe_ret]|]);
    intros _ _; unfold sizeof_ip in *; safe_step; [by apply carp_law|by apply vrrp_law].
Qed.

Lemma safe_demux_leaf ds :
  0 <= d_cp ds -> accepts s0 (d_cp ds) -> ip_header s0 (d_ip ds) -> safe false s0 (demux_leaf ds) (fun _ => True).
Proof.
  intros Hc Ha Hr. pose proof (safe_demux_vrrp ds Hc Ha Hr) as Hv.
  destruct ds as [ip cp len off nh]. unfold demux_leaf. cbn [d_cp d_ip] in *.
  repeat match goal with |- safe _ _ (if ?b then _ else _) _ => destruct b end;
    first [ by apply safe_ipcomp_print | by apply sctp_law | by apply dccp_law | by apply tcp_law | by apply udp_law
          | by apply icmp_law | by apply igrp_law | by apply eigrp_law | by apply egp_law | by apply ospf_law
          | by apply igmp_law | by apply ip6_law | by apply rsvp_law | by apply gre_law | by apply mobile_law
          | by apply pim_law | exact Hv | by apply pgm_law | apply safe_print; clean_tac | idtac ].
  safe_call safe_print_protoname. intros _ _. apply safe_print. clean_tac.
Qed.

(** ** Safety of a datagram *)

(** A checksum over as many readable bytes as a datagram has at most. *)
Lemma safe_run_cksum T bp n :
  readable s0 bp n -> n <= 65535 ->
  safe T s0 (run_cksum (fun ndo => [pkt_vec ndo bp n])) (fun sum => 0 <= sum < 65536).
Proof.
  intros (Hb & Hn & Hr) Hmax s (Hp & Hs). unfold run_cksum, pkt_vec. rewrite Hp.
  destruct Hok as (_ & _ & _ & Hby & _). rewrite in_cksum_one_spec; [|unfold vec_ok|done].
  - split; [by split|]. match goal with |- context [oc_fold ?x] => pose proof (oc_fold_range x) end. lia.
  - cbn [v_mem v_len]. rewrite bytes_ok_drop, length_drop by done. rewrite !(proj2 (Z.leb_le _ _)) by lia. done.
Qed.

Lemma in_cksum_shouldbe_range a b : 0 <= in_cksum_shouldbe a b.
Proof. unfold in_cksum_shouldbe. apply u16_range. Qed.

Lemma safe_print_cksum T bp hlen :
  readable s0 bp sizeof_ip -> sizeof_ip <= hlen <= 60 -> safe T s0 (print_cksum bp hlen) (fun _ => True).
Proof.
  intros Hr Hh. unfold print_cksum, sizeof_ip in *. pose proof Hr as (Hb & _). safe_step. safe_step.
  destruct ((a =? 0) && (bp + hlen <=? a0)) eqn:E; [|by apply safe_ret]. bool_to_prop.
  safe_call safe_run_cksum; [readable_tac|]. intros sum Hsum.
  safe_step; [|by apply safe_ret]. safe_step. apply safe_print. clean_tac.
  apply clean_hex, in_cksum_shouldbe_range.
Qed.

Lemma safe_print_options T bp hlen :
  0 <= bp -> safe T s0 (print_options bp hlen) (fun _ => True).
Proof.
  intros Hb. unfold print_options, sizeof_ip. safe_step; [|by apply safe_ret]. safe_step.
  eapply (safe_bind _ _ _ _ (fun _ => True)).
  { apply safe_allow_trunc, safe_optprint. lia. }
  intros r _. opt_step. safe_step. by apply safe_ret.
Qed.

Lemma safe_print_header bp hlen off proto :
  readable s0 bp sizeof_ip -> sizeof_ip <= hlen <= 60 ->
  safe true s0 (print_header bp hlen off proto) (fun _ => True).
Proof.
  intros Hr Hh. pose proof Hr as (Hb & _). unfold print_header. pose proof Hr as Hr'. unfold sizeof_ip in Hr'.
  safe_step. safe_step. eapply safe_bind; [apply safe_print; unfold ecn_text; clean_tac|]. intros _ _.
  safe_step. opt_step. safe_step.
  eapply safe_bind.
  { apply safe_print. repeat apply clean_app2; try done; try apply clean_dec.
    - by apply clean_bittok2str.
    - by apply clean_tok2str; [apply clean_ipproto_values|]. }
  intros _ _. safe_step. safe_step. safe_call safe_print_options. intros truncated _.
  safe_call safe_print_cksum. intros _ _. safe_step. destruct truncated; [|by apply safe_ret].
  safe_call safe_print_addrs; [done..|]. intros _ _. by apply safe_trunc.
Qed.

Lemma safe_print_payload T demux bp hlen len off :
  readable s0 bp sizeof_ip ->
  (forall ds, d_ip ds = bp -> d_cp ds = bp + hlen -> d_len ds = len -> safe T s0 (demux ds) (fun _ => True)) ->
  safe T s0 (print_payload demux bp hlen len off) (fun _ => True).
Proof.
  intros Hr Hd. pose proof Hr as (Hb & _). unfold print_payload. pose proof Hr as Hr'. unfold sizeof_ip in Hr'.
  safe_step. safe_step.
  - eapply (safe_bind _ _ _ _ (fun _ => True)); [|intros _ _; by apply Hd].
    destruct (_ && _); [by apply safe_print_addrs|by apply safe_ret].
  - safe_step. safe_step; [by apply safe_ret|]. safe_call safe_print_addrs; [done..|].
    intros _ _. apply safe_print_protoname.
Qed.

Lemma safe_total_len T bp length hlen :
  readable s0 bp sizeof_ip -> 0 <= length ->
  safe T s0 (total_len GUESS_TSO bp length hlen)
    (fun o => match o with Some len => 0 <= len | None => True end).
Proof.
  intros Hr Hl. unfold total_len, sizeof_ip in *. safe_step. opt_step. safe_step; [|apply safe_ret; lia].
  destruct (GUESS_TSO && (a =? 0)); [by apply safe_ret|]. safe_step. by apply safe_ret.
Qed.

(** One header: [demux] is called, if at all, past at least the fixed header. *)
Lemma safe_ip_print_body demux bp length :
  0 <= bp -> 0 <= length ->
  (forall ds, ip_header s0 (d_ip ds) -> bp + sizeof_ip <= d_cp ds -> 0 <= d_len ds ->
    bp < ndo_snapend s0 -> safe false s0 (demux ds) (fun _ => True)) ->
  safe false s0 (ip_print_body GUESS_TSO demux bp length) (fun _ => True).
Proof.
  intros Hb Hl Hd. unfold ip_print_body. safe_step. apply safe_on_trunc; [|apply safe_print_trunc].
  assert (Hd' : forall ds, ip_header s0 (d_ip ds) -> bp + sizeof_ip <= d_cp ds -> 0 <= d_len ds ->
    bp < ndo_snapend s0 -> safe true s0 (demux ds) (fun _ => True)).
  { intros ds G1 G2 G3 G4. by apply safe_allow_trunc, Hd. }
  safe_step. eapply safe_bind; [apply safe_IP_V; readable_tac|]. intros ver (lv & Hlv & Hver).
  safe_step.
  { eapply (safe_bind _ _ _ _ (fun _ => True)); [safe_step; apply safe_print; clean_tac|].
    intros _ _. by apply safe_print. }
  safe_step. opt_step. unfold sizeof_ip. safe_step. safe_step; [apply safe_print; clean_tac|].
  safe_call safe_IP_HL; [readable_tac|]. intros hl Hhl. cbv zeta. safe_step; [apply safe_print; clean_tac|].
  assert (Hr : readable s0 bp sizeof_ip) by (unfold sizeof_ip; readable_tac).
  safe_call safe_total_len. intros [len|] Hlen; [|by apply safe_ret]. unfold sizeof_ip in Hr.
  safe_step. safe_step. safe_step. safe_step.
  eapply (safe_bind _ _ _ _ (fun _ => True)).
  { safe_step; [|by apply safe_ret]. apply safe_print_header; unfold sizeof_ip; [done|lia]. }
  intros _ _. apply safe_print_payload; [done|]. intros ds Hip Hcp Hdl.
  pose proof (u32_range (len - hl * 4)). apply Hd'; unfold sizeof_ip; [rewrite Hip; apply (ip_header_v4 _ _ lv); [done|done|lia]|lia..].
Qed.

(** The demultiplexer, with fuel for the captured bytes from [d_cp] on. *)
Lemma safe_ip_print_demux fuel ds :
  0 <= d_cp ds -> accepts s0 (d_cp ds) -> 0 <= d_len ds -> ip_header s0 (d_ip ds) -> 0 < Z.of_nat fuel ->
  ndo_snapend s0 - d_cp ds < Z.of_nat fuel ->
  safe false s0 (ip_print_demux GUESS_TSO fuel ds) (fun _ => True).
Proof.
  revert ds. induction fuel as [|f IH]; intros ds Hc Ha Hl Hr Hp Hf; [lia|]. cbn [ip_print_demux].
  assert (Hmono : forall cp, d_cp ds <= cp -> accepts s0 cp)
    by (intros cp Hcp; exact (accepts_mono _ _ _ _ (ndo_ext_refl s0 Hok) Hcp Ha)).
  safe_step; [|safe_step; [|safe_step]].
  - safe_step. safe_step; [by apply safe_print|]. safe_step. safe_call safe_ah_print. intros adv _.
    safe_step; [by apply safe_ret|]. apply IH; cbn [d_cp d_len d_ip]; try done; try lia; [apply Hmono; lia|apply u32_range].
  - safe_call esp_law; [apply Hr|]. intros [[adv enh] padlen] Hadv. cbn [fst] in Hadv.
    safe_step; [by apply safe_ret|]. specialize (Hadv ltac:(lia)).
    apply IH; cbn [d_cp d_len d_ip]; try done; try lia; [apply Hmono; lia|apply u32_range].
  - safe_call safe_ip_print_body.
    + intros ds' Hr' Hcp Hdl Hsn. unfold sizeof_ip in Hcp. apply IH; try done; try apply Hmono; lia.
    + intros _ _. safe_step. safe_step; [by apply safe_print|by apply safe_ret].
  - by apply safe_demux_leaf.
Qed.
End Safety.

Lemma ndo_ok_ext a b : ndo_ok a -> ndo_ext a b -> ndo_ok b.
Proof.
  intros (Hb & Hl & Hs & Hby & _) (Hp & Hbase & _ & Hs' & Hc & _). unfold ndo_ok. rewrite Hp, Hbase.
  repeat split; try done; lia.
Qed.

(** A safe printer that chooses its fuel from the context it starts in. *)
Lemma safe_with_fuel s0 (m : nat -> pr unit) :
  ndo_ok s0 ->
  (forall s fuel, ndo_ok s -> ndo_ext s0 s -> ndo_snapend s + 1 < Z.of_nat fuel -> safe false s (m fuel) (fun _ => True)) ->
  safe false s0 (with_fuel m) (fun _ => True).
Proof.
  intros Hok Hm s Hs. unfold with_fuel. pose proof (ndo_ok_ext _ _ Hok Hs) as Hoks.
  pose proof Hoks as (_ & _ & Hsn & _).
  specialize (Hm s (S (S (Z.to_nat (ndo_snapend s)))) Hoks Hs ltac:(lia) s (ndo_ext_refl s Hoks)).
  destruct (m _ s) as [[[]|[]] s']; try naive_solver. destruct Hm as [Hm _]. split; [|done]. by transitivity s.
Qed.

Section Whole.
Context `{PrinterLaws} (GUESS_TSO : bool).

Lemma safe_ip_print s0 bp length :
  ndo_ok s0 -> 0 <= bp -> accepts s0 bp -> 0 <= length -> safe false s0 (ip_print GUESS_TSO bp length) (fun _ => True).
Proof.
  intros Hok Hb Ha Hl. apply safe_with_fuel; [done|]. intros s fuel Hoks Hs Hf.
  apply safe_ip_print_body; try done. intros ds Hr Hcp Hdl Hsn. unfold sizeof_ip in Hcp.
  apply safe_ip_print_demux; try done; try lia. apply (accepts_mono _ _ bp _ Hs); [lia|done].
Qed.

Lemma safe_ip_inner_print s0 bp length nh bp2 :
  ndo_ok s0 -> 0 <= bp -> accepts s0 bp -> 0 <= length -> ip_header s0 bp2 ->
  safe false s0 (ip_inner_print GUESS_TSO bp length nh bp2) (fun _ => True).
Proof.
  intros Hok Hb Ha Hl Hr. apply safe_with_fuel; [done|]. intros s fuel Hoks Hs Hf. pose proof Hs as (Hp & _).
  pose proof Hoks as (_ & _ & ? & _).
  apply safe_ip_print_demux; cbn [d_cp d_len d_ip]; try done; try lia; [|unfold ip_header, readable; by rewrite Hp].
  by apply (accepts_mono _ _ bp _ Hs).
Qed.

Lemma safe_ipN_print s0 bp length :
  ndo_ok s0 -> 0 <= bp -> accepts s0 bp -> 0 <= length -> safe false s0 (ipN_print GUESS_TSO bp length) (fun _ => True).
Proof.
  intros Hok Hb Ha Hl. unfold ipN_print. safe_step. safe_step; [apply safe_print; clean_tac|].
  apply safe_on_trunc; [|apply safe_print_trunc]. safe_step. safe_step.
  safe_step; [by apply safe_allow_trunc, safe_ip_print|].
  safe_step; [by apply safe_allow_trunc, ip6_law|]. apply safe_print; clean_tac.
Qed.

(** A checksum of a pseudo header and of bytes of the packet. *)
Lemma safe_pseudo_cksum T s0 ph data covlen n :
  ndo_ok s0 -> bytes_ok ph = true -> Z.of_nat (length ph) = n -> readable s0 data covlen -> covlen + n <= IN_CKSUM_MAX ->
  safe T s0 (run_cksum (fun ndo => [mk_cksum_vec ph false n; pkt_vec ndo data covlen])) (fun sum => 0 <= sum < 65536).
Proof.
  intros Hok Hpb Hpl (Hd & Hc & Hdc) Hmax s (Hp & Hs). unfold run_cksum, pkt_vec. rewrite Hp.
  destruct Hok as (_ & _ & _ & Hby & _). rewrite in_cksum_spec.
  - split; [by split|]. match goal with |- context [oc_fold ?x] => pose proof (oc_fold_range x) end. lia.
  - cbn [forallb]. unfold vec_ok. cbn [v_mem v_len]. rewrite Hpb, Hpl, bytes_ok_drop, length_drop by done.
    rewrite !(proj2 (Z.leb_le _ _)) by lia. done.
  - unfold vecs_bytes, vec_bytes. cbn [concat fmap list_fmap v_mem v_len]. rewrite !length_app, !length_take, length_drop. cbn [length]. lia.
Qed.

(** The pseudo header has twelve bytes whichever destination is used. *)
Lemma safe_nextproto4_cksum s0 ip data len covlen proto :
  ndo_ok s0 -> readable s0 ip sizeof_ip -> readable s0 data covlen -> covlen + 12 <= IN_CKSUM_MAX ->
  safe false s0 (nextproto4_cksum ip data len covlen proto) (fun sum => 0 <= sum < 65536).
Proof.
  intros Hok Hr Hd Hmax. unfold nextproto4_cksum, ip_src, ip_dst. pose proof Hr as Hr'. unfold sizeof_ip in Hr'.
  safe_step. safe_call safe_IP_HL; [readable_tac|]. intros hl _.
  eapply (safe_bind _ _ _ _ (fun a => bytes_ok a = true /\ length a = 4%nat)).
  { safe_step; [|by apply safe_finddst]. safe_step. split; [naive_solver|lia]. }
  intros dst [Hdb Hdl]. match goal with H : _ /\ Z.of_nat _ = 4 /\ _ |- _ => destruct H as (_ & Hsl & Hsb) end. pose proof (u8_range proto).
  apply safe_pseudo_cksum; try done.
  - rewrite !bytes_ok_app, !bytes_ok_cons. split_and!; try done; try lia. apply bytes_ok_be_bytes.
  - rewrite !length_app, length_be_bytes. cbn [length]. lia.
Qed.

(** ** Theorem *)

(** When the printers of the protocols above IPv4 follow the rule of [PrinterLaws] and accept
    the packet, [ip_print], [ipN_print] and [ip_inner_print] (on a readable enclosing header)
    return: no load leaves the packet, the chain of authentication headers, ESP and nested
    datagrams ends, truncation is reported and not propagated, the end of the data is never
    raised, and only printable ASCII, newlines and tabs are added to the output. [PrintIp6]
    closes the recursion over the ICMP and IPv6 printers, with the condition they need. *)
Theorem ip_print_safe s bp length nh bp2 :
  ndo_ok s -> 0 <= bp -> accepts s bp -> 0 <= length -> ip_header s bp2 ->
  Forall (fun m : pr unit => exists s', m s = (Done tt, s') /\ ndo_ext s s')
    [ip_print GUESS_TSO bp length; ipN_print GUESS_TSO bp length; ip_inner_print GUESS_TSO bp length nh bp2].
Proof.
  intros Hok Hb Ha Hl Hr.
  assert (Hrun : forall m : pr unit, safe false s m (fun _ => True) -> exists s', m s = (Done tt, s') /\ ndo_ext s s').
  { intros m Hm. specialize (Hm s (ndo_ext_refl s Hok)). destruct (m s) as [[[]|[]] s']; naive_solver. }
  repeat (apply Forall_cons; split); [..|by apply Forall_nil]; apply Hrun;
    [by apply safe_ip_print|by apply safe_ipN_print|by apply safe_ip_inner_print].
Qed.
End Whole.

(** ** Dotted addresses *)

Lemma intoa_byte_dec b : 0 <= b < 256 -> intoa_byte b = dec b.
Proof.
  intros Hb. apply String.eqb_eq. revert b Hb. apply (byte_cases (fun b => String.eqb (intoa_byte b) (dec b))).
  by vm_compute.
Qed.

Lemma clean_intoa_byte b : 0 <= b < 256 -> clean (intoa_byte b) = true.
Proof. intros Hb. rewrite intoa_byte_dec by done. apply clean_dec. Qed.

Lemma clean_intoa_loop n addr acc : clean acc = true -> clean (intoa_loop n addr acc) = true.
Proof.
  revert addr acc. induction n as [|n IH]; intros addr acc Ha; [done|]. cbn [intoa_loop]. apply IH.
  assert (Hb : 0 <= Z.land addr 0xff < 256)
    by (change 0xff with (2 ^ 8 - 1); rewrite land_mask by lia; apply Z.mod_pos_bound; lia).
  apply clean_app2; [done|]. apply clean_app2; [by apply clean_intoa_byte|done].
Qed.

Lemma clean_intoa addr : clean (intoa addr) = true.
Proof. unfold intoa. by apply clean_substring, clean_intoa_loop. Qed.

(** ** Witness *)

(** Printers that show the name of their protocol, and numeric addresses. *)
Definition named (name : string) : pr unit := ND_PRINT (name +:+ " ").

#[export] Instance plain_printers : Printers := {|
  getname l := intoa (be_val l);
  esp_print _ _ _ := ND_PRINT "ESP" ;~ pret (-1, 0, 0);
  sctp_print _ _ _ := named "sctp"; dccp_print _ _ _ := named "dccp"; tcp_print _ _ _ _ := named "tcp";
  udp_print _ _ _ _ := named "udp"; icmp_print _ _ _ _ := named "icmp"; igrp_print _ _ := named "igrp";
  eigrp_print _ _ := named "eigrp"; egp_print _ _ := named "egp"; ospf_print _ _ _ := named "ospf";
  igmp_print _ _ := named "igmp"; ip6_print _ _ := named "ip6"; rsvp_print _ _ := named "rsvp";
  gre_print _ _ := named "gre"; mobile_print _ _ := named "mobile"; pim_print _ _ _ := named "pim";
  carp_print _ _ _ := named "carp"; vrrp_print _ _ _ _ := named "vrrp"; pgm_print _ _ _ := named "pgm" |}.

#[export] Instance plain_printers_laws : PrinterLaws.
Proof.
  exists (fun _ _ => True); intros; try (intros s0 **; by apply safe_print); [done|apply clean_intoa|].
  eapply safe_bind; [by apply safe_print|]. intros _ _. apply safe_ret. cbn. lia.
Defined.

(** IP in an authentication header in IP, cut off inside the inner header. *)
Definition sample_nested : netdissect_options :=
  mk_ndo ([0x45; 0; 0; 60; 0; 1; 0; 0; 64; 51; 0; 0; 10; 0; 0; 1; 10; 0; 0; 2]
    ++ [4; 1; 0; 0; 0; 0; 0; 9; 0; 0; 0; 1] ++ [0x45; 0; 0; 28; 0; 2; 0; 0; 64; 17])
    4096 (mk_flags 0 0 1 0 0 0 0 0) 42 "" "".

Lemma sample_nested_ok : ndo_ok sample_nested.
Proof. repeat split; cbn; lia || done. Qed.

Lemma ip_print_safe_witness :
  ip_print false 0 60 sample_nested =
    (Done tt, mk_ndo (ndo_packet sample_nested) 4096 (ndo_flags sample_nested) 42 "ip"
      "IP 10.0.0.1 > 10.0.0.2: AH(spi=0x00000009,seq=0x1): IP  [|ip] (ipip-proto-4)") /\
  Forall (fun m : pr unit => exists s', m sample_nested = (Done tt, s') /\ ndo_ext sample_nested s')
    [ip_print false 0 60; ipN_print false 0 60; ip_inner_print false 0 60 4 0].
Proof.
  split; [vm_compute; reflexivity|].
  apply (ip_print_safe false sample_nested 0 60 4 0 sample_nested_ok); [lia|exact I|lia|].
  apply (ip_header_v4 _ _ [0x45]); [unfold readable, sizeof_ip; cbn; lia|done..].
Defined.
