(* ===== verification/PrintIcmp.v ===== *)
(** * The ICMP printer of tcpdump

    Models [tcpdump/print-icmp.c] with the [MPLS_*] macros of [tcpdump/mpls.h].
    An ICMP error carries the header of the datagram it answers, which is printed
    by [ip_print], which may find ICMP again: the recursion is closed here, so that
    [icmp_printers] is an instance of the interface [Printers] of the IPv4
    printer. The names of ports are arguments. *)
From stdpp Require Import base list numbers strings.
From Stdlib Require Import ZArith Lia Ascii.
From S2P Require Import Prelude OnesComp InCksum Cstring Netdissect UtilPrint PrintAscii IpProto PrintIp.

Open Scope Z_scope.
Open Scope pr_scope.

(** ** Constants *)

Definition ICMP_ECHOREPLY : Z := 0.
Definition ICMP_UNREACH : Z := 3.
Definition ICMP_SOURCEQUENCH : Z := 4.
Definition ICMP_REDIRECT : Z := 5.
Definition ICMP_ECHO : Z := 8.
Definition ICMP_ROUTERADVERT : Z := 9.
Definition ICMP_ROUTERSOLICIT : Z := 10.
Definition ICMP_TIMXCEED : Z := 11.
Definition ICMP_PARAMPROB : Z := 12.
Definition ICMP_TSTAMP : Z := 13.
Definition ICMP_TSTAMPREPLY : Z := 14.
Definition ICMP_IREQ : Z := 15.
Definition ICMP_IREQREPLY : Z := 16.
Definition ICMP_MASKREQ : Z := 17.
Definition ICMP_MASKREPLY : Z := 18.

Definition ICMP_UNREACH_NET : Z := 0.
Definition ICMP_UNREACH_HOST : Z := 1.
Definition ICMP_UNREACH_PROTOCOL : Z := 2.
Definition ICMP_UNREACH_PORT : Z := 3.
Definition ICMP_UNREACH_NEEDFRAG : Z := 4.
Definition ICMP_UNREACH_SRCFAIL : Z := 5.
Definition ICMP_UNREACH_NET_UNKNOWN : Z := 6.
Definition ICMP_UNREACH_HOST_UNKNOWN : Z := 7.
Definition ICMP_UNREACH_ISOLATED : Z := 8.
Definition ICMP_UNREACH_NET_PROHIB : Z := 9.
Definition ICMP_UNREACH_HOST_PROHIB : Z := 10.
Definition ICMP_UNREACH_TOSNET : Z := 11.
Definition ICMP_UNREACH_TOSHOST : Z := 12.
Definition ICMP_UNREACH_FILTER_PROHIB : Z := 13.
Definition ICMP_UNREACH_HOST_PRECEDENCE : Z := 14.
Definition ICMP_UNREACH_PRECEDENCE_CUTOFF : Z := 15.
Definition ICMP_REDIRECT_NET : Z := 0.
Definition ICMP_REDIRECT_HOST : Z := 1.
Definition ICMP_REDIRECT_TOSNET : Z := 2.
Definition ICMP_REDIRECT_TOSHOST : Z := 3.
Definition ICMP_TIMXCEED_INTRANS : Z := 0.
Definition ICMP_TIMXCEED_REASS : Z := 1.

(** [156 - sizeof (struct ip)]. *)
Definition ICMP_EXTD_MINLEN : Z := 156 - sizeof_ip.
Definition ICMP_MPLS_EXT_VERSION : Z := 2.
Definition sizeof_icmp_ext_t : Z := 141.
Definition sizeof_object_header : Z := 4.

Definition ICMP_ERRTYPE (ty : Z) : bool :=
  (ty =? ICMP_UNREACH) || (ty =? ICMP_SOURCEQUENCH) || (ty =? ICMP_REDIRECT) || (ty =? ICMP_TIMXCEED)
  || (ty =? ICMP_PARAMPROB).
Definition ICMP_MPLS_EXT_TYPE (ty : Z) : bool :=
  (ty =? ICMP_UNREACH) || (ty =? ICMP_TIMXCEED) || (ty =? ICMP_PARAMPROB).
Definition ICMP_MPLS_EXT_EXTRACT_VERSION (x : Z) : Z := Z.shiftr (Z.land x 0xf0) 4.

Definition MPLS_LABEL (x : Z) : Z := Z.shiftr (Z.land x 0xfffff000) 12.
Definition MPLS_EXP (x : Z) : Z := Z.shiftr (Z.land x 0x00000e00) 9.
Definition MPLS_STACK (x : Z) : Z := Z.shiftr (Z.land x 0x00000100) 8.
Definition MPLS_TTL (x : Z) : Z := Z.land x 0x000000ff.

(** ** Tables *)

Definition icmp2str : list tok :=
  [(ICMP_ECHOREPLY, "echo reply"%string); (ICMP_SOURCEQUENCH, "source quench"%string);
   (ICMP_ECHO, "echo request"%string); (ICMP_ROUTERSOLICIT, "router solicitation"%string);
   (ICMP_TSTAMP, "time stamp request"%string); (ICMP_TSTAMPREPLY, "time stamp reply"%string);
   (ICMP_IREQ, "information request"%string); (ICMP_IREQREPLY, "information reply"%string);
   (ICMP_MASKREQ, "address mask request"%string)].

(** The texts are formats. *)
Definition unreach2str : list tok :=
  [(ICMP_UNREACH_NET, "net %s unreachable"%string);
   (ICMP_UNREACH_HOST, "host %s unreachable"%string);
   (ICMP_UNREACH_SRCFAIL, "%s unreachable - source route failed"%string);
   (ICMP_UNREACH_NET_UNKNOWN, "net %s unreachable - unknown"%string);
   (ICMP_UNREACH_HOST_UNKNOWN, "host %s unreachable - unknown"%string);
   (ICMP_UNREACH_ISOLATED, "%s unreachable - source host isolated"%string);
   (ICMP_UNREACH_NET_PROHIB, "net %s unreachable - admin prohibited"%string);
   (ICMP_UNREACH_HOST_PROHIB, "host %s unreachable - admin prohibited"%string);
   (ICMP_UNREACH_TOSNET, "net %s unreachable - tos prohibited"%string);
   (ICMP_UNREACH_TOSHOST, "host %s unreachable - tos prohibited"%string);
   (ICMP_UNREACH_FILTER_PROHIB, "host %s unreachable - admin prohibited filter"%string);
   (ICMP_UNREACH_HOST_PRECEDENCE, "host %s unreachable - host precedence violation"%string);
   (ICMP_UNREACH_PRECEDENCE_CUTOFF, "host %s unreachable - precedence cutoff"%string)].

Definition type2str : list tok :=
  [(ICMP_REDIRECT_NET, "redirect %s to net %s"%string);
   (ICMP_REDIRECT_HOST, "redirect %s to host %s"%string);
   (ICMP_REDIRECT_TOSNET, "redirect-tos %s to net %s"%string);
   (ICMP_REDIRECT_TOSHOST, "redirect-tos %s to host %s"%string)].

Definition icmp_mpls_ext_obj_values : list tok :=
  [(1, "MPLS Stack Entry"%string); (2, "Extended Payload"%string)].

(** [printf] of a format whose conversions are [%s]. *)
Fixpoint format_s (fmt : string) (args : list string) : string :=
  match fmt with
  | EmptyString => EmptyString
  | String c (String d rest as fmt') =>
      if Ascii.eqb c "%"%char && Ascii.eqb d "s"%char then
        match args with
        | a :: args' => a +:+ format_s rest args'
        | [] => format_s rest []
        end
      else String c (format_s fmt' args)
  | String c EmptyString => String c EmptyString
  end.

(** [char buf[MAXHOSTNAMELEN + 100]], filled from its start or from its end. *)
Definition MAXHOSTNAMELEN : nat := 64.
Definition BUF_SIZE : nat := MAXHOSTNAMELEN + 100.
Definition fill_buf (text : string) : string := snprintf BUF_SIZE text.
Definition append_buf (buf text : string) : string := buf +:+ snprintf (BUF_SIZE - String.length buf) text.

(** Two digits at least. *)
Definition dec2 (n : Z) : string := pad0 2 (dec n).
Definition dec3 (n : Z) : string := pad0 3 (dec n).

(** The milliseconds since midnight UTC. *)
Definition icmp_tstamp_print (tstamp : Z) : string :=
  let msec := tstamp mod 1000 in
  let sec := tstamp / 1000 in
  let min := sec / 60 in
  let sec := u32 (sec - min * 60) in
  let hrs := min / 60 in
  let min := u32 (min - hrs * 60) in
  snprintf 64 (dec2 hrs +:+ ":" +:+ dec2 min +:+ ":" +:+ dec2 sec +:+ "." +:+ dec3 msec).

Definition nl_tab : string := String (chr 10) (String (chr 9) EmptyString).

(** ** The message *)

(** The names of ports of [addrtoname.c]. *)
Class PortNames := { tcpport_string : Z -> string; udpport_string : Z -> string }.

Section Message.
Context `{Printers} `{PortNames}.

(** [ICMP_UNREACH_PORT]: the transport header behind the returned IP header. *)
Definition unreach_port_text (bp : Z) : pr string :=
  ND_TCHECK_LEN (bp + 17) 1 ;~
  hl <~ IP_HL (bp + 8) ;;
  let ouh := bp + 8 + hl * 4 in
  ND_TCHECK_LEN (ouh + 2) 2 ;~
  dport <~ EXTRACT_BE_U_2 (ouh + 2) ;;
  ip_proto <~ EXTRACT_U_1 (bp + 17) ;;
  dst <~ ipaddr_string (bp + 24) ;;
  pret (fill_buf
    (if ip_proto =? IPPROTO_TCP then dst +:+ " tcp port " +:+ tcpport_string dport +:+ " unreachable"
     else if ip_proto =? IPPROTO_UDP then dst +:+ " udp port " +:+ udpport_string dport +:+ " unreachable"
     else dst +:+ " protocol " +:+ dec ip_proto +:+ " port " +:+ dec dport +:+ " unreachable")).

Definition unreach_text (bp icmp_code : Z) : pr string :=
  ND_TCHECK_LEN (bp + 24) 4 ;~
  if icmp_code =? ICMP_UNREACH_PROTOCOL then
    ND_TCHECK_LEN (bp + 17) 1 ;~
    dst <~ ipaddr_string (bp + 24) ;;
    p <~ EXTRACT_U_1 (bp + 17) ;;
    pret (fill_buf (dst +:+ " protocol " +:+ dec p +:+ " unreachable"))
  else if icmp_code =? ICMP_UNREACH_PORT then unreach_port_text bp
  else if icmp_code =? ICMP_UNREACH_NEEDFRAG then
    mtu <~ EXTRACT_BE_U_2 (bp + 6) ;;
    dst <~ ipaddr_string (bp + 24) ;;
    pret (fill_buf (if negb (mtu =? 0) then dst +:+ " unreachable - need to frag (mtu " +:+ dec mtu +:+ ")"
                    else dst +:+ " unreachable - need to frag"))
  else
    let fmt := tok2str unreach2str (Some (fun v => "#" +:+ dec v +:+ " %s unreachable")) icmp_code in
    dst <~ ipaddr_string (bp + 24) ;;
    pret (fill_buf (format_s fmt [dst])).

Definition redirect_text (bp icmp_code : Z) : pr string :=
  ND_TCHECK_LEN (bp + 24) 4 ;~
  let fmt := tok2str type2str (Some (fun v => "redirect-#" +:+ dec v +:+ " %s to net %s")) icmp_code in
  dst <~ ipaddr_string (bp + 24) ;;
  gw <~ ipaddr_string (bp + 4) ;;
  pret (fill_buf (format_s fmt [dst; gw])).

Definition lifetime_text (lifetime : Z) : string :=
  if lifetime <? 60 then dec lifetime
  else if lifetime <? 60 * 60 then dec (lifetime / 60) +:+ ":" +:+ dec2 (lifetime mod 60)
  else dec (lifetime / 3600) +:+ ":" +:+ dec2 (lifetime mod 3600 / 60) +:+ ":" +:+ dec2 (lifetime mod 60).

(** [while (num-- > 0)] over the advertised routers. *)
Fixpoint routers_loop (num : nat) (idp : Z) (buf : string) : pr string :=
  match num with
  | O => pret buf
  | S n =>
      ND_TCHECK_LEN idp 8 ;~
      a <~ ipaddr_string idp ;;
      pref <~ EXTRACT_BE_U_4 (idp + 4) ;;
      routers_loop n (idp + 8) (append_buf buf (" {" +:+ a +:+ " " +:+ dec pref +:+ "}"))
  end.

Definition routeradvert_text (bp : Z) : pr string :=
  let buf := fill_buf "router advertisement" in
  ND_TCHECK_LEN (bp + 4) 4 ;~
  let buf := append_buf buf " lifetime " in
  lifetime <~ EXTRACT_BE_U_2 (bp + 6) ;;
  let buf := append_buf buf (lifetime_text lifetime) in
  num <~ EXTRACT_U_1 (bp + 4) ;;
  let buf := append_buf buf (" " +:+ dec num +:+ ":") in
  size <~ EXTRACT_U_1 (bp + 5) ;;
  if negb (size =? 2) then pret (append_buf buf (" [size " +:+ dec size +:+ "]"))
  else routers_loop (Z.to_nat num) (bp + 8) buf.

Definition tstampreply_text (bp : Z) : pr string :=
  ND_TCHECK_LEN (bp + 16) 4 ;~
  id <~ EXTRACT_BE_U_2 (bp + 4) ;;
  seq <~ EXTRACT_BE_U_2 (bp + 6) ;;
  ot <~ EXTRACT_BE_U_4 (bp + 8) ;;
  let buf := fill_buf ("time stamp reply id " +:+ dec id +:+ " seq " +:+ dec seq +:+ ": org " +:+ icmp_tstamp_print ot) in
  rt <~ EXTRACT_BE_U_4 (bp + 12) ;;
  let buf := append_buf buf (", recv " +:+ icmp_tstamp_print rt) in
  tt' <~ EXTRACT_BE_U_4 (bp + 16) ;;
  pret (append_buf buf (", xmit " +:+ icmp_tstamp_print tt')).

(** The switch over the type: the text [str] points to after it. *)
Definition icmp_text (bp icmp_type icmp_code : Z) : pr string :=
  if (icmp_type =? ICMP_ECHO) || (icmp_type =? ICMP_ECHOREPLY) then
    ND_TCHECK_LEN (bp + 6) 2 ;~
    id <~ EXTRACT_BE_U_2 (bp + 4) ;;
    seq <~ EXTRACT_BE_U_2 (bp + 6) ;;
    pret (fill_buf ("echo " +:+ (if icmp_type =? ICMP_ECHO then "request" else "reply") +:+ ", id " +:+ dec id
      +:+ ", seq " +:+ dec seq))
  else if icmp_type =? ICMP_UNREACH then unreach_text bp icmp_code
  else if icmp_type =? ICMP_REDIRECT then redirect_text bp icmp_code
  else if icmp_type =? ICMP_ROUTERADVERT then routeradvert_text bp
  else if icmp_type =? ICMP_TIMXCEED then
    ND_TCHECK_LEN (bp + 24) 4 ;~
    pret (if icmp_code =? ICMP_TIMXCEED_INTRANS then "time exceeded in-transit"%string
          else if icmp_code =? ICMP_TIMXCEED_REASS then "ip reassembly time exceeded"%string
          else fill_buf ("time exceeded-#" +:+ dec icmp_code))
  else if icmp_type =? ICMP_PARAMPROB then
    if negb (icmp_code =? 0) then pret (fill_buf ("parameter problem - code " +:+ dec icmp_code))
    else
      ND_TCHECK_LEN (bp + 4) 1 ;~
      p <~ EXTRACT_U_1 (bp + 4) ;;
      pret (fill_buf ("parameter problem - octet " +:+ dec p))
  else if icmp_type =? ICMP_MASKREPLY then
    ND_TCHECK_LEN (bp + 8) 4 ;~
    k <~ EXTRACT_BE_U_4 (bp + 8) ;;
    pret (fill_buf ("address mask is 0x" +:+ hex_pad 8 k))
  else if icmp_type =? ICMP_TSTAMP then
    ND_TCHECK_LEN (bp + 6) 2 ;~
    id <~ EXTRACT_BE_U_2 (bp + 4) ;;
    seq <~ EXTRACT_BE_U_2 (bp + 6) ;;
    pret (fill_buf ("time stamp query id " +:+ dec id +:+ " seq " +:+ dec seq))
  else if icmp_type =? ICMP_TSTAMPREPLY then tstampreply_text bp
  else pret (tok2str icmp2str (Some (fun v => "type-#" +:+ dec v)) icmp_type).

(** The checksum over the message, [if (ndo->ndo_vflag && !fragmented)]. *)
Definition icmp_cksum (bp plen fragmented : Z) : pr unit :=
  v <~ flag f_vflag ;;
  if negb (v =? 0) && (fragmented =? 0) then
    b <~ ND_TTEST_LEN bp plen ;;
    if (b : bool) then
      sum <~ run_cksum (fun ndo => [pkt_vec ndo bp plen]) ;;
      if negb (u16 sum =? 0) then
        icmp_sum <~ EXTRACT_BE_U_2 (bp + 2) ;;
        ND_PRINT (" (wrong icmp cksum " +:+ hex icmp_sum +:+ " (->" +:+ hex (in_cksum_shouldbe icmp_sum (u16 sum)) +:+ ")!)")
      else pret tt
    else pret tt
  else pret tt.

(** ** The extension objects *)

(** The contents of one object of class [obj_class_num]. *)
Definition object_data (obj_tptr obj_class_num obj_ctype obj_tlen : Z) : pr unit :=
  if (obj_class_num =? 1) && (obj_ctype =? 1) then
    ND_TCHECK_LEN obj_tptr 4 ;~
    raw_label <~ EXTRACT_BE_U_4 obj_tptr ;;
    ND_PRINT (nl_tab +:+ "    label " +:+ dec (MPLS_LABEL raw_label) +:+ ", exp " +:+ dec (MPLS_EXP raw_label)) ;~
    (if negb (MPLS_STACK raw_label =? 0) then ND_PRINT ", [S]" else pret tt) ;~
    ND_PRINT (", ttl " +:+ dec (MPLS_TTL raw_label))
  else print_unknown_data obj_tptr (nl_tab +:+ "    ") (s32 obj_tlen) ;~ pret tt.

(** [while (hlen > sizeof(struct icmp_mpls_ext_object_header_t))]. *)
Fixpoint objects_loop (fuel : nat) (obj_tptr hlen : Z) : pr unit :=
  match fuel with
  | O => pstop Fuel
  | S f =>
      if sizeof_object_header <? hlen then
        ND_TCHECK_LEN obj_tptr sizeof_object_header ;~
        obj_tlen <~ EXTRACT_BE_U_2 obj_tptr ;;
        obj_class_num <~ EXTRACT_U_1 (obj_tptr + 2) ;;
        obj_ctype <~ EXTRACT_U_1 (obj_tptr + 3) ;;
        ND_PRINT (nl_tab +:+ "  " +:+ tok2str icmp_mpls_ext_obj_values (Some (fun _ => "unknown"%string)) obj_class_num
          +:+ " Object (" +:+ dec obj_class_num +:+ "), Class-Type: " +:+ dec obj_ctype +:+ ", length " +:+ dec obj_tlen) ;~
        let obj_tptr := obj_tptr + sizeof_object_header in
        let hlen := hlen - sizeof_object_header in
        if (obj_class_num =? 0) || (obj_tlen <? sizeof_object_header) then pret tt
        else
          let obj_tlen := obj_tlen - sizeof_object_header in
          object_data obj_tptr obj_class_num obj_ctype obj_tlen ;~
          if hlen <? obj_tlen then pret tt
          else objects_loop f (obj_tptr + obj_tlen) (hlen - obj_tlen)
      else pret tt
  end.

(** The checksum of [n] bytes at [p] is not zero. *)
Definition bad_cksum (p n : Z) : pr bool :=
  sum <~ run_cksum (fun ndo => [pkt_vec ndo p n]) ;; pret (negb (u16 sum =? 0)).

Definition mpls_ext (bp plen : Z) : pr unit :=
  ND_TCHECK_LEN bp sizeof_icmp_ext_t ;~
  let ext := bp + 136 in
  icmp_length <~ EXTRACT_U_1 (bp + 5) ;;
  absent <~ (if icmp_length =? 0 then
               b <~ ND_TTEST_LEN ext (plen - ICMP_EXTD_MINLEN) ;;
               if (b : bool) then bad_cksum ext (plen - ICMP_EXTD_MINLEN) else pret false
             else pret false) ;;
  if (absent : bool) then pret tt
  else
    v <~ EXTRACT_U_1 ext ;;
    ND_PRINT (nl_tab +:+ "MPLS extension v" +:+ dec (ICMP_MPLS_EXT_EXTRACT_VERSION v)) ;~
    if negb (ICMP_MPLS_EXT_EXTRACT_VERSION v =? ICMP_MPLS_EXT_VERSION) then ND_PRINT " packet not supported"
    else
      let hlen := plen - ICMP_EXTD_MINLEN in
      b <~ ND_TTEST_LEN ext hlen ;;
      (if (b : bool) then
         ck <~ EXTRACT_BE_U_2 (bp + 138) ;;
         bad <~ bad_cksum ext hlen ;;
         ND_PRINT (", checksum 0x" +:+ hex_pad 4 ck +:+ " (" +:+ (if (bad : bool) then "in" else "") +:+ "correct), length "
           +:+ dec hlen)
       else pret tt) ;~
      n <~ asks (fun ndo => length (ndo_packet ndo)) ;;
      objects_loop (S n) (bp + 140) (u32 (hlen - 4)).

(** [icmp_print]; [ip_print] prints the returned datagram, and the end of the
    captured data is restored behind it. *)
Definition set_snapend (e : Z) : pr unit := fun ndo => (Done tt, with_snapend e ndo).

Definition icmp_message (ip_print : Z -> Z -> pr unit) (bp plen bp2 fragmented : Z) : pr unit :=
  let plen := u32 plen in
  set_protocol "icmp" ;~
  on_trunc
    (ND_TCHECK_LEN (bp + 1) 1 ;~
     icmp_type <~ EXTRACT_U_1 bp ;;
     icmp_code <~ EXTRACT_U_1 (bp + 1) ;;
     str <~ icmp_text bp icmp_type icmp_code ;;
     ND_PRINT ("ICMP " +:+ str +:+ ", length " +:+ dec plen) ;~
     icmp_cksum bp plen fragmented ;~
     v <~ flag f_vflag ;;
     (if (1 <=? v) && ICMP_ERRTYPE icmp_type then
        ND_PRINT nl_tab ;~
        snapend_save <~ asks ndo_snapend ;;
        ND_TCHECK_LEN (bp + 8 + 2) 2 ;~
        len <~ EXTRACT_BE_U_2 (bp + 8 + 2) ;;
        ip_print (bp + 8) len ;~
        set_snapend snapend_save
      else pret tt) ;~
     set_protocol "icmp" ;~
     if (1 <=? v) && (ICMP_EXTD_MINLEN <? plen) && ICMP_MPLS_EXT_TYPE icmp_type then mpls_ext bp plen else pret tt)
    nd_print_trunc.
End Message.

(** ** The recursion *)

(** The printers of [P] with another printer for ICMP. *)
Definition with_icmp (P : Printers) (icmp : Z -> Z -> Z -> Z -> pr unit) : Printers := {|
  getname := @getname P; esp_print := @esp_print P; sctp_print := @sctp_print P; dccp_print := @dccp_print P;
  tcp_print := @tcp_print P; udp_print := @udp_print P; icmp_print := icmp; igrp_print := @igrp_print P;
  eigrp_print := @eigrp_print P; egp_print := @egp_print P; ospf_print := @ospf_print P; igmp_print := @igmp_print P;
  ip6_print := @ip6_print P; rsvp_print := @rsvp_print P; gre_print := @gre_print P; mobile_print := @mobile_print P;
  pim_print := @pim_print P; carp_print := @carp_print P; vrrp_print := @vrrp_print P; pgm_print := @pgm_print P |}.

Section Knot.
Context (P : Printers) `{PortNames} (GUESS_TSO : bool).

(** ICMP inside at most [fuel] returned datagrams. *)
Fixpoint icmp_nested (fuel : nat) (bp plen bp2 fragmented : Z) : pr unit :=
  match fuel with
  | O => pstop Fuel
  | S f => @icmp_message P _ (@ip_print (with_icmp P (icmp_nested f)) GUESS_TSO) bp plen bp2 fragmented
  end.

(** A returned datagram starts further on than the message, so the bytes of the
    packet bound the depth. *)
Definition icmp_printers : Printers :=
  with_icmp P (fun bp plen bp2 fragmented ndo => icmp_nested (S (length (ndo_packet ndo))) bp plen bp2 fragmented ndo).
End Knot.

(** ** Clean texts *)

Class PortNamesLaws `{PortNames} := {
  tcpport_clean p : clean (tcpport_string p) = true;
  udpport_clean p : clean (udpport_string p) = true }.

Lemma clean_snprintf n s : clean s = true -> clean (snprintf n s) = true.
Proof. apply clean_substring. Qed.

Lemma clean_fill_buf s : clean s = true -> clean (fill_buf s) = true.
Proof. apply clean_snprintf. Qed.

Lemma clean_append_buf buf s : clean buf = true -> clean s = true -> clean (append_buf buf s) = true.
Proof. intros. apply clean_app2; [done|by apply clean_snprintf]. Qed.

Lemma clean_format_s (k : nat) : forall fmt args, (String.length fmt < k)%nat ->
  clean fmt = true -> forallb clean args = true -> clean (format_s fmt args) = true.
Proof.
  induction k as [|k IH]; intros [|c [|d rest]] args Hk Hf Ha; try done; try lia.
  unfold clean in Hf. cbn [sforall] in Hf. bool_to_prop.
  cbn [String.length] in Hk. cbn [format_s].
  destruct (Ascii.eqb c "%"%char && Ascii.eqb d "s"%char).
  - destruct args as [|a args]; [apply IH; [lia|done|done]|]. cbn [forallb] in Ha. bool_to_prop.
    apply clean_app2; [done|]. apply IH; [lia|done|done].
  - apply clean_cons; [done|]. change (clean (format_s (String d rest) args) = true).
    apply IH; [cbn [String.length]; lia| |done]. by apply clean_cons.
Qed.

Lemma clean_tstamp n : clean (icmp_tstamp_print n) = true.
Proof. apply clean_snprintf. unfold dec2, dec3. auto 10 with clean. Qed.

#[export] Hint Resolve clean_snprintf clean_fill_buf clean_append_buf clean_tstamp : clean.

(** ** Safety *)

Section Safety.
Context `{PrinterLaws} `{PortNamesLaws} (s0 : netdissect_options) (Hok : ndo_ok s0).

(** A text for the message. *)
Abbreviation clean_result := (fun s : string => clean s = true).

Lemma safe_unreach_port bp : 0 <= bp -> readable s0 (bp + 24) 4 -> safe true s0 (unreach_port_text bp) clean_result.
Proof.
  intros Hb Hr. unfold unreach_port_text. safe_step. safe_call safe_IP_HL; [readable_tac|]. intros hl Hhl. cbv zeta.
  safe_step. safe_step. safe_step. safe_call safe_ipaddr. intros dst Hd. apply safe_ret, clean_fill_buf.
  destruct (_ =? IPPROTO_TCP); [|destruct (_ =? IPPROTO_UDP)]; clean_tac; [apply tcpport_clean|apply udpport_clean].
Qed.

Lemma safe_unreach bp code : 0 <= bp -> safe true s0 (unreach_text bp code) clean_result.
Proof.
  intros Hb. unfold unreach_text. safe_step. assert (Hr : readable s0 (bp + 24) 4) by readable_tac.
  safe_step; [|safe_step; [by apply safe_unreach_port|safe_step]].
  - safe_step. safe_call safe_ipaddr. intros dst Hd. safe_step. apply safe_ret. clean_tac.
  - safe_step. safe_call safe_ipaddr. intros dst Hd. apply safe_ret, clean_fill_buf. clean_tac.
  - safe_call safe_ipaddr. intros dst Hd. apply safe_ret, clean_fill_buf. eapply clean_format_s; [by constructor| |cbn; by rewrite Hd].
    apply clean_tok2str; [done|]. cbn. clean_tac.
Qed.

Lemma safe_redirect bp code : 0 <= bp -> safe true s0 (redirect_text bp code) clean_result.
Proof.
  intros Hb. unfold redirect_text. safe_step. safe_call safe_ipaddr; [readable_tac|]. intros dst Hd.
  safe_call safe_ipaddr; [readable_tac|]. intros gw Hg.
  apply safe_ret, clean_fill_buf. eapply clean_format_s; [by constructor| |cbn; by rewrite Hd, Hg].
  apply clean_tok2str; [done|]. cbn. clean_tac.
Qed.

Lemma safe_routers_loop n idp buf :
  0 <= idp -> clean buf = true -> safe true s0 (routers_loop n idp buf) clean_result.
Proof.
  revert idp buf. induction n as [|n IH]; intros idp buf Hi Hbuf; cbn [routers_loop]; [by apply safe_ret|].
  safe_step. safe_call safe_ipaddr; [readable_tac|]. intros nm Hnm. safe_step. apply IH; [lia|].
  apply clean_append_buf; [done|clean_tac].
Qed.

Lemma safe_routeradvert bp : 0 <= bp -> safe true s0 (routeradvert_text bp) clean_result.
Proof.
  intros Hb. unfold routeradvert_text. safe_step. safe_step. safe_step. safe_step. cbv zeta.
  assert (Hbuf : forall t u, clean t = true -> clean u = true ->
    clean (append_buf (append_buf (append_buf (fill_buf "router advertisement") " lifetime ") t) u) = true)
    by auto with clean.
  assert (Hl : clean (lifetime_text a0) = true) by (unfold lifetime_text, dec2; repeat case_test; clean_tac).
  assert (Hn : clean (" " +:+ dec a1 +:+ ":") = true) by clean_tac.
  safe_step; [apply safe_ret, clean_append_buf; [by apply Hbuf|clean_tac]|]. apply safe_routers_loop; [lia|by apply Hbuf].
Qed.

Lemma safe_tstampreply bp : 0 <= bp -> safe true s0 (tstampreply_text bp) clean_result.
Proof. intros Hb. unfold tstampreply_text. safe_steps. auto 12 with clean. Qed.

Lemma safe_icmp_text bp ty code : 0 <= bp -> safe true s0 (icmp_text bp ty code) clean_result.
Proof.
  intros Hb. unfold icmp_text.
  destruct (_ || _); [safe_steps; apply clean_fill_buf; clean_tac|].
  safe_step; [by apply safe_unreach|]. safe_step; [by apply safe_redirect|]. safe_step; [by apply safe_routeradvert|].
  safe_step; [safe_step; apply safe_ret; repeat case_test; auto with clean|].
  safe_step; [safe_steps; auto with clean|]. safe_step; [safe_steps; apply clean_fill_buf; clean_tac|].
  safe_step; [safe_steps; auto with clean|]. safe_step; [by apply safe_tstampreply|].
  apply safe_ret, clean_tok2str; [done|]. cbn. clean_tac.
Qed.

(** No more was captured than a datagram holds, and the two bytes behind it can be
    read: the checksum field of a message of less than four bytes is. *)
Definition icmp_room (s : netdissect_options) : Prop :=
  ndo_snapend s <= 65535 /\ ndo_snapend s + 2 <= Z.of_nat (length (ndo_packet s)).
Context (Hroom : icmp_room s0).

Lemma safe_icmp_cksum T bp plen frag :
  0 <= bp -> bp + 2 <= ndo_snapend s0 -> 0 <= plen < 2 ^ 32 -> safe T s0 (icmp_cksum bp plen frag) (fun _ => True).
Proof.
  intros Hb Hr Hp. destruct Hroom as [Hmax Hslack]. unfold icmp_cksum. safe_step.
  assert (readable s0 (bp + 2) 2) by (unfold readable; lia).
  destruct (_ && _); [|by apply safe_ret]. safe_step. safe_step; [|by apply safe_ret].
  safe_call safe_run_cksum; [readable_tac|]. intros sum Hsum. safe_step; [|by apply safe_ret]. safe_step.
  apply safe_print. clean_tac. apply clean_hex, in_cksum_shouldbe_range.
Qed.

Lemma safe_object_data p cn ct tl : 0 <= p -> safe true s0 (object_data p cn ct tl) (fun _ => True).
Proof.
  intros Hp. unfold object_data. destruct (_ && _).
  - safe_step. safe_step. safe_step. eapply safe_bind; [by apply safe_opt|]. intros _ _. apply safe_print. clean_tac.
  - safe_call safe_print_unknown; [done|]. intros _ _. by apply safe_ret.
Qed.

Lemma safe_objects_loop fuel p hlen :
  0 <= p -> Z.of_nat (length (ndo_packet s0)) - p < Z.of_nat fuel -> 0 < Z.of_nat fuel ->
  safe true s0 (objects_loop fuel p hlen) (fun _ => True).
Proof.
  destruct Hroom as [_ Hs]. revert p hlen. induction fuel as [|f IH]; intros p hlen Hp Hf Hf0; [lia|].
  cbn [objects_loop]. unfold sizeof_object_header. safe_step; [|by apply safe_ret].
  safe_step. safe_step. safe_step. safe_step.
  eapply safe_bind; [apply safe_print; repeat apply clean_app2; try done; try apply clean_dec; by apply clean_tok2str|].
  intros _ _. cbv zeta. destruct (_ || _) eqn:Eo; [by apply safe_ret|]. bool_to_prop.
  safe_call safe_object_data. intros _ _. safe_step; [by apply safe_ret|]. apply IH; lia.
Qed.

Lemma safe_bad_cksum T p n : readable s0 p n -> n <= 65535 -> safe T s0 (bad_cksum p n) (fun _ => True).
Proof. intros. unfold bad_cksum. safe_call safe_run_cksum. intros sum _. by apply safe_ret. Qed.

Lemma safe_mpls_ext bp plen :
  0 <= bp -> ICMP_EXTD_MINLEN < plen < 2 ^ 32 -> safe true s0 (mpls_ext bp plen) (fun _ => True).
Proof.
  intros Hb Hp. destruct Hroom as [Hmax Hs]. unfold mpls_ext, ICMP_EXTD_MINLEN, sizeof_ip, sizeof_icmp_ext_t in *.
  safe_step. safe_step. eapply (safe_bind _ _ _ _ (fun _ => True)).
  { safe_step; [|by apply safe_ret]. safe_step. safe_step; [|by apply safe_ret].
    apply safe_bad_cksum; [readable_tac|lia]. }
  intros absent _. safe_step; [by apply safe_ret|]. safe_step. safe_step. safe_step; [by apply safe_print|].
  safe_step. eapply (safe_bind _ _ _ _ (fun _ => True)).
  { safe_step; [|by apply safe_ret]. safe_step. safe_call safe_bad_cksum; [readable_tac|]. intros bad _.
    apply safe_print. clean_tac. }
  intros _ _. eapply (safe_bind _ _ _ _ (fun n => n = length (ndo_packet s0))).
  { intros s Hsx. cbn. pose proof Hsx as (-> & _). by split. }
  intros n ->. apply safe_objects_loop; lia.
Qed.

Lemma safe_set_snapend T e : 0 <= e <= ndo_snapend s0 -> safe T s0 (set_snapend e) (fun _ => True).
Proof. intros He s (?&?&?&?&?&?). split; [|done]. split_and!; cbn; try done; lia. Qed.

(** The message, when the returned datagram can be printed. *)
Lemma safe_icmp_message ip_print bp plen bp2 frag :
  0 <= bp ->
  (bp + 12 <= ndo_snapend s0 -> forall len, 0 <= len -> safe false s0 (ip_print (bp + 8) len) (fun _ => True)) ->
  safe false s0 (icmp_message ip_print bp plen bp2 frag) (fun _ => True).
Proof.
  intros Hb Hip. unfold icmp_message. pose proof (u32_range plen) as Hpl. cbv zeta.
  safe_step. apply safe_on_trunc; [|apply safe_print_trunc]. safe_step. safe_step. safe_step.
  safe_call safe_icmp_text. intros str Hstr. safe_step. safe_call safe_icmp_cksum. intros _ _. safe_step.
  eapply (safe_bind _ _ _ _ (fun _ => True)).
  { destruct (_ && _); [|by apply safe_ret]. safe_step. safe_step. safe_step. safe_step.
    eapply (safe_bind _ _ _ _ (fun _ => True)); [apply safe_allow_trunc, Hip; lia|]. intros _ _. by apply safe_set_snapend. }
  intros _ _. safe_step. destruct (_ && _) eqn:Em; [|by apply safe_ret]. bool_to_prop.
  apply safe_mpls_ext; [done|]. unfold ICMP_EXTD_MINLEN in *. lia.
Qed.
End Safety.

(** ** The laws of the closed recursion *)

Section Laws.
Context {P : Printers} {PL : PrinterLaws} `{PortNamesLaws} (GUESS_TSO : bool).

Definition mono (acc : netdissect_options -> Z -> Prop) : Prop :=
  forall s s' cp cp', ndo_ext s s' -> cp <= cp' -> acc s cp -> acc s' cp'.

(** Replacing the ICMP printer by one that accepts no more than the others do. *)
Definition with_icmp_laws (acc : netdissect_options -> Z -> Prop) (icmp : Z -> Z -> Z -> Z -> pr unit)
  (Hmono : mono acc) (Hacc : forall s cp, acc s cp -> accepts s cp)
  (Hicmp : forall cp len ip frag, well_behaved acc cp ip (icmp cp len ip frag)) : @PrinterLaws (with_icmp P icmp).
Proof.
  exists acc; [exact Hmono|exact (@getname_clean P PL)|..]; cbn; intros;
    [by apply (@esp_law P PL); try apply Hacc|..];
    intros s0 Hok Hcp Ha; intros; try (by apply Hicmp); apply Hacc in Ha;
    first [ by apply (@sctp_law P PL) | by apply (@dccp_law P PL) | by apply (@tcp_law P PL) | by apply (@udp_law P PL)
    | by apply (@igrp_law P PL) | by apply (@eigrp_law P PL) | by apply (@egp_law P PL) | by apply (@ospf_law P PL)
    | by apply (@igmp_law P PL) | by apply (@ip6_law P PL) | by apply (@rsvp_law P PL) | by apply (@gre_law P PL)
    | by apply (@mobile_law P PL) | by apply (@pim_law P PL) | by apply (@carp_law P PL) | by apply (@vrrp_law P PL)
    | by apply (@pgm_law P PL) ].
Defined.

Lemma icmp_room_ext s s' : ndo_ext s s' -> icmp_room s -> icmp_room s'.
Proof. intros (Hp & _ & _ & Hs & _) [H1 H2]. unfold icmp_room. rewrite Hp. lia. Qed.

(** Fewer than [f] bytes of the packet follow. *)
Definition nested_accepts (f : nat) (s : netdissect_options) (cp : Z) : Prop :=
  accepts s cp /\ icmp_room s /\ Z.of_nat (length (ndo_packet s)) - cp < Z.of_nat f.

Lemma nested_mono f : mono (nested_accepts f).
Proof.
  intros s s' cp cp' Hs Hcp (Ha & Hr & Hf). split; [by apply (accepts_mono _ _ _ _ Hs Hcp)|].
  split; [by eapply icmp_room_ext|]. destruct Hs as (-> & _). lia.
Qed.

Lemma icmp_nested_ok f cp len ip frag :
  well_behaved (nested_accepts (S f)) cp ip (icmp_nested P GUESS_TSO (S f) cp len ip frag).
Proof.
  revert cp len ip frag. induction f as [|f IH]; intros cp len ip frag s0 Hok Hcp (Ha & Hroom & Hf) Hr;
    cbn [icmp_nested]; apply safe_icmp_message; try done; intros Hin k Hk.
  - destruct Hroom. lia.
  - apply (@safe_ip_print _ (with_icmp_laws (nested_accepts (S f)) _ (nested_mono (S f)) (fun s cp H => proj1 H) IH));
      try done; [lia|]. split_and!; [|done|lia]. apply (accepts_mono s0 s0 cp); [by apply ndo_ext_refl|lia|done].
Qed.

(** ICMP in an error in an error, as deep as the packet is long. *)
Definition icmp_accepts (s : netdissect_options) (cp : Z) : Prop := accepts s cp /\ icmp_room s.

Lemma icmp_accepts_mono : mono icmp_accepts.
Proof.
  intros s s' cp cp' Hs Hcp [Ha Hr]. split; [by apply (accepts_mono _ _ _ _ Hs Hcp)|by eapply icmp_room_ext].
Qed.

Lemma icmp_print_ok cp len ip frag :
  well_behaved icmp_accepts cp ip (@icmp_print (icmp_printers P GUESS_TSO) cp len ip frag).
Proof.
  intros s0 Hok Hcp [Ha Hroom] Hr s Hs. pose proof Hs as (Hp & _). cbn [icmp_print icmp_printers with_icmp]. rewrite Hp.
  apply (icmp_nested_ok (length (ndo_packet s0)) cp len ip frag s0); try done. split_and!; try done. lia.
Qed.

#[export] Instance icmp_printers_laws : @PrinterLaws (icmp_printers P GUESS_TSO) :=
  with_icmp_laws icmp_accepts _ icmp_accepts_mono (fun s cp H => proj1 H) icmp_print_ok.
End Laws.

(** ** Echo messages *)

Section Echo.
Context `{Printers} `{PortNames}.
Context (pre post data : list Z) (ty code ck id seq : Z).
Context (Hty : ty = ICMP_ECHO \/ ty = ICMP_ECHOREPLY).
Context (Hck : 0 <= ck < 65536) (Hid : 0 <= id < 65536) (Hseq : 0 <= seq < 65536).

(** The message with a given checksum field. *)
Definition echo (ck : Z) : list Z := [ty; code] ++ be_bytes 2 ck ++ be_bytes 2 id ++ be_bytes 2 seq ++ data.

Definition echo_text (plen : Z) : string :=
  "ICMP echo " +:+ (if ty =? ICMP_ECHO then "request" else "reply") +:+ ", id " +:+ dec id +:+ ", seq " +:+ dec seq
  +:+ ", length " +:+ dec plen.

Definition cksum_text (right : Z) : string :=
  " (wrong icmp cksum " +:+ hex ck +:+ " (->" +:+ hex right +:+ ")!)".

Context (s : netdissect_options) (Hok : ndo_ok s) (Hpkt : ndo_packet s = pre ++ echo ck ++ post).
Context (Hcap : Z.of_nat (length pre + length (echo ck)) <= ndo_snapend s) (Hmax : Z.of_nat (length (echo ck)) <= 65535).

Abbreviation bp := (Z.of_nat (length pre)).
Abbreviation plen := (Z.of_nat (length (echo ck))).

(** The same context with another output and protocol. *)
Definition at_out (p o : string) : netdissect_options :=
  mk_ndo (ndo_packet s) (ndo_base s) (ndo_flags s) (ndo_snapend s) p o.

Lemma at_out_ok p o : clean p = true -> ndo_ok (at_out p o).
Proof. intros H5. destruct Hok as (H1 & H2 & H3 & H4 & _). exact (conj H1 (conj H2 (conj H3 (conj H4 H5)))). Qed.

Lemma length_echo v : length (echo v) = (8 + length data)%nat.
Proof. unfold echo. rewrite !length_app, !length_be_bytes. done. Qed.

Lemma run_echo_u2 (k : nat) p v pr o :
  p = bp + Z.of_nat k -> slice (echo ck) k 2 = Some (be_bytes 2 v) -> 0 <= v < 65536 ->
  EXTRACT_BE_U_2 p (at_out pr o) = (Done v, at_out pr o).
Proof.
  intros -> Hs Hv. unfold EXTRACT_BE_U_2.
  erewrite run_bind by (by apply (run_load_part _ pre (echo ck) post k 2 (be_bytes 2 v))).
  unfold pret. by rewrite be_val_bytes, Z.mod_small.
Qed.

Lemma run_echo_u1 (k : nat) p v pr o :
  p = bp + Z.of_nat k -> echo ck !! k = Some v -> EXTRACT_U_1 p (at_out pr o) = (Done v, at_out pr o).
Proof.
  intros -> Hv. unfold EXTRACT_U_1. erewrite run_bind by (apply (run_load_part _ pre (echo ck) post k 1 [v]); [done|];
    apply slice_Some; pose proof (lookup_lt_Some _ _ _ Hv); split; [lia|by rewrite (drop_S _ v)]).
  unfold pret. by rewrite be_val_1.
Qed.

Lemma run_echo_tcheck p n o : bp <= p -> 0 <= n -> p + n <= bp + 8 -> ND_TCHECK_LEN p n (at_out "icmp" o) = (Done tt, at_out "icmp" o).
Proof.
  intros. apply run_tcheck_captured; [by apply at_out_ok|lia..|]. cbn [ndo_snapend at_out]. rewrite length_echo in Hcap. lia.
Qed.

Lemma echo_type : ((ty =? ICMP_ECHO) || (ty =? ICMP_ECHOREPLY)) = true /\ ICMP_ERRTYPE ty = false /\ ICMP_MPLS_EXT_TYPE ty = false.
Proof. by destruct Hty as [-> | ->]. Qed.

Lemma run_echo_text o :
  icmp_text bp ty code (at_out "icmp" o) =
  (Done ("echo " +:+ (if ty =? ICMP_ECHO then "request" else "reply") +:+ ", id " +:+ dec id +:+ ", seq " +:+ dec seq),
   at_out "icmp" o).
Proof.
  unfold icmp_text. rewrite (proj1 echo_type). erewrite run_bind by (apply run_echo_tcheck; lia).
  erewrite run_bind by (by apply (run_echo_u2 4)). erewrite run_bind by (by apply (run_echo_u2 6)).
  unfold pret, fill_buf, snprintf. rewrite substring_full; [done|]. rewrite !slen_app.
  pose proof (slen_dec_le id 4 ltac:(cbn; lia)). pose proof (slen_dec_le seq 4 ltac:(cbn; lia)).
  change (slen "echo ") with 5. change (slen ", id ") with 5. change (slen ", seq ") with 6.
  assert (slen (if ty =? ICMP_ECHO then "request" else "reply") <= 7) by (destruct (ty =? ICMP_ECHO); by vm_compute).
  unfold BUF_SIZE, MAXHOSTNAMELEN. lia.
Qed.

(** The checksum of the message, and the value that would be right. *)
Lemma echo_bytes v : bytes_ok (echo v) = true.
Proof.
  destruct Hok as (_ & _ & _ & Hb & _). rewrite Hpkt in Hb. unfold echo in *. rewrite !bytes_ok_app in *.
  split_and!; try apply bytes_ok_be_bytes; tauto.
Qed.

Lemma echo_cksum odd :
  exists c right, in_cksum [mk_cksum_vec (echo ck ++ post) odd plen] = Some c /\ 0 <= c < 65536 /\
    (c = 0 <-> oc_fold (be_sum (echo ck)) = 65535) /\
    in_cksum_shouldbe ck c = right /\ oc_fold (be_sum (echo right)) = 65535.
Proof.
  pose proof (echo_bytes ck) as Hb. pose proof Hok as (_ & _ & _ & Hall & _). rewrite Hpkt, !bytes_ok_app in Hall.
  destruct Hall as (_ & _ & Hpost). pose proof (oc_fold_range (le_sum (echo ck))) as Hr.
  pose proof (in_cksum_whole (echo ck) odd Hb Hmax) as Hw. pose proof (in_cksum_zero_iff (echo ck) odd Hb Hmax) as Hz.
  assert (Hrun : in_cksum [mk_cksum_vec (echo ck ++ post) odd plen] = Some (65535 - oc_fold (le_sum (echo ck)))).
  { rewrite in_cksum_one_spec; [|unfold vec_ok; cbn [v_mem v_len]|exact Hmax].
    - unfold vec_bytes. cbn [v_len v_mem]. by rewrite Nat2Z.id, take_app_length.
    - rewrite bytes_ok_app_true by done. rewrite length_app, !(proj2 (Z.leb_le _ _)) by lia. reflexivity. }
  assert (Hc : 0 <= 65535 - oc_fold (le_sum (echo ck)) < 65536) by lia.
  revert Hrun Hw Hc. generalize (65535 - oc_fold (le_sum (echo ck))) as c. intros c Hrun Hw Hc.
  exists c, (in_cksum_shouldbe ck c). rewrite Hw in Hz. split; [exact Hrun|]. split; [exact Hc|].
  split; [rewrite <- Hz; split; congruence|]. split; [reflexivity|].
  apply (in_cksum_zero_iff _ odd); [apply echo_bytes|rewrite length_echo in *; exact Hmax|].
  apply (in_cksum_repaired [ty; code] (be_bytes 2 id ++ be_bytes 2 seq ++ data) ck odd c).
  - unfold echo in Hb. rewrite bytes_ok_app in Hb. apply Hb.
  - unfold echo in Hb. rewrite bytes_ok_app, (bytes_ok_app (be_bytes 2 ck)) in Hb. apply Hb.
  - reflexivity.
  - lia.
  - exact Hmax.
  - exact Hw.
Qed.

(** What the checksum test adds. *)
Definition cksum_remark (right : Z) : string :=
  if (f_vflag (ndo_flags s) =? 0) || (oc_fold (be_sum (echo ck)) =? 65535) then EmptyString else cksum_text right.

Lemma run_echo_cksum o :
  exists right, icmp_cksum bp plen 0 (at_out "icmp" o) = (Done tt, at_out "icmp" (o +:+ cksum_remark right)) /\
    oc_fold (be_sum (echo right)) = 65535.
Proof.
  destruct (echo_cksum (Z.odd (ndo_base s + bp))) as (c & right & Hc & Hr & Hz & Hs & Hright). exists right. split; [|done].
  unfold icmp_cksum, cksum_remark. erewrite run_bind by reflexivity. cbn [ndo_flags at_out].
  destruct (f_vflag (ndo_flags s) =? 0); [cbn; by rewrite sapp_nil_r|]. cbn [negb andb orb Z.eqb].
  erewrite run_bind by reflexivity. rewrite ttest_len_complete; [|by apply at_out_ok|lia..|cbn [ndo_snapend at_out]; lia].
  erewrite run_bind.
  2:{ unfold run_cksum, pkt_vec. cbn [ndo_packet ndo_base at_out]. rewrite Hpkt, Nat2Z.id, drop_app_length, Hc. reflexivity. }
  rewrite u16_small by lia. destruct (Z.eqb_spec c 0) as [Hc0|Hc0].
  - rewrite (proj2 (Z.eqb_eq _ _)) by (by apply Hz). cbn. by rewrite sapp_nil_r.
  - rewrite (proj2 (Z.eqb_neq _ _)) by tauto. cbn [negb]. erewrite run_bind by (by apply (run_echo_u2 2)).
    rewrite Hs. reflexivity.
Qed.

Lemma run_echo ipp bp2 :
  exists s' right, icmp_message ipp bp plen bp2 0 s = (Done tt, s') /\
    ndo_out s' = ndo_out s +:+ echo_text plen +:+ cksum_remark right /\ oc_fold (be_sum (echo right)) = 65535.
Proof.
  destruct (run_echo_cksum (ndo_out s +:+ ("ICMP " +:+ ("echo " +:+ (if ty =? ICMP_ECHO then "request" else "reply")
    +:+ ", id " +:+ dec id +:+ ", seq " +:+ dec seq) +:+ ", length " +:+ dec plen))) as (right & Hck' & Hright).
  exists (at_out "icmp" (ndo_out s +:+ echo_text plen +:+ cksum_remark right)), right.
  split; [|by split]. unfold icmp_message. rewrite u32_small by lia. cbv zeta. destruct echo_type as (_ & He & Hm).
  erewrite run_bind; [|exact (eq_refl (Done tt, at_out "icmp" (ndo_out s)))].
  unfold on_trunc. erewrite run_bind by (apply run_echo_tcheck; lia).
  erewrite run_bind by (apply (run_echo_u1 0); [lia|reflexivity]).
  erewrite run_bind by (by apply (run_echo_u1 1)). erewrite run_bind by apply run_echo_text.
  erewrite run_bind by reflexivity. erewrite run_bind by exact Hck'. erewrite run_bind by reflexivity.
  rewrite He, Hm, !andb_false_r. do 2 (erewrite run_bind by reflexivity).
  unfold pret, at_out. f_equal. f_equal. unfold echo_text. by rewrite <- !sapp_assoc.
Qed.
End Echo.

(** ** Theorems *)

(** On an echo request or reply captured whole, [icmp_print] shows the
    identifier, the sequence number and the length, and complains about the
    checksum exactly when it is verbose and the one's complement sum of the message
    is not all ones; the value it proposes makes the sum right. *)
Theorem icmp_echo_printed `{Printers} `{PortNames} ipp s bp2 pre post data ty code ck id seq :
  ndo_ok s -> ty = ICMP_ECHO \/ ty = ICMP_ECHOREPLY ->
  0 <= ck < 65536 -> 0 <= id < 65536 -> 0 <= seq < 65536 ->
  let msg v := [ty; code] ++ be_bytes 2 v ++ be_bytes 2 id ++ be_bytes 2 seq ++ data in
  let plen := Z.of_nat (length (msg ck)) in
  let good v := oc_fold (be_sum (msg v)) =? 65535 in
  ndo_packet s = pre ++ msg ck ++ post -> Z.of_nat (length pre) + plen <= ndo_snapend s -> plen <= 65535 ->
  exists s' right, icmp_message ipp (Z.of_nat (length pre)) plen bp2 0 s = (Done tt, s') /\
    ndo_out s' = ndo_out s +:+ echo_text ty id seq plen +:+
      (if (f_vflag (ndo_flags s) =? 0) || good ck then EmptyString
       else " (wrong icmp cksum " +:+ hex ck +:+ " (->" +:+ hex right +:+ ")!)") /\
    good right = true.
Proof.
  intros Hok Hty Hck Hid Hseq msg plen good Hpkt Hcap Hmax.
  destruct (run_echo pre post data ty code ck id seq Hty Hck Hid Hseq s Hok Hpkt ltac:(unfold echo, plen, msg in *; lia) Hmax ipp bp2)
    as (s' & right & Hrun & Hout & Hright).
  exists s', right. split; [exact Hrun|]. split; [exact Hout|]. by apply Z.eqb_eq.
Qed.

(** The IPv4 and ICMP printers together, with ICMP errors that carry
    datagrams that carry ICMP errors, return on any captured bytes up to the size
    of a datagram, print clean text and read only the packet, provided the two
    bytes behind the captured data can be read. Without them a verbose print of a
    message of two bytes loads its checksum field from behind the packet. *)
Theorem icmp_print_safe `{PL : PrinterLaws} `{PortNamesLaws} GUESS_TSO s bp length plen ip frag :
  ndo_ok s -> 0 <= bp -> accepts s bp -> icmp_room s -> 0 <= length -> ip_header s ip ->
  Forall (fun m : pr unit => exists s', m s = (Done tt, s') /\ ndo_ext s s')
    [@ip_print (icmp_printers _ GUESS_TSO) GUESS_TSO bp length;
     @icmp_print (icmp_printers _ GUESS_TSO) bp plen ip frag] /\
  exists s1, ndo_ok s1 /\ ndo_snapend s1 = 22 /\
    fst (@ip_print (icmp_printers _ GUESS_TSO) GUESS_TSO 0 22 s1) = Stop Fault.
Proof.
  intros Hok Hb Ha Hroom Hl Hr.
  assert (Hrun : forall m : pr unit, safe false s m (fun _ => True) -> exists s', m s = (Done tt, s') /\ ndo_ext s s').
  { intros m Hm. specialize (Hm s (ndo_ext_refl s Hok)). destruct (m s) as [[[]|[]] s']; naive_solver. }
  split.
  - repeat (apply Forall_cons; split); [..|by apply Forall_nil]; apply Hrun.
    + by apply safe_ip_print.
    + by apply icmp_print_ok.
  - exists (mk_ndo [0x45; 0; 0; 22; 0; 1; 0; 0; 64; 1; 0; 0; 10; 0; 0; 1; 10; 0; 0; 2; 10; 0] 4096 (mk_flags 1 0 1 0 0 0 0 0) 22 "" "").
    split; [repeat split; cbn; lia || done|]. split; [reflexivity|]. vm_compute. reflexivity.
Qed.

(** ** Witnesses *)

#[export] Instance numeric_ports : PortNames := {| tcpport_string := dec; udpport_string := dec |}.

#[export] Instance numeric_ports_laws : PortNamesLaws.
Proof. split; intros; apply clean_dec. Defined.

Definition sample_echo : list Z := [8; 0] ++ be_bytes 2 4660 ++ be_bytes 2 21554 ++ be_bytes 2 1636 ++ [1; 2; 3].
Definition sample_echo_ndo : netdissect_options :=
  mk_ndo ([0; 0] ++ sample_echo ++ [9]) 4096 (mk_flags 1 0 1 0 0 0 0 0) 13 "" "".

Lemma icmp_echo_printed_witness :
  exists s' right, icmp_message (fun _ _ => pret tt) 2 11 0 0 sample_echo_ndo = (Done tt, s') /\
    ndo_out s' = "ICMP echo request, id 21554, seq 1636, length 11" +:+
      " (wrong icmp cksum 1234 (->" +:+ hex right +:+ ")!)".
Proof.
  destruct (icmp_echo_printed (fun _ _ => pret tt) sample_echo_ndo 0 [0; 0] [9] [1; 2; 3] 8 0 4660 21554 1636)
    as (s' & right & Hrun & Hout & _).
  - repeat split; cbn; lia || done.
  - left; reflexivity.
  - lia.
  - lia.
  - lia.
  - reflexivity.
  - vm_compute; discriminate.
  - vm_compute; discriminate.
  - exists s', right. split; [exact Hrun|exact Hout].
Defined.

(** A time-exceeded message that returns a port-unreachable message that returns
    the header of a UDP datagram, cut off in that header. *)
Definition sample_errors : netdissect_options :=
  let hdr p := [0x45; 0; 0; 200; 0; 1; 0; 0; 64; p; 0; 0; 10; 0; 0; 1; 10; 0; 0; 2] in
  let pkt := hdr 1 ++ [11; 0; 0; 0; 0; 0; 0; 0] ++ hdr 1 ++ [3; 3; 0; 0; 0; 0; 0; 0] ++ hdr 17 ++ [0; 53; 0; 99] in
  mk_ndo pkt 4096 (mk_flags 1 0 1 0 0 0 0 0) 78 "" "".

Lemma icmp_print_safe_witness :
  exists s', @ip_print (icmp_printers _ false) false 0 200 sample_errors = (Done tt, s') /\ ndo_ext sample_errors s'.
Proof.
  destruct (icmp_print_safe false sample_errors 0 200 172 0 0) as [Hall _].
  - repeat split; cbn; lia || done.
  - lia.
  - exact I.
  - split; vm_compute; discriminate.
  - lia.
  - apply (ip_header_v4 _ _ [0x45]); [unfold readable, sizeof_ip; cbn; lia|done..].
  - apply Forall_cons in Hall as [Hip _]. exact Hip.
Defined.
