(* ===== verification/AddrToName.v ===== *)
(** * The names of addresses in tcpdump

    Models [tcpdump/addrtoname.c] with the organisations of [tcpdump/oui.c]. Names are kept in hash
    tables of chains that are filled on demand; a chain is the list of its nodes but the last, which
    is zeroed and has no successor. What the resolver, the ethers file and [getservent] answer is an
    argument. Allocation succeeds, and the machine is little-endian. The tables are shown to
    implement maps from addresses to names: the printers of this development, which treat a name as
    a function of the address, print what the cached functions print. *)
From stdpp Require Import base list numbers strings gmap.
From Stdlib Require Import ZArith Lia Ascii.
From S2P Require Import Prelude Cstring Netdissect UtilPrint AddrToStr PrintIp.

Open Scope Z_scope.

Definition HASHNAMESIZE : Z := 4096.
Definition BUFSIZE : nat := 128.
Definition MAC_ADDR_LEN : Z := 6.
Definition ISONSAP_MAX_LENGTH : Z := 20.

(** [& (HASHNAMESIZE-1)]. *)
Definition name_hash (i : Z) : nat := Z.to_nat (Z.land i (HASHNAMESIZE - 1)).

(** ** Tables of named nodes *)

Abbreviation chain N := (list (N * option string)).
Abbreviation table N := (list (list (N * option string))).

Definition empty_names {N} : table N := replicate (Z.to_nat HASHNAMESIZE) [].

Section Chains.
Context {N : Type}.

(** [while (tp->e_nxt)]: the node that matches, or the end of the chain. *)
Fixpoint walk (hit : N -> bool) (c : chain N) : nat :=
  match c with
  | [] => 0
  | (n, _) :: c' => if hit n then 0 else S (walk hit c')
  end.

(** The node of a key in its chain: found, or stored in the last node, which gets a
    successor. The result is where it is. *)
Definition lookup_node (hash : nat) (hit : N -> bool) (new : N) (t : table N) : option (table N * (nat * nat)) :=
  c ← t !! hash;
  let i := walk hit c in
  Some (if decide (i < length c)%nat then t else <[hash := c ++ [(new, None)]]> t, (hash, i)).

Definition node_name (t : table N) (at_ : nat * nat) : option (option string) :=
  c ← t !! at_.1; x ← c !! at_.2; Some x.2.

Definition set_name (t : table N) (at_ : nat * nat) (name : string) : table N :=
  alter (alter (fun x => (x.1, Some name)) at_.2) at_.1 t.

(** [while (table->name) table = table->nxt], and a new node there. *)
Fixpoint append_unnamed (new : N) (name : string) (c : chain N) : chain N :=
  match c with
  | (n, Some nm) :: c' => (n, Some nm) :: append_unnamed new name c'
  | _ => [(new, Some name)]
  end.
Definition preset (hash : nat) (new : N) (name : string) (t : table N) : table N := alter (append_unnamed new name) hash t.

(** [for (...; p->nxt; p = p->nxt) if (p->addr == addr) return (p->name)], and a new
    node with its name. *)
Definition cached (hash : nat) (hit : N -> bool) (new : N) (t : table N) (fresh : string) : option (table N * string) :=
  c ← t !! hash;
  match c !! walk hit c with
  | Some (_, o) => nm ← o; Some (t, nm)
  | None => Some (<[hash := c ++ [(new, Some fresh)]]> t, fresh)
  end.

(** [tp = lookup(...); if (tp->e_name) return (tp->e_name); tp->e_name = name]. *)
Definition name_node (r : option (table N * (nat * nat))) (name : string) : option (table N * string) :=
  '(t, p) ← r;
  o ← node_name t p;
  match o with
  | Some nm => Some (t, nm)
  | None => Some (set_name t p name, name)
  end.
End Chains.

(** ** The nodes *)

(** [struct hnamemem]: the number. *)
Definition cached_hname (t : table Z) (i : Z) (fresh : string) : option (table Z * string) :=
  cached (name_hash i) (fun a => a =? i) i t fresh.

(** [struct h6namemem]: the sixteen bytes; [addra.d] are the last two. *)
Definition le16 (a b : Z) : Z := a + 256 * b.
Definition h6_hash (addr : list Z) : nat := name_hash (le16 (nth 14 addr 0) (nth 15 addr 0)).
Definition cached_h6name (t : table (list Z)) (addr : list Z) (fresh : string) : option (table (list Z) * string) :=
  cached (h6_hash addr) (fun a => bool_decide (a = addr)) addr t fresh.

(** [struct enamemem] of the table of Ethernet addresses: three pairs of bytes, the last
    pair first. *)
Definition be16 (a b : Z) : Z := Z.lor (Z.shiftl a 8) b.
Definition pairs6 (ep : list Z) : Z * Z * Z :=
  (be16 (nth 4 ep 0) (nth 5 ep 0), be16 (nth 2 ep 0) (nth 3 ep 0), be16 (nth 0 ep 0) (nth 1 ep 0)).

Definition same_pairs (a b : Z * Z * Z) : bool := (a.1.1 =? b.1.1) && (a.1.2 =? b.1.2) && (a.2 =? b.2).
Definition pairs_hash (p : Z * Z * Z) : nat := name_hash (Z.lxor p.1.1 p.1.2).

Definition lookup_emem (t : table (Z * Z * Z)) (ep : list Z) : option (table (Z * Z * Z) * (nat * nat)) :=
  let k := pairs6 ep in lookup_node (pairs_hash k) (fun n => same_pairs n k) k t.

(** [struct bsnamemem]. *)
Record bsnamemem := mk_bs { bs_addr : Z * Z * Z; bs_bytes : list Z; bs_nbytes : Z }.

Definition bs_pairs (bs : list Z) : Z * Z * Z :=
  let nlen := Z.of_nat (length bs) in
  if nlen >=? 6 then pairs6 bs
  else if nlen >=? 4 then (0, be16 (nth 2 bs 0) (nth 3 bs 0), be16 (nth 0 bs 0) (nth 1 bs 0))
  else (0, 0, 0).
Definition bs_new (bs : list Z) : bsnamemem := mk_bs (bs_pairs bs) bs (Z.of_nat (length bs)).
Definition bs_hit (bs : list Z) (n : bsnamemem) : bool :=
  (Z.of_nat (length bs) =? bs_nbytes n) && same_pairs (bs_addr n) (bs_pairs bs) && bool_decide (bs = bs_bytes n).

Definition lookup_bytestring (t : table bsnamemem) (bs : list Z) : option (table bsnamemem * (nat * nat)) :=
  lookup_node (pairs_hash (bs_pairs bs)) (bs_hit bs) (bs_new bs) t.

(** A node of the table of NSAPs: [e_nsap] has the length in its first byte. *)
Record nsapmem := mk_nsap { ns_addr : Z * Z * Z; ns_len : Z; ns_bytes : list Z }.

Definition nsap_pairs (nsap : list Z) : Z * Z * Z :=
  if Z.of_nat (length nsap) >? 6 then pairs6 (drop (length nsap - 6) nsap) else (0, 0, 0).
Definition nsap_new (nsap : list Z) : nsapmem := mk_nsap (nsap_pairs nsap) (u8 (Z.of_nat (length nsap))) nsap.
Definition nsap_hit (nsap : list Z) (n : nsapmem) : bool :=
  (Z.of_nat (length nsap) =? ns_len n) && same_pairs (ns_addr n) (nsap_pairs nsap) && bool_decide (nsap = ns_bytes n).

Definition lookup_nsap (t : table nsapmem) (nsap : list Z) : option (table nsapmem * (nat * nat)) :=
  lookup_node (pairs_hash (nsap_pairs nsap)) (nsap_hit nsap) (nsap_new nsap) t.

(** [struct protoidmem]: the organisation and the protocol. *)
Definition protoid_key (pi : list Z) : Z * Z :=
  (Z.shiftl (Z.shiftl (nth 0 pi 0) 8 + nth 1 pi 0) 8 + nth 2 pi 0, Z.shiftl (nth 3 pi 0) 8 + nth 4 pi 0).
Definition lookup_protoid (t : table (Z * Z)) (pi : list Z) : option (table (Z * Z) * (nat * nat)) :=
  let k := protoid_key pi in lookup_node (name_hash (Z.lxor k.1 k.2)) (fun n => (n.1 =? k.1) && (n.2 =? k.2)) k t.

(** ** Texts *)

(** [hex[b >> 4]] and [hex[b & 0xf]]. *)
Definition hex_byte (b : Z) : string := String (digit_char (Z.shiftr b 4)) (String (digit_char (Z.land b 0xf)) EmptyString).

Fixpoint colon_bytes (l : list Z) : string :=
  match l with
  | [] => EmptyString
  | [b] => hex_byte b
  | b :: l' => hex_byte b +:+ ":" +:+ colon_bytes l'
  end.

(** A dot behind every second byte from the first on, but not at the end. *)
Fixpoint nsap_text (idx : Z) (l : list Z) : string :=
  match l with
  | [] => EmptyString
  | b :: l' => hex_byte b +:+ (if (Z.land idx 1 =? 0) && negb (bool_decide (l' = [])) then "." else "") +:+ nsap_text (idx + 1) l'
  end.

Definition ieee8021q_tci_string (tci : Z) : string :=
  snprintf 128 ("vlan " +:+ dec (Z.land tci 0xfff) +:+ ", p " +:+ dec (Z.shiftr tci 13) +:+ (if negb (Z.land tci 0x1000 =? 0) then ", DEI" else "")).

Definition oui_values : list tok :=
  [(0x000000, "Ethernet"%string); (0x00000c, "Cisco"%string); (0x00005E, "IANA"%string); (0x000081, "Nortel Networks SONMP"%string);
   (0x0000f8, "Cisco bridged"%string); (0x0080c2, "Ethernet bridged"%string); (0x00A03E, "ATM Forum"%string);
   (0x00E02F, "DOCSIS Spanning Tree"%string); (0x080007, "Appletalk"%string); (0x009069, "Juniper"%string); (0x080009, "Hewlett-Packard"%string);
   (0x0080c2, "IEEE 802.1 Private"%string); (0x00120f, "IEEE 802.3 Private"%string); (0x0012bb, "ANSI/TIA"%string); (0x001B21, "DCBX"%string);
   (0x002320, "Nicira Networks"%string); (0x5c16c7, "Big Switch Networks"%string); (0xb0d2f5, "Vello Systems"%string); (0x002481, "HP"%string);
   (0x0004ea, "HP-Labs"%string); (0x748771, "Infoblox Inc"%string); (0xa42305, "Open Networking Lab"%string); (0x00049f, "Freescale"%string);
   (0x0015ad, "Netronome"%string)].

(** ** The state *)

Record names := mk_names {
  hnametable : table Z; tporttable : table Z; uporttable : table Z; eprototable : table Z; dnaddrtable : table Z; ipxsaptable : table Z;
  h6nametable : table (list Z); enametable : table (Z * Z * Z); nsaptable : table nsapmem; bytestringtable : table bsnamemem;
  protoidtable : table (Z * Z); f_netmask : Z; f_localnet : Z }.

Definition start_names : names :=
  mk_names empty_names empty_names empty_names empty_names empty_names empty_names empty_names empty_names empty_names empty_names empty_names 0 0.

(** The options of the command line, and what the system answers. *)
Record name_options := mk_nopts { ndo_nflag : bool; ndo_Nflag : bool; ndo_fflag : bool }.

Class Resolver := {
  gethostbyaddr : list Z -> option string;
  ether_ntohost : list Z -> option string;
  getservent : list (Z * string * string);
  dnnum_string : Z -> string; dnname_string : Z -> string }.

(** A host name, up to its first dot with [-N]. *)
Fixpoint before_dot (s : string) : string :=
  match s with
  | EmptyString => EmptyString
  | String c s' => if Ascii.eqb c "."%char then EmptyString else String c (before_dot s')
  end.

Section Names.
Context `{Resolver} (opts : name_options).

Definition host_name (h : string) : string := if ndo_Nflag opts then before_dot h else h.

(** The address as it is loaded, and the text of a new node. *)
Definition ip_number (ap : list Z) : Z := le16 (nth 0 ap 0) (nth 1 ap 0) + 65536 * le16 (nth 2 ap 0) (nth 3 ap 0).
Definition ip_text (st : names) (ap : list Z) : string :=
  let fresh := intoa (be_val ap) in
  if negb (ndo_nflag opts) && (Z.land (ip_number ap) (f_netmask st) =? f_localnet st)
  then match gethostbyaddr ap with Some h => host_name h | None => fresh end
  else fresh.

Definition ipaddr_string (st : names) (ap : list Z) : option (names * string) :=
  '(t, n) ← cached_hname (hnametable st) (ip_number ap) (ip_text st ap);
  Some (mk_names t (tporttable st) (uporttable st) (eprototable st) (dnaddrtable st) (ipxsaptable st) (h6nametable st) (enametable st)
    (nsaptable st) (bytestringtable st) (protoidtable st) (f_netmask st) (f_localnet st), n).

Definition ip6_text (ap : list Z) : option string :=
  match (if ndo_nflag opts then None else gethostbyaddr ap) with
  | Some h => Some (host_name h)
  | None => addrtostr6 ap INET6_ADDRSTRLEN
  end.
Definition ip6addr_string (st : names) (ap : list Z) : option (names * string) :=
  fresh ← ip6_text ap;
  '(t, n) ← cached_h6name (h6nametable st) ap fresh;
  Some (mk_names (hnametable st) (tporttable st) (uporttable st) (eprototable st) (dnaddrtable st) (ipxsaptable st) t (enametable st)
    (nsaptable st) (bytestringtable st) (protoidtable st) (f_netmask st) (f_localnet st), n).

Definition with_enames (st : names) (t : table (Z * Z * Z)) : names :=
  mk_names (hnametable st) (tporttable st) (uporttable st) (eprototable st) (dnaddrtable st) (ipxsaptable st) (h6nametable st) t
    (nsaptable st) (bytestringtable st) (protoidtable st) (f_netmask st) (f_localnet st).

(** With [-n] the address alone; otherwise the name of the host, or the address and its
    organisation. *)
Definition ether_text (ep : list Z) : string :=
  if ndo_nflag opts then colon_bytes ep
  else match ether_ntohost ep with
       | Some h => h
       | None => colon_bytes ep +:+ snprintf (BUFSIZE - (2 + 5 * 3)) (" (oui " +:+ tok2str oui_values (Some (fun _ => "Unknown"%string)) (be_val (take 3 ep)) +:+ ")")
       end.
Definition etheraddr_string (st : names) (ep : list Z) : option (names * string) :=
  '(t, n) ← name_node (lookup_emem (enametable st) ep) (ether_text ep);
  Some (with_enames st t, n).

Definition with_bytestrings (st : names) (t : table bsnamemem) : names :=
  mk_names (hnametable st) (tporttable st) (uporttable st) (eprototable st) (dnaddrtable st) (ipxsaptable st) (h6nametable st) (enametable st)
    (nsaptable st) t (protoidtable st) (f_netmask st) (f_localnet st).

Definition le64addr_string (st : names) (ep : list Z) : option (names * string) :=
  '(t, n) ← name_node (lookup_bytestring (bytestringtable st) ep) (colon_bytes (reverse ep));
  Some (with_bytestrings st t, n).

Inductive linkaddr := LINKADDR_ETHER | LINKADDR_FRELAY | LINKADDR_IEEE1394 | LINKADDR_ATM | LINKADDR_OTHER.

(** [q922] is what [q922_string] of [print-fr.c] gives. *)
Definition linkaddr_string (st : names) (ep : list Z) (type : linkaddr) (q922 : string) : option (names * string) :=
  if (length ep =? 0)%nat then Some (st, "<empty>"%string)
  else
    match type with
    | LINKADDR_ETHER =>
        if Z.of_nat (length ep) =? MAC_ADDR_LEN then etheraddr_string st ep
        else '(t, n) ← name_node (lookup_bytestring (bytestringtable st) ep) (colon_bytes ep); Some (with_bytestrings st t, n)
    | LINKADDR_FRELAY => Some (st, q922)
    | _ => '(t, n) ← name_node (lookup_bytestring (bytestringtable st) ep) (colon_bytes ep); Some (with_bytestrings st t, n)
    end.

Definition isonsap_string (st : names) (nsap : list Z) : option (names * string) :=
  let n := Z.of_nat (length nsap) in
  if (n <? 1) || (n >? ISONSAP_MAX_LENGTH) then Some (st, "isonsap_string: illegal length"%string)
  else
    '(t, name) ← name_node (lookup_nsap (nsaptable st) nsap) (nsap_text 0 nsap);
    Some (mk_names (hnametable st) (tporttable st) (uporttable st) (eprototable st) (dnaddrtable st) (ipxsaptable st) (h6nametable st) (enametable st)
      t (bytestringtable st) (protoidtable st) (f_netmask st) (f_localnet st), name).

(** A buffer for five digits. *)
Definition port_text (port : Z) : string := snprintf 6 (dec port).
Definition tcpport_string (st : names) (port : Z) : option (names * string) :=
  '(t, n) ← cached_hname (tporttable st) port (port_text port);
  Some (mk_names (hnametable st) t (uporttable st) (eprototable st) (dnaddrtable st) (ipxsaptable st) (h6nametable st) (enametable st)
    (nsaptable st) (bytestringtable st) (protoidtable st) (f_netmask st) (f_localnet st), n).
Definition udpport_string (st : names) (port : Z) : option (names * string) :=
  '(t, n) ← cached_hname (uporttable st) port (port_text port);
  Some (mk_names (hnametable st) (tporttable st) t (eprototable st) (dnaddrtable st) (ipxsaptable st) (h6nametable st) (enametable st)
    (nsaptable st) (bytestringtable st) (protoidtable st) (f_netmask st) (f_localnet st), n).

(** The number is in network order; its digits are printed in host order. *)
Definition swap16 (x : Z) : Z := Z.lor (Z.shiftl (Z.land x 0xff) 8) (Z.shiftr x 8).
Definition ipxsap_text (port : Z) : string :=
  let p := swap16 port in
  String (digit_char (Z.land (Z.shiftr p 12) 0xf)) (String (digit_char (Z.land (Z.shiftr p 8) 0xf))
    (String (digit_char (Z.land (Z.shiftr p 4) 0xf)) (String (digit_char (Z.land p 0xf)) EmptyString))).
Definition ipxsap_string (st : names) (port : Z) : option (names * string) :=
  '(t, n) ← cached_hname (ipxsaptable st) port (ipxsap_text port);
  Some (mk_names (hnametable st) (tporttable st) (uporttable st) (eprototable st) (dnaddrtable st) t (h6nametable st) (enametable st)
    (nsaptable st) (bytestringtable st) (protoidtable st) (f_netmask st) (f_localnet st), n).

Definition dnaddr_string (st : names) (dnaddr : Z) : option (names * string) :=
  '(t, n) ← cached_hname (dnaddrtable st) dnaddr (if ndo_nflag opts then dnnum_string dnaddr else dnname_string dnaddr);
  Some (mk_names (hnametable st) (tporttable st) (uporttable st) (eprototable st) t (ipxsaptable st) (h6nametable st) (enametable st)
    (nsaptable st) (bytestringtable st) (protoidtable st) (f_netmask st) (f_localnet st), n).

(** ** What is named at the start *)

(** A service of another protocol is skipped; with [-n] the number is the name. *)
Definition init_servarray (st : names) : names :=
  foldl (fun st '(port, proto, name) =>
    let nm := if ndo_nflag opts then dec port else name in
    let tcp := if bool_decide (proto = "tcp"%string) then preset (name_hash port) port nm (tporttable st) else tporttable st in
    let udp := if negb (bool_decide (proto = "tcp"%string)) && bool_decide (proto = "udp"%string)
               then preset (name_hash port) port nm (uporttable st) else uporttable st in
    mk_names (hnametable st) tcp udp (eprototable st) (dnaddrtable st) (ipxsaptable st) (h6nametable st) (enametable st)
      (nsaptable st) (bytestringtable st) (protoidtable st) (f_netmask st) (f_localnet st)) st getservent.

Definition eproto_db : list (string * Z) :=
  [("pup"%string, 0x0200); ("xns"%string, 0x0600); ("ip"%string, 0x0800); ("ip6"%string, 0x86dd); ("arp"%string, 0x0806);
   ("rarp"%string, 0x8035); ("sprite"%string, 0x0500); ("mopdl"%string, 0x6001); ("moprc"%string, 0x6002); ("decnet"%string, 0x6003);
   ("lat"%string, 0x6004); ("sca"%string, 0x6007); ("lanbridge"%string, 0x8038); ("vexp"%string, 0x805b); ("vprod"%string, 0x805c);
   ("atalk"%string, 0x809b); ("atalkarp"%string, 0x80f3); ("loopback"%string, 0x9000); ("decdts"%string, 0x803e); ("decdns"%string, 0x803c)].

Definition init_eprotoarray (st : names) : names :=
  let t := foldl (fun t '(s, p) => preset (name_hash (swap16 p)) (swap16 p) s t) (eprototable st) eproto_db in
  mk_names (hnametable st) (tporttable st) (uporttable st) t (dnaddrtable st) (ipxsaptable st) (h6nametable st) (enametable st)
    (nsaptable st) (bytestringtable st) (protoidtable st) (f_netmask st) (f_localnet st).

Definition protoidlist : list (list Z * string) :=
  [([0x00; 0x00; 0x0c; 0x01; 0x07], "CiscoMLS"%string); ([0x00; 0x00; 0x0c; 0x20; 0x00], "CiscoCDP"%string);
   ([0x00; 0x00; 0x0c; 0x20; 0x01], "CiscoCGMP"%string); ([0x00; 0x00; 0x0c; 0x20; 0x03], "CiscoVTP"%string);
   ([0x00; 0xe0; 0x2b; 0x00; 0xbb], "ExtremeEDP"%string)].

Definition init_protoidarray (st : names) : option names :=
  t ← foldl (fun o '(s, p) => t ← o; '(t, at_) ← lookup_protoid t ([0; 0; 0] ++ be_bytes 2 p); Some (set_name t at_ s)) (Some (protoidtable st)) eproto_db;
  t ← foldl (fun o '(pi, s) => t ← o; '(t, _) ← name_node (lookup_protoid t pi) s; Some t) (Some t) protoidlist;
  Some (mk_names (hnametable st) (tporttable st) (uporttable st) (eprototable st) (dnaddrtable st) (ipxsaptable st) (h6nametable st) (enametable st)
    (nsaptable st) (bytestringtable st) t (f_netmask st) (f_localnet st)).

Definition etherlist : list (list Z * string) := [([0xff; 0xff; 0xff; 0xff; 0xff; 0xff], "Broadcast"%string)].

(** With [USE_ETHER_NTOHOST]. *)
Definition init_etherarray (st : names) : option names :=
  t ← foldl (fun o '(ep, s) =>
        t ← o; '(t, _) ← name_node (lookup_emem t ep) (default s (ether_ntohost ep)); Some t) (Some (enametable st)) etherlist;
  Some (with_enames st t).

Definition ipxsap_db : list tok :=
  [(0x0000, "Unknown"%string); (0x0001, "User"%string); (0x0002, "User Group"%string); (0x0003, "PrintQueue"%string); (0x0004, "FileServer"%string);
   (0x0005, "JobServer"%string); (0x0006, "Gateway"%string); (0x0007, "PrintServer"%string); (0x0008, "ArchiveQueue"%string);
   (0x0009, "ArchiveServer"%string); (0x000a, "JobQueue"%string); (0x000b, "Administration"%string); (0x000F, "Novell TI-RPC"%string);
   (0x0017, "Diagnostics"%string); (0x0020, "NetBIOS"%string); (0x0021, "NAS SNA Gateway"%string); (0x0023, "NACS AsyncGateway"%string);
   (0x0024, "RemoteBridge/RoutingService"%string); (0x0026, "BridgeServer"%string); (0x0027, "TCP/IP Gateway"%string);
   (0x0028, "Point-to-point X.25 BridgeServer"%string); (0x0029, "3270 Gateway"%string); (0x002a, "CHI Corp"%string);
   (0x002c, "PC Chalkboard"%string); (0x002d, "TimeSynchServer"%string); (0x002e, "ARCserve5.0/PalindromeBackup"%string);
   (0x0045, "DI3270 Gateway"%string); (0x0047, "AdvertisingPrintServer"%string); (0x004a, "NetBlazerModems"%string); (0x004b, "BtrieveVAP"%string);
   (0x004c, "NetwareSQL"%string); (0x004d, "XtreeNetwork"%string); (0x0050, "BtrieveVAP4.11"%string); (0x0052, "QuickLink"%string);
   (0x0053, "PrintQueueUser"%string); (0x0058, "Multipoint X.25 Router"%string); (0x0060, "STLB/NLM"%string); (0x0064, "ARCserve"%string);
   (0x0066, "ARCserve3.0"%string); (0x0072, "WAN CopyUtility"%string); (0x007a, "TES-NetwareVMS"%string);
   (0x0092, "WATCOM Debugger/EmeraldTapeBackupServer"%string); (0x0095, "DDA OBGYN"%string); (0x0098, "NetwareAccessServer"%string);
   (0x009a, "Netware for VMS II/NamedPipeServer"%string); (0x009b, "NetwareAccessServer"%string); (0x009e, "PortableNetwareServer/SunLinkNVT"%string);
   (0x00a1, "PowerchuteAPC UPS"%string); (0x00aa, "LAWserve"%string); (0x00ac, "CompaqIDA StatusMonitor"%string); (0x0100, "PIPE STAIL"%string);
   (0x0102, "LAN ProtectBindery"%string); (0x0103, "OracleDataBaseServer"%string); (0x0107, "Netware386/RSPX RemoteConsole"%string);
   (0x010f, "NovellSNA Gateway"%string); (0x0111, "TestServer"%string); (0x0112, "HP PrintServer"%string); (0x0114, "CSA MUX"%string);
   (0x0115, "CSA LCA"%string); (0x0116, "CSA CM"%string); (0x0117, "CSA SMA"%string); (0x0118, "CSA DBA"%string); (0x0119, "CSA NMA"%string);
   (0x011a, "CSA SSA"%string); (0x011b, "CSA STATUS"%string); (0x011e, "CSA APPC"%string); (0x0126, "SNA TEST SSA Profile"%string);
   (0x012a, "CSA TRACE"%string); (0x012b, "NetwareSAA"%string); (0x012e, "IKARUS VirusScan"%string); (0x0130, "CommunicationsExecutive"%string);
   (0x0133, "NNS DomainServer/NetwareNamingServicesDomain"%string); (0x0135, "NetwareNamingServicesProfile"%string);
   (0x0137, "Netware386 PrintQueue/NNS PrintQueue"%string); (0x0141, "LAN SpoolServer"%string); (0x0152, "IRMALAN Gateway"%string);
   (0x0154, "NamedPipeServer"%string); (0x0166, "NetWareManagement"%string); (0x0168, "Intel PICKIT CommServer/Intel CAS TalkServer"%string);
   (0x0173, "Compaq"%string); (0x0174, "Compaq SNMP Agent"%string); (0x0175, "Compaq"%string); (0x0180, "XTreeServer/XTreeTools"%string);
   (0x018A, "NASI ServicesBroadcastServer"%string); (0x01b0, "GARP Gateway"%string); (0x01b1, "Binfview"%string);
   (0x01bf, "IntelLanDeskManager"%string); (0x01ca, "AXTEC"%string); (0x01cb, "ShivaNetModem/E"%string); (0x01cc, "ShivaLanRover/E"%string);
   (0x01cd, "ShivaLanRover/T"%string); (0x01ce, "ShivaUniversal"%string); (0x01d8, "CastelleFAXPressServer"%string);
   (0x01da, "CastelleLANPressPrintServer"%string); (0x01dc, "CastelleFAX/Xerox7033 FaxServer/ExcelLanFax"%string); (0x01f0, "LEGATO"%string);
   (0x01f5, "LEGATO"%string); (0x0233, "NMS Agent/NetwareManagementAgent"%string); (0x0237, "NMS IPX Discovery/LANternReadWriteChannel"%string);
   (0x0238, "NMS IP Discovery/LANternTrapAlarmChannel"%string); (0x023a, "LANtern"%string); (0x023c, "MAVERICK"%string);
   (0x023f, "NovellSMDR"%string); (0x024e, "NetwareConnect"%string); (0x024f, "NASI ServerBroadcast Cisco"%string);
   (0x026a, "NMS ServiceConsole"%string); (0x026b, "TimeSynchronizationServer Netware 4.x"%string); (0x0278, "DirectoryServer Netware 4.x"%string);
   (0x027b, "NetwareManagementAgent"%string); (0x0280, "Novell File and Printer Sharing Service for PC"%string); (0x0304, "NovellSAA Gateway"%string);
   (0x0308, "COM/VERMED"%string); (0x030a, "GalacticommWorldgroupServer"%string); (0x030c, "IntelNetport2/HP JetDirect/HP Quicksilver"%string);
   (0x0320, "AttachmateGateway"%string); (0x0327, "MicrosoftDiagnostiocs"%string); (0x0328, "WATCOM SQL Server"%string);
   (0x0335, "MultiTechSystems MultisynchCommServer"%string); (0x0343, "Xylogics RemoteAccessServer/LANModem"%string);
   (0x0355, "ArcadaBackupExec"%string); (0x0358, "MSLCD1"%string); (0x0361, "NETINELO"%string); (0x037e, "Powerchute UPS Monitoring"%string);
   (0x037f, "ViruSafeNotify"%string); (0x0386, "HP Bridge"%string); (0x0387, "HP Hub"%string); (0x0394, "NetWare SAA Gateway"%string);
   (0x039b, "LotusNotes"%string); (0x03b7, "CertusAntiVirus"%string); (0x03c4, "ARCserve4.0"%string); (0x03c7, "LANspool3.5"%string);
   (0x03d7, "LexmarkPrinterServer"%string); (0x03d8, "LexmarkXLE PrinterServer"%string); (0x03dd, "BanyanENS NetwareClient"%string);
   (0x03de, "GuptaSequelBaseServer/NetWareSQL"%string); (0x03e1, "UnivelUnixware"%string); (0x03e4, "UnivelUnixware"%string);
   (0x03fc, "IntelNetport"%string); (0x03fd, "PrintServerQueue"%string); (0x040A, "ipnServer"%string); (0x040D, "LVERRMAN"%string);
   (0x040E, "LVLIC"%string); (0x0414, "NET Silicon (DPI)/Kyocera"%string); (0x0429, "SiteLockVirus"%string); (0x0432, "UFHELPR???"%string);
   (0x0433, "Synoptics281xAdvancedSNMPAgent"%string); (0x0444, "MicrosoftNT SNA Server"%string); (0x0448, "Oracle"%string);
   (0x044c, "ARCserve5.01"%string); (0x0457, "CanonGP55"%string); (0x045a, "QMS Printers"%string); (0x045b, "DellSCSI Array"%string);
   (0x0491, "NetBlazerModems"%string); (0x04ac, "OnTimeScheduler"%string); (0x04b0, "CD-Net"%string); (0x0513, "EmulexNQA"%string);
   (0x0520, "SiteLockChecks"%string); (0x0529, "SiteLockChecks"%string); (0x052d, "CitrixOS2 AppServer"%string); (0x0535, "Tektronix"%string);
   (0x0536, "Milan"%string); (0x055d, "Attachmate SNA gateway"%string); (0x056b, "IBM8235 ModemServer"%string);
   (0x056c, "ShivaLanRover/E PLUS"%string); (0x056d, "ShivaLanRover/T PLUS"%string); (0x0580, "McAfeeNetShield"%string);
   (0x05B8, "NLM to workstation communication (Revelation Software)"%string); (0x05BA, "CompatibleSystemsRouters"%string);
   (0x05BE, "CheyenneHierarchicalStorageManager"%string); (0x0606, "JCWatermarkImaging"%string); (0x060c, "AXISNetworkPrinter"%string);
   (0x0610, "AdaptecSCSIManagement"%string); (0x0621, "IBM AntiVirus"%string); (0x0640, "Windows95 RemoteRegistryService"%string);
   (0x064e, "MicrosoftIIS"%string); (0x067b, "Microsoft Win95/98 File and Print Sharing for NetWare"%string);
   (0x067c, "Microsoft Win95/98 File and Print Sharing for NetWare"%string); (0x076C, "Xerox"%string); (0x079b, "ShivaLanRover/E 115"%string);
   (0x079c, "ShivaLanRover/T 115"%string); (0x07B4, "CubixWorldDesk"%string); (0x07c2, "Quarterdeck IWare Connect V2.x NLM"%string);
   (0x07c1, "Quarterdeck IWare Connect V3.x NLM"%string); (0x0810, "ELAN License Server Demo"%string); (0x0824, "ShivaLanRoverAccessSwitch/E"%string);
   (0x086a, "ISSC Collector"%string); (0x087f, "ISSC DAS AgentAIX"%string); (0x0880, "Intel Netport PRO"%string);
   (0x0881, "Intel Netport PRO"%string); (0x0b29, "SiteLock"%string); (0x0c29, "SiteLockApplications"%string); (0x0c2c, "LicensingServer"%string);
   (0x2101, "PerformanceTechnologyInstantInternet"%string); (0x2380, "LAI SiteLock"%string); (0x238c, "MeetingMaker"%string);
   (0x4808, "SiteLockServer/SiteLockMetering"%string); (0x5555, "SiteLockUser"%string); (0x6312, "Tapeware"%string); (0x6f00, "RabbitGateway"%string);
   (0x7703, "MODEM"%string); (0x8002, "NetPortPrinters"%string); (0x8008, "WordPerfectNetworkVersion"%string); (0x85BE, "Cisco EIGRP"%string);
   (0x8888, "WordPerfectNetworkVersion/QuickNetworkManagement"%string); (0x9000, "McAfeeNetShield"%string); (0x9604, "CSA-NT_MON"%string);
   (0xb6a8, "OceanIsleReachoutRemoteControl"%string); (0xf11f, "SiteLockMetering"%string); (0xf1ff, "SiteLock"%string);
   (0xf503, "Microsoft SQL Server"%string); (0xF905, "IBM TimeAndPlace"%string); (0xfbfb, "TopCallIII FaxServer"%string);
   (0xffff, "AnyService/Wildcard"%string)].

Definition init_ipxsaparray (st : names) : names :=
  let t := foldl (fun t '(v, s) => preset (name_hash (swap16 v)) (swap16 v) s t) (ipxsaptable st) ipxsap_db in
  mk_names (hnametable st) (tporttable st) (uporttable st) (eprototable st) (dnaddrtable st) t (h6nametable st) (enametable st)
    (nsaptable st) (bytestringtable st) (protoidtable st) (f_netmask st) (f_localnet st).

Definition init_addrtoname (st : names) (localnet mask : Z) : option names :=
  let st := mk_names (hnametable st) (tporttable st) (uporttable st) (eprototable st) (dnaddrtable st) (ipxsaptable st) (h6nametable st) (enametable st)
    (nsaptable st) (bytestringtable st) (protoidtable st)
    (if ndo_fflag opts then mask else f_netmask st) (if ndo_fflag opts then localnet else f_localnet st) in
  if ndo_nflag opts then Some st
  else
    st ← init_etherarray st;
    st ← init_protoidarray (init_eprotoarray (init_servarray st));
    Some (init_ipxsaparray st).
End Names.

(** ** Tables as maps *)

(** The names of all tables, by table and address. *)
Abbreviation name_map := (gmap (nat * list Z) string).

Lemma list_alter_Some {A} (f : A -> A) (l : list A) i x : l !! i = Some x -> alter f i l = <[i := f x]> l.
Proof. revert i. induction l as [|y l IH]; intros [|i] Hl; simplify_eq/=; [done|]. f_equal. auto. Qed.

Section Refinement.
Context {N : Type} (ok : list Z -> Prop) (hash : list Z -> nat) (hit : list Z -> N -> bool) (new : list Z -> N).
Context (Hhit : forall k k', ok k -> ok k' -> hit k (new k') = bool_decide (k = k')).
Context (Hhash : forall k, (hash k < Z.to_nat HASHNAMESIZE)%nat) (tag : nat).

(** Every node is in the chain of its address. *)
Definition placed (b : nat) (c : chain N) : Prop := Forall (fun x => exists k, ok k /\ x.1 = new k /\ hash k = b) c.

Definition name_in (c : chain N) (k : list Z) : option string := x ← c !! walk (hit k) c; x.2.

Definition represents (t : table N) (m : name_map) : Prop :=
  length t = Z.to_nat HASHNAMESIZE /\ (forall b c, t !! b = Some c -> placed b c) /\
  forall k c, ok k -> t !! hash k = Some c -> name_in c k = m !! (tag, k).

Lemma walk_le k c : (walk (hit k) c <= length c)%nat.
Proof. induction c as [|[n o] c IH]; cbn; [lia|]. case_match; lia. Qed.

(** Another address in the chain is found where it was. *)
Lemma walk_app_same c k x : (walk (hit k) c < length c)%nat -> walk (hit k) (c ++ [x]) = walk (hit k) c.
Proof. induction c as [|[n o] c IH]; cbn; [lia|]. destruct (hit k n); [done|]. intros Hl. f_equal. apply IH. lia. Qed.

Lemma walk_app_end c k x : walk (hit k) c = length c -> walk (hit k) (c ++ [x]) = if hit k x.1 then length c else S (length c).
Proof.
  induction c as [|[n o] c IH]; cbn; [destruct x; cbn; by case_match|]. destruct (hit k n); [done|]. intros [= Hl]. rewrite (IH Hl). by case_match.
Qed.

Lemma name_in_app c k k' o : ok k -> ok k' ->
  name_in (c ++ [(new k', o)]) k = if decide (k = k') then (if decide (walk (hit k) c < length c)%nat then name_in c k else o) else name_in c k.
Proof.
  intros Hk Hk'. unfold name_in. destruct (decide (walk (hit k) c < length c)%nat) as [Hl|Hl].
  - rewrite walk_app_same, lookup_app_l by done. by case_decide.
  - assert (He : walk (hit k) c = length c) by (pose proof (walk_le k c); lia). rewrite walk_app_end by done. cbn [fst]. rewrite Hhit by done.
    rewrite (lookup_ge_None_2 c) by lia. destruct (decide (k = k')) as [->|Hne]; [rewrite bool_decide_true by done; by rewrite list_lookup_middle|].
    rewrite bool_decide_false by done. by rewrite lookup_ge_None_2 by (rewrite length_app; cbn; lia).
Qed.

(** The node a walk stops at is the one of the address. *)
Lemma walk_hit c k b : ok k -> placed b c -> (walk (hit k) c < length c)%nat -> exists o, c !! walk (hit k) c = Some (new k, o).
Proof.
  intros Hk. induction c as [|[n o] c IH]; cbn [walk length]; [lia|]. intros [(k' & Hk' & Hn & _) Hc]%Forall_cons Hl. cbn [fst] in Hn. subst n.
  rewrite Hhit in * by done. destruct (bool_decide_reflect (k = k')) as [->|Hne]; [by exists o|]. cbn. apply IH; [done|lia].
Qed.

Lemma name_in_alter c k k' n b : ok k -> ok k' -> placed b c -> (walk (hit k') c < length c)%nat ->
  name_in (alter (fun x => (x.1, Some n)) (walk (hit k') c) c) k = if decide (k = k') then Some n else name_in c k.
Proof.
  intros Hk Hk'. induction c as [|[a o] c IH]; cbn [walk length]; [lia|]. intros [(j & Hj & Ha & _) Hc]%Forall_cons Hl. cbn [fst] in Ha. subst a.
  rewrite Hhit in * by done. unfold name_in in *. destruct (bool_decide_reflect (k' = j)) as [->|Hne].
  - cbn. rewrite !Hhit by done. destruct (decide (k = j)) as [->|Hne]; [by rewrite bool_decide_true|]. by rewrite bool_decide_false.
  - cbn. rewrite !Hhit by done. destruct (bool_decide_reflect (k = j)) as [->|Hne2]; [by rewrite decide_False by congruence|].
    cbn. apply IH; [done|lia].
Qed.

Lemma placed_snoc b c k o : ok k -> hash k = b -> placed b c -> placed b (c ++ [(new k, o)]).
Proof. intros Hk Hb Hc. apply Forall_app. split; [done|]. apply Forall_cons. split; [by exists k|done]. Qed.

Lemma placed_alter b c i n : placed b c -> placed b (alter (fun x => (x.1, Some n)) i c).
Proof. intros Hc. apply Forall_alter; [done|]. intros x Hx Hp. exact Hp. Qed.

(** A change of one chain. *)
Lemma represents_insert t m k c c' o : ok k -> t !! hash k = Some c -> placed (hash k) c' ->
  (forall k', ok k' -> hash k' = hash k -> name_in c' k' = if decide (k' = k) then o else name_in c k') ->
  represents t m -> represents (<[hash k := c']> t) (partial_alter (fun _ => o) (tag, k) m).
Proof.
  intros Hk Hc Hp Hn (Hl & Hpl & Hr). assert (Hlt : (hash k < length t)%nat) by (by apply lookup_lt_Some in Hc).
  split_and!; [by rewrite length_insert|..].
  - intros b c0. destruct (decide (b = hash k)) as [->|Hne]; [rewrite list_lookup_insert_eq by done; by intros [= <-]|].
    rewrite list_lookup_insert_ne by done. apply Hpl.
  - intros k' c0 Hk'. destruct (decide (hash k' = hash k)) as [He|Hne].
    + rewrite He, list_lookup_insert_eq by done. intros [= <-]. rewrite Hn by done. destruct (decide (k' = k)) as [->|Hd]; [by rewrite lookup_partial_alter_eq|].
      rewrite lookup_partial_alter_ne by congruence. apply Hr; [done|by rewrite He].
    + rewrite list_lookup_insert_ne by done. intros Hc0. rewrite lookup_partial_alter_ne by congruence. by apply Hr.
Qed.

Lemma represents_bucket t m k : represents t m -> exists c, t !! hash k = Some c /\ placed (hash k) c /\ (ok k -> name_in c k = m !! (tag, k)).
Proof.
  intros (Hl & Hp & Hr). destruct (lookup_lt_is_Some_2 t (hash k)) as [c Hc]; [by rewrite Hl|]. exists c. split_and!; auto.
Qed.

(** The node of an address, and its name. *)
Lemma lookup_node_refines t m k : ok k -> represents t m ->
  exists t' c, lookup_node (hash k) (hit k) (new k) t = Some (t', (hash k, walk (hit k) c)) /\ represents t' m /\
    t' !! hash k = Some c /\ (walk (hit k) c < length c)%nat.
Proof.
  intros Hk Hr. destruct (represents_bucket t m k Hr) as (c & Hc & Hp & Hn). specialize (Hn Hk). unfold lookup_node. rewrite Hc. cbn [mbind option_bind].
  destruct (decide (walk (hit k) c < length c)%nat) as [Hl|Hl]; [by exists t, c|].
  assert (He : walk (hit k) c = length c) by (pose proof (walk_le k c); lia). assert (Hw : walk (hit k) (c ++ [(new k, None)]) = length c).
  { rewrite walk_app_end by done. cbn [fst]. by rewrite Hhit, bool_decide_true. }
  exists (<[hash k := c ++ [(new k, None)]]> t), (c ++ [(new k, None)]). rewrite Hw, He. split_and!; [done|..].
  - replace m with (partial_alter (fun _ => m !! (tag, k)) (tag, k) m) by apply partial_alter_self. eapply represents_insert; try done; [by apply placed_snoc|].
    intros k' Hk' Hh. rewrite name_in_app by done. destruct (decide (k' = k)) as [->|]; [|done]. rewrite decide_False by done. rewrite <- Hn.
    unfold name_in. by rewrite He, lookup_ge_None_2 by lia.
  - apply list_lookup_insert_eq. by apply lookup_lt_Some in Hc.
  - rewrite length_app. cbn. lia.
Qed.

(** A name that is there stays; a new one is stored. *)
Lemma name_node_refines t m k fresh : ok k -> represents t m ->
  exists t', name_node (lookup_node (hash k) (hit k) (new k) t) fresh = Some (t', default fresh (m !! (tag, k))) /\
    represents t' (<[(tag, k) := default fresh (m !! (tag, k))]> m).
Proof.
  intros Hk Hr. destruct (lookup_node_refines t m k Hk Hr) as (t' & c & -> & Hr' & Hc & Hl). pose proof Hr' as (_ & Hp & Hn).
  specialize (Hn k c Hk Hc). unfold name_node, node_name. cbn [mbind option_bind fst snd]. rewrite Hc. cbn [mbind option_bind].
  destruct (walk_hit c k (hash k) Hk (Hp _ _ Hc) Hl) as [o Ho]. unfold name_in in Hn. rewrite Ho in *. cbn [mbind option_bind snd] in *. subst o.
  destruct (m !! (tag, k)) as [nm|] eqn:Em; cbn [default].
  - exists t'. split; [done|]. by rewrite insert_id.
  - exists (set_name t' (hash k, walk (hit k) c) fresh). split; [done|]. unfold set_name. cbn [fst snd].
    rewrite (list_alter_Some _ t' _ c) by done. eapply (represents_insert t' m k c _ (Some fresh)); try done; [by apply placed_alter, Hp|].
    intros k' Hk' Hh. by rewrite (name_in_alter c k' k fresh (hash k)) by auto.
Qed.

(** The tables of [struct hnamemem] have no node without a name. *)
Definition all_named (t : table N) : Prop := Forall (Forall (fun x => is_Some x.2)) t.

Lemma cached_refines t m k fresh : ok k -> represents t m -> all_named t ->
  exists t', cached (hash k) (hit k) (new k) t fresh = Some (t', default fresh (m !! (tag, k))) /\
    represents t' (<[(tag, k) := default fresh (m !! (tag, k))]> m) /\ all_named t'.
Proof.
  intros Hk Hr Ha. destruct (represents_bucket t m k Hr) as (c & Hc & Hp & Hn). specialize (Hn Hk). unfold cached, name_in in *. rewrite Hc. cbn [mbind option_bind].
  assert (Hac : Forall (fun x => is_Some x.2) c) by (eapply (Forall_lookup_1 _ t); done).
  destruct (c !! walk (hit k) c) as [[n o]|] eqn:E; cbn [mbind option_bind snd] in *.
  - destruct (Forall_lookup_1 _ _ _ _ Hac E) as [nm Hnm]. cbn in Hnm. rewrite Hnm in *. rewrite <- Hn. cbn. exists t. split_and!; [done| |done]. by rewrite insert_id.
  - rewrite <- Hn. cbn. eexists. split_and!; [done|..].
    + eapply (represents_insert t m k c _ (Some fresh)); try done; [by apply placed_snoc|]. intros k' Hk' Hh. rewrite name_in_app by done.
      destruct (decide (k' = k)) as [->|]; [|done]. rewrite decide_False; [done|]. apply lookup_ge_None in E. lia.
    + apply Forall_insert; [done|]. apply Forall_app. split; [done|]. apply Forall_cons. by split.
Qed.

(** A name given at the start; an address that is there keeps its name. *)
Lemma append_unnamed_end (c : chain N) n nm : Forall (fun x => is_Some x.2) c -> append_unnamed n nm c = c ++ [(n, Some nm)].
Proof. induction 1 as [|[a o] c [x Hx] Hc IH]; [done|]. cbn in Hx. subst o. cbn. by rewrite IH. Qed.

Lemma preset_refines t m k nm : ok k -> represents t m -> all_named t ->
  represents (preset (hash k) (new k) nm t) (<[(tag, k) := default nm (m !! (tag, k))]> m) /\ all_named (preset (hash k) (new k) nm t).
Proof.
  intros Hk Hr Ha. destruct (represents_bucket t m k Hr) as (c & Hc & Hp & Hn). specialize (Hn Hk).
  assert (Hac : Forall (fun x => is_Some x.2) c) by (eapply (Forall_lookup_1 _ t); done).
  unfold preset. rewrite (list_alter_Some _ t _ c), append_unnamed_end by done. split.
  - eapply (represents_insert t m k c _ (Some (default nm (m !! (tag, k))))); try done; [by apply placed_snoc|]. intros k' Hk' Hh.
    rewrite name_in_app by done. destruct (decide (k' = k)) as [->|]; [|done]. unfold name_in in *. rewrite <- Hn.
    destruct (decide (walk (hit k) c < length c)%nat) as [Hl|Hl].
    + destruct (lookup_lt_is_Some_2 c _ Hl) as [[a o] Ho]. destruct (Forall_lookup_1 _ _ _ _ Hac Ho) as [x Hx]. cbn in Hx. subst o. by rewrite Ho.
    + by rewrite lookup_ge_None_2 by lia.
  - apply Forall_insert; [done|]. apply Forall_app. split; [done|]. apply Forall_cons. by split.
Qed.

(** A name of another table. *)
Lemma represents_other t m tag' k o : tag' <> tag -> represents t m -> represents t (<[(tag', k) := o]> m).
Proof. intros Hne (Hl & Hp & Hr). split_and!; [done..|]. intros k' c Hk' Hc. rewrite lookup_insert_ne by congruence. by apply Hr. Qed.

Lemma represents_empty : represents empty_names ∅ /\ all_named empty_names.
Proof.
  unfold empty_names. split; [split_and!; [by rewrite length_replicate|..]|by apply Forall_replicate].
  - intros b c [-> _]%lookup_replicate. by apply Forall_nil.
  - intros k c _ [-> _]%lookup_replicate. by rewrite lookup_empty.
Qed.
End Refinement.

(** ** The addresses of each table *)

Definition bytes_of (n : nat) (k : list Z) : Prop := length k = n /\ bytes_ok k = true.
Definition one_number (k : list Z) : Prop := length k = 1%nat.
Definition the_number (k : list Z) : Z := nth 0 k 0.

Lemma name_hash_lt i : (name_hash i < Z.to_nat HASHNAMESIZE)%nat.
Proof.
  unfold name_hash, HASHNAMESIZE. change (4096 - 1) with (2 ^ 12 - 1). rewrite land_mask by lia. pose proof (Z.mod_pos_bound i (2 ^ 12)). lia.
Qed.

Lemma pairs_hash_lt p : (pairs_hash p < Z.to_nat HASHNAMESIZE)%nat.
Proof. apply name_hash_lt. Qed.
Lemma h6_hash_lt k : (h6_hash k < Z.to_nat HASHNAMESIZE)%nat.
Proof. apply name_hash_lt. Qed.

(** A list of known length, byte by byte. *)
Ltac bytes_case k H :=
  let Hl := fresh in let Hb := fresh in destruct H as [Hl Hb]; repeat (destruct k as [|? k]; [discriminate Hl|]); destruct k; [|discriminate Hl]; clear Hl;
  rewrite !bytes_ok_cons in Hb.

Lemma be16_val a b : 0 <= a < 256 -> 0 <= b < 256 -> be16 a b = 256 * a + b.
Proof. intros Ha Hb. unfold be16. rewrite Z.shiftl_mul_pow2, lor_high by lia. lia. Qed.

Lemma ip_number_inj k k' : bytes_of 4 k -> bytes_of 4 k' -> ip_number k = ip_number k' -> k = k'.
Proof. intros H1 H2. bytes_case k H1. bytes_case k' H2. unfold ip_number, le16. cbn [nth]. intros He. repeat f_equal; lia. Qed.

Lemma pairs6_inj k k' : bytes_of 6 k -> bytes_of 6 k' -> pairs6 k = pairs6 k' -> k = k'.
Proof.
  intros H1 H2. bytes_case k H1. bytes_case k' H2. unfold pairs6. cbn [nth]. rewrite !be16_val by lia. intros [= E1 E2 E3]. repeat f_equal; lia.
Qed.

Lemma same_pairs_eq a b : same_pairs a b = bool_decide (a = b).
Proof.
  unfold same_pairs. destruct a as [[a1 a2] a3], b as [[b1 b2] b3]. cbn. apply eq_true_iff_eq. rewrite bool_decide_eq_true, !andb_true_iff, !Z.eqb_eq. naive_solver.
Qed.

Lemma hit_number (num : list Z -> Z) (ok : list Z -> Prop) : (forall k k', ok k -> ok k' -> num k = num k' -> k = k') ->
  forall k k', ok k -> ok k' -> (num k' =? num k) = bool_decide (k = k').
Proof.
  intros Hinj k k' Hk Hk'. apply eq_true_iff_eq. rewrite bool_decide_eq_true, Z.eqb_eq. split; [|by intros ->]. intros He. by apply Hinj.
Qed.

Lemma the_number_inj k k' : one_number k -> one_number k' -> the_number k = the_number k' -> k = k'.
Proof. destruct k as [|x [|]], k' as [|y [|]]; try done. cbn. congruence. Qed.

Lemma hit_h6 k k' : bytes_of 16 k -> bytes_of 16 k' -> bool_decide (k' = k) = bool_decide (k = k').
Proof. intros _ _. apply bool_decide_ext. naive_solver. Qed.

Lemma hit_ether k k' : bytes_of 6 k -> bytes_of 6 k' -> same_pairs (pairs6 k') (pairs6 k) = bool_decide (k = k').
Proof.
  intros Hk Hk'. rewrite same_pairs_eq. apply bool_decide_ext. split; [|by intros ->]. intros He. symmetry. by apply pairs6_inj.
Qed.

Lemma hit_bytes k k' : True -> True -> bs_hit k (bs_new k') = bool_decide (k = k').
Proof.
  intros _ _. unfold bs_hit. cbn. rewrite same_pairs_eq. apply eq_true_iff_eq. rewrite !andb_true_iff, !bool_decide_eq_true, Z.eqb_eq.
  split; [naive_solver|]. by intros ->.
Qed.

Definition nsap_ok (k : list Z) : Prop := Z.of_nat (length k) <= ISONSAP_MAX_LENGTH.
Lemma hit_nsap k k' : nsap_ok k -> nsap_ok k' -> nsap_hit k (nsap_new k') = bool_decide (k = k').
Proof.
  unfold nsap_ok, ISONSAP_MAX_LENGTH. intros Hk Hk'. unfold nsap_hit. cbn. rewrite same_pairs_eq, u8_small by lia. apply eq_true_iff_eq.
  rewrite !andb_true_iff, !bool_decide_eq_true, Z.eqb_eq. split; [naive_solver|]. by intros ->.
Qed.

(** ** The names as one map *)

Definition rep_numbers (num : list Z -> Z) (ok : list Z -> Prop) : nat -> table Z -> name_map -> Prop :=
  represents ok (fun k => name_hash (num k)) (fun k a => a =? num k) num.

Record names_rep (st : names) (m : name_map) : Prop := mk_rep {
  rep_ip : rep_numbers ip_number (bytes_of 4) 0 (hnametable st) m /\ all_named (hnametable st);
  rep_tcp : rep_numbers the_number one_number 1 (tporttable st) m /\ all_named (tporttable st);
  rep_udp : rep_numbers the_number one_number 2 (uporttable st) m /\ all_named (uporttable st);
  rep_dn : rep_numbers the_number one_number 3 (dnaddrtable st) m /\ all_named (dnaddrtable st);
  rep_sap : rep_numbers the_number one_number 4 (ipxsaptable st) m /\ all_named (ipxsaptable st);
  rep_ip6 : represents (bytes_of 16) h6_hash (fun k a => bool_decide (a = k)) id 5 (h6nametable st) m /\ all_named (h6nametable st);
  rep_ether : represents (bytes_of 6) (fun k => pairs_hash (pairs6 k)) (fun k n => same_pairs n (pairs6 k)) pairs6 6 (enametable st) m;
  rep_nsap : represents nsap_ok (fun k => pairs_hash (nsap_pairs k)) nsap_hit nsap_new 7 (nsaptable st) m;
  rep_bytes : represents (fun _ => True) (fun k => pairs_hash (bs_pairs k)) bs_hit bs_new 8 (bytestringtable st) m }.

(** The other tables keep their names. *)
Ltac other_tables :=
  repeat match goal with
  | |- names_rep _ _ => constructor; cbn
  | |- _ /\ _ => split
  | |- rep_numbers _ _ _ _ _ => apply represents_other; [lia|assumption]
  | |- represents _ _ _ _ _ _ _ => apply represents_other; [lia|assumption]
  end; try assumption.

(** What can be asked for. *)
Inductive request :=
  | RqIp (ap : list Z) | RqIp6 (ap : list Z) | RqEther (ep : list Z) | RqLink (ep : list Z) (type : linkaddr) (q922 : string)
  | RqLe64 (ep : list Z) | RqNsap (nsap : list Z) | RqTcp (port : Z) | RqUdp (port : Z) | RqSap (port : Z) | RqDn (dnaddr : Z).

Definition request_ok (rq : request) : Prop :=
  match rq with
  | RqIp ap => bytes_of 4 ap
  | RqIp6 ap => bytes_of 16 ap
  | RqEther ep => bytes_of 6 ep
  | RqLink ep _ _ => bytes_ok ep = true
  | _ => True
  end.

Section Requests.
Context `{Resolver} (opts : name_options).

Definition answer_name (st : names) (rq : request) : option (names * string) :=
  match rq with
  | RqIp ap => ipaddr_string opts st ap
  | RqIp6 ap => ip6addr_string opts st ap
  | RqEther ep => etheraddr_string opts st ep
  | RqLink ep type q922 => linkaddr_string opts st ep type q922
  | RqLe64 ep => le64addr_string st ep
  | RqNsap nsap => isonsap_string st nsap
  | RqTcp port => tcpport_string st port
  | RqUdp port => udpport_string st port
  | RqSap port => ipxsap_string st port
  | RqDn dnaddr => dnaddr_string opts st dnaddr
  end.

Fixpoint answer_names (st : names) (rqs : list request) : option (names * list string) :=
  match rqs with
  | [] => Some (st, [])
  | rq :: rqs' => '(st1, n) ← answer_name st rq; '(st2, ns) ← answer_names st1 rqs'; Some (st2, n :: ns)
  end.

(** The key of a request and the text of a name that is not there yet; [inr] is an answer
    that uses no table. *)
Definition request_key (st : names) (rq : request) : (nat * list Z) * string + string :=
  match rq with
  | RqIp ap => inl ((0%nat, ap), ip_text opts st ap)
  | RqIp6 ap => inl ((5%nat, ap), default EmptyString (ip6_text opts ap))
  | RqEther ep => inl ((6%nat, ep), ether_text opts ep)
  | RqLink ep type q922 =>
      if (length ep =? 0)%nat then inr "<empty>"%string
      else match type with
           | LINKADDR_FRELAY => inr q922
           | LINKADDR_ETHER => if (length ep =? 6)%nat then inl ((6%nat, ep), ether_text opts ep) else inl ((8%nat, ep), colon_bytes ep)
           | _ => inl ((8%nat, ep), colon_bytes ep)
           end
  | RqLe64 ep => inl ((8%nat, ep), colon_bytes (reverse ep))
  | RqNsap nsap =>
      let n := Z.of_nat (length nsap) in
      if (n <? 1) || (n >? ISONSAP_MAX_LENGTH) then inr "isonsap_string: illegal length"%string else inl ((7%nat, nsap), nsap_text 0 nsap)
  | RqTcp port => inl ((1%nat, [port]), port_text port)
  | RqUdp port => inl ((2%nat, [port]), port_text port)
  | RqSap port => inl ((4%nat, [port]), ipxsap_text port)
  | RqDn dnaddr => inl ((3%nat, [dnaddr]), if ndo_nflag opts then dnnum_string dnaddr else dnname_string dnaddr)
  end.

(** The name the map has, or else the text, which the map has from then on. *)
Definition spec_name (st : names) (m : name_map) (rq : request) : name_map * string :=
  match request_key st rq with
  | inl (k, fresh) => let n := default fresh (m !! k) in (<[k := n]> m, n)
  | inr n => (m, n)
  end.
Fixpoint spec_names (st : names) (m : name_map) (rqs : list request) : name_map * list string :=
  match rqs with
  | [] => (m, [])
  | rq :: rqs' => let r := spec_name st m rq in let rs := spec_names st r.1 rqs' in (rs.1, r.2 :: rs.2)
  end.

(** A number in the table it is asked for. *)
Ltac number_case tag p text Hr Hnamed :=
  let t := fresh "t" in let Ht := fresh "Ht" in
  destruct (cached_refines _ _ _ _ (hit_number the_number _ the_number_inj) (fun k => name_hash_lt _) tag _ _ [p] text eq_refl Hr Hnamed) as (t & Ht & ? & ?);
  unfold the_number in Ht; cbn [nth] in Ht; eexists;
  unfold tcpport_string, udpport_string, ipxsap_string, dnaddr_string, cached_hname; rewrite Ht; (split; [done|]); other_tables; done.

Lemma answer_name_refines st m rq : request_ok rq -> names_rep st m ->
  exists st', answer_name st rq = Some (st', (spec_name st m rq).2) /\ names_rep st' (spec_name st m rq).1 /\
    f_netmask st' = f_netmask st /\ f_localnet st' = f_localnet st.
Proof.
  intros Hok [[Hip Hip'] [Htcp Htcp'] [Hudp Hudp'] [Hdn Hdn'] [Hsap Hsap'] [H6 H6'] He Hn Hb].
  assert (Hether : forall ep, bytes_of 6 ep -> exists st', etheraddr_string opts st ep = Some (st', (spec_name st m (RqEther ep)).2) /\
    names_rep st' (spec_name st m (RqEther ep)).1 /\ f_netmask st' = f_netmask st /\ f_localnet st' = f_localnet st).
  { intros ep Hep. destruct (name_node_refines _ _ _ _ hit_ether (fun k => pairs_hash_lt _) 6 _ m ep (ether_text opts ep) Hep He) as (t & Ht & Hr).
    eexists. unfold etheraddr_string, lookup_emem. cbv zeta. rewrite Ht. split; [done|]. other_tables; done. }
  assert (Hbytes : forall ep text, exists t, name_node (lookup_bytestring (bytestringtable st) ep) text = Some (t, default text (m !! (8%nat, ep))) /\
    names_rep (with_bytestrings st t) (<[(8%nat, ep) := default text (m !! (8%nat, ep))]> m)).
  { intros ep text. destruct (name_node_refines _ _ _ _ hit_bytes (fun k => pairs_hash_lt _) 8 _ m ep text I Hb) as (t & Ht & Hr).
    exists t. split; [exact Ht|]. other_tables; done. }
  destruct rq as [ap|ap|ep|ep ty q|ep|nsap|p|p|p|p]; cbn [request_ok answer_name] in *.
  - destruct (cached_refines _ _ _ _ (hit_number ip_number _ ip_number_inj) (fun k => name_hash_lt _) 0 _ m ap (ip_text opts st ap) Hok Hip Hip') as (t & Ht & Hr & Hr').
    eexists. unfold ipaddr_string, cached_hname. rewrite Ht. split; [done|]. other_tables; done.
  - assert (Hx : exists x, ip6_text opts ap = Some x).
    { unfold ip6_text. case_match; [by eexists|]. destruct Hok as [Hl Hbo]. destruct (addrtostr6_total ap) as (x & Hx & _); [done|lia|]. by exists x. }
    destruct Hx as [x Hx]. destruct (cached_refines _ _ _ _ hit_h6 h6_hash_lt 5 _ m ap x Hok H6 H6') as (t & Ht & Hr & Hr').
    eexists. unfold ip6addr_string, cached_h6name, spec_name. cbn [request_key]. rewrite Hx. cbn [mbind option_bind default]. unfold id in Ht. rewrite Ht. split; [done|]. other_tables; done.
  - by apply Hether.
  - unfold linkaddr_string, spec_name. cbn [request_key]. destruct (Nat.eqb_spec (length ep) 0); [exists st; split_and!; done|].
    destruct ty; [|exists st; split_and!; done|..]; try (destruct (Hbytes ep (colon_bytes ep)) as (t & -> & Hr); eexists; split; [done|]; split_and!; done).
    unfold MAC_ADDR_LEN. destruct (Nat.eqb_spec (length ep) 6) as [E|E].
    + rewrite (proj2 (Z.eqb_eq _ _)) by lia. by apply Hether.
    + rewrite (proj2 (Z.eqb_neq _ _)) by lia. destruct (Hbytes ep (colon_bytes ep)) as (t & -> & Hr). eexists. split; [done|]. split_and!; done.
  - destruct (Hbytes ep (colon_bytes (reverse ep))) as (t & Ht & Hr). unfold le64addr_string. rewrite Ht. eexists. split; [done|]. split_and!; done.
  - unfold isonsap_string, spec_name. cbn [request_key]. destruct (_ || _) eqn:E; [exists st; split_and!; done|]. bool_to_prop.
    destruct (name_node_refines _ _ _ _ hit_nsap (fun k => pairs_hash_lt _) 7 _ m nsap (nsap_text 0 nsap) ltac:(unfold nsap_ok; lia) Hn) as (t & Ht & Hr).
    eexists. unfold lookup_nsap. rewrite Ht. split; [done|]. other_tables; done.
  - number_case 1%nat p (port_text p) Htcp Htcp'.
  - number_case 2%nat p (port_text p) Hudp Hudp'.
  - number_case 4%nat p (ipxsap_text p) Hsap Hsap'.
  - number_case 3%nat p (if ndo_nflag opts then dnnum_string p else dnname_string p) Hdn Hdn'.
Qed.

(** The tables do not change what a name is made from. *)
Lemma request_key_masks st st' rq : f_netmask st' = f_netmask st -> f_localnet st' = f_localnet st -> request_key st' rq = request_key st rq.
Proof. intros H1 H2. destruct rq; try done. unfold request_key, ip_text. by rewrite H1, H2. Qed.

Lemma spec_names_masks st st' m rqs : f_netmask st' = f_netmask st -> f_localnet st' = f_localnet st -> spec_names st' m rqs = spec_names st m rqs.
Proof.
  intros H1 H2. revert m. induction rqs as [|rq rqs IH]; intros m; [done|]. cbn. rewrite IH. unfold spec_name. by rewrite (request_key_masks st st').
Qed.

Lemma answer_names_refines rqs : forall st m, Forall request_ok rqs -> names_rep st m ->
  exists st', answer_names st rqs = Some (st', (spec_names st m rqs).2) /\ names_rep st' (spec_names st m rqs).1.
Proof.
  induction rqs as [|rq rqs IH]; intros st m Hok Hr; [by exists st|]. apply Forall_cons in Hok as [Hrq Hok]. cbn.
  destruct (answer_name_refines st m rq Hrq Hr) as (st1 & -> & Hr1 & Hm & Hl). cbn. destruct (IH st1 _ Hok Hr1) as (st2 & -> & Hr2).
  rewrite (spec_names_masks st st1) in * by done. by exists st2.
Qed.

(** Two requests for one name would make the same text, unless one of them reverses it. *)
Definition forward (rq : request) : Prop := match rq with RqLe64 _ => False | _ => True end.

Lemma request_key_text st rq rq' k f f' : forward rq -> forward rq' -> request_key st rq = inl (k, f) -> request_key st rq' = inl (k, f') -> f = f'.
Proof.
  intros Hf Hf'. destruct rq, rq'; try done; cbn [request_key]; repeat case_match; intros; simplify_eq; done.
Qed.

(** Every name is the text made for it. *)
Definition honest (st : names) (m : name_map) : Prop :=
  forall rq k f n, forward rq -> request_key st rq = inl (k, f) -> m !! k = Some n -> n = f.

Definition request_text (st : names) (rq : request) : string := match request_key st rq with inl (_, f) => f | inr n => n end.

Lemma spec_names_honest st rqs : forall m, Forall forward rqs -> honest st m -> (spec_names st m rqs).2 = request_text st <$> rqs.
Proof.
  induction rqs as [|rq rqs IH]; intros m Hf Hm; [done|]. apply Forall_cons in Hf as [Hrq Hf]. cbn. unfold request_text at 1, spec_name.
  destruct (request_key st rq) as [[k f]|n] eqn:E; cbn [fst snd]; [|f_equal; by apply IH].
  assert (Hn : default f (m !! k) = f) by (destruct (m !! k) eqn:E'; cbn; [by eapply Hm|done]). rewrite Hn. f_equal. apply IH; [done|].
  intros rq' k' f' n Hrq' Hk'. destruct (decide (k' = k)) as [->|Hne]; [|rewrite lookup_insert_ne by done; by eapply Hm].
  rewrite lookup_insert_eq. intros [= <-]. by eapply (request_key_text st rq rq').
Qed.
End Requests.

Lemma start_names_rep : names_rep start_names ∅.
Proof.
  constructor; cbn; lazymatch goal with |- _ /\ all_named _ => apply represents_empty | _ => apply (proj1 (represents_empty _ _ _ _ _)) end.
Qed.

(** ** The names of services *)

(** The first service of a protocol at a port. *)
Definition service_name (proto : string) (port : Z) (l : list (Z * string * string)) : option string :=
  head (omap (fun '(p, pr, n) => if bool_decide (pr = proto) && (p =? port) then Some n else None) l).

Section Services.
Context `{Resolver} (opts : name_options) (Hn : ndo_nflag opts = false).

(** The tables of ports after some services, the other tables as before. *)
Definition services_rep (l : list (Z * string * string)) (st0 st : names) : Prop :=
  exists m, names_rep st m /\ protoidtable st = protoidtable st0 /\
    forall port, m !! (1%nat, [port]) = service_name "tcp" port l /\ m !! (2%nat, [port]) = service_name "udp" port l.

Lemma service_name_snoc proto port l p pr n : service_name proto port (l ++ [(p, pr, n)]) =
  match service_name proto port l with Some x => Some x | None => if bool_decide (pr = proto) && (p =? port) then Some n else None end.
Proof.
  unfold service_name. rewrite omap_app. destruct (omap _ l) as [|x r]; cbn; [by case_match|done].
Qed.

Lemma init_servarray_rep st0 : services_rep [] st0 st0 -> services_rep getservent st0 (init_servarray opts st0).
Proof.
  intros H0. unfold init_servarray. generalize (getservent) as l. intros l. induction l as [|[[p pr] n] l IH] using rev_ind; [exact H0|].
  rewrite foldl_snoc. set (st := foldl _ _ _) in *. destruct IH as (m & [[Hip Hip'] [Htcp Htcp'] [Hudp Hudp'] [Hdn Hdn'] [Hsap Hsap'] [H6 H6'] He Hns Hb] & Hpi & Hm). rewrite Hn. cbv zeta.
  destruct (bool_decide_reflect (pr = "tcp"%string)) as [->|Ht]; cbn [negb andb]; [|destruct (bool_decide_reflect (pr = "udp"%string)) as [->|Hu]].
  - destruct (preset_refines _ _ _ _ (hit_number the_number _ the_number_inj) (fun k => name_hash_lt _) 1 _ m [p] n eq_refl Htcp Htcp') as [Hr Hr'].
    exists (<[(1%nat, [p]) := default n (m !! (1%nat, [p]))]> m). split_and!; [other_tables; done|done|].
    intros port. destruct (Hm port) as [Hm1 Hm2]. rewrite !service_name_snoc. rewrite (lookup_insert_ne _ _ (2%nat, [port])) by congruence. rewrite Hm2. cbn [bool_decide].
    split; [|by destruct (service_name "udp" port l)]. destruct (Z.eqb_spec p port) as [->|Hne].
    + rewrite lookup_insert_eq, Hm1. by destruct (service_name "tcp" port l).
    + rewrite lookup_insert_ne, Hm1 by congruence. by destruct (service_name "tcp" port l).
  - destruct (preset_refines _ _ _ _ (hit_number the_number _ the_number_inj) (fun k => name_hash_lt _) 2 _ m [p] n eq_refl Hudp Hudp') as [Hr Hr'].
    exists (<[(2%nat, [p]) := default n (m !! (2%nat, [p]))]> m). split_and!; [other_tables; done|done|].
    intros port. destruct (Hm port) as [Hm1 Hm2]. rewrite !service_name_snoc. rewrite (lookup_insert_ne _ _ (1%nat, [port])) by congruence. rewrite Hm1. cbn [bool_decide].
    split; [by destruct (service_name "tcp" port l)|]. destruct (Z.eqb_spec p port) as [->|Hne].
    + rewrite lookup_insert_eq, Hm2. by destruct (service_name "udp" port l).
    + rewrite lookup_insert_ne, Hm2 by congruence. by destruct (service_name "udp" port l).
  - exists m. split_and!; [by constructor|done|]. intros port. destruct (Hm port) as [Hm1 Hm2]. rewrite !service_name_snoc, Hm1, Hm2.
    rewrite !bool_decide_false by done. cbn. by destruct (service_name "tcp" port l), (service_name "udp" port l).
Qed.

(** Ports are not named by the other tables. *)
Definition same_ports (m m' : name_map) : Prop := forall port, m' !! (1%nat, [port]) = m !! (1%nat, [port]) /\ m' !! (2%nat, [port]) = m !! (2%nat, [port]).

Lemma init_etherarray_rep st m : names_rep st m ->
  exists st' m', init_etherarray st = Some st' /\ names_rep st' m' /\ same_ports m m' /\ protoidtable st' = protoidtable st.
Proof.
  intros [[Hip Hip'] [Htcp Htcp'] [Hudp Hudp'] [Hdn Hdn'] [Hsap Hsap'] [H6 H6'] He Hns Hb]. set (ep := [0xff; 0xff; 0xff; 0xff; 0xff; 0xff]).
  set (name := default "Broadcast"%string (ether_ntohost ep)).
  destruct (name_node_refines _ _ _ _ hit_ether (fun k => pairs_hash_lt _) 6 _ m ep name (conj eq_refl eq_refl) He) as (t & Ht & Hr).
  exists (with_enames st t), (<[(6%nat, ep) := default name (m !! (6%nat, ep))]> m). unfold init_etherarray, etherlist. cbn [foldl mbind option_bind].
  unfold lookup_emem. cbv zeta. fold ep name. rewrite Ht. split_and!; [done|other_tables; done| |done].
  intros port. by rewrite !lookup_insert_ne by congruence.
Qed.

Lemma init_ipxsaparray_rep st m : names_rep st m -> exists m', names_rep (init_ipxsaparray st) m' /\ same_ports m m'.
Proof.
  intros [[Hip Hip'] [Htcp Htcp'] [Hudp Hudp'] [Hdn Hdn'] [Hsap Hsap'] [H6 H6'] He Hns Hb]. unfold init_ipxsaparray. generalize ipxsap_db as l. intros l.
  induction l as [|[v nm] l IH] using rev_ind; [by exists m|]. rewrite foldl_snoc. destruct IH as (m' & [? ? ? ? [Hs Hs'] ? ? ? ?] & Hp). cbn in * |-.
  destruct (preset_refines _ _ _ _ (hit_number the_number _ the_number_inj) (fun k => name_hash_lt _) 4 _ m' [swap16 v] nm eq_refl Hs Hs') as [Hr Hr'].
  exists (<[(4%nat, [swap16 v]) := default nm (m' !! (4%nat, [swap16 v]))]> m'). split.
  - destruct_and!. other_tables; done.
  - intros port. rewrite !lookup_insert_ne by congruence. apply Hp.
Qed.

Lemma init_protoidarray_total st m : protoidtable st = empty_names -> names_rep st m ->
  exists st', init_protoidarray st = Some st' /\ names_rep st' m.
Proof.
  intros Hp [? ? ? ? ? ? ? ? ?]. unfold init_protoidarray. rewrite Hp.
  assert (Hf : is_Some (t ← foldl (fun o '(s, p) => t ← o; '(t, at_) ← lookup_protoid t ([0; 0; 0] ++ be_bytes 2 p); Some (set_name t at_ s)) (Some empty_names) eproto_db;
    foldl (fun o '(pi, s) => t ← o; '(t, _) ← name_node (lookup_protoid t pi) s; Some t) (Some t) protoidlist)) by (vm_compute; by eexists).
  destruct (foldl _ (Some empty_names) eproto_db) as [t1|]; [|by destruct Hf]. cbn [mbind option_bind] in *.
  destruct (foldl _ (Some t1) protoidlist) as [t2|]; [|by destruct Hf]. eexists. split; [done|]. by constructor.
Qed.

Lemma init_addrtoname_rep localnet mask :
  exists st m, init_addrtoname opts start_names localnet mask = Some st /\ names_rep st m /\
    forall port, m !! (1%nat, [port]) = service_name "tcp" port getservent /\ m !! (2%nat, [port]) = service_name "udp" port getservent.
Proof.
  unfold init_addrtoname. rewrite Hn. cbv zeta. set (st0 := mk_names _ _ _ _ _ _ _ _ _ _ _ _ _).
  assert (Hr0 : names_rep st0 ∅) by (destruct start_names_rep; by constructor).
  destruct (init_etherarray_rep st0 ∅ Hr0) as (st1 & m1 & -> & Hr1 & Hp1 & Hi1). cbn [mbind option_bind].
  destruct (init_servarray_rep st1) as (m2 & Hr2 & Hi2 & Hm2).
  { exists m1. split_and!; [done|done|]. intros port. destruct (Hp1 port) as [-> ->]. by rewrite !lookup_empty. }
  set (st2 := init_servarray opts st1) in *. assert (Hr3 : names_rep (init_eprotoarray st2) m2) by (destruct Hr2; by constructor).
  destruct (init_protoidarray_total (init_eprotoarray st2) m2) as (st4 & -> & Hr4); [change (protoidtable st2 = empty_names); by rewrite Hi2, Hi1|done|]. cbn [mbind option_bind].
  destruct (init_ipxsaparray_rep st4 m2 Hr4) as (m5 & Hr5 & Hp5). eexists _, m5. split_and!; [done|done|].
  intros port. destruct (Hp5 port) as [-> ->]. apply Hm2.
Qed.
End Services.

(** ** Claims *)

(** C25. Whatever sequence of addresses and ports is printed, with the tables empty at the start, each is
    given the text made from it alone, however often and in whatever order the tables were
    asked before: the caches cannot be told from no caches. The one exception is an
    EUI-64 address in little-endian order: [le64addr_string] shares its table with
    [linkaddr_string], and the first of them to see eight bytes names them for both. *)
Theorem names_cached `{Resolver} opts rqs :
  Forall request_ok rqs -> Forall forward rqs ->
  (exists st', answer_names opts start_names rqs = Some (st', request_text opts start_names <$> rqs)) /\
  exists st', answer_names opts start_names [RqLink [1; 2; 3; 4; 5; 6; 7; 8] LINKADDR_OTHER ""; RqLe64 [1; 2; 3; 4; 5; 6; 7; 8]] =
    Some (st', ["01:02:03:04:05:06:07:08"%string; "01:02:03:04:05:06:07:08"%string]).
Proof.
  intros Hok Hf. split.
  - destruct (answer_names_refines opts rqs start_names ∅ Hok start_names_rep) as (st' & Hrun & _). exists st'.
    rewrite Hrun, spec_names_honest; [done|done|]. intros rq k f n _ _. by rewrite lookup_empty.
  - eexists. vm_compute. reflexivity.
Qed.

(** After [init_addrtoname] a TCP or UDP port is printed with the name of the first service
    [getservent] lists for it, and with its number when there is none. *)
Theorem services_named `{Resolver} opts localnet mask :
  ndo_nflag opts = false ->
  exists st, init_addrtoname opts start_names localnet mask = Some st /\
    forall port, exists st1 st2, tcpport_string st port = Some (st1, default (port_text port) (service_name "tcp" port getservent)) /\
      udpport_string st port = Some (st2, default (port_text port) (service_name "udp" port getservent)).
Proof.
  intros Hn. destruct (init_addrtoname_rep opts Hn localnet mask) as (st & m & Hi & Hr & Hm). exists st. split; [done|]. intros port.
  destruct (answer_name_refines opts st m (RqTcp port) I Hr) as (st1 & Ht & _). destruct (answer_name_refines opts st m (RqUdp port) I Hr) as (st2 & Hu & _).
  exists st1, st2. destruct (Hm port) as [H1 H2]. cbn [answer_name] in *. unfold spec_name in *. cbn in Ht, Hu. by rewrite Ht, Hu, H1, H2.
Qed.

(** A resolver that knows one host. *)
#[export] Instance sample_resolver : Resolver := {|
  gethostbyaddr a := if decide (a = [10; 0; 0; 1]) then Some "gw.example"%string else None;
  ether_ntohost _ := None; getservent := [(53, "tcp", "domain"); (53, "udp", "domain"); (80, "tcp", "http")]%string;
  dnnum_string := dec; dnname_string := dec |}.

Lemma names_cached_witness :
  exists st', answer_names (mk_nopts false true false) start_names
    [RqIp [10; 0; 0; 1]; RqEther [0; 0; 12; 7; 172; 1]; RqTcp 80; RqIp [10; 0; 0; 2]; RqIp [10; 0; 0; 1]; RqNsap [73; 0; 1; 2]; RqLink [0; 0; 12; 7; 172; 1] LINKADDR_ETHER ""] =
    Some (st', ["gw"; "00:00:0c:07:ac:01 (oui Cisco)"; "80"; "10.0.0.2"; "gw"; "49.0001.02"; "00:00:0c:07:ac:01 (oui Cisco)"]%string).
Proof.
  destruct (names_cached (mk_nopts false true false)
    [RqIp [10; 0; 0; 1]; RqEther [0; 0; 12; 7; 172; 1]; RqTcp 80; RqIp [10; 0; 0; 2]; RqIp [10; 0; 0; 1]; RqNsap [73; 0; 1; 2]; RqLink [0; 0; 12; 7; 172; 1] LINKADDR_ETHER ""])
    as [(st' & Hrun) _].
  - repeat (apply Forall_cons; split; [repeat split|]). done.
  - repeat (apply Forall_cons; split; [exact I|]). done.
  - exists st'. rewrite Hrun. vm_compute. reflexivity.
Defined.
