(* ===== verification/PrintArp.v ===== *)
(** * The ARP printer of tcpdump

    Models [tcpdump/print-arp.c], with [parse_q922_header] and [q922_string] of
    [tcpdump/print-fr.c], which it calls for Frame Relay, and the table of Ethernet types of
    [tcpdump/print-ether.c] and [tcpdump/ethertype.h]. The name of a hardware address is the text
    [AddrToName] makes for it. *)
From stdpp Require Import base list numbers strings.
From Stdlib Require Import ZArith Lia Ascii.
From S2P Require Import Prelude Cstring Netdissect UtilPrint PrintAscii AddrToName PrintIp.

Open Scope Z_scope.

(** ** Ethernet types *)

Definition ETHERTYPE_GRE_ISO : Z := 0x00FE.
Definition ETHERTYPE_PUP : Z := 0x0200.
Definition ETHERTYPE_SPRITE : Z := 0x0500.
Definition ETHERTYPE_NS : Z := 0x0600.
Definition ETHERTYPE_GEONET_OLD : Z := 0x0707.
Definition ETHERTYPE_IP : Z := 0x0800.
Definition ETHERTYPE_ARP : Z := 0x0806.
Definition ETHERTYPE_TRAIL : Z := 0x1000.
Definition ETHERTYPE_CALM_FAST : Z := 0x1111.
Definition ETHERTYPE_PPPOED2 : Z := 0x3c12.
Definition ETHERTYPE_PPPOES2 : Z := 0x3c13.
Definition ETHERTYPE_MOPDL : Z := 0x6001.
Definition ETHERTYPE_MOPRC : Z := 0x6002.
Definition ETHERTYPE_DN : Z := 0x6003.
Definition ETHERTYPE_LAT : Z := 0x6004.
Definition ETHERTYPE_SCA : Z := 0x6007.
Definition ETHERTYPE_TEB : Z := 0x6558.
Definition ETHERTYPE_REVARP : Z := 0x8035.
Definition ETHERTYPE_LANBRIDGE : Z := 0x8038.
Definition ETHERTYPE_DECDNS : Z := 0x803c.
Definition ETHERTYPE_DECDTS : Z := 0x803e.
Definition ETHERTYPE_VEXP : Z := 0x805b.
Definition ETHERTYPE_VPROD : Z := 0x805c.
Definition ETHERTYPE_ATALK : Z := 0x809b.
Definition ETHERTYPE_AARP : Z := 0x80f3.
Definition ETHERTYPE_8021Q : Z := 0x8100.
Definition ETHERTYPE_IPX : Z := 0x8137.
Definition ETHERTYPE_IPV6 : Z := 0x86dd.
Definition ETHERTYPE_MPCP : Z := 0x8808.
Definition ETHERTYPE_SLOW : Z := 0x8809.
Definition ETHERTYPE_PPP : Z := 0x880b.
Definition ETHERTYPE_MPLS : Z := 0x8847.
Definition ETHERTYPE_MPLS_MULTI : Z := 0x8848.
Definition ETHERTYPE_PPPOED : Z := 0x8863.
Definition ETHERTYPE_PPPOES : Z := 0x8864.
Definition ETHERTYPE_MS_NLB_HB : Z := 0x886f.
Definition ETHERTYPE_JUMBO : Z := 0x8870.
Definition ETHERTYPE_EAPOL : Z := 0x888e.
Definition ETHERTYPE_RRCP : Z := 0x8899.
Definition ETHERTYPE_AOE : Z := 0x88a2.
Definition ETHERTYPE_8021QinQ : Z := 0x88a8.
Definition ETHERTYPE_TIPC : Z := 0x88ca.
Definition ETHERTYPE_LLDP : Z := 0x88cc.
Definition ETHERTYPE_CFM : Z := 0x8902.
Definition ETHERTYPE_IEEE1905_1 : Z := 0x893a.
Definition ETHERTYPE_GEONET : Z := 0x8947.
Definition ETHERTYPE_NSH : Z := 0x894F.
Definition ETHERTYPE_LOOPBACK : Z := 0x9000.
Definition ETHERTYPE_8021Q9100 : Z := 0x9100.
Definition ETHERTYPE_VMAN : Z := 0x9100.
Definition ETHERTYPE_8021Q9200 : Z := 0x9200.
Definition ETHERTYPE_CFM_OLD : Z := 0xabcd.
Definition ETHERTYPE_MEDSA : Z := 0xdada.
Definition ETHERTYPE_ISO : Z := 0xfefe.

Definition ethertype_values : list tok :=
  [(ETHERTYPE_IP, "IPv4"%string); (ETHERTYPE_MPLS, "MPLS unicast"%string); (ETHERTYPE_MPLS_MULTI, "MPLS multicast"%string);
   (ETHERTYPE_IPV6, "IPv6"%string); (ETHERTYPE_8021Q, "802.1Q"%string); (ETHERTYPE_8021Q9100, "802.1Q-9100"%string);
   (ETHERTYPE_8021QinQ, "802.1Q-QinQ"%string); (ETHERTYPE_8021Q9200, "802.1Q-9200"%string); (ETHERTYPE_VMAN, "VMAN"%string);
   (ETHERTYPE_PUP, "PUP"%string); (ETHERTYPE_ARP, "ARP"%string); (ETHERTYPE_REVARP, "Reverse ARP"%string); (ETHERTYPE_NS, "NS"%string);
   (ETHERTYPE_SPRITE, "Sprite"%string); (ETHERTYPE_TRAIL, "Trail"%string); (ETHERTYPE_MOPDL, "MOP DL"%string); (ETHERTYPE_MOPRC, "MOP RC"%string);
   (ETHERTYPE_DN, "DN"%string); (ETHERTYPE_LAT, "LAT"%string); (ETHERTYPE_SCA, "SCA"%string); (ETHERTYPE_TEB, "TEB"%string);
   (ETHERTYPE_LANBRIDGE, "Lanbridge"%string); (ETHERTYPE_DECDNS, "DEC DNS"%string); (ETHERTYPE_DECDTS, "DEC DTS"%string);
   (ETHERTYPE_VEXP, "VEXP"%string); (ETHERTYPE_VPROD, "VPROD"%string); (ETHERTYPE_ATALK, "Appletalk"%string);
   (ETHERTYPE_AARP, "Appletalk ARP"%string); (ETHERTYPE_IPX, "IPX"%string); (ETHERTYPE_PPP, "PPP"%string); (ETHERTYPE_MPCP, "MPCP"%string);
   (ETHERTYPE_SLOW, "Slow Protocols"%string); (ETHERTYPE_PPPOED, "PPPoE D"%string); (ETHERTYPE_PPPOES, "PPPoE S"%string);
   (ETHERTYPE_EAPOL, "EAPOL"%string); (ETHERTYPE_RRCP, "RRCP"%string); (ETHERTYPE_MS_NLB_HB, "MS NLB heartbeat"%string);
   (ETHERTYPE_JUMBO, "Jumbo"%string); (ETHERTYPE_NSH, "NSH"%string); (ETHERTYPE_LOOPBACK, "Loopback"%string); (ETHERTYPE_ISO, "OSI"%string);
   (ETHERTYPE_GRE_ISO, "GRE-OSI"%string); (ETHERTYPE_CFM_OLD, "CFM (old)"%string); (ETHERTYPE_CFM, "CFM"%string);
   (ETHERTYPE_IEEE1905_1, "IEEE1905.1"%string); (ETHERTYPE_LLDP, "LLDP"%string); (ETHERTYPE_TIPC, "TIPC"%string);
   (ETHERTYPE_GEONET_OLD, "GeoNet (old)"%string); (ETHERTYPE_GEONET, "GeoNet"%string); (ETHERTYPE_CALM_FAST, "CALM FAST"%string);
   (ETHERTYPE_AOE, "AoE"%string); (ETHERTYPE_MEDSA, "MEDSA"%string)].

(** ** Constants *)

Definition ARPHRD_ETHER : Z := 1.
Definition ARPHRD_IEEE802 : Z := 6.
Definition ARPHRD_ARCNET : Z := 7.
Definition ARPHRD_FRELAY : Z := 15.
Definition ARPHRD_ATM2225 : Z := 19.
Definition ARPHRD_STRIP : Z := 23.
Definition ARPHRD_IEEE1394 : Z := 24.
Definition ARPOP_REQUEST : Z := 1.
Definition ARPOP_REPLY : Z := 2.
Definition ARPOP_REVREQUEST : Z := 3.
Definition ARPOP_REVREPLY : Z := 4.
Definition ARPOP_INVREQUEST : Z := 8.
Definition ARPOP_INVREPLY : Z := 9.
Definition ARPOP_NAK : Z := 10.
Definition ATMARP_LEN_MASK : Z := 0x3F.
Definition sizeof_arp_pkthdr : Z := 8.
Definition sizeof_atmarp_pkthdr : Z := 12.

Definition arpop_values : list tok :=
  [(ARPOP_REQUEST, "Request"%string); (ARPOP_REPLY, "Reply"%string); (ARPOP_REVREQUEST, "Reverse Request"%string);
   (ARPOP_REVREPLY, "Reverse Reply"%string); (ARPOP_INVREQUEST, "Inverse Request"%string); (ARPOP_INVREPLY, "Inverse Reply"%string);
   (ARPOP_NAK, "NACK Reply"%string)].

Definition arphrd_values : list tok :=
  [(ARPHRD_ETHER, "Ethernet"%string); (ARPHRD_IEEE802, "TokenRing"%string); (ARPHRD_ARCNET, "ArcNet"%string); (ARPHRD_FRELAY, "FrameRelay"%string);
   (ARPHRD_STRIP, "Strip"%string); (ARPHRD_IEEE1394, "IEEE 1394"%string); (ARPHRD_ATM2225, "ATM"%string)].

(** [ndo_default_print] of [print.c]. *)
Definition dump_ident : string := String (chr 10) (String (chr 9) EmptyString).
Definition ND_DEFAULTPRINT (p length : Z) : pr unit := hex_and_ascii_print dump_ident p length.

(** ** Frame Relay addresses *)

Definition FR_EA_BIT : Z := 1.

(** The DLCI of an address that was parsed to its end; [None] for an invalid or truncated
    one. [length] is an [u_int]. *)
Definition parse_q922_header (p length : Z) : pr (option Z) :=
  let byte (p length : Z) (k : Z -> pr (option Z)) : pr (option Z) :=
    t <~ ND_TTEST_LEN p 1 ;; if negb t || (length <? 1) then pret None else b <~ EXTRACT_U_1 p ;; k b in
  let ea (b : Z) : bool := negb (Z.land b FR_EA_BIT =? 0) in
  byte p length (fun b0 =>
    if ea b0 then pret None
    else
      t <~ ND_TTEST_LEN (p + 1) 1 ;;
      if negb t || (length <? 2) then pret None
      else
        b1 <~ EXTRACT_U_1 (p + 1) ;;
        let dlci := Z.lor (Z.shiftl (Z.land b0 0xFC) 2) (Z.shiftr (Z.land b1 0xF0) 4) in
        if ea b1 then pret (Some dlci)
        else
          byte (p + 2) (length - 2) (fun b2 =>
            let '(dlci, q, n) := if ea b2 then (dlci, p + 2, length - 2) else (Z.lor (Z.shiftl dlci 7) (Z.shiftr b2 1), p + 3, length - 3) in
            byte q n (fun b3 =>
              if negb (ea b3) then pret None else pret (Some (u32 (Z.lor (Z.shiftl dlci 6) (Z.shiftr b3 2))))))).

Definition q922_string (p length : Z) : pr string :=
  d <~ parse_q922_header p length ;;
  pret (match d with Some dlci => snprintf 16 ("DLCI " +:+ dec dlci) | None => EmptyString end).

Section PrintArp.
Context `{Printers} `{Resolver} (opts : name_options).

(** [linkaddr_string] of [len] bytes at [p]. *)
Definition linkaddr_text (p : Z) (type : linkaddr) (len : Z) : pr string :=
  if len =? 0 then pret "<empty>"%string
  else
    match type with
    | LINKADDR_FRELAY => q922_string p len
    | LINKADDR_ETHER => l <~ load p len ;; pret (if len =? MAC_ADDR_LEN then ether_text opts l else colon_bytes l)
    | _ => l <~ load p len ;; pret (colon_bytes l)
    end.

(** Two addresses of [len] bytes as arguments of one [ND_PRINT]. C leaves the order in which
    they are evaluated open; the usual one of x86 compilers, the last first, is taken. Both
    results of [q922_string] are its one static buffer, which has what was written last. *)
Definition linkaddr_two (p q : Z) (type : linkaddr) (len : Z) : pr (string * string) :=
  b <~ linkaddr_text q type len ;;
  a <~ linkaddr_text p type len ;;
  pret (match type with LINKADDR_FRELAY => (a, a) | _ => (a, b) end).

Fixpoint isnonzero (a : Z) (len : nat) : pr bool :=
  match len with
  | O => pret false
  | S n => b <~ EXTRACT_U_1 a ;; if negb (b =? 0) then pret true else isnonzero (a + 1) n
  end.

(** A protocol address at [p], of the length the header gives it. *)
Definition ip_or_wrong (pro len p : Z) (wrong : string) : pr unit :=
  if negb (pro =? ETHERTYPE_IP) && negb (pro =? ETHERTYPE_TRAIL) then ND_PRINT "<wrong proto type>"
  else if negb (len =? 4) then ND_PRINT wrong
  else n <~ ipaddr_string p ;; ND_PRINT n.

(** ** ATM *)

Definition atmarp_addr_print (ha ha_len srca srca_len : Z) : pr unit :=
  if ha_len =? 0 then ND_PRINT "<No address>"
  else
    a <~ linkaddr_text ha LINKADDR_ATM ha_len ;;
    ND_PRINT a ;~
    if negb (srca_len =? 0) then s <~ linkaddr_text srca LINKADDR_ATM srca_len ;; ND_PRINT ("," +:+ s) else pret tt.

(** Where the addresses of an ATM ARP packet are, and how long. *)
Record atm_layout := mk_atm {
  a_sha : Z; a_shl : Z; a_ssa : Z; a_ssl : Z; a_spa : Z; a_spl : Z; a_tha : Z; a_thl : Z; a_tsa : Z; a_tsl : Z; a_tpa : Z; a_tpl : Z }.

Definition atm_fields (ap : Z) : pr atm_layout :=
  shtl <~ EXTRACT_U_1 (ap + 4) ;;
  sstl <~ EXTRACT_U_1 (ap + 5) ;;
  spl <~ EXTRACT_U_1 (ap + 8) ;;
  thtl <~ EXTRACT_U_1 (ap + 9) ;;
  tstl <~ EXTRACT_U_1 (ap + 10) ;;
  tpl <~ EXTRACT_U_1 (ap + 11) ;;
  let shl := Z.land shtl ATMARP_LEN_MASK in
  let ssl := Z.land sstl ATMARP_LEN_MASK in
  let thl := Z.land thtl ATMARP_LEN_MASK in
  let tsl := Z.land tstl ATMARP_LEN_MASK in
  let sha := ap + sizeof_atmarp_pkthdr in
  let ssa := sha + shl in
  let spa := ssa + ssl in
  let tha := spa + spl in
  let tsa := tha + thl in
  pret (mk_atm sha shl ssa ssl spa spl tha thl tsa tsl (tsa + tsl) tpl).

(** The [switch] on the operation; [false] is the [default:], which returns. *)
Definition atmarp_op (a : atm_layout) (ap pro op caplen : Z) : pr bool :=
  let tpa := ip_or_wrong pro (a_tpl a) (a_tpa a) "<wrong tplen>" in
  let spa := ip_or_wrong pro (a_spl a) (a_spa a) "<wrong splen>" in
  let source := atmarp_addr_print (a_sha a) (a_shl a) (a_ssa a) (a_ssl a) in
  let target := atmarp_addr_print (a_tha a) (a_thl a) (a_tsa a) (a_tsl a) in
  if op =? ARPOP_REQUEST then
    ND_PRINT "who-has " ;~ tpa ;~
    (if negb (a_thl a =? 0) then ND_PRINT " (" ;~ target ;~ ND_PRINT ")" else pret tt) ;~
    ND_PRINT " tell " ;~ spa ;~ pret true
  else if op =? ARPOP_REPLY then spa ;~ ND_PRINT " is-at " ;~ source ;~ pret true
  else if op =? ARPOP_INVREQUEST then ND_PRINT "who-is " ;~ target ;~ ND_PRINT " tell " ;~ source ;~ pret true
  else if op =? ARPOP_INVREPLY then source ;~ ND_PRINT "at " ;~ spa ;~ pret true
  else if op =? ARPOP_NAK then ND_PRINT "for " ;~ spa ;~ pret true
  else ND_DEFAULTPRINT ap caplen ;~ pret false.

Definition unknown_hardware (hrd : Z) : string := tok2str arphrd_values (Some (fun v => "Unknown Hardware (" +:+ dec v +:+ ")")) hrd.
Definition unknown_protocol (pro : Z) : string := tok2str ethertype_values (Some (fun v => "Unknown Protocol (0x" +:+ hex_pad 4 v +:+ ")")) pro.
Definition op_text (vflag op : Z) : string :=
  (if negb (vflag =? 0) then ", " else "") +:+ tok2str arpop_values (Some (fun v => "Unknown (" +:+ dec v +:+ ")")) op +:+ " ".

Definition atmarp_print (bp length caplen : Z) : pr unit :=
  on_trunc (
    ND_TCHECK_LEN bp sizeof_atmarp_pkthdr ;~
    hrd <~ EXTRACT_BE_U_2 bp ;;
    pro <~ EXTRACT_BE_U_2 (bp + 2) ;;
    op <~ EXTRACT_BE_U_2 (bp + 6) ;;
    a <~ atm_fields bp ;;
    t <~ ND_TTEST_LEN (a_tpa a) (a_tpl a) ;;
    if negb t then nd_print_trunc ;~ ND_DEFAULTPRINT bp length
    else
      eflag <~ flag f_eflag ;;
      (if eflag =? 0 then ND_PRINT "ARP, " else pret tt) ;~
      vflag <~ flag f_vflag ;;
      let odd := (negb (pro =? ETHERTYPE_IP) && negb (pro =? ETHERTYPE_TRAIL)) || negb (a_spl a =? 4) || negb (a_tpl a =? 4) in
      (if odd || negb (vflag =? 0) then
         ND_PRINT (unknown_hardware hrd +:+ ", " +:+ unknown_protocol pro +:+ " (len " +:+ dec (a_spl a) +:+ "/" +:+ dec (a_tpl a) +:+ ")")
       else pret tt) ;~
      go_on <~ (if odd && (vflag =? 0) then pret true else ND_PRINT (op_text vflag op) ;~ atmarp_op a bp pro op caplen) ;;
      if (go_on : bool) then ND_PRINT (", length " +:+ dec length) else pret tt)
  nd_print_trunc.

(** ** ARP *)

(** Where the addresses are: behind the header, with lengths [hln] and [pln]. *)
Definition arp_op (ap hln pln pro op : Z) (type : linkaddr) (caplen : Z) : pr bool :=
  let sha := ap + sizeof_arp_pkthdr in
  let spa := sha + hln in
  let tha := spa + pln in
  let tpa := ap + sizeof_arp_pkthdr + 2 * hln + pln in
  let hw (p : Z) := linkaddr_text p type hln in
  let ip (p : Z) := ip_or_wrong pro pln p "<wrong len>" in
  if op =? ARPOP_REQUEST then
    ND_PRINT "who-has " ;~ ip tpa ;~
    nz <~ isnonzero tha (Z.to_nat hln) ;;
    (if (nz : bool) then t <~ hw tha ;; ND_PRINT (" (" +:+ t +:+ ")") else pret tt) ;~
    ND_PRINT " tell " ;~ ip spa ;~ pret true
  else if op =? ARPOP_REPLY then ip spa ;~ s <~ hw sha ;; ND_PRINT (" is-at " +:+ s) ;~ pret true
  else if (op =? ARPOP_REVREQUEST) || (op =? ARPOP_INVREQUEST) then
    r <~ linkaddr_two tha sha type hln ;; ND_PRINT ("who-is " +:+ r.1 +:+ " tell " +:+ r.2) ;~ pret true
  else if op =? ARPOP_REVREPLY then t <~ hw tha ;; ND_PRINT (t +:+ " at ") ;~ ip tpa ;~ pret true
  else if op =? ARPOP_INVREPLY then s <~ hw sha ;; ND_PRINT (s +:+ " at ") ;~ ip spa ;~ pret true
  else ND_DEFAULTPRINT ap caplen ;~ pret false.

Definition arp_print (bp length caplen : Z) : pr unit :=
  set_protocol "arp" ;~
  on_trunc (
    ND_TCHECK_LEN bp sizeof_arp_pkthdr ;~
    hrd <~ EXTRACT_BE_U_2 bp ;;
    pro <~ EXTRACT_BE_U_2 (bp + 2) ;;
    op <~ EXTRACT_BE_U_2 (bp + 6) ;;
    if hrd =? ARPHRD_ATM2225 then atmarp_print bp length caplen
    else
      let type := if hrd =? ARPHRD_FRELAY then LINKADDR_FRELAY else LINKADDR_ETHER in
      hln <~ EXTRACT_U_1 (bp + 4) ;;
      pln <~ EXTRACT_U_1 (bp + 5) ;;
      t <~ ND_TTEST_LEN (bp + sizeof_arp_pkthdr + 2 * hln + pln) pln ;;
      if negb t then nd_print_trunc ;~ ND_DEFAULTPRINT bp length
      else
        eflag <~ flag f_eflag ;;
        (if eflag =? 0 then ND_PRINT "ARP, " else pret tt) ;~
        vflag <~ flag f_vflag ;;
        let odd := (negb (pro =? ETHERTYPE_IP) && negb (pro =? ETHERTYPE_TRAIL)) || negb (pln =? 4) || (hln =? 0) in
        (if odd || negb (vflag =? 0) then
           ND_PRINT (unknown_hardware hrd +:+ " (len " +:+ dec hln +:+ "), " +:+ unknown_protocol pro +:+ " (len " +:+ dec pln +:+ ")")
         else pret tt) ;~
        go_on <~ (if odd && (vflag =? 0) then pret true else ND_PRINT (op_text vflag op) ;~ arp_op bp hln pln pro op type caplen) ;;
        if (go_on : bool) then ND_PRINT (", length " +:+ dec length) else pret tt)
  nd_print_trunc.
End PrintArp.

(** ** Safety *)

Class ResolverLaws `{Resolver} := {
  ether_ntohost_clean l h : ether_ntohost l = Some h -> clean h = true }.

Lemma clean_hex_byte b : 0 <= b < 256 -> clean (hex_byte b) = true.
Proof. revert b. apply byte_cases. by vm_compute. Qed.

Lemma clean_colon_bytes l : bytes_ok l = true -> clean (colon_bytes l) = true.
Proof.
  induction l as [|b [|c l] IH]; [done|..]; rewrite bytes_ok_cons; intros [Hb Hl]; [by apply clean_hex_byte|].
  change (colon_bytes (b :: c :: l)) with (hex_byte b +:+ ":" +:+ colon_bytes (c :: l)). specialize (IH Hl). clean_tac. by apply clean_hex_byte.
Qed.

Lemma clean_ether_text `{ResolverLaws} opts l : bytes_ok l = true -> clean (ether_text opts l) = true.
Proof.
  intros Hb. pose proof (clean_colon_bytes l Hb). unfold ether_text. destruct (ndo_nflag opts); [done|].
  destruct (ether_ntohost l) as [h|] eqn:E; [by eapply ether_ntohost_clean|]. clean_tac. apply clean_substring. clean_tac. by apply clean_tok2str.
Qed.

Section Safety.
Context (s0 : netdissect_options) (Hok : ndo_ok s0).

Lemma safe_default T p n : 0 <= p -> 0 <= n -> safe T s0 (ND_DEFAULTPRINT p n) (fun _ => True).
Proof. intros Hp Hn. by apply safe_hex_and_ascii. Qed.

Lemma safe_q922 T p n : 0 <= p -> safe T s0 (q922_string p n) (fun t => clean t = true).
Proof.
  intros Hp. unfold q922_string. eapply (safe_bind _ _ _ _ (fun _ => True)).
  - unfold parse_q922_header.
    assert (Hbyte : forall p n (k : Z -> pr (option Z)), 0 <= p -> (forall b, safe T s0 (k b) (fun _ => True)) ->
      safe T s0 (t <~ ND_TTEST_LEN p 1 ;; if negb t || (n <? 1) then pret None else b <~ EXTRACT_U_1 p ;; k b) (fun _ => True)).
    { intros q m k Hq Hk. safe_step. destruct a; cbn [negb orb]; [|by safe_step]. safe_step; [by safe_step|].
      match goal with H : true = true -> _ |- _ => specialize (H eq_refl) end. safe_step. apply Hk. }
    cbv zeta. apply Hbyte; [done|]. intros b0. destruct (negb _); [by safe_step|]. safe_step. destruct a; cbn [negb orb]; [|by safe_step].
    match goal with H : true = true -> _ |- _ => specialize (H eq_refl) end. safe_step; [by safe_step|]. safe_step. destruct (negb _); [by safe_step|].
    apply Hbyte; [lia|]. intros b2. destruct (negb _); (apply Hbyte; [lia|]; intros b3; destruct (negb _); by safe_step).
  - intros [d|] _; apply safe_ret; [|done]. apply clean_substring. clean_tac.
Qed.

Context `{PrinterLaws} `{ResolverLaws} (opts : name_options).

Lemma safe_linkaddr T p type n : readable s0 p n -> safe T s0 (linkaddr_text opts p type n) (fun t => clean t = true).
Proof.
  intros Hr. pose proof Hr as (Hp & _). unfold linkaddr_text. destruct (_ =? 0); [by apply safe_ret|].
  destruct type; [|by apply safe_q922|..]; (eapply safe_bind; [by apply safe_load|]; intros l (_ & _ & Hb); apply safe_ret); try by apply clean_colon_bytes.
  case_match; [by apply clean_ether_text|by apply clean_colon_bytes].
Qed.

Lemma safe_linkaddr_two T p q type n : readable s0 p n -> readable s0 q n ->
  safe T s0 (linkaddr_two opts p q type n) (fun r => clean r.1 = true /\ clean r.2 = true).
Proof.
  intros Hp Hq. unfold linkaddr_two. eapply safe_bind; [by apply safe_linkaddr|]. intros b Hb. eapply safe_bind; [by apply safe_linkaddr|]. intros a Ha.
  apply safe_ret. by destruct type.
Qed.

Lemma safe_isnonzero T n : forall a, readable s0 a (Z.of_nat n) -> safe T s0 (isnonzero a n) (fun _ => True).
Proof.
  induction n as [|n IH]; intros a Hr; cbn [isnonzero]; [by apply safe_ret|]. safe_step. safe_step; [by apply safe_ret|]. apply IH. readable_tac.
Qed.

Lemma safe_ip_or_wrong T pro len p wrong : readable s0 p len -> clean wrong = true -> safe T s0 (ip_or_wrong pro len p wrong) (fun _ => True).
Proof.
  intros Hr Hw. unfold ip_or_wrong. destruct (_ && _); [by apply safe_print|]. destruct (Z.eqb_spec len 4) as [->|]; cbn [negb]; [|by apply safe_print].
  eapply safe_bind; [by apply safe_ipaddr|]. intros n Hn. by apply safe_print.
Qed.

Lemma safe_atmarp_addr T ha hl sa sl : readable s0 ha hl -> readable s0 sa sl -> safe T s0 (atmarp_addr_print opts ha hl sa sl) (fun _ => True).
Proof.
  intros R1 R2. unfold atmarp_addr_print. destruct (_ =? 0); [by apply safe_print|]. eapply safe_bind; [by apply safe_linkaddr|]. intros a Ha. safe_step.
  destruct (negb _); [|by safe_step]. eapply safe_bind; [by apply safe_linkaddr|]. intros t Ht. apply safe_print. clean_tac.
Qed.

(** All addresses lie before the end of the last. *)
Definition atm_readable (a : atm_layout) : Prop :=
  readable s0 (a_sha a) (a_shl a) /\ readable s0 (a_ssa a) (a_ssl a) /\ readable s0 (a_spa a) (a_spl a) /\
  readable s0 (a_tha a) (a_thl a) /\ readable s0 (a_tsa a) (a_tsl a) /\ readable s0 (a_tpa a) (a_tpl a).

Lemma safe_atm_fields T ap : 0 <= ap -> ap + sizeof_atmarp_pkthdr <= ndo_snapend s0 ->
  safe T s0 (atm_fields ap) (fun a => 0 <= a_tpl a < 256 /\ (a_tpa a + a_tpl a <= ndo_snapend s0 -> atm_readable a)).
Proof.
  unfold sizeof_atmarp_pkthdr. intros Hp He. unfold atm_fields. do 6 safe_step. cbv zeta. apply safe_ret. cbn [a_tpl a_tpa]. split; [lia|].
  assert (Hl : forall x, 0 <= x -> 0 <= Z.land x ATMARP_LEN_MASK) by (intros x Hx; apply Z.land_nonneg; lia).
  pose proof (Hl a ltac:(lia)). pose proof (Hl a0 ltac:(lia)). pose proof (Hl a2 ltac:(lia)). pose proof (Hl a3 ltac:(lia)).
  intros Hend. unfold atm_readable, sizeof_atmarp_pkthdr in *.
  cbn [a_sha a_shl a_ssa a_ssl a_spa a_spl a_tha a_thl a_tsa a_tsl a_tpa a_tpl]. split_and!; apply readable_captured; done || lia.
Qed.

(** Steps through calls whose rules are in the context. *)
Ltac call := eapply safe_bind; [eassumption|intros _ _].

Lemma safe_atmarp_op T a ap pro op caplen : 0 <= ap -> 0 <= caplen -> atm_readable a -> safe T s0 (atmarp_op opts a ap pro op caplen) (fun _ => True).
Proof.
  intros Hp Hc (R1 & R2 & R3 & R4 & R5 & R6). unfold atmarp_op. cbv zeta.
  pose proof (safe_ip_or_wrong T pro _ _ "<wrong tplen>" R6 eq_refl) as Htpa. pose proof (safe_ip_or_wrong T pro _ _ "<wrong splen>" R3 eq_refl) as Hspa.
  pose proof (safe_atmarp_addr T _ _ _ _ R1 R2) as Hs. pose proof (safe_atmarp_addr T _ _ _ _ R4 R5) as Ht.
  repeat match goal with |- safe _ _ (if ?b then _ else _) _ => destruct b end.
  - safe_step. call. eapply (safe_bind _ _ _ _ (fun _ => True)). { destruct (negb _); [|by safe_step]. safe_step. call. by safe_step. }
    intros _ _. safe_step. call. by safe_step.
  - call. safe_step. call. by safe_step.
  - safe_step. call. safe_step. call. by safe_step.
  - call. safe_step. call. by safe_step.
  - safe_step. call. by safe_step.
  - eapply safe_bind; [by apply safe_default|]. intros _ _. by safe_step.
Qed.

Lemma clean_hardware hrd : clean (unknown_hardware hrd) = true.
Proof. apply clean_tok2str; [by vm_compute|]. cbv beta iota delta [from_option id]. clean_tac. Qed.
Lemma clean_protocol pro : 0 <= pro -> clean (unknown_protocol pro) = true.
Proof. intros Hp. apply clean_tok2str; [by vm_compute|]. cbv beta iota delta [from_option id]. clean_tac. Qed.
Lemma clean_op v op : clean (op_text v op) = true.
Proof. unfold op_text. clean_tac. apply clean_tok2str; [by vm_compute|]. cbv beta iota delta [from_option id]. clean_tac. Qed.

Lemma safe_atmarp T bp n caplen : 0 <= bp -> 0 <= n -> 0 <= caplen -> safe T s0 (atmarp_print opts bp n caplen) (fun _ => True).
Proof.
  intros Hb Hn Hc. unfold atmarp_print. apply safe_on_trunc; [|apply safe_print_trunc]. eapply safe_bind; [apply safe_tcheck; [done|done|by unfold sizeof_atmarp_pkthdr]|].
  intros _ [_ Hcap]. pose proof Hcap as Hcap'. unfold sizeof_atmarp_pkthdr in Hcap'. do 3 safe_step. eapply safe_bind; [by apply safe_atm_fields|].
  intros lay [Hl Hr]. cbv beta in *. eapply safe_bind; [apply safe_ttest; [done|lia]|]. intros t Ht.
  destruct t; cbn [negb]; [destruct Ht as [_ Ht]; [done|]; specialize (Hr Ht)|safe_step; by apply safe_default].
  safe_step. eapply safe_bind; [by apply safe_opt|]. intros _ _. safe_step. cbv zeta.
  eapply safe_bind; [apply safe_opt; clean_tac; [apply clean_hardware|apply clean_protocol; lia]|]. intros _ _.
  eapply (safe_bind _ _ _ _ (fun _ => True)).
  { destruct (_ && _); [by safe_step|]. eapply safe_bind; [apply safe_print, clean_op|]. intros _ _. by apply safe_atmarp_op. }
  intros go _. destruct go; by safe_step.
Qed.

Lemma safe_arp_op T ap hln pln pro op type caplen :
  0 <= ap -> 0 <= caplen -> 0 <= hln -> 0 <= pln -> ap + sizeof_arp_pkthdr + 2 * hln + pln + pln <= ndo_snapend s0 ->
  safe T s0 (arp_op opts ap hln pln pro op type caplen) (fun _ => True).
Proof.
  unfold sizeof_arp_pkthdr. intros Ha Hc Hh Hp He. unfold arp_op, sizeof_arp_pkthdr. cbv zeta.
  assert (Hhw : forall p, 0 <= p -> p + hln <= ndo_snapend s0 -> safe T s0 (linkaddr_text opts p type hln) (fun t => clean t = true))
    by (intros p Hp1 Hp2; apply safe_linkaddr, readable_captured; done || lia).
  assert (Hip : forall p, 0 <= p -> p + pln <= ndo_snapend s0 -> safe T s0 (ip_or_wrong pro pln p "<wrong len>") (fun _ => True))
    by (intros p Hp1 Hp2; apply safe_ip_or_wrong; [apply readable_captured; done || lia|done]).
  repeat match goal with |- safe _ _ (if ?b then _ else _) _ => destruct b end.
  - safe_step. eapply safe_bind; [apply Hip; lia|]. intros _ _. eapply safe_bind; [apply safe_isnonzero, readable_captured; done || lia|]. intros nz _.
    eapply (safe_bind _ _ _ _ (fun _ => True)). { destruct nz; [|by safe_step]. eapply safe_bind; [apply Hhw; lia|]. intros t Ht. by safe_step. }
    intros _ _. safe_step. eapply safe_bind; [apply Hip; lia|]. intros _ _. by safe_step.
  - eapply safe_bind; [apply Hip; lia|]. intros _ _. eapply safe_bind; [apply Hhw; lia|]. intros t Ht. safe_step. by safe_step.
  - eapply safe_bind; [apply safe_linkaddr_two; apply readable_captured; done || lia|]. intros r [Hr1 Hr2]. safe_step. by safe_step.
  - eapply safe_bind; [apply Hhw; lia|]. intros t Ht. safe_step. eapply safe_bind; [apply Hip; lia|]. intros _ _. by safe_step.
  - eapply safe_bind; [apply Hhw; lia|]. intros t Ht. safe_step. eapply safe_bind; [apply Hip; lia|]. intros _ _. by safe_step.
  - eapply safe_bind; [by apply safe_default|]. intros _ _. by safe_step.
Qed.

Lemma safe_arp T bp n caplen : 0 <= bp -> 0 <= n -> 0 <= caplen -> safe T s0 (arp_print opts bp n caplen) (fun _ => True).
Proof.
  intros Hb Hn Hc. unfold arp_print. safe_step. apply safe_on_trunc; [|apply safe_print_trunc]. unfold sizeof_arp_pkthdr. do 4 safe_step.
  safe_step; [by apply safe_atmarp|]. cbv zeta. do 2 safe_step. eapply safe_bind; [apply safe_ttest; [done|lia]|]. intros t Ht.
  destruct t; cbn [negb]; [destruct Ht as [_ Ht]; [done|]|safe_step; by apply safe_default].
  safe_step. eapply safe_bind; [by apply safe_opt|]. intros _ _. safe_step.
  eapply safe_bind; [apply safe_opt; clean_tac; [apply clean_hardware|apply clean_protocol; lia]|]. intros _ _.
  eapply (safe_bind _ _ _ _ (fun _ => True)).
  { destruct (_ && _); [by safe_step|]. eapply safe_bind; [apply safe_print, clean_op|]. intros _ _. apply safe_arp_op; unfold sizeof_arp_pkthdr; lia. }
  intros go _. destruct go; by safe_step.
Qed.
End Safety.

(** ** Requests and replies for IPv4 over Ethernet *)

Section Ethernet.
Context `{Printers} `{Resolver} (opts : name_options).
Context (pre post sha spa tha tpa : list Z) (op : Z).

Definition arp_bytes : list Z := [0; 1; 8; 0; 6; 4; 0; op] ++ sha ++ spa ++ tha ++ tpa.

Definition arp_text (n : Z) : string :=
  "ARP, " +:+
  (if op =? ARPOP_REQUEST then
     "Request who-has " +:+ getname tpa +:+ (if forallb (fun b => b =? 0) tha then EmptyString else " (" +:+ ether_text opts tha +:+ ")") +:+
     " tell " +:+ getname spa
   else "Reply " +:+ getname spa +:+ " is-at " +:+ ether_text opts sha) +:+ ", length " +:+ dec n.

Context (s : netdissect_options) (Hok : ndo_ok s) (Hpkt : ndo_packet s = pre ++ arp_bytes ++ post).
Abbreviation bp := (Z.of_nat (length pre)).
Context (Hcap : bp + 28 <= ndo_snapend s) (Hsha : length sha = 6%nat) (Hspa : length spa = 4%nat) (Htha : length tha = 6%nat) (Htpa : length tpa = 4%nat).
Context (Hop : op = ARPOP_REQUEST \/ op = ARPOP_REPLY).
Context (Hvf : f_vflag (ndo_flags s) = 0) (Hef : f_eflag (ndo_flags s) = 0).

Definition arp_at (o : string) : netdissect_options :=
  mk_ndo (ndo_packet s) (ndo_base s) (ndo_flags s) (ndo_snapend s) "arp" (ndo_out s +:+ o).

Lemma run_arp_print t o : ND_PRINT t (arp_at o) = (Done tt, arp_at (o +:+ t)).
Proof. unfold ND_PRINT, emit, arp_at. cbn. by rewrite sapp_assoc. Qed.

Lemma run_arp_load p (k n : nat) l o : p = bp + Z.of_nat k -> slice arp_bytes k n = Some l -> load p (Z.of_nat n) (arp_at o) = (Done l, arp_at o).
Proof. intros -> Hl. by apply (run_load_part _ pre arp_bytes post). Qed.

(** The four addresses. *)
Lemma arp_slices : slice arp_bytes 8 6 = Some sha /\ slice arp_bytes 14 4 = Some spa /\ slice arp_bytes 18 6 = Some tha /\ slice arp_bytes 24 4 = Some tpa.
Proof.
  assert (Hs : forall a x b (k n : nat), length a = k -> length x = n -> slice (a ++ x ++ b) k n = Some x).
  { intros a x b k n Ha Hx. apply slice_Some. rewrite !length_app, drop_app_length' by lia. split; [lia|]. symmetry. apply take_app_length'. lia. }
  unfold arp_bytes. split_and!.
  - by apply Hs.
  - rewrite app_assoc. apply Hs; [rewrite length_app; cbn [length]; lia|done].
  - rewrite app_assoc, app_assoc. apply Hs; [rewrite !length_app; cbn [length]; lia|done].
  - rewrite app_assoc, app_assoc, app_assoc. rewrite <- (app_nil_r tpa) at 1. apply Hs; [rewrite !length_app; cbn [length]; lia|done].
Qed.

Lemma run_arp_u1 (k : nat) v o p : p = bp + Z.of_nat k -> slice arp_bytes k 1 = Some [v] -> EXTRACT_U_1 p (arp_at o) = (Done v, arp_at o).
Proof. intros Hp Hl. unfold EXTRACT_U_1. erewrite run_bind by (by apply (run_arp_load p k 1 [v])). unfold pret. by rewrite be_val_1. Qed.

Lemma run_arp_u2 (k : nat) a b o p : p = bp + Z.of_nat k -> slice arp_bytes k 2 = Some [a; b] -> EXTRACT_BE_U_2 p (arp_at o) = (Done (be_val [a; b]), arp_at o).
Proof. intros Hp Hl. unfold EXTRACT_BE_U_2. by erewrite run_bind by (by apply (run_arp_load p k 2 [a; b])). Qed.

Lemma arp_at_ok o : ndo_ok (arp_at o).
Proof. destruct Hok as (K1 & K2 & K3 & K4 & _). exact (conj K1 (conj K2 (conj K3 (conj K4 eq_refl)))). Qed.

Ltac run l := erewrite run_bind by l; cbv beta zeta.

Lemma run_arp_ip p (k : nat) l o : p = bp + Z.of_nat k -> slice arp_bytes k 4 = Some l ->
  ip_or_wrong ETHERTYPE_IP 4 p "<wrong len>" (arp_at o) = (Done tt, arp_at (o +:+ getname l)).
Proof.
  intros Hp Hl. unfold ip_or_wrong. change (ETHERTYPE_IP =? ETHERTYPE_IP) with true. change (4 =? 4) with true. cbn [negb andb]. unfold ipaddr_string.
  run ltac:(run ltac:(by apply (run_arp_load p k 4)); reflexivity). apply run_arp_print.
Qed.

Lemma run_arp_hw p (k : nat) l o : p = bp + Z.of_nat k -> slice arp_bytes k 6 = Some l ->
  linkaddr_text opts p LINKADDR_ETHER 6 (arp_at o) = (Done (ether_text opts l), arp_at o).
Proof. intros Hp Hl. unfold linkaddr_text. change (6 =? 0) with false. cbv iota. by run ltac:(by apply (run_arp_load p k 6)). Qed.

Lemma run_isnonzero l : forall (k : nat) p o, p = bp + Z.of_nat k -> slice arp_bytes k (length l) = Some l ->
  isnonzero p (length l) (arp_at o) = (Done (negb (forallb (fun b => b =? 0) l)), arp_at o).
Proof.
  induction l as [|b l IH]; intros k p o Hp Hl; [done|]. cbn [length isnonzero forallb].
  assert (Hl1 : slice arp_bytes k 1 = Some [b] /\ slice arp_bytes (S k) (length l) = Some l).
  { apply slice_Some in Hl as [Hle Hl]. cbn [length] in *. destruct (drop k arp_bytes) as [|x r] eqn:E; [done|]. cbn [take] in Hl. injection Hl as -> Hl.
    split; apply slice_Some; (split; [lia|]); [by rewrite E|]. by rewrite <- Nat.add_1_r, <- drop_drop, E. }
  run ltac:(apply (run_arp_u1 k b); [done|apply Hl1]). destruct (b =? 0); cbn [negb andb]; [|done]. apply (IH (S k)); [lia|apply Hl1].
Qed.

Lemma run_arp n caplen : arp_print opts bp n caplen s = (Done tt, arp_at (arp_text n)).
Proof.
  destruct arp_slices as (S1 & S2 & S3 & S4). unfold arp_print.
  erewrite run_bind; [|exact (eq_refl (Done tt, with_protocol "arp" s))].
  assert (Hstart : with_protocol "arp" s = arp_at EmptyString) by (unfold with_protocol, arp_at; by rewrite sapp_nil_r). rewrite Hstart.
  unfold on_trunc, sizeof_arp_pkthdr. run ltac:(apply run_tcheck_captured; [apply arp_at_ok|lia..|cbn; lia]).
  run ltac:(by apply (run_arp_u2 0 0 1); [lia|]). run ltac:(by apply (run_arp_u2 2 8 0)). run ltac:(by apply (run_arp_u2 6 0 op)).
  change (be_val [0; 1] =? ARPHRD_ATM2225) with false. change (be_val [0; 1] =? ARPHRD_FRELAY) with false. cbv iota.
  run ltac:(by apply (run_arp_u1 4 6)). run ltac:(by apply (run_arp_u1 5 4)).
  erewrite run_bind by reflexivity. rewrite ttest_len_complete; [|apply arp_at_ok|lia..|cbn; lia]. cbn [negb].
  erewrite run_bind by reflexivity. cbn [ndo_flags arp_at]. rewrite Hef. cbn [Z.eqb]. run ltac:(apply run_arp_print).
  erewrite run_bind by reflexivity. cbn [ndo_flags arp_at]. rewrite Hvf. change (be_val [8; 0]) with ETHERTYPE_IP. change (ETHERTYPE_IP =? ETHERTYPE_IP) with true.
  cbn [Z.eqb negb andb orb]. erewrite run_bind by reflexivity.
  assert (Hops : be_val [0; op] = op) by (destruct Hop as [-> | ->]; done). rewrite Hops.
  assert (Hrun : (ND_PRINT (op_text 0 op) ;~ arp_op opts bp 6 4 ETHERTYPE_IP op LINKADDR_ETHER caplen) (arp_at (EmptyString +:+ "ARP, ")) =
    (Done true, arp_at ("ARP, " +:+
      (if op =? ARPOP_REQUEST then "Request who-has " +:+ getname tpa +:+ (if forallb (fun b => b =? 0) tha then EmptyString else " (" +:+ ether_text opts tha +:+ ")") +:+
         " tell " +:+ getname spa
       else "Reply " +:+ getname spa +:+ " is-at " +:+ ether_text opts sha)))).
  { run ltac:(apply run_arp_print). unfold arp_op, sizeof_arp_pkthdr. cbv zeta. destruct Hop as [-> | ->].
    - change (ARPOP_REQUEST =? ARPOP_REQUEST) with true. cbv iota. run ltac:(apply run_arp_print). run ltac:(apply (run_arp_ip _ 24); [lia|exact S4]).
      replace (Z.to_nat 6) with (length tha) by lia. run ltac:(apply (run_isnonzero tha 18); [lia|by rewrite Htha]). destruct (forallb _ tha); cbn [negb].
      + erewrite run_bind by reflexivity. run ltac:(apply run_arp_print). run ltac:(apply (run_arp_ip _ 14); [lia|exact S2]). unfold pret. do 2 f_equal; try by rewrite <- !sapp_assoc.
      + run ltac:(run ltac:(apply (run_arp_hw _ 18); [lia|exact S3]); apply run_arp_print). run ltac:(apply run_arp_print).
        run ltac:(apply (run_arp_ip _ 14); [lia|exact S2]). unfold pret. do 2 f_equal; try by rewrite <- !sapp_assoc.
    - change (ARPOP_REPLY =? ARPOP_REQUEST) with false. change (ARPOP_REPLY =? ARPOP_REPLY) with true. cbv iota.
      run ltac:(apply (run_arp_ip _ 14); [lia|exact S2]). run ltac:(apply (run_arp_hw _ 8); [lia|exact S1]). run ltac:(apply run_arp_print).
      unfold pret. do 2 f_equal; try by rewrite <- !sapp_assoc. }
  run ltac:(exact Hrun). cbv iota. rewrite run_arp_print. unfold arp_text. by rewrite <- !sapp_assoc.
Qed.
End Ethernet.

(** ** Claims *)

(** The ARP printer returns on any captured bytes, whatever hardware, protocol, lengths and
    operation they announce, ATM and Frame Relay included: it prints clean text and reads only
    the packet. *)
Theorem arp_print_safe `{PrinterLaws} `{ResolverLaws} opts s bp n caplen :
  ndo_ok s -> 0 <= bp -> 0 <= n -> 0 <= caplen -> exists s', arp_print opts bp n caplen s = (Done tt, s') /\ ndo_ext s s'.
Proof.
  intros Hok Hb Hn Hc. pose proof (safe_arp s Hok opts false bp n caplen Hb Hn Hc s (ndo_ext_refl s Hok)) as Hs.
  destruct (arp_print opts bp n caplen s) as [[[]|[]] s']; try (by destruct Hs). exists s'. by destruct Hs.
Qed.

#[export] Instance sample_resolver_laws : ResolverLaws.
Proof. exists. intros l h Hh. discriminate Hh. Defined.

(** A request for 10.0.0.2 with the hardware address it was last seen at. *)
Definition sample_arp : netdissect_options :=
  mk_ndo (arp_bytes [0; 0; 12; 7; 172; 1] [10; 0; 0; 1] [0; 1; 2; 3; 4; 5] [10; 0; 0; 2] ARPOP_REQUEST) 4096 (mk_flags 0 0 0 0 0 0 0 0) 28 "" "".

Lemma sample_arp_ok : ndo_ok sample_arp.
Proof. repeat split; vm_compute; congruence. Qed.

Definition numeric : name_options := mk_nopts true false false.

Lemma arp_print_safe_witness :
  exists s', arp_print numeric 0 28 28 sample_arp = (Done tt, s') /\ ndo_ext sample_arp s'.
Proof. apply (arp_print_safe numeric sample_arp 0 28 28 sample_arp_ok); lia. Defined.

(** C30. A request or a reply for an IPv4 address over Ethernet that was captured whole is
    printed with the addresses at their places: a request with the target address, the target's
    hardware address exactly when it is not all zero, and the sender; a reply with the sender and
    its hardware address. *)
Theorem arp_printed `{Printers} `{Resolver} opts pre post sha spa tha tpa op s n caplen :
  ndo_ok s -> op = ARPOP_REQUEST \/ op = ARPOP_REPLY ->
  length sha = 6%nat -> length spa = 4%nat -> length tha = 6%nat -> length tpa = 4%nat ->
  ndo_packet s = pre ++ arp_bytes sha spa tha tpa op ++ post -> Z.of_nat (length pre) + 28 <= ndo_snapend s ->
  f_vflag (ndo_flags s) = 0 -> f_eflag (ndo_flags s) = 0 ->
  exists s', arp_print opts (Z.of_nat (length pre)) n caplen s = (Done tt, s') /\ ndo_out s' = ndo_out s +:+ arp_text opts sha spa tha tpa op n.
Proof. intros. eexists. split; [by eapply run_arp|]. done. Qed.

Lemma arp_printed_witness :
  exists s', arp_print numeric 0 28 28 sample_arp = (Done tt, s') /\
    ndo_out s' = "ARP, Request who-has 10.0.0.2 (00:01:02:03:04:05) tell 10.0.0.1, length 28"%string.
Proof.
  destruct (arp_printed numeric [] [] [0; 0; 12; 7; 172; 1] [10; 0; 0; 1] [0; 1; 2; 3; 4; 5] [10; 0; 0; 2] ARPOP_REQUEST sample_arp 28 28)
    as (s' & Hrun & Hout); [apply sample_arp_ok|by left|done..|].
  exists s'. split; [exact Hrun|]. rewrite Hout. vm_compute. reflexivity.
Defined.

(** Inverse ARP over Frame Relay: the two addresses are different, the text is not. *)
Definition sample_frelay : netdissect_options :=
  mk_ndo [0; 15; 8; 0; 2; 4; 0; 8; 0x18; 0x41; 10; 0; 0; 1; 0x18; 0x51; 0; 0; 0; 0] 4096 (mk_flags 0 0 0 0 0 0 0 0) 20 "" "".

Example frelay_prints_one_dlci :
  fst (q922_string 8 2 sample_frelay) = Done "DLCI 100"%string /\ fst (q922_string 14 2 sample_frelay) = Done "DLCI 101"%string /\
  ndo_out (snd (arp_print numeric 0 20 20 sample_frelay)) = "ARP, Inverse Request who-is DLCI 101 tell DLCI 101, length 20"%string.
Proof. by vm_compute. Qed.
