(* ===== verification/PrintDomain.v ===== *)
(** * The DNS printer of tcpdump

    Models [tcpdump/print-domain.c] with [tcpdump/nameser.h]. A pointer into the packet is its offset,
    a null pointer [None]. A compressed name may jump to an earlier part of the packet; the
    loop that follows it is a nested recursion, on the jumps that are left and on the
    captured bytes between two jumps. *)
From stdpp Require Import base list numbers strings.
From Stdlib Require Import ZArith Lia Ascii.
From S2P Require Import Prelude Cstring Netdissect UtilPrint AddrToStr PrintIp.

Open Scope Z_scope.

(** ** Constants and names *)

Definition INDIR_MASK : Z := 0xc0.
Definition EDNS0_MASK : Z := 0x40.
Definition EDNS0_ELT_BITLABEL : Z := 1.
Definition IQUERY : Z := 1.
Definition C_IN : Z := 1.
Definition C_QU : Z := 0x8000.
Definition C_CACHE_FLUSH : Z := 0x8000.
Definition T_A : Z := 1.
Definition T_NS : Z := 2.
Definition T_CNAME : Z := 5.
Definition T_SOA : Z := 6.
Definition T_PTR : Z := 12.
Definition T_MX : Z := 15.
Definition T_TXT : Z := 16.
Definition T_AAAA : Z := 28.
Definition T_SRV : Z := 33.
Definition T_A6 : Z := 38.
Definition T_DNAME : Z := 39.
Definition T_OPT : Z := 41.
Definition T_UNSPECA : Z := 104.
Definition T_TSIG : Z := 250.

Definition ns_type2str : list tok :=
  [(1, "A"%string); (2, "NS"%string); (3, "MD"%string); (4, "MF"%string); (5, "CNAME"%string); (6, "SOA"%string);
   (7, "MB"%string); (8, "MG"%string); (9, "MR"%string); (10, "NULL"%string); (11, "WKS"%string); (12, "PTR"%string);
   (13, "HINFO"%string); (14, "MINFO"%string); (15, "MX"%string); (16, "TXT"%string); (17, "RP"%string); (18, "AFSDB"%string);
   (19, "X25"%string); (20, "ISDN"%string); (21, "RT"%string); (22, "NSAP"%string); (23, "NSAP_PTR"%string); (24, "SIG"%string);
   (25, "KEY"%string); (26, "PX"%string); (27, "GPOS"%string); (28, "AAAA"%string); (29, "LOC"%string); (30, "NXT"%string);
   (31, "EID"%string); (32, "NIMLOC"%string); (33, "SRV"%string); (34, "ATMA"%string); (35, "NAPTR"%string); (36, "KX"%string);
   (37, "CERT"%string); (38, "A6"%string); (39, "DNAME"%string); (40, "SINK"%string); (41, "OPT"%string); (42, "APL"%string);
   (43, "DS"%string); (44, "SSHFP"%string); (45, "IPSECKEY"%string); (46, "RRSIG"%string); (47, "NSEC"%string); (48, "DNSKEY"%string);
   (99, "SPF"%string); (100, "UINFO"%string); (101, "UID"%string); (102, "GID"%string); (103, "UNSPEC"%string); (104, "UNSPECA"%string);
   (249, "TKEY"%string); (250, "TSIG"%string); (251, "IXFR"%string); (252, "AXFR"%string); (253, "MAILB"%string); (254, "MAILA"%string);
   (255, "ANY"%string)].

Definition ns_class2str : list tok :=
  [(1, "IN"%string); (3, "CHAOS"%string); (4, "HS"%string); (255, "ANY"%string)].

Definition ns_ops : list string :=
  [EmptyString; " inv_q"; " stat"; " op3"; " notify"; " update"; " op6"; " op7";
   " op8"; " updateA"; " updateD"; " updateDA"; " updateM"; " updateMA"; " zoneInit"; " zoneRef"]%string.

Definition ns_resp : list string :=
  [EmptyString; " FormErr"; " ServFail"; " NXDomain"; " NotImp"; " Refused"; " YXDomain"; " YXRRSet";
   " NXRRSet"; " NotAuth"; " NotZone"; " Resp11"; " Resp12"; " Resp13"; " Resp14"; " NoChange"]%string.

(** [DNS_QR] and the like: whether a bit is set, and the two fields. *)
Definition dns_bit (flags mask : Z) : bool := negb (Z.land flags mask =? 0).
Definition DNS_QR (flags : Z) : bool := dns_bit flags 0x8000.
Definition DNS_OPCODE (flags : Z) : Z := Z.land (Z.shiftr flags 11) 0xF.
Definition DNS_AA (flags : Z) : bool := dns_bit flags 0x0400.
Definition DNS_TC (flags : Z) : bool := dns_bit flags 0x0200.
Definition DNS_RD (flags : Z) : bool := dns_bit flags 0x0100.
Definition DNS_RA (flags : Z) : bool := dns_bit flags 0x0080.
Definition DNS_AD (flags : Z) : bool := dns_bit flags 0x0020.
Definition DNS_CD (flags : Z) : bool := dns_bit flags 0x0010.
Definition DNS_RCODE (flags : Z) : Z := Z.land flags 0x000F.

Definition nth_name (l : list string) (i : Z) : string := default EmptyString (l !! Z.to_nat i).

(** ** Null pointers *)

(** [if ((x = m) == NULL) return NULL]. *)
Definition pobind {A B} (m : pr (option A)) (k : A -> pr (option B)) : pr (option B) :=
  r <~ m ;; match r with None => pret None | Some a => k a end.
Notation "x <~? m ;; k" := (pobind m (fun x => k)) (at level 100, m at next level, right associativity) : pr_scope.

(** [if (!ND_TTEST_LEN(p, l)) return NULL]. *)
Definition ND_NEED {A} (p l : Z) (k : pr (option A)) : pr (option A) :=
  b <~ ND_TTEST_LEN p l ;; if (b : bool) then k else pret None.

(** The end of the captured data, for loops over it. *)
Definition captured_fuel {A} (m : nat -> pr A) : pr A := fun ndo => m (S (length (ndo_packet ndo))) ndo.

(** ** Names *)

(** A bit label is a count of bits, 0 for 256. *)
Definition bit_count (b : Z) : Z := if b =? 0 then 256 else b.

Fixpoint nskip_loop (fuel : nat) (i cp : Z) : pr (option Z) :=
  match fuel with
  | O => pstop Fuel
  | S fuel' =>
      if i =? 0 then pret (Some cp)
      else if Z.land i INDIR_MASK =? INDIR_MASK then pret (Some (cp + 1))
      else
        let next cp' := ND_NEED cp' 1 (i' <~ EXTRACT_U_1 cp' ;; nskip_loop fuel' i' (cp' + 1)) in
        if Z.land i INDIR_MASK =? EDNS0_MASK then
          if negb (Z.land i 0x3f =? EDNS0_ELT_BITLABEL) then pret None
          else ND_NEED cp 1 (b <~ EXTRACT_U_1 cp ;; next (cp + 1 + (bit_count b + 7) / 8))
        else next (cp + i)
  end.

Definition ns_nskip (cp : Z) : pr (option Z) :=
  ND_NEED cp 1 (i <~ EXTRACT_U_1 cp ;; captured_fuel (fun fuel => nskip_loop fuel i (cp + 1))).

(** The whole bytes of a bit label; at most 32. *)
Fixpoint blabel_loop (n : nat) (bitp lim b : Z) : pr (Z * Z) :=
  match n with
  | O => pret (bitp, b)
  | S n' =>
      if (bitp <? lim) && (b >? 7) then
        ND_TCHECK_LEN bitp 1 ;~ v <~ EXTRACT_U_1 bitp ;; ND_PRINT (hex_pad 2 v) ;~ blabel_loop n' (bitp + 1) lim (b - 8)
      else pret (bitp, b)
  end.

Definition blabel_print (cp : Z) : pr (option Z) :=
  ND_NEED cp 1 (
    b0 <~ EXTRACT_U_1 cp ;;
    let bitlen := bit_count b0 in
    let lim := cp + 1 + (bitlen + 3) / 4 in
    on_trunc (
      ND_PRINT "\[x" ;~
      r <~ blabel_loop 33 (cp + 1) lim bitlen ;;
      let '(bitp, b) := r in
      (if b >? 4 then
         ND_TCHECK_LEN bitp 1 ;~ tc <~ EXTRACT_U_1 bitp ;; ND_PRINT (hex_pad 2 (Z.land tc (Z.shiftl 0xff (8 - b))))
       else if b >? 0 then
         ND_TCHECK_LEN bitp 1 ;~ tc <~ EXTRACT_U_1 bitp ;;
         ND_PRINT (hex (Z.land (Z.land (Z.shiftr tc 4) 0x0f) (Z.shiftl 0x0f (4 - b))))
       else pret tt) ;~
      ND_PRINT ("/" +:+ dec bitlen +:+ "]") ;~
      pret (Some lim))
    (ND_PRINT (".../" +:+ dec bitlen +:+ "]") ;~ pret None)).

(** [None] is -1. *)
Definition labellen (cp : Z) : pr (option Z) :=
  ND_NEED cp 1 (
    i <~ EXTRACT_U_1 cp ;;
    if Z.land i INDIR_MASK =? EDNS0_MASK then
      let elt := Z.land i 0x3f in
      if negb (elt =? EDNS0_ELT_BITLABEL) then ND_PRINT ("<ELT " +:+ dec elt +:+ ">") ;~ pret None
      else ND_NEED (cp + 1) 1 (b <~ EXTRACT_U_1 (cp + 1) ;; pret (Some ((bit_count b + 7) / 8 + 1)))
    else pret (Some i)).

(** The variables of the loop. *)
Record name_state := mk_name {
  n_i : Z; n_l : Z; n_cp : Z; n_rp : option Z; n_compress : bool; n_max : Z }.

(** How a round ends: with a result, further on, or at an earlier place. *)
Inductive name_round := NameEnd (rp : option Z) | NameNext (st : name_state) | NameJump (st : name_state).

(** Loads the length of the label at [cp] and its first byte. *)
Definition next_label {A} (cp : Z) (k : Z -> Z -> pr (option A)) : pr (option A) :=
  l <~? labellen cp ;; ND_NEED cp 1 (i <~ EXTRACT_U_1 cp ;; k l i).

(** The text of one label. *)
Definition print_label (i l cp : Z) : pr (option unit) :=
  if Z.land i INDIR_MASK =? EDNS0_MASK then
    let elt := Z.land i 0x3f in
    if elt =? EDNS0_ELT_BITLABEL then _ <~? blabel_print cp ;; pret (Some tt)
    else ND_PRINT ("<ELT " +:+ dec elt +:+ ">") ;~ pret None
  else
    e <~ asks ndo_snapend ;; r <~ nd_printn cp l (Some e) ;; pret (if r =? 0 then Some tt else None).

Definition name_step (bp : Z) (st : name_state) : pr name_round :=
  e <~ asks ndo_snapend ;;
  if (n_i st =? 0) || negb (n_cp st <? e) then pret (NameEnd (n_rp st))
  else
    r <~ (if Z.land (n_i st) INDIR_MASK =? INDIR_MASK then
            let rp := if n_compress st then n_rp st else Some (n_cp st + 1) in
            ND_NEED (n_cp st) 1 (
              lo <~ EXTRACT_U_1 (n_cp st) ;;
              let offset := Z.land (Z.lor (Z.shiftl (n_i st) 8) lo) 0x3fff in
              if n_max st <=? offset then ND_PRINT "<BAD PTR>" ;~ pret None
              else
                let cp := bp + offset in
                next_label cp (fun l i => pret (Some (NameJump (mk_name i l (cp + 1) rp true offset)))))
          else
            _ <~? print_label (n_i st) (n_l st) (n_cp st) ;;
            let cp := n_cp st + n_l st in
            ND_PRINT "." ;~
            next_label cp (fun l i =>
              let rp := if n_compress st then n_rp st else (fun r => r + (l + 1)) <$> n_rp st in
              pret (Some (NameNext (mk_name i l (cp + 1) rp (n_compress st) (n_max st)))))) ;;
    pret (default (NameEnd None) r).

(** [bytes] rounds between two jumps. *)
Definition name_loop (bp : Z) (bytes : nat) : nat -> nat -> name_state -> pr (option Z) :=
  fix outer (jumps : nat) : nat -> name_state -> pr (option Z) :=
    fix inner (k : nat) (st : name_state) : pr (option Z) :=
      match k with
      | O => pstop Fuel
      | S k' =>
          r <~ name_step bp st ;;
          match r with
          | NameEnd rp => pret rp
          | NameNext st' => inner k' st'
          | NameJump st' => match jumps with O => pstop Fuel | S jumps' => outer jumps' bytes st' end
          end
      end.

(** An offset has fourteen bits and every jump goes back. *)
Definition MAX_JUMPS : nat := Z.to_nat 0x4000.

Definition ns_nprint (cp bp : Z) : pr (option Z) :=
  next_label cp (fun l i =>
    let rp := if negb (Z.land i INDIR_MASK =? INDIR_MASK) then Some (cp + 1 + l) else None in
    if negb (i =? 0) then
      captured_fuel (fun fuel => name_loop bp fuel MAX_JUMPS fuel (mk_name i l (cp + 1) rp false (u32 (cp - bp))))
    else ND_PRINT "." ;~ pret rp).

Definition ns_cprint (cp : Z) : pr (option Z) :=
  ND_NEED cp 1 (
    i <~ EXTRACT_U_1 cp ;;
    e <~ asks ndo_snapend ;;
    r <~ nd_printn (cp + 1) i (Some e) ;;
    pret (if r =? 0 then Some (cp + 1 + i) else None)).

(** ** Questions and records *)

Definition type_name (t : Z) : string := tok2str ns_type2str (Some (fun v => "Type" +:+ dec v)) t.
Definition class_name (c : Z) : string := tok2str ns_class2str (Some (fun v => "(Class " +:+ dec v +:+ ")")) c.

Definition print_if (b : bool) (s : string) : pr unit := if b then ND_PRINT s else pret tt.

Definition ns_qprint (cp bp : Z) (is_mdns : bool) : pr (option Z) :=
  cp1 <~? ns_nskip cp ;;
  ND_NEED cp1 4 (
    i <~ EXTRACT_BE_U_2 cp1 ;;
    ND_PRINT (" " +:+ type_name i) ;~
    c <~ EXTRACT_BE_U_2 (cp1 + 2) ;;
    let class := if is_mdns then Z.land c 0x7fff else c in
    print_if (negb (class =? C_IN)) (" " +:+ class_name class) ;~
    print_if is_mdns (if dns_bit c C_QU then " (QU)" else " (QM)") ;~
    ND_PRINT "? " ;~
    cp2 <~? ns_nprint cp bp ;;
    pret (Some (cp2 + 4))).

Definition dquote : string := char1 34.

(** The strings of a TXT record. *)
Fixpoint txt_loop (fuel : nat) (cp rp : Z) : pr (option unit) :=
  match fuel with
  | O => pstop Fuel
  | S fuel' =>
      if cp <? rp then
        ND_PRINT (" " +:+ dquote) ;~ cp1 <~? ns_cprint cp ;; ND_PRINT dquote ;~ txt_loop fuel' cp1 rp
      else pret (Some tt)
  end.

Fixpoint u4_list (n : nat) (cp : Z) : pr unit :=
  match n with
  | O => pret tt
  | S n' => v <~ EXTRACT_BE_U_4 cp ;; ND_PRINT (" " +:+ dec v) ;~ u4_list n' (cp + 4)
  end.

(** A 16-bit number with its name, after its test. *)
Definition named_u2 (name : string) (cp : Z) (k : Z -> pr (option unit)) : pr (option unit) :=
  ND_NEED cp 2 (v <~ EXTRACT_BE_U_2 cp ;; ND_PRINT (name +:+ dec v) ;~ k v).

Definition addr6_text (l : list Z) : string := default EmptyString (addrtostr6 l INET6_ADDRSTRLEN).

Definition a6_data (cp bp : Z) : pr (option unit) :=
  ND_NEED cp 1 (
    pbit <~ EXTRACT_U_1 cp ;;
    let pbyte := pbit / 8 in
    if pbit >? 128 then ND_PRINT (" " +:+ dec pbit +:+ "(bad plen)") ;~ pret (Some tt)
    else
      _ <~? (if pbit <? 128 then
               ND_NEED (cp + 1) (16 - pbyte) (
                 a <~ load (cp + 1) (16 - pbyte) ;;
                 ND_PRINT (" " +:+ dec pbit +:+ " " +:+ addr6_text (replicate (Z.to_nat pbyte) 0 ++ a)) ;~ pret (Some tt))
             else pret (Some tt)) ;;
      if pbit >? 0 then ND_PRINT " " ;~ _ <~? ns_nprint (cp + 1 + 16 - pbyte) bp ;; pret (Some tt)
      else pret (Some tt)).

Definition tsig_data (cp bp len : Z) : pr (option unit) :=
  e <~ asks ndo_snapend ;;
  if cp + len >? e then pret None
  else
    v <~ flag f_vflag ;;
    if v =? 0 then pret (Some tt)
    else
      ND_PRINT " " ;~
      cp1 <~? ns_nprint cp bp ;;
      named_u2 " fudge=" (cp1 + 6) (fun _ =>
      named_u2 " maclen=" (cp1 + 8) (fun m =>
      named_u2 " origid=" (cp1 + 10 + m) (fun _ =>
      named_u2 " error=" (cp1 + 12 + m) (fun _ =>
      named_u2 " otherlen=" (cp1 + 14 + m) (fun _ => pret (Some tt)))))).

(** The data of a record. *)
Definition rdata_print (typ class opt_flags cp bp len rp : Z) : pr (option unit) :=
  if typ =? T_A then
    ND_NEED cp 4 (a <~ EXTRACT_IPV4_TO_NETWORK_ORDER cp ;; ND_PRINT (" " +:+ intoa (be_val a)) ;~ pret (Some tt))
  else if (typ =? T_NS) || (typ =? T_CNAME) || (typ =? T_PTR) || (typ =? T_DNAME) then
    ND_PRINT " " ;~ _ <~? ns_nprint cp bp ;; pret (Some tt)
  else if typ =? T_SOA then
    v <~ flag f_vflag ;;
    if v =? 0 then pret (Some tt)
    else
      ND_PRINT " " ;~ cp1 <~? ns_nprint cp bp ;;
      ND_PRINT " " ;~ cp2 <~? ns_nprint cp1 bp ;;
      ND_NEED cp2 20 (u4_list 5 cp2 ;~ pret (Some tt))
  else if typ =? T_MX then
    ND_PRINT " " ;~
    ND_NEED cp 2 (_ <~? ns_nprint (cp + 2) bp ;; p <~ EXTRACT_BE_U_2 cp ;; ND_PRINT (" " +:+ dec p) ;~ pret (Some tt))
  else if typ =? T_TXT then captured_fuel (fun fuel => txt_loop fuel cp rp)
  else if typ =? T_SRV then
    ND_PRINT " " ;~
    ND_NEED cp 6 (
      _ <~? ns_nprint (cp + 6) bp ;;
      port <~ EXTRACT_BE_U_2 (cp + 4) ;; prio <~ EXTRACT_BE_U_2 cp ;; weight <~ EXTRACT_BE_U_2 (cp + 2) ;;
      ND_PRINT (":" +:+ dec port +:+ " " +:+ dec prio +:+ " " +:+ dec weight) ;~ pret (Some tt))
  else if typ =? T_AAAA then
    ND_NEED cp 16 (a <~ load cp 16 ;; ND_PRINT (" " +:+ addr6_text a) ;~ pret (Some tt))
  else if typ =? T_A6 then a6_data cp bp
  else if typ =? T_OPT then
    ND_PRINT (" UDPsize=" +:+ dec class) ;~ print_if (dns_bit opt_flags 0x8000) " DO" ;~ pret (Some tt)
  else if typ =? T_UNSPECA then
    ND_NEED cp len (e <~ asks ndo_snapend ;; r <~ nd_printn cp len (Some e) ;; pret (if r =? 0 then Some tt else None))
  else if typ =? T_TSIG then tsig_data cp bp len
  else pret (Some tt).

(** A record after its name. *)
Definition rr_print (cp bp : Z) (is_mdns : bool) : pr (option Z) :=
  typ <~ EXTRACT_BE_U_2 cp ;;
  i <~ EXTRACT_BE_U_2 (cp + 2) ;;
  let class := if is_mdns then Z.land i 0x7fff else i in
  print_if (negb (class =? C_IN) && negb (typ =? T_OPT)) (" " +:+ class_name class) ;~
  print_if (is_mdns && dns_bit i C_CACHE_FLUSH) " (Cache flush)" ;~
  v <~ flag f_vflag ;;
  opt_flags <~ (if typ =? T_OPT then EXTRACT_BE_U_2 (cp + 6)
                else if v >? 2 then
                  ND_PRINT " [" ;~ t <~ EXTRACT_BE_U_4 (cp + 4) ;; unsigned_relts_print t ;~ ND_PRINT "]" ;~ pret 0
                else pret 0) ;;
  len <~ EXTRACT_BE_U_2 (cp + 8) ;;
  let rp := cp + 10 + len in
  ND_PRINT (" " +:+ type_name typ) ;~
  e <~ asks ndo_snapend ;;
  if rp >? e then pret None
  else _ <~? rdata_print typ class opt_flags (cp + 10) bp len rp ;; pret (Some rp).

Definition ns_rprint (cp bp : Z) (is_mdns : bool) : pr (option Z) :=
  v <~ flag f_vflag ;;
  if v =? 0 then
    r <~ ns_nskip cp ;;
    b <~ match r with Some cp1 => ND_TTEST_LEN cp1 10 | None => pret false end ;;
    match r, b with
    | Some cp1, true => rr_print cp1 bp is_mdns
    | _, _ => e <~ asks ndo_snapend ;; pret (Some e)
    end
  else
    ND_PRINT " " ;~
    cp1 <~? ns_nprint cp bp ;;
    b <~ ND_TTEST_LEN cp1 10 ;;
    if (b : bool) then rr_print cp1 bp is_mdns else (e <~ asks ndo_snapend ;; pret (Some e)).

(** ** Messages *)

Definition sizeof_dns_header : Z := 12.

(** [if ((x = m) == NULL) goto trunc]. *)
Definition or_trunc {A} (m : pr (option A)) : pr A :=
  r <~ m ;; match r with Some a => pret a | None => pstop Trunc end.

(** The question section of a response. *)
Fixpoint response_questions (n : nat) (first : bool) (cp bp : Z) (is_mdns : bool) : pr Z :=
  match n with
  | O => pret cp
  | S n' =>
      print_if (negb first) "," ;~
      v <~ flag f_vflag ;;
      cp1 <~ (if v >? 1 then ND_PRINT " q:" ;~ or_trunc (ns_qprint cp bp is_mdns)
              else c <~ or_trunc (ns_nskip cp) ;; pret (c + 4)) ;;
      response_questions n' false cp1 bp is_mdns
  end.

(** [while (cp < ndo->ndo_snapend && count)]: where it ends and how many are left. *)
Fixpoint more_records (count : nat) (cp bp : Z) (is_mdns : bool) : pr (Z * nat) :=
  match count with
  | O => pret (cp, O)
  | S count' =>
      e <~ asks ndo_snapend ;;
      if cp <? e then
        ND_PRINT "," ;~ cp1 <~ or_trunc (ns_rprint cp bp is_mdns) ;; more_records count' cp1 bp is_mdns
      else pret (cp, count)
  end.

(** A section of records; some left over are a truncated packet. *)
Definition section_print (count : nat) (cp bp : Z) (is_mdns : bool) : pr Z :=
  r <~ match count with
       | O => pret (cp, O)
       | S count' => cp1 <~ or_trunc (ns_rprint cp bp is_mdns) ;; more_records count' cp1 bp is_mdns
       end ;;
  let '(cp1, rest) := r in
  if (rest =? 0)%nat then pret cp1 else pstop Trunc.

(** A section that is printed with its name, if there is data. *)
Definition named_section (name : string) (count : nat) (cp bp : Z) (is_mdns : bool) : pr Z :=
  e <~ asks ndo_snapend ;;
  if (cp <? e) && negb (count =? 0)%nat then ND_PRINT name ;~ section_print count cp bp is_mdns
  else if (count =? 0)%nat then pret cp else pstop Trunc.

Fixpoint more_questions (count : nat) (cp bp : Z) (is_mdns : bool) : pr (Z * nat) :=
  match count with
  | O => pret (cp, O)
  | S count' =>
      e <~ asks ndo_snapend ;;
      if cp <? e then cp1 <~ or_trunc (ns_qprint cp bp is_mdns) ;; more_questions count' cp1 bp is_mdns
      else pret (cp, count)
  end.

Definition request_questions (count : nat) (cp bp : Z) (is_mdns : bool) : pr Z :=
  r <~ match count with
       | O => pret (cp, O)
       | S count' => cp1 <~ or_trunc (ns_qprint cp bp is_mdns) ;; more_questions count' cp1 bp is_mdns
       end ;;
  let '(cp1, rest) := r in
  if (rest =? 0)%nat then pret cp1 else pstop Trunc.

Definition response_print (bp id flags qd an ns ar : Z) (is_mdns : bool) : pr unit :=
  ND_PRINT (dec id +:+ nth_name ns_ops (DNS_OPCODE flags) +:+ nth_name ns_resp (DNS_RCODE flags)
            +:+ (if DNS_AA flags then "*" else EmptyString) +:+ (if DNS_RA flags then EmptyString else "-")
            +:+ (if DNS_TC flags then "|" else EmptyString) +:+ (if DNS_AD flags then "$" else EmptyString)) ;~
  print_if (negb (qd =? 1)) (" [" +:+ dec qd +:+ "q]") ;~
  cp <~ response_questions (Z.to_nat qd) true (bp + sizeof_dns_header) bp is_mdns ;;
  ND_PRINT (" " +:+ dec an +:+ "/" +:+ dec ns +:+ "/" +:+ dec ar) ;~
  cp1 <~ section_print (Z.to_nat an) cp bp is_mdns ;;
  v <~ flag f_vflag ;;
  if v >? 1 then
    cp2 <~ named_section " ns:" (Z.to_nat ns) cp1 bp is_mdns ;;
    _ <~ named_section " ar:" (Z.to_nat ar) cp2 bp is_mdns ;; pret tt
  else pret tt.

Definition request_print (bp id flags qd an ns ar : Z) (is_mdns : bool) : pr unit :=
  ND_PRINT (dec id +:+ nth_name ns_ops (DNS_OPCODE flags) +:+ (if DNS_RD flags then "+" else EmptyString)
            +:+ (if DNS_CD flags then "%" else EmptyString)) ;~
  print_if (dns_bit flags 0x6cf) (" [b2&3=0x" +:+ hex flags +:+ "]") ;~
  (if DNS_OPCODE flags =? IQUERY then
     print_if (negb (qd =? 0)) (" [" +:+ dec qd +:+ "q]") ;~ print_if (negb (an =? 1)) (" [" +:+ dec an +:+ "a]")
   else
     print_if (negb (an =? 0)) (" [" +:+ dec an +:+ "a]") ;~ print_if (negb (qd =? 1)) (" [" +:+ dec qd +:+ "q]")) ;~
  print_if (negb (ns =? 0)) (" [" +:+ dec ns +:+ "n]") ;~
  print_if (negb (ar =? 0)) (" [" +:+ dec ar +:+ "au]") ;~
  cp <~ request_questions (Z.to_nat qd) (bp + sizeof_dns_header) bp is_mdns ;;
  v <~ flag f_vflag ;;
  if v >? 1 then
    cp1 <~ section_print (Z.to_nat an) cp bp is_mdns ;;
    cp2 <~ named_section " ns:" (Z.to_nat ns) cp1 bp is_mdns ;;
    _ <~ named_section " ar:" (Z.to_nat ar) cp2 bp is_mdns ;; pret tt
  else pret tt.

Definition domain_print (bp length : Z) (is_mdns : bool) : pr unit :=
  set_protocol "domain" ;~
  on_trunc (
    ND_TCHECK_LEN bp sizeof_dns_header ;~
    id <~ EXTRACT_BE_U_2 bp ;;
    flags <~ EXTRACT_BE_U_2 (bp + 2) ;;
    qd <~ EXTRACT_BE_U_2 (bp + 4) ;;
    an <~ EXTRACT_BE_U_2 (bp + 6) ;;
    ns <~ EXTRACT_BE_U_2 (bp + 8) ;;
    ar <~ EXTRACT_BE_U_2 (bp + 10) ;;
    (if DNS_QR flags then response_print bp id flags qd an ns ar is_mdns
     else request_print bp id flags qd an ns ar is_mdns) ;~
    ND_PRINT (" (" +:+ dec length +:+ ")"))
  nd_print_trunc.

(** ** Rules *)

(** A result that is no null pointer satisfies [P]. *)
Definition when_some {A} (P : A -> Prop) (r : option A) : Prop := match r with Some a => P a | None => True end.

Section rules.
Context (T : bool) (s0 : netdissect_options) (Hok : ndo_ok s0).

Lemma safe_need {A} p l (k : pr (option A)) P :
  l < 2 ^ 64 -> (0 <= l -> p + l <= ndo_snapend s0 -> safe T s0 k (when_some P)) -> safe T s0 (ND_NEED p l k) (when_some P).
Proof.
  intros Hl Hk. unfold ND_NEED. eapply safe_bind; [by apply safe_ttest|]. intros [] Hb; [|by apply safe_ret].
  destruct Hb; auto.
Qed.

Lemma safe_pobind {A B} (m : pr (option A)) (k : A -> pr (option B)) R P :
  safe T s0 m (when_some R) -> (forall a, R a -> safe T s0 (k a) (when_some P)) -> safe T s0 (pobind m k) (when_some P).
Proof. intros Hm Hk. unfold pobind. eapply safe_bind; [exact Hm|]. intros [a|] Ha; [by apply Hk|by apply safe_ret]. Qed.

Lemma safe_captured_fuel {A} (m : nat -> pr A) Q :
  (forall fuel, Z.of_nat fuel = Z.of_nat (length (ndo_packet s0)) + 1 -> safe T s0 (m fuel) Q) -> safe T s0 (captured_fuel m) Q.
Proof.
  intros Hm s Hs. unfold captured_fuel. destruct (Hs) as (Hp & _). rewrite Hp. apply Hm; [lia|done].
Qed.

Lemma safe_print_if b str : clean str = true -> safe T s0 (print_if b str) (fun _ => True).
Proof. intros Hc. unfold print_if. destruct b; [by apply safe_print|by apply safe_ret]. Qed.

Lemma safe_or_null {A} (m : pr (option A)) P : T = true -> safe T s0 m (when_some P) -> safe T s0 (or_trunc m) P.
Proof. intros HT Hm. unfold or_trunc. eapply safe_bind; [exact Hm|]. intros [a|] Ha; [by apply safe_ret|by apply safe_trunc]. Qed.
End rules.

(** Steps of the printers of this file. *)
Ltac dom_step :=
  cbv beta zeta in *;
  lazymatch goal with
  | |- safe _ _ (ND_NEED _ _ _) _ => apply safe_need; [assumption|lia|intros ? ?]
  | |- safe _ _ (pbind (print_if _ _) _) _ => eapply safe_bind; [apply safe_print_if; clean_tac|intros ? ?; cbv beta in *]
  | _ => safe_step
  end.
Ltac dom_steps := repeat dom_step.

(** ** Safety *)

Section Safety.
Context (s0 : netdissect_options) (Hok : ndo_ok s0).
Abbreviation ptr := (when_some (fun p : Z => 0 <= p)).

Lemma bit_count_range b : 0 <= b < 256 -> 0 < bit_count b <= 256.
Proof. unfold bit_count. case_test; lia. Qed.

Lemma bit_bytes b : 0 <= b < 256 -> 0 < bit_count b <= 256 /\ 0 <= (bit_count b + 7) / 8 <= 32 /\ 0 <= (bit_count b + 3) / 4 <= 64.
Proof.
  intros Hb. pose proof (bit_count_range b Hb). pose proof (Z.div_pos (bit_count b + 7) 8). pose proof (Z.div_pos (bit_count b + 3) 4).
  pose proof (Z.div_lt_upper_bound (bit_count b + 7) 8 33). pose proof (Z.div_lt_upper_bound (bit_count b + 3) 4 65). lia.
Qed.

Lemma safe_nskip_loop T fuel : forall i cp, 0 <= i < 256 -> 0 <= cp -> ndo_snapend s0 - cp < Z.of_nat fuel -> 0 < Z.of_nat fuel ->
  safe T s0 (nskip_loop fuel i cp) ptr.
Proof.
  induction fuel as [|fuel IH]; intros i cp Hi Hcp Hf Hf0; [lia|]. cbn [nskip_loop].
  assert (Hnext : forall cp', cp <= cp' -> safe T s0 (ND_NEED cp' 1 (i' <~ EXTRACT_U_1 cp' ;; nskip_loop fuel i' (cp' + 1))) ptr).
  { intros cp' Hc. dom_step. safe_step. apply IH; lia. }
  do 2 (safe_step; [safe_step; cbn; lia|]). safe_step; [|apply Hnext; lia].
  safe_step; [by safe_step|]. dom_step. safe_step. pose proof (bit_bytes a ltac:(lia)). apply Hnext. lia.
Qed.

Lemma safe_nskip T cp : 0 <= cp -> safe T s0 (ns_nskip cp) ptr.
Proof.
  intros Hcp. unfold ns_nskip. dom_step. safe_step. apply safe_captured_fuel. intros fuel Hf. destruct Hok as (_ & _ & Hs & _).
  apply safe_nskip_loop; lia.
Qed.

Lemma safe_blabel_loop n bitp lim b : 0 <= bitp -> 0 <= b ->
  safe true s0 (blabel_loop n bitp lim b) (fun r => 0 <= r.1 /\ 0 <= r.2 <= b).
Proof.
  revert bitp b. induction n as [|n IH]; intros bitp b Hp Hb; cbn [blabel_loop]; [by apply safe_ret|].
  safe_step; [|by apply safe_ret]. do 3 safe_step. eapply safe_weaken; [apply IH; lia|]. cbv beta. intros r Hr. lia.
Qed.

(** All whole bytes are read, so that less than eight bits are left. *)
Lemma safe_blabel T cp : 0 <= cp -> safe T s0 (blabel_print cp) ptr.
Proof.
  intros Hcp. unfold blabel_print. dom_step. safe_step. pose proof (bit_bytes a ltac:(lia)) as (Hn & _ & Hl).
  apply safe_on_trunc.
  - safe_step. eapply safe_bind; [apply safe_blabel_loop; lia|]. intros [bitp b] [Hp Hb]. cbn [fst snd] in *.
    assert (Htail : safe true s0 (ND_PRINT ("/" +:+ dec (bit_count a) +:+ "]") ;~ pret (Some (cp + 1 + (bit_count a + 3) / 4))) ptr)
      by (safe_step; safe_step; cbn; lia).
    repeat match goal with |- safe _ _ (pbind (if ?x then _ else _) _) _ => destruct x eqn:?; bool_to_prop end.
    + eapply safe_bind; [|intros; exact Htail]. do 2 safe_step. eapply safe_weaken; [apply safe_print|done].
      apply clean_hex_pad. apply Z.land_nonneg. lia.
    + eapply safe_bind; [|intros; exact Htail]. do 2 safe_step. eapply safe_weaken; [apply safe_print|done].
      apply clean_hex. apply Z.land_nonneg. left. apply Z.land_nonneg. right. lia.
    + eapply (safe_bind _ _ _ _ (fun _ => True)); [by apply safe_ret|intros; exact Htail].
  - safe_step. by safe_step.
Qed.

Lemma safe_labellen T cp : 0 <= cp -> safe T s0 (labellen cp) ptr.
Proof.
  intros Hcp. unfold labellen. dom_step. safe_step. safe_step; [|safe_step; cbn; lia]. safe_step; [safe_step; by safe_step|].
  dom_step. safe_step. safe_step. pose proof (bit_bytes a0 ltac:(lia)). cbn. lia.
Qed.

Lemma safe_next_label {A} T cp (k : Z -> Z -> pr (option A)) P : 0 <= cp ->
  (forall l i, 0 <= l -> 0 <= i < 256 -> cp < ndo_snapend s0 -> safe T s0 (k l i) (when_some P)) -> safe T s0 (next_label cp k) (when_some P).
Proof.
  intros Hcp Hk. unfold next_label. eapply safe_pobind; [by apply safe_labellen|]. intros l Hl. dom_step. safe_step. apply Hk; lia.
Qed.

Lemma safe_nd_printn T cp n e : 0 <= cp -> 0 <= e <= ndo_snapend s0 -> safe T s0 (nd_printn cp n (Some e)) (fun _ => True).
Proof.
  intros Hcp He. unfold nd_printn. generalize (Z.to_nat n) as k. intros k. revert cp Hcp. induction k as [|k IH]; intros cp Hcp; [by apply safe_ret|].
  cbn [nd_printn_loop before]. safe_step; [|by safe_step]. safe_step. eapply safe_bind; [by apply safe_print_char|]. intros _ _. apply IH. lia.
Qed.

Lemma safe_print_label T i l cp : 0 <= cp -> safe T s0 (print_label i l cp) (when_some (fun _ => True)).
Proof.
  intros Hcp. unfold print_label. safe_step.
  - safe_step; [|safe_step; by safe_step]. eapply safe_pobind; [by apply safe_blabel|]. intros. by safe_step.
  - safe_step. eapply safe_bind; [by apply safe_nd_printn|]. intros r _. safe_step. by destruct (r =? 0).
Qed.

(** The state of the loop, with room for [jumps] jumps. *)
Definition name_ok (jumps : nat) (st : name_state) : Prop :=
  0 <= n_i st < 256 /\ 0 <= n_l st /\ 0 < n_cp st /\ ptr (n_rp st) /\ Z.min (n_max st) 0x4000 <= Z.of_nat jumps.

Lemma safe_name_step T bp st jumps : 0 <= bp -> name_ok jumps st ->
  safe T s0 (name_step bp st) (fun r => match r with
    | NameEnd rp => ptr rp
    | NameNext st' => name_ok jumps st' /\ n_cp st < n_cp st' /\ n_cp st < ndo_snapend s0
    | NameJump st' => exists jumps', jumps = S jumps' /\ name_ok jumps' st'
    end).
Proof.
  intros Hbp (Hi & Hl & Hcp & Hrp & Hmax). unfold name_step. safe_step. safe_step; [by safe_step|].
  assert (Hcpe : n_cp st < ndo_snapend s0) by lia.
  eapply (safe_bind _ _ _ _ (when_some (fun r => match r with
    | NameEnd rp => ptr rp
    | NameNext st' => name_ok jumps st' /\ n_cp st < n_cp st'
    | NameJump st' => exists jumps', jumps = S jumps' /\ name_ok jumps' st'
    end))); [|intros [[]|] Hr; safe_step; cbn in *; naive_solver].
  safe_step.
  - dom_step. safe_step. match goal with |- context [Z.land ?x 0x3fff] => set (off := Z.land x 0x3fff) end.
    assert (Hoff : 0 <= off < 0x4000).
    { unfold off. change 0x3fff with (2 ^ 14 - 1). rewrite land_mask by lia. by apply Z.mod_pos_bound. }
    safe_step; [safe_step; by safe_step|].
    apply safe_next_label; [lia|]. intros l i Hl' Hi' _. safe_step. cbn. destruct jumps as [|jumps]; [lia|]. exists jumps. split; [done|].
    unfold name_ok. cbn. split_and!; try lia. destruct (n_compress st); [done|]. cbn. lia.
  - eapply safe_pobind; [apply safe_print_label; lia|]. intros _ _. safe_step. apply safe_next_label; [lia|]. intros l i Hl' Hi' _. safe_step.
    cbn. unfold name_ok. cbn. split_and!; try lia. destruct (n_compress st); [done|]. destruct (n_rp st); cbn in *; lia.
Qed.

Lemma safe_name_loop T bp bytes : ndo_snapend s0 < Z.of_nat bytes -> 0 <= bp -> forall jumps k st,
  name_ok jumps st -> ndo_snapend s0 - n_cp st < Z.of_nat k -> 0 < Z.of_nat k -> safe T s0 (name_loop bp bytes jumps k st) ptr.
Proof.
  intros Hbytes Hbp. induction jumps as [|jumps IHj]; intros k; induction k as [|k IHk]; intros st Hst Hk Hk0; try lia;
    cbn [name_loop]; (eapply safe_bind; [by apply safe_name_step|]); intros [rp|st'|st'] Hr; try (by apply safe_ret).
  - destruct Hr as (Hst' & Hlt & Hc). apply IHk; [done|lia|lia].
  - by destruct Hr as (? & ? & _).
  - destruct Hr as (Hst' & Hlt & Hc). apply IHk; [done|lia|lia].
  - destruct Hr as (j & [= <-] & Hst'). apply IHj; [done|destruct Hst' as (_ & _ & ? & _); lia|destruct Hok as (_ & _ & ? & _); lia].
Qed.

Lemma safe_nprint T cp bp : 0 <= bp -> 0 <= cp -> safe T s0 (ns_nprint cp bp) ptr.
Proof.
  intros Hbp Hcp0. unfold ns_nprint. apply safe_next_label; [lia|]. intros l i Hl Hi Hcp. destruct Hok as (Hb & Hlim & Hs & _).
  assert (Hrp : ptr (if negb (Z.land i INDIR_MASK =? INDIR_MASK) then Some (cp + 1 + l) else None)) by (case_test; cbn; lia || done).
  safe_step; [|safe_step; by safe_step]. apply safe_captured_fuel. intros fuel Hf. apply safe_name_loop; [lia|lia| |cbn; lia|lia].
  unfold name_ok, MAX_JUMPS. cbn [n_i n_l n_cp n_rp n_max]. split_and!; try done; lia.
Qed.

Lemma clean_relts_text units : forallb (fun u => clean u.1) units = true -> forall secs, clean (relts_text units secs) = true.
Proof.
  induction units as [|[l u] units IH]; intros Hu secs; [done|]. cbn [forallb] in Hu. apply andb_prop in Hu as [Hl Hu]. cbn [relts_text fst] in *.
  apply clean_app2; [|by apply IH]. case_test; [done|]. apply clean_app2; [apply clean_dec|done].
Qed.

Lemma safe_relts T secs : 0 <= secs < 2 ^ 32 -> safe T s0 (unsigned_relts_print secs) (fun _ => True).
Proof.
  intros Hs. unfold unsigned_relts_print. safe_step; [by safe_step|]. intros s Hext.
  change relts_units with ((take 5 relts_units) ++ [("s"%string, 1)]). rewrite relts_loop_text; [|by repeat constructor|done].
  split; [|done]. apply ndo_ext_emit; [|done]. by apply clean_relts_text.
Qed.

Lemma clean_type_name t : clean (type_name t) = true.
Proof. apply clean_tok2str; [by vm_compute|]. cbn. clean_tac. Qed.

Lemma clean_class_name c : clean (class_name c) = true.
Proof. apply clean_tok2str; [by vm_compute|]. cbn. clean_tac. Qed.

Lemma clean_nth_name l i : forallb clean l = true -> clean (nth_name l i) = true.
Proof.
  intros Hl. unfold nth_name. destruct (l !! Z.to_nat i) as [x|] eqn:E; [|done]. rewrite forallb_forall in Hl. apply Hl.
  apply list_elem_of_In. by eapply list_elem_of_lookup_2.
Qed.

Lemma clean_addr6 l : bytes_ok l = true -> (16 <= length l)%nat -> clean (addr6_text l) = true.
Proof. intros Hb Hl. unfold addr6_text. by destruct (addrtostr6_total l Hb Hl) as (x & -> & Hx). Qed.

#[local] Hint Resolve clean_type_name clean_class_name : clean.

Lemma safe_cprint T cp : 0 <= cp -> safe T s0 (ns_cprint cp) (when_some (fun p => cp < p)).
Proof.
  intros Hcp. unfold ns_cprint. dom_step. safe_step. safe_step. eapply safe_bind; [apply safe_nd_printn; lia|]. intros r _.
  safe_step. destruct (r =? 0); cbn; [lia|done].
Qed.

Lemma safe_qprint T cp bp m : 0 <= bp -> 0 <= cp -> safe T s0 (ns_qprint cp bp m) ptr.
Proof.
  intros Hbp Hcp. unfold ns_qprint. eapply safe_pobind; [apply safe_nskip; lia|]. intros cp1 Hcp1. dom_step. do 6 dom_step.
  eapply safe_pobind; [by apply safe_nprint|]. intros cp2 Hcp2. dom_step. cbn in *. lia.
Qed.

Lemma safe_txt_loop T fuel : forall cp rp, 0 <= cp -> rp <= ndo_snapend s0 -> rp - cp < Z.of_nat fuel -> 0 < Z.of_nat fuel ->
  safe T s0 (txt_loop fuel cp rp) (when_some (fun _ => True)).
Proof.
  induction fuel as [|fuel IH]; intros cp rp Hcp Hrp Hf Hf0; [lia|]. cbn [txt_loop]. safe_step; [|by safe_step].
  safe_step. eapply safe_pobind; [by apply safe_cprint|]. intros cp1 Hcp1. cbv beta in *. safe_step. apply IH; lia.
Qed.

Lemma safe_u4_list T n cp : readable s0 cp (4 * Z.of_nat n) -> safe T s0 (u4_list n cp) (fun _ => True).
Proof.
  revert cp. induction n as [|n IH]; intros cp Hr; cbn [u4_list]; [by safe_step|]. do 2 safe_step. apply IH.
  apply (readable_sub _ _ _ _ _ Hr); lia.
Qed.

Lemma safe_named_u2 T name cp k : 0 <= cp -> clean name = true ->
  (forall v, 0 <= v < 65536 -> safe T s0 (k v) (when_some (fun _ => True))) -> safe T s0 (named_u2 name cp k) (when_some (fun _ => True)).
Proof. intros Hcp Hn Hk. unfold named_u2. dom_step. safe_step. safe_step. by apply Hk. Qed.

Lemma safe_a6 T cp bp : 0 <= bp -> 0 <= cp -> safe T s0 (a6_data cp bp) (when_some (fun _ => True)).
Proof.
  intros Hbp Hcp. unfold a6_data. dom_step. safe_step. safe_step; [safe_step; by safe_step|].
  assert (Hb : 0 <= a / 8 <= 16) by (split; [apply Z.div_pos|apply Z.lt_succ_r, Z.div_lt_upper_bound]; lia).
  eapply (safe_pobind _ _ _ _ (fun _ => True)).
  - safe_step; [|by safe_step]. dom_step. safe_step. match goal with H : mem_read _ _ _ = Some ?x /\ _ |- _ => destruct H as (_ & Hl & Hby); rename x into data end.
    eapply safe_bind; [apply safe_print|intros; by safe_step]. repeat (apply clean_app2; [by clean_tac|]). apply clean_addr6.
    + apply bytes_ok_app_true; [|done]. generalize (Z.to_nat (a / 8)). clear. induction n; done.
    + rewrite length_app, length_replicate. lia.
  - intros _ _. safe_step; [|by safe_step]. safe_step. eapply safe_pobind; [apply safe_nprint; lia|]. intros. by safe_step.
Qed.

Lemma safe_tsig T cp bp len : 0 <= bp -> 0 <= cp -> safe T s0 (tsig_data cp bp len) (when_some (fun _ => True)).
Proof.
  intros Hbp Hcp. unfold tsig_data. safe_step. safe_step; [by safe_step|]. safe_step. safe_step; [by safe_step|]. safe_step.
  eapply safe_pobind; [by apply safe_nprint|]. intros cp1 Hcp1. cbv beta in *.
  repeat (apply safe_named_u2; [lia|done|intros ? ?]). by safe_step.
Qed.

Lemma safe_rdata T typ class fl cp bp len rp : 0 <= bp -> 0 <= cp -> 0 <= len < 65536 -> rp <= ndo_snapend s0 ->
  safe T s0 (rdata_print typ class fl cp bp len rp) (when_some (fun _ => True)).
Proof.
  intros Hbp Hcp Hlen Hrp.
  assert (Hname : forall q, 0 <= q -> safe T s0 (_ <~? ns_nprint q bp ;; pret (Some tt)) (when_some (fun _ => True))).
  { intros q Hq. eapply safe_pobind; [apply safe_nprint; lia|]. intros. by safe_step. }
  unfold rdata_print. dom_step; [|dom_step; [|dom_step; [|dom_step; [|dom_step; [|dom_step; [|dom_step; [|dom_step; [|dom_step; [|dom_step; [|dom_step]]]]]]]]]].
  - dom_step. safe_step. eapply safe_bind; [apply safe_print|intros; by safe_step]. apply clean_app2; [done|apply clean_intoa].
  - dom_step. by apply Hname.
  - dom_step. dom_step; [by dom_step|]. dom_step. eapply safe_pobind; [by apply safe_nprint|]. intros cp1 Hcp1. dom_step.
    eapply safe_pobind; [by apply safe_nprint|]. intros cp2 Hcp2. dom_step. eapply safe_bind; [apply safe_u4_list; readable_tac|intros; by safe_step].
  - dom_step. dom_step. eapply safe_pobind; [apply safe_nprint; lia|]. intros. dom_step. dom_step. by safe_step.
  - apply safe_captured_fuel. intros fuel Hf. destruct Hok as (_ & _ & Hs & _). apply safe_txt_loop; lia.
  - dom_step. dom_step. eapply safe_pobind; [apply safe_nprint; lia|]. intros. do 4 dom_step. by safe_step.
  - dom_step. safe_step. eapply safe_bind; [apply safe_print|intros; by safe_step]. apply clean_app2; [done|].
    match goal with H : mem_read _ _ _ = Some _ /\ _ |- _ => destruct H as (_ & Hl & Hby) end. apply clean_addr6; [done|lia].
  - by apply safe_a6.
  - do 2 dom_step. by safe_step.
  - dom_step. dom_step. eapply safe_bind; [apply safe_nd_printn; lia|]. intros r _. safe_step. by destruct (r =? 0).
  - by apply safe_tsig.
  - by safe_step.
Qed.

Lemma safe_rr T cp bp m : 0 <= bp -> 0 <= cp -> readable s0 cp 10 -> safe T s0 (rr_print cp bp m) ptr.
Proof.
  intros Hbp Hcp Hr. unfold rr_print. do 5 dom_step.
  eapply (safe_bind _ _ _ _ (fun _ => True)).
  { safe_step; [eapply safe_weaken; [by apply safe_u2; [|readable_tac]|done]|]. safe_step; [|by safe_step]. do 2 safe_step.
    eapply safe_bind; [apply safe_relts; lia|]. intros _ _. safe_step. by safe_step. }
  intros fl _. do 3 dom_step. dom_step; [by dom_step|].
  eapply safe_pobind; [apply safe_rdata; lia|]. intros _ _. dom_step. cbn. lia.
Qed.

Lemma safe_rprint T cp bp m : 0 <= bp -> 0 <= cp -> safe T s0 (ns_rprint cp bp m) ptr.
Proof.
  intros Hbp Hcp. unfold ns_rprint.
  assert (He : safe T s0 (e <~ asks ndo_snapend ;; pret (Some e)) ptr) by (safe_step; safe_step; cbn; lia).
  safe_step. safe_step.
  - eapply safe_bind; [by apply safe_nskip|]. intros [cp1|] Hcp1; cbn [when_some] in Hcp1.
    + safe_step. match goal with |- context [match ?b with true => _ | false => _ end] => destruct b end; [|exact He].
      use_tests. apply safe_rr; try lia. readable_tac.
    + eapply (safe_bind _ _ _ _ (fun b => b = false)); [by apply safe_ret|]. intros ? ->. exact He.
  - safe_step. eapply safe_pobind; [by apply safe_nprint|]. intros cp1 Hcp1. dom_step. dom_step; [|exact He]. apply safe_rr; try lia. readable_tac.
Qed.

Lemma safe_response_questions n first cp bp m : 0 <= bp -> 0 <= cp -> safe true s0 (response_questions n first cp bp m) (fun p => 0 <= p).
Proof.
  revert first cp. induction n as [|n IH]; intros first cp Hbp Hcp; cbn [response_questions]; [by safe_step|]. dom_step. safe_step.
  eapply (safe_bind _ _ _ _ (fun p => 0 <= p)); [|intros cp1 Hcp1; by apply IH]. safe_step.
  - safe_step. apply safe_or_null; [done|]. by apply safe_qprint.
  - eapply safe_bind; [apply safe_or_null; [done|by apply safe_nskip]|]. intros c Hc. cbv beta in *. safe_step. lia.
Qed.

Lemma safe_more_records n cp bp m : 0 <= bp -> 0 <= cp -> safe true s0 (more_records n cp bp m) (fun r => 0 <= r.1).
Proof.
  revert cp. induction n as [|n IH]; intros cp Hbp Hcp; cbn [more_records]; [by safe_step|]. safe_step. safe_step; [|by safe_step]. safe_step.
  eapply safe_bind; [apply safe_or_null; [done|by apply safe_rprint]|]. intros c Hc. by apply IH.
Qed.

Lemma safe_more_questions n cp bp m : 0 <= bp -> 0 <= cp -> safe true s0 (more_questions n cp bp m) (fun r => 0 <= r.1).
Proof.
  revert cp. induction n as [|n IH]; intros cp Hbp Hcp; cbn [more_questions]; [by safe_step|]. safe_step. safe_step; [|by safe_step].
  eapply safe_bind; [apply safe_or_null; [done|by apply safe_qprint]|]. intros c Hc. by apply IH.
Qed.

Lemma safe_all_read (m : pr (Z * nat)) :
  safe true s0 m (fun r => 0 <= r.1) ->
  safe true s0 (r <~ m ;; let '(cp1, rest) := r in if (rest =? 0)%nat then pret cp1 else pstop Trunc) (fun p => 0 <= p).
Proof.
  intros Hm. eapply safe_bind; [exact Hm|]. intros [cp1 rest] Hr. cbn [fst] in Hr. destruct (rest =? 0)%nat; by safe_step.
Qed.

Lemma safe_section n cp bp m : 0 <= bp -> 0 <= cp -> safe true s0 (section_print n cp bp m) (fun p => 0 <= p).
Proof.
  intros Hbp Hcp. apply safe_all_read. destruct n as [|n]; [by safe_step|].
  eapply safe_bind; [apply safe_or_null; [done|by apply safe_rprint]|]. intros c Hc. by apply safe_more_records.
Qed.

Lemma safe_request_questions n cp bp m : 0 <= bp -> 0 <= cp -> safe true s0 (request_questions n cp bp m) (fun p => 0 <= p).
Proof.
  intros Hbp Hcp. apply safe_all_read. destruct n as [|n]; [by safe_step|].
  eapply safe_bind; [apply safe_or_null; [done|by apply safe_qprint]|]. intros c Hc. by apply safe_more_questions.
Qed.

Lemma safe_named_section name n cp bp m : clean name = true -> 0 <= bp -> 0 <= cp -> safe true s0 (named_section name n cp bp m) (fun p => 0 <= p).
Proof.
  intros Hn Hbp Hcp. unfold named_section. safe_step. destruct ((cp <? a) && negb (n =? 0)%nat).
  - safe_step. by apply safe_section.
  - destruct (n =? 0)%nat; by safe_step.
Qed.

Lemma clean_ops i : clean (nth_name ns_ops i) = true.
Proof. apply clean_nth_name. by vm_compute. Qed.
Lemma clean_resp i : clean (nth_name ns_resp i) = true.
Proof. apply clean_nth_name. by vm_compute. Qed.
#[local] Hint Resolve clean_ops clean_resp : clean.

Lemma safe_authority ns ar cp bp m : 0 <= bp -> 0 <= cp ->
  safe true s0 (cp2 <~ named_section " ns:" ns cp bp m ;; _ <~ named_section " ar:" ar cp2 bp m ;; pret tt) (fun _ => True).
Proof.
  intros Hbp Hcp. eapply safe_bind; [by apply safe_named_section|]. intros cp2 Hcp2. cbv beta in *.
  eapply safe_bind; [by apply safe_named_section|]. intros _ _. by safe_step.
Qed.

Lemma safe_response bp id flags qd an ns ar m : 0 <= bp -> safe true s0 (response_print bp id flags qd an ns ar m) (fun _ => True).
Proof.
  intros Hbp. unfold response_print. safe_step. dom_step.
  eapply safe_bind; [apply safe_response_questions; unfold sizeof_dns_header; lia|]. intros cp Hcp. cbv beta in *. safe_step.
  eapply safe_bind; [by apply safe_section|]. intros cp1 Hcp1. cbv beta in *. safe_step. safe_step; [|by safe_step]. by apply safe_authority.
Qed.

Lemma safe_request bp id flags qd an ns ar m : 0 <= bp -> 0 <= flags -> safe true s0 (request_print bp id flags qd an ns ar m) (fun _ => True).
Proof.
  intros Hbp Hfl. unfold request_print. safe_step. dom_step. eapply (safe_bind _ _ _ _ (fun _ => True)).
  { destruct (DNS_OPCODE flags =? IQUERY); dom_step; apply safe_print_if; clean_tac. }
  intros _ _. do 2 dom_step. eapply safe_bind; [apply safe_request_questions; unfold sizeof_dns_header; lia|]. intros cp Hcp. cbv beta in *.
  safe_step. safe_step; [|by safe_step]. eapply safe_bind; [by apply safe_section|]. intros cp1 Hcp1. cbv beta in *. by apply safe_authority.
Qed.

Lemma safe_domain T bp length m : 0 <= bp -> safe T s0 (domain_print bp length m) (fun _ => True).
Proof.
  intros Hbp. unfold domain_print, sizeof_dns_header. safe_step. apply safe_on_trunc; [|apply safe_print_trunc].
  do 7 safe_step. eapply (safe_bind _ _ _ _ (fun _ => True)).
  { safe_step; [by apply safe_response|apply safe_request; lia]. }
  intros _ _. by safe_step.
Qed.
End Safety.

(** ** Compressed names *)

Section Names.
Context (s : netdissect_options) (bp : Z).
Abbreviation byte_at p b := (mem_read (ndo_packet s) p 1 = Some [b]).

(** The captured packet holds a name at [cp]: labels up to a zero byte, or up to a pointer
    to a name that starts before [max]; the name ends before the last number. *)
Inductive name_at : Z -> Z -> list (list Z) -> Z -> Prop :=
  | name_at_end max cp : 0 <= cp < ndo_snapend s -> byte_at cp 0 -> name_at max cp [] (cp + 1)
  | name_at_label max cp lab labs r :
      0 <= cp -> 0 < Z.of_nat (length lab) < 64 -> byte_at cp (Z.of_nat (length lab)) ->
      mem_read (ndo_packet s) (cp + 1) (Z.of_nat (length lab)) = Some lab -> bytes_ok lab = true ->
      name_at max (cp + 1 + Z.of_nat (length lab)) labs r -> name_at max cp (lab :: labs) r
  | name_at_pointer max cp hi lo labs r :
      0 <= cp -> cp + 1 < ndo_snapend s -> 0 <= hi < 64 -> 0 <= lo < 256 -> byte_at cp (0xc0 + hi) -> byte_at (cp + 1) lo ->
      256 * hi + lo < max -> name_at (256 * hi + lo) (bp + (256 * hi + lo)) labs r -> name_at max cp labs (cp + 2).

(** Every label with a dot after it. *)
Definition labels_text (labs : list (list Z)) : string := foldr (fun lab t => vis_bytes lab +:+ "." +:+ t) EmptyString labs.

Lemma name_at_start max cp labs r : name_at max cp labs r -> 0 <= cp < ndo_snapend s.
Proof.
  induction 1 as [| ? ? lab ? ? ? Hl ? ? ? ? IH|]; lia.
Qed.

Context (Hok : ndo_ok s) (Hbp : 0 <= bp).

Lemma run_need_at {A} p n (k : pr (option A)) t : 0 <= p -> 0 <= n -> p + n <= ndo_snapend s -> ND_NEED p n k (emit t s) = k (emit t s).
Proof.
  intros Hp Hn Hpn. unfold ND_NEED, pbind, ND_TTEST_LEN, asks. by rewrite (ttest_len_complete (emit t s)).
Qed.

Lemma run_byte p b t : byte_at p b -> EXTRACT_U_1 p (emit t s) = (Done b, emit t s).
Proof. intros Hb. unfold EXTRACT_U_1, pbind, load. cbn [emit ndo_packet]. rewrite Hb. unfold pret. by rewrite be_val_1. Qed.

(** A first byte that is no bit label. *)
Definition plain_first (b : Z) : Prop := 0 <= b < 64 \/ 0xc0 <= b < 256.

Lemma plain_first_masks b : plain_first b ->
  (Z.land b INDIR_MASK =? EDNS0_MASK) = false /\ (Z.land b INDIR_MASK =? INDIR_MASK) = (0xc0 <=? b).
Proof.
  intros Hb. assert (Hr : 0 <= b < 256) by (unfold plain_first in Hb; lia).
  apply (byte_cases (fun b => negb ((b <? 64) || (0xc0 <=? b)) ||
    (negb (Z.land b INDIR_MASK =? EDNS0_MASK) && Bool.eqb (Z.land b INDIR_MASK =? INDIR_MASK) (0xc0 <=? b)))) in Hr; [|by vm_compute].
  assert (H1 : (b <? 64) || (0xc0 <=? b) = true) by (unfold plain_first in Hb; apply orb_true_iff; rewrite Z.ltb_lt, Z.leb_le; lia).
  rewrite H1 in Hr. cbn [negb orb] in Hr. apply andb_prop in Hr as [Hr1 Hr2]. by apply negb_true_iff in Hr1; apply eqb_prop in Hr2.
Qed.

Lemma run_next_label {A} cp b (k : Z -> Z -> pr (option A)) t :
  0 <= cp < ndo_snapend s -> byte_at cp b -> plain_first b -> next_label cp k (emit t s) = k b b (emit t s).
Proof.
  intros Hcp Hb Hp. unfold next_label, labellen, pobind. destruct (plain_first_masks b Hp) as [Hm _].
  unfold pbind at 1. rewrite run_need_at by lia. unfold pbind at 1. rewrite (run_byte cp b) by done. rewrite Hm. unfold pret at 1.
  rewrite run_need_at by lia. unfold pbind at 1. by rewrite (run_byte cp b).
Qed.

(** The first byte of a name. *)
Lemma name_at_first max cp labs r : name_at max cp labs r -> exists b, byte_at cp b /\ plain_first b.
Proof.
  intros [|? ? lab ? ? ? ? ? ? ? ?|? ? hi lo ? ? ? ? ? ? ? ? ? ?]; eexists; (split; [eassumption|]); unfold plain_first; lia.
Qed.

Lemma pointer_offset hi lo : 0 <= hi < 64 -> 0 <= lo < 256 ->
  Z.land (Z.lor (Z.shiftl (0xc0 + hi) 8) lo) 0x3fff = 256 * hi + lo.
Proof.
  intros Hh Hl. rewrite Z.shiftl_mul_pow2, lor_high by lia. change 0x3fff with (2 ^ 14 - 1). rewrite land_mask by lia.
  replace ((0xc0 + hi) * 2 ^ 8 + lo) with (256 * hi + lo + 3 * 2 ^ 14) by lia. rewrite Z.mod_add, Z.mod_small; lia.
Qed.

Lemma run_print_label lab cp t :
  0 < Z.of_nat (length lab) < 64 -> 0 <= cp -> cp + Z.of_nat (length lab) <= ndo_snapend s ->
  mem_read (ndo_packet s) cp (Z.of_nat (length lab)) = Some lab -> bytes_ok lab = true ->
  print_label (Z.of_nat (length lab)) (Z.of_nat (length lab)) cp (emit t s) = (Done (Some tt), emit (t +:+ vis_bytes lab) s).
Proof.
  intros Hl Hcp He Hr Hb. unfold print_label. destruct (plain_first_masks (Z.of_nat (length lab))) as [-> _]; [unfold plain_first; lia|].
  unfold pbind, asks, nd_printn. cbn [emit ndo_snapend]. rewrite Nat2Z.id.
  rewrite (nd_printn_loop_text _ (Some (ndo_snapend s)) (emit t s) cp lab).
  - rewrite Nat.eqb_refl. unfold pret. by rewrite emit_emit.
  - split; [|done]. cbn [emit ndo_packet]. unfold avail.
    replace (Z.max 0 _) with (Z.of_nat (length lab)) by lia. done.
Qed.

Lemma run_name_loop bytes (Hbytes : ndo_snapend s < Z.of_nat bytes) max cp labs r : name_at max cp labs r ->
  forall b rp compress jumps k t, byte_at cp b -> Z.min max 0x4000 <= Z.of_nat jumps -> ndo_snapend s - cp <= Z.of_nat k ->
  (compress = false -> b < 0xc0 -> rp = Some (cp + 1 + b)) ->
  name_loop bp bytes jumps k (mk_name b b (cp + 1) rp compress max) (emit t s) =
  (Done (if compress then rp else Some r), emit (t +:+ labels_text labs) s).
Proof.
  induction 1 as [max cp Hcp Hb|max cp lab labs r Hcp Hlen Hb Hr Hok2 Hn IH|max cp hi lo labs r Hcp Hcp1 Hhi Hlo Hb Hb1 Hlt Hn IH];
    intros b rp compress jumps k t Hbyte Hj Hk Hrp; rewrite Hb in Hbyte; injection Hbyte as <-.
  - destruct k as [|k]; [exfalso; lia|]. assert (Hs : name_step bp (mk_name 0 0 (cp + 1) rp compress max) (emit t s) = (Done (NameEnd rp), emit t s)) by done.
    assert (Hl : name_loop bp bytes jumps (S k) (mk_name 0 0 (cp + 1) rp compress max) (emit t s) = (Done rp, emit t s)).
    { destruct jumps; cbn [name_loop]; unfold pbind; by rewrite Hs. }
    rewrite Hl. cbn [labels_text foldr]. rewrite sapp_nil_r. destruct compress; [done|]. rewrite (Hrp eq_refl) by lia. do 3 f_equal. lia.
  - destruct k as [|k]; [exfalso; pose proof (name_at_start _ _ _ _ Hn); lia|]. pose proof (name_at_start _ _ _ _ Hn) as Hst.
    destruct (name_at_first _ _ _ _ Hn) as (b' & Hb' & Hp'). set (n := Z.of_nat (length lab)) in *.
    destruct (plain_first_masks n) as [_ Hm]; [unfold plain_first; lia|].
    assert (Hs : name_step bp (mk_name n n (cp + 1) rp compress max) (emit t s) =
      (Done (NameNext (mk_name b' b' (cp + 1 + n + 1) (if compress then rp else (fun x => x + (b' + 1)) <$> rp) compress max)), emit (t +:+ vis_bytes lab +:+ ".") s)).
    { unfold name_step, pbind at 1, asks. cbn [n_i n_cp n_l n_rp n_compress n_max emit ndo_snapend]. rewrite (proj2 (Z.eqb_neq n 0)) by lia.
      rewrite (proj2 (Z.ltb_lt _ _)) by lia. cbn [negb orb]. rewrite Hm, (proj2 (Z.leb_gt _ _)) by lia.
      pose proof (run_print_label lab (cp + 1) t Hlen ltac:(lia) ltac:(lia) Hr Hok2) as Hpl. fold n in Hpl.
      unfold pobind. unfold pbind at 1 2. rewrite Hpl. unfold pbind at 1, ND_PRINT. rewrite emit_emit.
      rewrite (run_next_label _ b') by done. unfold pret. by rewrite <- sapp_assoc. }
    assert (Hl : forall J, name_loop bp bytes J (S k) (mk_name n n (cp + 1) rp compress max) (emit t s) =
      name_loop bp bytes J k (mk_name b' b' (cp + 1 + n + 1) (if compress then rp else (fun x => x + (b' + 1)) <$> rp) compress max) (emit (t +:+ vis_bytes lab +:+ ".") s)).
    { intros []; cbn [name_loop]; unfold pbind; by rewrite Hs. }
    rewrite Hl, (IH b'); [|done|done|lia|intros -> _; rewrite (Hrp eq_refl) by lia; cbn; f_equal; lia].
    destruct compress; cbn [labels_text foldr]; by rewrite <- !sapp_assoc.
  - pose proof (name_at_start _ _ _ _ Hn) as Hst. destruct k as [|k]; [exfalso; lia|]. destruct (name_at_first _ _ _ _ Hn) as (b' & Hb' & Hp').
    destruct (plain_first_masks (0xc0 + hi)) as [_ Hm]; [unfold plain_first; lia|]. destruct jumps as [|jumps]; [exfalso; lia|].
    set (rp' := if compress then rp else Some (cp + 1 + 1)).
    assert (Hs : name_step bp (mk_name (0xc0 + hi) (0xc0 + hi) (cp + 1) rp compress max) (emit t s) =
      (Done (NameJump (mk_name b' b' (bp + (256 * hi + lo) + 1) rp' true (256 * hi + lo))), emit t s)).
    { unfold name_step, pbind at 1, asks. cbn [n_i n_cp n_l n_rp n_compress n_max emit ndo_snapend]. rewrite (proj2 (Z.eqb_neq (0xc0 + hi) 0)) by lia.
      rewrite (proj2 (Z.ltb_lt _ _)) by lia. cbn [negb orb]. rewrite Hm, (proj2 (Z.leb_le _ _)) by lia.
      unfold pbind at 1. rewrite (run_need_at _ _ _ t) by lia. unfold pbind at 1. rewrite (run_byte (cp + 1) lo) by done. rewrite pointer_offset by done.
      rewrite (proj2 (Z.leb_gt _ _)) by lia. by rewrite (run_next_label _ b'). }
    assert (Hl : name_loop bp bytes (S jumps) (S k) (mk_name (0xc0 + hi) (0xc0 + hi) (cp + 1) rp compress max) (emit t s) =
      name_loop bp bytes jumps bytes (mk_name b' b' (bp + (256 * hi + lo) + 1) rp' true (256 * hi + lo)) (emit t s)).
    { cbn [name_loop]. unfold pbind. by rewrite Hs. }
    rewrite Hl, (IH b'); [|done|lia|lia|done]. unfold rp'. destruct compress; [done|]. do 3 f_equal. lia.
Qed.

(** The whole name: the root is a dot. *)
Lemma run_nprint cp labs r b t : bp <= cp -> ndo_snapend s < 2 ^ 32 -> name_at (cp - bp) cp labs r -> byte_at cp b ->
  ns_nprint cp bp (emit t s) = (Done (Some r), emit (t +:+ (if b =? 0 then "." else labels_text labs)) s).
Proof.
  intros Hcp Hlim Hn Hb. pose proof (name_at_start _ _ _ _ Hn) as Hst. unfold ns_nprint.
  destruct (name_at_first _ _ _ _ Hn) as (b' & Hb' & Hp). rewrite Hb in Hb'. injection Hb' as <-.
  rewrite (run_next_label cp b) by done. destruct (plain_first_masks b Hp) as [_ Hm]. rewrite Hm. cbv zeta.
  destruct (Z.eqb_spec b 0) as [->|Hnz]; cbn [negb].
  - unfold pbind, ND_PRINT, pret. rewrite emit_emit. do 3 f_equal.
    inversion Hn; subst; rewrite Hb in *; simplify_eq; cbn; lia.
  - unfold captured_fuel. destruct Hok as (_ & _ & Hs & _). cbn [emit ndo_packet]. rewrite u32_small by lia.
    inversion Hn as [? ? ? H0|? ? lab labs' ? ? Hl Hb1 ? ? ?|? ? hi lo ? ? ? ? ? ? Hb1 ? ? ?]; subst; rewrite Hb in *; simplify_eq; try done.
    + rewrite (proj2 (Z.leb_gt _ _)) by lia. cbn [negb].
      rewrite (run_name_loop (S (length (ndo_packet s))) ltac:(lia) _ _ _ _ Hn (Z.of_nat (length lab))); [done|done|unfold MAX_JUMPS; lia|lia|done].
    + rewrite (proj2 (Z.leb_le _ _)) by lia. cbn [negb].
      rewrite (run_name_loop (S (length (ndo_packet s))) ltac:(lia) _ _ _ _ Hn (0xc0 + hi)); [done|done|unfold MAX_JUMPS; lia|lia|lia].
Qed.
End Names.

(** ** Claims *)

(** C26. The DNS printer returns on any captured bytes, whatever counts, lengths and pointers
    the message holds and however little of it was captured: it follows a pointer only to an
    earlier part of the message, prints clean text and reads only the packet. *)
Theorem domain_print_safe s bp n is_mdns :
  ndo_ok s -> 0 <= bp -> exists s', domain_print bp n is_mdns s = (Done tt, s') /\ ndo_ext s s'.
Proof.
  intros Hok Hbp. pose proof (safe_domain s Hok false bp n is_mdns Hbp s (ndo_ext_refl s Hok)) as Hs.
  destruct (domain_print bp n is_mdns s) as [[[]|[]] s']; try (by destruct Hs). exists s'. by destruct Hs.
Qed.

(** An answer with a question for www.example and an address for it; the name of the answer
    is a pointer; the name of the second answer, whose address is cut off, is a label and a
    pointer. *)
Definition sample_dns : list Z :=
  [0x12; 0x34; 0x85; 0x80; 0; 1; 0; 2; 0; 0; 0; 0]
    ++ [3; 119; 119; 119; 7; 101; 120; 97; 109; 112; 108; 101; 0; 0; 1; 0; 1]
    ++ [0xc0; 0x0c; 0; 1; 0; 1; 0; 0; 0; 60; 0; 4; 10; 0; 0; 5]
    ++ [3; 102; 116; 112; 0xc0; 0x10; 0; 1; 0; 1; 0; 0; 0; 60; 0; 4; 10; 0].
Definition sample_dns_ndo : netdissect_options :=
  mk_ndo sample_dns 4096 (mk_flags 1 0 1 0 0 0 0 0) (Z.of_nat (length sample_dns)) "" "".

Lemma sample_dns_ok : ndo_ok sample_dns_ndo.
Proof. repeat split; vm_compute; congruence. Qed.

Lemma domain_print_safe_witness :
  exists s', domain_print 0 63 false sample_dns_ndo = (Done tt, s') /\ ndo_ext sample_dns_ndo s' /\
    ndo_out s' = "4660* 2/0/0 www.example. A 10.0.0.5, ftp.example. A [|domain]"%string.
Proof.
  destruct (domain_print_safe sample_dns_ndo 0 63 false sample_dns_ok ltac:(lia)) as (s' & Hrun & Hext).
  exists s'. repeat (split; [assumption|]). replace s' with (snd (domain_print 0 63 false sample_dns_ndo)) by (by rewrite Hrun).
  vm_compute. reflexivity.
Defined.

(** C27. A name of the message at [bp] whose pointers go back is printed as its labels, each
    with a dot behind it, wherever its pointers lead (the root is a dot), and the printer
    goes on behind the name or behind its first pointer. *)
Theorem dns_name_printed s bp cp labs r b :
  ndo_ok s -> 0 <= bp <= cp -> ndo_snapend s < 2 ^ 32 -> name_at s bp (cp - bp) cp labs r -> mem_read (ndo_packet s) cp 1 = Some [b] ->
  exists s', ns_nprint cp bp s = (Done (Some r), s') /\ ndo_packet s' = ndo_packet s /\
    ndo_out s' = ndo_out s +:+ (if b =? 0 then "." else labels_text labs).
Proof.
  intros Hok [Hbp Hcp] Hlim Hn Hb. exists (emit (if b =? 0 then "."%string else labels_text labs) s). split; [|done].
  by rewrite <- (emit_nil s) at 1; rewrite (run_nprint s bp Hok Hbp cp labs r b) by done.
Qed.

Lemma dns_name_printed_witness :
  exists s', ns_nprint 45 0 sample_dns_ndo = (Done (Some 51), s') /\ ndo_out s' = "ftp.example."%string.
Proof.
  destruct (dns_name_printed sample_dns_ndo 0 45 [[102; 116; 112]; [101; 120; 97; 109; 112; 108; 101]] 51 3) as (s' & Hrun & _ & Hout).
  - exact sample_dns_ok.
  - lia.
  - vm_compute. reflexivity.
  - apply (name_at_label _ _ _ _ [102; 116; 112]); [lia|cbn; lia|done|done|done|].
    change 51 with (45 + 1 + Z.of_nat (length [102; 116; 112]) + 2).
    eapply (name_at_pointer _ _ _ _ 0 16); [lia|vm_compute; reflexivity|lia|lia|done|done|cbn; lia|].
    eapply (name_at_label _ _ _ _ [101; 120; 97; 109; 112; 108; 101]); [lia|cbn; lia|done|done|done|].
    apply name_at_end; [vm_compute; split; congruence|done].
  - done.
  - exists s'. split; [exact Hrun|]. rewrite Hout. vm_compute. reflexivity.
Defined.
