(* ===== verification/Ip6Cksum.v ===== *)
(** * The checksum over an IPv6 pseudo header

    Models [ip6_finddst] and [nextproto6_cksum] of [tcpdump/print-ip6.c]: TCP, UDP and ICMPv6
    are summed with the addresses of the IPv6 header, the destination being the last one of a
    routing header, which is looked for behind the other extension headers. *)
From stdpp Require Import base list numbers strings.
From Stdlib Require Import ZArith Lia Ascii.
From S2P Require Import Prelude Cstring OnesComp InCksum Netdissect UtilPrint IpProto PrintIp.

Open Scope Z_scope.

Definition IPV6_RTHDR_TYPE_0 : Z := 0.
Definition IPV6_RTHDR_TYPE_2 : Z := 2.
Definition IPV6_RTHDR_TYPE_4 : Z := 4.
Definition sizeof_ip6_frag : Z := 8.
Definition sizeof_ip6_rthdr : Z := 4.

(** The headers with a length byte behind the next header byte. *)
Definition has_length_byte (nh : Z) : bool :=
  (nh =? IPPROTO_HOPOPTS) || (nh =? IPPROTO_DSTOPTS) || (nh =? IPPROTO_MOBILITY_OLD) || (nh =? IPPROTO_MOBILITY).

(** [for (i = 0; i < len; i++)] over the addresses of a routing header. A jump to [trunc:]
    keeps the address found so far. *)
Fixpoint route_addrs (len : nat) (p dst_addr : Z) : pr Z :=
  match len with
  | O => pret dst_addr
  | S n => t <~ ND_TTEST_LEN p 16 ;; if (t : bool) then route_addrs n (p + 16) p else pret dst_addr
  end.

(** Where the destination is. Every round but the last passes a header. *)
Fixpoint ip6_finddst_loop (fuel : nat) (cp advance nh dst_addr : Z) : pr Z :=
  match fuel with
  | O => pstop Fuel
  | S f =>
      snapend <~ asks ndo_snapend ;;
      if snapend <=? cp then pret dst_addr
      else
        let cp := cp + advance in
        let need (n : Z) (k : pr Z) : pr Z := t <~ ND_TTEST_LEN cp n ;; if (t : bool) then k else pret dst_addr in
        if has_length_byte nh then
          need 2 (l <~ EXTRACT_U_1 (cp + 1) ;; nh <~ EXTRACT_U_1 cp ;; ip6_finddst_loop f cp (Z.shiftl (l + 1) 3) nh dst_addr)
        else if nh =? IPPROTO_FRAGMENT then need 1 (nh <~ EXTRACT_U_1 cp ;; ip6_finddst_loop f cp sizeof_ip6_frag nh dst_addr)
        else if nh =? IPPROTO_ROUTING then
          need sizeof_ip6_rthdr (
            len <~ EXTRACT_U_1 (cp + 1) ;;
            type <~ EXTRACT_U_1 (cp + 2) ;;
            if (type =? IPV6_RTHDR_TYPE_0) || (type =? IPV6_RTHDR_TYPE_2) then
              if len mod 2 =? 1 then pret dst_addr else route_addrs (Z.to_nat (Z.shiftr len 1)) (cp + 8) dst_addr
            else pret dst_addr)
        else pret dst_addr
  end.

Definition ip6_finddst (ip6 : Z) : pr (list Z) :=
  nh <~ EXTRACT_U_1 (ip6 + 6) ;;
  d <~ (fun ndo => ip6_finddst_loop (S (S (length (ndo_packet ndo)))) ip6 sizeof_ip6_hdr nh (ip6 + 24) ndo) ;;
  load d 16.

(** [struct ph]. *)
Definition pseudo6 (src dst : list Z) (len next_proto : Z) : list Z := src ++ dst ++ be_bytes 4 (u32 len) ++ [0; 0; 0; u8 next_proto].

Definition nextproto6_cksum (ip6 data len covlen next_proto : Z) : pr Z :=
  src <~ load (ip6 + 8) 16 ;;
  nh <~ EXTRACT_U_1 (ip6 + 6) ;;
  dst <~ (if has_length_byte nh || (nh =? IPPROTO_FRAGMENT) || (nh =? IPPROTO_ROUTING) then ip6_finddst ip6 else load (ip6 + 24) 16) ;;
  run_cksum (fun ndo => [mk_cksum_vec (pseudo6 src dst len next_proto) false 40; pkt_vec ndo data covlen]).

(** ** Safety *)

Section Safety.
Context (s0 : netdissect_options) (Hok : ndo_ok s0).

Lemma safe_route_addrs T n : forall p d, 0 <= p -> readable s0 d 16 -> safe T s0 (route_addrs n p d) (fun d => readable s0 d 16).
Proof.
  induction n as [|n IH]; intros p d Hp Hd; cbn [route_addrs]; [by apply safe_ret|]. safe_step. destruct a; [|by apply safe_ret].
  use_tests. match goal with H : true = true -> _ |- _ => specialize (H eq_refl) end. apply IH; [lia|]. apply readable_captured; done || lia.
Qed.

Lemma safe_finddst6_loop T fuel : forall cp adv nh d, 0 <= cp -> 0 < adv -> readable s0 d 16 -> 0 < Z.of_nat fuel -> ndo_snapend s0 - cp < Z.of_nat fuel ->
  safe T s0 (ip6_finddst_loop fuel cp adv nh d) (fun d => readable s0 d 16).
Proof.
  induction fuel as [|f IH]; intros cp adv nh d Hc Ha Hd Hf Hm; [lia|]. cbn [ip6_finddst_loop]. cbv zeta. safe_step. safe_step; [by apply safe_ret|].
  assert (Hneed : forall n (k : pr Z), n < 2 ^ 64 -> (0 <= n -> cp + adv + n <= ndo_snapend s0 -> safe T s0 k (fun d => readable s0 d 16)) ->
    safe T s0 (t <~ ND_TTEST_LEN (cp + adv) n ;; if (t : bool) then k else pret d) (fun d => readable s0 d 16)).
  { intros n k Hn Hk. eapply safe_bind; [by apply safe_ttest|]. intros [] Ht; [|by apply safe_ret]. destruct (Ht eq_refl). by apply Hk. }
  destruct (has_length_byte nh).
  { apply Hneed; [lia|]. intros _ Hcap. do 2 safe_step. rewrite Z.shiftl_mul_pow2 by lia. apply IH; done || lia. }
  destruct (nh =? IPPROTO_FRAGMENT).
  { apply Hneed; [lia|]. intros _ Hcap. safe_step. unfold sizeof_ip6_frag. apply IH; done || lia. }
  destruct (nh =? IPPROTO_ROUTING); [|by apply safe_ret].
  apply Hneed; [done|]. unfold sizeof_ip6_rthdr. intros _ Hcap. do 2 safe_step. destruct (_ || _); [|by apply safe_ret].
  destruct (_ =? 1); [by apply safe_ret|]. apply safe_route_addrs; [lia|done].
Qed.

Lemma safe_ip6_finddst T ip6 : readable s0 ip6 sizeof_ip6_hdr -> safe T s0 (ip6_finddst ip6) (fun a => bytes_ok a = true /\ length a = 16%nat).
Proof.
  unfold sizeof_ip6_hdr. intros Hr. pose proof Hr as (Hp & _ & _). unfold ip6_finddst. safe_step.
  eapply (safe_bind _ _ _ _ (fun d => readable s0 d 16)).
  { intros s Hs. pose proof Hs as (Hpk & _). rewrite Hpk. destruct Hok as (_ & _ & Hsn & _).
    apply safe_finddst6_loop; try done; unfold sizeof_ip6_hdr; try lia. readable_tac. }
  intros d Hd. eapply safe_weaken; [by apply safe_load|]. cbv beta. intros l (_ & Hl & Hb). split; [done|lia].
Qed.

Lemma safe_nextproto6_cksum T ip6 data len covlen proto :
  readable s0 ip6 sizeof_ip6_hdr -> readable s0 data covlen -> covlen + 40 <= IN_CKSUM_MAX ->
  safe T s0 (nextproto6_cksum ip6 data len covlen proto) (fun sum => 0 <= sum < 65536).
Proof.
  intros Hr Hd Hmax. unfold nextproto6_cksum. pose proof Hr as Hr'. unfold sizeof_ip6_hdr in Hr'. safe_step.
  match goal with H : _ /\ Z.of_nat _ = 16 /\ _ |- _ => destruct H as (_ & Hsl & Hsb) end. safe_step.
  eapply (safe_bind _ _ _ _ (fun a => bytes_ok a = true /\ length a = 16%nat)).
  { destruct (_ || _); [by apply safe_ip6_finddst|]. eapply safe_weaken; [by apply safe_load; [|readable_tac]|]. cbv beta. intros l (_ & Hl & Hb). split; [done|lia]. }
  intros dst [Hdb Hdl]. pose proof (u8_range proto). unfold pseudo6. apply safe_pseudo_cksum; try done.
  - rewrite !bytes_ok_app, !bytes_ok_cons. split_and!; try done; try lia. apply bytes_ok_be_bytes.
  - rewrite !length_app, length_be_bytes. cbn [length]. lia.
Qed.
End Safety.

(** ** Where the destination is found *)

Section Routed.
Context (s : netdissect_options) (Hok : ndo_ok s).

Abbreviation byte_at p b := (mem_read (ndo_packet s) p 1 = Some [b]).

Lemma run_u1_at p b : byte_at p b -> EXTRACT_U_1 p s = (Done b, s).
Proof. intros Hb. unfold EXTRACT_U_1, pbind, load. rewrite Hb. unfold pret. by rewrite be_val_1. Qed.

Lemma byte_at_pos p b : byte_at p b -> 0 <= p /\ 0 <= b < 256.
Proof.
  unfold mem_read. destruct (Z.leb_spec 0 p); [|done]. intros [_ Hs]%slice_Some. split; [done|].
  assert (Hb : bytes_ok [b] = true) by (rewrite Hs; apply bytes_ok_take, bytes_ok_drop; apply Hok). apply bytes_ok_cons in Hb. lia.
Qed.

Lemma run_ttest p n : 0 <= p -> 0 <= n -> p + n <= ndo_snapend s -> ND_TTEST_LEN p n s = (Done true, s).
Proof. intros. unfold ND_TTEST_LEN, asks. by rewrite ttest_len_complete. Qed.

(** A chain of captured headers of the given sizes from [p], the first of kind [nh], that
    ends in a routing header at [q]. *)
Fixpoint route_at (p nh : Z) (sizes : list Z) (q : Z) : Prop :=
  match sizes with
  | [] => nh = IPPROTO_ROUTING /\ p = q
  | k :: rest =>
      (has_length_byte nh = true /\ (exists l, byte_at (p + 1) l /\ k = 8 * (l + 1)) \/ nh = IPPROTO_FRAGMENT /\ k = sizeof_ip6_frag) /\
      p + 2 <= ndo_snapend s /\ exists nh', byte_at p nh' /\ route_at (p + k) nh' rest q
  end.

Lemma run_route_addrs n : forall p d, 0 <= p -> p + 16 * Z.of_nat n <= ndo_snapend s ->
  route_addrs n p d s = (Done (match n with O => d | S _ => p + 16 * (Z.of_nat n - 1) end), s).
Proof.
  induction n as [|n IH]; intros p d Hp Hn; [done|]. cbn [route_addrs]. erewrite run_bind by (apply run_ttest; lia).
  cbv iota. rewrite IH by lia. do 2 f_equal. destruct n; lia.
Qed.

Lemma route_at_run q n type sizes :
  byte_at (q + 1) (2 * n) -> byte_at (q + 2) type -> type = IPV6_RTHDR_TYPE_0 \/ type = IPV6_RTHDR_TYPE_2 -> 0 < n -> q + 8 + 16 * n <= ndo_snapend s ->
  forall fuel cp adv nh d, 0 <= cp < ndo_snapend s -> 0 < adv -> ndo_snapend s - cp < Z.of_nat fuel -> route_at (cp + adv) nh sizes q ->
  ip6_finddst_loop fuel cp adv nh d s = (Done (q + 8 + 16 * (n - 1)), s).
Proof.
  intros Hlen Hty Htype Hn Hcap. induction sizes as [|k sizes IH]; intros [|f] cp adv nh d Hcp Ha Hf Hr; try lia; cbn [ip6_finddst_loop]; cbv zeta;
    erewrite run_bind by reflexivity; rewrite (proj2 (Z.leb_gt _ _)) by lia.
  - destruct Hr as [-> <-]. change (has_length_byte IPPROTO_ROUTING) with false. change (IPPROTO_ROUTING =? IPPROTO_FRAGMENT) with false.
    change (IPPROTO_ROUTING =? IPPROTO_ROUTING) with true. cbv iota. erewrite run_bind by (apply run_ttest; unfold sizeof_ip6_rthdr; lia). cbv iota.
    erewrite run_bind by (by apply run_u1_at). erewrite run_bind by (by apply run_u1_at).
    rewrite (proj2 (orb_true_iff _ _)) by (rewrite !Z.eqb_eq; exact Htype). replace (2 * n) with (n * 2) by lia.
    rewrite Z.mod_mul, Z.shiftr_div_pow2 by lia. change (2 ^ 1) with 2. rewrite Z.div_mul by lia. cbn [Z.eqb]. rewrite run_route_addrs by lia. destruct (Z.to_nat n) eqn:E; [lia|]. rewrite <- E, Z2Nat.id by lia. done.
  - destruct Hr as (Hk & Hc & nh' & Hnh & Hrest). apply byte_at_pos in Hnh as Hnb. destruct Hk as [[Hb (l & Hl & ->)]|[-> ->]].
    + apply byte_at_pos in Hl as Hlb. rewrite Hb. erewrite run_bind by (apply run_ttest; lia). cbv iota. erewrite run_bind by (by apply run_u1_at). erewrite run_bind by (by apply run_u1_at).
      rewrite Z.shiftl_mul_pow2 by lia. apply IH; [|lia..|]. 2:{ by replace ((l + 1) * 2 ^ 3) with (8 * (l + 1)) by lia. } lia.
    + change (has_length_byte IPPROTO_FRAGMENT) with false. change (IPPROTO_FRAGMENT =? IPPROTO_FRAGMENT) with true. cbv iota.
      erewrite run_bind by (apply run_ttest; lia). cbv iota. erewrite run_bind by (by apply run_u1_at). apply IH; try done; unfold sizeof_ip6_frag; lia.
Qed.

Lemma run_load_at p n l : mem_read (ndo_packet s) p n = Some l -> load p n s = (Done l, s).
Proof. intros Hl. unfold load. by rewrite Hl. Qed.

(** The sum of a pseudo header and of bytes of the packet, as one sequence of bytes. *)
Lemma run_pseudo_cksum ph data covlen d :
  bytes_ok ph = true -> 0 <= covlen -> mem_read (ndo_packet s) data covlen = Some d -> Z.of_nat (length ph) + covlen <= IN_CKSUM_MAX ->
  exists c, run_cksum (fun ndo => [mk_cksum_vec ph false (Z.of_nat (length ph)); pkt_vec ndo data covlen]) s = (Done c, s) /\
    (c = 0 <-> oc_fold (be_sum (ph ++ d)) = 65535).
Proof.
  unfold IN_CKSUM_MAX. intros Hph Hc Hd Hmax. assert (Hall : bytes_ok (ndo_packet s) = true) by apply Hok.
  unfold mem_read in Hd. destruct (Z.leb_spec 0 data) as [Hp|]; [|done]. apply slice_Some in Hd as [Hlen Hd].
  assert (Hb : bytes_ok (ph ++ d) = true) by (rewrite bytes_ok_app, Hd; split; [done|by apply bytes_ok_take, bytes_ok_drop]).
  assert (Hl : Z.of_nat (length d) = covlen) by (rewrite Hd, length_take, length_drop; lia).
  assert (Hle : Z.of_nat (length (ph ++ d)) <= 65535) by (rewrite length_app; lia).
  pose proof (in_cksum_zero_iff (ph ++ d) false Hb Hle) as Hz. rewrite in_cksum_whole in Hz by done.
  eexists. split; [|rewrite <- Hz; split; [intros ->; reflexivity|by intros [= ->]]].
  unfold run_cksum, pkt_vec. rewrite in_cksum_spec.
  - unfold vecs_bytes, vec_bytes. cbn [concat fmap list_fmap v_mem v_len]. rewrite Nat2Z.id, firstn_all, app_nil_r, <- Hd. reflexivity.
  - cbn [forallb]. unfold vec_ok. cbn [v_mem v_len]. rewrite Hph, bytes_ok_drop, length_drop by done. rewrite !(proj2 (Z.leb_le _ _)) by lia. done.
  - unfold vecs_bytes, vec_bytes. cbn [concat fmap list_fmap v_mem v_len]. rewrite Nat2Z.id, firstn_all, app_nil_r, <- Hd. unfold IN_CKSUM_MAX. rewrite length_app in *. lia.
Qed.

Lemma route_at_scanned nh sizes p q : route_at p nh sizes q -> has_length_byte nh || (nh =? IPPROTO_FRAGMENT) || (nh =? IPPROTO_ROUTING) = true.
Proof. destruct sizes; cbn [route_at]; [by intros [-> _]|]. intros [[[-> _]|[-> _]] _]; done. Qed.

Lemma run_finddst6 ip6 nh sizes q n type dst :
  byte_at (ip6 + 6) nh -> 0 <= ip6 < ndo_snapend s -> route_at (ip6 + sizeof_ip6_hdr) nh sizes q ->
  byte_at (q + 1) (2 * n) -> byte_at (q + 2) type -> type = IPV6_RTHDR_TYPE_0 \/ type = IPV6_RTHDR_TYPE_2 -> 0 < n -> q + 8 + 16 * n <= ndo_snapend s ->
  mem_read (ndo_packet s) (q + 8 + 16 * (n - 1)) 16 = Some dst -> ip6_finddst ip6 s = (Done dst, s).
Proof.
  intros Hnh Hip Hroute Hlen Hty Htype Hn Hcap Hdst. unfold ip6_finddst. erewrite run_bind by (by apply run_u1_at).
  assert (Hsn : ndo_snapend s <= Z.of_nat (length (ndo_packet s))) by apply Hok.
  erewrite run_bind by (eapply route_at_run; try eassumption; unfold sizeof_ip6_hdr; lia). by apply run_load_at.
Qed.
End Routed.

(** ** Theorem *)

(** C32. Behind any chain of captured hop-by-hop, destination, mobility and fragment headers,
    the checksum is taken over the pseudo header with the last address of the routing header:
    it is zero exactly when the one's complement sum of that pseudo header and of the covered
    bytes is all ones. The segments left do not matter: the address is the same when the
    datagram has arrived and its destination is in the IPv6 header. *)
Theorem routed_cksum s ip6 nh sizes q n type src dst data len covlen proto d :
  ndo_ok s -> 0 <= ip6 < ndo_snapend s -> mem_read (ndo_packet s) (ip6 + 6) 1 = Some [nh] -> mem_read (ndo_packet s) (ip6 + 8) 16 = Some src ->
  route_at s (ip6 + sizeof_ip6_hdr) nh sizes q -> mem_read (ndo_packet s) (q + 1) 1 = Some [2 * n] -> 0 < n ->
  mem_read (ndo_packet s) (q + 2) 1 = Some [type] -> type = IPV6_RTHDR_TYPE_0 \/ type = IPV6_RTHDR_TYPE_2 ->
  q + 8 + 16 * n <= ndo_snapend s -> mem_read (ndo_packet s) (q + 8 + 16 * (n - 1)) 16 = Some dst ->
  0 <= covlen -> covlen + 40 <= IN_CKSUM_MAX -> mem_read (ndo_packet s) data covlen = Some d ->
  exists c, nextproto6_cksum ip6 data len covlen proto s = (Done c, s) /\
    (c = 0 <-> oc_fold (be_sum (src ++ dst ++ be_bytes 4 (u32 len) ++ [0; 0; 0; u8 proto] ++ d)) = 65535).
Proof.
  intros Hok Hip Hnh Hsrc Hroute Hlen Hn Hty Htype Hcap Hdst Hcov Hmax Hd. unfold nextproto6_cksum.
  erewrite run_bind by (by apply run_load_at). erewrite run_bind by (by apply run_u1_at).
  rewrite (route_at_scanned _ _ _ _ _ Hroute). erewrite run_bind by (by eapply run_finddst6).
  assert (Hb : forall p l, mem_read (ndo_packet s) p 16 = Some l -> bytes_ok l = true /\ length l = 16%nat).
  { intros p l. unfold mem_read. destruct (0 <=? p); [|done]. intros [Hl ->]%slice_Some. split; [apply bytes_ok_take, bytes_ok_drop, Hok|].
    rewrite length_take, length_drop. lia. }
  apply Hb in Hsrc as [Hs1 Hs2]. apply Hb in Hdst as [Hd1 Hd2]. pose proof (u8_range proto).
  assert (Hph : Z.of_nat (length (pseudo6 src dst len proto)) = 40) by (unfold pseudo6; rewrite !length_app, length_be_bytes, Hs2, Hd2; done).
  destruct (run_pseudo_cksum s Hok (pseudo6 src dst len proto) data covlen d) as (c & Hc & Hz); [|lia|done|lia|].
  { unfold pseudo6. rewrite !bytes_ok_app, !bytes_ok_cons. split_and!; try done; try lia. apply bytes_ok_be_bytes. }
  exists c. rewrite Hph in Hc. split; [exact Hc|]. rewrite Hz. unfold pseudo6. by rewrite <- !app_assoc.
Qed.

(** A datagram that has arrived at fd::3: a hop-by-hop header, a routing header with no
    segments left and the addresses fd::1 and fd::2, and eight bytes of UDP. *)
Definition sample_addr (k : Z) : list Z := 0xfd :: replicate 14 0 ++ [k].
Definition sample_routed : netdissect_options :=
  mk_ndo ([0x60; 0; 0; 0; 0; 56; 0; 64] ++ sample_addr 9 ++ sample_addr 3 ++ [43; 0; 1; 4; 0; 0; 0; 0]
    ++ [17; 4; 0; 0; 0; 0; 0; 0] ++ sample_addr 1 ++ sample_addr 2 ++ [0; 7; 0; 8; 0; 8; 0; 0]) 4096 (mk_flags 1 0 1 0 0 0 0 0) 96 "" "".

Lemma routed_cksum_witness :
  exists c, nextproto6_cksum 0 88 8 8 17 sample_routed = (Done c, sample_routed) /\
    (c = 0 <-> oc_fold (be_sum (sample_addr 9 ++ sample_addr 2 ++ be_bytes 4 8 ++ [0; 0; 0; 17] ++ [0; 7; 0; 8; 0; 8; 0; 0])) = 65535).
Proof.
  apply (routed_cksum sample_routed 0 0 [8] 48 2 0 (sample_addr 9) (sample_addr 2) 88 8 8 17 [0; 7; 0; 8; 0; 8; 0; 0]).
  - repeat split; vm_compute; congruence.
  - vm_compute. split; congruence.
  - vm_compute. reflexivity.
  - vm_compute. reflexivity.
  - split; [left; split; [reflexivity|exists 0; split; vm_compute; reflexivity]|]. split; [vm_compute; congruence|].
    exists 43. split; [vm_compute; reflexivity|]. split; reflexivity.
  - vm_compute. reflexivity.
  - lia.
  - vm_compute. reflexivity.
  - left. reflexivity.
  - vm_compute. congruence.
  - vm_compute. reflexivity.
  - lia.
  - vm_compute. congruence.
  - vm_compute. reflexivity.
Defined.
