(* ===== verification/TcpSeq.v ===== *)
(** * The conversations [tcp_print] remembers

    [tcpdump/print-tcp.c] prints sequence numbers relative to the first ones it saw of
    a conversation. It keeps them in two hash tables of chains, one for IPv4 and one
    for IPv6, that differ only in the size of an address. The table is shown to
    implement a map from conversations, the same for both directions, to the pair of
    initial numbers. *)
From stdpp Require Import base list numbers gmap.
From Stdlib Require Import ZArith Lia.
From S2P Require Import Prelude.

Open Scope Z_scope.

Definition TSEQ_HASHSIZE : Z := 919.

(** [struct tha] and [struct tha6]: the addresses as bytes, and both ports. *)
Record tha := mk_tha { tha_src : list Z; tha_dst : list Z; tha_port : Z }.

#[export] Instance tha_eq_dec : EqDecision tha.
Proof. solve_decision. Defined.

#[export] Instance tha_countable : Countable tha :=
  inj_countable' (fun t => (tha_src t, tha_dst t, tha_port t)) (fun '(s, d, p) => mk_tha s d p) ltac:(by intros []).

(** [struct tcp_seq_hash]; a chain is the list of its nodes but the last one, which
    has no successor and holds nothing. *)
Record tcp_seq_hash := mk_tsh { th_addr : tha; th_seq : Z; th_ack : Z }.
Abbreviation seq_table := (list (list tcp_seq_hash)).

Definition empty_table : seq_table := replicate (Z.to_nat TSEQ_HASHSIZE) [].

(** What the printer uses of a segment. *)
Record segment := mk_segment {
  g_src : list Z; g_dst : list Z; g_sport : Z; g_dport : Z; g_seq : Z; g_ack : Z; g_syn : bool }.

(** [memcmp(a, b, n) > 0]. *)
Fixpoint memcmp_gt (a b : list Z) : bool :=
  match a, b with
  | x :: a', y :: b' => if x =? y then memcmp_gt a' b' else x >? y
  | _, _ => false
  end.

(** The collating order that gives both directions one entry. *)
Definition seg_rev (g : segment) : bool :=
  if g_sport g >? g_dport g then true
  else if g_sport g =? g_dport g then memcmp_gt (g_src g) (g_dst g) else false.

Definition seg_tha (g : segment) : tha :=
  if seg_rev g then mk_tha (g_dst g) (g_src g) (Z.lor (u32 (Z.shiftl (g_dport g) 16)) (g_sport g))
  else mk_tha (g_src g) (g_dst g) (Z.lor (u32 (Z.shiftl (g_sport g) 16)) (g_dport g)).

(** The walk along the chain to the node of [a] or to the end, which is where [new] is
    stored; at the end that adds a node. *)
Fixpoint chain_update (a : tha) (new : tcp_seq_hash) (chain : list tcp_seq_hash) : list tcp_seq_hash :=
  match chain with
  | [] => [new]
  | th :: chain' => if decide (a = th_addr th) then new :: chain' else th :: chain_update a new chain'
  end.
Fixpoint chain_find (a : tha) (chain : list tcp_seq_hash) : option tcp_seq_hash :=
  match chain with
  | [] => None
  | th :: chain' => if decide (a = th_addr th) then Some th else chain_find a chain'
  end.

(** The numbers a node gets from the first segment of a conversation. *)
Definition first_numbers (rev : bool) (a : tha) (seq ack : Z) : tcp_seq_hash :=
  if rev then mk_tsh a (u32 (ack - 1)) seq else mk_tsh a seq (u32 (ack - 1)).

(** The new table, the numbers to print, and the initial numbers [thseq] and [thack]
    with the direction; [None] is an index outside the table. *)
Definition seq_lookup (tb : seq_table) (g : segment) : option (seq_table * (Z * Z) * (Z * Z) * bool) :=
  let rev := seg_rev g in
  let a := seg_tha g in
  let i := Z.to_nat (tha_port a mod TSEQ_HASHSIZE) in
  chain ← tb !! i;
  match chain_find a chain, g_syn g with
  | Some th, false =>
      let rel := if rev then (u32 (g_seq g - th_ack th), u32 (g_ack g - th_seq th))
                 else (u32 (g_seq g - th_seq th), u32 (g_ack g - th_ack th)) in
      Some (tb, rel, (th_seq th, th_ack th), rev)
  | _, _ =>
      let th := first_numbers rev a (g_seq g) (g_ack g) in
      Some (<[i := chain_update a th chain]> tb, (g_seq g, g_ack g), (th_seq th, th_ack th), rev)
  end.

(** ** The map of conversations *)

(** The specification: the initial numbers by conversation. *)
Definition spec_lookup (m : gmap tha (Z * Z)) (g : segment) : gmap tha (Z * Z) * (Z * Z) * (Z * Z) * bool :=
  let rev := seg_rev g in
  let a := seg_tha g in
  match m !! a, g_syn g with
  | Some (s, k), false =>
      (m, if rev then (u32 (g_seq g - k), u32 (g_ack g - s)) else (u32 (g_seq g - s), u32 (g_ack g - k)), (s, k), rev)
  | _, _ =>
      let n := if rev then (u32 (g_ack g - 1), g_seq g) else (g_seq g, u32 (g_ack g - 1)) in
      (<[a := n]> m, (g_seq g, g_ack g), n, rev)
  end.

(** The segments of a capture in order, with what is printed of each. *)
Fixpoint seq_run (tb : seq_table) (gs : list segment) : option (seq_table * list (Z * Z)) :=
  match gs with
  | [] => Some (tb, [])
  | g :: gs' =>
      '(tb', rel, _, _) ← seq_lookup tb g;
      '(tb'', rels) ← seq_run tb' gs';
      Some (tb'', rel :: rels)
  end.
Fixpoint spec_run (m : gmap tha (Z * Z)) (gs : list segment) : gmap tha (Z * Z) * list (Z * Z) :=
  match gs with
  | [] => (m, [])
  | g :: gs' =>
      let '(m', rel, _, _) := spec_lookup m g in
      let '(m'', rels) := spec_run m' gs' in
      (m'', rel :: rels)
  end.

(** ** The table implements the map *)

Definition bucket (a : tha) : nat := Z.to_nat (tha_port a mod TSEQ_HASHSIZE).

Definition table_get (tb : seq_table) (a : tha) : option tcp_seq_hash := tb !! bucket a ≫= chain_find a.

(** Every node is found under its own address, with the numbers of the map. *)
Definition represents (tb : seq_table) (m : gmap tha (Z * Z)) : Prop :=
  length tb = Z.to_nat TSEQ_HASHSIZE /\
  forall a, m !! a = (fun th => (th_seq th, th_ack th)) <$> table_get tb a.

Lemma bucket_lt (tb : seq_table) a : length tb = Z.to_nat TSEQ_HASHSIZE -> exists chain, tb !! bucket a = Some chain.
Proof.
  intros Hl. apply lookup_lt_is_Some_2. rewrite Hl. unfold bucket, TSEQ_HASHSIZE.
  pose proof (Z.mod_pos_bound (tha_port a) 919 eq_refl). lia.
Qed.

Lemma chain_find_update a b th chain : th_addr th = a ->
  chain_find b (chain_update a th chain) = if decide (b = a) then Some th else chain_find b chain.
Proof.
  intros Hth. induction chain as [|n chain IH]; cbn [chain_update chain_find].
  - rewrite Hth. done.
  - destruct (decide (a = th_addr n)) as [Ha|Ha]; cbn [chain_find].
    + rewrite Hth. destruct (decide (b = a)) as [->|Hb]; [done|]. rewrite decide_False by congruence. done.
    + rewrite IH. destruct (decide (b = th_addr n)) as [->|Hb]; [by rewrite decide_False by congruence|done].
Qed.

Lemma table_get_update (tb : seq_table) a b th chain : tb !! bucket a = Some chain -> th_addr th = a ->
  table_get (<[bucket a := chain_update a th chain]> tb) b = if decide (b = a) then Some th else table_get tb b.
Proof.
  intros Hc Hth. unfold table_get. destruct (decide (bucket b = bucket a)) as [He|Hne].
  - rewrite He, list_lookup_insert_eq by (by eapply lookup_lt_Some). rewrite Hc. cbn [mbind option_bind]. by apply chain_find_update.
  - rewrite list_lookup_insert_ne by done. rewrite decide_False by congruence. done.
Qed.

Lemma first_numbers_spec rev a seq ack :
  th_addr (first_numbers rev a seq ack) = a /\
  (th_seq (first_numbers rev a seq ack), th_ack (first_numbers rev a seq ack)) =
    if rev then (u32 (ack - 1), seq) else (seq, u32 (ack - 1)).
Proof. by destruct rev. Qed.

Lemma seq_lookup_refines tb m g : represents tb m ->
  let '(m', rel, n, rev) := spec_lookup m g in
  exists tb', seq_lookup tb g = Some (tb', rel, n, rev) /\ represents tb' m'.
Proof.
  intros [Hl Hm]. unfold spec_lookup, seq_lookup. fold (bucket (seg_tha g)).
  destruct (bucket_lt tb (seg_tha g) Hl) as [chain Hc]. rewrite Hc. cbn [mbind option_bind].
  assert (Hg : m !! seg_tha g = (fun th => (th_seq th, th_ack th)) <$> chain_find (seg_tha g) chain) by (rewrite Hm; unfold table_get; by rewrite Hc).
  destruct (first_numbers_spec (seg_rev g) (seg_tha g) (g_seq g) (g_ack g)) as [Ha Hn].
  assert (Hnew : represents (<[bucket (seg_tha g) := chain_update (seg_tha g) (first_numbers (seg_rev g) (seg_tha g) (g_seq g) (g_ack g)) chain]> tb)
    (<[seg_tha g := if seg_rev g then (u32 (g_ack g - 1), g_seq g) else (g_seq g, u32 (g_ack g - 1))]> m)).
  { split; [by rewrite length_insert|]. intros b. rewrite table_get_update by done. destruct (decide (b = seg_tha g)) as [->|Hb].
    - rewrite lookup_insert_eq. cbn. by rewrite Hn.
    - by rewrite lookup_insert_ne. }
  rewrite Hg. destruct (chain_find (seg_tha g) chain) as [th|]; cbn [fmap option_fmap option_map].
  - destruct (g_syn g); [eexists; by rewrite Hn|]. exists tb. by destruct (seg_rev g).
  - eexists. by rewrite Hn.
Qed.

Lemma seq_run_refines gs : forall tb m, represents tb m ->
  exists tb', seq_run tb gs = Some (tb', (spec_run m gs).2) /\ represents tb' (spec_run m gs).1.
Proof.
  induction gs as [|g gs IH]; intros tb m Hr; [by exists tb|]. cbn [seq_run spec_run].
  pose proof (seq_lookup_refines tb m g Hr) as Hs. destruct (spec_lookup m g) as [[[m1 rel] n] rev].
  destruct Hs as (tb1 & -> & Hr1). cbn [mbind option_bind]. destruct (IH tb1 m1 Hr1) as (tb2 & -> & Hr2). cbn [mbind option_bind].
  destruct (spec_run m1 gs) as [m2 rels]. by exists tb2.
Qed.

Lemma empty_represents : represents empty_table ∅.
Proof.
  split; [apply length_replicate|]. intros a. rewrite lookup_empty. unfold table_get.
  destruct (bucket_lt empty_table a) as [chain Hc]; [apply length_replicate|]. rewrite Hc. cbn [mbind option_bind].
  apply lookup_replicate_1 in Hc as [-> _]. done.
Qed.

(** ** Both directions of a conversation *)

(** From the other end. *)
Definition answered_by (g h : segment) : Prop :=
  g_src h = g_dst g /\ g_dst h = g_src g /\ g_sport h = g_dport g /\ g_dport h = g_sport g.
Definition same_way (g h : segment) : Prop :=
  g_src h = g_src g /\ g_dst h = g_dst g /\ g_sport h = g_sport g /\ g_dport h = g_dport g.

Lemma memcmp_gt_flip a : forall b, length a = length b -> a <> b -> memcmp_gt b a = negb (memcmp_gt a b).
Proof.
  induction a as [|x a IH]; intros [|y b] Hl Hne; try done. injection Hl as Hl. cbn [memcmp_gt].
  rewrite (Z.eqb_sym y x). destruct (Z.eqb_spec x y) as [->|Hxy]; [apply IH; congruence|].
  rewrite !Z.gtb_ltb. destruct (Z.ltb_spec x y), (Z.ltb_spec y x); done || lia.
Qed.

Lemma same_way_tha g h : same_way g h -> seg_rev h = seg_rev g /\ seg_tha h = seg_tha g.
Proof. intros (H1 & H2 & H3 & H4). unfold seg_tha, seg_rev. by rewrite H1, H2, H3, H4. Qed.

Lemma answers_tha g h : answered_by g h -> length (g_src g) = length (g_dst g) -> g_sport g <> g_dport g \/ g_src g <> g_dst g ->
  seg_rev h = negb (seg_rev g) /\ seg_tha h = seg_tha g.
Proof.
  intros (H1 & H2 & H3 & H4) Hl Hne. assert (Hrev : seg_rev h = negb (seg_rev g)).
  { unfold seg_rev. rewrite H1, H2, H3, H4, (Z.eqb_sym (g_dport g)). rewrite !Z.gtb_ltb.
    destruct (Z.ltb_spec (g_sport g) (g_dport g)), (Z.ltb_spec (g_dport g) (g_sport g)), (Z.eqb_spec (g_sport g) (g_dport g)); try done; try lia.
    apply memcmp_gt_flip; naive_solver. }
  split; [done|]. unfold seg_tha. rewrite Hrev, H1, H2, H3, H4. by destruct (seg_rev g).
Qed.

(** The numbers of a conversation do not change until it starts again. *)
Lemma spec_run_keeps gs a : forall m n, m !! a = Some n -> Forall (fun g => seg_tha g = a -> g_syn g = false) gs ->
  (spec_run m gs).1 !! a = Some n.
Proof.
  induction gs as [|g gs IH]; intros m n Hm Hg; [done|]. apply Forall_cons in Hg as [Hsyn Hg]. cbn [spec_run].
  destruct (spec_lookup m g) as [[[m1 rel] n1] rev] eqn:E. specialize (IH m1 n).
  assert (Hm1 : m1 !! a = Some n).
  { unfold spec_lookup in E. destruct (decide (seg_tha g = a)) as [He|Hne].
    - rewrite He, Hm, (Hsyn He) in E. destruct n. by simplify_eq.
    - destruct (m !! seg_tha g) as [[s k]|], (g_syn g); simplify_eq; rewrite ?lookup_insert_ne by done; done. }
  specialize (IH Hm1 Hg). by destruct (spec_run m1 gs).
Qed.

Lemma spec_run_app gs hs : forall m, spec_run m (gs ++ hs) =
  let '(m1, r1) := spec_run m gs in let '(m2, r2) := spec_run m1 hs in (m2, r1 ++ r2).
Proof.
  induction gs as [|g gs IH]; intros m; cbn [app spec_run]; [by destruct (spec_run m hs)|].
  destruct (spec_lookup m g) as [[[m1 rel] n] rev]. rewrite IH. destruct (spec_run m1 gs) as [m2 r2]. by destruct (spec_run m2 hs).
Qed.

(** What is printed of a later segment, from the first one of the conversation. *)
Definition relative (g0 g : segment) (same : bool) : Z * Z :=
  if same then (u32 (g_seq g - g_seq g0), u32 (g_ack g - u32 (g_ack g0 - 1)))
  else (u32 (g_seq g - u32 (g_ack g0 - 1)), u32 (g_ack g - g_seq g0)).

Lemma spec_relative m g0 gs g (same : bool) :
  (m !! seg_tha g0 = None \/ g_syn g0 = true) -> length (g_src g0) = length (g_dst g0) ->
  (g_sport g0 <> g_dport g0 \/ g_src g0 <> g_dst g0) ->
  Forall (fun h => seg_tha h = seg_tha g0 -> g_syn h = false) (gs ++ [g]) ->
  (if same then same_way g0 g else answered_by g0 g) ->
  exists rels, (spec_run m (g0 :: gs ++ [g])).2 = (g_seq g0, g_ack g0) :: rels ++ [relative g0 g same].
Proof.
  intros Hnew Hl Hne Hs Hg. cbn [spec_run]. apply Forall_app in Hs as [Hs Hs1]. apply Forall_cons in Hs1 as [Hsyn _].
  assert (Ht : seg_rev g = (if same then seg_rev g0 else negb (seg_rev g0)) /\ seg_tha g = seg_tha g0)
    by (destruct same; [by apply same_way_tha|by apply answers_tha]). destruct Ht as [Hrev Ht].
  set (n := if seg_rev g0 then (u32 (g_ack g0 - 1), g_seq g0) else (g_seq g0, u32 (g_ack g0 - 1))).
  assert (H0 : spec_lookup m g0 = (<[seg_tha g0 := n]> m, (g_seq g0, g_ack g0), n, seg_rev g0)).
  { unfold spec_lookup. destruct Hnew as [->| ->]; [done|]. by destruct (m !! seg_tha g0) as [[]|]. }
  rewrite H0, spec_run_app. pose proof (spec_run_keeps gs (seg_tha g0) (<[seg_tha g0 := n]> m) n (lookup_insert_eq _ _ _) Hs) as Hk.
  destruct (spec_run (<[seg_tha g0 := n]> m) gs) as [m1 r1]. cbn [fst snd spec_run] in *.
  assert (Hlast : exists m2 n2 rev2, spec_lookup m1 g = (m2, relative g0 g same, n2, rev2)).
  { unfold spec_lookup. rewrite Ht, Hk, (Hsyn Ht), Hrev. unfold relative, n. destruct same, (seg_rev g0); cbn [negb]; by eexists _, _, _. }
  destruct Hlast as (m2 & n2 & rev2 & ->). by exists r1.
Qed.

(** ** Theorems *)

(** Over any capture the hash tables of [tcp_print] behave as a map from conversations to
    their initial sequence numbers: every look-up stays inside the table, and prints
    what the map gives. *)
Theorem seq_table_refines tb m gs :
  represents tb m ->
  exists tb', seq_run tb gs = Some (tb', (spec_run m gs).2) /\ represents tb' (spec_run m gs).1.
Proof. apply seq_run_refines. Qed.

Definition seg_ab (seq ack : Z) (syn : bool) : segment := mk_segment [10; 0; 0; 1] [10; 0; 0; 2] 40000 80 seq ack syn.
Definition seg_ba (seq ack : Z) (syn : bool) : segment := mk_segment [10; 0; 0; 2] [10; 0; 0; 1] 80 40000 seq ack syn.

Lemma seq_table_refines_witness :
  exists tb', seq_run empty_table [seg_ba 7000 501 true; seg_ab 501 7001 false] =
      Some (tb', (spec_run ∅ [seg_ba 7000 501 true; seg_ab 501 7001 false]).2) /\
    represents tb' (spec_run ∅ [seg_ba 7000 501 true; seg_ab 501 7001 false]).1.
Proof. apply (seq_table_refines empty_table ∅). exact empty_represents. Defined.

(** The first segment of a conversation is printed with its own numbers; every later one, in
    either direction, until the conversation starts again with a SYN and whatever other
    conversations do in between, is printed relative to it: the sequence number to the
    first one of its sender, the acknowledgement to the first one of its receiver. *)
Theorem tcp_relative_numbers tb m g0 gs g (same : bool) :
  represents tb m -> (m !! seg_tha g0 = None \/ g_syn g0 = true) -> length (g_src g0) = length (g_dst g0) ->
  (g_sport g0 <> g_dport g0 \/ g_src g0 <> g_dst g0) ->
  Forall (fun h => seg_tha h = seg_tha g0 -> g_syn h = false) (gs ++ [g]) ->
  (if same then same_way g0 g else answered_by g0 g) ->
  exists tb' rels, seq_run tb (g0 :: gs ++ [g]) = Some (tb', (g_seq g0, g_ack g0) :: rels ++ [relative g0 g same]).
Proof.
  intros Hr Hnew Hl Hne Hs Hg. destruct (seq_run_refines (g0 :: gs ++ [g]) tb m Hr) as (tb' & Hrun & _).
  destruct (spec_relative m g0 gs g same Hnew Hl Hne Hs Hg) as (rels & Hout). rewrite Hout in Hrun. by exists tb', rels.
Qed.

Lemma tcp_relative_numbers_witness :
  exists tb' rels, seq_run empty_table (seg_ba 7000 501 true :: [seg_ab 501 7001 false] ++ [seg_ab 511 7101 false]) =
    Some (tb', (7000, 501) :: rels ++ [(11, 101)]).
Proof.
  apply (tcp_relative_numbers empty_table ∅ (seg_ba 7000 501 true) [seg_ab 501 7001 false] (seg_ab 511 7101 false) false).
  - exact empty_represents.
  - right. reflexivity.
  - reflexivity.
  - left. discriminate.
  - repeat constructor.
  - repeat split.
Defined.
