(* ===== verification/PrintTcp.v ===== *)
(** * The TCP printer of tcpdump

    Models [tcpdump/print-tcp.c] as it is compiled without libcrypto and with the SMB
    printers. The tables of conversations ([TcpSeq]) are passed along and returned;
    [ndo_Sflag] (absolute sequence numbers) is a parameter. Printers of the
    protocols above TCP, of MPTCP options and of IPv6 addresses, and the checksum over
    an IPv6 pseudo header, are the class [TcpPrinters] with the rule [TcpLaws].
    Allocating a node of a table succeeds. *)
From stdpp Require Import base list numbers strings gmap.
From Stdlib Require Import ZArith Lia Ascii.
From S2P Require Import Prelude Cstring InCksum Netdissect UtilPrint IpProto PrintIp PrintIcmp PrintDomain Ip6Cksum TcpSeq.

Open Scope Z_scope.

(** ** Constants *)

Definition TH_FIN : Z := 0x01.
Definition TH_SYN : Z := 0x02.
Definition TH_RST : Z := 0x04.
Definition TH_PUSH : Z := 0x08.
Definition TH_ACK : Z := 0x10.
Definition TH_URG : Z := 0x20.
Definition TH_ECNECHO : Z := 0x40.
Definition TH_CWR : Z := 0x80.

Definition TCPOPT_EOL : Z := 0.
Definition TCPOPT_NOP : Z := 1.
Definition TCPOPT_MAXSEG : Z := 2.
Definition TCPOPT_WSCALE : Z := 3.
Definition TCPOPT_SACKOK : Z := 4.
Definition TCPOPT_SACK : Z := 5.
Definition TCPOPT_ECHO : Z := 6.
Definition TCPOPT_ECHOREPLY : Z := 7.
Definition TCPOPT_TIMESTAMP : Z := 8.
Definition TCPOPT_CC : Z := 11.
Definition TCPOPT_CCNEW : Z := 12.
Definition TCPOPT_CCECHO : Z := 13.
Definition TCPOPT_SIGNATURE : Z := 19.
Definition TCP_SIGLEN : Z := 16.
Definition TCPOPT_SCPS : Z := 20.
Definition TCPOPT_UTO : Z := 28.
Definition TCPOPT_TCPAO : Z := 29.
Definition TCPOPT_MPTCP : Z := 30.
Definition TCPOPT_FASTOPEN : Z := 34.
Definition TCPOPT_EXPERIMENT2 : Z := 254.

Definition FTP_PORT : Z := 21.
Definition TELNET_PORT : Z := 23.
Definition SMTP_PORT : Z := 25.
Definition WHOIS_PORT : Z := 43.
Definition NAMESERVER_PORT : Z := 53.
Definition HTTP_PORT : Z := 80.
Definition NETBIOS_SSN_PORT : Z := 139.
Definition BGP_PORT : Z := 179.
Definition RPKI_RTR_PORT : Z := 323.
Definition SMB_PORT : Z := 445.
Definition RTSP_PORT : Z := 554.
Definition MSDP_PORT : Z := 639.
Definition LDP_PORT : Z := 646.
Definition PPTP_PORT : Z := 1723.
Definition NFS_PORT : Z := 2049.
Definition REDIS_PORT : Z := 6379.
Definition OPENFLOW_PORT_OLD : Z := 6633.
Definition OPENFLOW_PORT_IANA : Z := 6653.
Definition HTTP_PORT_ALT : Z := 8080.
Definition RTSP_PORT_ALT : Z := 8554.
Definition BEEP_PORT : Z := 10288.

Definition PT_ZMTP1 : Z := 12.
Definition PT_RESP : Z := 17.
Definition SUNRPC_CALL : Z := 0.
Definition SUNRPC_REPLY : Z := 1.
Definition MAX_RST_DATA_LEN : Z := 30.
Definition sizeof_tcphdr : Z := 20.

Definition ZEROLENOPT (o : Z) : bool := (o =? TCPOPT_EOL) || (o =? TCPOPT_NOP).

Definition tcp_flag_values : list tok :=
  [(TH_FIN, "F"%string); (TH_SYN, "S"%string); (TH_RST, "R"%string); (TH_PUSH, "P"%string); (TH_ACK, "."%string);
   (TH_URG, "U"%string); (TH_ECNECHO, "E"%string); (TH_CWR, "W"%string)].

Definition tcp_option_values : list tok :=
  [(TCPOPT_EOL, "eol"%string); (TCPOPT_NOP, "nop"%string); (TCPOPT_MAXSEG, "mss"%string); (TCPOPT_WSCALE, "wscale"%string);
   (TCPOPT_SACKOK, "sackOK"%string); (TCPOPT_SACK, "sack"%string); (TCPOPT_ECHO, "echo"%string);
   (TCPOPT_ECHOREPLY, "echoreply"%string); (TCPOPT_TIMESTAMP, "TS"%string); (TCPOPT_CC, "cc"%string);
   (TCPOPT_CCNEW, "ccnew"%string); (TCPOPT_CCECHO, ""%string); (TCPOPT_SIGNATURE, "md5"%string); (TCPOPT_SCPS, "scps"%string);
   (TCPOPT_UTO, "uto"%string); (TCPOPT_TCPAO, "tcp-ao"%string); (TCPOPT_MPTCP, "mptcp"%string); (TCPOPT_FASTOPEN, "tfo"%string);
   (TCPOPT_EXPERIMENT2, "exp"%string)].

(** ** What is printed elsewhere *)

Class TcpPrinters := {
  getname6 : list Z -> string;
  mptcp_print : Z -> Z -> Z -> pr bool;
  telnet_print : Z -> Z -> pr unit; smtp_print : Z -> Z -> pr unit; bgp_print : Z -> Z -> pr unit;
  pptp_print : Z -> pr unit; resp_print : Z -> Z -> pr unit; zmtp1_print : Z -> Z -> pr unit;
  nbt_tcp_print : Z -> Z -> pr unit; smb_tcp_print : Z -> Z -> pr unit; beep_print : Z -> Z -> pr unit;
  openflow_print : Z -> Z -> pr unit; ftp_print : Z -> Z -> pr unit; http_print : Z -> Z -> pr unit;
  rtsp_print : Z -> Z -> pr unit; msdp_print : Z -> Z -> pr unit;
  rpki_rtr_print : Z -> Z -> pr unit; ldp_print : Z -> Z -> pr unit;
  nfsreq_noaddr_print : Z -> Z -> Z -> pr unit; nfsreply_noaddr_print : Z -> Z -> Z -> pr unit }.

Section PrintTcp.
Context `{Printers} `{PortNames} `{TcpPrinters} (ndo_Sflag : Z).

(** The two tables. *)
Record seq_tables := mk_tables { tcp_seq_hash4 : seq_table; tcp_seq_hash6 : seq_table }.

Definition ip6addr_string (p : Z) : pr string := l <~ load p 16 ;; pret (getname6 l).

(** Source and destination of the enclosing header. *)
Definition addr_strings (v6 : bool) (bp2 : Z) : pr (string * string) :=
  if v6 then s <~ ip6addr_string (bp2 + 8) ;; d <~ ip6addr_string (bp2 + 24) ;; pret (s, d)
  else s <~ ipaddr_string (ip_src bp2) ;; d <~ ipaddr_string (ip_dst bp2) ;; pret (s, d).

(** ** Options *)

(** [LENCHECK]: [None] is the jump to [bad:]. *)
Definition LENCHECK {A} (cp hlen l : Z) (k : pr (option A)) : pr (option A) :=
  if l >? hlen then pret None else ND_TCHECK_LEN cp l ;~ k.

(** Hexadecimal bytes, each after its own check. *)
Fixpoint hex_checked (n : nat) (cp hlen i : Z) : pr (option unit) :=
  match n with
  | O => pret (Some tt)
  | S n' => LENCHECK cp hlen (i + 1) (b <~ EXTRACT_U_1 (cp + i) ;; ND_PRINT (hex_pad 2 b) ;~ hex_checked n' cp hlen (i + 1))
  end.

(** Hexadecimal bytes that were checked before. *)
Fixpoint hex_bytes (n : nat) (cp : Z) : pr unit :=
  match n with
  | O => pret tt
  | S n' => b <~ EXTRACT_U_1 cp ;; ND_PRINT (hex_pad 2 b) ;~ hex_bytes n' (cp + 1)
  end.

(** [for (i = 0; i < datalen; i += 8)]; [base] is subtracted from both edges. *)
Fixpoint sack_blocks (n : nat) (cp hlen i base : Z) : pr (option unit) :=
  match n with
  | O => pret (Some tt)
  | S n' =>
      LENCHECK cp hlen (i + 4)
        (s <~ EXTRACT_BE_U_4 (cp + i) ;;
         LENCHECK cp hlen (i + 8)
           (e <~ EXTRACT_BE_U_4 (cp + i + 4) ;;
            ND_PRINT ("{" +:+ dec (u32 (s - base)) +:+ ":" +:+ dec (u32 (e - base)) +:+ "}") ;~
            sack_blocks n' cp hlen (i + 8) base))
  end.

Definition print_tcp_fastopen_option (cp datalen : Z) (exp : bool) : pr unit :=
  (if exp then ND_PRINT "tfo" else pret tt) ;~
  if datalen =? 0 then ND_PRINT " cookiereq"
  else if negb (datalen mod 2 =? 0) || (datalen <? 4) || (datalen >? 16) then ND_PRINT " invalid"
  else ND_PRINT " cookie " ;~ hex_bytes (Z.to_nat datalen) cp.

(** The [switch]: the value of [datalen] after it, or [None] for [bad:]. [cp] is behind
    the length byte and [hlen] what is left there. *)
Definition option_data (opt len cp hlen flags base : Z) : pr (option Z) :=
  let fixed (n : Z) (k : pr unit) : pr (option Z) := LENCHECK cp hlen n (k ;~ pret (Some n)) in
  let after (datalen : Z) (m : pr (option unit)) : pr (option Z) :=
    r <~ m ;; pret (match r with Some _ => Some datalen | None => None end) in
  let rest := u32 (len - 2) in
  if opt =? TCPOPT_MAXSEG then fixed 2 (v <~ EXTRACT_BE_U_2 cp ;; ND_PRINT (" " +:+ dec v))
  else if opt =? TCPOPT_WSCALE then fixed 1 (v <~ EXTRACT_U_1 cp ;; ND_PRINT (" " +:+ dec v))
  else if opt =? TCPOPT_SACK then
    if negb (rest mod 8 =? 0) then ND_PRINT " invalid sack" ;~ pret (Some rest)
    else ND_PRINT (" " +:+ dec (rest / 8) +:+ " ") ;~ after rest (sack_blocks (Z.to_nat (rest / 8)) cp hlen 0 base)
  else if (opt =? TCPOPT_CC) || (opt =? TCPOPT_CCNEW) || (opt =? TCPOPT_CCECHO) || (opt =? TCPOPT_ECHO) || (opt =? TCPOPT_ECHOREPLY) then
    fixed 4 (v <~ EXTRACT_BE_U_4 cp ;; ND_PRINT (" " +:+ dec v))
  else if opt =? TCPOPT_TIMESTAMP then
    fixed 8 (v <~ EXTRACT_BE_U_4 cp ;; e <~ EXTRACT_BE_U_4 (cp + 4) ;; ND_PRINT (" val " +:+ dec v +:+ " ecr " +:+ dec e))
  else if opt =? TCPOPT_SIGNATURE then fixed TCP_SIGLEN (ND_PRINT " " ;~ hex_bytes (Z.to_nat TCP_SIGLEN) cp)
  else if opt =? TCPOPT_SCPS then
    fixed 2 (c <~ EXTRACT_U_1 cp ;; i <~ EXTRACT_U_1 (cp + 1) ;; ND_PRINT (" cap " +:+ hex_pad 2 c +:+ " id " +:+ dec i))
  else if opt =? TCPOPT_TCPAO then
    if rest <? 2 then ND_PRINT " invalid" ;~ pret (Some rest)
    else
      LENCHECK cp hlen 1
        (k <~ EXTRACT_U_1 cp ;; ND_PRINT (" keyid " +:+ dec k) ;~
         LENCHECK cp hlen 2
           (r <~ EXTRACT_U_1 (cp + 1) ;; ND_PRINT (" rnextkeyid " +:+ dec r) ;~
            if rest >? 2 then ND_PRINT " mac 0x" ;~ after rest (hex_checked (Z.to_nat (rest - 2)) cp hlen 2)
            else pret (Some rest)))
  else if (opt =? TCPOPT_EOL) || (opt =? TCPOPT_NOP) || (opt =? TCPOPT_SACKOK) then pret (Some 0)
  else if opt =? TCPOPT_UTO then
    fixed 2
      (v <~ EXTRACT_BE_U_2 cp ;; ND_PRINT (" 0x" +:+ hex v) ;~
       ND_PRINT (" " +:+ dec (if negb (Z.land v 1 =? 0) then Z.shiftr v 1 * 60 else Z.shiftr v 1)))
  else if opt =? TCPOPT_MPTCP then
    LENCHECK cp hlen rest (ok <~ mptcp_print (cp - 2) len flags ;; pret (if (ok : bool) then Some rest else None))
  else if opt =? TCPOPT_FASTOPEN then
    LENCHECK cp hlen rest (ND_PRINT " " ;~ print_tcp_fastopen_option cp rest false ;~ pret (Some rest))
  else if opt =? TCPOPT_EXPERIMENT2 then
    LENCHECK cp hlen rest
      (if rest <? 2 then pret None
       else
         magic <~ EXTRACT_BE_U_2 cp ;; ND_PRINT "-" ;~
         (if magic =? 0xf989 then print_tcp_fastopen_option (cp + 2) (rest - 2) true else ND_PRINT (hex_pad 4 magic)) ;~
         pret (Some rest))
  else (if negb (rest =? 0) then ND_PRINT " 0x" else pret tt) ;~ after rest (hex_checked (Z.to_nat rest) cp hlen 0).

(** How one round of the loop over the options ends. *)
Inductive opt_end := OptNext (cp hlen : Z) | OptLast | OptBad.

Definition one_option (cp hlen flags base : Z) : pr opt_end :=
  ND_TCHECK_LEN cp 1 ;~
  opt <~ EXTRACT_U_1 cp ;;
  h <~ (if ZEROLENOPT opt then pret (1, cp + 1, hlen - 1)
        else ND_TCHECK_LEN (cp + 1) 1 ;~ l <~ EXTRACT_U_1 (cp + 1) ;; pret (l, cp + 2, hlen - 2)) ;;
  let '(len, cp1, hlen1) := h in
  if negb (ZEROLENOPT opt) && ((len <? 2) || (len >? hlen)) then pret OptBad
  else
    ND_PRINT (tok2str tcp_option_values (Some (fun v => "unknown-" +:+ dec v)) opt) ;~
    r <~ option_data opt len cp1 hlen1 flags base ;;
    match r with
    | None => pret OptBad
    | Some datalen =>
        let seen := datalen + 1 + (if ZEROLENOPT opt then 0 else 1) in
        (if negb (seen =? len) then ND_PRINT ("[len " +:+ dec len +:+ "]") else pret tt) ;~
        pret (if opt =? TCPOPT_EOL then OptLast else OptNext (cp1 + datalen) (u32 (hlen1 - datalen)))
    end.

(** The loop; [ch] says that an option was printed. [false] is a return from the
    printer, after [bad:] or [trunc:]. Each round takes at least one byte. *)
Fixpoint options_loop (fuel : nat) (ch : bool) (cp hlen flags base : Z) : pr bool :=
  match fuel with
  | O => pstop Fuel
  | S f =>
      if hlen =? 0 then pret true
      else
        (if ch then ND_PRINT "," else pret tt) ;~
        r <~ on_trunc (r <~ one_option cp hlen flags base ;; pret (Some r)) (pret None) ;;
        match r with
        | None => nd_print_trunc ;~ (if ch then ND_PRINT ">" else pret tt) ;~ pret false
        | Some OptBad => ND_PRINT "[bad opt]" ;~ (if ch then ND_PRINT "]" else pret tt) ;~ pret false
        | Some OptLast => pret true
        | Some (OptNext cp' hlen') => options_loop f true cp' hlen' flags base
        end
  end.

(** ** Payload *)

Fixpoint rst_loop (n : nat) (sp : Z) : pr unit :=
  match n with
  | O => pret tt
  | S n' =>
      e <~ asks ndo_snapend ;;
      if sp <? e then c <~ EXTRACT_U_1 sp ;; fn_print_char c ;~ rst_loop n' (sp + 1) else pret tt
  end.

Definition print_tcp_rst_data (sp length : Z) : pr unit :=
  t <~ ND_TTEST_LEN sp length ;;
  ND_PRINT (if (t : bool) then " [RST" else " [!RST") ;~
  (if length >? MAX_RST_DATA_LEN then ND_PRINT "+" else pret tt) ;~
  ND_PRINT " " ;~
  rst_loop (Z.to_nat (if length >? MAX_RST_DATA_LEN then MAX_RST_DATA_LEN else length)) sp ;~
  ND_PRINT "]".

(** The NFS branch, once the port, the length and the first word are there. *)
Definition nfs_payload (bp length bp2 sport dport : Z) : pr unit :=
  w <~ EXTRACT_BE_U_4 bp ;;
  let fraglen := Z.land w 0x7FFFFFFF in
  let fraglen := if fraglen >? length - 4 then length - 4 else fraglen in
  let rp := bp + 4 in
  t <~ ND_TTEST_LEN (rp + 4) 4 ;;
  if negb t then pret tt
  else
    direction <~ EXTRACT_BE_U_4 (rp + 4) ;;
    if (dport =? NFS_PORT) && (direction =? SUNRPC_CALL) then
      x <~ EXTRACT_BE_U_4 rp ;; ND_PRINT (": NFS request xid " +:+ dec x +:+ " ") ;~ nfsreq_noaddr_print rp fraglen bp2
    else if (sport =? NFS_PORT) && (direction =? SUNRPC_REPLY) then
      x <~ EXTRACT_BE_U_4 rp ;; ND_PRINT (": NFS reply xid " +:+ dec x +:+ " ") ;~ nfsreply_noaddr_print rp fraglen bp2
    else pret tt.

Definition tcp_payload (bp length bp2 sport dport flags : Z) : pr unit :=
  let port (p : Z) : bool := (sport =? p) || (dport =? p) in
  vflag <~ flag f_vflag ;;
  packettype <~ flag f_packettype ;;
  if negb (Z.land flags TH_RST =? 0) && negb (vflag =? 0) then print_tcp_rst_data bp length
  else if negb (packettype =? 0) then
    if packettype =? PT_ZMTP1 then zmtp1_print bp length
    else if packettype =? PT_RESP then resp_print bp length
    else pret tt
  else if port TELNET_PORT then telnet_print bp length
  else if port SMTP_PORT then ND_PRINT ": " ;~ smtp_print bp length
  else if port WHOIS_PORT then ND_PRINT ": " ;~ txtproto_print bp length "whois" None 0
  else if port BGP_PORT then bgp_print bp length
  else if port PPTP_PORT then pptp_print bp
  else if port REDIS_PORT then resp_print bp length
  else if port NETBIOS_SSN_PORT then nbt_tcp_print bp length
  else if port SMB_PORT then smb_tcp_print bp length
  else if port BEEP_PORT then beep_print bp length
  else if port OPENFLOW_PORT_OLD || port OPENFLOW_PORT_IANA then openflow_print bp length
  else if port FTP_PORT then ND_PRINT ": " ;~ ftp_print bp length
  else if port HTTP_PORT || port HTTP_PORT_ALT then ND_PRINT ": " ;~ http_print bp length
  else if port RTSP_PORT || port RTSP_PORT_ALT then ND_PRINT ": " ;~ rtsp_print bp length
  else if (length >? 2) && port NAMESERVER_PORT then ND_PRINT " " ;~ domain_print (bp + 2) (length - 2) false
  else if port MSDP_PORT then msdp_print bp length
  else if port RPKI_RTR_PORT then rpki_rtr_print bp length
  else if (length >? 0) && port LDP_PORT then ldp_print bp length
  else
    t <~ ND_TTEST_LEN bp 4 ;;
    if port NFS_PORT && (length >=? 4) && t then nfs_payload bp length bp2 sport dport else pret tt.

(** ** The header *)

(** The checksum remark. [ip6->ip6_plen] is an array, so that testing it for zero is
    always true. *)
Definition tcp_cksum_remark (bp length bp2 v : Z) : pr unit :=
  let remark (cksum : pr Z) : pr unit :=
    t <~ ND_TTEST_LEN bp length ;;
    if (t : bool) then
      sum <~ cksum ;;
      tcp_sum <~ EXTRACT_BE_U_2 (bp + 16) ;;
      ND_PRINT (", cksum 0x" +:+ hex_pad 4 tcp_sum) ;~
      ND_PRINT (if negb (u16 sum =? 0) then " (incorrect -> 0x" +:+ hex_pad 4 (in_cksum_shouldbe tcp_sum (u16 sum)) +:+ ")" else " (correct)")
    else pret tt in
  if v =? 4 then remark (nextproto4_cksum bp2 bp length length IPPROTO_TCP)
  else if v =? 6 then remark (nextproto6_cksum bp2 bp length length IPPROTO_TCP)
  else pret tt.

(** The tables after the segment, and what it is printed with: the numbers, and the
    number the edges of a SACK block are relative to. *)
Definition find_conversation (tb : seq_tables) (v6 : bool) (bp2 sport dport seq ack flags : Z) : pr (seq_tables * (Z * Z) * Z) :=
  if (ndo_Sflag =? 0) && negb (Z.land flags TH_ACK =? 0) then
    src <~ (if v6 then load (bp2 + 8) 16 else load (ip_src bp2) 4) ;;
    dst <~ (if v6 then load (bp2 + 24) 16 else load (ip_dst bp2) 4) ;;
    let g := mk_segment src dst sport dport seq ack (negb (Z.land flags TH_SYN =? 0)) in
    match seq_lookup (if v6 then tcp_seq_hash6 tb else tcp_seq_hash4 tb) g with
    | Some (tb', nums, (thseq, thack), rev) =>
        pret (if v6 then mk_tables (tcp_seq_hash4 tb) tb' else mk_tables tb' (tcp_seq_hash6 tb), nums, if (rev : bool) then thseq else thack)
    | None => pstop Fault
    end
  else pret (tb, (seq, ack), 0).

(** From the line of numbers on; [length] no longer counts the header. *)
Definition tcp_rest (bp length hlen bp2 sport dport seq ack win urp flags base : Z) : pr unit :=
  vflag <~ flag f_vflag ;;
  (if (vflag >? 1) || (length >? 0) || negb (Z.land flags (Z.lor (Z.lor TH_SYN TH_FIN) TH_RST) =? 0) then
     ND_PRINT (", seq " +:+ dec seq) ;~
     (if length >? 0 then ND_PRINT (":" +:+ dec (u32 (seq + length))) else pret tt)
   else pret tt) ;~
  (if negb (Z.land flags TH_ACK =? 0) then ND_PRINT (", ack " +:+ dec ack) else pret tt) ;~
  ND_PRINT (", win " +:+ dec win) ;~
  (if negb (Z.land flags TH_URG =? 0) then ND_PRINT (", urg " +:+ dec urp) else pret tt) ;~
  go_on <~ (if hlen >? sizeof_tcphdr then
              ND_PRINT ", options [" ;~
              ok <~ options_loop (S (Z.to_nat (hlen - sizeof_tcphdr))) false (bp + sizeof_tcphdr) (hlen - sizeof_tcphdr) flags base ;;
              (if (ok : bool) then ND_PRINT "]" else pret tt) ;~ pret ok
            else pret true) ;;
  if negb go_on then pret tt
  else
    ND_PRINT (", length " +:+ dec length) ;~
    if length <=? 0 then pret tt
    else tcp_payload (bp + hlen) length bp2 sport dport flags.

Definition tcp_header (tb : seq_tables) (v : Z) (bp length bp2 fragmented sport dport : Z) : pr seq_tables :=
  off <~ EXTRACT_U_1 (bp + 12) ;;
  let hlen := Z.shiftr (Z.land off 0xf0) 4 * 4 in
  if hlen <? sizeof_tcphdr then
    ND_PRINT (" tcp " +:+ dec (u32 (length - hlen)) +:+ " [bad hdr length " +:+ dec hlen +:+ " - too short, < " +:+ dec sizeof_tcphdr +:+ "]") ;~
    pret tb
  else
    seq <~ EXTRACT_BE_U_4 (bp + 4) ;;
    ack <~ EXTRACT_BE_U_4 (bp + 8) ;;
    win <~ EXTRACT_BE_U_2 (bp + 14) ;;
    urp <~ EXTRACT_BE_U_2 (bp + 18) ;;
    let too_long := " [bad hdr length " +:+ dec hlen +:+ " - too long, > " +:+ dec length +:+ "]" in
    qflag <~ flag f_qflag ;;
    if negb (qflag =? 0) then
      ND_PRINT ("tcp " +:+ dec (u32 (length - hlen))) ;~
      (if hlen >? length then ND_PRINT too_long else pret tt) ;~
      pret tb
    else
      flags <~ EXTRACT_U_1 (bp + 13) ;;
      ND_PRINT ("Flags [" +:+ bittok2str_nosep tcp_flag_values (Some (fun _ => "none"%string)) flags +:+ "]") ;~
      conv <~ find_conversation tb (v =? 6) bp2 sport dport seq ack flags ;;
      let '(tb', (seq', ack'), base) := conv in
      if hlen >? length then ND_PRINT too_long ;~ pret tb'
      else
        vflag <~ flag f_vflag ;;
        Kflag <~ flag f_Kflag ;;
        (if negb (vflag =? 0) && (Kflag =? 0) && (fragmented =? 0) then tcp_cksum_remark bp length bp2 v else pret tt) ;~
        tcp_rest bp (length - hlen) hlen bp2 sport dport seq' ack' win urp flags base ;~
        pret tb'.

Definition tcp_print (tb : seq_tables) (bp length bp2 fragmented : Z) : pr seq_tables :=
  set_protocol "tcp" ;~
  v <~ IP_V bp2 ;;
  let v6 := v =? 6 in
  t <~ ND_TTEST_LEN (bp + 2) 2 ;;
  if negb t then
    a <~ addr_strings v6 bp2 ;;
    ND_PRINT (a.1 +:+ " > " +:+ a.2 +:+ ":") ;~ nd_print_trunc ;~ pret tb
  else
    sport <~ EXTRACT_BE_U_2 bp ;;
    dport <~ EXTRACT_BE_U_2 (bp + 2) ;;
    nxt <~ EXTRACT_U_1 (if v6 then bp2 + 6 else bp2 + 9) ;;
    (if nxt =? IPPROTO_TCP then
       a <~ addr_strings v6 bp2 ;;
       ND_PRINT (a.1 +:+ "." +:+ tcpport_string sport +:+ " > " +:+ a.2 +:+ "." +:+ tcpport_string dport +:+ ": ")
     else ND_PRINT (tcpport_string sport +:+ " > " +:+ tcpport_string dport +:+ ": ")) ;~
    whole <~ on_trunc (ND_TCHECK_LEN bp sizeof_tcphdr ;~ pret true) (nd_print_trunc ;~ pret false) ;;
    if negb whole then pret tb else tcp_header tb v bp length bp2 fragmented sport dport.
End PrintTcp.

(** ** The rule the other printers follow *)

Class TcpLaws `{TcpPrinters} := {
  tcp_accepts : netdissect_options -> Prop;
  tcp_accepts_mono s s' : ndo_ext s s' -> tcp_accepts s -> tcp_accepts s';
  getname6_clean l : clean (getname6 l) = true;
  mptcp_law s0 cp len flags : ndo_ok s0 -> readable s0 cp len -> safe false s0 (mptcp_print cp len flags) (fun _ => True);
  pptp_law s0 bp : ndo_ok s0 -> tcp_accepts s0 -> 0 <= bp -> safe false s0 (pptp_print bp) (fun _ => True);
  nfs_law s0 bp len bp2 : ndo_ok s0 -> tcp_accepts s0 -> 0 <= bp -> readable s0 bp2 sizeof_ip ->
    safe false s0 (nfsreq_noaddr_print bp len bp2) (fun _ => True) /\ safe false s0 (nfsreply_noaddr_print bp len bp2) (fun _ => True);
  payload_law s0 bp len : ndo_ok s0 -> tcp_accepts s0 -> 0 <= bp ->
    Forall (fun m : pr unit => safe false s0 m (fun _ => True))
      [telnet_print bp len; smtp_print bp len; bgp_print bp len; resp_print bp len; zmtp1_print bp len; nbt_tcp_print bp len;
       smb_tcp_print bp len; beep_print bp len; openflow_print bp len; ftp_print bp len; http_print bp len; rtsp_print bp len;
       msdp_print bp len; rpki_rtr_print bp len; ldp_print bp len] }.

(** ** Safety *)

Section Safety.
Context `{PrinterLaws} `{PortNamesLaws} `{TcpLaws} (ndo_Sflag : Z) (s0 : netdissect_options) (Hok : ndo_ok s0).

Lemma safe_lencheck {A} cp hlen l (k : pr (option A)) Q :
  0 <= l < 2 ^ 64 -> Q None -> (l <= hlen -> cp + l <= ndo_snapend s0 -> safe true s0 k Q) -> safe true s0 (LENCHECK cp hlen l k) Q.
Proof.
  intros Hl HQ Hk. unfold LENCHECK. destruct (Z.gtb_spec l hlen); [by apply safe_ret|]. safe_step. apply Hk; lia.
Qed.

Lemma safe_hex_checked n cp hlen i : 0 <= cp -> 0 <= i -> i + Z.of_nat n < 2 ^ 32 -> safe true s0 (hex_checked n cp hlen i) (fun _ => True).
Proof.
  revert i. induction n as [|n IH]; intros i Hc Hi Hn; cbn [hex_checked]; [by apply safe_ret|].
  apply safe_lencheck; [lia|done|]. intros _ Hcap. safe_step. safe_step. apply IH; lia.
Qed.

Lemma safe_hex_bytes T n cp : readable s0 cp (Z.of_nat n) -> safe T s0 (hex_bytes n cp) (fun _ => True).
Proof.
  revert cp. induction n as [|n IH]; intros cp Hr; cbn [hex_bytes]; [by apply safe_ret|].
  safe_step. safe_step. apply IH. readable_tac.
Qed.

Lemma safe_sack_blocks n cp hlen i base : 0 <= cp -> 0 <= i -> i + 8 * Z.of_nat n < 2 ^ 32 -> safe true s0 (sack_blocks n cp hlen i base) (fun _ => True).
Proof.
  revert i. induction n as [|n IH]; intros i Hc Hi Hn; cbn [sack_blocks]; [by apply safe_ret|].
  apply safe_lencheck; [lia|done|]. intros _ Hcap. safe_step. apply safe_lencheck; [lia|done|]. intros _ Hcap2. safe_step. safe_step. apply IH; lia.
Qed.

Lemma safe_fastopen T cp n exp : readable s0 cp n -> safe T s0 (print_tcp_fastopen_option cp n exp) (fun _ => True).
Proof.
  intros Hr. unfold print_tcp_fastopen_option. eapply safe_bind; [by apply safe_opt|]. intros _ _.
  destruct (n =? 0); [by apply safe_print|]. destruct (_ || _); [by apply safe_print|]. safe_step. apply safe_hex_bytes.
  destruct Hr as (? & ? & ?). by rewrite Z2Nat.id.
Qed.

(** The data of an option stays inside what is left of the header. *)
Lemma safe_option_data opt len cp hlen flags base :
  2 <= cp -> 0 <= hlen -> (ZEROLENOPT opt = false -> 2 <= len < 256 /\ len - 2 <= hlen) ->
  safe true s0 (option_data opt len cp hlen flags base) (fun r => match r with Some d => 0 <= d <= hlen | None => True end).
Proof.
  intros Hcp Hh Hlen. unfold option_data. set (Q := fun r : option Z => match r with Some d => 0 <= d <= hlen | None => True end).
  assert (Hfix : forall n (k : pr unit), 0 <= n < 2 ^ 64 -> (cp + n <= ndo_snapend s0 -> safe true s0 k (fun _ => True)) ->
    safe true s0 (LENCHECK cp hlen n (k ;~ pret (Some n))) Q).
  { intros n k Hn Hk. apply safe_lencheck; [done|done|]. intros Hle Hcap. eapply safe_bind; [by apply Hk|]. intros _ _. apply safe_ret. cbn. lia. }
  destruct (opt =? TCPOPT_MAXSEG); [apply Hfix; [lia|]; intros; safe_step; safe_step; done|].
  destruct (opt =? TCPOPT_WSCALE); [apply Hfix; [lia|]; intros; safe_step; safe_step; done|].
  destruct (ZEROLENOPT opt) eqn:Ez.
  { unfold ZEROLENOPT, TCPOPT_EOL, TCPOPT_NOP in Ez. apply orb_prop in Ez as [->%Z.eqb_eq| ->%Z.eqb_eq]; apply safe_ret; cbn; lia. }
  destruct (Hlen eq_refl) as [Hl2 Hlh]. clear Hlen Ez. rewrite (u32_small (len - 2)) by lia.
  assert (Hafter : forall m : pr (option unit), safe true s0 m (fun _ => True) ->
    safe true s0 (r <~ m ;; pret (match r with Some _ => Some (len - 2) | None => None end)) Q).
  { intros m Hm. eapply safe_bind; [exact Hm|]. intros [] _; apply safe_ret; cbn; lia. }
  assert (Hrest : Q (Some (len - 2))) by (cbn; lia).
  destruct (opt =? TCPOPT_SACK).
  { destruct (negb _); [safe_step; by apply safe_ret|]. safe_step. apply Hafter.
    assert (8 * ((len - 2) / 8) <= len - 2) by (apply Z.mul_div_le; lia). assert (0 <= (len - 2) / 8) by (apply Z.div_pos; lia).
    apply safe_sack_blocks; lia. }
  destruct (_ || _ || _ || _ || _); [apply Hfix; [lia|]; intros; safe_step; safe_step; done|].
  destruct (opt =? TCPOPT_TIMESTAMP); [apply Hfix; [lia|]; intros; safe_step; safe_step; safe_step; done|].
  destruct (opt =? TCPOPT_SIGNATURE).
  { apply Hfix; [done|]. intros Hc. safe_step. apply safe_hex_bytes. change (Z.of_nat (Z.to_nat TCP_SIGLEN)) with 16. unfold TCP_SIGLEN in Hc. readable_tac. }
  destruct (opt =? TCPOPT_SCPS); [apply Hfix; [lia|]; intros; safe_step; safe_step; safe_step; done|].
  destruct (opt =? TCPOPT_TCPAO).
  { destruct (len - 2 <? 2); [safe_step; by apply safe_ret|]. apply safe_lencheck; [lia|done|]. intros _ Hc. safe_step. safe_step.
    apply safe_lencheck; [lia|done|]. intros _ Hc2. safe_step. safe_step. destruct (_ >? 2); [|by apply safe_ret]. safe_step.
    apply Hafter, safe_hex_checked; lia. }
  destruct (_ || _ || _); [apply safe_ret; cbn; lia|].
  destruct (opt =? TCPOPT_UTO); [apply Hfix; [lia|]; intros; safe_step; safe_step; safe_step; done|].
  destruct (opt =? TCPOPT_MPTCP).
  { apply safe_lencheck; [lia|done|]. intros _ Hc. eapply safe_bind; [apply safe_allow_trunc, mptcp_law; [done|readable_tac]|].
    intros ok _. apply safe_ret. by destruct ok. }
  destruct (opt =? TCPOPT_FASTOPEN).
  { apply safe_lencheck; [lia|done|]. intros _ Hc. safe_step. eapply safe_bind; [apply safe_fastopen; readable_tac|]. intros _ _. by apply safe_ret. }
  destruct (opt =? TCPOPT_EXPERIMENT2).
  { apply safe_lencheck; [lia|done|]. intros _ Hc. destruct (Z.ltb_spec (len - 2) 2); [by apply safe_ret|]. safe_step. safe_step.
    eapply safe_bind; [|intros _ _; by apply safe_ret]. destruct (_ =? 0xf989); [apply safe_fastopen; readable_tac|safe_step; done]. }
  eapply safe_bind; [by apply safe_opt|]. intros _ _. apply Hafter, safe_hex_checked; lia.
Qed.

Lemma safe_one_option cp hlen flags base :
  1 <= cp -> 0 < hlen < 2 ^ 32 ->
  safe true s0 (one_option cp hlen flags base) (fun r => match r with OptNext cp' hlen' => cp <= cp' /\ 0 <= hlen' < hlen | _ => True end).
Proof.
  intros Hcp Hh. unfold one_option. safe_step. safe_step.
  eapply (safe_bind _ _ _ _ (fun h => let '(len, cp1, hlen1) := h in
    (ZEROLENOPT a0 = true -> cp1 = cp + 1 /\ hlen1 = hlen - 1 /\ len = 1) /\
    (ZEROLENOPT a0 = false -> cp1 = cp + 2 /\ hlen1 = hlen - 2 /\ 0 <= len < 256))).
  { destruct (ZEROLENOPT a0) eqn:Ez; [by apply safe_ret|]. safe_step. safe_step. apply safe_ret. split; [done|]. intros _. lia. }
  intros [[len cp1] hlen1] [Hz Hnz]. destruct (negb (ZEROLENOPT a0) && _) eqn:Eb; [by apply safe_ret|].
  eapply safe_bind; [apply safe_print, clean_tok2str; [done|cbn; clean_tac]|]. intros _ _.
  assert (Hh1 : 2 <= cp1 /\ cp < cp1 /\ 0 <= hlen1 < hlen /\ (ZEROLENOPT a0 = false -> 2 <= len < 256 /\ len - 2 <= hlen1)).
  { destruct (ZEROLENOPT a0); cbn [negb andb] in Eb; [destruct (Hz eq_refl) as (-> & -> & _); split_and!; done || lia|].
    destruct (Hnz eq_refl) as (-> & -> & Hl). bool_to_prop. split_and!; try lia; intros _; lia. }
  destruct Hh1 as (Hc1 & Hc2 & Hh1 & Hl1). eapply safe_bind; [apply safe_option_data; lia || done|]. intros [d|] Hd; [|by apply safe_ret].
  eapply safe_bind; [apply safe_opt; clean_tac|]. intros _ _. apply safe_ret. destruct (a0 =? TCPOPT_EOL); [done|].
  rewrite u32_small by lia. lia.
Qed.

Lemma safe_options_loop fuel ch cp hlen flags base :
  1 <= cp -> 0 <= hlen < 2 ^ 32 -> hlen < Z.of_nat fuel -> safe false s0 (options_loop fuel ch cp hlen flags base) (fun _ => True).
Proof.
  revert ch cp hlen. induction fuel as [|fuel IH]; intros ch cp hlen Hc Hh Hf; cbn [options_loop]; [lia|].
  destruct (Z.eqb_spec hlen 0); [by apply safe_ret|]. eapply safe_bind; [by apply safe_opt|]. intros _ _.
  eapply (safe_bind _ _ _ _ (fun r => match r with Some (OptNext cp' hlen') => cp <= cp' /\ 0 <= hlen' < hlen | _ => True end)).
  { apply safe_on_trunc; [|by apply safe_ret]. eapply safe_bind; [apply safe_one_option; lia|]. intros r Hr. by apply safe_ret. }
  intros [[cp' hlen'| |]|] Hr.
  - apply IH; lia.
  - by apply safe_ret.
  - safe_step. eapply safe_bind; [by apply safe_opt|]. intros _ _. by apply safe_ret.
  - safe_step. eapply safe_bind; [by apply safe_opt|]. intros _ _. by apply safe_ret.
Qed.

Lemma safe_rst_loop n sp : 0 <= sp -> safe false s0 (rst_loop n sp) (fun _ => True).
Proof.
  revert sp. induction n as [|n IH]; intros sp Hs; cbn [rst_loop]; [by apply safe_ret|]. safe_step. safe_step; [|by apply safe_ret].
  safe_step. eapply safe_bind; [by apply safe_print_char|]. intros _ _. apply IH. lia.
Qed.

Lemma safe_rst_data sp n : 0 <= sp -> 0 <= n < 2 ^ 32 -> safe false s0 (print_tcp_rst_data sp n) (fun _ => True).
Proof.
  intros Hs Hn. unfold print_tcp_rst_data. safe_step. eapply safe_bind; [apply safe_print; by destruct a|]. intros _ _.
  eapply safe_bind; [by apply safe_opt|]. intros _ _. safe_step. eapply safe_bind; [by apply safe_rst_loop|]. intros _ _. safe_step. done.
Qed.

(** What a bounds test that succeeded gives. *)
Ltac tested := match goal with H : true = true -> _ |- _ => specialize (H eq_refl) end.

Context (Hacc : tcp_accepts s0) (bp2 : Z) (Hip : readable s0 bp2 sizeof_ip).

Lemma safe_nfs_payload bp n sport dport : readable s0 bp 4 -> safe false s0 (nfs_payload bp n bp2 sport dport) (fun _ => True).
Proof.
  intros Hr. pose proof Hr as (Hb & _). unfold nfs_payload. safe_step. safe_step. destruct a0; cbn [negb]; [|by apply safe_ret].
  tested. safe_step.
  match goal with |- context [nfsreq_noaddr_print _ ?f _] => destruct (nfs_law s0 (bp + 4) f bp2 Hok Hacc ltac:(lia) Hip) as [Hreq Hrep] end.
  destruct (_ && _); [safe_step; safe_step; exact Hreq|]. destruct (_ && _); [safe_step; safe_step; exact Hrep|by apply safe_ret].
Qed.

Lemma safe_tcp_payload bp n sport dport flags :
  0 <= bp -> 0 <= n < 2 ^ 32 -> safe false s0 (tcp_payload bp n bp2 sport dport flags) (fun _ => True).
Proof.
  intros Hb Hn. unfold tcp_payload. safe_step. safe_step. destruct (_ && _); [by apply safe_rst_data|].
  pose proof (payload_law s0 bp n Hok Hacc Hb) as Hall. repeat (apply Forall_cons in Hall as [? Hall]).
  assert (Hcol : forall m : pr unit, safe false s0 m (fun _ => True) -> safe false s0 (ND_PRINT ": " ;~ m) (fun _ => True))
    by (intros m Hm; safe_step; exact Hm).
  destruct (negb _); [repeat case_match; done || by apply safe_ret|]. cbv zeta.
  repeat (match goal with |- safe _ _ (if ?b then _ else _) _ => destruct b end; [solve [assumption | apply Hcol; assumption
    | apply Hcol, safe_txtproto; done || lia | apply pptp_law; assumption | safe_step; apply safe_domain; assumption || lia]|]).
  safe_step. destruct a1; rewrite ?andb_false_r, ?andb_true_r; [|by apply safe_ret]. destruct (_ && _); [|by apply safe_ret].
  apply safe_nfs_payload. tested. readable_tac.
Qed.

(** An IPv6 header is longer; and no more was captured than the checksum can add up. *)
Context (Hip6 : forall l, mem_read (ndo_packet s0) bp2 1 = Some l -> version_of l = 6 -> readable s0 bp2 sizeof_ip6_hdr).
Context (Hroom : ndo_snapend s0 + 40 <= IN_CKSUM_MAX).

Lemma safe_version T : safe T s0 (IP_V bp2) (fun v => v = 6 -> readable s0 bp2 sizeof_ip6_hdr).
Proof.
  unfold sizeof_ip in Hip. eapply safe_weaken; [apply safe_IP_V; [done|readable_tac]|]. intros v (l & Hl & ->). by apply Hip6.
Qed.

Lemma safe_addr_strings T (v6 : bool) : (v6 = true -> readable s0 bp2 sizeof_ip6_hdr) ->
  safe T s0 (addr_strings v6 bp2) (fun a => clean a.1 = true /\ clean a.2 = true).
Proof.
  intros Hv. unfold addr_strings, ip6addr_string, ip_src, ip_dst. unfold sizeof_ip in Hip. destruct v6.
  - specialize (Hv eq_refl). unfold sizeof_ip6_hdr in Hv.
    assert (Hn : forall p, readable s0 p 16 -> safe T s0 (l <~ load p 16 ;; pret (getname6 l)) (fun a => clean a = true)).
    { intros p Hp. eapply safe_bind; [by apply safe_load|]. intros l _. apply safe_ret, getname6_clean. }
    eapply safe_bind; [apply Hn; readable_tac|]. intros s Hs. eapply safe_bind; [apply Hn; readable_tac|]. intros d Hd. by apply safe_ret.
  - eapply safe_bind; [apply safe_ipaddr; [done|readable_tac]|]. intros s Hs.
    eapply safe_bind; [apply safe_ipaddr; [done|readable_tac]|]. intros d Hd. by apply safe_ret.
Qed.

Lemma safe_tcp_cksum_remark bp n v :
  0 <= bp -> bp + sizeof_tcphdr <= ndo_snapend s0 -> 0 <= n < 2 ^ 32 -> (v = 6 -> readable s0 bp2 sizeof_ip6_hdr) ->
  safe false s0 (tcp_cksum_remark bp n bp2 v) (fun _ => True).
Proof.
  intros Hb Hh Hn Hv. unfold tcp_cksum_remark, sizeof_tcphdr in *.
  assert (Hrem : forall cksum : pr Z, (readable s0 bp n -> n + 40 <= IN_CKSUM_MAX -> safe false s0 cksum (fun _ => True)) ->
    safe false s0 (t <~ ND_TTEST_LEN bp n ;;
      if (t : bool) then
        sum <~ cksum ;; tcp_sum <~ EXTRACT_BE_U_2 (bp + 16) ;; ND_PRINT (", cksum 0x" +:+ hex_pad 4 tcp_sum) ;~
        ND_PRINT (if negb (u16 sum =? 0) then " (incorrect -> 0x" +:+ hex_pad 4 (in_cksum_shouldbe tcp_sum (u16 sum)) +:+ ")" else " (correct)")
      else pret tt) (fun _ => True)).
  { intros cksum Hck. safe_step. destruct a; [|by apply safe_ret]. tested. eapply safe_bind; [apply Hck; [readable_tac|lia]|]. intros sum _.
    safe_step. safe_step. apply safe_print. case_test; [|done]. clean_tac. apply clean_hex_pad, in_cksum_shouldbe_range. }
  cbv zeta. destruct (v =? 4); [apply Hrem; intros; eapply safe_weaken; [apply safe_nextproto4_cksum; done || lia|done]|].
  destruct (Z.eqb_spec v 6) as [->|]; [|by apply safe_ret]. apply Hrem. intros. eapply safe_weaken; [apply safe_nextproto6_cksum; auto|done].
Qed.

Definition tables_ok (tb : seq_tables) : Prop :=
  length (tcp_seq_hash4 tb) = Z.to_nat TSEQ_HASHSIZE /\ length (tcp_seq_hash6 tb) = Z.to_nat TSEQ_HASHSIZE.

Lemma seq_lookup_total tb g : length tb = Z.to_nat TSEQ_HASHSIZE ->
  exists tb' nums th rev, seq_lookup tb g = Some (tb', nums, th, rev) /\ length tb' = Z.to_nat TSEQ_HASHSIZE.
Proof.
  intros Hl. unfold seq_lookup. destruct (bucket_lt tb (seg_tha g) Hl) as [chain Hc]. unfold bucket in Hc. rewrite Hc. cbn [mbind option_bind].
  destruct (chain_find _ chain) as [th|], (g_syn g); eexists _, _, _, _; (split; [done|]); by rewrite ?length_insert.
Qed.

Lemma safe_find_conversation tb (v6 : bool) sport dport seq ack flags :
  tables_ok tb -> (v6 = true -> readable s0 bp2 sizeof_ip6_hdr) ->
  safe false s0 (find_conversation ndo_Sflag tb v6 bp2 sport dport seq ack flags) (fun r => tables_ok r.1.1).
Proof.
  intros [Ht4 Ht6] Hv. unfold find_conversation, ip_src, ip_dst. unfold sizeof_ip in Hip. destruct (_ && _); [|by apply safe_ret].
  assert (Hload : forall o4 o6, 0 <= o4 <= 16 -> 0 <= o6 <= 24 ->
    safe false s0 (if v6 then load (bp2 + o6) 16 else load (bp2 + o4) 4) (fun _ => True)).
  { intros o4 o6 Ho4 Ho6. destruct v6; [specialize (Hv eq_refl); unfold sizeof_ip6_hdr in Hv|]; (eapply safe_weaken; [apply safe_load; [done|readable_tac]|done]). }
  eapply safe_bind; [apply Hload; lia|]. intros src _. eapply safe_bind; [apply Hload; lia|]. intros dst _. cbv zeta.
  destruct v6.
  - edestruct (seq_lookup_total (tcp_seq_hash6 tb)) as (tb' & nums & [s k] & rev & -> & Hl'); [done|]. apply safe_ret. by split.
  - edestruct (seq_lookup_total (tcp_seq_hash4 tb)) as (tb' & nums & [s k] & rev & -> & Hl'); [done|]. apply safe_ret. by split.
Qed.

Lemma safe_tcp_rest bp n hlen sport dport seq ack win urp flags base :
  0 <= bp -> 0 <= n < 2 ^ 32 -> sizeof_tcphdr <= hlen <= 60 ->
  safe false s0 (tcp_rest bp n hlen bp2 sport dport seq ack win urp flags base) (fun _ => True).
Proof.
  intros Hb Hn Hh. unfold tcp_rest, sizeof_tcphdr in *. safe_step. eapply safe_bind.
  { instantiate (1 := fun _ => True). destruct (_ || _); [|by apply safe_ret]. safe_step. apply safe_opt. clean_tac. }
  intros _ _. eapply safe_bind; [apply safe_opt; clean_tac|]. intros _ _. safe_step. eapply safe_bind; [apply safe_opt; clean_tac|]. intros _ _.
  eapply (safe_bind _ _ _ _ (fun _ => True)).
  { destruct (_ >? 20); [|by apply safe_ret]. safe_step. eapply safe_bind; [apply safe_options_loop; lia|]. intros ok _.
    eapply safe_bind; [by apply safe_opt|]. intros _ _. by apply safe_ret. }
  intros go _. destruct (negb go); [by apply safe_ret|]. safe_step. destruct (_ <=? 0); [by apply safe_ret|]. apply safe_tcp_payload; lia.
Qed.

Lemma safe_tcp_header tb v bp n fragmented sport dport :
  tables_ok tb -> 0 <= bp -> bp + sizeof_tcphdr <= ndo_snapend s0 -> 0 <= n < 2 ^ 32 -> (v = 6 -> readable s0 bp2 sizeof_ip6_hdr) ->
  safe false s0 (tcp_header ndo_Sflag tb v bp n bp2 fragmented sport dport) tables_ok.
Proof.
  intros Ht Hb Hh Hn Hv. unfold tcp_header. pose proof Hh as Hh'. unfold sizeof_tcphdr in Hh'. safe_step.
  assert (Hhl : 0 <= Z.shiftr (Z.land a 0xf0) 4 < 16).
  { rewrite Z.shiftr_land. change (Z.shiftr 0xf0 4) with (2 ^ 4 - 1). rewrite land_mask by lia. apply Z.mod_pos_bound. lia. }
  set (hlen := Z.shiftr (Z.land a 0xf0) 4 * 4) in *. assert (Hhb : 0 <= hlen <= 60) by (unfold hlen; lia). clearbody hlen. clear Hhl.
  destruct (Z.ltb_spec hlen sizeof_tcphdr); [safe_step; by apply safe_ret|]. do 4 safe_step. safe_step. cbv zeta.
  destruct (negb _); [safe_step; eapply safe_bind; [apply safe_opt; clean_tac|]; intros _ _; by apply safe_ret|].
  safe_step. eapply safe_bind; [apply safe_print; clean_tac; by apply clean_bittok2str_internal|]. intros _ _.
  eapply safe_bind; [apply safe_find_conversation; [done|intros ?%Z.eqb_eq; auto]|]. intros [[tb' [seq' ack']] base] Ht'. cbn [fst] in Ht'.
  destruct (Z.gtb_spec hlen n); [safe_step; by apply safe_ret|]. safe_step. safe_step. eapply safe_bind.
  { instantiate (1 := fun _ => True). destruct (_ && _); [by apply safe_tcp_cksum_remark|by apply safe_ret]. }
  intros _ _. eapply safe_bind; [apply safe_tcp_rest; lia|]. intros _ _. by apply safe_ret.
Qed.

Lemma safe_tcp_print tb bp n fragmented :
  tables_ok tb -> 0 <= bp -> 0 <= n < 2 ^ 32 -> safe false s0 (tcp_print ndo_Sflag tb bp n bp2 fragmented) tables_ok.
Proof.
  intros Ht Hb Hn. unfold tcp_print. safe_step. eapply safe_bind; [apply safe_version|]. intros v Hv. cbv zeta. safe_step.
  assert (Hv6 : (v =? 6) = true -> readable s0 bp2 sizeof_ip6_hdr) by (intros ?%Z.eqb_eq; auto).
  destruct a0; cbn [negb]; [tested|eapply safe_bind; [by apply safe_addr_strings|]; intros x [Hx1 Hx2]; safe_step; safe_step; by apply safe_ret].
  safe_step. safe_step. eapply safe_bind.
  { instantiate (1 := fun _ => True). unfold sizeof_ip in Hip. destruct (v =? 6) eqn:Ev; [specialize (Hv6 eq_refl); unfold sizeof_ip6_hdr in Hv6|];
      (eapply safe_weaken; [apply safe_u1; [done|readable_tac]|done]). }
  intros nxt _. eapply (safe_bind _ _ _ _ (fun _ => True)).
  { destruct (_ =? IPPROTO_TCP).
    - eapply safe_bind; [by apply safe_addr_strings|]. intros x [Hx1 Hx2]. apply safe_print. clean_tac; apply tcpport_clean.
    - apply safe_print. clean_tac; apply tcpport_clean. }
  intros _ _. eapply (safe_bind _ _ _ _ (fun b : bool => b = true -> bp + sizeof_tcphdr <= ndo_snapend s0)).
  { apply safe_on_trunc; [|safe_step; by apply safe_ret]. eapply safe_bind; [apply safe_tcheck; [done|done|by unfold sizeof_tcphdr]|].
    intros _ [_ Hc]. by apply safe_ret. }
  intros whole Hw. destruct whole; cbn [negb]; [|by apply safe_ret]. apply safe_tcp_header; auto.
Qed.
End Safety.

(** ** A segment without options *)

Section Segment.
Context `{Printers} `{PortNames} `{TcpPrinters}.
Context (pre post src dst : list Z) (sport dport seq ack flags win sum urp : Z).
Context (Hsp : 0 <= sport < 65536) (Hdp : 0 <= dport < 65536) (Hseq : 0 <= seq < 2 ^ 32) (Hack : 0 <= ack < 2 ^ 32).
Context (Hwin : 0 <= win < 65536) (Hurp : 0 <= urp < 65536).

Definition tcphdr_bytes : list Z :=
  be_bytes 2 sport ++ be_bytes 2 dport ++ be_bytes 4 seq ++ be_bytes 4 ack ++ [0x50; flags] ++
  be_bytes 2 win ++ be_bytes 2 sum ++ be_bytes 2 urp.

Definition the_segment : segment := mk_segment src dst sport dport seq ack (negb (Z.land flags TH_SYN =? 0)).

Definition seq_text (n seq' : Z) : string :=
  if (n >? 0) || negb (Z.land flags (Z.lor (Z.lor TH_SYN TH_FIN) TH_RST) =? 0)
  then ", seq " +:+ dec seq' +:+ (if n >? 0 then ":" +:+ dec (u32 (seq' + n)) else "") else "".

Definition rest_text (n seq' ack' : Z) : string :=
  seq_text n seq' +:+ (if negb (Z.land flags TH_ACK =? 0) then ", ack " +:+ dec ack' else "") +:+ ", win " +:+ dec win +:+
  (if negb (Z.land flags TH_URG =? 0) then ", urg " +:+ dec urp else "") +:+ ", length " +:+ dec n.

(** What is shown of it, with the numbers of the conversation. *)
Definition segment_text (n seq' ack' : Z) : string :=
  getname src +:+ "." +:+ tcpport_string sport +:+ " > " +:+ getname dst +:+ "." +:+ tcpport_string dport +:+ ": Flags [" +:+
  bittok2str_nosep tcp_flag_values (Some (fun _ => "none"%string)) flags +:+ "]" +:+ rest_text n seq' ack'.

(** The ports [tcp_print] knows a payload of. *)
Definition known_ports : list Z :=
  [TELNET_PORT; SMTP_PORT; WHOIS_PORT; BGP_PORT; PPTP_PORT; REDIS_PORT; NETBIOS_SSN_PORT; SMB_PORT; BEEP_PORT; OPENFLOW_PORT_OLD;
   OPENFLOW_PORT_IANA; FTP_PORT; HTTP_PORT; HTTP_PORT_ALT; RTSP_PORT; RTSP_PORT_ALT; NAMESERVER_PORT; MSDP_PORT; RPKI_RTR_PORT;
   LDP_PORT; NFS_PORT].

Context (s : netdissect_options) (Hok : ndo_ok s) (Hpkt : ndo_packet s = pre ++ tcphdr_bytes ++ post).
Context (Hcap : Z.of_nat (length pre) + 20 <= ndo_snapend s) (Hf : 0 <= flags < 256).
Context (bp2 : Z) (Hv : mem_read (ndo_packet s) bp2 1 = Some [0x45]) (Hp : mem_read (ndo_packet s) (bp2 + 9) 1 = Some [IPPROTO_TCP]).
Context (Hsrc : mem_read (ndo_packet s) (bp2 + 12) 4 = Some src) (Hdst : mem_read (ndo_packet s) (bp2 + 16) 4 = Some dst).
Context (Hvf : f_vflag (ndo_flags s) = 0) (Hqf : f_qflag (ndo_flags s) = 0) (Hpt : f_packettype (ndo_flags s) = 0).
Context (Hports : forallb (fun p => negb ((sport =? p) || (dport =? p))) known_ports = true).

Abbreviation bp := (Z.of_nat (length pre)).

(** The context while the segment is printed. *)
Definition tcp_shown (o : string) : netdissect_options :=
  mk_ndo (ndo_packet s) (ndo_base s) (ndo_flags s) (ndo_snapend s) "tcp" (ndo_out s +:+ o).

Lemma run_shown_load p n l o : mem_read (ndo_packet s) p n = Some l -> load p n (tcp_shown o) = (Done l, tcp_shown o).
Proof. intros Hl. unfold load. cbn [tcp_shown ndo_packet]. by rewrite Hl. Qed.

Lemma run_shown_field (k n : nat) l o p : p = bp + Z.of_nat k -> slice tcphdr_bytes k n = Some l -> load p (Z.of_nat n) (tcp_shown o) = (Done l, tcp_shown o).
Proof. intros -> Hl. by apply (run_load_part _ pre tcphdr_bytes post). Qed.

Lemma run_shown_print t o : ND_PRINT t (tcp_shown o) = (Done tt, tcp_shown (o +:+ t)).
Proof. unfold ND_PRINT, emit, tcp_shown. cbn. by rewrite sapp_assoc. Qed.

Lemma shown_ok o : ndo_ok (tcp_shown o).
Proof. destruct Hok as (K1 & K2 & K3 & K4 & _). exact (conj K1 (conj K2 (conj K3 (conj K4 eq_refl)))). Qed.

Lemma run_shown_ttest p n o : bp <= p -> 0 <= n -> p + n <= bp + 20 -> ND_TTEST_LEN p n (tcp_shown o) = (Done true, tcp_shown o).
Proof.
  intros. unfold ND_TTEST_LEN, asks. by rewrite ttest_len_complete by (apply shown_ok || cbn; lia).
Qed.

Lemma run_shown_u2 (k : nat) v o p : p = bp + Z.of_nat k -> slice tcphdr_bytes k 2 = Some (be_bytes 2 v) -> 0 <= v < 65536 ->
  EXTRACT_BE_U_2 p (tcp_shown o) = (Done v, tcp_shown o).
Proof.
  intros -> Hl Hr. unfold EXTRACT_BE_U_2. erewrite run_bind by (by apply (run_shown_field k 2 (be_bytes 2 v))).
  unfold pret. by rewrite be_val_bytes, Z.mod_small.
Qed.

Lemma run_shown_u4 (k : nat) v o p : p = bp + Z.of_nat k -> slice tcphdr_bytes k 4 = Some (be_bytes 4 v) -> 0 <= v < 2 ^ 32 ->
  EXTRACT_BE_U_4 p (tcp_shown o) = (Done v, tcp_shown o).
Proof.
  intros -> Hl Hr. unfold EXTRACT_BE_U_4. erewrite run_bind by (by apply (run_shown_field k 4 (be_bytes 4 v))).
  unfold pret. by rewrite be_val_bytes, Z.mod_small.
Qed.

Lemma run_shown_u1 (k : nat) v o p : p = bp + Z.of_nat k -> slice tcphdr_bytes k 1 = Some [v] -> EXTRACT_U_1 p (tcp_shown o) = (Done v, tcp_shown o).
Proof.
  intros -> Hl. unfold EXTRACT_U_1. erewrite run_bind by (by apply (run_shown_field k 1 [v])). unfold pret. by rewrite be_val_1.
Qed.

Lemma run_shown_opt (b : bool) t o : (if b then ND_PRINT t else pret tt) (tcp_shown o) = (Done tt, tcp_shown (o +:+ (if b then t else ""))).
Proof. destruct b; [apply run_shown_print|]. by rewrite sapp_nil_r. Qed.

(** Nothing is known of the payload. *)
Lemma run_payload n o : tcp_payload (bp + 20) n bp2 sport dport flags (tcp_shown o) = (Done tt, tcp_shown o).
Proof.
  unfold tcp_payload, flag, asks, pbind. cbn [tcp_shown ndo_flags]. rewrite Hvf, Hpt. cbn [Z.eqb negb]. rewrite andb_false_r.
  unfold known_ports in Hports. cbn [forallb] in Hports. repeat (apply andb_prop in Hports as [?%negb_true_iff Hports]).
  cbv zeta. repeat match goal with E : (sport =? ?p) || (dport =? ?p) = false |- _ => rewrite E; clear E end.
  cbn [orb]. rewrite !andb_false_r. unfold ND_TTEST_LEN, asks. done.
Qed.

(** Runs the first operation of a printer. *)
Ltac run l := erewrite run_bind by l; cbv beta zeta.

Lemma run_shown_flag (f : nd_flags -> Z) o : flag f (tcp_shown o) = (Done (f (ndo_flags s)), tcp_shown o).
Proof. done. Qed.

Lemma run_seq n seq' o :
  (if (0 >? 1) || (n >? 0) || negb (Z.land flags (Z.lor (Z.lor TH_SYN TH_FIN) TH_RST) =? 0) then
     ND_PRINT (", seq " +:+ dec seq') ;~
     (if n >? 0 then ND_PRINT (":" +:+ dec (u32 (seq' + n))) else pret tt)
   else pret tt) (tcp_shown o) = (Done tt, tcp_shown (o +:+ seq_text n seq')).
Proof.
  change (0 >? 1) with false. rewrite orb_false_l. unfold seq_text. destruct (_ || _); [|by rewrite sapp_nil_r].
  run ltac:(apply run_shown_print). rewrite run_shown_opt. by rewrite !sapp_assoc.
Qed.

Lemma run_rest n seq' ack' base o :
  tcp_rest bp n 20 bp2 sport dport seq' ack' win urp flags base (tcp_shown o) = (Done tt, tcp_shown (o +:+ rest_text n seq' ack')).
Proof.
  unfold tcp_rest, rest_text. run ltac:(apply run_shown_flag). rewrite Hvf. run ltac:(apply run_seq). run ltac:(apply run_shown_opt).
  run ltac:(apply run_shown_print). run ltac:(apply run_shown_opt). change (20 >? sizeof_tcphdr) with false. cbv iota.
  run ltac:(reflexivity). cbn [negb]. run ltac:(apply run_shown_print). rewrite !sapp_assoc.
  destruct (n <=? 0); [done|]. apply run_payload.
Qed.

(** The conversations after the segment and the numbers it is shown with: as they are when
    it acknowledges nothing or when absolute numbers are asked for. *)
Definition spec_numbers (Sflag : Z) (m : gmap tha (Z * Z)) : gmap tha (Z * Z) * (Z * Z) :=
  if (Sflag =? 0) && negb (Z.land flags TH_ACK =? 0) then (spec_lookup m the_segment).1.1 else (m, (seq, ack)).

Lemma run_find Sflag tb m o : represents (tcp_seq_hash4 tb) m ->
  exists tb' base, find_conversation Sflag tb false bp2 sport dport seq ack flags (tcp_shown o) = (Done (tb', (spec_numbers Sflag m).2, base), tcp_shown o) /\
    represents (tcp_seq_hash4 tb') (spec_numbers Sflag m).1 /\ tcp_seq_hash6 tb' = tcp_seq_hash6 tb.
Proof.
  intros Hr. unfold find_conversation, spec_numbers. destruct (_ && _); [|by exists tb, 0]. unfold ip_src, ip_dst.
  pose proof (seq_lookup_refines (tcp_seq_hash4 tb) m the_segment Hr) as Hl.
  destruct (spec_lookup m the_segment) as [[[m' nums] [ts tk]] rev] eqn:Es. destruct Hl as (t' & Hl & Hr').
  eexists (mk_tables t' (tcp_seq_hash6 tb)), _. split; [|by split].
  run ltac:(by apply run_shown_load). run ltac:(by apply run_shown_load). fold the_segment. rewrite Hl. done.
Qed.

Lemma run_header Sflag tb m n frag o : represents (tcp_seq_hash4 tb) m -> 20 <= n ->
  exists tb', tcp_header Sflag tb 4 bp n bp2 frag sport dport (tcp_shown o) = (Done tb', tcp_shown (o +:+ ("Flags [" +:+
      bittok2str_nosep tcp_flag_values (Some (fun _ => "none"%string)) flags +:+ "]" +:+
      rest_text (n - 20) (spec_numbers Sflag m).2.1 (spec_numbers Sflag m).2.2))) /\
    represents (tcp_seq_hash4 tb') (spec_numbers Sflag m).1 /\ tcp_seq_hash6 tb' = tcp_seq_hash6 tb.
Proof.
  intros Hr Hn. unfold tcp_header.
  destruct (run_find Sflag tb m (o +:+ ("Flags [" +:+ bittok2str_nosep tcp_flag_values (Some (fun _ => "none"%string)) flags +:+ "]")) Hr)
    as (tb' & base & Hfind & Hr' & H6). exists tb'. split; [|by split].
  run ltac:(by apply (run_shown_u1 12)). change (_ <? sizeof_tcphdr) with false. cbv iota.
  run ltac:(by apply (run_shown_u4 4)). run ltac:(by apply (run_shown_u4 8)). run ltac:(by apply (run_shown_u2 14)). run ltac:(by apply (run_shown_u2 18)).
  run ltac:(apply run_shown_flag). rewrite Hqf. cbn [Z.eqb negb].
  run ltac:(by apply (run_shown_u1 13)). run ltac:(apply run_shown_print). run ltac:(exact Hfind).
  destruct (spec_numbers Sflag m) as [m' [seq' ack']]. cbn [fst snd]. change (Z.shiftr (Z.land 80 240) 4 * 4) with 20.
  destruct (Z.gtb_spec 20 n); [lia|]. run ltac:(apply run_shown_flag). run ltac:(apply run_shown_flag). rewrite Hvf. cbn [Z.eqb negb andb].
  run ltac:(reflexivity). run ltac:(apply run_rest). unfold pret. by rewrite !sapp_assoc.
Qed.

Lemma run_tcp_print Sflag tb m n frag : represents (tcp_seq_hash4 tb) m -> 20 <= n ->
  exists tb', tcp_print Sflag tb bp n bp2 frag s =
      (Done tb', tcp_shown (segment_text (n - 20) (spec_numbers Sflag m).2.1 (spec_numbers Sflag m).2.2)) /\
    represents (tcp_seq_hash4 tb') (spec_numbers Sflag m).1 /\ tcp_seq_hash6 tb' = tcp_seq_hash6 tb.
Proof.
  intros Hr Hn.
  destruct (run_header Sflag tb m n frag (getname src +:+ "." +:+ tcpport_string sport +:+ " > " +:+ getname dst +:+ "." +:+ tcpport_string dport +:+ ": ") Hr Hn)
    as (tb' & Hhdr & Hrest). exists tb'. split; [|exact Hrest]. unfold tcp_print.
  assert (Hp0 : set_protocol "tcp" s = (Done tt, tcp_shown "")) by (unfold set_protocol, with_protocol, tcp_shown; by rewrite sapp_nil_r).
  run ltac:(exact Hp0). unfold IP_V, EXTRACT_U_1, addr_strings, ipaddr_string, ip_src, ip_dst.
  run ltac:(run ltac:(run ltac:(by apply run_shown_load); reflexivity); reflexivity).
  change (_ =? 6) with false. cbv iota. run ltac:(apply run_shown_ttest; lia). cbn [negb].
  run ltac:(apply (run_shown_u2 0); [lia|done|done]). run ltac:(by apply (run_shown_u2 2)).
  run ltac:(run ltac:(by apply run_shown_load); reflexivity). change (_ =? IPPROTO_TCP) with true. cbv iota.
  run ltac:(run ltac:(run ltac:(run ltac:(by apply run_shown_load); reflexivity); run ltac:(run ltac:(by apply run_shown_load); reflexivity); reflexivity); apply run_shown_print).
  cbn [fst snd]. rewrite sapp_nil.
  assert (Hc : forall o k, on_trunc (ND_TCHECK_LEN bp sizeof_tcphdr ;~ pret true) k (tcp_shown o) = (Done true, tcp_shown o)).
  { intros o k. unfold on_trunc, ND_TCHECK_LEN. run ltac:(run ltac:(by apply run_shown_ttest); reflexivity). done. }
  run ltac:(apply Hc). cbn [negb]. refine (eq_trans Hhdr _). unfold segment_text. by rewrite <- !sapp_assoc.
Qed.
End Segment.

(** ** Claims *)


(** Printers that show the name of their protocol. *)
#[export] Instance plain_tcp_printers : TcpPrinters := {|
  getname6 _ := "::"%string; mptcp_print _ _ _ := pret true;
  telnet_print _ _ := named "telnet"; smtp_print _ _ := named "smtp"; bgp_print _ _ := named "bgp"; pptp_print _ := named "pptp";
  resp_print _ _ := named "resp"; zmtp1_print _ _ := named "zmtp1"; nbt_tcp_print _ _ := named "nbt"; smb_tcp_print _ _ := named "smb";
  beep_print _ _ := named "beep"; openflow_print _ _ := named "openflow"; ftp_print _ _ := named "ftp"; http_print _ _ := named "http";
  rtsp_print _ _ := named "rtsp"; msdp_print _ _ := named "msdp";
  rpki_rtr_print _ _ := named "rpki"; ldp_print _ _ := named "ldp";
  nfsreq_noaddr_print _ _ _ := named "nfs"; nfsreply_noaddr_print _ _ _ := named "nfs" |}.

#[export] Instance plain_tcp_printers_laws : TcpLaws.
Proof.
  exists (fun _ => True); intros; try (by apply safe_print); try (by apply safe_ret); [done|done|split; by apply safe_print|].
  repeat (apply Forall_cons; split; [by apply safe_print|]). done.
Defined.

Definition empty_tables : seq_tables := mk_tables empty_table empty_table.

(** An IPv4 header and a SYN with the options of maximum segment size and SACK, and then
    a time stamp that is cut off. *)
Definition sample_syn : netdissect_options :=
  mk_ndo ([0x45; 0; 0; 60; 0; 1; 0; 0; 64; 6; 0; 0; 10; 0; 0; 1; 10; 0; 0; 2]
    ++ [0x9c; 0x40; 0; 22; 0; 0; 0x1b; 0x58; 0; 0; 0; 0; 0xa0; 2; 0xff; 0xff; 0; 0; 0; 0]
    ++ [2; 4; 5; 0xb4; 4; 2; 8; 10; 0; 0]) 4096 (mk_flags 0 0 1 0 0 0 0 0) 50 "" "".


(** C34. A captured segment without options, to and from ports no other printer claims, is
    printed with its addresses, ports, flags, window, urgent pointer and length, and with
    the numbers the map of conversations gives it; the printer leaves a table that
    stands for the map with the segment's conversation in it, and the IPv6 table as it was. *)
Theorem tcp_segment_printed `{Printers} `{PortNames} `{TcpPrinters} pre post src dst sport dport seq ack flags win sum urp s bp2 Sflag tb m n frag :
  ndo_ok s -> ndo_packet s = pre ++ tcphdr_bytes sport dport seq ack flags win sum urp ++ post ->
  Z.of_nat (length pre) + 20 <= ndo_snapend s ->
  0 <= sport < 65536 -> 0 <= dport < 65536 -> 0 <= seq < 2 ^ 32 -> 0 <= ack < 2 ^ 32 -> 0 <= win < 65536 -> 0 <= urp < 65536 ->
  mem_read (ndo_packet s) bp2 1 = Some [0x45] -> mem_read (ndo_packet s) (bp2 + 9) 1 = Some [IPPROTO_TCP] ->
  mem_read (ndo_packet s) (bp2 + 12) 4 = Some src -> mem_read (ndo_packet s) (bp2 + 16) 4 = Some dst ->
  f_vflag (ndo_flags s) = 0 -> f_qflag (ndo_flags s) = 0 -> f_packettype (ndo_flags s) = 0 ->
  forallb (fun p => negb ((sport =? p) || (dport =? p))) known_ports = true ->
  represents (tcp_seq_hash4 tb) m -> 20 <= n ->
  let numbers := spec_numbers src dst sport dport seq ack flags Sflag m in
  exists tb' s', tcp_print Sflag tb (Z.of_nat (length pre)) n bp2 frag s = (Done tb', s') /\
    ndo_out s' = ndo_out s +:+ segment_text src dst sport dport flags win urp (n - 20) numbers.2.1 numbers.2.2 /\
    represents (tcp_seq_hash4 tb') numbers.1 /\ tcp_seq_hash6 tb' = tcp_seq_hash6 tb.
Proof.
  intros Hok Hpkt Hcap Hsp Hdp Hseq Hack Hwin Hurp Hv Hp Hsrc Hdst Hvf Hqf Hpt Hports Hr Hn.
  edestruct (run_tcp_print pre post src dst sport dport seq ack flags win sum urp) with (Sflag := Sflag) (tb := tb) (m := m) (n := n) (frag := frag)
    as (tb' & Hrun & Hm & H6); try eassumption. by eexists tb', _.
Qed.

(** Data to a port of its own, in a conversation that started with the number 7000, with
    seven bytes captured behind the header. *)
Definition sample_segment : netdissect_options :=
  mk_ndo (([0x45; 0; 0; 60; 0; 1; 0; 0; 64; 6; 0; 0; 10; 0; 0; 1; 10; 0; 0; 2]
    ++ tcphdr_bytes 40000 4321 7011 501 0x18 512 0 0) ++ [1; 2; 3; 4; 5; 6; 7]) 4096 (mk_flags 0 0 1 0 0 0 0 0) 47 "" "".

Definition sample_reply : segment := mk_segment [10; 0; 0; 2] [10; 0; 0; 1] 4321 40000 500 7001 true.

Lemma tcp_segment_printed_witness :
  exists tb0 tb' s', seq_lookup empty_table sample_reply = Some (tb0, (500, 7001), (500, 7000), false) /\
    tcp_print 0 (mk_tables tb0 empty_table) 20 40 0 0 sample_segment = (Done tb', s') /\
    ndo_out s' = "10.0.0.1.40000 > 10.0.0.2.4321: Flags [P.], seq 11:31, ack 1, win 512, length 20"%string.
Proof.
  pose proof (seq_lookup_refines empty_table ∅ sample_reply empty_represents) as Hl. unfold spec_lookup in Hl. rewrite lookup_empty in Hl.
  destruct Hl as (tb0 & Hl & Hr). exists tb0.
  edestruct (tcp_segment_printed [0x45; 0; 0; 60; 0; 1; 0; 0; 64; 6; 0; 0; 10; 0; 0; 1; 10; 0; 0; 2] [1; 2; 3; 4; 5; 6; 7]
    [10; 0; 0; 1] [10; 0; 0; 2] 40000 4321 7011 501 0x18 512 0 0 sample_segment 0 0 (mk_tables tb0 empty_table) (<[seg_tha sample_reply := (500, 7000)]> ∅) 40 0) as (tb' & s' & Hrun & Hout & _);
    [..|exists tb', s'; split; [exact Hl|split; [exact Hrun|rewrite Hout; vm_compute; reflexivity]]];
    try exact Hr; repeat split; cbn; lia || done.
Defined.
