(* ===== verification/PrintUdp.v ===== *)
(** * The UDP printer of tcpdump

    Models [tcpdump/print-udp.c] with the ports of [tcpdump/udp.h], as it is compiled with the
    SMB printers: [vat_print], [rtp_print], [rtcp_print], [udpipaddr_print] and [udp_print]. DNS
    messages are printed by [PrintDomain]; the printers of the other protocols above UDP are the
    class [UdpPrinters] with the rule [UdpLaws]. The times of a report, which the code computes in
    [double]s, are exact fractions and their rounding. *)
From stdpp Require Import base list numbers strings gmap.
From Stdlib Require Import ZArith Lia Ascii.
From S2P Require Import Prelude Cstring OnesComp Checksum InCksum Netdissect UtilPrint IpProto PrintIp PrintIcmp PrintDomain Ip6Cksum TcpSeq PrintTcp.

Open Scope Z_scope.

(** ** Constants *)

Definition RTCP_PT_SR : Z := 200.
Definition RTCP_PT_RR : Z := 201.
Definition RTCP_PT_SDES : Z := 202.
Definition RTCP_PT_BYE : Z := 203.
Definition sizeof_rtcphdr : Z := 8.
Definition sizeof_rtcp_sr : Z := 20.
Definition sizeof_rtcp_rr : Z := 24.
Definition sizeof_udphdr : Z := 8.
Definition lapDDP : Z := 2.

Definition PT_VAT : Z := 1.
Definition PT_WB : Z := 2.
Definition PT_RPC : Z := 3.
Definition PT_RTP : Z := 4.
Definition PT_RTCP : Z := 5.
Definition PT_SNMP : Z := 6.
Definition PT_CNFP : Z := 7.
Definition PT_TFTP : Z := 8.
Definition PT_AODV : Z := 9.
Definition PT_RADIUS : Z := 11.
Definition PT_VXLAN : Z := 13.
Definition PT_PGM : Z := 14.
Definition PT_PGM_ZMTP1 : Z := 15.
Definition PT_LMP : Z := 16.

Definition BOOTPS_PORT : Z := 67.
Definition BOOTPC_PORT : Z := 68.
Definition TFTP_PORT : Z := 69.
Definition KERBEROS_PORT : Z := 88.
Definition NTP_PORT : Z := 123.
Definition NETBIOS_NS_PORT : Z := 137.
Definition NETBIOS_DGRAM_PORT : Z := 138.
Definition SNMP_PORT : Z := 161.
Definition SNMPTRAP_PORT : Z := 162.
Definition CISCO_AUTORP_PORT : Z := 496.
Definition ISAKMP_PORT : Z := 500.
Definition SYSLOG_PORT : Z := 514.
Definition RIP_PORT : Z := 520.
Definition RIPNG_PORT : Z := 521.
Definition TIMED_PORT : Z := 525.
Definition DHCP6_SERV_PORT : Z := 546.
Definition DHCP6_CLI_PORT : Z := 547.
Definition AODV_PORT : Z := 654.
Definition OLSR_PORT : Z := 698.
Definition LMP_PORT : Z := 701.
Definition KERBEROS_SEC_PORT : Z := 750.
Definition LWRES_PORT : Z := 921.
Definition VQP_PORT : Z := 1589.
Definition RADIUS_PORT : Z := 1645.
Definition RADIUS_ACCOUNTING_PORT : Z := 1646.
Definition RADIUS_CISCO_COA_PORT : Z := 1700.
Definition L2TP_PORT : Z := 1701.
Definition RADIUS_NEW_PORT : Z := 1812.
Definition RADIUS_NEW_ACCOUNTING_PORT : Z := 1813.
Definition HSRP_PORT : Z := 1985.
Definition ZEPHYR_SRV_PORT : Z := 2103.
Definition ZEPHYR_CLT_PORT : Z := 2104.
Definition VAT_PORT : Z := 3456.
Definition MPLS_LSP_PING_PORT : Z := 3503.
Definition BFD_CONTROL_PORT : Z := 3784.
Definition BFD_ECHO_PORT : Z := 3785.
Definition RADIUS_COA_PORT : Z := 3799.
Definition LISP_CONTROL_PORT : Z := 4342.
Definition ISAKMP_PORT_NATT : Z := 4500.
Definition WB_PORT : Z := 4567.
Definition VXLAN_PORT : Z := 4789.
Definition VXLAN_GPE_PORT : Z := 4790.
Definition SIP_PORT : Z := 5060.
Definition MULTICASTDNS_PORT : Z := 5353.
Definition AHCP_PORT : Z := 5359.
Definition GENEVE_PORT : Z := 6081.
Definition SFLOW_PORT : Z := 6343.
Definition BABEL_PORT : Z := 6696.
Definition BABEL_PORT_OLD : Z := 6697.
Definition RX_PORT_LOW : Z := 7000.
Definition RX_PORT_HIGH : Z := 7009.
Definition ISAKMP_PORT_USER1 : Z := 7500.
Definition HNCP_PORT : Z := 8231.
Definition OTV_PORT : Z := 8472.
Definition ISAKMP_PORT_USER2 : Z := 8500.
Definition LWAPP_DATA_PORT : Z := 12222.
Definition LWAPP_CONTROL_PORT : Z := 12223.

Definition atalk_port (p : Z) : bool := (u32 (p - 16512) <? 128) || (u32 (p - 200) <? 128) || (u32 (p - 768) <? 128).

(** ** What is printed elsewhere *)

Class UdpPrinters := {
  wb_print : Z -> Z -> pr unit; snmp_print : Z -> Z -> pr unit; tftp_print : Z -> Z -> pr unit; radius_print : Z -> Z -> pr unit;
  vxlan_print : Z -> Z -> pr unit; lmp_print : Z -> Z -> pr unit; bootp_print : Z -> Z -> pr unit; rip_print : Z -> Z -> pr unit;
  ntp_print : Z -> Z -> pr unit; l2tp_print : Z -> Z -> pr unit; nbt_udp137_print : Z -> Z -> pr unit;
  nbt_udp138_print : Z -> Z -> pr unit; zephyr_print : Z -> Z -> pr unit; ripng_print : Z -> Z -> pr unit;
  dhcp6_print : Z -> Z -> pr unit; ahcp_print : Z -> Z -> pr unit; babel_print : Z -> Z -> pr unit; hncp_print : Z -> Z -> pr unit;
  cisco_autorp_print : Z -> Z -> pr unit; hsrp_print : Z -> Z -> pr unit; lwres_print : Z -> Z -> pr unit;
  lspping_print : Z -> Z -> pr unit; vqp_print : Z -> Z -> pr unit; sflow_print : Z -> Z -> pr unit;
  lwapp_data_print : Z -> Z -> pr unit; sip_print : Z -> Z -> pr unit; syslog_print : Z -> Z -> pr unit; otv_print : Z -> Z -> pr unit;
  geneve_print : Z -> Z -> pr unit; lisp_print : Z -> Z -> pr unit; vxlan_gpe_print : Z -> Z -> pr unit; llap_print : Z -> Z -> pr unit;
  cnfp_print : Z -> pr unit; timed_print : Z -> pr unit; krb_print : Z -> pr unit;
  aodv_print : Z -> Z -> bool -> pr unit; olsr_print : Z -> Z -> bool -> pr unit; lwapp_control_print : Z -> Z -> bool -> pr unit;
  bfd_print : Z -> Z -> Z -> pr unit;
  sunrpc_print : Z -> Z -> Z -> pr unit; nfsreply_print : Z -> Z -> Z -> pr unit;
  isakmp_print : Z -> Z -> Z -> pr unit; isakmp_rfc3948_print : Z -> Z -> Z -> pr unit;
  rx_print : Z -> Z -> Z -> Z -> Z -> pr unit }.

(** ** Audio *)

Definition vat_print (hdr length : Z) : pr unit :=
  set_protocol "vat" ;~
  if length <? 2 then ND_PRINT ("udp/va/vat, length " +:+ dec length +:+ " < 2")
  else on_trunc (
    ND_TCHECK_LEN hdr 2 ;~
    ts <~ EXTRACT_BE_U_2 hdr ;;
    if negb (Z.land ts 0xf060 =? 0) then
      ND_PRINT ("udp/vt " +:+ dec length +:+ " " +:+ dec (Z.land ts 0x3ff) +:+ " / " +:+ dec (Z.shiftr ts 10))
    else if length <? 8 then ND_PRINT ("udp/vat, length " +:+ dec length +:+ " < 8")
    else
      ND_TCHECK_LEN hdr 4 ;~
      i0 <~ EXTRACT_BE_U_4 hdr ;;
      ND_TCHECK_LEN (hdr + 4) 4 ;~
      i1 <~ EXTRACT_BE_U_4 (hdr + 4) ;;
      ND_PRINT ("udp/vat " +:+ dec (length - 8) +:+ " c" +:+ dec (Z.land i0 0xffff) +:+ " " +:+ dec i1
        +:+ (if negb (Z.land i0 0x800000 =? 0) then "*" else "")) ;~
      (if negb (Z.land i0 0x1f0000 =? 0) then ND_PRINT (" f" +:+ dec (Z.land (Z.shiftr i0 16) 0x1f)) else pret tt) ;~
      (if negb (Z.land i0 0x3f000000 =? 0) then ND_PRINT (" s" +:+ dec (Z.land (Z.shiftr i0 24) 0x3f)) else pret tt))
  nd_print_trunc.

(** The options of version 1: where the data starts, or [None] after [ !opt]. Every option
    takes a word of the [len] that are left. *)
Fixpoint rtp_options (fuel : nat) (ip len : Z) : pr (option (Z * Z)) :=
  match fuel with
  | O => pstop Fuel
  | S f =>
      ND_TCHECK_LEN ip 4 ;~
      i2 <~ EXTRACT_BE_U_4 ip ;;
      let optlen := Z.land (Z.shiftr i2 16) 0xff in
      if (optlen =? 0) || (optlen >? len) then ND_PRINT " !opt" ;~ pret None
      else if i2 <? 2 ^ 31 then rtp_options f (ip + 4 * optlen) (len - optlen)
      else pret (Some (ip + 4 * optlen, len - optlen))
  end.

(** The extension header of version 2: where the data starts. *)
Definition rtp_extension (ip len : Z) : pr (option Z) :=
  ND_TCHECK_LEN ip 4 ;~
  i2 <~ EXTRACT_BE_U_4 ip ;;
  let extlen := Z.land i2 0xffff + 1 in
  if extlen >? len then ND_PRINT " !ext" ;~ pret None else pret (Some (ip + 4 * extlen)).

(** The line, and what follows it when the output is verbose; [ip] is behind the header
    and [len] counts the words there. *)
Definition rtp_body (hdr : Z) (ptype : string) (dlen contype i0 i1 : Z) (hasopt hasext hasmarker : bool) (ip len : Z) : pr unit :=
  ND_PRINT ("udp/" +:+ ptype +:+ " " +:+ dec dlen +:+ " c" +:+ dec contype +:+ " "
    +:+ (if hasopt || hasext then "+" else "") +:+ (if hasmarker then "*" else "") +:+ " " +:+ dec (Z.land i0 0xffff) +:+ " " +:+ dec i1) ;~
  vflag <~ flag f_vflag ;;
  if vflag =? 0 then pret tt
  else
    ND_TCHECK_LEN (hdr + 8) 4 ;~
    w <~ EXTRACT_BE_U_4 (hdr + 8) ;;
    ND_PRINT (" " +:+ dec w) ;~
    o <~ (if hasopt then rtp_options (S (Z.to_nat len)) ip len else pret (Some (ip, len))) ;;
    match o with
    | None => pret tt
    | Some (ip1, len1) =>
        e <~ (if hasext then rtp_extension ip1 len1 else pret (Some ip1)) ;;
        match e with
        | None => pret tt
        | Some ip2 =>
            ND_TCHECK_LEN ip2 4 ;~
            if contype =? 0x1f then d <~ EXTRACT_BE_U_4 ip2 ;; ND_PRINT (" 0x" +:+ hex_pad 4 (Z.shiftr d 16)) else pret tt
        end
    end.

Definition rtp_print (hdr len : Z) : pr unit :=
  set_protocol "rtp" ;~
  if len <? 8 then ND_PRINT ("udp/rtp, length " +:+ dec len +:+ " < 8")
  else on_trunc (
    ND_TCHECK_LEN hdr 4 ;~
    i0 <~ EXTRACT_BE_U_4 hdr ;;
    ND_TCHECK_LEN (hdr + 4) 4 ;~
    i1 <~ EXTRACT_BE_U_4 (hdr + 4) ;;
    let dlen := len - 8 in
    let words := Z.shiftr len 2 - 2 in
    let bit b := negb (Z.land i0 b =? 0) in
    if Z.shiftr i0 30 =? 1 then
      rtp_body hdr "rtpv1" dlen (Z.land (Z.shiftr i0 16) 0x3f) i0 i1 (bit 0x800000) false (bit 0x400000) (hdr + 8) words
    else if dlen <? 4 then ND_PRINT ("udp/rtp, length " +:+ dec (dlen + 8) +:+ " < 12")
    else rtp_body hdr "rtp" (dlen - 4) (Z.land (Z.shiftr i0 16) 0x7f) i0 i1 false (bit 0x10000000) (bit 0x800000) (hdr + 12) (words - 1))
  nd_print_trunc.

(** ** Reports of the control protocol *)

(** The nearest integer to [a / b], the even one of two. *)
Definition round_even (a b : Z) : Z :=
  let q := a / b in
  let r := a mod b in
  if (2 * r <? b) || ((2 * r =? b) && Z.even q) then q else q + 1.

(** [%.2f] of the fraction [a / b], a value a [double] holds. *)
Definition fixed2 (a b : Z) : string :=
  let c := round_even (100 * a) b in dec (c / 100) +:+ "." +:+ pad0 2 (dec (c mod 100)).

(** A number of 64 bits with the 53 significant bits of a [double]. *)
Definition double_round (n : Z) : Z :=
  let e := Z.max 0 (Z.log2 n - 52) in round_even n (2 ^ e) * 2 ^ e.

(** [while (cnt != 0)]: the code does not advance [rr]. *)
Fixpoint rtcp_reports (cnt : nat) (rr ep : Z) : pr unit :=
  match cnt with
  | O => pret tt
  | S n =>
      if rr + sizeof_rtcp_rr >? ep then pstop Trunc
      else
        ND_TCHECK_LEN rr sizeof_rtcp_rr ;~
        vflag <~ flag f_vflag ;;
        (if negb (vflag =? 0) then srcid <~ EXTRACT_BE_U_4 rr ;; ND_PRINT (" " +:+ dec srcid) else pret tt) ;~
        lsr <~ EXTRACT_BE_U_4 (rr + 16) ;;
        dlsr <~ EXTRACT_BE_U_4 (rr + 20) ;;
        nl <~ EXTRACT_BE_U_4 (rr + 4) ;;
        ls <~ EXTRACT_BE_U_4 (rr + 8) ;;
        dv <~ EXTRACT_BE_U_4 (rr + 12) ;;
        ND_PRINT (" " +:+ dec (Z.land nl 0x00ffffff) +:+ "l " +:+ dec ls +:+ "s " +:+ dec dv +:+ "j @"
          +:+ fixed2 lsr 65536 +:+ "+" +:+ fixed2 dlsr 65536) ;~
        rtcp_reports n rr ep
  end.

(** The part of the packet its type decides: the number of reports and where they are. *)
Definition rtcp_type (hdr ep len flags : Z) : pr (Z * Z) :=
  let cnt := Z.land (Z.shiftr flags 8) 0x1f in
  let pt := Z.land flags 0xff in
  let ssrc := vflag <~ flag f_vflag ;;
              if negb (vflag =? 0) then v <~ EXTRACT_BE_U_4 (hdr + 4) ;; ND_PRINT (" " +:+ dec v) else pret tt in
  let odd_len (n : Z) := if negb (len =? n) then ND_PRINT (" [" +:+ dec len +:+ "]") else pret tt in
  if pt =? RTCP_PT_SR then
    let sr := hdr + sizeof_rtcphdr in
    ND_PRINT " sr" ;~
    odd_len (cnt * sizeof_rtcp_rr + sizeof_rtcp_sr + sizeof_rtcphdr) ;~
    ssrc ;~
    if sr + sizeof_rtcp_sr >? ep then pstop Trunc
    else
      ND_TCHECK_LEN sr sizeof_rtcp_sr ;~
      upper <~ EXTRACT_BE_U_4 sr ;;
      lower <~ EXTRACT_BE_U_4 (sr + 4) ;;
      ts <~ EXTRACT_BE_U_4 (sr + 8) ;;
      np <~ EXTRACT_BE_U_4 (sr + 12) ;;
      nb <~ EXTRACT_BE_U_4 (sr + 16) ;;
      ND_PRINT (" @" +:+ fixed2 (double_round (upper * 2 ^ 32 + lower)) (2 ^ 32) +:+ " " +:+ dec ts +:+ " " +:+ dec np +:+ "p " +:+ dec nb +:+ "b") ;~
      pret (cnt, sr + sizeof_rtcp_sr)
  else if pt =? RTCP_PT_RR then
    ND_PRINT " rr" ;~ odd_len (cnt * sizeof_rtcp_rr + sizeof_rtcphdr) ;~ ssrc ;~ pret (cnt, hdr + sizeof_rtcphdr)
  else if pt =? RTCP_PT_SDES then ND_PRINT (" sdes " +:+ dec len) ;~ ssrc ;~ pret (0, 0)
  else if pt =? RTCP_PT_BYE then ND_PRINT (" bye " +:+ dec len) ;~ ssrc ;~ pret (0, 0)
  else ND_PRINT (" type-0x" +:+ hex pt +:+ " " +:+ dec len) ;~ pret (0, 0).

Definition rtcp_print (hdr ep : Z) : pr Z :=
  set_protocol "rtcp" ;~
  on_trunc (
    if hdr + sizeof_rtcphdr >? ep then pstop Trunc
    else
      ND_TCHECK_LEN hdr sizeof_rtcphdr ;~
      words <~ EXTRACT_BE_U_2 (hdr + 2) ;;
      let len := (words + 1) * 4 in
      flags <~ EXTRACT_BE_U_2 hdr ;;
      r <~ rtcp_type hdr ep len flags ;;
      (if r.1 >? 1 then ND_PRINT (" c" +:+ dec r.1) else pret tt) ;~
      rtcp_reports (Z.to_nat r.1) r.2 ep ;~
      pret (hdr + len))
  (nd_print_trunc ;~ pret ep).

(** [while (cp < ep) cp = rtcp_print(ndo, cp, ep)]: a packet takes at least four bytes. *)
Fixpoint rtcp_packets (fuel : nat) (cp ep : Z) : pr unit :=
  match fuel with
  | O => pstop Fuel
  | S f => if cp <? ep then cp' <~ rtcp_print cp ep ;; rtcp_packets f cp' ep else pret tt
  end.

Section PrintUdp.
Context `{Printers} `{PortNames} `{TcpPrinters} `{UdpPrinters}.

(** ** The header *)

Definition udp_cksum (ip up len : Z) : pr Z := nextproto4_cksum ip up len len IPPROTO_UDP.
Definition udp6_cksum (ip6 up len : Z) : pr Z := nextproto6_cksum ip6 up len len IPPROTO_UDP.

(** [None] stands for the ports -1. *)
Definition udpipaddr_print (ip : Z) (ports : option (Z * Z)) : pr unit :=
  v <~ IP_V ip ;;
  let v6 := v =? 6 in
  p <~ EXTRACT_U_1 (if v6 then ip + 6 else ip + 9) ;;
  if p =? IPPROTO_UDP then
    a <~ addr_strings v6 ip ;;
    match ports with
    | None => ND_PRINT (a.1 +:+ " > " +:+ a.2 +:+ ": ")
    | Some (sport, dport) => ND_PRINT (a.1 +:+ "." +:+ udpport_string sport +:+ " > " +:+ a.2 +:+ "." +:+ udpport_string dport +:+ ": ")
    end
  else
    match ports with
    | None => pret tt
    | Some (sport, dport) => ND_PRINT (udpport_string sport +:+ " > " +:+ udpport_string dport +:+ ": ")
    end.

(** ** The payload *)

(** The [switch] on the packet type of the command line. [bp2] is the IP header,
    [is6] says that it is an IPv6 header, [ep] is the end of the data on entry. *)
Definition udp_packettype (ty cp length bp2 sport dport : Z) (is6 : bool) (ep : Z) : pr unit :=
  let addressed (m : pr unit) := udpipaddr_print bp2 (Some (sport, dport)) ;~ m in
  if ty =? PT_VAT then addressed (vat_print cp length)
  else if ty =? PT_WB then addressed (wb_print cp length)
  else if ty =? PT_RPC then
    ND_TCHECK_LEN (cp + 4) 4 ;~
    direction <~ EXTRACT_BE_U_4 (cp + 4) ;;
    if direction =? SUNRPC_CALL then sunrpc_print cp length bp2 else nfsreply_print cp length bp2
  else if ty =? PT_RTP then addressed (rtp_print cp length)
  else if ty =? PT_RTCP then addressed (captured_fuel (fun fuel => rtcp_packets fuel cp ep))
  else if ty =? PT_SNMP then addressed (snmp_print cp length)
  else if ty =? PT_CNFP then addressed (cnfp_print cp)
  else if ty =? PT_TFTP then addressed (tftp_print cp length)
  else if ty =? PT_AODV then addressed (aodv_print cp length is6)
  else if ty =? PT_RADIUS then addressed (radius_print cp length)
  else if ty =? PT_VXLAN then addressed (vxlan_print cp length)
  else if (ty =? PT_PGM) || (ty =? PT_PGM_ZMTP1) then addressed (pgm_print cp length bp2)
  else if ty =? PT_LMP then addressed (lmp_print cp length)
  else pret tt.

(** The call or reply of NFS, when there is one. *)
Definition udp_nfs (cp length bp2 sport dport : Z) : pr bool :=
  t <~ ND_TTEST_LEN (cp + 4) 4 ;;
  if negb t then pret false
  else
    direction <~ EXTRACT_BE_U_4 (cp + 4) ;;
    if (dport =? NFS_PORT) && (direction =? SUNRPC_CALL) then
      x <~ EXTRACT_BE_U_4 cp ;; ND_PRINT ("NFS request xid " +:+ dec x +:+ " ") ;~ nfsreq_noaddr_print cp length bp2 ;~ pret true
    else if (sport =? NFS_PORT) && (direction =? SUNRPC_REPLY) then
      x <~ EXTRACT_BE_U_4 cp ;; ND_PRINT ("NFS reply xid " +:+ dec x +:+ " ") ;~ nfsreply_noaddr_print cp length bp2 ;~ pret true
    else pret false.

Definition udp_sum_remark (udp_sum sum : Z) : pr unit :=
  ND_PRINT (if negb (u16 sum =? 0) then
      "[bad udp cksum 0x" +:+ hex_pad 4 udp_sum +:+ " -> 0x" +:+ hex_pad 4 (in_cksum_shouldbe udp_sum (u16 sum)) +:+ "!] "
    else "[udp sum ok] ").

(** The checksum remark; the test of [ip6->ip6_plen], an array, is always true. *)
Definition udp_cksum_remark (bp length bp2 v vflag : Z) : pr unit :=
  let cp := bp + sizeof_udphdr in
  if (v =? 4) && (vflag >? 1) then
    ND_TCHECK_LEN (bp + 6) 2 ;~
    udp_sum <~ EXTRACT_BE_U_2 (bp + 6) ;;
    if udp_sum =? 0 then ND_PRINT "[no cksum] "
    else
      t <~ ND_TTEST_LEN cp length ;;
      if (t : bool) then sum <~ udp_cksum bp2 bp (length + sizeof_udphdr) ;; udp_sum_remark udp_sum sum else pret tt
  else if v =? 6 then
    t <~ ND_TTEST_LEN cp length ;;
    if (t : bool) then
      sum <~ udp6_cksum bp2 bp (length + sizeof_udphdr) ;;
      ND_TCHECK_LEN (bp + 6) 2 ;~
      udp_sum <~ EXTRACT_BE_U_2 (bp + 6) ;;
      udp_sum_remark udp_sum sum
    else pret tt
  else pret tt.

Definition udp_length (ulen length : Z) : pr unit :=
  ND_PRINT (if ulen >? length then "UDP, bad length " +:+ dec ulen +:+ " > " +:+ dec length else "UDP, length " +:+ dec ulen).

(** The printer the ports choose. *)
Definition udp_payload (cp length bp2 sport dport ulen : Z) (is6 : bool) : pr unit :=
  let port (p : Z) : bool := (sport =? p) || (dport =? p) in
  if port NAMESERVER_PORT then domain_print cp length false
  else if port MULTICASTDNS_PORT then domain_print cp length true
  else if port TIMED_PORT then timed_print cp
  else if port TFTP_PORT then tftp_print cp length
  else if port BOOTPC_PORT || port BOOTPS_PORT then bootp_print cp length
  else if port RIP_PORT then rip_print cp length
  else if port AODV_PORT then aodv_print cp length is6
  else if port ISAKMP_PORT then isakmp_print cp length bp2
  else if port ISAKMP_PORT_NATT then isakmp_rfc3948_print cp length bp2
  else if port ISAKMP_PORT_USER1 || port ISAKMP_PORT_USER2 then isakmp_print cp length bp2
  else if port SNMP_PORT || port SNMPTRAP_PORT then snmp_print cp length
  else if port NTP_PORT then ntp_print cp length
  else if port KERBEROS_PORT || port KERBEROS_SEC_PORT then krb_print cp
  else if port L2TP_PORT then l2tp_print cp length
  else if port NETBIOS_NS_PORT then nbt_udp137_print cp length
  else if port NETBIOS_DGRAM_PORT then nbt_udp138_print cp length
  else if dport =? VAT_PORT then vat_print cp length
  else if port ZEPHYR_SRV_PORT || port ZEPHYR_CLT_PORT then zephyr_print cp length
  else if ((RX_PORT_LOW <=? sport) && (sport <=? RX_PORT_HIGH)) || ((RX_PORT_LOW <=? dport) && (dport <=? RX_PORT_HIGH)) then
    rx_print cp length sport dport bp2
  else if port RIPNG_PORT then ripng_print cp length
  else if port DHCP6_SERV_PORT || port DHCP6_CLI_PORT then dhcp6_print cp length
  else if port AHCP_PORT then ahcp_print cp length
  else if port BABEL_PORT || port BABEL_PORT_OLD then babel_print cp length
  else if port HNCP_PORT then hncp_print cp length
  else if dport =? WB_PORT then wb_print cp length
  else if port CISCO_AUTORP_PORT then cisco_autorp_print cp length
  else if port RADIUS_PORT || port RADIUS_NEW_PORT || port RADIUS_ACCOUNTING_PORT || port RADIUS_NEW_ACCOUNTING_PORT
    || port RADIUS_CISCO_COA_PORT || port RADIUS_COA_PORT then radius_print cp length
  else if dport =? HSRP_PORT then hsrp_print cp length
  else if port LWRES_PORT then lwres_print cp length
  else if port LDP_PORT then ldp_print cp length
  else if port OLSR_PORT then olsr_print cp length is6
  else if port MPLS_LSP_PING_PORT then lspping_print cp length
  else if (dport =? BFD_CONTROL_PORT) || (dport =? BFD_ECHO_PORT) then bfd_print cp length dport
  else if port LMP_PORT then lmp_print cp length
  else if port VQP_PORT then vqp_print cp length
  else if port SFLOW_PORT then sflow_print cp length
  else if dport =? LWAPP_CONTROL_PORT then lwapp_control_print cp length true
  else if sport =? LWAPP_CONTROL_PORT then lwapp_control_print cp length false
  else if port LWAPP_DATA_PORT then lwapp_data_print cp length
  else if port SIP_PORT then sip_print cp length
  else if port SYSLOG_PORT then syslog_print cp length
  else if port OTV_PORT then otv_print cp length
  else if port VXLAN_PORT then vxlan_print cp length
  else if port GENEVE_PORT then geneve_print cp length
  else if port LISP_CONTROL_PORT then lisp_print cp length
  else if port VXLAN_GPE_PORT then vxlan_gpe_print cp length
  else
    t <~ ND_TTEST_LEN (cp + 2) 1 ;;
    lap <~ (if (t : bool) then ty <~ EXTRACT_U_1 (cp + 2) ;; pret (ty =? lapDDP) else pret false) ;;
    if lap && (atalk_port sport || atalk_port dport) then
      vflag <~ flag f_vflag ;;
      (if negb (vflag =? 0) then ND_PRINT "kip " else pret tt) ;~
      llap_print cp length
    else udp_length ulen length.

(** The datagram, once both lengths are known. *)
Definition udp_datagram (bp length bp2 fragmented v sport dport ulen ep : Z) : pr unit :=
  let cp := bp + sizeof_udphdr in
  let is6 := v =? 6 in
  packettype <~ flag f_packettype ;;
  if negb (packettype =? 0) then udp_packettype packettype cp length bp2 sport dport is6 ep
  else
    udpipaddr_print bp2 (Some (sport, dport)) ;~
    qflag <~ flag f_qflag ;;
    nfs <~ (if qflag =? 0 then udp_nfs cp length bp2 sport dport else pret false) ;;
    if (nfs : bool) then pret tt
    else
      vflag <~ flag f_vflag ;;
      Kflag <~ flag f_Kflag ;;
      (if negb (vflag =? 0) && (Kflag =? 0) && (fragmented =? 0) then udp_cksum_remark bp length bp2 v vflag else pret tt) ;~
      if qflag =? 0 then udp_payload cp length bp2 sport dport ulen is6 else udp_length ulen length.

Definition udp_print (bp length bp2 fragmented : Z) : pr unit :=
  ep <~ asks ndo_snapend ;;
  set_protocol "udp" ;~
  v <~ IP_V bp2 ;;
  on_trunc (
    t <~ ND_TTEST_LEN (bp + 2) 2 ;;
    if negb t then udpipaddr_print bp2 None ;~ pstop Trunc
    else
      sport <~ EXTRACT_BE_U_2 bp ;;
      dport <~ EXTRACT_BE_U_2 (bp + 2) ;;
      if length <? sizeof_udphdr then
        udpipaddr_print bp2 (Some (sport, dport)) ;~ ND_PRINT ("truncated-udp " +:+ dec length)
      else
        t2 <~ ND_TTEST_LEN (bp + 4) 2 ;;
        if negb t2 then udpipaddr_print bp2 (Some (sport, dport)) ;~ pstop Trunc
        else
          ulen <~ EXTRACT_BE_U_2 (bp + 4) ;;
          if ulen <? sizeof_udphdr then
            udpipaddr_print bp2 (Some (sport, dport)) ;~ ND_PRINT ("truncated-udplength " +:+ dec ulen)
          else
            let ulen := ulen - sizeof_udphdr in
            let length := if ulen <? length - sizeof_udphdr then ulen else length - sizeof_udphdr in
            e <~ asks ndo_snapend ;;
            if bp + sizeof_udphdr >? e then udpipaddr_print bp2 (Some (sport, dport)) ;~ pstop Trunc
            else udp_datagram bp length bp2 fragmented v sport dport ulen ep)
  nd_print_trunc.
End PrintUdp.

(** ** The rule the other printers follow *)

Class UdpLaws `{UdpPrinters} := {
  udp_accepts : netdissect_options -> Prop;
  udp_accepts_mono s s' : ndo_ext s s' -> udp_accepts s -> udp_accepts s';
  udp_payload_law s0 bp len : ndo_ok s0 -> udp_accepts s0 -> 0 <= bp ->
    Forall (fun m : pr unit => safe false s0 m (fun _ => True))
      [wb_print bp len; snmp_print bp len; tftp_print bp len; radius_print bp len; vxlan_print bp len; lmp_print bp len;
       bootp_print bp len; rip_print bp len; ntp_print bp len; l2tp_print bp len; nbt_udp137_print bp len; nbt_udp138_print bp len;
       zephyr_print bp len; ripng_print bp len; dhcp6_print bp len; ahcp_print bp len; babel_print bp len; hncp_print bp len;
       cisco_autorp_print bp len; hsrp_print bp len; lwres_print bp len; lspping_print bp len; vqp_print bp len; sflow_print bp len;
       lwapp_data_print bp len; sip_print bp len; syslog_print bp len; otv_print bp len; geneve_print bp len; lisp_print bp len;
       vxlan_gpe_print bp len; llap_print bp len; cnfp_print bp; timed_print bp; krb_print bp;
       aodv_print bp len true; aodv_print bp len false; olsr_print bp len true; olsr_print bp len false;
       lwapp_control_print bp len true; lwapp_control_print bp len false];
  bfd_law s0 bp len port : ndo_ok s0 -> udp_accepts s0 -> 0 <= bp -> safe false s0 (bfd_print bp len port) (fun _ => True);
  udp_enclosed_law s0 bp len bp2 sport dport : ndo_ok s0 -> udp_accepts s0 -> 0 <= bp -> ip_header s0 bp2 ->
    Forall (fun m : pr unit => safe false s0 m (fun _ => True))
      [sunrpc_print bp len bp2; nfsreply_print bp len bp2; isakmp_print bp len bp2; isakmp_rfc3948_print bp len bp2;
       rx_print bp len sport dport bp2] }.

(** ** Safety *)

Lemma clean_fixed2 a b : clean (fixed2 a b) = true.
Proof. unfold fixed2. clean_tac. Qed.
#[export] Hint Resolve clean_fixed2 : clean.

Section Safety.
Context (s0 : netdissect_options) (Hok : ndo_ok s0).

(** What a bounds test that succeeded gives. *)
Ltac tested := match goal with H : true = true -> _ |- _ => specialize (H eq_refl) end.
Ltac opt := eapply safe_bind; [apply safe_opt; clean_tac|intros _ _].

Lemma safe_vat T hdr n : 0 <= hdr -> safe T s0 (vat_print hdr n) (fun _ => True).
Proof.
  intros Hh. unfold vat_print. safe_step. safe_step; [by safe_step|]. apply safe_on_trunc; [|apply safe_print_trunc].
  do 2 safe_step. safe_step; [by safe_step|]. safe_step; [by safe_step|]. do 4 safe_step. safe_step. opt. apply safe_opt. clean_tac.
Qed.

Lemma safe_rtp_options fuel : forall ip len, 0 <= ip -> 0 <= len < Z.of_nat fuel ->
  safe true s0 (rtp_options fuel ip len) (fun o => match o with Some (ip', len') => 0 <= ip' | None => True end).
Proof.
  induction fuel as [|f IH]; intros ip len Hi Hl; [lia|]. cbn [rtp_options]. do 2 safe_step. cbv zeta.
  assert (Ho : 0 <= Z.land (Z.shiftr a0 16) 0xff) by (apply Z.land_nonneg; lia).
  destruct (_ || _) eqn:E; [safe_step; by safe_step|]. bool_to_prop. safe_step; [apply IH; lia|]. safe_step. lia.
Qed.

Lemma safe_rtp_extension ip len : 0 <= ip -> safe true s0 (rtp_extension ip len) (fun o => match o with Some ip' => 0 <= ip' | None => True end).
Proof.
  intros Hi. unfold rtp_extension. do 2 safe_step. cbv zeta. assert (0 <= Z.land a0 0xffff) by (apply Z.land_nonneg; lia).
  safe_step; [safe_step; by safe_step|]. safe_step. lia.
Qed.

Lemma safe_rtp_body hdr ptype dlen contype i0 i1 hasopt hasext hasmarker ip len :
  0 <= hdr -> 0 <= ip -> 0 <= len -> clean ptype = true ->
  safe true s0 (rtp_body hdr ptype dlen contype i0 i1 hasopt hasext hasmarker ip len) (fun _ => True).
Proof.
  intros Hh Hi Hl Hp. unfold rtp_body. safe_step. safe_step. safe_step; [by safe_step|]. do 3 safe_step.
  eapply (safe_bind _ _ _ _ (fun o => match o with Some (ip', len') => 0 <= ip' | None => True end)).
  { destruct hasopt; [apply safe_rtp_options; lia|by apply safe_ret]. }
  intros [[ip1 len1]|] Ho; [|by apply safe_ret]. eapply (safe_bind _ _ _ _ (fun o => match o with Some ip' => 0 <= ip' | None => True end)).
  { destruct hasext; [by apply safe_rtp_extension|by apply safe_ret]. }
  intros [ip2|] He; [|by apply safe_ret]. safe_step. safe_step; [|by safe_step]. safe_step. eapply safe_weaken; [apply safe_print|done].
  clean_tac. apply clean_hex_pad, Z.shiftr_nonneg. lia.
Qed.

Lemma safe_rtp T hdr len : 0 <= hdr -> safe T s0 (rtp_print hdr len) (fun _ => True).
Proof.
  intros Hh. unfold rtp_print. safe_step. safe_step; [by safe_step|]. apply safe_on_trunc; [|apply safe_print_trunc].
  do 4 safe_step. cbv zeta. pose proof (Z.div_le_mono 8 len 4). pose proof (Z.div_le_mono 12 len 4). rewrite (Z.shiftr_div_pow2 len 2) by lia.
  change (8 / 4) with 2 in *. change (12 / 4) with 3 in *. change (2 ^ 2) with 4. safe_step; [apply safe_rtp_body; done || lia|].
  safe_step; [by safe_step|]. apply safe_rtp_body; done || lia.
Qed.

Lemma safe_rtcp_reports cnt rr ep : 0 <= rr -> safe true s0 (rtcp_reports cnt rr ep) (fun _ => True).
Proof.
  intros Hr. induction cnt as [|cnt IH]; cbn [rtcp_reports]; [by safe_step|]. unfold sizeof_rtcp_rr. safe_step; [by safe_step|]. do 2 safe_step.
  eapply (safe_bind _ _ _ _ (fun _ => True)). { safe_step; [safe_step; by safe_step|by safe_step]. }
  intros _ _. do 6 safe_step. exact IH.
Qed.

Lemma safe_rtcp_type hdr ep len flags : 0 <= hdr -> hdr + sizeof_rtcphdr <= ndo_snapend s0 -> 0 <= flags ->
  safe true s0 (rtcp_type hdr ep len flags) (fun r => 0 <= r.2).
Proof.
  unfold sizeof_rtcphdr. intros Hh He Hf. unfold rtcp_type, sizeof_rtcphdr, sizeof_rtcp_sr.
  assert (Hs : forall (k : pr (Z * Z)) Q, safe true s0 k Q -> safe true s0
    (pbind (vflag <~ flag f_vflag ;; if negb (vflag =? 0) then v <~ EXTRACT_BE_U_4 (hdr + 4) ;; ND_PRINT (" " +:+ dec v) else pret tt) (fun _ => k)) Q).
  { intros k Q Hk. eapply (safe_bind _ _ _ _ (fun _ => True)); [|by intros]. safe_step. safe_step; [safe_step; by safe_step|by safe_step]. }
  cbv zeta. repeat match goal with |- safe _ _ (if ?b then _ else _) _ => destruct b end.
  - safe_step. opt. apply Hs. safe_step; [by safe_step|]. do 7 safe_step. safe_step. cbn. lia.
  - safe_step. opt. apply Hs. safe_step. cbn. lia.
  - safe_step. apply Hs. by safe_step.
  - safe_step. apply Hs. by safe_step.
  - eapply safe_bind; [apply safe_print; clean_tac; apply clean_hex, Z.land_nonneg; lia|]. intros _ _. by safe_step.
Qed.

Lemma safe_rtcp T hdr ep : 0 <= hdr -> safe T s0 (rtcp_print hdr ep) (fun p => p = ep \/ hdr + 4 <= p).
Proof.
  intros Hh. unfold rtcp_print. safe_step. apply safe_on_trunc; [|safe_step; safe_step; by left].
  unfold sizeof_rtcphdr. safe_step; [by safe_step|]. do 3 safe_step. cbv zeta.
  eapply safe_bind; [apply safe_rtcp_type; unfold sizeof_rtcphdr; lia|]. intros r Hr. cbv beta in Hr. opt.
  eapply safe_bind; [by apply safe_rtcp_reports|]. intros _ _. safe_step. lia.
Qed.

Lemma safe_rtcp_packets T fuel : forall cp ep, 0 <= cp -> ep - cp < Z.of_nat fuel -> 0 < Z.of_nat fuel -> safe T s0 (rtcp_packets fuel cp ep) (fun _ => True).
Proof.
  induction fuel as [|f IH]; intros cp ep Hc Hf Hp; [lia|]. cbn [rtcp_packets]. safe_step; [|by safe_step].
  eapply safe_bind; [by apply safe_rtcp|]. intros p Hr. cbv beta in Hr. apply IH; lia.
Qed.

Context `{PrinterLaws} `{PortNamesLaws} `{TcpLaws} `{UdpLaws} (bp2 : Z) (Hh : ip_header s0 bp2).

Lemma safe_udpipaddr T ports : safe T s0 (udpipaddr_print bp2 ports) (fun _ => True).
Proof.
  destruct Hh as [Hip Hip6]. unfold udpipaddr_print. eapply safe_bind; [by apply (safe_version s0 Hok bp2 Hip Hip6)|]. intros v Hv. cbv zeta.
  assert (Hv6 : (v =? 6) = true -> readable s0 bp2 sizeof_ip6_hdr) by (intros ?%Z.eqb_eq; auto).
  eapply (safe_bind _ _ _ _ (fun _ => True)).
  { unfold sizeof_ip in Hip. destruct (v =? 6) eqn:Ev; [specialize (Hv6 eq_refl); unfold sizeof_ip6_hdr in Hv6|];
      (eapply safe_weaken; [apply safe_u1; [done|readable_tac]|done]). }
  intros p _. destruct (_ =? IPPROTO_UDP).
  - eapply safe_bind; [by apply (safe_addr_strings s0 Hok bp2 Hip)|]. intros a [Ha1 Ha2]. destruct ports as [[sp dp]|]; apply safe_print; clean_tac; apply udpport_clean.
  - destruct ports as [[sp dp]|]; [|by safe_step]. apply safe_print. clean_tac; apply udpport_clean.
Qed.

Lemma safe_addressed (m : pr unit) ports : safe true s0 m (fun _ => True) -> safe true s0 (udpipaddr_print bp2 ports ;~ m) (fun _ => True).
Proof. intros Hm. eapply safe_bind; [apply safe_udpipaddr|]. by intros. Qed.

Context (Hacc : udp_accepts s0) (Htcp : tcp_accepts s0).

(** The printers of the class, without the truncation they handle themselves. *)
Ltac udp_printer :=
  apply safe_allow_trunc; first
    [ assumption
    | match goal with |- safe _ _ (_ _ _ ?b) _ => is_var b; destruct b; assumption end
    | apply bfd_law; assumption | apply safe_vat; assumption | apply safe_rtp; assumption
    | apply safe_domain; assumption ].

Lemma safe_packettype ty cp n sport dport is6 ep :
  0 <= cp -> ep <= ndo_snapend s0 -> accepts s0 cp -> safe true s0 (udp_packettype ty cp n bp2 sport dport is6 ep) (fun _ => True).
Proof.
  intros Hc He Ha. unfold udp_packettype. pose proof (udp_payload_law s0 cp n Hok Hacc Hc) as Hall.
  repeat (apply Forall_cons in Hall as [? Hall]). pose proof (udp_enclosed_law s0 cp n bp2 sport dport Hok Hacc Hc Hh) as Henc.
  repeat (apply Forall_cons in Henc as [? Henc]). pose proof (pgm_law cp n bp2 s0 Hok Hc Ha Hh) as Hpgm. cbv zeta.
  repeat (match goal with |- safe _ _ (if ?b then _ else _) _ => destruct b end;
    [first [solve [apply safe_addressed; udp_printer]
           | apply safe_addressed, safe_captured_fuel; intros fuel Hf; destruct Hok as (_ & _ & Hs & _); apply safe_rtcp_packets; lia
           | do 2 safe_step; safe_step; udp_printer ]|]).
  by safe_step.
Qed.

Lemma safe_udp_nfs T cp n sport dport : 0 <= cp -> safe T s0 (udp_nfs cp n bp2 sport dport) (fun _ => True).
Proof.
  intros Hc. unfold udp_nfs. safe_step. destruct a; cbn [negb]; [|by safe_step]. tested. safe_step.
  destruct (nfs_law s0 cp n bp2 Hok Htcp Hc (proj1 Hh)) as [Hreq Hrep].
  destruct (_ && _); [do 2 safe_step; eapply safe_bind; [by apply safe_allow_trunc, Hreq|]; intros _ _; by safe_step|].
  destruct (_ && _); [do 2 safe_step; eapply safe_bind; [by apply safe_allow_trunc, Hrep|]; intros _ _; by safe_step|by safe_step].
Qed.

Lemma safe_sum_remark T udp_sum sum : 0 <= udp_sum -> safe T s0 (udp_sum_remark udp_sum sum) (fun _ => True).
Proof.
  intros Hs. apply safe_print. case_test; [|done]. clean_tac. apply clean_hex_pad, in_cksum_shouldbe_range.
Qed.

(** No more was captured than the checksum can add up. *)
Context (Hroom : ndo_snapend s0 + 40 <= IN_CKSUM_MAX).

Lemma safe_udp_cksum_remark bp n v vflag :
  0 <= bp -> 0 <= n < 65536 -> (v = 6 -> readable s0 bp2 sizeof_ip6_hdr) -> safe true s0 (udp_cksum_remark bp n bp2 v vflag) (fun _ => True).
Proof.
  intros Hb Hn Hv. unfold udp_cksum_remark, sizeof_udphdr, udp_cksum, udp6_cksum. cbv zeta. destruct (_ && _).
  - do 2 safe_step. safe_step; [by safe_step|]. safe_step. destruct a1; [|by safe_step]. tested.
    eapply safe_bind; [apply safe_allow_trunc, safe_nextproto4_cksum; [done|apply Hh|readable_tac|lia]|]. intros sum _. apply safe_sum_remark. lia.
  - destruct (Z.eqb_spec v 6) as [->|]; [|by safe_step]. safe_step. destruct a; [|by safe_step]. tested.
    eapply safe_bind; [apply safe_allow_trunc, safe_nextproto6_cksum; [done|auto|readable_tac|lia]|]. intros sum _. do 2 safe_step. apply safe_sum_remark. lia.
Qed.

Lemma safe_udp_length T ulen n : safe T s0 (udp_length ulen n) (fun _ => True).
Proof. apply safe_print. clean_tac. Qed.

Lemma safe_udp_payload cp n sport dport ulen is6 : 0 <= cp -> safe true s0 (udp_payload cp n bp2 sport dport ulen is6) (fun _ => True).
Proof.
  intros Hc. unfold udp_payload. pose proof (udp_payload_law s0 cp n Hok Hacc Hc) as Hall.
  repeat (apply Forall_cons in Hall as [? Hall]). pose proof (udp_enclosed_law s0 cp n bp2 sport dport Hok Hacc Hc Hh) as Henc.
  repeat (apply Forall_cons in Henc as [? Henc]). pose proof (payload_law s0 cp n Hok Htcp Hc) as Htp.
  repeat (apply Forall_cons in Htp as [? Htp]). cbv zeta.
  repeat (match goal with |- safe _ _ (if ?b then _ else _) _ => destruct b end; [solve [udp_printer]|]).
  safe_step. eapply (safe_bind _ _ _ _ (fun _ => True)).
  { destruct a; [|by safe_step]. tested. safe_step. by safe_step. }
  intros lap _. destruct (_ && _); [|apply safe_udp_length]. safe_step. eapply safe_bind; [apply safe_opt; clean_tac|]. intros _ _. udp_printer.
Qed.

Lemma safe_udp_datagram bp n fragmented v sport dport ulen ep :
  0 <= bp -> 0 <= n < 65536 -> (v = 6 -> readable s0 bp2 sizeof_ip6_hdr) -> ep <= ndo_snapend s0 -> accepts s0 bp ->
  safe true s0 (udp_datagram bp n bp2 fragmented v sport dport ulen ep) (fun _ => True).
Proof.
  intros Hb Hn Hv He Ha. unfold udp_datagram, sizeof_udphdr. cbv zeta. safe_step. safe_step.
  { apply safe_packettype; try done; [lia|]. apply (accepts_mono _ _ bp _ (ndo_ext_refl s0 Hok)); [lia|done]. }
  eapply safe_bind; [apply safe_udpipaddr|]. intros _ _. safe_step. eapply (safe_bind _ _ _ _ (fun _ => True)).
  { destruct (_ =? 0); [apply safe_udp_nfs; lia|by safe_step]. }
  intros nfs _. destruct nfs; [by safe_step|]. do 2 safe_step. eapply (safe_bind _ _ _ _ (fun _ => True)).
  { destruct (_ && _); [by apply safe_udp_cksum_remark|by safe_step]. }
  intros _ _. safe_step; [apply safe_udp_payload; lia|apply safe_udp_length].
Qed.

Lemma safe_udp_print bp n fragmented : 0 <= bp -> accepts s0 bp -> safe false s0 (udp_print bp n bp2 fragmented) (fun _ => True).
Proof.
  intros Hb Ha. unfold udp_print. destruct Hh as [Hip Hip6]. do 2 safe_step. eapply safe_bind; [by apply (safe_version s0 Hok bp2 Hip Hip6)|].
  intros v Hv. apply safe_on_trunc; [|apply safe_print_trunc].
  assert (Hcut : forall ports, safe true s0 (udpipaddr_print bp2 ports ;~ pstop Trunc) (fun _ : unit => True))
    by (intros; eapply safe_bind; [apply safe_udpipaddr|]; intros; by safe_step).
  unfold sizeof_udphdr. safe_step. destruct a1; cbn [negb]; [|apply Hcut]. tested. do 2 safe_step.
  safe_step; [apply safe_addressed; by safe_step|]. safe_step. destruct a3; cbn [negb]; [|apply Hcut]. tested. safe_step.
  safe_step; [apply safe_addressed; by safe_step|]. cbv zeta. safe_step. safe_step; [apply Hcut|].
  apply safe_udp_datagram; try done; [case_match; lia|lia].
Qed.
End Safety.

(** ** A whole datagram *)

Section Datagram.
Context `{Printers} `{PortNames} `{TcpPrinters} `{UdpPrinters}.
Context (pre post data src dst : list Z) (sport dport sum : Z).
Context (Hsp : 0 <= sport < 65536) (Hdp : 0 <= dport < 65536) (Hsum : 0 <= sum < 65536).

(** The datagram with a given checksum field, and the pseudo header of its sum. *)
Definition udp_bytes (v : Z) : list Z :=
  be_bytes 2 sport ++ be_bytes 2 dport ++ be_bytes 2 (8 + Z.of_nat (length data)) ++ be_bytes 2 v ++ data.
Definition pseudo_bytes : list Z := src ++ dst ++ [0; IPPROTO_UDP] ++ be_bytes 2 (8 + Z.of_nat (length data)).

(** The sum a receiver checks. *)
Definition udp_good (v : Z) : bool := oc_fold (be_sum (pseudo_bytes ++ udp_bytes v)) =? 65535.

Definition udp_addresses : string :=
  getname src +:+ "." +:+ udpport_string sport +:+ " > " +:+ getname dst +:+ "." +:+ udpport_string dport +:+ ": ".

(** What a printer this verbose says about the checksum. *)
Definition udp_sum_text (vflag right : Z) : string :=
  if negb (vflag >? 1) then EmptyString
  else if sum =? 0 then "[no cksum] "
  else if udp_good sum then "[udp sum ok] "
  else "[bad udp cksum 0x" +:+ hex_pad 4 sum +:+ " -> 0x" +:+ hex_pad 4 right +:+ "!] ".

Context (s : netdissect_options) (Hok : ndo_ok s) (Hpkt : ndo_packet s = pre ++ udp_bytes sum ++ post).
Abbreviation bp := (Z.of_nat (length pre)).
Abbreviation n := (Z.of_nat (length data)).
Context (Hcap : bp + 8 + n <= ndo_snapend s) (Hmax : n + 20 <= IN_CKSUM_MAX).
Context (bp2 : Z) (Hv : mem_read (ndo_packet s) bp2 1 = Some [0x45]) (Hp : mem_read (ndo_packet s) (bp2 + 9) 1 = Some [IPPROTO_UDP]).
Context (Hsrc : mem_read (ndo_packet s) (bp2 + 12) 4 = Some src) (Hdst : mem_read (ndo_packet s) (bp2 + 16) 4 = Some dst).

Lemma length_udp v : length (udp_bytes v) = (8 + length data)%nat.
Proof. unfold udp_bytes. rewrite !length_app, !length_be_bytes. lia. Qed.

Lemma run_udp_load p k l o : mem_read (ndo_packet s) p k = Some l -> load p k (at_out s "udp" o) = (Done l, at_out s "udp" o).
Proof. intros Hl. unfold load. cbn [at_out ndo_packet]. by rewrite Hl. Qed.

Lemma run_udp_u2 (k : nat) v o p : p = bp + Z.of_nat k -> slice (udp_bytes sum) k 2 = Some (be_bytes 2 v) -> 0 <= v < 65536 ->
  EXTRACT_BE_U_2 p (at_out s "udp" o) = (Done v, at_out s "udp" o).
Proof.
  intros -> Hl Hr. unfold EXTRACT_BE_U_2. erewrite run_bind by (by apply (run_load_part _ pre (udp_bytes sum) post k 2 (be_bytes 2 v))).
  unfold pret. by rewrite be_val_bytes, Z.mod_small.
Qed.

Lemma run_udp_u1 v o p : mem_read (ndo_packet s) p 1 = Some [v] -> EXTRACT_U_1 p (at_out s "udp" o) = (Done v, at_out s "udp" o).
Proof. intros Hl. unfold EXTRACT_U_1. erewrite run_bind by (by apply run_udp_load). unfold pret. by rewrite be_val_1. Qed.

Lemma run_udp_ttest p k o : bp <= p -> 0 <= k -> p + k <= bp + 8 + n -> ND_TTEST_LEN p k (at_out s "udp" o) = (Done true, at_out s "udp" o).
Proof.
  intros. unfold ND_TTEST_LEN, asks. rewrite ttest_len_complete; [done|by apply at_out_ok|lia..|cbn; lia].
Qed.

Lemma run_udp_print t o : ND_PRINT t (at_out s "udp" o) = (Done tt, at_out s "udp" (o +:+ t)).
Proof. done. Qed.

Lemma run_udp_version o : IP_V bp2 (at_out s "udp" o) = (Done 4, at_out s "udp" o).
Proof. unfold IP_V. by erewrite run_bind by (by apply run_udp_u1). Qed.

Ltac run l := erewrite run_bind by l; cbv beta zeta.

Lemma run_udpipaddr o : udpipaddr_print bp2 (Some (sport, dport)) (at_out s "udp" o) = (Done tt, at_out s "udp" (o +:+ udp_addresses)).
Proof.
  unfold udpipaddr_print. run ltac:(apply run_udp_version). change (4 =? 6) with false. cbv iota. run ltac:(by apply run_udp_u1).
  change (IPPROTO_UDP =? IPPROTO_UDP) with true. cbv iota. unfold addr_strings, ipaddr_string, ip_src, ip_dst.
  run ltac:(run ltac:(run ltac:(by apply run_udp_load); reflexivity); run ltac:(run ltac:(by apply run_udp_load); reflexivity); reflexivity).
  by rewrite run_udp_print.
Qed.

(** The verdict on the checksum, and the value it proposes. *)
Lemma udp_bytes_ok v : bytes_ok (udp_bytes v) = true.
Proof.
  destruct Hok as (_ & _ & _ & Hb & _). rewrite Hpkt in Hb. unfold udp_bytes in *. rewrite !bytes_ok_app in *.
  split_and!; try apply bytes_ok_be_bytes; tauto.
Qed.

Lemma mem_read_ok p k l : mem_read (ndo_packet s) p k = Some l -> bytes_ok l = true /\ Z.of_nat (length l) = Z.max 0 k.
Proof.
  unfold mem_read. case_match; [|done]. intros Hl. split; [|apply length_slice in Hl; lia]. eapply bytes_ok_slice; [|exact Hl]. apply Hok.
Qed.

Lemma pseudo_ok : bytes_ok pseudo_bytes = true /\ length pseudo_bytes = 12%nat.
Proof.
  apply mem_read_ok in Hsrc as [Hs Hsl], Hdst as [Hd Hdl]. unfold pseudo_bytes. rewrite !bytes_ok_app, !length_app, length_be_bytes.
  split; [split_and!; try done; apply bytes_ok_be_bytes|cbn [length]; lia].
Qed.

Lemma udp_sum_verdict odd :
  exists c right, in_cksum [mk_cksum_vec pseudo_bytes false 12; mk_cksum_vec (udp_bytes sum ++ post) odd (n + 8)] = Some c /\
    0 <= c < 65536 /\ (c =? 0) = udp_good sum /\ in_cksum_shouldbe sum c = right /\ udp_good right = true.
Proof.
  destruct pseudo_ok as [Hpb Hpl]. pose proof (udp_bytes_ok sum) as Hb. pose proof Hok as (_ & _ & _ & Hall & _). rewrite Hpkt, !bytes_ok_app in Hall.
  destruct Hall as (_ & _ & Hpost). set (whole v := pseudo_bytes ++ udp_bytes v).
  assert (Hlen : forall v, Z.of_nat (length (whole v)) = n + 20) by (intros v; unfold whole; rewrite length_app, Hpl, length_udp; lia).
  assert (Hwb : forall v, bytes_ok (whole v) = true) by (intros v; unfold whole; rewrite bytes_ok_app; split; [done|apply udp_bytes_ok]).
  assert (Hle : forall v, Z.of_nat (length (whole v)) <= 65535) by (intros v; rewrite Hlen; unfold IN_CKSUM_MAX in Hmax; lia).
  set (c := 65535 - oc_fold (le_sum (whole sum))). pose proof (oc_fold_range (le_sum (whole sum))) as Hr.
  pose proof (in_cksum_whole (whole sum) false (Hwb sum) (Hle sum)) as Hw. fold c in Hw.
  assert (Hz : forall v, udp_good v = true <-> in_cksum [mk_cksum_vec (whole v) false (Z.of_nat (length (whole v)))] = Some 0).
  { intros v. unfold udp_good. rewrite Z.eqb_eq. symmetry. exact (in_cksum_zero_iff (whole v) false (Hwb v) (Hle v)). }
  exists c, (in_cksum_shouldbe sum c). split; [|split; [unfold c; lia|split; [|split; [done|]]]].
  - rewrite in_cksum_spec.
    + unfold vecs_bytes, vec_bytes. cbn [concat fmap list_fmap v_mem v_len]. rewrite app_nil_r, take_ge by lia.
      replace (Z.to_nat (n + 8)) with (length (udp_bytes sum)) by (rewrite length_udp; lia). by rewrite take_app_length.
    + cbn [forallb]. unfold vec_ok. cbn [v_mem v_len]. rewrite Hpb, Hpl, bytes_ok_app_true, length_app, length_udp by done.
      rewrite !(proj2 (Z.leb_le _ _)) by lia. done.
    + unfold vecs_bytes, vec_bytes. cbn [concat fmap list_fmap v_mem v_len]. rewrite !length_app, !length_take, Hpl, length_app, length_udp. cbn [length]. lia.
  - apply eq_true_iff_eq. rewrite Hz, Hw, Z.eqb_eq. split; congruence.
  - set (A := pseudo_bytes ++ be_bytes 2 sport ++ be_bytes 2 dport ++ be_bytes 2 (8 + n)).
    assert (Hshape : forall v, whole v = A ++ be_bytes 2 v ++ data) by (intros v; unfold whole, A, udp_bytes; by rewrite <- !app_assoc).
    apply Hz. rewrite Hshape. apply (in_cksum_repaired A data sum false c); [..|lia|rewrite <- Hshape; apply Hle|rewrite <- Hshape; exact Hw].
    + unfold A. rewrite !bytes_ok_app. split_and!; done || apply bytes_ok_be_bytes.
    + unfold udp_bytes in Hb. rewrite !bytes_ok_app in Hb. apply Hb.
    + unfold A. rewrite !length_app, !length_be_bytes, Hpl. done.
Qed.

Lemma run_udp_cksum o :
  exists c right, udp_cksum bp2 bp (n + sizeof_udphdr) (at_out s "udp" o) = (Done c, at_out s "udp" o) /\
    0 <= c < 65536 /\ (c =? 0) = udp_good sum /\ in_cksum_shouldbe sum c = right /\ udp_good right = true.
Proof.
  destruct (udp_sum_verdict (Z.odd (ndo_base s + bp))) as (c & right & Hc & Hrest). exists c, right. split; [|exact Hrest].
  unfold udp_cksum, nextproto4_cksum, EXTRACT_IPV4_TO_NETWORK_ORDER, ip_src, ip_dst, sizeof_udphdr. run ltac:(by apply run_udp_load).
  run ltac:(unfold IP_HL; run ltac:(by apply run_udp_u1); reflexivity). change (Z.land 0x45 0x0f =? 5) with true. cbv iota. run ltac:(by apply run_udp_load).
  unfold run_cksum, pkt_vec. cbn [ndo_packet ndo_base at_out]. rewrite Hpkt, Nat2Z.id, drop_app_length.
  rewrite u16_small by (unfold IN_CKSUM_MAX in Hmax; lia). change (u8 IPPROTO_UDP) with IPPROTO_UDP.
  replace (src ++ dst ++ [0; IPPROTO_UDP] ++ be_bytes 2 (n + 8)) with pseudo_bytes by (unfold pseudo_bytes; by rewrite (Z.add_comm n 8)). by rewrite Hc.
Qed.

Lemma run_udp_remark vflag o :
  exists right, udp_cksum_remark bp n bp2 4 vflag (at_out s "udp" o) = (Done tt, at_out s "udp" (o +:+ udp_sum_text vflag right)) /\ udp_good right = true.
Proof.
  destruct (run_udp_cksum o) as (c & right & Hc & Hr & Hz & Hs & Hg). exists right. split; [|done].
  unfold udp_cksum_remark, udp_sum_text. change (4 =? 4) with true. change (4 =? 6) with false. cbv iota zeta. cbn [andb].
  destruct (vflag >? 1); cbn [negb]; [|unfold pret; by rewrite sapp_nil_r].
  unfold ND_TCHECK_LEN. run ltac:(run ltac:(apply run_udp_ttest; lia); reflexivity). run ltac:(by apply (run_udp_u2 6)).
  destruct (sum =? 0); [done|]. run ltac:(apply run_udp_ttest; unfold sizeof_udphdr; lia). cbv iota. run ltac:(exact Hc).
  unfold udp_sum_remark. rewrite u16_small, Hs, Hz by lia. by destruct (udp_good sum).
Qed.

Context (Hqf : f_qflag (ndo_flags s) = 0) (Hkf : f_Kflag (ndo_flags s) = 0) (Hpt : f_packettype (ndo_flags s) = 0).
Context (Hnfs : sport <> NFS_PORT /\ dport <> NFS_PORT).

Lemma run_udp_nfs o : udp_nfs (bp + sizeof_udphdr) n bp2 sport dport (at_out s "udp" o) = (Done false, at_out s "udp" o).
Proof.
  destruct Hnfs as [E1%Z.eqb_neq E2%Z.eqb_neq]. unfold udp_nfs. erewrite run_bind by reflexivity. cbn [ndo_snapend at_out].
  destruct (ttest_len (at_out s "udp" o) (bp + sizeof_udphdr + 4) 4) eqn:E; cbn [negb]; [|done].
  assert (He : exists d, EXTRACT_BE_U_4 (bp + sizeof_udphdr + 4) (at_out s "udp" o) = (Done d, at_out s "udp" o)).
  { pose proof (at_out_ok s Hok "udp" o eq_refl) as Hok'. apply (ttest_len_bound (at_out s "udp" o) Hok' _ (bp + sizeof_udphdr + 4) 4 ltac:(lia) (ndo_ext_refl _ Hok')) in E as [_ E].
    destruct (run_load_captured _ (bp + sizeof_udphdr + 4) 4 Hok') as [l Hl]; [unfold sizeof_udphdr; lia|lia|exact E|].
    eexists. unfold EXTRACT_BE_U_4. run ltac:(exact Hl). reflexivity. }
  destruct He as [d Hd]. run ltac:(exact Hd). by rewrite E1, E2.
Qed.

(** The header and the checksum are printed, and then the payload. *)
Lemma run_udp_print_whole :
  exists right, udp_print bp (8 + n) bp2 0 s =
    on_trunc (udp_payload (bp + 8) n bp2 sport dport n false) nd_print_trunc
      (at_out s "udp" (ndo_out s +:+ udp_addresses +:+ udp_sum_text (f_vflag (ndo_flags s)) right)) /\ udp_good right = true.
Proof.
  destruct (run_udp_remark (f_vflag (ndo_flags s)) (ndo_out s +:+ udp_addresses)) as (right & Hrem & Hg). exists right. split; [|done].
  unfold udp_print. erewrite run_bind by reflexivity. erewrite run_bind; [|exact (eq_refl (Done tt, at_out s "udp" (ndo_out s)))].
  run ltac:(apply run_udp_version). apply run_on_trunc. run ltac:(apply run_udp_ttest; lia). cbn [negb].
  run ltac:(apply (run_udp_u2 0); [lia|done|done]). run ltac:(by apply (run_udp_u2 2)). unfold sizeof_udphdr. rewrite (proj2 (Z.ltb_ge _ _)) by lia.
  run ltac:(apply run_udp_ttest; lia). cbn [negb]. run ltac:(apply (run_udp_u2 4); [lia|done|unfold IN_CKSUM_MAX in Hmax; lia]).
  rewrite (proj2 (Z.ltb_ge _ _)) by lia. replace (8 + n - 8) with n by lia. rewrite Z.ltb_irrefl. erewrite run_bind by reflexivity. cbn [ndo_snapend at_out].
  destruct (Z.gtb_spec (bp + 8) (ndo_snapend s)); [lia|]. unfold udp_datagram. erewrite run_bind by reflexivity. cbn [ndo_flags at_out]. rewrite Hpt. cbn [negb Z.eqb].
  run ltac:(apply run_udpipaddr). erewrite run_bind by reflexivity. cbn [ndo_flags at_out]. rewrite Hqf. cbn [Z.eqb]. run ltac:(apply run_udp_nfs).
  cbv iota. do 2 (erewrite run_bind by reflexivity). cbn [ndo_flags at_out]. rewrite Hkf. cbn [Z.eqb].
  rewrite (run_bind _ _ _ tt (at_out s "udp" ((ndo_out s +:+ udp_addresses) +:+ udp_sum_text (f_vflag (ndo_flags s)) right))).
  { by rewrite <- sapp_assoc. }
  rewrite andb_true_r. destruct (Z.eqb_spec (f_vflag (ndo_flags s)) 0) as [Ev|]; cbn [negb andb]; [|exact Hrem].
  unfold udp_sum_text. rewrite Ev. unfold pret. cbn. by rewrite sapp_nil_r.
Qed.
End Datagram.

(** ** As a printer of the IPv4 printer *)

(** The printers of [P] with another printer for UDP. *)
Definition with_udp (P : Printers) (udp : Z -> Z -> Z -> Z -> pr unit) : Printers := {|
  getname := @getname P; esp_print := @esp_print P; sctp_print := @sctp_print P; dccp_print := @dccp_print P;
  PrintIp.tcp_print := @PrintIp.tcp_print P; PrintIp.udp_print := udp; icmp_print := @icmp_print P; igrp_print := @igrp_print P;
  eigrp_print := @eigrp_print P; egp_print := @egp_print P; ospf_print := @ospf_print P; igmp_print := @igmp_print P;
  ip6_print := @ip6_print P; rsvp_print := @rsvp_print P; gre_print := @gre_print P; mobile_print := @mobile_print P;
  pim_print := @pim_print P; carp_print := @carp_print P; vrrp_print := @vrrp_print P; pgm_print := @pgm_print P |}.

Definition udp_printers (P : Printers) `{PortNames} `{TcpPrinters} `{UdpPrinters} : Printers := with_udp P udp_print.

Section Laws.
Context {P : Printers} {PL : PrinterLaws} `{PortNamesLaws} `{TcpLaws} `{UdpLaws}.

(** What the printers above accept, and no more than the checksum can add up. *)
Definition datagram_accepts (s : netdissect_options) (cp : Z) : Prop :=
  accepts s cp /\ tcp_accepts s /\ udp_accepts s /\ ndo_snapend s + 40 <= IN_CKSUM_MAX.

Lemma datagram_mono : mono datagram_accepts.
Proof.
  intros s s' cp cp' Hs Hcp (Ha & Ht & Hu & Hr). split_and!; [by apply (accepts_mono _ _ _ _ Hs Hcp)|by eapply tcp_accepts_mono|by eapply udp_accepts_mono|].
  destruct Hs as (_ & _ & _ & Hs & _). lia.
Qed.

(** Replacing the UDP printer by one that accepts no more than the others do. *)
Definition with_udp_laws (acc : netdissect_options -> Z -> Prop) (udp : Z -> Z -> Z -> Z -> pr unit)
  (Hmono : mono acc) (Hacc : forall s cp, acc s cp -> accepts s cp)
  (Hudp : forall cp len ip frag, well_behaved acc cp ip (udp cp len ip frag)) : @PrinterLaws (with_udp P udp).
Proof.
  exists acc; [exact Hmono|exact (@getname_clean P PL)|..]; cbn; intros;
    [by apply (@esp_law P PL); try apply Hacc|..];
    intros s0 Hok Hcp Ha; intros; try (by apply Hudp); apply Hacc in Ha;
    first [ by apply (@sctp_law P PL) | by apply (@dccp_law P PL) | by apply (@tcp_law P PL) | by apply (@icmp_law P PL)
    | by apply (@igrp_law P PL) | by apply (@eigrp_law P PL) | by apply (@egp_law P PL) | by apply (@ospf_law P PL)
    | by apply (@igmp_law P PL) | by apply (@ip6_law P PL) | by apply (@rsvp_law P PL) | by apply (@gre_law P PL)
    | by apply (@mobile_law P PL) | by apply (@pim_law P PL) | by apply (@carp_law P PL) | by apply (@vrrp_law P PL)
    | by apply (@pgm_law P PL) ].
Defined.

Lemma udp_print_ok cp len ip frag : well_behaved datagram_accepts cp ip (udp_print cp len ip frag).
Proof. intros s0 Hok Hcp (Ha & Ht & Hu & Hr) Hh. exact (safe_udp_print s0 Hok ip Hh Hu Ht Hr cp len frag Hcp Ha). Qed.

#[export] Instance udp_printers_laws : @PrinterLaws (udp_printers P) :=
  with_udp_laws datagram_accepts _ datagram_mono (fun s cp Ha => proj1 Ha) udp_print_ok.
End Laws.

(** ** Claims *)

(** The UDP printer with the DNS, vat, RTP and RTCP printers returns on any captured bytes,
    whatever lengths, counts and packet types they announce: it prints clean text and reads only
    the packet. *)
Theorem udp_print_safe `{PrinterLaws} `{PortNamesLaws} `{TcpLaws} `{UdpLaws} s bp n bp2 fragmented :
  ndo_ok s -> 0 <= bp -> datagram_accepts s bp -> ip_header s bp2 ->
  exists s', udp_print bp n bp2 fragmented s = (Done tt, s') /\ ndo_ext s s'.
Proof.
  intros Hok Hb (Ha & Ht & Hu & Hr) Hh.
  pose proof (safe_udp_print s Hok bp2 Hh Hu Ht Hr bp n fragmented Hb Ha s (ndo_ext_refl s Hok)) as Hs.
  destruct (udp_print bp n bp2 fragmented s) as [[[]|[]] s']; try (by destruct Hs). exists s'. by destruct Hs.
Qed.

(** Printers that show the name of their protocol. *)
#[export] Instance plain_udp_printers : UdpPrinters := {|
  wb_print _ _ := named "wb"; snmp_print _ _ := named "snmp"; tftp_print _ _ := named "tftp"; radius_print _ _ := named "radius";
  vxlan_print _ _ := named "vxlan"; lmp_print _ _ := named "lmp"; bootp_print _ _ := named "bootp"; rip_print _ _ := named "rip";
  ntp_print _ _ := named "ntp"; l2tp_print _ _ := named "l2tp"; nbt_udp137_print _ _ := named "nbt"; nbt_udp138_print _ _ := named "nbt";
  zephyr_print _ _ := named "zephyr"; ripng_print _ _ := named "ripng"; dhcp6_print _ _ := named "dhcp6"; ahcp_print _ _ := named "ahcp";
  babel_print _ _ := named "babel"; hncp_print _ _ := named "hncp"; cisco_autorp_print _ _ := named "autorp"; hsrp_print _ _ := named "hsrp";
  lwres_print _ _ := named "lwres"; lspping_print _ _ := named "lspping"; vqp_print _ _ := named "vqp"; sflow_print _ _ := named "sflow";
  lwapp_data_print _ _ := named "lwapp"; sip_print _ _ := named "sip"; syslog_print _ _ := named "syslog"; otv_print _ _ := named "otv";
  geneve_print _ _ := named "geneve"; lisp_print _ _ := named "lisp"; vxlan_gpe_print _ _ := named "vxlan"; llap_print _ _ := named "llap";
  cnfp_print _ := named "cnfp"; timed_print _ := named "timed"; krb_print _ := named "krb";
  aodv_print _ _ _ := named "aodv"; olsr_print _ _ _ := named "olsr"; lwapp_control_print _ _ _ := named "lwapp"; bfd_print _ _ _ := named "bfd";
  sunrpc_print _ _ _ := named "rpc"; nfsreply_print _ _ _ := named "nfs"; isakmp_print _ _ _ := named "isakmp";
  isakmp_rfc3948_print _ _ _ := named "isakmp"; rx_print _ _ _ _ _ := named "rx" |}.

#[export] Instance plain_udp_printers_laws : UdpLaws.
Proof.
  exists (fun _ => True); intros; [done|..|by apply safe_print|]; repeat (apply Forall_cons; split; [by apply safe_print|]); done.
Defined.

(** C28. A DNS datagram captured whole is printed with its addresses and ports, then, when the
    output is verbose, with the verdict on its checksum (right exactly when the one's complement
    sum with the pseudo header is all ones; the value proposed for a wrong one makes it so), and
    then as the DNS printer prints its message. *)
Theorem udp_dns_printed `{Printers} `{PortNames} `{TcpPrinters} `{UdpPrinters} pre post data src dst sport dport sum s bp2 :
  ndo_ok s -> 0 <= sport < 65536 -> 0 <= dport < 65536 -> 0 <= sum < 65536 ->
  sport = NAMESERVER_PORT \/ dport = NAMESERVER_PORT -> sport <> NFS_PORT /\ dport <> NFS_PORT ->
  ndo_packet s = pre ++ udp_bytes data sport dport sum ++ post ->
  let bp := Z.of_nat (length pre) in
  let n := Z.of_nat (length data) in
  bp + 8 + n <= ndo_snapend s -> n + 20 <= IN_CKSUM_MAX ->
  mem_read (ndo_packet s) bp2 1 = Some [0x45] -> mem_read (ndo_packet s) (bp2 + 9) 1 = Some [IPPROTO_UDP] ->
  mem_read (ndo_packet s) (bp2 + 12) 4 = Some src -> mem_read (ndo_packet s) (bp2 + 16) 4 = Some dst ->
  f_qflag (ndo_flags s) = 0 -> f_Kflag (ndo_flags s) = 0 -> f_packettype (ndo_flags s) = 0 ->
  exists right, udp_print bp (8 + n) bp2 0 s =
    domain_print (bp + 8) n false
      (at_out s "udp" (ndo_out s +:+ udp_addresses src dst sport dport +:+ udp_sum_text data src dst sport dport sum (f_vflag (ndo_flags s)) right)) /\
    udp_good data src dst sport dport right = true.
Proof.
  intros Hok Hsp Hdp Hsum Hdns Hnfs Hpkt bp n Hcap Hmax Hv Hp Hsrc Hdst Hqf Hkf Hpt. subst bp n.
  edestruct (run_udp_print_whole pre post data src dst sport dport sum) as (right & Hrun & Hg); try eassumption.
  exists right. split; [|exact Hg]. rewrite Hrun. unfold udp_payload. rewrite (proj2 (orb_true_iff _ _)) by (rewrite !Z.eqb_eq; exact Hdns).
  pose proof (at_out_ok s Hok "udp" (ndo_out s +:+ udp_addresses src dst sport dport +:+ udp_sum_text data src dst sport dport sum (f_vflag (ndo_flags s)) right) eq_refl) as Hok'.
  pose proof (safe_domain _ Hok' false (Z.of_nat (length pre) + 8) (Z.of_nat (length data)) false ltac:(lia) _ (ndo_ext_refl _ Hok')) as Hs. unfold on_trunc.
  match type of Hs with match ?m with _ => _ end => change (match m with (Stop Trunc, ndo') => nd_print_trunc ndo' | r => r end = m); destruct m as [[[]|[]] s'] end; done || by destruct Hs.
Qed.

(** The answer of [sample_dns] in a datagram with a wrong checksum. *)
Definition sample_udp_header : list Z := [0x45; 0; 0; 91; 0; 1; 0; 0; 64; 17; 0; 0; 10; 0; 0; 1; 10; 0; 0; 2].
Definition sample_udp : netdissect_options :=
  mk_ndo (sample_udp_header ++ udp_bytes sample_dns 53 40000 0x1234 ++ []) 4096 (mk_flags 2 0 1 0 0 0 0 0) 91 "" "".

Lemma sample_udp_ok : ndo_ok sample_udp /\ ip_header sample_udp 0.
Proof.
  split; [repeat split; vm_compute; congruence|]. apply (ip_header_v4 _ _ [0x45]); [unfold readable, sizeof_ip; vm_compute; repeat split; congruence|done..].
Qed.

Lemma udp_print_safe_witness :
  exists s', udp_print 20 71 0 0 sample_udp = (Done tt, s') /\ ndo_ext sample_udp s' /\ ndo_out s' =
    "10.0.0.1.53 > 10.0.0.2.40000: [bad udp cksum 0x1234 -> 0x6399!] 4660* q: A? www.example. 2/0/0 www.example. A 10.0.0.5, ftp.example. A [|domain]"%string.
Proof.
  destruct (udp_print_safe sample_udp 20 71 0 0) as (s' & Hrun & Hext).
  - apply sample_udp_ok.
  - lia.
  - repeat split. vm_compute. congruence.
  - apply sample_udp_ok.
  - exists s'. repeat (split; [assumption|]). replace s' with (snd (udp_print 20 71 0 0 sample_udp)) by (by rewrite Hrun). vm_compute. reflexivity.
Defined.

Lemma udp_dns_printed_witness :
  exists right, udp_print 20 71 0 0 sample_udp =
    domain_print 28 63 false (at_out sample_udp "udp" ("10.0.0.1.53 > 10.0.0.2.40000: [bad udp cksum 0x1234 -> 0x" +:+ hex_pad 4 right +:+ "!] ")).
Proof.
  destruct (udp_dns_printed sample_udp_header [] sample_dns [10; 0; 0; 1] [10; 0; 0; 2] 53 40000 0x1234 sample_udp 0) as (right & Hrun & _);
    [apply sample_udp_ok|lia|lia|lia|by left|done|done|by vm_compute|by vm_compute|done|done|done|done|done|done|done|].
  exists right. etransitivity; [exact Hrun|]. do 2 f_equal.
Defined.
