(* ===== verification/PrintIp6.v ===== *)
(** * The IPv6 printer of tcpdump

    Models [ip6_print] of [tcpdump/print-ip6.c] with the printers of the extension headers:
    [tcpdump/print-ip6opts.c], [tcpdump/print-frag6.c] and [tcpdump/print-rt6.c]. IPv4 and IPv6
    are printed inside each other, and inside the errors of ICMP; [ip_nested] closes that recursion
    and is an instance of the interface [Printers] of the IPv4 printer. *)
From stdpp Require Import base list numbers strings.
From Stdlib Require Import ZArith Lia Ascii.
From S2P Require Import Prelude Cstring InCksum Netdissect UtilPrint IpProto PrintIp PrintIcmp PrintDomain Ip6Cksum PrintTcp PrintUdp.

Open Scope Z_scope.

(** ** Constants *)

Definition IP6OPT_PAD1 : Z := 0x00.
Definition IP6OPT_PADN : Z := 0x01.
Definition IP6OPT_JUMBO : Z := 0xC2.
Definition IP6OPT_JUMBO_LEN : Z := 6.
Definition IP6OPT_ROUTER_ALERT : Z := 0x05.
Definition IP6OPT_RTALERT_LEN : Z := 4.
Definition IP6OPT_MINLEN : Z := 2.
Definition IP6OPT_HOME_ADDRESS : Z := 0xc9.
Definition IP6OPT_HOMEADDR_MINLEN : Z := 18.
Definition IP6F_OFF_MASK : Z := 0xfff8.
Definition sizeof_ip6_hbh : Z := 2.

(** ** What is printed elsewhere *)

Class Ip6Printers := {
  mobility_print : Z -> Z -> pr Z;
  icmp6_print : Z -> Z -> Z -> Z -> pr unit;
  ospf6_print : Z -> Z -> pr unit }.

(** ** Options *)

(** The length of the option at [i] of [len] bytes, with its type and length bytes when it
    fits; [None] is the jump to [trunc:]. *)
Definition option_len (bp i len : Z) : pr (option Z) :=
  t <~ EXTRACT_U_1 (bp + i) ;;
  n <~ (if t =? IP6OPT_PAD1 then pret (Some 1)
        else if i + 1 <? len then l <~ EXTRACT_U_1 (bp + i + 1) ;; pret (Some (l + 2)) else pret None) ;;
  pret (match n with Some optlen => if i + optlen >? len then None else Some optlen | None => None end).

(** The loops [for (i = 0; i < len; i += optlen)]; [one] prints an option and says whether
    to go on. An option has at least one byte. *)
Fixpoint options_walk (fuel : nat) (one : Z -> Z -> pr bool) (bp i len : Z) : pr bool :=
  match fuel with
  | O => pstop Fuel
  | S f =>
      if i <? len then
        o <~ option_len bp i len ;;
        match o with
        | None => pret false
        | Some optlen =>
            go <~ one i optlen ;;
            if (go : bool) then options_walk f one bp (i + optlen) len else pret false
        end
      else pret true
  end.

Definition one_sopt (bp len i optlen : Z) : pr bool :=
  t <~ EXTRACT_U_1 (bp + i) ;;
  if t =? IP6OPT_PAD1 then ND_PRINT ", pad1" ;~ pret true
  else if t =? IP6OPT_PADN then
    if len - i <? IP6OPT_MINLEN then ND_PRINT ", padn: trunc" ;~ pret false else ND_PRINT ", padn" ;~ pret true
  else if len - i <? IP6OPT_MINLEN then ND_PRINT (", sopt_type " +:+ dec t +:+ ": trunc)") ;~ pret false
  else l <~ EXTRACT_U_1 (bp + i + 1) ;; ND_PRINT (", sopt_type 0x" +:+ hex_pad 2 t +:+ ": len=" +:+ dec l) ;~ pret true.

Definition ip6_sopt_print (bp len : Z) : pr unit :=
  ok <~ options_walk (S (Z.to_nat len)) (one_sopt bp len) bp 0 len ;;
  if (ok : bool) then pret tt else ND_PRINT "[trunc] ".

Section PrintIp6.
Context `{Printers} `{PortNames} `{TcpPrinters} `{Ip6Printers}.

Definition one_opt (bp len i optlen : Z) : pr bool :=
  t <~ EXTRACT_U_1 (bp + i) ;;
  let room (name : string) (n : Z) (k : Z -> pr bool) : pr bool :=
    if len - i <? n then ND_PRINT ("(" +:+ name +:+ ": trunc)") ;~ pret false else l <~ EXTRACT_U_1 (bp + i + 1) ;; k l in
  let invalid (name : string) (l : Z) : pr bool := ND_PRINT ("(" +:+ name +:+ ": invalid len " +:+ dec l +:+ ")") ;~ pret false in
  if t =? IP6OPT_PAD1 then ND_PRINT "(pad1)" ;~ pret true
  else if t =? IP6OPT_PADN then
    if len - i <? IP6OPT_MINLEN then ND_PRINT "(padn: trunc)" ;~ pret false else ND_PRINT "(padn)" ;~ pret true
  else if t =? IP6OPT_ROUTER_ALERT then
    room "rtalert" IP6OPT_RTALERT_LEN (fun l =>
      if negb (l =? IP6OPT_RTALERT_LEN - 2) then invalid "rtalert" l
      else v <~ EXTRACT_BE_U_2 (bp + i + 2) ;; ND_PRINT ("(rtalert: 0x" +:+ hex_pad 4 v +:+ ") ") ;~ pret true)
  else if t =? IP6OPT_JUMBO then
    room "jumbo" IP6OPT_JUMBO_LEN (fun l =>
      if negb (l =? IP6OPT_JUMBO_LEN - 2) then invalid "jumbo" l
      else v <~ EXTRACT_BE_U_4 (bp + i + 2) ;; ND_PRINT ("(jumbo: " +:+ dec v +:+ ") ") ;~ pret true)
  else if t =? IP6OPT_HOME_ADDRESS then
    room "homeaddr" IP6OPT_HOMEADDR_MINLEN (fun l =>
      if l <? IP6OPT_HOMEADDR_MINLEN - 2 then invalid "homeaddr" l
      else
        a <~ ip6addr_string (bp + i + 2) ;;
        ND_PRINT ("(homeaddr: " +:+ a) ;~
        (if l >? IP6OPT_HOMEADDR_MINLEN - 2 then ip6_sopt_print (bp + i + IP6OPT_HOMEADDR_MINLEN) (optlen - IP6OPT_HOMEADDR_MINLEN) else pret tt) ;~
        ND_PRINT ")" ;~ pret true)
  else if len - i <? IP6OPT_MINLEN then ND_PRINT ("(type " +:+ dec t +:+ ": trunc)") ;~ pret false
  else l <~ EXTRACT_U_1 (bp + i + 1) ;; ND_PRINT ("(opt_type 0x" +:+ hex_pad 2 t +:+ ": len=" +:+ dec l +:+ ")") ;~ pret true.

Definition ip6_opt_print (bp len : Z) : pr unit :=
  if len =? 0 then pret tt
  else
    ok <~ options_walk (S (Z.to_nat len)) (one_opt bp len) bp 0 len ;;
    ND_PRINT (if (ok : bool) then " " else "[trunc] ").

(** [hbhopt_print] and [dstopt_print], which differ in the names. *)
Definition exthdr_print (protocol title : string) (bp : Z) : pr Z :=
  set_protocol protocol ;~
  on_trunc (
    ND_TCHECK_LEN (bp + 1) 1 ;~
    l <~ EXTRACT_U_1 (bp + 1) ;;
    let hlen := Z.shiftl (l + 1) 3 in
    ND_TCHECK_LEN bp hlen ;~
    ND_PRINT title ;~
    vflag <~ flag f_vflag ;;
    (if negb (vflag =? 0) then ip6_opt_print (bp + sizeof_ip6_hbh) (hlen - sizeof_ip6_hbh) else pret tt) ;~
    pret hlen)
  (nd_print_trunc ;~ pret (-1)).

Definition hbhopt_print (bp : Z) : pr Z := exthdr_print "hbhopt" "HBH " bp.
Definition dstopt_print (bp : Z) : pr Z := exthdr_print "dstopt" "DSTOPT " bp.

(** ** The fragment and routing headers *)

Definition frag6_print (bp bp2 : Z) : pr Z :=
  set_protocol "frag6" ;~
  on_trunc (
    ND_TCHECK_LEN bp sizeof_ip6_frag ;~
    vflag <~ flag f_vflag ;;
    ident <~ EXTRACT_BE_U_4 (bp + 4) ;;
    offlg <~ EXTRACT_BE_U_2 (bp + 2) ;;
    plen <~ EXTRACT_BE_U_2 (bp2 + 4) ;;
    let off := Z.land offlg IP6F_OFF_MASK in
    ND_PRINT ("frag (" +:+ (if negb (vflag =? 0) then "0x" +:+ hex_pad 8 ident +:+ ":" else "") +:+ dec off +:+ "|"
      +:+ dec (u32 (sizeof_ip6_hdr + plen - (bp - bp2) - sizeof_ip6_frag)) +:+ ")") ;~
    if negb (off =? 0) then pret (-1) else ND_PRINT " " ;~ pret sizeof_ip6_frag)
  (nd_print_trunc ;~ pret (-1)).

(** The addresses of a routing header. *)
Fixpoint segments (n : nat) (i p : Z) : pr unit :=
  match n with
  | O => pret tt
  | S n' =>
      ND_TCHECK_LEN p 16 ;~
      a <~ ip6addr_string p ;;
      ND_PRINT (", [" +:+ dec i +:+ "]" +:+ a) ;~
      segments n' (i + 1) (p + 16)
  end.

Definition rt6_tail (bp len p : Z) : pr Z :=
  if len mod 2 =? 1 then pstop Trunc
  else
    segments (Z.to_nat (Z.shiftr len 1)) 0 p ;~
    ND_PRINT ") " ;~
    l <~ EXTRACT_U_1 (bp + 1) ;;
    pret (Z.shiftl (l + 1) 3).

Definition rt6_print (bp : Z) : pr Z :=
  set_protocol "rt6" ;~
  on_trunc (
    ND_TCHECK_LEN (bp + 3) 1 ;~
    len <~ EXTRACT_U_1 (bp + 1) ;;
    ND_PRINT ("srcrt (len=" +:+ dec len) ;~
    type <~ EXTRACT_U_1 (bp + 2) ;;
    ND_PRINT (", type=" +:+ dec type) ;~
    left <~ EXTRACT_U_1 (bp + 3) ;;
    ND_PRINT (", segleft=" +:+ dec left) ;~
    vflag <~ flag f_vflag ;;
    if (type =? IPV6_RTHDR_TYPE_0) || (type =? IPV6_RTHDR_TYPE_2) then
      ND_TCHECK_LEN (bp + 4) 4 ;~
      rsv <~ EXTRACT_BE_U_4 (bp + 4) ;;
      (if negb (rsv =? 0) || negb (vflag =? 0) then ND_PRINT (", rsv=0x" +:+ hex rsv) else pret tt) ;~
      rt6_tail bp len (bp + 8)
    else if type =? IPV6_RTHDR_TYPE_4 then
      ND_TCHECK_LEN (bp + 4) 1 ;~
      last <~ EXTRACT_U_1 (bp + 4) ;;
      ND_PRINT (", last-entry=" +:+ dec last) ;~
      ND_TCHECK_LEN (bp + 5) 1 ;~
      flags <~ EXTRACT_U_1 (bp + 5) ;;
      (if negb (flags =? 0) || negb (vflag =? 0) then ND_PRINT (", flags=0x" +:+ hex flags) else pret tt) ;~
      ND_TCHECK_LEN (bp + 6) 2 ;~
      tag <~ EXTRACT_BE_U_2 (bp + 6) ;;
      ND_PRINT (", tag=" +:+ hex tag) ;~
      rt6_tail bp len (bp + 8)
    else pstop Trunc)
  (ND_PRINT "[|srcrt]" ;~ pret (-1)).

(** ** The datagram *)

Definition print_addrs6 (ip6 : Z) : pr unit :=
  s <~ ip6addr_string (ip6 + 8) ;;
  d <~ ip6addr_string (ip6 + 24) ;;
  ND_PRINT (s +:+ " > " +:+ d +:+ ": ").

(** The payloads that end the loop; [inner4] and [inner6] print datagrams in this one. *)
Definition ip6_payload (inner4 inner6 : Z -> Z -> pr unit) (ip6 cp len nh fragmented : Z) : pr unit :=
  if nh =? IPPROTO_SCTP then sctp_print cp ip6 len
  else if nh =? IPPROTO_DCCP then dccp_print cp ip6 len
  else if nh =? IPPROTO_TCP then PrintIp.tcp_print cp len ip6 fragmented
  else if nh =? IPPROTO_UDP then PrintIp.udp_print cp len ip6 fragmented
  else if nh =? IPPROTO_ICMPV6 then icmp6_print cp len ip6 fragmented
  else if nh =? IPPROTO_PIM then pim_print cp len ip6
  else if nh =? IPPROTO_OSPF then ospf6_print cp len
  else if nh =? IPPROTO_IPV6 then inner6 cp len
  else if nh =? IPPROTO_IPV4 then inner4 cp len
  else if nh =? IPPROTO_PGM then pgm_print cp len ip6
  else if nh =? IPPROTO_GRE then gre_print cp len
  else if nh =? IPPROTO_RSVP then rsvp_print cp len
  else if nh =? IPPROTO_EIGRP then eigrp_print cp len
  else if nh =? IPPROTO_NONE then ND_PRINT "no next header"
  else ND_PRINT ("ip-proto-" +:+ dec nh +:+ " " +:+ dec len).

(** [while (cp < ndo->ndo_snapend && advance > 0)]; every round passes captured bytes. *)
Fixpoint ip6_headers (fuel : nat) (inner4 inner6 : Z -> Z -> pr unit) (ip6 cp advance len nh fragmented : Z) : pr unit :=
  match fuel with
  | O => pstop Fuel
  | S f =>
      snapend <~ asks ndo_snapend ;;
      if (snapend <=? cp) || (advance <=? 0) then pret tt
      else if len <? advance then pstop Trunc
      else
        let cp := cp + advance in
        let len := len - advance in
        (if (cp =? ip6 + sizeof_ip6_hdr) && negb (nh =? IPPROTO_TCP) && negb (nh =? IPPROTO_UDP) && negb (nh =? IPPROTO_DCCP) && negb (nh =? IPPROTO_SCTP)
         then print_addrs6 ip6 else pret tt) ;~
        let next (advance len nh fragmented : Z) : pr unit := set_protocol "ip6" ;~ ip6_headers f inner4 inner6 ip6 cp advance len nh fragmented in
        let header (m : pr Z) : pr unit :=
          advance <~ m ;; if advance <? 0 then pret tt else nh <~ EXTRACT_U_1 cp ;; next advance len nh fragmented in
        if nh =? IPPROTO_HOPOPTS then header (hbhopt_print cp)
        else if nh =? IPPROTO_DSTOPTS then header (dstopt_print cp)
        else if nh =? IPPROTO_FRAGMENT then
          advance <~ frag6_print cp ip6 ;;
          snapend <~ asks ndo_snapend ;;
          if (advance <? 0) || (snapend <=? cp + advance) then pret tt else nh <~ EXTRACT_U_1 cp ;; next advance len nh 1
        else if (nh =? IPPROTO_MOBILITY_OLD) || (nh =? IPPROTO_MOBILITY) then
          advance <~ mobility_print cp ip6 ;; if advance <? 0 then pret tt else EXTRACT_U_1 cp ;~ pret tt
        else if nh =? IPPROTO_ROUTING then ND_TCHECK_LEN cp 1 ;~ header (rt6_print cp)
        else if nh =? IPPROTO_AH then header (ah_print cp)
        else if nh =? IPPROTO_ESP then
          r <~ esp_print cp len ip6 ;;
          let '(advance, enh, padlen) := r in
          if advance <? 0 then pret tt else next advance (u32 (len - padlen)) (Z.land enh 0xff) fragmented
        else if nh =? IPPROTO_IPCOMP then ipcomp_print cp ;~ set_protocol "ip6"
        else ip6_payload inner4 inner6 ip6 cp len nh fragmented
  end.

(** The fields of the header, [if (ndo->ndo_vflag)]. *)
Definition print_header6 (ip6 nh payload_len : Z) : pr unit :=
  flow <~ EXTRACT_BE_U_4 ip6 ;;
  ND_PRINT "(" ;~
  (if negb (Z.land flow 0x0ff00000 =? 0) then ND_PRINT ("class 0x" +:+ hex_pad 2 (Z.shiftr (Z.land flow 0x0ff00000) 20) +:+ ", ") else pret tt) ;~
  (if negb (Z.land flow 0x000fffff =? 0) then ND_PRINT ("flowlabel 0x" +:+ hex_pad 5 (Z.land flow 0x000fffff) +:+ ", ") else pret tt) ;~
  hlim <~ EXTRACT_U_1 (ip6 + 7) ;;
  ND_PRINT ("hlim " +:+ dec hlim +:+ ", next-header " +:+ tok2str ipproto_values (Some (fun _ => "unknown"%string)) nh +:+ " (" +:+ dec nh
    +:+ ") payload length: " +:+ dec payload_len +:+ ") ").

Definition ip6_print_body (inner4 inner6 : Z -> Z -> pr unit) (fuel : nat) (bp length : Z) : pr unit :=
  set_protocol "ip6" ;~
  on_trunc (
    ND_TCHECK_LEN bp sizeof_ip6_hdr ;~
    if length <? sizeof_ip6_hdr then ND_PRINT ("truncated-ip6 " +:+ dec length)
    else
      eflag <~ flag f_eflag ;;
      (if eflag =? 0 then ND_PRINT "IP6 " else pret tt) ;~
      version <~ IP_V bp ;;
      if negb (version =? 6) then ND_PRINT ("version error: " +:+ dec version +:+ " != 6")
      else
        payload_len <~ EXTRACT_BE_U_2 (bp + 4) ;;
        let len := payload_len + sizeof_ip6_hdr in
        (if length <? len then ND_PRINT ("truncated-ip6 - " +:+ dec (len - length) +:+ " bytes missing!") else pret tt) ;~
        nh <~ EXTRACT_U_1 (bp + 6) ;;
        vflag <~ flag f_vflag ;;
        (if negb (vflag =? 0) then print_header6 bp nh payload_len else pret tt) ;~
        cut_snapend (bp + len) ;~
        ip6_headers fuel inner4 inner6 bp bp sizeof_ip6_hdr len nh 0)
  nd_print_trunc.
End PrintIp6.

(** ** The recursion *)

Definition with_ip6 (P : Printers) (ip6 : Z -> Z -> pr unit) : Printers := {|
  getname := @getname P; esp_print := @esp_print P; sctp_print := @sctp_print P; dccp_print := @dccp_print P;
  PrintIp.tcp_print := @PrintIp.tcp_print P; PrintIp.udp_print := @PrintIp.udp_print P; icmp_print := @icmp_print P; igrp_print := @igrp_print P;
  eigrp_print := @eigrp_print P; egp_print := @egp_print P; ospf_print := @ospf_print P; igmp_print := @igmp_print P;
  ip6_print := ip6; rsvp_print := @rsvp_print P; gre_print := @gre_print P; mobile_print := @mobile_print P;
  pim_print := @pim_print P; carp_print := @carp_print P; vrrp_print := @vrrp_print P; pgm_print := @pgm_print P |}.

Section Knot.
Context (P : Printers) `{PortNames} `{TcpPrinters} `{Ip6Printers} (GUESS_TSO : bool).

(** Datagrams inside at most [fuel] others, or returned by errors inside them. *)
Fixpoint ip_nested (fuel : nat) : Printers :=
  match fuel with
  | O => P
  | S f =>
      let Q := ip_nested f in
      with_ip6 (with_icmp P (@icmp_message P _ (@ip_print Q GUESS_TSO)))
        (fun bp length => with_fuel (fun fuel => @ip6_print_body P _ _ (@ip_print Q GUESS_TSO) (@ip6_print Q) fuel bp length))
  end.

(** The depth [N] is given, chosen from the packet when a printer starts. *)
Definition at_depth (N : nat -> Printers) : Printers :=
  with_ip6 (with_icmp P (fun bp plen bp2 fragmented ndo => @icmp_print (N (S (length (ndo_packet ndo)))) bp plen bp2 fragmented ndo))
    (fun bp len ndo => @ip6_print (N (S (length (ndo_packet ndo)))) bp len ndo).

(** A datagram inside another starts further on, so the bytes of the packet bound the depth. *)
Definition ip_printers : Printers := at_depth ip_nested.
End Knot.

(** ** The rule the other printers follow *)

Class Ip6Laws `{PrinterLaws} `{Ip6Printers} := {
  mobility_law cp ip s0 : ndo_ok s0 -> 0 <= cp -> accepts s0 cp -> ip_header s0 ip ->
    safe false s0 (mobility_print cp ip) (fun r => 0 <= r -> cp + 1 <= ndo_snapend s0);
  icmp6_law cp len ip frag : well_behaved accepts cp ip (icmp6_print cp len ip frag);
  ospf6_law cp len : well_behaved0 accepts cp (ospf6_print cp len) }.

(** ** Safety *)

Section Safety.
Context (s0 : netdissect_options) (Hok : ndo_ok s0).

Lemma safe_byte T p : readable s0 p 1 -> safe T s0 (EXTRACT_U_1 p) (fun c => 0 <= c < 256 /\ mem_read (ndo_packet s0) p 1 = Some [c]).
Proof. intros Hr. by apply safe_allow_trunc, safe_u1_at. Qed.

(** The bytes an option takes, by its type and length bytes. *)
Definition option_size (bp i n : Z) : Prop :=
  mem_read (ndo_packet s0) (bp + i) 1 = Some [IP6OPT_PAD1] /\ n = 1 \/
  exists l, 0 <= l /\ mem_read (ndo_packet s0) (bp + i + 1) 1 = Some [l] /\ n = l + 2.

Lemma option_size_pos bp i n : option_size bp i n -> 1 <= n.
Proof. intros [[_ ->]|(l & Hl & _ & ->)]; lia. Qed.

Lemma safe_option_len T bp i len : readable s0 bp len -> 0 <= i < len ->
  safe T s0 (option_len bp i len) (fun o => match o with Some n => option_size bp i n /\ i + n <= len | None => True end).
Proof.
  intros Hr Hi. unfold option_len. eapply safe_bind; [apply safe_byte; readable_tac|]. intros t [Ht Hm].
  eapply (safe_bind _ _ _ _ (fun o => match o with Some n => option_size bp i n | None => True end)).
  { destruct (Z.eqb_spec t IP6OPT_PAD1) as [->|_]; [apply safe_ret; by left|]. safe_step; [|by apply safe_ret].
    eapply safe_bind; [apply safe_byte; readable_tac|]. intros l [Hl Hml]. apply safe_ret. right. exists l. split_and!; [lia|done..]. }
  intros [n|] Hn; apply safe_ret; [|done]. destruct (Z.gtb_spec (i + n) len); [done|by split].
Qed.

Lemma safe_options_walk T one bp len :
  readable s0 bp len -> (forall i n, 0 <= i -> option_size bp i n -> i + n <= len -> safe T s0 (one i n) (fun _ => True)) ->
  forall fuel i, 0 <= i -> len - i < Z.of_nat fuel -> 0 < Z.of_nat fuel -> safe T s0 (options_walk fuel one bp i len) (fun _ => True).
Proof.
  intros Hr Hone fuel. induction fuel as [|f IH]; intros i Hi Hf Hp; [lia|]. cbn [options_walk]. safe_step; [|by apply safe_ret].
  eapply safe_bind; [apply safe_option_len; [done|lia]|]. intros [n|] Hn; [|by apply safe_ret]. destruct Hn as [Hs Hn].
  pose proof (option_size_pos _ _ _ Hs). eapply safe_bind; [by apply Hone|]. intros [] _; [apply IH; lia|by apply safe_ret].
Qed.

Lemma safe_one_sopt T bp len i n : readable s0 bp len -> 0 <= i -> option_size bp i n -> i + n <= len -> safe T s0 (one_sopt bp len i n) (fun _ => True).
Proof.
  intros Hr Hi Hn%option_size_pos Hl. unfold one_sopt, IP6OPT_MINLEN. safe_step. safe_step; [safe_step; by safe_step|].
  safe_step; [safe_step; (safe_step; by safe_step)|]. safe_step; [safe_step; by safe_step|]. do 2 safe_step. by safe_step.
Qed.

Lemma safe_sopt T bp len : readable s0 bp len -> safe T s0 (ip6_sopt_print bp len) (fun _ => True).
Proof.
  intros Hr. pose proof Hr as (_ & Hl & _). unfold ip6_sopt_print. eapply safe_bind.
  - apply safe_options_walk; [done| |lia..]. intros. by apply safe_one_sopt.
  - intros [] _; [by safe_step|by apply safe_print].
Qed.

Context `{TcpLaws}.

Lemma safe_ip6addr T p : readable s0 p 16 -> safe T s0 (ip6addr_string p) (fun a => clean a = true).
Proof. intros Hr. unfold ip6addr_string. safe_step. apply safe_ret, getname6_clean. Qed.

Lemma safe_one_opt T bp len i n : readable s0 bp len -> 0 <= i -> option_size bp i n -> i + n <= len -> safe T s0 (one_opt bp len i n) (fun _ => True).
Proof.
  intros Hr Hi Hsz Hl. pose proof (option_size_pos _ _ _ Hsz) as Hn. unfold one_opt, IP6OPT_MINLEN, IP6OPT_RTALERT_LEN, IP6OPT_JUMBO_LEN, IP6OPT_HOMEADDR_MINLEN. cbv zeta.
  eapply safe_bind; [apply safe_byte; readable_tac|]. intros t [Ht Hmt].
  assert (Hroom : forall name k (f : Z -> pr bool), clean name = true -> 2 <= k ->
    (forall l, k <= len - i -> mem_read (ndo_packet s0) (bp + i + 1) 1 = Some [l] -> safe T s0 (f l) (fun _ => True)) ->
    safe T s0 (if len - i <? k then ND_PRINT ("(" +:+ name +:+ ": trunc)") ;~ pret false else l <~ EXTRACT_U_1 (bp + i + 1) ;; f l) (fun _ => True)).
  { intros name k f Hname Hk Hf. safe_step; [safe_step; by safe_step|]. eapply safe_bind; [apply safe_byte; readable_tac|]. intros l [_ Hm]. by apply Hf. }
  assert (Hinv : forall name l, clean name = true -> safe T s0 (ND_PRINT ("(" +:+ name +:+ ": invalid len " +:+ dec l +:+ ")") ;~ pret false) (fun _ => True))
    by (intros name l Hname; safe_step; by safe_step).
  destruct (Z.eqb_spec t IP6OPT_PAD1) as [|Hpad]; [safe_step; by safe_step|]. safe_step; [safe_step; (safe_step; by safe_step)|].
  safe_step; [apply Hroom; [done|lia|]; intros l Hk Hl'; destruct (negb _); [by apply Hinv|]; do 2 safe_step; by safe_step|].
  safe_step; [apply Hroom; [done|lia|]; intros l Hk Hl'; destruct (negb _); [by apply Hinv|]; do 2 safe_step; by safe_step|].
  safe_step; [|safe_step; [safe_step; by safe_step|]; do 2 safe_step; by safe_step].
  apply Hroom; [done|lia|]. intros l Hk Hml. safe_step; [by apply Hinv|]. eapply safe_bind; [apply safe_ip6addr; readable_tac|]. intros a Ha. safe_step.
  eapply (safe_bind _ _ _ _ (fun _ => True)); [|intros _ _; safe_step; by safe_step]. destruct (Z.gtb_spec l (18 - 2)); [|by apply safe_ret].
  destruct Hsz as [[Hm _]|(l' & _ & Hm & ->)]; simplify_eq. apply safe_sopt. readable_tac.
Qed.

Lemma safe_opt6 T bp len : readable s0 bp len -> safe T s0 (ip6_opt_print bp len) (fun _ => True).
Proof.
  intros Hr. pose proof Hr as (_ & Hl & _). unfold ip6_opt_print. safe_step; [by apply safe_ret|]. eapply safe_bind.
  - apply safe_options_walk; [done| |lia..]. intros. by apply safe_one_opt.
  - intros [] _; by apply safe_print.
Qed.

Lemma safe_exthdr protocol title bp : 0 <= bp -> clean protocol = true -> clean title = true ->
  safe false s0 (exthdr_print protocol title bp) (fun r => 0 <= r -> bp + 1 <= ndo_snapend s0).
Proof.
  intros Hb Hp Ht. unfold exthdr_print, sizeof_ip6_hbh. safe_step. apply safe_on_trunc; [|safe_step; apply safe_ret; lia].
  do 2 safe_step. cbv zeta. rewrite Z.shiftl_mul_pow2 by lia. do 3 safe_step.
  eapply (safe_bind _ _ _ _ (fun _ => True)); [safe_step; [apply safe_opt6; readable_tac|by apply safe_ret]|]. intros _ _. apply safe_ret. lia.
Qed.

Lemma safe_hbhopt bp : 0 <= bp -> safe false s0 (hbhopt_print bp) (fun r => 0 <= r -> bp + 1 <= ndo_snapend s0).
Proof. intros Hb. unfold hbhopt_print. eapply safe_exthdr; [exact Hb|reflexivity..]. Qed.

Lemma safe_dstopt bp : 0 <= bp -> safe false s0 (dstopt_print bp) (fun r => 0 <= r -> bp + 1 <= ndo_snapend s0).
Proof. intros Hb. unfold dstopt_print. eapply safe_exthdr; [exact Hb|reflexivity..]. Qed.

Lemma safe_frag6 bp bp2 : 0 <= bp -> readable s0 bp2 sizeof_ip6_hdr -> safe false s0 (frag6_print bp bp2) (fun r => 0 <= r -> bp + 1 <= ndo_snapend s0).
Proof.
  unfold sizeof_ip6_hdr. intros Hb Hr. unfold frag6_print, sizeof_ip6_frag. safe_step. apply safe_on_trunc; [|safe_step; apply safe_ret; lia].
  do 5 safe_step. cbv zeta. eapply safe_bind; [apply safe_print; clean_tac|]. intros _ _.
  safe_step; [apply safe_ret; lia|]. safe_step. apply safe_ret. lia.
Qed.

Lemma safe_segments n : forall i p, 0 <= p -> safe true s0 (segments n i p) (fun _ => True).
Proof.
  induction n as [|n IH]; intros i p Hp; cbn [segments]; [by apply safe_ret|]. safe_step.
  eapply safe_bind; [apply safe_ip6addr; readable_tac|]. intros t Ht. safe_step. apply IH. lia.
Qed.

Lemma safe_rt6_tail bp len p : 0 <= bp -> 0 <= p -> bp + 4 <= ndo_snapend s0 -> safe true s0 (rt6_tail bp len p) (fun r => 0 <= r -> bp + 1 <= ndo_snapend s0).
Proof.
  intros Hb Hp Hcap. unfold rt6_tail. safe_step; [by safe_step|]. eapply safe_bind; [by apply safe_segments|]. intros _ _. do 2 safe_step. apply safe_ret. lia.
Qed.

Lemma safe_rt6 bp : 0 <= bp -> safe false s0 (rt6_print bp) (fun r => 0 <= r -> bp + 1 <= ndo_snapend s0).
Proof.
  intros Hb. unfold rt6_print. safe_step. apply safe_on_trunc; [|safe_step; apply safe_ret; lia].
  do 8 safe_step. safe_step.
  - do 2 safe_step. eapply safe_bind; [apply safe_opt; clean_tac|]. intros _ _. apply safe_rt6_tail; lia.
  - safe_step; [|by safe_step]. do 5 safe_step. eapply safe_bind; [apply safe_opt; clean_tac|]. intros _ _. do 3 safe_step. apply safe_rt6_tail; lia.
Qed.

Lemma safe_print_addrs6 T ip6 : readable s0 ip6 sizeof_ip6_hdr -> safe T s0 (print_addrs6 ip6) (fun _ => True).
Proof.
  unfold sizeof_ip6_hdr. intros Hr. unfold print_addrs6. eapply safe_bind; [apply safe_ip6addr; readable_tac|]. intros s Hs.
  eapply safe_bind; [apply safe_ip6addr; readable_tac|]. intros d Hd. apply safe_print. clean_tac.
Qed.

Context `{Ip6Laws}.

Lemma safe_payload6 inner4 inner6 ip6 cp len nh frag :
  0 <= cp -> accepts s0 cp -> ip_header s0 ip6 -> safe false s0 (inner4 cp len) (fun _ => True) -> safe false s0 (inner6 cp len) (fun _ => True) ->
  safe false s0 (ip6_payload inner4 inner6 ip6 cp len nh frag) (fun _ => True).
Proof.
  intros Hc Ha Hh Hi4 Hi6. unfold ip6_payload. repeat match goal with |- safe _ _ (if ?b then _ else _) _ => destruct b end;
    first [ done | by apply sctp_law | by apply dccp_law | by apply tcp_law | by apply udp_law | by apply icmp6_law | by apply pim_law | by apply ospf6_law
          | by apply pgm_law | by apply gre_law | by apply rsvp_law | by apply eigrp_law | by apply safe_print | apply safe_print; clean_tac ].
Qed.

(** Datagrams inside this one start behind its first byte. *)
Definition inner_ok (ip6 : Z) (inner : Z -> Z -> pr unit) : Prop :=
  forall cp len, ip6 < cp -> 0 <= len -> accepts s0 cp -> safe false s0 (inner cp len) (fun _ => True).

Lemma safe_headers6 inner4 inner6 ip6 : inner_ok ip6 inner4 -> inner_ok ip6 inner6 -> ip_header s0 ip6 -> readable s0 ip6 sizeof_ip6_hdr ->
  forall fuel cp adv len nh frag, 0 <= ip6 <= cp -> accepts s0 cp -> 0 < Z.of_nat fuel -> ndo_snapend s0 - cp < Z.of_nat fuel ->
  safe true s0 (ip6_headers fuel inner4 inner6 ip6 cp adv len nh frag) (fun _ => True).
Proof.
  intros Hi4 Hi6 Hh Hr fuel. induction fuel as [|f IH]; intros cp adv len nh frag Hcp Ha Hf Hm; [lia|]. cbn [ip6_headers]. cbv zeta.
  safe_step. destruct (_ || _) eqn:E; [by apply safe_ret|]. bool_to_prop. safe_step; [by safe_step|].
  pose proof (accepts_mono _ _ _ _ (ndo_ext_refl s0 Hok) (ltac:(lia) : cp <= cp + adv) Ha) as Ha'.
  eapply (safe_bind _ _ _ _ (fun _ => True)); [destruct (_ && _); [by apply safe_print_addrs6|by apply safe_ret]|]. intros _ _.
  assert (Hnext : forall adv' len' nh' frag', safe true s0 (set_protocol "ip6" ;~ ip6_headers f inner4 inner6 ip6 (cp + adv) adv' len' nh' frag') (fun _ => True))
    by (intros; safe_step; apply IH; try assumption; lia).
  assert (Hheader : forall m, safe false s0 m (fun r => 0 <= r -> cp + adv + 1 <= ndo_snapend s0) ->
    safe true s0 (adv' <~ m ;; if adv' <? 0 then pret tt else nh' <~ EXTRACT_U_1 (cp + adv) ;;
      set_protocol "ip6" ;~ ip6_headers f inner4 inner6 ip6 (cp + adv) adv' (len - adv) nh' frag) (fun _ => True)).
  { intros m Hs. eapply safe_bind; [by apply safe_allow_trunc|]. intros r Hpost. safe_step; [by apply safe_ret|]. specialize (Hpost ltac:(lia)). safe_step. apply Hnext. }
  destruct (nh =? IPPROTO_HOPOPTS); [apply Hheader, safe_hbhopt; lia|].
  destruct (nh =? IPPROTO_DSTOPTS); [apply Hheader, safe_dstopt; lia|]. destruct (nh =? IPPROTO_FRAGMENT).
  { eapply safe_bind; [apply safe_allow_trunc, safe_frag6; done || lia|]. intros r Hpost. safe_step. destruct (_ || _) eqn:E2; [by apply safe_ret|].
    bool_to_prop. specialize (Hpost ltac:(lia)). safe_step. apply Hnext. }
  destruct (_ || _).
  { eapply safe_bind; [apply safe_allow_trunc, mobility_law; done || lia|]. intros r Hpost. safe_step; [by apply safe_ret|].
    specialize (Hpost ltac:(lia)). safe_step. by apply safe_ret. }
  safe_step; [safe_step; apply Hheader, safe_rt6; lia|]. safe_step; [apply Hheader, safe_ah_print; done || lia|].
  safe_step.
  { eapply safe_bind; [apply safe_allow_trunc, esp_law; try done; [lia|apply Hh]|]. intros [[r enh] padlen] _. safe_step; [by apply safe_ret|]. apply Hnext. }
  safe_step; [eapply safe_bind; [apply safe_allow_trunc, safe_ipcomp_print; done || lia|]; intros _ _; by apply safe_protocol|].
  apply safe_allow_trunc, safe_payload6; try done; [lia|apply Hi4|apply Hi6]; done || lia.
Qed.

Lemma safe_print_header6 T ip6 nh plen : readable s0 ip6 sizeof_ip6_hdr -> safe T s0 (print_header6 ip6 nh plen) (fun _ => True).
Proof.
  unfold sizeof_ip6_hdr. intros Hr. unfold print_header6. do 2 safe_step.
  assert (Hclean : forall w m k, 0 <= m -> clean (hex_pad w (Z.shiftr (Z.land a m) k)) = true)
    by (intros; apply clean_hex_pad, Z.shiftr_nonneg, Z.land_nonneg; by right).
  eapply safe_bind; [apply safe_opt; clean_tac; by apply Hclean|intros _ _].
  eapply safe_bind; [apply safe_opt; clean_tac; by apply (Hclean 5%nat _ 0)|intros _ _].
  safe_step. apply safe_print. repeat apply clean_app2; try done; try apply clean_dec. by apply clean_tok2str; [apply clean_ipproto_values|].
Qed.

Lemma safe_ip6_print_body inner4 inner6 fuel bp length :
  (bp + sizeof_ip6_hdr <= ndo_snapend s0 -> inner_ok bp inner4 /\ inner_ok bp inner6) -> 0 <= bp -> accepts s0 bp -> ndo_snapend s0 < Z.of_nat fuel ->
  safe false s0 (ip6_print_body inner4 inner6 fuel bp length) (fun _ => True).
Proof.
  intros Hin Hb Ha Hf. unfold ip6_print_body, sizeof_ip6_hdr in *. safe_step. apply safe_on_trunc; [|apply safe_print_trunc]. safe_step.
  destruct Hin as [Hi4 Hi6]; [lia|]. assert (Hr : readable s0 bp 40) by readable_tac.
  safe_step; [apply safe_print; clean_tac|]. safe_step. eapply safe_bind; [by apply safe_opt|]. intros _ _.
  eapply safe_bind; [apply safe_IP_V; [done|readable_tac]|]. intros v (l & Hl & ->). safe_step; [apply safe_print; clean_tac|].
  safe_step. cbv zeta. eapply safe_bind; [apply safe_opt; clean_tac|]. intros _ _. do 2 safe_step.
  eapply (safe_bind _ _ _ _ (fun _ => True)); [safe_step; [by apply safe_print_header6|by apply safe_ret]|]. intros _ _. safe_step.
  apply safe_headers6; try done; try lia. split; [unfold sizeof_ip; readable_tac|]. by intros.
Qed.
End Safety.

(** ** The laws of the closed recursion *)

Section Laws.
Context {P : Printers} {PL : PrinterLaws} `{PortNamesLaws} `{TcpLaws} `{!Ip6Printers} `{!Ip6Laws} (GUESS_TSO : bool).

(** Replacing the IPv6 printer by one that accepts no more than the others do. *)
Definition with_ip6_laws {Q : Printers} {QL : @PrinterLaws Q} (acc : netdissect_options -> Z -> Prop) (ip6 : Z -> Z -> pr unit)
  (Hmono : mono acc) (Hacc : forall s cp, acc s cp -> accepts s cp)
  (Hip6 : forall cp len, well_behaved0 acc cp (ip6 cp len)) : @PrinterLaws (with_ip6 Q ip6).
Proof.
  exists acc; [exact Hmono|exact (@getname_clean Q QL)|..]; cbn; intros;
    [by apply (@esp_law Q QL); try apply Hacc|..];
    intros s0 Hok Hcp Ha; intros; try (by apply Hip6); apply Hacc in Ha;
    first [ by apply (@sctp_law Q QL) | by apply (@dccp_law Q QL) | by apply (@tcp_law Q QL) | by apply (@udp_law Q QL) | by apply (@icmp_law Q QL)
    | by apply (@igrp_law Q QL) | by apply (@eigrp_law Q QL) | by apply (@egp_law Q QL) | by apply (@ospf_law Q QL)
    | by apply (@igmp_law Q QL) | by apply (@rsvp_law Q QL) | by apply (@gre_law Q QL)
    | by apply (@mobile_law Q QL) | by apply (@pim_law Q QL) | by apply (@carp_law Q QL) | by apply (@vrrp_law Q QL)
    | by apply (@pgm_law Q QL) ].
Defined.

(** The printers with an ICMP and an IPv6 printer of their own. *)
Definition with_both_laws (acc : netdissect_options -> Z -> Prop) icmp ip6 (Hmono : mono acc) (Hacc : forall s cp, acc s cp -> accepts s cp)
  (Hicmp : forall cp len ip frag, well_behaved acc cp ip (icmp cp len ip frag)) (Hip6 : forall cp len, well_behaved0 acc cp (ip6 cp len)) :
  @PrinterLaws (with_ip6 (with_icmp P icmp) ip6) :=
  @with_ip6_laws (with_icmp P icmp) (with_icmp_laws acc icmp Hmono Hacc Hicmp) acc ip6 Hmono (fun s cp Ha => Ha) Hip6.

Definition nested_ok (f : nat) : Prop :=
  (forall cp len ip frag, well_behaved (nested_accepts (S f)) cp ip (@icmp_print (ip_nested P GUESS_TSO (S f)) cp len ip frag)) /\
  (forall cp len, well_behaved0 (nested_accepts (S f)) cp (@ip6_print (ip_nested P GUESS_TSO (S f)) cp len)).

(** What is inside a datagram, one level down. *)
Lemma nested_inner f s cp len : nested_ok f -> ndo_ok s -> 0 <= cp -> 0 <= len -> nested_accepts (S f) s cp ->
  safe false s (@ip_print (ip_nested P GUESS_TSO (S f)) GUESS_TSO cp len) (fun _ => True) /\
  safe false s (@ip6_print (ip_nested P GUESS_TSO (S f)) cp len) (fun _ => True).
Proof.
  intros [Hic Hi6] Hok Hcp Hl Ha. split; [|by apply Hi6].
  by apply (@safe_ip_print _ (with_both_laws (nested_accepts (S f)) _ _ (nested_mono (S f)) (fun s cp H => proj1 H) Hic Hi6)).
Qed.

Lemma nested_step f : match f with O => True | S f' => nested_ok f' end -> nested_ok f.
Proof.
  intros IH.
  assert (Hin : forall s bp cp len, ndo_ok s -> nested_accepts (S f) s bp -> 0 <= bp < cp -> bp < ndo_snapend s -> 0 <= len ->
    safe false s (@ip_print (ip_nested P GUESS_TSO f) GUESS_TSO cp len) (fun _ => True) /\
    safe false s (@ip6_print (ip_nested P GUESS_TSO f) cp len) (fun _ => True)).
  { intros s bp cp len Hok (Ha & Hr & Hf) Hcp Hsn Hl. pose proof Hr as [_ Hs]. destruct f as [|f]; [lia|]. apply nested_inner; try done; [lia|].
    split_and!; [|done|lia]. apply (accepts_mono s s bp); [by apply ndo_ext_refl|lia|done]. }
  split.
  - intros cp len ip frag s0 Hok Hcp Ha Hh. cbn. apply safe_icmp_message; try done; [apply Ha|]. intros Hsn k Hk. by apply (Hin s0 cp); [| |lia..|].
  - intros cp len s0 Hok Hcp Ha. cbn. apply safe_with_fuel; [done|]. intros s fuel Hoks Hs Hf.
    pose proof (nested_mono (S f) _ _ _ _ Hs (Z.le_refl cp) Ha) as Ha'. eapply safe_ip6_print_body; try done; [|apply Ha'|lia].
    unfold sizeof_ip6_hdr. intros Hsn. split; intros cp' len' Hc' Hl' _; apply (Hin s cp); done || lia.
Qed.

Lemma ip_nested_ok f : nested_ok f.
Proof. induction f as [|f IH]; apply nested_step; [done|exact IH]. Qed.

(** The packet does not change while it is printed, so the depth is that of the start. *)
Lemma safe_at_depth N s0 :
  let n := S (length (ndo_packet s0)) in
  (forall cp len ip frag, safe false s0 (@icmp_print (N n) cp len ip frag) (fun _ => True) ->
    safe false s0 (@icmp_print (at_depth P N) cp len ip frag) (fun _ => True)) /\
  (forall cp len, safe false s0 (@ip6_print (N n) cp len) (fun _ => True) -> safe false s0 (@ip6_print (at_depth P N) cp len) (fun _ => True)).
Proof. split; intros cp len; intros; intros s Hs; pose proof Hs as (Hp & _); cbn [icmp_print ip6_print at_depth with_ip6 with_icmp]; rewrite Hp; match goal with H : safe _ _ _ _ |- _ => by apply H end. Qed.

Lemma at_depth_accepts s0 cp : accepts s0 cp -> icmp_room s0 -> 0 <= cp -> nested_accepts (S (length (ndo_packet s0))) s0 cp.
Proof. intros. split_and!; try done. lia. Qed.

Lemma ip_printers_icmp_ok cp len ip frag : well_behaved icmp_accepts cp ip (@icmp_print (at_depth P (ip_nested P GUESS_TSO)) cp len ip frag).
Proof.
  intros s0 Hok Hcp [Ha Hroom] Hr. apply (proj1 (safe_at_depth (ip_nested P GUESS_TSO) s0)).
  apply (proj1 (ip_nested_ok (length (ndo_packet s0)))); [done..| |done]. by apply at_depth_accepts.
Qed.

Lemma ip_printers_ip6_ok cp len : well_behaved0 icmp_accepts cp (@ip6_print (at_depth P (ip_nested P GUESS_TSO)) cp len).
Proof.
  intros s0 Hok Hcp [Ha Hroom]. apply (proj2 (safe_at_depth (ip_nested P GUESS_TSO) s0)).
  apply (proj2 (ip_nested_ok (length (ndo_packet s0)))); [done..|]. by apply at_depth_accepts.
Qed.

Definition at_depth_laws (N : nat -> Printers)
  (Hicmp : forall cp len ip frag, well_behaved icmp_accepts cp ip (@icmp_print (at_depth P N) cp len ip frag))
  (Hip6 : forall cp len, well_behaved0 icmp_accepts cp (@ip6_print (at_depth P N) cp len)) : @PrinterLaws (at_depth P N) :=
  with_both_laws icmp_accepts _ _ icmp_accepts_mono (fun s cp Ha => proj1 Ha) Hicmp Hip6.

#[export] Instance ip_printers_laws : @PrinterLaws (ip_printers P GUESS_TSO) :=
  at_depth_laws (ip_nested P GUESS_TSO) ip_printers_icmp_ok ip_printers_ip6_ok.
End Laws.

(** ** Theorem *)

(** A datagram with an ICMP message of two bytes, at the end of the memory. *)
Definition short_icmp : netdissect_options :=
  mk_ndo [0x45; 0; 0; 22; 0; 1; 0; 0; 64; 1; 0; 0; 10; 0; 0; 1; 10; 0; 0; 2; 10; 0] 4096 (mk_flags 1 0 1 0 0 0 0 0) 22 "" "".

(** C39. The IPv4, IPv6 and ICMP printers together, datagrams inside datagrams and inside the
    errors that return them, return on any captured bytes up to the size of a datagram, whatever
    chain of extension headers, options and segments they announce: clean text is printed and only
    the packet is read, provided the two bytes behind the captured data can be read. Without them
    a verbose print of an ICMP message of two bytes loads its checksum field from behind the
    packet. *)
Theorem ip6_print_safe `{PL : PrinterLaws} `{PortNamesLaws} `{TcpLaws} `{!Ip6Printers} `{!Ip6Laws} GUESS_TSO s bp len plen ip frag :
  ndo_ok s -> 0 <= bp -> accepts s bp -> icmp_room s -> 0 <= len -> ip_header s ip ->
  Forall (fun m : pr unit => exists s', m s = (Done tt, s') /\ ndo_ext s s')
    [@ip6_print (ip_printers _ GUESS_TSO) bp len; @ip_print (ip_printers _ GUESS_TSO) GUESS_TSO bp len;
     @ipN_print (ip_printers _ GUESS_TSO) GUESS_TSO bp len; @icmp_print (ip_printers _ GUESS_TSO) bp plen ip frag] /\
  exists s1, ndo_ok s1 /\ ndo_snapend s1 = 22 /\ fst (@ip_print (ip_printers _ GUESS_TSO) GUESS_TSO 0 22 s1) = Stop Fault.
Proof.
  intros Hok Hb Ha Hroom Hl Hr.
  assert (Hrun : forall m : pr unit, safe false s m (fun _ => True) -> exists s', m s = (Done tt, s') /\ ndo_ext s s').
  { intros m Hm. specialize (Hm s (ndo_ext_refl s Hok)). destruct (m s) as [[[]|[]] s']; naive_solver. }
  pose proof (conj Ha Hroom : icmp_accepts s bp) as Hacc. split; [|exists short_icmp; split; [repeat split; cbn; lia || done|]; split; [reflexivity|]; by vm_compute].
  repeat (apply Forall_cons; split); [..|by apply Forall_nil]; apply Hrun.
  - by apply ip_printers_ip6_ok.
  - by apply (@safe_ip_print _ (ip_printers_laws GUESS_TSO)).
  - by apply (@safe_ipN_print _ (ip_printers_laws GUESS_TSO)).
  - by apply ip_printers_icmp_ok.
Qed.

(** Printers that show the name of their protocol. *)
#[export] Instance plain_ip6_printers : Ip6Printers := {|
  mobility_print _ _ := named "mobility" ;~ pret (-1); icmp6_print _ _ _ _ := named "icmp6"; ospf6_print _ _ := named "ospf6" |}.

#[export] Instance plain_ip6_printers_laws `{PrinterLaws} : Ip6Laws.
Proof. split; intros; [eapply safe_bind; [by apply safe_print|]; intros _ _; apply safe_ret; lia|intros s0 ? ? ? ?; by apply safe_print|intros s0 ? ? ?; by apply safe_print]. Defined.

(** The printers of this development, each handed what the one above it carries. *)
Definition stack : Printers := ip_printers (udp_printers plain_printers) false.
Definition stack_laws : @PrinterLaws stack := @ip_printers_laws (udp_printers plain_printers) udp_printers_laws _ _ _ _ _ _ false.

(** A router alert, a routing header with one address left, and an IPv4 datagram inside that
    carries an echo request. *)
Definition sample_nested : netdissect_options :=
  mk_ndo ([0x60; 0; 0; 0; 0; 60; 0; 64] ++ sample_addr 9 ++ sample_addr 3 ++ [43; 0; 5; 2; 0; 0; 1; 0]
    ++ [4; 2; 0; 1; 0; 0; 0; 0] ++ sample_addr 1
    ++ [0x45; 0; 0; 28; 0; 1; 0; 0; 64; 1; 0; 0; 10; 0; 0; 1; 10; 0; 0; 2] ++ [8; 0; 0; 0; 0; 1; 0; 2] ++ [0; 0]) 4096 (mk_flags 1 0 1 0 0 0 0 0) 100 "" "".

Lemma ip6_print_safe_witness :
  exists s', @ip6_print stack 0 100 sample_nested = (Done tt, s') /\ ndo_ext sample_nested s' /\ ndo_out s' =
    "IP6 (hlim 64, next-header Options (0) payload length: 60) :: > ::: HBH (rtalert: 0x0000) (padn) srcrt (len=2, type=0, segleft=1, rsv=0x0, [0]::) " +:+
    "IP (tos 0x0, ttl 64, id 1, offset 0, flags [none], proto ICMP (1), length 28, bad cksum 0 (->66de)!)" +:+ char1 10 +:+
    "    10.0.0.1 > 10.0.0.2: ICMP echo request, id 1, seq 2, length 8 (wrong icmp cksum 0 (->f7fc)!)".
Proof.
  eassert (Hall : Forall _ _ /\ _).
  { apply (@ip6_print_safe (udp_printers plain_printers) udp_printers_laws _ _ _ _ _ _ false sample_nested 0 100 8 72 0).
    - repeat split; vm_compute; congruence.
    - lia.
    - vm_compute. repeat split; congruence.
    - split; vm_compute; congruence.
    - lia.
    - apply (ip_header_v4 _ _ [0x45]); [unfold readable, sizeof_ip; vm_compute; repeat split; congruence|done..]. }
  destruct Hall as [Hall _]. apply Forall_cons in Hall as [(s' & Hrun & Hext) _]. fold stack in Hrun. exists s'. repeat (split; [assumption|]).
  replace s' with (snd (@ip6_print stack 0 100 sample_nested)) by (by rewrite Hrun). vm_compute. reflexivity.
Defined.
