(* ===== verification/PrintEther.v ===== *)
(** * The Ethernet printer of tcpdump

    Models [tcpdump/print-ether.c] and [tcpdump/print-llc.c] with [tcpdump/llc.h]: the header
    of a frame, VLAN tags, 802.2 and SNAP headers, frames in frames, and the printer each
    Ethernet type is handed to; and [pretty_print_packet] of [tcpdump/print.c], which calls
    the printer of the link layer for every captured packet. IPv4 and ARP are the printers of
    [PrintIp] and [PrintArp]; the others are the class [EtherPrinters]. The theorem on a
    captured packet takes the IPv4, IPv6, ICMP, UDP and DNS printers of this development. *)
From stdpp Require Import base list numbers strings.
From Stdlib Require Import ZArith Lia Ascii.
From S2P Require Import Prelude Cstring Netdissect UtilPrint PrintAscii AddrToName PrintIp PrintIcmp PrintArp PrintTcp PrintDomain PrintUdp PrintIp6.

Open Scope Z_scope.

(** ** Constants *)

Definition ETHER_HDRLEN : Z := 14.
Definition MAX_ETHERNET_LENGTH_VAL : Z := 1500.
Definition MAXIMUM_SNAPLEN : Z := 262144.

Definition LLC_U_FMT : Z := 3.
Definition LLC_GSAP : Z := 1.
Definition LLC_IG : Z := 1.
Definition LLC_S_FMT : Z := 1.
Definition LLC_U_POLL : Z := 0x10.
Definition LLC_IS_POLL : Z := 0x0100.
Definition LLC_XID_FI : Z := 0x81.
Definition LLC_U_CMD (u : Z) : Z := Z.land u 0xef.
Definition LLC_UI : Z := 0x03.
Definition LLC_UA : Z := 0x63.
Definition LLC_DISC : Z := 0x43.
Definition LLC_DM : Z := 0x0f.
Definition LLC_SABME : Z := 0x6f.
Definition LLC_TEST : Z := 0xe3.
Definition LLC_XID : Z := 0xaf.
Definition LLC_FRMR : Z := 0x87.
Definition LLC_S_CMD (c : Z) : Z := Z.land (Z.shiftr c 2) 0x03.
Definition LLC_IS_NR (c : Z) : Z := Z.land (Z.shiftr c 9) 0x7f.
Definition LLC_I_NS (c : Z) : Z := Z.land (Z.shiftr c 1) 0x7f.
Definition LLCSAP_GLOBAL : Z := 0xff.
Definition LLCSAP_IP : Z := 0x06.
Definition LLCSAP_8021D : Z := 0x42.
Definition LLCSAP_SNAP : Z := 0xaa.
Definition LLCSAP_IPX : Z := 0xe0.
Definition LLCSAP_NETBEUI : Z := 0xf0.
Definition LLCSAP_ISONS : Z := 0xfe.

Definition PID_CISCO_CDP : Z := 0x2000.
Definition PID_CISCO_VTP : Z := 0x2003.
Definition PID_CISCO_DTP : Z := 0x2004.
Definition PID_CISCO_UDLD : Z := 0x0111.
Definition PID_CISCO_PVST : Z := 0x010b.
Definition PID_CISCO_VLANBRIDGE : Z := 0x010c.
Definition PID_RFC2684_ETH_FCS : Z := 0x0001.
Definition PID_RFC2684_802_4_FCS : Z := 0x0002.
Definition PID_RFC2684_802_5_FCS : Z := 0x0003.
Definition PID_RFC2684_FDDI_FCS : Z := 0x0004.
Definition PID_RFC2684_802_6_FCS : Z := 0x0005.
Definition PID_RFC2684_ETH_NOFCS : Z := 0x0007.
Definition PID_RFC2684_802_4_NOFCS : Z := 0x0008.
Definition PID_RFC2684_802_5_NOFCS : Z := 0x0009.
Definition PID_RFC2684_FDDI_NOFCS : Z := 0x000a.
Definition PID_RFC2684_802_6_NOFCS : Z := 0x000b.
Definition PID_RFC2684_BPDU : Z := 0x000e.

Definition OUI_ENCAP_ETHER : Z := 0x000000.
Definition OUI_CISCO : Z := 0x00000c.
Definition OUI_CISCO_90 : Z := 0x0000f8.
Definition OUI_RFC2684 : Z := 0x0080c2.
Definition OUI_APPLETALK : Z := 0x080007.

Definition llc_values : list tok :=
  [(0x00, "Null"%string); (LLCSAP_GLOBAL, "Global"%string); (0x02, "802.1B I"%string); (0x03, "802.1B G"%string); (LLCSAP_IP, "IP"%string);
   (0x04, "SNA"%string); (0x0e, "ProWay NM"%string); (LLCSAP_8021D, "STP"%string); (0x4e, "RS511"%string); (0x7e, "ISO8208"%string);
   (0x8e, "ProWay"%string); (LLCSAP_SNAP, "SNAP"%string); (LLCSAP_IPX, "IPX"%string); (LLCSAP_NETBEUI, "NetBeui"%string); (LLCSAP_ISONS, "OSI"%string)].

Definition llc_cmd_values : list tok :=
  [(LLC_UI, "ui"%string); (LLC_TEST, "test"%string); (LLC_XID, "xid"%string); (LLC_UA, "ua"%string); (LLC_DISC, "disc"%string); (LLC_DM, "dm"%string);
   (LLC_SABME, "sabme"%string); (LLC_FRMR, "frmr"%string)].

Definition llc_flag_values : list tok :=
  [(0, "Command"%string); (LLC_GSAP, "Response"%string); (LLC_U_POLL, "Poll"%string); (Z.lor LLC_GSAP LLC_U_POLL, "Final"%string);
   (LLC_IS_POLL, "Poll"%string); (Z.lor LLC_GSAP LLC_IS_POLL, "Final"%string)].

Definition llc_ig_flag_values : list tok := [(0, "Individual"%string); (LLC_IG, "Group"%string)].
Definition llc_supervisory_values : list tok := [(0, "Receiver Ready"%string); (1, "Receiver not Ready"%string); (2, "Reject"%string)].

Definition cisco_values : list tok :=
  [(PID_CISCO_CDP, "CDP"%string); (PID_CISCO_VTP, "VTP"%string); (PID_CISCO_DTP, "DTP"%string); (PID_CISCO_UDLD, "UDLD"%string);
   (PID_CISCO_PVST, "PVST"%string); (PID_CISCO_VLANBRIDGE, "VLAN Bridge"%string)].

Definition bridged_values : list tok :=
  [(PID_RFC2684_ETH_FCS, "Ethernet + FCS"%string); (PID_RFC2684_ETH_NOFCS, "Ethernet w/o FCS"%string); (PID_RFC2684_802_4_FCS, "802.4 + FCS"%string);
   (PID_RFC2684_802_4_NOFCS, "802.4 w/o FCS"%string); (PID_RFC2684_802_5_FCS, "Token Ring + FCS"%string);
   (PID_RFC2684_802_5_NOFCS, "Token Ring w/o FCS"%string); (PID_RFC2684_FDDI_FCS, "FDDI + FCS"%string); (PID_RFC2684_FDDI_NOFCS, "FDDI w/o FCS"%string);
   (PID_RFC2684_802_6_FCS, "802.6 + FCS"%string); (PID_RFC2684_802_6_NOFCS, "802.6 w/o FCS"%string); (PID_RFC2684_BPDU, "BPDU"%string)].

Definition oui_to_tok : list (Z * list tok) :=
  [(OUI_ENCAP_ETHER, ethertype_values); (OUI_CISCO_90, ethertype_values); (OUI_APPLETALK, ethertype_values); (OUI_CISCO, cisco_values);
   (OUI_RFC2684, bridged_values)].

Definition oui_to_struct_tok (orgcode : Z) : list tok :=
  match list_find (fun o => fst o = orgcode) oui_to_tok with Some (_, o) => snd o | None => [] end.

(** ** What is printed elsewhere *)

(** The addresses of the link layer, with the function that gives their text. *)
Record lladdr_info := mk_lladdr { addr_string : Z -> pr string; addr : Z }.

Class EtherPrinters := {
  atalk_print : Z -> Z -> pr unit; aarp_print : Z -> Z -> pr unit; ipx_print : Z -> Z -> pr unit; isoclns_print : Z -> Z -> pr unit;
  pppoe_print : Z -> Z -> pr unit; eap_print : Z -> Z -> pr unit; ppp_print : Z -> Z -> pr unit; mpcp_print : Z -> Z -> pr unit;
  slow_print : Z -> Z -> pr unit; cfm_print : Z -> Z -> pr unit; lldp_print : Z -> Z -> pr unit; nsh_print : Z -> Z -> pr unit;
  loopback_print : Z -> Z -> pr unit; mpls_print : Z -> Z -> pr unit; aoe_print : Z -> Z -> pr unit; stp_print : Z -> Z -> pr unit;
  dtp_print : Z -> Z -> pr unit; udld_print : Z -> Z -> pr unit; vtp_print : Z -> Z -> pr unit;
  msnlb_print : Z -> pr unit;
  decnet_print : Z -> Z -> Z -> pr unit; tipc_print : Z -> Z -> Z -> pr unit; cdp_print : Z -> Z -> Z -> pr unit;
  token_print : Z -> Z -> Z -> pr unit; fddi_print : Z -> Z -> Z -> pr unit;
  netbeui_print : Z -> Z -> Z -> pr unit;
  geonet_print : Z -> Z -> option lladdr_info -> pr unit; calm_fast_print : Z -> Z -> option lladdr_info -> pr unit;
  rrcp_print : Z -> Z -> option lladdr_info -> option lladdr_info -> pr unit;
  medsa_print : Z -> Z -> Z -> option lladdr_info -> option lladdr_info -> pr unit }.

Section PrintEther.
(** How the program was built, and [ndo_suppress_default_print]. *)
Context (GUESS_TSO ENABLE_SMB : bool) `{Printers} `{Resolver} `{EtherPrinters} (opts : name_options) (suppress : bool).

Definition etheraddr_at (p : Z) : pr string := l <~ load p MAC_ADDR_LEN ;; pret (ether_text opts l).

Definition unknown (t : list tok) (v : Z) : string := tok2str t (Some (fun _ => "Unknown"%string)) v.

(** ** The frame header *)

Definition ether_hdr_print (bp length : Z) : pr unit :=
  dst <~ etheraddr_at bp ;;
  src <~ etheraddr_at (bp + 6) ;;
  ND_PRINT (src +:+ " > " +:+ dst) ;~
  length_type <~ EXTRACT_BE_U_2 (bp + 12) ;;
  qflag <~ flag f_qflag ;;
  (if length_type <=? MAX_ETHERNET_LENGTH_VAL then ND_PRINT ", 802.3"
   else if qflag =? 0 then ND_PRINT (", ethertype " +:+ unknown ethertype_values length_type +:+ " (0x" +:+ hex_pad 4 length_type +:+ ")")
   else ND_PRINT (", " +:+ tok2str ethertype_values (Some (fun v => "Unknown Ethertype (0x" +:+ hex_pad 4 v +:+ ")")) length_type)) ;~
  ND_PRINT (", length " +:+ dec (if length_type <=? MAX_ETHERNET_LENGTH_VAL then length_type else length) +:+ ": ").

(** ** Types *)

(** Whether the type is known; its payload is printed. *)
Definition ethertype_print (ether_type p length caplen : Z) (src dst : option lladdr_info) : pr bool :=
  let one_of (l : list Z) := existsb (Z.eqb ether_type) l in
  if one_of [ETHERTYPE_IP] then ip_print GUESS_TSO p length ;~ pret true
  else if one_of [ETHERTYPE_IPV6] then ip6_print p length ;~ pret true
  else if one_of [ETHERTYPE_ARP; ETHERTYPE_REVARP] then arp_print opts p length caplen ;~ pret true
  else if one_of [ETHERTYPE_DN] then decnet_print p length caplen ;~ pret true
  else if one_of [ETHERTYPE_ATALK] then
    vflag <~ flag f_vflag ;;
    (if negb (vflag =? 0) then ND_PRINT "et1 " else pret tt) ;~ atalk_print p length ;~ pret true
  else if one_of [ETHERTYPE_AARP] then aarp_print p length ;~ pret true
  else if one_of [ETHERTYPE_IPX] then ND_PRINT "(NOV-ETHII) " ;~ ipx_print p length ;~ pret true
  else if one_of [ETHERTYPE_ISO] then
    if (length =? 0) || (caplen =? 0) then ND_PRINT " [|osi]" ;~ pret true
    else isoclns_print (p + 1) (length - 1) ;~ pret true
  else if one_of [ETHERTYPE_PPPOED; ETHERTYPE_PPPOES; ETHERTYPE_PPPOED2; ETHERTYPE_PPPOES2] then pppoe_print p length ;~ pret true
  else if one_of [ETHERTYPE_EAPOL] then eap_print p length ;~ pret true
  else if one_of [ETHERTYPE_RRCP] then rrcp_print p length src dst ;~ pret true
  else if one_of [ETHERTYPE_PPP] then
    (if negb (length =? 0) then ND_PRINT ": " ;~ ppp_print p length else pret tt) ;~ pret true
  else if one_of [ETHERTYPE_MPCP] then mpcp_print p length ;~ pret true
  else if one_of [ETHERTYPE_SLOW] then slow_print p length ;~ pret true
  else if one_of [ETHERTYPE_CFM; ETHERTYPE_CFM_OLD] then cfm_print p length ;~ pret true
  else if one_of [ETHERTYPE_LLDP] then lldp_print p length ;~ pret true
  else if one_of [ETHERTYPE_NSH] then nsh_print p length ;~ pret true
  else if one_of [ETHERTYPE_LOOPBACK] then loopback_print p length ;~ pret true
  else if one_of [ETHERTYPE_MPLS; ETHERTYPE_MPLS_MULTI] then mpls_print p length ;~ pret true
  else if one_of [ETHERTYPE_TIPC] then tipc_print p length caplen ;~ pret true
  else if one_of [ETHERTYPE_MS_NLB_HB] then msnlb_print p ;~ pret true
  else if one_of [ETHERTYPE_GEONET_OLD; ETHERTYPE_GEONET] then geonet_print p length src ;~ pret true
  else if one_of [ETHERTYPE_CALM_FAST] then calm_fast_print p length src ;~ pret true
  else if one_of [ETHERTYPE_AOE] then aoe_print p length ;~ pret true
  else if one_of [ETHERTYPE_MEDSA] then medsa_print p length caplen src dst ;~ pret true
  else pret false.

(** ** SNAP *)

(** The two addresses as arguments of one [ND_PRINT]. *)
Definition two_addrs (src dst : lladdr_info) : pr (string * string) :=
  d <~ addr_string dst (addr dst) ;;
  s <~ addr_string src (addr src) ;;
  pret (s, d).

(** [et] printed as a type or as an identifier of the organization. *)
Definition pid_text (orgcode et : Z) : string := unknown (oui_to_struct_tok orgcode) et +:+ " (0x" +:+ hex_pad 4 et +:+ ")".
Definition oui_text (orgcode : Z) : string := "oui " +:+ unknown oui_values orgcode +:+ " (0x" +:+ hex_pad 6 orgcode +:+ ")".

(** A payload the header names, [ether] being [ether_print]; [false] when the switch is left. *)
Definition snap_payload (ether : Z -> Z -> Z -> pr unit) (orgcode et p length caplen : Z) (src dst : option lladdr_info) (bridge_pad : Z) : pr bool :=
  let one_of (l : list Z) := existsb (Z.eqb et) l in
  let skip (n : Z) (k : Z -> Z -> Z -> pr unit) : pr bool :=
    ND_TCHECK_LEN p n ;~ k (p + n) (u32 (length - n)) (u32 (caplen - n)) ;~ pret true in
  if (orgcode =? OUI_ENCAP_ETHER) || (orgcode =? OUI_CISCO_90) then ethertype_print et p length caplen src dst
  else if orgcode =? OUI_APPLETALK then
    if et =? ETHERTYPE_ATALK then ethertype_print et p length caplen src dst else pret false
  else if orgcode =? OUI_CISCO then
    if one_of [PID_CISCO_CDP] then cdp_print p length caplen ;~ pret true
    else if one_of [PID_CISCO_DTP] then dtp_print p length ;~ pret true
    else if one_of [PID_CISCO_UDLD] then udld_print p length ;~ pret true
    else if one_of [PID_CISCO_VTP] then vtp_print p length ;~ pret true
    else if one_of [PID_CISCO_PVST; PID_CISCO_VLANBRIDGE] then stp_print p length ;~ pret true
    else pret false
  else if orgcode =? OUI_RFC2684 then
    if one_of [PID_RFC2684_ETH_FCS; PID_RFC2684_ETH_NOFCS] then skip bridge_pad ether
    else if one_of [PID_RFC2684_802_5_FCS; PID_RFC2684_802_5_NOFCS] then skip bridge_pad token_print
    else if one_of [PID_RFC2684_FDDI_FCS; PID_RFC2684_FDDI_NOFCS] then skip (bridge_pad + 1) fddi_print
    else if one_of [PID_RFC2684_BPDU] then stp_print p length ;~ pret true
    else pret false
  else pret false.

Definition snap_print (ether : Z -> Z -> Z -> pr unit) (p length caplen : Z) (src dst : option lladdr_info) (bridge_pad : Z) : pr bool :=
  set_protocol "snap" ;~
  on_trunc (
    ND_TCHECK_LEN p 5 ;~
    if (caplen <? 5) || (length <? 5) then pstop Trunc
    else
      o <~ load p 3 ;;
      let orgcode := be_val o in
      et <~ EXTRACT_BE_U_2 (p + 3) ;;
      eflag <~ flag f_eflag ;;
      (if negb (eflag =? 0) then
         ND_PRINT (oui_text orgcode +:+ ", " +:+ (if orgcode =? 0 then "ethertype" else "pid") +:+ " " +:+ pid_text orgcode et
           +:+ ", length " +:+ dec (length - 5) +:+ ": ")
       else pret tt) ;~
      let length := length - 5 in
      known <~ snap_payload ether orgcode et (p + 5) length (caplen - 5) src dst bridge_pad ;;
      if (known : bool) then pret true
      else if negb (eflag =? 0) then pret false
      else
        (match src, dst with
         | Some s, Some d => a <~ two_addrs s d ;; ND_PRINT (a.1 +:+ " > " +:+ a.2 +:+ " ")
         | _, _ => pret tt
         end) ;~
        ND_PRINT ((if orgcode =? 0 then "SNAP, ethertype " +:+ unknown ethertype_values et +:+ " (0x" +:+ hex_pad 4 et +:+ ")"
                   else "SNAP, " +:+ oui_text orgcode +:+ ", pid " +:+ pid_text orgcode et) +:+ ", length " +:+ dec length +:+ ": ") ;~
        pret false)
  (nd_print_trunc ;~ pret true).

(** ** 802.2 *)

(** What is printed of a frame no printer was found for; the result of [llc_print]. *)
Definition llc_frame (p length caplen hdrlen control dsap ssap ssap_field : Z) (is_u : bool) (src dst : option lladdr_info) : pr Z :=
  let sap (d : string) (v : Z) := tok2str llc_values (Some (fun v => "Unknown " +:+ d +:+ " 0x" +:+ hex_pad 2 v)) v in
  let flags (bits : Z) := tok2str llc_flag_values (Some (fun _ => "?"%string)) (Z.lor (Z.land ssap_field LLC_GSAP) (Z.land control bits)) in
  let total := ", length " +:+ dec (u32 (length + hdrlen)) in
  eflag <~ flag f_eflag ;;
  (if eflag =? 0 then
     match src, dst with
     | Some s, Some d =>
         a <~ two_addrs s d ;;
         ND_PRINT (if ssap =? dsap then a.1 +:+ " > " +:+ a.2 +:+ " " +:+ sap "DSAP" dsap +:+ " "
                   else a.1 +:+ " " +:+ sap "SSAP" ssap +:+ " > " +:+ a.2 +:+ " " +:+ sap "DSAP" dsap +:+ " ")
     | _, _ =>
         ND_PRINT (if ssap =? dsap then sap "DSAP" dsap +:+ " " else sap "SSAP" ssap +:+ " > " +:+ sap "DSAP" dsap +:+ " ")
     end
   else pret tt) ;~
  if is_u then
    ND_PRINT ("Unnumbered, " +:+ tok2str llc_cmd_values (Some (hex_pad 2)) (LLC_U_CMD control) +:+ ", Flags [" +:+ flags LLC_U_POLL +:+ "]" +:+ total) ;~
    if Z.ldiff control LLC_U_POLL =? LLC_XID then
      if length =? 0 then pret hdrlen
      else if caplen <? 1 then nd_print_trunc ;~ pret hdrlen
      else
        fi <~ EXTRACT_U_1 p ;;
        if fi =? LLC_XID_FI then
          (if (caplen <? 3) || (length <? 3) then nd_print_trunc ;~ ND_DEFAULTPRINT p caplen
           else x <~ EXTRACT_U_1 (p + 1) ;; y <~ EXTRACT_U_1 (p + 2) ;; ND_PRINT (": " +:+ hex_pad 2 x +:+ " " +:+ hex_pad 2 y)) ;~
          pret hdrlen
        else pret (- hdrlen)
    else pret (- hdrlen)
  else if Z.land control LLC_S_FMT =? LLC_S_FMT then
    ND_PRINT ("Supervisory, " +:+ tok2str llc_supervisory_values (Some (fun _ => "?"%string)) (LLC_S_CMD control) +:+ ", rcv seq " +:+ dec (LLC_IS_NR control)
      +:+ ", Flags [" +:+ flags LLC_IS_POLL +:+ "]" +:+ total) ;~
    pret hdrlen
  else
    ND_PRINT ("Information, send seq " +:+ dec (LLC_I_NS control) +:+ ", rcv seq " +:+ dec (LLC_IS_NR control) +:+ ", Flags [" +:+ flags LLC_IS_POLL +:+ "]"
      +:+ total) ;~
    pret (- hdrlen).

(** What follows the header of [hdrlen] bytes. *)
Definition llc_payload (ether : Z -> Z -> Z -> pr unit) (p length caplen hdrlen control dsap_field ssap_field : Z) (is_u : bool)
  (src dst : option lladdr_info) : pr Z :=
  let dsap := Z.ldiff dsap_field LLC_IG in
  let ssap := Z.ldiff ssap_field LLC_GSAP in
  eflag <~ flag f_eflag ;;
  (if negb (eflag =? 0) then
     ND_PRINT ("LLC, dsap " +:+ unknown llc_values dsap +:+ " (0x" +:+ hex_pad 2 dsap +:+ ") " +:+ unknown llc_ig_flag_values (Z.land dsap_field LLC_IG)
       +:+ ", ssap " +:+ unknown llc_values ssap +:+ " (0x" +:+ hex_pad 2 ssap +:+ ") " +:+ unknown llc_flag_values (Z.land ssap_field LLC_GSAP)) ;~
     ND_PRINT (", ctrl 0x" +:+ hex_pad (if is_u then 2 else 4) control +:+ ": ")
   else pret tt) ;~
  let p := p + hdrlen in
  let length := u32 (length - hdrlen) in
  let caplen := u32 (caplen - hdrlen) in
  let both (sap : Z) := (ssap =? sap) && (dsap =? sap) in
  let ui := control =? LLC_UI in
  if both LLCSAP_SNAP && ui then
    known <~ snap_print ether p length caplen src dst 2 ;;
    pret (if (known : bool) then hdrlen + 5 else - (hdrlen + 5))
  else if both LLCSAP_8021D && ui then stp_print p length ;~ pret hdrlen
  else if both LLCSAP_IP && ui then ip_print GUESS_TSO p length ;~ pret hdrlen
  else if both LLCSAP_IPX && ui then
    (if negb (eflag =? 0) then ND_PRINT "IPX 802.2: " else pret tt) ;~ ipx_print p length ;~ pret hdrlen
  else if ENABLE_SMB && both LLCSAP_NETBEUI && ((Z.land control LLC_S_FMT =? 0) || (control =? LLC_U_FMT)) then netbeui_print control p length ;~ pret hdrlen
  else if both LLCSAP_ISONS && ui then isoclns_print p length ;~ pret hdrlen
  else llc_frame p length caplen hdrlen control dsap ssap ssap_field is_u src dst.

(** The length of the header, negative when the payload was not printed. *)
Definition llc_print (ether : Z -> Z -> Z -> pr unit) (p length caplen : Z) (src dst : option lladdr_info) : pr Z :=
  let cut (r : Z) : pr Z := nd_print_trunc ;~ ND_DEFAULTPRINT p caplen ;~ pret r in
  let go (control hdrlen : Z) (is_u : bool) (dsap_field ssap_field : Z) : pr Z :=
    if (ssap_field =? LLCSAP_GLOBAL) && (dsap_field =? LLCSAP_GLOBAL) then
      eflag <~ flag f_eflag ;;
      (if negb (eflag =? 0) then ND_PRINT "IPX 802.3: " else pret tt) ;~ ipx_print p length ;~ pret 0
    else llc_payload ether p length caplen hdrlen control dsap_field ssap_field is_u src dst in
  set_protocol "llc" ;~
  if caplen <? 3 then cut caplen
  else if length <? 3 then cut length
  else
    dsap_field <~ EXTRACT_U_1 p ;;
    ssap_field <~ EXTRACT_U_1 (p + 1) ;;
    control <~ EXTRACT_U_1 (p + 2) ;;
    if Z.land control LLC_U_FMT =? LLC_U_FMT then go control 3 true dsap_field ssap_field
    else if caplen <? 4 then cut caplen
    else if length <? 4 then cut length
    else l <~ load (p + 2) 2 ;; go (le_val l) 4 false dsap_field ssap_field.

(** ** Frames *)

(** An 802.2 header behind a length or behind [ETHERTYPE_JUMBO]. *)
Definition ether_llc (ether : Z -> Z -> Z -> pr unit) (p length caplen hdrlen : Z) (src dst : lladdr_info) : pr Z :=
  llc_hdrlen <~ llc_print ether p length caplen (Some src) (Some dst) ;;
  (if (llc_hdrlen <? 0) && negb suppress then ND_DEFAULTPRINT p caplen else pret tt) ;~
  pret (u32 (hdrlen + Z.abs llc_hdrlen)).

Definition vlan_type (t : Z) : bool := existsb (Z.eqb t) [ETHERTYPE_8021Q; ETHERTYPE_8021Q9100; ETHERTYPE_8021Q9200; ETHERTYPE_8021QinQ].

(** From the label [recurse:] on; a tag takes four of the captured bytes. [again] prints the
    header of the frame. *)
Fixpoint ether_recurse (fuel : nat) (ether : Z -> Z -> Z -> pr unit) (again : pr unit) (src dst : lladdr_info) (length_type p length caplen hdrlen : Z) : pr Z :=
  match fuel with
  | O => pstop Fuel
  | S f =>
      if length_type <=? MAX_ETHERNET_LENGTH_VAL then ether_llc ether p length caplen hdrlen src dst
      else if vlan_type length_type then
        if caplen <? 4 then ND_PRINT "[|vlan]" ;~ pret (u32 (hdrlen + caplen))
        else if length <? 4 then ND_PRINT "[|vlan]" ;~ pret (u32 (hdrlen + length))
        else
          eflag <~ flag f_eflag ;;
          (if negb (eflag =? 0) then tag <~ EXTRACT_BE_U_2 p ;; ND_PRINT (ieee8021q_tci_string tag +:+ ", ") else pret tt) ;~
          length_type <~ EXTRACT_BE_U_2 (p + 2) ;;
          (if negb (eflag =? 0) && (length_type >? MAX_ETHERNET_LENGTH_VAL) then
             ND_PRINT ("ethertype " +:+ tok2str ethertype_values (Some (fun v => "0x" +:+ hex_pad 4 v)) length_type +:+ ", ")
           else pret tt) ;~
          ether_recurse f ether again src dst length_type (p + 4) (length - 4) (caplen - 4) (u32 (hdrlen + 4))
      else if length_type =? ETHERTYPE_JUMBO then ether_llc ether p length caplen hdrlen src dst
      else
        known <~ ethertype_print length_type p length caplen (Some src) (Some dst) ;;
        (if (known : bool) then pret tt
         else
           eflag <~ flag f_eflag ;;
           (if eflag =? 0 then again else pret tt) ;~
           if suppress then pret tt else ND_DEFAULTPRINT p caplen) ;~
        pret hdrlen
  end.

(** [encap] is the call of [print_encap_header]; [fuel] bounds how deep frames are nested. *)
Fixpoint ether_nested (fuel : nat) (p length caplen : Z) (encap : option (pr unit)) : pr Z :=
  match fuel with
  | O => pstop Fuel
  | S f =>
      let header := match encap with Some e => e ;~ ether_hdr_print p length | None => ether_hdr_print p length end in
      set_protocol "ether" ;~
      if caplen <? ETHER_HDRLEN then nd_print_trunc ;~ pret caplen
      else if length <? ETHER_HDRLEN then nd_print_trunc ;~ pret length
      else
        eflag <~ flag f_eflag ;;
        (if negb (eflag =? 0) then header else pret tt) ;~
        length_type <~ EXTRACT_BE_U_2 (p + 12) ;;
        ether_recurse (S (Z.to_nat caplen)) (fun p length caplen => ether_nested f p length caplen None ;~ pret tt) header
          (mk_lladdr etheraddr_at (p + 6)) (mk_lladdr etheraddr_at p) length_type (p + ETHER_HDRLEN) (length - ETHER_HDRLEN) (caplen - ETHER_HDRLEN) ETHER_HDRLEN
  end.

(** Every frame in a frame is shorter. *)
Definition ether_print (p length caplen : Z) (encap : option (pr unit)) : pr Z := ether_nested (S (Z.to_nat caplen)) p length caplen encap.

(** ** The printers of the link layer *)

(** [struct pcap_pkthdr]. *)
Record pcap_pkthdr := mk_pkthdr { ts : timeval; caplen : Z; len : Z }.

Definition ether_if_print (h : pcap_pkthdr) (p : Z) : pr Z :=
  set_protocol "ether_if" ;~ ether_print p (len h) (caplen h) None.

Definition skip_header (n : Z) (h : pcap_pkthdr) (p : Z) : pr Z :=
  if (len h <? n) || (caplen h <? n) then nd_print_trunc ;~ pret (caplen h)
  else r <~ ether_print (p + n) (len h - n) (caplen h - n) None ;; pret (u32 (n + r)).

Definition netanalyzer_if_print (h : pcap_pkthdr) (p : Z) : pr Z := set_protocol "netanalyzer_if" ;~ skip_header 4 h p.
Definition netanalyzer_transparent_if_print (h : pcap_pkthdr) (p : Z) : pr Z := set_protocol "netanalyzer_transparent_if" ;~ skip_header 12 h p.
End PrintEther.

(** ** The rule the other printers follow *)

Definition lladdr_ok (s0 : netdissect_options) (i : lladdr_info) : Prop := forall T, safe T s0 (addr_string i (addr i)) (fun t => clean t = true).
Definition lladdr_opt_ok (s0 : netdissect_options) (i : option lladdr_info) : Prop := match i with Some i => lladdr_ok s0 i | None => True end.

Class EtherLaws `{EtherPrinters} := {
  ether_accepts : netdissect_options -> Prop;
  ether_accepts_mono s s' : ndo_ext s s' -> ether_accepts s -> ether_accepts s';
  ether_payload_law s0 bp len n src dst c : ndo_ok s0 -> ether_accepts s0 -> 0 <= bp -> 0 <= n -> bp + n <= ndo_snapend s0 ->
    lladdr_opt_ok s0 src -> lladdr_opt_ok s0 dst ->
    Forall (fun m : pr unit => safe false s0 m (fun _ => True))
      [atalk_print bp len; aarp_print bp len; ipx_print bp len; pppoe_print bp len; eap_print bp len; ppp_print bp len; mpcp_print bp len;
       slow_print bp len; cfm_print bp len; lldp_print bp len; nsh_print bp len; loopback_print bp len; mpls_print bp len; aoe_print bp len;
       stp_print bp len; dtp_print bp len; udld_print bp len; vtp_print bp len; isoclns_print bp len; msnlb_print bp;
       decnet_print bp len n; tipc_print bp len n; cdp_print bp len n; token_print bp len n; fddi_print bp len n; netbeui_print c bp len;
       geonet_print bp len src; calm_fast_print bp len src; rrcp_print bp len src dst; medsa_print bp len n src dst] }.

(** ** Safety *)

Lemma clean_unknown t v : forallb (fun t => clean t.2) t = true -> clean (unknown t v) = true.
Proof. intros Ht. by apply clean_tok2str. Qed.

Lemma clean_oui_tok o v : clean (unknown (oui_to_struct_tok o) v) = true.
Proof.
  apply clean_unknown. unfold oui_to_struct_tok. destruct (list_find _ oui_to_tok) as [[i t]|] eqn:E; [|done].
  apply list_find_Some in E as (Hi & _). apply list_elem_of_lookup_2 in Hi.
  assert (Hall : forallb (fun o => forallb (fun t => clean t.2) o.2) oui_to_tok = true) by (by vm_compute).
  rewrite forallb_forall in Hall. apply Hall. by apply list_elem_of_In.
Qed.

Lemma clean_tci tci : clean (ieee8021q_tci_string tci) = true.
Proof. apply clean_substring. clean_tac. Qed.

(** The texts of the tables. *)
Ltac names_tac :=
  repeat match goal with
  | H : ?P |- ?P => exact H
  | |- clean (_ +:+ _) = true => apply clean_app2
  | |- clean (dec _) = true => apply clean_dec
  | |- clean (hex_pad _ _) = true => apply clean_hex_pad; lia
  | |- clean (unknown (oui_to_struct_tok _) _) = true => apply clean_oui_tok
  | |- clean (unknown _ _) = true => apply clean_unknown; vm_compute; reflexivity
  | |- clean (ieee8021q_tci_string _) = true => apply clean_tci
  | |- clean (tok2str _ _ _) = true => apply clean_tok2str; [vm_compute; reflexivity|cbv beta iota delta [from_option id]]
  | |- clean (if ?b then _ else _) = true => destruct b
  | |- clean (String _ _) = true => reflexivity
  end.

Section Safety.
Context (s0 : netdissect_options) (Hok : ndo_ok s0) (GUESS_TSO ENABLE_SMB : bool) `{PrinterLaws} `{ResolverLaws} `{EtherLaws}.
Context (opts : name_options) (suppress : bool) (Hea : ether_accepts s0).

Lemma lladdr_ether p : readable s0 p MAC_ADDR_LEN -> lladdr_ok s0 (mk_lladdr (etheraddr_at opts) p).
Proof. intros Hr T. cbn. unfold etheraddr_at. eapply safe_bind; [by apply safe_load|]. intros l (_ & _ & Hb). apply safe_ret. by apply clean_ether_text. Qed.

Lemma safe_ether_hdr T bp n : readable s0 bp ETHER_HDRLEN -> safe T s0 (ether_hdr_print opts bp n) (fun _ => True).
Proof.
  unfold ETHER_HDRLEN. intros Hr. unfold ether_hdr_print.
  eapply safe_bind; [apply (lladdr_ether bp); unfold MAC_ADDR_LEN; readable_tac|]. intros d Hd.
  eapply safe_bind; [apply (lladdr_ether (bp + 6)); unfold MAC_ADDR_LEN; readable_tac|]. intros c Hc. safe_step. safe_step. safe_step.
  eapply (safe_bind _ _ _ _ (fun _ => True)); [|intros _ _; apply safe_print; names_tac].
  repeat match goal with |- safe _ _ (if ?b then _ else _) _ => destruct b end; apply safe_print; names_tac.
Qed.

(** A printer of the class. *)
Ltac spread H := repeat (apply Forall_cons in H as [? H]).
Ltac other := match goal with H : safe false s0 ?m _ |- safe _ s0 ?m _ => exact (safe_allow_trunc _ s0 m _ H) end.

Lemma safe_then_true T (m : pr unit) (b : bool) : safe T s0 m (fun _ => True) -> safe T s0 (m ;~ pret b) (fun _ => True).
Proof. intros Hm. eapply safe_bind; [exact Hm|]. intros _ _. by apply safe_ret. Qed.

Lemma safe_ethertype T et p n c src dst : 0 <= p -> 0 <= n -> 0 <= c -> p + c <= ndo_snapend s0 -> accepts s0 p ->
  lladdr_opt_ok s0 src -> lladdr_opt_ok s0 dst -> safe T s0 (ethertype_print GUESS_TSO opts et p n c src dst) (fun _ => True).
Proof.
  intros Hp Hn Hc He Ha Hsrc Hdst. unfold ethertype_print. cbv zeta.
  pose proof (ether_payload_law s0 p n c src dst 0 Hok Hea Hp Hc He Hsrc Hdst) as Hlaw. spread Hlaw.
  repeat match goal with |- safe _ _ (if existsb _ _ then _ else _) _ => destruct (existsb _ _) end; try (apply safe_then_true; other).
  - apply safe_then_true, safe_allow_trunc. by apply safe_ip_print.
  - apply safe_then_true, safe_allow_trunc. by apply ip6_law.
  - apply safe_then_true. by apply safe_arp.
  - safe_step. eapply safe_bind; [by apply safe_opt|]. intros _ _. apply safe_then_true. other.
  - safe_step. apply safe_then_true. other.
  - destruct (Z.eqb_spec n 0); cbn [orb]; [safe_step; by safe_step|]. destruct (Z.eqb_spec c 0); [safe_step; by safe_step|].
    pose proof (ether_payload_law s0 (p + 1) (n - 1) (c - 1) None None 0 Hok Hea ltac:(lia) ltac:(lia) ltac:(lia) I I) as Hlaw'. spread Hlaw'.
    apply safe_then_true. other.
  - apply safe_then_true. destruct (negb _); [safe_step; other|by safe_step].
  - by safe_step.
Qed.

Lemma safe_two_addrs T src dst : lladdr_ok s0 src -> lladdr_ok s0 dst ->
  safe T s0 (two_addrs src dst) (fun r => clean r.1 = true /\ clean r.2 = true).
Proof.
  intros Hs Hd. unfold two_addrs. eapply safe_bind; [apply Hd|]. intros d Hd'. eapply safe_bind; [apply Hs|]. intros c Hc. by apply safe_ret.
Qed.

Context (ether : Z -> Z -> Z -> pr unit).

(** The nested frames that are shorter than [lim] and end with the captured data. *)
Definition ether_below (lim : Z) : Prop :=
  forall p n c, 0 <= p -> 0 <= n -> 0 <= c < lim -> p + c = ndo_snapend s0 -> accepts s0 p -> safe false s0 (ether p n c) (fun _ => True).

Lemma accepts_later p q : accepts s0 p -> p <= q -> accepts s0 q.
Proof. intros Ha Hq. exact (accepts_mono _ _ _ _ (ndo_ext_refl s0 Hok) Hq Ha). Qed.

Lemma safe_snap_payload oc et p n c src dst : 0 <= p -> 0 <= n -> 0 <= c < 2 ^ 32 -> p + c = ndo_snapend s0 -> accepts s0 p ->
  lladdr_opt_ok s0 src -> lladdr_opt_ok s0 dst -> ether_below (c + 1) ->
  safe true s0 (snap_payload GUESS_TSO opts ether oc et p n c src dst 2) (fun _ => True).
Proof.
  intros Hp Hn Hc He Ha Hsrc Hdst Hb. unfold snap_payload. cbv zeta.
  pose proof (ether_payload_law s0 p n c src dst 0 Hok Hea Hp ltac:(lia) ltac:(lia) Hsrc Hdst) as Hlaw. spread Hlaw.
  assert (Het : safe true s0 (ethertype_print GUESS_TSO opts et p n c src dst) (fun _ => True)) by (apply safe_ethertype; done || lia).
  assert (Hskip : forall k (m : Z -> Z -> Z -> pr unit), 0 <= k < 2 ^ 32 ->
    (0 <= c - k -> safe true s0 (m (p + k) (u32 (n - k)) (c - k)) (fun _ => True)) ->
    safe true s0 (ND_TCHECK_LEN p k ;~ m (p + k) (u32 (n - k)) (u32 (c - k)) ;~ pret true) (fun _ => True)).
  { intros k m Hk Hm. safe_step. rewrite (u32_small (c - k)) by lia. apply safe_then_true. apply Hm. lia. }
  repeat match goal with |- safe _ _ (if ?b then _ else _) _ => destruct b end; try (exact Het); try (apply safe_then_true; other); try by safe_step.
  - apply Hskip; [lia|]. intros Hk. apply safe_allow_trunc, Hb; [lia|apply u32_range|lia..|]. apply (accepts_later p); [done|lia].
  - apply Hskip; [lia|]. intros Hk. pose proof (ether_payload_law s0 (p + 2) (u32 (n - 2)) (c - 2) None None 0 Hok Hea ltac:(lia) ltac:(lia) ltac:(lia) I I) as Hlaw'. spread Hlaw'.
    other.
  - apply Hskip; [lia|]. intros Hk. pose proof (ether_payload_law s0 (p + (2 + 1)) (u32 (n - (2 + 1))) (c - (2 + 1)) None None 0 Hok Hea ltac:(lia) ltac:(lia) ltac:(lia) I I) as Hlaw'. spread Hlaw'.
    other.
Qed.

Lemma safe_snap T p n c src dst : 0 <= p -> 0 <= n -> 0 <= c < 2 ^ 32 -> p + c = ndo_snapend s0 -> accepts s0 p ->
  lladdr_opt_ok s0 src -> lladdr_opt_ok s0 dst -> ether_below c ->
  safe T s0 (snap_print GUESS_TSO opts ether p n c src dst 2) (fun _ => True).
Proof.
  intros Hp Hn Hc He Ha Hsrc Hdst Hb. unfold snap_print. safe_step. apply safe_on_trunc; [|safe_step; by safe_step].
  safe_step. destruct (Z.ltb_spec c 5), (Z.ltb_spec n 5); cbn [orb]; try by safe_step. safe_step.
  match goal with H : _ /\ Z.of_nat _ = 3 /\ bytes_ok _ = true |- _ => destruct H as (_ & Hl3 & Hb3) end.
  pose proof (be_val_bound _ Hb3) as Ho. cbv zeta. safe_step. safe_step.
  eapply safe_bind; [apply safe_opt; unfold oui_text, pid_text; names_tac|]. intros _ _.
  eapply safe_bind; [apply safe_snap_payload; try done; try lia; [apply (accepts_later p); [done|lia]|]|].
  { intros q m k Hq Hm Hk. apply Hb; lia. }
  intros known _. cbv beta. destruct known; [by safe_step|]. destruct (negb _); [by safe_step|].
  eapply (safe_bind _ _ _ _ (fun _ => True)).
  { destruct src as [src|]; [|by safe_step]. destruct dst as [dst|]; [|by safe_step]. eapply safe_bind; [by apply safe_two_addrs|].
    intros r [H1' H2']. apply safe_print. names_tac. }
  intros _ _. eapply safe_bind; [apply safe_print; unfold oui_text, pid_text; names_tac|]. intros _ _. by safe_step.
Qed.

Lemma safe_llc_frame T p n c hdrlen control dsap ssap sf is_u src dst : 0 <= p -> 0 <= c -> p + c <= ndo_snapend s0 -> 0 <= dsap -> 0 <= ssap -> 0 <= control ->
  lladdr_opt_ok s0 src -> lladdr_opt_ok s0 dst ->
  safe T s0 (llc_frame p n c hdrlen control dsap ssap sf is_u src dst) (fun r => Z.abs r = Z.abs hdrlen).
Proof.
  intros Hp Hc He Hds Hss Hct Hsrc Hdst. unfold llc_frame. cbv zeta. safe_step.
  assert (0 <= LLC_U_CMD control) by (apply Z.land_nonneg; lia).
  eapply (safe_bind _ _ _ _ (fun _ => True)).
  { destruct (_ =? 0); [|by safe_step]. destruct src as [src|]; [destruct dst as [dst|]|]; [|apply safe_print; names_tac..].
    eapply safe_bind; [by apply safe_two_addrs|]. intros r [H1' H2']. apply safe_print. names_tac. }
  intros _ _. destruct is_u.
  - eapply safe_bind; [apply safe_print; names_tac|]. intros _ _.
    destruct (_ =? LLC_XID); [|safe_step; lia]. destruct (n =? 0); [by safe_step|]. destruct (Z.ltb_spec c 1); [safe_step; by safe_step|].
    safe_step. destruct (_ =? LLC_XID_FI); [|safe_step; lia].
    eapply (safe_bind _ _ _ _ (fun _ => True)); [|intros _ _; by safe_step].
    destruct (Z.ltb_spec c 3); cbn [orb]; [safe_step; apply safe_default; done || lia|].
    destruct (n <? 3); [safe_step; apply safe_default; done || lia|]. safe_step. safe_step. apply safe_print. names_tac.
  - destruct (_ =? LLC_S_FMT); (eapply safe_bind; [apply safe_print; names_tac|]; intros _ _; safe_step; lia).
Qed.

Lemma safe_then_ret {A} T (m : pr unit) (v : A) (Q : A -> Prop) : safe T s0 m (fun _ => True) -> Q v -> safe T s0 (m ;~ pret v) Q.
Proof. intros Hm Hv. eapply safe_bind; [exact Hm|]. intros _ _. by apply safe_ret. Qed.

Lemma safe_llc_payload T p n c hdrlen control df sf is_u src dst :
  0 <= p -> 0 <= n -> 0 <= hdrlen <= 4 -> hdrlen <= c < 2 ^ 32 -> p + c = ndo_snapend s0 -> accepts s0 p -> 0 <= df -> 0 <= sf -> 0 <= control ->
  lladdr_opt_ok s0 src -> lladdr_opt_ok s0 dst -> ether_below c ->
  safe T s0 (llc_payload GUESS_TSO ENABLE_SMB opts ether p n c hdrlen control df sf is_u src dst) (fun r => Z.abs r <= 9).
Proof.
  intros Hp Hn Hh Hc He Ha Hdf Hsf Hct Hsrc Hdst Hb. unfold llc_payload. cbv zeta.
  assert (Hd0 : 0 <= Z.ldiff df LLC_IG) by (apply Z.ldiff_nonneg; lia). assert (Hs0 : 0 <= Z.ldiff sf LLC_GSAP) by (apply Z.ldiff_nonneg; lia).
  safe_step. eapply (safe_bind _ _ _ _ (fun _ => True)).
  { destruct (negb _); [|by safe_step]. eapply safe_bind; [apply safe_print; names_tac|]. intros _ _. apply safe_print. names_tac. }
  intros _ _. rewrite (u32_small (c - hdrlen)) by lia. pose proof (u32_range (n - hdrlen)) as Hu.
  assert (Ha' : accepts s0 (p + hdrlen)) by (apply (accepts_later p); [done|lia]).
  pose proof (ether_payload_law s0 (p + hdrlen) (u32 (n - hdrlen)) (c - hdrlen) src dst control Hok Hea ltac:(lia) ltac:(lia) ltac:(lia) Hsrc Hdst) as Hlaw. spread Hlaw.
  repeat match goal with |- safe _ _ (if ?b then _ else _) _ => destruct b end; try (apply safe_then_ret; [other|lia]).
  - eapply safe_bind; [apply safe_snap; try done; try lia; intros q m k Hq Hm Hk; apply Hb; lia|]. intros known _. apply safe_ret. destruct known; lia.
  - apply safe_then_ret; [|lia]. apply safe_allow_trunc. apply safe_ip_print; done || lia.
  - eapply safe_bind; [by apply safe_opt|]. intros _ _. apply safe_then_ret; [other|lia].
  - eapply safe_weaken; [apply safe_llc_frame; done || lia|]. cbv beta. lia.
Qed.

Lemma safe_llc T p n c src dst : 0 <= p -> 0 <= n -> 0 <= c < 2 ^ 32 -> p + c = ndo_snapend s0 -> accepts s0 p ->
  lladdr_opt_ok s0 src -> lladdr_opt_ok s0 dst -> ether_below c ->
  safe T s0 (llc_print GUESS_TSO ENABLE_SMB opts ether p n c src dst) (fun r => Z.abs r <= 9).
Proof.
  intros Hp Hn Hc He Ha Hsrc Hdst Hb. unfold llc_print. cbv zeta. safe_step.
  pose proof (ether_payload_law s0 p n c src dst 0 Hok Hea Hp ltac:(lia) ltac:(lia) Hsrc Hdst) as Hlaw. spread Hlaw.
  assert (Hcut : forall r, 0 <= r <= 9 -> safe T s0 (nd_print_trunc ;~ ND_DEFAULTPRINT p c ;~ pret r) (fun r => Z.abs r <= 9)).
  { intros r Hr. safe_step. apply safe_then_ret; [apply safe_default; done || lia|lia]. }
  assert (Hgo : forall control hdrlen is_u df sf, 0 <= hdrlen <= 4 -> hdrlen <= c -> 0 <= df -> 0 <= sf -> 0 <= control -> safe T s0
    (if (sf =? LLCSAP_GLOBAL) && (df =? LLCSAP_GLOBAL) then
       eflag <~ flag f_eflag ;; (if negb (eflag =? 0) then ND_PRINT "IPX 802.3: " else pret tt) ;~ ipx_print p n ;~ pret 0
     else llc_payload GUESS_TSO ENABLE_SMB opts ether p n c hdrlen control df sf is_u src dst) (fun r => Z.abs r <= 9)).
  { intros. destruct (_ && _); [|by apply safe_llc_payload; try done; lia]. safe_step. eapply safe_bind; [by apply safe_opt|]. intros _ _. apply safe_then_ret; [other|lia]. }
  destruct (Z.ltb_spec c 3); [apply Hcut; lia|]. destruct (Z.ltb_spec n 3); [apply Hcut; lia|]. do 3 safe_step. safe_step; [apply Hgo; lia|].
  destruct (Z.ltb_spec c 4); [apply Hcut; lia|]. destruct (Z.ltb_spec n 4); [apply Hcut; lia|]. safe_step.
  match goal with H : _ /\ _ /\ bytes_ok ?l = true |- _ => pose proof (le_val_bound l (proj2 (proj2 H))) end. apply Hgo; lia.
Qed.

Lemma safe_ether_llc T p n c hdrlen src dst : 0 <= p -> 0 <= n -> 0 <= c < 2 ^ 32 -> p + c = ndo_snapend s0 -> accepts s0 p ->
  lladdr_ok s0 src -> lladdr_ok s0 dst -> ether_below c ->
  safe T s0 (ether_llc GUESS_TSO ENABLE_SMB opts suppress ether p n c hdrlen src dst) (fun r => 0 <= r < 2 ^ 32).
Proof.
  intros Hp Hn Hc He Ha Hsrc Hdst Hb. unfold ether_llc. eapply safe_bind; [by apply safe_llc|]. intros r Hr.
  eapply (safe_bind _ _ _ _ (fun _ => True)); [|intros _ _; apply safe_ret, u32_range].
  destruct (_ && _); [|by safe_step]. apply safe_default; done || lia.
Qed.

Lemma safe_ether_recurse T fuel again src dst : (forall T, safe T s0 again (fun _ => True)) -> lladdr_ok s0 src -> lladdr_ok s0 dst ->
  forall lt p n c hdrlen, 0 <= p -> 0 <= n -> 0 <= c < 2 ^ 32 -> c < Z.of_nat fuel -> p + c = ndo_snapend s0 -> accepts s0 p -> ether_below (c + 1) ->
  0 <= hdrlen < 2 ^ 32 ->
  safe T s0 (ether_recurse GUESS_TSO ENABLE_SMB opts suppress fuel ether again src dst lt p n c hdrlen) (fun r => 0 <= r < 2 ^ 32).
Proof.
  intros Hag Hsrc Hdst. induction fuel as [|f IH]; intros lt p n c hdrlen Hp Hn Hc Hf He Ha Hb Hh; [lia|]. cbn [ether_recurse].
  assert (Hb' : ether_below c) by (intros q m k Hq Hm Hk; apply Hb; lia).
  assert (Hllc : safe T s0 (ether_llc GUESS_TSO ENABLE_SMB opts suppress ether p n c hdrlen src dst) (fun r => 0 <= r < 2 ^ 32)) by (by apply safe_ether_llc).
  destruct (_ <=? _); [exact Hllc|]. destruct (vlan_type lt).
  - destruct (Z.ltb_spec c 4); [safe_step; apply safe_ret, u32_range|]. destruct (Z.ltb_spec n 4); [safe_step; apply safe_ret, u32_range|].
    safe_step. eapply (safe_bind _ _ _ _ (fun _ => True)). { destruct (negb _); [|by safe_step]. safe_step. apply safe_print. names_tac. }
    intros _ _. safe_step. eapply safe_bind; [apply safe_opt; names_tac|]. intros _ _.
    apply IH; try lia; [apply (accepts_later p); [done|lia]| |apply u32_range]. intros q m k Hq Hm Hk. apply Hb; lia.
  - destruct (_ =? ETHERTYPE_JUMBO); [exact Hllc|]. eapply safe_bind; [apply safe_ethertype; done || lia|]. intros known _.
    apply safe_then_ret; [|done]. destruct known; [by safe_step|]. safe_step. eapply (safe_bind _ _ _ _ (fun _ => True)).
    { destruct (_ =? 0); [apply Hag|by safe_step]. }
    intros _ _. destruct suppress; [by safe_step|]. apply safe_default; done || lia.
Qed.
End Safety.

Section Frames.
Context (s0 : netdissect_options) (Hok : ndo_ok s0) (GUESS_TSO ENABLE_SMB : bool) `{PrinterLaws} `{ResolverLaws} `{EtherLaws}.
Context (opts : name_options) (suppress : bool) (Hea : ether_accepts s0).

Lemma safe_ether_nested fuel : forall T p n c encap, match encap with Some e => forall T, safe T s0 e (fun _ => True) | None => True end ->
  0 <= p -> 0 <= n -> 0 <= c < 2 ^ 32 -> c < Z.of_nat fuel -> p + c = ndo_snapend s0 -> accepts s0 p ->
  safe T s0 (ether_nested GUESS_TSO ENABLE_SMB opts suppress fuel p n c encap) (fun r => 0 <= r).
Proof.
  induction fuel as [|f IH]; intros T p n c encap Hen Hp Hn Hc Hf He Ha; [lia|]. cbn [ether_nested]. cbv zeta. safe_step.
  unfold ETHER_HDRLEN. destruct (Z.ltb_spec c 14); [safe_step; safe_step; lia|]. destruct (Z.ltb_spec n 14); [safe_step; safe_step; lia|].
  assert (Hr : readable s0 p 14) by (apply readable_captured; done || lia).
  assert (Hhdr : forall T, safe T s0 (match encap with Some e => e ;~ ether_hdr_print opts p n | None => ether_hdr_print opts p n end) (fun _ => True)).
  { intros T'. destruct encap as [e|]; [|by apply safe_ether_hdr]. eapply safe_bind; [apply Hen|]. intros _ _. by apply safe_ether_hdr. }
  safe_step. eapply (safe_bind _ _ _ _ (fun _ => True)). { destruct (negb _); [apply Hhdr|by safe_step]. }
  intros _ _. safe_step. eapply safe_weaken; [apply (safe_ether_recurse s0 Hok GUESS_TSO ENABLE_SMB opts suppress Hea); try done; try lia|cbv beta; lia].
  - apply (lladdr_ether s0 Hok opts). unfold MAC_ADDR_LEN. readable_tac.
  - apply (lladdr_ether s0 Hok opts). unfold MAC_ADDR_LEN. readable_tac.
  - apply (accepts_later s0 Hok p); [done|lia].
  - intros q m k Hq Hm Hk Hqk Haq. eapply safe_bind; [apply IH; done || lia|]. intros r _. by apply safe_ret.
Qed.

Lemma safe_ether_print T p n c encap : match encap with Some e => forall T, safe T s0 e (fun _ => True) | None => True end ->
  0 <= p -> 0 <= n -> 0 <= c < 2 ^ 32 -> p + c = ndo_snapend s0 -> accepts s0 p ->
  safe T s0 (ether_print GUESS_TSO ENABLE_SMB opts suppress p n c encap) (fun r => 0 <= r).
Proof. intros Hen Hp Hn Hc He Ha. apply safe_ether_nested; done || lia. Qed.

(** A printer of the link layer: every frame it is given ends with the captured data. *)
Definition link_ok (printer : pcap_pkthdr -> Z -> pr Z) : Prop :=
  forall h p, 0 <= p -> 0 <= len h -> 0 <= caplen h < 2 ^ 32 -> p + caplen h = ndo_snapend s0 -> accepts s0 p ->
  safe false s0 (printer h p) (fun r => 0 <= r).

Lemma safe_skip_header k h p : 0 <= k -> 0 <= p -> 0 <= len h -> 0 <= caplen h < 2 ^ 32 -> p + caplen h = ndo_snapend s0 -> accepts s0 p ->
  safe false s0 (skip_header GUESS_TSO ENABLE_SMB opts suppress k h p) (fun r => 0 <= r).
Proof.
  intros Hk Hp Hl Hc He Ha. unfold skip_header. destruct (Z.ltb_spec (len h) k), (Z.ltb_spec (caplen h) k); cbn [orb]; try (safe_step; safe_step; lia).
  eapply safe_bind; [apply safe_ether_print; try done; try lia; apply (accepts_later s0 Hok p); [done|lia]|]. intros r Hr. apply safe_ret. apply u32_range.
Qed.

Lemma link_printers : Forall link_ok
  [ether_if_print GUESS_TSO ENABLE_SMB opts suppress; netanalyzer_if_print GUESS_TSO ENABLE_SMB opts suppress;
   netanalyzer_transparent_if_print GUESS_TSO ENABLE_SMB opts suppress].
Proof.
  repeat (apply Forall_cons; split); [..|by apply Forall_nil]; intros h p Hp Hl Hc He Ha; unfold ether_if_print, netanalyzer_if_print, netanalyzer_transparent_if_print; safe_step;
    [by apply safe_ether_print|apply safe_skip_header; done || lia..].
Qed.
End Frames.

(** ** A captured packet *)

Record dump_flags := mk_dump { ndo_packet_number : bool; ndo_Xflag : Z; ndo_xflag : Z; ndo_Aflag : Z }.

(** A remark on the header; whether there was one. *)
Definition header_fault (b : bool) (what : string) (invalid_header : bool) : pr bool :=
  if b then ND_PRINT (if invalid_header then "," else "[Invalid header:") ;~ ND_PRINT what ;~ pret true else pret invalid_header.

(** The sanity checks on the lengths. *)
Definition header_faults (h : pcap_pkthdr) : pr bool :=
  i <~ header_fault (caplen h =? 0) " caplen==0" false ;;
  i <~ header_fault (len h =? 0) " len==0" i ;;
  i <~ header_fault (negb (len h =? 0) && (len h <? caplen h)) (" len(" +:+ dec (len h) +:+ ") < caplen(" +:+ dec (caplen h) +:+ ")") i ;;
  i <~ header_fault (caplen h >? MAXIMUM_SNAPLEN) (" caplen(" +:+ dec (caplen h) +:+ ") > " +:+ dec MAXIMUM_SNAPLEN) i ;;
  header_fault (len h >? MAXIMUM_SNAPLEN) (" len(" +:+ dec (len h) +:+ ") > " +:+ dec MAXIMUM_SNAPLEN) i.

Fixpoint pad_left (k : nat) (t : string) : string := match k with O => t | S k' => " " +:+ pad_left k' t end.
Definition width5 (n : Z) : string := pad_left (5 - String.length (dec n)) (dec n).

Section Packet.
Context (if_printer : pcap_pkthdr -> Z -> pr Z) (localtime gmtime : Z -> option tm) (d : dump_flags).

(** What [-X], [-x] and [-A] add; [dump] prints bytes. *)
Definition raw_dump (flag : Z) (dump : Z -> Z -> pr unit) (sp n hdrlen : Z) : pr unit :=
  if flag >? 1 then dump sp n
  else if n >? hdrlen then dump (sp + hdrlen) (n - hdrlen) else pret tt.

(** The time stamp the next one may be printed relative to is returned. *)
Definition pretty_print_packet (tv_ref : timeval) (h : pcap_pkthdr) (sp packets_captured : Z) : pr timeval :=
  (if ndo_packet_number d then ND_PRINT (width5 packets_captured +:+ "  ") else pret tt) ;~
  invalid_header <~ header_faults h ;;
  if (invalid_header : bool) then ND_PRINT ("]" +:+ char1 10) ;~ pret tv_ref
  else
    tv_ref <~ ts_print localtime gmtime tv_ref (ts h) ;;
    set_snapend (sp + caplen h) ;~
    hdrlen <~ if_printer h sp ;;
    set_snapend (sp + caplen h) ;~
    (if negb (ndo_Xflag d =? 0) then raw_dump (ndo_Xflag d) (hex_and_ascii_print dump_ident) sp (caplen h) hdrlen
     else if negb (ndo_xflag d =? 0) then raw_dump (ndo_xflag d) (hex_print dump_ident) sp (caplen h) hdrlen
     else if negb (ndo_Aflag d =? 0) then raw_dump (ndo_Aflag d) ascii_print sp (caplen h) hdrlen
     else pret tt) ;~
    ND_PRINT (char1 10) ;~ pret tv_ref.
End Packet.

(** *** Printing only *)

(** [m] prints clean text, changes nothing else and looks at the options alone. *)
Definition prints {A} (m : pr A) : Prop := forall s, exists a t, m s = (Done a, emit t s) /\ clean t = true.

Lemma prints_ret {A} (a : A) : prints (pret a).
Proof. intros s. exists a, EmptyString. split; [|done]. unfold pret, emit. rewrite sapp_nil_r. by destruct s. Qed.

Lemma prints_print t : clean t = true -> prints (ND_PRINT t).
Proof. intros Ht s. by exists tt, t. Qed.

Lemma prints_bind {A B} (m : pr A) (k : A -> pr B) : prints m -> (forall a, prints (k a)) -> prints (pbind m k).
Proof.
  intros Hm Hk s. destruct (Hm s) as (a & t & Hr & Ht). destruct (Hk a (emit t s)) as (b & u & Hr' & Hu). exists b, (t +:+ u). unfold pbind. rewrite Hr, Hr'.
  split; [|by apply clean_app2]. unfold emit. cbn. by rewrite sapp_assoc.
Qed.

Lemma prints_flag {A} f (k : Z -> pr A) : (forall v, prints (k v)) -> prints (pbind (flag f) k).
Proof. intros Hk s. exact (Hk _ s). Qed.

Create HintDb prints.
#[export] Hint Resolve prints_ret prints_print prints_bind prints_flag : prints.

Ltac prints_tac :=
  repeat match goal with
  | |- prints (pbind (flag _) _) => apply prints_flag; intros ?
  | |- prints (pbind _ _) => apply prints_bind; [|intros ?]
  | |- prints (if ?b then _ else _) => destruct b
  | |- prints (pret _) => apply prints_ret
  | |- prints (ND_PRINT _) => apply prints_print; clean_tac
  end.

Lemma prints_frac usec : prints (ts_frac_print usec).
Proof. unfold ts_frac_print. prints_tac. Qed.

Lemma prints_date conv sec usec b : prints (ts_date_hmsfrac_print conv sec usec b).
Proof.
  unfold ts_date_hmsfrac_print. destruct (negb _); [prints_tac|]. destruct (conv sec) as [t|]; [|prints_tac]. apply prints_bind; [|intros _; apply prints_frac].
  apply prints_print. unfold strftime_date_time, strftime_time. clean_tac.
Qed.

Lemma prints_ts localtime gmtime r t : prints (ts_print localtime gmtime r t).
Proof.
  unfold ts_print, ts_unix_print. prints_tac; try apply prints_date; try apply prints_frac.
Qed.

Lemma clean_width5 n : clean (width5 n) = true.
Proof. unfold width5. induction (5 - String.length (dec n))%nat as [|k IH]; [apply clean_dec|]. cbn [pad_left]. by apply clean_app2. Qed.

Lemma safe_restore T s0 : ndo_ok s0 -> safe T s0 (set_snapend (ndo_snapend s0)) (fun _ => True).
Proof. intros (_ & _ & Hs & _) s (E1 & E2 & E3 & E4 & E5 & E6). split; [|done]. split_and!; cbn; done || lia. Qed.

Lemma safe_raw_dump T s0 fl dump sp n hdrlen : (forall p k, 0 <= p -> 0 <= k -> safe T s0 (dump p k) (fun _ => True)) ->
  0 <= sp -> 0 <= n -> 0 <= hdrlen -> safe T s0 (raw_dump fl dump sp n hdrlen) (fun _ => True).
Proof.
  intros Hd Hsp Hn Hh. unfold raw_dump. destruct (_ >? 1); [by apply Hd|]. destruct (Z.gtb_spec n hdrlen); [apply Hd; lia|by apply safe_ret].
Qed.

(** From the call of the printer on. *)
Lemma safe_packet_body s0 printer d h sp (r : timeval) : ndo_ok s0 -> 0 <= sp -> 0 <= caplen h -> ndo_snapend s0 = sp + caplen h ->
  safe false s0 (printer h sp) (fun r => 0 <= r) ->
  safe false s0 (hdrlen <~ printer h sp ;;
    set_snapend (sp + caplen h) ;~
    (if negb (ndo_Xflag d =? 0) then raw_dump (ndo_Xflag d) (hex_and_ascii_print dump_ident) sp (caplen h) hdrlen
     else if negb (ndo_xflag d =? 0) then raw_dump (ndo_xflag d) (hex_print dump_ident) sp (caplen h) hdrlen
     else if negb (ndo_Aflag d =? 0) then raw_dump (ndo_Aflag d) ascii_print sp (caplen h) hdrlen
     else pret tt)) (fun _ => True).
Proof.
  intros Hok Hsp Hc He Hpr. eapply safe_bind; [exact Hpr|]. intros hdrlen Hh. cbv beta in Hh. rewrite <- He.
  eapply safe_bind; [by apply safe_restore|]. intros _ _.
  destruct (negb _); [|destruct (negb _); [|destruct (negb _); [|by apply safe_ret]]]; apply safe_raw_dump; try done; intros p k Hp Hk;
    [by apply safe_hex_and_ascii|by apply safe_hex_print|by apply safe_ascii_print].
Qed.

(** ** Frames with tags *)

(** At [q] there is a type field, or a tag in front of it for every element of [tags]. *)
Fixpoint tags_at (s : netdissect_options) (q : Z) (tags : list Z) (et : Z) : Prop :=
  match tags with
  | [] => mem_read (ndo_packet s) q 2 = Some (be_bytes 2 et)
  | tpid :: tags' => mem_read (ndo_packet s) q 2 = Some (be_bytes 2 tpid) /\ 0 <= tpid < 65536 /\ vlan_type tpid = true /\ tags_at s (q + 4) tags' et
  end.

Section Tags.
Context (GUESS_TSO ENABLE_SMB : bool) `{Printers} `{Resolver} `{EtherPrinters} (opts : name_options) (suppress : bool).
Context (s : netdissect_options) (Hef : f_eflag (ndo_flags s) = 0) (et : Z) (Het : 1500 < et < 65536) (Hnv : vlan_type et = false) (Hnj : et <> ETHERTYPE_JUMBO).

Lemma run_type q v : mem_read (ndo_packet s) q 2 = Some (be_bytes 2 v) -> 0 <= v < 65536 -> EXTRACT_BE_U_2 q s = (Done v, s).
Proof.
  intros Hr Hv. unfold EXTRACT_BE_U_2, pbind, load. rewrite Hr. unfold pret. rewrite be_val_bytes. by rewrite Z.mod_small by (cbn; lia).
Qed.

(** What follows the last tag. *)
Definition ether_payload (again : pr unit) (src dst : lladdr_info) (p n c hdrlen : Z) : pr Z :=
  known <~ ethertype_print GUESS_TSO opts et p n c (Some src) (Some dst) ;;
  (if (known : bool) then pret tt
   else eflag <~ flag f_eflag ;; (if eflag =? 0 then again else pret tt) ;~ if suppress then pret tt else ND_DEFAULTPRINT p c) ;~
  pret hdrlen.

Lemma vlan_type_high v : vlan_type v = true -> MAX_ETHERNET_LENGTH_VAL < v.
Proof. unfold vlan_type. intros Hv. apply existsb_exists in Hv as (x & Hx & Hvx). apply Z.eqb_eq in Hvx as ->. cbn in Hx. unfold MAX_ETHERNET_LENGTH_VAL. naive_solver. Qed.

Lemma run_tags ether again src dst tags : forall fuel v q n c hdrlen,
  tags_at s q tags et -> v = hd et tags -> 4 * Z.of_nat (length tags) <= n -> 4 * Z.of_nat (length tags) <= c -> c < Z.of_nat fuel ->
  0 <= hdrlen -> hdrlen + 4 * Z.of_nat (length tags) < 2 ^ 32 ->
  let k := 4 * Z.of_nat (length tags) in
  ether_recurse GUESS_TSO ENABLE_SMB opts suppress fuel ether again src dst v (q + 2) n c hdrlen s =
  ether_payload again src dst (q + 2 + k) (n - k) (c - k) (hdrlen + k) s.
Proof.
  induction tags as [|tpid tags IH]; intros fuel v q n c hdrlen Htg Hv Hn Hc Hf Hh Hlim k; subst k v; (destruct fuel as [|f]; [lia|]); cbn [ether_recurse hd length] in *.
  - rewrite (proj2 (Z.leb_gt _ _)) by (unfold MAX_ETHERNET_LENGTH_VAL; lia). rewrite Hnv, (proj2 (Z.eqb_neq _ _)) by done.
    rewrite !Z.mul_0_r, !Z.sub_0_r, !Z.add_0_r. done.
  - destruct Htg as (Hr & Hrange & Hvl & Htg). rewrite (proj2 (Z.leb_gt _ _)) by (by apply vlan_type_high). rewrite Hvl.
    rewrite (proj2 (Z.ltb_ge c 4)), (proj2 (Z.ltb_ge n 4)) by lia. erewrite run_bind by reflexivity. rewrite Hef. cbn [Z.eqb negb andb].
    erewrite run_bind by reflexivity. replace (q + 2 + 2) with (q + 4) by lia.
    assert (Hnext : EXTRACT_BE_U_2 (q + 4) s = (Done (hd et tags), s)).
    { destruct tags as [|t2 tags]; [apply run_type; [exact Htg|cbn [hd]; lia]|]. destruct Htg as (Hr2 & Hrange2 & _). by apply run_type. }
    erewrite run_bind by exact Hnext. erewrite run_bind by reflexivity. rewrite u32_small by lia.
    replace (q + 2 + 4) with (q + 4 + 2) by lia. rewrite IH by (done || lia). f_equal; lia.
Qed.
End Tags.

(** ** Claims *)

(** Whether the capture header is one [pretty_print_packet] refuses. *)
Definition bad_header (h : pcap_pkthdr) : bool :=
  (caplen h =? 0) || (len h <? caplen h) || (len h >? MAXIMUM_SNAPLEN).

(** The remarks on a capture header, and when there are any. *)
Lemma run_faults h : 0 <= len h -> 0 <= caplen h ->
  forall s, exists t, clean t = true /\ header_faults h s = (Done (bad_header h), emit t s).
Proof.
  intros Hl Hc s. unfold header_faults.
  assert (Hone : forall b what i, clean what = true -> forall s, exists t, clean t = true /\ header_fault b what i s = (Done (b || i), emit t s)).
  { intros b what i Hw s1. destruct b; [|exists EmptyString; unfold header_fault, pret, emit; rewrite sapp_nil_r; by destruct s1].
    exists ((if i then "," else "[Invalid header:") +:+ what)%string. split; [by destruct i; apply clean_app2|].
    unfold header_fault, pbind, ND_PRINT, pret, emit. cbn. by rewrite sapp_assoc. }
  edestruct (Hone (caplen h =? 0) " caplen==0"%string false eq_refl s) as (t1 & H1 & E1). erewrite run_bind by exact E1.
  edestruct (Hone (len h =? 0) " len==0"%string) as (t2 & H2 & E2); [done|]. erewrite run_bind by exact E2.
  edestruct (Hone (negb (len h =? 0) && (len h <? caplen h))) as (t3 & H3 & E3); [|erewrite run_bind by exact E3]; [clean_tac|].
  edestruct (Hone (caplen h >? MAXIMUM_SNAPLEN)) as (t4 & H4 & E4); [|erewrite run_bind by exact E4]; [clean_tac|].
  edestruct (Hone (len h >? MAXIMUM_SNAPLEN)) as (t5 & H5 & E5); [|rewrite E5]; [clean_tac|].
  exists (t1 +:+ (t2 +:+ (t3 +:+ (t4 +:+ t5))))%string. split; [by repeat apply clean_app2|]. unfold emit. cbn. rewrite !sapp_assoc. do 2 f_equal. unfold bad_header, MAXIMUM_SNAPLEN.
  destruct (Z.eqb_spec (caplen h) 0), (Z.eqb_spec (len h) 0), (Z.ltb_spec (len h) (caplen h)), (Z.gtb_spec (caplen h) 262144), (Z.gtb_spec (len h) 262144); cbn; done || lia.
Qed.

(** The line of a packet, for any printers that follow the rule. *)
Lemma packet_line `{PrinterLaws} `{ResolverLaws} `{EtherLaws} GUESS_TSO ENABLE_SMB opts suppress localtime gmtime d printer tv_ref h sp count s :
  ndo_ok (with_snapend (sp + caplen h) s) -> 0 <= sp -> 0 <= len h -> 0 <= caplen h ->
  accepts (with_snapend (sp + caplen h) s) sp -> ether_accepts (with_snapend (sp + caplen h) s) ->
  printer ∈ [ether_if_print GUESS_TSO ENABLE_SMB opts suppress; netanalyzer_if_print GUESS_TSO ENABLE_SMB opts suppress;
             netanalyzer_transparent_if_print GUESS_TSO ENABLE_SMB opts suppress] ->
  exists r s' t, pretty_print_packet printer localtime gmtime d tv_ref h sp count s = (Done r, s') /\ ndo_packet s' = ndo_packet s /\
    ndo_out s' = ndo_out s +:+ t +:+ char1 10 /\ clean t = true /\ (bad_header h = true -> ndo_snapend s' = ndo_snapend s /\ r = tv_ref).
Proof.
  intros Hok Hsp Hl Hc Ha Hea Hin. set (e := sp + caplen h) in *. unfold pretty_print_packet.
  assert (Hnum : prints (if ndo_packet_number d then ND_PRINT (width5 count +:+ "  ") else pret tt))
    by (destruct (ndo_packet_number d); [apply prints_print, clean_app2; [apply clean_width5|done]|apply prints_ret]).
  destruct (Hnum s) as ([] & t0 & E0 & C0). erewrite run_bind by exact E0. clear Hnum.
  destruct (run_faults h Hl Hc (emit t0 s)) as (t1 & C1 & E1). erewrite run_bind by exact E1. destruct (bad_header h) eqn:Hbad.
  { exists tv_ref. eexists _, (t0 +:+ t1 +:+ "]")%string. split; [reflexivity|]. cbn. split_and!; [done|by rewrite !sapp_assoc|by repeat apply clean_app2|done]. }
  destruct (prints_ts localtime gmtime tv_ref (ts h) (emit t1 (emit t0 s))) as (r & t2 & E2 & C2). erewrite run_bind by exact E2.
  set (s1 := emit t2 (emit t1 (emit t0 s))). erewrite run_bind by reflexivity. fold e.
  assert (Hext : ndo_ext (with_snapend e s) (with_snapend e s1)).
  { change (with_snapend e s1) with (emit t2 (emit t1 (emit t0 (with_snapend e s)))). repeat apply ndo_ext_emit; try done. by apply ndo_ext_refl. }
  assert (Hok1 : ndo_ok (with_snapend e s1)) by exact Hok.
  assert (Hlen : caplen h < 2 ^ 32) by (unfold bad_header, MAXIMUM_SNAPLEN in Hbad; bool_to_prop; lia).
  assert (Hlink : safe false (with_snapend e s1) (printer h sp) (fun r => 0 <= r)).
  { pose proof (link_printers _ Hok1 GUESS_TSO ENABLE_SMB opts suppress (ether_accepts_mono _ _ Hext Hea)) as Hall. rewrite Forall_forall in Hall.
    apply (Hall printer Hin); try done. exact (accepts_mono _ _ _ _ Hext (Z.le_refl sp) Ha). }
  pose proof (safe_packet_body (with_snapend e s1) printer d h sp r Hok1 Hsp Hc eq_refl Hlink _ (ndo_ext_refl _ Hok1)) as Hrun.
  fold e in Hrun. exists r. revert Hrun. unfold pbind, set_snapend. destruct (printer h sp (with_snapend e s1)) as [[hdrlen|[]] s2]; try (by intros []).
  match goal with |- match ?m ?x with _ => _ end -> _ => destruct (m x) as [[u|[]] s3] end; try (by intros []).
  intros [(E3 & _ & _ & _ & _ & t3 & Ho & C3) _]. exists (emit (char1 10) s3), (t0 +:+ t1 +:+ t2 +:+ t3)%string. split; [done|]. cbn. split_and!; [exact E3| |by repeat apply clean_app2|done].
  rewrite Ho. subst s1. cbn. by rewrite !sapp_assoc.
Qed.

(** Printers that show the name of their protocol. *)
#[export] Instance plain_ether_printers : EtherPrinters := {|
  atalk_print _ _ := named "atalk"; aarp_print _ _ := named "aarp"; ipx_print _ _ := named "ipx"; isoclns_print _ _ := named "isoclns";
  pppoe_print _ _ := named "pppoe"; eap_print _ _ := named "eap"; ppp_print _ _ := named "ppp"; mpcp_print _ _ := named "mpcp";
  slow_print _ _ := named "slow"; cfm_print _ _ := named "cfm"; lldp_print _ _ := named "lldp"; nsh_print _ _ := named "nsh";
  loopback_print _ _ := named "loopback"; mpls_print _ _ := named "mpls"; aoe_print _ _ := named "aoe"; stp_print _ _ := named "stp";
  dtp_print _ _ := named "dtp"; udld_print _ _ := named "udld"; vtp_print _ _ := named "vtp"; msnlb_print _ := named "msnlb";
  decnet_print _ _ _ := named "decnet"; tipc_print _ _ _ := named "tipc"; cdp_print _ _ _ := named "cdp"; token_print _ _ _ := named "token";
  fddi_print _ _ _ := named "fddi"; netbeui_print _ _ _ := named "netbeui"; geonet_print _ _ _ := named "geonet"; calm_fast_print _ _ _ := named "calm";
  rrcp_print _ _ _ _ := named "rrcp"; medsa_print _ _ _ _ _ := named "medsa" |}.

#[export] Instance plain_ether_printers_laws : EtherLaws.
Proof. exists (fun _ => True); intros; [done|]. repeat (apply Forall_cons; split; [by apply safe_print|]). done. Defined.

(** The datagram of [sample_udp] in a frame with two tags; two bytes of the buffer follow it. *)
Definition sample_frame : list Z :=
  [0; 1; 2; 3; 4; 5] ++ [0; 0; 12; 7; 172; 1] ++ [0x88; 0xa8; 0; 7; 0x81; 0; 0x20; 9; 8; 0] ++ ndo_packet sample_udp.
Definition sample_capture : netdissect_options := mk_ndo (sample_frame ++ [0; 0]) 4096 (mk_flags 0 0 1 0 0 1 0 0) 0 "" "".

(** A frame with a datagram that carries an ICMP message of two bytes, nothing behind it. *)
Definition short_icmp_frame : netdissect_options :=
  mk_ndo ([0; 1; 2; 3; 4; 5] ++ [0; 0; 12; 7; 172; 1] ++ [8; 0] ++ ndo_packet short_icmp) 4096 (mk_flags 1 0 1 0 0 1 0 0) 0 "" "".




