(* ===== verification/EndToEnd.v ===== *)
(** * From the module to the display

    Composes the transmit path of the module ([Xmit]) with the printer of the
    modified tcpdump ([PrintIp]): a frame that left with the option is shown with
    its CPU and its sequence number, and without a checksum complaint. *)
From stdpp Require Import base list numbers strings.
From Stdlib Require Import ZArith Lia.
From S2P Require Import Prelude OnesComp Abi InCksum Cstring Ring State Xmit Netdissect UtilPrint IpProto PrintIp PrintIcmp PrintTcp PrintUdp PrintIp6.

Open Scope Z_scope.
Open Scope pr_scope.

(** ** The text *)

(** A field of a header. *)
Definition fld (hdr : list Z) (k n : nat) : Z := be_val (take n (drop k hdr)).

(** What [ip_print -v] shows of a header with one Pval option and a good
    checksum, before the payload. *)
Definition pval_header_text (tos ttl id off proto len cpu seq : Z) : string :=
  "IP (tos 0x" +:+ hex tos +:+ ecn_text tos +:+ (if 1 <=? ttl then ", ttl " +:+ dec ttl else EmptyString)
  +:+ ", id " +:+ dec id +:+ ", offset " +:+ dec (Z.land off 0x1fff * 8) +:+ ", flags ["
  +:+ bittok2str ip_frag_values (Some (fun _ => "none"%string)) (Z.land off 0xe000) +:+ "], proto "
  +:+ tok2str ipproto_values (Some (fun _ => "unknown"%string)) proto +:+ " (" +:+ dec proto +:+ ")"
  +:+ ", length " +:+ dec len +:+ ", options (pval cpu " +:+ dec cpu +:+ ", seq " +:+ dec seq +:+ ")"
  +:+ ")" +:+ String (chr 10) "    ".

Section Display.
Context `{Printers} (GUESS_TSO : bool).
Context (pre hdr opt rest : list Z) (base : Z) (fl : nd_flags) (cpu seq : Z).
Context (Hhdr : length hdr = 20%nat) (Hhb : bytes_ok hdr = true) (Hopt : opt = pval_option cpu seq).

Notation pkt := (pre ++ hdr ++ opt ++ rest).
Notation bp := (Z.of_nat (length pre)).

(** The contexts the run goes through. *)
Definition st (e : Z) (o : string) : netdissect_options := mk_ndo pkt base fl e "ip" o.

Context (Hpre : bytes_ok pre = true) (Hrest : bytes_ok rest = true).
Context (Hbase : 0 <= base /\ base + Z.of_nat (length pkt) < 2 ^ 64).

Lemma length_opt : length opt = 12%nat.
Proof. rewrite Hopt. apply length_ipopt_pval_bytes. Qed.

Lemma st_ok e o : 0 <= e <= Z.of_nat (length pkt) -> ndo_ok (st e o).
Proof.
  intros He. unfold ndo_ok, st. cbn [ndo_packet ndo_base ndo_snapend ndo_protocol]. split_and!; try lia; [|done].
  rewrite !bytes_ok_app. split_and!; try done. rewrite Hopt. apply bytes_ok_ipopt_pval_bytes.
Qed.

Lemma run_print t e o : ND_PRINT t (st e o) = (Done tt, st e (o +:+ t)).
Proof. done. Qed.

Lemma run_tcheck p n e o :
  0 <= p -> 0 <= n -> p + n <= e <= Z.of_nat (length pkt) -> ND_TCHECK_LEN p n (st e o) = (Done tt, st e o).
Proof.
  intros Hp Hn He. unfold ND_TCHECK_LEN, pbind, ND_TTEST_LEN, asks.
  rewrite ttest_len_complete; [done|apply st_ok; lia|done..|cbn; lia].
Qed.

Lemma run_load_hdr (k n : nat) e o :
  (k + n <= 20)%nat -> load (bp + Z.of_nat k) (Z.of_nat n) (st e o) = (Done (take n (drop k hdr)), st e o).
Proof.
  intros Hk. unfold load. cbn [ndo_packet st].
  rewrite (mem_read_at pre (hdr ++ opt ++ rest) (Z.of_nat k) (Z.of_nat n) (take n (drop k hdr))); [done|lia|].
  rewrite !Nat2Z.id. apply slice_Some. rewrite length_app, Hhdr. split; [lia|].
  rewrite drop_app_le, take_app_le by (rewrite ?length_drop; lia). done.
Qed.

Lemma run_u1 (k : nat) e o : (k < 20)%nat -> EXTRACT_U_1 (bp + Z.of_nat k) (st e o) = (Done (fld hdr k 1), st e o).
Proof. intros. unfold EXTRACT_U_1. erewrite run_bind by (apply (run_load_hdr k 1); lia). done. Qed.

Lemma run_u2 (k : nat) e o : (k < 19)%nat -> EXTRACT_BE_U_2 (bp + Z.of_nat k) (st e o) = (Done (fld hdr k 2), st e o).
Proof. intros. unfold EXTRACT_BE_U_2. erewrite run_bind by (apply (run_load_hdr k 2); lia). done. Qed.

(** ** The option *)

Lemma run_load_opt e o : load (bp + 20) 12 (st e o) = (Done opt, st e o).
Proof.
  unfold load. cbn [ndo_packet st]. rewrite app_assoc.
  rewrite (mem_read_mid (pre ++ hdr) opt rest); [done|rewrite length_app, Hhdr; lia|by rewrite length_opt].
Qed.

Lemma run_opt_byte (k : nat) v e o :
  opt !! k = Some v -> EXTRACT_U_1 (bp + 20 + Z.of_nat k) (st e o) = (Done v, st e o).
Proof.
  intros Hv. assert (Hk : (k < 12)%nat) by (rewrite <- length_opt; by eapply lookup_lt_Some).
  unfold EXTRACT_U_1. erewrite run_bind.
  2:{ unfold load. cbn [ndo_packet st]. rewrite app_assoc.
      replace (bp + 20 + Z.of_nat k) with (Z.of_nat (length (pre ++ hdr)) + Z.of_nat k) by (rewrite length_app, Hhdr; lia).
      rewrite (mem_read_at _ _ _ _ [v]); [done|lia|]. rewrite Nat2Z.id. apply slice_Some.
      rewrite length_app, length_opt. split; [cbn; lia|].
      rewrite drop_app_le, take_app_le by (rewrite ?length_drop, length_opt; cbn; lia). by rewrite (drop_S _ v). }
  unfold pret. by rewrite be_val_1.
Qed.

Lemma run_printpval e o :
  ip_printpval (bp + 20) 12 (st e o) =
    (Done 0, st e (o +:+ (" cpu " +:+ dec (u8 cpu) +:+ ", seq " +:+ dec (u64 seq)))).
Proof.
  unfold ip_printpval. cbn [Z.ltb sizeof_ipopt_pval Z.compare Pos.compare Pos.compare_cont].
  erewrite run_bind by apply run_load_opt. rewrite Hopt. unfold pval_option. rewrite ipopt_pval_load. done.
Qed.

Lemma run_optprint e o :
  bp + 32 <= e <= Z.of_nat (length pkt) ->
  ip_optprint (bp + 20) 12 (st e o) =
    (Done 0, st e (o +:+ ("pval cpu " +:+ dec (u8 cpu) +:+ ", seq " +:+ dec (u64 seq)))).
Proof.
  intros He. assert (H0 : opt !! 0%nat = Some 222) by by rewrite Hopt.
  assert (H1 : opt !! 1%nat = Some 12) by by rewrite Hopt.
  unfold ip_optprint, on_trunc. change (S (Z.to_nat 12)) with 13%nat. erewrite run_bind; [done|].
  cbn [optprint_loop]. change (0 <? 12) with true. cbv iota.
  erewrite run_bind by apply run_print. erewrite run_bind by (apply run_tcheck; lia).
  erewrite run_bind by (rewrite <- (Z.add_0_r (bp + 20)); by apply (run_opt_byte 0)).
  erewrite run_bind by apply run_print.
  change (tok2str ip_option_values unknown_opt 222) with "pval"%string. cbv zeta.
  change ((222 =? IPOPT_NOP) || (222 =? IPOPT_EOL)) with false. cbv iota.
  erewrite run_bind.
  2:{ erewrite run_bind by (apply run_tcheck; lia). by apply (run_opt_byte 1). }
  change (negb false && (12 <? 2) || (12 <? 12)) with false. cbv iota.
  erewrite run_bind by (apply run_tcheck; lia).
  erewrite run_bind by (unfold opt_value; cbn [Z.eqb Pos.eqb orb IPOPT_EOL IPOPT_TS IPOPT_RR IPOPT_SSRR IPOPT_LSRR IPOPT_RA
    IPOPT_PVAL]; erewrite run_bind by apply run_printpval; done).
  cbv iota. rewrite sapp_nil_r, <- sapp_assoc. done.
Qed.

(** ** The header *)

(** The checksum over header and option. *)
Lemma run_cksum_zero e o :
  oc_fold (be_sum (hdr ++ opt)) = 65535 ->
  run_cksum (fun ndo => [pkt_vec ndo bp 32]) (st e o) = (Done 0, st e o).
Proof.
  intros Hck. unfold run_cksum, pkt_vec. cbn [ndo_packet ndo_base st]. rewrite Nat2Z.id, drop_app_length.
  assert (Hob : bytes_ok opt = true) by (rewrite Hopt; apply bytes_ok_ipopt_pval_bytes).
  assert (Hvb : vecs_bytes [mk_cksum_vec (hdr ++ opt ++ rest) (Z.odd (base + bp)) 32] = hdr ++ opt).
  { unfold vecs_bytes, vec_bytes. cbn [concat fmap list_fmap v_mem v_len]. rewrite app_nil_r, app_assoc.
    rewrite take_app_le, take_ge by (rewrite length_app, Hhdr, length_opt; lia). done. }
  assert (H32 : Z.of_nat (length (hdr ++ opt)) = 32) by (rewrite length_app, Hhdr, length_opt; lia).
  assert (Hb : bytes_ok (hdr ++ opt) = true) by (by rewrite bytes_ok_app).
  pose proof (proj2 (in_cksum_zero_iff (hdr ++ opt) false Hb ltac:(unfold IN_CKSUM_MAX; lia)) Hck) as Hz.
  rewrite in_cksum_spec in Hz by (rewrite ?vecs_bytes_whole; first [by apply vec_ok_whole | unfold IN_CKSUM_MAX; lia]).
  rewrite vecs_bytes_whole in Hz. rewrite in_cksum_spec; rewrite ?Hvb; [by injection Hz as ->| |unfold IN_CKSUM_MAX; lia].
  cbn [forallb]. unfold vec_ok. cbn [v_mem v_len]. rewrite app_assoc, bytes_ok_app_true, length_app by done.
  rewrite !(proj2 (Z.leb_le _ _)) by lia. done.
Qed.

Lemma run_print_cksum e o :
  f_Kflag fl = 0 -> oc_fold (be_sum (hdr ++ opt)) = 65535 -> bp + 32 <= e ->
  print_cksum bp 32 (st e o) = (Done tt, st e o).
Proof.
  intros HK Hck He. unfold print_cksum, flag, asks, pbind at 1. cbn [ndo_flags st]. rewrite HK.
  unfold pbind at 1. cbn [ndo_snapend st]. rewrite (proj2 (Z.leb_le _ _)) by lia. cbn [Z.eqb andb].
  by erewrite run_bind by (by apply run_cksum_zero).
Qed.

Lemma run_if (b : bool) t e o :
  (if b then ND_PRINT t else pret tt) (st e o) = (Done tt, st e (o +:+ if b then t else EmptyString)).
Proof. destruct b; [done|]. by rewrite sapp_nil_r. Qed.

Lemma run_print_options e o :
  bp + 32 <= e <= Z.of_nat (length pkt) ->
  print_options bp 32 (st e o) =
    (Done false, st e (o +:+ (", options (pval cpu " +:+ dec (u8 cpu) +:+ ", seq " +:+ dec (u64 seq) +:+ ")"))).
Proof.
  intros He. unfold print_options, sizeof_ip. change (0 <? 32 - 20) with true. cbv iota. change (32 - 20) with 12.
  erewrite run_bind by apply run_print. erewrite run_bind by (by apply run_optprint).
  change (0 =? -1) with false. cbv iota. erewrite run_bind by done. erewrite run_bind by apply run_print.
  unfold pret. rewrite <- !sapp_assoc. done.
Qed.

Lemma run_print_header e o :
  f_Kflag fl = 0 -> oc_fold (be_sum (hdr ++ opt)) = 65535 -> bp + 32 <= e <= Z.of_nat (length pkt) ->
  exists t, print_header bp 32 (fld hdr 6 2) (fld hdr 9 1) (st e o) = (Done tt, st e (o +:+ t)) /\
    "IP " +:+ t = pval_header_text (fld hdr 1 1) (fld hdr 8 1) (fld hdr 4 2) (fld hdr 6 2) (fld hdr 9 1) (fld hdr 2 2)
      (u8 cpu) (u64 seq).
Proof.
  intros HK Hck He. eexists. split.
  - unfold print_header.
    erewrite run_bind by (by apply (run_u1 1); lia). erewrite run_bind by apply run_print. erewrite run_bind by apply run_print.
    erewrite run_bind by (by apply (run_u1 8); lia). erewrite run_bind by apply run_if.
    erewrite run_bind by (by apply (run_u2 4); lia). erewrite run_bind by apply run_print.
    erewrite run_bind by (by apply (run_u2 2); lia). erewrite run_bind by apply run_print.
    erewrite run_bind by (by apply run_print_options).
    erewrite run_bind by (by apply run_print_cksum; try lia). erewrite run_bind by apply run_print.
    cbv iota. unfold pret. rewrite <- !sapp_assoc. reflexivity.
  - unfold pval_header_text. reflexivity.
Qed.

(** ** The datagram *)

Lemma run_total_len len e o :
  32 <= fld hdr 2 2 <= len -> total_len GUESS_TSO bp len 32 (st e o) = (Done (Some (fld hdr 2 2)), st e o).
Proof.
  intros Hlen. unfold total_len. erewrite run_bind by (apply (run_u2 2); lia).
  erewrite run_bind; [|by rewrite (proj2 (Z.ltb_ge _ _)) by lia].
  rewrite (proj2 (Z.ltb_ge _ _)) by lia. done.
Qed.

(** Up to the payload, the printer prints the header text and nothing else. *)
Lemma run_ip_print_body demux prot e len o :
  f_vflag fl <> 0 -> f_Kflag fl = 0 -> f_eflag fl = 0 ->
  fld hdr 0 1 = 0x48 -> oc_fold (be_sum (hdr ++ opt)) = 65535 -> 32 <= fld hdr 2 2 <= len ->
  bp + 32 <= e <= Z.of_nat (length pkt) ->
  ip_print_body GUESS_TSO demux bp len (mk_ndo pkt base fl e prot o) =
    on_trunc (print_payload demux bp 32 (u32 (fld hdr 2 2 - 32)) (fld hdr 6 2)) nd_print_trunc
      (st (Z.min (bp + fld hdr 2 2) e)
         (o +:+ pval_header_text (fld hdr 1 1) (fld hdr 8 1) (fld hdr 4 2) (fld hdr 6 2) (fld hdr 9 1) (fld hdr 2 2)
                  (u8 cpu) (u64 seq))).
Proof.
  intros Hv HK He Hvhl Hck Hlen Hcap. unfold ip_print_body.
  erewrite run_bind by (change (set_protocol "ip" (mk_ndo pkt base fl e prot o)) with (@Done unit tt, st e o); reflexivity).
  apply run_on_trunc. assert (Hb0 : forall e o, EXTRACT_U_1 bp (st e o) = (Done 0x48, st e o)).
  { intros e' o'. rewrite <- Hvhl, <- (Z.add_0_r bp). apply (run_u1 0). lia. }
  erewrite run_bind by (apply run_tcheck; lia).
  erewrite run_bind by (unfold IP_V; erewrite run_bind by apply Hb0; reflexivity).
  change (negb (Z.shiftr (Z.land 72 240) 4 =? 4)) with false. cbv iota.
  erewrite run_bind by (unfold flag, asks; cbn [ndo_flags st]; rewrite He; reflexivity).
  change (0 =? 0) with true. cbv iota. erewrite run_bind by apply run_print.
  unfold sizeof_ip. erewrite run_bind by (apply run_tcheck; lia). rewrite (proj2 (Z.ltb_ge len 20)) by lia.
  erewrite run_bind by (unfold IP_HL; erewrite run_bind by apply Hb0; reflexivity).
  change (Z.land 72 15 * 4) with 32. cbv zeta. change (32 <? 20) with false. cbv iota.
  erewrite run_bind by (apply run_total_len; lia). cbv beta iota. set (e' := Z.min (bp + fld hdr 2 2) e).
  erewrite (run_bind (cut_snapend _) _ _ tt (st e' (o +:+ "IP "))).
  2:{ unfold cut_snapend, e'. cbn [ndo_snapend st]. case_test; [rewrite Z.min_l by lia|rewrite Z.min_r by lia]; done. }
  erewrite run_bind by (apply (run_u2 6); lia). erewrite run_bind by (apply (run_u1 9); lia).
  erewrite run_bind by (unfold flag, asks; cbn [ndo_flags st]; reflexivity). rewrite (proj2 (Z.eqb_neq _ _) Hv). cbn [negb].
  destruct (run_print_header e' (o +:+ "IP ") HK Hck) as (t & Ht & Htext); [lia|].
  erewrite run_bind by exact Ht. by rewrite <- Htext, sapp_assoc.
Qed.
End Display.

(** ** Fields after the insertion *)

Lemma fld_take l1 l2 i n k m :
  take n (drop i l1) = take n (drop i l2) -> (i <= k)%nat -> (k + m <= i + n)%nat -> fld l1 k m = fld l2 k m.
Proof.
  intros Heq Hk Hm. unfold fld. f_equal.
  assert (Hsub : forall l : list Z, take m (drop k l) = take m (drop (k - i) (take n (drop i l)))).
  { intros l. replace n with ((k - i) + (n - (k - i)))%nat by lia.
    rewrite <- take_drop_commute, take_take, drop_drop. f_equal; [lia|]. f_equal. lia. }
  rewrite (Hsub l1), (Hsub l2). by rewrite Heq.
Qed.

Lemma fld_1 l k b : l !! k = Some b -> fld l k 1 = b.
Proof. intros Hb. unfold fld. rewrite (drop_S _ b) by done. apply be_val_1. Qed.

Lemma clean_pval_header tos ttl id off proto len cpu seq : 0 <= tos -> clean (pval_header_text tos ttl id off proto len cpu seq) = true.
Proof.
  intros Ht. unfold pval_header_text, ecn_text. clean_tac; first [by apply clean_bittok2str | by apply clean_tok2str; [apply clean_ipproto_values|]].
Qed.

Section Claim.
Context {skb : Type} `{SkbLaws skb} `{PrinterLaws} (GUESS_TSO : bool).
Implicit Types (s : skb) (env : tx_env skb) (pdev : pval_dev skb).

(** The payload printer ends and only adds to the output. *)
Lemma display_rest (s1 : netdissect_options) fuel bp len off :
  ndo_ok s1 -> 0 <= bp -> accepts s1 bp -> ip_header s1 bp -> 0 <= len -> ndo_snapend s1 < Z.of_nat fuel ->
  exists ndo t, on_trunc (print_payload (ip_print_demux GUESS_TSO fuel) bp 32 len off) nd_print_trunc s1 = (Done tt, ndo) /\
    ndo_out ndo = ndo_out s1 +:+ t.
Proof.
  intros Hok Hbp Ha Hr Hl Hf.
  assert (Hsafe : safe false s1 (on_trunc (print_payload (ip_print_demux GUESS_TSO fuel) bp 32 len off) nd_print_trunc)
    (fun _ => True)).
  { apply safe_on_trunc; [|apply safe_print_trunc]. apply safe_print_payload; [done|apply Hr|].
    intros ds Hip Hcp Hdl. apply safe_allow_trunc. pose proof Hok as (_ & _ & ? & _).
    apply safe_ip_print_demux; try done; rewrite ?Hcp, ?Hdl, ?Hip; try done; try lia.
    apply (accepts_mono _ _ bp _ (ndo_ext_refl s1 Hok)); [lia|done]. }
  specialize (Hsafe s1 (ndo_ext_refl s1 Hok)). destruct (on_trunc _ _ s1) as [[[]|[]] ndo]; [|naive_solver..].
  destruct Hsafe as [(_ & _ & _ & _ & _ & t & Ht & _) _]. by exists ndo, t.
Qed.

(** ** Theorem *)

(** C6. An IPv4 frame without options that leaves the device with the option
    switch on, captured whole, is shown by the verbose printer with its own
    fields, the total length plus twelve, and the option with the CPU it left on
    and the sequence number of the device; the checksum is not reported as bad,
    and what follows is the payload. [slack] is what the capture buffer holds behind
    the frame; the printers of the payload follow the rule of [PrinterLaws] and accept
    the context the print starts in. *)
Theorem pval_frame_printed env pdev s link m pre gap eth iph rest slack base fl prot out :
  sendable env pdev link m s rest -> frame_in s pre gap eth iph rest ->
  pd_ipopt pdev = true -> take 2 (drop 12 eth) = [8; 0] ->
  iph !! 0%nat = Some 0x45 -> 20 <= fld iph 2 2 <= 20 + Z.of_nat (length rest) -> fld iph 2 2 + 12 < 65536 ->
  f_vflag fl <> 0 -> f_Kflag fl = 0 -> f_eflag fl = 0 -> clean prot = true -> bytes_ok slack = true ->
  0 <= base -> base + (46 + Z.of_nat (length (rest ++ slack))) < 2 ^ 64 ->
  exists res s', pval_xmit env pdev s = Some res /\ EvQueue s' ∈ x_events res /\
    let frame := skb_mac_header s' in
    let n := Z.of_nat (length frame) in
    let captured := mk_ndo (frame ++ slack) base fl n prot out in
    n = 46 + Z.of_nat (length rest) /\
    (accepts captured 14 ->
     exists ndo t, ip_print GUESS_TSO 14 (n - 14) captured = (Done tt, ndo) /\
     ndo_out ndo = out +:+ pval_header_text (fld iph 1 1) (fld iph 8 1) (fld iph 4 2) (fld iph 6 2) (fld iph 9 1)
       (fld iph 2 2 + 12) (u8 (e_cpu env)) (u64 (pd_seq pdev)) +:+ t).
Proof.
  intros Hs Hf Hi Hp H45 Htot Hmax Hv HK He Hprot Hslack Hb0 Hb1.
  destruct (xmit_insert_spec env pdev s link m _ _ _ _ _ Hs Hf Hi Hp) as (res & s' & Hx & _ & Hev & Hmh & _).
  destruct (frame_in_bytes _ _ _ _ _ _ Hf) as (Heb & Hio & Hel & Hil).
  set (opt := pval_option _ _) in *.
  assert (Hob : bytes_ok opt = true) by apply bytes_ok_ipopt_pval_bytes.
  assert (Hol : length opt = 12%nat) by apply length_ipopt_pval_bytes.
  destruct (option_header_parts iph opt Hil Hio Hob) as (hdr & E & Hl & Hhb & Hv0 & Hlen & Hb1' & Hmid & _ & Hck).
  assert (Hrest : bytes_ok (rest ++ slack) = true)
    by (destruct Hf as [Hh Hbk _ _ _ _ _ _]; rewrite Hh, !bytes_ok_app in Hbk; rewrite bytes_ok_app; tauto).
  assert (Hvhl : fld hdr 0 1 = 0x48).
  { destruct hdr as [|v hdr]; [done|]. apply fld_1. cbn. f_equal. etransitivity; [exact Hv0|].
    by rewrite (list_lookup_total_correct _ _ _ H45). }
  assert (Htos : fld hdr 1 1 = fld iph 1 1).
  { destruct (lookup_lt_is_Some_2 iph 1) as [b Hb]; [lia|]. rewrite Hb in Hb1'. by rewrite !(fld_1 _ _ b). }
  assert (Hlen' : fld hdr 2 2 = fld iph 2 2 + 12) by (unfold fld in *; rewrite Hlen; apply Z.mod_small; lia).
  assert (Hmac : skb_mac_header s' = eth ++ hdr ++ opt ++ rest) by (by rewrite Hmh, E, <- !app_assoc).
  assert (Hn : Z.of_nat (length (eth ++ hdr ++ opt ++ rest)) = 46 + Z.of_nat (length rest))
    by (rewrite !length_app, Hel, Hl, Hol; lia).
  assert (Hns : Z.of_nat (length (eth ++ hdr ++ opt ++ rest ++ slack)) = 46 + Z.of_nat (length rest) + Z.of_nat (length slack))
    by (rewrite !length_app, Hel, Hl, Hol; lia).
  rewrite length_app in Hb1.
  pose proof (run_ip_print_body GUESS_TSO eth hdr opt (rest ++ slack) base fl (e_cpu env) (pd_seq pdev) Hl Hhb eq_refl Heb Hrest
    ltac:(lia) (ip_print_demux GUESS_TSO (S (S (Z.to_nat (46 + Z.of_nat (length rest)))))) prot
    (46 + Z.of_nat (length rest)) (32 + Z.of_nat (length rest)) out Hv HK He Hvhl Hck ltac:(lia) ltac:(lia)) as Hrun.
  rewrite Hel in Hrun. change (Z.of_nat 14) with 14 in Hrun. set (s1 := st _ _ _ _ _ _ _ _) in Hrun.
  exists res, s'. split; [done|]. split; [done|]. cbv zeta. rewrite Hmac, Hn.
  replace ((eth ++ hdr ++ opt ++ rest) ++ slack) with (eth ++ hdr ++ opt ++ rest ++ slack) by (by rewrite <- !app_assoc).
  split; [done|]. set (s0 := mk_ndo _ _ _ _ _ _). intros Hacc.
  assert (Hok1 : ndo_ok s1).
  { unfold s1. apply st_ok with (cpu := e_cpu env) (seq := pd_seq pdev); try done; lia. }
  assert (Hext : ndo_ext s0 s1).
  { split_and!; cbn; try done; try lia. eexists. split; [reflexivity|]. apply clean_pval_header. unfold fld.
    apply be_val_bound. by apply bytes_ok_take, bytes_ok_drop. }
  destruct (display_rest s1 (S (S (Z.to_nat (46 + Z.of_nat (length rest))))) 14
    (u32 (fld hdr 2 2 - 32)) (fld hdr 6 2)) as (ndo & t & Hpay & Hout); [done|lia|by apply (accepts_mono s0 _ 14)|..].
  { apply (ip_header_v4 _ _ (take 1 hdr)); [unfold readable, s1; cbn [ndo_packet st]; unfold sizeof_ip; lia|..].
    - unfold s1. cbn [ndo_packet st]. rewrite <- (take_drop 1 hdr) at 1. rewrite <- app_assoc.
      apply mem_read_mid; [lia|rewrite length_take; lia].
    - unfold version_of. change (be_val (take 1 hdr)) with (fld hdr 0 1). by rewrite Hvhl. }
  { apply u32_range. }
  { unfold s1. cbn [ndo_snapend st]. lia. }
  exists ndo, t.
  replace (46 + Z.of_nat (length rest) - 14) with (32 + Z.of_nat (length rest)) by lia.
  unfold ip_print, with_fuel, s0. cbn [ndo_snapend]. rewrite Hrun, Hpay. split; [done|].
  rewrite Hout. unfold s1. cbn [ndo_out st]. rewrite Htos, Hlen', <- sapp_assoc.
  by rewrite !(fld_take hdr iph 4 6) by (done || lia).
Qed.
End Claim.

(** ** Witness *)

(** The echo reply of the README: sent by the module on CPU 0 with sequence
    number 46, its 84 bytes become 96 and it is shown as documented. *)
Definition readme_reply : list Z :=
  [0; 0; 0xcd; 0x75] ++ be_bytes 2 21554 ++ be_bytes 2 1636 ++ List.map Z.of_nat (seq 8 56).
Definition readme_iph : list Z :=
  [0x45; 0; 0; 84; 0x0a; 0xc6; 0; 0; 64; 1; 0x5b; 0xdf; 10; 0; 0; 3; 10; 0; 0; 2].

Definition readme_dev : pval_dev flat_skb :=
  let d := bare_tx_dev true false false in
  mk_pval_dev (pd_name d) (pd_link d) 46 (pd_ipopt d) (pd_txtstamp d) (pd_rxtstamp d) (pd_txcopy d) (pd_rxcopy d)
    (pd_txbusydrop d) (pd_original_config d) (pd_num_cpus d) (pd_txmdevs d) (pd_rxmdevs d).

Definition shown (res : option (tx_result flat_skb)) : string :=
  match res with
  | Some (mk_tx_result _ _ _ [EvQueue s]) =>
      let frame := skb_mac_header s in
      let n := Z.of_nat (length frame) in
      ndo_out (snd (@ip_print (icmp_printers _ false) false 14 (n - 14)
        (mk_ndo frame 4096 (mk_flags 3 0 1 0 0 0 0 0) n "" "")))
  | _ => "nothing sent"%string
  end.

Example readme_output :
  shown (pval_xmit (sample_env true 0) readme_dev (sample_tx readme_iph readme_reply)) =
  "IP (tos 0x0, ttl 64, id 2758, offset 0, flags [none], proto ICMP (1), length 96, options (pval cpu 0, seq 46))" +:+
  String (chr 10) "    10.0.0.3 > 10.0.0.2: ICMP echo reply, id 21554, seq 1636, length 64".
Proof. vm_compute. reflexivity. Qed.

(** The same reply in the sample device, printed by the printers of this development from a
    buffer with two more bytes. *)
Lemma pval_frame_printed_witness :
  exists res s' ndo t,
    pval_xmit (sample_env true 0) (sample_tx_dev true false true) (sample_tx readme_iph readme_reply) = Some res /\
    EvQueue s' ∈ x_events res /\
    @ip_print stack false 14 (Z.of_nat (length (skb_mac_header s')) - 14)
      (mk_ndo (skb_mac_header s' ++ [0; 0]) 4096 (mk_flags 1 0 1 0 0 0 0 0) (Z.of_nat (length (skb_mac_header s'))) "" "") = (Done tt, ndo) /\
    ndo_out ndo = pval_header_text 0 64 2758 0 1 96 0 7 +:+ t.
Proof.
  destruct (@pval_frame_printed _ _ _ _ stack stack_laws false (sample_env true 0) (sample_tx_dev true false true) (sample_tx readme_iph readme_reply)
    2 (sample_tx_mdev true) (replicate 28 170) (replicate 12 170) sample_eth readme_iph readme_reply [0; 0] 4096 (mk_flags 1 0 1 0 0 0 0 0) "" "")
    as (res & s' & Hx & Hev & Hshow).
  - split; [split_and!; done|apply sample_clones|apply sample_ring_ok|done|done|done|done].
  - by apply sample_frame.
  - reflexivity.
  - reflexivity.
  - reflexivity.
  - vm_compute. split; congruence.
  - vm_compute. reflexivity.
  - vm_compute. congruence.
  - reflexivity.
  - reflexivity.
  - reflexivity.
  - reflexivity.
  - lia.
  - vm_compute. reflexivity.
  - destruct Hshow as [Hl Hshow]. change (46 + Z.of_nat (length readme_reply)) with 110 in Hl. destruct Hshow as (ndo & t & Hrun & Hout).
    { revert Hl. generalize (skb_mac_header s'). intros frame Hl. repeat split; cbn; rewrite ?length_app; cbn; unfold IN_CKSUM_MAX; exact I || lia. }
    exists res, s', ndo, t. split; [exact Hx|]. split; [exact Hev|]. split; [exact Hrun|exact Hout].
Defined.
