(* ===== verification/Tools.v ===== *)
(** * The readers of the character devices

    Models [tools/dump-one.c], [tools/dump-multi.c] and [tools/look-tcp.c]: the
    polling loops that fetch sixteen slots at a time with [readv] and the
    printing of a slot. The kernel side of [poll] and [readv] is the ring
    ([Ring]); what the module writes between two iterations, the return value of
    [poll] and the signal flag are given per iteration. [None] is an access
    outside an array. *)
From stdpp Require Import base list numbers strings.
From Stdlib Require Import ZArith Lia Ascii.
From S2P Require Import Prelude Abi Cstring Ring State Chardev.

Open Scope Z_scope.

(** ** Printing a slot *)

Definition BULKNUM : nat := 16.
Definition ETHERTYPE_IP : Z := 0x0800.
Definition PROTO_TCP : Z := 6.

(** [%02x:%02x:...]. *)
Fixpoint mac_text (l : list Z) : string :=
  match l with
  | [] => EmptyString
  | [a] => hex_pad 2 a
  | a :: l' => hex_pad 2 a +:+ ":" +:+ mac_text l'
  end.

(** [inet_ntop(AF_INET, ...)] of the four bytes of an address. *)
Fixpoint inet_ntop4 (l : list Z) : string :=
  match l with
  | [] => EmptyString
  | [a] => dec a
  | a :: l' => dec a +:+ "." +:+ inet_ntop4 l'
  end.

(** The part of [parse_and_print] the two dump tools share: [struct ethhdr] at
    the start of [pkt], [struct iphdr] behind it. *)
Definition frame_text (pkt : list Z) : option string :=
  h_dest ← slice pkt 0 6; h_source ← slice pkt 6 6; h_proto ← slice pkt 12 2;
  let ty := be_val h_proto in
  let eth := mac_text h_source +:+ " -> " +:+ mac_text h_dest +:+ " Type 0x" +:+ hex_pad 4 ty +:+ " " in
  if negb (ty =? ETHERTYPE_IP) then Some eth
  else
    saddr ← slice pkt (14 + 12) 4; daddr ← slice pkt (14 + 16) 4;
    Some (eth +:+ inet_ntop4 saddr +:+ " -> " +:+ inet_ntop4 daddr).

Definition line_end : string := String (chr 10) EmptyString.

(** [parse_and_print] of [dump-one.c]. *)
Definition dump_one_print (slot : pval_slot) : option string :=
  t ← frame_text (s_pkt slot); Some (dec (s_tstamp slot) +:+ " " +:+ t +:+ line_end).

(** [parse_and_print] of [dump-multi.c]. *)
Definition dump_multi_print (prefix : string) (slot : pval_slot) : option string :=
  t ← frame_text (s_pkt slot); Some (prefix +:+ ": TS=" +:+ dec (s_tstamp slot) +:+ " " +:+ t +:+ line_end).

(** [snprintf] into an array of [size] characters. *)
Definition snprintf_to (size : Z) (text : string) : string := String.substring 0 (Z.to_nat (size - 1)) text.

(** [strncat(out, buf, n)] with [out] an array of [size] characters: at most [n]
    characters and a terminator are appended, wherever they fall. *)
Definition strncat (size : Z) (out buf : string) (n : Z) : option string :=
  let app := String.substring 0 (Z.to_nat n) buf in
  if slen out + slen app + 1 <=? size then Some (out +:+ app) else None.

(** A flag of [struct tcphdr], bit [i] of its fourteenth byte. *)
Definition tcp_flag (b i : Z) : string := dec (Z.land (Z.shiftr b i) 1).

(** [parse_and_print] of [look-tcp.c]. *)
Definition look_tcp_print (prefix : string) (slot : pval_slot) : option string :=
  let pkt := s_pkt slot in
  h_proto ← slice pkt 12 2;
  let ty := be_val h_proto in
  let out := snprintf_to 256 (prefix +:+ " TS=" +:+ dec (s_tstamp slot) +:+ " PKTLEN=" +:+ dec (s_pktlen slot)
                              +:+ " ETHER_TYPE=0x" +:+ hex_pad 4 ty +:+ " ") in
  if negb (ty =? ETHERTYPE_IP) then Some (out +:+ line_end)
  else
    protocol ← pkt !! (14 + 9)%nat;
    let buf := snprintf_to 256 ("IP_PROTO=" +:+ dec protocol +:+ " ") in
    out ← strncat 256 out buf 256;
    if negb (protocol =? PROTO_TCP) then Some (out +:+ line_end)
    else
      vihl ← pkt !! 14%nat;
      fl ← pkt !! Z.to_nat (14 + Z.shiftl (Z.land vihl 0x0F) 2 + 13);
      let buf := snprintf_to 256 ("SYN=" +:+ tcp_flag fl 1 +:+ " ACK=" +:+ tcp_flag fl 4 +:+ " PSH=" +:+ tcp_flag fl 3
                                  +:+ " RST=" +:+ tcp_flag fl 2 +:+ " FIN=" +:+ tcp_flag fl 0) in
      out ← strncat 256 out buf 256;
      Some (out +:+ line_end).

(** ** The loops *)

(** [memset] of the array of slots. *)
Definition zero_slots : list (list Z) := replicate BULKNUM (replicate (Z.to_nat sizeof_pval_slot) 0).

(** [readv] overwrites the start of the buffers it fills. *)
Fixpoint store_bufs (slots out : list (list Z)) : list (list Z) :=
  match slots, out with
  | s :: slots', o :: out' => (o ++ drop (length o) s) :: store_bufs slots' out'
  | _, _ => slots
  end.

(** [for (n = 0; n < ret; n++) parse_and_print(&slots[n])]. *)
Fixpoint print_slots (parse : pval_slot -> option string) (ret : nat) (slots : list (list Z)) : option (list string) :=
  match ret with
  | O => Some []
  | S k =>
      match slots with
      | [] => None
      | b :: slots' =>
          slot ← pval_slot_of_bytes b; line ← parse slot; lines ← print_slots parse k slots'; Some (line :: lines)
      end
  end.

(** [revents] for [POLLIN] requested, from the mask of [pval_file_poll]. *)
Definition revents (r : pval_ring) : Z := Z.land (if ring_emtpy r then 0 else Z.lor POLLIN POLLRDNORM) POLLIN.

(** The body of the loop after [poll]: [if (!x.revents & POLLIN) continue], where
    the negation binds stronger, then [readv] and the printing. *)
Definition dump_round (parse : pval_slot -> option string) (r : pval_ring) (slots : list (list Z))
  : option (pval_ring * list (list Z) * list string) :=
  if negb (Z.land (if revents r =? 0 then 1 else 0) POLLIN =? 0) then Some (r, slots, [])
  else
    '(ret, r', out) ← pval_file_read_iter r true (replicate BULKNUM sizeof_pval_slot);
    let slots := store_bufs slots out in
    if ret <? 0 then Some (r', slots, [])
    else lines ← print_slots parse (Z.to_nat ret) slots; Some (r', slots, lines).

(** One iteration as its environment sees it: what the module wrote since the
    last one, the signal flag and the value of [poll]. *)
Record tick (skb : Type) := mk_tick { t_writes : list skb; t_signal : bool; t_poll : Z }.
Arguments mk_tick {skb} _ _ _.
Arguments t_writes {skb} _.
Arguments t_signal {skb} _.
Arguments t_poll {skb} _.

Inductive ended := Running | OpenFailed | Signalled | PollFailed.

Section Loops.
Context {skb : Type} `{SkbView skb}.

(** The loop of [dump_thread] in [dump-multi.c] and [look-tcp.c]; with
    [on_signal] false, the loop of [main] in [dump-one.c]. *)
Fixpoint dump_loop (on_signal : bool) (parse : pval_slot -> option string) (r : pval_ring) (slots : list (list Z))
    (ticks : list (tick skb)) : option (ended * pval_ring * list string) :=
  match ticks with
  | [] => Some (Running, r, [])
  | t :: ticks' =>
      '(r1, _) ← ring_run r (Write <$> t_writes t);
      if on_signal && t_signal t then Some (Signalled, r1, [])
      else if t_poll t <? 0 then Some (PollFailed, r1, [])
      else
        '(r2, slots', lines) ← dump_round parse r1 slots;
        '(e, r3, lines') ← dump_loop on_signal parse r2 slots' ticks';
        Some (e, r3, lines ++ lines')
  end.

(** [dump_thread]; [open_ok] is the success of [open] on its path. *)
Definition dump_thread (parse : string -> pval_slot -> option string) (path : string) (open_ok : bool) (r : pval_ring)
    (ticks : list (tick skb)) : option (ended * pval_ring * list string) :=
  if negb open_ok then Some (OpenFailed, r, []) else dump_loop true (parse path) r zero_slots ticks.

(** [main] of [dump-one.c]: the return value, or the state of the loop. *)
Definition dump_one_main (argv : list string) (open_ok : bool) (r : pval_ring) (ticks : list (tick skb))
  : option (Z + (ended * pval_ring * list string)) :=
  if Z.of_nat (length argv) <? 2 then Some (inl (-1))
  else if negb open_ok then Some (inl (-1))
  else x ← dump_loop false dump_one_print r zero_slots ticks; Some (inr x).
End Loops.

Definition PATH_MAX : Z := 4096.
Definition MAX_THREADS : nat := 32.

(** [strncpy(tb->path, path, PATH_MAX)] followed by the thread's use of the array
    as a string: without room for the terminator that use leaves the array. *)
Definition thread_path (path : string) : option string := if slen path <? PATH_MAX then Some path else None.

(** The loop of [main] that starts a thread per path in arrays of [MAX_THREADS]:
    the paths of the threads started and the value of the [pthread_create] that
    failed. [create n] is the value of the [n]th call. *)
Fixpoint start_threads (create : nat -> Z) (n : nat) (paths : list string) : option (option Z * list string) :=
  match paths with
  | [] => Some (None, [])
  | p :: paths' =>
      if (MAX_THREADS <=? n)%nat then None
      else
        path ← thread_path p;
        if negb (create n =? 0) then Some (Some (create n), [])
        else '(err, ts) ← start_threads create (S n) paths'; Some (err, path :: ts)
  end.

(** [main] of [dump-multi.c] and [look-tcp.c]: its return value and the threads
    it started. *)
Definition dump_multi_main (create : nat -> Z) (signal_ok : bool) (argv : list string) : option (Z * list string) :=
  if Z.of_nat (length argv) <? 2 then Some (-1, [])
  else
    '(err, ts) ← start_threads create 0 (tail argv);
    Some (match err with Some ret => ret | None => if signal_ok then 0 else -1 end, ts).

(** ** Printing is inside the slot *)

Lemma slice_total (l : list Z) i n : (i + n <= length l)%nat -> is_Some (slice l i n).
Proof. intros. unfold slice. rewrite (proj2 (Nat.leb_le _ _)) by done. by eexists. Qed.

Lemma frame_text_total pkt : length pkt = 256%nat -> is_Some (frame_text pkt).
Proof.
  intros Hl. unfold frame_text.
  destruct (slice_total pkt 0 6) as [d ->]; [lia|]. destruct (slice_total pkt 6 6) as [sr ->]; [lia|].
  destruct (slice_total pkt 12 2) as [p ->]; [lia|]. cbn [mbind option_bind]. case_test; [by eexists|].
  destruct (slice_total pkt (14 + 12) 4) as [sa ->]; [lia|]. destruct (slice_total pkt (14 + 16) 4) as [da ->]; [lia|].
  by eexists.
Qed.

(** A slot as it sits in a ring or in user memory. *)
Lemma slot_pkt_len s : slot_ok s = true -> length (s_pkt s) = 256%nat /\ bytes_ok (s_pkt s) = true.
Proof. unfold slot_ok, PVAL_PKT_LEN. intros. bool_to_prop. split; [lia|done]. Qed.

Lemma dump_one_print_total s : slot_ok s = true -> is_Some (dump_one_print s).
Proof.
  intros [Hl _]%slot_pkt_len. unfold dump_one_print. destruct (frame_text_total _ Hl) as [t ->]. by eexists.
Qed.

Lemma dump_multi_print_total prefix s : slot_ok s = true -> is_Some (dump_multi_print prefix s).
Proof.
  intros [Hl _]%slot_pkt_len. unfold dump_multi_print. destruct (frame_text_total _ Hl) as [t ->]. by eexists.
Qed.

(** ** One round *)

Section Rounds.
Context (parse : pval_slot -> option string) (line : pval_slot -> string).
Context (Hparse : forall s, slot_ok s = true -> parse s = Some (line s)).

(** The buffers have the size of the structure. *)
Definition bufs_ok (slots : list (list Z)) : Prop :=
  length slots = BULKNUM /\ Forall (fun b => length b = Z.to_nat sizeof_pval_slot) slots.

Lemma store_bufs_ok ss slots :
  Forall (fun s => slot_ok s = true) ss -> (length ss <= length slots)%nat ->
  Forall (fun b => length b = Z.to_nat sizeof_pval_slot) slots ->
  length (store_bufs slots (pval_slot_bytes <$> ss)) = length slots /\
  Forall (fun b => length b = Z.to_nat sizeof_pval_slot) (store_bufs slots (pval_slot_bytes <$> ss)) /\
  print_slots parse (length ss) (store_bufs slots (pval_slot_bytes <$> ss)) = Some (line <$> ss).
Proof.
  intros Hs. revert slots. induction Hs as [|s ss Hok Hs IH]; intros [|b slots] Hl Hb; try done; cbn in Hl; try lia.
  apply Forall_cons in Hb as [Hb Hbs]. destruct (IH slots) as (H1 & H2 & H3); [lia|done|].
  pose proof (length_pval_slot_bytes s Hok) as Hlen.
  cbn [fmap list_fmap store_bufs length print_slots]. rewrite drop_ge, app_nil_r by lia.
  split; [by rewrite H1|]. split; [by constructor|].
  rewrite pval_slot_load by done. cbn [mbind option_bind]. rewrite Hparse by done. cbn [mbind option_bind].
  rewrite H3. done.
Qed.

Lemma dump_round_spec r slots :
  ring_ok r = true -> bufs_ok slots ->
  exists r' slots', dump_round parse r slots = Some (r', slots', line <$> take BULKNUM (ring_contents r)) /\
    ring_ok r' = true /\ bufs_ok slots' /\ ring_contents r' = drop BULKNUM (ring_contents r).
Proof.
  intros Hr [Hl Hb]. unfold dump_round, revents. destruct (ring_emtpy r) eqn:He.
  - apply empty_spec in He; [|done]. exists r, slots. by rewrite He.
  - change (negb _) with false at 1. cbv iota.
    destruct (read_iter_spec r (replicate BULKNUM sizeof_pval_slot) Hr) as (r' & Heq & Hr' & Hc); [done|].
    rewrite length_replicate in *. set (n := Nat.min (length (ring_contents r)) BULKNUM) in *.
    pose proof Hr as (_ & _ & _ & _ & _ & Hall)%ring_ok_spec.
    assert (Hout : zip_with (fun s len => take (Z.to_nat (Z.min len sizeof_pval_slot)) (pval_slot_bytes s))
      (take n (ring_contents r)) (take n (replicate BULKNUM sizeof_pval_slot)) = pval_slot_bytes <$> take n (ring_contents r)).
    { rewrite take_replicate. replace (BULKNUM `min` n)%nat with n by lia. rewrite zip_with_replicate_r_eq by (rewrite length_take; lia).
      apply list_fmap_ext. intros i s Hs. unfold flip. rewrite Z.min_id, take_ge; [done|].
      apply Nat.eq_le_incl, length_pval_slot_bytes.
      assert (Hn : Forall (fun s => slot_ok s = true) (take n (ring_contents r))) by (by apply Forall_take).
      by eapply Forall_lookup_1 in Hn. }
    rewrite Hout in Heq. rewrite Heq. cbn [mbind option_bind]. rewrite (proj2 (Z.ltb_ge _ 0)), Nat2Z.id by lia.
    destruct (store_bufs_ok (take n (ring_contents r)) slots) as (H1 & H2 & H3); [by apply Forall_take|rewrite length_take; lia|done|].
    rewrite length_take in H3. replace (n `min` length (ring_contents r))%nat with n in H3 by lia. rewrite H3.
    assert (Htk : take n (ring_contents r) = take BULKNUM (ring_contents r) /\ drop n (ring_contents r) = drop BULKNUM (ring_contents r)).
    { destruct (Nat.le_gt_cases (length (ring_contents r)) BULKNUM).
      - rewrite !take_ge, !drop_ge by lia. done.
      - by replace n with BULKNUM by lia. }
    destruct Htk as [Ht Hd]. exists r'. eexists. rewrite Ht. split; [done|]. rewrite Ht in H1, H2. rewrite Hc, Hd.
    split; [done|]. split; [|done]. split; [by rewrite H1|done].
Qed.
End Rounds.

(** ** The loop as a client of the queue *)

Section Client.
Context {skb : Type} `{SkbView skb}.

(** What an iteration does to the ring. *)
Definition tick_ops (t : tick skb) : list (@ring_op skb) :=
  (Write <$> t_writes t) ++ [Read (replicate BULKNUM sizeof_pval_slot)].
Definition ops_of (ticks : list (tick skb)) : list (@ring_op skb) := concat (tick_ops <$> ticks).

Definition tick_ok (t : tick skb) : bool := forallb skb_ok (t_writes t) && (0 <=? t_poll t) && negb (t_signal t).

(** An iteration in which the module writes nothing. *)
Definition idle (t : tick skb) : bool := match t_writes t with [] => true | _ => false end.

Lemma queue_run_app q (a b : list (@ring_op skb)) :
  queue_run q (a ++ b) =
  ((queue_run (queue_run q a).1 b).1, (queue_run q a).2 ++ (queue_run (queue_run q a).1 b).2).
Proof.
  revert q. induction a as [|o a IH]; intros q; cbn [app queue_run].
  - cbn [fst snd app]. by destruct (queue_run q b).
  - destruct (queue_step q o) as [q1 o1]. rewrite IH. destruct (queue_run q1 a) as [q2 o2]. cbn [fst snd].
    by rewrite app_assoc.
Qed.

Lemma queue_run_writes q (ws : list skb) : (queue_run q (Write <$> ws)).2 = [].
Proof.
  revert q. induction ws as [|b ws IH]; intros q; [done|]. cbn [fmap list_fmap queue_run queue_step].
  destruct (_ <? _); match goal with |- context [queue_run ?q' _] => specialize (IH q'); destruct (queue_run q' _) end;
    exact IH.
Qed.

Lemma write_ops_ok (ws : list skb) : forallb skb_ok ws = true -> forallb op_ok (Write <$> ws) = true.
Proof. induction ws as [|b ws IH]; [done|]. cbn. intros [-> ?]%andb_prop. by apply IH. Qed.

Section Spec.
Context (parse : pval_slot -> option string) (line : pval_slot -> string).
Context (Hparse : forall s, slot_ok s = true -> parse s = Some (line s)).

Lemma dump_loop_spec on_signal ticks : forall r slots,
  ring_ok r = true -> bufs_ok slots -> forallb tick_ok ticks = true ->
  exists D r', dump_loop on_signal parse r slots ticks = Some (Running, r', line <$> D) /\ ring_ok r' = true /\
    queue_run (pkt_of_slot <$> ring_contents r) (ops_of ticks) = (pkt_of_slot <$> ring_contents r', pkt_of_slot <$> D).
Proof.
  induction ticks as [|t ticks IH]; intros r slots Hr Hb Ht; [by exists [], r|].
  cbn [forallb] in Ht. apply andb_prop in Ht as [Ht Hts]. unfold tick_ok in Ht. bool_to_prop.
  destruct (ring_run_simulates (Write <$> t_writes t) r Hr) as (r1 & out & Hrun & Hr1 & Hq1); [by apply write_ops_ok|].
  destruct (dump_round_spec parse line Hparse r1 slots Hr1 Hb) as (r2 & slots' & Hround & Hr2 & Hb2 & Hc2).
  destruct (IH r2 slots' Hr2 Hb2 Hts) as (D & r3 & Hloop & Hr3 & Hq3).
  exists (take BULKNUM (ring_contents r1) ++ D), r3. split; [|split; [done|]].
  - cbn [dump_loop]. rewrite Hrun. cbn [mbind option_bind].
    replace (on_signal && t_signal t) with false by (destruct on_signal; cbn; congruence).
    rewrite (proj2 (Z.ltb_ge _ _)) by done. rewrite Hround. cbn [mbind option_bind]. rewrite Hloop. cbn [mbind option_bind].
    by rewrite fmap_app.
  - unfold ops_of. cbn [fmap list_fmap concat]. fold (ops_of ticks). unfold tick_ops.
    pose proof (queue_run_writes (pkt_of_slot <$> ring_contents r) (t_writes t)) as Hw.
    rewrite Hq1 in Hw. cbn [snd] in Hw.
    rewrite <- app_assoc, queue_run_app, Hq1, Hw. cbn [fst snd app queue_run queue_step].
    rewrite length_replicate, <- fmap_drop, <- Hc2, Hq3. by rewrite fmap_app, fmap_take.
Qed.

(** Reads of sixteen empty the queue. *)
Lemma idle_drains ticks q :
  forallb idle ticks = true -> (queue_run q (ops_of ticks)).1 = drop (BULKNUM * length ticks) q.
Proof.
  revert q. induction ticks as [|t ticks IH]; intros q Hi; [done|]. cbn [forallb] in Hi. apply andb_prop in Hi as [Ht Hi].
  unfold ops_of. cbn [fmap list_fmap concat]. fold (ops_of ticks). unfold tick_ops, idle in *.
  destruct (t_writes t); [|done]. cbn [fmap list_fmap app queue_run queue_step]. rewrite length_replicate.
  pose proof (IH (drop BULKNUM q) Hi) as IH'. destruct (queue_run (drop BULKNUM q) (ops_of ticks)). cbn [fst] in *.
  rewrite IH', drop_drop. f_equal. cbn [length]. lia.
Qed.

Lemma accepted_idle ticks q : forallb idle ticks = true -> accepted q (ops_of ticks) = [].
Proof.
  revert q. induction ticks as [|t ticks IH]; intros q Hi; [done|]. cbn [forallb] in Hi. apply andb_prop in Hi as [Ht Hi].
  unfold ops_of. cbn [fmap list_fmap concat]. fold (ops_of ticks). unfold tick_ops, idle in *.
  destruct (t_writes t); [|done]. cbn [fmap list_fmap app accepted]. by apply IH.
Qed.

Lemma accepted_app q (a b : list (@ring_op skb)) :
  accepted q (a ++ b) = accepted q a ++ accepted (queue_run q a).1 b.
Proof.
  revert q. induction a as [|o a IH]; intros q; [done|]. cbn [app accepted queue_run].
  destruct (queue_step q o) as [q1 o1] eqn:E. cbn [fst]. rewrite IH. destruct (queue_run q1 a) as [q2 o2]. cbn [fst].
  destruct o; try done. by destruct (_ <? _).
Qed.

Lemma no_flush_ops ticks : no_flush (ops_of ticks) = true.
Proof.
  unfold no_flush, ops_of. induction ticks as [|t ticks IH]; [done|]. cbn [fmap list_fmap concat].
  rewrite forallb_app, IH, andb_true_r. unfold tick_ops. rewrite forallb_app. cbn. rewrite andb_true_r.
  by induction (t_writes t).
Qed.

Lemma dump_loop_drains on_signal ticks quiet r slots :
  ring_ok r = true -> bufs_ok slots -> forallb tick_ok (ticks ++ quiet) = true ->
  forallb idle quiet = true -> (64 <= length quiet)%nat ->
  let q := pkt_of_slot <$> ring_contents r in
  exists D r', dump_loop on_signal parse r slots (ticks ++ quiet) = Some (Running, r', line <$> D) /\
    ring_contents r' = [] /\ pkt_of_slot <$> D = q ++ accepted q (ops_of ticks).
Proof.
  intros Hr Hb Ht Hi Hl q. destruct (dump_loop_spec on_signal (ticks ++ quiet) r slots Hr Hb Ht) as (D & r' & Hloop & _ & Hq).
  assert (Happ : ops_of (ticks ++ quiet) = ops_of ticks ++ ops_of quiet)
    by (unfold ops_of; by rewrite fmap_app, concat_app).
  rewrite forallb_app in Ht. apply andb_prop in Ht as [Ht _].
  destruct (dump_loop_spec on_signal ticks r slots Hr Hb Ht) as (D1 & r1 & _ & Hr1 & Hq1).
  pose proof (queue_fifo (ops_of (ticks ++ quiet)) q (no_flush_ops _)) as Hfifo. fold q in Hq, Hq1.
  assert (Hempty : pkt_of_slot <$> ring_contents r' = []).
  { replace (pkt_of_slot <$> ring_contents r') with (queue_run q (ops_of (ticks ++ quiet))).1 by (by rewrite Hq).
    rewrite Happ, queue_run_app. cbn [fst]. rewrite idle_drains, Hq1 by done. cbn [fst]. apply drop_ge. rewrite length_fmap.
    pose proof (contents_le_capacity r1 Hr1). unfold ring_capacity, PVAL_SLOT_NUM, BULKNUM in *. lia. }
  exists D, r'. split; [done|]. split; [by apply fmap_nil_inv in Hempty|].
  rewrite Hq in Hfifo. cbn [fst snd] in Hfifo. rewrite Hempty, app_nil_r in Hfifo. rewrite Hfifo, Happ, accepted_app.
  by rewrite (accepted_idle quiet), app_nil_r by done.
Qed.
End Spec.
End Client.

Lemma zero_slots_ok : bufs_ok zero_slots.
Proof. split; [done|]. unfold zero_slots. apply Forall_replicate. by rewrite length_replicate. Qed.

(** ** Lengths of formatted text *)

Lemma slen_tcp_flag b i : slen (tcp_flag b i) <= 1.
Proof.
  unfold tcp_flag. apply (slen_dec_le _ 0).
  replace (Z.land (Z.shiftr b i) 1) with (Z.shiftr b i mod 2) by (symmetry; by apply (land_mask _ 1)).
  pose proof (Z.mod_pos_bound (Z.shiftr b i) 2 ltac:(lia)). change (10 ^ Z.of_nat 1) with 10. lia.
Qed.

(** Appending what fits. *)
Lemma strncat_fits size out buf n :
  slen out + slen buf + 1 <= size -> exists s, strncat size out buf n = Some s /\ slen s <= slen out + slen buf.
Proof.
  intros Hs. unfold strncat. pose proof (slen_substring_le 0 (Z.to_nat n) buf).
  rewrite (proj2 (Z.leb_le _ _)) by lia. eexists. split; [done|]. rewrite slen_app. lia.
Qed.

Lemma pkt_byte pkt i : bytes_ok pkt = true -> (i < length pkt)%nat -> exists b, pkt !! i = Some b /\ 0 <= b < 256.
Proof.
  intros Hb Hi. destruct (lookup_lt_is_Some_2 pkt i Hi) as [b Hb']. exists b. split; [done|]. by eapply bytes_ok_lookup.
Qed.

Lemma ihl_range v : 0 <= v < 256 -> 0 <= Z.shiftl (Z.land v 0x0F) 2 <= 60.
Proof.
  intros Hv. rewrite Z.shiftl_mul_pow2 by lia. change 0x0F with (2 ^ 4 - 1). rewrite land_mask by lia.
  pose proof (Z.mod_pos_bound v (2 ^ 4) ltac:(lia)). change (2 ^ 2) with 4. lia.
Qed.

Lemma slen_proto_text p : 0 <= p < 256 -> slen (snprintf_to 256 ("IP_PROTO=" +:+ dec p +:+ " ")) <= 13.
Proof.
  intros Hp. pose proof (slen_dec_le p 2 ltac:(cbn; lia)).
  etransitivity; [apply slen_substring_le|]. rewrite !slen_app. change (slen "IP_PROTO=") with 9. change (slen " ") with 1. lia.
Qed.

(** The longest prefix for which every line fits the array. *)
Definition LOOK_TCP_PREFIX_MAX : Z := 154.

Lemma look_tcp_first prefix s ty :
  slen prefix <= LOOK_TCP_PREFIX_MAX -> slot_ok s = true -> 0 <= ty < 65536 ->
  slen (snprintf_to 256 (prefix +:+ " TS=" +:+ dec (s_tstamp s) +:+ " PKTLEN=" +:+ dec (s_pktlen s)
    +:+ " ETHER_TYPE=0x" +:+ hex_pad 4 ty +:+ " ")) <= 215.
Proof.
  intros Hp Hs Ht. unfold snprintf_to. etransitivity; [apply slen_substring_le|]. rewrite !slen_app.
  unfold slot_ok in Hs. bool_to_prop.
  repeat match goal with H : is_u _ _ = true |- _ => apply is_u_spec in H end.
  pose proof (slen_dec_le (s_tstamp s) 19 ltac:(cbn; lia)). pose proof (slen_dec_le (s_pktlen s) 9 ltac:(cbn; lia)).
  pose proof (slen_hex_pad4 ty Ht). unfold LOOK_TCP_PREFIX_MAX in Hp.
  change (slen " TS=") with 4. change (slen " PKTLEN=") with 8. change (slen " ETHER_TYPE=0x") with 14. change (slen " ") with 1. lia.
Qed.

Lemma look_tcp_total prefix s :
  slen prefix <= LOOK_TCP_PREFIX_MAX -> slot_ok s = true -> is_Some (look_tcp_print prefix s).
Proof.
  intros Hp Hs. pose proof (slot_pkt_len s Hs) as [Hl Hb]. unfold look_tcp_print.
  destruct (slice_total (s_pkt s) 12 2) as [hp Ehp]; [lia|]. rewrite Ehp. cbn [mbind option_bind].
  assert (Hty : 0 <= be_val hp < 65536).
  { pose proof (length_slice _ _ _ _ Ehp) as Hh. pose proof (be_val_bound hp (bytes_ok_slice _ _ _ _ Hb Ehp)) as Hv.
    by rewrite Hh in Hv. }
  pose proof (look_tcp_first prefix s (be_val hp) Hp Hs Hty) as Hout. set (out := snprintf_to 256 (prefix +:+ _)) in *.
  case_test; [by eexists|]. destruct (pkt_byte (s_pkt s) (14 + 9)) as (p & Ep & Hpr); [done|lia|]. rewrite Ep. cbn [mbind option_bind].
  pose proof (slen_proto_text p Hpr) as Hb1.
  destruct (strncat_fits 256 out (snprintf_to 256 ("IP_PROTO=" +:+ dec p +:+ " ")) 256) as (o1 & -> & Ho1); [lia|]. cbn [mbind option_bind].
  case_test; [by eexists|]. subst p. change (slen (snprintf_to 256 ("IP_PROTO=" +:+ dec PROTO_TCP +:+ " "))) with 11 in Ho1.
  destruct (pkt_byte (s_pkt s) 14) as (v & Ev & Hv); [done|lia|]. rewrite Ev. cbn [mbind option_bind].
  pose proof (ihl_range v Hv) as Hih.
  destruct (pkt_byte (s_pkt s) (Z.to_nat (14 + Z.shiftl (Z.land v 0x0F) 2 + 13))) as (fl & Ef & _); [done|lia|].
  rewrite Ef. cbn [mbind option_bind].
  match goal with |- context [strncat 256 o1 ?b 256] => assert (Hb2 : slen b <= 29) end.
  { etransitivity; [apply slen_substring_le|]. rewrite !slen_app.
    pose proof (slen_tcp_flag fl 0). pose proof (slen_tcp_flag fl 1). pose proof (slen_tcp_flag fl 2).
    pose proof (slen_tcp_flag fl 3). pose proof (slen_tcp_flag fl 4).
    change (slen "SYN=") with 4. change (slen " ACK=") with 5. change (slen " PSH=") with 5. change (slen " RST=") with 5.
    change (slen " FIN=") with 5. lia. }
  match goal with |- context [strncat 256 o1 ?b 256] => destruct (strncat_fits 256 o1 b 256) as (o2 & -> & _); [lia|] end.
  by eexists.
Qed.

(** ** Theorems *)

(** The lines of a slot. *)
Definition one_line (s : pval_slot) : string := default EmptyString (dump_one_print s).
Definition multi_line (path : string) (s : pval_slot) : string := default EmptyString (dump_multi_print path s).
Definition tcp_line (path : string) (s : pval_slot) : string := default EmptyString (look_tcp_print path s).

Lemma default_total (parse : pval_slot -> option string) s :
  is_Some (parse s) -> parse s = Some (default EmptyString (parse s)).
Proof. by intros [l ->]. Qed.

(** With every [pthread_create] a success. *)
Lemma start_threads_all paths : forall n, (n <= MAX_THREADS)%nat ->
  start_threads (fun _ => 0) n paths =
  if (n + length paths <=? MAX_THREADS)%nat && forallb (fun p => slen p <? PATH_MAX) paths
  then Some (None, paths) else None.
Proof.
  induction paths as [|p paths IH]; intros n Hn; cbn [start_threads length forallb].
  - by rewrite (proj2 (Nat.leb_le _ _)) by lia.
  - destruct (Nat.leb_spec MAX_THREADS n); [by rewrite (proj2 (Nat.leb_gt _ _)) by lia|].
    unfold thread_path. destruct (slen p <? PATH_MAX); cbn [mbind option_bind andb negb Z.eqb]; [|by rewrite andb_false_r].
    rewrite IH, Nat.add_succ_r by lia. cbn [Nat.add]. by destruct (_ && _).
Qed.

(** C7. The readers print every packet the ring accepted, once and in order of
    arrival: from any state of the ring, whatever the module writes between the
    iterations, after the last write and 64 more iterations each tool has
    printed one line for each packet that was queued or accepted, no other
    line, and the ring is empty. No iteration leaves its arrays ([look-tcp] for
    paths up to [LOOK_TCP_PREFIX_MAX]). *)
Theorem readers_print_all {skb : Type} `{SkbView skb} r (ticks quiet : list (tick skb)) prog path :
  ring_ok r = true -> forallb tick_ok (ticks ++ quiet) = true -> forallb idle quiet = true ->
  (64 <= length quiet)%nat -> slen path <= LOOK_TCP_PREFIX_MAX ->
  let q := pkt_of_slot <$> ring_contents r in
  let prints (run : option (ended * pval_ring * list string)) (line : pval_slot -> string) :=
    exists D r', run = Some (Running, r', line <$> D) /\ ring_contents r' = [] /\
      pkt_of_slot <$> D = q ++ accepted q (ops_of ticks) in
  (exists run, dump_one_main [prog; path] true r (ticks ++ quiet) = Some (inr run) /\ prints (Some run) one_line) /\
  prints (dump_thread dump_multi_print path true r (ticks ++ quiet)) (multi_line path) /\
  prints (dump_thread look_tcp_print path true r (ticks ++ quiet)) (tcp_line path).
Proof.
  intros Hr Ht Hi Hl Hp q prints.
  assert (Hall : forall on_signal parse line, (forall s, slot_ok s = true -> parse s = Some (line s)) ->
    prints (dump_loop on_signal parse r zero_slots (ticks ++ quiet)) line).
  { intros. apply (dump_loop_drains parse line); try done. apply zero_slots_ok. }
  split; [|split].
  - destruct (Hall false dump_one_print one_line) as (D & r' & Hrun & HD).
    { intros s Hs. by apply default_total, dump_one_print_total. }
    eexists. split; [|exists D, r'; split; [reflexivity|exact HD]].
    unfold dump_one_main. cbn -[dump_loop zero_slots]. by rewrite Hrun.
  - apply Hall. intros s Hs. by apply (default_total (dump_multi_print path)), dump_multi_print_total.
  - apply Hall. intros s Hs. by apply (default_total (look_tcp_print path)), look_tcp_total.
Qed.

(** C38. [look-tcp] keeps its line in an array of 256 characters only for paths of
    up to [LOOK_TCP_PREFIX_MAX] characters: below that no slot makes it overrun
    the array; a path one character longer and a TCP packet with a large time
    stamp make [strncat], which bounds what it appends and not the result, write
    past the end. Likewise [main] of the threaded tools stays inside its arrays
    exactly for at most 32 paths shorter than [PATH_MAX], and then starts a
    thread for each of them. *)
Theorem look_tcp_overrun :
  (forall prefix s, slen prefix <= LOOK_TCP_PREFIX_MAX -> slot_ok s = true -> is_Some (look_tcp_print prefix s)) /\
  (exists prefix s, slen prefix = LOOK_TCP_PREFIX_MAX + 1 /\ slot_ok s = true /\ look_tcp_print prefix s = None) /\
  (forall prog paths, paths <> [] ->
     dump_multi_main (fun _ => 0) true (prog :: paths) =
     if (length paths <=? MAX_THREADS)%nat && forallb (fun p => slen p <? PATH_MAX) paths then Some (0, paths) else None).
Proof.
  split; [|split].
  - apply look_tcp_total.
  - exists (String.string_of_list_ascii (replicate 155 "d"%char)).
    exists (mk_pval_slot 54 4294967295 18446744073709551615
      (replicate 12 0 ++ [8; 0; 0x45] ++ replicate 8 0 ++ [6] ++ replicate 232 100)).
    split; [by vm_compute|]. split; by vm_compute.
  - intros prog paths Hne. unfold dump_multi_main. rewrite (proj2 (Z.ltb_ge _ _)) by (destruct paths; [done|cbn; lia]).
    cbn [tail]. rewrite (start_threads_all paths 0) by lia. cbn [Nat.add]. by destruct (_ && _).
Qed.

(** ** Witness *)

Definition sample_tick (ws : list linear_skb) : tick linear_skb := mk_tick ws false 1.

Lemma readers_print_all_witness :
  exists D r', dump_thread dump_multi_print "/dev/pval/p-tx-cpu-0" true sample_ring
      ([sample_tick [sample_skb 60 7]] ++ replicate 64 (sample_tick [])) =
      Some (Running, r', multi_line "/dev/pval/p-tx-cpu-0" <$> D) /\ length D = 1%nat.
Proof.
  destruct (readers_print_all sample_ring [sample_tick [sample_skb 60 7]] (replicate 64 (sample_tick [])) "dump-one"
    "/dev/pval/p-tx-cpu-0") as (_ & (D & r' & Hrun & _ & HD) & _).
  - vm_compute; reflexivity.
  - vm_compute; reflexivity.
  - vm_compute; reflexivity.
  - vm_compute; lia.
  - vm_compute; discriminate.
  - exists D, r'. split; [exact Hrun|]. rewrite <- (length_fmap pkt_of_slot), HD.
    replace (ring_contents sample_ring) with (@nil pval_slot) by (vm_compute; reflexivity). reflexivity.
Defined.
