(* ===== verification/Tap.v ===== *)
(** * The user-space bridge

    Models [tap/tap1.c], which joins a tap device and a network interface in user
    space and prints each frame with its hardware time stamp: the set-up
    functions, [print_pkt], [get_tstamp] and the loop of [main]. The system calls
    are answers given per iteration. Both directions share one buffer and the
    receiving one shares a [struct msghdr]; the bytes a short frame leaves in the
    buffer, and the length the kernel leaves in the header, are kept. *)
From stdpp Require Import base list numbers strings.
From Stdlib Require Import ZArith Lia Ascii.
From S2P Require Import Prelude Abi Cstring Ring State Chardev Tools.

Open Scope Z_scope.

(** ** Printing *)

Definition print_pkt (hwts : Z) (prefix : string) (pkt : list Z) (pktlen : Z) : option string :=
  h_proto ← slice pkt 12 2;
  let ty := be_val h_proto in
  let out := snprintf_to 256 (prefix +:+ " TS=" +:+ dec hwts +:+ " PKTLEN=" +:+ dec pktlen
                              +:+ " ETHER_TYPE=0x" +:+ hex_pad 4 ty +:+ " ") in
  if negb (ty =? ETHERTYPE_IP) then Some (out +:+ line_end)
  else
    protocol ← pkt !! (14 + 9)%nat;
    let buf := snprintf_to 256 ("IP_PROTO=" +:+ dec protocol +:+ " ") in
    out ← strncat 256 out buf 256;
    if negb (protocol =? PROTO_TCP) then Some (out +:+ line_end)
    else
      vihl ← pkt !! 14%nat;
      let tcp := 14 + Z.shiftl (Z.land vihl 0x0F) 2 in
      source ← slice pkt (Z.to_nat tcp) 2;
      dest ← slice pkt (Z.to_nat (tcp + 2)) 2;
      fl ← pkt !! Z.to_nat (tcp + 13);
      let buf := snprintf_to 256 ("SPORT=" +:+ dec (be_val source) +:+ " DPORT=" +:+ dec (be_val dest)
                                  +:+ " SYN=" +:+ tcp_flag fl 1 +:+ " ACK=" +:+ tcp_flag fl 4 +:+ " PSH=" +:+ tcp_flag fl 3
                                  +:+ " RST=" +:+ tcp_flag fl 2 +:+ " FIN=" +:+ tcp_flag fl 0) in
      out ← strncat 256 out buf 256;
      Some (out +:+ line_end).

(** ** Control messages *)

Definition SOL_SOCKET : Z := 1.
Definition SO_TIMESTAMPING : Z := 37.

(** A control message: its level and type, and the third [struct timespec] of its
    data, the hardware time stamp. *)
Record cmsg := mk_cmsg { c_level : Z; c_type : Z; c_tv_sec : Z; c_tv_nsec : Z }.

(** [ts->ts[2].tv_sec * 1000000000 + ts->ts[2].tv_nsec] as an unsigned number. *)
Definition stamp_of (c : cmsg) : Z := u64 (c_tv_sec c * 1000000000 + c_tv_nsec c).
Definition is_stamp (c : cmsg) : bool := (c_level c =? SOL_SOCKET) && (c_type c =? SO_TIMESTAMPING).

(** [get_tstamp]: the first time stamp in the error queue, zero without one;
    [recv] is what [recvmsg(fd, &msg, MSG_ERRQUEUE)] returns and delivers. *)
Definition get_tstamp (recv : Z * list cmsg) : Z :=
  if fst recv <? 0 then 0
  else match list_find (fun c => is_stamp c = true) (snd recv) with
       | Some (_, c) => stamp_of c
       | None => 0
       end.

(** The loop over the control messages of a received frame: the last one counts. *)
Fixpoint rx_tstamp (hwts : Z) (cms : list cmsg) : Z :=
  match cms with
  | [] => hwts
  | c :: cms' => rx_tstamp (if is_stamp c then stamp_of c else hwts) cms'
  end.

(** ** Setting up *)

(** [tap_alloc], from the results of [open] and [ioctl]; whether the descriptor
    was closed again. *)
Definition tap_alloc (fd ioctl_ret : Z) : Z * bool :=
  if fd <? 0 then (fd, false) else if ioctl_ret <? 0 then (ioctl_ret, true) else (fd, false).

(** [hwtstamp_config_set], from the results of [socket] and [ioctl]. *)
Definition hwtstamp_config_set (sock ioctl_ret : Z) : Z :=
  if sock <? 0 then -1 else if negb (ioctl_ret =? 0) then -1 else 0.

(** [raw_alloc], from the interface index, the results of [socket] and [bind] and
    the [errno] of the call that failed. *)
Definition raw_alloc (ifindex errno fd bind_ret : Z) : Z :=
  if ifindex =? 0 then errno else if fd <? 0 then fd else if bind_ret <? 0 then errno else fd.

(** ** The loop *)

Definition BUF_LEN : Z := 2048.
Definition CTRL_LEN : Z := 512.

(** One iteration as the system calls answer it. [a_control] is the control data
    of the received frame: with room for [controllen] bytes, the messages the
    [CMSG_*] macros find and the new [msg_controllen]. *)
Record answers := mk_answers {
  a_tap_in : bool;              (* x[0].revents & POLLIN *)
  a_read : Z * list Z;          (* read from the tap: the result and the bytes stored *)
  a_sendto : Z;
  a_errqueue : Z * list cmsg;   (* recvmsg of get_tstamp *)
  a_raw_in : bool;              (* x[1].revents & POLLIN *)
  a_recvmsg : Z * list Z;       (* recvmsg: the result and the bytes stored *)
  a_control : Z -> list cmsg * Z;
  a_write : Z }.

(** What the program does: frames handed to the kernel, lines and errors. *)
Inductive action :=
  | ToRaw (frame : list Z)
  | ToTap (frame : list Z)
  | Line (text : string)
  | Perror (what : string).

Record bridge := mk_bridge { b_buf : list Z; b_controllen : Z }.

(** A system call that stores [data] at the start of the buffer. *)
Definition fill (buf data : list Z) : list Z := data ++ drop (length data) buf.

(** [sendto] and [write] of the first [n] bytes of the buffer. *)
Definition frame_of (buf : list Z) (n : Z) : option (list Z) := slice buf 0 (Z.to_nat n).

(** tap -> raw. *)
Definition tap_to_raw (b : bridge) (a : answers) : option (bridge * list action) :=
  if a_tap_in a then
    let '(ret, data) := a_read a in
    let buf := fill (b_buf b) data in
    let b' := mk_bridge buf (b_controllen b) in
    if ret <=? 0 then Some (b', [Perror "read from tap"])
    else
      frame ← frame_of buf ret;
      if a_sendto a <=? 0 then Some (b', [ToRaw frame; Perror "write to raw"])
      else
        line ← print_pkt (get_tstamp (a_errqueue a)) "tx" buf (a_sendto a);
        Some (b', [ToRaw frame; Line line])
  else Some (b, []).

(** raw -> tap. *)
Definition raw_to_tap (b : bridge) (a : answers) : option (bridge * list action) :=
  if a_raw_in a then
    let '(ret, data) := a_recvmsg a in
    let '(cms, controllen) := a_control a (b_controllen b) in
    let buf := fill (b_buf b) data in
    let b' := mk_bridge buf controllen in
    if ret <=? 0 then Some (b', [Perror "read from raw"])
    else
      line ← print_pkt (rx_tstamp 0 cms) "rx" buf ret;
      frame ← frame_of buf ret;
      Some (b', Line line :: ToTap frame :: if a_write a <=? 0 then [Perror "write to tap"] else [])
  else Some (b, []).

Fixpoint bridge_loop (b : bridge) (l : list answers) : option (bridge * list action) :=
  match l with
  | [] => Some (b, [])
  | a :: l' =>
      '(b1, o1) ← tap_to_raw b a;
      '(b2, o2) ← raw_to_tap b1 a;
      '(b3, o3) ← bridge_loop b2 l';
      Some (b3, o1 ++ o2 ++ o3)
  end.

(** [main]: its return value before the loop, or the state of the loop; [buf] is
    what the stack held. *)
Definition bridge_main (argc : Z) (tap_fd raw_fd : Z) (buf : list Z) (l : list answers)
  : option (Z + (bridge * list action)) :=
  if argc <? 3 then Some (inl (-1))
  else if tap_fd <? 0 then Some (inl tap_fd)
  else if raw_fd <? 0 then Some (inl raw_fd)
  else x ← bridge_loop (mk_bridge buf CTRL_LEN) l; Some (inr x).

(** ** Lines fit *)

Lemma print_pkt_first hwts prefix pktlen ty :
  slen prefix <= 2 -> is_u64 hwts = true -> 0 <= pktlen < 10 ^ 10 -> 0 <= ty < 65536 ->
  slen (snprintf_to 256 (prefix +:+ " TS=" +:+ dec hwts +:+ " PKTLEN=" +:+ dec pktlen
    +:+ " ETHER_TYPE=0x" +:+ hex_pad 4 ty +:+ " ")) <= 63.
Proof.
  intros Hp Hh Hl Ht. etransitivity; [apply slen_substring_le|]. rewrite !slen_app. apply is_u_spec in Hh.
  pose proof (slen_dec_le hwts 19 ltac:(cbn; lia)). pose proof (slen_dec_le pktlen 9 ltac:(cbn; lia)).
  pose proof (slen_hex_pad4 ty Ht).
  change (slen " TS=") with 4. change (slen " PKTLEN=") with 8. change (slen " ETHER_TYPE=0x") with 14. change (slen " ") with 1. lia.
Qed.

Lemma slice_u2 l i : bytes_ok l = true -> (i + 2 <= length l)%nat -> exists x, slice l i 2 = Some x /\ 0 <= be_val x < 65536.
Proof.
  intros Hb Hl. destruct (slice_total l i 2 Hl) as [x Hx]. exists x. split; [done|].
  pose proof (be_val_bound x (bytes_ok_slice _ _ _ _ Hb Hx)) as Hv. by rewrite (length_slice _ _ _ _ Hx) in Hv.
Qed.

Lemma print_pkt_total hwts prefix pkt pktlen :
  slen prefix <= 2 -> is_u64 hwts = true -> bytes_ok pkt = true -> (94 <= length pkt)%nat -> 0 <= pktlen < 10 ^ 10 ->
  is_Some (print_pkt hwts prefix pkt pktlen).
Proof.
  intros Hp Hh Hb Hl Hn. unfold print_pkt. destruct (slice_u2 pkt 12 Hb) as (hp & -> & Hty); [lia|]. cbn [mbind option_bind].
  pose proof (print_pkt_first hwts prefix pktlen (be_val hp) Hp Hh Hn Hty) as Hout. set (out := snprintf_to 256 (prefix +:+ _)) in *.
  case_test; [by eexists|]. destruct (pkt_byte pkt (14 + 9)) as (p & -> & Hpr); [done|lia|]. cbn [mbind option_bind].
  pose proof (slen_proto_text p Hpr).
  destruct (strncat_fits 256 out (snprintf_to 256 ("IP_PROTO=" +:+ dec p +:+ " ")) 256) as (o1 & -> & Ho1); [lia|].
  cbn [mbind option_bind]. case_test; [by eexists|].
  destruct (pkt_byte pkt 14) as (v & -> & Hv); [done|lia|]. cbn [mbind option_bind]. pose proof (ihl_range v Hv) as Hih.
  destruct (slice_u2 pkt (Z.to_nat (14 + Z.shiftl (Z.land v 0x0F) 2)) Hb) as (sp & -> & Hsp); [lia|].
  destruct (slice_u2 pkt (Z.to_nat (14 + Z.shiftl (Z.land v 0x0F) 2 + 2)) Hb) as (dp & -> & Hdp); [lia|].
  destruct (pkt_byte pkt (Z.to_nat (14 + Z.shiftl (Z.land v 0x0F) 2 + 13))) as (fl & -> & _); [done|lia|].
  cbn [mbind option_bind]. match goal with |- context [strncat 256 o1 ?b 256] => assert (Hb2 : slen b <= 60) end.
  { etransitivity; [apply slen_substring_le|]. rewrite !slen_app.
    pose proof (slen_dec_le (be_val sp) 4 ltac:(cbn; lia)). pose proof (slen_dec_le (be_val dp) 4 ltac:(cbn; lia)).
    pose proof (slen_tcp_flag fl 0). pose proof (slen_tcp_flag fl 1). pose proof (slen_tcp_flag fl 2).
    pose proof (slen_tcp_flag fl 3). pose proof (slen_tcp_flag fl 4).
    change (slen "SPORT=") with 6. change (slen " DPORT=") with 7. change (slen " SYN=") with 5. change (slen " ACK=") with 5.
    change (slen " PSH=") with 5. change (slen " RST=") with 5. change (slen " FIN=") with 5. lia. }
  match goal with |- context [strncat 256 o1 ?b 256] => destruct (strncat_fits 256 o1 b 256) as (o2 & -> & _); [lia|] end.
  by eexists.
Qed.

(** ** Forwarding *)

(** The calls store at most a buffer of bytes, as many as they return. *)
Definition stored_ok (x : Z * list Z) : bool :=
  bytes_ok (snd x) && (Z.of_nat (length (snd x)) <=? BUF_LEN) && ((fst x <=? 0) || (fst x =? Z.of_nat (length (snd x)))).

Definition answers_ok (a : answers) : bool :=
  stored_ok (a_read a) && stored_ok (a_recvmsg a) && (a_sendto a <? 2 ^ 31).

Definition bridge_ok (b : bridge) : Prop := bytes_ok (b_buf b) = true /\ Z.of_nat (length (b_buf b)) = BUF_LEN.

(** The frame a call delivered. *)
Definition delivered (ready : bool) (x : Z * list Z) : list (list Z) :=
  if ready && (0 <? fst x) then [snd x] else [].

Definition sent_to_raw (o : action) : option (list Z) := match o with ToRaw f => Some f | _ => None end.
Definition sent_to_tap (o : action) : option (list Z) := match o with ToTap f => Some f | _ => None end.

Lemma fill_ok b x : bridge_ok b -> stored_ok x = true ->
  bytes_ok (fill (b_buf b) (snd x)) = true /\ Z.of_nat (length (fill (b_buf b) (snd x))) = BUF_LEN /\
  (0 < fst x -> frame_of (fill (b_buf b) (snd x)) (fst x) = Some (snd x)).
Proof.
  intros [Hb Hl] Hx. unfold stored_ok in Hx. apply andb_prop in Hx as [Hx Hr]. bool_to_prop. unfold fill, frame_of.
  rewrite bytes_ok_app_true, length_app, length_drop by auto with pval. split_and!; [done|lia|]. intros Hp.
  destruct Hr as [Hr|Hr]; bool_to_prop; [lia|]. rewrite Hr, Nat2Z.id.
  apply slice_Some. rewrite length_app. split; [lia|]. rewrite drop_0. by rewrite take_app_length.
Qed.

Lemma stored_le x : stored_ok x = true -> 0 < fst x -> fst x <= BUF_LEN.
Proof. unfold stored_ok. intros Hx Hp. apply andb_prop in Hx as [Hx Hr]. bool_to_prop. destruct Hr; bool_to_prop; lia. Qed.

Lemma rx_tstamp_u64 cms : forall hwts, is_u64 hwts = true -> is_u64 (rx_tstamp hwts cms) = true.
Proof.
  induction cms as [|c cms IH]; intros hwts Hh; [done|]. cbn [rx_tstamp]. apply IH. case_test; [|done].
  apply is_u_spec. apply Z.mod_pos_bound. lia.
Qed.

Lemma get_tstamp_u64 x : is_u64 (get_tstamp x) = true.
Proof.
  unfold get_tstamp. case_test; [done|]. destruct (list_find _ _) as [[? c]|]; [|done]. apply is_u_spec, Z.mod_pos_bound. lia.
Qed.

Lemma tap_to_raw_spec b a :
  bridge_ok b -> answers_ok a = true ->
  exists b' out, tap_to_raw b a = Some (b', out) /\ bridge_ok b' /\ b_controllen b' = b_controllen b /\
    omap sent_to_raw out = delivered (a_tap_in a) (a_read a) /\ omap sent_to_tap out = [].
Proof.
  intros Hb Ha. unfold answers_ok in Ha. bool_to_prop. unfold tap_to_raw, delivered.
  destruct (a_tap_in a); [|by exists b, []]. destruct (a_read a) as [ret data] eqn:Er.
  destruct (fill_ok b (ret, data)) as (G1 & G2 & G3); [done..|]. cbn [fst snd] in *. unfold BUF_LEN in *.
  destruct (Z.leb_spec ret 0) as [Hr|Hr].
  { eexists _, _. split; [done|]. by rewrite (proj2 (Z.ltb_ge _ _)). }
  rewrite (G3 Hr), (proj2 (Z.ltb_lt _ _)) by done. cbn [mbind option_bind].
  case_test; [by eexists _, _|].
  destruct (print_pkt_total (get_tstamp (a_errqueue a)) "tx" (fill (b_buf b) data) (a_sendto a)) as [line ->];
    [done|apply get_tstamp_u64|done|lia..|]. by eexists _, _.
Qed.

Lemma raw_to_tap_spec b a :
  bridge_ok b -> answers_ok a = true ->
  exists b' out, raw_to_tap b a = Some (b', out) /\ bridge_ok b' /\
    omap sent_to_raw out = [] /\ omap sent_to_tap out = delivered (a_raw_in a) (a_recvmsg a).
Proof.
  intros Hb Ha. unfold answers_ok in Ha. bool_to_prop. unfold raw_to_tap, delivered.
  destruct (a_raw_in a); [|by exists b, []]. destruct (a_recvmsg a) as [ret data] eqn:Er.
  destruct (a_control a (b_controllen b)) as [cms cl].
  destruct (fill_ok b (ret, data)) as (G1 & G2 & G3); [done..|]. cbn [fst snd] in *. unfold BUF_LEN in *.
  destruct (Z.leb_spec ret 0) as [Hr|Hr].
  { eexists _, _. split; [done|]. by rewrite (proj2 (Z.ltb_ge _ _)). }
  rewrite (G3 Hr), (proj2 (Z.ltb_lt _ _)) by done.
  assert (ret <= 2048) by (apply (stored_le (ret, data)); done).
  destruct (print_pkt_total (rx_tstamp 0 cms) "rx" (fill (b_buf b) data) ret) as [line ->];
    [done|by apply rx_tstamp_u64|done|lia..|]. cbn [mbind option_bind]. eexists _, _. split; [done|].
  split; [done|]. by destruct (a_write a <=? 0).
Qed.

Lemma bridge_loop_spec l : forall b,
  bridge_ok b -> forallb answers_ok l = true ->
  exists b' out, bridge_loop b l = Some (b', out) /\ bridge_ok b' /\
    omap sent_to_raw out = concat ((fun a => delivered (a_tap_in a) (a_read a)) <$> l) /\
    omap sent_to_tap out = concat ((fun a => delivered (a_raw_in a) (a_recvmsg a)) <$> l).
Proof.
  induction l as [|a l IH]; intros b Hb Hl; [by exists b, []|]. cbn [forallb] in Hl. apply andb_prop in Hl as [Ha Hl].
  destruct (tap_to_raw_spec b a Hb Ha) as (b1 & o1 & E1 & Hb1 & _ & R1 & T1).
  destruct (raw_to_tap_spec b1 a Hb1 Ha) as (b2 & o2 & E2 & Hb2 & R2 & T2).
  destruct (IH b2 Hb2 Hl) as (b3 & o3 & E3 & Hb3 & R3 & T3).
  exists b3, (o1 ++ o2 ++ o3). cbn [bridge_loop]. rewrite E1. cbn [mbind option_bind]. rewrite E2. cbn [mbind option_bind].
  rewrite E3. cbn [mbind option_bind fmap list_fmap concat]. rewrite !omap_app, R1, R2, R3, T1, T2, T3. by split_and!.
Qed.

(** ** Time stamps *)

(** The control data never exceeds its room, and there is no message in less than
    a [struct cmsghdr]. *)
Definition CMSGHDR_LEN : Z := 16.
Definition control_law (a : answers) : Prop :=
  forall room, 0 <= room -> 0 <= snd (a_control a room) <= room /\ (room < CMSGHDR_LEN -> fst (a_control a room) = []).

Lemma prefix_nil s : String.prefix EmptyString s = true.
Proof. by destruct s. Qed.

Lemma prefix_app p s t : String.prefix p s = true -> String.prefix p (s +:+ t) = true.
Proof.
  revert p. induction s as [|c s IH]; intros [|d p] Hp; try apply prefix_nil; [done|]. rewrite sapp_cons. cbn in *.
  destruct (ascii_dec d c); [|done]. by apply IH.
Qed.

Lemma prefix_substring p s n :
  (String.length p <= n)%nat -> String.prefix p s = true -> String.prefix p (String.substring 0 n s) = true.
Proof.
  revert s n. induction p as [|d p IH]; intros [|c s] [|n] Hn Hp; try apply prefix_nil; cbn [String.length] in *; try done; try lia.
  cbn in *. destruct (ascii_dec d c); [|done]. apply IH; [lia|done].
Qed.

Lemma prefix_cancel a x y : String.prefix (a +:+ x) (a +:+ y) = String.prefix x y.
Proof.
  induction a as [|c a IH]; [done|]. rewrite !sapp_cons. cbn. by destruct (ascii_dec c c).
Qed.

Lemma prefix_of_app p q s : String.prefix (p +:+ q) s = true -> String.prefix p s = true.
Proof.
  revert s. induction p as [|d p IH]; intros s; [intros; apply prefix_nil|]. rewrite sapp_cons. destruct s as [|c s]; [done|]. cbn.
  destruct (ascii_dec d c); [|done]. apply IH.
Qed.

(** The next step of a computation that succeeds. *)
Ltac bind_some :=
  lazymatch goal with |- (?m ≫= _) = Some _ -> _ => destruct m eqn:?; cbn [mbind option_bind]; [|done] end.

(** A line begins with its direction and its time stamp. *)
Lemma print_pkt_prefix prefix hwts pkt pktlen line :
  slen (prefix +:+ " TS=" +:+ dec hwts +:+ " ") <= 255 ->
  print_pkt hwts prefix pkt pktlen = Some line -> String.prefix (prefix +:+ " TS=" +:+ dec hwts +:+ " ") line = true.
Proof.
  intros Hl. unfold print_pkt. bind_some.
  set (out := snprintf_to 256 _). assert (Hout : String.prefix (prefix +:+ " TS=" +:+ dec hwts +:+ " ") out = true).
  { apply prefix_substring; [unfold slen in Hl; lia|]. by rewrite !prefix_cancel. }
  assert (Hcat : forall u b o, strncat 256 u b 256 = Some o -> String.prefix (prefix +:+ " TS=" +:+ dec hwts +:+ " ") u = true ->
    String.prefix (prefix +:+ " TS=" +:+ dec hwts +:+ " ") o = true).
  { intros u b o. unfold strncat. case_test; [|done]. intros [= <-]. by apply prefix_app. }
  case_test; [intros [= <-]; by apply prefix_app|]. do 2 bind_some.
  case_test; [intros [= <-]; eauto using prefix_app|]. do 5 bind_some. intros [= <-]. eauto using prefix_app.
Qed.

(** A step without room for control data prints a zero for what it received, and
    leaves no room. *)
Lemma raw_to_tap_unstamped b a b' out :
  control_law a -> 0 <= b_controllen b < CMSGHDR_LEN -> raw_to_tap b a = Some (b', out) ->
  0 <= b_controllen b' < CMSGHDR_LEN /\ forall t, Line t ∈ out -> String.prefix "rx TS=0 " t = true.
Proof.
  intros Hlaw Hroom. unfold raw_to_tap. destruct (a_raw_in a).
  2:{ intros [= <- <-]. split; [done|]. intros t Ht. by apply not_elem_of_nil in Ht. }
  destruct (a_recvmsg a) as [ret data]. destruct (Hlaw (b_controllen b)) as [Hle Hnone]; [lia|].
  destruct (a_control a (b_controllen b)) as [cms cl]. cbn [fst snd] in *. rewrite (Hnone (proj2 Hroom)). cbn [rx_tstamp].
  destruct (ret <=? 0).
  { intros [= <- <-]. split; [cbn; lia|]. intros t Ht. by apply list_elem_of_singleton in Ht. }
  destruct (print_pkt 0 "rx" _ ret) as [line|] eqn:El; cbn [mbind option_bind]; [|done].
  apply print_pkt_prefix in El; [|by vm_compute].
  destruct (frame_of _ ret) as [f|]; cbn [mbind option_bind]; [|done]. intros [= <- <-]. split; [cbn; lia|].
  intros t Ht. apply elem_of_cons in Ht as [[= ->]|Ht]; [exact El|]. apply elem_of_cons in Ht as [|Ht]; [done|].
  destruct (a_write a <=? 0); [by apply list_elem_of_singleton in Ht|by apply not_elem_of_nil in Ht].
Qed.

Lemma tap_to_raw_lines b a b' out :
  tap_to_raw b a = Some (b', out) -> b_controllen b' = b_controllen b /\
  forall t, Line t ∈ out -> String.prefix "tx TS=" t = true.
Proof.
  unfold tap_to_raw. destruct (a_tap_in a).
  2:{ intros [= <- <-]. split; [done|]. intros t Ht. by apply not_elem_of_nil in Ht. }
  destruct (a_read a) as [ret data]. destruct (ret <=? 0).
  { intros [= <- <-]. split; [done|]. intros t Ht. by apply list_elem_of_singleton in Ht. }
  bind_some. destruct (a_sendto a <=? 0).
  { intros [= <- <-]. split; [done|]. intros t Ht. rewrite !elem_of_cons in Ht. destruct Ht as [|[|Ht]]; try done.
    by apply not_elem_of_nil in Ht. }
  destruct (print_pkt (get_tstamp (a_errqueue a)) "tx" _ _) as [line|] eqn:El; cbn [mbind option_bind]; [|done].
  intros [= <- <-]. split; [done|]. intros t Ht. rewrite !elem_of_cons in Ht. destruct Ht as [|[[= ->]|Ht]]; [done| |by apply not_elem_of_nil in Ht].
  apply print_pkt_prefix in El.
  - rewrite sapp_assoc in El. by apply prefix_of_app in El.
  - pose proof (get_tstamp_u64 (a_errqueue a)) as Hu. apply is_u_spec in Hu.
    pose proof (slen_dec_le (get_tstamp (a_errqueue a)) 19 ltac:(cbn; lia)). rewrite !slen_app.
    change (slen "tx") with 2. change (slen " TS=") with 4. change (slen " ") with 1. lia.
Qed.

Lemma bridge_unstamped l : forall b b' out,
  Forall control_law l -> 0 <= b_controllen b < CMSGHDR_LEN -> bridge_loop b l = Some (b', out) ->
  forall t, Line t ∈ out -> String.prefix "tx TS=" t = true \/ String.prefix "rx TS=0 " t = true.
Proof.
  induction l as [|a l IH]; intros b b' out Hl Hroom; cbn [bridge_loop].
  { intros [= <- <-] t Ht. by apply not_elem_of_nil in Ht. }
  apply Forall_cons in Hl as [Ha Hl]. destruct (tap_to_raw b a) as [[b1 o1]|] eqn:E1; cbn [mbind option_bind]; [|done].
  destruct (raw_to_tap b1 a) as [[b2 o2]|] eqn:E2; cbn [mbind option_bind]; [|done].
  destruct (bridge_loop b2 l) as [[b3 o3]|] eqn:E3; cbn [mbind option_bind]; [|done]. intros [= <- <-] t Ht.
  apply tap_to_raw_lines in E1 as [Hc H1]. apply raw_to_tap_unstamped in E2 as [Hc2 H2]; [|done|lia].
  rewrite !elem_of_app in Ht. destruct Ht as [Ht|[Ht|Ht]]; [left; by apply H1|right; by apply H2|].
  by eapply (IH b2).
Qed.

(** ** Theorems *)

(** C40. The bridge forwards every frame it reads: whatever the system calls
    answer, as long as they store in the buffer what they say they did, the loop
    stays inside its buffers, and the frames handed to the interface and to the
    tap are the frames read from the other one, unchanged, once and in order. *)
Theorem bridge_forwards argc tap_fd raw_fd buf l :
  3 <= argc -> 0 <= tap_fd -> 0 <= raw_fd -> bytes_ok buf = true -> Z.of_nat (length buf) = BUF_LEN ->
  forallb answers_ok l = true ->
  exists b out, bridge_main argc tap_fd raw_fd buf l = Some (inr (b, out)) /\
    omap sent_to_raw out = concat ((fun a => delivered (a_tap_in a) (a_read a)) <$> l) /\
    omap sent_to_tap out = concat ((fun a => delivered (a_raw_in a) (a_recvmsg a)) <$> l).
Proof.
  intros Hc Ht Hr Hb Hl Ha. unfold bridge_main. rewrite !(proj2 (Z.ltb_ge _ _)) by done.
  destruct (bridge_loop_spec l (mk_bridge buf CTRL_LEN)) as (b & out & -> & _ & Hraw & Htap); [done..|]. by exists b, out.
Qed.

(** [msg_controllen] is set once and the kernel lowers it to what it stored:
    after a frame that came without control data no received frame is printed
    with its time stamp again, whatever the later ones carry. *)
Theorem bridge_loses_stamps b l a b1 o1 b' out :
  Forall control_law l -> a_raw_in a = true -> (forall room, snd (a_control a room) = 0) ->
  raw_to_tap b a = Some (b1, o1) -> bridge_loop b1 l = Some (b', out) ->
  forall t, Line t ∈ out -> String.prefix "tx TS=" t = true \/ String.prefix "rx TS=0 " t = true.
Proof.
  intros Hl Hin H0 Ha Hloop t Ht. eapply (bridge_unstamped l b1); try done. unfold raw_to_tap in Ha. rewrite Hin in Ha.
  destruct (a_recvmsg a) as [ret data]. specialize (H0 (b_controllen b)).
  destruct (a_control a (b_controllen b)) as [cms cl]. cbn [snd] in H0. subst cl. revert Ha.
  destruct (ret <=? 0); [by intros [= <- _]|]. do 2 bind_some. by intros [= <- _].
Qed.

(** ** Witnesses *)

Definition sample_frame_bytes (x : Z) : list Z := replicate 12 x ++ [8; 6] ++ replicate 46 x.

(** A kernel that delivers a time stamp of [t] seconds where there is room for it. *)
Definition stamped (t : Z) (room : Z) : list cmsg * Z :=
  if room <? 64 then ([], 0) else ([mk_cmsg SOL_SOCKET SO_TIMESTAMPING t 0], 64).

Definition both_ways (x y : Z) (control : Z -> list cmsg * Z) : answers :=
  mk_answers true (60, sample_frame_bytes x) 60 (0, [mk_cmsg SOL_SOCKET SO_TIMESTAMPING 5 1]) true
    (60, sample_frame_bytes y) control 60.

Lemma bridge_forwards_witness :
  exists b out, bridge_main 3 3 4 (replicate 2048 0) [both_ways 1 2 (stamped 7); both_ways 3 4 (stamped 8)] = Some (inr (b, out)) /\
    omap sent_to_raw out = [sample_frame_bytes 1; sample_frame_bytes 3] /\
    omap sent_to_tap out = [sample_frame_bytes 2; sample_frame_bytes 4].
Proof.
  apply (bridge_forwards 3 3 4 (replicate 2048 0) [both_ways 1 2 (stamped 7); both_ways 3 4 (stamped 8)]);
    [lia|lia|lia|vm_compute; reflexivity..].
Defined.

(** What the first of the two frames above is printed with, and the second after a
    frame without control data. *)
Lemma bridge_loses_stamps_witness :
  (exists b out, bridge_loop (mk_bridge (replicate 2048 0) CTRL_LEN) [both_ways 1 2 (stamped 7)] = Some (b, out) /\
     Line ("rx TS=7000000000 PKTLEN=60 ETHER_TYPE=0x0806 " +:+ line_end) ∈ out) /\
  exists b1 o1 b out, raw_to_tap (mk_bridge (replicate 2048 0) CTRL_LEN) (both_ways 1 2 (fun _ => ([], 0))) = Some (b1, o1) /\
    bridge_loop b1 [both_ways 3 4 (stamped 8)] = Some (b, out) /\
    forall t, Line t ∈ out -> String.prefix "tx TS=" t = true \/ String.prefix "rx TS=0 " t = true.
Proof.
  split.
  - eexists _, _. split; [vm_compute; reflexivity|]. rewrite !elem_of_cons. right; right; left; reflexivity.
  - eexists _, _, _, _. split; [vm_compute; reflexivity|]. split; [vm_compute; reflexivity|].
    eapply (bridge_loses_stamps (mk_bridge (replicate 2048 0) CTRL_LEN) [both_ways 3 4 (stamped 8)] (both_ways 1 2 (fun _ => ([], 0)))).
    + apply Forall_cons. split; [|by apply Forall_nil]. intros room Hr. cbn. unfold stamped, CMSGHDR_LEN.
      destruct (Z.ltb_spec room 64); cbn; split; lia || done.
    + reflexivity.
    + reflexivity.
    + vm_compute. reflexivity.
    + vm_compute. reflexivity.
Defined.
