(* ===== verification/TapTrial.v ===== *)
(** * The first trial program of the bridge

    Models [tap/tap_trial.c], which joins a tap device and an interface as [tap1.c] does but
    prints other lines. The buffer, the message header whose control length the kernel
    lowers, and the answers of the system calls are those of [Tap]. The socket options set
    up are kept as a list of calls. *)
From stdpp Require Import base list numbers strings.
From Stdlib Require Import ZArith Lia Ascii.
From S2P Require Import Prelude Cstring State Tools Tap.

Open Scope Z_scope.

(** ** Setting up the interface *)

Definition SO_BINDTODEVICE : Z := 25.
Definition SO_SELECT_ERR_QUEUE : Z := 45.
Definition SOF_TIMESTAMPING_TX_HARDWARE : Z := 1.
Definition SOF_TIMESTAMPING_RX_HARDWARE : Z := 4.
Definition SOF_TIMESTAMPING_RAW_HARDWARE : Z := 64.

(** A call that configures, with its result ignored but for a message. *)
Inductive setup :=
  | SetHwConfig (ifname : string) (tx_type rx_filter : Z)
  | SetOption (option value : Z)
  | BindToDevice (ifname : string)
  | SetupError (what : string).

(** [setsockopt(fd, SOL_SOCKET, option, &value, ...)] and the message if it fails. *)
Definition set_option (option value ret : Z) (what : string) : list setup :=
  SetOption option value :: if ret =? 0 then [] else [SetupError what].

(** [hwtstamp_config_set], the same text in both programs, from the results of [socket]
    and [ioctl]; copying a name that is too long for [ifr_name] is [None]. *)
Definition hwtstamp_config_set (ifname : string) (tx_type rx_filter sock ioctl_ret : Z)
  : option (Z * list setup) :=
  if sock <? 0 then Some (-1, [SetupError "socket"])
  else if slen ifname <? IFNAMSIZ then
    if ioctl_ret =? 0 then Some (0, [SetHwConfig ifname tx_type rx_filter])
    else Some (-1, [SetHwConfig ifname tx_type rx_filter; SetupError "ioctl"])
  else None.

(** The results of the calls of [raw_alloc]. *)
Record raw_answers := mk_raw_answers {
  r_ifindex : Z; r_errno : Z; r_fd : Z; r_bind : Z; r_hwsock : Z; r_hwioctl : Z;
  r_bindtodevice : Z; r_opts : nat -> Z }.

(** The value of an option after the calls: the last one set. *)
Fixpoint option_value (option : Z) (now : Z) (l : list setup) : Z :=
  match l with
  | [] => now
  | SetOption o v :: l' => option_value option (if o =? option then v else now) l'
  | _ :: l' => option_value option now l'
  end.

(** ** The program *)

(** [get_tstamp]; [err] is the text of [strerror(errno)]. *)
Definition get_tstamp (recv : Z * list cmsg) (err : string) : list action :=
  if fst recv <? 0 then [Line ("get_tstamp:recvmsg: " +:+ err +:+ line_end)]
  else Line ("recvmsg: success" +:+ line_end) ::
    match list_find (fun c => is_stamp c = true) (snd recv) with
    | Some (_, c) => [Line ("TX: " +:+ dec (stamp_of c) +:+ line_end)]
    | None => []
    end.

(** [raw_alloc]: the value returned and the calls made; the messages of its error returns
    are left out. *)
Definition raw_alloc (dev : string) (r : raw_answers) : option (Z * list setup) :=
  if r_ifindex r =? 0 then Some (r_errno r, [])
  else if r_fd r <? 0 then Some (r_fd r, [])
  else if r_bind r <? 0 then Some (r_errno r, [])
  else
    '(_, hw) ← hwtstamp_config_set dev 1 1 (r_hwsock r) (r_hwioctl r);
    let skopt := Z.lor (Z.lor SOF_TIMESTAMPING_TX_HARDWARE SOF_TIMESTAMPING_RX_HARDWARE) SOF_TIMESTAMPING_RAW_HARDWARE in
    Some (r_fd r, hw ++ set_option SO_TIMESTAMPING skopt (r_opts r 0%nat) "setsockopt for SO_TIMESTAMPING").

(** Six bytes as [%02x] with colons. *)
Definition ether_text (l : list Z) : string := String.concat ":" (hex_pad 2 <$> l).

(** tap -> raw. *)
Definition tap_to_raw (b : bridge) (a : answers) (err : string) : option (bridge * list action) :=
  if a_tap_in a then
    let '(ret, data) := a_read a in
    let buf := fill (b_buf b) data in
    let b' := mk_bridge buf (b_controllen b) in
    if ret <=? 0 then Some (b', [Perror "read from tap"])
    else
      dhost ← slice buf 0 6;
      shost ← slice buf 6 6;
      frame ← frame_of buf ret;
      let addrs := Line (ether_text shost +:+ "->" +:+ ether_text dhost +:+ line_end) in
      if a_sendto a <=? 0 then Some (b', [addrs; ToRaw frame; Perror "write to raw"])
      else Some (b', addrs :: ToRaw frame :: Line ("tap->raw " +:+ dec (a_sendto a) +:+ " byte" +:+ line_end)
                     :: get_tstamp (a_errqueue a) err)
  else Some (b, []).

(** Every time stamp among the control messages is printed. *)
Definition rx_stamps (cms : list cmsg) : list action :=
  (fun c => Line ("RX: " +:+ dec (stamp_of c) +:+ line_end)) <$> List.filter is_stamp cms.

(** raw -> tap. *)
Definition raw_to_tap (b : bridge) (a : answers) : option (bridge * list action) :=
  if a_raw_in a then
    let '(ret, data) := a_recvmsg a in
    let '(cms, controllen) := a_control a (b_controllen b) in
    let buf := fill (b_buf b) data in
    let b' := mk_bridge buf controllen in
    if ret <=? 0 then Some (b', [Perror "read from raw"])
    else
      frame ← frame_of buf ret;
      Some (b', rx_stamps cms ++ ToTap frame ::
        if a_write a <=? 0 then [Perror "write to tap"]
        else [Line ("raw->tap " +:+ dec (a_write a) +:+ " byte" +:+ line_end)])
  else Some (b, []).

(** The loop; each round has the answers and the text of an error. *)
Fixpoint trial_loop (b : bridge) (l : list (answers * string)) : option (bridge * list action) :=
  match l with
  | [] => Some (b, [])
  | (a, err) :: l' =>
      '(b1, o1) ← tap_to_raw b a err;
      '(b2, o2) ← raw_to_tap b1 a;
      '(b3, o3) ← trial_loop b2 l';
      Some (b3, o1 ++ o2 ++ o3)
  end.

(** [main]: its return value before the loop, or the state of the loop; [tap_fd] is what
    [tap_alloc], the text of [tap1.c], returned. *)
Definition trial_main (argc tap_fd : Z) (dev : string) (r : raw_answers) (buf : list Z) (l : list (answers * string))
  : option (Z + (bridge * list action)) :=
  if argc <? 3 then Some (inl (-1))
  else if tap_fd <? 0 then Some (inl tap_fd)
  else
    '(raw_fd, _) ← raw_alloc dev r;
    if raw_fd <? 0 then Some (inl raw_fd)
    else x ← trial_loop (mk_bridge buf CTRL_LEN) l; Some (inr x).

(** ** Forwarding as [tap1.c] does *)

(** A frame moved, with its direction. *)
Definition moved (o : action) : option (bool * list Z) :=
  match o with ToRaw f => Some (true, f) | ToTap f => Some (false, f) | _ => None end.

Lemma moved_get_tstamp recv err : omap moved (TapTrial.get_tstamp recv err) = [].
Proof. unfold TapTrial.get_tstamp. case_test; [done|]. by destruct (list_find _ _) as [[? ?]|]. Qed.

Lemma moved_lines {A} (f : A -> string) l : omap moved ((fun x => Line (f x)) <$> l) = [].
Proof. by induction l. Qed.

Lemma tap_trial_to_raw b a err b1 o :
  bridge_ok b -> answers_ok a = true -> Tap.tap_to_raw b a = Some (b1, o) ->
  exists o', TapTrial.tap_to_raw b a err = Some (b1, o') /\ omap moved o' = omap moved o.
Proof.
  intros Hb Ha. unfold answers_ok in Ha. bool_to_prop. unfold Tap.tap_to_raw, TapTrial.tap_to_raw.
  destruct (a_tap_in a); [|intros [= <- <-]; by exists []]. destruct (a_read a) as [ret data].
  destruct (fill_ok b (ret, data)) as (_ & G2 & _); [done..|]. cbn [fst snd] in *. unfold BUF_LEN in *.
  case_test; [intros [= <- <-]; by eexists|].
  destruct (slice_total (fill (b_buf b) data) 0 6) as [d ->]; [lia|].
  destruct (slice_total (fill (b_buf b) data) 6 6) as [s ->]; [lia|]. cbn [mbind option_bind].
  destruct (frame_of _ ret) as [f|]; cbn [mbind option_bind]; [|done].
  case_test; [intros [= <- <-]; by eexists|].
  destruct (print_pkt _ "tx" _ _) as [line|]; cbn [mbind option_bind]; [|done]. intros [= <- <-].
  eexists. split; [done|]. cbn. by rewrite moved_get_tstamp.
Qed.

Lemma tap_trial_to_tap b a b1 o :
  Tap.raw_to_tap b a = Some (b1, o) ->
  exists o', TapTrial.raw_to_tap b a = Some (b1, o') /\ omap moved o' = omap moved o.
Proof.
  unfold Tap.raw_to_tap, TapTrial.raw_to_tap. destruct (a_raw_in a); [|intros [= <- <-]; by exists []].
  destruct (a_recvmsg a) as [ret data]. destruct (a_control a (b_controllen b)) as [cms cl].
  case_test; [intros [= <- <-]; by eexists|].
  destruct (print_pkt _ "rx" _ _) as [line|]; cbn [mbind option_bind]; [|done].
  destruct (frame_of _ ret) as [f|]; cbn [mbind option_bind]; [|done]. intros [= <- <-].
  eexists. split; [done|]. unfold TapTrial.rx_stamps. rewrite omap_app, moved_lines. cbn. by case_test.
Qed.

(** ** Socket options *)

Lemma option_value_app o l1 l2 : forall now, option_value o now (l1 ++ l2) = option_value o (option_value o now l1) l2.
Proof. induction l1 as [|[] l1 IH]; intros now; cbn [app option_value]; auto. Qed.

Lemma option_value_set o p v ret what now : option_value o now (set_option p v ret what) = if p =? o then v else now.
Proof. unfold set_option. cbn. by destruct (ret =? 0). Qed.

Lemma hwtstamp_config_set_spec dev tx rx sock ret :
  match hwtstamp_config_set dev tx rx sock ret with
  | Some (_, hw) => forall o now, option_value o now hw = now
  | None => 0 <= sock /\ IFNAMSIZ <= slen dev
  end.
Proof.
  unfold hwtstamp_config_set. case_test; [done|]. destruct (Z.ltb_spec (slen dev) IFNAMSIZ); [by case_test|lia].
Qed.

Lemma tap_trial_loop l : forall b,
  bridge_ok b -> forallb answers_ok (fst <$> l) = true ->
  exists b' o o', bridge_loop b (fst <$> l) = Some (b', o) /\ trial_loop b l = Some (b', o') /\
    omap moved o' = omap moved o.
Proof.
  induction l as [|[a err] l IH]; intros b Hb Hl; [by exists b, [], []|]. cbn [fmap list_fmap fst forallb] in Hl.
  apply andb_prop in Hl as [Ha Hl].
  destruct (tap_to_raw_spec b a Hb Ha) as (b1 & o1 & E1 & Hb1 & _).
  destruct (tap_trial_to_raw b a err b1 o1 Hb Ha E1) as (p1 & F1 & M1).
  destruct (raw_to_tap_spec b1 a Hb1 Ha) as (b2 & o2 & E2 & Hb2 & _).
  destruct (tap_trial_to_tap b1 a b2 o2 E2) as (p2 & F2 & M2).
  destruct (IH b2 Hb2 Hl) as (b3 & o3 & p3 & E3 & F3 & M3).
  exists b3, (o1 ++ o2 ++ o3), (p1 ++ p2 ++ p3). cbn [fmap list_fmap fst bridge_loop trial_loop].
  rewrite E1, F1. cbn [mbind option_bind]. rewrite E2, F2. cbn [mbind option_bind].
  split_and!; [|by rewrite F3|by rewrite !omap_app, M1, M2, M3].
  change (list_fmap _ _ fst l) with (fst <$> l). by rewrite E3.
Qed.

(** ** Theorem *)

(** [tap_trial.c] and [tap1.c] are the same bridge: from the same buffer and with the
    same answers of the system calls both loops run without leaving their memory, end with
    the same buffer and the same room for control data, and hand the same frames to the
    interface and to the tap in the same order; only the printed lines differ. *)
Theorem tap_trial_like_tap1 argc tap_fd dev r buf l :
  3 <= argc -> 0 <= tap_fd -> (r_ifindex r = 0 \/ slen dev < IFNAMSIZ) -> 0 <= r_errno r -> 0 <= r_fd r ->
  bytes_ok buf = true -> Z.of_nat (length buf) = BUF_LEN -> forallb answers_ok (fst <$> l) = true ->
  exists b out out',
    bridge_main argc tap_fd (Tap.raw_alloc (r_ifindex r) (r_errno r) (r_fd r) (r_bind r)) buf (fst <$> l) = Some (inr (b, out)) /\
    trial_main argc tap_fd dev r buf l = Some (inr (b, out')) /\
    omap moved out' = omap moved out.
Proof.
  intros Hc Ht Hdev He Hf Hb Hl Ha. destruct (tap_trial_loop l (mk_bridge buf CTRL_LEN)) as (b & o & o' & E & E' & M); [done..|].
  exists b, o, o'. unfold bridge_main, trial_main. rewrite !(proj2 (Z.ltb_ge argc _)), !(proj2 (Z.ltb_ge tap_fd _)) by done.
  assert (exists calls, TapTrial.raw_alloc dev r = Some (Tap.raw_alloc (r_ifindex r) (r_errno r) (r_fd r) (r_bind r), calls)) as [calls ->].
  { unfold TapTrial.raw_alloc, Tap.raw_alloc. destruct (Z.eqb_spec (r_ifindex r) 0) as [|Hi]; [by eexists|].
    case_test; [by eexists|]. case_test; [by eexists|].
    pose proof (hwtstamp_config_set_spec dev 1 1 (r_hwsock r) (r_hwioctl r)) as Hhw.
    destruct (hwtstamp_config_set _ _ _ _ _) as [[? hw]|]; [by eexists|]. lia. }
  assert (0 <= Tap.raw_alloc (r_ifindex r) (r_errno r) (r_fd r) (r_bind r)) by (unfold Tap.raw_alloc; repeat case_test; lia).
  cbn [mbind option_bind]. rewrite !(proj2 (Z.ltb_ge (Tap.raw_alloc _ _ _ _) 0)) by done. by rewrite E, E'.
Qed.

(** ** Witness *)

Definition sample_raw : raw_answers := mk_raw_answers 2 19 4 0 5 0 0 (fun _ => 0).

Lemma tap_trial_like_tap1_witness :
  exists b out out',
    bridge_main 3 3 4 (replicate 2048 0) [both_ways 1 2 (stamped 7); both_ways 3 4 (stamped 8)] = Some (inr (b, out)) /\
    trial_main 3 3 "eth0" sample_raw (replicate 2048 0) [(both_ways 1 2 (stamped 7), EmptyString); (both_ways 3 4 (stamped 8), EmptyString)]
      = Some (inr (b, out')) /\
    omap moved out' = omap moved out.
Proof.
  apply (tap_trial_like_tap1 3 3 "eth0" sample_raw (replicate 2048 0)
    [(both_ways 1 2 (stamped 7), EmptyString); (both_ways 3 4 (stamped 8), EmptyString)]);
    [lia|lia|right; vm_compute; reflexivity|vm_compute; discriminate..|vm_compute; reflexivity|vm_compute; reflexivity|vm_compute; reflexivity].
Defined.
