(* ===== verification/TunTrial.v ===== *)
(** * The second trial program of the bridge

    Models [tap/tun_trial.c], which passes IPv4 packets between a tun device and a raw
    socket. The buffer and the message header are those of [Tap], the set-up of the time
    stamps that of [TapTrial]. *)
From stdpp Require Import base list numbers strings.
From Stdlib Require Import ZArith Lia Ascii.
From S2P Require Import Prelude Cstring State Tools Tap TapTrial.

Open Scope Z_scope.

(** ** The program *)

(** A control message with the first [struct timespec] of its data, where the software
    time stamp is, and the third, where the hardware one is. *)
Record scm := mk_scm { s_level : Z; s_type : Z; s_sw_sec : Z; s_sw_nsec : Z; s_hw_sec : Z; s_hw_nsec : Z }.

Definition is_stamp (c : scm) : bool := (s_level c =? SOL_SOCKET) && (s_type c =? SO_TIMESTAMPING).

(** [tstmp->tv_sec * 1000000000 + tstmp->tv_nsec], as [%lu]: of the first one. *)
Definition stamp_line (c : scm) : string := dec (u64 (s_sw_sec c * 1000000000 + s_sw_nsec c)) +:+ line_end.

(** One round as the system calls answer it. *)
Record answers := mk_answers {
  a_tap_in : bool;
  a_read : Z * list Z;
  a_sendto : Z;
  a_errqueue : Z * list scm;
  a_strerror : string;
  a_raw_in : bool;
  a_recvmsg : Z * list Z;
  a_control : Z -> list scm * Z;
  a_write : Z }.

(** What the program does: packets handed to the kernel, those for the interface with
    their destination. *)
Inductive action :=
  | SendTo (dst packet : list Z)
  | ToTap (packet : list Z)
  | Line (text : string)
  | Perror (what : string).

Definition get_tstamp (recv : Z * list scm) (err : string) : list action :=
  if fst recv <? 1 then [Line ("recvmsg: " +:+ err +:+ line_end)]
  else Line ("recvmsg: success" +:+ line_end) ::
    match list_find (fun c => is_stamp c = true) (snd recv) with
    | Some (_, c) => [Line (stamp_line c)]
    | None => []
    end.

Definition raw_alloc (dev : string) (r : raw_answers) : option (Z * list setup) :=
  if r_fd r <? 0 then Some (r_fd r, [SetupError "socket SOCK_RAW"])
  else
    let bound := BindToDevice dev ::
      if r_bindtodevice r =? 0 then [] else [SetupError "setsockopt for SO_BINDTODEVICe"] in
    '(_, hw) ← hwtstamp_config_set dev 1 1 (r_hwsock r) (r_hwioctl r);
    let txskopt := Z.lor SOF_TIMESTAMPING_TX_HARDWARE SOF_TIMESTAMPING_RAW_HARDWARE in
    let rxskopt := Z.lor SOF_TIMESTAMPING_RX_HARDWARE SOF_TIMESTAMPING_RAW_HARDWARE in
    Some (r_fd r, bound ++ hw ++
      set_option SO_TIMESTAMPING txskopt (r_opts r 0%nat) "setsockopt for SO_TIMESTAMPING" ++
      set_option SO_SELECT_ERR_QUEUE txskopt (r_opts r 1%nat) "setsockopt for SO_SELECT_ERR_QUEUE" ++
      set_option SO_TIMESTAMPING rxskopt (r_opts r 2%nat) "setsockopt for SO_TIMESTAMPING" ++
      set_option SO_SELECT_ERR_QUEUE rxskopt (r_opts r 3%nat) "setsockopt for SO_SELECT_ERR_QUEUE").

(** [inet_ntoa] of the four bytes of an address. *)
Definition inet_ntoa (l : list Z) : string := String.concat "." (dec <$> l).

(** tap -> raw; the flag says that the round ends here ([continue]). *)
Definition tap_to_raw (b : bridge) (a : answers) : option (bridge * list action * bool) :=
  if a_tap_in a then
    let '(ret, data) := a_read a in
    let buf := fill (b_buf b) data in
    let b' := mk_bridge buf (b_controllen b) in
    if ret <=? 0 then Some (b', [Perror "read from tap"], false)
    else
      v ← buf !! 0%nat;
      if negb (Z.shiftr v 4 =? 4) then Some (b', [Line ("tap->raw not ipv4 packet" +:+ line_end)], true)
      else
        src ← slice buf 12 4;
        dst ← slice buf 16 4;
        packet ← frame_of buf ret;
        let shown := [Line ("tap->raw" +:+ line_end); Line ("src: " +:+ inet_ntoa src +:+ line_end);
                      Line ("dst: " +:+ inet_ntoa dst +:+ line_end); SendTo dst packet] in
        if a_sendto a <=? 0 then Some (b', shown ++ [Perror "write to raw"], false)
        else Some (b', shown ++ Line ("tap->raw " +:+ dec (a_sendto a) +:+ " byte" +:+ line_end)
                         :: get_tstamp (a_errqueue a) (a_strerror a), false)
  else Some (b, [], false).

(** raw -> tap. *)
Definition raw_to_tap (b : bridge) (a : answers) : option (bridge * list action) :=
  if a_raw_in a then
    let '(ret, data) := a_recvmsg a in
    let '(cms, controllen) := a_control a (b_controllen b) in
    let buf := fill (b_buf b) data in
    let b' := mk_bridge buf controllen in
    if ret <=? 0 then Some (b', [Perror "read from raw"])
    else
      packet ← frame_of buf ret;
      Some (b', ((fun c => Line (stamp_line c)) <$> List.filter is_stamp cms) ++ ToTap packet ::
        if a_write a <=? 0 then [Perror "write to tap"]
        else [Line ("raw->tap " +:+ dec (a_write a) +:+ " byte" +:+ line_end)])
  else Some (b, []).

Fixpoint tun_loop (b : bridge) (l : list answers) : option (bridge * list action) :=
  match l with
  | [] => Some (b, [])
  | a :: l' =>
      '(b1, o1, next) ← tap_to_raw b a;
      '(b2, o2) ← if next : bool then Some (b1, []) else raw_to_tap b1 a;
      '(b3, o3) ← tun_loop b2 l';
      Some (b3, o1 ++ o2 ++ o3)
  end.

Definition tun_main (argc tap_fd : Z) (dev : string) (r : raw_answers) (buf : list Z) (l : list answers)
  : option (Z + (bridge * list action)) :=
  if argc <? 3 then Some (inl (-1))
  else if tap_fd <? 0 then Some (inl tap_fd)
  else
    '(raw_fd, _) ← raw_alloc dev r;
    if raw_fd <? 0 then Some (inl raw_fd)
    else x ← tun_loop (mk_bridge buf CTRL_LEN) l; Some (inr x).

(** ** Forwarding *)

Definition is_ipv4 (p : list Z) : bool := match p with v :: _ => Z.shiftr v 4 =? 4 | [] => false end.

(** The calls store what they say they did, and a packet read has an IP header. *)
Definition tun_answers_ok (a : answers) : bool :=
  stored_ok (a_read a) && stored_ok (a_recvmsg a) &&
  ((fst (a_read a) <=? 0) || (20 <=? fst (a_read a))).

(** The packet read in a round and the one received. *)
Definition tun_read (a : answers) : list (list Z) := delivered (a_tap_in a) (a_read a).
Definition tun_received (a : answers) : list (list Z) := delivered (a_raw_in a) (a_recvmsg a).

Definition tun_sent (o : action) : option (list Z * list Z) :=
  match o with SendTo d p => Some (d, p) | _ => None end.
Definition tun_taken (o : action) : option (list Z) :=
  match o with ToTap p => Some p | _ => None end.

(** What a round should move. *)
Definition tun_sends (a : answers) : list (list Z * list Z) :=
  (fun p => (take 4 (drop 16 p), p)) <$> List.filter is_ipv4 (tun_read a).
Definition tun_skips (a : answers) : bool := existsb (fun p => negb (is_ipv4 p)) (tun_read a).
Definition tun_takes (a : answers) : list (list Z) := if tun_skips a then [] else tun_received a.

Lemma tun_get_tstamp_silent recv err :
  omap tun_sent (get_tstamp recv err) = [] /\ omap tun_taken (get_tstamp recv err) = [].
Proof. unfold get_tstamp. case_test; [done|]. by destruct (list_find _ _) as [[? ?]|]. Qed.

Lemma tun_lines_silent {A} (f : A -> string) l :
  omap tun_sent ((fun x => Line (f x)) <$> l) = [] /\ omap tun_taken ((fun x => Line (f x)) <$> l) = [].
Proof. by induction l. Qed.

(** The start of a packet in the buffer. *)
Lemma slice_fill buf data i n : (i + n <= length data)%nat -> slice (fill buf data) i n = Some (take n (drop i data)).
Proof.
  intros Hl. apply slice_Some. unfold fill. rewrite length_app. split; [lia|].
  rewrite drop_app_le, take_app_le; [done|rewrite length_drop; lia|lia].
Qed.

Lemma tun_to_raw_spec b a :
  bridge_ok b -> tun_answers_ok a = true ->
  exists b' out, tap_to_raw b a = Some (b', out, tun_skips a) /\ bridge_ok b' /\
    omap tun_sent out = tun_sends a /\ omap tun_taken out = [].
Proof.
  intros Hb Ha. unfold tun_answers_ok in Ha. apply andb_prop in Ha as [Ha Hlen]. apply andb_prop in Ha as [Ha _].
  unfold tap_to_raw, tun_skips, tun_sends, tun_read, delivered.
  destruct (a_tap_in a); [|by exists b, []]. destruct (a_read a) as [ret data].
  destruct (fill_ok b (ret, data)) as (G1 & G2 & G3); [done..|]. cbn [fst snd andb] in *. unfold BUF_LEN in *.
  destruct (Z.leb_spec ret 0) as [Hr|Hr].
  { eexists _, _. rewrite (proj2 (Z.ltb_ge 0 ret)) by done. by split_and!. }
  rewrite (proj2 (Z.ltb_lt 0 ret)) by done. cbn [orb] in Hlen. apply Z.leb_le in Hlen.
  assert (Hd : Z.of_nat (length data) = ret).
  { unfold stored_ok in Ha. apply andb_prop in Ha as [_ Ha]. cbn [fst snd] in Ha. destruct (orb_prop _ _ Ha); bool_to_prop; lia. }
  rewrite (G3 Hr), !slice_fill by lia. destruct data as [|v data]; [cbn in Hd; lia|].
  change (fill (b_buf b) (v :: data) !! 0%nat) with (Some v). cbn [mbind option_bind List.filter existsb is_ipv4].
  destruct (Z.shiftr v 4 =? 4); cbn [negb orb]; [|by eexists _, _].
  case_test; eexists _, _; (split; [done|]); [by split_and!|].
  destruct (tun_get_tstamp_silent (a_errqueue a) (a_strerror a)) as [S1 S2].
  split; [done|]. rewrite !omap_app. cbn. by rewrite S1, S2.
Qed.

Lemma tun_to_tap_spec b a :
  bridge_ok b -> tun_answers_ok a = true ->
  exists b' out, raw_to_tap b a = Some (b', out) /\ bridge_ok b' /\
    omap tun_sent out = [] /\ omap tun_taken out = tun_received a.
Proof.
  intros Hb Ha. unfold tun_answers_ok in Ha. apply andb_prop in Ha as [Ha _]. apply andb_prop in Ha as [_ Ha].
  unfold raw_to_tap, tun_received, delivered.
  destruct (a_raw_in a); [|by exists b, []]. destruct (a_recvmsg a) as [ret data].
  destruct (a_control a (b_controllen b)) as [cms cl].
  destruct (fill_ok b (ret, data)) as (G1 & G2 & G3); [done..|]. cbn [fst snd andb] in *. unfold BUF_LEN in *.
  destruct (Z.leb_spec ret 0) as [Hr|Hr].
  { eexists _, _. split; [done|]. by rewrite (proj2 (Z.ltb_ge 0 ret)). }
  rewrite (G3 Hr), (proj2 (Z.ltb_lt _ _)) by done. cbn [mbind option_bind]. eexists _, _. split; [done|]. split; [done|].
  destruct (tun_lines_silent stamp_line (List.filter is_stamp cms)) as [S1 S2].
  rewrite !omap_app, S1, S2. by case_test.
Qed.

Lemma tun_loop_spec l : forall b,
  bridge_ok b -> forallb tun_answers_ok l = true ->
  exists b' out, tun_loop b l = Some (b', out) /\ bridge_ok b' /\
    omap tun_sent out = concat (tun_sends <$> l) /\ omap tun_taken out = concat (tun_takes <$> l).
Proof.
  induction l as [|a l IH]; intros b Hb Hl; [by exists b, []|]. cbn [forallb] in Hl. apply andb_prop in Hl as [Ha Hl].
  destruct (tun_to_raw_spec b a Hb Ha) as (b1 & o1 & E1 & Hb1 & R1 & T1).
  assert (exists b2 o2, (if tun_skips a then Some (b1, []) else raw_to_tap b1 a) = Some (b2, o2) /\ bridge_ok b2 /\
    omap tun_sent o2 = [] /\ omap tun_taken o2 = tun_takes a) as (b2 & o2 & E2 & Hb2 & R2 & T2).
  { unfold tun_takes. destruct (tun_skips a); [by exists b1, []|]. by apply tun_to_tap_spec. }
  destruct (IH b2 Hb2 Hl) as (b3 & o3 & E3 & Hb3 & R3 & T3).
  exists b3, (o1 ++ o2 ++ o3). cbn [tun_loop]. rewrite E1. cbn [mbind option_bind]. rewrite E2. cbn [mbind option_bind].
  rewrite E3. cbn [mbind option_bind fmap list_fmap concat]. rewrite !omap_app, R1, R2, R3, T1, T2, T3. by split_and!.
Qed.

(** ** Theorems *)

(** [tun_trial.c] sends exactly the IPv4 packets read from the tun device, each whole,
    in order, and to the destination in its header. What it receives goes to the tun
    device in order too, except in the rounds whose packet from the tun device is of another
    version: those end before the raw socket is read. *)
Theorem tun_forwards argc tap_fd dev r buf l :
  3 <= argc -> 0 <= tap_fd -> slen dev < IFNAMSIZ -> 0 <= r_fd r ->
  bytes_ok buf = true -> Z.of_nat (length buf) = BUF_LEN -> forallb tun_answers_ok l = true ->
  exists b out, tun_main argc tap_fd dev r buf l = Some (inr (b, out)) /\
    omap tun_sent out = concat (tun_sends <$> l) /\ omap tun_taken out = concat (tun_takes <$> l).
Proof.
  intros Hc Ht Hdev Hf Hb Hl Ha. destruct (tun_loop_spec l (mk_bridge buf CTRL_LEN)) as (b & o & E & _ & S & T); [done..|].
  exists b, o. unfold tun_main, raw_alloc.
  rewrite !(proj2 (Z.ltb_ge argc _)), !(proj2 (Z.ltb_ge tap_fd _)), !(proj2 (Z.ltb_ge (r_fd r) _)) by done.
  pose proof (hwtstamp_config_set_spec dev 1 1 (r_hwsock r) (r_hwioctl r)) as Hhw.
  destruct (hwtstamp_config_set _ _ _ _ _) as [[? hw]|]; [|lia]. cbn [mbind option_bind].
  rewrite (proj2 (Z.ltb_ge (r_fd r) _)) by done. by rewrite E.
Qed.

(** The two set-ups. [tap_trial.c] asks for time stamps of both directions. [tun_trial.c]
    sets the option twice, so that only received packets get one, and copies the name
    of the interface before anything has limited its length: exactly the names of sixteen
    characters and more leave [ifr_name]. *)
Theorem trial_setups dev r :
  0 <= r_fd r ->
  (r_ifindex r <> 0 -> 0 <= r_bind r -> slen dev < IFNAMSIZ ->
   exists calls, TapTrial.raw_alloc dev r = Some (r_fd r, calls) /\
     option_value SO_TIMESTAMPING 0 calls = Z.lor (Z.lor SOF_TIMESTAMPING_TX_HARDWARE SOF_TIMESTAMPING_RX_HARDWARE) SOF_TIMESTAMPING_RAW_HARDWARE) /\
  (raw_alloc dev r = None <-> 0 <= r_hwsock r /\ IFNAMSIZ <= slen dev) /\
  (forall ret calls, raw_alloc dev r = Some (ret, calls) ->
     ret = r_fd r /\ Z.land (option_value SO_TIMESTAMPING 0 calls) SOF_TIMESTAMPING_TX_HARDWARE = 0).
Proof.
  intros Hf. unfold TapTrial.raw_alloc, raw_alloc. rewrite !(proj2 (Z.ltb_ge (r_fd r) _)) by done.
  pose proof (hwtstamp_config_set_spec dev 1 1 (r_hwsock r) (r_hwioctl r)) as Hhw. split_and!.
  - intros Hi Hb Hd. rewrite (proj2 (Z.eqb_neq _ _)), (proj2 (Z.ltb_ge (r_bind r) _)) by done.
    destruct (hwtstamp_config_set _ _ _ _ _) as [[? hw]|]; [|lia]. cbn [mbind option_bind]. eexists. split; [done|].
    by rewrite option_value_app, option_value_set.
  - split.
    + intros Hn. destruct (hwtstamp_config_set _ _ _ _ _) as [[? hw]|]; [done|exact Hhw].
    + intros [Hs Hd]. unfold hwtstamp_config_set. by rewrite (proj2 (Z.ltb_ge (r_hwsock r) _)), (proj2 (Z.ltb_ge (slen dev) _)) by done.
  - intros ret calls. destruct (hwtstamp_config_set _ _ _ _ _) as [[? hw]|]; [|done]. cbn [mbind option_bind].
    intros [Er Ec]%(inj Some)%pair_equal_spec. rewrite <- Ec. split; [done|]. by rewrite !option_value_app, !option_value_set.
Qed.

(** ** Witness *)

Definition tun_packet (v x : Z) : list Z := v :: replicate 15 0 ++ [10; 0; 0; x] ++ replicate 20 x.

Definition tun_round (v x y : Z) : answers :=
  mk_answers true (40, tun_packet v x) 40 (1, []) EmptyString true (40, tun_packet 0x45 y) (fun _ => ([], 0)) 40.

Lemma tun_forwards_witness :
  exists b out, tun_main 3 3 "eth0" sample_raw (replicate 2048 0) [tun_round 0x45 1 2; tun_round 0x60 3 4; tun_round 0x45 5 6] = Some (inr (b, out)) /\
    omap tun_sent out = [([10; 0; 0; 1], tun_packet 0x45 1); ([10; 0; 0; 5], tun_packet 0x45 5)] /\
    omap tun_taken out = [tun_packet 0x45 2; tun_packet 0x45 6].
Proof.
  apply (tun_forwards 3 3 "eth0" sample_raw (replicate 2048 0) [tun_round 0x45 1 2; tun_round 0x60 3 4; tun_round 0x45 5 6]);
    [lia|lia|vm_compute; reflexivity|vm_compute; discriminate|vm_compute; reflexivity..].
Defined.
